(* ===== verification/_CoqProject ===== *)
-Q . S2P
Prelude.v
Meta.v
Device.v
DeviceOpen.v
World.v
SuperBlock.v
Resources.v
Paths.v
FileBlock.v
Inode.v
Directory.v
FileHandle.v
File.v
OpenFile.v
FileHandleOps.v
DirHandle.v
FileSystem.v
Fuse.v
ConfigParser.v
Logging.v
ConfigLoad.v
ConstexprMath.v
Tool.v
Doubles.v
TokenBucket.v
Io.v
Frames.v
Invariant.v
MetaSteps.v
Views.v
Content.v
FileGrow.v
FileIO.v
FileShrink.v
Truncate.v
DirSteps.v
Names.v
DirOps.v
FileNames.v
FileEntries.v
Unlink.v
OpenFiles.v
Session.v
Rename.v
DirRename.v
ConfigLemmas.v
Load.v
RecoverDirs.v
RecoverFiles.v
RecoverBlocks.v
Recover.v
RecoverInv.v
AtRest.v
DiskState.v
Durable.v
DurableOps.v
DurableGrow.v
Restart.v
Format.v
Scenario.v
DataTheorems.v
Listing.v
Refinement.v
DirRefinement.v
DeviceTheorems.v
MountTheorems.v
NameTheorems.v
SessionTheorems.v
FuseSession.v
FuseTheorems.v
ListingTheorems.v
LockTheorems.v
OpenTheorems.v
RecoverTheorems.v
DurableDirs.v
DurableTheorems.v
ConfigTheorems.v
ResourceTheorems.v
ToolTheorems.v
TokenBucketTheorems.v
