(* ===== verification/Prelude.v ===== *)
(** * blockfs: a verification library

    blockfs is a user-space file system on a raw block device.  This library
    models its core, the C++ under src/lib and the integer helpers and the tool
    next to it, as executable functions, and proves what they do.

    ** The program and its parts

    - The device (src/lib/device.cc) moves bytes with [pread] and [pwrite] loops
      that survive interrupted and short calls.  Its first part holds the super
      block and three areas of packed records, one per directory, file and file
      block (src/lib/meta_defines.h, super_block.cc); the rest are data blocks
      of 4 MiB.
    - A mount reads these areas into memory (shm_manager.cc, file_system.cc) and
      every handle rebuilds its maps from its records: [BlockHandle] (the pool
      of free blocks), [DirHandle], [FileHandle], [FileBlockHandle].
    - Objects of [Directory], [File], [FileBlock] (directory.cc, file.cc,
      file_block.cc) point to a record; an operation changes the record in memory
      and writes its page or record back ([WriteMeta]).
    - Descriptors come from [FdHandle] (fd_handle.h) and lead to [OpenFile]
      objects; reads and writes are cut into pieces, one per data block.
    - The FUSE handlers (bfs_fuse.cc) call the facade [FileSystem] and turn
      results into negated errno values.
    - The configuration (config_parser.cc, config_load.cc), the logger
      (logging.cc), the token bucket (token_bucket.h) with its integer functions
      (constexpr_math.h) and the command line tools (block_fs_tool.cc,
      block_fs_extract_device.cc, block_fs_mount.cc) are independent of each
      other.

    ** The model

    A C++ operation is a [prog world A]: it maps the state of the process to a
    value and a new state, or to a [crash] (a failed assertion, a null or dangling
    pointer, an index out of bounds).  Errors that the code reports are values.  [wp m Q w]
    says that [m] does not crash from [w] and ends with [Q]; every theorem about
    an operation of the file system is of this form, so it includes that the
    operation returns.  The world (World.v) has the metadata areas, the device,
    the handles, and a heap of objects with identities, so that an object that is
    shared is shared in the model.  Machine integers are [Z] with the wrap-around
    written out ([u32], [u64], [i32]) where the code converts.

    What the code takes from outside is a parameter: [Env] has the checksum
    (zlib's, only its range is known), the iteration order of the unordered
    containers (some permutation), the memory behind a string's end, and the
    user's ids; spdlog has a state and answers of its own ([spdlog_call]); a device carries the answers that the kernel will give to its
    system calls, full, short or failed ([sys_event]).

    Files of the model and what they model:
    - Meta: meta_defines.h; Device: the transfers of device.cc; DeviceOpen:
      opening and closing a device, and the search of file_system.cc for the
      device with a configured uuid; World: the state of all classes;
      SuperBlock: super_block.cc; Resources: fd_handle.h, block_handle.cc;
      Paths: the path functions of dir_handle.cc and file_handle.cc;
      FileBlock: file_block.cc, file_block_handle.cc; Inode: inode.h;
      Directory: directory.cc; FileHandle, FileHandleOps: file_handle.cc;
      File, OpenFile: file.cc; DirHandle: dir_handle.cc;
      FileSystem: file_system.cc and the loading of shm_manager.cc;
      Fuse: bfs_fuse.cc.
    - ConfigParser, ConfigLoad: config_parser.cc, config_load.cc; Logging:
      logging.cc; ConstexprMath, Doubles: constexpr_math.h, the second its casts
      from floating-point numbers; TokenBucket: token_bucket.h,
      whose operations are trees of accesses to one atomic, so that threads
      interleave; Tool: block_fs_tool.cc, block_fs_extract_device.cc and the start
      of block_fs_mount.cc.
    A definition has the name of its function, with the class in front where
    two classes use it ([File_WriteMeta], [Directory_WriteMeta]).

    ** The proofs

    - Io, MetaSteps, DirSteps: what device transfers and record write-backs do.
    - Frames: what a program cannot change, by rules that follow its text.
    - Invariant: views of the world, and [fs_inv], the consistency of blocks,
      file blocks, records and files (no block belongs to two files or is also
      free).  Views, Content: lemmas on views and on the bytes of files.
    - FileGrow, FileIO, FileShrink, Truncate: growing, reading, writing and
      shrinking a file.
    - Names, DirOps, FileNames, FileEntries, Unlink, Rename, DirRename:
      [dir_tree] and [file_tree], the maps and the tree of directories, and the
      operations by path.
    - OpenFiles: [open_ok], the table of descriptors; [sys_ok] is all of the
      invariant.  Session: the abstract file system that clients see.
      Refinement: each call on files refines it; DirRefinement: the calls on
      directories and names, growing by truncate, and sequences of calls.
      Listing: directory streams.  FuseSession: the requests of a FUSE client,
      the handler that serves each, and what it may answer.
    - Load: reading the metadata areas of a device back into memory.
      Format: what a formatted device holds, and the mount of it.
      RecoverDirs, RecoverFiles, RecoverBlocks: what each handle rebuilds from
      the records of a device in use; Recover: the whole of [InitializeMeta] on
      it; RecoverInv: the rebuilt process is consistent and has the same tree,
      names and contents; AtRest: a device that holds what memory holds.
    - DiskState, Durable: worlds whose metadata is on the device, and the rules
      that keep them so; DurableOps, DurableGrow, DurableDirs: every call keeps
      them so.  Restart: what such a world leaves to the next process.
    - Scenario: a small mounted file system for the witnesses.

    ** The theorems

    - SessionTheorems: sequences of client calls (on files, directories and
      names) refine the abstract file system; [open] without a free descriptor.  A
      sequence is covered when the device has at most 100000 blocks, there are
      enough free descriptors, its arguments are in range and, in each state that it
      can reach, a truncate does not shrink, a renamed directory has no
      sub-directories and a free place outside itself to go to, and a new file name
      is one ([call_fits], [calls_fit]); shrinking and the other operations have
      theorems of their own.  The clock may show any time between two calls.
    - FuseTheorems: in the same scope, sequences of FUSE requests are answered as the abstract file
      system allows; a rename onto a file is reported as done and does nothing;
      [bfs_copy_file_range] leaves everything to the kernel.
    - DataTheorems: contents of files under [pwrite], [pread] and [truncate].
    - NameTheorems, MountTheorems: making, removing and renaming files and
      directories; a format is mounted as the empty file system; layouts.
    - RecoverTheorems: mounting a device again gives the file system that was
      written to it.  DurableTheorems: in the scope of SessionTheorems, no restart
      between calls loses anything.
    - OpenTheorems: the search for a device finds the one with the uuid, and
      which descriptors it leaves open.
    - ListingTheorems, LockTheorems, ResourceTheorems: listing a directory ends
      and is complete; locks exclude each other; descriptors and blocks are
      neither shared nor lost; the parts of paths.
    - DeviceTheorems: transfers stay in bounds and leave a prefix; a write-back that reports success is on the device.
    - ConfigTheorems, ToolTheorems, Logging, ConstexprMath, Doubles: round trips
      and error cases of the configuration, the export and the extraction of a
      device range, the building of log lines, clamped arithmetic and bit scans,
      casts that clamp.
    - TokenBucketTheorems: calls on a bucket are linearizable, but draining races
      with borrowing; borrowing ends; nothing is given before the debt is paid.
    The theorems on contents, names, directories and records hold whatever the
    device answers; what an operation achieves is stated for a device that does
    not fail ([dev_good]: calls are at most interrupted or short).

    ** Bounds and fuel

    Loops over lists are structural.  A loop with fuel has a lemma that the fuel
    is enough: [fill_fuel] (a range of [size] bytes touches at most size / 4 MiB
    + 2 blocks, [fill_fuel_ok]), [copy_fuel] (one round per 4 MiB, [CopyData_wp]),
    [readdir_loop] (one round per entry and one more, [readdir_loop_run]),
    [export_loop] ([export_exact]), [extract_loop] ([extract_exact]), [borrow_loop]
    (two rounds, [borrow_returns]).  A transfer ends because every pending answer of
    the kernel is used at most once and the default answer is full.  The exchange
    loops of the token bucket end after as many attempts as fail ([consume_loop],
    [return_loop]); what threads see of each other is proved for any fuel.

    ** Not modelled

    - Mutexes and threads (those that share a token bucket apart): operations run
      one after the other, as under the handles' locks; the shared memory segment is
      the metadata areas themselves.  The clock stands still within an operation and
      moves between two ([CTick], [RTick]).
    - The creation of directories in the host's file system.  The kernel's
      answers to stat, open, ioctl and the listing of /sys/block are parameters
      ([Kernel]).
    - Log output and the clock behind it, the inside of spdlog, the dumps and the
      signal handlers; the accessors of the configuration for floating-point numbers
      and the functions of constexpr_math.h over them, but the casts.
    - The FUSE event loop and its options; the handlers under
      BFS_USE_READ_WRITE_BUFFER, which is not defined; [copy_file_range] itself,
      which is the kernel's.
    - Of block_fs_mount the log file and [daemonize], which nothing calls; the
      test programs, which only issue system calls. *)

From stdpp Require Export base gmap list list_numbers numbers strings fin_maps fin_sets.
From Stdlib Require Export ZArith Lia.

#[global] Open Scope Z_scope.

(** ** Prelude: notations of the development *)

Declare Scope bfs_scope.
Delimit Scope bfs_scope with bfs.
#[global] Open Scope bfs_scope.

(** Bytes are integers in [0, 256); a [std::string] or a buffer is a list of them. *)
Abbreviation bytes := (list Z).

(** ** Machine integers: [uN] is the value modulo 2^N, [iN] its two's complement reading *)

Definition wrap (w z : Z) : Z := z mod 2 ^ w.
Definition swrap (w z : Z) : Z := (z + 2 ^ (w - 1)) mod 2 ^ w - 2 ^ (w - 1).

Abbreviation u8 := (wrap 8).
Abbreviation u32 := (wrap 32).
Abbreviation u64 := (wrap 64).
Abbreviation i32 := (swrap 32).
Abbreviation i64 := (swrap 64).

Lemma wrap_small (w z : Z) : 0 <= z < 2 ^ w -> wrap w z = z.
Proof. apply Z.mod_small. Qed.

Lemma wrap_bound (w z : Z) : 0 <= w -> 0 <= wrap w z < 2 ^ w.
Proof. intros. apply Z.mod_pos_bound. lia. Qed.

Lemma wrap_idemp (w z : Z) : wrap w (wrap w z) = wrap w z.
Proof. unfold wrap. apply Zmod_mod. Qed.

Lemma swrap_small (w z : Z) :
  0 < w -> - 2 ^ (w - 1) <= z < 2 ^ (w - 1) -> swrap w z = z.
Proof.
  intros Hw Hz. unfold swrap.
  assert (2 ^ w = 2 * 2 ^ (w - 1)) by (rewrite <- Z.pow_succ_r by lia; f_equal; lia).
  rewrite Z.mod_small; lia.
Qed.

(** ** Strings as byte lists *)

Definition byte_of_ascii (a : Ascii.ascii) : Z := Z.of_N (Ascii.N_of_ascii a).

Fixpoint str (s : string) : bytes :=
  match s with
  | String.EmptyString => []
  | String.String a s' => byte_of_ascii a :: str s'
  end.

(** The bytes a NUL-terminated reader ([std::string(p)], [strnlen]) sees in an array. *)
Fixpoint cstr (l : bytes) : bytes :=
  match l with
  | [] => []
  | b :: l' => if b =? 0 then [] else b :: cstr l'
  end.

Lemma cstr_app_nul (s l : bytes) : 0 ∉ s -> cstr (s ++ 0 :: l) = s.
Proof.
  induction s as [|b s IH]; intros Hs; [done|]. simpl.
  destruct (Z.eqb_spec b 0) as [->|]; [set_solver|].
  f_equal. apply IH. set_solver.
Qed.

Lemma cstr_no_nul (s : bytes) : 0 ∉ cstr s.
Proof.
  induction s as [|b s IH]; simpl; [set_solver|].
  destruct (Z.eqb_spec b 0); set_solver.
Qed.

(** ** Decimal digits: [digits n z acc] is the text of [z], of at most [n] digits, before [acc] *)
Fixpoint digits (n : nat) (z : Z) (acc : bytes) : bytes :=
  match n with
  | O => acc
  | S n' => if z <? 10 then (48 + z) :: acc else digits n' (z / 10) ((48 + z mod 10) :: acc)
  end.

(** ** Little-endian fields *)

Fixpoint le_encode (n : nat) (z : Z) : bytes :=
  match n with
  | O => []
  | S n' => z mod 256 :: le_encode n' (z / 256)
  end.

Fixpoint le_decode (l : bytes) : Z :=
  match l with
  | [] => 0
  | b :: l' => b + 256 * le_decode l'
  end.

Lemma le_encode_length (n : nat) (z : Z) : length (le_encode n z) = n.
Proof. revert z. induction n; intros; simpl; auto. Qed.

Lemma le_decode_encode (n : nat) (z : Z) :
  0 <= z < 256 ^ Z.of_nat n -> le_decode (le_encode n z) = z.
Proof.
  revert z. induction n as [|n IH]; intros z Hz.
  - simpl in *. lia.
  - cbn [le_encode le_decode]. rewrite IH.
    + pose proof (Z.div_mod z 256). lia.
    + rewrite Nat2Z.inj_succ, Z.pow_succ_r in Hz by lia.
      split; [apply Z.div_pos; lia|]. apply Z.div_lt_upper_bound; lia.
Qed.

Definition byte_ok (b : Z) : Prop := 0 <= b < 256.

Lemma le_encode_bytes (n : nat) (z : Z) : Forall byte_ok (le_encode n z).
Proof.
  revert z. induction n; intros; simpl; constructor; auto.
  unfold byte_ok. apply Z.mod_pos_bound. lia.
Qed.

Lemma le_decode_inj_encode (l : bytes) :
  Forall byte_ok l -> le_encode (length l) (le_decode l) = l.
Proof.
  induction 1 as [|b l Hb Hl IH]; [done|].
  cbn [length le_decode le_encode]. unfold byte_ok in Hb. f_equal.
  - rewrite Z.mul_comm, Z_mod_plus_full. apply Z.mod_small. lia.
  - rewrite Z.mul_comm, Z.div_add, Z.div_small, Z.add_0_l by lia. exact IH.
Qed.

(** A packed struct is its fields' bytes, one after the other: [split_fields]
    cuts a buffer at the given widths. *)
Fixpoint split_fields (ws : list nat) (b : bytes) : list bytes :=
  match ws with
  | [] => []
  | w :: ws' => take w b :: split_fields ws' (drop w b)
  end.

Lemma split_fields_concat (fs : list bytes) (rest : bytes) :
  split_fields (length <$> fs) (concat fs ++ rest) = fs.
Proof.
  induction fs as [|f fs IH]; [done|]. cbn [fmap list_fmap split_fields concat].
  rewrite <- app_assoc, take_app_length, drop_app_length. by f_equal.
Qed.

(** ** Slices and splices of byte lists *)

Definition slice (off len : nat) (l : bytes) : bytes := take len (drop off l).

(** [splice p d l] overwrites [l] with [d] from position [p] (a [memcpy] into a buffer). *)
Definition splice (p : nat) (d l : bytes) : bytes :=
  take p l ++ d ++ drop (p + length d) l.

Lemma splice_length (p : nat) (d l : bytes) :
  (p + length d <= length l)%nat -> length (splice p d l) = length l.
Proof. intros. unfold splice. rewrite !length_app, length_take, length_drop. lia. Qed.

Lemma splice_lookup_new (p : nat) (d l : bytes) (i : nat) :
  (p + length d <= length l)%nat -> (p <= i < p + length d)%nat ->
  splice p d l !! i = d !! (i - p)%nat.
Proof.
  intros. unfold splice. rewrite lookup_app_r by (rewrite length_take; lia).
  rewrite length_take, Nat.min_l by lia. by rewrite lookup_app_l by lia.
Qed.

Lemma splice_lookup_old (p : nat) (d l : bytes) (i : nat) :
  (p + length d <= length l)%nat -> (i < p \/ p + length d <= i)%nat ->
  splice p d l !! i = l !! i.
Proof.
  intros Hl Hi. unfold splice. destruct Hi.
  - rewrite lookup_app_l by (rewrite length_take; lia). by rewrite lookup_take_lt by lia.
  - rewrite lookup_app_r by (rewrite length_take; lia).
    rewrite length_take, Nat.min_l by lia. rewrite lookup_app_r by lia.
    rewrite lookup_drop. f_equal. lia.
Qed.

Lemma slice_length (off len : nat) (l : bytes) :
  (off + len <= length l)%nat -> length (slice off len l) = len.
Proof. intros. unfold slice. rewrite length_take, length_drop. lia. Qed.

Lemma slice_take (off len m : nat) (l : bytes) :
  (off + len <= m)%nat -> slice off len (take m l) = slice off len l.
Proof.
  intros. unfold slice. rewrite !take_drop_commute, take_take. do 2 f_equal. lia.
Qed.

Lemma slice_app_l (off len : nat) (l1 l2 : bytes) :
  (off + len <= length l1)%nat -> slice off len (l1 ++ l2) = slice off len l1.
Proof. intros. unfold slice. by rewrite !take_drop_commute, take_app_le. Qed.

(** reading back what a splice put there *)
Lemma slice_splice (p : nat) (d l : bytes) :
  (p + length d <= length l)%nat -> slice p (length d) (splice p d l) = d.
Proof.
  intros Hl. unfold slice, splice. rewrite drop_app_length' by (rewrite length_take; lia).
  by rewrite take_app_length.
Qed.

(** ** A byte-addressed store: an address that was never written holds zero *)

Abbreviation store := (gmap Z Z).

Definition st_get (m : store) (a : Z) : Z := default 0 (m !! a).

Definition st_read (m : store) (a : Z) (n : nat) : bytes :=
  (λ i : nat, st_get m (a + Z.of_nat i)) <$> seq 0 n.

Fixpoint st_write (m : store) (a : Z) (d : bytes) : store :=
  match d with
  | [] => m
  | b :: d' => st_write (<[a := b]> m) (a + 1) d'
  end.

Lemma st_read_length (m : store) (a : Z) (n : nat) : length (st_read m a n) = n.
Proof. unfold st_read. by rewrite length_fmap, length_seq. Qed.

Lemma st_read_lookup (m : store) (a : Z) (n i : nat) :
  (i < n)%nat -> st_read m a n !! i = Some (st_get m (a + Z.of_nat i)).
Proof.
  intros. unfold st_read. rewrite list_lookup_fmap, lookup_seq_lt by lia. done.
Qed.

Lemma st_write_get_out (m : store) (a : Z) (d : bytes) (x : Z) :
  x < a \/ a + Z.of_nat (length d) <= x -> st_get (st_write m a d) x = st_get m x.
Proof.
  revert m a. induction d as [|b d IH]; intros m a Hx; [done|]. cbn [st_write length] in *.
  rewrite IH by lia. unfold st_get. by rewrite lookup_insert_ne by lia.
Qed.

Lemma st_write_get_in (m : store) (a : Z) (d : bytes) (i : nat) (b : Z) :
  d !! i = Some b -> st_get (st_write m a d) (a + Z.of_nat i) = b.
Proof.
  revert m a i. induction d as [|b' d IH]; intros m a [|i] Hi; try done.
  - cbn in Hi. simplify_eq. cbn [st_write]. rewrite st_write_get_out by lia.
    unfold st_get. replace (a + Z.of_nat 0) with a by lia. by rewrite lookup_insert_eq.
  - cbn in Hi. cbn [st_write]. replace (a + Z.of_nat (S i)) with ((a + 1) + Z.of_nat i) by lia.
    by apply IH.
Qed.

Lemma st_write_app (m : store) (a : Z) (d1 d2 : bytes) :
  st_write m a (d1 ++ d2) = st_write (st_write m a d1) (a + Z.of_nat (length d1)) d2.
Proof.
  revert m a. induction d1 as [|b d1 IH]; intros m a.
  - cbn. by rewrite Z.add_0_r.
  - cbn [st_write app length]. rewrite IH. f_equal. lia.
Qed.

Lemma st_read_write_same (m : store) (a : Z) (d : bytes) :
  st_read (st_write m a d) a (length d) = d.
Proof.
  apply list_eq. intros i. destruct (decide (i < length d)%nat) as [Hi|Hi].
  - rewrite st_read_lookup by done.
    destruct (lookup_lt_is_Some_2 d i Hi) as [b Hb]. rewrite Hb. f_equal.
    by apply st_write_get_in.
  - rewrite !lookup_ge_None_2; [done|lia|rewrite st_read_length; lia].
Qed.

Lemma st_read_ext (m1 m2 : store) (a : Z) (n : nat) :
  (forall x, a <= x < a + Z.of_nat n -> st_get m1 x = st_get m2 x) ->
  st_read m1 a n = st_read m2 a n.
Proof.
  intros H. unfold st_read. apply list_fmap_ext. intros ? i Hi.
  apply lookup_seq in Hi. apply H. lia.
Qed.

Lemma st_read_app (m : store) (a : Z) (n1 n2 : nat) :
  st_read m a (n1 + n2) = st_read m a n1 ++ st_read m (a + Z.of_nat n1) n2.
Proof.
  unfold st_read. rewrite seq_app, fmap_app. f_equal. simpl.
  rewrite <- (Nat.add_0_r n1) at 1. rewrite <- fmap_add_seq, <- list_fmap_compose.
  apply list_fmap_ext. intros ? i Hi. simpl. f_equal. lia.
Qed.

(** a slice of what was read *)
Lemma slice_st_read (m : store) (a : Z) (k off n : nat) :
  (off + n <= k)%nat -> slice off n (st_read m a k) = st_read m (a + Z.of_nat off) n.
Proof.
  intros Hk. replace k with (off + (n + (k - off - n)))%nat by lia.
  rewrite st_read_app, st_read_app. unfold slice.
  rewrite drop_app_length' by by rewrite st_read_length.
  by rewrite take_app_length' by by rewrite st_read_length.
Qed.

(** ** Programs: state passing with crashes

    A C++ operation reads and updates the process state and returns a value,
    or stops the process: a failed [assert], a null or dangling pointer, an
    index outside an array.  [Crash] is that outcome; every error the code
    reports (a [false], a [-1], a null pointer) is an ordinary value. *)

Inductive crash : Set :=
  | AssertFailed     (** an [assert] does not hold *)
  | NullDeref        (** a member access through a null pointer *)
  | OutOfBounds      (** an access outside the metadata area or an array *)
  | Dangling.        (** a reference to an element that was erased *)

Inductive outcome (S A : Type) : Type :=
  | Done (a : A) (s : S)
  | Crash (c : crash).
Arguments Done {S A} a s.
Arguments Crash {S A} c.

Definition prog (S A : Type) : Type := S -> outcome S A.

Section Monad.
Context {S : Type}.

Definition ret {A} (a : A) : prog S A := fun s => Done a s.
Definition bind {A B} (m : prog S A) (k : A -> prog S B) : prog S B := fun s =>
  match m s with
  | Done a s' => k a s'
  | Crash c => Crash c
  end.
Definition crash_with {A} (c : crash) : prog S A := fun _ => Crash c.
Definition gets {A} (f : S -> A) : prog S A := fun s => Done (f s) s.
Definition modify (f : S -> S) : prog S unit := fun s => Done tt (f s).

(** [assert(b)] *)
Definition assert_ (b : bool) : prog S unit :=
  if b then ret tt else crash_with AssertFailed.

(** a pointer that is dereferenced without a check *)
Definition deref {A} (o : option A) : prog S A :=
  match o with Some a => ret a | None => crash_with NullDeref end.

(** an array cell that must exist *)
Definition in_bounds {A} (o : option A) : prog S A :=
  match o with Some a => ret a | None => crash_with OutOfBounds end.
End Monad.

Notation "'let!' x ':=' m 'in' k" := (bind m (fun x => k))
  (at level 10, x pattern, m at level 100, k at level 200) : bfs_scope.
Notation "m ';;' k" := (bind m (fun _ => k))
  (at level 100, k at level 200, right associativity) : bfs_scope.

(** [wp m Q s]: from [s], [m] does not crash and its result and final state satisfy [Q]. *)
Definition wp {S A} (m : prog S A) (Q : A -> S -> Prop) (s : S) : Prop :=
  match m s with Done a s' => Q a s' | Crash _ => False end.

Section Wp.
Context {S : Type}.
Implicit Types s : S.

Lemma wp_ret {A} (a : A) Q s : Q a s -> wp (ret a) Q s.
Proof. done. Qed.

Lemma wp_bind {A B} (m : prog S A) (k : A -> prog S B) Q s :
  wp m (fun a s' => wp (k a) Q s') s -> wp (bind m k) Q s.
Proof. unfold wp, bind. by destruct (m s). Qed.

Lemma wp_mono {A} (m : prog S A) (Q R : A -> S -> Prop) s :
  wp m Q s -> (forall a s', Q a s' -> R a s') -> wp m R s.
Proof. unfold wp. destruct (m s); eauto. Qed.

Lemma wp_gets {A} (f : S -> A) Q s : Q (f s) s -> wp (gets f) Q s.
Proof. done. Qed.

Lemma wp_modify (f : S -> S) Q s : Q tt (f s) -> wp (modify f) Q s.
Proof. done. Qed.

Lemma wp_assert (b : bool) (Q : unit -> S -> Prop) s :
  b = true -> Q tt s -> wp (assert_ b) Q s.
Proof. by intros ->. Qed.

Lemma wp_deref {A} (o : option A) (a : A) (Q : A -> S -> Prop) s :
  o = Some a -> Q a s -> wp (deref o) Q s.
Proof. by intros ->. Qed.

Lemma wp_in_bounds {A} (o : option A) (a : A) (Q : A -> S -> Prop) s :
  o = Some a -> Q a s -> wp (in_bounds o) Q s.
Proof. by intros ->. Qed.

(** the two readings of [wp] *)
Lemma wp_done {A} (m : prog S A) Q s a s' : m s = Done a s' -> wp m Q s <-> Q a s'.
Proof. unfold wp. by intros ->. Qed.

Lemma wp_run {A} (m : prog S A) (Q : A -> S -> Prop) s a s' :
  m s = Done a s' -> Q a s' -> wp m Q s.
Proof. unfold wp. by intros ->. Qed.

Lemma wp_intro {A} (m : prog S A) Q s :
  wp m Q s <-> exists a s', m s = Done a s' /\ Q a s'.
Proof.
  unfold wp. destruct (m s) as [a s'|c]; split; intros H; eauto.
  - destruct H as (?&?&[= <- <-]&?). done.
  - done.
  - destruct H as (?&?&[=]&_).
Qed.
End Wp.

(** a command whose run is known *)
Lemma bind_run {S A B} (m : prog S A) (k : A -> prog S B) s a s' :
  m s = Done a s' -> bind m k s = k a s'.
Proof. unfold bind. by intros ->. Qed.

(** [wp_step] runs one command of a program in a [wp] goal. *)
Ltac wp_step :=
  lazymatch goal with
  | |- wp (bind _ _) _ _ => apply wp_bind
  | |- wp (ret _) _ _ => apply wp_ret
  | |- wp (gets _) _ _ => apply wp_gets
  | |- wp (modify _) _ _ => apply wp_modify
  | |- wp (assert_ _) _ _ => apply wp_assert
  | |- wp (deref _) _ _ => eapply wp_deref
  | |- wp (in_bounds _) _ _ => eapply wp_in_bounds
  end.

(** [wlp m Q s]: if [m] returns from [s], its result and final state satisfy [Q]. *)
Definition wlp {S A} (m : prog S A) (Q : A -> S -> Prop) (s : S) : Prop :=
  forall a s', m s = Done a s' -> Q a s'.

Section Wlp.
Context {S : Type}.
Implicit Types s : S.

Lemma wlp_ret {A} (a : A) Q s : Q a s -> wlp (ret a) Q s.
Proof. by intros HQ ?? [= <- <-]. Qed.

Lemma wlp_crash {A} c (Q : A -> S -> Prop) s : wlp (crash_with c) Q s.
Proof. done. Qed.

Lemma wlp_bind {A B} (m : prog S A) (k : A -> prog S B) Q s :
  wlp m (fun a s' => wlp (k a) Q s') s -> wlp (bind m k) Q s.
Proof.
  unfold wlp, bind. intros Hm b s'. destruct (m s) as [a s1|] eqn:Hr; [|done]. by apply Hm.
Qed.

Lemma wlp_mono {A} (m : prog S A) (Q R : A -> S -> Prop) s :
  wlp m Q s -> (forall a s', Q a s' -> R a s') -> wlp m R s.
Proof. intros HQ HR a s' Hr. by apply HR, HQ. Qed.

Lemma wlp_gets {A} (f : S -> A) Q s : Q (f s) s -> wlp (gets f) Q s.
Proof. by intros HQ ?? [= <- <-]. Qed.

Lemma wlp_modify (f : S -> S) Q s : Q tt (f s) -> wlp (modify f) Q s.
Proof. by intros HQ ?? [= <- <-]. Qed.

Lemma wlp_assert (b : bool) (Q : unit -> S -> Prop) s :
  (b = true -> Q tt s) -> wlp (assert_ b) Q s.
Proof. intros HQ. destruct b; [apply wlp_ret; auto|apply wlp_crash]. Qed.

Lemma wlp_deref {A} (o : option A) (Q : A -> S -> Prop) s :
  (forall a, o = Some a -> Q a s) -> wlp (deref o) Q s.
Proof. intros HQ. destruct o; [apply wlp_ret; auto|apply wlp_crash]. Qed.

Lemma wlp_in_bounds {A} (o : option A) (Q : A -> S -> Prop) s :
  (forall a, o = Some a -> Q a s) -> wlp (in_bounds o) Q s.
Proof. intros HQ. destruct o; [apply wlp_ret; auto|apply wlp_crash]. Qed.

Lemma wlp_run {A} (m : prog S A) (Q : A -> S -> Prop) s a s' :
  m s = Done a s' -> Q a s' -> wlp m Q s.
Proof. intros Hr HQ ?? Hr'. rewrite Hr in Hr'. by injection Hr' as <- <-. Qed.

Lemma wlp_and {A} (m : prog S A) (Q R : A -> S -> Prop) s :
  wlp m Q s -> wlp m R s -> wlp m (fun a s' => Q a s' /\ R a s') s.
Proof. intros HQ HR a s' Hm. split; [by apply HQ|by apply HR]. Qed.

(** total and partial statements about the same run *)
Lemma wlp_wp {A} (m : prog S A) Q s : wp m Q s -> wlp m Q s.
Proof. unfold wp. intros HQ a s' Hr. by rewrite Hr in HQ. Qed.

Lemma wp_wlp {A} (m : prog S A) (Q R : A -> S -> Prop) s :
  wp m Q s -> wlp m R s -> wp m (fun a s' => Q a s' /\ R a s') s.
Proof. unfold wp, wlp. destruct (m s); auto. Qed.
End Wlp.

(** one command of a program in a [wlp] goal *)
Ltac wlp_step :=
  lazymatch goal with
  | |- wlp (bind _ _) _ _ => apply wlp_bind
  | |- wlp (ret _) _ _ => apply wlp_ret
  | |- wlp (crash_with _) _ _ => apply wlp_crash
  | |- wlp (gets _) _ _ => apply wlp_gets
  | |- wlp (modify _) _ _ => apply wlp_modify
  | |- wlp (assert_ _) _ _ => apply wlp_assert; intros
  | |- wlp (deref _) _ _ => apply wlp_deref; intros
  | |- wlp (in_bounds _) _ _ => apply wlp_in_bounds; intros
  end.

(** Inversion of a run that returned. *)
Lemma bind_done {S A B} (m : prog S A) (k : A -> prog S B) s b s' :
  bind m k s = Done b s' -> exists a s1, m s = Done a s1 /\ k a s1 = Done b s'.
Proof. unfold bind. destruct (m s); [eauto|done]. Qed.

Ltac inv_bind :=
  repeat match goal with
  | H : bind _ _ _ = Done _ _ |- _ =>
      apply bind_done in H; destruct H as (?&?&?&H)
  | H : ret _ _ = Done _ _ |- _ => unfold ret in H; injection H as ??; subst
  | H : gets _ _ = Done _ _ |- _ => unfold gets in H; injection H as ??; subst
  | H : modify _ _ = Done _ _ |- _ => unfold modify in H; injection H as ??; subst
  | H : crash_with _ _ = Done _ _ |- _ => discriminate H
  end.
