(* ===== verification/Meta.v ===== *)
(** * On-disk metadata: constants, packed structs and their byte images

    Models [lib/meta_defines.h]: the constants, the four packed metadata
    structs ([SuperBlockMeta], [DirMeta], [FileMeta], [FileBlockMeta]) as
    records, and the bytes each record occupies on the device.  The char
    arrays are kept as the arrays they are; [reserved_] bytes after the packed
    fields are the [*_rest] field.

    The code has no encoder and no decoder: it writes the memory of a struct, maps
    the device's bytes as one, and computes checksums over it.  The functions
    [encode_*] and [decode_*] stand for this reading of memory as a packed struct
    and as bytes: fields in the order of the struct, little-endian.  A struct has
    the size that its [static_assert] gives, which is also what every super block
    says that a format writes. *)

From S2P Require Import Prelude.

(** ** Constants *)

Module Units.
Definition K : Z := 1024.
Definition M : Z := 1024 * K.
Definition G : Z := 1024 * M.
Definition T : Z := 1024 * G.
End Units.

Definition kBlockFsMagic : Z := 0xA5201314.
Definition kBlockFsPageSize : Z := 4 * Units.K.
Definition kSuperBlockSize : Z := kBlockFsPageSize.
Definition kSuperBlockOffset : Z := 0.
Definition kDirMetaOffset : Z := kSuperBlockOffset + kSuperBlockSize.
Definition kMaxFileNum : Z := 100000.
Definition kBlockFsMaxUDiskSize : Z := 128 * Units.T.
Definition kBlockSize : Z := 4 * Units.M.
Definition kBlockFsMaxDirNameLen : Z := 768.
Definition kBlockFsMaxFileNameLen : Z := 64.
Definition kBlockFsDirMetaSize : Z := 1 * Units.K.
Definition kBlockFsFileMetaSize : Z := 256.
Definition kFileBlockCapacity : Z := 1000.
Definition kBlockFsFileBlockMetaSize : Z := kBlockFsPageSize.

(** ** The packed structs *)

Record SuperBlockMeta : Set := MkSuperBlockMeta {
  sb_crc : Z;
  sb_uuid : bytes;
  sb_magic : Z;
  sb_max_file_num : Z;
  sb_max_support_udisk_size : Z;
  sb_max_file_block_num : Z;
  sb_max_support_block_num : Z;
  sb_block_size : Z;
  sb_max_dir_name_len : Z;
  sb_max_file_name_len : Z;
  sb_dir_meta_size : Z;
  sb_file_meta_size : Z;
  sb_file_block_meta_size : Z;
  sb_super_block_size : Z;
  sb_dir_meta_total_size : Z;
  sb_file_meta_total_size : Z;
  sb_file_block_meta_total_size : Z;
  sb_super_block_offset : Z;
  sb_dir_meta_offset : Z;
  sb_file_meta_offset : Z;
  sb_file_block_meta_offset : Z;
  sb_block_data_start_offset : Z;
  sb_device_size : Z;
  sb_curr_block_num : Z;
  sb_rest : bytes
}.

Record DirMeta : Set := MkDirMeta {
  dm_crc : Z;
  dm_dh : Z;
  dm_size : Z;
  dm_mode : Z;
  dm_uid : Z;
  dm_gid : Z;
  dm_atime : Z;
  dm_mtime : Z;
  dm_ctime : Z;
  dm_used : bool;
  dm_dir_name : bytes;
  dm_rest : bytes
}.

Record FileMeta : Set := MkFileMeta {
  fm_crc : Z;
  fm_fh : Z;
  fm_size : Z;
  fm_nlink : Z;
  fm_mode : Z;
  fm_uid : Z;
  fm_gid : Z;
  fm_atime : Z;
  fm_mtime : Z;
  fm_ctime : Z;
  fm_dh : Z;
  fm_child_fh : Z;
  fm_parent_fh : Z;
  fm_parent_size : Z;
  fm_used : bool;
  fm_is_temp : bool;
  fm_file_name : bytes;
  fm_rest : bytes
}.

Record FileBlockMeta : Set := MkFileBlockMeta {
  fb_crc : Z;
  fb_index : Z;
  fb_fh : Z;
  fb_file_cut : Z;
  fb_used_block_num : Z;
  fb_used : bool;
  fb_is_temp : bool;
  fb_block_id : list Z;
  fb_rest : bytes
}.

(** ** Field updates *)

Definition set_sb_crc (x : Z) (m : SuperBlockMeta) : SuperBlockMeta :=
  MkSuperBlockMeta x (sb_uuid m) (sb_magic m) (sb_max_file_num m) (sb_max_support_udisk_size m)
    (sb_max_file_block_num m) (sb_max_support_block_num m) (sb_block_size m)
    (sb_max_dir_name_len m) (sb_max_file_name_len m) (sb_dir_meta_size m) (sb_file_meta_size m)
    (sb_file_block_meta_size m) (sb_super_block_size m) (sb_dir_meta_total_size m)
    (sb_file_meta_total_size m) (sb_file_block_meta_total_size m) (sb_super_block_offset m)
    (sb_dir_meta_offset m) (sb_file_meta_offset m) (sb_file_block_meta_offset m)
    (sb_block_data_start_offset m) (sb_device_size m) (sb_curr_block_num m) (sb_rest m).
Definition set_dm_crc (x : Z) (m : DirMeta) : DirMeta :=
  MkDirMeta x (dm_dh m) (dm_size m) (dm_mode m) (dm_uid m) (dm_gid m) (dm_atime m) (dm_mtime m)
    (dm_ctime m) (dm_used m) (dm_dir_name m) (dm_rest m).
Definition set_dm_dh (x : Z) (m : DirMeta) : DirMeta :=
  MkDirMeta (dm_crc m) x (dm_size m) (dm_mode m) (dm_uid m) (dm_gid m) (dm_atime m) (dm_mtime
    m) (dm_ctime m) (dm_used m) (dm_dir_name m) (dm_rest m).
Definition set_dm_size (x : Z) (m : DirMeta) : DirMeta :=
  MkDirMeta (dm_crc m) (dm_dh m) x (dm_mode m) (dm_uid m) (dm_gid m) (dm_atime m) (dm_mtime m)
    (dm_ctime m) (dm_used m) (dm_dir_name m) (dm_rest m).
Definition set_dm_atime (x : Z) (m : DirMeta) : DirMeta :=
  MkDirMeta (dm_crc m) (dm_dh m) (dm_size m) (dm_mode m) (dm_uid m) (dm_gid m) x (dm_mtime m)
    (dm_ctime m) (dm_used m) (dm_dir_name m) (dm_rest m).
Definition set_dm_mtime (x : Z) (m : DirMeta) : DirMeta :=
  MkDirMeta (dm_crc m) (dm_dh m) (dm_size m) (dm_mode m) (dm_uid m) (dm_gid m) (dm_atime m) x
    (dm_ctime m) (dm_used m) (dm_dir_name m) (dm_rest m).
Definition set_dm_ctime (x : Z) (m : DirMeta) : DirMeta :=
  MkDirMeta (dm_crc m) (dm_dh m) (dm_size m) (dm_mode m) (dm_uid m) (dm_gid m) (dm_atime m)
    (dm_mtime m) x (dm_used m) (dm_dir_name m) (dm_rest m).
Definition set_dm_used (x : bool) (m : DirMeta) : DirMeta :=
  MkDirMeta (dm_crc m) (dm_dh m) (dm_size m) (dm_mode m) (dm_uid m) (dm_gid m) (dm_atime m)
    (dm_mtime m) (dm_ctime m) x (dm_dir_name m) (dm_rest m).
Definition set_dm_dir_name (x : bytes) (m : DirMeta) : DirMeta :=
  MkDirMeta (dm_crc m) (dm_dh m) (dm_size m) (dm_mode m) (dm_uid m) (dm_gid m) (dm_atime m)
    (dm_mtime m) (dm_ctime m) (dm_used m) x (dm_rest m).
Definition set_fm_crc (x : Z) (m : FileMeta) : FileMeta :=
  MkFileMeta x (fm_fh m) (fm_size m) (fm_nlink m) (fm_mode m) (fm_uid m) (fm_gid m) (fm_atime
    m) (fm_mtime m) (fm_ctime m) (fm_dh m) (fm_child_fh m) (fm_parent_fh m) (fm_parent_size m)
    (fm_used m) (fm_is_temp m) (fm_file_name m) (fm_rest m).
Definition set_fm_fh (x : Z) (m : FileMeta) : FileMeta :=
  MkFileMeta (fm_crc m) x (fm_size m) (fm_nlink m) (fm_mode m) (fm_uid m) (fm_gid m) (fm_atime
    m) (fm_mtime m) (fm_ctime m) (fm_dh m) (fm_child_fh m) (fm_parent_fh m) (fm_parent_size m)
    (fm_used m) (fm_is_temp m) (fm_file_name m) (fm_rest m).
Definition set_fm_size (x : Z) (m : FileMeta) : FileMeta :=
  MkFileMeta (fm_crc m) (fm_fh m) x (fm_nlink m) (fm_mode m) (fm_uid m) (fm_gid m) (fm_atime m)
    (fm_mtime m) (fm_ctime m) (fm_dh m) (fm_child_fh m) (fm_parent_fh m) (fm_parent_size m)
    (fm_used m) (fm_is_temp m) (fm_file_name m) (fm_rest m).
Definition set_fm_nlink (x : Z) (m : FileMeta) : FileMeta :=
  MkFileMeta (fm_crc m) (fm_fh m) (fm_size m) x (fm_mode m) (fm_uid m) (fm_gid m) (fm_atime m)
    (fm_mtime m) (fm_ctime m) (fm_dh m) (fm_child_fh m) (fm_parent_fh m) (fm_parent_size m)
    (fm_used m) (fm_is_temp m) (fm_file_name m) (fm_rest m).
Definition set_fm_mode (x : Z) (m : FileMeta) : FileMeta :=
  MkFileMeta (fm_crc m) (fm_fh m) (fm_size m) (fm_nlink m) x (fm_uid m) (fm_gid m) (fm_atime m)
    (fm_mtime m) (fm_ctime m) (fm_dh m) (fm_child_fh m) (fm_parent_fh m) (fm_parent_size m)
    (fm_used m) (fm_is_temp m) (fm_file_name m) (fm_rest m).
Definition set_fm_atime (x : Z) (m : FileMeta) : FileMeta :=
  MkFileMeta (fm_crc m) (fm_fh m) (fm_size m) (fm_nlink m) (fm_mode m) (fm_uid m) (fm_gid m) x
    (fm_mtime m) (fm_ctime m) (fm_dh m) (fm_child_fh m) (fm_parent_fh m) (fm_parent_size m)
    (fm_used m) (fm_is_temp m) (fm_file_name m) (fm_rest m).
Definition set_fm_mtime (x : Z) (m : FileMeta) : FileMeta :=
  MkFileMeta (fm_crc m) (fm_fh m) (fm_size m) (fm_nlink m) (fm_mode m) (fm_uid m) (fm_gid m)
    (fm_atime m) x (fm_ctime m) (fm_dh m) (fm_child_fh m) (fm_parent_fh m) (fm_parent_size m)
    (fm_used m) (fm_is_temp m) (fm_file_name m) (fm_rest m).
Definition set_fm_ctime (x : Z) (m : FileMeta) : FileMeta :=
  MkFileMeta (fm_crc m) (fm_fh m) (fm_size m) (fm_nlink m) (fm_mode m) (fm_uid m) (fm_gid m)
    (fm_atime m) (fm_mtime m) x (fm_dh m) (fm_child_fh m) (fm_parent_fh m) (fm_parent_size m)
    (fm_used m) (fm_is_temp m) (fm_file_name m) (fm_rest m).
Definition set_fm_dh (x : Z) (m : FileMeta) : FileMeta :=
  MkFileMeta (fm_crc m) (fm_fh m) (fm_size m) (fm_nlink m) (fm_mode m) (fm_uid m) (fm_gid m)
    (fm_atime m) (fm_mtime m) (fm_ctime m) x (fm_child_fh m) (fm_parent_fh m) (fm_parent_size
    m) (fm_used m) (fm_is_temp m) (fm_file_name m) (fm_rest m).
Definition set_fm_child_fh (x : Z) (m : FileMeta) : FileMeta :=
  MkFileMeta (fm_crc m) (fm_fh m) (fm_size m) (fm_nlink m) (fm_mode m) (fm_uid m) (fm_gid m)
    (fm_atime m) (fm_mtime m) (fm_ctime m) (fm_dh m) x (fm_parent_fh m) (fm_parent_size m)
    (fm_used m) (fm_is_temp m) (fm_file_name m) (fm_rest m).
Definition set_fm_parent_fh (x : Z) (m : FileMeta) : FileMeta :=
  MkFileMeta (fm_crc m) (fm_fh m) (fm_size m) (fm_nlink m) (fm_mode m) (fm_uid m) (fm_gid m)
    (fm_atime m) (fm_mtime m) (fm_ctime m) (fm_dh m) (fm_child_fh m) x (fm_parent_size m)
    (fm_used m) (fm_is_temp m) (fm_file_name m) (fm_rest m).
Definition set_fm_parent_size (x : Z) (m : FileMeta) : FileMeta :=
  MkFileMeta (fm_crc m) (fm_fh m) (fm_size m) (fm_nlink m) (fm_mode m) (fm_uid m) (fm_gid m)
    (fm_atime m) (fm_mtime m) (fm_ctime m) (fm_dh m) (fm_child_fh m) (fm_parent_fh m) x
    (fm_used m) (fm_is_temp m) (fm_file_name m) (fm_rest m).
Definition set_fm_used (x : bool) (m : FileMeta) : FileMeta :=
  MkFileMeta (fm_crc m) (fm_fh m) (fm_size m) (fm_nlink m) (fm_mode m) (fm_uid m) (fm_gid m)
    (fm_atime m) (fm_mtime m) (fm_ctime m) (fm_dh m) (fm_child_fh m) (fm_parent_fh m)
    (fm_parent_size m) x (fm_is_temp m) (fm_file_name m) (fm_rest m).
Definition set_fm_is_temp (x : bool) (m : FileMeta) : FileMeta :=
  MkFileMeta (fm_crc m) (fm_fh m) (fm_size m) (fm_nlink m) (fm_mode m) (fm_uid m) (fm_gid m)
    (fm_atime m) (fm_mtime m) (fm_ctime m) (fm_dh m) (fm_child_fh m) (fm_parent_fh m)
    (fm_parent_size m) (fm_used m) x (fm_file_name m) (fm_rest m).
Definition set_fm_file_name (x : bytes) (m : FileMeta) : FileMeta :=
  MkFileMeta (fm_crc m) (fm_fh m) (fm_size m) (fm_nlink m) (fm_mode m) (fm_uid m) (fm_gid m)
    (fm_atime m) (fm_mtime m) (fm_ctime m) (fm_dh m) (fm_child_fh m) (fm_parent_fh m)
    (fm_parent_size m) (fm_used m) (fm_is_temp m) x (fm_rest m).
Definition set_fb_crc (x : Z) (m : FileBlockMeta) : FileBlockMeta :=
  MkFileBlockMeta x (fb_index m) (fb_fh m) (fb_file_cut m) (fb_used_block_num m) (fb_used m)
    (fb_is_temp m) (fb_block_id m) (fb_rest m).
Definition set_fb_fh (x : Z) (m : FileBlockMeta) : FileBlockMeta :=
  MkFileBlockMeta (fb_crc m) (fb_index m) x (fb_file_cut m) (fb_used_block_num m) (fb_used m)
    (fb_is_temp m) (fb_block_id m) (fb_rest m).
Definition set_fb_file_cut (x : Z) (m : FileBlockMeta) : FileBlockMeta :=
  MkFileBlockMeta (fb_crc m) (fb_index m) (fb_fh m) x (fb_used_block_num m) (fb_used m)
    (fb_is_temp m) (fb_block_id m) (fb_rest m).
Definition set_fb_used_block_num (x : Z) (m : FileBlockMeta) : FileBlockMeta :=
  MkFileBlockMeta (fb_crc m) (fb_index m) (fb_fh m) (fb_file_cut m) x (fb_used m) (fb_is_temp
    m) (fb_block_id m) (fb_rest m).
Definition set_fb_used (x : bool) (m : FileBlockMeta) : FileBlockMeta :=
  MkFileBlockMeta (fb_crc m) (fb_index m) (fb_fh m) (fb_file_cut m) (fb_used_block_num m) x
    (fb_is_temp m) (fb_block_id m) (fb_rest m).
Definition set_fb_is_temp (x : bool) (m : FileBlockMeta) : FileBlockMeta :=
  MkFileBlockMeta (fb_crc m) (fb_index m) (fb_fh m) (fb_file_cut m) (fb_used_block_num m)
    (fb_used m) x (fb_block_id m) (fb_rest m).
Definition set_fb_block_id (x : list Z) (m : FileBlockMeta) : FileBlockMeta :=
  MkFileBlockMeta (fb_crc m) (fb_index m) (fb_fh m) (fb_file_cut m) (fb_used_block_num m)
    (fb_used m) (fb_is_temp m) x (fb_rest m).

(** ** Field widths, in the order of the struct *)

Definition super_widths : list nat :=
  [4; 64; 4]%nat ++ replicate 21 8%nat ++ [3856]%nat.
Definition dir_widths : list nat :=
  [4; 8; 8; 4; 4; 4; 8; 8; 8; 1; 768; 199]%nat.
Definition file_widths : list nat :=
  [4; 8; 8; 4; 4; 4; 4; 8; 8; 8; 8; 4; 4; 8; 1; 1; 64; 106]%nat.
Definition file_block_widths : list nat :=
  [4; 4; 4; 4; 4; 1; 1; 4000; 74]%nat.

(** ** Field codecs: unsigned and two's complement integers, [bool], [uint32_t[]] *)

Definition enc_int (n : nat) (z : Z) : bytes := le_encode n (wrap (8 * Z.of_nat n) z).
Definition dec_u (b : bytes) : Z := le_decode b.
Definition dec_i (b : bytes) : Z := swrap (8 * Z.of_nat (length b)) (le_decode b).
Definition enc_bool (b : bool) : bytes := [if b then 1 else 0].
Definition dec_bool (b : bytes) : bool := negb (le_decode b =? 0).
Definition enc_u32s (l : list Z) : bytes := concat (enc_int 4 <$> l).
Definition dec_u32s (n : nat) (b : bytes) : list Z :=
  dec_u <$> split_fields (replicate n 4%nat) b.

(** ** The structs' bytes *)

Definition super_fields (m : SuperBlockMeta) : list bytes :=
  [enc_int 4 (sb_crc m); sb_uuid m; enc_int 4 (sb_magic m);
   enc_int 8 (sb_max_file_num m); enc_int 8 (sb_max_support_udisk_size m);
   enc_int 8 (sb_max_file_block_num m); enc_int 8 (sb_max_support_block_num m);
   enc_int 8 (sb_block_size m); enc_int 8 (sb_max_dir_name_len m);
   enc_int 8 (sb_max_file_name_len m); enc_int 8 (sb_dir_meta_size m);
   enc_int 8 (sb_file_meta_size m); enc_int 8 (sb_file_block_meta_size m);
   enc_int 8 (sb_super_block_size m); enc_int 8 (sb_dir_meta_total_size m);
   enc_int 8 (sb_file_meta_total_size m); enc_int 8 (sb_file_block_meta_total_size m);
   enc_int 8 (sb_super_block_offset m); enc_int 8 (sb_dir_meta_offset m);
   enc_int 8 (sb_file_meta_offset m); enc_int 8 (sb_file_block_meta_offset m);
   enc_int 8 (sb_block_data_start_offset m); enc_int 8 (sb_device_size m);
   enc_int 8 (sb_curr_block_num m); sb_rest m].

Definition dir_fields (m : DirMeta) : list bytes :=
  [enc_int 4 (dm_crc m); enc_int 8 (dm_dh m); enc_int 8 (dm_size m);
   enc_int 4 (dm_mode m); enc_int 4 (dm_uid m); enc_int 4 (dm_gid m);
   enc_int 8 (dm_atime m); enc_int 8 (dm_mtime m); enc_int 8 (dm_ctime m);
   enc_bool (dm_used m); dm_dir_name m; dm_rest m].

Definition file_fields (m : FileMeta) : list bytes :=
  [enc_int 4 (fm_crc m); enc_int 8 (fm_fh m); enc_int 8 (fm_size m);
   enc_int 4 (fm_nlink m); enc_int 4 (fm_mode m); enc_int 4 (fm_uid m);
   enc_int 4 (fm_gid m); enc_int 8 (fm_atime m); enc_int 8 (fm_mtime m);
   enc_int 8 (fm_ctime m); enc_int 8 (fm_dh m); enc_int 4 (fm_child_fh m);
   enc_int 4 (fm_parent_fh m); enc_int 8 (fm_parent_size m);
   enc_bool (fm_used m); enc_bool (fm_is_temp m); fm_file_name m; fm_rest m].

Definition file_block_fields (m : FileBlockMeta) : list bytes :=
  [enc_int 4 (fb_crc m); enc_int 4 (fb_index m); enc_int 4 (fb_fh m);
   enc_int 4 (fb_file_cut m); enc_int 4 (fb_used_block_num m);
   enc_bool (fb_used m); enc_bool (fb_is_temp m); enc_u32s (fb_block_id m); fb_rest m].

Definition encode_super (m : SuperBlockMeta) : bytes := concat (super_fields m).
Definition encode_dir (m : DirMeta) : bytes := concat (dir_fields m).
Definition encode_file (m : FileMeta) : bytes := concat (file_fields m).
Definition encode_file_block (m : FileBlockMeta) : bytes := concat (file_block_fields m).

(** ** Reading the structs back from bytes *)

Definition nthf (fs : list bytes) (i : nat) : bytes := nth i fs [].

Definition decode_super (b : bytes) : SuperBlockMeta :=
  let f := nthf (split_fields super_widths b) in
  MkSuperBlockMeta (dec_u (f 0%nat)) (f 1%nat) (dec_u (f 2%nat)) (dec_u (f 3%nat))
    (dec_u (f 4%nat)) (dec_u (f 5%nat)) (dec_u (f 6%nat)) (dec_u (f 7%nat)) (dec_u (f 8%nat))
    (dec_u (f 9%nat)) (dec_u (f 10%nat)) (dec_u (f 11%nat)) (dec_u (f 12%nat)) (dec_u (f 13%nat))
    (dec_u (f 14%nat)) (dec_u (f 15%nat)) (dec_u (f 16%nat)) (dec_u (f 17%nat)) (dec_u (f 18%nat))
    (dec_u (f 19%nat)) (dec_u (f 20%nat)) (dec_u (f 21%nat)) (dec_u (f 22%nat)) (dec_u (f 23%nat))
    (f 24%nat).

Definition decode_dir (b : bytes) : DirMeta :=
  let f := nthf (split_fields dir_widths b) in
  MkDirMeta (dec_u (f 0%nat)) (dec_u (f 1%nat)) (dec_u (f 2%nat)) (dec_u (f 3%nat))
    (dec_u (f 4%nat)) (dec_u (f 5%nat)) (dec_i (f 6%nat)) (dec_i (f 7%nat)) (dec_i (f 8%nat))
    (dec_bool (f 9%nat)) (f 10%nat) (f 11%nat).

Definition decode_file (b : bytes) : FileMeta :=
  let f := nthf (split_fields file_widths b) in
  MkFileMeta (dec_u (f 0%nat)) (dec_u (f 1%nat)) (dec_u (f 2%nat)) (dec_i (f 3%nat))
    (dec_u (f 4%nat)) (dec_u (f 5%nat)) (dec_u (f 6%nat)) (dec_i (f 7%nat)) (dec_i (f 8%nat))
    (dec_i (f 9%nat)) (dec_u (f 10%nat)) (dec_i (f 11%nat)) (dec_i (f 12%nat)) (dec_u (f 13%nat))
    (dec_bool (f 14%nat)) (dec_bool (f 15%nat)) (f 16%nat) (f 17%nat).

Definition decode_file_block (b : bytes) : FileBlockMeta :=
  let f := nthf (split_fields file_block_widths b) in
  MkFileBlockMeta (dec_u (f 0%nat)) (dec_u (f 1%nat)) (dec_u (f 2%nat)) (dec_u (f 3%nat))
    (dec_u (f 4%nat)) (dec_bool (f 5%nat)) (dec_bool (f 6%nat))
    (dec_u32s (Z.to_nat kFileBlockCapacity) (f 7%nat)) (f 8%nat).

(** ** In-range records: every field fits the C type it has *)

Definition in_u (w z : Z) : Prop := 0 <= z < 2 ^ w.
Definition in_i (w z : Z) : Prop := - 2 ^ (w - 1) <= z < 2 ^ (w - 1).

Record dir_wf (m : DirMeta) : Prop := {
  dw_crc : in_u 32 (dm_crc m);
  dw_dh : in_u 64 (dm_dh m);
  dw_size : in_u 64 (dm_size m);
  dw_mode : in_u 32 (dm_mode m);
  dw_uid : in_u 32 (dm_uid m);
  dw_gid : in_u 32 (dm_gid m);
  dw_atime : in_i 64 (dm_atime m);
  dw_mtime : in_i 64 (dm_mtime m);
  dw_ctime : in_i 64 (dm_ctime m);
  dw_name : length (dm_dir_name m) = 768%nat;
  dw_rest : length (dm_rest m) = 199%nat
}.

Record file_wf (m : FileMeta) : Prop := {
  fw_crc : in_u 32 (fm_crc m);
  fw_fh : in_u 64 (fm_fh m);
  fw_size : in_u 64 (fm_size m);
  fw_nlink : in_i 32 (fm_nlink m);
  fw_mode : in_u 32 (fm_mode m);
  fw_uid : in_u 32 (fm_uid m);
  fw_gid : in_u 32 (fm_gid m);
  fw_atime : in_i 64 (fm_atime m);
  fw_mtime : in_i 64 (fm_mtime m);
  fw_ctime : in_i 64 (fm_ctime m);
  fw_dh : in_u 64 (fm_dh m);
  fw_child : in_i 32 (fm_child_fh m);
  fw_parent : in_i 32 (fm_parent_fh m);
  fw_parent_size : in_u 64 (fm_parent_size m);
  fw_name : length (fm_file_name m) = 64%nat;
  fw_rest : length (fm_rest m) = 106%nat
}.

Record file_block_wf (m : FileBlockMeta) : Prop := {
  bw_crc : in_u 32 (fb_crc m);
  bw_index : in_u 32 (fb_index m);
  bw_fh : in_u 32 (fb_fh m);
  bw_cut : in_u 32 (fb_file_cut m);
  bw_num : in_u 32 (fb_used_block_num m);
  bw_ids : length (fb_block_id m) = Z.to_nat kFileBlockCapacity;
  bw_ids_range : Forall (in_u 32) (fb_block_id m);
  bw_rest : length (fb_rest m) = 74%nat
}.

Record super_wf (m : SuperBlockMeta) : Prop := {
  sw_crc : in_u 32 (sb_crc m);
  sw_uuid : length (sb_uuid m) = 64%nat;
  sw_magic : in_u 32 (sb_magic m);
  sw_counts : Forall (in_u 64)
    [sb_max_file_num m; sb_max_support_udisk_size m; sb_max_file_block_num m;
     sb_max_support_block_num m; sb_block_size m; sb_max_dir_name_len m;
     sb_max_file_name_len m; sb_dir_meta_size m; sb_file_meta_size m;
     sb_file_block_meta_size m; sb_super_block_size m; sb_dir_meta_total_size m;
     sb_file_meta_total_size m; sb_file_block_meta_total_size m; sb_super_block_offset m;
     sb_dir_meta_offset m; sb_file_meta_offset m; sb_file_block_meta_offset m;
     sb_block_data_start_offset m; sb_device_size m; sb_curr_block_num m];
  sw_rest : length (sb_rest m) = 3856%nat
}.

(** ** Field round trips *)

Lemma enc_int_length (n : nat) (z : Z) : length (enc_int n z) = n.
Proof. apply le_encode_length. Qed.

Lemma enc_bool_length (b : bool) : length (enc_bool b) = 1%nat.
Proof. done. Qed.

Lemma pow_bytes (n : nat) : 256 ^ Z.of_nat n = 2 ^ (8 * Z.of_nat n).
Proof. change 256 with (2 ^ 8). by rewrite <- Z.pow_mul_r by lia. Qed.

Lemma le_decode_enc_int (n : nat) (z : Z) :
  le_decode (enc_int n z) = wrap (8 * Z.of_nat n) z.
Proof.
  unfold enc_int. apply le_decode_encode. rewrite pow_bytes. apply wrap_bound. lia.
Qed.

Lemma dec_u_enc (n : nat) (z : Z) : in_u (8 * Z.of_nat n) z -> dec_u (enc_int n z) = z.
Proof. intros Hz. unfold dec_u. rewrite le_decode_enc_int. by apply wrap_small. Qed.

Lemma dec_i_enc (n : nat) (z : Z) :
  (0 < n)%nat -> in_i (8 * Z.of_nat n) z -> dec_i (enc_int n z) = z.
Proof.
  intros Hn Hz. unfold dec_i, in_i in *. rewrite le_decode_enc_int, enc_int_length.
  unfold swrap, wrap. rewrite Zplus_mod_idemp_l.
  apply (swrap_small (8 * Z.of_nat n) z); [lia|done].
Qed.

Lemma dec_bool_enc (b : bool) : dec_bool (enc_bool b) = b.
Proof. by destruct b. Qed.

Lemma enc_u32s_length (l : list Z) : length (enc_u32s l) = (4 * length l)%nat.
Proof.
  unfold enc_u32s. induction l as [|z l IH]; [done|].
  cbn [fmap list_fmap concat length]. rewrite length_app, enc_int_length, IH. lia.
Qed.

Lemma dec_u32s_enc (l : list Z) :
  Forall (in_u 32) l -> dec_u32s (length l) (enc_u32s l) = l.
Proof.
  unfold dec_u32s, enc_u32s. induction 1 as [|z l Hz Hl IH]; [done|].
  cbn [length replicate fmap list_fmap concat split_fields].
  rewrite take_app_length', drop_app_length' by (by rewrite enc_int_length).
  rewrite dec_u_enc by done. by f_equal.
Qed.

(** The layout of a packed struct: cutting its bytes at the field widths gives
    the fields back. *)
Lemma split_fields_exact (ws : list nat) (fs : list bytes) :
  length <$> fs = ws -> split_fields ws (concat fs) = fs.
Proof. intros <-. rewrite <- (app_nil_r (concat fs)). apply split_fields_concat. Qed.

Lemma concat_fields_length (ws : list nat) (fs : list bytes) :
  length <$> fs = ws -> length (concat fs) = sum_list ws.
Proof.
  intros <-. induction fs as [|f fs IH]; [done|].
  cbn [concat fmap list_fmap sum_list]. by rewrite length_app, IH.
Qed.

Lemma dir_fields_widths (m : DirMeta) : dir_wf m -> length <$> dir_fields m = dir_widths.
Proof.
  intros []. unfold dir_fields, dir_widths. cbn [fmap list_fmap].
  by rewrite !enc_int_length, enc_bool_length, dw_name0, dw_rest0.
Qed.

Lemma file_fields_widths (m : FileMeta) : file_wf m -> length <$> file_fields m = file_widths.
Proof.
  intros []. unfold file_fields, file_widths. cbn [fmap list_fmap].
  by rewrite !enc_int_length, !enc_bool_length, fw_name0, fw_rest0.
Qed.

Lemma file_block_fields_widths (m : FileBlockMeta) :
  file_block_wf m -> length <$> file_block_fields m = file_block_widths.
Proof.
  intros []. unfold file_block_fields, file_block_widths. cbn [fmap list_fmap].
  rewrite !enc_int_length, !enc_bool_length, enc_u32s_length, bw_ids0, bw_rest0. done.
Qed.

Lemma super_fields_widths (m : SuperBlockMeta) :
  super_wf m -> length <$> super_fields m = super_widths.
Proof.
  intros []. unfold super_fields, super_widths. cbn [fmap list_fmap replicate app].
  by rewrite !enc_int_length, sw_uuid0, sw_rest0.
Qed.

(** the decoders undo the encoders *)
Ltac field_rt := first
  [ apply dec_u_enc; assumption
  | apply dec_i_enc; [lia | assumption]
  | apply dec_bool_enc
  | reflexivity ].

Lemma decode_encode_dir_aux (m : DirMeta) : dir_wf m -> decode_dir (encode_dir m) = m.
Proof.
  intros Hwf. unfold decode_dir, encode_dir.
  rewrite (split_fields_exact dir_widths) by by apply dir_fields_widths.
  destruct Hwf, m. unfold nthf, dir_fields. cbn [nth] in *. f_equal; field_rt.
Qed.

Lemma decode_encode_file_aux (m : FileMeta) : file_wf m -> decode_file (encode_file m) = m.
Proof.
  intros Hwf. unfold decode_file, encode_file.
  rewrite (split_fields_exact file_widths) by by apply file_fields_widths.
  destruct Hwf, m. unfold nthf, file_fields. cbn [nth] in *. f_equal; field_rt.
Qed.

Lemma decode_encode_file_block_aux (m : FileBlockMeta) :
  file_block_wf m -> decode_file_block (encode_file_block m) = m.
Proof.
  intros Hwf. unfold decode_file_block, encode_file_block.
  rewrite (split_fields_exact file_block_widths) by by apply file_block_fields_widths.
  destruct Hwf as [? ? ? ? ? Hids Hr ?], m. unfold nthf, file_block_fields. cbn [nth] in *.
  f_equal; try field_rt. cbn [fb_block_id] in *. rewrite <- Hids. by apply dec_u32s_enc.
Qed.

Lemma decode_encode_super_aux (m : SuperBlockMeta) :
  super_wf m -> decode_super (encode_super m) = m.
Proof.
  intros Hwf. unfold decode_super, encode_super.
  rewrite (split_fields_exact super_widths) by by apply super_fields_widths.
  destruct Hwf as [? ? ? Hc ?], m. unfold nthf, super_fields. cbn [nth] in *.
  rewrite !Forall_cons in Hc. destruct_and! Hc. f_equal; field_rt.
Qed.
