(* ===== verification/Device.v ===== *)
(** * The block device

    Models [lib/device.cc]: the bounds checks of [PreadCache], [PwriteCache],
    [PreadDirect], [PwriteDirect], the retry loop [wrapFull] under them, and
    [Fsync] / [Close].  The kernel's answers to [pread], [pwrite] and [fsync]
    are a list of events that the calls consume in order; when the list is
    empty a call does what was asked.  Both descriptors address one byte store
    (the direct and the cached view of the device are coherent). *)

From S2P Require Import Prelude.

Definition EINTR : Z := 4.
Definition EBADF : Z := 9.

(** one answer of the kernel to a system call *)
Inductive sys_event : Set :=
  | SysFull                (** all requested bytes *)
  | SysShort (n : nat)     (** at most [n] bytes *)
  | SysFail (e : Z).       (** -1 with this [errno] *)

Record device : Set := MkDevice {
  dev_size : Z;            (** [dev_size_] *)
  dev_sector_size : Z;     (** [sector_size_] *)
  dev_fd_direct : Z;
  dev_fd_cache : Z;
  dev_store : store;       (** the bytes of the device *)
  dev_events : list sys_event
}.

Definition set_dev_store (m : store) (d : device) : device :=
  MkDevice (dev_size d) (dev_sector_size d) (dev_fd_direct d) (dev_fd_cache d) m (dev_events d).
Definition set_dev_events (l : list sys_event) (d : device) : device :=
  MkDevice (dev_size d) (dev_sector_size d) (dev_fd_direct d) (dev_fd_cache d) (dev_store d) l.

(** ** [wrapFull]: repeat a partial transfer until all of it is done

    [f ev b count offset errno a] is one system call: it returns the call's
    value, [errno] and the new state.  [b] is the position in the buffer. *)
Section WrapFull.
Context {A : Type} (f : sys_event -> nat -> nat -> Z -> Z -> A -> Z * Z * A).

Fixpoint wrapFull (evs : list sys_event) (b count : nat) (offset totalBytes errno : Z) (a : A)
    : Z * Z * A * list sys_event :=
  match evs with
  | [] =>
      let '(r, errno, a) := f SysFull b count offset errno a in
      if r =? -1 then (-1, errno, a, []) else (totalBytes + r, errno, a, [])
  | ev :: evs' =>
      let '(r, errno, a) := f ev b count offset errno a in
      if r =? -1 then
        if errno =? EINTR then
          if Nat.eqb count 0 then (totalBytes, errno, a, evs')
          else wrapFull evs' b count offset totalBytes errno a
        else (-1, errno, a, evs')
      else
        let totalBytes := totalBytes + r in
        let count := (count - Z.to_nat r)%nat in
        if negb (r =? 0) && negb (Nat.eqb count 0)
        then wrapFull evs' (b + Z.to_nat r) count (offset + r) totalBytes errno a
        else (totalBytes, errno, a, evs')
  end.
End WrapFull.

(** how many bytes one call moves *)
Definition sys_count (ev : sys_event) (count : nat) : nat :=
  match ev with SysFull => count | SysShort n => Nat.min n count | SysFail _ => 0%nat end.

(** the system calls [pread] and [pwrite] on an open descriptor *)
Definition sys_pread (fd : Z) (m : store)
    (ev : sys_event) (b count : nat) (offset errno : Z) (out : bytes) : Z * Z * bytes :=
  if fd <? 0 then (-1, EBADF, out) else
  match ev with
  | SysFail e => (-1, e, out)
  | _ => let n := sys_count ev count in (Z.of_nat n, errno, out ++ st_read m offset n)
  end.

Definition sys_pwrite (fd : Z) (buf : bytes)
    (ev : sys_event) (b count : nat) (offset errno : Z) (m : store) : Z * Z * store :=
  if fd <? 0 then (-1, EBADF, m) else
  match ev with
  | SysFail e => (-1, e, m)
  | _ => let n := sys_count ev count in (Z.of_nat n, errno, st_write m offset (slice b n buf))
  end.

Definition preadFull (fd : Z) (count : nat) (offset errno : Z) (d : device)
    : Z * Z * bytes * device :=
  let '(r, errno, out, evs) :=
    wrapFull (sys_pread fd (dev_store d)) (dev_events d) 0 count offset 0 errno [] in
  (r, errno, out, set_dev_events evs d).

Definition pwriteFull (fd : Z) (buf : bytes) (offset errno : Z) (d : device)
    : Z * Z * device :=
  let '(r, errno, m, evs) :=
    wrapFull (sys_pwrite fd buf) (dev_events d) 0 (length buf) offset 0 errno (dev_store d) in
  (r, errno, set_dev_events evs (set_dev_store m d)).

(** ** The operations of [Device]

    Each takes the current [errno] and returns the call's value, the new
    [errno], for a read the bytes it stored at the start of the buffer, and
    the device. *)

Definition dev_pread (fd : Z) (len : nat) (offset errno : Z) (d : device)
    : Z * Z * bytes * device :=
  if dev_size d <? u64 (offset + Z.of_nat len) then (-1, errno, [], d)
  else preadFull fd len offset errno d.

Definition dev_pwrite (fd : Z) (buf : bytes) (offset errno : Z) (d : device) : Z * Z * device :=
  if dev_size d <? u64 (offset + Z.of_nat (length buf)) then (-1, errno, d)
  else pwriteFull fd buf offset errno d.

Definition dev_PreadCache (len : nat) (offset errno : Z) (d : device) :=
  dev_pread (dev_fd_cache d) len offset errno d.
Definition dev_PwriteCache (buf : bytes) (offset errno : Z) (d : device) :=
  dev_pwrite (dev_fd_cache d) buf offset errno d.
Definition dev_PreadDirect (len : nat) (offset errno : Z) (d : device) :=
  dev_pread (dev_fd_direct d) len offset errno d.
Definition dev_PwriteDirect (buf : bytes) (offset errno : Z) (d : device) :=
  dev_pwrite (dev_fd_direct d) buf offset errno d.

(** one [fsync] system call *)
Definition sys_fsync (errno : Z) (d : device) : Z * Z * device :=
  match dev_events d with
  | SysFail e :: evs => (-1, e, set_dev_events evs d)
  | _ :: evs => (0, errno, set_dev_events evs d)
  | [] => (0, errno, d)
  end.

Definition dev_Fsync (errno : Z) (d : device) : Z * Z * device :=
  let cached errno d :=
    if 0 <? dev_fd_cache d then
      let '(r, errno, d) := sys_fsync errno d in
      if r <? 0 then (-1, errno, d) else (0, errno, d)
    else (0, errno, d) in
  if 0 <? dev_fd_direct d then
    let '(r, errno, d) := sys_fsync errno d in
    if r <? 0 then (-1, errno, d) else cached errno d
  else cached errno d.

Definition dev_Close (errno : Z) (d : device) : device :=
  let d :=
    if 0 <? dev_fd_cache d then
      let '(_, _, d) := dev_Fsync errno d in
      MkDevice (dev_size d) (dev_sector_size d) (dev_fd_direct d) (-1) (dev_store d) (dev_events d)
    else d in
  if 0 <? dev_fd_direct d then
    let '(_, _, d) := dev_Fsync errno d in
    MkDevice (dev_size d) (dev_sector_size d) (-1) (dev_fd_cache d) (dev_store d) (dev_events d)
  else d.

(** ** Lemmas *)

Lemma slice_take_S (b n : nat) (l : bytes) :
  take b l ++ slice b n l = take (b + n) l.
Proof. unfold slice. by rewrite take_take_drop. Qed.

(** The loop invariant of [wrapFull]: if every call either fails and changes
    nothing, or moves [r] bytes from position [b] to [b + r], then the loop ends at
    some position [n] and returns it unless it returns -1. *)
Section WrapFullInvariant.
Context {A : Type} (f : sys_event -> nat -> nat -> Z -> Z -> A -> Z * Z * A).
Context (base : Z) (total : nat) (I : nat -> A -> Prop).
Context (f_step : forall ev b count errno a, (b + count)%nat = total -> I b a ->
  let '(r, _, a') := f ev b count (base + Z.of_nat b) errno a in
  (r = -1 /\ a' = a) \/
  (exists k, (k <= count)%nat /\ r = Z.of_nat k /\ I (b + k)%nat a')).

Definition wrapFull_post (res : Z * Z * A * list sys_event) : Prop :=
  let '(r, _, a', _) := res in
  exists n, (n <= total)%nat /\ I n a' /\ (r = -1 \/ r = Z.of_nat n).

Lemma wrapFull_inv (evs : list sys_event) : forall (b count : nat) (errno : Z) (a : A),
  (b + count)%nat = total -> I b a ->
  wrapFull_post
    (wrapFull f evs b count (base + Z.of_nat b) (Z.of_nat b) errno a).
Proof using f_step.
  induction evs as [|ev evs IH]; intros b count errno a Hb Ha; cbn [wrapFull].
  - pose proof (f_step SysFull b count errno a Hb Ha) as Hf.
    destruct (f _ _ _ _ _ _) as [[r e] a']. destruct Hf as [[-> ->]|(k & Hk & -> & Hk')].
    + exists b. split; [lia|]. auto.
    + destruct (Z.eqb_spec (Z.of_nat k) (-1)); [lia|].
      exists (b + k)%nat. split; [lia|]. split; [done|right; lia].
  - pose proof (f_step ev b count errno a Hb Ha) as Hf.
    destruct (f _ _ _ _ _ _) as [[r e] a']. destruct Hf as [[-> ->]|(k & Hk & -> & Hk')].
    + rewrite Z.eqb_refl. destruct (e =? EINTR); [destruct (Nat.eqb count 0)|].
      * exists b. split; [lia|]. auto.
      * by apply IH.
      * exists b. split; [lia|]. auto.
    + destruct (Z.eqb_spec (Z.of_nat k) (-1)); [lia|]. rewrite Nat2Z.id.
      destruct (_ && _); [|exists (b + k)%nat; split; [lia|]; split; [done|right; lia]].
      replace (base + Z.of_nat b + Z.of_nat k) with (base + Z.of_nat (b + k)) by lia.
      replace (Z.of_nat b + Z.of_nat k) with (Z.of_nat (b + k)) by lia.
      apply IH; [lia|done].
Qed.
End WrapFullInvariant.

Lemma sys_count_le (ev : sys_event) (count : nat) : (sys_count ev count <= count)%nat.
Proof. destruct ev; simpl; lia. Qed.

(** A write always leaves the store with some prefix of the buffer written:
    the whole buffer when the call reports the full length. *)
Lemma pwriteFull_prefix (fd : Z) (buf : bytes) (offset errno : Z) (d : device) :
  let '(r, _, d') := pwriteFull fd buf offset errno d in
  exists n evs, (n <= length buf)%nat /\ (r = -1 \/ r = Z.of_nat n) /\
    d' = set_dev_events evs (set_dev_store (st_write (dev_store d) offset (take n buf)) d).
Proof.
  unfold pwriteFull.
  opose proof (wrapFull_inv (sys_pwrite fd buf) offset (length buf)
    (λ b m, m = st_write (dev_store d) offset (take b buf)) _
    (dev_events d) 0%nat (length buf) errno (dev_store d) eq_refl eq_refl) as H.
  { intros ev b count e m Hb ->. unfold sys_pwrite. destruct (fd <? 0); [by left|].
    destruct ev as [|k|k]; [right|right|by left];
      (eexists; split; [apply sys_count_le|]; split; [done|];
       rewrite <- slice_take_S, st_write_app; do 2 f_equal; rewrite length_take; lia). }
  rewrite Z.add_0_r in H.
  destruct (wrapFull _ _ _ _ _ _ _ _) as [[[r e] m] evs].
  destruct H as (n & Hn & -> & Hr). eauto 10.
Qed.

(** A read stores the leading bytes of the range, and changes no byte of the device. *)
Lemma preadFull_prefix (fd : Z) (count : nat) (offset errno : Z) (d : device) :
  let '(r, _, out, d') := preadFull fd count offset errno d in
  exists n evs, (n <= count)%nat /\ (r = -1 \/ r = Z.of_nat n) /\
    out = st_read (dev_store d) offset n /\ d' = set_dev_events evs d.
Proof.
  unfold preadFull.
  opose proof (wrapFull_inv (sys_pread fd (dev_store d)) offset count
    (λ b out, out = st_read (dev_store d) offset b) _
    (dev_events d) 0%nat count errno [] eq_refl eq_refl) as H.
  { intros ev b n e m Hb ->. unfold sys_pread. destruct (fd <? 0); [by left|].
    destruct ev as [|k|k]; [right|right|by left];
      (eexists; split; [apply sys_count_le|]; split; [done|]; by rewrite st_read_app). }
  rewrite Z.add_0_r in H.
  destruct (wrapFull _ _ _ _ _ _ _ _) as [[[r e] m] evs].
  destruct H as (n & Hn & -> & Hr). eauto 10.
Qed.

(** Short transfers and interrupted calls only: nothing the loop cannot repair. *)
Definition benign (ev : sys_event) : Prop :=
  match ev with SysFull => True | SysShort n => (0 < n)%nat | SysFail e => e = EINTR end.

Section WrapFullProgress.
Context {A : Type} (f : sys_event -> nat -> nat -> Z -> Z -> A -> Z * Z * A).
Context (f_full : forall b count off errno a,
  (f SysFull b count off errno a).1.1 = Z.of_nat count).
Context (f_benign : forall ev b count off errno a, benign ev ->
  let '(r, e, _) := f ev b count off errno a in
  (r = -1 /\ e = EINTR) \/
  (exists k, (k <= count)%nat /\ r = Z.of_nat k /\ (count <> 0 -> k <> 0)%nat)).

Lemma wrapFull_complete (evs : list sys_event) : forall b count off total errno a,
  Forall benign evs ->
  (wrapFull f evs b count off total errno a).1.1.1 = total + Z.of_nat count.
Proof using f_full f_benign.
  induction evs as [|ev evs IH]; intros b count off total errno a Hev; cbn [wrapFull].
  - pose proof (f_full b count off errno a) as Hf.
    destruct (f _ _ _ _ _ _) as [[r e] a']. cbn in Hf. subst r.
    destruct (Z.eqb_spec (Z.of_nat count) (-1)); [lia|done].
  - inversion Hev as [|? ? Hb Hev']; subst.
    pose proof (f_benign ev b count off errno a Hb) as Hf.
    destruct (f _ _ _ _ _ _) as [[r e] a']. destruct Hf as [[-> ->]|(k & Hk & -> & Hk')].
    + rewrite !Z.eqb_refl. destruct (Nat.eqb_spec count 0) as [->|]; [cbn; lia|by apply IH].
    + destruct (Z.eqb_spec (Z.of_nat k) (-1)); [lia|]. rewrite Nat2Z.id.
      destruct (Z.eqb_spec (Z.of_nat k) 0); destruct (Nat.eqb_spec (count - k) 0);
        cbn [negb andb fst]; try lia.
      rewrite IH by done. lia.
Qed.
End WrapFullProgress.

Lemma pwriteFull_complete (fd : Z) (buf : bytes) (offset errno : Z) (d : device) :
  0 <= fd -> Forall benign (dev_events d) ->
  (pwriteFull fd buf offset errno d).1.1 = Z.of_nat (length buf).
Proof.
  intros Hfd Hev. unfold pwriteFull.
  opose proof (wrapFull_complete (sys_pwrite fd buf) _ _ (dev_events d) 0 (length buf)
    offset 0 errno (dev_store d) Hev) as H.
  - intros. unfold sys_pwrite. by destruct (Z.ltb_spec fd 0); [lia|].
  - intros ev b count off e a Hb. unfold sys_pwrite. destruct (Z.ltb_spec fd 0); [lia|].
    destruct ev as [|k|k]; simpl in *; [right; exists count|right; exists (Nat.min k count)|by left];
      split_and!; try done; lia.
  - by destruct (wrapFull _ _ _ _ _ _ _ _) as [[[r e] m] evs].
Qed.

Lemma preadFull_complete (fd : Z) (count : nat) (offset errno : Z) (d : device) :
  0 <= fd -> Forall benign (dev_events d) ->
  (preadFull fd count offset errno d).1.1.1 = Z.of_nat count.
Proof.
  intros Hfd Hev. unfold preadFull.
  opose proof (wrapFull_complete (sys_pread fd (dev_store d)) _ _ (dev_events d) 0 count
    offset 0 errno [] Hev) as H.
  - intros. unfold sys_pread. by destruct (Z.ltb_spec fd 0); [lia|].
  - intros ev b n off e a Hb. unfold sys_pread. destruct (Z.ltb_spec fd 0); [lia|].
    destruct ev as [|k|k]; simpl in *; [right; exists n|right; exists (Nat.min k n)|by left];
      split_and!; try done; lia.
  - by destruct (wrapFull _ _ _ _ _ _ _ _) as [[[r e] m] evs].
Qed.
