(* ===== verification/DeviceOpen.v ===== *)
(** * Opening the block device

    Models [Device::Open] with the requests it makes ([lib/device.cc]), the
    search of [FileSystem::OpenTarget] for the device with a uuid
    ([lib/file_system.cc]) and the read of the super block under it
    ([lib/shm_manager.cc]).  [Kernel] is what the system answers about a path;
    the descriptors of the process are a map from number to path, in which
    [open] takes the lowest free number. *)

From S2P Require Import Prelude Meta Device.

Definition ENOTBLK : Z := 15.

(** What the kernel answers: [inl] is a failure with this [errno]. *)
Class Kernel := {
  k_is_blk : bytes -> Z + bool;  (** [stat]: the path is a block device *)
  k_open_error : bytes -> bool -> gmap Z bytes -> option Z;
    (** why [open], with [O_DIRECT] or not, is refused when these descriptors are open *)
  k_size : bytes -> Z + Z;  (** [BLKGETSIZE64] *)
  k_sector : bytes -> Z + Z;  (** [BLKSSZGET] *)
  k_store : bytes -> store;  (** the bytes of the device *)
  k_events : bytes -> list sys_event;  (** the answers to its transfers *)
  k_block_devices : list bytes * bool
    (** the entries of [/sys/block], and whether their enumeration ends in an error *)
}.

(** The [Device] object and the descriptors of the process *)
Record blk : Type := MkBlk {
  dev_name : bytes;  (** [dev_name_] *)
  blk_dev : device;
  blk_fds : gmap Z bytes;
  blk_errno : Z
}.

Definition set_blk_errno (e : Z) (s : blk) : blk := MkBlk (dev_name s) (blk_dev s) (blk_fds s) e.
Definition set_blk_dev (d : device) (s : blk) : blk := MkBlk (dev_name s) d (blk_fds s) (blk_errno s).
Definition set_blk_fds (t : gmap Z bytes) (s : blk) : blk :=
  MkBlk (dev_name s) (blk_dev s) t (blk_errno s).

(** [Device()] in a process with the descriptors [t] *)
Definition Device_init (t : gmap Z bytes) (m : store) (errno : Z) : blk :=
  MkBlk [] (MkDevice 0 0 (-1) (-1) m []) t errno.

(** the lowest number that is not open *)
Definition lowest_fd (t : gmap Z bytes) : Z :=
  default 0 (snd <$> list_find (fun fd => t !! fd = None) (seqZ 0 (Z.of_nat (S (size t))))).

Definition kBlockDeviceSda : bytes := str "/dev/sda".
Definition kBlockDeviceVda : bytes := str "/dev/vda".
Definition kBlockDeviceCurrent : bytes := str "/dev/.".
Definition kBlockDeviceParent : bytes := str "/dev/..".

Section DeviceOpen.
Context `{Kernel}.

(** [open]: the descriptor or -1 *)
Definition sys_open (name : bytes) (direct : bool) (s : blk) : Z * blk :=
  match k_open_error name direct (blk_fds s) with
  | Some e => (-1, set_blk_errno e s)
  | None => let fd := lowest_fd (blk_fds s) in (fd, set_blk_fds (<[fd := name]> (blk_fds s)) s)
  end.

Definition IsBlkDev (s : blk) : bool * blk :=
  match k_is_blk (dev_name s) with
  | inl e => (false, set_blk_errno e s)
  | inr b => (b, s)
  end.

Definition BlkDevGetSize (s : blk) : bool * blk :=
  match k_size (dev_name s) with
  | inl e => (false, set_blk_errno e s)
  | inr n =>
    let d := blk_dev s in
    (true, set_blk_dev (MkDevice (u64 n) (dev_sector_size d) (dev_fd_direct d) (dev_fd_cache d)
                          (dev_store d) (dev_events d)) s)
  end.

Definition BlkDevGetSectorSize (s : blk) : bool * blk :=
  match k_sector (dev_name s) with
  | inl e => (false, set_blk_errno e s)
  | inr n =>
    let d := blk_dev s in
    (true, set_blk_dev (MkDevice (dev_size d) (u32 n) (dev_fd_direct d) (dev_fd_cache d)
                          (dev_store d) (dev_events d)) s)
  end.

(** the paths that [Open] never touches *)
Definition name_refused (name : bytes) : bool :=
  bool_decide (name = []) || bool_decide (name = kBlockDeviceSda)
  || bool_decide (name = kBlockDeviceVda) || bool_decide (name = kBlockDeviceCurrent)
  || bool_decide (name = kBlockDeviceParent).

(** the bytes behind the direct descriptor are those of the path it was opened on *)
Definition set_direct (name : bytes) (fd : Z) (d : device) : device :=
  if fd <? 0 then MkDevice (dev_size d) (dev_sector_size d) fd (dev_fd_cache d)
                    (dev_store d) (dev_events d)
  else MkDevice (dev_size d) (dev_sector_size d) fd (dev_fd_cache d) (k_store name) (k_events name).

Definition set_cache (fd : Z) (d : device) : device :=
  MkDevice (dev_size d) (dev_sector_size d) (dev_fd_direct d) fd (dev_store d) (dev_events d).

Definition Device_Open (name : bytes) (s : blk) : bool * blk :=
  if name_refused name then (false, s)
  else
    let s := MkBlk name (blk_dev s) (blk_fds s) (blk_errno s) in
    let '(ok, s) := IsBlkDev s in
    if negb ok then (false, set_blk_errno ENOTBLK s)
    else
      let '(fd, s) := sys_open name true s in
      let s := set_blk_dev (set_direct name fd (blk_dev s)) s in
      if fd <? 0 then (false, s)
      else
        let '(fd, s) := sys_open name false s in
        let s := set_blk_dev (set_cache fd (blk_dev s)) s in
        if fd <? 0 then (false, s)
        else
          let '(ok, s) := BlkDevGetSize s in
          if negb ok then (false, s)
          else
            let '(ok, s) := BlkDevGetSectorSize s in
            if negb ok then (false, s) else (true, s).

(** [Close]: only positive descriptors are synced and closed *)
Definition Device_Close (s : blk) : blk :=
  let close fd (clear : device -> device) s :=
    let '(_, e, d) := dev_Fsync (blk_errno s) (blk_dev s) in
    MkBlk (dev_name s) (clear d) (delete fd (blk_fds s)) e in
  let s := if 0 <? dev_fd_cache (blk_dev s)
           then close (dev_fd_cache (blk_dev s)) (set_cache (-1)) s else s in
  if 0 <? dev_fd_direct (blk_dev s)
  then close (dev_fd_direct (blk_dev s)) (set_direct (dev_name s) (-1)) s else s.

(** [ShmManager::PrefetchSuperMeta(meta)]: the bytes of the super block *)
Definition PrefetchSuperMeta_bytes (s : blk) : option bytes * blk :=
  let '(n, e, out, d) := dev_PreadCache (Z.to_nat kSuperBlockSize) kSuperBlockOffset
                           (blk_errno s) (blk_dev s) in
  let s := set_blk_errno e (set_blk_dev d s) in
  ((if n =? kSuperBlockSize then Some out else None), s).

(** [std::string meta_uuid = meta.uuid_]: the bytes from the field on, to the first NUL *)
Definition meta_uuid (super : bytes) : bytes := cstr (drop 4 super).

Fixpoint open_target_loop (uuid : bytes) (entries : list bytes) (s : blk) : bool * blk :=
  match entries with
  | [] => (false, s)
  | entry :: entries' =>
    let '(ok, s) := Device_Open (str "/dev/" ++ entry) s in
    if negb ok then open_target_loop uuid entries' s
    else
      let '(meta, s) := PrefetchSuperMeta_bytes s in
      match meta with
      | Some super =>
        if bool_decide (meta_uuid super = uuid) then (true, s)
        else open_target_loop uuid entries' (Device_Close s)
      | None => open_target_loop uuid entries' (Device_Close s)
      end
  end.

(** [OpenTarget]: an error of the enumeration is caught and gives false, as its end does *)
Definition OpenTarget (uuid : bytes) (s : blk) : bool * blk :=
  let '(entries, _) := k_block_devices in open_target_loop uuid entries s.
End DeviceOpen.

(** ** Lemmas *)

Lemma lowest_fd_free (t : gmap Z bytes) : 0 <= lowest_fd t /\ t !! lowest_fd t = None.
Proof.
  unfold lowest_fd. destruct (list_find _ _) as [[i fd]|] eqn:Hf; cbn.
  - apply list_find_Some in Hf as (Hi & Hn & _). apply lookup_seqZ in Hi. split; [lia|done].
  - exfalso. apply list_find_None in Hf.
    assert (list_to_set (seqZ 0 (Z.of_nat (S (size t)))) ⊆@{gset Z} dom t) as Hs.
    { intros x Hx%elem_of_list_to_set. rewrite Forall_forall in Hf.
      apply elem_of_dom. destruct (t !! x) eqn:E; [by eexists|]. by destruct (Hf x Hx). }
    apply subseteq_size in Hs. rewrite size_list_to_set, length_seqZ in Hs by apply NoDup_seqZ.
    rewrite size_dom in Hs. lia.
Qed.

Section Lemmas.
Context `{Kernel}.

(** The device can be opened whatever descriptors are open, and answers its requests *)
Record usable (name : bytes) : Prop := {
  us_name : name_refused name = false;
  us_blk : k_is_blk name = inr true;
  us_open : forall direct t, k_open_error name direct t = None;
  us_size : exists n, k_size name = inr n;
  us_sector : exists n, k_sector name = inr n
}.

(** A step of [Open] behind the first [open] may fail *)
Definition may_leak (name : bytes) : Prop :=
  (exists t e, k_open_error name false t = Some e) \/ (exists e, k_size name = inl e) \/
  (exists e, k_sector name = inl e).

(** An open device: both descriptors are its own and positive when 0 was taken *)
Record opened (name : bytes) (t : gmap Z bytes) (s : blk) : Prop := {
  op_name : dev_name s = name;
  op_refused : name_refused name = false;
  op_blk : k_is_blk name = inr true;
  op_store : dev_store (blk_dev s) = k_store name;
  op_size : exists n, k_size name = inr n /\ dev_size (blk_dev s) = u64 n;
  op_sector : exists n, k_sector name = inr n /\ dev_sector_size (blk_dev s) = u32 n;
  op_direct : 0 <= dev_fd_direct (blk_dev s) /\ t !! dev_fd_direct (blk_dev s) = None;
  op_cache : 0 <= dev_fd_cache (blk_dev s) /\ t !! dev_fd_cache (blk_dev s) = None;
  op_distinct : dev_fd_direct (blk_dev s) <> dev_fd_cache (blk_dev s);
  op_fds : blk_fds s = <[dev_fd_cache (blk_dev s) := name]>
                        (<[dev_fd_direct (blk_dev s) := name]> t)
}.

(** [t'] has the descriptors of [t] and, besides, some of the paths in [P] *)
Definition fds_grow (P : bytes -> Prop) (t t' : gmap Z bytes) : Prop :=
  t ⊆ t' /\ forall fd x, t' !! fd = Some x -> t !! fd = Some x \/ P x.

Lemma fds_grow_refl (P : bytes -> Prop) (t : gmap Z bytes) : fds_grow P t t.
Proof. split; [done|auto]. Qed.

Lemma fds_grow_insert (P : bytes -> Prop) (t t' : gmap Z bytes) (fd : Z) (x : bytes) :
  fds_grow P t t' -> t' !! fd = None -> P x -> fds_grow P t (<[fd := x]> t').
Proof.
  intros [Hs Hn] Hf Hx. split.
  - etrans; [exact Hs|by apply insert_subseteq].
  - intros i y [[_ <-]|[_ Hi]]%lookup_insert_Some; [by right|by apply Hn].
Qed.

Lemma fds_grow_trans (P : bytes -> Prop) (t1 t2 t3 : gmap Z bytes) :
  fds_grow P t1 t2 -> fds_grow P t2 t3 -> fds_grow P t1 t3.
Proof.
  intros [H1 H2] [H3 H4]. split; [by etrans|]. intros fd x [Hx|Hx]%H4; [by apply H2|by right].
Qed.

Lemma fds_grow_mono (P Q : bytes -> Prop) (t t' : gmap Z bytes) :
  (forall x, P x -> Q x) -> fds_grow P t t' -> fds_grow Q t t'.
Proof. intros HPQ [H1 H2]. split; [done|]. intros fd x [Hx|Hx]%H2; auto. Qed.

Lemma sys_open_spec (name : bytes) (direct : bool) (s : blk) :
  let '(fd, s') := sys_open name direct s in
  (fd = -1 /\ (exists e, k_open_error name direct (blk_fds s) = Some e /\
     s' = set_blk_errno e s)) \/
  (0 <= fd /\ blk_fds s !! fd = None /\ k_open_error name direct (blk_fds s) = None /\
   s' = set_blk_fds (<[fd := name]> (blk_fds s)) s).
Proof.
  unfold sys_open. destruct (k_open_error _ _ _) as [e|] eqn:E; [left; eauto|right].
  pose proof (lowest_fd_free (blk_fds s)) as []. auto.
Qed.

Definition open_post (name : bytes) (s : blk) (res : bool * blk) : Prop :=
  let '(ok, s') := res in
  (if ok then opened name (blk_fds s) s' /\ dev_events (blk_dev s') = k_events name
   else ~ usable name /\ fds_grow (fun x => x = name /\ may_leak name) (blk_fds s) (blk_fds s')).

Lemma Device_Open_spec (name : bytes) (s : blk) : open_post name s (Device_Open name s).
Proof.
  unfold Device_Open, open_post.
  destruct (name_refused name) eqn:Hr; [split; [by intros []; congruence|apply fds_grow_refl]|].
  unfold IsBlkDev; cbn [dev_name].
  destruct (k_is_blk name) as [e|[]] eqn:Hb; cbn [negb];
    [split; [by intros []; congruence|apply fds_grow_refl]| |
     split; [by intros []; congruence|apply fds_grow_refl]].
  match goal with |- context [sys_open name true ?x] => pose proof (sys_open_spec name true x) as Ho;
    destruct (sys_open name true x) as [fd s1] end.
  destruct Ho as [(-> & e & He & ->)|(Hfd & Hf & He & ->)]; cbn -[may_leak].
  { split; [intros []; congruence|apply fds_grow_refl]. }
  destruct (Z.ltb_spec fd 0) as [|_]; [lia|]. cbn -[may_leak] in *.
  match goal with |- context [sys_open name false ?x] => pose proof (sys_open_spec name false x) as Ho;
    destruct (sys_open name false x) as [fd2 s2] end.
  destruct Ho as [(-> & e & He2 & ->)|(Hfd2 & Hf2 & He2 & ->)]; cbn -[may_leak] in *.
  { split; [intros []; congruence|]. apply fds_grow_insert; [apply fds_grow_refl|done|].
    split; [done|left; eauto]. }
  destruct (Z.ltb_spec fd2 0) as [|_]; [lia|].
  assert (may_leak name -> fds_grow (λ x, x = name /\ may_leak name) (blk_fds s)
    (<[fd2:=name]> (<[fd:=name]> (blk_fds s)))) as Hg.
  { intros Hl. repeat apply fds_grow_insert; auto using fds_grow_refl. }
  unfold BlkDevGetSize; cbn [dev_name set_blk_dev set_blk_fds].
  destruct (k_size name) as [e|n] eqn:Hs; cbn -[may_leak u64 u32].
  { split; [intros [? ? ? [? ?] ?]; congruence|]. apply Hg. right; left; eauto. }
  unfold BlkDevGetSectorSize; cbn [dev_name set_blk_dev set_blk_fds].
  destruct (k_sector name) as [e|k] eqn:Hk; cbn -[may_leak u64 u32].
  { split; [intros [? ? ? ? [? ?]]; congruence|]. apply Hg. right; right; eauto. }
  unfold set_direct. destruct (Z.ltb_spec fd 0) as [|_]; [lia|].
  apply lookup_insert_None in Hf2 as [Hf2 Hne].
  split; [|done]. by constructor; cbn -[u64 u32]; eauto.
Qed.

Lemma opened_io (name : bytes) (t : gmap Z bytes) (s : blk) (evs : list sys_event) (e : Z) :
  opened name t s ->
  opened name t (set_blk_errno e (set_blk_dev (set_dev_events evs (blk_dev s)) s)).
Proof. intros []. by constructor. Qed.

(** the super block of a device, as its bytes *)
Definition super_bytes (name : bytes) : bytes :=
  st_read (k_store name) kSuperBlockOffset (Z.to_nat kSuperBlockSize).

Lemma PrefetchSuperMeta_bytes_spec (name : bytes) (t : gmap Z bytes) (s : blk) :
  opened name t s ->
  let '(meta, s') := PrefetchSuperMeta_bytes s in
  opened name t s' /\ (forall b, meta = Some b -> b = super_bytes name) /\
  (Forall benign (dev_events (blk_dev s)) -> kSuperBlockSize <= dev_size (blk_dev s) ->
   is_Some meta).
Proof.
  intros Ho. pose proof Ho as []. unfold PrefetchSuperMeta_bytes, dev_PreadCache, dev_pread.
  change (u64 (kSuperBlockOffset + Z.of_nat (Z.to_nat kSuperBlockSize))) with kSuperBlockSize.
  destruct (Z.ltb_spec (dev_size (blk_dev s)) kSuperBlockSize) as [Hlt|Hge].
  - cbn -[kSuperBlockSize]. destruct (Z.eqb_spec (-1) kSuperBlockSize); [done|].
    split; [|split; [done|lia]]. destruct s as [? [] ? ?]. by apply (opened_io _ _ _ _ _ Ho).
  - pose proof (preadFull_prefix (dev_fd_cache (blk_dev s)) (Z.to_nat kSuperBlockSize)
      kSuperBlockOffset (blk_errno s) (blk_dev s)) as Hp.
    pose proof (preadFull_complete (dev_fd_cache (blk_dev s)) (Z.to_nat kSuperBlockSize)
      kSuperBlockOffset (blk_errno s) (blk_dev s)) as Hc.
    destruct (preadFull _ _ _ _ _) as [[[r e] out] d].
    destruct Hp as (n & evs & Hn & Hr & -> & ->). cbn [fst] in Hc.
    split; [by apply opened_io|]. destruct (Z.eqb_spec r kSuperBlockSize) as [Hrk|Hrk].
    + split; [|by eexists]. intros b [= <-]. destruct Hr as [-> | ->]; [done|].
      rewrite <- (Nat2Z.id n), Hrk, op_store0. done.
    + split; [done|]. intros Hev _. exfalso. apply Hrk.
      rewrite (Hc (proj1 op_cache0) Hev). done.
Qed.

Lemma dev_Fsync_direct (errno : Z) (d : device) :
  dev_fd_direct (dev_Fsync errno d).2 = dev_fd_direct d.
Proof.
  unfold dev_Fsync, sys_fsync. destruct d as [? ? fd1 fd2 ? evs]. cbn.
  repeat (case_match; simplify_eq/=; try done).
Qed.

(** Closing gives both descriptors back, when 0 is not one of them. *)
Lemma Device_Close_fds (name : bytes) (t : gmap Z bytes) (s : blk) :
  is_Some (t !! 0) -> opened name t s -> blk_fds (Device_Close s) = t.
Proof.
  intros [x0 H0] []. destruct op_direct0 as [Hd1 Hd2], op_cache0 as [Hc1 Hc2].
  assert (dev_fd_cache (blk_dev s) <> 0) by (intros E; rewrite E in Hc2; congruence).
  assert (dev_fd_direct (blk_dev s) <> 0) by (intros E; rewrite E in Hd2; congruence).
  unfold Device_Close. destruct (Z.ltb_spec 0 (dev_fd_cache (blk_dev s))); [|lia].
  destruct (dev_Fsync (blk_errno s) (blk_dev s)) as [[r e] d] eqn:Ef.
  assert (dev_fd_direct d = dev_fd_direct (blk_dev s)) as Ed.
  { pose proof (f_equal (fun x => dev_fd_direct x.2) Ef) as Ed. cbn in Ed. rewrite <- Ed.
    apply dev_Fsync_direct. }
  cbn. rewrite Ed. destruct (Z.ltb_spec 0 (dev_fd_direct (blk_dev s))); [|lia].
  destruct (dev_Fsync e _) as [[r' e'] d']. cbn. rewrite op_fds0.
  rewrite delete_insert_id; [by rewrite delete_insert_id|by rewrite lookup_insert_ne].
Qed.

(** A device that the search must find *)
Record target (uuid name : bytes) : Prop := {
  tg_usable : usable name;
  tg_events : Forall benign (k_events name);
  tg_size : exists n, k_size name = inr n /\ kSuperBlockSize <= u64 n;
  tg_uuid : meta_uuid (super_bytes name) = uuid
}.

Definition dev_path (entry : bytes) : bytes := str "/dev/" ++ entry.

(** the devices among [l] that may be left open *)
Definition leaks (l : list bytes) (x : bytes) : Prop :=
  exists entry, entry ∈ l /\ x = dev_path entry /\ may_leak x.

Definition search_post (uuid : bytes) (l : list bytes) (t : gmap Z bytes) (res : bool * blk)
    : Prop :=
  let '(ok, s') := res in
  if ok then
    exists l1 entry l2 t1, l = l1 ++ entry :: l2 /\
      opened (dev_path entry) t1 s' /\ fds_grow (leaks l1) t t1 /\
      meta_uuid (super_bytes (dev_path entry)) = uuid /\
      Forall (fun x => ~ target uuid (dev_path x)) l1
  else fds_grow (leaks l) t (blk_fds s') /\ Forall (fun x => ~ target uuid (dev_path x)) l.

(** One entry was tried and is not the target: the rest of the search decides. *)
Lemma search_post_cons (uuid entry : bytes) (l : list bytes) (t t1 : gmap Z bytes)
    (res : bool * blk) :
  ~ target uuid (dev_path entry) ->
  fds_grow (fun x => x = dev_path entry /\ may_leak (dev_path entry)) t t1 ->
  search_post uuid l t1 res -> search_post uuid (entry :: l) t res.
Proof.
  intros Hn Hg. assert (forall l' t2, fds_grow (leaks l') t1 t2 -> fds_grow (leaks (entry :: l')) t t2) as Hm.
  { intros l' t2 H2. eapply fds_grow_trans; (eapply fds_grow_mono; [|eassumption]).
    - intros x [-> ?]. exists entry. split_and!; [set_solver|done|done].
    - intros x (e & ? & ? & ?). exists e. split_and!; [set_solver|done|done]. }
  destruct res as [[] s']; cbn.
  - intros (l1 & e & l2 & t2 & -> & Ho & H2 & Hu & Hf). exists (entry :: l1), e, l2, t2.
    split_and!; [done|done|by apply Hm|done|by constructor].
  - intros [H2 Hf]. split; [by apply Hm|by constructor].
Qed.

Lemma open_target_loop_spec (uuid : bytes) (entries : list bytes) : forall s,
  is_Some (blk_fds s !! 0) ->
  search_post uuid entries (blk_fds s) (open_target_loop uuid entries s).
Proof.
  induction entries as [|entry l IH]; intros s H0; cbn [open_target_loop].
  { split; [apply fds_grow_refl|constructor]. }
  pose proof (Device_Open_spec (dev_path entry) s) as Ho.
  change (str "/dev/" ++ entry) with (dev_path entry).
  destruct (Device_Open _ s) as [[] s1]; cbn [negb] in *.
  - destruct Ho as [Ho Hev]. pose proof (PrefetchSuperMeta_bytes_spec _ _ _ Ho) as Hp.
    destruct (PrefetchSuperMeta_bytes s1) as [meta s2]. destruct Hp as (Ho2 & Hb & Hsome).
    assert (forall r, search_post uuid l (blk_fds s) r -> (forall b, meta = Some b ->
      meta_uuid b <> uuid) -> search_post uuid (entry :: l) (blk_fds s) r) as Hnext.
    { intros r Hr Hu. eapply search_post_cons; [|apply fds_grow_refl|exact Hr].
      intros [_ Ht (n & Hn & Hle) Hm]. destruct Ho.
      destruct op_size0 as (n' & Hn' & Hsz). rewrite Hn in Hn'. injection Hn' as <-.
      destruct Hsome as [b ->]; [by rewrite Hev|by rewrite Hsz|].
      apply (Hu b); [done|]. by rewrite (Hb b eq_refl). }
    assert (blk_fds (Device_Close s2) = blk_fds s) as Hc by by eapply Device_Close_fds.
    destruct meta as [b|]; [case_bool_decide as Hu|].
    + exists [], entry, l, (blk_fds s). rewrite (Hb b eq_refl) in Hu.
      split_and!; [done|done|apply fds_grow_refl|done|constructor].
    + apply Hnext; [|congruence]. rewrite <- Hc. apply IH. by rewrite Hc.
    + apply Hnext; [|congruence]. rewrite <- Hc. apply IH. by rewrite Hc.
  - destruct Ho as [Hn Hg]. eapply search_post_cons; [by intros []|exact Hg|].
    apply IH. destruct H0 as [x Hx]. exists x. eapply lookup_weaken; [exact Hx|apply Hg].
Qed.
End Lemmas.
