(* ===== verification/World.v ===== *)
(** * The state of a mounted file system

    The process state that the operations of [lib/] share: the metadata areas
    that [ShmManager] loads (indexed by handle; a [meta_] pointer into an area is
    the index of its record), the handles of [FileSystem::handle_vector_], the
    device, the descriptor pool, and the heap objects that are referred to by
    shared pointers ([File], [Directory], [OpenFile], [BLOCKFS_DIR]), addressed by
    an identity.  A [FileBlock] object is immutable and determined by its index,
    so a [FileBlockPtr] is that index.

    [Env] is what the code gets from elsewhere: zlib's [crc32], the iteration
    order of the hash containers, the bytes behind a string's terminator that
    [memcpy] over-reads, and the process credentials. *)

From S2P Require Import Prelude Meta Device.

Class Env := {
  crc32 : bytes -> Z;
  crc32_range : forall b, 0 <= crc32 b < 2 ^ 32;
  (** iteration order of the unordered containers *)
  pool_order : gset Z -> list Z;
  pool_order_perm : forall s, Permutation (pool_order s) (elements s);
  map_order : forall {Key} `{Countable Key}, gmap Key Z -> list (Key * Z);
  map_order_perm : forall {Key} `{Countable Key} (m : gmap Key Z),
    Permutation (map_order m) (map_to_list m);
  (** the memory behind the terminating NUL of [s.c_str()] *)
  after_cstr : bytes -> bytes;
  env_uid : Z;
  env_gid : Z
}.

(** [File] objects *)
Record file : Type := MkFile {
  fo_meta : Z;  (** index of the [FileMeta] that [meta_] points to *)
  fo_items : gmap Z Z;  (** [item_maps_]: file cut to file block index *)
  fo_nlink : Z;  (** [nlink_]: number of open descriptors *)
  fo_locked : bool;
  fo_deleted : bool
}.

Definition set_fo_meta (x : Z) (o : file) : file :=
  MkFile x (fo_items o) (fo_nlink o) (fo_locked o) (fo_deleted o).
Definition set_fo_items (x : gmap Z Z) (o : file) : file :=
  MkFile (fo_meta o) x (fo_nlink o) (fo_locked o) (fo_deleted o).
Definition set_fo_nlink (x : Z) (o : file) : file :=
  MkFile (fo_meta o) (fo_items o) x (fo_locked o) (fo_deleted o).
Definition set_fo_locked (x : bool) (o : file) : file :=
  MkFile (fo_meta o) (fo_items o) (fo_nlink o) x (fo_deleted o).
Definition set_fo_deleted (x : bool) (o : file) : file :=
  MkFile (fo_meta o) (fo_items o) (fo_nlink o) (fo_locked o) x.

(** [Directory] objects *)
Record directory : Type := MkDirectory {
  do_meta : Z;  (** index of the [DirMeta] that [meta_] points to *)
  do_items : gmap Z Z;  (** [item_maps_]: file handle to [File] object *)
  do_children : gmap Z Z;  (** [child_dir_maps_]: directory handle to [Directory] object *)
  do_nlink : Z  (** number of open streams *)
}.

Definition set_do_meta (x : Z) (o : directory) : directory :=
  MkDirectory x (do_items o) (do_children o) (do_nlink o).
Definition set_do_items (x : gmap Z Z) (o : directory) : directory :=
  MkDirectory (do_meta o) x (do_children o) (do_nlink o).
Definition set_do_children (x : gmap Z Z) (o : directory) : directory :=
  MkDirectory (do_meta o) (do_items o) x (do_nlink o).
Definition set_do_nlink (x : Z) (o : directory) : directory :=
  MkDirectory (do_meta o) (do_items o) (do_children o) x.

(** [OpenFile] objects *)
Record open_file : Type := MkOpenFile {
  of_file : Z;  (** [file_]: the [File] object *)
  of_append_pos : Z
}.

Definition set_of_file (x : Z) (o : open_file) : open_file :=
  MkOpenFile x (of_append_pos o).
Definition set_of_append_pos (x : Z) (o : open_file) : open_file :=
  MkOpenFile (of_file o) x.

(** [ParentFile] objects *)
Record parent_file : Type := MkParentFile {
  pf_meta : Z;  (** index of the inherited [FileMeta] *)
  pf_offset : Z;
  pf_fb_maps : gmap Z Z;  (** the file blocks taken over from the file *)
  pf_tmp_file : bool
}.

Definition set_pf_meta (x : Z) (o : parent_file) : parent_file :=
  MkParentFile x (pf_offset o) (pf_fb_maps o) (pf_tmp_file o).
Definition set_pf_offset (x : Z) (o : parent_file) : parent_file :=
  MkParentFile (pf_meta o) x (pf_fb_maps o) (pf_tmp_file o).
Definition set_pf_fb_maps (x : gmap Z Z) (o : parent_file) : parent_file :=
  MkParentFile (pf_meta o) (pf_offset o) x (pf_tmp_file o).
Definition set_pf_tmp_file (x : bool) (o : parent_file) : parent_file :=
  MkParentFile (pf_meta o) (pf_offset o) (pf_fb_maps o) x.

(** [block_fs_dirent] *)
Record dirent : Type := MkDirent {
  de_ino : Z;
  de_type : Z;
  de_reclen : Z;
  de_name : bytes;
  de_time : Z
}.

Definition set_de_ino (x : Z) (o : dirent) : dirent :=
  MkDirent x (de_type o) (de_reclen o) (de_name o) (de_time o).
Definition set_de_type (x : Z) (o : dirent) : dirent :=
  MkDirent (de_ino o) x (de_reclen o) (de_name o) (de_time o).
Definition set_de_reclen (x : Z) (o : dirent) : dirent :=
  MkDirent (de_ino o) (de_type o) x (de_name o) (de_time o).
Definition set_de_name (x : bytes) (o : dirent) : dirent :=
  MkDirent (de_ino o) (de_type o) (de_reclen o) x (de_time o).
Definition set_de_time (x : Z) (o : dirent) : dirent :=
  MkDirent (de_ino o) (de_type o) (de_reclen o) (de_name o) x.

(** [BLOCKFS_DIR] *)
Record dir_stream : Type := MkDirStream {
  ds_inited : bool;
  ds_fd : Z;
  ds_index : Z;
  ds_dir : Z;  (** [dir_]: the [Directory] object *)
  ds_items : list dirent
}.

Definition set_ds_inited (x : bool) (o : dir_stream) : dir_stream :=
  MkDirStream x (ds_fd o) (ds_index o) (ds_dir o) (ds_items o).
Definition set_ds_fd (x : Z) (o : dir_stream) : dir_stream :=
  MkDirStream (ds_inited o) x (ds_index o) (ds_dir o) (ds_items o).
Definition set_ds_index (x : Z) (o : dir_stream) : dir_stream :=
  MkDirStream (ds_inited o) (ds_fd o) x (ds_dir o) (ds_items o).
Definition set_ds_dir (x : Z) (o : dir_stream) : dir_stream :=
  MkDirStream (ds_inited o) (ds_fd o) (ds_index o) x (ds_items o).
Definition set_ds_items (x : list dirent) (o : dir_stream) : dir_stream :=
  MkDirStream (ds_inited o) (ds_fd o) (ds_index o) (ds_dir o) x.

(** [FdHandle] *)
Record fd_handle : Type := MkFdHandle {
  fd_max : Z;  (** [max_fd_num_] *)
  fd_pool : list Z  (** [free_fd_pool_] *)
}.

Definition set_fd_max (x : Z) (o : fd_handle) : fd_handle :=
  MkFdHandle x (fd_pool o).
Definition set_fd_pool (x : list Z) (o : fd_handle) : fd_handle :=
  MkFdHandle (fd_max o) x.

(** [BlockHandle] *)
Record block_handle : Type := MkBlockHandle {
  bh_max : Z;  (** [max_block_num_] *)
  bh_pool : gset Z  (** [block_id_pool_] *)
}.

Definition set_bh_max (x : Z) (o : block_handle) : block_handle :=
  MkBlockHandle x (bh_pool o).
Definition set_bh_pool (x : gset Z) (o : block_handle) : block_handle :=
  MkBlockHandle (bh_max o) x.

(** [DirHandle] *)
Record dir_handle : Type := MkDirHandle {
  dh_free : list Z;  (** [free_dhs_] *)
  dh_created_dirs : gmap bytes Z;  (** path to [Directory] object *)
  dh_created_dhs : gmap Z Z;  (** handle to [Directory] object *)
  dh_open_dirs : gmap Z Z  (** descriptor to [Directory] object *)
}.

Definition set_dh_free (x : list Z) (o : dir_handle) : dir_handle :=
  MkDirHandle x (dh_created_dirs o) (dh_created_dhs o) (dh_open_dirs o).
Definition set_dh_created_dirs (x : gmap bytes Z) (o : dir_handle) : dir_handle :=
  MkDirHandle (dh_free o) x (dh_created_dhs o) (dh_open_dirs o).
Definition set_dh_created_dhs (x : gmap Z Z) (o : dir_handle) : dir_handle :=
  MkDirHandle (dh_free o) (dh_created_dirs o) x (dh_open_dirs o).
Definition set_dh_open_dirs (x : gmap Z Z) (o : dir_handle) : dir_handle :=
  MkDirHandle (dh_free o) (dh_created_dirs o) (dh_created_dhs o) x.

(** [FileHandle] *)
Record file_handle : Type := MkFileHandle {
  fh_free : list Z;  (** [free_fhs_] *)
  fh_created_files : gmap (Z * bytes) Z;  (** (directory handle, name) to [File] object *)
  fh_created_fhs : gmap Z Z;  (** file handle to [File] object *)
  fh_open_files : gmap Z Z;  (** descriptor to [OpenFile] object *)
  fh_parent_files : gmap Z parent_file  (** file handle to [ParentFile] *)
}.

Definition set_fh_free (x : list Z) (o : file_handle) : file_handle :=
  MkFileHandle x (fh_created_files o) (fh_created_fhs o) (fh_open_files o) (fh_parent_files o).
Definition set_fh_created_files (x : gmap (Z * bytes) Z) (o : file_handle) : file_handle :=
  MkFileHandle (fh_free o) x (fh_created_fhs o) (fh_open_files o) (fh_parent_files o).
Definition set_fh_created_fhs (x : gmap Z Z) (o : file_handle) : file_handle :=
  MkFileHandle (fh_free o) (fh_created_files o) x (fh_open_files o) (fh_parent_files o).
Definition set_fh_open_files (x : gmap Z Z) (o : file_handle) : file_handle :=
  MkFileHandle (fh_free o) (fh_created_files o) (fh_created_fhs o) x (fh_parent_files o).
Definition set_fh_parent_files (x : gmap Z parent_file) (o : file_handle) : file_handle :=
  MkFileHandle (fh_free o) (fh_created_files o) (fh_created_fhs o) (fh_open_files o) x.

(** The process *)
Record world : Type := MkWorld {
  w_super : SuperBlockMeta;  (** the super block in memory *)
  w_dirmeta : gmap Z DirMeta;  (** the directory metadata area *)
  w_filemeta : gmap Z FileMeta;  (** the file metadata area *)
  w_fbmeta : gmap Z FileBlockMeta;  (** the file block metadata area *)
  w_dev : device;  (** [device_] *)
  w_fdh : fd_handle;  (** [fd_handle_] *)
  w_bh : block_handle;  (** [handle_vector_[kBlockHandle]] *)
  w_dh : dir_handle;  (** [handle_vector_[kDirectoryHandle]] *)
  w_fh : file_handle;  (** [handle_vector_[kFileHandle]] *)
  w_free_fbhs : list Z;  (** [handle_vector_[kFileBlockHandle]]: [free_fbhs_] *)
  w_files : gmap Z file;  (** the [File] objects of the heap *)
  w_dirs : gmap Z directory;  (** the [Directory] objects of the heap *)
  w_opens : gmap Z open_file;  (** the [OpenFile] objects of the heap *)
  w_streams : gmap Z dir_stream;  (** the [BLOCKFS_DIR] objects of the heap *)
  w_next : Z;  (** next object identity *)
  w_errno : Z;
  w_now : Z  (** the clock, in seconds *)
}.

Definition set_w_super (x : SuperBlockMeta) (w : world) : world :=
  MkWorld x (w_dirmeta w) (w_filemeta w) (w_fbmeta w) (w_dev w) (w_fdh w) (w_bh w) (w_dh w) (w_fh w) (w_free_fbhs w) (w_files w) (w_dirs w) (w_opens w) (w_streams w) (w_next w) (w_errno w) (w_now w).
Definition set_w_dirmeta (x : gmap Z DirMeta) (w : world) : world :=
  MkWorld (w_super w) x (w_filemeta w) (w_fbmeta w) (w_dev w) (w_fdh w) (w_bh w) (w_dh w) (w_fh w) (w_free_fbhs w) (w_files w) (w_dirs w) (w_opens w) (w_streams w) (w_next w) (w_errno w) (w_now w).
Definition set_w_filemeta (x : gmap Z FileMeta) (w : world) : world :=
  MkWorld (w_super w) (w_dirmeta w) x (w_fbmeta w) (w_dev w) (w_fdh w) (w_bh w) (w_dh w) (w_fh w) (w_free_fbhs w) (w_files w) (w_dirs w) (w_opens w) (w_streams w) (w_next w) (w_errno w) (w_now w).
Definition set_w_fbmeta (x : gmap Z FileBlockMeta) (w : world) : world :=
  MkWorld (w_super w) (w_dirmeta w) (w_filemeta w) x (w_dev w) (w_fdh w) (w_bh w) (w_dh w) (w_fh w) (w_free_fbhs w) (w_files w) (w_dirs w) (w_opens w) (w_streams w) (w_next w) (w_errno w) (w_now w).
Definition set_w_dev (x : device) (w : world) : world :=
  MkWorld (w_super w) (w_dirmeta w) (w_filemeta w) (w_fbmeta w) x (w_fdh w) (w_bh w) (w_dh w) (w_fh w) (w_free_fbhs w) (w_files w) (w_dirs w) (w_opens w) (w_streams w) (w_next w) (w_errno w) (w_now w).
Definition set_w_fdh (x : fd_handle) (w : world) : world :=
  MkWorld (w_super w) (w_dirmeta w) (w_filemeta w) (w_fbmeta w) (w_dev w) x (w_bh w) (w_dh w) (w_fh w) (w_free_fbhs w) (w_files w) (w_dirs w) (w_opens w) (w_streams w) (w_next w) (w_errno w) (w_now w).
Definition set_w_bh (x : block_handle) (w : world) : world :=
  MkWorld (w_super w) (w_dirmeta w) (w_filemeta w) (w_fbmeta w) (w_dev w) (w_fdh w) x (w_dh w) (w_fh w) (w_free_fbhs w) (w_files w) (w_dirs w) (w_opens w) (w_streams w) (w_next w) (w_errno w) (w_now w).
Definition set_w_dh (x : dir_handle) (w : world) : world :=
  MkWorld (w_super w) (w_dirmeta w) (w_filemeta w) (w_fbmeta w) (w_dev w) (w_fdh w) (w_bh w) x (w_fh w) (w_free_fbhs w) (w_files w) (w_dirs w) (w_opens w) (w_streams w) (w_next w) (w_errno w) (w_now w).
Definition set_w_fh (x : file_handle) (w : world) : world :=
  MkWorld (w_super w) (w_dirmeta w) (w_filemeta w) (w_fbmeta w) (w_dev w) (w_fdh w) (w_bh w) (w_dh w) x (w_free_fbhs w) (w_files w) (w_dirs w) (w_opens w) (w_streams w) (w_next w) (w_errno w) (w_now w).
Definition set_w_free_fbhs (x : list Z) (w : world) : world :=
  MkWorld (w_super w) (w_dirmeta w) (w_filemeta w) (w_fbmeta w) (w_dev w) (w_fdh w) (w_bh w) (w_dh w) (w_fh w) x (w_files w) (w_dirs w) (w_opens w) (w_streams w) (w_next w) (w_errno w) (w_now w).
Definition set_w_files (x : gmap Z file) (w : world) : world :=
  MkWorld (w_super w) (w_dirmeta w) (w_filemeta w) (w_fbmeta w) (w_dev w) (w_fdh w) (w_bh w) (w_dh w) (w_fh w) (w_free_fbhs w) x (w_dirs w) (w_opens w) (w_streams w) (w_next w) (w_errno w) (w_now w).
Definition set_w_dirs (x : gmap Z directory) (w : world) : world :=
  MkWorld (w_super w) (w_dirmeta w) (w_filemeta w) (w_fbmeta w) (w_dev w) (w_fdh w) (w_bh w) (w_dh w) (w_fh w) (w_free_fbhs w) (w_files w) x (w_opens w) (w_streams w) (w_next w) (w_errno w) (w_now w).
Definition set_w_opens (x : gmap Z open_file) (w : world) : world :=
  MkWorld (w_super w) (w_dirmeta w) (w_filemeta w) (w_fbmeta w) (w_dev w) (w_fdh w) (w_bh w) (w_dh w) (w_fh w) (w_free_fbhs w) (w_files w) (w_dirs w) x (w_streams w) (w_next w) (w_errno w) (w_now w).
Definition set_w_streams (x : gmap Z dir_stream) (w : world) : world :=
  MkWorld (w_super w) (w_dirmeta w) (w_filemeta w) (w_fbmeta w) (w_dev w) (w_fdh w) (w_bh w) (w_dh w) (w_fh w) (w_free_fbhs w) (w_files w) (w_dirs w) (w_opens w) x (w_next w) (w_errno w) (w_now w).
Definition set_w_next (x : Z) (w : world) : world :=
  MkWorld (w_super w) (w_dirmeta w) (w_filemeta w) (w_fbmeta w) (w_dev w) (w_fdh w) (w_bh w) (w_dh w) (w_fh w) (w_free_fbhs w) (w_files w) (w_dirs w) (w_opens w) (w_streams w) x (w_errno w) (w_now w).
Definition set_w_errno (x : Z) (w : world) : world :=
  MkWorld (w_super w) (w_dirmeta w) (w_filemeta w) (w_fbmeta w) (w_dev w) (w_fdh w) (w_bh w) (w_dh w) (w_fh w) (w_free_fbhs w) (w_files w) (w_dirs w) (w_opens w) (w_streams w) (w_next w) x (w_now w).
Definition set_w_now (x : Z) (w : world) : world :=
  MkWorld (w_super w) (w_dirmeta w) (w_filemeta w) (w_fbmeta w) (w_dev w) (w_fdh w) (w_bh w) (w_dh w) (w_fh w) (w_free_fbhs w) (w_files w) (w_dirs w) (w_opens w) (w_streams w) (w_next w) (w_errno w) x.

(** ** [errno] values *)

Definition EPERM : Z := 1.
Definition ENOENT : Z := 2.
Definition ENOMEM : Z := 12.
Definition EACCES : Z := 13.
Definition EBUSY : Z := 16.
Definition EEXIST : Z := 17.
Definition ENOTDIR : Z := 20.
Definition EISDIR : Z := 21.
Definition EINVAL : Z := 22.
Definition ENFILE : Z := 23.
Definition EMFILE : Z := 24.
Definition ENAMETOOLONG : Z := 36.
Definition ENOLCK : Z := 37.
Definition ENOTEMPTY : Z := 39.

Abbreviation Fs A := (prog world A).

(** ** The heap and the metadata areas *)

Definition set_errno (e : Z) : Fs unit := modify (set_w_errno e).

(** [std::make_shared]: a fresh identity *)
Definition fresh : Fs Z :=
  let! i := gets w_next in modify (set_w_next (i + 1)) ;; ret i.

Definition get_file (f : Z) : Fs file :=
  let! m := gets w_files in deref (m !! f).
Definition put_file (f : Z) (o : file) : Fs unit :=
  modify (fun w => set_w_files (<[f := o]> (w_files w)) w).
Definition upd_file (f : Z) (g : file -> file) : Fs unit :=
  let! o := get_file f in put_file f (g o).

Definition get_dir (d : Z) : Fs directory :=
  let! m := gets w_dirs in deref (m !! d).
Definition put_dir (d : Z) (o : directory) : Fs unit :=
  modify (fun w => set_w_dirs (<[d := o]> (w_dirs w)) w).
Definition upd_dir (d : Z) (g : directory -> directory) : Fs unit :=
  let! o := get_dir d in put_dir d (g o).

Definition get_open (f : Z) : Fs open_file :=
  let! m := gets w_opens in deref (m !! f).
Definition put_open (f : Z) (o : open_file) : Fs unit :=
  modify (fun w => set_w_opens (<[f := o]> (w_opens w)) w).

Definition get_filemeta (i : Z) : Fs FileMeta :=
  let! m := gets w_filemeta in in_bounds (m !! i).
Definition put_filemeta (i : Z) (x : FileMeta) : Fs unit :=
  modify (fun w => set_w_filemeta (<[i := x]> (w_filemeta w)) w).
Definition upd_filemeta (i : Z) (g : FileMeta -> FileMeta) : Fs unit :=
  let! x := get_filemeta i in put_filemeta i (g x).

Definition get_dirmeta (i : Z) : Fs DirMeta :=
  let! m := gets w_dirmeta in in_bounds (m !! i).
Definition put_dirmeta (i : Z) (x : DirMeta) : Fs unit :=
  modify (fun w => set_w_dirmeta (<[i := x]> (w_dirmeta w)) w).
Definition upd_dirmeta (i : Z) (g : DirMeta -> DirMeta) : Fs unit :=
  let! x := get_dirmeta i in put_dirmeta i (g x).

Definition get_fbmeta (i : Z) : Fs FileBlockMeta :=
  let! m := gets w_fbmeta in in_bounds (m !! i).
Definition put_fbmeta (i : Z) (x : FileBlockMeta) : Fs unit :=
  modify (fun w => set_w_fbmeta (<[i := x]> (w_fbmeta w)) w).
Definition upd_fbmeta (i : Z) (g : FileBlockMeta -> FileBlockMeta) : Fs unit :=
  let! x := get_fbmeta i in put_fbmeta i (g x).

(** ** The device operations on the process state *)

Definition PwriteDirect (buf : bytes) (offset : Z) : Fs Z := fun w =>
  let '(r, e, d) := dev_PwriteDirect buf offset (w_errno w) (w_dev w) in
  Done r (set_w_errno e (set_w_dev d w)).
Definition PwriteCache (buf : bytes) (offset : Z) : Fs Z := fun w =>
  let '(r, e, d) := dev_PwriteCache buf offset (w_errno w) (w_dev w) in
  Done r (set_w_errno e (set_w_dev d w)).
Definition PreadDirect (len : nat) (offset : Z) : Fs (Z * bytes) := fun w =>
  let '(r, e, out, d) := dev_PreadDirect len offset (w_errno w) (w_dev w) in
  Done (r, out) (set_w_errno e (set_w_dev d w)).
Definition PreadCache (len : nat) (offset : Z) : Fs (Z * bytes) := fun w =>
  let '(r, e, out, d) := dev_PreadCache len offset (w_errno w) (w_dev w) in
  Done (r, out) (set_w_errno e (set_w_dev d w)).
Definition Fsync : Fs Z := fun w =>
  let '(r, e, d) := dev_Fsync (w_errno w) (w_dev w) in
  Done r (set_w_errno e (set_w_dev d w)).
