(* ===== verification/SuperBlock.v ===== *)
(** * The super block

    Models [lib/super_block.cc]: the layout that [FormatAllMeta] computes in
    64-bit unsigned arithmetic and writes to the device, the checks of
    [InitializeMeta] and [WriteMeta]. *)

From S2P Require Import Prelude Meta Device World.

(** ** The macros of [comm_utils.h], on [uint64_t] *)

Definition ALIGN_UP (size align : Z) : Z := u64 (size + u64 (align - 1)) / align.
Definition ROUND_UP (size align : Z) : Z := u64 (u64 (size + u64 (align - 1)) / align * align).

Definition kUuid : bytes :=
  str "12345678901234567890123456789012345678901234567890123456789".

(** [std::strcpy] into a zeroed array of [n] bytes *)
Definition strcpy0 (n : nat) (s : bytes) : bytes := s ++ replicate (n - length s) 0.

(** The fields that [FormatAllMeta] fills in for a device of [dev_size] bytes, the
    checksum still zero. *)
Definition format_super_layout (dev_size : Z) : SuperBlockMeta :=
  let max_file_num := kMaxFileNum in
  let max_support_udisk_size := kBlockFsMaxUDiskSize in
  let block_size := kBlockSize in
  let dir_meta_size := kBlockFsDirMetaSize in
  let file_meta_size := kBlockFsFileMetaSize in
  let file_block_meta_size := kBlockFsFileBlockMetaSize in
  let dir_meta_offset := kDirMetaOffset in
  let dir_meta_total_size := u64 (dir_meta_size * max_file_num) in
  let dir_meta_total_size := ROUND_UP dir_meta_total_size kBlockFsPageSize in
  let file_meta_offset := u64 (dir_meta_offset + dir_meta_total_size) in
  let file_meta_total_size := u64 (file_meta_size * max_file_num) in
  let file_meta_total_size := ROUND_UP file_meta_total_size kBlockFsPageSize in
  let file_block_meta_offset := u64 (file_meta_offset + file_meta_total_size) in
  let tmpNum1 := u64 (max_file_num - 1) in
  let tmpSize1 := u64 (tmpNum1 * file_block_meta_size) in
  let tmpNum2 := ALIGN_UP (u64 (max_support_udisk_size - tmpSize1))
                          (u64 (block_size * kFileBlockCapacity)) in
  let tmpSize2 := u64 (tmpNum2 * file_block_meta_size) in
  let file_block_meta_total_size := ROUND_UP (u64 (tmpSize1 + tmpSize2)) kBlockFsPageSize in
  let max_file_block_num := u64 (tmpNum1 + tmpNum2) in
  let block_data_start_offset := u64 (file_block_meta_offset + file_block_meta_total_size) in
  let block_data_start_offset := ROUND_UP block_data_start_offset kBlockSize in
  let device_size := dev_size in
  let free_udisk_size := u64 (device_size - block_data_start_offset) in
  let curr_block_num := free_udisk_size / kBlockSize in
  let max_support_block_num :=
    u64 (max_support_udisk_size - block_data_start_offset) / kBlockSize in
  {| sb_crc := 0;
     sb_uuid := strcpy0 64 kUuid;
     sb_magic := kBlockFsMagic;
     sb_max_file_num := max_file_num;
     sb_max_support_udisk_size := max_support_udisk_size;
     sb_max_file_block_num := max_file_block_num;
     sb_max_support_block_num := max_support_block_num;
     sb_block_size := block_size;
     sb_max_dir_name_len := kBlockFsMaxDirNameLen;
     sb_max_file_name_len := kBlockFsMaxFileNameLen;
     sb_dir_meta_size := dir_meta_size;
     sb_file_meta_size := file_meta_size;
     sb_file_block_meta_size := file_block_meta_size;
     sb_super_block_size := kSuperBlockSize;
     sb_dir_meta_total_size := dir_meta_total_size;
     sb_file_meta_total_size := file_meta_total_size;
     sb_file_block_meta_total_size := file_block_meta_total_size;
     sb_super_block_offset := kSuperBlockOffset;
     sb_dir_meta_offset := dir_meta_offset;
     sb_file_meta_offset := file_meta_offset;
     sb_file_block_meta_offset := file_block_meta_offset;
     sb_block_data_start_offset := block_data_start_offset;
     sb_device_size := device_size;
     sb_curr_block_num := curr_block_num;
     sb_rest := replicate 3856 0 |}.

Section SuperBlock.
Context `{Env}.

(** [Crc32(meta + sizeof(crc_), kSuperBlockSize - sizeof(crc_))] *)
Definition super_crc (m : SuperBlockMeta) : Z := crc32 (drop 4 (encode_super m)).

Definition SuperBlock_WriteMeta : Fs bool :=
  let! m := gets w_super in
  let m := set_sb_crc (super_crc m) m in
  modify (set_w_super m) ;;
  let! r := PwriteDirect (encode_super m) kSuperBlockOffset in
  ret (r =? kSuperBlockSize).

Definition SuperBlock_FormatAllMeta : Fs bool :=
  let! d := gets w_dev in
  let m := format_super_layout (dev_size d) in
  let m := set_sb_crc (super_crc m) m in
  modify (set_w_super m) ;;
  let! r := PwriteDirect (encode_super m) kSuperBlockOffset in
  ret (r =? kSuperBlockSize).

Definition super_valid (m : SuperBlockMeta) : bool :=
  if negb (sb_crc m =? super_crc m) then false
  else if negb (sb_magic m =? kBlockFsMagic) then false
  else true.

Definition SuperBlock_InitializeMeta : Fs bool :=
  let! m := gets w_super in ret (super_valid m).
End SuperBlock.

(** ** A usable layout

    What the other components need of the super block: record sizes, regions in
    order and large enough, page granularity, the data region inside the device. *)
Record layout_ok (sb : SuperBlockMeta) : Prop := {
  lo_block_size : sb_block_size sb = kBlockSize;
  lo_dir_size : sb_dir_meta_size sb = kBlockFsDirMetaSize;
  lo_file_size : sb_file_meta_size sb = kBlockFsFileMetaSize;
  lo_fb_size : sb_file_block_meta_size sb = kBlockFsFileBlockMetaSize;
  lo_max_file : 0 < sb_max_file_num sb < 2 ^ 31;
  lo_max_fb : 0 <= sb_max_file_block_num sb < 2 ^ 31;
  lo_dir_off : kSuperBlockSize <= sb_dir_meta_offset sb;
  lo_dir_total : sb_max_file_num sb * kBlockFsDirMetaSize <= sb_dir_meta_total_size sb;
  lo_dir_page : sb_dir_meta_total_size sb mod kBlockFsPageSize = 0;
  lo_file_off : sb_dir_meta_offset sb + sb_dir_meta_total_size sb <= sb_file_meta_offset sb;
  lo_file_total : sb_max_file_num sb * kBlockFsFileMetaSize <= sb_file_meta_total_size sb;
  lo_file_page : sb_file_meta_total_size sb mod kBlockFsPageSize = 0;
  lo_fb_off : sb_file_meta_offset sb + sb_file_meta_total_size sb <= sb_file_block_meta_offset sb;
  lo_fb_total :
    sb_max_file_block_num sb * kBlockFsFileBlockMetaSize <= sb_file_block_meta_total_size sb;
  lo_data : sb_file_block_meta_offset sb + sb_file_block_meta_total_size sb
            <= sb_block_data_start_offset sb;
  lo_blocks : 0 <= sb_curr_block_num sb < 2 ^ 32;
  lo_device : sb_block_data_start_offset sb + kBlockSize * sb_curr_block_num sb
              <= sb_device_size sb;
  lo_device_max : sb_device_size sb <= kBlockFsMaxUDiskSize
}.

(** start of the data region that [FormatAllMeta] computes: 161 blocks *)
Definition format_data_start : Z := 161 * kBlockSize.

Lemma format_layout_data_start (dev_size : Z) :
  sb_block_data_start_offset (format_super_layout dev_size) = format_data_start.
Proof. reflexivity. Qed.

Lemma format_layout_blocks (dev_size : Z) :
  format_data_start <= dev_size < 2 ^ 64 ->
  sb_curr_block_num (format_super_layout dev_size) = (dev_size - format_data_start) / kBlockSize.
Proof.
  intros Hd. change (sb_curr_block_num (format_super_layout dev_size))
    with (u64 (dev_size - format_data_start) / kBlockSize).
  rewrite wrap_small; [done|]. unfold format_data_start, kBlockSize, Units.M, Units.K in *. lia.
Qed.

Lemma layout_ok_set_crc (c : Z) (sb : SuperBlockMeta) :
  layout_ok sb -> layout_ok (set_sb_crc c sb).
Proof. intros []. by constructor. Qed.

Lemma format_layout_ok (dev_size : Z) :
  format_data_start <= dev_size <= kBlockFsMaxUDiskSize ->
  layout_ok (format_super_layout dev_size).
Proof.
  intros Hd.
  assert (format_data_start <= dev_size < 2 ^ 64) as Hd64.
  { unfold format_data_start, kBlockFsMaxUDiskSize, Units.T, Units.G, Units.M, Units.K in Hd |- *. lia. }
  assert (Hblk : kBlockSize = 4194304) by reflexivity.
  assert (Hst : format_data_start = 675282944) by reflexivity.
  assert (Hmx : kBlockFsMaxUDiskSize = 140737488355328) by reflexivity.
  pose proof (Z.div_mod (dev_size - format_data_start) kBlockSize ltac:(lia)) as Hdm.
  pose proof (Z.mod_pos_bound (dev_size - format_data_start) kBlockSize ltac:(lia)) as Hmb.
  pose proof (Z.div_pos (dev_size - format_data_start) kBlockSize ltac:(lia) ltac:(lia)) as Hp.
  constructor;
    lazymatch goal with
    | |- context [sb_curr_block_num] => idtac
    | |- context [sb_device_size] => idtac
    | _ => vm_compute; intuition congruence
    end.
  - rewrite format_layout_blocks by done. lia.
  - rewrite format_layout_blocks by done.
    change (sb_block_data_start_offset _) with format_data_start.
    change (sb_device_size _) with dev_size. lia.
  - change (sb_device_size _) with dev_size. lia.
Qed.
