(* ===== verification/Resources.v ===== *)
(** * The pools of descriptors and block ids

    Models [lib/fd_handle.h] ([FdHandle]) and [lib/block_handle.h],
    [lib/block_handle.cc] ([BlockHandle]). *)

From S2P Require Import Prelude Meta Device World.

(** ** [FdHandle] *)
Module Fd.

(** the constructor: descriptors [0 .. max_fd_num_ - 1] in order *)
Definition FdHandle_init : fd_handle :=
  let max_fd_num := Z.shiftl kMaxFileNum 1 in MkFdHandle max_fd_num (seqZ 0 max_fd_num).

Definition get_fd : Fs Z :=
  let! h := gets w_fdh in
  match fd_pool h with
  | [] => set_errno EMFILE ;; ret (-1)
  | fd :: pool => modify (set_w_fdh (set_fd_pool pool h)) ;; ret fd
  end.

Definition put_fd (fd : Z) : Fs unit :=
  let! h := gets w_fdh in
  if fd_max h <? fd then ret tt
  else modify (set_w_fdh (set_fd_pool (fd_pool h ++ [fd]) h)).

End Fd.

(** ** [BlockHandle] *)
Module Blocks.
Section Blocks.
Context `{Env}.

(** the loop of [InitializeMeta] that adds the ids [max_block_num_ .. n - 1] *)
Definition add_ids (from n : Z) (pool : gset Z) : gset Z :=
  foldl (fun pool i => {[i]} ∪ pool) pool (seqZ from (n - from)).

Definition BlockHandle_InitializeMeta : Fs bool :=
  let! sb := gets w_super in
  let! h := gets w_bh in
  let new_max_block_num := u32 (sb_curr_block_num sb) in
  modify (set_w_bh (MkBlockHandle new_max_block_num
                      (add_ids (bh_max h) new_max_block_num (bh_pool h)))) ;;
  ret true.

Definition GetFreeBlockNum : Fs Z :=
  let! h := gets w_bh in ret (Z.of_nat (size (bh_pool h))).

Definition GetSpecificBlockId (block_id : Z) : Fs bool :=
  let! h := gets w_bh in
  if decide (block_id ∈ bh_pool h) then
    modify (set_w_bh (set_bh_pool (bh_pool h ∖ {[block_id]}) h)) ;; ret true
  else ret false.

(** the loop that moves [n] ids, in iteration order, out of the pool *)
Fixpoint take_ids (n : nat) (order : list Z) (pool : gset Z) (block_ids : list Z)
    : list Z * gset Z :=
  match n, order with
  | S n', i :: order' => take_ids n' order' (pool ∖ {[i]}) (block_ids ++ [i])
  | _, _ => (block_ids, pool)
  end.

(** [None] is the failure; on success the vector holds the ids *)
Definition GetFreeBlockIdLock (block_id_num : Z) : Fs (option (list Z)) :=
  let! h := gets w_bh in
  if Z.of_nat (size (bh_pool h)) <? block_id_num then ret None
  else
    let '(block_ids, pool) :=
      take_ids (Z.to_nat block_id_num) (pool_order (bh_pool h)) (bh_pool h) [] in
    modify (set_w_bh (set_bh_pool pool h)) ;; ret (Some block_ids).

Definition PutFreeBlockIdLock (block_id : Z) : Fs bool :=
  let! h := gets w_bh in
  modify (set_w_bh (set_bh_pool ({[block_id]} ∪ bh_pool h) h)) ;; ret true.

Definition PutFreeBlockIdsLock (block_ids : list Z) : Fs bool :=
  match block_ids with
  | [] => ret false
  | _ =>
    let! h := gets w_bh in
    modify (set_w_bh (set_bh_pool (foldl (fun pool i => {[i]} ∪ pool) (bh_pool h) block_ids) h)) ;;
    ret true
  end.

(** *** Lemmas *)

Lemma foldl_union_elem (l : list Z) (s : gset Z) (x : Z) :
  x ∈ foldl (fun pool i => {[i]} ∪ pool) s l <-> x ∈ s \/ x ∈ l.
Proof.
  revert s. induction l as [|i l IH]; intros s; cbn [foldl]; [set_solver|].
  rewrite IH. set_solver.
Qed.

Lemma add_ids_elem (from n : Z) (pool : gset Z) (x : Z) :
  x ∈ add_ids from n pool <-> x ∈ pool \/ from <= x < n.
Proof. unfold add_ids. rewrite foldl_union_elem, elem_of_seqZ. f_equiv. lia. Qed.

Lemma take_ids_eq (n : nat) (order : list Z) (pool : gset Z) (acc : list Z) :
  take_ids n order pool acc = (acc ++ take n order, pool ∖ list_to_set (take n order)).
Proof.
  revert order pool acc. induction n as [|n IH]; intros [|i order] pool acc;
    cbn [take_ids take list_to_set]; try (f_equal; [by rewrite app_nil_r|set_solver]).
  rewrite IH, <- app_assoc. f_equal. apply set_eq. set_solver.
Qed.

Lemma pool_order_NoDup (s : gset Z) : NoDup (pool_order s).
Proof. rewrite pool_order_perm. apply NoDup_elements. Qed.

Lemma pool_order_elem (s : gset Z) (x : Z) : x ∈ pool_order s <-> x ∈ s.
Proof. rewrite pool_order_perm. apply elem_of_elements. Qed.

Lemma pool_order_length (s : gset Z) : length (pool_order s) = size s.
Proof. by rewrite pool_order_perm. Qed.

(** the ids that are handed out *)
Definition free_ids (n : Z) (pool : gset Z) : list Z := take (Z.to_nat n) (pool_order pool).

Lemma free_ids_spec (n : Z) (pool : gset Z) :
  0 <= n <= Z.of_nat (size pool) ->
  length (free_ids n pool) = Z.to_nat n /\ NoDup (free_ids n pool) /\
  (forall x, x ∈ free_ids n pool -> x ∈ pool).
Proof.
  intros Hn. unfold free_ids. split; [rewrite length_take, pool_order_length; lia|].
  split.
  - eapply sublist_NoDup; [apply pool_order_NoDup|apply sublist_take].
  - intros x Hx. apply pool_order_elem. by eapply elem_of_take in Hx as (?&?&?); eapply list_elem_of_lookup_2.
Qed.

Lemma GetFreeBlockIdLock_eq (n : Z) (w : world) :
  GetFreeBlockIdLock n w =
    if Z.of_nat (size (bh_pool (w_bh w))) <? n then Done None w
    else Done (Some (free_ids n (bh_pool (w_bh w))))
      (set_w_bh (set_bh_pool
        (bh_pool (w_bh w) ∖ list_to_set (free_ids n (bh_pool (w_bh w)))) (w_bh w)) w).
Proof.
  unfold GetFreeBlockIdLock, bind, gets. destruct (_ <? n); [done|].
  rewrite take_ids_eq. done.
Qed.

End Blocks.
End Blocks.
