(* ===== verification/Paths.v ===== *)
(** * Paths

    Models [GetFileName] and [GetDirName] of [lib/comm_utils.h] and the two
    [TransformPath] functions of [lib/file_handle.cc] and [lib/dir_handle.cc].

    They test [path[path.size() - 1]], which for an empty path is the byte in front
    of the string's buffer.  There a short string of libstdc++ on a little-endian
    machine has the highest byte of its size, 0, and the functions here take it for
    no slash; the theorems on calls that could pass an empty path ask for another. *)

From S2P Require Import Prelude Meta World.

Definition slash : Z := 47.

(** [std::string::rfind] of a character *)
Fixpoint rfind (ch : Z) (l : bytes) : option nat :=
  match l with
  | [] => None
  | b :: l' =>
    match rfind ch l' with
    | Some p => Some (S p)
    | None => if b =? ch then Some 0%nat else None
    end
  end.

(** drop the trailing occurrences of a character *)
Fixpoint rstrip (ch : Z) (l : bytes) : bytes :=
  match l with
  | [] => []
  | b :: l' =>
    match rstrip ch l' with
    | [] => if b =? ch then [] else [b]
    | r => b :: r
    end
  end.

(** [std::filesystem::path::parent_path] on POSIX paths: a path without a
    relative part is its own parent; otherwise the last element and the
    separators before it go, except the root directory. *)
Definition parent_path (p : bytes) : bytes :=
  if forallb (fun b => b =? slash) p then p
  else match rfind slash p with
       | None => []
       | Some k => match rstrip slash (take k p) with [] => [slash] | d => d end
       end.

Definition GetFileName (path : bytes) : bytes :=
  match rfind slash path with
  | None => path
  | Some pos => drop (S pos) path
  end.

Definition ends_with_slash (p : bytes) : bool :=
  match last p with Some b => b =? slash | None => false end.

(** [pop_back] *)
Definition pop_back (p : bytes) : bytes := take (pred (length p)) p.

Definition GetDirName (path : bytes) : bytes :=
  if decide (path = [slash]) then path
  else
    let tmp := if ends_with_slash path then pop_back path else path in
    let parent := parent_path tmp in
    if decide (parent = [slash]) then parent else parent ++ [slash].

(** [DirHandle::TransformPath]: [None] is the failure with [ENAMETOOLONG] *)
Definition dir_TransformPath (path : bytes) : Fs (option bytes) :=
  let dir_name := if ends_with_slash path then path else path ++ [slash] in
  if kBlockFsMaxDirNameLen <=? Z.of_nat (length dir_name) then
    set_errno ENAMETOOLONG ;; ret None
  else ret (Some dir_name).

(** [FileHandle::TransformPath] *)
Definition file_TransformPath (filename : bytes) : Fs (option (bytes * bytes)) :=
  if ends_with_slash filename then set_errno ENOTDIR ;; ret None
  else
    let new_dirname := GetDirName filename in
    let new_filename := GetFileName filename in
    if kBlockFsMaxFileNameLen <=? Z.of_nat (length new_filename) then
      set_errno ENAMETOOLONG ;; ret None
    else ret (Some (new_dirname, new_filename)).

(** [DirHandle::IsMountPoint] *)
Definition IsMountPoint (dirname : bytes) : bool := bool_decide (dirname = [slash]).

(** ** Lemmas *)

Lemma rfind_app (ch : Z) (l1 l2 : bytes) :
  ch ∉ l2 -> rfind ch (l1 ++ ch :: l2) = Some (length l1).
Proof.
  intros Hn. assert (Hno : rfind ch l2 = None).
  { induction l2 as [|b l IH]; [done|]. simpl. rewrite IH by set_solver.
    destruct (Z.eqb_spec b ch); set_solver. }
  induction l1 as [|b l1 IH]; simpl.
  - by rewrite Hno, Z.eqb_refl.
  - by rewrite IH.
Qed.

Lemma rfind_None (ch : Z) (l : bytes) : rfind ch l = None -> ch ∉ l.
Proof.
  induction l as [|b l IH]; simpl; [set_solver|].
  destruct (rfind ch l); [done|]. destruct (Z.eqb_spec b ch); [done|]. set_solver.
Qed.

Lemma rfind_Some (ch : Z) (l : bytes) (k : nat) :
  rfind ch l = Some k -> exists l1 l2, l = l1 ++ ch :: l2 /\ length l1 = k /\ ch ∉ l2.
Proof.
  revert k. induction l as [|b l IH]; intros k; simpl; [done|].
  destruct (rfind ch l) as [p|] eqn:Hp.
  - intros [= <-]. destruct (IH p eq_refl) as (l1 & l2 & -> & <- & ?).
    by exists (b :: l1), l2.
  - destruct (Z.eqb_spec b ch) as [->|]; [|done]. intros [= <-].
    exists [], l. split_and!; try done. by apply rfind_None.
Qed.

Lemma rstrip_no_trail (ch : Z) (l : bytes) (b : Z) : b <> ch -> rstrip ch (l ++ [b]) = l ++ [b].
Proof.
  intros Hb. induction l as [|a l IH]; simpl.
  - destruct (Z.eqb_spec b ch); done.
  - rewrite IH. by destruct l.
Qed.

Lemma ends_with_slash_snoc (l : bytes) (b : Z) : ends_with_slash (l ++ [b]) = (b =? slash).
Proof. unfold ends_with_slash. by rewrite last_snoc. Qed.

Lemma pop_back_snoc (l : bytes) (b : Z) : pop_back (l ++ [b]) = l.
Proof.
  unfold pop_back. rewrite length_app. cbn [length]. replace (pred (length l + 1)) with (length l) by lia.
  by rewrite take_app_length.
Qed.
