(* ===== verification/FileBlock.v ===== *)
(** * File blocks: the records that list a file's data blocks

    Models [lib/file_block.h], [lib/file_block.cc] and, of
    [lib/file_block_handle.h] / [.cc], the free list.  A file block is named by
    its index in the metadata area. *)

From S2P Require Import Prelude Meta Device World SuperBlock Resources.

(** ** Operations on one record *)

Definition is_block_full (m : FileBlockMeta) : bool :=
  fb_used_block_num m =? kFileBlockCapacity.

(** [add_block_id(block_id)]; [None] is a store outside [block_id_] *)
Definition add_block_id (block_id : Z) (m : FileBlockMeta) : option FileBlockMeta :=
  if negb (is_block_full m) then
    if kFileBlockCapacity <=? fb_used_block_num m then None
    else
      let m' := set_fb_block_id
        (<[Z.to_nat (fb_used_block_num m) := block_id]> (fb_block_id m)) m in
      Some (set_fb_used_block_num (u32 (fb_used_block_num m + 1)) m')
  else Some m.

(** [get_block_id]: an index past the capacity fails the assertion *)
Definition get_block_id (m : FileBlockMeta) (block_index : Z) : Fs Z :=
  assert_ (u32 block_index <? kFileBlockCapacity) ;;
  in_bounds (fb_block_id m !! Z.to_nat (u32 block_index)).

(** the ids in use: the first [used_block_num_] of the array *)
Definition fb_blocks (m : FileBlockMeta) : list Z :=
  take (Z.to_nat (fb_used_block_num m)) (fb_block_id m).

(** the loops over the ids in use read outside the array when their number is too large *)
Definition used_blocks (m : FileBlockMeta) : Fs (list Z) :=
  in_bounds (if fb_used_block_num m <=? kFileBlockCapacity then Some (fb_blocks m) else None).

Lemma wp_used_blocks (m : FileBlockMeta) (Q : list Z -> world -> Prop) (w : world) :
  fb_used_block_num m <= kFileBlockCapacity -> Q (fb_blocks m) w -> wp (used_blocks m) Q w.
Proof. intros Hm HQ. eapply wp_in_bounds; [by rewrite (proj2 (Z.leb_le _ _) Hm)|done]. Qed.

Definition FileBlock_ClearMeta (m : FileBlockMeta) : FileBlockMeta :=
  let m := set_fb_used false m in
  let m := set_fb_is_temp false m in
  let m := set_fb_fh (u32 (-1)) m in
  let m := set_fb_file_cut 0 m in
  let m := set_fb_used_block_num 0 m in
  set_fb_block_id (replicate (Z.to_nat kFileBlockCapacity) 0) m.

Section FileBlock.
Context `{Env}.

Definition fb_crc_of (m : FileBlockMeta) : Z := crc32 (drop 4 (encode_file_block m)).

(** ** Persisting a record, returning it to the free list *)

Definition FileBlock_WriteMeta (index : Z) : Fs bool :=
  let! sb := gets w_super in
  let file_block_meta_size := sb_file_block_meta_size sb in
  let offset := u64 (file_block_meta_size * index) in
  let! m := get_fbmeta index in
  let m := set_fb_crc (fb_crc_of m) m in
  put_fbmeta index m ;;
  let! r := PwriteDirect (encode_file_block m)
              (u64 (sb_file_block_meta_offset sb + offset)) in
  ret (r =? i64 file_block_meta_size).

Definition PutFileBlockLock (index : Z) : Fs unit :=
  modify (fun w => set_w_free_fbhs (w_free_fbhs w ++ [index]) w).

Definition FileBlock_ReleaseAll (index : Z) : Fs bool :=
  let! m := get_fbmeta index in
  let! block_list := used_blocks m in
  Blocks.PutFreeBlockIdsLock block_list ;;
  upd_fbmeta index FileBlock_ClearMeta ;;
  let! ok := FileBlock_WriteMeta index in
  if negb ok then ret false
  else PutFileBlockLock index ;; ret true.

Definition FileBlock_ReleaseMyself (index : Z) : Fs bool :=
  upd_fbmeta index FileBlock_ClearMeta ;;
  let! ok := FileBlock_WriteMeta index in
  if negb ok then ret false
  else PutFileBlockLock index ;; ret true.

(** [None] is the null pointer: no file block is left *)
Definition GetFileBlockLock : Fs (option Z) :=
  let! free := gets w_free_fbhs in
  match free with
  | [] => ret None
  | index :: free' =>
    modify (set_w_free_fbhs free') ;;
    let! m := get_fbmeta index in
    assert_ (negb (fb_used m)) ;;
    assert_ (fb_used_block_num m =? 0) ;;
    ret (Some index)
  end.

(** ** [FileBlockHandle::FormatAllMeta] *)

(** the records [0 .. n-1] of a formatted area, in a zeroed buffer of [total] bytes *)
Definition format_area {A} (encode : A -> bytes) (record : Z -> A) (n total : Z) : bytes :=
  let b := concat ((fun i => encode (record i)) <$> seqZ 0 n) in
  take (Z.to_nat total) (b ++ replicate (Z.to_nat total) 0).

Definition format_fb_record (i : Z) : FileBlockMeta :=
  let m := MkFileBlockMeta 0 (u32 i) (u32 (-1)) 0 0 false false
             (replicate (Z.to_nat kFileBlockCapacity) 0) (replicate 74 0) in
  set_fb_crc (fb_crc_of m) m.

Definition FileBlockHandle_FormatAllMeta : Fs bool :=
  let! sb := gets w_super in
  let buffer := format_area encode_file_block format_fb_record
                  (sb_max_file_block_num sb) (sb_file_block_meta_total_size sb) in
  let! r := PwriteDirect buffer (sb_file_block_meta_offset sb) in
  ret (r =? i64 (sb_file_block_meta_total_size sb)).

End FileBlock.

(** ** Lemmas *)

Lemma add_block_id_blocks (b : Z) (m : FileBlockMeta) :
  length (fb_block_id m) = Z.to_nat kFileBlockCapacity ->
  0 <= fb_used_block_num m < kFileBlockCapacity ->
  exists m', add_block_id b m = Some m' /\
    fb_blocks m' = fb_blocks m ++ [b] /\
    fb_used_block_num m' = fb_used_block_num m + 1 /\
    length (fb_block_id m') = Z.to_nat kFileBlockCapacity /\
    m' = set_fb_used_block_num (fb_used_block_num m + 1)
           (set_fb_block_id (<[Z.to_nat (fb_used_block_num m) := b]> (fb_block_id m)) m).
Proof.
  intros Hl Hn. unfold add_block_id, is_block_full.
  assert (kFileBlockCapacity = 1000) as Hcap by reflexivity.
  destruct (Z.eqb_spec (fb_used_block_num m) kFileBlockCapacity); [lia|].
  destruct (Z.leb_spec kFileBlockCapacity (fb_used_block_num m)); [lia|].
  cbn [negb]. rewrite wrap_small by lia.
  eexists. split; [done|]. cbn. split_and!; try done.
  - unfold fb_blocks; cbn. replace (Z.to_nat (fb_used_block_num m + 1))
      with (S (Z.to_nat (fb_used_block_num m))) by lia.
    rewrite (take_S_r _ _ b) by (apply list_lookup_insert_eq; lia).
    by rewrite take_insert_ge by lia.
  - by rewrite length_insert.
Qed.
