(* ===== verification/Inode.v ===== *)
(** * Field access of [File] and [Directory] objects

    Models the accessors of [lib/file.h] and [lib/directory.h] over the
    metadata record that an object's [meta_] points to ([lib/inode.h]), and
    the [struct stat] that both kinds of object fill in. *)

From S2P Require Import Prelude Meta Device World.

(** [std::string(array)]: the bytes before the first NUL, which may lie behind the array *)
Definition meta_file_name (m : FileMeta) : bytes := cstr (fm_file_name m ++ fm_rest m).
Definition meta_dir_name (m : DirMeta) : bytes := cstr (dm_dir_name m ++ dm_rest m).

(** [meta_] of an object *)
Definition file_meta (f : Z) : Fs FileMeta :=
  let! o := get_file f in get_filemeta (fo_meta o).
Definition upd_file_meta (f : Z) (g : FileMeta -> FileMeta) : Fs unit :=
  let! o := get_file f in upd_filemeta (fo_meta o) g.
Definition dir_meta (d : Z) : Fs DirMeta :=
  let! o := get_dir d in get_dirmeta (do_meta o).
Definition upd_dir_meta (d : Z) (g : DirMeta -> DirMeta) : Fs unit :=
  let! o := get_dir d in upd_dirmeta (do_meta o) g.

(** the getters of [File]; [fh()] and [dh()] narrow to [int32_t] *)
Definition File_fh (f : Z) : Fs Z := let! m := file_meta f in ret (i32 (fm_fh m)).
Definition File_dh (f : Z) : Fs Z := let! m := file_meta f in ret (i32 (fm_dh m)).
Definition File_file_size (f : Z) : Fs Z := let! m := file_meta f in ret (fm_size m).
Definition File_file_name (f : Z) : Fs bytes := let! m := file_meta f in ret (meta_file_name m).
Definition File_is_temp (f : Z) : Fs bool := let! m := file_meta f in ret (fm_is_temp m).
Definition File_atime (f : Z) : Fs Z := let! m := file_meta f in ret (fm_atime m).
Definition File_LinkCount (f : Z) : Fs Z := let! o := get_file f in ret (fo_nlink o).
Definition File_IncLinkCount (f : Z) : Fs unit :=
  upd_file f (fun o => set_fo_nlink (i32 (fo_nlink o + 1)) o).
Definition File_DecLinkCount (f : Z) : Fs unit :=
  upd_file f (fun o => set_fo_nlink (i32 (fo_nlink o - 1)) o).

(** the getters of [Directory] *)
Definition Directory_dh (d : Z) : Fs Z := let! m := dir_meta d in ret (dm_dh m).
Definition Directory_dir_name (d : Z) : Fs bytes := let! m := dir_meta d in ret (meta_dir_name m).
Definition Directory_IncLinkCount (d : Z) : Fs unit :=
  upd_dir d (fun o => set_do_nlink (i32 (do_nlink o + 1)) o).
Definition Directory_DecLinkCount (d : Z) : Fs unit :=
  upd_dir d (fun o => set_do_nlink (i32 (do_nlink o - 1)) o).
Definition Directory_LinkCount (d : Z) : Fs Z := let! o := get_dir d in ret (u32 (do_nlink o)).

(** [struct stat] *)
Record stat_buf : Type := MkStat {
  st_dev : Z; st_ino : Z; st_mode : Z; st_nlink : Z; st_uid : Z; st_gid : Z; st_rdev : Z;
  st_blksize : Z; st_blocks : Z; st_atime : Z; st_mtime : Z; st_ctime : Z; st_size : Z
}.

Definition S_IFDIR : Z := 16384.
Definition S_IFREG : Z := 32768.
(** [0755] *)
Definition kStatMode : Z := 493.

Section SetName.
Context `{Env}.

(** [memset(dst, 0, n); memcpy(dst, s.c_str(), n)]: the copy reads [n] bytes of
    the string's buffer, the terminator and what lies behind it included *)
Definition copy_name (n : nat) (s : bytes) : bytes :=
  take n (s ++ 0 :: after_cstr s ++ replicate n 0).

Definition set_file_name (file_name : bytes) (m : FileMeta) : FileMeta :=
  set_fm_file_name (copy_name (Z.to_nat kBlockFsMaxFileNameLen) file_name) m.
Definition set_dir_name (to : bytes) (m : DirMeta) : DirMeta :=
  set_dm_dir_name (copy_name (Z.to_nat kBlockFsMaxDirNameLen) to) m.

Lemma copy_name_length (n : nat) (s : bytes) : length (copy_name n s) = n.
Proof.
  unfold copy_name. rewrite length_take, length_app. cbn [length].
  rewrite length_app, length_replicate. lia.
Qed.

(** A name without NUL that is shorter than the array is read back whatever the
    memory behind the string holds. *)
Lemma cstr_copy_name (n : nat) (s rest : bytes) :
  0 ∉ s -> (length s < n)%nat -> cstr (copy_name n s ++ rest) = s.
Proof.
  intros Hs Hn. unfold copy_name. rewrite take_app_ge by lia.
  destruct (n - length s)%nat as [|k] eqn:Hk; [lia|]. cbn [take].
  rewrite <- app_assoc. cbn. by apply cstr_app_nul.
Qed.
End SetName.
