(* ===== verification/Directory.v ===== *)
(** * Directories

    Models [lib/directory.cc] and the maps of created directories of
    [lib/dir_handle.cc] that it works with: lookup by path and by handle,
    adding to and removing from the maps, the metadata page of a directory,
    its children, its entries and its renaming. *)

From S2P Require Import Prelude Meta Device World SuperBlock Paths Inode.

(** ** The maps of [DirHandle] *)

(** [GetCreatedDirectoryNolock(ino_t)]; [None] is the empty pointer *)
Definition GetCreatedDirectory_dh (dh : Z) : Fs (option Z) :=
  let! h := gets w_dh in ret (dh_created_dhs h !! u64 dh).

(** [GetCreatedDirectoryNolock(const std::string &)] *)
Definition GetCreatedDirectory (dirname : bytes) : Fs (option Z) :=
  let! t := dir_TransformPath dirname in
  match t with
  | None => ret None
  | Some dir_name => let! h := gets w_dh in ret (dh_created_dirs h !! dir_name)
  end.

Definition GetOpenDirectory (fd : Z) : Fs (option Z) :=
  let! h := gets w_dh in ret (dh_open_dirs h !! u64 fd).

Definition AddDirectory2CreateNolock (child : Z) : Fs bool :=
  let! dir_name := Directory_dir_name child in
  let! dh := Directory_dh child in
  let! h := gets w_dh in
  if decide (is_Some (dh_created_dirs h !! dir_name)) then ret false
  else if decide (is_Some (dh_created_dhs h !! dh)) then ret false
  else
    modify (set_w_dh (set_dh_created_dhs (<[dh := child]> (dh_created_dhs h))
                       (set_dh_created_dirs (<[dir_name := child]> (dh_created_dirs h)) h))) ;;
    ret true.

Definition RemoveDirectoryFromCreateNolock (child : Z) : Fs bool :=
  let! dir_name := Directory_dir_name child in
  let! dh := Directory_dh child in
  let! h := gets w_dh in
  match dh_created_dirs h !! dir_name with
  | None => ret false
  | Some _ =>
    let h' := set_dh_created_dirs (delete dir_name (dh_created_dirs h)) h in
    modify (set_w_dh h') ;;
    match dh_created_dhs h' !! dh with
    | None => ret false
    | Some _ =>
      modify (set_w_dh (set_dh_created_dhs (delete dh (dh_created_dhs h')) h')) ;; ret true
    end
  end.

(** [DirHandle::PageAlignIndex] on the directory record size *)
Definition PageAlignIndex (meta_size index : Z) : Z :=
  let align := u32 (kBlockFsPageSize / meta_size) in
  u32 (u32 index - u32 index mod align).

Section Directory.
Context `{Env}.

(** ** Metadata *)

Definition dir_crc_of (m : DirMeta) : Z := crc32 (drop 4 (encode_dir m)).

(** The memory image of the page of records from [align_index] on; the area is
    zero behind its last record. *)
Definition dir_page (area : gmap Z DirMeta) (align_index meta_size : Z) : bytes :=
  concat ((fun i => match area !! i with
                    | Some m => encode_dir m
                    | None => replicate (Z.to_nat meta_size) 0
                    end) <$> seqZ align_index (kBlockFsPageSize / meta_size)).

(** [WriteMeta] of an object: the checksum of its record is refreshed and the page
    that holds the record with its handle is written *)
Definition Directory_WriteMeta (d : Z) : Fs bool :=
  let! sb := gets w_super in
  let! dh := Directory_dh d in
  let align_index := PageAlignIndex (sb_dir_meta_size sb) dh in
  let offset := u64 (sb_dir_meta_size sb * align_index) in
  upd_dir_meta d (fun m => set_dm_crc (dir_crc_of m) m) ;;
  let! area := gets w_dirmeta in
  let! r := PwriteDirect (dir_page area align_index (sb_dir_meta_size sb))
              (u64 (sb_dir_meta_offset sb + offset)) in
  ret (r =? kBlockFsPageSize).

(** [static WriteMeta(ino_t dh)] *)
Definition Directory_WriteMeta_dh (dh : Z) : Fs bool :=
  let! sb := gets w_super in
  let align_index := PageAlignIndex (sb_dir_meta_size sb) dh in
  let offset := u64 (sb_dir_meta_size sb * align_index) in
  upd_dirmeta dh (fun m => set_dm_crc (dir_crc_of m) m) ;;
  let! area := gets w_dirmeta in
  let! r := PwriteDirect (dir_page area align_index (sb_dir_meta_size sb))
              (u64 (sb_dir_meta_offset sb + offset)) in
  ret (r =? kBlockFsPageSize).

Definition dir_clear (m : DirMeta) : DirMeta :=
  let m := set_dm_used false m in
  let m := set_dm_size 0 m in
  set_dm_crc (dir_crc_of m) m.

(** [ClearMeta()] and [static ClearMeta(ino_t)] *)
Definition Directory_ClearMeta (d : Z) : Fs unit := upd_dir_meta d dir_clear.
Definition Directory_ClearMeta_dh (dh : Z) : Fs unit := upd_dirmeta dh dir_clear.

Definition Directory_SuicideNolock (d : Z) : Fs bool :=
  Directory_ClearMeta d ;; Directory_WriteMeta d.

Definition Directory_UpdateTimeStamp (d : Z) (a m c : bool) : Fs unit :=
  let! seconds := gets w_now in
  (if a then upd_dir_meta d (set_dm_atime seconds) else ret tt) ;;
  (if m then upd_dir_meta d (set_dm_mtime seconds) else ret tt) ;;
  (if c then upd_dir_meta d (set_dm_ctime seconds) else ret tt) ;;
  upd_dir_meta d (fun m => set_dm_crc (dir_crc_of m) m).

Definition Directory_stat (d : Z) : Fs stat_buf :=
  let! m := dir_meta d in
  ret (MkStat 0 (dm_dh m) (Z.lor kStatMode S_IFDIR) 0 env_uid env_gid 0 kBlockSize 0
         (dm_atime m) (dm_mtime m) (dm_ctime m) (i64 (dm_size m))).

(** ** Children *)

Definition Directory_ChildCount (d : Z) : Fs Z :=
  let! o := get_dir d in
  ret (u32 (Z.of_nat (size (do_items o)) + Z.of_nat (size (do_children o)))).

Definition AddChildFile (d f : Z) : Fs bool :=
  let! fh := File_fh f in
  let! o := get_dir d in
  if decide (is_Some (do_items o !! fh)) then ret false
  else put_dir d (set_do_items (<[fh := f]> (do_items o)) o) ;; ret true.

Definition RemoveChildFile (d f : Z) : Fs bool :=
  let! fh := File_fh f in
  let! o := get_dir d in
  match do_items o !! fh with
  | None => ret false
  | Some _ => put_dir d (set_do_items (delete fh (do_items o)) o) ;; ret true
  end.

Definition AddChildDirectory (d child : Z) : Fs bool :=
  let! dh := Directory_dh child in
  let! o := get_dir d in
  if decide (is_Some (do_children o !! dh)) then ret false
  else put_dir d (set_do_children (<[dh := child]> (do_children o)) o) ;; ret true.

Definition RemovChildDirectory (d child : Z) : Fs bool :=
  let! dh := Directory_dh child in
  let! o := get_dir d in
  match do_children o !! dh with
  | None => ret false
  | Some _ => put_dir d (set_do_children (delete dh (do_children o)) o) ;; ret true
  end.

(** ** Entries *)

Definition DT_DIR : Z := 4.
Definition DT_REG : Z := 8.
(** [sizeof(d_name)] *)
Definition kDirentName : nat := 256.

(** [memcpy(d_name, name.c_str(), name.size())] into the zeroed array *)
Definition dirent_name (name : bytes) : Fs bytes :=
  if decide (length name <= kDirentName)%nat then ret (strcpy0 kDirentName name)
  else crash_with OutOfBounds.

(** the last component of a directory's path: the trailing separator becomes a NUL *)
Definition dir_entry_name (dir_name : bytes) : bytes :=
  let dir_name := if ends_with_slash dir_name then pop_back dir_name ++ [0] else dir_name in
  GetFileName dir_name.

Definition scan_child (child : Z) : Fs dirent :=
  let! m := dir_meta child in
  let! name := dirent_name (dir_entry_name (meta_dir_name m)) in
  ret (MkDirent (i64 (dm_dh m)) DT_DIR 0 name (dm_atime m)).

Definition scan_file (f : Z) : Fs dirent :=
  let! m := file_meta f in
  let! name := dirent_name (meta_file_name m) in
  ret (MkDirent (i32 (fm_fh m)) DT_REG (u32 (fm_size m)) name (fm_atime m)).

Fixpoint scan_all (scan : Z -> Fs dirent) (l : list (Z * Z)) : Fs (list dirent) :=
  match l with
  | [] => ret []
  | (_, i) :: l' => let! e := scan i in let! es := scan_all scan l' in ret (e :: es)
  end.

Definition ScanDir (d : Z) : Fs (list dirent) :=
  let! o := get_dir d in
  let! ds := scan_all scan_child (map_order (do_children o)) in
  let! fs := scan_all scan_file (map_order (do_items o)) in
  ret (ds ++ fs).

(** ** [Directory::rename]: 0 on success, -1 otherwise

    [new_parent_dir] is a reference to an element of [created_dirs_], which is gone
    once the directory's own entry was removed when that is the one. *)

Definition Directory_rename_guarded (d : Z) (to : bytes) : Fs bool :=
  let new_parent_dir_name := GetDirName to in
  let! new_parent := GetCreatedDirectory new_parent_dir_name in
  match new_parent with
  | None => ret false
  | Some new_parent_dir =>
    let! name := Directory_dir_name d in
    let! old_parent := GetCreatedDirectory (GetDirName name) in
    match old_parent with
    | None => ret false
    | Some old_parent_dir =>
      RemovChildDirectory old_parent_dir d ;;
      let! removed := RemoveDirectoryFromCreateNolock d in
      if negb removed then ret false
      else
        upd_dir_meta d (set_dir_name to) ;;
        AddDirectory2CreateNolock d ;;
        if bool_decide (new_parent_dir_name = name) then crash_with Dangling
        else
          AddChildDirectory new_parent_dir d ;;
          Directory_WriteMeta d
    end
  end.

Definition Directory_rename (d : Z) (to : bytes) : Fs Z :=
  let! success := Directory_rename_guarded d to in
  ret (if success then 0 else -1).

End Directory.
