(* ===== verification/FileHandle.v ===== *)
(** * The table of files

    Models the free list and the maps of [FileHandle] ([lib/file_handle.cc]):
    allocation of a file record, the maps of created files, the parent files
    that a truncation leaves behind, and the metadata page of a file
    ([File::WriteMeta], [File::ClearMeta], [ParentFile::Recycle] of
    [lib/file.cc]). *)

From S2P Require Import Prelude Meta Device World SuperBlock Resources Paths FileBlock Inode.
From S2P Require Import Directory.

Section FileHandle.
Context `{Env}.

(** ** Metadata of a file *)

Definition file_crc_of (m : FileMeta) : Z := crc32 (drop 4 (encode_file m)).

Definition file_page (area : gmap Z FileMeta) (align_index meta_size : Z) : bytes :=
  concat ((fun i => match area !! i with
                    | Some m => encode_file m
                    | None => replicate (Z.to_nat meta_size) 0
                    end) <$> seqZ align_index (kBlockFsPageSize / meta_size)).

(** [File::WriteMeta(int32_t fh)] *)
Definition File_WriteMeta_fh (fh : Z) : Fs bool :=
  let! sb := gets w_super in
  let align_index := PageAlignIndex (sb_file_meta_size sb) fh in
  let offset := u64 (sb_file_meta_size sb * align_index) in
  upd_filemeta fh (fun m => set_fm_crc (file_crc_of m) m) ;;
  let! area := gets w_filemeta in
  let! r := PwriteDirect (file_page area align_index (sb_file_meta_size sb))
              (u64 (sb_file_meta_offset sb + offset)) in
  ret (r =? kBlockFsPageSize).

(** [File::WriteMeta()] *)
Definition File_WriteMeta (f : Z) : Fs bool :=
  let! fh := File_fh f in File_WriteMeta_fh fh.

(** [File::ClearMeta]; the name and the directory handle stay *)
Definition File_ClearMeta (m : FileMeta) : FileMeta :=
  let m := set_fm_used false m in
  let m := set_fm_is_temp false m in
  let m := set_fm_size 0 m in
  let m := set_fm_mode 0 m in
  let m := set_fm_nlink 0 m in
  let m := set_fm_atime 0 m in
  let m := set_fm_mtime 0 m in
  let m := set_fm_ctime 0 m in
  let m := set_fm_child_fh (-1) m in
  let m := set_fm_parent_fh (-1) m in
  set_fm_parent_size (u64 (-1)) m.

(** ** Allocation *)

Definition file_meta_invalid (m : FileMeta) (fh : Z) : bool :=
  fm_used m || negb (fm_fh m =? fh) || negb (fm_size m =? 0).

Definition AddFile2FreeNolock (index : Z) : Fs unit :=
  modify (fun w => set_w_fh (set_fh_free (fh_free (w_fh w) ++ [u64 (i32 index)]) (w_fh w)) w).

Definition pop_free_fh : Fs unit :=
  modify (fun w => set_w_fh (set_fh_free (tail (fh_free (w_fh w))) (w_fh w)) w).

(** [NewFreeFileMeta]: the record for a truncated file; its name is copied without
    over-reading *)
Definition NewFreeFileMeta (dh : Z) (filename : bytes) : Fs (option Z) :=
  let! h := gets w_fh in
  match fh_free h with
  | [] => set_errno ENFILE ;; ret None
  | fh :: _ =>
    let! m := get_filemeta fh in
    if file_meta_invalid m fh then set_errno EINVAL ;; ret None
    else
      let m := set_fm_used true m in
      let m := set_fm_fh fh m in
      let m := set_fm_dh (u64 dh) m in
      (if decide (length filename <= Z.to_nat kBlockFsMaxFileNameLen)%nat then ret tt
       else crash_with OutOfBounds) ;;
      put_filemeta fh (set_fm_file_name
        (strcpy0 (Z.to_nat kBlockFsMaxFileNameLen) filename) m) ;;
      pop_free_fh ;;
      ret (Some fh)
  end.

(** the part that [NewFreeFileNolock] and [NewFreeTmpFileNolock] share *)
Definition new_file (dh : Z) (name : Z -> bytes) (is_temp : bool) : Fs (option Z) :=
  let! h := gets w_fh in
  match fh_free h with
  | [] => set_errno ENFILE ;; ret None
  | fh :: _ =>
    let! m := get_filemeta fh in
    if file_meta_invalid m fh then set_errno EINVAL ;; ret None
    else
      let! f := fresh in
      put_file f (MkFile fh ∅ 0 false false) ;;
      upd_file_meta f (fun m =>
        let m := set_fm_used true m in
        let m := set_fm_fh (u64 (i32 fh)) m in
        let m := set_fm_dh (u64 (i32 dh)) m in
        let m := set_file_name (name fh) m in
        set_fm_is_temp is_temp m) ;;
      pop_free_fh ;;
      ret (Some f)
  end.

Definition NewFreeFileNolock (dh : Z) (filename : bytes) : Fs (option Z) :=
  new_file dh (fun _ => filename) false.

(** [std::to_string] of an unsigned number *)
Definition to_string (n : Z) : bytes := str (pretty.pretty (Z.to_N n)).

Definition NewFreeTmpFileNolock (dh : Z) : Fs (option Z) :=
  new_file dh (fun fh => str "tmpfile_" ++ to_string fh) true.

(** [NewFile]: the parent directory and the new file *)
Definition NewFile (dirname filename : bytes) (tmpfile : bool) : Fs (option (Z * Z)) :=
  let! dir := GetCreatedDirectory dirname in
  match dir with
  | None => set_errno ENOENT ;; ret None
  | Some dir =>
    let! dh := Directory_dh dir in
    let! file :=
      (if negb tmpfile then
         let! h := gets w_fh in
         if decide (is_Some (fh_created_files h !! (dh, filename))) then
           set_errno EEXIST ;; ret None
         else NewFreeFileNolock (i32 dh) filename
       else NewFreeTmpFileNolock (i32 dh)) in
    match file with
    | None => ret None
    | Some f =>
      let! time := gets w_now in
      upd_file_meta f (fun m => set_fm_ctime time (set_fm_mtime time (set_fm_atime time m))) ;;
      ret (Some (dir, f))
    end
  end.

(** ** The maps of created files *)

Definition AddFileNoLock (f : Z) : Fs unit :=
  let! fh := File_fh f in
  let! dh := File_dh f in
  let! name := File_file_name f in
  modify (fun w =>
    let h := w_fh w in
    set_w_fh (set_fh_created_files (<[(u64 dh, name) := f]> (fh_created_files h))
               (set_fh_created_fhs (<[u64 fh := f]> (fh_created_fhs h)) h)) w).

Definition RemoveFileNoLock (f : Z) : Fs bool :=
  let! fh := File_fh f in
  let! dh := File_dh f in
  let! name := File_file_name f in
  let! h := gets w_fh in
  match fh_created_files h !! (u64 dh, name) with
  | None => ret false
  | Some _ =>
    let h := set_fh_created_files (delete (u64 dh, name) (fh_created_files h)) h in
    modify (set_w_fh h) ;;
    match fh_created_fhs h !! u64 fh with
    | None => ret false
    | Some _ =>
      modify (set_w_fh (set_fh_created_fhs (delete (u64 fh) (fh_created_fhs h)) h)) ;; ret true
    end
  end.

Definition AddFileToDirectory (parent f : Z) : Fs unit :=
  AddChildFile parent f ;; AddFileNoLock f.

(** [RemoveFileFromoDirectory] and its variant that runs under the lock *)
Definition RemoveFileFromoDirectory (parent f : Z) : Fs bool :=
  let! ok := RemoveChildFile parent f in
  if negb ok then ret false else RemoveFileNoLock f.

Definition GetCreatedFile_fh (fh : Z) : Fs (option Z) :=
  let! h := gets w_fh in ret (fh_created_fhs h !! u64 fh).

(** [GetCreatedFileNoLock(const FileNameKey &)] *)
Definition GetCreatedFile_key (key : Z * bytes) : Fs (option Z) :=
  let! h := gets w_fh in
  match fh_created_files h !! key with
  | None => set_errno ENOENT ;; ret None
  | Some f => ret (Some f)
  end.

(** [GetCreatedFile(const std::string &)] *)
Definition GetCreatedFile (filename : bytes) : Fs (option Z) :=
  let! t := file_TransformPath filename in
  match t with
  | None => ret None
  | Some (new_dirname, new_filename) =>
    let! dir := GetCreatedDirectory new_dirname in
    match dir with
    | None => ret None
    | Some dir => let! dh := Directory_dh dir in GetCreatedFile_key (dh, new_filename)
    end
  end.

(** [FindFile]: the parent directory and the file *)
Definition FindFile (dirname filename : bytes) : Fs (option (Z * Z)) :=
  let! dir := GetCreatedDirectory dirname in
  match dir with
  | None => set_errno ENOENT ;; ret None
  | Some dir =>
    let! dh := Directory_dh dir in
    let! h := gets w_fh in
    match fh_created_files h !! (dh, filename) with
    | None => set_errno ENOENT ;; ret None
    | Some f => ret (Some (dir, f))
    end
  end.

(** [CheckFileExist]: true when the file is not there *)
Definition CheckFileExist (path : bytes) : Fs bool :=
  let! f := GetCreatedFile path in ret (bool_decide (f = None)).

Definition GetOpenFile (fd : Z) : Fs (option Z) :=
  let! h := gets w_fh in
  match fh_open_files h !! u64 fd with
  | None => set_errno EBADF ;; ret None
  | Some o => ret (Some o)
  end.

(** ** Parent files *)

(** the key of [parent_files_] is [fh()], an [int32_t] *)
Definition AddParentFile (parent : parent_file) : Fs bool :=
  let! m := get_filemeta (pf_meta parent) in
  let fh := i32 (fm_fh m) in
  let! h := gets w_fh in
  if decide (is_Some (fh_parent_files h !! fh)) then ret false
  else
    modify (set_w_fh (set_fh_parent_files (<[fh := parent]> (fh_parent_files h)) h)) ;; ret true.

(** the blocks of one file block that [Recycle] puts back: the first
    [block_num] blocks of the parent, counted over all its file blocks, are skipped *)
Fixpoint recycle_blocks (ids : list Z) (block_id_index block_num : Z) : Fs Z :=
  match ids with
  | [] => ret block_id_index
  | i :: ids' =>
    if block_id_index <? block_num then recycle_blocks ids' (block_id_index + 1) block_num
    else Blocks.PutFreeBlockIdLock i ;; recycle_blocks ids' block_id_index block_num
  end.

(** the loop over [fb_maps_[i]], [i = 0 .. n-1]; a missing entry is a null pointer *)
Fixpoint recycle_fbs (n : nat) (i : Z) (fbs : gmap Z Z) (block_id_index block_num : Z)
    : Fs unit :=
  match n with
  | O => ret tt
  | S n' =>
    let! fb := deref (fbs !! i) in
    let! m := get_fbmeta fb in
    let! ids := used_blocks m in
    let! block_id_index := recycle_blocks ids block_id_index block_num in
    FileBlock_ReleaseMyself fb ;;
    recycle_fbs n' (i + 1) fbs block_id_index block_num
  end.

Definition ParentFile_Recycle (p : parent_file) : Fs bool :=
  let block_num := u32 (pf_offset p / kBlockSize) in
  recycle_fbs (size (pf_fb_maps p)) 0 (pf_fb_maps p) 0 block_num ;;
  upd_filemeta (pf_meta p) File_ClearMeta ;;
  let! m := get_filemeta (pf_meta p) in
  let! ok := File_WriteMeta_fh (i32 (fm_fh m)) in
  if negb ok then ret false
  else AddFile2FreeNolock (fm_fh m) ;; ret true.

Definition RemoveParentFile (fh : Z) : Fs bool :=
  let! h := gets w_fh in
  match fh_parent_files h !! i32 fh with
  | None => ret false
  | Some parent =>
    modify (set_w_fh (set_fh_parent_files (delete (i32 fh) (fh_parent_files h)) h)) ;;
    ParentFile_Recycle parent
  end.

End FileHandle.
