(* ===== verification/File.v ===== *)
(** * Files

    Models the [File] class of [lib/file.cc]: the file blocks of a file, its
    growth and its shrinking, its removal, renaming and attributes. *)

From S2P Require Import Prelude Meta Device World SuperBlock Resources Paths FileBlock Inode.
From S2P Require Import Directory FileHandle.

Section File.
Context `{Env}.

(** ** File blocks of a file *)

Definition AddFileBlockNoLock (f fb : Z) : Fs bool :=
  let! m := get_fbmeta fb in
  let! o := get_file f in
  if decide (is_Some (fo_items o !! i32 (fb_file_cut m))) then ret false
  else put_file f (set_fo_items (<[i32 (fb_file_cut m) := fb]> (fo_items o)) o) ;; ret true.

Fixpoint release_all (fbs : list (Z * Z)) : Fs bool :=
  match fbs with
  | [] => ret true
  | (_, fb) :: fbs' =>
    let! ok := FileBlock_ReleaseAll fb in
    if negb ok then ret false else release_all fbs'
  end.

Definition RemoveAllFileBlock (f : Z) : Fs bool :=
  let! o := get_file f in
  let! ok := release_all (map_order (fo_items o)) in
  if negb ok then ret false
  else upd_file f (set_fo_items ∅) ;; ret true.

(** also [GetMetaItem]; [None] is the null pointer *)
Definition GetFileBlock (f file_cut : Z) : Fs (option Z) :=
  let! o := get_file f in ret (fo_items o !! i32 file_cut).

Fixpoint sum_used (fbs : list (Z * Z)) (num : Z) : Fs Z :=
  match fbs with
  | [] => ret num
  | (_, fb) :: fbs' =>
    let! m := get_fbmeta fb in sum_used fbs' (u32 (num + fb_used_block_num m))
  end.

Definition GetBlockNumber (f : Z) : Fs Z :=
  let! o := get_file f in sum_used (map_order (fo_items o)) 0.

(** ** Attributes *)

Definition File_stat (f : Z) : Fs stat_buf :=
  let! num := GetBlockNumber f in
  let! o := get_file f in
  let! m := file_meta f in
  ret (MkStat 0 (u64 (i32 (fm_fh m))) (Z.lor kStatMode S_IFREG) (u64 (fo_nlink o))
         env_uid env_gid 0 kBlockSize (u64 (num * kBlockSize) / 512)
         (fm_atime m) (fm_mtime m) (fm_ctime m) (i64 (fm_size m))).

Definition File_UpdateTimeStamp (f seconds : Z) : Fs unit :=
  upd_file_meta f (fun m =>
    let m := set_fm_ctime seconds (set_fm_mtime seconds m) in
    set_fm_crc (file_crc_of m) m).

Definition File_UpdateMeta (f : Z) : Fs bool := File_WriteMeta f.
Definition File_fsync (f : Z) : Fs Z := Fsync.

(** [Release] and [ReleaseNolock] *)
Definition File_Release (f : Z) : Fs bool :=
  upd_file_meta f File_ClearMeta ;; File_WriteMeta f.

(** ** [File::rename] *)

Definition File_rename_guarded (f : Z) (to : bytes) : Fs bool :=
  let! dh := File_dh f in
  let! old_dir := GetCreatedDirectory_dh dh in
  match old_dir with
  | None => ret false
  | Some old_dir =>
    let! new_dir := GetCreatedDirectory (GetDirName to) in
    match new_dir with
    | None => ret false
    | Some new_dir =>
      let! ok := RemoveChildFile old_dir f in
      if negb ok then ret false else
      let! ok := RemoveFileNoLock f in
      if negb ok then ret false else
      upd_file_meta f (set_file_name (GetFileName to)) ;;
      let! new_dh := Directory_dh new_dir in
      upd_file_meta f (set_fm_dh (u64 (i32 new_dh))) ;;
      let! seconds := gets w_now in
      File_UpdateTimeStamp f seconds ;;
      AddFileNoLock f ;;
      let! ok := AddChildFile new_dir f in
      if negb ok then ret false else
      File_WriteMeta f
    end
  end.

Definition File_rename (f : Z) (to : bytes) : Fs Z :=
  let! success := File_rename_guarded f to in ret (if success then 0 else -1).

(** ** Growing *)

(** the free bytes behind the end of the file in its last block *)
Definition last_block_left (size : Z) : Z :=
  if size mod kBlockSize =? 0 then 0 else kBlockSize - size mod kBlockSize.

Definition num_blocks_needed (size offset : Z) : Z :=
  let expand_size := u64 (offset - size) in
  let left := last_block_left size in
  if expand_size <=? left then 0 else u32 (ALIGN_UP (expand_size - left) kBlockSize).

(** the loop that fills the file block; [false] when it is full before the end *)
Fixpoint fill_file_block (fb : Z) (block_ids : list Z) : Fs bool :=
  match block_ids with
  | [] => ret true
  | b :: block_ids' =>
    let! m := get_fbmeta fb in
    if negb (is_block_full m) then
      let! m' := in_bounds (add_block_id b m) in
      put_fbmeta fb m' ;;
      fill_file_block fb block_ids'
    else ret false
  end.

(** the file block to extend, and whether it is new *)
Definition extend_file_block (f : Z) : Fs (option (Z * bool)) :=
  let! m := file_meta f in
  let! o := get_file f in
  if fm_size m =? 0 then
    assert_ (Nat.eqb (size (fo_items o)) 0) ;;
    let! fb := GetFileBlockLock in
    ret (match fb with None => None | Some fb => Some (fb, true) end)
  else
    assert_ (negb (Nat.eqb (size (fo_items o)) 0)) ;;
    let! fb := GetFileBlock f (Z.of_nat (size (fo_items o)) - 1) in
    match fb with
    | None => ret None
    | Some fb =>
      let! b := get_fbmeta fb in
      if is_block_full b then ret None else ret (Some (fb, false))
    end.

(** [Some ids] are the new blocks; on failure a new file block is given back *)
Definition extend_block_ids (num fb : Z) (need_new_file_block : bool) : Fs (option (list Z)) :=
  if 0 <? num then
    let! ids := Blocks.GetFreeBlockIdLock num in
    match ids with
    | None => (if need_new_file_block then PutFileBlockLock fb else ret tt) ;; ret None
    | Some ids => ret (Some ids)
    end
  else ret (Some []).

(** the end of the function: the new size, in memory and on the device *)
Definition extend_set_size (f offset : Z) : Fs Z :=
  upd_file_meta f (set_fm_size offset) ;;
  let! success := File_WriteMeta f in
  ret (if success then 0 else -1).

Definition extend_attach (f fb : Z) (need_new_file_block : bool) (block_ids : list Z) : Fs bool :=
  let! m := file_meta f in
  (if need_new_file_block then
     upd_fbmeta fb (fun b =>
       let b := set_fb_used true b in
       let b := set_fb_file_cut 0 b in
       let b := set_fb_fh (u32 (i32 (fm_fh m))) b in
       set_fb_is_temp (fm_is_temp m) b)
   else ret tt) ;;
  let! ok := fill_file_block fb block_ids in
  if negb ok then ret false else
  match block_ids with
  | [] => ret true
  | _ =>
    let! ok := FileBlock_WriteMeta fb in
    if negb ok then ret false
    else (if need_new_file_block then AddFileBlockNoLock f fb ;; ret true else ret true)
  end.

Definition ExtendFile (f offset : Z) : Fs Z :=
  let! sb := gets w_super in
  if sb_device_size sb <? offset then ret (-1) else
  let! m := file_meta f in
  let num := num_blocks_needed (fm_size m) offset in
  let! r := extend_file_block f in
  match r with
  | None => ret (-1)
  | Some (fb, need_new_file_block) =>
    let! ids := extend_block_ids num fb need_new_file_block in
    match ids with
    | None => ret (-1)
    | Some block_ids =>
      let! ok := extend_attach f fb need_new_file_block block_ids in
      if negb ok then ret (-1) else extend_set_size f offset
    end
  end.

(** ** Shrinking *)

Definition data_offset (sb : SuperBlockMeta) (block_id offset : Z) : Z :=
  u64 (sb_block_data_start_offset sb + sb_block_size sb * block_id + offset).

(** the loop of [CopyData]; [fuel] bounds the number of rounds *)
Fixpoint copy_loop (fuel : nat) (src_block_id dst_block_id offset len : Z) : Fs bool :=
  let kZeroBufferSize := 4 * Units.M in
  if len <=? 0 then ret true else
  match fuel with
  | O => ret false
  | S fuel =>
    let data_len := Z.min len kZeroBufferSize in
    let! sb := gets w_super in
    let! r := PreadCache (Z.to_nat data_len) (data_offset sb src_block_id offset) in
    let '(n, buffer) := r in
    if negb (n =? data_len) then ret false else
    let! n := PwriteCache buffer (data_offset sb dst_block_id offset) in
    if negb (n =? data_len) then ret false else
    copy_loop fuel src_block_id dst_block_id (u64 (offset + data_len)) (len - data_len)
  end.

Definition copy_fuel (len : Z) : nat := S (Z.to_nat (len / (4 * Units.M))).

Definition CopyData (src_block_id dst_block_id offset len : Z) : Fs bool :=
  let! ok := copy_loop (copy_fuel len) src_block_id dst_block_id offset len in
  if negb ok then ret false
  else let! r := Fsync in ret (r =? 0).

Definition RecycleParentFh (f fh : Z) (immediately : bool) : Fs Z :=
  if immediately then
    let! ok := RemoveParentFile fh in
    if negb ok then ret (-1) else
    upd_file_meta f (fun m => set_fm_parent_size 0 (set_fm_parent_fh (-1) m)) ;;
    let! success := File_WriteMeta f in
    ret (if success then 0 else -1)
  else ret 0.

(** the loop over [old_fb->meta()->block_id_[j]] *)
Fixpoint inherit_blocks (js : list Z) (old_fb new_fb copy_block_num block_num : Z) : Fs unit :=
  match js with
  | [] => ret tt
  | j :: js' =>
    let! old := get_fbmeta old_fb in
    let! b := in_bounds (fb_block_id old !! Z.to_nat j) in
    let! new := get_fbmeta new_fb in
    let! new' := in_bounds (add_block_id b new) in
    put_fbmeta new_fb new' ;;
    if copy_block_num + 1 =? block_num then ret tt
    else inherit_blocks js' old_fb new_fb (copy_block_num + 1) block_num
  end.

(** the file block of the shrunk file: the complete blocks are inherited, a
    partial last block is copied into a new one; [false] is a failure *)
Definition shrink_file_block (f new_meta file_block block_num block_offset : Z) : Fs bool :=
  let! item := GetFileBlock f 0 in
  let! old_fb := deref item in
  let! old := get_fbmeta old_fb in
  assert_ (fb_file_cut old =? 0) ;;
  let! nm := get_filemeta new_meta in
  upd_fbmeta file_block (fun b =>
    let b := set_fb_used true b in
    let b := set_fb_file_cut (fb_file_cut old) b in
    let b := set_fb_fh (u32 (i32 (fm_fh nm))) b in
    set_fb_is_temp (fm_is_temp nm) b) ;;
  (if block_num =? 0 then ret tt
   else inherit_blocks (seqZ 0 kFileBlockCapacity) old_fb file_block 0 block_num) ;;
  if 0 <? block_offset then
    let! ids := Blocks.GetFreeBlockIdLock 1 in
    match ids with
    | None => ret false
    | Some block_ids =>
      let! new_block_id := in_bounds (block_ids !! 0%nat) in
      let! old := get_fbmeta old_fb in
      let! src := in_bounds (fb_block_id old !! Z.to_nat (block_num mod kFileBlockCapacity)) in
      let! ok := CopyData src new_block_id 0 block_offset in
      if negb ok then ret false else
      let! new := get_fbmeta file_block in
      let! new' := in_bounds (add_block_id new_block_id new) in
      put_fbmeta file_block new' ;; ret true
    end
  else ret true.

(** the file moves to the new record, the old one becomes its parent file *)
Definition shrink_switch (f old_meta new_meta offset : Z) : Fs bool :=
  let! nm := get_filemeta new_meta in
  upd_filemeta old_meta (set_fm_child_fh (i32 (fm_fh nm))) ;;
  let! dh := File_dh f in
  let! dir := GetCreatedDirectory_dh dh in
  match dir with
  | None => ret false
  | Some dir =>
    RemoveFileFromoDirectory dir f ;;
    upd_file f (set_fo_meta new_meta) ;;
    AddFileToDirectory dir f ;;
    let! o := get_file f in
    put_file f (set_fo_items ∅ o) ;;
    AddParentFile (MkParentFile old_meta offset (fo_items o) false)
  end.

(** the metadata is written: new file, new file block, old file; then the old
    record and the blocks that are not inherited are recycled *)
Definition shrink_persist (f old_meta offset : Z) (file_block : option Z) : Fs Z :=
  match file_block with Some fb => AddFileBlockNoLock f fb ;; ret tt | None => ret tt end ;;
  upd_file_meta f (set_fm_size offset) ;;
  let! ok := File_WriteMeta f in
  if negb ok then ret (-1) else
  let! ok := match file_block with Some fb => FileBlock_WriteMeta fb | None => ret true end in
  if negb ok then ret (-1) else
  let! om := get_filemeta old_meta in
  let! ok := File_WriteMeta_fh (i32 (fm_fh om)) in
  if negb ok then ret (-1) else
  let! om := get_filemeta old_meta in
  RecycleParentFh f (i32 (fm_fh om)) true.

Definition ShrinkFile (f offset : Z) : Fs Z :=
  let! dh := File_dh f in
  let! name := File_file_name f in
  let! new_meta := NewFreeFileMeta dh name in
  match new_meta with
  | None => ret (-1)
  | Some new_meta =>
    let! o := get_file f in
    let old_meta := fo_meta o in
    let block_num := u32 (offset / kBlockSize) in
    let block_offset := offset mod kBlockSize in
    let file_block_offset := block_num mod kFileBlockCapacity in
    let! om := get_filemeta old_meta in
    upd_filemeta new_meta (fun m =>
      let m := set_fm_is_temp (fm_is_temp om) m in
      let m := set_fm_parent_fh (i32 (fm_fh om)) m in
      let m := set_fm_parent_size (u64 (block_num * kBlockSize)) m in
      set_fm_size (u64 (block_num * kBlockSize)) m) ;;
    let! file_block :=
      (if (0 <? file_block_offset) || (0 <? block_offset) then
         let! fb := GetFileBlockLock in
         match fb with
         | None => ret None
         | Some fb =>
           let! ok := shrink_file_block f new_meta fb block_num block_offset in
           ret (if ok then Some (Some fb) else None)
         end
       else ret (Some None)) in
    match file_block with
    | None => ret (-1)
    | Some file_block =>
      let! ok := shrink_switch f old_meta new_meta offset in
      if negb ok then ret (-1) else shrink_persist f old_meta offset file_block
    end
  end.

Definition File_ftruncate (f offset : Z) : Fs Z :=
  let! size := File_file_size f in
  if size <? offset then ExtendFile f offset
  else if offset <? size then ShrinkFile f offset
  else ret 0.

End File.
