(* ===== verification/OpenFile.v ===== *)
(** * Open files: reading, writing, seeking

    Models the [OpenFile] class of [lib/file.cc] with its [FileReader] and
    [FileWriter]: a range of the file is cut into pieces, one per data block,
    and each piece is moved between the caller's buffer and the device. *)

From S2P Require Import Prelude Meta Device World SuperBlock Resources Paths FileBlock Inode.
From S2P Require Import Directory FileHandle File.

(** [BlockData]: the pointer into the caller's buffer is the position in it *)
Record BlockData : Set := MkBlockData {
  bd_block_id : Z;
  bd_buffer_pos : Z;
  bd_dev_offset : Z;
  bd_size : Z
}.

(** the size of [block_locks_] in [lib/block_handle.h] *)
Definition kBlockLocks : Z := 100000.

Section OpenFile.
Context `{Env}.

(** ** Cutting a range into blocks

    The loop of [ReadData] and [WriteData] (the same in both). *)

(** one round: where the piece starts in its block, and its size *)
Definition piece (block_offset_in_block size curr : Z) : Z * Z :=
  if 0 <? block_offset_in_block
  then (u32 block_offset_in_block, Z.min size (kBlockSize - block_offset_in_block))
  else (0, Z.min (size - curr) kBlockSize).

Fixpoint fill_blocks (fuel : nat) (fb block_index block_offset_in_block curr size : Z)
    : Fs (list BlockData) :=
  match fuel with
  | O => ret []
  | S fuel =>
    let! m := get_fbmeta fb in
    let! block_id := get_block_id m block_index in
    let '(block_off, block_size) := piece block_offset_in_block size curr in
    let! sb := gets w_super in
    let block := MkBlockData block_id curr (data_offset sb block_id block_off) block_size in
    let curr := curr + block_size in
    if size <=? curr then ret [block]
    else
      let! blocks := fill_blocks fuel fb (i32 (block_index + 1)) 0 curr size in
      ret (block :: blocks)
  end.

(** a partial first block, the full blocks and a partial last block *)
Definition fill_fuel (size : Z) : nat := Z.to_nat (size / kBlockSize + 2).

(** [block_locks_[block_id]] must exist *)
Definition block_lock (block_id : Z) : Fs unit :=
  if block_id <? kBlockLocks then ret tt else crash_with OutOfBounds.

(** ** [FileReader] *)

Definition ReadBlockData (direct : bool) (b : BlockData) : Fs (Z * bytes) :=
  if direct then PreadDirect (Z.to_nat (bd_size b)) (bd_dev_offset b)
  else PreadCache (Z.to_nat (bd_size b)) (bd_dev_offset b).

Fixpoint read_blocks (direct : bool) (blocks : list BlockData) (total : Z) (buffer : bytes)
    : Fs (Z * bytes) :=
  match blocks with
  | [] => ret (total, buffer)
  | b :: blocks' =>
    block_lock (bd_block_id b) ;;
    let! r := ReadBlockData direct b in
    let '(block_read, out) := r in
    let buffer := splice (Z.to_nat (bd_buffer_pos b)) out buffer in
    if block_read <=? 0 then ret (total, buffer)
    else read_blocks direct blocks' (total + block_read) buffer
  end.

Definition advance_append_pos (o ret_ : Z) : Fs unit :=
  let! x := get_open o in put_open o (set_of_append_pos (u64 (of_append_pos x + ret_)) x).

Definition FileReader_ReadData (o : Z) (buffer : bytes) (size offset : Z) (direct : bool)
    : Fs (Z * bytes) :=
  let block_index_in_file_block := i32 (offset / kBlockSize) in
  let block_offset_in_block := offset mod kBlockSize in
  let! x := get_open o in
  let! file_block := GetFileBlock (of_file x) 0 in
  match file_block with
  | None => ret (-1, buffer)
  | Some fb =>
    let! blocks := fill_blocks (fill_fuel size) fb block_index_in_file_block
                     block_offset_in_block 0 size in
    let! r := read_blocks direct blocks 0 buffer in
    let '(total, buffer) := r in
    (if negb direct then advance_append_pos o total else ret tt) ;;
    ret (total, buffer)
  end.

(** ** [FileWriter] *)

Definition WriteBlockData (direct : bool) (b : BlockData) (buffer : bytes) : Fs Z :=
  let data := slice (Z.to_nat (bd_buffer_pos b)) (Z.to_nat (bd_size b)) buffer in
  if direct then PwriteDirect data (bd_dev_offset b) else PwriteCache data (bd_dev_offset b).

Fixpoint write_blocks (direct : bool) (blocks : list BlockData) (total : Z) (buffer : bytes)
    : Fs Z :=
  match blocks with
  | [] => ret total
  | b :: blocks' =>
    block_lock (bd_block_id b) ;;
    let! block_write := WriteBlockData direct b buffer in
    if block_write <=? 0 then ret total
    else write_blocks direct blocks' (total + block_write) buffer
  end.

Definition FileWriter_WriteData (o : Z) (buffer : bytes) (size offset : Z) (direct : bool)
    : Fs Z :=
  let block_index_in_file_block := i32 (offset / kBlockSize) in
  let block_offset_in_block := offset mod kBlockSize in
  let! x := get_open o in
  let! file_block := GetFileBlock (of_file x) 0 in
  let! fb := deref file_block in
  let! blocks := fill_blocks (fill_fuel size) fb block_index_in_file_block
                   block_offset_in_block 0 size in
  let! total := write_blocks direct blocks 0 buffer in
  (if negb direct then advance_append_pos o total else ret tt) ;;
  ret total.

(** ** [OpenFile] *)

Definition SEEK_SET : Z := 0.
Definition SEEK_CUR : Z := 1.
Definition SEEK_END : Z := 2.

Definition OpenFile_lseek (o offset whence : Z) : Fs Z :=
  let! x := get_open o in
  let current_pos := i64 (of_append_pos x) in
  let! size := File_file_size (of_file x) in
  let! pos :=
    (if whence =? SEEK_SET then ret (Some offset)
     else if whence =? SEEK_CUR then ret (Some (i64 (current_pos + offset)))
     else if whence =? SEEK_END then ret (Some (i64 (size + offset)))
     else set_errno EINVAL ;; ret None) in
  match pos with
  | None => ret (-1)
  | Some current_pos =>
    put_open o (set_of_append_pos (u64 current_pos) x) ;; ret current_pos
  end.

(** [read] (called with the append position) and [pread] have the same body *)
Definition OpenFile_pread (o : Z) (buf : bytes) (size offset : Z) : Fs (Z * bytes) :=
  let! x := get_open o in
  let! file_size := File_file_size (of_file x) in
  if (size =? 0) || (file_size <=? offset) then ret (0, buf)
  else
    let need_read_size := if file_size <? u64 (offset + size) then file_size - offset else size in
    FileReader_ReadData o buf need_read_size offset false.

Definition OpenFile_read (o : Z) (buf : bytes) (size append_pos : Z) : Fs (Z * bytes) :=
  OpenFile_pread o buf size append_pos.

Definition OpenFile_pwrite (o : Z) (buf : bytes) (offset : Z) : Fs Z :=
  let size := Z.of_nat (length buf) in
  if size =? 0 then ret 0
  else
    let! x := get_open o in
    let f := of_file x in
    let! file_size := File_file_size f in
    let! ok := (if file_size <? u64 (offset + size)
                then let! r := File_ftruncate f (u64 (offset + size)) in ret (0 <=? r)
                else ret true) in
    if negb ok then ret (-1)
    else
      let! seconds := gets w_now in
      (if seconds mod 2 =? 0 then File_UpdateTimeStamp f seconds else ret tt) ;;
      FileWriter_WriteData o buf size offset false.

End OpenFile.
