(* ===== verification/FileHandleOps.v ===== *)
(** * Operations on files by path and by descriptor

    Models the rest of [lib/file_handle.cc]: loading and formatting the file
    records, creating, unlinking, opening, closing and duplicating files. *)

From S2P Require Import Prelude Meta Device World SuperBlock Resources Paths FileBlock Inode.
From S2P Require Import Directory FileHandle File OpenFile.

(** ** Flags of [open] (Linux) *)

Definition O_WRONLY : Z := 1.
Definition O_RDWR : Z := 2.
Definition O_CREAT : Z := 64.
Definition O_EXCL : Z := 128.
Definition O_TRUNC : Z := 512.
Definition O_APPEND : Z := 1024.
Definition O_DIRECTORY : Z := 65536.
(** [__O_TMPFILE | O_DIRECTORY] *)
Definition O_TMPFILE : Z := 4259840.

(** [flags & bit] as a condition *)
Definition has_flag (flags bit : Z) : bool := negb (Z.land flags bit =? 0).

Section FileHandleOps.
Context `{Env}.

(** ** Metadata *)

(** one round of [InitializeMeta]; [false] stops the mount *)
Definition file_init_one (fh : Z) : Fs bool :=
  let! m := get_filemeta fh in
  if negb (fm_crc m =? file_crc_of m) then ret false
  else if fm_used m then
    if fm_is_temp m then
      upd_filemeta fh File_ClearMeta ;;
      File_WriteMeta_fh (i32 (fm_fh m))
    else if Nat.eqb (length (cstr (fm_file_name m))) 0 then ret false
    else if negb (fm_fh m =? fh) then ret false
    else
      let! f := fresh in
      put_file f (MkFile fh ∅ 0 false false) ;;
      (if 0 <? fm_child_fh m then
         modify (fun w => set_w_fh (set_fh_created_fhs
           (<[u64 (i32 (fm_fh m)) := f]> (fh_created_fhs (w_fh w))) (w_fh w)) w)
       else AddFileNoLock f) ;;
      let! dir := GetCreatedDirectory_dh (fm_dh m) in
      match dir with
      | None => ret false
      | Some dir => AddChildFile dir f ;; ret true
      end
  else AddFile2FreeNolock fh ;; ret true.

(** a loop [for (i ...) if (!step(i)) return false] *)
Fixpoint all_of (step : Z -> Fs bool) (l : list Z) : Fs bool :=
  match l with
  | [] => ret true
  | i :: l' => let! ok := step i in if negb ok then ret false else all_of step l'
  end.

Definition FileHandle_InitializeMeta : Fs bool :=
  let! sb := gets w_super in all_of file_init_one (seqZ 0 (sb_max_file_num sb)).

Definition format_file_record (fh : Z) : FileMeta :=
  let m := MkFileMeta 0 fh 0 0 0 0 0 0 0 0 0 (-1) (-1) 0 false false
             (replicate 64 0) (replicate 106 0) in
  set_fm_crc (file_crc_of m) m.

Definition FileHandle_FormatAllMeta : Fs bool :=
  let! sb := gets w_super in
  let buffer := format_area encode_file format_file_record
                  (sb_max_file_num sb) (sb_file_meta_total_size sb) in
  let! r := PwriteDirect buffer (sb_file_meta_offset sb) in
  ret (r =? i64 (sb_file_meta_total_size sb)).

Fixpoint update_all (l : list ((Z * bytes) * Z)) : Fs bool :=
  match l with
  | [] => ret true
  | (_, f) :: l' => let! ok := File_UpdateMeta f in if negb ok then ret false else update_all l'
  end.

Definition FileHandle_UpdateMeta : Fs bool :=
  let! h := gets w_fh in update_all (map_order (fh_created_files h)).

(** ** Creating and removing *)

(** [CreateFile]: the [mode] argument is not used by the code *)
Definition FileHandle_CreateFile (filename : bytes) (mode : Z) (tmpfile : bool)
    : Fs (option Z) :=
  let! names :=
    (if negb tmpfile then file_TransformPath filename else ret (Some (filename, []))) in
  match names with
  | None => ret None
  | Some (new_dirname, new_filename) =>
    let! dirs := NewFile new_dirname new_filename tmpfile in
    match dirs with
    | None => ret None
    | Some (parent_dir, curr_file) =>
      let! ok := File_WriteMeta curr_file in
      if negb ok then ret None
      else
        AddFileToDirectory parent_dir curr_file ;;
        set_errno 0 ;;
        ret (Some curr_file)
    end
  end.

(** the steps that [UnlinkFileNolock] and [unlink] share *)
Definition unlink_file (parent_dir f : Z) : Fs Z :=
  let! ok := RemoveAllFileBlock f in
  if negb ok then ret (-1) else
  let! ok := File_Release f in
  if negb ok then ret (-1) else
  let! ok := RemoveFileFromoDirectory parent_dir f in
  if negb ok then ret (-1) else
  set_errno 0 ;; ret 0.

Definition UnlinkFileNolock (fh : Z) : Fs Z :=
  let! file := GetCreatedFile_fh fh in
  match file with
  | None => set_errno ENOENT ;; ret (-1)
  | Some f =>
    let! dh := File_dh f in
    let! dir := GetCreatedDirectory_dh dh in
    match dir with
    | None => set_errno EISDIR ;; ret (-1)
    | Some parent_dir =>
      let! time := gets w_now in
      upd_file_meta f (fun m => set_fm_ctime time (set_fm_mtime time m)) ;;
      let! links := File_LinkCount f in
      if 0 <? links then ret (-1) else unlink_file parent_dir f
    end
  end.

Definition FileHandle_unlink (filename : bytes) : Fs Z :=
  let! dir := GetCreatedDirectory filename in
  match dir with
  | Some _ => set_errno EISDIR ;; ret (-1)
  | None =>
    let! names := file_TransformPath filename in
    match names with
    | None => ret (-1)
    | Some (new_dirname, new_filename) =>
      let! dirs := FindFile new_dirname new_filename in
      match dirs with
      | None => ret (-1)
      | Some (parent_dir, curr_file) =>
        let! links := File_LinkCount curr_file in
        if 0 <? links then upd_file curr_file (set_fo_deleted true) ;; ret 0
        else unlink_file parent_dir curr_file
      end
    end
  end.

(** ** Descriptors *)

Definition VerifyOpenExistFileFlag (flags : Z) : Fs bool :=
  if has_flag flags O_CREAT && has_flag flags O_EXCL then set_errno EEXIST ;; ret false
  else if has_flag flags O_DIRECTORY then set_errno ENOTDIR ;; ret false
  else ret true.

Definition IsNeedCreateTempFile (flags : Z) : Fs bool :=
  if negb (has_flag flags O_TMPFILE) then ret false
  else if negb (has_flag flags O_RDWR) && negb (has_flag flags O_WRONLY) then
    set_errno EINVAL ;; ret false
  else ret true.

(** the file that [open] works on; [None] is the early return of -1 *)
Definition open_file_of (filename : bytes) (flags : Z) : Fs (option Z) :=
  let! temp := IsNeedCreateTempFile flags in
  if temp then FileHandle_CreateFile filename flags true
  else
    let! dir := GetCreatedDirectory filename in
    match dir with
    | Some _ => set_errno EISDIR ;; ret None
    | None =>
      let! file := GetCreatedFile filename in
      match file with
      | None =>
        if has_flag flags O_CREAT then FileHandle_CreateFile filename flags false
        else set_errno ENOENT ;; ret None
      | Some f =>
        let! ok := VerifyOpenExistFileFlag flags in
        if negb ok then ret None
        else if has_flag flags O_TRUNC && has_flag flags (Z.lor O_RDWR O_WRONLY) then
          let! r := File_ftruncate f 0 in
          ret (if r <? 0 then None else Some f)
        else ret (Some f)
      end
    end.

(** [open]: the descriptor is kept in an unsigned [ino_t], so the test for a failed
    [get_fd] never holds *)
Definition FileHandle_open (filename : bytes) (flags : Z) : Fs Z :=
  let! file := open_file_of filename flags in
  match file with
  | None => ret (-1)
  | Some f =>
    let! fd := Fd.get_fd in
    let fd := u64 fd in
    if fd <? 0 then ret (-1)
    else
      let! o := fresh in
      let! size := File_file_size f in
      put_open o (MkOpenFile f 0) ;;
      modify (fun w => set_w_fh (set_fh_open_files (<[fd := o]> (fh_open_files (w_fh w)))
                                   (w_fh w)) w) ;;
      put_open o (MkOpenFile f (if has_flag flags O_APPEND then size else 0)) ;;
      File_IncLinkCount f ;;
      set_errno 0 ;;
      ret (i32 fd)
  end.

Definition FileHandle_close (fd : Z) : Fs Z :=
  let! open_file := GetOpenFile fd in
  match open_file with
  | None => ret (-1)
  | Some o =>
    let! x := get_open o in
    let f := of_file x in
    File_fsync f ;;
    upd_file f (set_fo_locked false) ;;
    File_DecLinkCount f ;;
    let! links := File_LinkCount f in
    let! temp := File_is_temp f in
    let! y := get_file f in
    let! fh := File_fh f in
    (if (links =? 0) && (temp || fo_deleted y) then UnlinkFileNolock fh ;; ret tt
     else ret tt) ;;
    modify (fun w => set_w_fh (set_fh_open_files (delete (u64 fd) (fh_open_files (w_fh w)))
                                 (w_fh w)) w) ;;
    Fd.put_fd (i32 fd) ;;
    set_errno 0 ;;
    ret 0
  end.

Definition FileHandle_dup (oldfd : Z) : Fs Z :=
  let! old := GetOpenFile oldfd in
  match old with
  | None => ret (-1)
  | Some o =>
    let! x := get_open o in
    let f := of_file x in
    let! newfd := Fd.get_fd in
    let newfd := u64 newfd in
    if newfd <? 0 then ret (-1)
    else
      let! n := fresh in
      put_open n (MkOpenFile f 0) ;;
      modify (fun w => set_w_fh (set_fh_open_files (<[newfd := n]> (fh_open_files (w_fh w)))
                                   (w_fh w)) w) ;;
      File_IncLinkCount f ;;
      set_errno 0 ;;
      ret (i32 newfd)
  end.

Definition FileHandle_fsync (fd : Z) : Fs Z :=
  let! open_file := GetOpenFile fd in
  match open_file with
  | None => set_errno ENOENT ;; ret (-1)
  | Some o => let! x := get_open o in File_fsync (of_file x)
  end.

End FileHandleOps.
