(* ===== verification/DirHandle.v ===== *)
(** * Operations on directories by path and by handle

    Models the rest of [lib/dir_handle.cc]: loading and formatting the
    directory records, creating, deleting, renaming, opening, reading and
    closing directories. *)

From S2P Require Import Prelude Meta Device World SuperBlock Resources Paths FileBlock Inode.
From S2P Require Import Directory FileHandle FileHandleOps.

Section DirHandle.
Context `{Env}.

(** ** Metadata *)

Definition dir_init_one (dh : Z) : Fs bool :=
  let! m := get_dirmeta dh in
  if negb (dm_crc m =? dir_crc_of m) then ret false
  else if dm_used m then
    if Nat.eqb (length (cstr (dm_dir_name m))) 0 then ret false
    else if negb (dm_dh m =? dh) then ret false
    else
      let! d := fresh in
      put_dir d (MkDirectory dh ∅ ∅ 0) ;;
      AddDirectory2CreateNolock d
  else
    modify (fun w => set_w_dh (set_dh_free (dh_free (w_dh w) ++ [dh]) (w_dh w)) w) ;; ret true.

(** the second loop of [InitializeMeta]: every directory but the mount point is
    entered into its parent *)
Definition dir_link_one (d : Z) : Fs bool :=
  let! dir_name := Directory_dir_name d in
  if IsMountPoint dir_name then ret true
  else
    let! parent_dir := GetCreatedDirectory (GetDirName dir_name) in
    match parent_dir with
    | None => ret false
    | Some p => AddChildDirectory p d
    end.

Definition DirHandle_InitializeMeta : Fs bool :=
  let! sb := gets w_super in
  let! ok := all_of dir_init_one (seqZ 0 (sb_max_file_num sb)) in
  if negb ok then ret false
  else let! h := gets w_dh in all_of dir_link_one (snd <$> map_order (dh_created_dirs h)).

Definition format_dir_record (dh : Z) : DirMeta :=
  let m := MkDirMeta 0 dh 0 0 0 0 0 0 0 false (replicate 768 0) (replicate 199 0) in
  set_dm_crc (dir_crc_of m) m.

Definition DirHandle_FormatAllMeta : Fs bool :=
  let! sb := gets w_super in
  let buffer := format_area encode_dir format_dir_record
                  (sb_max_file_num sb) (sb_dir_meta_total_size sb) in
  let! r := PwriteDirect buffer (sb_dir_meta_offset sb) in
  ret (r =? i64 (sb_dir_meta_total_size sb)).

(** ** Creating *)

(** [DirHandle::CheckFileExist]: false when a file has the path, or its parent's *)
Definition DirHandle_CheckFileExist (dirname : bytes) (check_parent : bool) : Fs bool :=
  if IsMountPoint dirname then ret true
  else
    let path := if ends_with_slash dirname then pop_back dirname else dirname in
    let! file := GetCreatedFile path in
    match file with
    | Some _ => set_errno (if check_parent then EEXIST else ENOTDIR) ;; ret false
    | None =>
      let parent_path := GetDirName dirname in
      if negb (IsMountPoint parent_path) && check_parent then
        let parent_path :=
          if ends_with_slash parent_path then pop_back parent_path else parent_path in
        let! file := GetCreatedFile parent_path in
        match file with
        | Some _ => set_errno ENOTDIR ;; ret false
        | None => ret true
        end
      else ret true
    end.

Definition NewFreeDirectoryNolock (dirname : bytes) : Fs (option Z) :=
  let! h := gets w_dh in
  match dh_free h with
  | [] => set_errno ENFILE ;; ret None
  | dh :: _ =>
    let! m := get_dirmeta dh in
    if dm_used m || negb (dm_dh m =? dh) then set_errno EINVAL ;; ret None
    else
      let! d := fresh in
      put_dir d (MkDirectory dh ∅ ∅ 0) ;;
      let! time := gets w_now in
      upd_dir_meta d (fun m =>
        let m := set_dm_used true m in
        let m := set_dm_dh dh m in
        let m := set_dir_name dirname m in
        let m := set_dm_atime time m in
        let m := set_dm_mtime time m in
        set_dm_ctime time m) ;;
      modify (fun w => set_w_dh (set_dh_free (tail (dh_free (w_dh w))) (w_dh w)) w) ;;
      ret (Some d)
  end.

(** [NewDirectory]: the parent (none for the mount point) and the new directory *)
Definition NewDirectory (dirname : bytes) : Fs (option (option Z * Z)) :=
  let! h := gets w_dh in
  if decide (is_Some (dh_created_dirs h !! dirname)) then set_errno EEXIST ;; ret None
  else
    let! parent :=
      (if IsMountPoint dirname then ret (Some None)
       else match dh_created_dirs h !! GetDirName dirname with
            | None => set_errno ENOENT ;; ret None
            | Some p => ret (Some (Some p))
            end) in
    match parent with
    | None => ret None
    | Some parent =>
      let! dir := NewFreeDirectoryNolock dirname in
      match dir with
      | None => ret None
      | Some d => ret (Some (parent, d))
      end
    end.

(** [AddDirectory]; the failure branch asserts that the child is NOT removed from its
    parent again *)
Definition AddDirectory (parent : option Z) (child : Z) : Fs bool :=
  let! name := Directory_dir_name child in
  let! ok :=
    (if negb (IsMountPoint name) then
       let! p := deref parent in AddChildDirectory p child
     else ret true) in
  if negb ok then ret false
  else
    let! ok := AddDirectory2CreateNolock child in
    if negb ok then
      let! p := deref parent in
      let! removed := RemovChildDirectory p child in
      assert_ (negb removed) ;;
      ret false
    else ret true.

(** the loop of at most three attempts to write the record *)
Fixpoint write_dir_retry (attempts : nat) (d : Z) : Fs bool :=
  match attempts with
  | O => ret false
  | S n =>
    let! ok := Directory_WriteMeta d in
    if ok then ret true else write_dir_retry n d
  end.

Definition CreateDirectory (path : bytes) : Fs Z :=
  let! ok := DirHandle_CheckFileExist path true in
  if negb ok then ret (-1) else
  let! t := dir_TransformPath path in
  match t with
  | None => ret (-1)
  | Some dir_name =>
    let! dirs := NewDirectory dir_name in
    match dirs with
    | None => ret (-1)
    | Some (parent_dir, curr_dir) =>
      let! ok := write_dir_retry 3 curr_dir in
      if negb ok then ret (-1) else
      let! ok := AddDirectory parent_dir curr_dir in
      if negb ok then ret (-1) else
      set_errno 0 ;; ret 0
    end
  end.

(** ** Deleting *)

(** [FindDirectory]: the parent and the directory *)
Definition FindDirectory (dirname : bytes) : Fs (option (Z * Z)) :=
  let! h := gets w_dh in
  match dh_created_dirs h !! GetDirName dirname with
  | None => set_errno ENOENT ;; ret None
  | Some p =>
    match dh_created_dirs h !! dirname with
    | None => set_errno ENOENT ;; ret None
    | Some d => ret (Some (p, d))
    end
  end.

Definition RemoveDirectory (parent child : Z) : Fs bool :=
  let! ok := RemovChildDirectory parent child in
  if negb ok then ret false else RemoveDirectoryFromCreateNolock child.

(** the two refusals of a deletion *)
Definition dir_busy (d : Z) : Fs bool :=
  let! count := Directory_ChildCount d in
  if 0 <? count then set_errno (Z.lor ENOTEMPTY EEXIST) ;; ret true
  else
    let! links := Directory_LinkCount d in
    if 0 <? links then set_errno EBUSY ;; ret true else ret false.

(** [DeleteDirectoryNolock(ino_t)] *)
Definition DeleteDirectory_dh (dh : Z) : Fs Z :=
  let! dir := GetCreatedDirectory_dh dh in
  match dir with
  | None => set_errno ENOENT ;; ret (-1)
  | Some d =>
    let! time := gets w_now in
    upd_dir_meta d (fun m => set_dm_ctime time (set_dm_mtime time m)) ;;
    let! busy := dir_busy d in
    if busy then ret (-1) else
    let! ok := Directory_SuicideNolock d in
    if negb ok then ret (-1) else
    let! name := Directory_dir_name d in
    let! h := gets w_dh in
    match dh_created_dirs h !! GetDirName name with
    | None => set_errno ENOENT ;; ret (-1)
    | Some parent_dir =>
      let! ok := RemoveDirectory parent_dir d in
      if negb ok then ret (-1) else set_errno 0 ;; ret 0
    end
  end.

(** [DeleteDirectory(path, recursive)]; [recursive] is not used by the code *)
Definition DeleteDirectory (path : bytes) (recursive : bool) : Fs Z :=
  let! ok := DirHandle_CheckFileExist path false in
  if negb ok then ret (-1) else
  let! t := dir_TransformPath path in
  match t with
  | None => ret (-1)
  | Some dir_name =>
    if IsMountPoint path then set_errno (Z.lor EPERM EBUSY) ;; ret (-1)
    else
      let! dirs := FindDirectory dir_name in
      match dirs with
      | None => ret (-1)
      | Some (parent_dir, curr_dir) =>
        let! busy := dir_busy curr_dir in
        if busy then ret (-1) else
        let! ok := Directory_SuicideNolock curr_dir in
        if negb ok then ret (-1) else
        let! ok := RemoveDirectory parent_dir curr_dir in
        if negb ok then ret (-1) else set_errno 0 ;; ret 0
      end
  end.

(** ** Renaming: the test on [rename]'s 0 / -1 result is the code's *)

Definition RenameDirectory (from to : bytes) : Fs Z :=
  let! ok := DirHandle_CheckFileExist to true in
  if negb ok then ret (-1)
  else if IsMountPoint from || IsMountPoint to then
    set_errno (Z.lor EPERM EBUSY) ;; ret (-1)
  else
    let! t1 := dir_TransformPath from in
    match t1 with
    | None => ret (-1)
    | Some from_dir_name =>
      let! t2 := dir_TransformPath to in
      match t2 with
      | None => ret (-1)
      | Some to_dir_name =>
        let! dirs := FindDirectory from_dir_name in
        match dirs with
        | None => ret (-1)
        | Some (_, curr_dir) =>
          let! r := Directory_rename curr_dir to_dir_name in
          if r =? 0 then ret (-1) else set_errno 0 ;; ret 0
        end
      end
    end.

(** ** Streams *)

(** [None] is the null pointer *)
Definition OpenDirectory (path : bytes) : Fs (option Z) :=
  let! t := dir_TransformPath path in
  match t with
  | None => ret None
  | Some dir_name =>
    let! dir := GetCreatedDirectory dir_name in
    match dir with
    | None => set_errno ENOENT ;; ret None
    | Some d =>
      let! fd := Fd.get_fd in
      if fd <? 0 then ret None
      else
        let! s := fresh in
        modify (fun w => set_w_dh (set_dh_open_dirs (<[u64 fd := d]> (dh_open_dirs (w_dh w)))
                                     (w_dh w)) w) ;;
        modify (fun w => set_w_streams (<[s := MkDirStream false fd 0 d []]> (w_streams w)) w) ;;
        Directory_IncLinkCount d ;;
        ret (Some s)
    end
  end.

Definition get_stream (s : Z) : Fs dir_stream :=
  let! m := gets w_streams in deref (m !! s).
Definition put_stream (s : Z) (x : dir_stream) : Fs unit :=
  modify (fun w => set_w_streams (<[s := x]> (w_streams w)) w).

Definition ReadDirectory (s : Z) : Fs (option dirent) :=
  let! x := get_stream s in
  (if negb (ds_inited x) then
     let! items := ScanDir (ds_dir x) in
     Directory_UpdateTimeStamp (ds_dir x) false true true ;;
     put_stream s (set_ds_inited true (set_ds_items (ds_items x ++ items) x))
   else ret tt) ;;
  let! x := get_stream s in
  match ds_items x !! Z.to_nat (ds_index x) with
  | None => ret None
  | Some e => put_stream s (set_ds_index (u32 (ds_index x + 1)) x) ;; ret (Some e)
  end.

(** the stream is freed; its entry of [open_dirs_] stays *)
Definition CloseDirectory (s : Z) : Fs Z :=
  let! x := get_stream s in
  Fd.put_fd (ds_fd x) ;;
  Directory_DecLinkCount (ds_dir x) ;;
  modify (fun w => set_w_streams (delete s (w_streams w)) w) ;;
  ret 0.

End DirHandle.
