(* ===== verification/FileSystem.v ===== *)
(** * The file system

    Models [lib/file_system.cc] and, of [lib/shm_manager.cc], the loading of
    the metadata: formatting a device, mounting it, and the operations by path
    and by descriptor that [FileSystem] offers.  The device of the world is already
    open: opening it is the file DeviceOpen.  The shared memory segment and the
    loggers are not modelled.  A mount reads the configuration first ([ParseConfig]
    in ConfigLoad). *)

From S2P Require Import Prelude Meta Device World SuperBlock Resources Paths FileBlock Inode.
From S2P Require Import Directory FileHandle File OpenFile FileHandleOps DirHandle.

Section FileSystem.
Context `{Env}.

(** ** Starting *)

(** The process after [Initialize] and the opening of the device [d]: every handle
    is as its constructor leaves it.  [super] stands for the super block, which no
    code reads before the metadata is loaded. *)
Definition new_process (super : SuperBlockMeta) (d : device) (now : Z) : world := {|
  w_super := super; w_dirmeta := ∅; w_filemeta := ∅; w_fbmeta := ∅; w_dev := d;
  w_fdh := Fd.FdHandle_init; w_bh := MkBlockHandle 0 ∅; w_dh := MkDirHandle [] ∅ ∅ ∅;
  w_fh := MkFileHandle [] ∅ ∅ ∅ ∅; w_free_fbhs := []; w_files := ∅; w_dirs := ∅;
  w_opens := ∅; w_streams := ∅; w_next := 0; w_errno := 0; w_now := now
|}.

(** ** The super block *)

(** [PrefetchSuperMeta]: [None] is the failure *)
Definition PrefetchSuperMeta : Fs (option SuperBlockMeta) :=
  let! r := PreadCache (Z.to_nat kSuperBlockSize) kSuperBlockOffset in
  let '(n, out) := r in
  if negb (n =? kSuperBlockSize) then ret None
  else
    let super := decode_super out in
    ret (if super_valid super then Some super else None).

(** ** Formatting *)

(** a loop over the handles that stops at the first failure *)
Fixpoint run_all (l : list (Fs bool)) : Fs bool :=
  match l with
  | [] => ret true
  | m :: l' => let! ok := m in if negb ok then ret false else run_all l'
  end.

(** [FormatAllMeta] of the handles, in the order of [handle_vector_]; [BlockHandle]
    inherits one that succeeds *)
Definition handles_FormatAllMeta : list (Fs bool) :=
  [SuperBlock_FormatAllMeta; ret true; DirHandle_FormatAllMeta;
   FileHandle_FormatAllMeta; FileBlockHandle_FormatAllMeta].

(** [Format] on an open device.  [CleanupDirtyShareMemory] reads the old super block to
    remove the shared memory of its uuid. *)
Definition FileSystem_Format : Fs bool :=
  PrefetchSuperMeta ;; run_all handles_FormatAllMeta.

(** the loop of [FormatFSData], which [Format] no longer calls *)
Fixpoint format_data_loop (fuel : nat) (zero_data_offset zero_data_len : Z) : Fs bool :=
  match fuel with
  | O => ret false
  | S fuel =>
    let! sb := gets w_super in
    let zero_data_len :=
      if sb_device_size sb <? u64 (zero_data_offset + kBlockSize)
      then u64 (sb_device_size sb - zero_data_offset) else zero_data_len in
    let! r := PwriteDirect (replicate (Z.to_nat zero_data_len) 0) zero_data_offset in
    if negb (r =? i64 zero_data_len) then ret false
    else
      let zero_data_offset := u64 (zero_data_offset + zero_data_len) in
      if zero_data_offset =? sb_device_size sb then ret true
      else format_data_loop fuel zero_data_offset zero_data_len
  end.

Definition FormatFSData (fuel : nat) : Fs bool :=
  let! sb := gets w_super in
  format_data_loop fuel (sb_block_data_start_offset sb) kBlockSize.

(** ** Loading the metadata *)

(** the structs of an area of the metadata image, at the distance that the super block
    tells; one that does not lie in the image is not in the map, so that its use is
    an access outside of the area *)
Definition load_area {A} (decode : bytes -> A) (size : Z) (image : bytes) (base_addr meta_size n : Z)
    : gmap Z A :=
  list_to_map (omap (fun i =>
    let addr := u64 (base_addr + u64 (meta_size * i)) in
    if addr + size <=? Z.of_nat (length image)
    then Some (i, decode (slice (Z.to_nat addr) (Z.to_nat size) image)) else None) (seqZ 0 n)).

(** [ReadAllMeta] and [RegistMetaBaseAddr]: the areas of the handles start where the super
    block [super] says that was read first; the handles take sizes and numbers from
    the super block of the image *)
Definition regist_image (super : SuperBlockMeta) (image : bytes) : Fs unit :=
  let meta := decode_super (slice 0 (Z.to_nat kSuperBlockSize) image) in
  modify (fun w =>
    set_w_super meta
    (set_w_dirmeta (load_area decode_dir kBlockFsDirMetaSize image (sb_dir_meta_offset super)
                      (sb_dir_meta_size meta) (sb_max_file_num meta))
    (set_w_filemeta (load_area decode_file kBlockFsFileMetaSize image (sb_file_meta_offset super)
                       (sb_file_meta_size meta) (sb_max_file_num meta))
    (set_w_fbmeta (load_area decode_file_block kBlockFsFileBlockMetaSize image
                     (sb_file_block_meta_offset super) (sb_file_block_meta_size meta)
                     (sb_max_file_block_num meta)) w)))).

Definition ShmManager_Initialize : Fs bool :=
  let! super := PrefetchSuperMeta in
  match super with
  | None => ret false
  | Some super =>
    let shm_size := i64 (sb_block_data_start_offset super) in
    if shm_size =? 0 then ret false
    else
      let! r := PreadDirect (Z.to_nat (sb_block_data_start_offset super)) 0 in
      let '(n, image) := r in
      if negb (n =? shm_size) then ret false
      else regist_image super image ;; ret true
  end.

(** [FileBlockHandle::InitializeMeta]: the blocks of a used file block leave the pool *)
Fixpoint claim_blocks (n : nat) (i : Z) (m : FileBlockMeta) : Fs bool :=
  match n with
  | O => ret true
  | S n =>
    let! id := get_block_id m i in
    let! ok := Blocks.GetSpecificBlockId id in
    if negb ok then ret false else claim_blocks n (i + 1) m
  end.

Definition fb_init_one (index : Z) : Fs bool :=
  let! m := get_fbmeta index in
  if negb (fb_crc m =? fb_crc_of m) then ret false
  else if fb_used m then
    if fb_is_temp m then
      upd_fbmeta index FileBlock_ClearMeta ;; FileBlock_WriteMeta index
    else
      let! file := GetCreatedFile_fh (fb_fh m) in
      match file with
      | None => ret false
      | Some f =>
        let! ok := claim_blocks (Z.to_nat (fb_used_block_num m)) 0 m in
        if negb ok then ret false else AddFileBlockNoLock f index ;; ret true
      end
  else PutFileBlockLock index ;; ret true.

Definition FileBlockHandle_InitializeMeta : Fs bool :=
  let! sb := gets w_super in all_of fb_init_one (seqZ 0 (sb_max_file_block_num sb)).

(** [InitializeMeta] of all handles, in the order of [handle_vector_] *)
Definition FileSystem_InitializeMeta : Fs bool :=
  run_all [SuperBlock_InitializeMeta; Blocks.BlockHandle_InitializeMeta;
           DirHandle_InitializeMeta; FileHandle_InitializeMeta;
           FileBlockHandle_InitializeMeta].

Definition MakeMountPoint (mount_point : bytes) : Fs Z :=
  let! dir := GetCreatedDirectory mount_point in
  match dir with
  | None => CreateDirectory mount_point
  | Some _ => ret 0
  end.

(** [MountFileSystem], the configuration read and the target device open *)
Definition MountFileSystem : Fs Z :=
  let! ok := ShmManager_Initialize in
  if negb ok then ret (-1) else
  let! ok := FileSystem_InitializeMeta in
  if negb ok then ret (-1) else
  let! r := MakeMountPoint [slash] in
  ret (if r <? 0 then -1 else 0).

(** [Check] on an open device *)
Definition FileSystem_Check : Fs bool :=
  let! ok := ShmManager_Initialize in
  if negb ok then ret false else FileSystem_InitializeMeta.

(** ** Operations by path *)

(** [StatPath(path, buf)]: [None] is the -1 *)
Definition StatPath (path : bytes) : Fs (option stat_buf) :=
  match path with
  | [] => set_errno EINVAL ;; ret None
  | _ =>
    let stat_dir :=
      let! dir := GetCreatedDirectory path in
      match dir with
      | None => set_errno ENOENT ;; ret None
      | Some d => let! s := Directory_stat d in set_errno 0 ;; ret (Some s)
      end in
    if ends_with_slash path then stat_dir
    else
      let! file := GetCreatedFile path in
      match file with
      | None => stat_dir
      | Some f => let! s := File_stat f in set_errno 0 ;; ret (Some s)
      end
  end.

Definition StatPath_fd (fd : Z) : Fs (option stat_buf) :=
  let! open_file := GetOpenFile fd in
  match open_file with
  | None =>
    let! dir := GetOpenDirectory fd in
    match dir with
    | None => set_errno ENOENT ;; ret None
    | Some d => let! s := Directory_stat d in ret (Some s)
    end
  | Some o =>
    let! x := get_open o in let! s := File_stat (of_file x) in ret (Some s)
  end.

(** [struct statvfs] *)
Record statvfs_buf : Type := MkStatVFS {
  f_bsize : Z; f_frsize : Z; f_blocks : Z; f_bfree : Z; f_bavail : Z; f_files : Z;
  f_ffree : Z; f_favail : Z; f_fsid : Z; f_namemax : Z
}.

Definition StatVFS : Fs statvfs_buf :=
  let! sb := gets w_super in
  let! bfree := Blocks.GetFreeBlockNum in
  let! h := gets w_fh in
  let ffree := u32 (Z.of_nat (length (fh_free h))) in
  ret (MkStatVFS (sb_block_size sb) (sb_block_size sb) (sb_curr_block_num sb) bfree bfree
         (sb_max_file_num sb) ffree ffree 0 (sb_max_file_name_len sb)).

Definition FileSystem_CreateFile (path : bytes) (mode : Z) : Fs Z :=
  let! file := FileHandle_CreateFile path mode false in
  ret (match file with Some _ => 0 | None => -1 end).

Definition RenamePath (oldpath newpath : bytes) : Fs Z :=
  if bool_decide (oldpath = []) || bool_decide (newpath = []) then
    set_errno EINVAL ;; ret (-1)
  else
    let! dest_file := GetCreatedFile newpath in
    match dest_file with
    | Some _ => ret (-1)
    | None =>
      let! file := GetCreatedFile oldpath in
      match file with
      | None =>
        let! dir := GetCreatedDirectory oldpath in
        match dir with
        | None => set_errno ENOENT ;; ret (-1)
        | Some _ => RenameDirectory oldpath newpath
        end
      | Some f => File_rename f newpath
      end
    end.

Definition TruncateFile (filename : bytes) (size : Z) : Fs Z :=
  let! file := GetCreatedFile filename in
  match file with
  | None => set_errno ENOENT ;; ret (-1)
  | Some f => File_ftruncate f (u64 size)
  end.

(** ** Operations by descriptor *)

Definition TruncateFile_fd (fd size : Z) : Fs Z :=
  let! open_file := GetOpenFile fd in
  match open_file with
  | None => set_errno ENOENT ;; ret (-1)
  | Some o => let! x := get_open o in File_ftruncate (of_file x) (u64 size)
  end.

Definition ReadFile (fd : Z) (buf : bytes) (len : Z) : Fs (Z * bytes) :=
  let! open_file := GetOpenFile fd in
  match open_file with
  | None => ret (-1, buf)
  | Some o => let! x := get_open o in OpenFile_read o buf len (of_append_pos x)
  end.

Definition PreadFile (fd : Z) (buf : bytes) (len offset : Z) : Fs (Z * bytes) :=
  let! open_file := GetOpenFile fd in
  match open_file with
  | None => set_errno ENOENT ;; ret (-1, buf)
  | Some o => OpenFile_pread o buf len (u64 offset)
  end.

Definition PwriteFile (fd : Z) (buf : bytes) (offset : Z) : Fs Z :=
  let! open_file := GetOpenFile fd in
  match open_file with
  | None => set_errno ENOENT ;; ret (-1)
  | Some o => OpenFile_pwrite o buf (u64 offset)
  end.

Definition SeekFile (fd offset whence : Z) : Fs Z :=
  let! open_file := GetOpenFile fd in
  match open_file with
  | None => ret (-1)
  | Some o => OpenFile_lseek o offset whence
  end.

(** ** Locks: [fcntl] with a lock type *)

Definition F_RDLCK : Z := 0.
Definition F_WRLCK : Z := 1.
Definition F_UNLCK : Z := 2.

Definition FcntlFile (fd lock_type : Z) : Fs Z :=
  let! open_file := GetOpenFile fd in
  match open_file with
  | None => ret (-1)
  | Some o =>
    let! x := get_open o in
    let f := of_file x in
    let! y := get_file f in
    if lock_type =? F_UNLCK then
      if negb (fo_locked y) then set_errno ENOLCK ;; ret (-1)
      else upd_file f (set_fo_locked false) ;; ret 0
    else if (lock_type =? F_RDLCK) || (lock_type =? F_WRLCK) then
      if fo_locked y then set_errno EACCES ;; ret (-1)
      else upd_file f (set_fo_locked true) ;; ret 0
    else ret (-1)
  end.

End FileSystem.
