(* ===== verification/Fuse.v ===== *)
(** * The FUSE handlers

    Models the handlers of [lib/bfs_fuse.cc]: each calls one operation of the
    file system and turns its result into 0, a count or a negated [errno].  A
    [fuse_file_info] pointer is an option of its [fh] (and [flags], where the
    handler reads them); the C strings are byte lists without NUL.
    The handlers under [BFS_USE_READ_WRITE_BUFFER], which is not defined, are
    not modelled. *)

From S2P Require Import Prelude Meta Device World SuperBlock Resources Paths FileBlock Inode.
From S2P Require Import Directory FileHandle File OpenFile FileHandleOps DirHandle FileSystem.

(** [UDiskBFS]: the process and the directories that FUSE has open; a stream's
    address is its identity *)
Record fuse_state : Type := MkFuse {
  fuse_world : world;
  fuse_open_dirs : gset Z
}.

Abbreviation Fu A := (prog fuse_state A).

Definition fs {A} (m : Fs A) : Fu A := fun s =>
  match m (fuse_world s) with
  | Done a w => Done a (MkFuse w (fuse_open_dirs s))
  | Crash c => Crash c
  end.

Definition PushOpenDirectory (dp : Z) : Fu Z :=
  modify (fun s => MkFuse (fuse_world s) ({[dp]} ∪ fuse_open_dirs s)) ;; ret dp.

Definition Fuse_GetOpenDirectory (key : Z) : Fu (option Z) :=
  let! s := gets fuse_open_dirs in ret (if decide (key ∈ s) then Some key else None).

Definition PopOpenDirectory (key : Z) : Fu (option Z) :=
  let! s := gets fuse_open_dirs in
  if decide (key ∈ s) then
    modify (fun s => MkFuse (fuse_world s) (fuse_open_dirs s ∖ {[key]})) ;; ret (Some key)
  else ret None.

Definition O_RDONLY : Z := 0.

Section Fuse.
Context `{Env}.

(** [return -errno] *)
Definition neg_errno : Fu Z := let! e := fs (gets w_errno) in ret (- e).

Definition or_errno (res : Z) : Fu Z := if res <? 0 then neg_errno else ret 0.

(** the descriptor of [fi], or one that the handler opens itself *)
Definition fd_of (fi : option Z) (path : bytes) (flags : Z) : Fu Z :=
  match fi with
  | Some fh => ret fh
  | None => let! fd := fs (FileHandle_open path flags) in ret (u64 fd)
  end.

Definition close_own (fi : option Z) (fd : Z) : Fu unit :=
  match fi with
  | Some _ => ret tt
  | None => fs (FileHandle_close fd) ;; ret tt
  end.

Definition root_stat (vfs : statvfs_buf) (now : Z) : stat_buf :=
  MkStat 0 0 (Z.lor S_IFDIR kStatMode) 2 env_uid env_gid 0 (f_bsize vfs) 1 now now now 1024.

Definition mfs_getattr (path : bytes) (fi : option Z) : Fu (Z * option stat_buf) :=
  if decide (path = [slash]) then
    let! vfs := fs StatVFS in
    let! now := fs (gets w_now) in
    ret (0, Some (root_stat vfs now))
  else
    let! res :=
      match fi with
      | Some fh => fs (StatPath_fd (i32 fh))
      | None => fs (StatPath path)
      end in
    match res with
    | None => let! e := neg_errno in ret (e, None)
    | Some s => ret (0, Some s)
    end.

Definition bfs_mknod (path : bytes) (mode : Z) : Fu Z :=
  let! res := fs (FileSystem_CreateFile path mode) in or_errno res.
Definition mfs_mkdir (path : bytes) (mode : Z) : Fu Z :=
  let! res := fs (CreateDirectory path) in or_errno res.
Definition fuse_unlink (path : bytes) : Fu Z :=
  let! res := fs (FileHandle_unlink path) in or_errno res.
Definition bfs_rmdir (path : bytes) : Fu Z :=
  let! res := fs (DeleteDirectory path false) in or_errno res.

Definition mfs_rename (from to : bytes) (flags : Z) : Fu Z :=
  if negb (flags =? 0) then ret (- EINVAL)
  else let! res := fs (RenamePath from to) in or_errno res.

Definition mfs_truncate (path : option bytes) (size : Z) (fi : option Z) : Fu Z :=
  match path with
  | None => ret (- EINVAL)
  | Some path =>
    if size <? 0 then ret (- EINVAL)
    else
      let! res :=
        match fi with
        | Some fh => fs (TruncateFile_fd (i32 fh) size)
        | None => fs (TruncateFile path size)
        end in
      or_errno res
  end.

(** [mfs_open] and [mfs_create]: the new [fi->fh] and the result, which is 0 *)
Definition mfs_open (path : option bytes) (flags : Z) : Fu (Z * option Z) :=
  match path with
  | None => ret (- EINVAL, None)
  | Some path =>
    let! fd := fs (FileHandle_open path flags) in ret (0, Some (u64 fd))
  end.
Definition mfs_create (path : option bytes) (mode flags : Z) : Fu (Z * option Z) :=
  mfs_open path flags.

(** the result of [PreadFile] and [PwriteFile] is narrowed to [int] *)
Definition mfs_read (path : bytes) (buf : bytes) (size offset : Z) (fi : option Z)
    : Fu (Z * bytes) :=
  let! fd := fd_of fi path O_RDONLY in
  let! r := fs (PreadFile fd buf size offset) in
  let '(n, buf) := r in
  let res := i32 n in
  let! e := neg_errno in
  let res := if res <? 0 then e else res in
  close_own fi fd ;;
  ret (res, buf).

Definition fuse_write (path : bytes) (buf : bytes) (offset : Z) (fi : option Z) : Fu Z :=
  let! fd := fd_of fi path O_RDONLY in
  let! n := fs (PwriteFile fd buf offset) in
  let res := i32 n in
  let! e := neg_errno in
  let res := if res <? 0 then e else res in
  close_own fi fd ;;
  ret res.

Definition mfs_statfs : Fu (Z * statvfs_buf) := let! vfs := fs StatVFS in ret (0, vfs).

Definition flush (path : bytes) (fi : option Z) : Fu Z :=
  let! fd := fd_of fi path O_RDONLY in
  let! d := fs (FileHandle_dup (i32 fd)) in
  let! res := fs (FileHandle_close d) in
  if res <? 0 then neg_errno
  else close_own fi fd ;; ret 0.

Definition bfs_release (fi : option Z) : Fu Z :=
  match fi with
  | None => ret 0
  | Some fh =>
    let! res := fs (FileHandle_close fh) in
    if res <? 0 then neg_errno else ret (- res)
  end.

Definition mfs_fsync (path : bytes) (datasync : Z) (fi : option Z) : Fu Z :=
  let! fd := fd_of fi path O_RDONLY in
  let! res := fs (FileHandle_fsync fd) in
  if res <? 0 then neg_errno
  else close_own fi fd ;; ret 0.

Definition bfs_opendir (path : bytes) (fi : bool) : Fu (Z * option Z) :=
  let! dp := fs (OpenDirectory path) in
  match dp with
  | None => let! e := neg_errno in ret (e, None)
  | Some dp =>
    if fi then let! key := PushOpenDirectory dp in ret (0, Some key) else ret (0, None)
  end.

(** the names that [bfs_readdir] passes to a filler that accepts them all *)
Fixpoint readdir_loop (fuel : nat) (dp : Z) : Fu (list bytes) :=
  match fuel with
  | O => ret []
  | S fuel =>
    let! de := fs (ReadDirectory dp) in
    match de with
    | None => ret []
    | Some e => let! es := readdir_loop fuel dp in ret (cstr (de_name e) :: es)
    end
  end.

Definition bfs_readdir (fuel : nat) (path : bytes) (fh : Z) : Fu (Z * list bytes) :=
  let dots := if decide (path = [slash]) then [str "."; str ".."] else [] in
  let! dp := Fuse_GetOpenDirectory fh in
  match dp with
  | None => ret (- EINVAL, dots)
  | Some dp => let! es := readdir_loop fuel dp in ret (0, dots ++ es)
  end.

Definition bfs_releasedir (fi : option Z) : Fu Z :=
  match fi with
  | None => ret 0
  | Some fh =>
    let! dp := PopOpenDirectory fh in
    match dp with
    | None => ret (- EINVAL)
    | Some dp => let! res := fs (CloseDirectory dp) in ret (- res)
    end
  end.

(** [bfs_lock] dereferences [fi] before it tests it *)
Definition bfs_lock (path : bytes) (fi : option Z) : Fu Z :=
  let! fd := deref fi in
  let! res := fs (FcntlFile (i32 fd) F_WRLCK) in or_errno res.

Definition bfs_flock (path : bytes) (fi : option Z) : Fu Z :=
  let! fd := fd_of fi path O_WRONLY in
  let! res := fs (FcntlFile (i32 fd) F_WRLCK) in
  if res <? 0 then neg_errno
  else close_own fi fd ;; ret 0.

Definition bfs_lseek (path : bytes) (off whence : Z) (fi : option Z) : Fu Z :=
  let! fd := fd_of fi path O_RDONLY in
  let! res := fs (SeekFile fd off whence) in
  if res <? 0 then neg_errno
  else close_own fi fd ;; ret res.

(** [bfs_copy_file_range] hands the handles to the system call, which takes them for
    descriptors of the process: what it answers ([errno] with it) and what it does
    to the device, if one of them is the device's, is the kernel's. *)
Section CopyRange.
Context (copy_file_range : Z -> Z -> Z -> Z -> Z -> Z -> device -> Z * Z * device).

Definition sys_copy_file_range (fd_in off_in fd_out off_out size flags : Z) : Fs Z :=
  let! d := gets w_dev in
  let '(res, e, d') := copy_file_range fd_in off_in fd_out off_out size flags d in
  modify (set_w_dev d') ;;
  if res <? 0 then set_errno e ;; ret res else ret res.

(** a descriptor for the test: an [int] *)
Definition int_fd_of (fi : option Z) (path : bytes) (flags : Z) : Fu Z :=
  match fi with
  | Some fh => ret (i32 fh)
  | None => fs (FileHandle_open path flags)
  end.

Definition bfs_copy_file_range (path_in : bytes) (fi_in : option Z) (offset_in : Z)
    (path_out : bytes) (fi_out : option Z) (offset_out size flags : Z) : Fu Z :=
  let! fd_in := int_fd_of fi_in path_in O_RDONLY in
  if fd_in =? -1 then neg_errno else
  let! fd_out := int_fd_of fi_out path_out O_WRONLY in
  if fd_out =? -1 then fs (FileHandle_close fd_in) ;; neg_errno
  else
    (** the call dereferences both pointers *)
    let! fh_in := deref fi_in in
    let! fh_out := deref fi_out in
    let! res := fs (sys_copy_file_range (i32 fh_in) offset_in (i32 fh_out) offset_out size flags) in
    if res <? 0 then neg_errno
    else
      close_own fi_out fd_out ;;
      close_own fi_in fd_in ;;
      ret res.
End CopyRange.

End Fuse.
