(* ===== verification/ConfigParser.v ===== *)
(** * The configuration file parser

    Models [lib/config_parser.h] and [lib/config_parser.cc]: an INI file as a
    vector of sections with their items and comments, its parser [Load], its
    printer [SaveAs], and the getters and setters.  A file is its bytes, a
    [std::string] the list of its bytes; a pointer to a section of
    [sections_vt] is the section's position.  The [double] accessors and the
    log messages are not modelled. *)

From S2P Require Import Prelude.

(** ** Data *)

Record IniItem : Type := MkIniItem {
  it_key : bytes; it_value : bytes; it_comment : bytes; it_rightComment : bytes
}.

Record IniSection : Type := MkIniSection {
  se_name : bytes; se_comment : bytes; se_rightComment : bytes; se_items : list IniItem
}.

Record ConfigParser : Type := MkConfigParser {
  sections_vt : list IniSection;
  ConfigParserPath : bytes;
  commentDelimiter : bytes;
  errMsg : bytes
}.

Definition set_se_items (x : list IniItem) (s : IniSection) : IniSection :=
  MkIniSection (se_name s) (se_comment s) (se_rightComment s) x.
Definition set_sections (x : list IniSection) (c : ConfigParser) : ConfigParser :=
  MkConfigParser x (ConfigParserPath c) (commentDelimiter c) (errMsg c).
Definition set_errMsg (x : bytes) (c : ConfigParser) : ConfigParser :=
  MkConfigParser (sections_vt c) (ConfigParserPath c) (commentDelimiter c) x.

Definition RET_OK : Z := 0.
Definition ERR_UNMATCHED_BRACKETS : Z := 2.
Definition ERR_SECTION_EMPTY : Z := 3.
Definition ERR_SECTION_ALREADY_EXISTS : Z := 4.
Definition ERR_PARSE_KEY_VALUE_FAILED : Z := 5.
Definition ERR_OPEN_FILE_FAILED : Z := 6.
Definition ERR_NOT_FOUND_KEY : Z := 8.
Definition ERR_NOT_FOUND_SECTION : Z := 9.

(** ** Characters and strings of the C++ library *)

Definition newline : Z := 10.
(** [delim] *)
Definition delim : bytes := [newline].

(** [isspace] and [towupper] in the C locale *)
Definition isspace (b : Z) : bool := (b =? 32) || ((9 <=? b) && (b <=? 13)).
Definition towupper (b : Z) : Z := if (97 <=? b) && (b <=? 122) then b - 32 else b.

Fixpoint is_prefix (p s : bytes) : bool :=
  match p, s with
  | [], _ => true
  | a :: p', b :: s' => (a =? b) && is_prefix p' s'
  | _ :: _, [] => false
  end.

(** [str.find(sep)] *)
Fixpoint find (sep str : bytes) : option nat :=
  if is_prefix sep str then Some 0%nat
  else match str with [] => None | _ :: str' => S <$> find sep str' end.

(** [strncmp(a, b, n) == 0] on zero-terminated strings *)
Fixpoint strncmp_eq (n : nat) (a b : bytes) : bool :=
  match n with
  | O => true
  | S n' =>
    let x := default 0 (head a) in
    let y := default 0 (head b) in
    if negb (x =? y) then false
    else if x =? 0 then true
    else strncmp_eq n' (tail a) (tail b)
  end.

(** the lines that [std::getline] reads *)
Fixpoint getlines (data line : bytes) : list bytes :=
  match data with
  | [] => match line with [] => [] | _ => [line] end
  | b :: data' =>
    if b =? newline then line :: getlines data' [] else getlines data' (line ++ [b])
  end.

Fixpoint drop_while (f : Z -> bool) (s : bytes) : bytes :=
  match s with
  | [] => []
  | b :: s' => if f b then drop_while f s' else s
  end.

Definition drop_while_end (f : Z -> bool) (s : bytes) : bytes :=
  reverse (drop_while f (reverse s)).

(** ** Private helpers *)

Definition trimleft (str : bytes) (c : Z) : bytes :=
  drop_while (fun b => (b =? c) && negb (b =? 0)) str.
Definition trimright (str : bytes) (c : Z) : bytes := drop_while_end (fun b => b =? c) str.

Definition trim (str : bytes) : bytes :=
  drop_while_end isspace (drop_while (fun b => isspace b && negb (b =? 0)) str).

(** [split]: whether the separator is there, and the parts on its left and right; the
    right part starts one byte behind the separator's first byte, whatever its
    length.  [None] is the exception of a start behind the end of the string. *)
Definition split (str sep : bytes) : option (bool * bytes * bytes) :=
  match find sep str with
  | Some pos =>
    if (length str <? pos + 1)%nat then None
    else Some (true, trim (take pos str), trim (drop (pos + 1) str))
  | None => Some (false, trim str, [])
  end.

Definition parse (content : bytes) : option (bool * bytes * bytes) := split content (str "=").

Definition StartWith (str prefix : bytes) : bool := strncmp_eq (length prefix) str prefix.

Definition IsCommentLine (c : ConfigParser) (str : bytes) : bool :=
  StartWith str (commentDelimiter c).

Definition StringCmpIgnoreCase (str1 str2 : bytes) : bool :=
  bool_decide (towupper <$> str1 = towupper <$> str2).

(** ** Sections *)

(** the constructor *)
Definition ConfigParser_init : ConfigParser := MkConfigParser [] [] (str "#") [].

Definition release (c : ConfigParser) : ConfigParser :=
  MkConfigParser [] [] (commentDelimiter c) (errMsg c).

(** the position of the first section of that name *)
Fixpoint section_index (sections : list IniSection) (section : bytes) : option nat :=
  match sections with
  | [] => None
  | s :: sections' =>
    if decide (se_name s = section) then Some 0%nat
    else S <$> section_index sections' section
  end.

(** [getSection]: [None] is the null pointer *)
Definition getSection (c : ConfigParser) (section : bytes) : option IniSection :=
  i ← section_index (sections_vt c) section; sections_vt c !! i.

Fixpoint find_item (items : list IniItem) (key : bytes) : option nat :=
  match items with
  | [] => None
  | it :: items' => if decide (it_key it = key) then Some 0%nat else S <$> find_item items' key
  end.

(** ** [Load] *)

Record load_state : Type := MkLoad {
  ld_parser : ConfigParser;
  ld_currSection : nat;
  ld_comment : bytes
}.

(** the result is the error code, the parser and the new [currSection] *)
Definition UpdateSection (cleanLine comment rightComment : bytes) (c : ConfigParser) (curr : nat)
    : Z * ConfigParser * nat :=
  match find (str "]") cleanLine with
  | None => (ERR_UNMATCHED_BRACKETS, c, curr)
  | Some index =>
    let len := i32 (u64 (Z.of_nat index - 1)) in
    if len <=? 0 then (ERR_SECTION_EMPTY, c, curr)
    else
      let s := trim (take (Z.to_nat len) (drop 1 cleanLine)) in
      match getSection c s with
      | Some _ => (ERR_SECTION_ALREADY_EXISTS, c, curr)
      | None =>
        (0, set_sections (sections_vt c ++ [MkIniSection s comment rightComment []]) c,
         length (sections_vt c))
      end
  end.

(** [None] is an exception *)
Definition AddKeyValuePair (cleanLine comment rightComment : bytes) (c : ConfigParser) (curr : nat)
    : option (Z * ConfigParser) :=
  match parse cleanLine with
  | None => None
  | Some (false, _, _) => Some (ERR_PARSE_KEY_VALUE_FAILED, c)
  | Some (true, key, value) =>
    let item := MkIniItem key value comment rightComment in
    Some (0, set_sections (alter (fun s => set_se_items (se_items s ++ [item]) s) curr
                             (sections_vt c)) c)
  end.

(** one round of the loop: the error code and the state; a code other than 0 stops *)
Definition load_line (line : bytes) (l : load_state) : option (Z * load_state) :=
  let c := ld_parser l in
  let line := trim line in
  if (Nat.eqb (length line) 0) then
    Some (0, MkLoad c (ld_currSection l) (ld_comment l ++ delim))
  else if IsCommentLine c line then
    Some (0, MkLoad c (ld_currSection l) (ld_comment l ++ line ++ delim))
  else
    match split line (commentDelimiter c) with
    | None => None
    | Some (_, cleanLine, rightComment) =>
      if default 0 (head cleanLine) =? 91 then
        let '(err, c', curr') :=
          UpdateSection cleanLine (ld_comment l) rightComment c (ld_currSection l) in
        Some (err, MkLoad c' curr' (if err =? 0 then [] else ld_comment l))
      else
        match AddKeyValuePair cleanLine (ld_comment l) rightComment c (ld_currSection l) with
        | None => None
        | Some (err, c') =>
          Some (err, MkLoad c' (ld_currSection l) (if err =? 0 then [] else ld_comment l))
        end
    end.

Fixpoint load_lines (lines : list bytes) (l : load_state) : option (Z * load_state) :=
  match lines with
  | [] => Some (0, l)
  | line :: lines' =>
    match load_line line l with
    | None => None
    | Some (err, l') => if negb (err =? 0) then Some (err, l') else load_lines lines' l'
    end
  end.

(** [files] holds the bytes of the files that can be opened; [None] is an exception *)
Definition Load (files : gmap bytes bytes) (filePath : bytes) (c : ConfigParser)
    : option (Z * ConfigParser) :=
  let c := release c in
  let c := MkConfigParser (sections_vt c) filePath (commentDelimiter c) (errMsg c) in
  match files !! filePath with
  | None => Some (ERR_OPEN_FILE_FAILED, c)
  | Some data =>
    let c := set_sections [MkIniSection [] [] [] []] c in
    match load_lines (getlines data []) (MkLoad c 0 []) with
    | None => None
    | Some (err, l) => Some (err, ld_parser l)
    end
  end.

(** ** [SaveAs] *)

(** [if (data[data.length() - 1] != '\n') data += delim] *)
Definition end_line (data : bytes) : bytes :=
  if default 0 (last data) =? newline then data else data ++ delim.

Definition save_item (delimiter : bytes) (data : bytes) (item : IniItem) : bytes :=
  let data :=
    if decide (it_comment item = []) then data else end_line (data ++ it_comment item) in
  let data := data ++ it_key item ++ str "=" ++ it_value item in
  let data :=
    if decide (it_rightComment item = []) then data
    else data ++ str " " ++ delimiter ++ it_rightComment item in
  end_line data.

Definition save_section (delimiter : bytes) (data : bytes) (sect : IniSection) : bytes :=
  let data := if decide (se_comment sect = []) then data else data ++ se_comment sect in
  let data :=
    if decide (se_name sect = []) then data
    else data ++ str "[" ++ se_name sect ++ str "]" ++ delim in
  let data :=
    if decide (se_rightComment sect = []) then data
    else data ++ str " " ++ delimiter ++ se_rightComment sect in
  foldl (save_item delimiter) data (se_items sect).

Definition save_data (c : ConfigParser) : bytes :=
  foldl (save_section (commentDelimiter c)) [] (sections_vt c).

(** a file that is not [writable] cannot be opened for output, which is not reported *)
Definition SaveAs (writable : bytes -> bool) (filePath : bytes) (c : ConfigParser)
    (files : gmap bytes bytes) : Z * gmap bytes bytes :=
  (0, if writable filePath then <[filePath := save_data c]> files else files).

Definition Save (writable : bytes -> bool) (c : ConfigParser) (files : gmap bytes bytes)
    : Z * gmap bytes bytes := SaveAs writable (ConfigParserPath c) c files.

(** ** Getters

    An output argument is a value before the call and a value after it. *)

Definition GetSections (c : ConfigParser) (sections : list bytes) : Z * list bytes :=
  let sections := sections ++ (se_name <$> sections_vt c) in
  (i32 (Z.of_nat (length sections)), sections).

Definition GetSectionNum (c : ConfigParser) : Z := i32 (Z.of_nat (length (sections_vt c))).

(** [getValue]: the code, the value and the comment *)
Definition getValue (c : ConfigParser) (section key value comment : bytes) : Z * bytes * bytes :=
  match getSection c section with
  | None => (ERR_NOT_FOUND_SECTION, value, comment)
  | Some sect =>
    match i ← find_item (se_items sect) key; se_items sect !! i with
    | Some it => (RET_OK, it_value it, it_comment it)
    | None => (ERR_NOT_FOUND_KEY, value, comment)
    end
  end.

Definition GetStringValue (c : ConfigParser) (section key value : bytes) : Z * bytes :=
  let '(err, value, _) := getValue c section key value [] in (err, value).

(** [atoi] as glibc computes it: [strtol], cut to [int] *)
Fixpoint strtol_digits (s : bytes) (acc : Z) : Z :=
  match s with
  | [] => acc
  | b :: s' => if (48 <=? b) && (b <=? 57) then strtol_digits s' (10 * acc + (b - 48)) else acc
  end.

Definition atoi (s : bytes) : Z :=
  let clamp n := Z.max (- 2 ^ 63) (Z.min (2 ^ 63 - 1) n) in
  match drop_while isspace (cstr s) with
  | [] => 0
  | b :: s' =>
    if b =? 45 then i32 (clamp (- strtol_digits s' 0))
    else if b =? 43 then i32 (clamp (strtol_digits s' 0))
    else i32 (clamp (strtol_digits (b :: s') 0))
  end.

Definition GetIntValue (c : ConfigParser) (section key : bytes) : Z * Z :=
  let '(err, strValue) := GetStringValue c section key [] in (err, atoi strValue).

(** a value that is neither keeps what it held *)
Definition GetBoolValue (c : ConfigParser) (section key : bytes) (value : bool) : Z * bool :=
  let '(err, strValue) := GetStringValue c section key [] in
  (err,
   if StringCmpIgnoreCase strValue (str "true") || StringCmpIgnoreCase strValue (str "1") then true
   else if StringCmpIgnoreCase strValue (str "false") || StringCmpIgnoreCase strValue (str "0")
   then false else value).

Definition GetStringValueOrDefault (c : ConfigParser) (section key value defaultValue : bytes)
    : bytes :=
  let '(err, value) := GetStringValue c section key value in
  if negb (err =? 0) then defaultValue else value.

Definition GetIntValueOrDefault (c : ConfigParser) (section key : bytes) (defaultValue : Z) : Z :=
  let '(err, value) := GetIntValue c section key in
  if negb (err =? 0) then defaultValue else value.

Definition GetBoolValueOrDefault (c : ConfigParser) (section key : bytes)
    (value defaultValue : bool) : bool :=
  let '(err, value) := GetBoolValue c section key value in
  if negb (err =? 0) then defaultValue else value.

(** the code, the comment and the parser, whose error message changes *)
Definition GetComment (c : ConfigParser) (section key comment : bytes)
    : Z * bytes * ConfigParser :=
  match getSection c section with
  | None =>
    (ERR_NOT_FOUND_SECTION, comment, set_errMsg (str "not find the section " ++ section) c)
  | Some sect =>
    if decide (key = []) then (RET_OK, se_comment sect, c)
    else
      match i ← find_item (se_items sect) key; se_items sect !! i with
      | Some it => (RET_OK, it_comment it, c)
      | None => (ERR_NOT_FOUND_KEY, comment, set_errMsg (str "not find the key " ++ section) c)
      end
  end.

Definition GetRightComment (c : ConfigParser) (section key rightComment : bytes)
    : Z * bytes * ConfigParser :=
  match getSection c section with
  | None =>
    (ERR_NOT_FOUND_SECTION, rightComment, set_errMsg (str "not find the section " ++ section) c)
  | Some sect =>
    if decide (key = []) then (RET_OK, se_rightComment sect, c)
    else
      match i ← find_item (se_items sect) key; se_items sect !! i with
      | Some it => (RET_OK, it_rightComment it, c)
      | None => (ERR_NOT_FOUND_KEY, rightComment, c)
      end
  end.

(** the values and the comments of all items with that key *)
Definition GetValues (c : ConfigParser) (section key : bytes) : Z * list bytes * list bytes :=
  match getSection c section with
  | None => (ERR_NOT_FOUND_SECTION, [], [])
  | Some sect =>
    let its := filter (fun it => it_key it = key) (se_items sect) in
    if Nat.eqb (length its) 0 then (ERR_NOT_FOUND_KEY, [], [])
    else (RET_OK, it_value <$> its, it_comment <$> its)
  end.

Definition HasSection (c : ConfigParser) (section : bytes) : bool :=
  match getSection c section with Some _ => true | None => false end.

Definition HasKey (c : ConfigParser) (section key : bytes) : bool :=
  match getSection c section with
  | None => false
  | Some sect => match find_item (se_items sect) key with Some _ => true | None => false end
  end.

Definition GetErrMsg (c : ConfigParser) : bytes := errMsg c.

(** ** Setters *)

(** a change of the section at position [i] *)
Definition upd_section (i : nat) (g : IniSection -> IniSection) (c : ConfigParser) : ConfigParser :=
  set_sections (alter g i (sections_vt c)) c.

(** the items with the first one of that key replaced, or a new one at the end *)
Definition set_item (items : list IniItem) (key value comt : bytes) : list IniItem :=
  match find_item items key with
  | Some i => alter (fun it => MkIniItem (it_key it) value comt (it_rightComment it)) i items
  | None => items ++ [MkIniItem key value comt []]
  end.

Definition setValue (c : ConfigParser) (section key value comment : bytes) : Z * ConfigParser :=
  let comt := if decide (comment = []) then [] else commentDelimiter c ++ comment in
  let '(i, c) :=
    match section_index (sections_vt c) section with
    | Some i => (i, c)
    | None =>
      let sect := MkIniSection section [] [] [] in
      if decide (section = []) then (0%nat, set_sections (sect :: sections_vt c) c)
      else (length (sections_vt c), set_sections (sections_vt c ++ [sect]) c)
    end in
  (RET_OK, upd_section i (fun s => set_se_items (set_item (se_items s) key value comt) s) c).

Definition SetStringValue (c : ConfigParser) (section key value : bytes) : Z * ConfigParser :=
  setValue c section key value [].

(** [snprintf] of an [int] with [%d]: at most 10 digits *)
Definition print_int (z : Z) : bytes :=
  if z <? 0 then str "-" ++ digits 10 (- z) [] else digits 10 z [].

Definition SetIntValue (c : ConfigParser) (section key : bytes) (value : Z) : Z * ConfigParser :=
  setValue c section key (print_int value) [].

Definition SetBoolValue (c : ConfigParser) (section key : bytes) (value : bool) : Z * ConfigParser :=
  setValue c section key (if value then str "true" else str "false") [].

Definition SetComment (c : ConfigParser) (section key comment : bytes) : Z * ConfigParser :=
  match section_index (sections_vt c) section with
  | None => (ERR_NOT_FOUND_SECTION, c)
  | Some i =>
    if decide (key = []) then
      (RET_OK, upd_section i (fun s => MkIniSection (se_name s) comment (se_rightComment s)
                                         (se_items s)) c)
    else
      match sect ← sections_vt c !! i; find_item (se_items sect) key with
      | None => (ERR_NOT_FOUND_KEY, c)
      | Some j =>
        (RET_OK, upd_section i (fun s => set_se_items (alter (fun it =>
           MkIniItem (it_key it) (it_value it) comment (it_rightComment it)) j (se_items s)) s) c)
      end
  end.

Definition SetRightComment (c : ConfigParser) (section key rightComment : bytes)
    : Z * ConfigParser :=
  match section_index (sections_vt c) section with
  | None => (ERR_NOT_FOUND_SECTION, c)
  | Some i =>
    if decide (key = []) then
      (RET_OK, upd_section i (fun s => MkIniSection (se_name s) (se_comment s) rightComment
                                         (se_items s)) c)
    else
      match sect ← sections_vt c !! i; find_item (se_items sect) key with
      | None => (ERR_NOT_FOUND_KEY, c)
      | Some j =>
        (RET_OK, upd_section i (fun s => set_se_items (alter (fun it =>
           MkIniItem (it_key it) (it_value it) (it_comment it) rightComment) j (se_items s)) s) c)
      end
  end.

Definition SetCommentDelimiter (c : ConfigParser) (delimiter : bytes) : ConfigParser :=
  MkConfigParser (sections_vt c) (ConfigParserPath c) delimiter (errMsg c).

Definition DeleteSection (c : ConfigParser) (section : bytes) : ConfigParser :=
  match section_index (sections_vt c) section with
  | Some i => set_sections (delete i (sections_vt c)) c
  | None => c
  end.

Definition DeleteKey (c : ConfigParser) (section key : bytes) : ConfigParser :=
  match section_index (sections_vt c) section with
  | None => c
  | Some i =>
    upd_section i (fun s => match find_item (se_items s) key with
                            | Some j => set_se_items (delete j (se_items s)) s
                            | None => s end) c
  end.
