(* ===== verification/Logging.v ===== *)
(** * Log lines

    Models [lib/logging.cc]: the levels and their names, and the building of one
    log line in the buffer of a [Logger], from the time, the level and the place
    to the values that [operator<<] appends.  The time, the printing to the
    standard error and the overloads for floating-point numbers are not
    modelled. *)

From S2P Require Import Prelude.

(** ** Levels *)

(** [LogLevel] *)
Inductive LogLevel : Set :=
  | TRACE | DEBUG | INFO | WARNING | ERROR | FATAL | NUM_LOG_LEVELS.

#[export] Instance LogLevel_eq_dec : EqDecision LogLevel.
Proof. solve_decision. Defined.

(** [kLevelTable] *)
Definition kLevelTable : list (LogLevel * bytes) :=
  [(TRACE, str "TRACE"); (DEBUG, str "DEBUG"); (INFO, str "INFO"); (WARNING, str "WARN");
   (ERROR, str "ERROR"); (FATAL, str "FATAL"); (NUM_LOG_LEVELS, str "NUM_LOG_LEVELS")].

(** [Logger::LogLevelConvert(const std::string &)] *)
Definition LogLevelConvert (pLevel : bytes) : LogLevel :=
  match list_find (fun e => e.2 = pLevel) kLevelTable with
  | Some (_, (level, _)) => level
  | None => INFO
  end.

(** [Logger::LogLevelConvert(LogLevel)] *)
Definition LogLevelConvert_name (level_ : LogLevel) : bytes :=
  match list_find (fun e => e.1 = level_) kLevelTable with
  | Some (_, (_, name)) => name
  | None => str "INFO"
  end.

(** the numbers of the enumerators *)
Definition LogLevel_num (level : LogLevel) : Z :=
  match level with
  | TRACE => 0 | DEBUG => 1 | INFO => 2 | WARNING => 3 | ERROR => 4 | FATAL => 5
  | NUM_LOG_LEVELS => 6
  end.

(** ** The buffer *)

Definition kLogBuffer : nat := 4096.

(** [buffer_]: the array *)
Abbreviation Lg A := (prog bytes A).

(** [strlen(buffer_)] must find its NUL inside the array *)
Definition log_strlen : Lg nat :=
  let! buffer_ := gets id in
  if decide (0 ∈ buffer_) then ret (length (cstr buffer_)) else crash_with OutOfBounds.

(** [Append(buf, len)]; the caller's array has at least [len] bytes *)
Definition Append (buf : bytes) (len : nat) : Lg unit :=
  let! n := log_strlen in
  if decide (n + len <= kLogBuffer)%nat then
    let! src := (if decide (len <= length buf)%nat then ret (take len buf)
                 else crash_with OutOfBounds) in
    modify (splice n src)
  else ret tt.

(** ** Values *)

(** [sprintf] of a number with [%d], [%u], [%ld] or [%lu] *)
Definition sprint_dec (v : Z) : bytes :=
  if v <? 0 then str "-" ++ digits 20 (- v) [] else digits 20 v [].

(** [digitsHex] *)
Definition digitsHex : bytes := str "0123456789ABCDEF".

(** the loop of [ConvertHex]: the digits, the last one first *)
Fixpoint hex_loop (fuel : nat) (i : Z) : bytes :=
  match fuel with
  | O => []
  | S fuel =>
    nth (Z.to_nat (i mod 16)) digitsHex 0 ::
    (if i / 16 =? 0 then [] else hex_loop fuel (i / 16))
  end.

(** [ConvertHex]: the text that it leaves in [buf], without its NUL *)
Definition ConvertHex (value : Z) : bytes := reverse (hex_loop 16 value).

(** the operands of [operator<<] *)
Inductive log_item : Set :=
  | LogBool (v : bool)
  | LogInt8 (v : Z) | LogUInt8 (v : Z) | LogInt16 (v : Z) | LogUInt16 (v : Z)
  | LogInt (v : Z) | LogUInt32 (v : Z) | LogInt64 (v : Z) | LogUInt64 (v : Z)
  | LogCstr (v : option bytes)      (** [const char *], [None] is null *)
  | LogPtr (v : Z)                  (** [const void *] *)
  | LogString (v : bytes).          (** [std::string] *)

(** the overload for C strings, of a text in an array [temp] of [size] bytes *)
Definition log_temp (size : nat) (text : bytes) : Lg unit :=
  if decide (length text < size)%nat then Append text (length text) else crash_with OutOfBounds.

Definition log_item_append (i : log_item) : Lg unit :=
  match i with
  | LogBool v => log_temp 8 (if v then str "true" else str "false")
  | LogInt8 v | LogUInt8 v => log_temp 8 (sprint_dec v)
  | LogInt16 v | LogUInt16 v => log_temp 16 (sprint_dec v)
  | LogInt v => log_temp 32 (sprint_dec v)
  | LogUInt32 v | LogInt64 v | LogUInt64 v => log_temp 64 (sprint_dec v)
  | LogCstr None => Append (str "(null)") 6
  | LogCstr (Some v) => Append (cstr v) (length (cstr v))
  | LogPtr p =>
    if p =? 0 then ret tt
    else
      Append (str "0x") 2 ;;
      let text := ConvertHex p in
      (* [buffer[16]], zeroed: the digits and their NUL must fit *)
      if decide (length text < 16)%nat then
        Append (text ++ replicate (16 - length text) 0) (length text + 2)
      else crash_with OutOfBounds
  | LogString v => Append v (length v)
  end.

(** ** A log line *)

(** [snprintf(buffer_, sizeof(buffer_) - 1, "%s %s %s:%d - ", ...)] *)
Definition log_header (now : bytes) (logLevel : LogLevel) (file : bytes) (line : Z) : bytes :=
  now ++ str " " ++ LogLevelConvert_name logLevel ++ str " " ++ file ++ str ":" ++
  sprint_dec line ++ str " - ".

(** the constructor: a level below the minimum leaves the array as it is *)
Definition Logger_init (min_log_level_ logLevel : LogLevel) (header stack : bytes) : bytes :=
  if LogLevel_num min_log_level_ <=? LogLevel_num logLevel then
    let text := take (kLogBuffer - 2) header in text ++ replicate (kLogBuffer - length text) 0
  else stack.

Fixpoint log_items (l : list log_item) : Lg unit :=
  match l with
  | [] => ret tt
  | i :: l' => log_item_append i ;; log_items l'
  end.

(** the statement [LOG(level) << ...], with what the stack held; the result is what
    the destructor prints *)
Definition log_line (min_log_level_ logLevel : LogLevel) (header stack : bytes) (l : list log_item)
    : outcome bytes (option bytes) :=
  (log_items l ;;
   let! buffer_ := gets id in
   ret (if LogLevel_num min_log_level_ <=? LogLevel_num logLevel then Some (cstr buffer_) else None))
  (Logger_init min_log_level_ logLevel header stack).

(** ** Lemmas *)

(** an array that holds a text and is zero behind it *)
Definition log_array (s : bytes) : bytes := s ++ replicate (kLogBuffer - length s) 0.

Lemma cstr_log_array (s : bytes) : 0 ∉ s -> (length s < kLogBuffer)%nat -> cstr (log_array s) = s.
Proof.
  intros Hs Hl. unfold log_array. destruct (kLogBuffer - length s)%nat eqn:Hn; [lia|].
  cbn [replicate]. by apply cstr_app_nul.
Qed.

Lemma log_strlen_array (s : bytes) :
  0 ∉ s -> (length s < kLogBuffer)%nat -> log_strlen (log_array s) = Done (length s) (log_array s).
Proof.
  intros Hs Hl. unfold log_strlen, bind, gets, id. rewrite decide_True.
  - by rewrite cstr_log_array.
  - unfold log_array. rewrite elem_of_app. right. apply elem_of_replicate. split; [done|lia].
Qed.

(** what fits is appended, with zeros behind it *)
Lemma Append_run (s text : bytes) (k : nat) :
  0 ∉ s -> (length s < kLogBuffer)%nat -> (length s + length text + k <= kLogBuffer)%nat ->
  Append (text ++ replicate k 0) (length text + k) (log_array s) = Done tt (log_array (s ++ text)).
Proof.
  intros Hs Hl Hfit. unfold Append. erewrite bind_run by by apply log_strlen_array.
  rewrite decide_True by lia. rewrite decide_True by (rewrite length_app, length_replicate; lia).
  unfold bind, ret, modify. f_equal. rewrite take_ge by (rewrite length_app, length_replicate; lia).
  unfold splice, log_array. rewrite take_app_length, <- !app_assoc. do 2 f_equal.
  rewrite drop_app_ge by lia. rewrite drop_replicate, <- replicate_add. f_equal.
  rewrite !length_app, length_replicate. lia.
Qed.

Lemma Append_text (s text : bytes) :
  0 ∉ s -> (length s < kLogBuffer)%nat -> (length s + length text <= kLogBuffer)%nat ->
  Append text (length text) (log_array s) = Done tt (log_array (s ++ text)).
Proof.
  intros Hs Hl Hfit. rewrite <- (Append_run s text 0) by lia || done.
  cbn [replicate]. by rewrite app_nil_r, Nat.add_0_r.
Qed.

(** ** Texts of the values *)

Definition log_item_text (i : log_item) : bytes :=
  match i with
  | LogBool v => if v then str "true" else str "false"
  | LogInt8 v | LogUInt8 v | LogInt16 v | LogUInt16 v | LogInt v | LogUInt32 v | LogInt64 v
  | LogUInt64 v => sprint_dec v
  | LogCstr None => str "(null)"
  | LogCstr (Some v) => cstr v
  | LogPtr p => if p =? 0 then [] else str "0x" ++ ConvertHex p
  | LogString v => v
  end.

(** the values of the operand's type; strings without NUL, and pointers of at most 56
    bits *)
Definition log_item_ok (i : log_item) : Prop :=
  match i with
  | LogInt8 v => - 2 ^ 7 <= v < 2 ^ 7
  | LogUInt8 v => 0 <= v < 2 ^ 8
  | LogInt16 v => - 2 ^ 15 <= v < 2 ^ 15
  | LogUInt16 v => 0 <= v < 2 ^ 16
  | LogInt v => - 2 ^ 31 <= v < 2 ^ 31
  | LogUInt32 v => 0 <= v < 2 ^ 32
  | LogInt64 v => - 2 ^ 63 <= v < 2 ^ 63
  | LogUInt64 v => 0 <= v < 2 ^ 64
  | LogPtr p => 0 <= p < 2 ^ 56
  | LogString v => 0 ∉ v
  | LogBool _ | LogCstr _ => True
  end.

Lemma digits_spec (n k : nat) : forall z acc,
  (1 <= k <= n)%nat -> 0 <= z < 10 ^ Z.of_nat k -> 0 ∉ acc ->
  0 ∉ digits n z acc /\ (length (digits n z acc) <= k + length acc)%nat.
Proof.
  revert k. induction n as [|n IH]; intros k z acc Hk Hz Hacc; [lia|]. cbn [digits].
  destruct (Z.ltb_spec z 10) as [Hlt|Hge].
  - cbn [length]. split; [|lia]. set_solver by lia.
  - destruct k as [|[|k]]; [lia|cbn in Hz; lia|].
    assert (Hz2 : 0 <= z / 10 < 10 ^ Z.of_nat (S k)).
    { rewrite (Nat2Z.inj_succ (S k)), Z.pow_succ_r in Hz by lia.
      split; [apply Z.div_pos; lia|apply Z.div_lt_upper_bound; lia]. }
    pose proof (Z.mod_pos_bound z 10 ltac:(lia)).
    destruct (IH (S k) (z / 10) ((48 + z mod 10) :: acc)) as [H1 H2]; [lia|done|set_solver by lia|].
    cbn [length] in H2. split; [done|lia].
Qed.

Lemma sprint_dec_spec (k : nat) (v : Z) :
  (1 <= k <= 20)%nat -> - 10 ^ Z.of_nat k < v < 10 ^ Z.of_nat k ->
  0 ∉ sprint_dec v /\ (length (sprint_dec v) <= k + (if (v <? 0)%Z then 1 else 0))%nat.
Proof.
  intros Hk Hv. unfold sprint_dec. destruct (Z.ltb_spec v 0).
  - destruct (digits_spec 20 k (- v) []) as [H1 H2]; [done|lia|set_solver|].
    rewrite length_app. cbn [length str] in *. split; [|lia].
    rewrite not_elem_of_app. split; [by apply (bool_decide_eq_true_1 _)|done].
  - destruct (digits_spec 20 k v []) as [H1 H2]; [done|lia|set_solver|]. cbn [length] in H2. split; [done|lia].
Qed.

(** one hexadecimal digit *)
Lemma digitsHex_spec (d : Z) :
  0 <= d < 16 -> digitsHex !! Z.to_nat d = Some (nth (Z.to_nat d) digitsHex 0) /\
    nth (Z.to_nat d) digitsHex 0 <> 0.
Proof.
  intros Hd. assert (Hin : Z.to_nat d ∈ seq 0 16) by (apply elem_of_seq; lia).
  revert Hin. generalize (Z.to_nat d) as n. apply Forall_forall.
  repeat (apply Forall_cons; split; [by split|]). done.
Qed.

Lemma hex_loop_spec (n : nat) : forall i, (1 <= n)%nat -> 0 <= i < 16 ^ Z.of_nat n ->
  forall fuel, (n <= fuel)%nat -> 0 ∉ hex_loop fuel i /\ (1 <= length (hex_loop fuel i) <= n)%nat.
Proof.
  induction n as [|n IH]; intros i Hn Hi fuel Hf; [lia|]. destruct fuel as [|fuel]; [lia|].
  cbn [hex_loop]. pose proof (Z.mod_pos_bound i 16 ltac:(lia)) as Hm.
  destruct (digitsHex_spec (i mod 16) Hm) as [_ H0].
  destruct (Z.eqb_spec (i / 16) 0) as [|Hne]; [cbn [length]; split; [set_solver by lia|lia]|].
  assert (Hi2 : 0 <= i / 16 < 16 ^ Z.of_nat n).
  { rewrite Nat2Z.inj_succ, Z.pow_succ_r in Hi by lia.
    split; [apply Z.div_pos; lia|apply Z.div_lt_upper_bound; lia]. }
  destruct n as [|n]; [cbn in Hi2; lia|].
  destruct (IH (i / 16) ltac:(lia) Hi2 fuel ltac:(lia)) as [H1 H2]. cbn [length].
  split; [set_solver by lia|lia].
Qed.

Lemma ConvertHex_spec (n : nat) (v : Z) :
  (1 <= n <= 16)%nat -> 0 <= v < 16 ^ Z.of_nat n ->
  0 ∉ ConvertHex v /\ (1 <= length (ConvertHex v) <= n)%nat.
Proof.
  intros Hn Hv. unfold ConvertHex. rewrite length_reverse, elem_of_reverse. by apply hex_loop_spec; try lia.
Qed.

(** a text that is appended whole, possibly with zeros behind it *)
Definition appends (m : Lg unit) (text : bytes) (zeros : nat) : Prop :=
  0 ∉ text /\ forall s, 0 ∉ s -> (length s < kLogBuffer)%nat ->
    (length s + length text + zeros <= kLogBuffer)%nat ->
    m (log_array s) = Done tt (log_array (s ++ text)).

Lemma appends_text (text : bytes) : 0 ∉ text -> appends (Append text (length text)) text 0.
Proof. intros Ht. split; [done|]. intros s Hs Hl Hf. apply Append_text; try done. lia. Qed.

Lemma appends_temp (size : nat) (text : bytes) :
  0 ∉ text -> (length text < size)%nat -> appends (log_temp size text) text 0.
Proof. intros Ht Hl. unfold log_temp. rewrite decide_True by done. by apply appends_text. Qed.

Lemma appends_dec (size k : nat) (v : Z) :
  (1 <= k <= 20)%nat -> (S k < size)%nat -> - 10 ^ Z.of_nat k < v < 10 ^ Z.of_nat k ->
  appends (log_temp size (sprint_dec v)) (sprint_dec v) 0.
Proof.
  intros Hk Hs Hv. destruct (sprint_dec_spec k v Hk Hv) as [H1 H2].
  apply appends_temp; [done|]. destruct (v <? 0); lia.
Qed.

Lemma log_item_append_ok (i : log_item) :
  log_item_ok i -> appends (log_item_append i) (log_item_text i) 2.
Proof.
  assert (Hw : forall m t, appends m t 0 -> appends m t 2).
  { intros m t [H1 H2]. split; [done|]. intros s ???. apply H2; [done..|lia]. }
  destruct i as [[]|v|v|v|v|v|v|v|v|[v|]|p|v]; cbn [log_item_ok log_item_append log_item_text]; intros Hok.
  all: try (apply Hw, appends_temp; [by apply (bool_decide_eq_true_1 _)|cbn; lia]).
  all: try (apply Hw, (appends_dec _ 3); lia); try (apply Hw, (appends_dec _ 5); lia);
    try (apply Hw, (appends_dec _ 10); lia); try (apply Hw, (appends_dec _ 20); lia).
  - apply Hw, appends_text, cstr_no_nul.
  - apply Hw, (appends_text (str "(null)")). by apply (bool_decide_eq_true_1 _).
  - destruct (Z.eqb_spec p 0) as [->|Hp].
    { split; [set_solver|]. intros s _ _ _. by rewrite app_nil_r. }
    destruct (ConvertHex_spec 14 p) as [H1 H2]; [lia|cbn; lia|].
    assert (H0x : 0 ∉ str "0x") by by apply (bool_decide_eq_true_1 _).
    split; [by rewrite not_elem_of_app|]. intros s Hs Hl Hf. rewrite length_app in Hf.
    change (length (str "0x")) with 2%nat in Hf.
    erewrite bind_run by (apply (Append_text s (str "0x")); try done; cbn; lia).
    rewrite decide_True by lia. rewrite app_assoc.
    replace (16 - length (ConvertHex p))%nat with (2 + (14 - length (ConvertHex p)))%nat by lia.
    rewrite replicate_add, app_assoc. set (text := ConvertHex p) in *.
    transitivity (Append (text ++ replicate 2 0) (length text + 2) (log_array (s ++ str "0x"))).
    + assert (Hn : log_strlen (log_array (s ++ str "0x"))
        = Done (length (s ++ str "0x")) (log_array (s ++ str "0x"))).
      { apply log_strlen_array; [by rewrite not_elem_of_app|]. rewrite length_app. cbn. lia. }
      unfold Append. rewrite !(bind_run _ _ _ _ _ Hn), length_app. change (length (str "0x")) with 2%nat.
      rewrite decide_True by lia. rewrite !decide_True by (rewrite ?length_app, ?length_replicate; lia).
      rewrite take_app_le by (rewrite length_app, length_replicate; lia). done.
    + apply Append_run; rewrite ?not_elem_of_app, ?length_app; try done;
        change (length (str "0x")) with 2%nat; lia.
  - by apply Hw, appends_text.
Qed.

Lemma log_items_ok (l : list log_item) : forall s,
  Forall log_item_ok l -> 0 ∉ s ->
  (length s + length (concat (log_item_text <$> l)) + 2 < kLogBuffer)%nat ->
  log_items l (log_array s) = Done tt (log_array (s ++ concat (log_item_text <$> l))) /\
  0 ∉ s ++ concat (log_item_text <$> l).
Proof.
  induction l as [|i l IH]; intros s Hok Hs Hlen; cbn [log_items fmap list_fmap concat] in *.
  - rewrite app_nil_r. done.
  - apply Forall_cons in Hok as [Hi Hok]. rewrite length_app in Hlen.
    destruct (log_item_append_ok i Hi) as [Ht Hrun].
    erewrite bind_run by (apply Hrun; try done; lia). rewrite app_assoc. apply IH; [done| |].
    + by rewrite not_elem_of_app.
    + rewrite length_app. lia.
Qed.

(** ** Properties *)

(** C33: a log statement of an enabled level prints its header and the text of every
    value, in order and complete, when all of it fits with three bytes to spare,
    strings hold no NUL and pointers have at most 56 bits; whatever the stack held
    before. *)
Theorem log_line_complete (min_level level : LogLevel) (header stack : bytes) (l : list log_item) :
  LogLevel_num min_level <= LogLevel_num level -> 0 ∉ header -> Forall log_item_ok l ->
  (length header + length (concat (log_item_text <$> l)) + 2 < kLogBuffer)%nat ->
  exists buffer, log_line min_level level header stack l
    = Done (Some (header ++ concat (log_item_text <$> l))) buffer.
Proof.
  intros Hlev Hh Hok Hlen. unfold log_line, Logger_init.
  rewrite (proj2 (Z.leb_le _ _) Hlev). change (kLogBuffer - 2)%nat with 4094%nat.
  change kLogBuffer with 4096%nat in Hlen. rewrite take_ge by lia. fold (log_array header).
  destruct (log_items_ok l header Hok Hh Hlen) as [Hrun Hnul]. eexists.
  erewrite bind_run by exact Hrun. unfold bind, gets, ret. f_equal. f_equal. unfold id.
  apply cstr_log_array; [done|]. rewrite length_app. change kLogBuffer with 4096%nat. lia.
Qed.

(** A text that fills the array to its last byte leaves no NUL in it, and the next
    value reads behind the array; so does the first value of a level that is not
    enabled, when the stack holds no NUL there, because the array is not
    initialized. *)
Theorem log_array_overrun (s text more : bytes) (n : nat) (min_level level : LogLevel)
    (header stack : bytes) :
  0 ∉ s -> 0 ∉ text -> (length s < kLogBuffer)%nat -> (length s + length text = kLogBuffer)%nat ->
  LogLevel_num level < LogLevel_num min_level -> 0 ∉ stack ->
  (Append text (length text) ;; Append more n) (log_array s) = Crash OutOfBounds /\
  log_line min_level level header stack [LogString more] = Crash OutOfBounds.
Proof.
  intros Hs Ht Hl Hfull Hlev Hst.
  assert (Hno : forall b, 0 ∉ b -> Append more n b = Crash OutOfBounds).
  { intros b Hb. unfold Append, log_strlen, bind, gets, id. by rewrite decide_False. }
  split.
  - erewrite bind_run by (apply Append_text; [done|done|lia]). apply Hno.
    unfold log_array. rewrite length_app, Hfull, Nat.sub_diag. cbn [replicate].
    rewrite app_nil_r, not_elem_of_app. done.
  - unfold log_line, Logger_init. destruct (Z.leb_spec (LogLevel_num min_level) (LogLevel_num level));
      [lia|]. cbn [log_items log_item_append].
    unfold Append, log_strlen, bind, gets, id. by rewrite decide_False.
Qed.

(** ** Witnesses *)

Lemma log_line_complete_witness :
  exists buffer, log_line INFO ERROR (str "now ERROR f.cc:7 - ") [] [LogString (str "size "); LogInt (-42); LogPtr 255]
    = Done (Some (str "now ERROR f.cc:7 - size -420xFF")) buffer.
Proof.
  apply (log_line_complete INFO ERROR (str "now ERROR f.cc:7 - ") []
    [LogString (str "size "); LogInt (-42); LogPtr 255]).
  - done.
  - by apply (bool_decide_eq_true_1 _).
  - repeat (apply Forall_cons; split); try done; by apply (bool_decide_eq_true_1 _).
  - apply Nat.ltb_lt. reflexivity.
Defined.

Lemma log_array_overrun_witness :
  (Append (replicate 4090 97) 4090 ;; Append (str "x") 1) (log_array (str "start:")) = Crash OutOfBounds.
Proof.
  apply (log_array_overrun (str "start:") (replicate 4090 97) (str "x") 1 INFO DEBUG [] []).
  - by apply (bool_decide_eq_true_1 _).
  - intros [? _]%elem_of_replicate. done.
  - apply Nat.ltb_lt. reflexivity.
  - reflexivity.
  - done.
  - set_solver.
Defined.
