(* ===== verification/ConfigLoad.v ===== *)
(** * Loading the configuration

    Models [lib/config_load.cc]: the fields that [ConfigLoader::ParseConfig]
    reads from the configuration file, the logger's level that it sets, and the
    calls that replace the default logger of spdlog, a library outside of the
    repository: its state and its answers are parameters. *)

From S2P Require Import Prelude ConfigParser Logging.

Record bfs_config_info : Type := MkConfigInfo {
  log_level_ : bytes;
  log_path_ : bytes;
  cfg_device : bytes;
  device_uuid_ : bytes;
  fuse_mount_point : bytes
}.

Definition set_log_level (x : bytes) (c : bfs_config_info) : bfs_config_info :=
  MkConfigInfo x (log_path_ c) (cfg_device c) (device_uuid_ c) (fuse_mount_point c).
Definition set_log_path (x : bytes) (c : bfs_config_info) : bfs_config_info :=
  MkConfigInfo (log_level_ c) x (cfg_device c) (device_uuid_ c) (fuse_mount_point c).
Definition set_device_uuid (x : bytes) (c : bfs_config_info) : bfs_config_info :=
  MkConfigInfo (log_level_ c) (log_path_ c) (cfg_device c) x (fuse_mount_point c).

(** the calls to spdlog *)
Inductive spdlog_call : Type :=
  | rotating_logger_mt (name path : bytes) (max_size max_files : Z)
  | set_default_logger (name : bytes)
  | set_level_debug
  | set_pattern (pattern : bytes)
  | flush_on_warn
  | flush_every (seconds : Z)
  | spdlog_info.

Definition mfs_spdlog_calls : list spdlog_call :=
  let max_size := 1024 * 1024 * 100 in
  let max_files := 3 in
  [rotating_logger_mt (str "mfs_spdlog") (str "/var/log/mfs/mfs_spdlog.log") max_size max_files;
   set_default_logger (str "mfs_spdlog");
   set_level_debug;
   set_pattern (str "%Y%m%d %H:%M:%S.%e %t %l %@ %! - %v");
   flush_on_warn;
   flush_every 3;
   spdlog_info].

Section with_spdlog.
(** the state of spdlog in the process, and its answer to a call: the state
    behind it, or [None] for an exception *)
Context {spdlog : Type} (spd : spdlog_call -> spdlog -> option spdlog).

Fixpoint spdlog_run (calls : list spdlog_call) (log : spdlog) : option spdlog :=
  match calls with
  | [] => Some log
  | c :: calls => match spd c log with Some log => spdlog_run calls log | None => None end
  end.

(** [ParseConfig]: the result, the configuration, the logger's minimal level and
    the state of spdlog; [None] is an exception *)
Definition ParseConfig (files : gmap bytes bytes) (config_path_ : bytes) (config : bfs_config_info)
    (min_log_level_ : LogLevel) (log : spdlog)
    : option (bool * bfs_config_info * LogLevel * spdlog) :=
  if decide (config_path_ = []) then Some (false, config, min_log_level_, log)
  else
    match Load files config_path_ ConfigParser_init with
    | None => None
    | Some (err, ini) =>
      if negb (err =? 0) then Some (false, config, min_log_level_, log)
      else if negb (HasSection ini (str "common")) || negb (HasSection ini (str "bfs"))
              || negb (HasSection ini (str "fuse")) then Some (false, config, min_log_level_, log)
      else
        let '(err, level) := GetStringValue ini (str "common") (str "log_level") (log_level_ config) in
        let config := set_log_level (if negb (err =? 0) then str "INFO" else level) config in
        let '(err, path) := GetStringValue ini (str "common") (str "log_path") (log_path_ config) in
        let config := set_log_path (if negb (err =? 0) then str "/var/log/mfs/" else path) config in
        match spdlog_run mfs_spdlog_calls log with
        | None => None
        | Some log =>
          let min_log_level_ := LogLevelConvert (log_level_ config) in
          let '(err, uuid) := GetStringValue ini (str "bfs") (str "device_uuid") (device_uuid_ config) in
          let config := set_device_uuid uuid config in
          Some (err =? 0, config, min_log_level_, log)
        end
    end.

End with_spdlog.
