(* ===== verification/ConstexprMath.v ===== *)
(** * Integer arithmetic without overflow

    Models the integer functions of [token_bucket/constexpr_math.h]: minimum,
    maximum and clamping, logarithms and bit scans, rounding up, powers, and
    the sums, differences and casts that clamp instead of overflowing.  An
    integer type is its width and its signedness; the value of an arithmetic
    expression is [None] where C++ leaves it undefined.  The casts from floating-point
    numbers are in the file Doubles; the other functions over them are the plain
    operations of the language. *)

From S2P Require Import Prelude.

(** ** Integer types *)

Record int_type : Set := MkInt { it_bits : Z; it_signed : bool }.

Definition int32 : int_type := MkInt 32 true.
Definition int64 : int_type := MkInt 64 true.
Definition int_types : list int_type :=
  [MkInt 8 true; MkInt 16 true; MkInt 32 true; MkInt 64 true;
   MkInt 8 false; MkInt 16 false; MkInt 32 false; MkInt 64 false].

(** [std::numeric_limits<T>] *)
Definition L_min (t : int_type) : Z := if it_signed t then - 2 ^ (it_bits t - 1) else 0.
Definition L_max (t : int_type) : Z :=
  if it_signed t then 2 ^ (it_bits t - 1) - 1 else 2 ^ it_bits t - 1.
Definition in_type (t : int_type) (z : Z) : Prop := L_min t <= z <= L_max t.

(** the conversion [T(z)] *)
Definition conv (t : int_type) (z : Z) : Z :=
  if it_signed t then swrap (it_bits t) z else wrap (it_bits t) z.

(** operands narrower than [int] are promoted to it *)
Definition promote (t : int_type) : int_type := if it_bits t <? 32 then int32 else t.

(** the value of an arithmetic expression on operands of type [t] *)
Definition arith (t : int_type) (z : Z) : option Z :=
  let p := promote t in
  if it_signed p then if (L_min p <=? z) && (z <=? L_max p) then Some z else None
  else Some (wrap (it_bits p) z).

Definition make_unsigned (t : int_type) : int_type := MkInt (it_bits t) false.

(** ** Minimum, maximum, clamping *)

Definition constexpr_max (a : Z) (ts : list Z) : Z :=
  foldl (fun a x => if x <? a then a else x) a ts.
Definition constexpr_min (a : Z) (ts : list Z) : Z :=
  foldl (fun a x => if x <? a then x else a) a ts.

Definition constexpr_clamp_less (less : Z -> Z -> bool) (v lo hi : Z) : Z :=
  let a := if less v lo then lo else v in
  if less hi a then hi else a.
Definition constexpr_clamp (v lo hi : Z) : Z := constexpr_clamp_less Z.ltb v lo hi.

(** [constexpr_abs] of an unsigned type is the identity *)
Definition constexpr_abs (t : int_type) (v : Z) : option Z :=
  if it_signed t then
    if v <? 0 then x ← arith t (- v); Some (conv (make_unsigned t) x)
    else Some (conv (make_unsigned t) v)
  else Some v.

(** ** Logarithms and bit scans; the recursions have fuel *)

Fixpoint constexpr_log2_ (fuel : nat) (t : int_type) (a e : Z) : option Z :=
  match fuel with
  | O => None
  | S fuel =>
    if e =? 1 then Some a
    else x ← arith t (a + 1); constexpr_log2_ fuel t (conv t x) (conv t (e ÷ 2))
  end.
Definition constexpr_log2 (t : int_type) (v : Z) : option Z :=
  constexpr_log2_ (Z.to_nat (it_bits t)) t 0 v.

Definition constexpr_log2_ceil_ (t : int_type) (l2 v : Z) : option Z :=
  one ← arith t (Z.shiftl 1 l2);
  x ← arith t (l2 + (if one <? v then 1 else 0)); Some (conv t x).
Definition constexpr_log2_ceil (t : int_type) (v : Z) : option Z :=
  l2 ← constexpr_log2 t v; constexpr_log2_ceil_ t l2 v.

Definition constexpr_find_last_set (t : int_type) (v : Z) : option Z :=
  if v =? 0 then Some 0
  else l2 ← constexpr_log2 (make_unsigned t) (conv (make_unsigned t) v); Some (u64 (1 + l2)).

Fixpoint constexpr_find_first_set_ (fuel : nat) (s a u : Z) : option Z :=
  match fuel with
  | O => None
  | S fuel =>
    if s =? 0 then Some a
    else constexpr_find_first_set_ fuel (s / 2)
           (u64 (a + s * (if Z.shiftr u a mod Z.shiftl 1 s =? 0 then 1 else 0))) u
  end.
Definition constexpr_find_first_set (t : int_type) (v : Z) : option Z :=
  if v =? 0 then Some 0
  else a ← constexpr_find_first_set_ 8 (it_bits t / 8 * 4) 0 (conv (make_unsigned t) v);
       Some (u64 (1 + a)).

(** ** Rounding up and powers *)

Definition constexpr_ceil (t : int_type) (v round : Z) : option Z :=
  if round =? 0 then Some v
  else
    r ← (if v <? 0 then Some 0 else arith t (round - 1));
    x ← arith t (v + r);
    y ← arith t (x ÷ round);
    z ← arith t (y * round); Some (conv t z).

Definition constexpr_square_ (t : int_type) (v : Z) : option Z :=
  x ← arith t (v * v); Some (conv t x).

Fixpoint pow_fuel (fuel : nat) (t : int_type) (base exp : Z) : option Z :=
  match fuel with
  | O => None
  | S fuel =>
    if exp =? 0 then Some 1
    else if exp =? 1 then Some base
    else
      x ← pow_fuel fuel t base (exp / 2);
      sq ← constexpr_square_ t x;
      y ← arith t (sq * (if exp mod 2 =? 0 then 1 else base)); Some (conv t y)
  end.
(** [exp] is a [size_t] *)
Definition constexpr_pow (t : int_type) (base exp : Z) : option Z := pow_fuel 64 t base exp.

(** ** Sums, differences and casts that clamp *)

Definition constexpr_add_overflow_clamped (t : int_type) (a b : Z) : option Z :=
  if it_bits t <? 64 then
    x ← arith int64 (a + b); Some (conv t (constexpr_clamp x (L_min t) (L_max t)))
  else if negb (a <? 0) then
    d ← arith t (L_max t - a); arith t (a + constexpr_min b [conv t d])
  else if negb (b <? 0) then arith t (a + b)
  else d ← arith t (L_min t - a); arith t (a + constexpr_max b [conv t d]).

Definition constexpr_sub_overflow_clamped (t : int_type) (a b : Z) : option Z :=
  if negb (it_signed t) then
    if a <? b then Some 0 else x ← arith t (a - b); Some (conv t x)
  else if it_bits t <? 64 then
    x ← arith int64 (a - b); Some (conv t (constexpr_clamp x (L_min t) (L_max t)))
  else if bool_decide ((a <? 0) = (b <? 0)) then arith t (a - b)
  else if L_min t <? b then x ← arith t (- b); constexpr_add_overflow_clamped t a (conv t x)
  else if a <? 0 then arith t (a - b)
  else Some (L_max t).

(** [constexpr_clamp_cast<Dst, Src>] between integer types *)
Definition constexpr_clamp_cast (dst src : int_type) (v : Z) : Z :=
  if bool_decide (it_signed src = it_signed dst) then
    if it_bits src <=? it_bits dst then conv dst v
    else conv dst (constexpr_clamp v (conv src (L_min dst)) (conv src (L_max dst)))
  else if it_signed src && negb (it_signed dst) then
    if v <? 0 then 0
    else if it_bits src <=? it_bits dst then conv dst v
    else conv dst (constexpr_min v [conv src (L_max dst)])
  else
    if it_bits src <? it_bits dst then conv dst v
    else conv dst (constexpr_min v [conv src (L_max dst)]).

(** ** Lemmas *)

Definition saturate (t : int_type) (z : Z) : Z := Z.max (L_min t) (Z.min (L_max t) z).

Lemma conv_small (t : int_type) (z : Z) : 0 < it_bits t -> in_type t z -> conv t z = z.
Proof.
  intros Hb. unfold in_type, conv, L_min, L_max. destruct (it_signed t); intros Hz.
  - apply swrap_small; lia.
  - apply wrap_small. lia.
Qed.

Lemma arith_small (t : int_type) (z : Z) :
  0 < it_bits t -> in_type (promote t) z -> arith t z = Some z.
Proof.
  intros Hb. unfold arith, in_type. set (p := promote t). intros Hz.
  assert (Hp : 0 < it_bits p) by (unfold p, promote; by destruct (_ <? 32)).
  destruct (it_signed p) eqn:Hs.
  - by rewrite (proj2 (Z.leb_le _ _) (proj1 Hz)), (proj2 (Z.leb_le _ _) (proj2 Hz)).
  - unfold L_min, L_max in Hz. rewrite Hs in Hz. by rewrite wrap_small by lia.
Qed.

Lemma constexpr_clamp_eq (v lo hi : Z) : lo <= hi -> constexpr_clamp v lo hi = Z.max lo (Z.min hi v).
Proof.
  intros. unfold constexpr_clamp, constexpr_clamp_less.
  destruct (Z.ltb_spec v lo), (Z.ltb_spec hi v), (Z.ltb_spec hi lo); lia.
Qed.

Lemma constexpr_min_eq (a b : Z) : constexpr_min a [b] = Z.min a b.
Proof. unfold constexpr_min. cbn. destruct (Z.ltb_spec b a); lia. Qed.

Lemma constexpr_max_eq (a b : Z) : constexpr_max a [b] = Z.max a b.
Proof. unfold constexpr_max. cbn. destruct (Z.ltb_spec b a); lia. Qed.

(** the eight types one by one, with their limits as numbers *)
Ltac each_type Ht :=
  unfold int_types in Ht;
  repeat (apply elem_of_cons in Ht as [->|Ht]); [..|by apply elem_of_nil in Ht].

Ltac limits :=
  unfold in_type, saturate, promote, L_min, L_max, int64, int32, make_unsigned in *;
  cbn [it_bits it_signed Z.ltb Z.leb Z.compare Pos.compare Pos.compare_cont Z.sub Z.add Z.opp
       Z.pos_sub Pos.pred_double Pos.sub Pos.sub_mask] in *;
  change (2 ^ (8 - 1)) with 128 in *; change (2 ^ (16 - 1)) with 32768 in *;
  change (2 ^ (32 - 1)) with 2147483648 in *; change (2 ^ (64 - 1)) with 9223372036854775808 in *;
  change (2 ^ 7) with 128 in *; change (2 ^ 15) with 32768 in *;
  change (2 ^ 31) with 2147483648 in *; change (2 ^ 63) with 9223372036854775808 in *;
  change (2 ^ 8) with 256 in *; change (2 ^ 16) with 65536 in *;
  change (2 ^ 32) with 4294967296 in *; change (2 ^ 64) with 18446744073709551616 in *.

(** conversions and expressions that stay in range *)
Ltac in_range :=
  repeat first
    [ progress cbn [mbind option_bind]
    | rewrite arith_small by (limits; lia)
    | match goal with |- context [conv ?t ?z] => rewrite (conv_small t z) by (limits; lia) end
    | rewrite constexpr_clamp_eq by (limits; lia)
    | rewrite constexpr_min_eq | rewrite constexpr_max_eq ].

Lemma add_overflow_clamped_eq (t : int_type) (a b : Z) :
  t ∈ int_types -> in_type t a -> in_type t b ->
  constexpr_add_overflow_clamped t a b = Some (saturate t (a + b)).
Proof.
  intros Ht. each_type Ht; intros Ha Hb; unfold constexpr_add_overflow_clamped; cbn [it_bits it_signed];
    cbn [Z.ltb Z.compare Pos.compare Pos.compare_cont];
    destruct (Z.ltb_spec a 0); cbn [negb]; try (destruct (Z.ltb_spec b 0); cbn [negb]); in_range;
    f_equal; limits; lia.
Qed.

Lemma sub_overflow_clamped_eq (t : int_type) (a b : Z) :
  t ∈ int_types -> in_type t a -> in_type t b ->
  constexpr_sub_overflow_clamped t a b = Some (saturate t (a - b)).
Proof.
  intros Ht. pose proof Ht as Ht'. each_type Ht; intros Ha Hb; unfold constexpr_sub_overflow_clamped;
    cbn [it_bits it_signed negb Z.ltb Z.compare Pos.compare Pos.compare_cont].
  4: { destruct (decide ((a <? 0) = (b <? 0))) as [Heq|Hne]; [rewrite bool_decide_true by done|
         rewrite bool_decide_false by done].
       - destruct (Z.ltb_spec a 0), (Z.ltb_spec b 0); try done; in_range; f_equal; limits; lia.
       - destruct (Z.ltb_spec (L_min (MkInt 64 true)) b).
         + in_range. rewrite add_overflow_clamped_eq by (done || (limits; lia)). do 2 f_equal.
         + destruct (Z.ltb_spec a 0), (Z.ltb_spec b 0); try done; f_equal; limits; lia. }
  all: try (destruct (Z.ltb_spec a b)); in_range; f_equal; limits; lia.
Qed.

Lemma clamp_cast_eq (dst src : int_type) (v : Z) :
  dst ∈ int_types -> src ∈ int_types -> in_type src v ->
  constexpr_clamp_cast dst src v = saturate dst v.
Proof.
  intros Hd Hs. each_type Hd; each_type Hs; intros Hv; unfold constexpr_clamp_cast;
    cbn [it_bits it_signed negb andb Z.ltb Z.leb Z.compare Pos.compare Pos.compare_cont];
    first [rewrite bool_decide_true by done | rewrite bool_decide_false by done];
    try (destruct (Z.ltb_spec v 0)); in_range; limits; lia.
Qed.

(** ** Bit scans *)

Lemma L_max_pow (t : int_type) : t ∈ int_types ->
  0 < it_bits t <= 64 /\ L_max t < 2 ^ it_bits t /\ 127 <= L_max t.
Proof. intros Ht. each_type Ht; limits; cbn [it_bits]; limits; lia. Qed.

Lemma log2_fuel_ok (t : int_type) (fuel : nat) (a e : Z) :
  t ∈ int_types -> 0 < e <= L_max t -> 0 <= a -> a + Z.of_nat fuel <= 64 ->
  e < 2 ^ Z.of_nat fuel -> constexpr_log2_ fuel t a e = Some (a + Z.log2 e).
Proof.
  intros Ht. revert a e. induction fuel as [|fuel IH]; intros a e He Ha Hf Hlt; [cbn in Hlt; lia|].
  destruct (L_max_pow t Ht) as (Hb & _ & Hm). cbn [constexpr_log2_].
  destruct (Z.eqb_spec e 1) as [->|Hne]; [f_equal; cbn; lia|].
  rewrite Nat2Z.inj_succ, Z.pow_succ_r in Hlt by lia.
  assert (Hin : in_type t (a + 1) /\ in_type t (e ÷ 2) /\ in_type (promote t) (a + 1)).
  { rewrite Z.quot_div_nonneg by lia. pose proof (Z.div_mod e 2 ltac:(lia)).
    pose proof (Z.mod_pos_bound e 2 ltac:(lia)). clear IH. each_type Ht; limits; lia. }
  destruct Hin as (H1 & H2 & H3). rewrite arith_small by (done || lia). cbn [mbind option_bind].
  rewrite !conv_small by (done || lia). rewrite Z.quot_div_nonneg in * by lia.
  rewrite IH; [| |lia|lia|].
  - assert (Hl : Z.log2 (e / 2) = Z.log2 e - 1).
    { rewrite <- Z.div2_div. change (Z.div2 e) with (Z.shiftr e 1). rewrite Z.log2_shiftr by lia.
      assert (1 <= Z.log2 e) by (change 1 with (Z.log2 2); apply Z.log2_le_mono; lia). lia. }
    rewrite Hl. f_equal. lia.
  - split; [apply Z.div_str_pos; lia|]. transitivity e; [apply Z.div_le_upper_bound; lia|lia].
  - apply Z.div_lt_upper_bound; lia.
Qed.

Lemma constexpr_log2_eq (t : int_type) (v : Z) :
  t ∈ int_types -> 0 < v <= L_max t -> constexpr_log2 t v = Some (Z.log2 v).
Proof.
  intros Ht Hv. destruct (L_max_pow t Ht) as (Hb & Hm & _). unfold constexpr_log2.
  rewrite log2_fuel_ok; [done|done|done|lia|lia|]. rewrite Z2Nat.id by lia. lia.
Qed.

Lemma pow2_in_type (t : int_type) (k : Z) :
  t ∈ int_types -> 0 <= k -> 2 ^ k <= L_max t -> in_type (promote t) (2 ^ k) /\ in_type t (k + 1) /\
  in_type (promote t) (k + 1) /\ in_type t k /\ in_type (promote t) k.
Proof.
  intros Ht Hk Hp. assert (Hk64 : k < 64).
  { destruct (L_max_pow t Ht) as (Hb & Hm & _). apply (Z.pow_lt_mono_r_iff 2); [lia|lia|].
    assert (2 ^ it_bits t <= 2 ^ 64) by (apply Z.pow_le_mono_r; lia). lia. }
  assert (0 < 2 ^ k) by (apply Z.pow_pos_nonneg; lia). each_type Ht; limits; lia.
Qed.

Lemma constexpr_log2_ceil_eq (t : int_type) (v : Z) :
  t ∈ int_types -> 0 < v <= L_max t -> constexpr_log2_ceil t v = Some (Z.log2_up v).
Proof.
  intros Ht Hv. unfold constexpr_log2_ceil. rewrite constexpr_log2_eq by done. cbn [mbind option_bind].
  destruct (Z.log2_spec v) as [Hl Hu]; [lia|]. pose proof (Z.log2_nonneg v) as Hn.
  destruct (pow2_in_type t (Z.log2 v) Ht Hn ltac:(lia)) as (Hp & Ht1 & Hp1 & Ht0 & Hp0).
  destruct (L_max_pow t Ht) as (Hb & _ & _).
  unfold constexpr_log2_ceil_. rewrite Z.shiftl_1_l, arith_small by (done || lia). cbn [mbind option_bind].
  destruct (Z.ltb_spec (2 ^ Z.log2 v) v) as [Hlt|Hge].
  - rewrite arith_small by (done || lia). cbn [mbind option_bind]. rewrite conv_small by (done || lia).
    f_equal. symmetry. apply Z.log2_up_unique; [lia|].
    replace (Z.pred (Z.log2 v + 1)) with (Z.log2 v) by lia. rewrite Z.add_1_r. lia.
  - rewrite Z.add_0_r. rewrite arith_small by (done || lia). cbn [mbind option_bind].
    rewrite conv_small by (done || lia). f_equal. assert (v = 2 ^ Z.log2 v) as Hv2 by lia.
    rewrite Hv2 at 2. by rewrite Z.log2_up_pow2.
Qed.

(** the test of a window: no bit in the [s] bits from [a] on *)
Lemma window_test (u a s : Z) :
  0 <= a -> 0 <= s -> u mod 2 ^ a = 0 ->
  (Z.shiftr u a mod Z.shiftl 1 s =? 0) = (u mod 2 ^ (a + s) =? 0).
Proof.
  intros Ha Hs Hu. rewrite Z.shiftl_1_l, Z.shiftr_div_pow2 by done. apply eq_bool_prop_intro.
  rewrite !Is_true_true, !Z.eqb_eq. assert (0 < 2 ^ a) by (apply Z.pow_pos_nonneg; lia).
  rewrite Z.pow_add_r, Z.rem_mul_r, Hu by (try apply Z.pow_nonzero; try apply Z.pow_pos_nonneg; lia). nia.
Qed.

(** the scan for the lowest bit halves its window: [u] has no bit below [a] and one
    in the [2 * 2 ^ k] bits from [a] on *)
Lemma find_first_ok (k fuel : nat) (a u : Z) :
  (k < fuel)%nat -> 0 <= a -> a + 2 * 2 ^ Z.of_nat k < 2 ^ 63 ->
  u mod 2 ^ a = 0 -> u mod 2 ^ (a + 2 * 2 ^ Z.of_nat k) <> 0 ->
  exists p, constexpr_find_first_set_ (S fuel) (2 ^ Z.of_nat k) a u = Some p /\
    a <= p < a + 2 * 2 ^ Z.of_nat k /\ u mod 2 ^ p = 0 /\ u mod 2 ^ (p + 1) <> 0.
Proof.
  revert fuel a. induction k as [|k IH]; intros [|fuel] a Hf Ha Hmax Hlo Hhi; try lia.
  all: set (s := 2 ^ Z.of_nat _) in Hmax, Hhi |- *; assert (Hs : 0 < s) by (apply Z.pow_pos_nonneg; lia).
  all: cbn [constexpr_find_first_set_]; destruct (Z.eqb_spec s 0) as [|_]; [lia|];
    rewrite window_test by lia; fold constexpr_find_first_set_;
    set (a' := u64 _); assert (Ha' : (a' = a + s /\ u mod 2 ^ (a + s) = 0) \/
      (a' = a /\ u mod 2 ^ (a + s) <> 0))
      by (unfold a'; destruct (Z.eqb_spec (u mod 2 ^ (a + s)) 0); [left|right];
          (split; [rewrite wrap_small by lia; lia|done])).
  - change s with 1 in *. change (1 / 2) with 0. exists a'. cbn [Z.eqb].
    destruct Ha' as [[-> Hz]|[-> Hz]]; split_and!; try done; try lia.
    by replace (a + 1 + 1) with (a + 2 * 1) by lia.
  - assert (Hs2 : s = 2 * 2 ^ Z.of_nat k) by (unfold s; rewrite Nat2Z.inj_succ, Z.pow_succ_r; lia).
    replace (s / 2) with (2 ^ Z.of_nat k) by (rewrite Hs2, Z.mul_comm, Z.div_mul; lia).
    destruct Ha' as [[-> Hz]|[-> Hz]].
    + destruct (IH fuel (a + s)) as (p & Hp & Hr & H1 & H2); try lia; try done.
      { replace (a + s + _) with (a + 2 * s) by lia. done. }
      exists p. split_and!; try done; lia.
    + destruct (IH fuel a) as (p & Hp & Hr & H1 & H2); try lia; try done.
      { by rewrite <- Hs2. }
      exists p. split_and!; try done; lia.
Qed.

Lemma conv_unsigned_mod (t : int_type) (v : Z) : conv (make_unsigned t) v = v mod 2 ^ it_bits t.
Proof. done. Qed.

Lemma mod_pow_mod (v w p : Z) : 0 <= p <= w -> (v mod 2 ^ w) mod 2 ^ p = v mod 2 ^ p.
Proof.
  intros Hp. replace w with (p + (w - p)) by lia. rewrite Z.pow_add_r by lia.
  rewrite Z.rem_mul_r by (try apply Z.pow_nonzero; try apply Z.pow_pos_nonneg; lia).
  rewrite Z.add_mod, Z.mul_comm, Z.mod_mul, Z.add_0_r, !Z.mod_mod by (apply Z.pow_nonzero; lia). done.
Qed.

Lemma constexpr_find_first_set_eq (t : int_type) (v : Z) :
  t ∈ int_types -> in_type t v -> v <> 0 ->
  exists p, constexpr_find_first_set t v = Some (1 + p) /\ 0 <= p < it_bits t /\
    v mod 2 ^ p = 0 /\ v mod 2 ^ (p + 1) <> 0.
Proof.
  intros Ht Hv Hne. unfold constexpr_find_first_set. destruct (Z.eqb_spec v 0) as [|_]; [done|].
  rewrite conv_unsigned_mod. set (u := v mod 2 ^ it_bits t).
  assert (Hk : exists k : nat, (k < 7)%nat /\ it_bits t / 8 * 4 = 2 ^ Z.of_nat k /\
    it_bits t = 2 * 2 ^ Z.of_nat k).
  { each_type Ht; [exists 2%nat|exists 3%nat|exists 4%nat|exists 5%nat|exists 2%nat|exists 3%nat
      |exists 4%nat|exists 5%nat]; split_and!; lia || done. }
  destruct Hk as (k & Hk & Hs & Hb).
  assert (Hu : u <> 0).
  { unfold u. intros Hz. apply Z.mod_divide in Hz as [q Hq]; [|apply Z.pow_nonzero; lia].
    clear - Ht Hv Hne Hq. each_type Ht; limits; cbn [it_bits] in *; limits; lia. }
  destruct (find_first_ok k 7 0 u) as (p & Hp & Hr & H1 & H2); try done; try lia.
  - pose proof (L_max_pow t Ht). lia.
  - apply Z.mod_1_r.
  - rewrite Z.add_0_l, <- Hb. unfold u. by rewrite Z.mod_mod by (apply Z.pow_nonzero; lia).
  - exists p. rewrite Hs, Hp. cbn [mbind option_bind]. pose proof (L_max_pow t Ht).
    rewrite wrap_small by lia. unfold u in H1, H2. rewrite mod_pow_mod in H1, H2 by lia.
    split_and!; try done; lia.
Qed.

(** ** Properties *)

(** C38: for every integer type of 8 to 64 bits, signed or not, no step of the clamped
    sum, the clamped difference and the cast leaves the range of its type, and
    the result is the exact one moved to the nearest value of the type. *)
Theorem clamped_arithmetic (t src : int_type) (a b v : Z) :
  t ∈ int_types -> src ∈ int_types -> in_type t a -> in_type t b -> in_type src v ->
  let nearest z := Z.max (L_min t) (Z.min (L_max t) z) in
  constexpr_add_overflow_clamped t a b = Some (nearest (a + b)) /\
  constexpr_sub_overflow_clamped t a b = Some (nearest (a - b)) /\
  constexpr_clamp_cast t src v = nearest v.
Proof.
  intros Ht Hs Ha Hb Hv nearest. split_and!.
  - by apply add_overflow_clamped_eq.
  - by apply sub_overflow_clamped_eq.
  - by apply clamp_cast_eq.
Qed.

(** C40: for every integer type the recursions end on every positive value, and give
    the logarithm rounded down and up; the bit scans give the position, from 1,
    of the highest bit of a positive value and of the lowest bit of any value but
    zero. *)
Theorem bit_scans (t : int_type) (v : Z) :
  t ∈ int_types -> in_type t v ->
  (0 < v -> constexpr_log2 t v = Some (Z.log2 v) /\ constexpr_log2_ceil t v = Some (Z.log2_up v) /\
     constexpr_find_last_set t v = Some (1 + Z.log2 v)) /\
  (v <> 0 -> exists p, constexpr_find_first_set t v = Some (1 + p) /\
     Z.testbit v p = true /\ forall q, 0 <= q < p -> Z.testbit v q = false) /\
  constexpr_find_first_set t 0 = Some 0 /\ constexpr_find_last_set t 0 = Some 0.
Proof.
  intros Ht Hv. split_and!; [..|done|done].
  - intros Hpos. destruct Hv as [_ Hv]. split_and!.
    + by apply constexpr_log2_eq.
    + by apply constexpr_log2_ceil_eq.
    + unfold constexpr_find_last_set. destruct (Z.eqb_spec v 0); [lia|].
      destruct (L_max_pow t Ht) as (Hb & Hm & _). rewrite conv_unsigned_mod, Z.mod_small by lia.
      rewrite constexpr_log2_eq; [cbn [mbind option_bind]|by clear - Ht; each_type Ht; set_solver|].
      * rewrite wrap_small; [done|]. pose proof (Z.log2_nonneg v).
        assert (Z.log2 v < 64); [|lia]. apply Z.log2_lt_pow2; [lia|].
        assert (2 ^ it_bits t <= 2 ^ 64) by (apply Z.pow_le_mono_r; lia). lia.
      * unfold L_max, make_unsigned. cbn. lia.
  - intros Hne. destruct (constexpr_find_first_set_eq t v Ht Hv Hne) as (p & Hp & Hr & H1 & H2).
    exists p. split; [done|]. split.
    + apply Z.testbit_true; [lia|]. rewrite Z.pow_add_r, Z.rem_mul_r, H1 in H2
        by (try apply Z.pow_nonzero; try apply Z.pow_pos_nonneg; lia).
      change (2 ^ 1) with 2 in H2. pose proof (Z.mod_pos_bound (v / 2 ^ p) 2 ltac:(lia)).
      assert (0 < 2 ^ p) by (apply Z.pow_pos_nonneg; lia). nia.
    + intros q Hq. rewrite <- (Z.mod_pow2_bits_low v p q) by lia. by rewrite H1, Z.bits_0.
Qed.

(** ** Witnesses *)

Lemma clamped_arithmetic_witness :
  let t := MkInt 8 true in
  constexpr_add_overflow_clamped t 100 100 = Some 127 /\
  constexpr_sub_overflow_clamped t 100 100 = Some 0 /\
  constexpr_clamp_cast t (MkInt 64 false) 300 = 127.
Proof.
  apply (clamped_arithmetic (MkInt 8 true) (MkInt 64 false) 100 100 300);
    [unfold int_types; set_solver|unfold int_types; set_solver|limits; lia..].
Defined.

Lemma bit_scans_witness :
  let t := MkInt 32 false in
  constexpr_log2 t 40 = Some 5 /\ constexpr_log2_ceil t 40 = Some 6 /\
  constexpr_find_last_set t 40 = Some 6 /\ is_Some (constexpr_find_first_set t 40).
Proof.
  destruct (bit_scans (MkInt 32 false) 40) as (Hl & Hf & _);
    [unfold int_types; set_solver|limits; lia|].
  destruct (Hl ltac:(lia)) as (H1 & H2 & H3). destruct (Hf ltac:(lia)) as (p & Hp & _).
  split_and!; [exact H1|exact H2|exact H3|by eexists].
Defined.
