(* ===== verification/Tool.v ===== *)
(** * The command line tools

    Models [tool/block_fs_tool.cc]: the options, the format and the check of a
    device, and the export of a range of the device into a file.  The options
    come as [getopt_long] gives them, one letter with its argument at a time;
    the file that is written is its bytes and its length, and the answers of the kernel
    to the calls on it are a list of events.  What is printed is not modelled.

    Models also [tool/block_fs_extract_device.cc], which copies a range of a device
    into a file without looking at the file system (the answers of the kernel to its
    calls, on both descriptors, are one list of events), and the options and the start
    of [tool/block_fs_mount.cc].  The log file of the mount tool and [daemonize], which
    nothing calls, are not modelled. *)

From S2P Require Import Prelude Meta Device World ConfigParser SuperBlock Resources.
From S2P Require Import Directory FileHandle File OpenFile FileHandleOps DirHandle FileSystem.

(** ** Options *)

Inductive ToolType : Set :=
  | BLOCKFS_NONE | BLOCKFS_FORMAT | BLOCKFS_DUMP | BLOCKFS_BLK | BLOCKFS_FILE_META.

#[export] Instance ToolType_eq_dec : EqDecision ToolType.
Proof. solve_decision. Defined.

Record BlockFsTool : Type := MkTool {
  tool_type_ : ToolType;
  dump_arg_ : bytes;
  dev_name_ : bytes;
  blk_info_ : bytes;
  file_name_ : bytes
}.

Definition BlockFsTool_init : BlockFsTool := MkTool BLOCKFS_NONE [] [] [] [].

(** one round of the loop; [inl] is the code of an [exit] *)
Definition parse_one (argc : Z) (t : BlockFsTool) (opt : Z * bytes) : Z + BlockFsTool :=
  let '(c, optarg) := opt in
  let with_type (least : Z) (t' : BlockFsTool) : Z + BlockFsTool :=
    if argc <? least then inl 1
    else if bool_decide (tool_type_ t <> BLOCKFS_NONE) then inl 1
    else inr t' in
  if c =? 100 (* d *) then
    if argc <? 4 then inl 1
    else if bool_decide (optarg = []) then inl 1
    else inr (MkTool (tool_type_ t) (dump_arg_ t) optarg (blk_info_ t) (file_name_ t))
  else if c =? 102 (* f *) then
    with_type argc (MkTool BLOCKFS_FORMAT (dump_arg_ t) (dev_name_ t) (blk_info_ t) (file_name_ t))
  else if c =? 112 (* p *) then
    with_type 5 (MkTool BLOCKFS_DUMP optarg (dev_name_ t) (blk_info_ t) (file_name_ t))
  else if c =? 98 (* b *) then
    with_type 5 (MkTool BLOCKFS_BLK (dump_arg_ t) (dev_name_ t) optarg (file_name_ t))
  else if c =? 109 (* m *) then
    with_type 5 (MkTool BLOCKFS_FILE_META (dump_arg_ t) (dev_name_ t) (blk_info_ t) optarg)
  else inl 0.

Fixpoint parse_all (argc : Z) (t : BlockFsTool) (opts : list (Z * bytes)) : Z + BlockFsTool :=
  match opts with
  | [] => inr t
  | opt :: opts' =>
    match parse_one argc t opt with inl code => inl code | inr t' => parse_all argc t' opts' end
  end.

Definition ParseOption (argc : Z) (opts : list (Z * bytes)) (t : BlockFsTool) : Z + BlockFsTool :=
  match parse_all argc t opts with
  | inl code => inl code
  | inr t' => if bool_decide (tool_type_ t' = BLOCKFS_NONE) then inl 1 else inr t'
  end.

(** ** [StringSplit] and [atol] *)

Fixpoint split_loop (fuel : nat) (s delim : bytes) : list bytes :=
  match fuel, s with
  | S fuel, _ :: _ =>
    match find delim s with
    | None => [s]
    | Some p => take p s :: split_loop fuel (drop (p + length delim) s) delim
    end
  | _, _ => []
  end.

Definition StringSplit (s delim : bytes) : list bytes :=
  match delim with [] => [] | _ => split_loop (length s) s delim end.

Definition atol (s : bytes) : Z :=
  let clamp n := Z.max (- 2 ^ 63) (Z.min (2 ^ 63 - 1) n) in
  match drop_while isspace (cstr s) with
  | [] => 0
  | b :: s' =>
    if b =? 45 then clamp (- strtol_digits s' 0)
    else if b =? 43 then clamp (strtol_digits s' 0)
    else clamp (strtol_digits (b :: s') 0)
  end.

(** ** The export of a range *)

(** the length of a file once [n] bytes at [offset] are written or allocated *)
Definition grown (len offset n : Z) : Z := if n <=? 0 then len else Z.max len (offset + n).

(** the process and the file that it writes *)
Record tool_state : Type := MkToolState {
  ts_world : world;
  ts_dst : store;
  ts_len : Z;
  ts_events : list sys_event
}.

Abbreviation Tl A := (prog tool_state A).

Definition on_fs {A} (m : Fs A) : Tl A := fun s =>
  match m (ts_world s) with
  | Done a w => Done a (MkToolState w (ts_dst s) (ts_len s) (ts_events s))
  | Crash c => Crash c
  end.

(** the next answer of the kernel *)
Definition dst_event : Tl sys_event := fun s =>
  Done (default SysFull (head (ts_events s)))
    (MkToolState (ts_world s) (ts_dst s) (ts_len s) (tail (ts_events s))).

(** a call on the file that succeeds or fails as a whole: [open], [fsync] *)
Definition dst_call : Tl Z :=
  let! ev := dst_event in ret (match ev with SysFail _ => -1 | _ => 0 end).

(** [fallocate(dst_fd, 0, 0, size)]: the file gets at least [size] bytes; a size that is
    not positive is refused *)
Definition dst_fallocate (size : Z) : Tl Z :=
  let! ev := dst_event in
  match ev with
  | SysFail _ => ret (-1)
  | _ =>
    if size <=? 0 then ret (-1)
    else
      modify (fun s => MkToolState (ts_world s) (ts_dst s) (grown (ts_len s) 0 size) (ts_events s)) ;;
      ret 0
  end.

(** one [pwrite] of the file *)
Definition dst_pwrite (data : bytes) (offset : Z) : Tl Z :=
  let! ev := dst_event in
  fun s =>
    let '(r, _, m) := sys_pwrite 0 data ev 0 (length data) offset 0 (ts_dst s) in
    Done r (MkToolState (ts_world s) m (grown (ts_len s) offset r) (ts_events s)).

Definition kExportBufferSize : Z := 16 * 1024.

Section Tool.
Context `{Env}.

(** the loop over the range *)
Fixpoint export_loop (fuel : nat) (export_size read_offset : Z) : Tl bool :=
  if export_size <=? 0 then ret true else
  match fuel with
  | O => ret false
  | S fuel =>
    if kExportBufferSize <=? export_size then
      let! r := on_fs (PreadCache (Z.to_nat kExportBufferSize) read_offset) in
      let '(n, buffer) := r in
      if negb (n =? kExportBufferSize) then ret false else
      let! n := dst_pwrite buffer read_offset in
      if negb (n =? kExportBufferSize) then ret false
      else export_loop fuel (export_size - kExportBufferSize) (read_offset + kExportBufferSize)
    else
      let! r := on_fs (PreadCache (Z.to_nat export_size) read_offset) in
      let '(n, buffer) := r in
      if negb (n =? export_size) then ret false else
      let! n := dst_pwrite buffer read_offset in
      if negb (n =? export_size) then ret false else
      let! r := dst_call in
      if r <? 0 then ret false else ret true
  end.

Definition export_fuel (size : Z) : nat := S (Z.to_nat (size / kExportBufferSize)).

(** [ExportBlkDeviceContents]; [info[1]] must exist *)
Definition ExportBlkDeviceContents (t : BlockFsTool) : Tl bool :=
  let info := StringSplit (blk_info_ t) (str ":") in
  let! info0 := in_bounds (info !! 0%nat) in
  let! info1 := in_bounds (info !! 1%nat) in
  let export_offset := atol info0 in
  let export_size := atol info1 in
  let! dst_fd := dst_call in
  if dst_fd <? 0 then ret false else
  let! r := dst_fallocate export_size in
  if r <? 0 then ret false
  else export_loop (export_fuel export_size) export_size export_offset.

(** [DoBlockFsTool]; [opened] is the result of opening the device *)
Definition DoBlockFsTool (opened : bool) (t : BlockFsTool) : Tl bool :=
  match tool_type_ t with
  | BLOCKFS_FORMAT => if opened then on_fs FileSystem_Format else ret false
  | ty =>
    let! is_success := (if opened then on_fs FileSystem_Check else ret false) in
    if negb is_success then ret false
    else
      match ty with
      | BLOCKFS_DUMP => ret true
      | BLOCKFS_BLK => ExportBlkDeviceContents t
      | BLOCKFS_FILE_META => ret true
      | _ => ret false
      end
  end.
End Tool.

(** ** The extraction *)

Module Extract.

(** the device and the file, and what the kernel answers *)
Record extract_state : Type := MkState {
  xs_src : store; xs_dst : store; xs_len : Z; xs_events : list sys_event
}.

Abbreviation Xt A := (prog extract_state A).

Definition next_event : Xt sys_event := fun s =>
  Done (default SysFull (head (xs_events s))) (MkState (xs_src s) (xs_dst s) (xs_len s) (tail (xs_events s))).

(** [open] and [fsync]: 0 stands for any result that is no failure *)
Definition plain_call : Xt Z :=
  let! ev := next_event in ret (match ev with SysFail _ => -1 | _ => 0 end).

(** [fallocate(dst_fd, 0, 0, size)] *)
Definition extract_fallocate (size : Z) : Xt Z :=
  let! ev := next_event in
  match ev with
  | SysFail _ => ret (-1)
  | _ =>
    if size <=? 0 then ret (-1)
    else
      modify (fun s => MkState (xs_src s) (xs_dst s) (grown (xs_len s) 0 size) (xs_events s)) ;; ret 0
  end.

(** one [pread] of the device *)
Definition src_pread (len : nat) (offset : Z) : Xt (Z * bytes) :=
  let! ev := next_event in
  let! m := gets xs_src in
  let '(r, _, out) := sys_pread 0 m ev 0 len offset 0 [] in ret (r, out).

(** one [pwrite] of the file *)
Definition extract_pwrite (data : bytes) (offset : Z) : Xt Z :=
  let! ev := next_event in
  fun s =>
    let '(r, _, m) := sys_pwrite 0 data ev 0 (length data) offset 0 (xs_dst s) in
    Done r (MkState (xs_src s) m (grown (xs_len s) offset r) (xs_events s)).

Definition kExtractBufferSize : Z := 16 * 1024.

(** one round reads a piece and writes it at the same offset *)
Definition copy_piece (len offset : Z) (k : Xt bool) : Xt bool :=
  let! r := src_pread (Z.to_nat len) offset in
  let '(n, buffer) := r in
  if negb (n =? len) then ret false else
  let! n := extract_pwrite buffer offset in
  if negb (n =? len) then ret false else k.

Fixpoint extract_loop (fuel : nat) (size read_offset : Z) : Xt bool :=
  if size <=? 0 then ret true else
  match fuel with
  | O => ret false
  | S fuel =>
    if kExtractBufferSize <=? size then
      copy_piece kExtractBufferSize read_offset
        (extract_loop fuel (size - kExtractBufferSize) (read_offset + kExtractBufferSize))
    else
      copy_piece size read_offset
        (let! r := plain_call in if r <? 0 then ret false else ret true)
  end.

Definition ExportBlkDevice (offset size : Z) : Xt bool :=
  let! fd := plain_call in
  if fd <? 0 then ret false else
  let! dst_fd := plain_call in
  if dst_fd <? 0 then ret false else
  let! r := extract_fallocate size in
  if r <? 0 then ret false
  else extract_loop (S (Z.to_nat (size / kExtractBufferSize))) size offset.

(** ** Options *)

Record extract_options : Type := MkOptions {
  ex_config_path : bytes; ex_dev_name : option bytes; ex_file_name : option bytes; ex_offset : Z; ex_length : Z
}.

Definition extract_options_init : extract_options :=
  MkOptions (str "/usr/local/mysql/blockfs/bfs.cnf") None None 0 0.

(** one round of the loop; [inl] is the code of an [exit].  The option [m] has no
    case. *)
Definition extract_one (o : extract_options) (opt : Z * bytes) : Z + extract_options :=
  let '(c, optarg) := opt in
  if c =? 99 (* c *) then
    inr (MkOptions optarg (ex_dev_name o) (ex_file_name o) (ex_offset o) (ex_length o))
  else if c =? 100 (* d *) then
    inr (MkOptions (ex_config_path o) (Some optarg) (ex_file_name o) (ex_offset o) (ex_length o))
  else if c =? 110 (* n *) then
    inr (MkOptions (ex_config_path o) (ex_dev_name o) (Some optarg) (ex_offset o) (ex_length o))
  else if c =? 111 (* o *) then
    inr (MkOptions (ex_config_path o) (ex_dev_name o) (ex_file_name o) (atoi optarg) (ex_length o))
  else if c =? 108 (* l *) then
    inr (MkOptions (ex_config_path o) (ex_dev_name o) (ex_file_name o) (ex_offset o) (atoi optarg))
  else inl 0.

Fixpoint extract_parse (o : extract_options) (opts : list (Z * bytes)) : Z + extract_options :=
  match opts with
  | [] => inr o
  | opt :: opts' =>
    match extract_one o opt with inl code => inl code | inr o' => extract_parse o' opts' end
  end.

(** [main]: the code of the process *)
Definition extract_main (opts : list (Z * bytes)) : Xt Z :=
  match extract_parse extract_options_init opts with
  | inl code => ret code
  | inr o =>
    match ex_dev_name o, ex_file_name o with
    | Some _, Some _ =>
      if ex_length o =? 0 then ret 0
      else
        let! ok := ExportBlkDevice (ex_offset o) (ex_length o) in ret (if ok then 0 else -1)
    | _, _ => ret 0
    end
  end.

End Extract.

(** ** The mount tool *)

Module MountTool.

Record mount_options : Type := MkOptions { mt_config_path : bytes; mt_device : bytes; mt_mountpoint : bytes }.

Definition mount_options_init : mount_options := MkOptions (str "/data/blockfs/conf/bfs.cnf") [] [].

Definition mount_one (o : mount_options) (opt : Z * bytes) : Z + mount_options :=
  let '(c, optarg) := opt in
  if c =? 99 (* c *) then inr (MkOptions optarg (mt_device o) (mt_mountpoint o))
  else if c =? 100 (* d *) then inr (MkOptions (mt_config_path o) optarg (mt_mountpoint o))
  else if c =? 109 (* m *) then inr (MkOptions (mt_config_path o) (mt_device o) optarg)
  else inl 0.

Fixpoint mount_parse (o : mount_options) (opts : list (Z * bytes)) : Z + mount_options :=
  match opts with
  | [] => inr o
  | opt :: opts' =>
    match mount_one o opt with inl code => inl code | inr o' => mount_parse o' opts' end
  end.

(** The program ends with a code, or serves a file system at a mount point. *)
Inductive mount_outcome : Type := Exit (code : Z) | Serves (fuse_mount_point : bytes).

(** [main]: [mount] is [MountFileSystem] of a configuration file *)
Definition mount_main (mount : bytes -> Fs Z) (opts : list (Z * bytes)) : Fs mount_outcome :=
  match mount_parse mount_options_init opts with
  | inl code => ret (Exit code)
  | inr o =>
    if bool_decide (mt_device o = []) || bool_decide (mt_mountpoint o = []) then ret (Exit 1)
    else
      let! r := mount (mt_config_path o) in
      ret (if r <? 0 then Exit (-1) else Serves (mt_mountpoint o))
  end.

End MountTool.
