(* ===== verification/Doubles.v ===== *)
(** * Floating-point numbers

    The numbers of IEEE 754 as the functions of token_bucket/ use them: the
    operations on [double] with rounding to nearest, truncation, and the order of
    the numbers of a format as the order of integers.  The NaNs are one value.

    And the model of [constexpr_clamp_cast] of [token_bucket/constexpr_math.h] from
    from [float] and [double] to the integer types: the fraction is cut off, a number
    that the type does not have becomes the nearest one that it has, and a NaN becomes
    0.  The plain casts in it are [None] where C++ leaves them undefined.  Its tests
    [is_same] tell the types of <cstdint> from other types of the same width and sign:
    a [long long] is no [int64_t] where that is [long]. *)

From Stdlib Require Import SpecFloat.
From S2P Require Import Prelude ConstexprMath.

(** ** Doubles *)

Abbreviation double := spec_float.

Definition dadd : double -> double -> double := SFadd 53 1024.
Definition dsub : double -> double -> double := SFsub 53 1024.
Definition dmul : double -> double -> double := SFmul 53 1024.
Definition ddiv : double -> double -> double := SFdiv 53 1024.
Definition of_Z (n : Z) : double := binary_normalize 53 1024 n 0 false.

Declare Scope double_scope.
Delimit Scope double_scope with D.
Infix "+" := dadd : double_scope.
Infix "-" := dsub : double_scope.
Infix "*" := dmul : double_scope.
Infix "/" := ddiv : double_scope.
Infix "<?" := SFltb : double_scope.
Infix "<=?" := SFleb : double_scope.
Infix "=?" := SFeqb : double_scope.
Notation "- x" := (SFopp x) : double_scope.
Notation "0" := (S754_zero false) : double_scope.

(** bit patterns *)
#[global] Instance double_eq_dec : EqDecision double.
Proof. unfold EqDecision, Decision; repeat decide equality. Defined.

(** the number without its fraction *)
Definition truncated (x : double) : Z :=
  match x with
  | S754_finite s m e => cond_Zopp s (if 0 <=? e then Zpos m * 2 ^ e else Zpos m / 2 ^ (- e))
  | _ => 0
  end.

Definition finite (x : double) : Prop :=
  match x with S754_zero _ | S754_finite _ _ _ => True | _ => False end.

(** a number (not a NaN) with the sign [s], zeros and infinities included *)
Definition signed (s : bool) (x : double) : Prop :=
  match x with S754_zero t | S754_infinity t | S754_finite t _ _ => t = s | S754_nan => False end.

(** ** The casts *)

Inductive float_type : Set := TFloat | TDouble.

Definition prec_of (t : float_type) : Z := match t with TFloat => 24 | TDouble => 53 end.
Definition emax_of (t : float_type) : Z := match t with TFloat => 128 | TDouble => 1024 end.
Definition float_bits (t : float_type) : Z := match t with TFloat => 32 | TDouble => 64 end.

(** [Src(n)] of an integer, and [double(x)] of a [float] *)
Definition float_of_int (t : float_type) (n : Z) : double :=
  binary_normalize (prec_of t) (emax_of t) n 0 false.
Definition double_of_float (x : double) : double :=
  match x with S754_finite s m e => binary_round 53 1024 s m e | _ => x end.

(** [Dst(x)]: undefined when the number without its fraction is not in the type *)
Definition int_of_float (dst : int_type) (x : double) : option Z :=
  match x with
  | S754_zero _ | S754_finite _ _ _ =>
    if (L_min dst <=? truncated x) && (truncated x <=? L_max dst) then Some (truncated x) else None
  | _ => None
  end.

Definition kClampCastLowerBoundDoubleToInt64F : double := float_of_int TDouble (-9223372036854774784).
Definition kClampCastUpperBoundDoubleToInt64F : double := float_of_int TDouble 9223372036854774784.
Definition kClampCastUpperBoundDoubleToUInt64F : double := float_of_int TDouble 18446744073709549568.
Definition kClampCastLowerBoundFloatToInt32F : double := float_of_int TFloat (-2147483520).
Definition kClampCastUpperBoundFloatToInt32F : double := float_of_int TFloat 2147483520.
Definition kClampCastUpperBoundFloatToUInt32F : double := float_of_int TFloat 4294967040.

Definition constexpr_clamp_cast_helper (dst : int_type) (src sl su : double) (dl du : Z) : option Z :=
  if (src <? sl)%D then Some dl else if (su <? src)%D then Some du else int_of_float dst src.

(** [float(src)] *)
Definition to_float (t : float_type) (x : double) : double :=
  match t, x with
  | TDouble, S754_finite s m e => binary_round 24 128 s m e
  | _, _ => x
  end.

(** [is_same<Dst, T>] for [T] of <cstdint>; [std] says that [Dst] is of <cstdint> itself *)
Definition is_same (std : bool) (dst t : int_type) : bool :=
  std && (it_bits dst =? it_bits t) && Bool.eqb (it_signed dst) (it_signed t).
Definition is_double (t : float_type) : bool := match t with TFloat => false | TDouble => true end.

(** the body for a source type; [from_double] is the function for [double] *)
Definition clamp_cast_body (from_double : bool -> int_type -> double -> option Z) (t : float_type)
    (std : bool) (dst : int_type) (src : double) : option Z :=
  if negb (src =? src)%D then Some 0
  else if it_bits dst <? float_bits t then
    constexpr_clamp_cast_helper dst src (float_of_int t (L_min dst)) (float_of_int t (L_max dst))
      (L_min dst) (L_max dst)
  else if float_bits t <? it_bits dst then
    if (0 <=? double_of_float src)%D then
      v ← from_double true (MkInt 64 false) (double_of_float src);
      Some (constexpr_clamp_cast dst (MkInt 64 false) v)
    else
      v ← from_double true (MkInt 64 true) (double_of_float src);
      Some (constexpr_clamp_cast dst (MkInt 64 true) v)
  else if is_double t && is_same std dst (MkInt 64 true) then
    constexpr_clamp_cast_helper dst src kClampCastLowerBoundDoubleToInt64F
      kClampCastUpperBoundDoubleToInt64F (L_min dst) (L_max dst)
  else if is_double t && is_same std dst (MkInt 64 false) then
    constexpr_clamp_cast_helper dst src 0%D kClampCastUpperBoundDoubleToUInt64F (L_min dst) (L_max dst)
  else if negb (is_double t) && is_same std dst (MkInt 32 true) then
    constexpr_clamp_cast_helper dst src kClampCastLowerBoundFloatToInt32F
      kClampCastUpperBoundFloatToInt32F (L_min dst) (L_max dst)
  else
    constexpr_clamp_cast_helper dst (to_float t src) 0%D kClampCastUpperBoundFloatToUInt32F
      (L_min dst) (L_max dst).

(** a [double] is never narrower than the integer type *)
Definition clamp_cast_double : bool -> int_type -> double -> option Z :=
  clamp_cast_body (fun _ _ _ => None) TDouble.
Definition clamp_cast_float : bool -> int_type -> double -> option Z :=
  clamp_cast_body clamp_cast_double TFloat.
Definition constexpr_clamp_cast_floating (t : float_type) : bool -> int_type -> double -> option Z :=
  match t with TFloat => clamp_cast_float | TDouble => clamp_cast_double end.

(** ** Lemmas on comparisons *)

Ltac double_cases := unfold SFltb, SFleb, SFeqb;
  repeat match goal with x : spec_float |- _ => destruct x as [[]|[]| |[] ? ?] end; cbn in *; try done.

(** ** Mantissas *)

Lemma digits2_pos_bounds m :
  2 ^ (Zpos (digits2_pos m) - 1) <= Zpos m < 2 ^ Zpos (digits2_pos m).
Proof.
  induction m as [m IH|m IH|]; cbn [digits2_pos]; [| |cbn; lia];
    rewrite Pos2Z.inj_succ, Z.pow_succ_r by lia;
    replace (Z.succ (Zpos (digits2_pos m)) - 1) with (Z.succ (Zpos (digits2_pos m) - 1)) by lia;
    rewrite Z.pow_succ_r by lia; lia.
Qed.

Lemma iter_xO m d : Zpos (Pos.iter xO m d) = Zpos m * 2 ^ Zpos d.
Proof.
  induction d as [|d IH] using Pos.peano_ind; [cbn; lia|].
  rewrite Pos.iter_succ, Pos2Z.inj_succ, Z.pow_succ_r by lia; lia.
Qed.

Lemma shl_align_value m e ez : ez <= e -> Zpos (shl_align m e ez).1 = Zpos m * 2 ^ (e - ez).
Proof.
  intros H; unfold shl_align; destruct (ez - e) as [|d|d] eqn:E; cbn [fst]; [|lia|].
  - replace (e - ez) with 0 by lia; lia.
  - replace (e - ez) with (Zpos d) by lia; apply iter_xO.
Qed.

(** ** The numbers of a format *)

Section Format.
Context (prec emax : Z) (Hprec : 1 < prec) (Hemax : prec < emax).

(** mantissas have [prec] digits, or the exponent is the least one *)
Definition valid (x : double) : Prop := finite x /\ valid_binary prec emax x = true.

Lemma bounded_mantissa m e :
  bounded prec emax m e = true ->
  emin prec emax <= e /\ Zpos m < 2 ^ prec /\ (emin prec emax < e -> 2 ^ (prec - 1) <= Zpos m).
Proof.
  unfold bounded, canonical_mantissa, fexp; rewrite andb_true_iff, Z.eqb_eq.
  intros [H _]; pose proof (digits2_pos_bounds m) as [L U].
  pose proof (Z.pow_le_mono_r 2 (Zpos (digits2_pos m)) prec ltac:(lia)).
  split; [lia|]; split; [lia|]; intros He.
  replace (Zpos (digits2_pos m)) with prec in L by lia; exact L.
Qed.

(** a number in units of the least one of the format *)
Definition scaled (x : double) : Z :=
  match x with S754_finite s m e => cond_Zopp s (Zpos m * 2 ^ (e - emin prec emax)) | _ => 0 end.

Definition unit_scale : Z := 2 ^ (- emin prec emax).

Lemma emin_neg : emin prec emax < 0.
Proof. unfold emin; lia. Qed.

Lemma unit_scale_pos : 0 < unit_scale.
Proof. unfold unit_scale; apply Z.pow_pos_nonneg; pose proof emin_neg; lia. Qed.

Lemma scaled_pos m e : emin prec emax <= e -> 0 < Zpos m * 2 ^ (e - emin prec emax).
Proof. clear Hprec Hemax; intros H; pose proof (Z.pow_pos_nonneg 2 (e - emin prec emax) ltac:(lia) ltac:(lia)); nia. Qed.

(** the magnitudes of valid numbers compare as [SFcompare] compares them *)
Lemma compare_magnitude m1 e1 m2 e2 :
  bounded prec emax m1 e1 = true -> bounded prec emax m2 e2 = true ->
  match e1 ?= e2 with Lt => Lt | Gt => Gt | Eq => Pos.compare_cont Eq m1 m2 end =
  (Zpos m1 * 2 ^ (e1 - emin prec emax) ?= Zpos m2 * 2 ^ (e2 - emin prec emax)).
Proof.
  intros B1 B2; apply bounded_mantissa in B1 as (L1 & U1 & N1), B2 as (L2 & U2 & N2).
  assert (P : forall a e f, emin prec emax <= e -> e < f -> Zpos a < 2 ^ prec ->
    forall b, 2 ^ (prec - 1) <= Zpos b ->
    Zpos a * 2 ^ (e - emin prec emax) < Zpos b * 2 ^ (f - emin prec emax)).
  { intros a e f Le Lt Ua b Lb.
    pose proof (Z.pow_pos_nonneg 2 (e - emin prec emax) ltac:(lia) ltac:(lia)).
    replace (f - emin prec emax) with (1 + (f - e - 1) + (e - emin prec emax)) by lia.
    rewrite !Z.pow_add_r, Z.mul_assoc by lia; apply Z.mul_lt_mono_pos_r; [done|].
    pose proof (Z.pow_pos_nonneg 2 (f - e - 1) ltac:(lia) ltac:(lia)).
    replace prec with (1 + (prec - 1)) in Ua by lia; rewrite Z.pow_add_r in Ua by lia.
    change (2 ^ 1) with 2 in *; nia. }
  destruct (Z.compare_spec e1 e2) as [->|L|L]; symmetry.
  - pose proof (Z.pow_pos_nonneg 2 (e2 - emin prec emax) ltac:(lia) ltac:(lia)).
    symmetry; rewrite <- (Zmult_compare_compat_r (Zpos m1) (Zpos m2)) by lia; done.
  - apply Z.compare_lt_iff, P; auto with lia.
  - apply Z.compare_gt_iff, P; auto with lia.
Qed.

Lemma SFcompare_scaled x y :
  valid x -> valid y -> SFcompare x y = Some (scaled x ?= scaled y).
Proof.
  intros [Fx Bx] [Fy By].
  destruct x as [s| | |s m e], y as [t| | |t n f]; try done; cbn [valid_binary] in Bx, By;
    cbn [SFcompare scaled]; f_equal;
    try pose proof (scaled_pos n f (proj1 (bounded_mantissa _ _ By)));
    try pose proof (scaled_pos m e (proj1 (bounded_mantissa _ _ Bx))).
  - destruct t; cbn [cond_Zopp]; symmetry; [apply Z.compare_gt_iff|apply Z.compare_lt_iff]; lia.
  - destruct s; cbn [cond_Zopp]; symmetry; [apply Z.compare_lt_iff|apply Z.compare_gt_iff]; lia.
  - pose proof (compare_magnitude m e n f Bx By) as M.
    destruct s, t; cbn [cond_Zopp]; [|symmetry; apply Z.compare_lt_iff; lia
      |symmetry; apply Z.compare_gt_iff; lia|exact M].
    rewrite Z.compare_opp, (Z.compare_antisym (Zpos m * _)), <- M; by destruct (e ?= f).
Qed.

Lemma truncated_scaled x : valid x -> truncated x = Z.quot (scaled x) unit_scale.
Proof.
  intros [Fx Bx]; destruct x as [s| | |s m e]; try done.
  cbn in Bx; apply bounded_mantissa in Bx as (L & _ & _); cbn [truncated scaled].
  pose proof emin_neg; pose proof unit_scale_pos.
  assert (E : (if 0 <=? e then Zpos m * 2 ^ e else Zpos m / 2 ^ (- e)) =
              Z.quot (Zpos m * 2 ^ (e - emin prec emax)) unit_scale).
  { rewrite Z.quot_div_nonneg by (pose proof (scaled_pos m e L); lia); unfold unit_scale.
    destruct (Z.leb_spec 0 e).
    - replace (e - emin prec emax) with (e + - emin prec emax) by lia.
      by rewrite Z.pow_add_r, Z.mul_assoc, Z.div_mul by lia.
    - replace (- emin prec emax) with (- e + (e - emin prec emax)) at 1 by lia.
      rewrite Z.pow_add_r by lia; rewrite Z.div_mul_cancel_r; [done| |]; apply Z.pow_nonzero; lia. }
  destruct s; cbn [cond_Zopp]; [by rewrite Z.quot_opp_l by lia; f_equal|done].
Qed.

End Format.

(** ** Truncation and the limits of a type *)

Section Cast.
Context (prec emax : Z) (Hprec : 1 < prec) (Hemax : prec < emax).
Abbreviation emin := (emin prec emax).
Abbreviation scaled := (scaled prec emax).
Abbreviation unit_scale := (unit_scale prec emax).
Abbreviation valid := (valid prec emax).

Lemma lt_scaled x y : valid x -> valid y -> (x <? y)%D = (scaled x <? scaled y).
Proof.
  intros Vx Vy; unfold SFltb; rewrite (SFcompare_scaled prec emax) by done.
  unfold Z.ltb; by destruct (scaled x ?= scaled y).
Qed.

Lemma truncated_ge x a : valid x -> a * unit_scale <= scaled x -> a <= truncated x.
Proof.
  intros V L; pose proof (unit_scale_pos prec emax Hprec Hemax) as P.
  rewrite (truncated_scaled prec emax), <- (Z.quot_mul a unit_scale) by (done || lia).
  by apply Z.quot_le_mono.
Qed.

Lemma truncated_le x a : valid x -> scaled x <= a * unit_scale -> truncated x <= a.
Proof.
  intros V L; pose proof (unit_scale_pos prec emax Hprec Hemax) as P.
  rewrite (truncated_scaled prec emax), <- (Z.quot_mul a unit_scale) by (done || lia).
  by apply Z.quot_le_mono.
Qed.

(** the number before [2 ^ (prec + k)] *)
Definition before_power (k : Z) : Z := (2 ^ prec - 1) * 2 ^ k.

(** no number of the format lies between it and the power *)
Lemma gap_magnitude m e k :
  0 <= k -> bounded prec emax m e = true ->
  before_power k * unit_scale < Zpos m * 2 ^ (e - emin) ->
  2 ^ (prec + k) * unit_scale <= Zpos m * 2 ^ (e - emin).
Proof.
  intros Hk B; apply bounded_mantissa in B as (Le & Um & Lm); [|done..].
  pose proof (emin_neg prec emax Hprec Hemax) as Hn.
  unfold Doubles.unit_scale, before_power; intros L.
  destruct (Z.le_gt_cases e k) as [Hek|Hek].
  - exfalso; revert L; apply Z.le_ngt.
    replace ((2 ^ prec - 1) * 2 ^ k * 2 ^ (- emin)) with ((2 ^ prec - 1) * 2 ^ (k - e) * 2 ^ (e - emin)).
    2:{ rewrite <- !Z.mul_assoc; f_equal; rewrite <- !Z.pow_add_r by lia; f_equal; lia. }
    apply Z.mul_le_mono_nonneg_r; [apply Z.pow_nonneg; lia|].
    pose proof (Z.pow_pos_nonneg 2 (k - e) ltac:(lia) ltac:(lia)); nia.
  - specialize (Lm ltac:(lia)).
    assert (E : 2 ^ (prec + k) * 2 ^ (- emin) = 2 ^ (prec - 1) * 2 ^ (1 + k - e + (e - emin))).
    { rewrite <- !Z.pow_add_r by lia; f_equal; lia. }
    rewrite E; apply Z.mul_le_mono_nonneg; [apply Z.pow_nonneg; lia|done|apply Z.pow_nonneg; lia|].
    apply Z.pow_le_mono_r; lia.
Qed.

Lemma gap_above x k :
  0 <= k -> valid x -> before_power k * unit_scale < scaled x -> 2 ^ (prec + k) <= truncated x.
Proof.
  intros Hk V L; apply truncated_ge; [done|].
  assert (P : 0 <= before_power k * unit_scale).
  { pose proof (unit_scale_pos prec emax Hprec Hemax); unfold before_power.
    pose proof (Z.pow_pos_nonneg 2 prec); pose proof (Z.pow_nonneg 2 k); nia. }
  destruct V as [F B], x as [s| | |[] m e]; try done; cbn [Doubles.scaled cond_Zopp] in *; try lia.
  by apply gap_magnitude.
Qed.

Lemma gap_below x k :
  0 <= k -> valid x -> scaled x < - before_power k * unit_scale -> truncated x <= - 2 ^ (prec + k).
Proof.
  intros Hk V L; apply truncated_le; [done|].
  assert (P : 0 <= before_power k * unit_scale).
  { pose proof (unit_scale_pos prec emax Hprec Hemax); unfold before_power.
    pose proof (Z.pow_pos_nonneg 2 prec); pose proof (Z.pow_nonneg 2 k); nia. }
  destruct V as [F B], x as [s| | |[] m e]; try done; cbn [Doubles.scaled cond_Zopp] in *; try lia.
  pose proof (gap_magnitude m e k Hk B); lia.
Qed.

(** the bounds [sl] and [su] are the numbers [a] and [b], and what is beyond them is
    beyond the limits of the type *)
Lemma clamp_cast_helper_ok dst src sl su a b :
  valid src -> valid sl -> valid su ->
  scaled sl = a * unit_scale -> scaled su = b * unit_scale ->
  L_min dst <= a -> a <= b -> b <= L_max dst ->
  (scaled src < a * unit_scale -> truncated src <= L_min dst) ->
  (b * unit_scale < scaled src -> L_max dst <= truncated src) ->
  constexpr_clamp_cast_helper dst src sl su (L_min dst) (L_max dst) =
  Some (saturate dst (truncated src)).
Proof.
  intros V Vl Vu El Eu Ha Hab Hb Hl Hu; unfold constexpr_clamp_cast_helper, saturate.
  rewrite !lt_scaled, El, Eu by done.
  destruct (Z.ltb_spec (scaled src) (a * unit_scale)); [f_equal; specialize (Hl ltac:(done)); lia|].
  destruct (Z.ltb_spec (b * unit_scale) (scaled src)); [f_equal; specialize (Hu ltac:(done)); lia|].
  assert (La : a <= truncated src) by (apply truncated_ge; done).
  assert (Lb : truncated src <= b) by (apply truncated_le; done).
  unfold int_of_float; destruct V as [F _], src as [s| | |s m e]; try done;
    rewrite (proj2 (Z.leb_le _ _)), (proj2 (Z.leb_le _ _)) by lia; f_equal; cbn [andb]; lia.
Qed.

(** bounds that are the limits themselves *)
Lemma clamp_cast_exact dst src sl su :
  valid src -> valid sl -> valid su ->
  scaled sl = L_min dst * unit_scale -> scaled su = L_max dst * unit_scale -> L_min dst <= L_max dst ->
  constexpr_clamp_cast_helper dst src sl su (L_min dst) (L_max dst) =
  Some (saturate dst (truncated src)).
Proof.
  intros V Vl Vu El Eu H; eapply clamp_cast_helper_ok; eauto; try lia; intros L.
  - apply truncated_le; [done|lia].
  - apply truncated_ge; [done|lia].
Qed.

End Cast.

(** ** From [float] to [double] *)

Lemma digits2_pos_iter m d : Zpos (digits2_pos (Pos.iter xO m d)) = Zpos (digits2_pos m) + Zpos d.
Proof.
  induction d as [|d IH] using Pos.peano_ind; [cbn; lia|].
  rewrite Pos.iter_succ; cbn [digits2_pos]; lia.
Qed.

(** a mantissa in its place needs no rounding *)
Lemma round_exact s m e :
  fexp 53 1024 (Zpos (digits2_pos m) + e) = e -> e <= 971 ->
  binary_round_aux 53 1024 s (Zpos m) e loc_Exact = S754_finite s m e.
Proof.
  intros Hf He; unfold binary_round_aux, shr_fexp; cbn [Zdigits2 shr_record_of_loc].
  rewrite Hf, Z.sub_diag; cbn [shr shr_m loc_of_shr_record round_nearest_even Zdigits2].
  rewrite Hf, Z.sub_diag; cbn [shr shr_m].
  by rewrite (proj2 (Z.leb_le e (1024 - 53))) by lia.
Qed.

Lemma truncated_shift s m n e k :
  0 <= k -> Zpos n = Zpos m * 2 ^ k -> truncated (S754_finite s n (e - k)) = truncated (S754_finite s m e).
Proof.
  intros Hk Hn; cbn [truncated]; f_equal; rewrite Hn.
  destruct (Z.leb_spec 0 (e - k)), (Z.leb_spec 0 e); [|lia|..].
  - rewrite <- Z.mul_assoc, <- Z.pow_add_r by lia; do 2 f_equal; lia.
  - replace (2 ^ k) with (2 ^ e * 2 ^ (- (e - k))) by (rewrite <- Z.pow_add_r by lia; f_equal; lia).
    rewrite Z.mul_assoc; apply Z.div_mul, Z.pow_nonzero; lia.
  - replace (- (e - k)) with (- e + k) by lia; rewrite Z.pow_add_r by lia.
    apply Z.div_mul_cancel_r; apply Z.pow_nonzero; lia.
Qed.

Lemma double_of_float_ok x :
  valid 24 128 x -> valid 53 1024 (double_of_float x) /\ truncated (double_of_float x) = truncated x.
Proof.
  intros V; pose proof V as [F B]; destruct x as [s| | |s m e]; try done; cbn [valid_binary] in B.
  pose proof (digits2_pos_bounds m) as [D _].
  apply andb_true_iff in B as [C E]; unfold canonical_mantissa, fexp, emin in C.
  apply Z.eqb_eq in C; apply Z.leb_le in E.
  set (d := Zpos (digits2_pos m)) in *; assert (Hd : 0 < d) by (unfold d; lia).
  cbn [double_of_float]; unfold binary_round, fexp, emin; fold d.
  replace (Z.max (d + e - 53) (3 - 1024 - 53)) with (e - (53 - d)) by lia.
  unfold shl_align; destruct (e - (53 - d) - e) as [|k|k] eqn:Hk; [lia|lia|].
  assert (Dk : Zpos (digits2_pos (Pos.iter xO m k)) = 53) by (rewrite digits2_pos_iter; fold d; lia).
  assert (Fx : fexp 53 1024 (Zpos (digits2_pos (Pos.iter xO m k)) + (e - (53 - d))) = e - (53 - d))
    by (rewrite Dk; unfold fexp, emin; lia).
  rewrite round_exact by (done || lia); split.
  - split; [done|]; cbn [valid_binary]; unfold bounded, canonical_mantissa.
    rewrite Fx, Z.eqb_refl; apply Z.leb_le; lia.
  - apply truncated_shift; [lia|]; rewrite iter_xO; do 2 f_equal; lia.
Qed.

(** ** The cast *)

(** the integer of the type that is nearest to the number without its fraction *)
Definition nearest_int (dst : int_type) (x : double) : Z :=
  match x with
  | S754_nan => 0
  | S754_infinity false => L_max dst
  | S754_infinity true => L_min dst
  | _ => saturate dst (truncated x)
  end.

(** what a variable of the source type can hold *)
Definition float_value (t : float_type) (x : double) : Prop :=
  valid_binary (prec_of t) (emax_of t) x = true.

Lemma clamp_cast_nan f t std dst : clamp_cast_body f t std dst S754_nan = Some 0.
Proof. done. Qed.

Lemma self_eq x : x <> S754_nan -> (x =? x)%D = true.
Proof.
  intros H; unfold SFeqb; destruct x as [[]|[]| |[] m e]; cbn; try done;
    by rewrite Z.compare_refl, Pos.compare_cont_refl.
Qed.

(** a bound of a cast: the number [x] of the format, which is the integer [n] *)
Definition is_bound (prec emax : Z) (x : double) (n : Z) : bool :=
  match x with S754_zero _ | S754_finite _ _ _ => true | _ => false end &&
  valid_binary prec emax x && (scaled prec emax x =? n * unit_scale prec emax).

Lemma is_bound_spec prec emax x n :
  is_bound prec emax x n = true -> valid prec emax x /\ scaled prec emax x = n * unit_scale prec emax.
Proof.
  unfold is_bound; rewrite !andb_true_iff, Z.eqb_eq; intros [[F B] E]; split; [|done].
  split; [by destruct x|done].
Qed.

Lemma clamp_cast_limits prec emax dst x :
  1 < prec -> prec < emax -> valid prec emax x -> L_min dst <= L_max dst ->
  is_bound prec emax (binary_normalize prec emax (L_min dst) 0 false) (L_min dst) &&
  is_bound prec emax (binary_normalize prec emax (L_max dst) 0 false) (L_max dst) = true ->
  constexpr_clamp_cast_helper dst x (binary_normalize prec emax (L_min dst) 0 false)
    (binary_normalize prec emax (L_max dst) 0 false) (L_min dst) (L_max dst) =
  Some (saturate dst (truncated x)).
Proof.
  intros Hp He V Hl [[Vl El]%is_bound_spec [Vu Eu]%is_bound_spec]%andb_true_iff.
  by apply (clamp_cast_exact prec emax).
Qed.

Lemma before_power_bounds prec k : 1 < prec -> 0 <= k -> 0 < before_power prec k < 2 ^ (prec + k).
Proof.
  intros Hp Hk; unfold before_power; rewrite Z.pow_add_r by lia.
  pose proof (proj1 (Z.pow_gt_1 2 prec ltac:(lia)) ltac:(lia)).
  pose proof (Z.pow_pos_nonneg 2 k ltac:(lia) ltac:(lia)); nia.
Qed.

(** limits that the format cannot represent: the bounds are the numbers before them *)
Lemma clamp_cast_signed prec emax dst x sl su k :
  1 < prec -> prec < emax -> 0 <= k -> valid prec emax x ->
  L_min dst = - 2 ^ (prec + k) -> L_max dst = 2 ^ (prec + k) - 1 ->
  is_bound prec emax sl (- before_power prec k) && is_bound prec emax su (before_power prec k) = true ->
  constexpr_clamp_cast_helper dst x sl su (L_min dst) (L_max dst) = Some (saturate dst (truncated x)).
Proof.
  intros Hp He Hk V El Eu [[Vl Sl]%is_bound_spec [Vu Su]%is_bound_spec]%andb_true_iff.
  pose proof (before_power_bounds prec k Hp Hk).
  apply (clamp_cast_helper_ok prec emax) with (a := - before_power prec k) (b := before_power prec k);
    try (done || lia); intros L.
  - rewrite El; by apply (gap_below prec emax).
  - rewrite Eu; apply (gap_above prec emax) in L; [lia|done..].
Qed.

Lemma clamp_cast_unsigned prec emax dst x su k :
  1 < prec -> prec < emax -> 0 <= k -> valid prec emax x ->
  L_min dst = 0 -> L_max dst = 2 ^ (prec + k) - 1 ->
  is_bound prec emax su (before_power prec k) = true ->
  constexpr_clamp_cast_helper dst x 0%D su (L_min dst) (L_max dst) = Some (saturate dst (truncated x)).
Proof.
  intros Hp He Hk V El Eu [Vu Su]%is_bound_spec; pose proof (before_power_bounds prec k Hp Hk).
  apply (clamp_cast_helper_ok prec emax) with (a := 0) (b := before_power prec k);
    try (done || lia); intros L.
  - rewrite El; apply (truncated_le prec emax); [done..|lia].
  - rewrite Eu; apply (gap_above prec emax) in L; [lia|done..].
Qed.

(** the branches of the cast compute an exact answer: [Dst] is of <cstdint>, or no [is_same]
    is asked about it, or the last branch is its own *)
Definition cast_exact (t : float_type) (std : bool) (dst : int_type) : bool :=
  std || negb (it_bits dst =? float_bits t) || (negb (is_double t) && negb (it_signed dst)).

Ltac cast_cases Hd std E :=
  each_type Hd; destruct std; try discriminate E;
  cbn [it_bits it_signed float_bits negb Z.ltb Z.eqb Z.compare Pos.eqb Pos.compare Pos.compare_cont
       is_same is_double andb Bool.eqb to_float].

Lemma clamp_cast_double_ok std dst x :
  dst ∈ int_types -> cast_exact TDouble std dst = true -> valid 53 1024 x ->
  clamp_cast_double std dst x = Some (saturate dst (truncated x)).
Proof.
  intros Hd E V; unfold clamp_cast_double, clamp_cast_body.
  rewrite self_eq by (destruct V; by intros ->); cast_cases Hd std E;
    try (apply (clamp_cast_limits 53 1024); [lia|lia|done|done|by vm_compute]; fail).
  - apply (clamp_cast_signed 53 1024 _ _ _ _ 10); [lia|lia|lia|done|done|done|by vm_compute].
  - apply (clamp_cast_unsigned 53 1024 _ _ _ 11); [lia|lia|lia|done|done|done|by vm_compute].
Qed.

Lemma nonneg_truncated x : valid 53 1024 x -> (0 <=? x)%D = true -> 0 <= truncated x.
Proof.
  intros V H; destruct x as [s| | |[] m e]; try done; cbn [truncated cond_Zopp].
  destruct (Z.leb_spec 0 e); [apply Z.mul_nonneg_nonneg; [lia|apply Z.pow_nonneg; lia]|apply Z.div_pos; [lia|]].
  apply Z.pow_pos_nonneg; lia.
Qed.

Lemma neg_truncated x : valid 53 1024 x -> (0 <=? x)%D = false -> truncated x <= 0.
Proof.
  intros V H; destruct x as [s| | |[] m e]; try done; cbn [truncated cond_Zopp].
  apply Z.opp_nonpos_nonneg.
  destruct (Z.leb_spec 0 e); [apply Z.mul_nonneg_nonneg; [lia|apply Z.pow_nonneg; lia]|apply Z.div_pos; [lia|]].
  apply Z.pow_pos_nonneg; lia.
Qed.

Lemma clamp_cast_float_ok std dst x :
  dst ∈ int_types -> cast_exact TFloat std dst = true -> valid 24 128 x ->
  clamp_cast_float std dst x = Some (saturate dst (truncated x)).
Proof.
  intros Hd E V; pose proof Hd as Hd'; unfold clamp_cast_float, clamp_cast_body.
  destruct (double_of_float_ok x V) as [V' T'].
  rewrite self_eq by (destruct V; by intros ->); cast_cases Hd std E;
    try (apply (clamp_cast_limits 24 128); [lia|lia|done|done|by vm_compute]; fail).
  all: try (apply (clamp_cast_signed 24 128 _ _ _ _ 7); [lia|lia|lia|done|done|done|by vm_compute]).
  all: try (apply (clamp_cast_unsigned 24 128 _ _ _ 8); [lia|lia|lia|done|done|done|by vm_compute]).
  all: destruct (0 <=? double_of_float x)%D eqn:S;
    [apply nonneg_truncated in S; [|done]|apply neg_truncated in S; [|done]];
    rewrite clamp_cast_double_ok, T' by (done || (unfold int_types; set_solver)); cbn [mbind option_bind];
    rewrite clamp_cast_eq by (done || (unfold int_types; set_solver) || (limits; lia));
    rewrite T' in S; f_equal; limits; lia.
Qed.

Lemma clamp_cast_infinity t std dst s :
  dst ∈ int_types ->
  constexpr_clamp_cast_floating t std dst (S754_infinity s) = Some (nearest_int dst (S754_infinity s)).
Proof. intros Hd; each_type Hd; destruct t, std, s; by vm_compute. Qed.

(** C39: [constexpr_clamp_cast] of a [float] or a [double] to an integer type of <cstdint>,
    and to another type of another size, is defined on every value, though the casts in
    it are not: the number is truncated toward zero, then it is the integer of the type
    nearest to that, also where the limits of the type are no numbers of the source
    type; an infinity gives a limit and a NaN 0.  Left out are the types of the source's
    size that are not of <cstdint>, such as [long long] beside [long] for a [double]:
    see [clamp_cast_long_long]. *)
Theorem clamp_cast_nearest t std dst x :
  dst ∈ int_types -> cast_exact t std dst = true -> float_value t x ->
  constexpr_clamp_cast_floating t std dst x = Some (nearest_int dst x).
Proof.
  intros Hd E V; destruct x as [s|s| |s m e]; [|by apply clamp_cast_infinity|by destruct t|];
    destruct t; cbn [nearest_int constexpr_clamp_cast_floating];
    by first [apply clamp_cast_float_ok | apply clamp_cast_double_ok].
Qed.

(** a [double] to a 64-bit type that is not of <cstdint>: the last branch, for [float],
    takes every number below 0 for the least one and [2 ^ 32] for the greatest *)
Lemma clamp_cast_long_long :
  constexpr_clamp_cast_floating TDouble false int64 (of_Z (-1)) = Some (L_min int64) /\
  constexpr_clamp_cast_floating TDouble false int64 (of_Z (2 ^ 32)) = Some (L_max int64) /\
  constexpr_clamp_cast_floating TDouble false (MkInt 64 false) (of_Z (2 ^ 32)) = Some (2 ^ 64 - 1).
Proof. by vm_compute. Qed.

Lemma clamp_cast_nearest_witness :
  constexpr_clamp_cast_floating TFloat true int32 (float_of_int TFloat 9999999999) = Some 2147483647 /\
  constexpr_clamp_cast_floating TDouble true int64 (float_of_int TDouble (- 2 ^ 63)) = Some (- 2 ^ 63) /\
  constexpr_clamp_cast_floating TFloat false (MkInt 64 false) (float_of_int TFloat (-7)) = Some 0 /\
  constexpr_clamp_cast_floating TDouble true (MkInt 8 true) (float_of_int TDouble 7 / float_of_int TDouble 2)%D = Some 3.
Proof.
  split_and!; (rewrite clamp_cast_nearest; [by vm_compute|unfold int_types; set_solver|done|by vm_compute]).
Defined.
