(* ===== verification/TokenBucket.v ===== *)
(** * The token bucket

    Models [token_bucket/token_bucket.h].  Numbers are binary64 floats, computed
    as in IEEE 754 with rounding to nearest (the NaNs are one value, and a bucket
    has no use for their payload).  A function that touches [zeroTime_] is a tree
    of its atomic accesses, so that calls of several threads can be interleaved;
    [TokenBucketPolicyDefault] is the policy.  All accesses are to one atomic
    object, whose accesses are coherent: they take place in one order even though
    they are relaxed.  A failed assertion, and a conversion that C++ leaves
    undefined, is [Fault].  The retry loops have fuel, [tries]: out of it they
    end in [Spin]. *)

From Stdlib Require Import SpecFloat.
From S2P Require Import Prelude Doubles.

(** ** Helpers *)

(** [std::min] and [std::max]; [constexpr_min] of two values has its operands
    the other way round, and is the same function *)
Definition std_min (a b : double) : double := if (b <? a)%D then b else a.
Definition std_max (a b : double) : double := if (a <? b)%D then b else a.
Definition constexpr_min_double (a b : double) : double := if (b <? a)%D then b else a.

(** [static_cast<int64_t>], undefined outside of the type *)
Definition int64_of_double (x : double) : option Z :=
  match x with
  | S754_zero _ | S754_finite _ _ _ =>
    let v := truncated x in if (- 2 ^ 63 <=? v) && (v <? 2 ^ 63) then Some v else None
  | _ => None
  end.

(** ** Programs that share one atomic *)

Inductive atomic_prog (A : Type) : Type :=
| Return (a : A)
| Fault
| Spin
| Read (k : double -> atomic_prog A)
| Cas (expected new : double) (k : bool * double -> atomic_prog A)
| Write (new : double) (k : atomic_prog A)
| Sleep (usec : Z) (k : atomic_prog A).
Arguments Return {A}. Arguments Fault {A}. Arguments Spin {A}. Arguments Read {A}.
Arguments Cas {A}. Arguments Write {A}. Arguments Sleep {A}.

#[export] Instance atomic_ret : MRet atomic_prog := fun A a => Return a.

#[export] Instance atomic_bind : MBind atomic_prog := fun A B k =>
  fix bind (p : atomic_prog A) : atomic_prog B :=
    match p with
    | Return a => k a
    | Fault => Fault
    | Spin => Spin
    | Read c => Read (fun z => bind (c z))
    | Cas e n c => Cas e n (fun r => bind (c r))
    | Write n c => Write n (bind c)
    | Sleep u c => Sleep u (bind c)
    end.

#[export] Instance atomic_map : FMap atomic_prog := fun A B f p => a ← p; Return (f a).

Definition Assert (b : bool) : atomic_prog unit := if b then Return tt else Fault.
Notation "'must' b ; k" := (mbind (fun _ : unit => k) (Assert b))
  (at level 200, b at level 100, k at level 200, only parsing).
Definition load : atomic_prog double := Read Return.
Definition store (z : double) : atomic_prog unit := Write z (Return tt).

(** ** [TokenBucketStorage] *)

(** [Policy::concurrent] of the default policy *)
Definition concurrent : bool := true.

(** [compare_exchange_weak_relaxed]: whether it stored, and what [expected] holds after it *)
Definition compare_exchange_weak_relaxed (expected zeroTime : double) : atomic_prog (bool * double) :=
  if concurrent then Cas expected zeroTime Return
  else Write zeroTime (Return (true, expected)).

Definition storage_reset (zeroTime : double) : atomic_prog unit := store zeroTime.

Definition storage_available (rate burstSize now : double) : atomic_prog double :=
  must (0 <? rate)%D; must (0 <? burstSize)%D;
  zt ← load;
  mret (std_min ((now - zt) * rate)%D burstSize).

(** the loop of [TokenBucketStorage::consume] *)
Fixpoint consume_loop (tries : nat) (rate burstSize now : double) (callback : double -> double)
    : atomic_prog double :=
  match tries with
  | O => Spin
  | S tries =>
    zeroTimeOld ← load;
    let tokens := std_min ((now - zeroTimeOld) * rate)%D burstSize in
    let consumed := callback tokens in
    let tokensNew := (tokens - consumed)%D in
    if (consumed =? 0)%D then mret consumed
    else
      let zeroTimeNew := (now - tokensNew / rate)%D in
      '(done, _) ← compare_exchange_weak_relaxed zeroTimeOld zeroTimeNew;
      if (done : bool) then mret consumed else consume_loop tries rate burstSize now callback
  end.
Definition storage_consume (tries : nat) (rate burstSize now : double) (callback : double -> double)
    : atomic_prog double :=
  must (0 <? rate)%D; must (0 <? burstSize)%D;
  consume_loop tries rate burstSize now callback.

Definition timeWhenBucket (rate target : double) : atomic_prog double :=
  zt ← load; mret (zt + target / rate)%D.

(** the loop of [returnTokensImpl]: a failed exchange reloads [zeroTimeOld] *)
Fixpoint return_loop (tries : nat) (tokenCount rate zeroTimeOld : double) : atomic_prog double :=
  match tries with
  | O => Spin
  | S tries =>
    let zeroTimeNew := (zeroTimeOld - tokenCount / rate)%D in
    '(done, seen) ← compare_exchange_weak_relaxed zeroTimeOld zeroTimeNew;
    if (done : bool) then mret zeroTimeNew else return_loop tries tokenCount rate seen
  end.
Definition returnTokensImpl (tries : nat) (tokenCount rate : double) : atomic_prog double :=
  zeroTimeOld ← load; return_loop tries tokenCount rate zeroTimeOld.

Definition storage_returnTokens (tries : nat) (tokensToReturn rate : double) : atomic_prog unit :=
  must (0 <? rate)%D; _ ← returnTokensImpl tries tokensToReturn rate; mret tt.

(** ** [BasicDynamicTokenBucket] *)

(** [defaultClockNow] of the clock's count of nanoseconds *)
Definition defaultClockNow (ns : Z) : double := (of_Z ns / of_Z 1000000000)%D.

Definition dynamic_consume (tries : nat) (toConsume rate burstSize now : double) : atomic_prog bool :=
  must (0 <? rate)%D; must (0 <? burstSize)%D;
  available ← storage_available rate burstSize now;
  if (available <? 0)%D then mret false
  else
    consumed ← storage_consume tries rate burstSize now
                 (fun available => if (available <? toConsume)%D then 0%D else toConsume);
    must (consumed =? toConsume)%D || (consumed =? 0)%D;
    mret (consumed =? toConsume)%D.

Definition dynamic_consumeOrDrain (tries : nat) (toConsume rate burstSize now : double)
    : atomic_prog double :=
  must (0 <? rate)%D; must (0 <? burstSize)%D;
  available ← storage_available rate burstSize now;
  if (available <=? 0)%D then mret 0%D
  else storage_consume tries rate burstSize now
         (fun available => constexpr_min_double available toConsume).

Definition dynamic_returnTokens (tries : nat) (tokensToReturn rate : double) : atomic_prog unit :=
  must (0 <? rate)%D; must (0 <? tokensToReturn)%D;
  storage_returnTokens tries tokensToReturn rate.

(** the loop of [consumeWithBorrowNonBlocking]; [rounds] is its fuel *)
Fixpoint borrow_loop (rounds tries : nat) (toConsume rate burstSize now : double)
    : atomic_prog (option double) :=
  match rounds with
  | O => Spin
  | S rounds =>
    if (0 <? toConsume)%D then
      consumed ← dynamic_consumeOrDrain tries toConsume rate burstSize now;
      if (0 <? consumed)%D then
        borrow_loop rounds tries (toConsume - consumed)%D rate burstSize now
      else
        _ ← storage_returnTokens tries (- toConsume)%D rate;
        debtPaid ← timeWhenBucket rate 0%D;
        mret (Some (std_max 0%D (debtPaid - now)%D))
    else mret (Some 0%D)
  end.
Definition consumeWithBorrowNonBlocking (rounds tries : nat) (toConsume rate burstSize now : double)
    : atomic_prog (option double) :=
  must (0 <? rate)%D; must (0 <? burstSize)%D;
  if (burstSize <? toConsume)%D then mret None
  else borrow_loop rounds tries toConsume rate burstSize now.

Definition consumeWithBorrowAndWait (rounds tries : nat) (toConsume rate burstSize now : double)
    : atomic_prog bool :=
  res ← consumeWithBorrowNonBlocking rounds tries toConsume rate burstSize now;
  match res with
  | None => mret false
  | Some nap =>
    if (0 <? nap)%D then
      match int64_of_double (nap * of_Z 1000000)%D with
      | Some napUSec => Sleep napUSec (mret true)
      | None => Fault
      end
    else mret true
  end.

Definition dynamic_available (rate burstSize now : double) : atomic_prog double :=
  must (0 <? rate)%D; must (0 <? burstSize)%D;
  available ← storage_available rate burstSize now;
  mret (std_max 0%D available).

(** ** [BasicTokenBucket]: a rate and a burst size kept with the bucket *)

Record BasicTokenBucket : Set := MkBucket { rate_ : double; burstSize_ : double }.

(** the constructor: the bucket and its [zeroTime_], unless an assertion fails *)
Definition MakeTokenBucket (genRate burstSize zeroTime : double) : option (BasicTokenBucket * double) :=
  if (0 <? genRate)%D && (0 <? burstSize)%D then Some (MkBucket genRate burstSize, zeroTime) else None.

Definition bucket_setCapacity (b : BasicTokenBucket) (tokens now : double) : atomic_prog unit :=
  storage_reset (now - tokens / rate_ b)%D.

Definition bucket_available (b : BasicTokenBucket) (now : double) : atomic_prog double :=
  dynamic_available (rate_ b) (burstSize_ b) now.

Definition bucket_reset (b : BasicTokenBucket) (genRate burstSize now : double)
    : atomic_prog BasicTokenBucket :=
  must (0 <? genRate)%D; must (0 <? burstSize)%D;
  availTokens ← bucket_available b now;
  let b := MkBucket genRate burstSize in
  _ ← bucket_setCapacity b availTokens now; mret b.

Definition bucket_consume (tries : nat) (b : BasicTokenBucket) (toConsume now : double) : atomic_prog bool :=
  dynamic_consume tries toConsume (rate_ b) (burstSize_ b) now.
Definition bucket_consumeOrDrain (tries : nat) (b : BasicTokenBucket) (toConsume now : double)
    : atomic_prog double :=
  dynamic_consumeOrDrain tries toConsume (rate_ b) (burstSize_ b) now.
Definition bucket_returnTokens (tries : nat) (b : BasicTokenBucket) (tokensToReturn : double)
    : atomic_prog unit :=
  dynamic_returnTokens tries tokensToReturn (rate_ b).
Definition bucket_borrow (rounds tries : nat) (b : BasicTokenBucket) (toConsume now : double)
    : atomic_prog (option double) :=
  consumeWithBorrowNonBlocking rounds tries toConsume (rate_ b) (burstSize_ b) now.
Definition bucket_borrow_wait (rounds tries : nat) (b : BasicTokenBucket) (toConsume now : double)
    : atomic_prog bool :=
  consumeWithBorrowAndWait rounds tries toConsume (rate_ b) (burstSize_ b) now.

(** ** One thread alone *)

(** [zeroTime_]; which of the next exchanges fail although they could succeed;
    how long the thread slept, the latest first *)
Record alone_state : Set := MkAlone { al_zero : double; al_weak : list bool; al_naps : list Z }.

Inductive outcome (A : Type) : Type :=
| Finished (a : A) (s : alone_state)
| Faulted
| Spinning.
Arguments Finished {A}. Arguments Faulted {A}. Arguments Spinning {A}.

Fixpoint alone {A : Type} (p : atomic_prog A) (s : alone_state) : outcome A :=
  match p with
  | Return a => Finished a s
  | Fault => Faulted
  | Spin => Spinning
  | Read k => alone (k (al_zero s)) s
  | Cas e n k =>
    if negb (default false (head (al_weak s))) && bool_decide (al_zero s = e)
    then alone (k (true, e)) (MkAlone n (tail (al_weak s)) (al_naps s))
    else alone (k (false, al_zero s)) (MkAlone (al_zero s) (tail (al_weak s)) (al_naps s))
  | Write n k => alone k (MkAlone n (al_weak s) (al_naps s))
  | Sleep u k => alone k (MkAlone (al_zero s) (al_weak s) (u :: al_naps s))
  end.

(** ** Threads that share a bucket *)

(** one access: what it finds in [zeroTime_] and leaves there, and what remains to be done *)
Inductive access {A : Type} : atomic_prog A -> double -> double -> atomic_prog A -> Prop :=
| access_read k z : access (Read k) z z (k z)
| access_cas e n k : access (Cas e n k) e n (k (true, e))
| access_cas_fails e n k z : access (Cas e n k) z z (k (false, z))
| access_write n k z : access (Write n k) z n k
| access_sleep u k z : access (Sleep u k) z z k.

Section Threads.
Context {C R : Type} (code : C -> atomic_prog R).

(** the calls that have returned, the one that runs, those to come *)
Record thread : Type := MkThread {
  th_done : list (C * R); th_running : option (C * atomic_prog R); th_calls : list C }.

Inductive thread_step : thread -> double -> double -> thread -> Prop :=
| step_call d c cs z :
  thread_step (MkThread d None (c :: cs)) z z (MkThread d (Some (c, code c)) cs)
| step_access d c p p' cs z z' :
  access p z z' p' ->
  thread_step (MkThread d (Some (c, p)) cs) z z' (MkThread d (Some (c, p')) cs)
| step_return d c r cs z :
  thread_step (MkThread d (Some (c, Return r)) cs) z z (MkThread (d ++ [(c, r)]) None cs).

Inductive pool_step : list thread * double -> list thread * double -> Prop :=
| pool_one ts i t t' z z' :
  ts !! i = Some t -> thread_step t z z' t' -> pool_step (ts, z) (<[i := t']> ts, z').

Definition pool_init (calls : list (list C)) : list thread := MkThread [] None <$> calls.

(** the calls with their results, one that is about to return included *)
Definition results (t : thread) : list (C * R) :=
  th_done t ++ match th_running t with Some (c, Return r) => [(c, r)] | _ => [] end.

(** a call run alone on [z], without failing exchanges *)
Definition runs_alone (c : C) (z : double) (r : R) (z' : double) : Prop :=
  exists naps, alone (code c) (MkAlone z [] []) = Finished r (MkAlone z' [] naps).

(** [order] (calls with the threads that made them and their results) explains
    how [z] became [z']: each call ran alone, one after the other *)
Fixpoint explains (z : double) (order : list (nat * (C * R))) (z' : double) : Prop :=
  match order with
  | [] => z' = z
  | (_, (c, r)) :: order => exists z1, runs_alone c z r z1 /\ explains z1 order z'
  end.

Definition of_thread (i : nat) (order : list (nat * (C * R))) : list (C * R) :=
  snd <$> filter (fun x => x.1 = i) order.

End Threads.

(** the calls of a [DynamicTokenBucket] *)
Inductive bucket_call : Set :=
| CConsume (toConsume rate burstSize now : double)
| CConsumeOrDrain (toConsume rate burstSize now : double)
| CReturnTokens (tokensToReturn rate : double)
| CBorrow (toConsume rate burstSize now : double)
| CReset (zeroTime : double)
| CAvailable (rate burstSize now : double).

Inductive bucket_answer : Set :=
| AUnit | ABool (b : bool) | ADouble (x : double) | AOption (x : option double).

Definition call_code (tries : nat) (c : bucket_call) : atomic_prog bucket_answer :=
  match c with
  | CConsume n r b t => ABool <$> dynamic_consume tries n r b t
  | CConsumeOrDrain n r b t => ADouble <$> dynamic_consumeOrDrain tries n r b t
  | CReturnTokens n r => _ ← dynamic_returnTokens tries n r; mret AUnit
  | CBorrow n r b t => AOption <$> consumeWithBorrowNonBlocking tries tries n r b t
  | CReset z => _ ← storage_reset z; mret AUnit
  | CAvailable r b t => ADouble <$> dynamic_available r b t
  end.
