(* ===== verification/Io.v ===== *)
(** * What device operations do to the world

    Every device operation of the world changes the bytes of the device, the
    pending kernel answers and [errno], and nothing else: its result is an
    [upd_io] of the world.  The lemmas give the written or read bytes and, when
    the kernel's answers are benign, that the transfer is complete. *)

From S2P Require Import Prelude Meta Device World SuperBlock.

Definition upd_io (e : Z) (evs : list sys_event) (st : store) (w : world) : world :=
  set_w_errno e (set_w_dev (set_dev_events evs (set_dev_store st (w_dev w))) w).

Definition w_store (w : world) : store := dev_store (w_dev w).
Definition w_events (w : world) : list sys_event := dev_events (w_dev w).

(** both descriptors are open, and no pending answer is a failure *)
Definition dev_good (w : world) : Prop :=
  0 < dev_fd_direct (w_dev w) /\ 0 < dev_fd_cache (w_dev w) /\ Forall benign (w_events w).

(** no pending answer is a failure of any kind: [fsync] is not retried *)
Definition calm (ev : sys_event) : Prop :=
  match ev with SysFull => True | SysShort n => (0 < n)%nat | SysFail _ => False end.

Definition dev_calm (w : world) : Prop := dev_good w /\ Forall calm (w_events w).

Lemma upd_io_upd_io e evs st e' evs' st' w :
  upd_io e' evs' st' (upd_io e evs st w) = upd_io e' evs' st' w.
Proof. reflexivity. Qed.

Lemma w_store_upd_io e evs st w : w_store (upd_io e evs st w) = st.
Proof. reflexivity. Qed.

Lemma upd_io_self w : upd_io (w_errno w) (w_events w) (w_store w) w = w.
Proof. by destruct w as [? ? ? ? []]. Qed.

Lemma dev_good_upd_io e evs st w :
  dev_good w -> Forall benign evs -> dev_good (upd_io e evs st w).
Proof. intros (?&?&?) ?. done. Qed.

(** ** Consumed answers *)

Lemma wrapFull_suffix {A} (f : sys_event -> nat -> nat -> Z -> Z -> A -> Z * Z * A)
    (evs : list sys_event) : forall b count off total errno a,
  (wrapFull f evs b count off total errno a).2 `suffix_of` evs.
Proof.
  induction evs as [|ev evs IH]; intros b count off total errno a; cbn [wrapFull].
  - destruct (f _ _ _ _ _ _) as [[r e] a']. by destruct (r =? -1).
  - destruct (f _ _ _ _ _ _) as [[r e] a'].
    repeat case_match; cbn [snd]; eauto using suffix_cons_r.
Qed.

Lemma Forall_suffix {A} (P : A -> Prop) (l1 l2 : list A) :
  l1 `suffix_of` l2 -> Forall P l2 -> Forall P l1.
Proof. intros [k ->] Hf. by apply Forall_app in Hf as [_ ?]. Qed.

(** ** Writing and reading *)

Section Run.
Context (w : world) (offset : Z).
Context (Hoff : 0 <= offset) (Hmax : dev_size (w_dev w) < 2 ^ 63).

Definition write_post (buf : bytes) (r : Z) (w' : world) : Prop :=
  exists e n evs, (n <= length buf)%nat /\ (r = -1 \/ r = Z.of_nat n) /\
    evs `suffix_of` w_events w /\
    w' = upd_io e evs (st_write (w_store w) offset (take n buf)) w /\
    (dev_good w -> r = Z.of_nat (length buf) /\ n = length buf).

Definition read_post (len : nat) (r : Z) (out : bytes) (w' : world) : Prop :=
  exists e n evs, (n <= len)%nat /\ (r = -1 \/ r = Z.of_nat n) /\
    evs `suffix_of` w_events w /\
    out = st_read (w_store w) offset n /\ w' = upd_io e evs (w_store w) w /\
    (dev_good w -> r = Z.of_nat len /\ n = len).

Lemma pwriteFull_run (fd : Z) (buf : bytes) :
  let '(r, e, d) := pwriteFull fd buf offset (w_errno w) (w_dev w) in
  (0 < fd -> Forall benign (w_events w) -> r = Z.of_nat (length buf)) /\
  exists n evs, (n <= length buf)%nat /\ (r = -1 \/ r = Z.of_nat n) /\
    evs `suffix_of` w_events w /\
    d = set_dev_events evs (set_dev_store (st_write (w_store w) offset (take n buf)) (w_dev w)).
Proof.
  pose proof (pwriteFull_prefix fd buf offset (w_errno w) (w_dev w)) as Hp.
  pose proof (pwriteFull_complete fd buf offset (w_errno w) (w_dev w)) as Hc.
  pose proof (wrapFull_suffix (sys_pwrite fd buf) (dev_events (w_dev w)) 0 (length buf) offset 0
                (w_errno w) (dev_store (w_dev w))) as Hs.
  unfold pwriteFull in *. destruct (wrapFull _ _ _ _ _ _ _ _) as [[[r e] m] evs].
  cbn [fst snd] in *. destruct Hp as (n & evs' & ? & ? & Heq).
  split; [intros; apply Hc; [lia|done]|].
  unfold set_dev_events, set_dev_store in Heq. cbn in Heq. injection Heq as -> ->.
  exists n, evs'. by split_and!.
Qed.

Lemma preadFull_run (fd : Z) (len : nat) :
  let '(r, e, out, d) := preadFull fd len offset (w_errno w) (w_dev w) in
  (0 < fd -> Forall benign (w_events w) -> r = Z.of_nat len) /\
  exists n evs, (n <= len)%nat /\ (r = -1 \/ r = Z.of_nat n) /\
    evs `suffix_of` w_events w /\ out = st_read (w_store w) offset n /\
    d = set_dev_events evs (w_dev w).
Proof.
  pose proof (preadFull_prefix fd len offset (w_errno w) (w_dev w)) as Hp.
  pose proof (preadFull_complete fd len offset (w_errno w) (w_dev w)) as Hc.
  pose proof (wrapFull_suffix (sys_pread fd (dev_store (w_dev w))) (dev_events (w_dev w)) 0 len
                offset 0 (w_errno w) []) as Hs.
  unfold preadFull in *. destruct (wrapFull _ _ _ _ _ _ _ _) as [[[r e] m] evs].
  cbn [fst snd] in *. destruct Hp as (n & evs' & ? & ? & -> & Heq).
  split; [intros; apply Hc; [lia|done]|].
  exists n, evs. split_and!; done.
Qed.

Lemma dev_bound (len : nat) :
  offset + Z.of_nat len <= dev_size (w_dev w) ->
  (dev_size (w_dev w) <? u64 (offset + Z.of_nat len)) = false.
Proof using Hoff Hmax. intros. rewrite wrap_small by lia. apply Z.ltb_ge. lia. Qed.

(** [PwriteDirect] and [PwriteCache] inside the device *)
Lemma write_run (direct : bool) (buf : bytes) :
  offset + Z.of_nat (length buf) <= dev_size (w_dev w) ->
  wp (if direct then PwriteDirect buf offset else PwriteCache buf offset)
     (write_post buf) w.
Proof using Hoff Hmax.
  intros Hb. assert (Hg : forall fd, fd = dev_fd_direct (w_dev w) \/ fd = dev_fd_cache (w_dev w) ->
    let '(r, e, d) := dev_pwrite fd buf offset (w_errno w) (w_dev w) in
    write_post buf r (set_w_errno e (set_w_dev d w))).
  { intros fd Hfd. unfold dev_pwrite. rewrite dev_bound by done.
    pose proof (pwriteFull_run fd buf) as Hr. destruct (pwriteFull _ _ _ _ _) as [[r e] d].
    destruct Hr as (Hc & n & evs & Hn & Hr & Hs & ->). exists e, n, evs. split_and!; try done.
    intros (?&?&?). assert (r = Z.of_nat (length buf)) by (apply Hc; [lia|done]). lia. }
  unfold wp, PwriteDirect, PwriteCache, dev_PwriteDirect, dev_PwriteCache.
  destruct direct.
  - specialize (Hg _ (or_introl eq_refl)). by destruct (dev_pwrite _ _ _ _ _) as [[r e] d].
  - specialize (Hg _ (or_intror eq_refl)). by destruct (dev_pwrite _ _ _ _ _) as [[r e] d].
Qed.

Lemma read_run (direct : bool) (len : nat) :
  offset + Z.of_nat len <= dev_size (w_dev w) ->
  wp (if direct then PreadDirect len offset else PreadCache len offset)
     (fun ro w' => read_post len ro.1 ro.2 w') w.
Proof using Hoff Hmax.
  intros Hb. assert (Hg : forall fd, fd = dev_fd_direct (w_dev w) \/ fd = dev_fd_cache (w_dev w) ->
    let '(r, e, out, d) := dev_pread fd len offset (w_errno w) (w_dev w) in
    read_post len r out (set_w_errno e (set_w_dev d w))).
  { intros fd Hfd. unfold dev_pread. rewrite dev_bound by done.
    pose proof (preadFull_run fd len) as Hr. destruct (preadFull _ _ _ _ _) as [[[r e] o] d].
    destruct Hr as (Hc & n & evs & Hn & Hr & Hs & -> & ->). exists e, n, evs. split_and!; try done.
    intros (?&?&?). assert (r = Z.of_nat len) by (apply Hc; [lia|done]). lia. }
  unfold wp, PreadDirect, PreadCache, dev_PreadDirect, dev_PreadCache.
  destruct direct.
  - specialize (Hg _ (or_introl eq_refl)). by destruct (dev_pread _ _ _ _ _) as [[[r e] o] d].
  - specialize (Hg _ (or_intror eq_refl)). by destruct (dev_pread _ _ _ _ _) as [[[r e] o] d].
Qed.

End Run.

(** [Fsync] changes no byte *)
Lemma sys_fsync_run (e : Z) (d : device) :
  exists r e' evs, sys_fsync e d = (r, e', set_dev_events evs d) /\ (r = 0 \/ r = -1) /\
    evs `suffix_of` dev_events d /\ (Forall calm (dev_events d) -> r = 0).
Proof.
  unfold sys_fsync. destruct d as [sz sec fd1 fd2 m [|[|n|x] l]]; cbn.
  - by exists 0, e, []; auto.
  - exists 0, e, l; auto using suffix_cons_r.
  - exists 0, e, l; auto using suffix_cons_r.
  - exists (-1), x, l. split_and!; auto using suffix_cons_r. intros Hc. by inversion Hc.
Qed.

Lemma fsync_run (w : world) :
  wp Fsync (fun r w' => exists e evs, evs `suffix_of` w_events w /\ (r = 0 \/ r = -1) /\
    w' = upd_io e evs (w_store w) w /\ (dev_calm w -> r = 0)) w.
Proof.
  unfold wp, Fsync, dev_Fsync.
  assert (Hw : w_dev w = set_dev_events (w_events w) (set_dev_store (w_store w) (w_dev w)))
    by by destruct w as [? ? ? ? []].
  destruct (sys_fsync_run (w_errno w) (w_dev w)) as (r1 & e1 & evs1 & -> & H1 & Hs1 & C1).
  destruct (sys_fsync_run e1 (set_dev_events evs1 (w_dev w))) as (r2 & e2 & evs2 & E2 & H2 & Hs2 & C2).
  assert (Hc : dev_calm w -> r1 = 0 /\ r2 = 0).
  { intros [_ Hc]. split; [by apply C1|]. apply C2. by eapply Forall_suffix. }
  assert (evs2 `suffix_of` w_events w) by by etrans.
  change (dev_fd_cache (set_dev_events evs1 (w_dev w))) with (dev_fd_cache (w_dev w)).
  destruct (0 <? dev_fd_direct _), (0 <? dev_fd_cache _); rewrite ?E2; try rewrite <- Hw;
    destruct (Z.ltb_spec r1 0), (Z.ltb_spec r2 0).
  all: first
    [ eexists _, _; split; [|split; [|split; [reflexivity|]]];
        [eassumption | by (left + right) | by intros []%Hc; lia]
    | exists (w_errno w), (w_events w); split; [done|split; [by left|]];
        split; [unfold upd_io; by rewrite <- Hw|done] ].
Qed.
