(* ===== verification/Frames.v ===== *)
(** * What a program cannot change

    A rule system for statements of the form "whatever [m] does, its last world
    is related to its first by the preorder [R]": the rules follow the text of a
    program and need no precondition.  Two relations are used: [calls_step], for
    programs on files that open and close nothing, and [names_kept], for programs
    that also touch no directory and no name. *)

From S2P Require Import Prelude Meta Device World SuperBlock Resources Paths FileBlock Inode.
From S2P Require Import Directory FileHandle File OpenFile FileHandleOps FileSystem Io.

(** ** Rules *)

Definition keeps {A} (R : world -> world -> Prop) (m : Fs A) (w : world) : Prop :=
  forall a w', m w = Done a w' -> R w w'.

Section Keeps.
Context (R : world -> world -> Prop) `{!PreOrder R}.

Lemma keeps_ret {A} (a : A) w : keeps R (ret a) w.
Proof. intros ? ? [= _ <-]. done. Qed.

Lemma keeps_crash {A} c w : keeps R (crash_with (A:=A) c) w.
Proof. done. Qed.

Lemma keeps_gets {A} (f : world -> A) w : keeps R (gets f) w.
Proof. intros ? ? [= _ <-]. done. Qed.

Lemma keeps_deref {A} (o : option A) w : keeps R (deref o) w.
Proof. destruct o; [apply keeps_ret|apply keeps_crash]. Qed.

Lemma keeps_in_bounds {A} (o : option A) w : keeps R (in_bounds o) w.
Proof. destruct o; [apply keeps_ret|apply keeps_crash]. Qed.

Lemma keeps_assert b w : keeps R (assert_ b) w.
Proof. destruct b; [apply keeps_ret|apply keeps_crash]. Qed.

Lemma keeps_modify f w : R w (f w) -> keeps R (modify f) w.
Proof. intros HR ? ? [= _ <-]. done. Qed.

Lemma keeps_bind {A B} (m : Fs A) (k : A -> Fs B) w :
  keeps R m w -> (forall a w', m w = Done a w' -> keeps R (k a) w') -> keeps R (bind m k) w.
Proof.
  intros Hm Hk b w2 Hb. apply bind_done in Hb as (a & w1 & H1 & H2).
  etrans; [by eapply Hm|by eapply Hk].
Qed.

(** a value that is read, a world that is known *)
Lemma keeps_bind_run {A B} (m : Fs A) (k : A -> Fs B) w a w' :
  m w = Done a w' -> R w w' -> keeps R (k a) w' -> keeps R (bind m k) w.
Proof. intros Hm HR Hk b w2 Hb. unfold bind in Hb. rewrite Hm in Hb. etrans; [done|by eapply Hk]. Qed.

Lemma keeps_bind_gets {A B} (f : world -> A) (k : A -> Fs B) w :
  keeps R (k (f w)) w -> keeps R (bind (gets f) k) w.
Proof. by eapply keeps_bind_run. Qed.

Lemma keeps_bind_modify {B} f (k : unit -> Fs B) w :
  R w (f w) -> keeps R (k tt) (f w) -> keeps R (bind (modify f) k) w.
Proof. by eapply keeps_bind_run. Qed.

End Keeps.

(** a program that only reads *)
Lemma keeps_reads {A} (R : world -> world -> Prop) `{!Reflexive R} (m : Fs A) w :
  keeps eq m w -> keeps R m w.
Proof. intros Hm a w' Hw. by rewrite <- (Hm a w' Hw). Qed.

(** a [wp] with what the program keeps *)
Lemma keeps_wp {A} (R : world -> world -> Prop) (m : Fs A) (Q : A -> world -> Prop) w :
  wp m Q w -> keeps R m w -> wp m (fun a w' => Q a w' /\ R w w') w.
Proof. intros (a & w' & Hm & HQ)%wp_intro Hk. apply wp_intro. exists a, w'. split; [done|]. split; [done|by eapply Hk]. Qed.

(** a program that changes the device and [errno] only *)
Definition io_only {A} (m : Fs A) : Prop :=
  forall w a w', m w = Done a w' -> exists e evs st,
    evs `suffix_of` w_events w /\ w' = upd_io e evs st w.

Create HintDb keeps.

(** one rule per head of the program *)
Ltac keeps_step :=
  lazymatch goal with
  | |- keeps _ (bind (gets _) _) _ => apply keeps_bind_gets; [exact _|]; cbv beta
  | |- keeps _ (bind (modify _) _) _ => apply keeps_bind_modify; [exact _| |cbv beta]
  | |- keeps _ (bind _ _) _ => apply keeps_bind; [exact _| |intros ???]
  | |- keeps _ (ret _) _ => apply keeps_ret; exact _
  | |- keeps _ (crash_with _) _ => apply keeps_crash
  | |- keeps _ (gets _) _ => apply keeps_gets; exact _
  | |- keeps _ (deref _) _ => apply keeps_deref; exact _
  | |- keeps _ (in_bounds _) _ => apply keeps_in_bounds; exact _
  | |- keeps _ (assert_ _) _ => apply keeps_assert; exact _
  | |- keeps _ (modify _) _ => apply keeps_modify
  | |- keeps _ (match ?x with _ => _ end) _ => destruct x
  | |- keeps _ _ _ => first [ solve [eauto 2 with keeps]
                            | apply keeps_reads; [exact _|solve [eauto 2 with keeps]] ]
  end.
Ltac keeps := repeat keeps_step.

(** ** Reading *)

Lemma reads_get_fbmeta i w : keeps eq (get_fbmeta i) w.
Proof. unfold get_fbmeta. keeps. Qed.
Lemma reads_get_filemeta i w : keeps eq (get_filemeta i) w.
Proof. unfold get_filemeta. keeps. Qed.
Lemma reads_get_dirmeta i w : keeps eq (get_dirmeta i) w.
Proof. unfold get_dirmeta. keeps. Qed.
Lemma reads_get_file f w : keeps eq (get_file f) w.
Proof. unfold get_file. keeps. Qed.
Lemma reads_get_dir d w : keeps eq (get_dir d) w.
Proof. unfold get_dir. keeps. Qed.
Lemma reads_get_open o w : keeps eq (get_open o) w.
Proof. unfold get_open. keeps. Qed.
#[export] Hint Resolve reads_get_fbmeta reads_get_filemeta reads_get_dirmeta reads_get_file
  reads_get_dir reads_get_open : keeps.

Lemma reads_file_meta f w : keeps eq (file_meta f) w.
Proof. unfold file_meta. keeps. Qed.
Lemma reads_dir_meta d w : keeps eq (dir_meta d) w.
Proof. unfold dir_meta. keeps. Qed.
#[export] Hint Resolve reads_file_meta reads_dir_meta : keeps.

Lemma reads_File_fh f w : keeps eq (File_fh f) w.
Proof. unfold File_fh. keeps. Qed.
Lemma reads_File_dh f w : keeps eq (File_dh f) w.
Proof. unfold File_dh. keeps. Qed.
Lemma reads_File_file_size f w : keeps eq (File_file_size f) w.
Proof. unfold File_file_size. keeps. Qed.
Lemma reads_File_file_name f w : keeps eq (File_file_name f) w.
Proof. unfold File_file_name. keeps. Qed.
Lemma reads_File_LinkCount f w : keeps eq (File_LinkCount f) w.
Proof. unfold File_LinkCount. keeps. Qed.
Lemma reads_Directory_dh d w : keeps eq (Directory_dh d) w.
Proof. unfold Directory_dh. keeps. Qed.
Lemma reads_Directory_dir_name d w : keeps eq (Directory_dir_name d) w.
Proof. unfold Directory_dir_name. keeps. Qed.
Lemma reads_GetFileBlock f cut w : keeps eq (GetFileBlock f cut) w.
Proof. unfold GetFileBlock. keeps. Qed.
Lemma reads_get_block_id m i w : keeps eq (get_block_id m i) w.
Proof. unfold get_block_id. keeps. Qed.
Lemma reads_GetCreatedDirectory_dh dh w : keeps eq (GetCreatedDirectory_dh dh) w.
Proof. unfold GetCreatedDirectory_dh. keeps. Qed.
#[export] Hint Resolve reads_File_fh reads_File_dh reads_File_file_size reads_File_file_name
  reads_File_LinkCount reads_Directory_dh reads_Directory_dir_name reads_GetFileBlock
  reads_get_block_id reads_GetCreatedDirectory_dh : keeps.

(** ** Device transfers *)

Lemma pwriteFull_suffix fd buf off e d :
  let '(_, _, d') := pwriteFull fd buf off e d in
  exists evs st, evs `suffix_of` dev_events d /\ d' = set_dev_events evs (set_dev_store st d).
Proof.
  unfold pwriteFull.
  pose proof (wrapFull_suffix (sys_pwrite fd buf) (dev_events d) 0 (length buf) off 0 e (dev_store d)) as Hs.
  destruct (wrapFull _ _ _ _ _ _ _ _) as [[[r e'] m] evs]. by exists evs, m.
Qed.

Lemma preadFull_suffix fd n off e d :
  let '(_, _, _, d') := preadFull fd n off e d in
  exists evs, evs `suffix_of` dev_events d /\ d' = set_dev_events evs d.
Proof.
  unfold preadFull.
  pose proof (wrapFull_suffix (sys_pread fd (dev_store d)) (dev_events d) 0 n off 0 e []) as Hs.
  destruct (wrapFull _ _ _ _ _ _ _ _) as [[[r e'] m] evs]. by exists evs.
Qed.

Lemma upd_io_dev e evs st w :
  set_w_errno e (set_w_dev (set_dev_events evs (set_dev_store st (w_dev w))) w) = upd_io e evs st w.
Proof. done. Qed.

Lemma dev_pwrite_io fd buf off w :
  exists r e evs st, evs `suffix_of` w_events w /\
    dev_pwrite fd buf off (w_errno w) (w_dev w) = (r, e, set_dev_events evs (set_dev_store st (w_dev w))).
Proof.
  unfold dev_pwrite. destruct (_ <? _).
  - exists (-1), (w_errno w), (w_events w), (w_store w). split; [done|]. unfold w_events, w_store. by destruct (w_dev w).
  - pose proof (pwriteFull_suffix fd buf off (w_errno w) (w_dev w)) as H.
    destruct (pwriteFull _ _ _ _ _) as [[r e] d]. destruct H as (evs & st & ? & ->).
    by exists r, e, evs, st.
Qed.

Lemma dev_pread_io fd n off w :
  exists r e out evs, evs `suffix_of` w_events w /\
    dev_pread fd n off (w_errno w) (w_dev w) = (r, e, out, set_dev_events evs (w_dev w)).
Proof.
  unfold dev_pread. destruct (_ <? _).
  - exists (-1), (w_errno w), [], (w_events w). split; [done|]. unfold w_events, w_store. by destruct (w_dev w).
  - pose proof (preadFull_suffix fd n off (w_errno w) (w_dev w)) as H.
    destruct (preadFull _ _ _ _ _) as [[[r e] out] d]. destruct H as (evs & ? & ->).
    by exists r, e, out, evs.
Qed.

Lemma io_only_pwrite fd buf off : io_only (fun w =>
  let '(r, e, d) := dev_pwrite (fd w) buf off (w_errno w) (w_dev w) in
  Done r (set_w_errno e (set_w_dev d w))).
Proof.
  intros w a w' Hw. destruct (dev_pwrite_io (fd w) buf off w) as (r & e & evs & st & Hs & Heq).
  rewrite Heq in Hw. injection Hw as _ <-. by exists e, evs, st.
Qed.

Lemma io_only_pread fd n off : io_only (fun w =>
  let '(r, e, out, d) := dev_pread (fd w) n off (w_errno w) (w_dev w) in
  Done (r, out) (set_w_errno e (set_w_dev d w))).
Proof.
  intros w a w' Hw. destruct (dev_pread_io (fd w) n off w) as (r & e & out & evs & Hs & Heq).
  rewrite Heq in Hw. injection Hw as _ <-. exists e, evs, (w_store w). split; [done|].
  unfold upd_io, w_store. by destruct (w_dev w).
Qed.

Lemma io_only_PwriteDirect buf off : io_only (PwriteDirect buf off).
Proof. apply (io_only_pwrite (fun w => dev_fd_direct (w_dev w))). Qed.
Lemma io_only_PwriteCache buf off : io_only (PwriteCache buf off).
Proof. apply (io_only_pwrite (fun w => dev_fd_cache (w_dev w))). Qed.
Lemma io_only_PreadDirect n off : io_only (PreadDirect n off).
Proof. apply (io_only_pread (fun w => dev_fd_direct (w_dev w))). Qed.
Lemma io_only_PreadCache n off : io_only (PreadCache n off).
Proof. apply (io_only_pread (fun w => dev_fd_cache (w_dev w))). Qed.

Lemma io_only_Fsync : io_only Fsync.
Proof.
  intros w a w' Hw. pose proof (fsync_run w) as Hf. unfold wp in Hf. rewrite Hw in Hf.
  destruct Hf as (e & evs & Hs & _ & -> & _). by exists e, evs, (w_store w).
Qed.

#[export] Hint Resolve io_only_PwriteDirect io_only_PwriteCache io_only_PreadDirect
  io_only_PreadCache io_only_Fsync : keeps.

(** ** Programs that open and close nothing, and make and remove no directory *)

(** the handle of a directory, and its links *)
Definition dir_id (o : directory) : Z * Z := (do_meta o, do_nlink o).

Record calls_step (w w' : world) : Prop := {
  cs_super : w_super w' = w_super w;
  cs_fdh : w_fdh w' = w_fdh w;
  cs_opens : of_file <$> w_opens w' = of_file <$> w_opens w;
  cs_fds : fh_open_files (w_fh w') = fh_open_files (w_fh w);
  cs_streams : w_streams w' = w_streams w;
  cs_dh : w_dh w' = w_dh w;
  cs_dirs : dir_id <$> w_dirs w' = dir_id <$> w_dirs w;
  cs_next : w_next w <= w_next w';
  cs_good : dev_good w -> dev_good w'
}.

#[export] Instance calls_step_preorder : PreOrder calls_step.
Proof.
  split.
  - intros w. by constructor.
  - intros w1 w2 w3 [] []. constructor; try congruence; try lia; auto.
Qed.

(** ** Programs that touch no directory and no name

    Of the files' objects and records only the blocks, the size, the times and
    the checksum may change. *)

Definition file_id (o : file) : Z * Z * bool := (fo_meta o, fo_nlink o, fo_deleted o).
Definition record_id (m : FileMeta) : Z * bytes * bool * bool :=
  (fm_dh m, meta_file_name m, fm_used m, fm_is_temp m).

Record names_kept (w w' : world) : Prop := {
  nk_calls : calls_step w w';
  nk_next : w_next w' = w_next w;
  nk_fh : w_fh w' = w_fh w;
  nk_dh : w_dh w' = w_dh w;
  nk_dirs : w_dirs w' = w_dirs w;
  nk_dirmeta : w_dirmeta w' = w_dirmeta w;
  nk_files : file_id <$> w_files w' = file_id <$> w_files w;
  nk_records : record_id <$> w_filemeta w' = record_id <$> w_filemeta w
}.

#[export] Instance names_kept_preorder : PreOrder names_kept.
Proof.
  split.
  - intros w. by constructor.
  - intros w1 w2 w3 [] []. constructor; try congruence. by etrans.
Qed.

Lemma names_kept_io e evs st w : evs `suffix_of` w_events w -> names_kept w (upd_io e evs st w).
Proof.
  intros Hs. constructor; try done. constructor; try done.
  intros Hg. apply dev_good_upd_io; [done|]. by eapply Forall_suffix, Hg.
Qed.

Lemma fmap_insert_id {A B} (p : A -> B) (m : gmap Z A) i x y :
  m !! i = Some x -> p y = p x -> p <$> <[i := y]> m = p <$> m.
Proof. intros Hx Hp. rewrite fmap_insert, Hp. apply insert_id. by rewrite lookup_fmap, Hx. Qed.

Lemma names_kept_filemeta w i m m' :
  w_filemeta w !! i = Some m -> record_id m' = record_id m ->
  names_kept w (set_w_filemeta (<[i := m']> (w_filemeta w)) w).
Proof. intros Hm He. constructor; try done. cbn. by apply (fmap_insert_id _ _ _ m). Qed.

Lemma names_kept_files w f o o' :
  w_files w !! f = Some o -> file_id o' = file_id o ->
  names_kept w (set_w_files (<[f := o']> (w_files w)) w).
Proof. intros Ho He. constructor; try done. cbn. by apply (fmap_insert_id _ _ _ o). Qed.

Lemma get_filemeta_done i w m w' :
  get_filemeta i w = Done m w' -> w' = w /\ w_filemeta w !! i = Some m.
Proof.
  unfold get_filemeta, bind, gets. destruct (w_filemeta w !! i); [|done]. by intros [= -> ->].
Qed.

Lemma get_file_done f w o w' : get_file f w = Done o w' -> w' = w /\ w_files w !! f = Some o.
Proof. unfold get_file, bind, gets. destruct (w_files w !! f); [|done]. by intros [= -> ->]. Qed.

Lemma get_open_done o w x w' : get_open o w = Done x w' -> w' = w /\ w_opens w !! o = Some x.
Proof. unfold get_open, bind, gets. destruct (w_opens w !! o); [|done]. by intros [= -> ->]. Qed.

Lemma keeps_upd_filemeta (R : world -> world -> Prop) i g w :
  (forall m, w_filemeta w !! i = Some m -> R w (set_w_filemeta (<[i := g m]> (w_filemeta w)) w)) ->
  keeps R (upd_filemeta i g) w.
Proof.
  intros HR a w' Hw. unfold upd_filemeta in Hw. apply bind_done in Hw as (m & w1 & Hm & Hw).
  apply get_filemeta_done in Hm as [-> Hm]. injection Hw as _ <-. by apply HR.
Qed.

Lemma keeps_upd_file (R : world -> world -> Prop) f g w :
  (forall o, w_files w !! f = Some o -> R w (set_w_files (<[f := g o]> (w_files w)) w)) ->
  keeps R (upd_file f g) w.
Proof.
  intros HR a w' Hw. unfold upd_file in Hw. apply bind_done in Hw as (o & w1 & Ho & Hw).
  apply get_file_done in Ho as [-> Ho]. injection Hw as _ <-. by apply HR.
Qed.

Lemma keeps_upd_file_meta (R : world -> world -> Prop) `{!PreOrder R} f g w :
  (forall i m, w_filemeta w !! i = Some m -> R w (set_w_filemeta (<[i := g m]> (w_filemeta w)) w)) ->
  keeps R (upd_file_meta f g) w.
Proof.
  intros HR a w' Hw. unfold upd_file_meta in Hw. apply bind_done in Hw as (o & w1 & Ho & Hw).
  apply get_file_done in Ho as [-> Ho]. eapply (keeps_upd_filemeta R); [|exact Hw]. intros m. apply HR.
Qed.

Lemma keeps_io {A} (R : world -> world -> Prop) (m : Fs A) w :
  io_only m -> (forall e evs st, evs `suffix_of` w_events w -> R w (upd_io e evs st w)) -> keeps R m w.
Proof. intros Hm HR a w' (e & evs & st & Hs & ->)%Hm. by apply HR. Qed.

(** a program that keeps more keeps less *)
Lemma keeps_weaken {A} (R R' : world -> world -> Prop) (m : Fs A) w :
  (forall w', R w w' -> R' w w') -> keeps R m w -> keeps R' m w.
Proof. intros HR Hm a w' Hw. by eapply HR, Hm. Qed.

Lemma names_kept_io_keeps {A} (m : Fs A) w : io_only m -> keeps names_kept m w.
Proof. intros Hm. apply (keeps_io _ _ _ Hm). intros. by apply names_kept_io. Qed.
#[export] Hint Resolve names_kept_io_keeps : keeps.

(** ** Growing, writing and reading keep the names *)

#[export] Hint Extern 1 (keeps names_kept (upd_filemeta _ _) _) =>
  apply keeps_upd_filemeta; intros ? ?; eapply names_kept_filemeta; [eassumption|reflexivity] : keeps.
#[export] Hint Extern 1 (keeps names_kept (upd_file_meta _ _) _) =>
  apply keeps_upd_file_meta; [exact _|]; intros ? ? ?;
  eapply names_kept_filemeta; [eassumption|reflexivity] : keeps.

Section NamesKept.
Context `{Env}.

Lemma keeps_put_fbmeta i m w : keeps names_kept (put_fbmeta i m) w.
Proof. unfold put_fbmeta. keeps. by constructor. Qed.
Hint Resolve keeps_put_fbmeta : keeps.
Lemma keeps_upd_fbmeta i g w : keeps names_kept (upd_fbmeta i g) w.
Proof. unfold upd_fbmeta. keeps. Qed.
Hint Resolve keeps_upd_fbmeta : keeps.

Lemma keeps_FileBlock_WriteMeta i w : keeps names_kept (FileBlock_WriteMeta i) w.
Proof. unfold FileBlock_WriteMeta. keeps. Qed.

Lemma keeps_File_WriteMeta f w : keeps names_kept (File_WriteMeta f) w.
Proof. unfold File_WriteMeta, File_fh, File_WriteMeta_fh. keeps. Qed.
Hint Resolve keeps_FileBlock_WriteMeta keeps_File_WriteMeta : keeps.

Lemma keeps_GetFileBlockLock w : keeps names_kept GetFileBlockLock w.
Proof. unfold GetFileBlockLock. keeps. by constructor. Qed.

Hint Resolve keeps_GetFileBlockLock : keeps.

Lemma keeps_fill_file_block fb ids : forall w, keeps names_kept (fill_file_block fb ids) w.
Proof. induction ids as [|b ids IH]; intros w; cbn [fill_file_block]; keeps. Qed.

(** the object is read and written back with another map of file blocks *)
Lemma keeps_AddFileBlockNoLock f fb w : keeps names_kept (AddFileBlockNoLock f fb) w.
Proof.
  unfold AddFileBlockNoLock. apply keeps_bind; [exact _|keeps|intros m w1 _].
  apply keeps_bind; [exact _|keeps|intros o w2 [-> Ho]%get_file_done].
  destruct (decide _); [keeps|]. unfold put_file. keeps. by eapply names_kept_files.
Qed.
Hint Resolve keeps_fill_file_block keeps_AddFileBlockNoLock : keeps.

Lemma keeps_extend_file_block f w : keeps names_kept (extend_file_block f) w.
Proof. unfold extend_file_block. keeps. Qed.

Lemma keeps_GetFreeBlockIdLock n w : keeps names_kept (Blocks.GetFreeBlockIdLock n) w.
Proof.
  unfold keeps. rewrite Blocks.GetFreeBlockIdLock_eq. intros a w'.
  destruct (_ <? _); intros [= _ <-]; [done|by constructor].
Qed.
Hint Resolve keeps_extend_file_block keeps_GetFreeBlockIdLock : keeps.

Lemma keeps_extend_block_ids num fb need w : keeps names_kept (extend_block_ids num fb need) w.
Proof. unfold extend_block_ids, PutFileBlockLock. keeps. by constructor. Qed.

Lemma keeps_extend_attach f fb need ids w : keeps names_kept (extend_attach f fb need ids) w.
Proof. unfold extend_attach. keeps. Qed.

Lemma keeps_extend_set_size f offset w : keeps names_kept (extend_set_size f offset) w.
Proof. unfold extend_set_size. keeps. Qed.
Hint Resolve keeps_extend_block_ids keeps_extend_attach keeps_extend_set_size : keeps.

Lemma keeps_ExtendFile f offset w : keeps names_kept (ExtendFile f offset) w.
Proof. unfold ExtendFile. keeps. Qed.

(** [ftruncate] to a size that is not smaller only extends *)
Lemma keeps_File_ftruncate f offset w :
  (forall s, File_file_size f w = Done s w -> s <= offset) ->
  keeps names_kept (File_ftruncate f offset) w.
Proof.
  intros Hs. unfold File_ftruncate. apply keeps_bind; [exact _|keeps|].
  intros s w1 Hsz. pose proof (reads_File_file_size _ _ _ _ Hsz) as <-. specialize (Hs s Hsz).
  destruct (Z.ltb_spec s offset); [apply keeps_ExtendFile|].
  destruct (Z.ltb_spec offset s); [lia|keeps].
Qed.

Lemma keeps_fill_blocks fuel : forall fb bi boff curr size w,
  keeps names_kept (fill_blocks fuel fb bi boff curr size) w.
Proof. induction fuel as [|fuel IH]; intros; cbn [fill_blocks]; keeps. Qed.

Lemma keeps_write_blocks direct bs : forall total buffer w,
  keeps names_kept (write_blocks direct bs total buffer) w.
Proof.
  induction bs as [|b bs IH]; intros; cbn [write_blocks]; unfold block_lock, WriteBlockData; keeps.
Qed.

Lemma keeps_read_blocks direct bs : forall total buffer w,
  keeps names_kept (read_blocks direct bs total buffer) w.
Proof.
  induction bs as [|b bs IH]; intros; cbn [read_blocks]; unfold block_lock, ReadBlockData; keeps.
Qed.

Lemma keeps_advance_append_pos o r w : keeps names_kept (advance_append_pos o r) w.
Proof.
  intros a w' Hw. apply bind_done in Hw as (x & w1 & [-> Hx]%get_open_done & [= _ <-]). constructor; try done. constructor; try done. cbn.
  by apply (fmap_insert_id _ _ _ x).
Qed.
Hint Resolve keeps_fill_blocks keeps_write_blocks keeps_read_blocks keeps_advance_append_pos : keeps.

Lemma keeps_WriteData o buffer size offset direct w :
  keeps names_kept (FileWriter_WriteData o buffer size offset direct) w.
Proof. unfold FileWriter_WriteData. keeps. Qed.

Lemma keeps_ReadData o buffer size offset direct w :
  keeps names_kept (FileReader_ReadData o buffer size offset direct) w.
Proof. unfold FileReader_ReadData. keeps. Qed.
Hint Resolve keeps_WriteData keeps_ReadData : keeps.

Lemma keeps_OpenFile_pwrite o buf offset w : keeps names_kept (OpenFile_pwrite o buf offset) w.
Proof.
  unfold OpenFile_pwrite, File_UpdateTimeStamp. destruct (_ =? 0); [keeps|].
  apply keeps_bind; [exact _|keeps|]. intros x w1 _.
  apply keeps_bind; [exact _|keeps|]. intros s w2 Hs.
  pose proof (reads_File_file_size _ _ _ _ Hs) as <-.
  apply keeps_bind; [exact _| |intros; keeps].
  destruct (Z.ltb_spec s (u64 (offset + Z.of_nat (length buf)))) as [Hlt|]; [|keeps].
  apply keeps_bind; [exact _| |intros; keeps]. apply keeps_File_ftruncate.
  intros s' Hs'. rewrite Hs in Hs'. injection Hs' as <-. lia.
Qed.

Lemma keeps_OpenFile_pread o buf size offset w : keeps names_kept (OpenFile_pread o buf size offset) w.
Proof. unfold OpenFile_pread. keeps. Qed.

Lemma keeps_GetOpenFile fd w : keeps names_kept (GetOpenFile fd) w.
Proof. unfold GetOpenFile, set_errno. keeps. by constructor. Qed.
Hint Resolve keeps_OpenFile_pwrite keeps_OpenFile_pread keeps_GetOpenFile : keeps.

Lemma keeps_PwriteFile fd buf offset w : keeps names_kept (PwriteFile fd buf offset) w.
Proof. unfold PwriteFile, set_errno. keeps. by constructor. Qed.

Lemma keeps_PreadFile fd buf len offset w : keeps names_kept (PreadFile fd buf len offset) w.
Proof. unfold PreadFile, set_errno. keeps. by constructor. Qed.
End NamesKept.

(** ** Creating, removing and renaming open and close nothing *)

Lemma calls_step_io_keeps {A} (m : Fs A) w : io_only m -> keeps calls_step m w.
Proof. intros Hm. eapply keeps_weaken; [|by apply names_kept_io_keeps]. by intros w' []. Qed.
#[export] Hint Resolve calls_step_io_keeps : keeps.

Ltac calls := by constructor.
#[export] Hint Extern 1 (calls_step _ _) => calls : keeps.
#[export] Hint Extern 1 (keeps calls_step (upd_filemeta _ _) _) =>
  apply keeps_upd_filemeta; intros; calls : keeps.
#[export] Hint Extern 1 (keeps calls_step (upd_file_meta _ _) _) =>
  apply keeps_upd_file_meta; [exact _|]; intros; calls : keeps.
#[export] Hint Extern 1 (keeps calls_step (upd_file _ _) _) =>
  apply keeps_upd_file; intros; calls : keeps.
#[export] Hint Extern 1 (keeps calls_step (set_errno _) _) =>
  apply keeps_modify; calls : keeps.

Section CallsStep.
Context `{Env}.

Ltac calls_keeps := repeat first [keeps_step | calls].

Lemma calls_fresh w : keeps calls_step fresh w.
Proof. unfold fresh. keeps. constructor; try done. cbn. lia. Qed.
Hint Resolve calls_fresh : keeps.

Lemma calls_dir_TransformPath path w : keeps calls_step (dir_TransformPath path) w.
Proof. unfold dir_TransformPath. calls_keeps. Qed.
Lemma calls_file_TransformPath path w : keeps calls_step (file_TransformPath path) w.
Proof. unfold file_TransformPath. calls_keeps. Qed.
Hint Resolve calls_dir_TransformPath calls_file_TransformPath : keeps.
Lemma calls_GetCreatedDirectory path w : keeps calls_step (GetCreatedDirectory path) w.
Proof. unfold GetCreatedDirectory. calls_keeps. Qed.
Hint Resolve calls_GetCreatedDirectory : keeps.

Lemma calls_new_file dh name tmp w : keeps calls_step (new_file dh name tmp) w.
Proof. unfold new_file, put_file, pop_free_fh. calls_keeps. Qed.
Hint Resolve calls_new_file : keeps.

Lemma calls_NewFile dirname filename tmp w : keeps calls_step (NewFile dirname filename tmp) w.
Proof. unfold NewFile, NewFreeFileNolock, NewFreeTmpFileNolock. calls_keeps. Qed.

Lemma calls_File_WriteMeta_fh fh w : keeps calls_step (File_WriteMeta_fh fh) w.
Proof. unfold File_WriteMeta_fh. calls_keeps. Qed.
Hint Resolve calls_NewFile calls_File_WriteMeta_fh : keeps.
Lemma calls_File_WriteMeta f w : keeps calls_step (File_WriteMeta f) w.
Proof. unfold File_WriteMeta. calls_keeps. Qed.

Lemma get_dir_done d w o w' : get_dir d w = Done o w' -> w' = w /\ w_dirs w !! d = Some o.
Proof. unfold get_dir, bind, gets. destruct (w_dirs w !! d); [|done]. by intros [= -> ->]. Qed.

Lemma calls_put_dir d o o' w :
  w_dirs w !! d = Some o -> dir_id o' = dir_id o -> keeps calls_step (put_dir d o') w.
Proof.
  intros Ho He. unfold put_dir. keeps. constructor; try done. cbn. by apply (fmap_insert_id _ _ _ o).
Qed.

Lemma calls_AddChildFile d f w : keeps calls_step (AddChildFile d f) w.
Proof.
  unfold AddChildFile. apply keeps_bind; [exact _|calls_keeps|intros fh w1 _].
  apply keeps_bind; [exact _|calls_keeps|intros o w2 [-> Ho]%get_dir_done].
  destruct (decide _); [keeps|]. apply keeps_bind; [exact _|by eapply calls_put_dir|intros; keeps].
Qed.
Lemma calls_RemoveChildFile d f w : keeps calls_step (RemoveChildFile d f) w.
Proof.
  unfold RemoveChildFile. apply keeps_bind; [exact _|calls_keeps|intros fh w1 _].
  apply keeps_bind; [exact _|calls_keeps|intros o w2 [-> Ho]%get_dir_done].
  destruct (do_items o !! fh); [|keeps].
  apply keeps_bind; [exact _|by eapply calls_put_dir|intros; keeps].
Qed.
Lemma calls_AddFileNoLock f w : keeps calls_step (AddFileNoLock f) w.
Proof. unfold AddFileNoLock. calls_keeps. Qed.
Lemma calls_RemoveFileNoLock f w : keeps calls_step (RemoveFileNoLock f) w.
Proof. unfold RemoveFileNoLock. calls_keeps. Qed.
Hint Resolve calls_File_WriteMeta calls_AddChildFile calls_RemoveChildFile calls_AddFileNoLock
  calls_RemoveFileNoLock : keeps.

Lemma calls_CreateFile path mode tmp w : keeps calls_step (FileHandle_CreateFile path mode tmp) w.
Proof. unfold FileHandle_CreateFile, AddFileToDirectory. calls_keeps. Qed.

Lemma calls_FileBlock_WriteMeta i w : keeps calls_step (FileBlock_WriteMeta i) w.
Proof. eapply keeps_weaken; [|apply keeps_FileBlock_WriteMeta]. by intros w' []. Qed.
Hint Resolve calls_CreateFile calls_FileBlock_WriteMeta : keeps.

Lemma calls_release_all fbs : forall w, keeps calls_step (release_all fbs) w.
Proof.
  induction fbs as [|[c fb] fbs IH]; intros w; cbn [release_all];
    unfold FileBlock_ReleaseAll, used_blocks, Blocks.PutFreeBlockIdsLock, PutFileBlockLock, upd_fbmeta, put_fbmeta;
    calls_keeps.
Qed.
Hint Resolve calls_release_all : keeps.

Lemma calls_unlink_file d f w : keeps calls_step (unlink_file d f) w.
Proof.
  unfold unlink_file, RemoveAllFileBlock, File_Release, RemoveFileFromoDirectory. calls_keeps.
Qed.
Hint Resolve calls_unlink_file : keeps.

Lemma calls_UnlinkFileNolock fh w : keeps calls_step (UnlinkFileNolock fh) w.
Proof. unfold UnlinkFileNolock, GetCreatedFile_fh. calls_keeps. Qed.

Lemma calls_FindFile dirname filename w : keeps calls_step (FindFile dirname filename) w.
Proof. unfold FindFile. calls_keeps. Qed.
Hint Resolve calls_FindFile : keeps.

Lemma calls_unlink path w : keeps calls_step (FileHandle_unlink path) w.
Proof. unfold FileHandle_unlink. calls_keeps. Qed.

Lemma calls_File_rename f to w : keeps calls_step (File_rename f to) w.
Proof.
  unfold File_rename, File_rename_guarded, File_UpdateTimeStamp. calls_keeps.
Qed.

Lemma calls_GetCreatedFile path w : keeps calls_step (GetCreatedFile path) w.
Proof. unfold GetCreatedFile, GetCreatedFile_key. calls_keeps. Qed.
Hint Resolve calls_GetCreatedFile : keeps.

Lemma calls_open_file_of path flags w :
  has_flag flags O_TRUNC = false -> keeps calls_step (open_file_of path flags) w.
Proof.
  intros Ht. unfold open_file_of, IsNeedCreateTempFile, VerifyOpenExistFileFlag.
  rewrite Ht. cbn [andb]. calls_keeps.
Qed.
End CallsStep.
