(* ===== verification/Invariant.v ===== *)
(** * Views of the world and the invariant of the file system

    A [view] is what the metadata in memory says about blocks and files: the
    file blocks with their data blocks, the file records, the file objects, the
    pools.  [inv] is the consistency of a view: which blocks belong to whom.
    [fs_inv] adds a usable layout, a device of the recorded size and records
    that fit their fields.  [file_content] reads a file through a view. *)

From S2P Require Import Prelude Meta Device World SuperBlock Resources FileBlock Io.

(** ** Views *)

Record fb_view : Type := MkFbView { bv_used : bool; bv_cut : Z; bv_blocks : list Z }.
Record fm_view : Type := MkFmView { mv_fh : Z; mv_used : bool; mv_size : Z }.
Record fo_view : Type := MkFoView { ov_meta : Z; ov_items : gmap Z Z }.

Definition view_fb (m : FileBlockMeta) : fb_view :=
  MkFbView (fb_used m) (fb_file_cut m) (fb_blocks m).
Definition view_fm (m : FileMeta) : fm_view := MkFmView (fm_fh m) (fm_used m) (fm_size m).
Definition view_fo (o : file) : fo_view := MkFoView (fo_meta o) (fo_items o).

Record view : Type := MkView {
  v_fb : gmap Z fb_view;
  v_fm : gmap Z fm_view;
  v_files : gmap Z fo_view;
  v_pool : gset Z;
  v_free_fb : list Z;
  v_free_fh : list Z;
  v_parents : gset Z
}.

Definition set_v_fb (x : gmap Z fb_view) (V : view) : view :=
  MkView x (v_fm V) (v_files V) (v_pool V) (v_free_fb V) (v_free_fh V) (v_parents V).
Definition set_v_fm (x : gmap Z fm_view) (V : view) : view :=
  MkView (v_fb V) x (v_files V) (v_pool V) (v_free_fb V) (v_free_fh V) (v_parents V).
Definition set_v_files (x : gmap Z fo_view) (V : view) : view :=
  MkView (v_fb V) (v_fm V) x (v_pool V) (v_free_fb V) (v_free_fh V) (v_parents V).
Definition set_v_pool (x : gset Z) (V : view) : view :=
  MkView (v_fb V) (v_fm V) (v_files V) x (v_free_fb V) (v_free_fh V) (v_parents V).
Definition set_v_free_fb (x : list Z) (V : view) : view :=
  MkView (v_fb V) (v_fm V) (v_files V) (v_pool V) x (v_free_fh V) (v_parents V).
Definition set_v_free_fh (x : list Z) (V : view) : view :=
  MkView (v_fb V) (v_fm V) (v_files V) (v_pool V) (v_free_fb V) x (v_parents V).
Definition set_v_parents (x : gset Z) (V : view) : view :=
  MkView (v_fb V) (v_fm V) (v_files V) (v_pool V) (v_free_fb V) (v_free_fh V) x.

Definition view_of (w : world) : view := {|
  v_fb := view_fb <$> w_fbmeta w;
  v_fm := view_fm <$> w_filemeta w;
  v_files := view_fo <$> w_files w;
  v_pool := bh_pool (w_bh w);
  v_free_fb := w_free_fbhs w;
  v_free_fh := fh_free (w_fh w);
  v_parents := dom (fh_parent_files (w_fh w))
|}.

(** ** A consistent view *)

(** the block in use by file blocks: in range, not free, listed once *)
Definition blocks_ok (n : Z) (pool : gset Z) (l : list Z) : Prop :=
  NoDup l /\ (forall x, x ∈ l -> 0 <= x < n /\ x ∉ pool).

Definition items_ok (sb : SuperBlockMeta) (V : view) (items : gmap Z Z) (size : Z) : Prop :=
  (items = ∅ /\ size = 0) \/
  (exists fb b, items = {[0 := fb]} /\ v_fb V !! fb = Some b /\
     bv_used b = true /\ bv_cut b = 0 /\
     0 < size <= kBlockSize * Z.of_nat (length (bv_blocks b)) /\
     (fb ∉ v_free_fb V) /\ blocks_ok (sb_curr_block_num sb) (v_pool V) (bv_blocks b)).

Definition file_ok (sb : SuperBlockMeta) (V : view) (o : fo_view) : Prop :=
  (ov_meta o ∉ v_parents V) /\ (ov_meta o ∉ v_free_fh V) /\
  exists m, v_fm V !! ov_meta o = Some m /\ mv_fh m = ov_meta o /\
    items_ok sb V (ov_items o) (mv_size m).

(** two files share no record, no file block and no block *)
Definition apart (V : view) (o1 o2 : fo_view) : Prop :=
  ov_meta o1 <> ov_meta o2 /\
  (forall fb1 fb2 b1 b2, ov_items o1 !! 0 = Some fb1 -> ov_items o2 !! 0 = Some fb2 ->
    v_fb V !! fb1 = Some b1 -> v_fb V !! fb2 = Some b2 ->
    fb1 <> fb2 /\ (forall x, x ∈ bv_blocks b1 -> x ∉ bv_blocks b2)).

Record inv (sb : SuperBlockMeta) (V : view) : Prop := {
  i_fb_dom : forall i, is_Some (v_fb V !! i) <-> 0 <= i < sb_max_file_block_num sb;
  i_fm_dom : forall i, is_Some (v_fm V !! i) <-> 0 <= i < sb_max_file_num sb;
  i_free_fb : NoDup (v_free_fb V) /\ (forall i, i ∈ v_free_fb V ->
    exists b, v_fb V !! i = Some b /\ bv_used b = false /\ bv_blocks b = []);
  i_free_fh : NoDup (v_free_fh V) /\ (forall i, i ∈ v_free_fh V ->
    (i ∉ v_parents V) /\ v_fm V !! i = Some (MkFmView i false 0));
  i_pool : forall x, x ∈ v_pool V -> 0 <= x < sb_curr_block_num sb;
  i_files : map_Forall (fun _ o => file_ok sb V o) (v_files V);
  i_apart : forall f1 f2 o1 o2, v_files V !! f1 = Some o1 -> v_files V !! f2 = Some o2 ->
    f1 <> f2 -> apart V o1 o2
}.

(** ** A consistent world *)

Definition fb_meta_ok (m : FileBlockMeta) : Prop :=
  file_block_wf m /\ fb_used_block_num m <= kFileBlockCapacity.

Definition recs_wf (w : world) : Prop :=
  map_Forall (fun _ m => fb_meta_ok m) (w_fbmeta w) /\
  map_Forall (fun _ m => file_wf m) (w_filemeta w).

(** a directory handle in use leads to a directory object *)
Definition dirs_ok (w : world) : Prop :=
  map_Forall (fun _ d => is_Some (w_dirs w !! d)) (dh_created_dhs (w_dh w)).

Record fs_inv (w : world) : Prop := {
  fi_layout : layout_ok (w_super w);
  fi_dev : dev_size (w_dev w) = sb_device_size (w_super w);
  fi_wf : recs_wf w;
  fi_dirs : dirs_ok w;
  fi_now : in_i 64 (w_now w);
  fi_inv : inv (w_super w) (view_of w)
}.

(** what writing a record back needs: no claim on who owns what *)
Record fs_base (w : world) : Prop := {
  fb_layout : layout_ok (w_super w);
  fb_dev : dev_size (w_dev w) = sb_device_size (w_super w);
  fb_wf : recs_wf w;
  fb_fb_dom : forall i, is_Some (w_fbmeta w !! i) <-> 0 <= i < sb_max_file_block_num (w_super w);
  fb_fm_dom : forall i, is_Some (w_filemeta w !! i) <-> 0 <= i < sb_max_file_num (w_super w)
}.

Lemma fs_inv_base (w : world) : fs_inv w -> fs_base w.
Proof.
  intros [? ? ? _ _ [Hb Hm _ _ _ _ _]]. constructor; try done; intros i.
  - rewrite <- Hb. cbn. by rewrite lookup_fmap, fmap_is_Some.
  - rewrite <- Hm. cbn. by rewrite lookup_fmap, fmap_is_Some.
Qed.

Lemma fs_base_inv (w : world) :
  fs_base w -> dirs_ok w -> in_i 64 (w_now w) -> inv (w_super w) (view_of w) -> fs_inv w.
Proof. intros []. by constructor. Qed.

(** ** Files through a view *)

Definition file_fb (V : view) (f : Z) : option Z :=
  o ← v_files V !! f; ov_items o !! 0.

Definition file_blocks (V : view) (f : Z) : list Z :=
  default [] (fb ← file_fb V f; b ← v_fb V !! fb; Some (bv_blocks b)).

Definition file_size (V : view) (f : Z) : Z :=
  default 0 (o ← v_files V !! f; m ← v_fm V !! ov_meta o; Some (mv_size m)).

(** the device address of byte [i] of a file whose data blocks are [blocks] *)
Definition byte_addr (sb : SuperBlockMeta) (blocks : list Z) (i : Z) : Z :=
  sb_block_data_start_offset sb + kBlockSize * nth (Z.to_nat (i / kBlockSize)) blocks 0
  + i mod kBlockSize.

Definition content_of (sb : SuperBlockMeta) (st : store) (blocks : list Z) (size : Z) : bytes :=
  (fun i => st_get st (byte_addr sb blocks i)) <$> seqZ 0 size.

Definition file_content (w : world) (f : Z) : bytes :=
  let V := view_of w in
  content_of (w_super w) (w_store w) (file_blocks V f) (file_size V f).

(** ** Steps between worlds *)

Record env_step (w w' : world) : Prop := {
  es_super : w_super w' = w_super w;
  es_size : dev_size (w_dev w') = dev_size (w_dev w);
  es_good : dev_good w -> dev_good w';
  es_calm : dev_calm w -> dev_calm w';
  es_opens : w_opens w' = w_opens w;
  es_fds : fh_open_files (w_fh w') = fh_open_files (w_fh w);
  es_now : w_now w' = w_now w;
  es_wf : recs_wf w -> recs_wf w';
  es_dirs : dirs_ok w -> dirs_ok w'
}.

(** the data region keeps its bytes *)
Definition data_same (w w' : world) : Prop :=
  forall x, sb_block_data_start_offset (w_super w) <= x ->
    st_get (w_store w') x = st_get (w_store w) x.

(** metadata is rewritten without a change to the view *)
Record meta_step (w w' : world) : Prop := {
  ms_env : env_step w w';
  ms_data : data_same w w';
  ms_view : view_of w' = view_of w;
  ms_parents : fh_parent_files (w_fh w') = fh_parent_files (w_fh w)
}.

#[export] Instance env_step_preorder : PreOrder env_step.
Proof.
  split.
  - intros w. by constructor.
  - intros w1 w2 w3 [] []. constructor; try congruence; auto.
Qed.

Lemma data_same_refl w : data_same w w.
Proof. done. Qed.

Lemma data_same_trans w1 w2 w3 :
  w_super w2 = w_super w1 -> data_same w1 w2 -> data_same w2 w3 -> data_same w1 w3.
Proof. intros Hs H1 H2 x Hx. rewrite H2 by by rewrite Hs. by apply H1. Qed.

#[export] Instance meta_step_preorder : PreOrder meta_step.
Proof.
  split.
  - intros w. by constructor.
  - intros w1 w2 w3 [E1 D1 V1 P1] [E2 D2 V2 P2]. constructor.
    + exact (transitivity E1 E2).
    + exact (data_same_trans _ _ _ (es_super _ _ E1) D1 D2).
    + congruence.
    + congruence.
Qed.

Lemma fs_inv_env (w w' : world) :
  env_step w w' -> fs_inv w -> inv (w_super w) (view_of w') -> fs_inv w'.
Proof. intros [] [] ?. constructor; try congruence; auto. Qed.

Lemma fs_inv_meta_step (w w' : world) : meta_step w w' -> fs_inv w -> fs_inv w'.
Proof.
  intros [HE _ HV _] Hi. eapply fs_inv_env; [done..|]. rewrite HV. by apply fi_inv.
Qed.

(** descriptors and open files keep their files *)
Record fd_step (w w' : world) : Prop := {
  fs_super : w_super w' = w_super w;
  fs_fds : fh_open_files (w_fh w') = fh_open_files (w_fh w);
  fs_opens : forall o x, w_opens w !! o = Some x ->
    exists x', w_opens w' !! o = Some x' /\ of_file x' = of_file x;
  fs_files : forall f, is_Some (w_files w !! f) -> is_Some (w_files w' !! f);
  fs_good : dev_good w -> dev_good w';
  fs_calm : dev_calm w -> dev_calm w'
}.

#[export] Instance fd_step_preorder : PreOrder fd_step.
Proof.
  split.
  - intros w. constructor; eauto.
  - intros w1 w2 w3 [] []. constructor; try congruence; auto.
    intros o x Hx. destruct (fs_opens0 o x Hx) as (x' & Hx' & <-). by apply fs_opens1.
Qed.

Lemma fd_step_env (w w' : world) :
  env_step w w' -> (forall f, is_Some (w_files w !! f) -> is_Some (w_files w' !! f)) -> fd_step w w'.
Proof. intros [] Hf. constructor; try done. intros o x Hx. exists x. by rewrite es_opens0. Qed.

(** descriptor [fd] leads to the open file [o] of file [f] *)
Definition fd_leads (w : world) (fd o f : Z) : Prop :=
  fh_open_files (w_fh w) !! u64 fd = Some o /\ is_Some (w_files w !! f) /\
  exists x, w_opens w !! o = Some x /\ of_file x = f.

Lemma fd_leads_step (w w' : world) fd o f : fd_step w w' -> fd_leads w fd o f -> fd_leads w' fd o f.
Proof.
  intros [] (Hfd & Hf & x & Hx & <-). split; [by rewrite fs_fds0|]. split; [auto|]. eauto.
Qed.
