(* ===== verification/MetaSteps.v ===== *)
(** * Steps that only rewrite metadata

    The rules of the memory accessors, and the proof that persisting a record
    ([FileBlock::WriteMeta], [File::WriteMeta]) is a [meta_step]: it touches the
    checksum of the record and the metadata region of the device, and nothing a
    view shows. *)

From S2P Require Import Prelude Meta Device World SuperBlock Resources FileBlock Inode Directory.
From S2P Require Import FileHandle File OpenFile FileHandleOps DirHandle Io Invariant.

(** constants as numbers, for [lia] *)
Ltac units :=
  change kBlockSize with 4194304 in *; change kBlockFsPageSize with 4096 in *;
  change kSuperBlockSize with 4096 in *; change kBlockFsDirMetaSize with 1024 in *;
  change kBlockFsFileMetaSize with 256 in *; change kBlockFsFileBlockMetaSize with 4096 in *;
  change kFileBlockCapacity with 1000 in *;
  change kBlockFsMaxUDiskSize with 140737488355328 in *.

(** ** Memory accessors *)

Lemma wp_get_fbmeta i m Q w : w_fbmeta w !! i = Some m -> Q m w -> wp (get_fbmeta i) Q w.
Proof. intros Hm ?. unfold wp, get_fbmeta, bind, gets. by rewrite Hm. Qed.

Lemma wp_put_fbmeta i m (Q : unit -> world -> Prop) w :
  Q tt (set_w_fbmeta (<[i := m]> (w_fbmeta w)) w) -> wp (put_fbmeta i m) Q w.
Proof. done. Qed.

Lemma wp_upd_fbmeta i g m (Q : unit -> world -> Prop) w :
  w_fbmeta w !! i = Some m ->
  Q tt (set_w_fbmeta (<[i := g m]> (w_fbmeta w)) w) -> wp (upd_fbmeta i g) Q w.
Proof. intros Hm ?. unfold upd_fbmeta. apply wp_bind. by eapply wp_get_fbmeta. Qed.

Lemma wp_get_filemeta i m Q w : w_filemeta w !! i = Some m -> Q m w -> wp (get_filemeta i) Q w.
Proof. intros Hm ?. unfold wp, get_filemeta, bind, gets. by rewrite Hm. Qed.

Lemma wp_put_filemeta i m (Q : unit -> world -> Prop) w :
  Q tt (set_w_filemeta (<[i := m]> (w_filemeta w)) w) -> wp (put_filemeta i m) Q w.
Proof. done. Qed.

Lemma wp_upd_filemeta i g m (Q : unit -> world -> Prop) w :
  w_filemeta w !! i = Some m ->
  Q tt (set_w_filemeta (<[i := g m]> (w_filemeta w)) w) -> wp (upd_filemeta i g) Q w.
Proof. intros Hm ?. unfold upd_filemeta. apply wp_bind. by eapply wp_get_filemeta. Qed.

Lemma wp_get_dirmeta i m Q w : w_dirmeta w !! i = Some m -> Q m w -> wp (get_dirmeta i) Q w.
Proof. intros Hm ?. unfold wp, get_dirmeta, bind, gets. by rewrite Hm. Qed.

Lemma wp_put_dirmeta i m (Q : unit -> world -> Prop) w :
  Q tt (set_w_dirmeta (<[i := m]> (w_dirmeta w)) w) -> wp (put_dirmeta i m) Q w.
Proof. done. Qed.

Lemma wp_upd_dirmeta i g m (Q : unit -> world -> Prop) w :
  w_dirmeta w !! i = Some m ->
  Q tt (set_w_dirmeta (<[i := g m]> (w_dirmeta w)) w) -> wp (upd_dirmeta i g) Q w.
Proof. intros Hm ?. unfold upd_dirmeta. apply wp_bind. by eapply wp_get_dirmeta. Qed.

Lemma wp_put_dir d o (Q : unit -> world -> Prop) w :
  Q tt (set_w_dirs (<[d := o]> (w_dirs w)) w) -> wp (put_dir d o) Q w.
Proof. done. Qed.

Lemma wp_get_file f o Q w : w_files w !! f = Some o -> Q o w -> wp (get_file f) Q w.
Proof. intros Hm ?. unfold wp, get_file, bind, gets. by rewrite Hm. Qed.

Lemma wp_put_file f o (Q : unit -> world -> Prop) w :
  Q tt (set_w_files (<[f := o]> (w_files w)) w) -> wp (put_file f o) Q w.
Proof. done. Qed.

Lemma wp_upd_file f g o (Q : unit -> world -> Prop) w :
  w_files w !! f = Some o ->
  Q tt (set_w_files (<[f := g o]> (w_files w)) w) -> wp (upd_file f g) Q w.
Proof. intros Hm ?. unfold upd_file. apply wp_bind. by eapply wp_get_file. Qed.

Lemma wp_get_dir d o Q w : w_dirs w !! d = Some o -> Q o w -> wp (get_dir d) Q w.
Proof. intros Hm ?. unfold wp, get_dir, bind, gets. by rewrite Hm. Qed.

Lemma wp_get_open o x Q w : w_opens w !! o = Some x -> Q x w -> wp (get_open o) Q w.
Proof. intros Hm ?. unfold wp, get_open, bind, gets. by rewrite Hm. Qed.

Lemma wp_file_meta f o m Q w :
  w_files w !! f = Some o -> w_filemeta w !! fo_meta o = Some m -> Q m w ->
  wp (file_meta f) Q w.
Proof.
  intros Ho Hm ?. unfold file_meta. apply wp_bind. eapply wp_get_file; [done|].
  by eapply wp_get_filemeta.
Qed.

Lemma wp_upd_file_meta f g o m (Q : unit -> world -> Prop) w :
  w_files w !! f = Some o -> w_filemeta w !! fo_meta o = Some m ->
  Q tt (set_w_filemeta (<[fo_meta o := g m]> (w_filemeta w)) w) ->
  wp (upd_file_meta f g) Q w.
Proof.
  intros Ho Hm ?. unfold upd_file_meta. apply wp_bind. eapply wp_get_file; [done|].
  by eapply wp_upd_filemeta.
Qed.

(** the same as equations *)
Lemma get_fbmeta_run i m w : w_fbmeta w !! i = Some m -> get_fbmeta i w = Done m w.
Proof. intros Hm. unfold get_fbmeta, bind, gets. by rewrite Hm. Qed.

Lemma get_filemeta_run i m w : w_filemeta w !! i = Some m -> get_filemeta i w = Done m w.
Proof. intros Hm. unfold get_filemeta, bind, gets. by rewrite Hm. Qed.

Lemma get_file_run f o w : w_files w !! f = Some o -> get_file f w = Done o w.
Proof. intros Hm. unfold get_file, bind, gets. by rewrite Hm. Qed.

Lemma file_meta_run f o m w :
  w_files w !! f = Some o -> w_filemeta w !! fo_meta o = Some m -> file_meta f w = Done m w.
Proof.
  intros Ho Hm. unfold file_meta. erewrite bind_run by by apply get_file_run.
  by apply get_filemeta_run.
Qed.

Lemma assert_run {S} (b : bool) (s : S) : b = true -> assert_ b s = Done tt s.
Proof. by intros ->. Qed.

Create HintDb bfs.
#[export] Hint Resolve wrap_bound suffix_cons_r Forall_suffix : bfs.

(** ** Lookups through the view *)

Lemma view_fb_lookup w i b :
  v_fb (view_of w) !! i = Some b -> exists m, w_fbmeta w !! i = Some m /\ b = view_fb m.
Proof. cbn. rewrite lookup_fmap. destruct (w_fbmeta w !! i); naive_solver. Qed.

Lemma view_fm_lookup w i b :
  v_fm (view_of w) !! i = Some b -> exists m, w_filemeta w !! i = Some m /\ b = view_fm m.
Proof. cbn. rewrite lookup_fmap. destruct (w_filemeta w !! i); naive_solver. Qed.

Lemma view_files_lookup w f o : w_files w !! f = Some o -> v_files (view_of w) !! f = Some (view_fo o).
Proof. intros Ho. cbn. by rewrite lookup_fmap, Ho. Qed.

Lemma view_fb_some w i m : w_fbmeta w !! i = Some m -> v_fb (view_of w) !! i = Some (view_fb m).
Proof. intros Ho. cbn. by rewrite lookup_fmap, Ho. Qed.

Lemma view_fm_some w i m : w_filemeta w !! i = Some m -> v_fm (view_of w) !! i = Some (view_fm m).
Proof. intros Ho. cbn. by rewrite lookup_fmap, Ho. Qed.

Lemma fbmeta_exists w i :
  fs_inv w -> 0 <= i < sb_max_file_block_num (w_super w) -> is_Some (w_fbmeta w !! i).
Proof.
  intros Hi Hr. apply (i_fb_dom _ _ (fi_inv _ Hi)) in Hr as [b Hb].
  apply view_fb_lookup in Hb as (m & -> & _). eauto.
Qed.

Lemma filemeta_exists w i :
  fs_inv w -> 0 <= i < sb_max_file_num (w_super w) -> is_Some (w_filemeta w !! i).
Proof.
  intros Hi Hr. apply (i_fm_dom _ _ (fi_inv _ Hi)) in Hr as [b Hb].
  apply view_fm_lookup in Hb as (m & -> & _). eauto.
Qed.

Lemma fbmeta_range w i m :
  fs_inv w -> w_fbmeta w !! i = Some m -> 0 <= i < sb_max_file_block_num (w_super w).
Proof. intros Hi Hm. apply (i_fb_dom _ _ (fi_inv _ Hi)). rewrite (view_fb_some _ _ _ Hm). eauto. Qed.

Lemma filemeta_range w i m :
  fs_inv w -> w_filemeta w !! i = Some m -> 0 <= i < sb_max_file_num (w_super w).
Proof. intros Hi Hm. apply (i_fm_dom _ _ (fi_inv _ Hi)). rewrite (view_fm_some _ _ _ Hm). eauto. Qed.

(** ** Changes of one record *)

Lemma view_set_fbmeta w i m :
  view_of (set_w_fbmeta (<[i := m]> (w_fbmeta w)) w)
  = set_v_fb (<[i := view_fb m]> (v_fb (view_of w))) (view_of w).
Proof. unfold view_of. cbn. by rewrite fmap_insert. Qed.

Lemma view_set_filemeta w i m :
  view_of (set_w_filemeta (<[i := m]> (w_filemeta w)) w)
  = set_v_fm (<[i := view_fm m]> (v_fm (view_of w))) (view_of w).
Proof. unfold view_of. cbn. by rewrite fmap_insert. Qed.

Lemma view_set_files w f o :
  view_of (set_w_files (<[f := o]> (w_files w)) w)
  = set_v_files (<[f := view_fo o]> (v_files (view_of w))) (view_of w).
Proof. unfold view_of. cbn. by rewrite fmap_insert. Qed.

Lemma env_step_fbmeta w i m :
  fb_meta_ok m -> env_step w (set_w_fbmeta (<[i := m]> (w_fbmeta w)) w).
Proof.
  intros Hm. constructor; try done. intros [Hb Hf]. split; [|done]. by apply map_Forall_insert_2.
Qed.

Lemma env_step_filemeta w i m :
  file_wf m -> env_step w (set_w_filemeta (<[i := m]> (w_filemeta w)) w).
Proof.
  intros Hm. constructor; try done. intros [Hb Hf]. split; [done|]. by apply map_Forall_insert_2.
Qed.

Lemma env_step_files w x : env_step w (set_w_files x w).
Proof. by constructor. Qed.

Lemma meta_step_fbmeta w i m m' :
  w_fbmeta w !! i = Some m -> view_fb m' = view_fb m -> fb_meta_ok m' ->
  meta_step w (set_w_fbmeta (<[i := m']> (w_fbmeta w)) w).
Proof.
  intros Hm Hv Hok. constructor; [by apply env_step_fbmeta|done| |done].
  rewrite view_set_fbmeta, Hv, insert_id by by apply view_fb_some. done.
Qed.

Lemma meta_step_filemeta w i m m' :
  w_filemeta w !! i = Some m -> view_fm m' = view_fm m -> file_wf m' ->
  meta_step w (set_w_filemeta (<[i := m']> (w_filemeta w)) w).
Proof.
  intros Hm Hv Hok. constructor; [by apply env_step_filemeta|done| |done].
  rewrite view_set_filemeta, Hv, insert_id by by apply view_fm_some. done.
Qed.

Lemma meta_step_files w f o o' :
  w_files w !! f = Some o -> view_fo o' = view_fo o ->
  meta_step w (set_w_files (<[f := o']> (w_files w)) w).
Proof.
  intros Hm Hv. constructor; [apply env_step_files|done| |done].
  rewrite view_set_files, Hv, insert_id by by apply view_files_lookup. done.
Qed.

(** ** Writing to the metadata region *)

Lemma meta_step_upd_io w e evs st :
  evs `suffix_of` w_events w ->
  (forall x, sb_block_data_start_offset (w_super w) <= x -> st_get st x = st_get (w_store w) x) ->
  meta_step w (upd_io e evs st w).
Proof.
  intros Hs Hst. constructor; [|done|done|done]. constructor; try done.
  - intros (?&?&?). split_and!; try done. by eapply Forall_suffix.
  - intros [(?&?&?) ?]. split; [split_and!; try done|]; by eapply Forall_suffix.
Qed.

Lemma meta_write_wp (w : world) (buf : bytes) (off : Z) :
  layout_ok (w_super w) -> dev_size (w_dev w) = sb_device_size (w_super w) ->
  0 <= off -> off + Z.of_nat (length buf) <= sb_block_data_start_offset (w_super w) ->
  wp (PwriteDirect buf off) (fun r w' =>
    meta_step w w' /\ write_post w off buf r w' /\ (dev_good w -> r = Z.of_nat (length buf))) w.
Proof.
  intros Hl Hd H0 Hb. pose proof (lo_device _ Hl). pose proof (lo_blocks _ Hl).
  pose proof (lo_device_max _ Hl). units.
  eapply wp_mono; [apply (write_run w off H0 ltac:(lia) true buf); lia|].
  intros r w' Hp. split; [|split; [done|]].
  - destruct Hp as (e & n & evs & Hn & _ & Hs & -> & _). apply meta_step_upd_io; [done|].
    intros x Hx. apply st_write_get_out. rewrite length_take. lia.
  - intros Hg. destruct Hp as (e & n & evs & Hn & _ & Hs & _ & Hgood). by apply Hgood.
Qed.

(** ** Record images *)

Lemma encode_file_block_length (m : FileBlockMeta) :
  file_block_wf m -> length (encode_file_block m) = 4096%nat.
Proof. intros Hm. unfold encode_file_block, encode_file, encode_dir. by rewrite (concat_fields_length _ _ (file_block_fields_widths m Hm)). Qed.

Lemma encode_file_length (m : FileMeta) : file_wf m -> length (encode_file m) = 256%nat.
Proof. intros Hm. unfold encode_file_block, encode_file, encode_dir. by rewrite (concat_fields_length _ _ (file_fields_widths m Hm)). Qed.

Lemma encode_dir_length (m : DirMeta) : dir_wf m -> length (encode_dir m) = 1024%nat.
Proof. intros Hm. unfold encode_file_block, encode_file, encode_dir. by rewrite (concat_fields_length _ _ (dir_fields_widths m Hm)). Qed.

Lemma concat_const_length {A} (g : A -> bytes) (l : list A) (k : nat) :
  (forall x, x ∈ l -> length (g x) = k) -> length (concat (g <$> l)) = (k * length l)%nat.
Proof.
  induction l as [|a l IH]; intros Hk; cbn [fmap list_fmap concat length]; [lia|].
  rewrite length_app, Hk by set_solver. rewrite IH by set_solver. lia.
Qed.

(** record [i] of an image of records of [k] bytes *)
Lemma slice_concat_const {A} (g : A -> bytes) (l : list A) (k i : nat) (a : A) :
  (forall x, x ∈ l -> length (g x) = k) -> l !! i = Some a ->
  slice (k * i) k (concat (g <$> l)) = g a.
Proof.
  revert i. induction l as [|b l IH]; intros i Hk Hi; [done|].
  cbn [fmap list_fmap concat]. destruct i as [|i]; cbn in Hi.
  - simplify_eq. rewrite Nat.mul_0_r. unfold slice. rewrite drop_0.
    apply take_app_length'. symmetry. apply Hk. set_solver.
  - unfold slice. rewrite drop_app_ge by (rewrite Hk by set_solver; lia).
    rewrite Hk by set_solver. replace (k * S i - k)%nat with (k * i)%nat by lia.
    apply IH; [set_solver|done].
Qed.

Section Crc.
Context `{Env}.

Lemma fb_crc_of_set_crc c m : fb_crc_of (set_fb_crc c m) = fb_crc_of m.
Proof. reflexivity. Qed.
Lemma file_crc_of_set_crc c m : file_crc_of (set_fm_crc c m) = file_crc_of m.
Proof. reflexivity. Qed.
Lemma dir_crc_of_set_crc c m : dir_crc_of (set_dm_crc c m) = dir_crc_of m.
Proof. reflexivity. Qed.

Lemma fb_meta_ok_set_crc m : fb_meta_ok m -> fb_meta_ok (set_fb_crc (fb_crc_of m) m).
Proof.
  intros [[] ?]. split; [|done]. constructor; try done. apply crc32_range.
Qed.

Lemma file_wf_set_crc m : file_wf m -> file_wf (set_fm_crc (file_crc_of m) m).
Proof. intros []. constructor; try done. apply crc32_range. Qed.

(** ** [FileBlock::WriteMeta] *)

(** the device holds the record of file block [i] as memory does, checksum valid *)
Definition fb_persisted (w : world) (i : Z) : Prop :=
  exists m, w_fbmeta w !! i = Some m /\ fb_crc m = fb_crc_of m /\
    decode_file_block (st_read (w_store w)
      (sb_file_block_meta_offset (w_super w) + kBlockFsFileBlockMetaSize * i) 4096) = m.

(** the world with the checksum of file block [i] in place *)
Definition with_fb_crc (i : Z) (m : FileBlockMeta) (w : world) : world :=
  set_w_fbmeta (<[i := set_fb_crc (fb_crc_of m) m]> (w_fbmeta w)) w.

Lemma with_fb_crc_step (w : world) (i : Z) (m : FileBlockMeta) :
  fs_base w -> w_fbmeta w !! i = Some m -> meta_step w (with_fb_crc i m w).
Proof.
  intros Hi Hm. eapply meta_step_fbmeta; [done|done|].
  by apply fb_meta_ok_set_crc, (proj1 (fb_wf _ Hi) _ _ Hm).
Qed.

Lemma FileBlock_WriteMeta_record_wp (w : world) (i : Z) (m : FileBlockMeta) :
  fs_base w -> w_fbmeta w !! i = Some m ->
  let w1 := with_fb_crc i m w in
  wp (FileBlock_WriteMeta i) (fun ok w' => exists r, ok = (r =? 4096) /\ meta_step w1 w' /\
    write_post w1 (sb_file_block_meta_offset (w_super w) + kBlockFsFileBlockMetaSize * i)
      (encode_file_block (set_fb_crc (fb_crc_of m) m)) r w' /\ (dev_good w -> r = 4096)) w.
Proof.
  intros Hi Hm w1. pose proof (fb_layout _ Hi) as Hl. pose proof Hl as [].
  assert (Hr : 0 <= i < sb_max_file_block_num (w_super w)) by (apply (fb_fb_dom _ Hi); by eexists).
  pose proof (fb_meta_ok_set_crc _ (proj1 (fb_wf _ Hi) _ _ Hm)) as Hok'.
  pose proof (encode_file_block_length _ (proj1 Hok')) as Hlen.
  pose proof (with_fb_crc_step w i m Hi Hm) as Hs1. fold w1 in Hs1.
  units. unfold FileBlock_WriteMeta. do 2 wp_step. apply wp_bind.
  eapply wp_get_fbmeta; [done|]. apply wp_bind, wp_put_fbmeta. apply wp_bind.
  fold (with_fb_crc i m w). fold w1.
  rewrite lo_fb_size. units. rewrite (wrap_small 64 (4096 * i)) by lia. rewrite wrap_small by lia.
  eapply wp_mono; [apply (meta_write_wp w1); change (w_super w1) with (w_super w);
    [done | by apply (fb_dev _ Hi) | lia | rewrite Hlen; lia]|].
  intros r w' (Hs & Hp & Hg). wp_step. exists r. rewrite swrap_small by lia. split_and!; try done.
  intros Hgood. rewrite Hg by by apply (es_good _ _ (ms_env _ _ Hs1)). by rewrite Hlen.
Qed.

Lemma FileBlock_WriteMeta_base_wp (w : world) (i : Z) :
  fs_base w -> 0 <= i < sb_max_file_block_num (w_super w) ->
  wp (FileBlock_WriteMeta i) (fun ok w' => meta_step w w' /\ (dev_good w -> ok = true) /\
    (ok = true -> fb_persisted w' i) /\
    (exists m, w_fbmeta w !! i = Some m /\
       w_fbmeta w' !! i = Some (set_fb_crc (fb_crc_of m) m)) /\
    (exists m e evs st, w_fbmeta w !! i = Some m /\ w' = upd_io e evs st
       (set_w_fbmeta (<[i := set_fb_crc (fb_crc_of m) m]> (w_fbmeta w)) w))) w.
Proof.
  intros Hi Hr. destruct (proj2 (fb_fb_dom _ Hi i) Hr) as [m Hm].
  pose proof (with_fb_crc_step w i m Hi Hm) as Hs1.
  pose proof (fb_meta_ok_set_crc _ (proj1 (fb_wf _ Hi) _ _ Hm)) as Hok'.
  pose proof (encode_file_block_length _ (proj1 Hok')) as Hlen.
  assert (Hm1 : w_fbmeta (with_fb_crc i m w) !! i = Some (set_fb_crc (fb_crc_of m) m))
    by apply lookup_insert_eq.
  eapply wp_mono; [by apply (FileBlock_WriteMeta_record_wp w i m)|].
  intros ok w' (r & -> & Hs & Hp & Hg). destruct Hp as (e & n & evs & Hn & Hr' & _ & -> & _).
  split_and!; [by etrans|intros Hgood; by rewrite Hg| |by exists m|by eexists m, e, evs, _].
  intros Heq. apply Z.eqb_eq in Heq. eexists. split_and!; [exact Hm1|done|].
  change (w_super (upd_io _ _ _ (with_fb_crc i m w))) with (w_super w). rewrite w_store_upd_io.
  rewrite take_ge by lia. rewrite <- Hlen, st_read_write_same.
  by apply decode_encode_file_block_aux, Hok'.
Qed.

Lemma FileBlock_WriteMeta_wp (w : world) (i : Z) :
  fs_inv w -> 0 <= i < sb_max_file_block_num (w_super w) ->
  wp (FileBlock_WriteMeta i) (fun ok w' => meta_step w w' /\ (dev_good w -> ok = true) /\
    (ok = true -> fb_persisted w' i) /\
    (exists m, w_fbmeta w !! i = Some m /\
       w_fbmeta w' !! i = Some (set_fb_crc (fb_crc_of m) m))) w.
Proof.
  intros Hi Hr. eapply wp_mono; [by apply FileBlock_WriteMeta_base_wp; [apply fs_inv_base|]|].
  by intros ok w' (? & ? & ? & ? & _).
Qed.

(** ** [File::WriteMeta] *)

Lemma PageAlignIndex_eq (record i : Z) :
  record ∈ [256; 1024] -> 0 <= i < 2 ^ 31 ->
  PageAlignIndex record i = i - i mod (4096 / record) /\ 0 <= i mod (4096 / record) < 4096 / record
  /\ (4096 / record) * record = 4096.
Proof.
  intros Hrec Hi. unfold PageAlignIndex. units.
  assert (0 < 4096 / record < 2 ^ 32 /\ (4096 / record) * record = 4096) as [Hd Hm].
  { repeat (apply elem_of_cons in Hrec as [->|Hrec]; [vm_compute; intuition congruence|]).
    by apply elem_of_nil in Hrec. }
  rewrite (wrap_small 32 i), (wrap_small 32 (4096 / record)) by lia.
  pose proof (Z.mod_pos_bound i (4096 / record) ltac:(lia)).
  pose proof (Z.mod_le i (4096 / record) ltac:(lia) ltac:(lia)).
  rewrite wrap_small by lia. auto.
Qed.

(** the image of the page that holds record [i], and the record in it *)
Lemma page_image {A} (encode : A -> bytes) (area : gmap Z A) (record a i : Z) (m : A) :
  0 < record -> (4096 / record) * record = 4096 ->
  (forall j x, area !! j = Some x -> length (encode x) = Z.to_nat record) ->
  area !! (a + i) = Some m -> 0 <= i < 4096 / record ->
  let page := concat ((fun i => match area !! i with
                       | Some m => encode m
                       | None => replicate (Z.to_nat record) 0 end) <$> seqZ a (4096 / record)) in
  length page = 4096%nat /\ slice (Z.to_nat (record * i)) (Z.to_nat record) page = encode m.
Proof.
  intros Hrec Hm Henc Ha Hi page. unfold page.
  assert (Hk : forall x, x ∈ seqZ a (4096 / record) ->
    length (match area !! x with Some m => encode m | None => replicate (Z.to_nat record) 0 end)
    = Z.to_nat record).
  { intros x _. destruct (area !! x) eqn:?; [by eapply Henc|apply length_replicate]. }
  split.
  - rewrite (concat_const_length _ _ _ Hk), length_seqZ. nia.
  - rewrite Z2Nat.inj_mul by lia.
    erewrite (slice_concat_const (fun x => match area !! x with Some m => encode m
      | None => replicate (Z.to_nat record) 0 end) _ _ (Z.to_nat i) (a + i) Hk); [by rewrite Ha|].
    apply lookup_seqZ. lia.
Qed.

(** the device holds the record of file [i] as memory does, checksum valid *)
Definition file_persisted (w : world) (i : Z) : Prop :=
  exists m, w_filemeta w !! i = Some m /\ fm_crc m = file_crc_of m /\
    decode_file (st_read (w_store w)
      (sb_file_meta_offset (w_super w) + kBlockFsFileMetaSize * i) 256) = m.

Lemma st_read_slice (st : store) (a : Z) (d : bytes) (off n : nat) :
  (off + n <= length d)%nat -> st_read (st_write st a d) (a + Z.of_nat off) n = slice off n d.
Proof.
  intros Hn. apply list_eq. intros i. destruct (decide (i < n)%nat) as [Hi|Hi].
  - rewrite st_read_lookup by done. unfold slice. rewrite lookup_take_lt, lookup_drop by done.
    destruct (lookup_lt_is_Some_2 d (off + i)%nat ltac:(lia)) as [b Hb]. rewrite Hb. f_equal.
    replace (a + Z.of_nat off + Z.of_nat i) with (a + Z.of_nat (off + i)) by lia.
    by apply st_write_get_in.
  - rewrite !lookup_ge_None_2; [done| |].
    + unfold slice. rewrite length_take, length_drop. lia.
    + rewrite st_read_length. lia.
Qed.

(** the page that [File_WriteMeta_fh] writes, and where *)
Definition page_of (i : Z) : Z := i - i mod 16.
Definition file_page_addr (sb : SuperBlockMeta) (i : Z) : Z :=
  sb_file_meta_offset sb + kBlockFsFileMetaSize * page_of i.

(** the world with the checksum of record [i] in place *)
Definition with_file_crc (i : Z) (m : FileMeta) (w : world) : world :=
  set_w_filemeta (<[i := set_fm_crc (file_crc_of m) m]> (w_filemeta w)) w.

Lemma with_file_crc_step (w : world) (i : Z) (m : FileMeta) :
  fs_base w -> w_filemeta w !! i = Some m -> meta_step w (with_file_crc i m w).
Proof.
  intros Hi Hm. eapply meta_step_filemeta; [done|done|].
  by apply file_wf_set_crc, (proj2 (fb_wf _ Hi) _ _ Hm).
Qed.

(** a record in its page *)
Lemma file_page_slice (w : world) (i j : Z) (m : FileMeta) :
  recs_wf w -> w_filemeta w !! j = Some m -> page_of j = page_of i ->
  let page := file_page (w_filemeta w) (page_of i) kBlockFsFileMetaSize in
  length page = 4096%nat /\ slice (Z.to_nat (256 * (j mod 16))) 256 page = encode_file m.
Proof.
  intros Hwf Hm Hp page. unfold page, file_page. units. change (4096 / 256) with 16.
  pose proof (Z.mod_pos_bound j 16 ltac:(lia)). unfold page_of in *.
  apply (page_image encode_file (w_filemeta w) 256 (i - i mod 16) (j mod 16) m);
    try (change (4096 / 256) with 16); try lia; try done.
  - intros k x Hx. by apply encode_file_length, (proj2 Hwf k).
  - by replace (i - i mod 16 + j mod 16) with j by lia.
Qed.

Lemma File_WriteMeta_fh_page_wp (w : world) (i : Z) (m : FileMeta) :
  fs_base w -> w_filemeta w !! i = Some m ->
  let w1 := with_file_crc i m w in
  let page := file_page (w_filemeta w1) (page_of i) kBlockFsFileMetaSize in
  wp (File_WriteMeta_fh i) (fun ok w' => exists r, ok = (r =? 4096) /\ meta_step w1 w' /\
    write_post w1 (file_page_addr (w_super w) i) page r w' /\ (dev_good w -> r = 4096)) w.
Proof.
  intros Hi Hm w1 page. pose proof (fb_layout _ Hi) as Hl. pose proof Hl as [].
  assert (Hr : 0 <= i < sb_max_file_num (w_super w)) by (apply (fb_fm_dom _ Hi); by eexists).
  pose proof (with_file_crc_step w i m Hi Hm) as Hs1. fold w1 in Hs1.
  destruct (PageAlignIndex_eq 256 i ltac:(set_solver) ltac:(lia)) as (Hal & Hmod & _).
  change (4096 / 256) with 16 in *.
  destruct (file_page_slice w1 i i (set_fm_crc (file_crc_of m) m)) as [Hlen _];
    [by apply (es_wf _ _ (ms_env _ _ Hs1)), Hi|by apply lookup_insert_eq|done|]. fold page in Hlen.
  pose proof (Z.div_mod i 16 ltac:(lia)). pose proof (Z.mod_le i 16 ltac:(lia) ltac:(lia)).
  fold (page_of i) in *. assert (Hpg : 0 <= page_of i <= i) by (unfold page_of; lia).
  assert (Hend : 256 * page_of i + 4096 <= sb_file_meta_total_size (w_super w)).
  { units. pose proof (Z.div_mod (sb_file_meta_total_size (w_super w)) 4096 ltac:(lia)).
    unfold page_of. lia. }
  units. unfold File_WriteMeta_fh. do 2 wp_step. apply wp_bind.
  eapply wp_upd_filemeta; [done|]. fold (with_file_crc i m w). fold w1. do 3 wp_step.
  rewrite lo_file_size. units. rewrite Hal.
  rewrite (wrap_small 64 (256 * _)) by lia. rewrite wrap_small by lia. fold page.
  eapply wp_mono; [apply (meta_write_wp w1); change (w_super w1) with (w_super w);
    [done | by apply (fb_dev _ Hi) | lia | rewrite Hlen; lia]|].
  intros r w' (Hs & Hp & Hg). wp_step. exists r. split_and!; try done.
  intros Hgood. rewrite Hg by by apply (es_good _ _ (ms_env _ _ Hs1)). by rewrite Hlen.
Qed.

Lemma File_WriteMeta_fh_base_wp (w : world) (i : Z) :
  fs_base w -> 0 <= i < sb_max_file_num (w_super w) ->
  wp (File_WriteMeta_fh i) (fun ok w' => meta_step w w' /\ (dev_good w -> ok = true) /\
    (ok = true -> file_persisted w' i) /\
    (exists m e evs st, w_filemeta w !! i = Some m /\ w' = upd_io e evs st
       (set_w_filemeta (<[i := set_fm_crc (file_crc_of m) m]> (w_filemeta w)) w))) w.
Proof.
  intros Hi Hr. destruct (proj2 (fb_fm_dom _ Hi i) Hr) as [m Hm].
  pose proof (with_file_crc_step w i m Hi Hm) as Hs1.
  pose proof (es_wf _ _ (ms_env _ _ Hs1) (fb_wf _ Hi)) as Hwf.
  assert (Hm1 : w_filemeta (with_file_crc i m w) !! i = Some (set_fm_crc (file_crc_of m) m))
    by apply lookup_insert_eq.
  destruct (file_page_slice _ i i _ Hwf Hm1 eq_refl) as [Hlen Hslice].
  eapply wp_mono; [by apply (File_WriteMeta_fh_page_wp w i m)|].
  intros ok w' (r & -> & Hs & Hp & Hg). destruct Hp as (e & n & evs & Hn & Hr' & _ & -> & _).
  split_and!; [by etrans|intros Hgood; by rewrite Hg| |by eexists m, e, evs, _].
  intros Heq. apply Z.eqb_eq in Heq. eexists. split_and!; [exact Hm1|done|].
  change (w_super (upd_io _ _ _ (with_file_crc i m w))) with (w_super w). rewrite w_store_upd_io.
  rewrite take_ge by lia. pose proof (Z.mod_pos_bound i 16 ltac:(lia)). units.
  unfold file_page_addr, page_of in *. units.
  replace (sb_file_meta_offset (w_super w) + 256 * i)
    with (sb_file_meta_offset (w_super w) + 256 * (i - i mod 16)
          + Z.of_nat (Z.to_nat (256 * (i mod 16)))) by lia.
  rewrite st_read_slice by lia. rewrite Hslice.
  by apply decode_encode_file_aux, (proj2 Hwf i).
Qed.

Lemma File_WriteMeta_fh_wp (w : world) (i : Z) :
  fs_inv w -> 0 <= i < sb_max_file_num (w_super w) ->
  wp (File_WriteMeta_fh i) (fun ok w' => meta_step w w' /\ (dev_good w -> ok = true) /\
    (ok = true -> file_persisted w' i)) w.
Proof.
  intros Hi Hr. eapply wp_mono; [by apply File_WriteMeta_fh_base_wp; [apply fs_inv_base|]|].
  by intros ok w' (? & ? & ? & _).
Qed.
End Crc.

(** ** Formatted records *)

Lemma in_u_dec_true (w z : Z) : (0 <=? z) && (z <? 2 ^ w) = true -> in_u w z.
Proof. unfold in_u. rewrite andb_true_iff, Z.leb_le, Z.ltb_lt. auto. Qed.

Lemma in_i_dec_true (w z : Z) : (- 2 ^ (w - 1) <=? z) && (z <? 2 ^ (w - 1)) = true -> in_i w z.
Proof. unfold in_i. rewrite andb_true_iff, Z.leb_le, Z.ltb_lt. auto. Qed.

(** the ranges of a closed record's fields *)
Ltac wf_ranges := try (by apply in_u_dec_true); try (by apply in_i_dec_true); try reflexivity.

Section FormatRecords.
Context `{Env}.

Lemma format_fb_record_ok (i : Z) : fb_meta_ok (format_fb_record i).
Proof.
  split; [|done]. constructor; wf_ranges; try apply crc32_range; try (apply wrap_bound; lia).
  apply Forall_replicate. by apply in_u_dec_true.
Qed.

Lemma format_file_record_wf (i : Z) : in_u 64 i -> file_wf (format_file_record i).
Proof. intros. constructor; wf_ranges; [apply crc32_range|done]. Qed.

Lemma format_dir_record_wf (i : Z) : in_u 64 i -> dir_wf (format_dir_record i).
Proof. intros. constructor; wf_ranges; [apply crc32_range|done]. Qed.
End FormatRecords.
