(* ===== verification/Views.v ===== *)
(** * Changes of a view that keep it consistent

    One lemma per kind of change that the operations make: a file and its
    record, a record or a file block nobody uses, blocks moving between the
    pool and a file, the free lists, the parent files. *)

From S2P Require Import Prelude Meta Device World SuperBlock Resources FileBlock Io Invariant.
From S2P Require Import MetaSteps.

(** a file block, a record, a block in use by some file *)
Definition live_fb (V : view) (fb : Z) : Prop :=
  exists f o, v_files V !! f = Some o /\ ov_items o !! 0 = Some fb.
Definition live_meta (V : view) (i : Z) : Prop :=
  exists f o, v_files V !! f = Some o /\ ov_meta o = i.
Definition live_block (V : view) (x : Z) : Prop :=
  exists f o fb b, v_files V !! f = Some o /\ ov_items o !! 0 = Some fb /\
    v_fb V !! fb = Some b /\ x ∈ bv_blocks b.

Lemma apart_sym V o1 o2 : apart V o1 o2 -> apart V o2 o1.
Proof.
  intros [H1 H2]. split; [done|]. intros fb1 fb2 b1 b2 ????.
  destruct (H2 fb2 fb1 b2 b1) as [? Hd]; [done..|]. split; [done|]. intros x ??. by eapply Hd.
Qed.

Section Views.
Context (sb : SuperBlockMeta) (V : view) (HV : inv sb V).

Lemma live_block_pool x : live_block V x -> (x ∉ v_pool V) /\ 0 <= x < sb_curr_block_num sb.
Proof using HV.
  intros (f & o & fb & b & Ho & Hfb & Hb & Hx).
  destruct (i_files _ _ HV _ _ Ho) as (_ & _ & m & _ & _ & [[He _]|Hit]).
  - rewrite He in Hfb. done.
  - destruct Hit as (fb' & b' & He & Hb' & _ & _ & _ & _ & _ & Hr).
    rewrite He, lookup_singleton_eq in Hfb. simplify_eq. destruct (Hr x Hx). done.
Qed.

Lemma live_fb_not_free fb : live_fb V fb -> fb ∉ v_free_fb V.
Proof using HV.
  intros (f & o & Ho & Hfb).
  destruct (i_files _ _ HV _ _ Ho) as (_ & _ & m & _ & _ & [[He _]|Hit]).
  - rewrite He in Hfb. done.
  - destruct Hit as (fb' & b' & He & _ & _ & _ & _ & ? & _).
    rewrite He, lookup_singleton_eq in Hfb. by simplify_eq.
Qed.

Lemma live_meta_not_free i : live_meta V i -> i ∉ v_free_fh V.
Proof using HV. intros (f & o & Ho & <-). by destruct (i_files _ _ HV _ _ Ho) as (_ & ? & _). Qed.

Lemma live_meta_not_parent i : live_meta V i -> i ∉ v_parents V.
Proof using HV. intros (f & o & Ho & <-). by destruct (i_files _ _ HV _ _ Ho) as (? & _). Qed.

(** the items of the files stay fine when the change keeps what they name *)
Lemma items_ok_mono (V' : view) items n :
  (forall fb, items !! 0 = Some fb -> v_fb V' !! fb = v_fb V !! fb) ->
  (forall fb, items !! 0 = Some fb -> fb ∈ v_free_fb V' -> fb ∈ v_free_fb V) ->
  (forall x, x ∈ v_pool V' -> x ∈ v_pool V \/
     forall fb b, items !! 0 = Some fb -> v_fb V !! fb = Some b -> x ∉ bv_blocks b) ->
  items_ok sb V items n -> items_ok sb V' items n.
Proof.
  intros Hfb Hfree Hpool [?|(fb & b & He & Hb & Hu & Hc & Hs & Hf & Hn & Hr)]; [by left|].
  right. assert (Hi : items !! 0 = Some fb) by by rewrite He, lookup_singleton_eq.
  exists fb, b. split_and!; try done; try lia.
  - by rewrite Hfb.
  - intros Hin. by apply Hf, Hfree.
  - split; [done|]. intros x Hx. destruct (Hr x Hx) as [? Hnp]. split; [done|].
    intros Hin. destruct (Hpool x Hin) as [Hp|Hp]; [done|]. by apply (Hp fb b).
Qed.

(** ** Blocks leave or enter the pool *)

Lemma inv_pool (pool : gset Z) :
  (forall x, x ∈ pool -> x ∈ v_pool V \/ (0 <= x < sb_curr_block_num sb /\ ~ live_block V x)) ->
  inv sb (set_v_pool pool V).
Proof using HV.
  intros Hp. pose proof HV as []. constructor; try done.
  - intros x [?|[? _]]%Hp; auto.
  - intros f o Ho. destruct (i_files f o Ho) as (? & ? & m & ? & ? & Hi).
    split_and!; try done. exists m. split_and!; try done.
    eapply items_ok_mono; [done|done| |done].
    intros x [?|[_ Hx]]%Hp; [by left|right]. intros fb b ?? ?. apply Hx. by exists f, o, fb, b.
Qed.

(** ** The free lists *)

Lemma inv_free_fb_pop fb rest :
  v_free_fb V = fb :: rest -> inv sb (set_v_free_fb rest V).
Proof using HV.
  intros Hf. pose proof HV as []. rewrite Hf in i_free_fb. destruct i_free_fb as [Hn Hi].
  apply NoDup_cons in Hn as [? ?]. constructor; try done.
  - split; [done|]. intros i ?. apply Hi. set_solver.
  - intros f o Ho. destruct (i_files f o Ho) as (? & ? & m & ? & ? & Hit).
    split_and!; try done. exists m. split_and!; try done.
    eapply items_ok_mono; [done| |by left|done]. cbn. rewrite Hf. set_solver.
Qed.

Lemma inv_free_fb_push fb b :
  fb ∉ v_free_fb V -> ~ live_fb V fb -> v_fb V !! fb = Some b -> bv_used b = false ->
  bv_blocks b = [] -> inv sb (set_v_free_fb (v_free_fb V ++ [fb]) V).
Proof using HV.
  intros Hf Hl Hb Hu Hbs. pose proof HV as []. destruct i_free_fb as [Hn Hi]. constructor; try done.
  - cbn. split.
    + apply NoDup_app. split_and!; [done|set_solver|apply NoDup_singleton].
    + intros i [?| ->%list_elem_of_singleton]%elem_of_app; [by apply Hi|by exists b].
  - intros f o Ho. destruct (i_files f o Ho) as (? & ? & m & ? & ? & Hit).
    split_and!; try done. exists m. split_and!; try done.
    eapply items_ok_mono; [done| |by left|done]. cbn.
    intros fb' ? [?| ->%list_elem_of_singleton]%elem_of_app; [done|]. destruct Hl. by exists f, o.
Qed.

Lemma inv_free_fh_pop i rest :
  v_free_fh V = i :: rest -> inv sb (set_v_free_fh rest V).
Proof using HV.
  intros Hf. pose proof HV as []. rewrite Hf in i_free_fh. destruct i_free_fh as [Hn Hi].
  apply NoDup_cons in Hn as [? ?]. constructor; try done.
  - split; [done|]. intros j ?. apply Hi. set_solver.
  - intros f o Ho. destruct (i_files f o Ho) as (? & Hnf & ?). rewrite Hf in Hnf.
    split_and!; try done. cbn. set_solver.
Qed.

Lemma inv_free_fh_push i :
  i ∉ v_free_fh V -> i ∉ v_parents V -> ~ live_meta V i ->
  v_fm V !! i = Some (MkFmView i false 0) -> inv sb (set_v_free_fh (v_free_fh V ++ [i]) V).
Proof using HV.
  intros Hf Hp Hl Hm. pose proof HV as []. destruct i_free_fh as [Hn Hi]. constructor; try done.
  - cbn. split.
    + apply NoDup_app. split_and!; [done|set_solver|apply NoDup_singleton].
    + intros j [?| ->%list_elem_of_singleton]%elem_of_app; [by apply Hi|done].
  - intros f o Ho. destruct (i_files f o Ho) as (? & Hnf & ?).
    split_and!; try done. cbn. intros [?|Heq%list_elem_of_singleton]%elem_of_app; [done|].
    apply Hl. by exists f, o.
Qed.

(** ** Parent files *)

Lemma inv_parents (P : gset Z) :
  (forall i, i ∈ P -> i ∈ v_parents V \/ ((i ∉ v_free_fh V) /\ ~ live_meta V i)) ->
  inv sb (set_v_parents P V).
Proof using HV.
  intros HP. pose proof HV as []. destruct i_free_fh as [Hn Hi]. constructor; try done.
  - split; [done|]. intros i Hin. destruct (Hi i Hin) as [? ?]. split; [|done].
    intros [?|[? _]]%HP; done.
  - intros f o Ho. destruct (i_files f o Ho) as (? & ? & ?). split_and!; try done.
    intros [?|[_ Hl]]%HP; [done|]. apply Hl. by exists f, o.
Qed.

(** ** Records and file blocks that no file uses *)

Lemma inv_fm_dead i m :
  is_Some (v_fm V !! i) -> ~ live_meta V i -> i ∉ v_free_fh V ->
  inv sb (set_v_fm (<[i := m]> (v_fm V)) V).
Proof using HV.
  intros Hd Hl Hf. pose proof HV as []. constructor; try done.
  - intros j. cbn. destruct (decide (i = j)) as [<-|].
    + rewrite lookup_insert_eq. rewrite <- i_fm_dom. split; eauto.
    + by rewrite lookup_insert_ne.
  - destruct i_free_fh as [Hn Hi]. split; [done|]. intros j Hj. cbn.
    rewrite lookup_insert_ne by (intros ->; done). by apply Hi.
  - intros f o Ho. destruct (i_files f o Ho) as (? & ? & m' & ? & ? & ?). split_and!; try done.
    exists m'. split_and!; try done. cbn. rewrite lookup_insert_ne; [done|].
    intros ->. apply Hl. by exists f, o.
Qed.

Lemma inv_fb_dead fb b :
  is_Some (v_fb V !! fb) -> ~ live_fb V fb -> fb ∉ v_free_fb V ->
  inv sb (set_v_fb (<[fb := b]> (v_fb V)) V).
Proof using HV.
  intros Hd Hl Hf. pose proof HV as []. constructor; try done.
  - intros j. cbn. destruct (decide (fb = j)) as [<-|].
    + rewrite lookup_insert_eq. rewrite <- i_fb_dom. split; eauto.
    + by rewrite lookup_insert_ne.
  - destruct i_free_fb as [Hn Hi]. split; [done|]. intros j Hj. cbn.
    rewrite lookup_insert_ne by (intros ->; done). by apply Hi.
  - intros f o Ho. destruct (i_files f o Ho) as (? & ? & m' & ? & ? & ?). split_and!; try done.
    exists m'. split_and!; try done. eapply items_ok_mono; [|done|by left|done].
    intros fb' ?. cbn. rewrite lookup_insert_ne; [done|]. intros ->. apply Hl. by exists f, o.
  - intros f1 f2 o1 o2 H1 H2 Hne. destruct (i_apart f1 f2 o1 o2 H1 H2 Hne) as [? Ha].
    split; [done|]. intros fb1 fb2 b1 b2 ??. cbn. rewrite !lookup_insert_ne; [by eapply Ha| |];
    intros ->; apply Hl; [by exists f2, o2|by exists f1, o1].
Qed.

(** ** A file with its record *)

Lemma inv_put_file f o m :
  ov_meta o ∉ v_parents V -> ov_meta o ∉ v_free_fh V -> is_Some (v_fm V !! ov_meta o) ->
  mv_fh m = ov_meta o -> items_ok sb V (ov_items o) (mv_size m) ->
  (forall g og, g <> f -> v_files V !! g = Some og -> apart V og o) ->
  inv sb (set_v_files (<[f := o]> (v_files V)) (set_v_fm (<[ov_meta o := m]> (v_fm V)) V)).
Proof using HV.
  intros Hp Hf Hd Hm Hit Ha. pose proof HV as []. constructor; try done.
  - intros j. cbn. destruct (decide (ov_meta o = j)) as [<-|].
    + rewrite lookup_insert_eq. rewrite <- i_fm_dom. split; eauto.
    + by rewrite lookup_insert_ne.
  - destruct i_free_fh as [Hn Hi]. split; [done|]. intros j Hj. cbn.
    rewrite lookup_insert_ne by (intros <-; done). by apply Hi.
  - intros g og Hg. cbn in Hg. destruct (decide (f = g)) as [<-|Hne].
    + rewrite lookup_insert_eq in Hg. simplify_eq. split_and!; try done.
      exists m. split_and!; try done. cbn. by rewrite lookup_insert_eq.
    + rewrite lookup_insert_ne in Hg by done.
      destruct (i_files g og Hg) as (? & ? & m' & ? & ? & ?). split_and!; try done.
      exists m'. split_and!; try done. cbn. rewrite lookup_insert_ne; [done|].
      destruct (Ha g og) as [? _]; done.
  - intros f1 f2 o1 o2 H1 H2 Hne. cbn in H1, H2.
    change (apart V o1 o2).
    destruct (decide (f = f1)) as [<-|]; [|destruct (decide (f = f2)) as [<-|]].
    + rewrite lookup_insert_eq in H1. rewrite lookup_insert_ne in H2 by done. simplify_eq.
      apply apart_sym. by eapply Ha.
    + rewrite lookup_insert_eq in H2. rewrite lookup_insert_ne in H1 by done. simplify_eq.
      by eapply Ha.
    + rewrite lookup_insert_ne in H1, H2 by done. by eapply i_apart.
Qed.

(** ** The file block of a file takes blocks from the pool *)

Lemma inv_grow f o fb b ids pool :
  v_files V !! f = Some o -> ov_items o !! 0 = Some fb -> v_fb V !! fb = Some b ->
  NoDup ids -> (forall x, x ∈ ids -> x ∈ v_pool V) ->
  (forall x, x ∈ pool -> (x ∈ v_pool V) /\ x ∉ ids) ->
  inv sb (set_v_pool pool
    (set_v_fb (<[fb := MkFbView (bv_used b) (bv_cut b) (bv_blocks b ++ ids)]> (v_fb V)) V)).
Proof using HV.
  intros Ho Hfb Hb Hnd Hin Hpool. pose proof HV as [].
  assert (Hother : forall g og fbg, g <> f -> v_files V !! g = Some og ->
    ov_items og !! 0 = Some fbg -> fbg <> fb).
  { intros g og fbg Hne Hg Hfbg ->. destruct (i_apart g f og o Hg Ho Hne) as [_ Ha].
    destruct (Ha fb fb b b); done. }
  assert (Hids : forall x, x ∈ ids -> ~ live_block V x).
  { intros x Hx Hl. apply live_block_pool in Hl as [? _]. by apply Hin in Hx. }
  constructor; try done.
  - intros j. cbn. destruct (decide (fb = j)) as [<-|].
    + rewrite lookup_insert_eq. rewrite <- i_fb_dom, Hb. split; eauto.
    + by rewrite lookup_insert_ne.
  - destruct i_free_fb as [Hn Hi]. split; [done|]. intros j Hj. cbn.
    assert (fb <> j). { intros ->. apply (live_fb_not_free j); [by exists f, o|done]. }
    rewrite lookup_insert_ne by done. by apply Hi.
  - intros x Hx. by apply i_pool, Hpool.
  - intros g og Hg. destruct (i_files g og Hg) as (? & ? & m' & ? & ? & Hit).
    split_and!; try done. exists m'. split_and!; try done.
    destruct (decide (g = f)) as [->|Hne].
    + cbn in Hg. simplify_eq. destruct Hit as [[He _]|Hit]; [by rewrite He in Hfb|].
      destruct Hit as (fb' & b' & He & Hb' & ? & ? & ? & ? & Hn & Hr).
      rewrite He, lookup_singleton_eq in Hfb. simplify_eq.
      right. exists fb. eexists. split; [done|]. split; [cbn; by rewrite lookup_insert_eq|].
      split_and!; try done; cbn; try lia.
      * rewrite length_app. units. lia.
      * split.
        { apply NoDup_app. split_and!; try done. intros x Hx Hx'. by apply (Hr x Hx), Hin. }
        intros x [Hx|Hx]%elem_of_app.
        { destruct (Hr x Hx). split; [done|]. by intros [? _]%Hpool. }
        split; [by apply i_pool, Hin|]. by intros [_ ?]%Hpool.
    + eapply items_ok_mono; [| done | |done].
      * intros fbg Hfbg. cbn. rewrite lookup_insert_ne; [done|]. intros <-. by eapply Hother.
      * intros x Hx. left. by apply Hpool.
  - intros f1 f2 o1 o2 H1 H2 Hne. destruct (i_apart f1 f2 o1 o2 H1 H2 Hne) as [? Ha].
    split; [done|]. intros fb1 fb2 b1 b2 Hfb1 Hfb2 Hb1 Hb2. cbn in Hb1, Hb2.
    destruct (decide (fb1 = fb)) as [->|]; [|destruct (decide (fb2 = fb)) as [->|]].
    + assert (f1 = f) as -> by (apply dec_stable; intros ?; by eapply Hother).
      assert (fb <> fb2) by (intros <-; by eapply Hother).
      rewrite lookup_insert_eq in Hb1. rewrite lookup_insert_ne in Hb2 by done. simplify_eq.
      split; [done|]. cbn. intros x [Hx|Hx]%elem_of_app; [by eapply Ha|].
      intros Hx2. apply (Hids x Hx). by exists f2, o2, fb2, b2.
    + assert (f2 = f) as -> by (apply dec_stable; intros ?; by eapply Hother).
      rewrite lookup_insert_eq in Hb2. rewrite lookup_insert_ne in Hb1 by done. simplify_eq.
      split; [done|]. cbn. intros x Hx [Hx2|Hx2]%elem_of_app; [by eapply Ha|].
      apply (Hids x Hx2). by exists f1, o1, fb1, b1.
    + rewrite lookup_insert_ne in Hb1, Hb2 by done. by eapply Ha.
Qed.
End Views.
