(* ===== verification/Content.v ===== *)
(** * The bytes of a file

    Lemmas on [content_of], the bytes that a list of data blocks holds: what
    they depend on, prefixes, more blocks, and where the addresses of two files
    lie. *)

From S2P Require Import Prelude Meta Device World SuperBlock Resources FileBlock Io Invariant.
From S2P Require Import MetaSteps Views.

Lemma content_of_length sb st blocks n : length (content_of sb st blocks n) = Z.to_nat n.
Proof. unfold content_of. by rewrite length_fmap, length_seqZ. Qed.

Lemma content_of_lookup sb st blocks n (i : nat) :
  Z.of_nat i < n -> content_of sb st blocks n !! i = Some (st_get st (byte_addr sb blocks (Z.of_nat i))).
Proof.
  intros Hi. unfold content_of. rewrite list_lookup_fmap.
  assert (seqZ 0 n !! i = Some (Z.of_nat i)) as -> by (apply lookup_seqZ; lia). done.
Qed.

Lemma content_of_ext sb sb' st st' blocks blocks' n :
  (forall i, 0 <= i < n ->
     st_get st (byte_addr sb blocks i) = st_get st' (byte_addr sb' blocks' i)) ->
  content_of sb st blocks n = content_of sb' st' blocks' n.
Proof.
  intros Hx. unfold content_of. apply list_fmap_ext. intros k i Hi.
  apply lookup_seqZ in Hi. apply Hx. lia.
Qed.

Lemma content_of_take sb st blocks n m :
  0 <= m <= n -> content_of sb st blocks m = take (Z.to_nat m) (content_of sb st blocks n).
Proof.
  intros Hm. unfold content_of. rewrite <- fmap_take. f_equal.
  replace n with (m + (n - m)) by lia. rewrite seqZ_app by lia.
  rewrite take_app_length'; [done|]. by rewrite length_seqZ.
Qed.

Lemma content_of_prefix sb st blocks n m :
  0 <= m <= n -> content_of sb st blocks m `prefix_of` content_of sb st blocks n.
Proof. intros. rewrite (content_of_take sb st blocks n m) by done. apply prefix_take. Qed.

(** byte [i] lies in the block that the list names *)
Lemma byte_addr_block sb blocks i x :
  blocks !! Z.to_nat (i / kBlockSize) = Some x ->
  byte_addr sb blocks i = sb_block_data_start_offset sb + kBlockSize * x + i mod kBlockSize.
Proof. intros Hx. unfold byte_addr. by rewrite (nth_lookup_Some _ _ _ _ Hx). Qed.

Lemma block_lookup (blocks : list Z) i :
  0 <= i < kBlockSize * Z.of_nat (length blocks) ->
  exists x, blocks !! Z.to_nat (i / kBlockSize) = Some x.
Proof.
  intros Hi. units. pose proof (Z.div_pos i 4194304 ltac:(lia) ltac:(lia)).
  pose proof (Z.div_lt_upper_bound i 4194304 (Z.of_nat (length blocks)) ltac:(lia) ltac:(lia)).
  apply lookup_lt_is_Some_2. lia.
Qed.

Lemma byte_addr_app sb blocks new i :
  0 <= i < kBlockSize * Z.of_nat (length blocks) ->
  byte_addr sb (blocks ++ new) i = byte_addr sb blocks i.
Proof.
  intros Hi. destruct (block_lookup blocks i Hi) as [x Hx].
  rewrite (byte_addr_block sb blocks i x Hx).
  apply byte_addr_block. by apply lookup_app_l_Some.
Qed.

Lemma content_of_app sb st blocks new n :
  n <= kBlockSize * Z.of_nat (length blocks) ->
  content_of sb st (blocks ++ new) n = content_of sb st blocks n.
Proof. intros Hn. apply content_of_ext. intros i Hi. by rewrite byte_addr_app by lia. Qed.

Lemma byte_addr_lower sb blocks i :
  Forall (fun x => 0 <= x) blocks -> 0 <= i ->
  sb_block_data_start_offset sb <= byte_addr sb blocks i.
Proof.
  intros Hb Hi. unfold byte_addr. units.
  pose proof (Z.mod_pos_bound i 4194304 ltac:(lia)).
  assert (0 <= nth (Z.to_nat (i / 4194304)) blocks 0).
  { destruct (nth_in_or_default (Z.to_nat (i / 4194304)) blocks 0) as [Hin| ->]; [|lia].
    rewrite Forall_forall in Hb. apply Hb. by apply list_elem_of_In. }
  lia.
Qed.

(** two addresses in different blocks differ *)
Lemma block_addr_inj sb x y i j :
  sb_block_data_start_offset sb + kBlockSize * x + i mod kBlockSize
  = sb_block_data_start_offset sb + kBlockSize * y + j mod kBlockSize ->
  x = y /\ i mod kBlockSize = j mod kBlockSize.
Proof.
  units. pose proof (Z.mod_pos_bound i 4194304 ltac:(lia)).
  pose proof (Z.mod_pos_bound j 4194304 ltac:(lia)). lia.
Qed.

Lemma byte_addr_inj sb blocks1 blocks2 i j x y :
  blocks1 !! Z.to_nat (i / kBlockSize) = Some x ->
  blocks2 !! Z.to_nat (j / kBlockSize) = Some y ->
  byte_addr sb blocks1 i = byte_addr sb blocks2 j -> x = y /\ i mod kBlockSize = j mod kBlockSize.
Proof.
  intros Hx Hy. rewrite (byte_addr_block _ _ _ _ Hx), (byte_addr_block _ _ _ _ Hy).
  apply block_addr_inj.
Qed.

(** within one file an address determines the byte *)
Lemma byte_addr_same sb blocks i j :
  NoDup blocks ->
  0 <= i < kBlockSize * Z.of_nat (length blocks) -> 0 <= j < kBlockSize * Z.of_nat (length blocks) ->
  byte_addr sb blocks i = byte_addr sb blocks j -> i = j.
Proof.
  intros Hn Hi Hj Heq. destruct (block_lookup _ _ Hi) as [x Hx].
  destruct (block_lookup _ _ Hj) as [y Hy].
  destruct (byte_addr_inj _ _ _ _ _ _ _ Hx Hy Heq) as [-> Hm].
  pose proof (NoDup_lookup _ _ _ _ Hn Hx Hy) as Hd. units.
  pose proof (Z.div_mod i 4194304 ltac:(lia)). pose proof (Z.div_mod j 4194304 ltac:(lia)).
  pose proof (Z.div_pos i 4194304 ltac:(lia) ltac:(lia)).
  pose proof (Z.div_pos j 4194304 ltac:(lia) ltac:(lia)). lia.
Qed.

(** ** Files of a consistent view *)

Section Files.
Context (sb : SuperBlockMeta) (V : view) (HV : inv sb V).

(** a file either has no bytes, or its one file block lists enough blocks *)
Lemma file_cases f o :
  v_files V !! f = Some o ->
  (ov_items o = ∅ /\ file_size V f = 0 /\ file_blocks V f = [] /\ file_fb V f = None) \/
  (exists fb b, ov_items o = {[0 := fb]} /\ file_fb V f = Some fb /\ v_fb V !! fb = Some b /\
     bv_used b = true /\ bv_cut b = 0 /\ file_blocks V f = bv_blocks b /\
     0 < file_size V f <= kBlockSize * Z.of_nat (length (bv_blocks b)) /\
     blocks_ok (sb_curr_block_num sb) (v_pool V) (bv_blocks b)).
Proof using HV.
  intros Ho. destruct (i_files _ _ HV _ _ Ho) as (_ & _ & m & Hm & _ & Hit).
  unfold file_size, file_blocks, file_fb. rewrite Ho. cbn. rewrite Hm. cbn.
  destruct Hit as [[He Hs]|(fb & b & He & Hb & ? & ? & ? & ? & Hn)].
  - left. rewrite He. by rewrite lookup_empty.
  - right. exists fb, b. rewrite He, lookup_singleton_eq. cbn. rewrite Hb. done.
Qed.

Lemma file_blocks_nonneg f : Forall (fun x => 0 <= x) (file_blocks V f).
Proof using HV.
  destruct (v_files V !! f) as [o|] eqn:Ho.
  - destruct (file_cases f o Ho) as [(_ & _ & -> & _)|(fb & b & _ & _ & _ & _ & _ & -> & _ & _ & Hr)].
    + done.
    + apply Forall_forall. intros x Hx. destruct (Hr x Hx). lia.
  - unfold file_blocks, file_fb. by rewrite Ho.
Qed.

Lemma file_size_nonneg f : 0 <= file_size V f.
Proof using HV.
  destruct (v_files V !! f) as [o|] eqn:Ho.
  - destruct (file_cases f o Ho) as [(_ & -> & _)|(fb & b & _ & _ & _ & _ & _ & _ & ? & _)]; lia.
  - unfold file_size. by rewrite Ho.
Qed.

Lemma file_size_blocks f :
  file_size V f <= kBlockSize * Z.of_nat (length (file_blocks V f)).
Proof using HV.
  destruct (v_files V !! f) as [o|] eqn:Ho.
  - destruct (file_cases f o Ho) as [(_ & -> & -> & _)|(fb & b & _ & _ & _ & _ & _ & -> & ? & _)];
      cbn; lia.
  - unfold file_size. rewrite Ho. cbn. units. lia.
Qed.

Lemma file_blocks_live f x : x ∈ file_blocks V f -> live_block V x.
Proof using HV.
  unfold file_blocks, file_fb. destruct (v_files V !! f) as [o|] eqn:Ho; cbn; [|set_solver].
  destruct (ov_items o !! 0) as [fb|] eqn:Hfb; cbn; [|set_solver].
  destruct (v_fb V !! fb) as [b|] eqn:Hb; cbn; [|set_solver].
  intros Hx. by exists f, o, fb, b.
Qed.

(** different files have different blocks *)
Lemma file_blocks_disjoint f g x :
  f <> g -> x ∈ file_blocks V f -> x ∉ file_blocks V g.
Proof using HV.
  unfold file_blocks, file_fb. intros Hne.
  destruct (v_files V !! f) as [o|] eqn:Ho; cbn; [|set_solver].
  destruct (ov_items o !! 0) as [fb|] eqn:Hfb; cbn; [|set_solver].
  destruct (v_fb V !! fb) as [b|] eqn:Hb; cbn; [|set_solver].
  destruct (v_files V !! g) as [o'|] eqn:Ho'; cbn; [|set_solver].
  destruct (ov_items o' !! 0) as [fb'|] eqn:Hfb'; cbn; [|set_solver].
  destruct (v_fb V !! fb') as [b'|] eqn:Hb'; cbn; [|set_solver].
  destruct (i_apart _ _ HV f g o o' Ho Ho' Hne) as [_ Ha].
  destruct (Ha fb fb' b b'); auto.
Qed.
End Files.

(** ** Contents across steps *)

Lemma file_content_data_same w w' f :
  fs_inv w -> w_super w' = w_super w -> data_same w w' ->
  file_blocks (view_of w') f = file_blocks (view_of w) f ->
  file_size (view_of w') f = file_size (view_of w) f ->
  file_content w' f = file_content w f.
Proof.
  intros Hi Hs Hd Hb Hz. unfold file_content. rewrite Hs, Hb, Hz.
  apply content_of_ext. intros i Hr. apply Hd. apply byte_addr_lower; [|lia].
  by apply (file_blocks_nonneg _ _ (fi_inv _ Hi)).
Qed.

Lemma file_content_meta_step w w' f :
  fs_inv w -> meta_step w w' -> file_content w' f = file_content w f.
Proof.
  intros Hi [HE HD HV _]. apply file_content_data_same; try done; [apply HE|..]; by rewrite HV.
Qed.

Lemma file_content_length w f :
  fs_inv w -> Z.of_nat (length (file_content w f)) = file_size (view_of w) f.
Proof.
  intros Hi. unfold file_content. rewrite content_of_length.
  pose proof (file_size_nonneg _ _ (fi_inv _ Hi) f). lia.
Qed.
