(* ===== verification/FileGrow.v ===== *)
(** * Growing a file: [ExtendFile]

    The file block takes the new data blocks from the pool, nothing of the old
    content changes, and whatever the device answers the file system stays
    consistent. *)

From S2P Require Import Prelude Meta Device World SuperBlock Resources FileBlock Inode Directory.
From S2P Require Import FileHandle File Io Invariant MetaSteps Views Content.

(** ** Arithmetic of block counts *)

(** blocks that hold [n] bytes *)
Definition blocks_for (n : Z) : Z := (n + kBlockSize - 1) / kBlockSize.

Lemma blocks_for_spec n :
  0 <= n -> n <= kBlockSize * blocks_for n < n + kBlockSize /\ 0 <= blocks_for n.
Proof.
  intros Hn. unfold blocks_for. units.
  pose proof (Z.div_mod (n + 4194304 - 1) 4194304 ltac:(lia)).
  pose proof (Z.mod_pos_bound (n + 4194304 - 1) 4194304 ltac:(lia)).
  pose proof (Z.div_pos (n + 4194304 - 1) 4194304 ltac:(lia) ltac:(lia)). lia.
Qed.

Lemma num_blocks_needed_eq size offset :
  0 <= size < offset -> offset <= kBlockFsMaxUDiskSize ->
  num_blocks_needed size offset = blocks_for offset - blocks_for size.
Proof.
  intros Hs Ho. unfold num_blocks_needed, last_block_left, blocks_for, ALIGN_UP. units.
  rewrite (wrap_small 64 (offset - size)) by lia.
  pose proof (Z.div_mod size 4194304 ltac:(lia)).
  pose proof (Z.mod_pos_bound size 4194304 ltac:(lia)).
  destruct (Z.eqb_spec (size mod 4194304) 0) as [Hz|Hz].
  - destruct (Z.leb_spec (offset - size) 0); [lia|].
    rewrite Z.sub_0_r. rewrite (wrap_small 64 (4194304 - 1)) by lia.
    rewrite (wrap_small 64) by lia.
    replace (size + 4194304 - 1) with (size / 4194304 * 4194304 + (4194304 - 1)) by lia.
    rewrite Z.div_add_l, (Z.div_small (4194304 - 1)) by lia.
    replace (offset + 4194304 - 1)
      with (size / 4194304 * 4194304 + (offset - size + (4194304 - 1))) by lia.
    rewrite Z.div_add_l by lia.
    pose proof (Z.div_pos (offset - size + (4194304 - 1)) 4194304 ltac:(lia) ltac:(lia)).
    pose proof (Z.div_lt_upper_bound (offset - size + (4194304 - 1)) 4194304 (2 ^ 32) ltac:(lia) ltac:(lia)).
    rewrite wrap_small by lia. lia.
  - set (q := size / 4194304) in *. set (r := size mod 4194304) in *.
    replace (size + 4194304 - 1) with ((q + 1) * 4194304 + (r - 1)) by lia.
    rewrite (Z.div_add_l (q + 1)), (Z.div_small (r - 1)) by lia.
    replace (offset + 4194304 - 1)
      with ((q + 1) * 4194304 + (offset - (q + 1) * 4194304 + (4194304 - 1))) by lia.
    rewrite Z.div_add_l by lia.
    destruct (Z.leb_spec (offset - size) (4194304 - r)).
    + rewrite Z.div_small by lia. lia.
    + rewrite (wrap_small 64 (4194304 - 1)) by lia. rewrite (wrap_small 64) by lia.
      replace (offset - size - (4194304 - r) + (4194304 - 1))
        with (offset - (q + 1) * 4194304 + (4194304 - 1)) by lia.
      pose proof (Z.div_pos (offset - (q + 1) * 4194304 + (4194304 - 1)) 4194304 ltac:(lia) ltac:(lia)).
      pose proof (Z.div_lt_upper_bound (offset - (q + 1) * 4194304 + (4194304 - 1)) 4194304 (2 ^ 32)
                    ltac:(lia) ltac:(lia)).
      rewrite wrap_small by lia. lia.
Qed.

(** ** Frames: what leaves a file alone *)

Lemma file_frame V V' g :
  v_files V' !! g = v_files V !! g ->
  (forall fb, file_fb V g = Some fb -> v_fb V' !! fb = v_fb V !! fb) ->
  (forall o, v_files V !! g = Some o -> v_fm V' !! ov_meta o = v_fm V !! ov_meta o) ->
  file_blocks V' g = file_blocks V g /\ file_size V' g = file_size V g.
Proof.
  intros Hf Hb Hm. unfold file_blocks, file_size, file_fb in *. rewrite Hf.
  destruct (v_files V !! g) as [o|] eqn:Ho; cbn in *; [|done].
  rewrite (Hm o eq_refl). split; [|done].
  destruct (ov_items o !! 0) as [fb|]; cbn; [|done]. by rewrite Hb.
Qed.

Lemma file_fb_inj sb V f g fb :
  inv sb V -> file_fb V f = Some fb -> file_fb V g = Some fb -> f = g.
Proof.
  intros HV Hf Hg. destruct (decide (f = g)) as [|Hne]; [done|exfalso]. unfold file_fb in *.
  destruct (v_files V !! f) as [o|] eqn:Ho; cbn in *; [|done].
  destruct (v_files V !! g) as [o'|] eqn:Ho'; cbn in *; [|done].
  destruct (i_apart _ _ HV f g o o' Ho Ho' Hne) as [_ Ha].
  destruct (i_files _ _ HV _ _ Ho) as (_ & _ & m & _ & _ & [[He _]|(fb' & b & He & Hb & _)]).
  - by rewrite He in Hf.
  - rewrite He, lookup_singleton_eq in Hf. simplify_eq. destruct (Ha fb fb b b); try done.
    by rewrite He, lookup_singleton_eq.
Qed.

Lemma file_meta_inj sb V f g o o' :
  inv sb V -> v_files V !! f = Some o -> v_files V !! g = Some o' -> ov_meta o = ov_meta o' -> f = g.
Proof.
  intros HV Ho Ho' Heq. destruct (decide (f = g)) as [|Hne]; [done|exfalso].
  by destruct (i_apart _ _ HV f g o o' Ho Ho' Hne).
Qed.

Lemma file_fb_live V f fb : file_fb V f = Some fb -> live_fb V fb.
Proof.
  unfold file_fb. destruct (v_files V !! f) as [o|] eqn:Ho; cbn; [|done]. intros. by exists f, o.
Qed.

(** ** Filling a file block *)

Lemma fb_blocks_length m : fb_meta_ok m -> Z.of_nat (length (fb_blocks m)) = fb_used_block_num m.
Proof.
  intros [[] Hu]. unfold fb_blocks, in_u in *. rewrite length_take, bw_ids. units. lia.
Qed.

Lemma fill_file_block_wp fb ids : forall (w : world) b,
  w_fbmeta w !! fb = Some b -> fb_meta_ok b -> Forall (in_u 32) ids ->
  wp (fill_file_block fb ids) (fun ok w' => exists b' ids',
    ids' `prefix_of` ids /\ w' = set_w_fbmeta (<[fb := b']> (w_fbmeta w)) w /\ fb_meta_ok b' /\
    view_fb b' = MkFbView (fb_used b) (fb_file_cut b) (fb_blocks b ++ ids') /\
    (ok = true -> ids' = ids) /\
    (fb_used_block_num b + Z.of_nat (length ids) <= kFileBlockCapacity -> ok = true)) w.
Proof.
  induction ids as [|i ids IH]; intros w b Hb Hok Hids; cbn [fill_file_block].
  - wp_step. exists b, []. rewrite app_nil_r, insert_id by done.
    split_and!; try done. by destruct w.
  - apply wp_bind. eapply wp_get_fbmeta; [done|]. inversion_clear Hids as [|? ? Hi Hids'].
    destruct (is_block_full b) eqn:Hfull; cbn [negb].
    + wp_step. exists b, []. rewrite app_nil_r, insert_id by done.
      split_and!; try done; [apply prefix_nil|by destruct w|].
      apply Z.eqb_eq in Hfull. cbn [length]. lia.
    + apply Z.eqb_neq in Hfull. destruct Hok as [Hwf Hu].
      destruct (add_block_id_blocks i b) as (b1 & Hadd & Hbl & Hn & Hlen & ->);
        [apply Hwf|destruct Hwf; unfold in_u in *; lia|].
      wp_step. wp_step; [done|]. apply wp_bind, wp_put_fbmeta.
      set (b1 := set_fb_used_block_num _ _) in *.
      assert (Hok1 : fb_meta_ok b1).
      { destruct Hwf. units. split; [|rewrite Hn; units; lia]. constructor; try done.
        - rewrite Hn. unfold in_u in *. lia.
        - cbn. by apply Forall_insert. }
      eapply wp_mono; [apply (IH _ b1); [apply lookup_insert_eq|done|done]|].
      intros ok w' (b' & ids' & Hpre & -> & Hok' & Hv & Ht & Hf).
      exists b', (i :: ids'). split_and!; try done.
      * by apply prefix_cons.
      * cbn. by rewrite insert_insert_eq.
      * rewrite Hv, Hbl, <- app_assoc. done.
      * intros Htrue. by rewrite Ht.
      * cbn [length]. intros. apply Hf. rewrite Hn. lia.
Qed.

(** ** A file of a consistent world *)

Definition file_facts (w : world) (f : Z) (o : file) (m : FileMeta) : Prop :=
  w_files w !! f = Some o /\ w_filemeta w !! fo_meta o = Some m /\ fm_fh m = fo_meta o /\
  0 <= fo_meta o < sb_max_file_num (w_super w) /\ file_wf m /\
  file_size (view_of w) f = fm_size m.

Definition fb_facts (w : world) (f : Z) (o : file) (m : FileMeta) (fb : Z) (b : FileBlockMeta)
    : Prop :=
  fo_items o = {[0 := fb]} /\ w_fbmeta w !! fb = Some b /\ fb_meta_ok b /\
  0 <= fb < sb_max_file_block_num (w_super w) /\ fb_used b = true /\ fb_file_cut b = 0 /\
  0 < fm_size m <= kBlockSize * fb_used_block_num b /\ file_blocks (view_of w) f = fb_blocks b /\
  file_fb (view_of w) f = Some fb.

Lemma file_world w f o :
  fs_inv w -> w_files w !! f = Some o ->
  exists m, file_facts w f o m /\
    ((fo_items o = ∅ /\ fm_size m = 0 /\ file_blocks (view_of w) f = [] /\
      file_fb (view_of w) f = None) \/
     exists fb b, fb_facts w f o m fb b).
Proof.
  intros Hi Ho. pose proof (view_files_lookup _ _ _ Ho) as Hv.
  destruct (i_files _ _ (fi_inv _ Hi) _ _ Hv) as (_ & _ & mv & Hm & Hfh & Hit).
  apply view_fm_lookup in Hm as (m & Hm & ->). cbn in Hm, Hfh, Hit.
  assert (Hff : file_facts w f o m).
  { split_and!; try done; [by eapply filemeta_range..|by apply (proj2 (fi_wf _ Hi) _ _ Hm)|].
    unfold file_size. rewrite Hv. cbn. rewrite lookup_fmap, Hm. done. }
  exists m. split; [done|].
  destruct (file_cases _ _ (fi_inv _ Hi) _ _ Hv) as [(?&Hs&?&?)|(fb&bv&He&?&Hb&?&?&?&Hs&?)].
  - left. destruct Hff as (_&_&_&_&_&Hz). split_and!; try done. by rewrite <- Hz.
  - right. apply view_fb_lookup in Hb as (b & Hb & ->). exists fb, b.
    destruct Hff as (_&_&_&_&_&Hz). rewrite Hz in Hs.
    assert (Hok : fb_meta_ok b) by apply (proj1 (fi_wf _ Hi) _ _ Hb).
    cbn [view_fb bv_blocks] in Hs. rewrite (fb_blocks_length b Hok) in Hs.
    split_and!; try done; try lia; by eapply fbmeta_range.
Qed.

(** ** The stages of [ExtendFile] *)

Lemma GetFileBlockLock_run w :
  fs_inv w ->
  (w_free_fbhs w = [] /\ GetFileBlockLock w = Done None w) \/
  (exists fb rest b, w_free_fbhs w = fb :: rest /\ w_fbmeta w !! fb = Some b /\ fb_meta_ok b /\
     fb_blocks b = [] /\ GetFileBlockLock w = Done (Some fb) (set_w_free_fbhs rest w)).
Proof.
  intros Hi. unfold GetFileBlockLock. unfold gets. erewrite bind_run by reflexivity.
  destruct (w_free_fbhs w) as [|fb rest] eqn:Hfree; [by left|]. right.
  destruct (proj2 (i_free_fb _ _ (fi_inv _ Hi)) fb) as (bv & Hb & Hu & Hl).
  { cbn. rewrite Hfree. set_solver. }
  apply view_fb_lookup in Hb as (b & Hb & ->).
  assert (Hok : fb_meta_ok b) by apply (proj1 (fi_wf _ Hi) _ _ Hb).
  pose proof (fb_blocks_length b Hok) as Hlen. cbn in Hu, Hl. rewrite Hl in Hlen.
  exists fb, rest, b. split_and!; try done.
  erewrite bind_run by reflexivity. erewrite bind_run by (apply get_fbmeta_run; exact Hb).
  erewrite bind_run by (apply assert_run; by rewrite Hu).
  erewrite bind_run by (apply assert_run; by rewrite <- Hlen). done.
Qed.

Lemma GetFileBlock_run w f o cut :
  w_files w !! f = Some o -> GetFileBlock f cut w = Done (fo_items o !! i32 cut) w.
Proof. intros Ho. unfold GetFileBlock. by erewrite bind_run by by apply get_file_run. Qed.

Lemma extend_file_block_run w f o m :
  fs_inv w -> file_facts w f o m ->
  (extend_file_block f w = Done None w /\
   ((fm_size m = 0 /\ w_free_fbhs w = []) \/
    exists fb b, fb_facts w f o m fb b /\ fb_used_block_num b = kFileBlockCapacity)) \/
  (fm_size m = 0 /\ exists fb rest, w_free_fbhs w = fb :: rest /\
     extend_file_block f w = Done (Some (fb, true)) (set_w_free_fbhs rest w)) \/
  (exists fb b, fb_facts w f o m fb b /\ fb_used_block_num b < kFileBlockCapacity /\
     extend_file_block f w = Done (Some (fb, false)) w).
Proof.
  intros Hi Hff. pose proof Hff as (Ho & Hm & _).
  destruct (file_world w f o Hi Ho) as (m' & (_ & Hm' & _) & Hc). simplify_eq.
  unfold extend_file_block. erewrite bind_run by by eapply file_meta_run.
  erewrite bind_run by by apply get_file_run.
  destruct Hc as [(He & Hs & _)|(fb & b & Hfb)].
  - rewrite Hs, He. cbn [Z.eqb]. erewrite bind_run by by apply assert_run.
    destruct (GetFileBlockLock_run w Hi) as [[? Hr]|(fb & rest & b & Hfree & _ & _ & _ & Hr)].
    + left. erewrite bind_run by done. auto.
    + right; left. split; [done|]. exists fb, rest. split; [done|]. by erewrite bind_run by done.
  - pose proof Hfb as (He & Hb & Hok & _ & _ & _ & Hs & _).
    destruct (Z.eqb_spec (fm_size m) 0); [lia|]. rewrite He, map_size_singleton.
    erewrite bind_run by by apply assert_run.
    erewrite bind_run by by apply GetFileBlock_run.
    rewrite He. change (i32 (Z.of_nat 1 - 1)) with 0. rewrite lookup_singleton_eq.
    erewrite bind_run by by apply get_fbmeta_run.
    destruct (is_block_full b) eqn:Hfull.
    + left. split; [done|]. right. exists fb, b. split; [done|]. by apply Z.eqb_eq in Hfull.
    + right; right. exists fb, b.
      split; [done|]. split; [|done]. apply Z.eqb_neq in Hfull. destruct Hok. lia.
Qed.

Section Grow.
Context `{Env}.

Lemma extend_block_ids_run num fb need (w : world) :
  0 <= num ->
  (0 < num /\ Z.of_nat (size (bh_pool (w_bh w))) < num /\
   extend_block_ids num fb need w =
     Done None (if need then set_w_free_fbhs (w_free_fbhs w ++ [fb]) w else w)) \/
  (exists ids h, extend_block_ids num fb need w = Done (Some ids) (set_w_bh h w) /\
     bh_pool h = bh_pool (w_bh w) ∖ list_to_set ids /\ Z.of_nat (length ids) = num /\ NoDup ids /\
     (forall x, x ∈ ids -> x ∈ bh_pool (w_bh w))).
Proof.
  intros Hn. unfold extend_block_ids. destruct (Z.ltb_spec 0 num).
  - pose proof (Blocks.GetFreeBlockIdLock_eq num w) as Hg.
    destruct (Z.ltb_spec (Z.of_nat (size (bh_pool (w_bh w)))) num); erewrite bind_run by exact Hg.
    + left. split; [done|]. split; [done|]. by destruct need.
    + right. destruct (Blocks.free_ids_spec num (bh_pool (w_bh w))) as (Hl & Hnd & Hin); [lia|].
      eexists _, _. split; [reflexivity|]. split_and!; try done. lia.
  - right. exists [], (w_bh w). split; [by destruct w|]. split_and!; try set_solver.
    + cbn. lia.
    + apply NoDup_nil_2.
Qed.

Lemma files_view_lookup w f ov :
  v_files (view_of w) !! f = Some ov -> exists o, w_files w !! f = Some o /\ ov = view_fo o.
Proof. cbn. rewrite lookup_fmap. destruct (w_files w !! f); naive_solver. Qed.

Definition fm_resize (n : Z) (m : fm_view) : fm_view := MkFmView (mv_fh m) (mv_used m) n.

Lemma extend_set_size_wp w0 w f ov mv offset :
  fs_inv w0 -> env_step w0 w -> 0 <= offset < 2 ^ 64 ->
  v_files (view_of w) !! f = Some ov -> v_fm (view_of w) !! ov_meta ov = Some mv ->
  mv_fh mv = ov_meta ov ->
  let V' := set_v_fm (<[ov_meta ov := fm_resize offset mv]> (v_fm (view_of w))) (view_of w) in
  inv (w_super w0) V' ->
  wp (extend_set_size f offset) (fun r w' => fs_inv w' /\ env_step w w' /\ data_same w w' /\
    view_of w' = V' /\ (r = 0 \/ r = -1) /\ (dev_good w -> r = 0)) w.
Proof.
  intros Hi He Hoff Hf Hm Hfh V' HV'. apply files_view_lookup in Hf as (o & Ho & ->).
  apply view_fm_lookup in Hm as (m & Hm & ->). cbn in Hfh, Hm.
  pose proof (es_wf _ _ He (fi_wf _ Hi)) as Hwf.
  set (m1 := set_fm_size offset m). set (w1 := set_w_filemeta (<[fo_meta o := m1]> (w_filemeta w)) w).
  assert (Hm1 : file_wf m1) by (destruct (proj2 Hwf _ _ Hm); by constructor).
  assert (E1 : env_step w w1) by by apply env_step_filemeta.
  assert (Hv1 : view_of w1 = V') by apply view_set_filemeta.
  assert (Hi1 : fs_inv w1) by (eapply (fs_inv_env w0); [by etrans|done|by rewrite Hv1]).
  assert (Hm1' : w_filemeta w1 !! fo_meta o = Some m1) by apply lookup_insert_eq.
  assert (Hr : 0 <= fo_meta o < sb_max_file_num (w_super w1)) by by eapply filemeta_range.
  pose proof (lo_max_file _ (fi_layout _ Hi1)).
  unfold extend_set_size. apply wp_bind. eapply wp_upd_file_meta; [done..|]. fold m1 w1.
  apply wp_bind. unfold File_WriteMeta, File_fh. apply wp_bind, wp_bind.
  eapply (wp_file_meta f o m1); [done..|]. wp_step.
  change (fm_fh m1) with (fm_fh m). rewrite Hfh, swrap_small by lia.
  eapply wp_mono; [by apply File_WriteMeta_fh_wp|]. intros ok w' (Hs & Hg & _). wp_step.
  split_and!.
  - by eapply fs_inv_meta_step.
  - etrans; [done|apply Hs].
  - eapply data_same_trans; [|by eapply data_same_refl|apply Hs]. done.
  - by rewrite (ms_view _ _ Hs).
  - destruct ok; auto.
  - intros Hgood. by rewrite Hg.
Qed.

(** the blocks taken from the pool fit a record *)
Lemma pool_ids_u32 w ids :
  fs_inv w -> (forall x, x ∈ ids -> x ∈ bh_pool (w_bh w)) -> Forall (in_u 32) ids.
Proof.
  intros Hi Hin. apply Forall_forall. intros x Hx.
  pose proof (i_pool _ _ (fi_inv _ Hi) x (Hin x Hx)). pose proof (lo_blocks _ (fi_layout _ Hi)).
  unfold in_u. lia.
Qed.

(** the new block list after part of [ids] has been added *)
Definition grown (fb : Z) (used : bool) (cut : Z) (blocks : list Z) (pool : gset Z) (V : view) : view :=
  set_v_pool pool (set_v_fb (<[fb := MkFbView used cut blocks]> (v_fb V)) V).

Lemma extend_attach_old w h f o m fb b ids :
  fs_inv w -> file_facts w f o m -> fb_facts w f o m fb b -> NoDup ids ->
  (forall x, x ∈ ids -> x ∈ bh_pool (w_bh w)) ->
  bh_pool h = bh_pool (w_bh w) ∖ list_to_set ids ->
  wp (extend_attach f fb false ids) (fun ok w' => exists ids', ids' `prefix_of` ids /\
    fs_inv w' /\ env_step w w' /\ data_same w w' /\
    view_of w' = grown fb true 0 (fb_blocks b ++ ids') (bh_pool h) (view_of w) /\
    (ok = true -> ids' = ids) /\
    (dev_good w -> fb_used_block_num b + Z.of_nat (length ids) <= kFileBlockCapacity -> ok = true))
   (set_w_bh h w).
Proof.
  intros Hi (Ho & Hm & _) (He & Hb & Hok & Hfbr & Hu & Hc & _) Hnd Hin Hpool.
  unfold extend_attach. apply wp_bind. eapply (wp_file_meta f o m); [done..|].
  apply wp_bind. wp_step. apply wp_bind. eapply wp_mono;
    [by apply (fill_file_block_wp fb ids _ b); [..|eapply pool_ids_u32]|].
  intros ok w1 (b' & ids' & Hpre & -> & Hok' & Hv & Ht & Hf). rewrite Hu, Hc in Hv.
  set (w1 := set_w_fbmeta _ _).
  assert (Hv1 : view_of w1 = grown fb true 0 (fb_blocks b ++ ids') (bh_pool h) (view_of w)).
  { unfold w1. rewrite view_set_fbmeta, Hv. done. }
  assert (E1 : env_step w w1).
  { transitivity (set_w_bh h w); [by constructor|]. by apply env_step_fbmeta. }
  assert (Hi1 : fs_inv w1).
  { eapply fs_inv_env; [done..|]. rewrite Hv1. unfold grown.
    destruct Hpre as [k ->].
    pose proof (inv_grow _ _ (fi_inv _ Hi) f (view_fo o) fb (view_fb b) ids' (bh_pool h)) as Hg.
    cbn [view_fb bv_used bv_cut bv_blocks] in Hg. rewrite Hu, Hc in Hg. apply Hg.
    - by apply view_files_lookup.
    - cbn. by rewrite He, lookup_singleton_eq.
    - by apply view_fb_some.
    - by apply NoDup_app in Hnd as [? _].
    - intros x Hx. apply Hin. set_solver.
    - rewrite Hpool. set_solver. }
  destruct ok; cbn [negb].
  - destruct ids as [|i ids0].
    + wp_step. exists ids'. split_and!; try done.
    + rewrite Ht in * by done. apply wp_bind.
      eapply wp_mono; [apply (FileBlock_WriteMeta_wp w1 fb Hi1); exact Hfbr|].
      intros ok w' (Hs & Hg & _).
      match goal with |- wp _ ?Q _ => enough (Q ok w') by by destruct ok end.
      exists (i :: ids0). split_and!; try done.
      * by eapply fs_inv_meta_step.
      * etrans; [done|apply Hs].
      * intros x Hx. etrans; [by apply (ms_data _ _ Hs)|done].
      * by rewrite (ms_view _ _ Hs).
      * intros Hgood _. apply Hg. by apply (es_good _ _ E1).
  - wp_step. exists ids'. split_and!; try done.
Qed.

Lemma AddFileBlockNoLock_run w f o fb b :
  w_files w !! f = Some o -> fo_items o = ∅ -> w_fbmeta w !! fb = Some b -> fb_file_cut b = 0 ->
  AddFileBlockNoLock f fb w =
    Done true (set_w_files (<[f := set_fo_items {[0 := fb]} o]> (w_files w)) w).
Proof.
  intros Ho He Hb Hc. unfold AddFileBlockNoLock. erewrite bind_run by by apply get_fbmeta_run.
  erewrite bind_run by by apply get_file_run. rewrite He, Hc. change (i32 0) with 0.
  rewrite lookup_empty. destruct (decide _) as [[? ?]|_]; [done|].
  erewrite bind_run by reflexivity. by rewrite insert_empty.
Qed.

(** a free file block, popped from the list, with blocks of the pool in it *)
Lemma filled_new_fb w h fb rest b b' ids' :
  fs_inv w -> w_free_fbhs w = fb :: rest -> w_fbmeta w !! fb = Some b -> fb_meta_ok b' ->
  view_fb b' = MkFbView true 0 ids' -> (forall x, x ∈ bh_pool h -> x ∈ bh_pool (w_bh w)) ->
  let w1 := set_w_fbmeta (<[fb := b']> (w_fbmeta w)) (set_w_bh h (set_w_free_fbhs rest w)) in
  let V3 := grown fb true 0 ids' (bh_pool h) (set_v_free_fb rest (view_of w)) in
  view_of w1 = V3 /\ env_step w w1 /\ inv (w_super w) V3 /\ fs_inv w1.
Proof.
  intros Hi Hfree Hb Hok' Hv Hpool w1 V3.
  assert (Hv1 : view_of w1 = V3).
  { etrans; [apply (view_set_fbmeta (set_w_bh h (set_w_free_fbhs rest w)) fb b')|]. by rewrite Hv. }
  assert (E1 : env_step w w1).
  { transitivity (set_w_bh h (set_w_free_fbhs rest w)); [by constructor|].
    by apply (env_step_fbmeta (set_w_bh h (set_w_free_fbhs rest w))). }
  assert (Hnf : fb ∉ rest).
  { destruct (i_free_fb _ _ (fi_inv _ Hi)) as [Hn _]. cbn in Hn. rewrite Hfree in Hn.
    by apply NoDup_cons in Hn as [? _]. }
  assert (HV3 : inv (w_super w) V3).
  { apply inv_pool; [|cbn; intros x Hx; left; by apply Hpool]. apply inv_fb_dead.
    - apply (inv_free_fb_pop _ _ (fi_inv _ Hi) fb rest Hfree).
    - cbn. rewrite lookup_fmap, Hb. eauto.
    - intros Hlive. apply (live_fb_not_free _ _ (fi_inv _ Hi)) in Hlive. cbn in Hlive.
      rewrite Hfree in Hlive. set_solver.
    - done. }
  split; [done|]. split; [done|]. split; [done|]. eapply fs_inv_env; [done..|]. by rewrite Hv1.
Qed.

Lemma extend_attach_new w h f o m fb rest ids :
  fs_inv w -> file_facts w f o m -> fo_items o = ∅ -> w_free_fbhs w = fb :: rest -> ids <> [] ->
  (forall x, x ∈ ids -> x ∈ bh_pool (w_bh w)) ->
  bh_pool h = bh_pool (w_bh w) ∖ list_to_set ids ->
  wp (extend_attach f fb true ids) (fun ok w' => exists ids',
    let V3 := grown fb true 0 ids' (bh_pool h) (set_v_free_fb rest (view_of w)) in
    ids' `prefix_of` ids /\ env_step w w' /\ data_same w w' /\ inv (w_super w) V3 /\
    (if ok then ids' = ids /\
       view_of w' = set_v_files (<[f := MkFoView (fo_meta o) {[0 := fb]}]> (v_files V3)) V3
     else view_of w' = V3) /\
    (dev_good w -> Z.of_nat (length ids) <= kFileBlockCapacity -> ok = true))
   (set_w_bh h (set_w_free_fbhs rest w)).
Proof.
  intros Hi (Ho & Hm & Hfh & _) He Hfree Hne Hin Hpool.
  destruct (proj2 (i_free_fb _ _ (fi_inv _ Hi)) fb) as (bv & Hb & Hu & Hl).
  { cbn. rewrite Hfree. set_solver. }
  apply view_fb_lookup in Hb as (b & Hb & ->). cbn in Hu, Hl.
  assert (Hok : fb_meta_ok b) by apply (proj1 (fi_wf _ Hi) _ _ Hb).
  pose proof (fb_blocks_length b Hok) as Hlen. rewrite Hl in Hlen. cbn in Hlen.
  pose proof (fbmeta_range _ _ _ Hi Hb) as Hfbr.
  unfold extend_attach. apply wp_bind. eapply (wp_file_meta f o m); [done..|].
  apply wp_bind. eapply wp_upd_fbmeta; [done|]. set (b1 := set_fb_is_temp _ _).
  assert (Hok1 : fb_meta_ok b1).
  { destruct Hok as [[] ?]. split; [|done]. constructor; try done. apply wrap_bound. lia. }
  assert (Hbl1 : fb_blocks b1 = []) by done.
  apply wp_bind. eapply wp_mono; [apply (fill_file_block_wp fb ids _ b1);
    [apply lookup_insert_eq|done|by eapply pool_ids_u32]|].
  intros ok w1 (b' & ids' & Hpre & -> & Hok' & Hv & Ht & Hf). rewrite Hbl1 in Hv.
  change (fb_used b1) with true in Hv. change (fb_file_cut b1) with 0 in Hv. cbn in Hv.
  match goal with |- context [wp _ _ ?x] => set (w1 := x) end.
  assert (Hw1 : w1 = set_w_fbmeta (<[fb := b']> (w_fbmeta w)) (set_w_bh h (set_w_free_fbhs rest w))).
  { unfold w1. cbn. by rewrite insert_insert_eq. }
  clearbody w1. subst w1.
  destruct (filled_new_fb w h fb rest b b' ids' Hi Hfree Hb Hok') as (Hv1 & E1 & HV3 & Hi1);
    [by rewrite Hv|rewrite Hpool; set_solver|].
  set (w1 := set_w_fbmeta _ _) in *. set (V3 := grown _ _ _ _ _ _) in *.
  destruct ok; cbn [negb].
  - assert (ids' = ids) by auto. subst ids'. destruct ids as [|i ids0]; [done|].
    apply wp_bind. eapply wp_mono; [apply (FileBlock_WriteMeta_wp w1 fb Hi1); exact Hfbr|].
    intros ok w' (Hs & Hg & _ & b0 & Hb0 & Hb'').
    destruct ok; cbn [negb].
    + assert (exists o', w_files w' !! f = Some o' /\ view_fo o' = view_fo o) as (o' & Ho' & Hvo).
      { apply view_files_lookup in Ho. change (v_files (view_of w)) with (v_files V3) in Ho.
        rewrite <- Hv1, <- (ms_view _ _ Hs) in Ho. apply files_view_lookup in Ho as (o' & ? & ?).
        by exists o'. }
      apply wp_bind. unfold wp. unfold w1 in Hb0. cbn in Hb0. rewrite lookup_insert_eq in Hb0.
      injection Hb0 as <-.
      erewrite (AddFileBlockNoLock_run w' f o' fb);
        [|done|by injection Hvo as _ ->|exact Hb''|by injection Hv]. cbn.
      exists (i :: ids0). fold V3. split_and!; try done.
      * etrans; [exact E1|]. etrans; [apply Hs|apply env_step_files].
      * intros x Hx. etrans; [by apply (ms_data _ _ Hs)|done].
      * etrans; [apply (view_set_files w' f (set_fo_items {[0 := fb]} o'))|].
        rewrite (ms_view _ _ Hs), Hv1. unfold view_fo. cbn. do 2 f_equal.
        by injection Hvo as -> _.
    + wp_step. exists (i :: ids0). fold V3. split_and!; try done.
      * etrans; [exact E1|apply Hs].
      * intros x Hx. etrans; [by apply (ms_data _ _ Hs)|done].
      * by rewrite (ms_view _ _ Hs).
      * intros Hgood _. apply Hg. by apply (es_good _ _ E1).
  - wp_step. exists ids'. fold V3. split_and!; try done.
    intros _ Hroom. apply Hf. change (fb_used_block_num b1) with (fb_used_block_num b). lia.
Qed.

(** ** [ExtendFile] *)

(** enough space for the growth *)
Definition extend_room (w : world) (f offset : Z) : Prop :=
  let V := view_of w in
  let n := blocks_for offset - blocks_for (file_size V f) in
  offset <= sb_device_size (w_super w) /\ n <= Z.of_nat (size (v_pool V)) /\
  Z.of_nat (length (file_blocks V f)) + n <= kFileBlockCapacity /\
  (if file_size V f =? 0 then v_free_fb V <> []
   else Z.of_nat (length (file_blocks V f)) < kFileBlockCapacity).

(** what every run of a growth leaves: the blocks of the file are the old ones and
    some new ones, the other files are as they were *)
Record extend_post (w : world) (f offset : Z) (r : Z) (w' : world) : Prop := {
  xp_inv : fs_inv w';
  xp_env : env_step w w';
  xp_data : data_same w w';
  xp_ret : r = 0 \/ r = -1;
  xp_file : forall g, is_Some (v_files (view_of w) !! g) -> is_Some (v_files (view_of w') !! g);
  xp_other : forall g, g <> f -> file_blocks (view_of w') g = file_blocks (view_of w) g /\
    file_size (view_of w') g = file_size (view_of w) g;
  xp_size : file_size (view_of w') f = file_size (view_of w) f \/
    file_size (view_of w') f = offset;
  xp_blocks : exists new, file_blocks (view_of w') f = file_blocks (view_of w) f ++ new /\
    (r = 0 -> file_size (view_of w') f = offset /\ NoDup new /\
       Z.of_nat (length new) = blocks_for offset - blocks_for (file_size (view_of w) f) /\
       (forall x, x ∈ new -> x ∈ v_pool (view_of w)) /\
       v_pool (view_of w') = v_pool (view_of w) ∖ list_to_set new);
  xp_good : dev_good w -> extend_room w f offset -> r = 0
}.

(** a failure that changes nothing a file shows *)
Lemma extend_post_fail w f offset w' :
  fs_inv w' -> env_step w w' -> data_same w w' -> is_Some (v_files (view_of w) !! f) ->
  v_files (view_of w') = v_files (view_of w) -> v_fm (view_of w') = v_fm (view_of w) ->
  (forall g fb, file_fb (view_of w) g = Some fb -> g <> f ->
     v_fb (view_of w') !! fb = v_fb (view_of w) !! fb) ->
  (exists new, file_blocks (view_of w') f = file_blocks (view_of w) f ++ new) ->
  (dev_good w -> extend_room w f offset -> False) ->
  extend_post w f offset (-1) w'.
Proof.
  intros Hi' He Hd [ov Hov] Hf Hm Hb [new Hnew] Hno. constructor; try done.
  - by right.
  - intros g. by rewrite Hf.
  - intros g Hg. apply file_frame; [by rewrite Hf| |intros; by rewrite Hm].
    intros fb Hfb. by eapply Hb.
  - left. unfold file_size. by rewrite Hf, Hm.
  - by exists new.
  - intros Hg Hroom. by destruct (Hno Hg Hroom).
Qed.

Lemma extend_post_same w f offset :
  fs_inv w -> is_Some (v_files (view_of w) !! f) ->
  (dev_good w -> extend_room w f offset -> False) -> extend_post w f offset (-1) w.
Proof. intros Hi Hf Hno. apply extend_post_fail; try done. exists []. by rewrite app_nil_r. Qed.

(** the growth of an empty file: it gets a file block of its own *)
Section NewBlock.
Context (w : world) (f offset : Z) (o : file) (m : FileMeta) (fb : Z) (rest : list Z).
Context (Hi : fs_inv w) (Hff : file_facts w f o m) (He : fo_items o = ∅) (Hz : fm_size m = 0).
Context (Hfree : w_free_fbhs w = fb :: rest).
Context (Hoff : 0 < offset <= kBlockFsMaxUDiskSize).

Let V := view_of w.

Lemma new_fb_dead : ~ live_fb V fb /\ fb ∉ rest.
Proof using Hi Hfree.
  split.
  - intros Hl%(live_fb_not_free _ _ (fi_inv _ Hi)). cbn in Hl. rewrite Hfree in Hl.
    by apply not_elem_of_cons in Hl as [? _].
  - destruct (i_free_fb _ _ (fi_inv _ Hi)) as [Hn _]. cbn in Hn. rewrite Hfree in Hn.
    by apply NoDup_cons in Hn as [? _].
Qed.

Lemma new_file_empty : file_size V f = 0 /\ file_blocks V f = [] /\
  v_files V !! f = Some (MkFoView (fo_meta o) ∅).
Proof using Hi Hff He Hz.
  destruct Hff as (Ho & Hm & _ & _ & _ & Hs). unfold V. rewrite Hs, Hz. split; [done|].
  assert (Hv : v_files (view_of w) !! f = Some (MkFoView (fo_meta o) ∅)).
  { rewrite (view_files_lookup _ _ _ Ho). unfold view_fo. by rewrite He. }
  split; [|done]. unfold file_blocks, file_fb. rewrite Hv. cbn. by rewrite lookup_empty.
Qed.

(** files other than [f] do not see the new file block *)
Lemma new_other V' g :
  v_files V' !! g = v_files V !! g -> g <> f ->
  (forall i, i <> fb -> v_fb V' !! i = v_fb V !! i) ->
  (forall i, i <> fo_meta o -> v_fm V' !! i = v_fm V !! i) ->
  file_blocks V' g = file_blocks V g /\ file_size V' g = file_size V g.
Proof using Hi Hff He Hz Hfree.
  intros Hg Hne Hb Hm. apply file_frame; [done| |].
  - intros fbg Hfbg. apply Hb. intros ->. apply (proj1 new_fb_dead). by eapply file_fb_live.
  - intros og Hog. apply Hm. intros Heq. destruct new_file_empty as (_ & _ & Hv).
    apply Hne. by eapply (file_meta_inj _ _ g f og _ (fi_inv _ Hi)).
Qed.

Context (ids : list Z) (pool : gset Z).
Context (Hnd : NoDup ids) (Hin : forall x, x ∈ ids -> x ∈ v_pool V).
Context (Hpool : pool = v_pool V ∖ list_to_set ids).
Context (Hlen : Z.of_nat (length ids) = blocks_for offset).

Let V3 := grown fb true 0 ids pool (set_v_free_fb rest V).
Let mv := view_fm m.

Lemma new_view_inv :
  inv (w_super w) V3 ->
  inv (w_super w) (set_v_files (<[f := MkFoView (fo_meta o) {[0 := fb]}]> (v_files V3))
    (set_v_fm (<[fo_meta o := fm_resize offset mv]> (v_fm V3)) V3)).
Proof using All.
  intros HV3. destruct new_fb_dead as [Hdead Hrest]. destruct new_file_empty as (_ & _ & Hv).
  pose proof Hff as (Ho & Hm & Hfh & _). pose proof (blocks_for_spec offset ltac:(lia)) as Hb.
  destruct (i_files _ _ (fi_inv _ Hi) _ _ Hv) as (Hp & Hf & _).
  apply (inv_put_file _ _ HV3 f (MkFoView (fo_meta o) {[0 := fb]})); try done.
  - cbn. rewrite lookup_fmap, Hm. eauto.
  - right. exists fb. eexists. split; [done|]. split; [apply lookup_insert_eq|].
    split_and!; try done; cbn; try lia.
    split; [done|]. intros x Hx. split.
    + by apply (i_pool _ _ (fi_inv _ Hi)), Hin.
    + rewrite Hpool. set_solver.
  - intros g og Hne Hg. change (v_files V !! g = Some og) in Hg.
    destruct (i_apart _ _ (fi_inv _ Hi) g f og _ Hg Hv Hne) as [Hmeta _].
    split; [done|]. cbn. rewrite lookup_singleton_eq.
    intros fb1 fb2 b1 b2 Hfb1 [= <-] Hb1 Hb2. rewrite lookup_insert_eq in Hb2. simplify_eq.
    assert (fb1 <> fb) by (intros ->; apply Hdead; by exists g, og).
    rewrite lookup_insert_ne in Hb1 by done. split; [done|]. cbn. intros x Hx Hx'.
    destruct (live_block_pool _ _ (fi_inv _ Hi) x) as [? _]; [by exists g, og, fb1, b1|].
    by apply Hin in Hx'.
Qed.

Lemma new_view_post V' :
  V' = set_v_fm (<[fo_meta o := fm_resize offset mv]> (v_fm V3))
         (set_v_files (<[f := MkFoView (fo_meta o) {[0 := fb]}]> (v_files V3)) V3) ->
  file_blocks V' f = ids /\ file_size V' f = offset /\ v_pool V' = pool /\
  (forall g, g <> f -> file_blocks V' g = file_blocks V g /\ file_size V' g = file_size V g).
Proof using Hi Hff He Hz Hfree.
  intros ->. split; [|split; [|split; [done|]]]; cycle 2.
  { intros g Hg. apply new_other; cbn; [by rewrite lookup_insert_ne|done| |];
      intros; by rewrite lookup_insert_ne. }
  - unfold file_blocks, file_fb. cbn. rewrite lookup_insert_eq. cbn.
    rewrite lookup_singleton_eq. cbn. by rewrite lookup_insert_eq.
  - unfold file_size. cbn. rewrite lookup_insert_eq. cbn. by rewrite lookup_insert_eq.
Qed.
End NewBlock.

(** the rest of [ExtendFile] once the file block is chosen *)
Definition extend_rest (f offset num fb : Z) (need : bool) : Fs Z :=
  let! ids := extend_block_ids num fb need in
  match ids with
  | None => ret (-1)
  | Some block_ids =>
    let! ok := extend_attach f fb need block_ids in
    if negb ok then ret (-1) else extend_set_size f offset
  end.

Lemma blocks_for_pos n : 0 < n -> 0 < blocks_for n.
Proof. intros Hn. pose proof (blocks_for_spec n ltac:(lia)). units. lia. Qed.

Lemma blocks_for_0 : blocks_for 0 = 0.
Proof. reflexivity. Qed.

Lemma blocks_for_mono n m : 0 <= n <= m -> blocks_for n <= blocks_for m.
Proof. intros. apply Z.div_le_mono; units; lia. Qed.

Lemma extend_rest_new w f offset o m fb rest :
  fs_inv w -> file_facts w f o m -> fo_items o = ∅ -> fm_size m = 0 ->
  w_free_fbhs w = fb :: rest -> 0 < offset <= kBlockFsMaxUDiskSize ->
  wp (extend_rest f offset (blocks_for offset) fb true) (extend_post w f offset)
     (set_w_free_fbhs rest w).
Proof.
  intros Hi Hff He Hz Hfree Hoff.
  destruct (new_file_empty w f o m Hi Hff He Hz) as (Hs0 & Hb0 & Hv).
  destruct (new_fb_dead w fb rest Hi Hfree) as [Hdead Hrest].
  pose proof Hff as (Ho & Hm & Hfh & _). pose proof (blocks_for_pos offset ltac:(lia)) as Hpos.
  assert (Hvf : is_Some (v_files (view_of w) !! f)) by eauto.
  unfold extend_rest. apply wp_bind. unfold wp at 1.
  destruct (extend_block_ids_run (blocks_for offset) fb true (set_w_free_fbhs rest w))
    as [(_ & Hsz & ->)|(ids & h & -> & Hpool & Hlen & Hnd & Hin)]; [lia| |].
  - wp_step. destruct (proj2 (i_free_fb _ _ (fi_inv _ Hi)) fb) as (bv & Hb & Hu & Hl).
    { cbn. rewrite Hfree. set_solver. }
    pose proof (inv_free_fb_pop _ _ (fi_inv _ Hi) fb rest Hfree) as Hpop.
    pose proof (inv_free_fb_push _ _ Hpop fb bv Hrest Hdead Hb Hu Hl) as Hpush.
    set (w' := set_w_free_fbhs _ _).
    assert (E' : env_step w w') by by constructor.
    apply extend_post_fail; try done.
    + by eapply fs_inv_env.
    + exists []. by rewrite app_nil_r.
    + intros _ (_ & Hn & _). rewrite Hs0, blocks_for_0 in Hn. cbn in Hn, Hsz. lia.
  - assert (ids <> []) by (intros ->; cbn in Hlen; lia).
    apply wp_bind. eapply wp_mono; [by apply (extend_attach_new w h f o m fb rest ids)|].
    intros ok w1 (ids' & Hpre & E1 & D1 & HV3 & Hok & Hg). destruct ok; cbn [negb].
    + destruct Hok as [-> Hv1].
      pose proof (new_view_inv w f offset o m fb rest Hi Hff He Hz Hfree Hoff ids (bh_pool h)
                    Hnd Hin Hpool Hlen HV3) as Hinv.
      eapply wp_mono; [apply (extend_set_size_wp w w1 f (MkFoView (fo_meta o) {[0 := fb]})
        (view_fm m) offset Hi E1); [units; lia|rewrite Hv1; apply lookup_insert_eq|
        rewrite Hv1; by apply view_fm_some|done|rewrite Hv1; exact Hinv]|].
      intros r w' (Hi' & E' & D' & Hv' & Hr & Hg'). rewrite Hv1 in Hv'.
      destruct (new_view_post w f offset o m fb rest Hi Hff He Hz Hfree ids (bh_pool h) _ Hv')
        as (P1 & P2 & P3 & P4).
      constructor; try done.
      * by etrans.
      * by apply (data_same_trans w w1 w'); [apply E1|..].
      * intros g Hg0. rewrite Hv'. apply lookup_insert_is_Some'. by right.
      * by right.
      * exists ids. rewrite P1, Hb0. split; [done|]. intros _. rewrite Hs0, blocks_for_0.
        split_and!; try done; [lia|]. rewrite P3, Hpool. done.
      * intros Hgood _. apply Hg'. by apply E1.
    + wp_step. apply extend_post_fail; try done.
      * eapply fs_inv_env; [done..|]. by rewrite Hok.
      * by rewrite Hok.
      * by rewrite Hok.
      * intros g fbg Hfbg Hne. rewrite Hok. cbn. rewrite lookup_insert_ne; [done|].
        intros <-. apply Hdead. by eapply file_fb_live.
      * rewrite Hb0. by eexists.
      * intros Hgood (_ & _ & Hc & _). rewrite Hb0, Hs0, blocks_for_0 in Hc. cbn in Hc.
        by apply Hg in Hgood; [|lia].
Qed.

Lemma blocks_for_le n k : 0 <= n <= kBlockSize * k -> blocks_for n <= k.
Proof.
  intros Hn. unfold blocks_for. units. apply Z.lt_succ_r, Z.div_lt_upper_bound; lia.
Qed.

(** the growth of a file that has a file block *)
Section OldBlock.
Context (w : world) (f offset : Z) (o : file) (m : FileMeta) (fb : Z) (b : FileBlockMeta).
Context (Hi : fs_inv w) (Hff : file_facts w f o m) (Hfb : fb_facts w f o m fb b).
Context (Hoff : fm_size m < offset <= kBlockFsMaxUDiskSize).

Let V := view_of w.
Let mv := view_fm m.

(** [ids'] went into the file block *)
Context (ids' : list Z) (pool : gset Z).
Let V3 := grown fb true 0 (fb_blocks b ++ ids') pool V.

Lemma old_file_view : v_files V !! f = Some (MkFoView (fo_meta o) {[0 := fb]}).
Proof using Hff Hfb.
  destruct Hff as (Ho & _), Hfb as (He & _). unfold V.
  rewrite (view_files_lookup _ _ _ Ho). unfold view_fo. by rewrite He.
Qed.

Lemma old_other V' g :
  v_files V' !! g = v_files V !! g -> g <> f ->
  (forall i, i <> fb -> v_fb V' !! i = v_fb V !! i) ->
  (forall i, i <> fo_meta o -> v_fm V' !! i = v_fm V !! i) ->
  file_blocks V' g = file_blocks V g /\ file_size V' g = file_size V g.
Proof using Hi Hff Hfb.
  intros Hg Hne Hb Hm. pose proof (fi_inv _ Hi) as HV. apply file_frame; [done| |].
  - intros fbg Hfbg. apply Hb. intros ->. apply Hne. apply (file_fb_inj _ _ g f fb HV Hfbg).
    by destruct Hfb as (_ & _ & _ & _ & _ & _ & _ & _ & ?).
  - intros og Hog. apply Hm. intros Heq. apply Hne.
    by apply (file_meta_inj _ _ g f og _ HV Hog old_file_view).
Qed.

Lemma old_view_blocks V' :
  v_files V' = v_files V -> v_fb V' = v_fb V3 -> file_blocks V' f = file_blocks V f ++ ids'.
Proof using Hff Hfb.
  intros Hf Hb. destruct Hfb as (_ & _ & _ & _ & _ & _ & _ & Hbl & _). fold V in Hbl.
  rewrite Hbl. unfold file_blocks, file_fb. rewrite Hf, old_file_view, Hb. cbn.
  rewrite lookup_singleton_eq. cbn. by rewrite lookup_insert_eq.
Qed.

Context (Hlen : Z.of_nat (length ids') = blocks_for offset - blocks_for (fm_size m)).
Context (HV3 : inv (w_super w) V3).

Lemma old_view_inv :
  inv (w_super w) (set_v_fm (<[fo_meta o := fm_resize offset mv]> (v_fm V3)) V3).
Proof using All.
  pose proof Hff as (Ho & Hm & Hfh & _). pose proof Hfb as (He & Hb & Hok & _ & Hu & Hc & Hs & _).
  pose proof old_file_view as Hv.
  assert (Hid : set_v_fm (<[fo_meta o := fm_resize offset mv]> (v_fm V3)) V3 =
    set_v_files (<[f := MkFoView (fo_meta o) {[0 := fb]}]> (v_files V3))
      (set_v_fm (<[fo_meta o := fm_resize offset mv]> (v_fm V3)) V3)).
  { change (v_files V3) with (v_files V). by rewrite (insert_id (v_files V) f _ Hv). }
  rewrite Hid. destruct (i_files _ _ HV3 f _ Hv) as (Hp & Hf & m' & _ & _ & Hit).
  apply (inv_put_file _ _ HV3 f (MkFoView (fo_meta o) {[0 := fb]})); try done.
  - cbn. rewrite lookup_fmap, Hm. eauto.
  - destruct Hit as [[Hem _]|(fb' & b' & Heq & Hb' & Hit)]; [by destruct (map_non_empty_singleton (M:=gmap Z) 0 fb)|].
    right. cbn in Heq. apply map_singleton_inj in Heq as [_ <-].
    exists fb, b'. split; [done|]. split; [done|]. cbn in Hb'. rewrite lookup_insert_eq in Hb'.
    simplify_eq. destruct Hit as (_ & _ & _ & ? & ?). split_and!; try done; cbn; [lia|].
    rewrite length_app. pose proof (blocks_for_spec offset ltac:(lia)).
    pose proof (blocks_for_le (fm_size m) (fb_used_block_num b) ltac:(lia)).
    rewrite <- (fb_blocks_length b Hok) in *. units. lia.
  - intros g og Hne Hg. by apply (i_apart _ _ HV3 g f).
Qed.
End OldBlock.

Lemma extend_rest_old w f offset o m fb b :
  fs_inv w -> file_facts w f o m -> fb_facts w f o m fb b ->
  fm_size m < offset <= kBlockFsMaxUDiskSize ->
  wp (extend_rest f offset (blocks_for offset - blocks_for (fm_size m)) fb false)
     (extend_post w f offset) w.
Proof.
  intros Hi Hff Hfb Hoff. pose proof Hff as (Ho & Hm & Hfh & _ & _ & Hsz).
  pose proof Hfb as (He & Hb & Hok & _ & _ & _ & Hs & Hbl & _).
  pose proof (old_file_view w f o m fb b Hff Hfb) as Hv.
  pose proof (blocks_for_mono (fm_size m) offset ltac:(lia)) as Hmono.
  assert (Hvf : is_Some (v_files (view_of w) !! f)) by eauto.
  unfold extend_rest. apply wp_bind. unfold wp at 1.
  destruct (extend_block_ids_run (blocks_for offset - blocks_for (fm_size m)) fb false w)
    as [(_ & Hn & ->)|(ids & h & -> & Hpool & Hlen & Hnd & Hin)]; [lia| |].
  - wp_step. apply extend_post_same; [done..|]. intros _ (_ & Hroom & _).
    rewrite Hsz in Hroom. cbn in Hroom. lia.
  - apply wp_bind. eapply wp_mono; [by apply (extend_attach_old w h f o m fb b ids)|].
    intros ok w1 (ids' & Hpre & Hi1 & E1 & D1 & Hv1 & Ht & Hg). destruct ok; cbn [negb].
    + assert (ids' = ids) as -> by auto.
      assert (HV3 : inv (w_super w) (view_of w1)).
      { rewrite <- (es_super _ _ E1). by apply fi_inv. }
      rewrite Hv1 in HV3.
      pose proof (old_view_inv w f offset o m fb b Hi Hff Hfb Hoff ids (bh_pool h) Hlen HV3) as Hinv.
      eapply wp_mono; [apply (extend_set_size_wp w w1 f (MkFoView (fo_meta o) {[0 := fb]})
        (view_fm m) offset Hi E1); [units; lia|rewrite Hv1; exact Hv|
        rewrite Hv1; by apply view_fm_some|done|rewrite Hv1; exact Hinv]|].
      intros r w' (Hi' & E' & D' & Hv' & Hr & Hg'). rewrite Hv1 in Hv'. cbn in Hv'.
      constructor; try done.
      * by etrans.
      * by apply (data_same_trans w w1 w'); [apply E1|..].
      * intros g. by rewrite Hv'.
      * intros g Hne. apply (old_other w f o m fb b Hi Hff Hfb); rewrite ?Hv'; try done;
          intros i Hne'; cbn; by rewrite lookup_insert_ne.
      * right. rewrite Hv'. unfold file_size. cbn. cbn in Hv. rewrite Hv. cbn.
        by rewrite lookup_insert_eq.
      * exists ids. split; [by apply (old_view_blocks w f o m fb b Hff Hfb ids (bh_pool h)); rewrite Hv'|].
        intros _. rewrite Hsz. split_and!; try done.
        { rewrite Hv'. unfold file_size. cbn. cbn in Hv. rewrite Hv. cbn. by rewrite lookup_insert_eq. }
        { by rewrite Hv'. }
      * intros Hgood _. apply Hg'. by apply E1.
    + wp_step. apply extend_post_fail; try done; rewrite ?Hv1; try done.
      * intros g fbg Hfbg Hne. cbn. rewrite lookup_insert_ne; [done|]. intros <-. apply Hne.
        apply (file_fb_inj _ _ g f fb (fi_inv _ Hi) Hfbg). by destruct Hfb as (_ & _ & _ & _ & _ & _ & _ & _ & ?).
      * exists ids'. by apply (old_view_blocks w f o m fb b Hff Hfb ids' (bh_pool h)).
      * intros Hgood (_ & _ & Hc & _). rewrite Hbl, Hsz, (fb_blocks_length b Hok) in Hc.
        by apply Hg in Hgood; [|lia].
Qed.

(** [ExtendFile] on any file and whatever the device answers *)
Lemma ExtendFile_wp w f offset :
  fs_inv w -> is_Some (w_files w !! f) -> file_size (view_of w) f < offset < 2 ^ 64 ->
  wp (ExtendFile f offset) (extend_post w f offset) w.
Proof.
  intros Hi [o Ho] Hoff. destruct (file_world w f o Hi Ho) as (m & Hff & Hc).
  pose proof Hff as (_ & Hm & _ & _ & _ & Hsz). pose proof (lo_device_max _ (fi_layout _ Hi)) as Hmax.
  pose proof (file_size_nonneg _ _ (fi_inv _ Hi) f) as Hnn. rewrite Hsz in *.
  assert (Hvf : is_Some (v_files (view_of w) !! f)) by (rewrite (view_files_lookup _ _ _ Ho); eauto).
  unfold ExtendFile. do 2 wp_step.
  destruct (Z.ltb_spec (sb_device_size (w_super w)) offset).
  { wp_step. apply extend_post_same; [done..|]. intros _ (Hd & _). lia. }
  apply wp_bind. eapply (wp_file_meta f o m); [done..|].
  rewrite num_blocks_needed_eq by lia. apply wp_bind. unfold wp at 1.
  destruct (extend_file_block_run w f o m Hi Hff)
    as [[-> Hfail]|[(Hz & fb & rest & Hfree & ->)|(fb & b & Hfb & _ & ->)]].
  - wp_step. apply extend_post_same; [done..|]. intros _ (_ & _ & _ & Hr). rewrite Hsz in Hr.
    destruct Hfail as [[Hz Hfree]|(fb & b & Hfb & Hfull)].
    + rewrite Hz in Hr. by apply Hr.
    + destruct Hfb as (_ & _ & Hok & _ & _ & _ & Hs & Hbl & _).
      destruct (Z.eqb_spec (fm_size m) 0); [lia|].
      rewrite Hbl, (fb_blocks_length b Hok) in Hr. lia.
  - destruct Hc as [(He & _)|(fb' & b' & Hfb)].
    + rewrite Hz, blocks_for_0, Z.sub_0_r. eapply extend_rest_new; try done. lia.
    + destruct Hfb as (_ & _ & _ & _ & _ & _ & Hs & _). lia.
  - eapply extend_rest_old; try done. lia.
Qed.

End Grow.
