(* ===== verification/FileIO.v ===== *)
(** * Reading and writing through an open file

    [ReadData] and [WriteData] cut the range into one piece per block, and the
    pieces together move exactly the bytes of the range: a read returns the
    slice of the content, a write splices the buffer into it, and no other file
    and no metadata changes. *)

From S2P Require Import Prelude Meta Device World SuperBlock Resources FileBlock Inode Directory.
From S2P Require Import FileHandle File OpenFile Io Invariant MetaSteps Views Content FileGrow.

(** ** The pieces of a range *)

Section Pieces.
Context (sb : SuperBlockMeta) (blocks : list Z) (offset size : Z).

(** [bs] cuts the positions [pos .. size - 1] of the buffer into pieces, each
    inside one block of the file *)
Fixpoint covers (bs : list BlockData) (pos : Z) : Prop :=
  match bs with
  | [] => pos = size
  | b :: bs' =>
    bd_buffer_pos b = pos /\ 0 < bd_size b /\ pos + bd_size b <= size /\
    (offset + pos) mod kBlockSize + bd_size b <= kBlockSize /\
    blocks !! Z.to_nat ((offset + pos) / kBlockSize) = Some (bd_block_id b) /\
    bd_dev_offset b = byte_addr sb blocks (offset + pos) /\
    covers bs' (pos + bd_size b)
  end.

(** inside a piece the device addresses follow the buffer positions *)
Lemma piece_addr (x : Z) (i j : Z) :
  0 <= i -> i mod kBlockSize + j < kBlockSize -> 0 <= j ->
  blocks !! Z.to_nat (i / kBlockSize) = Some x ->
  byte_addr sb blocks (i + j) = byte_addr sb blocks i + j.
Proof.
  intros Hi Hij Hj Hx. rewrite (byte_addr_block _ _ _ _ Hx).
  pose proof (Z.div_mod i kBlockSize ltac:(done)). units.
  pose proof (Z.mod_pos_bound i 4194304 ltac:(lia)).
  assert (Hd : (i + j) / 4194304 = i / 4194304).
  { symmetry. apply (Z.div_unique _ _ _ (i mod 4194304 + j)); lia. }
  assert (Hm : (i + j) mod 4194304 = i mod 4194304 + j).
  { symmetry. apply (Z.mod_unique _ _ (i / 4194304)); lia. }
  rewrite (byte_addr_block _ _ _ x); units; [|by rewrite Hd]. rewrite Hm. lia.
Qed.
End Pieces.

Lemma piece_eq boff size curr a :
  0 <= curr < size -> boff = a mod kBlockSize -> (curr = 0 \/ boff = 0) ->
  piece boff size curr = (a mod kBlockSize, Z.min (size - curr) (kBlockSize - a mod kBlockSize)).
Proof.
  intros Hc -> Hor. unfold piece. units. pose proof (Z.mod_pos_bound a 4194304 ltac:(lia)).
  destruct (Z.ltb_spec 0 (a mod 4194304)).
  - rewrite wrap_small by lia. destruct Hor; [|lia]. subst. f_equal. lia.
  - assert (a mod 4194304 = 0) as -> by lia. by f_equal.
Qed.

Lemma fill_blocks_wp (w : world) fb b offset size :
  layout_ok (w_super w) -> w_fbmeta w !! fb = Some b -> fb_meta_ok b -> 0 <= offset -> 0 < size ->
  Forall (fun x => 0 <= x < sb_curr_block_num (w_super w)) (fb_blocks b) ->
  offset + size <= kBlockSize * fb_used_block_num b ->
  forall fuel curr bi boff,
    0 <= curr < size -> bi = (offset + curr) / kBlockSize -> boff = (offset + curr) mod kBlockSize ->
    (curr = 0 \/ boff = 0) -> boff + (size - curr) <= kBlockSize * Z.of_nat fuel ->
    wp (fill_blocks fuel fb bi boff curr size)
       (fun bs w' => w' = w /\ covers (w_super w) (fb_blocks b) offset size bs curr) w.
Proof.
  intros Hl Hb Hok Ho Hs Hrange Hend. pose proof Hl as []. pose proof (fb_blocks_length b Hok) as Hlen.
  induction fuel as [|fuel IH]; intros curr bi boff Hc -> Hboff Hor Hfuel.
  { units. pose proof (Z.mod_pos_bound (offset + curr) 4194304 ltac:(lia)). lia. }
  set (a := offset + curr) in *. destruct (block_lookup (fb_blocks b) a) as [x Hx]; [lia|].
  assert (Ha : 0 <= a / kBlockSize < 1000).
  { destruct Hok as [_ Hu]. units. split; [apply Z.div_pos; lia|apply Z.div_lt_upper_bound; lia]. }
  assert (Hxr : 0 <= x < sb_curr_block_num (w_super w)) by by eapply Forall_lookup_1 in Hrange.
  cbn [fill_blocks]. apply wp_bind. eapply wp_get_fbmeta; [done|]. unfold get_block_id.
  rewrite (wrap_small 32) by (units; lia). do 2 apply wp_bind. apply wp_assert; [apply Z.ltb_lt; units; lia|].
  eapply wp_in_bounds.
  { unfold fb_blocks in Hx. by apply lookup_take_Some in Hx as [Hx _]. }
  rewrite (piece_eq boff size curr a Hc Hboff Hor). cbn [fst snd].
  set (n := Z.min (size - curr) (kBlockSize - a mod kBlockSize)). do 2 wp_step.
  assert (Hmod : 0 <= a mod kBlockSize < kBlockSize) by (apply Z.mod_pos_bound; done).
  assert (Haddr : data_offset (w_super w) x (a mod kBlockSize)
    = byte_addr (w_super w) (fb_blocks b) a).
  { rewrite (byte_addr_block _ _ _ _ Hx). unfold data_offset. rewrite lo_block_size.
    apply wrap_small. units. lia. }
  rewrite Haddr. assert (Hcov : forall bs, covers (w_super w) (fb_blocks b) offset size bs (curr + n) ->
    covers (w_super w) (fb_blocks b) offset size
      (MkBlockData x curr (byte_addr (w_super w) (fb_blocks b) a) n :: bs) curr).
  { intros bs Hbs. cbn [covers bd_buffer_pos bd_size bd_block_id bd_dev_offset]. fold a.
    split_and!; try done; lia. }
  destruct (Z.leb_spec size (curr + n)).
  - wp_step. split; [done|]. apply Hcov. cbn. lia.
  - assert (n = kBlockSize - a mod kBlockSize) as Hn by lia.
    assert (Hnext : offset + (curr + n) = (a / kBlockSize + 1) * kBlockSize).
    { pose proof (Z.div_mod a kBlockSize ltac:(done)). lia. }
    apply wp_bind. eapply wp_mono; [apply IH; try lia|].
    + units. rewrite Hnext, Z.div_mul by lia. rewrite swrap_small by lia. done.
    + by rewrite Hnext, Z.mod_mul by done.
    + intros bs w' [-> Hbs]. wp_step. split; [done|]. by apply Hcov.
Qed.

Lemma fill_fuel_ok offset size :
  0 <= offset -> 0 < size ->
  offset mod kBlockSize + (size - 0) <= kBlockSize * Z.of_nat (fill_fuel size).
Proof.
  intros Ho Hs. unfold fill_fuel. units. pose proof (Z.mod_pos_bound offset 4194304 ltac:(lia)).
  pose proof (Z.div_mod size 4194304 ltac:(lia)). pose proof (Z.mod_pos_bound size 4194304 ltac:(lia)).
  pose proof (Z.div_pos size 4194304 ltac:(lia) ltac:(lia)). lia.
Qed.

(** ** Moving the pieces *)

Section Transfer.
Context (w0 : world) (blocks : list Z) (offset size : Z).
Context (Hl : layout_ok (w_super w0)) (Hdev : dev_size (w_dev w0) = sb_device_size (w_super w0)).
Context (Hlocks : sb_curr_block_num (w_super w0) <= kBlockLocks).
Context (Hoff : 0 <= offset) (Hnd : NoDup blocks).
Context (Hrange : Forall (fun x => 0 <= x < sb_curr_block_num (w_super w0)) blocks).
Context (Hend : offset + size <= kBlockSize * Z.of_nat (length blocks)).

Let addr (i : Z) : Z := byte_addr (w_super w0) blocks (offset + i).

Lemma addr_inj i j : 0 <= i < size -> 0 <= j < size -> addr i = addr j -> i = j.
Proof using Hend Hnd Hoff.
  intros Hi Hj Heq. apply byte_addr_same in Heq; [lia|done|lia|lia].
Qed.

(** a piece: its lock exists, its range is inside the device, its addresses *)
Lemma piece_facts b bs pos :
  0 <= pos -> covers (w_super w0) blocks offset size (b :: bs) pos ->
  bd_block_id b < kBlockLocks /\ 0 <= bd_dev_offset b /\
  bd_dev_offset b + bd_size b <= dev_size (w_dev w0) /\
  (forall j, 0 <= j < bd_size b -> bd_dev_offset b + j = addr (pos + j)).
Proof using Hl Hdev Hlocks Hoff Hrange.
  intros Hp (_ & Hs & Hle & Hm & Hx & Hd & _). pose proof Hl as [].
  assert (0 <= bd_block_id b < sb_curr_block_num (w_super w0)) by by eapply Forall_lookup_1 in Hrange.
  pose proof Hd as Hd'. rewrite (byte_addr_block _ _ _ _ Hx) in Hd'.
  assert (0 <= (offset + pos) mod kBlockSize < kBlockSize) by (apply Z.mod_pos_bound; done).
  split_and!; [lia|units; lia|units; lia|].
  intros j Hj. unfold addr. rewrite Z.add_assoc, (piece_addr _ _ (bd_block_id b)); [|lia..|done].
  by rewrite Hd.
Qed.

(** the device moved on, the world did not *)
Definition io_of (w : world) : Prop := w = upd_io (w_errno w) (w_events w) (w_store w) w0.

Lemma io_of_upd_io e evs st w : io_of w -> io_of (upd_io e evs st w).
Proof using. unfold io_of. intros ->. reflexivity. Qed.

Lemma write_blocks_wp direct buffer bs : forall pos total w,
  Z.of_nat (length buffer) = size -> 0 <= pos <= size -> io_of w ->
  covers (w_super w0) blocks offset size bs pos ->
  wp (write_blocks direct bs total buffer) (fun r w' => io_of w' /\
    w_events w' `suffix_of` w_events w /\
    (forall x, (forall i, pos <= i < size -> x <> addr i) ->
       st_get (w_store w') x = st_get (w_store w) x) /\
    (dev_good w -> r = total + (size - pos) /\
       forall i b, pos <= i < size -> buffer !! Z.to_nat i = Some b ->
         st_get (w_store w') (addr i) = b)) w.
Proof using All.
  induction bs as [|b bs IH]; intros pos total w Hbuf Hp Hw Hcov; cbn [write_blocks].
  - cbn in Hcov. wp_step. split_and!; try done. intros _. split; [lia|]. intros. lia.
  - destruct (piece_facts b bs pos ltac:(lia) Hcov) as (Hlk & Ho & Hdend & Haddr).
    destruct Hcov as (Hbp & Hs & Hle & _ & _ & _ & Hcov).
    apply wp_bind. unfold block_lock. rewrite (proj2 (Z.ltb_lt _ _) Hlk). wp_step. apply wp_bind.
    set (data := slice (Z.to_nat (bd_buffer_pos b)) (Z.to_nat (bd_size b)) buffer).
    assert (Hdata : Z.of_nat (length data) = bd_size b).
    { unfold data, slice. rewrite length_take, length_drop. lia. }
    assert (Hsz : dev_size (w_dev w) = dev_size (w_dev w0)) by (rewrite Hw; done).
    pose proof (lo_device_max _ Hl) as Hmax. units.
    eapply wp_mono; [apply (write_run w (bd_dev_offset b) Ho ltac:(lia) direct data); lia|].
    intros r w1 (e & n & evs & Hn & Hr & Hsuf & -> & Hgood).
    set (w1 := upd_io _ _ _ w).
    assert (Hfr : forall x, (forall i, pos <= i < pos + bd_size b -> x <> addr i) ->
      st_get (w_store w1) x = st_get (w_store w) x).
    { intros x Hx. unfold w1. rewrite w_store_upd_io. apply st_write_get_out.
      rewrite length_take.
      destruct (decide (x < bd_dev_offset b \/ bd_dev_offset b + Z.of_nat (n `min` length data) <= x))
        as [|Hin]; [done|exfalso].
      apply (Hx (pos + (x - bd_dev_offset b))); [lia|]. rewrite <- Haddr by lia. lia. }
    assert (Hio1 : io_of w1) by by apply io_of_upd_io.
    destruct (Z.leb_spec r 0).
    + wp_step. split_and!; try done.
      * intros x Hx. apply Hfr. intros i Hi. apply Hx. lia.
      * intros Hg. destruct (Hgood Hg). lia.
    + eapply wp_mono; [apply (IH (pos + bd_size b)); [done|lia|done|done]|].
      intros r' w' (Hio & Hsuf' & Hfr' & Hg'). split_and!.
      * done.
      * by etrans.
      * intros x Hx. rewrite Hfr' by (intros; apply Hx; lia).
        apply Hfr. intros. apply Hx. lia.
      * intros Hg. destruct (Hgood Hg) as [-> ->].
        destruct Hg' as [-> Hval]; [apply dev_good_upd_io; [done|]; by eapply Forall_suffix, Hg|].
        split; [lia|]. intros i c Hi Hc.
        destruct (decide (pos + bd_size b <= i)); [apply Hval; [lia|done]|].
        rewrite Hfr'.
        { unfold w1. rewrite w_store_upd_io, take_ge by lia.
          replace (addr i) with (bd_dev_offset b + Z.of_nat (Z.to_nat (i - pos))).
          - apply st_write_get_in. unfold data, slice.
            rewrite lookup_take_lt, lookup_drop by lia. rewrite <- Hc. f_equal. lia.
          - rewrite Haddr by lia. f_equal. lia. }
        intros j Hj Heq. apply addr_inj in Heq; lia.
Qed.

Lemma read_blocks_wp direct bs : forall pos total buffer w,
  size <= Z.of_nat (length buffer) -> 0 <= pos <= size -> io_of w ->
  covers (w_super w0) blocks offset size bs pos ->
  wp (read_blocks direct bs total buffer) (fun rb w' => io_of w' /\
    w_store w' = w_store w /\ w_events w' `suffix_of` w_events w /\
    total <= rb.1 <= total + (size - pos) /\
    length rb.2 = length buffer /\
    (forall i, Z.of_nat i < pos \/ size <= Z.of_nat i -> rb.2 !! i = buffer !! i) /\
    (dev_good w -> rb.1 = total + (size - pos) /\
       forall i, pos <= i < size -> rb.2 !! Z.to_nat i = Some (st_get (w_store w) (addr i)))) w.
Proof using All.
  induction bs as [|b bs IH]; intros pos total buffer w Hbuf Hp Hw Hcov; cbn [read_blocks].
  - cbn in Hcov. wp_step. split_and!; try done; cbn; try lia. intros _. split; [lia|]. intros. lia.
  - destruct (piece_facts b bs pos ltac:(lia) Hcov) as (Hlk & Ho & Hdend & Haddr).
    destruct Hcov as (Hbp & Hs & Hle & _ & _ & _ & Hcov).
    apply wp_bind. unfold block_lock. rewrite (proj2 (Z.ltb_lt _ _) Hlk). wp_step. apply wp_bind.
    assert (Hsz : dev_size (w_dev w) = dev_size (w_dev w0)) by (rewrite Hw; done).
    pose proof (lo_device_max _ Hl) as Hmax. units.
    eapply wp_mono; [apply (read_run w (bd_dev_offset b) Ho ltac:(lia) direct
      (Z.to_nat (bd_size b))); lia|].
    intros [r out] w1 (e & n & evs & Hn & Hr & Hsuf & Hout & -> & Hgood). cbn [fst snd] in *.
    set (w1 := upd_io _ _ _ w). set (buffer1 := splice _ _ _).
    assert (Hio1 : io_of w1) by by apply io_of_upd_io.
    assert (Hlo : length out = n) by (rewrite Hout; apply st_read_length).
    assert (Hfit : (Z.to_nat (bd_buffer_pos b) + length out <= length buffer)%nat) by lia.
    assert (Hlen1 : length buffer1 = length buffer) by by apply splice_length.
    assert (Hold : forall i, Z.of_nat i < pos \/ pos + bd_size b <= Z.of_nat i ->
      buffer1 !! i = buffer !! i) by (intros i Hi; apply splice_lookup_old; [done|lia]).
    destruct (Z.leb_spec r 0).
    + wp_step. cbn [fst snd]. split_and!; try done; try lia.
      * intros i Hi. apply Hold. lia.
      * intros Hg. destruct (Hgood Hg). lia.
    + eapply wp_mono; [apply (IH (pos + bd_size b)); [lia|lia|done|done]|].
      intros [r' out'] w' (Hio & Hst & Hsuf' & Hr' & Hlen' & Hold' & Hg'). cbn [fst snd] in *.
      split_and!; try done; try lia.
      * by etrans.
      * intros i Hi. rewrite Hold' by lia. apply Hold. lia.
      * intros Hg. destruct (Hgood Hg) as [-> ->].
        destruct Hg' as [-> Hval]; [apply dev_good_upd_io; [done|]; by eapply Forall_suffix, Hg|].
        split; [lia|]. intros i Hi.
        destruct (decide (pos + bd_size b <= i)); [apply Hval; lia|].
        rewrite Hold' by lia. unfold buffer1. rewrite splice_lookup_new by lia.
        rewrite Hout, st_read_lookup by lia. do 2 f_equal. rewrite Haddr by lia. f_equal. lia.
Qed.
End Transfer.

(** ** [ReadData] and [WriteData] *)

(** the open file [o] on file [f], and a range inside the file *)
Definition range_ok (w : world) (o f : Z) (x : open_file) (offset size : Z) : Prop :=
  w_opens w !! o = Some x /\ of_file x = f /\ is_Some (w_files w !! f) /\
  sb_curr_block_num (w_super w) <= kBlockLocks /\
  0 <= offset /\ 0 < size /\ offset + size <= file_size (view_of w) f.

(** the device moved, and the append position *)
Definition rw_step (w : world) (o : Z) (x : open_file) (r : Z) (w' : world) : Prop :=
  exists w1, io_of w w1 /\ w_events w1 `suffix_of` w_events w /\
    w' = set_w_opens (<[o := set_of_append_pos (u64 (of_append_pos x + r)) x]> (w_opens w)) w1.

Lemma rw_step_view w o x r w' : rw_step w o x r w' -> view_of w' = view_of w /\ w_super w' = w_super w.
Proof. intros (w1 & Hio & _ & ->). rewrite Hio. done. Qed.

Lemma rw_step_inv w o x r w' : fs_inv w -> rw_step w o x r w' -> fs_inv w'.
Proof. intros [] (w1 & Hio & _ & ->). rewrite Hio. by constructor. Qed.

Lemma rw_step_good w o x r w' : dev_good w -> rw_step w o x r w' -> dev_good w'.
Proof.
  intros (?&?&?) (w1 & Hio & Hs & ->). rewrite Hio. split_and!; try done. by eapply Forall_suffix.
Qed.

Lemma rw_step_calm w o x r w' : dev_calm w -> rw_step w o x r w' -> dev_calm w'.
Proof.
  intros [Hg Hc] Hst. split; [by eapply rw_step_good|]. destruct Hst as (w1 & _ & Hs & ->).
  by eapply Forall_suffix.
Qed.

Lemma rw_step_fd w o x r w' : w_opens w !! o = Some x -> rw_step w o x r w' -> fd_step w w'.
Proof.
  intros Hx Hst. pose proof (fun Hg => rw_step_good _ _ _ _ _ Hg Hst) as Hg.
  pose proof (fun Hc => rw_step_calm _ _ _ _ _ Hc Hst) as Hc.
  destruct Hst as (w1 & Hio & _ & ->). rewrite Hio in Hg, Hc |- *. constructor; try done.
  intros o' x' Hx'. cbn. destruct (decide (o = o')) as [<-|].
  - rewrite lookup_insert_eq. simplify_eq. eauto.
  - rewrite lookup_insert_ne by done. eauto.
Qed.

Lemma advance_append_pos_wp w w1 o x r :
  io_of w w1 -> w_opens w !! o = Some x -> w_events w1 `suffix_of` w_events w ->
  wp (advance_append_pos o r) (fun _ w' => rw_step w o x r w' /\ w_store w' = w_store w1) w1.
Proof.
  intros Hio Hx Hs. unfold advance_append_pos. apply wp_bind.
  assert (Ho : w_opens w1 = w_opens w) by by rewrite Hio.
  eapply (wp_get_open o x); [by rewrite Ho|]. unfold put_open. wp_step. rewrite Ho.
  split; [by exists w1|done].
Qed.

Section Range.
Context (w : world) (o f : Z) (x : open_file) (offset size : Z).
Context (Hi : fs_inv w) (Hr : range_ok w o f x offset size).

(** what the transfer lemmas need of the file *)
Lemma range_blocks : exists ob m fb b,
  file_facts w f ob m /\ fb_facts w f ob m fb b /\
  NoDup (fb_blocks b) /\
  Forall (fun y => 0 <= y < sb_curr_block_num (w_super w)) (fb_blocks b) /\
  offset + size <= kBlockSize * Z.of_nat (length (fb_blocks b)) /\
  i32 (offset / kBlockSize) = (offset + 0) / kBlockSize.
Proof using Hi Hr.
  destruct Hr as (_ & _ & [ob Hob] & _ & Ho & Hs & Hend).
  destruct (file_world w f ob Hi Hob) as (m & Hff & Hc).
  pose proof Hff as (_ & Hm & _ & _ & _ & Hsz). rewrite Hsz in Hend.
  destruct Hc as [(_ & Hz & _)|(fb & b & Hfb)]; [lia|].
  pose proof Hfb as (He & Hb & Hok & _ & _ & _ & Hcap & _).
  destruct (file_cases _ _ (fi_inv _ Hi) f _ (view_files_lookup _ _ _ Hob))
    as [(He' & _)|(fb' & bv & He' & _ & Hb' & _ & _ & _ & _ & Hn & Hin)].
  - cbn in He'. rewrite He in He'. by destruct (map_non_empty_singleton (M:=gmap Z) 0 fb).
  - cbn in He'. rewrite He in He'. apply map_singleton_inj in He' as [_ <-].
    rewrite (view_fb_some _ _ _ Hb) in Hb'. simplify_eq.
    exists ob, m, fb, b. split_and!; try done.
    + apply Forall_forall. intros y Hy. by destruct (Hin y Hy).
    + rewrite (fb_blocks_length b Hok). lia.
    + rewrite Z.add_0_r. destruct Hok as [_ Hu]. units.
      pose proof (Z.div_pos offset 4194304 ltac:(lia) ltac:(lia)).
      pose proof (Z.div_lt_upper_bound offset 4194304 1000 ltac:(lia) ltac:(lia)).
      rewrite swrap_small; lia.
Qed.

(** the content of [f] is what its blocks hold *)
Lemma range_content fb b ob m :
  fb_facts w f ob m fb b -> forall w', view_of w' = view_of w -> w_super w' = w_super w ->
  file_content w' f
  = content_of (w_super w) (w_store w') (fb_blocks b) (file_size (view_of w) f).
Proof using.
  intros Hfb w' Hv Hs. unfold file_content. rewrite Hv, Hs.
  by destruct Hfb as (_ & _ & _ & _ & _ & _ & _ & -> & _).
Qed.

(** [WriteData] splices the buffer into the content *)
Lemma WriteData_wp (buffer : bytes) :
  Z.of_nat (length buffer) = size ->
  wp (FileWriter_WriteData o buffer size offset false) (fun r w' =>
    rw_step w o x r w' /\
    (forall g, g <> f -> file_content w' g = file_content w g) /\
    (forall a, a < sb_block_data_start_offset (w_super w) ->
       st_get (w_store w') a = st_get (w_store w) a) /\
    (dev_good w -> r = size /\
       file_content w' f = splice (Z.to_nat offset) buffer (file_content w f))) w.
Proof using Hi Hr.
  intros Hbuf. destruct range_blocks as (ob & m & fb & b & Hff & Hfb & Hnd & Hrng & Hend & Hidx).
  pose proof Hfb as (He & Hb & Hok & _). pose proof Hff as (Hob & _ & _ & _ & _ & Hsz).
  destruct Hr as (Hx & Hf & _ & Hlk & Ho & Hs & Hfit).
  unfold FileWriter_WriteData. apply wp_bind. eapply (wp_get_open o x); [done|].
  rewrite Hf. apply wp_bind. unfold wp at 1. rewrite (GetFileBlock_run w f ob 0 Hob).
  rewrite He. change (i32 0) with 0. rewrite lookup_singleton_eq. apply wp_bind.
  eapply wp_deref; [done|]. apply wp_bind. rewrite Hidx.
  eapply wp_mono; [apply (fill_blocks_wp w fb b offset size (fi_layout _ Hi) Hb Hok Ho Hs Hrng);
    [by rewrite <- (fb_blocks_length b Hok)|lia|done|by rewrite Z.add_0_r|by left|
     by apply fill_fuel_ok]|].
  intros bs w0 [-> Hcov]. apply wp_bind.
  eapply wp_mono; [apply (write_blocks_wp w (fb_blocks b) offset size (fi_layout _ Hi)
    (fi_dev _ Hi) Hlk Ho Hnd Hrng Hend false buffer bs 0 0 w Hbuf ltac:(lia)
    ltac:(by unfold io_of; rewrite upd_io_self) Hcov)|].
  intros r w1 (Hio & Hsuf & Hfr & Hg). apply wp_bind. cbn [negb].
  eapply wp_mono; [by apply (advance_append_pos_wp w)|]. intros _ w' [Hst Hst']. wp_step.
  pose proof (rw_step_view _ _ _ _ _ Hst) as [Hv Hsup].
  split_and!; [done| | |].
  - intros g Hg'. unfold file_content. rewrite Hv, Hsup. apply content_of_ext. intros i Hir.
    rewrite Hst'. apply Hfr. intros j Hj Heq.
    pose proof (file_size_blocks _ _ (fi_inv _ Hi) g).
    destruct (block_lookup (file_blocks (view_of w) g) i ltac:(lia)) as [y Hy].
    destruct (block_lookup (fb_blocks b) (offset + j) ltac:(lia)) as [z Hz].
    destruct (byte_addr_inj _ _ _ _ _ _ _ Hy Hz Heq) as [-> _].
    apply list_elem_of_lookup_2 in Hy, Hz.
    destruct Hfb as (_ & _ & _ & _ & _ & _ & _ & Hbl & _). rewrite <- Hbl in Hz.
    by apply (file_blocks_disjoint _ _ (fi_inv _ Hi) g f z Hg').
  - intros a Ha. rewrite Hst'. apply Hfr. intros j Hj ->.
    assert (Hnn : Forall (fun y => 0 <= y) (fb_blocks b)) by (eapply Forall_impl; [done|cbn; lia]).
    pose proof (byte_addr_lower (w_super w) (fb_blocks b) (offset + j) Hnn ltac:(lia)). lia.
  - intros Hgood. destruct (Hg Hgood) as [-> Hval]. split; [lia|].
    rewrite !(range_content fb b ob m Hfb) by done. rewrite Hst'.
    set (n := file_size (view_of w) f) in *.
    assert (Hpl : (Z.to_nat offset + length buffer <=
      length (content_of (w_super w) (w_store w) (fb_blocks b) n))%nat)
      by (rewrite content_of_length; lia).
    apply list_eq. intros i. destruct (decide (Z.of_nat i < n)) as [Hin|Hin].
    + rewrite content_of_lookup by done.
      destruct (decide (Z.to_nat offset <= i < Z.to_nat offset + length buffer)%nat) as [Hin'|Hout].
      * rewrite splice_lookup_new by done.
        destruct (lookup_lt_is_Some_2 buffer (i - Z.to_nat offset)%nat) as [c Hc]; [lia|].
        rewrite Hc. f_equal. replace (Z.of_nat i) with (offset + (Z.of_nat i - offset)) by lia.
        apply Hval; [lia|]. rewrite <- Hc. f_equal. lia.
      * rewrite splice_lookup_old by (try done; lia). rewrite content_of_lookup by done. f_equal.
        apply Hfr. intros j Hj Heq. apply byte_addr_same in Heq; [lia|done| |lia].
        pose proof (file_size_blocks _ _ (fi_inv _ Hi) f).
        destruct Hfb as (_ & _ & _ & _ & _ & _ & _ & Hbl & _). rewrite Hbl in *. lia.
    + rewrite !lookup_ge_None_2; [done| |].
      * rewrite splice_length by done. rewrite content_of_length. lia.
      * rewrite content_of_length. lia.
Qed.

(** [ReadData] copies the range of the content to the start of the buffer *)
Lemma ReadData_wp (buffer : bytes) :
  size <= Z.of_nat (length buffer) ->
  wp (FileReader_ReadData o buffer size offset false) (fun rb w' =>
    rw_step w o x rb.1 w' /\ w_store w' = w_store w /\ 0 <= rb.1 <= size /\
    length rb.2 = length buffer /\
    (dev_good w -> rb.1 = size /\
       rb.2 = splice 0 (slice (Z.to_nat offset) (Z.to_nat size) (file_content w f)) buffer)) w.
Proof using Hi Hr.
  intros Hbuf. destruct range_blocks as (ob & m & fb & b & Hff & Hfb & Hnd & Hrng & Hend & Hidx).
  pose proof Hfb as (He & Hb & Hok & _). pose proof Hff as (Hob & _ & _ & _ & _ & Hsz).
  destruct Hr as (Hx & Hf & _ & Hlk & Ho & Hs & Hfit).
  unfold FileReader_ReadData. apply wp_bind. eapply (wp_get_open o x); [done|].
  rewrite Hf. apply wp_bind. unfold wp at 1. rewrite (GetFileBlock_run w f ob 0 Hob).
  rewrite He. change (i32 0) with 0. rewrite lookup_singleton_eq. apply wp_bind. rewrite Hidx.
  eapply wp_mono; [apply (fill_blocks_wp w fb b offset size (fi_layout _ Hi) Hb Hok Ho Hs Hrng);
    [by rewrite <- (fb_blocks_length b Hok)|lia|done|by rewrite Z.add_0_r|by left|
     by apply fill_fuel_ok]|].
  intros bs w0 [-> Hcov]. apply wp_bind.
  eapply wp_mono; [apply (read_blocks_wp w (fb_blocks b) offset size (fi_layout _ Hi)
    (fi_dev _ Hi) Hlk Ho Hnd Hrng Hend false bs 0 0 buffer w Hbuf ltac:(lia)
    ltac:(by unfold io_of; rewrite upd_io_self) Hcov)|].
  intros [r out] w1 (Hio & Hst1 & Hsuf & Hrr & Hlen & Hold & Hg). cbn [fst snd] in *.
  apply wp_bind. cbn [negb].
  eapply wp_mono; [by apply (advance_append_pos_wp w)|]. intros _ w' [Hst Hst']. wp_step.
  cbn [fst snd]. split_and!; try done; try lia; [by rewrite Hst'|].
  intros Hgood. destruct (Hg Hgood) as [-> Hval]. split; [lia|].
  rewrite (range_content fb b ob m Hfb) by done. set (n := file_size (view_of w) f) in *.
  set (sl := slice _ _ _). assert (Hsl : length sl = Z.to_nat size).
  { unfold sl, slice. rewrite length_take, length_drop, content_of_length. lia. }
  apply list_eq. intros i. destruct (decide (Z.of_nat i < size)) as [Hin|Hin].
  - rewrite splice_lookup_new by lia. rewrite Nat.sub_0_r. unfold sl, slice.
    rewrite lookup_take_lt, lookup_drop, content_of_lookup by lia.
    replace i with (Z.to_nat (Z.of_nat i)) at 1 by lia. rewrite Hval by lia. do 3 f_equal. lia.
  - rewrite Hold by lia. rewrite splice_lookup_old by lia. done.
Qed.
End Range.

(** ** [pread] and [pwrite] *)

Section Pwrite.
Context `{Env}.

Lemma File_UpdateTimeStamp_wp w f seconds :
  fs_inv w -> is_Some (w_files w !! f) -> in_i 64 seconds ->
  wp (File_UpdateTimeStamp f seconds) (fun _ w' => meta_step w w') w.
Proof.
  intros Hi [o Ho] Hsec. destruct (file_world w f o Hi Ho) as (m & (_ & Hm & _ & _ & Hwf & _) & _).
  unfold File_UpdateTimeStamp. eapply wp_upd_file_meta; [done..|].
  eapply meta_step_filemeta; [done|done|]. apply file_wf_set_crc. destruct Hwf. by constructor.
Qed.

Lemma File_file_size_wp w f (Q : Z -> world -> Prop) :
  fs_inv w -> is_Some (w_files w !! f) -> Q (file_size (view_of w) f) w ->
  wp (File_file_size f) Q w.
Proof.
  intros Hi [o Ho] HQ. destruct (file_world w f o Hi Ho) as (m & (_ & Hm & _ & _ & _ & Hs) & _).
  unfold File_file_size. apply wp_bind. eapply wp_file_meta; [done..|]. wp_step. by rewrite <- Hs.
Qed.

Lemma view_file_exists w f : is_Some (v_files (view_of w) !! f) -> is_Some (w_files w !! f).
Proof. intros [ov Hov]. apply files_view_lookup in Hov as (o & Ho & _). eauto. Qed.

Lemma meta_step_file w w' f :
  meta_step w w' -> is_Some (w_files w !! f) -> is_Some (w_files w' !! f).
Proof.
  intros Hs [o Ho]. apply view_file_exists. rewrite (ms_view _ _ Hs), (view_files_lookup _ _ _ Ho).
  eauto.
Qed.

(** the content after a growth: the old bytes, then what the new blocks hold *)
Lemma extend_post_content w f offset r w' :
  fs_inv w -> file_size (view_of w) f < offset -> extend_post w f offset r w' ->
  (forall g, g <> f -> file_content w' g = file_content w g) /\
  (exists gap, file_content w' f = file_content w f ++ gap /\
     (r = 0 -> Z.of_nat (length gap) = offset - file_size (view_of w) f)).
Proof.
  intros Hi Hoff Hp. pose proof (xp_env _ _ _ _ _ Hp) as HE. split.
  - intros g Hg. destruct (xp_other _ _ _ _ _ Hp g Hg) as [Hb Hs].
    apply file_content_data_same; try done; [apply HE|apply Hp].
  - destruct (xp_blocks _ _ _ _ _ Hp) as (new & Hnew & Hr).
    pose proof (file_size_nonneg _ _ (fi_inv _ Hi) f) as Hnn.
    pose proof (file_size_blocks _ _ (fi_inv _ Hi) f) as Hcap.
    assert (Hpre : file_content w f = content_of (w_super w') (w_store w')
      (file_blocks (view_of w') f) (file_size (view_of w) f)).
    { unfold file_content. rewrite Hnew, content_of_app by done. rewrite (es_super _ _ HE).
      apply content_of_ext. intros i Hir. symmetry. apply (xp_data _ _ _ _ _ Hp).
      apply byte_addr_lower; [|lia]. by apply (file_blocks_nonneg _ _ (fi_inv _ Hi)). }
    assert (Hle : file_size (view_of w) f <= file_size (view_of w') f).
    { destruct (xp_size _ _ _ _ _ Hp) as [-> | ->]; lia. }
    destruct (content_of_prefix (w_super w') (w_store w') (file_blocks (view_of w') f)
      (file_size (view_of w') f) (file_size (view_of w) f) ltac:(lia)) as [gap Hgap].
    exists gap. rewrite Hpre. split; [done|]. intros Hr0. destruct (Hr Hr0) as [Hs _].
    apply (f_equal length) in Hgap. rewrite length_app, !content_of_length in Hgap. lia.
Qed.

Lemma extend_post_fd w f offset r w' : extend_post w f offset r w' -> fd_step w w'.
Proof.
  intros Hp. apply fd_step_env; [apply Hp|]. intros g [o Ho].
  apply view_file_exists, (xp_file _ _ _ _ _ Hp). rewrite (view_files_lookup _ _ _ Ho). eauto.
Qed.

(** [pwrite]: whatever the device answers the file system stays consistent and the
    other files keep their bytes; when nothing fails and the growth has room, the
    file's content is the old one, extended if needed, with the buffer in it *)
Definition pwrite_post (w : world) (f : Z) (buf : bytes) (offset : Z) (r : Z) (w' : world) : Prop :=
  fs_inv w' /\ fd_step w w' /\ (forall g, g <> f -> file_content w' g = file_content w g) /\
  (dev_good w ->
   (file_size (view_of w) f < offset + Z.of_nat (length buf) ->
      extend_room w f (offset + Z.of_nat (length buf))) ->
   r = Z.of_nat (length buf) /\ exists gap,
     Z.of_nat (length gap)
       = Z.max 0 (offset + Z.of_nat (length buf) - file_size (view_of w) f) /\
     file_content w' f = splice (Z.to_nat offset) buf (file_content w f ++ gap)).

(** the part after the growth *)
Lemma pwrite_rest_wp w o f x buf offset :
  fs_inv w -> range_ok w o f x offset (Z.of_nat (length buf)) ->
  wp (let! seconds := gets w_now in
      (if seconds mod 2 =? 0 then File_UpdateTimeStamp f seconds else ret tt) ;;
      FileWriter_WriteData o buf (Z.of_nat (length buf)) offset false)
     (fun r w' => fs_inv w' /\ (forall g, g <> f -> file_content w' g = file_content w g) /\
        fd_step w w' /\
        (dev_good w -> r = Z.of_nat (length buf) /\
           file_content w' f = splice (Z.to_nat offset) buf (file_content w f))) w.
Proof.
  intros Hi Hr. pose proof Hr as (Hx & Hf & Hex & Hlk & Ho & Hs & Hfit). do 2 wp_step.
  apply wp_bind. apply (wp_mono _ (fun _ w1 => meta_step w w1)).
  { destruct (_ =? 0); [|by wp_step]. apply File_UpdateTimeStamp_wp; try done. apply Hi. }
  intros _ w1 Hms. pose proof (fs_inv_meta_step _ _ Hms Hi) as Hi1.
  pose proof (ms_env _ _ Hms) as HE.
  assert (Hr1 : range_ok w1 o f x offset (Z.of_nat (length buf))).
  { split_and!; try done; [by rewrite (es_opens _ _ HE)|by eapply meta_step_file|
      by rewrite (es_super _ _ HE)|by rewrite (ms_view _ _ Hms)]. }
  eapply wp_mono; [by apply (WriteData_wp w1 o f x offset _ Hi1 Hr1)|].
  intros r w' (Hst & Hoth & _ & Hg). pose proof (rw_step_view _ _ _ _ _ Hst) as [Hv Hsup].
  split_and!.
  - by eapply rw_step_inv.
  - intros g Hne. rewrite Hoth by done. by apply file_content_meta_step.
  - transitivity w1.
    + apply fd_step_env; [done|]. intros g. by eapply meta_step_file.
    + eapply rw_step_fd; [|done]. by rewrite (es_opens _ _ HE).
  - intros Hgood. destruct Hg as [-> Hc]; [by apply (es_good _ _ HE)|]. split; [done|].
    rewrite Hc. by rewrite (file_content_meta_step _ _ f Hi Hms).
Qed.

Lemma OpenFile_pwrite_wp w o f x buf offset :
  fs_inv w -> w_opens w !! o = Some x -> of_file x = f -> is_Some (w_files w !! f) ->
  sb_curr_block_num (w_super w) <= kBlockLocks ->
  0 <= offset -> offset + Z.of_nat (length buf) < 2 ^ 63 -> buf <> [] ->
  wp (OpenFile_pwrite o buf offset) (pwrite_post w f buf offset) w.
Proof.
  intros Hi Hx Hf Hex Hlk Ho Hmax Hne. unfold OpenFile_pwrite.
  assert (Hlen : 0 < Z.of_nat (length buf)) by (destruct buf; cbn; [done|lia]).
  destruct (Z.eqb_spec (Z.of_nat (length buf)) 0); [lia|].
  apply wp_bind. eapply wp_get_open; [done|]. rewrite Hf. apply wp_bind.
  apply File_file_size_wp; [done..|]. rewrite wrap_small by lia. apply wp_bind.
  destruct (Z.ltb_spec (file_size (view_of w) f) (offset + Z.of_nat (length buf))) as [Hgrow|Hin].
  - apply wp_bind. unfold File_ftruncate. apply wp_bind. apply File_file_size_wp; [done..|].
    rewrite (proj2 (Z.ltb_lt _ _) Hgrow).
    eapply wp_mono; [apply ExtendFile_wp; [done|done|lia]|]. intros r w1 Hp.
    destruct (extend_post_content _ _ _ _ _ Hi Hgrow Hp) as (Hoth & gap & Hgap & Hgl).
    pose proof (xp_inv _ _ _ _ _ Hp) as Hi1. pose proof (xp_env _ _ _ _ _ Hp) as HE.
    pose proof (extend_post_fd _ _ _ _ _ Hp) as Hfd.
    wp_step. destruct (Z.leb_spec 0 r) as [Hr|Hr]; cbn [negb].
    + assert (r = 0) as -> by (destruct (xp_ret _ _ _ _ _ Hp); lia).
      assert (Hsz : file_size (view_of w1) f = offset + Z.of_nat (length buf)).
      { destruct (xp_blocks _ _ _ _ _ Hp) as (new & _ & Hr0). by apply Hr0. }
      assert (Hr1 : range_ok w1 o f x offset (Z.of_nat (length buf))).
      { split_and!; try done; [by rewrite (es_opens _ _ HE)| |by rewrite (es_super _ _ HE)|lia].
        destruct Hex as [ob Hob]. apply view_file_exists, (xp_file _ _ _ _ _ Hp).
        rewrite (view_files_lookup _ _ _ Hob). eauto. }
      eapply wp_mono; [by apply (pwrite_rest_wp w1 o f x)|].
      intros r w' (Hi' & Hoth' & Hfd' & Hg). split_and!; [done|by etrans| |].
      * intros g Hg'. rewrite Hoth' by done. by apply Hoth.
      * intros Hgood _. destruct Hg as [-> Hc]; [by apply (es_good _ _ HE)|]. split; [done|].
        exists gap. split; [rewrite Hgl by done; lia|]. by rewrite Hc, Hgap.
    + wp_step. split_and!; [done..|]. intros Hgood Hroom.
      assert (r = 0) by by apply (xp_good _ _ _ _ _ Hp Hgood), Hroom. lia.
  - wp_step. cbn [negb]. eapply wp_mono; [apply (pwrite_rest_wp w o f x); [done|by split_and!]|].
    intros r w' (Hi' & Hoth' & Hfd' & Hg). split_and!; [done..|].
    intros Hgood _. destruct (Hg Hgood) as [-> Hc]. split; [done|].
    exists []. rewrite app_nil_r. split; [cbn; lia|done].
Qed.

(** [pread]: the slice of the content, cut at the end of the file *)
Lemma OpenFile_pread_wp w o f x buf size offset :
  fs_inv w -> w_opens w !! o = Some x -> of_file x = f -> is_Some (w_files w !! f) ->
  sb_curr_block_num (w_super w) <= kBlockLocks ->
  0 <= offset -> 0 <= size <= Z.of_nat (length buf) -> offset + size < 2 ^ 63 ->
  wp (OpenFile_pread o buf size offset) (fun rb w' =>
    fs_inv w' /\ fd_step w w' /\ (forall g, file_content w' g = file_content w g) /\
    (dev_good w ->
     let data := slice (Z.to_nat offset) (Z.to_nat size) (file_content w f) in
     rb.1 = Z.of_nat (length data) /\ rb.2 = splice 0 data buf)) w.
Proof.
  intros Hi Hx Hf Hex Hlk Ho Hsz Hmax. unfold OpenFile_pread.
  apply wp_bind. eapply wp_get_open; [done|]. rewrite Hf. apply wp_bind.
  apply File_file_size_wp; [done..|].
  pose proof (file_content_length w f Hi) as Hlen. set (n := file_size (view_of w) f) in *.
  destruct (Z.eqb_spec size 0) as [->|Hs0]; cbn [orb].
  { wp_step. split_and!; [done..|]. intros _. cbn. unfold slice. by destruct (drop _ _). }
  destruct (Z.leb_spec n offset) as [Hout|Hin].
  { wp_step. split_and!; [done..|]. intros _. cbn. unfold slice. rewrite drop_ge by lia.
    rewrite take_nil. done. }
  rewrite wrap_small by lia. set (k := if _ <? _ then _ else _).
  assert (Hk : k = Z.min size (n - offset)) by (unfold k; destruct (Z.ltb_spec n (offset + size)); lia).
  assert (Hr : range_ok w o f x offset k) by (split_and!; try done; lia).
  eapply wp_mono; [by apply (ReadData_wp w o f x offset k Hi Hr); lia|].
  intros [r out] w' (Hst & Hstore & _ & _ & Hg). cbn [fst snd] in *.
  pose proof (rw_step_view _ _ _ _ _ Hst) as [Hv Hsup]. split_and!.
  - by eapply rw_step_inv.
  - by eapply rw_step_fd.
  - intros g. unfold file_content. by rewrite Hv, Hsup, Hstore.
  - intros Hgood. destruct (Hg Hgood) as [-> ->].
    assert (Hsl : slice (Z.to_nat offset) (Z.to_nat k) (file_content w f)
      = slice (Z.to_nat offset) (Z.to_nat size) (file_content w f)).
    { unfold slice. destruct (decide (k = size)) as [->|]; [done|].
      rewrite !take_ge; [done|rewrite length_drop; lia|rewrite length_drop; lia]. }
    rewrite <- Hsl. split; [|done]. unfold slice. rewrite length_take, length_drop. lia.
Qed.
End Pwrite.
