(* ===== verification/FileShrink.v ===== *)
(** * Shrinking a file: [ShrinkFile]

    A truncated file moves to a new record and a new file block that inherits
    the complete blocks; a partial last block is copied.  Every step before the
    switch to the new record leaves what files show alone ([quiet]), so a
    failure in the middle loses nothing; after the switch the old record and the
    blocks that are not inherited are recycled. *)

From S2P Require Import Prelude Meta Device World SuperBlock Resources Paths FileBlock Inode.
From S2P Require Import Directory FileHandle File Io Invariant MetaSteps Views Content FileGrow.
From S2P Require Import FileIO.

(** ** Steps that no file shows *)

Record quiet (w w' : world) : Prop := {
  q_inv : fs_inv w';
  q_env : env_step w w';
  q_files : v_files (view_of w') = v_files (view_of w);
  q_blocks : forall g, file_blocks (view_of w') g = file_blocks (view_of w) g;
  q_sizes : forall g, file_size (view_of w') g = file_size (view_of w) g;
  q_content : forall g, file_content w' g = file_content w g
}.

Lemma quiet_refl w : fs_inv w -> quiet w w.
Proof. by constructor. Qed.

Lemma quiet_trans w1 w2 w3 : quiet w1 w2 -> quiet w2 w3 -> quiet w1 w3.
Proof.
  intros [] []. constructor; try congruence; try (intros g; congruence). by etrans.
Qed.

Lemma quiet_meta_step w w' : fs_inv w -> meta_step w w' -> quiet w w'.
Proof.
  intros Hi Hs. constructor; [by eapply fs_inv_meta_step|apply Hs|..];
    try (intros g); rewrite ?(ms_view _ _ Hs); try done. by apply file_content_meta_step.
Qed.

(** a step that changes no byte of a live block, no file, and nothing of a record
    or a file block that a file uses *)
Lemma quiet_dead w w' :
  fs_inv w -> fs_inv w' -> env_step w w' ->
  (forall g i, 0 <= i < file_size (view_of w) g ->
     let a := byte_addr (w_super w) (file_blocks (view_of w) g) i in
     st_get (w_store w') a = st_get (w_store w) a) ->
  v_files (view_of w') = v_files (view_of w) ->
  (forall fb, live_fb (view_of w) fb -> v_fb (view_of w') !! fb = v_fb (view_of w) !! fb) ->
  (forall i, live_meta (view_of w) i -> v_fm (view_of w') !! i = v_fm (view_of w) !! i) ->
  quiet w w'.
Proof.
  intros Hi Hi' HE Hd Hf Hb Hm.
  assert (Hg : forall g, file_blocks (view_of w') g = file_blocks (view_of w) g /\
    file_size (view_of w') g = file_size (view_of w) g).
  { intros g. apply file_frame; [by rewrite Hf| |].
    - intros fb Hfb. apply Hb. by eapply file_fb_live.
    - intros o Ho. apply Hm. by exists g, o. }
  constructor; try done; try (intros g; apply Hg).
  intros g. unfold file_content. destruct (Hg g) as [-> ->]. rewrite (es_super _ _ HE).
  apply content_of_ext. intros i Hir. by apply Hd.
Qed.

Lemma quiet_view w w' :
  fs_inv w -> env_step w w' -> data_same w w' -> inv (w_super w) (view_of w') ->
  v_files (view_of w') = v_files (view_of w) ->
  (forall fb, live_fb (view_of w) fb -> v_fb (view_of w') !! fb = v_fb (view_of w) !! fb) ->
  (forall i, live_meta (view_of w) i -> v_fm (view_of w') !! i = v_fm (view_of w) !! i) ->
  quiet w w'.
Proof.
  intros Hi HE Hd HV Hf Hb Hm. apply quiet_dead; try done.
  - by eapply fs_inv_env.
  - intros g i Hir a. apply Hd. apply byte_addr_lower; [|lia].
    by apply (file_blocks_nonneg _ _ (fi_inv _ Hi)).
Qed.

Lemma quiet_fd w w' : quiet w w' -> fd_step w w'.
Proof.
  intros Hq. apply fd_step_env; [apply Hq|]. intros f [o Ho]. apply view_file_exists.
  rewrite (q_files _ _ Hq), (view_files_lookup _ _ _ Ho). eauto.
Qed.

Lemma quiet_live_fb w w' fb :
  quiet w w' -> live_fb (view_of w') fb <-> live_fb (view_of w) fb.
Proof. intros Hq. unfold live_fb. by rewrite (q_files _ _ Hq). Qed.

Lemma quiet_live_meta w w' i :
  quiet w w' -> live_meta (view_of w') i <-> live_meta (view_of w) i.
Proof. intros Hq. unfold live_meta. by rewrite (q_files _ _ Hq). Qed.

Lemma live_block_file V x : live_block V x -> exists g, x ∈ file_blocks V g.
Proof.
  intros (g & og & fb & b & Hg & Hfb & Hb & Hx). exists g. unfold file_blocks, file_fb.
  rewrite Hg. cbn. rewrite Hfb. cbn. by rewrite Hb.
Qed.

Lemma file_blocks_eq V g og fb b :
  v_files V !! g = Some og -> ov_items og !! 0 = Some fb -> v_fb V !! fb = Some b ->
  file_blocks V g = bv_blocks b.
Proof.
  intros Hg Hfb Hb. unfold file_blocks, file_fb. rewrite Hg. cbn. rewrite Hfb. cbn. by rewrite Hb.
Qed.

(** ** The new record *)

Section Shrink.
Context `{Env}.

(** the record [i] is taken from the free list and nobody uses it yet *)
Definition fresh_record (w : world) (i : Z) : Prop :=
  0 <= i < sb_max_file_num (w_super w) /\ (i ∉ v_free_fh (view_of w)) /\
  (i ∉ v_parents (view_of w)) /\ ~ live_meta (view_of w) i /\
  exists m, w_filemeta w !! i = Some m /\ fm_fh m = i /\ fm_used m = true.

Lemma set_errno_step e w : meta_step w (set_w_errno e w).
Proof. by constructor. Qed.

Lemma NewFreeFileMeta_wp w dh name :
  fs_inv w -> (length name <= 64)%nat ->
  wp (NewFreeFileMeta dh name) (fun r w' => quiet w w' /\
    match r with
    | None => fh_free (w_fh w) = [] 
    | Some i => fresh_record w' i /\ exists rest, fh_free (w_fh w) = i :: rest /\
        view_of w' = set_v_fm (<[i := MkFmView i true 0]> (v_fm (view_of w)))
                       (set_v_free_fh rest (view_of w)) /\
        exists m1 h, file_wf m1 /\ fm_fh m1 = i /\ fm_used m1 = true /\
          w' = set_w_fh h (set_w_filemeta (<[i := m1]> (w_filemeta w)) w)
    end) w.
Proof.
  intros Hi Hn. unfold NewFreeFileMeta. do 2 wp_step.
  destruct (fh_free (w_fh w)) as [|i rest] eqn:Hfree.
  - wp_step. unfold set_errno. wp_step. wp_step.
    split; [by apply quiet_meta_step, set_errno_step|done].
  - pose proof (fi_inv _ Hi) as HV. destruct (i_free_fh _ _ HV) as [Hnd Hall].
    cbn in Hnd, Hall. rewrite Hfree in Hnd, Hall. apply NoDup_cons in Hnd as [Hir Hnd].
    destruct (Hall i) as [Hp Hm]; [set_solver|]. apply view_fm_lookup in Hm as (m & Hm & Hmv).
    injection Hmv as Hfh Hu Hs. pose proof (filemeta_range _ _ _ Hi Hm) as Hrange.
    assert (Hdead : ~ live_meta (view_of w) i).
    { intros Hl%(live_meta_not_free _ _ HV). cbn in Hl. rewrite Hfree in Hl. set_solver. }
    apply wp_bind. eapply wp_get_filemeta; [done|]. unfold file_meta_invalid.
    rewrite <- Hu, <- Hfh, <- Hs, Z.eqb_refl. cbn [negb orb Z.eqb].
    change (Z.to_nat kBlockFsMaxFileNameLen) with 64%nat. apply wp_bind.
    rewrite decide_True by done. wp_step. apply wp_bind, wp_put_filemeta.
    set (m1 := set_fm_file_name _ _).
    assert (Hwf1 : file_wf m1).
    { destruct (proj2 (fi_wf _ Hi) _ _ Hm). pose proof (lo_max_file _ (fi_layout _ Hi)).
      constructor; try done.
      - cbn. unfold in_u. lia.
      - apply wrap_bound. lia.
      - cbn. unfold strcpy0. rewrite length_app, length_replicate. lia. }
    apply wp_bind. unfold pop_free_fh. wp_step. wp_step. cbn [set_w_fh w_fh set_w_filemeta].
    set (w1 := set_w_filemeta (<[i := m1]> (w_filemeta w)) w).
    rewrite Hfree. cbn [tail]. set (w' := set_w_fh _ _).
    assert (Hv : view_of w' = set_v_fm (<[i := MkFmView i true 0]> (v_fm (view_of w)))
      (set_v_free_fh rest (view_of w))).
    { change (view_of w') with (set_v_free_fh rest (view_of w1)). unfold w1.
      rewrite view_set_filemeta. unfold view_fm. cbn. by rewrite <- Hs. }
    assert (HE : env_step w w').
    { transitivity w1; [by apply env_step_filemeta|]. by constructor. }
    assert (Hinv : inv (w_super w) (view_of w')).
    { rewrite Hv. apply (inv_fm_dead _ _ (inv_free_fh_pop _ _ HV i rest Hfree)); try done.
      cbn. rewrite lookup_fmap, Hm. eauto. }
    split.
    + apply quiet_view; try done; rewrite Hv; try done.
      intros j Hj. cbn. rewrite lookup_insert_ne; [done|]. by intros ->.
    + split; cycle 1.
      { exists rest. split; [done|]. split; [done|]. by exists m1, (set_fh_free rest (w_fh w)). }
      split; [done|]. rewrite Hv.
      split_and!; try done. exists m1. split; [apply lookup_insert_eq|done].
Qed.

(** a record that nobody uses yet can be rewritten *)
Lemma quiet_put_filemeta w i m' :
  fs_inv w -> fresh_record w i -> file_wf m' -> fm_fh m' = i -> fm_used m' = true ->
  let w' := set_w_filemeta (<[i := m']> (w_filemeta w)) w in
  quiet w w' /\ fresh_record w' i.
Proof.
  intros Hi (Hr & Hf & Hp & Hd & m & Hm & _) Hwf Hfh Hu w'.
  assert (Hv : view_of w' = set_v_fm (<[i := view_fm m']> (v_fm (view_of w))) (view_of w))
    by apply view_set_filemeta.
  split.
  - apply quiet_view; try done.
    + by apply env_step_filemeta.
    + rewrite Hv. apply (inv_fm_dead _ _ (fi_inv _ Hi)); try done.
      rewrite (view_fm_some _ _ _ Hm). eauto.
    + rewrite Hv. intros j Hj. cbn. rewrite lookup_insert_ne; [done|]. by intros ->.
  - split; [exact Hr|]. split; [exact Hf|]. split; [exact Hp|]. split; [exact Hd|].
    exists m'. split; [apply lookup_insert_eq|done].
Qed.

(** ** The new file block *)

(** the file block [fb] is taken from the free list and no file uses it yet *)
Definition fresh_fb (w : world) (fb : Z) : Prop :=
  0 <= fb < sb_max_file_block_num (w_super w) /\ (fb ∉ v_free_fb (view_of w)) /\
  ~ live_fb (view_of w) fb.

Lemma quiet_put_fbmeta w fb b' :
  fs_inv w -> fresh_fb w fb -> fb_meta_ok b' ->
  let w' := set_w_fbmeta (<[fb := b']> (w_fbmeta w)) w in quiet w w' /\ fresh_fb w' fb.
Proof.
  intros Hi (Hr & Hf & Hd) Hok w'.
  assert (Hv : view_of w' = set_v_fb (<[fb := view_fb b']> (v_fb (view_of w))) (view_of w))
    by apply view_set_fbmeta.
  split; [|split; [exact Hr|split; [exact Hf|exact Hd]]]. apply quiet_view; try done.
  - by apply env_step_fbmeta.
  - rewrite Hv. apply (inv_fb_dead _ _ (fi_inv _ Hi)); try done.
    by apply (i_fb_dom _ _ (fi_inv _ Hi)).
  - rewrite Hv. intros j Hj. cbn. rewrite lookup_insert_ne; [done|]. by intros ->.
Qed.

Lemma quiet_pop_fb w fb rest :
  fs_inv w -> w_free_fbhs w = fb :: rest ->
  let w' := set_w_free_fbhs rest w in quiet w w' /\ fresh_fb w' fb.
Proof.
  intros Hi Hfree w'. pose proof (new_fb_dead w fb rest Hi Hfree) as [Hdead Hrest].
  split.
  - apply quiet_view; try done. exact (inv_free_fb_pop _ _ (fi_inv _ Hi) fb rest Hfree).
  - destruct (proj2 (i_free_fb _ _ (fi_inv _ Hi)) fb) as (b & Hb & _).
    { cbn. rewrite Hfree. set_solver. }
    split; [|done]. apply (i_fb_dom _ _ (fi_inv _ Hi)). eauto.
Qed.

(** the complete blocks are inherited *)
Lemma inherit_blocks_wp old_fb new_fb block_num old js : forall (w : world) new c,
  old_fb <> new_fb -> w_fbmeta w !! old_fb = Some old -> w_fbmeta w !! new_fb = Some new ->
  fb_meta_ok old -> fb_meta_ok new -> fb_used_block_num new = c ->
  js = seqZ c (kFileBlockCapacity - c) -> c < block_num <= fb_used_block_num old ->
  wp (inherit_blocks js old_fb new_fb c block_num) (fun _ w' => exists new',
    w' = set_w_fbmeta (<[new_fb := new']> (w_fbmeta w)) w /\ fb_meta_ok new' /\
    view_fb new' = MkFbView (fb_used new) (fb_file_cut new)
      (fb_blocks new ++ slice (Z.to_nat c) (Z.to_nat (block_num - c)) (fb_blocks old))) w.
Proof.
  induction js as [|j js IH]; intros w new c Hne Hold Hnew Hoo Hno Hc Hjs Hn.
  - destruct Hoo as [? Hu]. apply (f_equal length) in Hjs. rewrite length_seqZ in Hjs.
    cbn in Hjs. units. lia.
  - pose proof (proj2 Hoo) as Hu. pose proof (bw_num _ (proj1 Hno)) as Hcp. unfold in_u in Hcp.
    rewrite seqZ_cons in Hjs by (units; lia). injection Hjs as -> Hjs.
    cbn [inherit_blocks]. apply wp_bind. eapply wp_get_fbmeta; [done|].
    pose proof (fb_blocks_length old Hoo) as Hlen.
    destruct (lookup_lt_is_Some_2 (fb_blocks old) (Z.to_nat c)) as [x Hx]; [lia|].
    assert (Hx' : fb_block_id old !! Z.to_nat c = Some x).
    { unfold fb_blocks in Hx. rewrite lookup_take_lt in Hx by lia. done. }
    assert (Hxr : in_u 32 x).
    { apply (proj1 (Forall_forall _ _) (bw_ids_range _ (proj1 Hoo))). by eapply list_elem_of_lookup_2. }
    apply wp_bind. eapply wp_in_bounds; [done|]. apply wp_bind. eapply wp_get_fbmeta; [done|].
    destruct (add_block_id_blocks x new) as (new1 & Hadd & Hbl & Hnum & Hlen1 & Hnew1);
      [apply (proj1 Hno)|units; lia|].
    apply wp_bind. eapply wp_in_bounds; [exact Hadd|]. apply wp_bind, wp_put_fbmeta.
    assert (Hok1 : fb_meta_ok new1).
    { rewrite Hnew1. destruct (proj1 Hno). split; [|cbn; units; lia]. constructor; try done.
      - cbn. unfold in_u. units. lia.
      - cbn. by rewrite length_insert.
      - cbn. by apply Forall_insert. }
    assert (Hone : slice (Z.to_nat c) 1 (fb_blocks old) = [x]).
    { unfold slice. rewrite (drop_S _ _ _ Hx). done. }
    assert (Hfu : fb_used new1 = fb_used new /\ fb_file_cut new1 = fb_file_cut new) by by rewrite Hnew1.
    destruct (Z.eqb_spec (c + 1) block_num) as [<-|Hneq].
    + wp_step. exists new1. split_and!; try done. unfold view_fb.
      destruct Hfu as [-> ->]. rewrite Hbl. do 2 f_equal. symmetry.
      by replace (Z.to_nat (c + 1 - c)) with 1%nat by lia.
    + eapply wp_mono; [apply (IH _ new1 (c + 1)); try done|].
      * cbn. rewrite lookup_insert_ne by done. done.
      * apply lookup_insert_eq.
      * lia.
      * rewrite Hjs. f_equal; lia.
      * lia.
      * intros _ w' (new' & -> & Hok' & Hv'). exists new'. split_and!; try done.
        { cbn. by rewrite insert_insert_eq. }
        rewrite Hv'. destruct Hfu as [-> ->]. rewrite Hbl, <- app_assoc. do 2 f_equal.
        rewrite <- Hone. unfold slice. replace (Z.to_nat (c + 1)) with (Z.to_nat c + 1)%nat by lia.
        replace (Z.to_nat (block_num - c)) with (1 + Z.to_nat (block_num - (c + 1)))%nat by lia.
        rewrite <- drop_drop. by rewrite take_take_drop.
Qed.

(** ** Copying the last, partial block *)

Definition block_start (sb : SuperBlockMeta) (x : Z) : Z :=
  sb_block_data_start_offset sb + kBlockSize * x.

Lemma data_offset_eq sb x off :
  layout_ok sb -> 0 <= x < sb_curr_block_num sb -> 0 <= off < kBlockSize ->
  data_offset sb x off = block_start sb x + off.
Proof.
  intros [] Hx Ho. unfold data_offset, block_start. rewrite lo_block_size.
  units. rewrite wrap_small by lia. lia.
Qed.

Lemma io_of_refl w : io_of w w.
Proof. unfold io_of. by rewrite upd_io_self. Qed.

Lemma io_of_trans w1 w2 w3 : io_of w1 w2 -> io_of w2 w3 -> io_of w1 w3.
Proof. unfold io_of. intros H1 H2. rewrite H2 at 1. rewrite H1. reflexivity. Qed.

Lemma io_of_upd e evs st w : io_of w (upd_io e evs st w).
Proof. reflexivity. Qed.

Lemma io_env_step w w' :
  io_of w w' -> w_events w' `suffix_of` w_events w -> env_step w w' /\ view_of w' = view_of w.
Proof.
  intros Hio Hs. split; [|by rewrite Hio]. rewrite Hio. constructor; try done.
  - intros (?&?&?). split_and!; try done. by eapply Forall_suffix.
  - intros [(?&?&?) ?]. split; [split_and!; try done|]; by eapply Forall_suffix.
Qed.

(** [CopyData] within one block *)
Lemma CopyData_wp w src dst len :
  fs_inv w -> 0 < len < kBlockSize -> 0 <= src < sb_curr_block_num (w_super w) ->
  0 <= dst < sb_curr_block_num (w_super w) -> src <> dst ->
  wp (CopyData src dst 0 len) (fun ok w' =>
    io_of w w' /\ w_events w' `suffix_of` w_events w /\
    (forall a, a < block_start (w_super w) dst \/ block_start (w_super w) dst + len <= a ->
       st_get (w_store w') a = st_get (w_store w) a) /\
    (ok = true -> forall j, 0 <= j < len ->
       st_get (w_store w') (block_start (w_super w) dst + j)
       = st_get (w_store w) (block_start (w_super w) src + j)) /\
    (dev_calm w -> ok = true)) w.
Proof.
  intros Hi Hlen Hsrc Hdst Hne. pose proof (fi_layout _ Hi) as Hl. pose proof Hl as [].
  pose proof (fi_dev _ Hi) as Hdev.
  assert (Hfuel : copy_fuel len = 1%nat).
  { unfold copy_fuel. change (4 * Units.M) with kBlockSize. by rewrite Z.div_small by lia. }
  unfold CopyData. apply wp_bind. rewrite Hfuel. cbn [copy_loop].
  destruct (Z.leb_spec len 0); [lia|]. change (4 * Units.M) with kBlockSize.
  rewrite Z.min_l by lia. do 2 wp_step. rewrite !data_offset_eq, !Z.add_0_r by (try done; lia).
  set (bs := block_start (w_super w)) in *.
  assert (Hbs : forall x, bs x = sb_block_data_start_offset (w_super w) + 4194304 * x) by done.
  units. apply wp_bind. eapply wp_mono; [apply (read_run w (bs src) ltac:(rewrite Hbs; lia)
    ltac:(lia) false (Z.to_nat len)); rewrite Hbs; lia|].
  intros [n out] w1 (e1 & n1 & evs1 & Hn1 & Hr1 & Hs1 & Hout & Hw1 & Hg1). cbn [fst snd] in *.
  destruct (Z.eqb_spec n len) as [->|Hnl]; cbn [negb]; cycle 1.
  { wp_step. cbn [negb]. wp_step. subst w1. split_and!; try done.
    intros [Hg _]. destruct (Hg1 Hg). lia. }
  assert (n1 = Z.to_nat len) as -> by lia.
  assert (Hlo : length out = Z.to_nat len) by by rewrite Hout, st_read_length.
  apply wp_bind. eapply wp_mono; [apply (write_run w1 (bs dst) ltac:(rewrite Hbs; lia)
    ltac:(rewrite Hw1; cbn; lia) false out); rewrite Hw1, Hlo, Hbs; cbn; lia|].
  intros n w2 (e2 & n2 & evs2 & Hn2 & Hr2 & Hs2 & Hw2 & Hg2).
  assert (Hio : io_of w w2) by (rewrite Hw2, Hw1; reflexivity).
  assert (Hst2 : w_store w2 = st_write (w_store w) (bs dst) (take n2 out))
    by (rewrite Hw2, Hw1; reflexivity).
  assert (Hev : w_events w2 `suffix_of` w_events w).
  { rewrite Hw2. etrans; [exact Hs2|]. by rewrite Hw1. }
  assert (Hfr : forall a, a < bs dst \/ bs dst + len <= a ->
    st_get (w_store w2) a = st_get (w_store w) a).
  { intros a Ha. rewrite Hst2. apply st_write_get_out. rewrite length_take. lia. }
  assert (Hcalm1 : dev_calm w -> dev_calm w1).
  { intros [Hg Hc]. rewrite Hw1. destruct Hg as (?&?&?). split; [split_and!; try done|];
      by eapply Forall_suffix. }
  destruct (Z.eqb_spec n len) as [->|Hnl]; cbn [negb]; cycle 1.
  { wp_step. cbn [negb]. wp_step. split_and!; try done.
    intros Hc. destruct (Hg2 (proj1 (Hcalm1 Hc))). lia. }
  rewrite Z.sub_diag. cbn [Z.leb Z.compare]. wp_step. cbn [negb]. apply wp_bind.
  eapply wp_mono; [apply fsync_run|]. intros r w3 (e3 & evs3 & Hs3 & Hr3 & Hw3 & Hc3). wp_step.
  assert (Hst3 : w_store w3 = w_store w2) by by rewrite Hw3.
  split_and!.
  - eapply io_of_trans; [done|]. by rewrite Hw3.
  - rewrite Hw3. etrans; [exact Hs3|done].
  - intros a Ha. rewrite Hst3. by apply Hfr.
  - intros _ j Hj. rewrite Hst3, Hst2. assert (n2 = length out) as -> by lia. rewrite firstn_all.
    replace j with (Z.of_nat (Z.to_nat j)) by lia. apply st_write_get_in.
    rewrite Hout, st_read_lookup by lia. done.
  - intros Hc. apply Z.eqb_eq, Hc3. specialize (Hcalm1 Hc).
    rewrite Hw2. destruct Hcalm1 as [(?&?&?) ?]. split; [split_and!; try done|];
      by eapply Forall_suffix.
Qed.

Lemma quiet_pool w h :
  fs_inv w -> (forall x, x ∈ bh_pool h -> x ∈ bh_pool (w_bh w)) -> quiet w (set_w_bh h w).
Proof.
  intros Hi Hh. apply quiet_view; try done.
  apply (inv_pool _ _ (fi_inv _ Hi)). intros x Hx. left. by apply Hh.
Qed.

(** the address of a byte of a file lies in one of its blocks *)
Lemma byte_addr_in_block w g i :
  fs_inv w -> 0 <= i < file_size (view_of w) g ->
  exists y, y ∈ file_blocks (view_of w) g /\
    byte_addr (w_super w) (file_blocks (view_of w) g) i
    = block_start (w_super w) y + i mod kBlockSize.
Proof.
  intros Hi Hr. pose proof (file_size_blocks _ _ (fi_inv _ Hi) g).
  destruct (block_lookup (file_blocks (view_of w) g) i ltac:(lia)) as [y Hy].
  exists y. split; [by eapply list_elem_of_lookup_2|]. by rewrite (byte_addr_block _ _ _ _ Hy).
Qed.

(** writing into a block that no file uses *)
Lemma quiet_dead_block w w' x :
  fs_inv w -> io_of w w' -> w_events w' `suffix_of` w_events w ->
  ~ live_block (view_of w) x ->
  (forall a, a < block_start (w_super w) x \/ block_start (w_super w) x + kBlockSize <= a ->
     st_get (w_store w') a = st_get (w_store w) a) ->
  quiet w w'.
Proof.
  intros Hi Hio Hs Hx Hst. destruct (io_env_step _ _ Hio Hs) as [HE Hv].
  apply quiet_dead; rewrite ?Hv; try done.
  - eapply fs_inv_env; [done..|]. rewrite Hv. apply Hi.
  - intros g i Hir a. destruct (byte_addr_in_block w g i Hi Hir) as (y & Hy & Ha).
    apply Hst. unfold a. rewrite Ha.
    assert (x <> y) by (intros ->; apply Hx; by apply (file_blocks_live _ _ (fi_inv _ Hi) g)).
    unfold block_start. units. pose proof (Z.mod_pos_bound i 4194304 ltac:(lia)). lia.
Qed.

(** the content of the shrunk file *)
Lemma shrunk_content (sb : SuperBlockMeta) (st st' : store) (blocks extra : list Z) (size offset : Z) :
  let bn := offset / kBlockSize in let bo := offset mod kBlockSize in
  0 < offset < size -> size <= kBlockSize * Z.of_nat (length blocks) ->
  (forall i, 0 <= i < size -> st_get st' (byte_addr sb blocks i) = st_get st (byte_addr sb blocks i)) ->
  (if 0 <? bo then exists x src, extra = [x] /\ blocks !! Z.to_nat bn = Some src /\
     forall j, 0 <= j < bo -> st_get st' (block_start sb x + j) = st_get st (block_start sb src + j)
   else extra = []) ->
  content_of sb st' (take (Z.to_nat bn) blocks ++ extra) offset
  = take (Z.to_nat offset) (content_of sb st blocks size).
Proof.
  intros bn bo Hoff Hcap Hold Hextra. rewrite <- content_of_take by lia.
  pose proof (Z.div_mod offset kBlockSize ltac:(done)) as Hdm. fold bn bo in Hdm.
  pose proof (Z.mod_pos_bound offset kBlockSize ltac:(done)) as Hbo. fold bo in Hbo.
  assert (Hbn : 0 <= bn < Z.of_nat (length blocks)).
  { split; [apply Z.div_pos; units; lia|]. apply Z.div_lt_upper_bound; units; lia. }
  assert (Hlt : length (take (Z.to_nat bn) blocks) = Z.to_nat bn) by (rewrite length_take; lia).
  apply content_of_ext. intros i Hi.
  destruct (block_lookup blocks i ltac:(lia)) as [y Hy].
  pose proof (Z.div_mod i kBlockSize ltac:(done)). pose proof (Z.mod_pos_bound i kBlockSize ltac:(done)).
  pose proof (Z.div_pos i kBlockSize ltac:(lia) ltac:(done)).
  destruct (decide (i / kBlockSize < bn)) as [Hlow|Hhigh].
  - rewrite <- Hold by lia. f_equal. rewrite (byte_addr_block _ blocks i y) by done.
    apply byte_addr_block. rewrite lookup_app_l by lia. by rewrite lookup_take_lt by lia.
  - assert (i / kBlockSize = bn) as Hb by (units; lia).
    destruct (Z.ltb_spec 0 bo) as [Hpos|]; [|units; lia].
    destruct Hextra as (x & src & -> & Hsrc & Hcp). rewrite Hb in Hy. rewrite Hy in Hsrc. simplify_eq.
    rewrite (byte_addr_block _ blocks i src) by by rewrite Hb.
    rewrite (byte_addr_block _ _ i x); [apply Hcp; units; lia|].
    rewrite Hb, lookup_app_r by lia. rewrite Hlt. by rewrite Nat.sub_diag.
Qed.

(** what [shrink_file_block] leaves alone *)
Definition same_rest (w w' : world) : Prop :=
  w_filemeta w' = w_filemeta w /\ w_files w' = w_files w /\ w_fh w' = w_fh w /\ w_dh w' = w_dh w /\
  w_free_fbhs w' = w_free_fbhs w.

(** the new file block lists the inherited blocks and, in [extra], the copied one *)
Definition made_fb (w : world) (f offset fb : Z) (extra : list Z) (w' : world) : Prop :=
  let blocks := take (Z.to_nat (offset / kBlockSize)) (file_blocks (view_of w) f) ++ extra in
  v_fb (view_of w') !! fb = Some (MkFbView true 0 blocks) /\
  length extra = (if 0 <? offset mod kBlockSize then 1%nat else 0%nat) /\
  (forall x, x ∈ extra -> x ∈ v_pool (view_of w)) /\
  v_pool (view_of w') = v_pool (view_of w) ∖ list_to_set extra /\
  content_of (w_super w) (w_store w') blocks offset = take (Z.to_nat offset) (file_content w f).

Section FileBlock.
Context (w : world) (f offset : Z) (o : file) (m : FileMeta) (old_fb : Z) (old : FileBlockMeta).
Context (Hi : fs_inv w) (Hff : file_facts w f o m) (Hfb : fb_facts w f o m old_fb old).
Context (Hoff : 0 < offset < fm_size m).
Context (i fb : Z) (nb : FileBlockMeta).
Context (Hrec : fresh_record w i) (Hfresh : fresh_fb w fb).
Context (Hnb : w_fbmeta w !! fb = Some nb) (Hnbl : fb_blocks nb = []).

Let bn := offset / kBlockSize.
Let bo := offset mod kBlockSize.

Lemma shrink_ranges :
  0 <= bn < fb_used_block_num old /\ 0 <= bo < kBlockSize /\ bn mod kFileBlockCapacity = bn /\
  old_fb <> fb /\ fb_meta_ok nb /\ fb_used_block_num nb = 0 /\ 0 <= fm_fh m.
Proof using All.
  destruct Hfb as (_ & Hold & Hok & _ & _ & _ & Hs & _ & Hlive).
  assert (Hb : 0 <= bn < fb_used_block_num old).
  { split; [apply Z.div_pos; units; lia|]. apply Z.div_lt_upper_bound; units; lia. }
  split; [done|]. split; [by apply Z.mod_pos_bound|].
  split; [apply Z.mod_small; destruct Hok; lia|]. split.
  { intros ->. destruct Hfresh as (_ & _ & Hd). apply Hd. by eapply file_fb_live. }
  assert (Hnok : fb_meta_ok nb) by apply (proj1 (fi_wf _ Hi) _ _ Hnb).
  split; [done|]. pose proof (fb_blocks_length nb Hnok) as Hl. rewrite Hnbl in Hl. cbn in Hl.
  split; [done|]. destruct Hff as (_ & _ & _ & _ & Hwf & _). apply (fw_fh _ Hwf).
Qed.

(** the stage before the copy *)
Lemma shrink_inherit_wp (b1 : FileBlockMeta) :
  fb_meta_ok b1 -> fb_used b1 = true -> fb_file_cut b1 = 0 -> fb_blocks b1 = [] ->
  fb_used_block_num b1 = 0 ->
  wp (if bn =? 0 then ret tt
      else inherit_blocks (seqZ 0 kFileBlockCapacity) old_fb fb 0 bn)
     (fun _ w' => exists b2, w' = set_w_fbmeta (<[fb := b2]> (w_fbmeta w)) w /\
        fb_meta_ok b2 /\ view_fb b2 = MkFbView true 0 (take (Z.to_nat bn) (fb_blocks old)))
     (set_w_fbmeta (<[fb := b1]> (w_fbmeta w)) w).
Proof using All.
  intros Hok1 Hu Hc Hbl Hn. destruct shrink_ranges as (Hbn & _ & _ & Hne & _).
  destruct Hfb as (_ & Hold & Hok & _).
  destruct (Z.eqb_spec bn 0) as [->|Hz].
  - wp_step. exists b1. split; [done|]. split; [done|]. unfold view_fb. by rewrite Hu, Hc, Hbl.
  - eapply wp_mono; [apply (inherit_blocks_wp old_fb fb bn old _ _ b1 0); try done; try lia|].
    + cbn. by rewrite lookup_insert_ne.
    + apply lookup_insert_eq.
    + intros _ w' (b2 & -> & Hok2 & Hv). exists b2. cbn. rewrite insert_insert_eq.
      split; [done|]. split; [done|]. rewrite Hv, Hu, Hc, Hbl, Z.sub_0_r. done.
Qed.

(** the file block with the copied block [x] added *)
Lemma copied_block_meta (b2 : FileBlockMeta) (x : Z) :
  fb_meta_ok b2 -> view_fb b2 = MkFbView true 0 (take (Z.to_nat bn) (fb_blocks old)) ->
  0 <= x < sb_curr_block_num (w_super w) ->
  exists b3, add_block_id x b2 = Some b3 /\ fb_meta_ok b3 /\
    view_fb b3 = MkFbView true 0 (take (Z.to_nat bn) (fb_blocks old) ++ [x]).
Proof using All.
  intros Hok2 Hv2 Hx. destruct shrink_ranges as (Hbn & _). destruct Hfb as (_ & _ & Hok & _).
  pose proof (fb_blocks_length old Hok) as Hlen.
  assert (Hn2 : fb_used_block_num b2 = bn).
  { rewrite <- (fb_blocks_length b2 Hok2). injection Hv2 as _ _ ->. rewrite length_take. lia. }
  destruct (add_block_id_blocks x b2) as (b3 & Hadd & Hbl3 & Hnum & Hlen3 & Hb3);
    [apply (proj1 Hok2)|destruct Hok; units; lia|].
  exists b3. split; [done|]. split.
  - rewrite Hb3. pose proof (proj2 Hok). destruct (proj1 Hok2). split; [|cbn; units; lia].
    pose proof (lo_blocks _ (fi_layout _ Hi)). constructor; try done.
    + cbn. unfold in_u. units. lia.
    + cbn. by rewrite length_insert.
    + cbn. apply Forall_insert; [done|]. unfold in_u. lia.
  - injection Hv2 as Hu Hc Hb. unfold view_fb. rewrite Hbl3, Hb.
    assert (fb_used b3 = true) as -> by (rewrite Hb3; exact Hu).
    assert (fb_file_cut b3 = 0) as -> by (rewrite Hb3; exact Hc). done.
Qed.

(** a store with the beginning of the block [src] in the dead block [x] holds the
    prefix of the file *)
Lemma copied_content (x src : Z) (st : store) :
  0 < bo -> ~ live_block (view_of w) x -> fb_blocks old !! Z.to_nat bn = Some src ->
  (forall a, a < block_start (w_super w) x \/ block_start (w_super w) x + bo <= a ->
     st_get st a = st_get (w_store w) a) ->
  (forall j, 0 <= j < bo ->
     st_get st (block_start (w_super w) x + j) = st_get (w_store w) (block_start (w_super w) src + j)) ->
  content_of (w_super w) st (take (Z.to_nat bn) (fb_blocks old) ++ [x]) offset =
  take (Z.to_nat offset) (file_content w f).
Proof using All.
  intros Hpos Hxd Hsrc Hfr Hcp. destruct shrink_ranges as (Hbn & Hbo & _).
  pose proof Hfb as (_ & _ & Hok & _ & _ & _ & Hs & Hbl & _).
  pose proof Hff as (_ & _ & _ & _ & _ & Hsz).
  pose proof (fb_blocks_length old Hok) as Hlen.
  unfold file_content. rewrite Hsz, Hbl. apply shrunk_content; fold bn bo.
  - lia.
  - rewrite Hlen. lia.
  - intros j Hj. rewrite <- Hsz in Hj. rewrite <- Hbl.
    destruct (byte_addr_in_block w f j Hi Hj) as (y & Hy & Ha). rewrite Ha.
    assert (x <> y) by (intros ->; apply Hxd; by apply (file_blocks_live _ _ (fi_inv _ Hi) f)).
    apply Hfr. unfold block_start. units. pose proof (Z.mod_pos_bound j 4194304 ltac:(lia)). lia.
  - rewrite (proj2 (Z.ltb_lt 0 bo) Hpos). exists x, src. split; [done|]. split; [done|].
    intros j Hj. by apply Hcp.
Qed.

(** taking the block [x] from the pool *)
Lemma pool_block_dead (w2 : world) (x : Z) :
  quiet w w2 -> w_bh w2 = w_bh w -> x ∈ bh_pool (w_bh w) ->
  let w3 := set_w_bh (set_bh_pool (bh_pool (w_bh w) ∖ list_to_set [x]) (w_bh w)) w2 in
  quiet w w3 /\ 0 <= x < sb_curr_block_num (w_super w) /\
  ~ live_block (view_of w) x /\ ~ live_block (view_of w3) x.
Proof using All.
  intros Hq2 Hb Hx w3.
  assert (Hq3 : quiet w w3).
  { eapply quiet_trans; [exact Hq2|]. apply (quiet_pool w2 _ (q_inv _ _ Hq2)).
    intros y Hy. rewrite Hb. cbn in Hy. set_solver. }
  assert (Hxd : ~ live_block (view_of w) x).
  { intros [Hl' _]%(live_block_pool _ _ (fi_inv _ Hi)). by apply Hl'. }
  split; [done|]. split; [by apply (i_pool _ _ (fi_inv _ Hi))|]. split; [done|].
  intros [g Hxg]%live_block_file. rewrite (q_blocks _ _ Hq3) in Hxg. apply Hxd.
  by apply (file_blocks_live _ _ (fi_inv _ Hi) g).
Qed.

(** the copy of the partial block into the new file block *)
Lemma shrink_copy_wp (b2 : FileBlockMeta) :
  fb_meta_ok b2 -> view_fb b2 = MkFbView true 0 (take (Z.to_nat bn) (fb_blocks old)) ->
  let w2 := set_w_fbmeta (<[fb := b2]> (w_fbmeta w)) w in
  quiet w w2 -> 0 < bo ->
  wp (let! ids := Blocks.GetFreeBlockIdLock 1 in
      match ids with
      | None => ret false
      | Some block_ids =>
        let! new_block_id := in_bounds (block_ids !! 0%nat) in
        let! old := get_fbmeta old_fb in
        let! src := in_bounds (fb_block_id old !! Z.to_nat (bn mod kFileBlockCapacity)) in
        let! ok := CopyData src new_block_id 0 bo in
        if negb ok then ret false else
        let! new := get_fbmeta fb in
        let! new' := in_bounds (add_block_id new_block_id new) in
        put_fbmeta fb new' ;; ret true
      end)
     (fun ok w' => quiet w w' /\ same_rest w w' /\
        (ok = true -> exists extra, made_fb w f offset fb extra w') /\
        (dev_calm w -> v_pool (view_of w) <> ∅ -> ok = true)) w2.
Proof using All.
  intros Hok2 Hv2 w2 Hq2 Hpos.
  destruct shrink_ranges as (Hbn & Hbo & Hmod & Hne & _).
  pose proof Hfb as (He & Hold & Hok & _ & _ & _ & Hs & Hbl & Hlive).
  pose proof (fb_blocks_length old Hok) as Hlen.
  apply wp_bind. unfold wp at 1. rewrite (Blocks.GetFreeBlockIdLock_eq 1 w2).
  change (w_bh w2) with (w_bh w).
  destruct (Z.ltb_spec (Z.of_nat (size (bh_pool (w_bh w)))) 1) as [Hsm|Hbig].
  { wp_step. split; [done|]. split; [done|]. split; [done|]. intros _ Hp. destruct Hp.
    cbn. apply leibniz_equiv, size_empty_inv. lia. }
  destruct (Blocks.free_ids_spec 1 (bh_pool (w_bh w))) as (Hl & Hnd & Hin); [lia|].
  destruct (Blocks.free_ids 1 (bh_pool (w_bh w))) as [|x [|]] eqn:Hids; try (cbn in Hl; lia).
  specialize (Hin x ltac:(set_solver)).
  destruct (pool_block_dead w2 x Hq2 eq_refl Hin) as (Hq3 & Hxr & Hxd & Hxd3).
  set (w3 := set_w_bh _ w2) in *. pose proof (q_inv _ _ Hq3) as Hi3.
  apply wp_bind. eapply wp_in_bounds; [done|]. apply wp_bind. eapply (wp_get_fbmeta _ old).
  { cbn. by rewrite lookup_insert_ne. }
  destruct (lookup_lt_is_Some_2 (fb_blocks old) (Z.to_nat bn)) as [src Hsrc]; [lia|].
  assert (Hsrc' : fb_block_id old !! Z.to_nat bn = Some src).
  { unfold fb_blocks in Hsrc. by rewrite lookup_take_lt in Hsrc by lia. }
  rewrite Hmod. apply wp_bind. eapply wp_in_bounds; [done|].
  assert (Hsl : live_block (view_of w) src).
  { apply (file_blocks_live _ _ (fi_inv _ Hi) f). rewrite Hbl. by eapply list_elem_of_lookup_2. }
  destruct (live_block_pool _ _ (fi_inv _ Hi) src Hsl) as [_ Hsr].
  apply wp_bind. eapply wp_mono; [apply (CopyData_wp w3 src x bo); try done;
    [lia|by intros ->]|].
  intros ok w4 (Hio & Hev & Hfr & Hcp & Hcalm). change (w_super w3) with (w_super w) in *.
  assert (Hq4 : quiet w w4).
  { eapply quiet_trans; [exact Hq3|]. eapply (quiet_dead_block w3 w4 x); try done.
    intros a Ha. apply Hfr. change (w_super w3) with (w_super w) in Ha. lia. }
  assert (Hrest4 : same_rest w w4) by (rewrite Hio; done).
  destruct ok; cbn [negb]; cycle 1.
  { wp_step. split; [done|]. split; [done|]. split; [done|]. intros Hc _.
    exfalso. discriminate (Hcalm Hc). }
  destruct (copied_block_meta b2 x Hok2 Hv2 Hxr) as (b3 & Hadd & Hok3 & Hv3).
  apply wp_bind. eapply wp_get_fbmeta; [rewrite Hio; apply lookup_insert_eq|].
  apply wp_bind. eapply wp_in_bounds; [exact Hadd|]. apply wp_bind, wp_put_fbmeta. wp_step.
  assert (Hf4 : fresh_fb w4 fb) by (rewrite Hio; exact Hfresh).
  destruct (quiet_put_fbmeta w4 fb b3 (q_inv _ _ Hq4) Hf4 Hok3) as [Hq5 _].
  split; [by eapply quiet_trans|]. split; [done|]. split; [|done].
  intros _. exists [x]. unfold made_fb. fold bn bo. rewrite (proj2 (Z.ltb_lt 0 bo) Hpos), Hbl.
  split_and!.
  - rewrite view_set_fbmeta. cbn. by rewrite lookup_insert_eq, Hv3.
  - done.
  - intros y ->%list_elem_of_singleton. done.
  - by rewrite Hio.
  - by apply (copied_content x src); [| | |apply Hfr|apply Hcp].
Qed.

Lemma shrink_file_block_wp :
  wp (shrink_file_block f i fb bn bo) (fun ok w' => quiet w w' /\ same_rest w w' /\
        (ok = true -> exists extra, made_fb w f offset fb extra w') /\
        (dev_calm w -> (bo = 0 \/ v_pool (view_of w) <> ∅) -> ok = true)) w.
Proof using All.
  destruct shrink_ranges as (Hbn & Hbo & _ & Hne & Hnok & Hnu & _).
  pose proof Hfb as (He & Hold & Hok & _ & _ & Hcut & Hs & Hbl & Hlive).
  pose proof Hff as (Ho & _ & _ & _ & _ & Hsz). pose proof (fb_blocks_length old Hok) as Hlen.
  destruct Hrec as (_ & _ & _ & _ & nm & Hnm & Hnfh & _).
  unfold shrink_file_block. apply wp_bind. unfold wp at 1. rewrite (GetFileBlock_run w f o 0 Ho).
  rewrite He. change (i32 0) with 0. rewrite lookup_singleton_eq. apply wp_bind.
  eapply wp_deref; [done|]. apply wp_bind. eapply wp_get_fbmeta; [done|]. apply wp_bind.
  apply wp_assert; [by rewrite Hcut|]. apply wp_bind. eapply wp_get_filemeta; [done|].
  apply wp_bind. eapply wp_upd_fbmeta; [done|]. rewrite Hcut. set (b1 := set_fb_is_temp _ _).
  assert (Hok1 : fb_meta_ok b1).
  { destruct Hnok as [[] ?]. split; [|done]. constructor; try done. apply wrap_bound. lia. }
  apply wp_bind. eapply wp_mono; [by apply (shrink_inherit_wp b1)|].
  intros _ w2 (b2 & -> & Hok2 & Hv2).
  destruct (quiet_put_fbmeta w fb b2 Hi Hfresh Hok2) as [Hq2 _].
  destruct (Z.ltb_spec 0 bo) as [Hpos|Hz].
  - eapply wp_mono; [by apply (shrink_copy_wp b2)|].
    intros ok w' (Hq & Hsr & Hm & Hg). split_and!; try done.
    intros Hc [?|?]; [lia|by apply Hg].
  - wp_step. split; [done|]. split; [done|]. split; [|done].
    intros _. exists []. unfold made_fb. fold bn bo.
    destruct (Z.ltb_spec 0 bo); [lia|]. rewrite Hbl, app_nil_r. split_and!; try done.
    + rewrite view_set_fbmeta. cbn. by rewrite lookup_insert_eq, Hv2.
    + intros x Hx. by apply elem_of_nil in Hx.
    + cbn. set_solver.
    + unfold file_content. rewrite Hsz, Hbl.
      pose proof (shrunk_content (w_super w) (w_store w) (w_store w) (fb_blocks old) []
        (fm_size m) offset) as Hsc. cbn zeta in Hsc. fold bn bo in Hsc. rewrite app_nil_r in Hsc.
      apply Hsc; [lia|rewrite Hlen; lia|done|]. by destruct (Z.ltb_spec 0 bo); [lia|].
Qed.
End FileBlock.

(** ** The switch to the new record *)

(** the tables of directories and names change, and nothing that a view shows *)
Definition names_step (w w' : world) : Prop :=
  meta_step w w' /\ w_files w' = w_files w /\ w_filemeta w' = w_filemeta w /\
  (forall d, is_Some (w_dirs w !! d) -> is_Some (w_dirs w' !! d)).

Lemma put_dir_names w d o' :
  is_Some (w_dirs w !! d) -> names_step w (set_w_dirs (<[d := o']> (w_dirs w)) w).
Proof.
  intros Hd. assert (Hk : forall e, is_Some (w_dirs w !! e) -> is_Some (<[d := o']> (w_dirs w) !! e)).
  { intros e He. apply lookup_insert_is_Some'. by right. }
  split_and!; try done. constructor; try done. constructor; try done.
  intros Hok i e He. cbn. apply Hk. by eapply Hok.
Qed.

Lemma put_names w files fhs :
  names_step w (set_w_fh (set_fh_created_files files (set_fh_created_fhs fhs (w_fh w))) w).
Proof. by split_and!; try done. Qed.

Lemma names_refl w : names_step w w.
Proof. by split_and!. Qed.

Lemma names_trans w1 w2 w3 : names_step w1 w2 -> names_step w2 w3 -> names_step w1 w3.
Proof.
  intros (M1 & F1 & A1 & D1) (M2 & F2 & A2 & D2).
  split; [by etrans|]. split_and!; try congruence. auto.
Qed.

Section Names.
Context (w : world) (d f : Z) (o : file) (m : FileMeta).
Context (Ho : w_files w !! f = Some o) (Hm : w_filemeta w !! fo_meta o = Some m).
Context (Hd : is_Some (w_dirs w !! d)).

Lemma File_fh_run : File_fh f w = Done (i32 (fm_fh m)) w.
Proof using Ho Hm. unfold File_fh. by erewrite bind_run by by eapply file_meta_run. Qed.
Lemma File_dh_run : File_dh f w = Done (i32 (fm_dh m)) w.
Proof using Ho Hm. unfold File_dh. by erewrite bind_run by by eapply file_meta_run. Qed.
Lemma File_file_name_run : File_file_name f w = Done (meta_file_name m) w.
Proof using Ho Hm. unfold File_file_name. by erewrite bind_run by by eapply file_meta_run. Qed.

Lemma RemoveFileNoLock_wp : wp (RemoveFileNoLock f) (fun _ w' => names_step w w') w.
Proof using All.
  unfold RemoveFileNoLock. apply wp_bind. eapply wp_run; [apply File_fh_run|].
  apply wp_bind. eapply wp_run; [apply File_dh_run|].
  apply wp_bind. eapply wp_run; [apply File_file_name_run|]. do 2 wp_step.
  destruct (fh_created_files (w_fh w) !! _); [|wp_step; apply names_refl].
  apply wp_bind. wp_step. destruct (fh_created_fhs _ !! _); [|wp_step; by split_and!].
  apply wp_bind. wp_step. wp_step. by split_and!.
Qed.

Lemma AddFileNoLock_wp : wp (AddFileNoLock f) (fun _ w' => names_step w w') w.
Proof using All.
  unfold AddFileNoLock. apply wp_bind. eapply wp_run; [apply File_fh_run|].
  apply wp_bind. eapply wp_run; [apply File_dh_run|].
  apply wp_bind. eapply wp_run; [apply File_file_name_run|]. wp_step. apply put_names.
Qed.

Lemma RemoveChildFile_wp : wp (RemoveChildFile d f) (fun _ w' => names_step w w') w.
Proof using All.
  pose proof Hd as [od Hod]. unfold RemoveChildFile. apply wp_bind. eapply wp_run; [apply File_fh_run|]. apply wp_bind. eapply wp_get_dir; [done|].
  destruct (do_items od !! _); [|wp_step; apply names_refl].
  apply wp_bind. unfold put_dir. wp_step. wp_step. by apply put_dir_names.
Qed.

Lemma AddChildFile_wp : wp (AddChildFile d f) (fun _ w' => names_step w w') w.
Proof using All.
  pose proof Hd as [od Hod]. unfold AddChildFile. apply wp_bind. eapply wp_run; [apply File_fh_run|]. apply wp_bind. eapply wp_get_dir; [done|].
  destruct (decide _); [wp_step; apply names_refl|].
  apply wp_bind. unfold put_dir. wp_step. wp_step. by apply put_dir_names.
Qed.
End Names.

Lemma RemoveFileFromoDirectory_wp w d f o m :
  w_files w !! f = Some o -> w_filemeta w !! fo_meta o = Some m -> is_Some (w_dirs w !! d) ->
  wp (RemoveFileFromoDirectory d f) (fun _ w' => names_step w w') w.
Proof.
  intros Ho Hm Hd. unfold RemoveFileFromoDirectory. apply wp_bind.
  eapply wp_mono; [by apply (RemoveChildFile_wp w d f o m)|]. intros ok w1 Hs1.
  pose proof Hs1 as (_ & Hf & Ha & Hk). destruct ok; cbn [negb]; [|by wp_step].
  eapply wp_mono; [apply (RemoveFileNoLock_wp w1 d f o m); rewrite ?Hf, ?Ha; auto|].
  intros ? w2 Hs2. exact (names_trans _ _ _ Hs1 Hs2).
Qed.

Lemma AddFileToDirectory_wp w d f o m :
  w_files w !! f = Some o -> w_filemeta w !! fo_meta o = Some m -> is_Some (w_dirs w !! d) ->
  wp (AddFileToDirectory d f) (fun _ w' => names_step w w') w.
Proof.
  intros Ho Hm Hd. unfold AddFileToDirectory. apply wp_bind.
  eapply wp_mono; [by apply (AddChildFile_wp w d f o m)|]. intros ok w1 Hs1.
  pose proof Hs1 as (_ & Hf & Ha & Hk).
  eapply wp_mono; [apply (AddFileNoLock_wp w1 d f o m); rewrite ?Hf, ?Ha; auto|].
  intros ? w2 Hs2. exact (names_trans _ _ _ Hs1 Hs2).
Qed.

Lemma AddParentFile_run w p m :
  w_filemeta w !! pf_meta p = Some m -> fh_parent_files (w_fh w) !! i32 (fm_fh m) = None ->
  AddParentFile p w = Done true (set_w_fh (set_fh_parent_files
    (<[i32 (fm_fh m) := p]> (fh_parent_files (w_fh w))) (w_fh w)) w).
Proof.
  intros Hm Hn. unfold AddParentFile. erewrite bind_run by by apply get_filemeta_run.
  erewrite bind_run by reflexivity. destruct (decide _) as [[? Hs]|]; [congruence|]. done.
Qed.

(** the view after the switch: the file has the new record and no file block yet *)
Definition switched (f old_meta i : Z) (V : view) : view :=
  set_v_parents ({[old_meta]} ∪ v_parents V)
    (set_v_files (<[f := MkFoView i ∅]> (v_files V)) V).

(** the switch as steps that change no more than the name maps, around the two moves *)
Lemma switch_steps w w1 w2 w4 f old_meta i offset (o : file) items :
  meta_step w w1 -> meta_step w1 w2 -> fo_items o = ∅ -> fo_meta o = i ->
  let w3 := set_w_files (<[f := set_fo_items items o]> (w_files w2)) w2 in
  meta_step w3 w4 -> w_files w4 = w_files w3 -> w_files w2 = w_files w ->
  let w5 := set_w_files (<[f := o]> (w_files w4)) w4 in
  let w6 := set_w_fh (set_fh_parent_files
    (<[old_meta := MkParentFile old_meta offset items false]> (fh_parent_files (w_fh w5))) (w_fh w5)) w5 in
  env_step w w6 /\ data_same w w6 /\ view_of w6 = switched f old_meta i (view_of w).
Proof.
  intros Hs1 Hs2 Hno Hmo w3 Hs4 Hf4 Hf2 w5 w6. split_and!.
  - transitivity w1; [apply Hs1|]. transitivity w2; [apply Hs2|].
    transitivity w3; [apply env_step_files|]. transitivity w4; [apply Hs4|].
    transitivity w5; [apply env_step_files|]. by constructor.
  - intros x Hx. pose proof (es_super _ _ (ms_env _ _ Hs1)) as E1.
    pose proof (es_super _ _ (ms_env _ _ Hs2)) as E2.
    etrans; [apply (ms_data _ _ Hs4)|]; [cbn; rewrite E2; by cbn in E1 |- *; rewrite E1|].
    etrans; [apply (ms_data _ _ Hs2)|]; [by rewrite E1|]. by apply (ms_data _ _ Hs1).
  - assert (Hp : fh_parent_files (w_fh w5) = fh_parent_files (w_fh w)).
    { change (w_fh w5) with (w_fh w4). rewrite (ms_parents _ _ Hs4).
      change (w_fh w3) with (w_fh w2). by rewrite (ms_parents _ _ Hs2), (ms_parents _ _ Hs1). }
    assert (Hv : view_of w5 = set_v_files (<[f := MkFoView i ∅]> (v_files (view_of w))) (view_of w)).
    { unfold w5. rewrite view_set_files. rewrite (ms_view _ _ Hs4). unfold w3.
      rewrite view_set_files. rewrite (ms_view _ _ Hs2), (ms_view _ _ Hs1).
      unfold set_v_files. cbn. rewrite insert_insert_eq. unfold view_fo. by rewrite Hno, Hmo. }
    change (view_of w6) with (set_v_parents (dom (<[old_meta := MkParentFile old_meta offset
      items false]> (fh_parent_files (w_fh w5)))) (view_of w5)).
    by rewrite Hv, dom_insert_L, Hp.
Qed.

Lemma shrink_switch_wp w f o m i offset :
  fs_inv w -> file_facts w f o m -> fresh_record w i ->
  wp (shrink_switch f (fo_meta o) i offset) (fun ok w' =>
    if ok then env_step w w' /\ data_same w w' /\
      view_of w' = switched f (fo_meta o) i (view_of w) /\
      (exists o', w_files w' !! f = Some o' /\ fo_meta o' = i /\ fo_items o' = ∅) /\
      fh_parent_files (w_fh w') !! fo_meta o
        = Some (MkParentFile (fo_meta o) offset (fo_items o) false)
    else quiet w w' /\ dh_created_dhs (w_dh w) !! u64 (i32 (fm_dh m)) = None) w.
Proof.
  intros Hi Hff (Hir & Hifree & Hipar & Hidead & nm & Hnm & Hnfh & _).
  pose proof Hff as (Ho & Hm & Hfh & Hr & Hwf & _).
  assert (Hio : i <> fo_meta o).
  { intros ->. apply Hidead. exists f, (view_fo o). split; [by apply view_files_lookup|done]. }
  pose proof (lo_max_file _ (fi_layout _ Hi)) as Hmax.
  unfold shrink_switch. apply wp_bind. eapply wp_get_filemeta; [done|].
  apply wp_bind. eapply wp_upd_filemeta; [done|]. set (m1 := set_fm_child_fh _ m).
  set (w1 := set_w_filemeta _ w).
  assert (Hs1 : meta_step w w1).
  { eapply meta_step_filemeta; [done|done|]. destruct Hwf. constructor; try done.
    cbn. rewrite Hnfh, swrap_small by lia. unfold in_i. lia. }
  pose proof (fs_inv_meta_step _ _ Hs1 Hi) as Hi1.
  assert (Hm1 : w_filemeta w1 !! fo_meta o = Some m1) by apply lookup_insert_eq.
  assert (Ho1 : w_files w1 !! f = Some o) by done.
  apply wp_bind. eapply wp_run; [by apply (File_dh_run w1 f o m1)|].
  unfold GetCreatedDirectory_dh. apply wp_bind. do 2 wp_step. wp_step. change (fm_dh m1) with (fm_dh m). change (w_dh w1) with (w_dh w).
  destruct (dh_created_dhs (w_dh w) !! u64 (i32 (fm_dh m))) as [dir|] eqn:Hdir; cycle 1.
  { wp_step. split; [by apply quiet_meta_step|done]. }
  assert (Hdir1 : is_Some (w_dirs w1 !! dir)) by (eapply (fi_dirs _ Hi1); exact Hdir).
  apply wp_bind. eapply wp_mono; [by apply (RemoveFileFromoDirectory_wp w1 dir f o m1)|].
  intros _ w2 (Hs2 & Hf2 & Ha2 & Hd2). apply wp_bind. eapply (wp_upd_file _ _ o); [by rewrite Hf2|].
  set (w3 := set_w_files _ w2).
  assert (Hi3 : w_files w3 !! f = Some (set_fo_meta i o)) by apply lookup_insert_eq.
  assert (Hnm1 : w_filemeta w1 !! i = Some nm) by (cbn; by rewrite lookup_insert_ne).
  apply wp_bind. eapply wp_mono; [apply (AddFileToDirectory_wp w3 dir f (set_fo_meta i o) nm);
    [done|cbn; by rewrite Ha2|by apply Hd2]|].
  intros _ w4 (Hs4 & Hf4 & Ha4 & Hd4). apply wp_bind.
  eapply (wp_get_file _ (set_fo_meta i o)); [by rewrite Hf4|]. apply wp_bind, wp_put_file.
  set (w5 := set_w_files _ w4).
  assert (Hold5 : w_filemeta w5 !! fo_meta o = Some m1).
  { change (w_filemeta w5) with (w_filemeta w4). rewrite Ha4. cbn. by rewrite Ha2. }
  assert (Hkey : i32 (fm_fh m1) = fo_meta o).
  { change (fm_fh m1) with (fm_fh m). rewrite Hfh. apply swrap_small; lia. }
  assert (Hnone : fh_parent_files (w_fh w5) !! i32 (fm_fh m1) = None).
  { rewrite Hkey. change (w_fh w5) with (w_fh w4). rewrite (ms_parents _ _ Hs4).
    change (w_fh w3) with (w_fh w2). rewrite (ms_parents _ _ Hs2). apply not_elem_of_dom.
    assert (Hl : live_meta (view_of w) (fo_meta o))
      by (exists f, (view_fo o); split; [by apply view_files_lookup|done]).
    by apply (live_meta_not_parent _ _ (fi_inv _ Hi)) in Hl. }
  eapply wp_run; [apply (AddParentFile_run w5 (MkParentFile (fo_meta o) offset (fo_items o) false)
    m1); done|]. rewrite Hkey.
  destruct (switch_steps w w1 w2 w4 f (fo_meta o) i offset (set_fo_items ∅ (set_fo_meta i o))
    (fo_items o) Hs1 Hs2) as (He & Hda & Hv); try done.
  split; [exact He|]. split; [exact Hda|]. split; [exact Hv|].
  split; [|apply lookup_insert_eq].
  exists (set_fo_items ∅ (set_fo_meta i o)). split; [apply lookup_insert_eq|done].
Qed.

(** ** Recycling the old record *)

Lemma set_w_bh_same w : set_w_bh (set_bh_pool (bh_pool (w_bh w)) (w_bh w)) w = w.
Proof. by destruct w as [? ? ? ? ? ? []]. Qed.

(** the blocks from position [bn] on go back to the pool *)
Lemma recycle_blocks_run ids : forall c bn w,
  0 <= c <= bn ->
  exists r, recycle_blocks ids c bn w = Done r (set_w_bh (set_bh_pool
    (list_to_set (drop (Z.to_nat (bn - c)) ids) ∪ bh_pool (w_bh w)) (w_bh w)) w).
Proof.
  induction ids as [|x ids IH]; intros c bn w Hc; cbn [recycle_blocks].
  - exists c. rewrite drop_nil. cbn. rewrite union_empty_l_L, set_w_bh_same. done.
  - destruct (Z.ltb_spec c bn).
    + destruct (IH (c + 1) bn w) as [r Hr]; [lia|]. exists r. rewrite Hr. do 4 f_equal.
      replace (Z.to_nat (bn - c)) with (S (Z.to_nat (bn - (c + 1)))) by lia. done.
    + assert (c = bn) as -> by lia. rewrite Z.sub_diag. erewrite bind_run by reflexivity.
      set (w1 := set_w_bh _ w). destruct (IH bn bn w1) as [r Hr]; [lia|]. exists r.
      rewrite Hr, Z.sub_diag. change (Z.to_nat 0) with 0%nat. rewrite !drop_0.
      assert (list_to_set (x :: ids) ∪ bh_pool (w_bh w)
        = list_to_set ids ∪ bh_pool (w_bh w1)) as -> by (cbn; set_solver). done.
Qed.

Lemma quiet_recycle_pool w (l : list Z) :
  fs_inv w -> (forall x, x ∈ l -> 0 <= x < sb_curr_block_num (w_super w) /\ ~ live_block (view_of w) x) ->
  quiet w (set_w_bh (set_bh_pool (list_to_set l ∪ bh_pool (w_bh w)) (w_bh w)) w).
Proof.
  intros Hi Hl. apply quiet_view; try done. apply (inv_pool _ _ (fi_inv _ Hi)).
  intros x [Hx|Hx]%elem_of_union; [right|by left]. apply Hl. by apply (elem_of_list_to_set (C:=gset Z)).
Qed.

Lemma FileBlock_ClearMeta_ok m : fb_meta_ok m -> fb_meta_ok (FileBlock_ClearMeta m).
Proof.
  intros [[] Hu]. split; [|cbn; units; lia]. constructor; try done.
  apply Forall_replicate. split; done.
Qed.

Lemma FileBlock_ReleaseMyself_wp w fb :
  fs_inv w -> fresh_fb w fb ->
  wp (FileBlock_ReleaseMyself fb) (fun ok w' => quiet w w' /\
    view_of w' = set_v_free_fb (v_free_fb (view_of w) ++ (if ok then [fb] else []))
      (set_v_fb (<[fb := MkFbView false 0 []]> (v_fb (view_of w))) (view_of w)) /\
    fh_parent_files (w_fh w') = fh_parent_files (w_fh w) /\
    (dev_good w -> ok = true)) w.
Proof.
  intros Hi Hfr. pose proof Hfr as (Hr & Hf & Hd). destruct (fbmeta_exists _ _ Hi Hr) as [m Hm].
  unfold FileBlock_ReleaseMyself. apply wp_bind. eapply wp_upd_fbmeta; [done|].
  set (w1 := set_w_fbmeta _ w).
  destruct (quiet_put_fbmeta w fb (FileBlock_ClearMeta m) Hi Hfr) as [Hq1 Hfr1];
    [apply FileBlock_ClearMeta_ok, (proj1 (fi_wf _ Hi) _ _ Hm)|]. fold w1 in Hq1, Hfr1.
  assert (Hv1 : view_of w1 = set_v_fb (<[fb := MkFbView false 0 []]> (v_fb (view_of w))) (view_of w))
    by apply view_set_fbmeta.
  apply wp_bind. eapply wp_mono; [apply (FileBlock_WriteMeta_wp w1 fb (q_inv _ _ Hq1)); done|].
  intros ok w2 (Hs & Hg & _ & _). pose proof (ms_view _ _ Hs) as Hv2.
  pose proof (quiet_meta_step _ _ (q_inv _ _ Hq1) Hs) as Hq2.
  assert (Hq : quiet w w2) by by eapply quiet_trans.
  destruct ok; cbn [negb].
  - apply wp_bind. unfold PutFileBlockLock. wp_step. wp_step. set (w3 := set_w_free_fbhs _ w2).
    assert (Hv3 : view_of w3 = set_v_free_fb (v_free_fb (view_of w2) ++ [fb]) (view_of w2)) by done.
    split_and!.
    + eapply quiet_trans; [exact Hq|]. apply quiet_view; try done; [apply Hq|].
      rewrite Hv3. apply (inv_free_fb_push _ _ (fi_inv _ (q_inv _ _ Hq)) fb (MkFbView false 0 []));
        rewrite ?Hv2, ?Hv1; try done. cbn. apply lookup_insert_eq.
    + rewrite Hv3, Hv2, Hv1. done.
    + change (w_fh w3) with (w_fh w2). by rewrite (ms_parents _ _ Hs).
    + done.
  - wp_step. split_and!.
    + done.
    + rewrite Hv2, Hv1. rewrite app_nil_r. done.
    + by rewrite (ms_parents _ _ Hs).
    + intros Hgood. apply Hg. by apply (es_good _ _ (q_env _ _ Hq1)).
Qed.

Lemma File_ClearMeta_wf m : file_wf m -> file_wf (File_ClearMeta m).
Proof. intros []. constructor; done. Qed.

(** a record that no file and no list uses is cleared and freed *)
Definition dead_record (w : world) (i : Z) : Prop :=
  0 <= i < sb_max_file_num (w_super w) /\ (i ∉ v_free_fh (view_of w)) /\
  (i ∉ v_parents (view_of w)) /\ ~ live_meta (view_of w) i.

Definition free_record (i : Z) : Fs bool :=
  upd_filemeta i File_ClearMeta ;;
  let! m := get_filemeta i in
  let! ok := File_WriteMeta_fh (i32 (fm_fh m)) in
  if negb ok then ret false
  else AddFile2FreeNolock (fm_fh m) ;; ret true.

Lemma free_record_wp w i m :
  fs_inv w -> dead_record w i -> w_filemeta w !! i = Some m -> fm_fh m = i ->
  wp (free_record i) (fun ok w' => quiet w w' /\
    view_of w' = set_v_free_fh (v_free_fh (view_of w) ++ (if ok then [i] else []))
      (set_v_fm (<[i := MkFmView i false 0]> (v_fm (view_of w))) (view_of w)) /\
    fh_parent_files (w_fh w') = fh_parent_files (w_fh w) /\
    (dev_good w -> ok = true)) w.
Proof.
  intros Hi (Hr & Hf & Hp & Hd) Hm Hfh. pose proof (lo_max_file _ (fi_layout _ Hi)).
  unfold free_record. apply wp_bind. eapply wp_upd_filemeta; [done|].
  set (m1 := File_ClearMeta m). set (w1 := set_w_filemeta _ w).
  assert (Hv1 : view_of w1 = set_v_fm (<[i := MkFmView i false 0]> (v_fm (view_of w))) (view_of w)).
  { etrans; [apply view_set_filemeta|]. unfold view_fm. cbn. by rewrite Hfh. }
  assert (Hq1 : quiet w w1).
  { apply quiet_view; try done.
    - apply env_step_filemeta, File_ClearMeta_wf, (proj2 (fi_wf _ Hi) _ _ Hm).
    - rewrite Hv1. apply (inv_fm_dead _ _ (fi_inv _ Hi)); try done.
      rewrite (view_fm_some _ _ _ Hm). eauto.
    - rewrite Hv1. intros j Hj. cbn. rewrite lookup_insert_ne; [done|]. by intros ->. }
  apply wp_bind. eapply wp_get_filemeta; [apply lookup_insert_eq|].
  change (fm_fh m1) with (fm_fh m). rewrite Hfh, (swrap_small 32 i) by lia.
  apply wp_bind. eapply wp_mono; [apply (File_WriteMeta_fh_wp w1 i (q_inv _ _ Hq1)); exact Hr|].
  intros ok w2 (Hs & Hg & _). pose proof (ms_view _ _ Hs) as Hv2.
  pose proof (quiet_meta_step _ _ (q_inv _ _ Hq1) Hs) as Hq2.
  assert (Hq : quiet w w2) by by eapply quiet_trans.
  destruct ok; cbn [negb].
  - apply wp_bind. unfold AddFile2FreeNolock. wp_step. wp_step.
    rewrite (swrap_small 32 i), (wrap_small 64 i) by lia. set (w3 := set_w_fh _ w2).
    assert (Hv3 : view_of w3 = set_v_free_fh (v_free_fh (view_of w2) ++ [i]) (view_of w2)) by done.
    split_and!.
    + eapply quiet_trans; [exact Hq|]. apply quiet_view; try done; [apply Hq|].
      rewrite Hv3. apply (inv_free_fh_push _ _ (fi_inv _ (q_inv _ _ Hq)) i);
        rewrite ?Hv2, ?Hv1; try done. cbn. apply lookup_insert_eq.
    + rewrite Hv3, Hv2, Hv1. done.
    + change (fh_parent_files (w_fh w3)) with (fh_parent_files (w_fh w2)).
      by rewrite (ms_parents _ _ Hs).
    + done.
  - wp_step. split_and!.
    + done.
    + rewrite Hv2, Hv1. rewrite app_nil_r. done.
    + by rewrite (ms_parents _ _ Hs).
    + intros Hgood. apply Hg. by apply (es_good _ _ (q_env _ _ Hq1)).
Qed.

(** the view after a complete recycling *)
Definition recycled (old_meta old_fb : Z) (back : list Z) (fb_ok fm_ok : bool) (V : view) : view :=
  let V1 := set_v_parents (v_parents V ∖ {[old_meta]}) V in
  let V2 := set_v_pool (list_to_set back ∪ v_pool V1) V1 in
  let V3 := set_v_free_fb (v_free_fb V2 ++ (if fb_ok then [old_fb] else []))
              (set_v_fb (<[old_fb := MkFbView false 0 []]> (v_fb V2)) V2) in
  set_v_free_fh (v_free_fh V3 ++ (if fm_ok then [old_meta] else []))
    (set_v_fm (<[old_meta := MkFmView old_meta false 0]> (v_fm V3)) V3).

Lemma RemoveParentFile_wp w old_meta offset old_fb m b :
  fs_inv w -> fh_parent_files (w_fh w) !! old_meta
    = Some (MkParentFile old_meta offset {[0 := old_fb]} false) ->
  0 <= offset < kBlockSize * kFileBlockCapacity ->
  w_filemeta w !! old_meta = Some m -> fm_fh m = old_meta ->
  (old_meta ∉ v_free_fh (view_of w)) -> ~ live_meta (view_of w) old_meta ->
  fresh_fb w old_fb -> w_fbmeta w !! old_fb = Some b ->
  let back := drop (Z.to_nat (offset / kBlockSize)) (fb_blocks b) in
  (forall x, x ∈ back -> 0 <= x < sb_curr_block_num (w_super w) /\ ~ live_block (view_of w) x) ->
  wp (RemoveParentFile old_meta) (fun ok w' => quiet w w' /\
    exists fb_ok, view_of w' = recycled old_meta old_fb back fb_ok ok (view_of w) /\
      (dev_good w -> ok = true /\ fb_ok = true)) w.
Proof.
  intros Hi Hp Hoff Hm Hfh Hnf Hnl Hfr Hb back Hback.
  pose proof (filemeta_range _ _ _ Hi Hm) as Hr. pose proof (lo_max_file _ (fi_layout _ Hi)).
  assert (Hbn : 0 <= offset / kBlockSize < kFileBlockCapacity).
  { split; [apply Z.div_pos; units; lia|]. apply Z.div_lt_upper_bound; units; lia. }
  unfold RemoveParentFile. do 2 wp_step. rewrite (swrap_small 32 old_meta) by lia. rewrite Hp.
  apply wp_bind. wp_step. set (w1 := set_w_fh _ w).
  assert (Hv1 : view_of w1 = set_v_parents (v_parents (view_of w) ∖ {[old_meta]}) (view_of w)).
  { change (view_of w1) with (set_v_parents (dom (delete old_meta (fh_parent_files (w_fh w))))
      (view_of w)). by rewrite dom_delete_L. }
  assert (Hq1 : quiet w w1).
  { apply quiet_view; try done. rewrite Hv1. apply (inv_parents _ _ (fi_inv _ Hi)). set_solver. }
  unfold ParentFile_Recycle. cbn [pf_offset pf_fb_maps pf_meta].
  rewrite (wrap_small 32 (offset / kBlockSize)) by (units; lia).
  change (wp (recycle_fbs (size ({[0 := old_fb]} : gmap Z Z)) 0 {[0 := old_fb]} 0
    (offset / kBlockSize) ;; free_record old_meta) (fun ok w' => quiet w w' /\
    exists fb_ok, view_of w' = recycled old_meta old_fb back fb_ok ok (view_of w) /\
      (dev_good w -> ok = true /\ fb_ok = true)) w1).
  rewrite map_size_singleton. cbn [recycle_fbs]. apply wp_bind. rewrite lookup_singleton_eq.
  apply wp_bind. eapply wp_deref; [done|]. apply wp_bind. eapply (wp_get_fbmeta _ b); [done|].
  apply wp_bind, wp_used_blocks; [apply (proj1 (fb_wf _ (fs_inv_base _ Hi)) old_fb b); done|].
  destruct (recycle_blocks_run (fb_blocks b) 0 (offset / kBlockSize) w1) as [r Hrun]; [lia|].
  apply wp_bind. eapply wp_run; [exact Hrun|]. rewrite Z.sub_0_r. fold back.
  set (w2 := set_w_bh _ w1).
  assert (Hq2 : quiet w1 w2).
  { apply quiet_recycle_pool; [apply Hq1|]. intros x Hx. destruct (Hback x Hx) as [? Hd].
    split; [done|]. done. }
  assert (Hq12 : quiet w w2) by by eapply quiet_trans.
  assert (Hfr2 : fresh_fb w2 old_fb).
  { destruct Hfr as (Hfbr & Hfbn & Hd). split; [exact Hfbr|]. split; [exact Hfbn|exact Hd]. }
  apply wp_bind. eapply wp_mono; [apply (FileBlock_ReleaseMyself_wp w2 old_fb (q_inv _ _ Hq12) Hfr2)|].
  intros fb_ok w3 (Hq3 & Hv3 & Hp3 & Hg3). wp_step.
  assert (Hq13 : quiet w w3) by by eapply quiet_trans.
  assert (Hm3 : exists m3, w_filemeta w3 !! old_meta = Some m3 /\ fm_fh m3 = old_meta).
  { pose proof (view_fm_some _ _ _ Hm) as Hvm.
    assert (Hvm3 : v_fm (view_of w3) !! old_meta = Some (view_fm m)) by (rewrite Hv3; exact Hvm).
    apply view_fm_lookup in Hvm3 as (m3 & Hm3 & Heq). exists m3. split; [done|].
    injection Heq as Heq _ _. by rewrite <- Heq. }
  destruct Hm3 as (m3 & Hm3 & Hfh3).
  assert (Hd3 : dead_record w3 old_meta).
  { split; [by rewrite (es_super _ _ (q_env _ _ Hq13))|].
    split; [by rewrite Hv3|]. split.
    - rewrite Hv3. change (v_parents _) with (v_parents (view_of w1)). rewrite Hv1. cbn. set_solver.
    - by rewrite (quiet_live_meta _ _ _ Hq13). }
  eapply wp_mono; [apply (free_record_wp w3 old_meta m3 (q_inv _ _ Hq13)); done|].
  intros ok w4 (Hq4 & Hv4 & _ & Hg4). split; [by eapply quiet_trans|].
  exists fb_ok. split.
  - rewrite Hv4, Hv3. change (view_of w2) with (set_v_pool (list_to_set back ∪ v_pool (view_of w1))
      (view_of w1)). by rewrite Hv1.
  - intros Hg. split.
    + apply Hg4. by apply (es_good _ _ (q_env _ _ Hq13)).
    + apply Hg3. by apply (es_good _ _ (q_env _ _ Hq12)).
Qed.
End Shrink.
