(* ===== verification/Truncate.v ===== *)
(** * Shrinking a file: the switch and the whole of [ShrinkFile]

    The consistency of the view once the file has its new record, and the proof
    of [ShrinkFile] and [ftruncate] on any file and whatever the device answers. *)

From S2P Require Import Prelude Meta Device World SuperBlock Resources Paths FileBlock Inode.
From S2P Require Import Directory FileHandle File Io Invariant MetaSteps Views Content FileGrow.
From S2P Require Import FileIO FileShrink.

Section Shrink.
Context `{Env}.

(** ** Writing the record of a file *)

Lemma File_WriteMeta_wp w f :
  fs_inv w -> is_Some (w_files w !! f) ->
  wp (File_WriteMeta f) (fun ok w' => meta_step w w' /\ (dev_good w -> ok = true)) w.
Proof.
  intros Hi [o Ho]. destruct (file_world w f o Hi Ho) as (m & (_ & Hm & Hfh & Hr & _) & _).
  pose proof (lo_max_file _ (fi_layout _ Hi)).
  unfold File_WriteMeta. apply wp_bind. eapply wp_run; [by apply (File_fh_run w f o m)|].
  rewrite Hfh, swrap_small by lia.
  eapply wp_mono; [by apply File_WriteMeta_fh_wp|]. intros ok w' (? & ? & _). done.
Qed.

Lemma file_exists_view w f ov : v_files (view_of w) !! f = Some ov -> is_Some (w_files w !! f).
Proof. intros Hv. apply view_file_exists. eauto. Qed.

(** the end of [RecycleParentFh] *)
Lemma clear_parent_wp w f :
  fs_inv w -> is_Some (w_files w !! f) ->
  wp (upd_file_meta f (fun m => set_fm_parent_size 0 (set_fm_parent_fh (-1) m)) ;;
      let! success := File_WriteMeta f in ret (if success then 0 else -1))
     (fun r w' => meta_step w w' /\ (r = 0 \/ r = -1) /\ (dev_good w -> r = 0)) w.
Proof.
  intros Hi Hex. pose proof Hex as [o Ho].
  destruct (file_world w f o Hi Ho) as (m & (_ & Hm & _ & _ & Hwf & _) & _).
  apply wp_bind. eapply wp_upd_file_meta; [done..|]. set (w1 := set_w_filemeta _ w).
  assert (Hs1 : meta_step w w1).
  { eapply meta_step_filemeta; [done|done|]. destruct Hwf. by constructor. }
  apply wp_bind. eapply wp_mono; [apply (File_WriteMeta_wp w1 f); [by eapply fs_inv_meta_step|done]|].
  intros ok w2 (Hs2 & Hg). wp_step. split; [by etrans|]. split; [by destruct ok; auto|].
  intros Hgood. rewrite Hg; [done|]. by apply (es_good _ _ (ms_env _ _ Hs1)).
Qed.

(** ** The file with its new record *)

Definition fb_items (fbo : option Z) : gmap Z Z :=
  match fbo with Some fb => {[0 := fb]} | None => ∅ end.

Definition shrunk_view (f old_meta i offset : Z) (fbo : option Z) (V : view) : view :=
  set_v_parents ({[old_meta]} ∪ v_parents V)
    (set_v_files (<[f := MkFoView i (fb_items fbo)]> (v_files V))
      (set_v_fm (<[i := MkFmView i true offset]> (v_fm V)) V)).

(** everything is ready for the switch: [w] is the world at the start of
    [ShrinkFile], [w2] the present one *)
Record prepared (w : world) (f : Z) (o : file) (m : FileMeta) (offset i : Z) (fbo : option Z)
    (extra : list Z) (w2 : world) : Prop := {
  pr_quiet : quiet w w2;
  pr_rec : fresh_record w2 i;
  pr_meta : w_filemeta w2 !! fo_meta o = Some m;
  pr_files : w_files w2 = w_files w;
  pr_dh : w_dh w2 = w_dh w;
  pr_fh : exists rest, v_free_fh (view_of w) = i :: rest /\ v_free_fh (view_of w2) = rest;
  pr_fb : match fbo with
          | Some fb => 0 < offset /\ fresh_fb w2 fb /\ made_fb w f offset fb extra w2 /\
              exists rest, v_free_fb (view_of w) = fb :: rest /\ v_free_fb (view_of w2) = rest
          | None => offset = 0 /\ extra = [] /\ v_pool (view_of w2) = v_pool (view_of w) /\
              v_free_fb (view_of w2) = v_free_fb (view_of w)
          end
}.

Section Switch.
Context (w : world) (f offset : Z) (o : file) (m : FileMeta) (old_fb : Z) (old : FileBlockMeta).
Context (Hi : fs_inv w) (Hff : file_facts w f o m) (Hfb : fb_facts w f o m old_fb old).
Context (Hoff : 0 <= offset < fm_size m).
Context (i : Z) (fbo : option Z) (extra : list Z) (w2 : world).
Context (Hp : prepared w f o m offset i fbo extra w2).

Let bn := offset / kBlockSize.
Let blocks := file_blocks (view_of w) f.
Let V2 := view_of w2.
Let V3 := shrunk_view f (fo_meta o) i offset fbo V2.

Lemma prep_super : w_super w2 = w_super w.
Proof using Hp. apply (q_env _ _ (pr_quiet _ _ _ _ _ _ _ _ _ Hp)). Qed.

Lemma prep_file : v_files V2 !! f = Some (view_fo o) /\ v_files (view_of w) !! f = Some (view_fo o).
Proof using Hff Hp.
  destruct Hff as (Ho & _). split; [|by apply view_files_lookup].
  apply view_files_lookup. by rewrite (pr_files _ _ _ _ _ _ _ _ _ Hp).
Qed.

Lemma prep_blocks : NoDup blocks /\
  (forall x, x ∈ blocks -> 0 <= x < sb_curr_block_num (w_super w) /\ x ∉ v_pool (view_of w)) /\
  0 <= bn < Z.of_nat (length blocks).
Proof using Hi Hff Hfb Hoff.
  destruct Hff as (Ho & _ & _ & _ & _ & Hsz).
  destruct Hfb as (He & Hold & Hok & _ & _ & _ & Hs & Hbl & _). unfold blocks. rewrite Hbl.
  destruct (file_cases _ _ (fi_inv _ Hi) f _ (view_files_lookup _ _ _ Ho))
    as [(Hem & _)|(fb' & b' & He' & _ & Hb' & _ & _ & Hbl' & _ & Hnd & Hr)].
  - cbn in Hem. rewrite He in Hem. by destruct (map_non_empty_singleton (M:=gmap Z) 0 old_fb).
  - rewrite Hbl in Hbl'. rewrite Hbl'. split; [done|]. split; [done|]. rewrite <- Hbl'.
    rewrite (fb_blocks_length old Hok). split; [apply Z.div_pos; units; lia|].
    apply Z.div_lt_upper_bound; units; lia.
Qed.

(** the blocks of the shrunk file *)
Lemma prep_new_blocks fb : fbo = Some fb ->
  exists b, v_fb V2 !! fb = Some b /\ b = MkFbView true 0 (take (Z.to_nat bn) blocks ++ extra) /\
    blocks_ok (sb_curr_block_num (w_super w)) (v_pool V2) (bv_blocks b) /\
    offset <= kBlockSize * Z.of_nat (length (bv_blocks b)) /\
    (forall g x, g <> f -> x ∈ bv_blocks b -> x ∉ file_blocks (view_of w) g).
Proof using Hi Hff Hfb Hoff Hp.
  intros Heq. pose proof (pr_fb _ _ _ _ _ _ _ _ _ Hp) as Hpf. rewrite Heq in Hpf.
  destruct Hpf as (Hpos & _ & (Hb & Hlen & Hin & Hpool & _) & _).
  destruct prep_blocks as (Hnd & Hr & Hbn). fold blocks bn in Hb.
  eexists. split; [exact Hb|]. split; [done|]. cbn [bv_blocks].
  assert (Hxe : forall x, x ∈ extra -> x ∉ blocks) by (intros x Hx Hx'; apply Hin in Hx; by apply (Hr x Hx')).
  split; [split|split].
  - apply NoDup_app. split_and!.
    + eapply sublist_NoDup; [exact Hnd|apply sublist_take].
    + intros x Hx Hx'. apply (Hxe x Hx'). apply elem_of_take in Hx as (k & Hk & _).
      by eapply list_elem_of_lookup_2.
    + destruct extra as [|x [|]]; [apply NoDup_nil_2|apply NoDup_singleton|].
      by destruct (0 <? offset mod kBlockSize).
  - intros x [Hx|Hx]%elem_of_app.
    + apply elem_of_take in Hx as (k & Hk & _). apply list_elem_of_lookup_2 in Hk.
      destruct (Hr x Hk) as [? Hnp]. split; [done|]. unfold V2. rewrite Hpool. set_solver.
    + split; [by apply (i_pool _ _ (fi_inv _ Hi)), Hin|]. unfold V2. rewrite Hpool.
      apply not_elem_of_difference. right. by apply elem_of_list_to_set.
  - rewrite length_app, length_take, Hlen.
    pose proof (Z.div_mod offset kBlockSize ltac:(done)) as Hdm. fold bn in Hdm.
    pose proof (Z.mod_pos_bound offset kBlockSize ltac:(done)).
    destruct (Z.ltb_spec 0 (offset mod kBlockSize)); units; lia.
  - intros g x Hg [Hx|Hx]%elem_of_app.
    + apply elem_of_take in Hx as (k & Hk & _). apply list_elem_of_lookup_2 in Hk.
      intros Hx'. by apply (file_blocks_disjoint _ _ (fi_inv _ Hi) f g x (not_eq_sym Hg) Hk).
    + intros Hx'. apply (file_blocks_live _ _ (fi_inv _ Hi)) in Hx'.
      apply (live_block_pool _ _ (fi_inv _ Hi)) in Hx' as [Hnp _]. by apply Hnp, Hin.
Qed.

Lemma shrunk_view_inv : inv (w_super w) V3.
Proof using Hi Hff Hfb Hoff Hp.
  pose proof (pr_quiet _ _ _ _ _ _ _ _ _ Hp) as Hq. pose proof (q_inv _ _ Hq) as Hi2.
  pose proof (fi_inv _ Hi2) as HV2. rewrite prep_super in HV2.
  destruct (pr_rec _ _ _ _ _ _ _ _ _ Hp) as (Hir & Hifr & Hipar & Hidead & mi & Hmi & Hmfh & _).
  destruct prep_file as [Hv Hv0]. pose proof prep_new_blocks as Hnew.
  pose proof (pr_fb _ _ _ _ _ _ _ _ _ Hp) as Hpf.
  assert (Hput : inv (w_super w) (set_v_files (<[f := MkFoView i (fb_items fbo)]> (v_files V2))
    (set_v_fm (<[i := MkFmView i true offset]> (v_fm V2)) V2))).
  { apply (inv_put_file _ _ HV2 f (MkFoView i (fb_items fbo)) (MkFmView i true offset)); try done.
    - cbn [ov_meta]. rewrite (view_fm_some _ _ _ Hmi). eauto.
    - destruct fbo as [fb|]; cbn.
      + right. destruct (Hnew fb eq_refl) as (b & Hb & Heq & Hbok & Hcap & _).
        destruct Hpf as (Hpos & (_ & Hnf & _) & _).
        exists fb, b. split_and!; try done; by rewrite Heq.
      + left. by destruct Hpf as (-> & _).
    - intros g og Hg Hog. split.
      + cbn. intros Heq. apply Hidead. by exists g, og.
      + cbn [ov_items]. intros fb1 fb2 b1 b2 Hfb1 Hfb2 Hb1 Hb2.
        destruct fbo as [fb|]; cbn [fb_items] in Hfb2; [|by rewrite lookup_empty in Hfb2].
        rewrite lookup_singleton_eq in Hfb2. injection Hfb2 as <-.
        destruct (Hnew fb eq_refl) as (b & Hb & Heq & _ & _ & Hdis).
        assert (Some b = Some b2) as [= <-] by exact (eq_trans (eq_sym Hb) Hb2).
        destruct Hpf as (_ & (_ & _ & Hnl) & _). split.
        * intros ->. apply Hnl. by exists g, og.
        * intros x Hx Hx'. apply (Hdis g x Hg Hx'). rewrite <- (q_blocks _ _ Hq).
          by rewrite (file_blocks_eq (view_of w2) g og fb1 b1 Hog Hfb1 Hb1). }
  apply (inv_parents _ _ Hput). intros j [Hj|Hj]%elem_of_union; [right; apply elem_of_singleton in Hj as ->|by left].
  assert (Hl : live_meta V2 (fo_meta o)) by by exists f, (view_fo o).
  split; [by apply (live_meta_not_free _ _ HV2)|].
  intros (g & og & Hog & Heq). cbn in Hog. destruct (decide (f = g)) as [<-|Hne].
  - rewrite lookup_insert_eq in Hog. injection Hog as <-. cbn in Heq. apply Hidead. rewrite Heq. exact Hl.
  - rewrite lookup_insert_ne in Hog by done. apply Hne.
    by apply (file_meta_inj _ _ f g (view_fo o) og HV2 Hv Hog).
Qed.

Lemma shrunk_files :
  file_blocks V3 f = take (Z.to_nat bn) blocks ++ extra /\ file_size V3 f = offset /\
  (forall g, g <> f -> file_blocks V3 g = file_blocks (view_of w) g /\
     file_size V3 g = file_size (view_of w) g).
Proof using Hi Hff Hfb Hoff Hp.
  pose proof (pr_quiet _ _ _ _ _ _ _ _ _ Hp) as Hq. pose proof prep_new_blocks as Hnew.
  destruct (pr_rec _ _ _ _ _ _ _ _ _ Hp) as (_ & _ & _ & Hidead & _).
  pose proof (pr_fb _ _ _ _ _ _ _ _ _ Hp) as Hpf.
  assert (Hvf : v_files V3 !! f = Some (MkFoView i (fb_items fbo))) by apply lookup_insert_eq.
  split; [|split].
  - destruct fbo as [fb|].
    + destruct (Hnew fb eq_refl) as (b & Hb & Heq & _).
      rewrite (file_blocks_eq V3 f _ fb b Hvf); [by rewrite Heq|apply lookup_singleton_eq|done].
    + destruct Hpf as (Hz & Hex & _). unfold file_blocks, file_fb. rewrite Hvf. cbn.
      rewrite lookup_empty. cbn. rewrite Hex. unfold bn. by rewrite Hz.
  - unfold file_size. rewrite Hvf. cbn. by rewrite lookup_insert_eq.
  - intros g Hg. rewrite <- (q_blocks _ _ Hq), <- (q_sizes _ _ Hq). apply file_frame.
    + cbn. by rewrite lookup_insert_ne.
    + done.
    + intros og Hog. cbn. rewrite lookup_insert_ne; [done|]. intros ->. apply Hidead. by exists g, og.
Qed.

Lemma shrunk_contents w5 :
  w_super w5 = w_super w -> view_of w5 = V3 -> data_same w2 w5 ->
  file_content w5 f = take (Z.to_nat offset) (file_content w f) /\
  (forall g, g <> f -> file_content w5 g = file_content w g).
Proof using Hi Hff Hfb Hoff Hp.
  intros Hs Hv Hd. pose proof (pr_quiet _ _ _ _ _ _ _ _ _ Hp) as Hq.
  pose proof (pr_fb _ _ _ _ _ _ _ _ _ Hp) as Hpf. pose proof prep_new_blocks as Hnew.
  destruct shrunk_files as (Hb & Hsz & Hoth). destruct prep_blocks as (_ & Hr & _).
  assert (Hdata : forall l n, Forall (fun x => 0 <= x) l ->
    content_of (w_super w) (w_store w5) l n = content_of (w_super w) (w_store w2) l n).
  { intros l n Hl. apply content_of_ext. intros j Hj. apply Hd. rewrite prep_super.
    apply byte_addr_lower; [done|lia]. }
  split.
  - unfold file_content at 1. rewrite Hv, Hb, Hsz, Hs. rewrite Hdata.
    + destruct fbo as [fb|].
      * by destruct Hpf as (_ & _ & (_ & _ & _ & _ & Hc) & _).
      * destruct Hpf as (Hz & _). unfold content_of. by rewrite Hz.
    + apply Forall_app. split.
      * apply Forall_take, Forall_forall. intros x Hx. destruct (Hr x Hx). lia.
      * apply Forall_forall. intros x Hx. destruct fbo as [fb|].
        -- destruct Hpf as (_ & _ & (_ & _ & Hin & _) & _).
           pose proof (i_pool _ _ (fi_inv _ Hi) x (Hin x Hx)). lia.
        -- destruct Hpf as (_ & Hex & _). rewrite Hex in Hx. by apply elem_of_nil in Hx.
  - intros g Hg. rewrite <- (q_content _ _ Hq). unfold file_content.
    rewrite Hv, (q_blocks _ _ Hq), (q_sizes _ _ Hq), prep_super, Hs.
    destruct (Hoth g Hg) as [-> ->]. apply Hdata. by apply (file_blocks_nonneg _ _ (fi_inv _ Hi)).
Qed.

Lemma shrunk_old :
  (exists b, v_fb V3 !! old_fb = Some b /\ bv_blocks b = blocks) /\
  (old_fb ∉ v_free_fb V3) /\ ~ live_fb V3 old_fb /\
  0 <= old_fb < sb_max_file_block_num (w_super w) /\
  (fo_meta o ∉ v_free_fh V3) /\ ~ live_meta V3 (fo_meta o) /\
  v_fm V3 !! fo_meta o = Some (view_fm m) /\
  (forall x, x ∈ drop (Z.to_nat bn) blocks ->
     0 <= x < sb_curr_block_num (w_super w) /\ ~ live_block V3 x).
Proof using Hi Hff Hfb Hoff Hp.
  pose proof (pr_quiet _ _ _ _ _ _ _ _ _ Hp) as Hq. pose proof (q_inv _ _ Hq) as Hi2.
  pose proof (fi_inv _ Hi2) as HV2.
  destruct (pr_rec _ _ _ _ _ _ _ _ _ Hp) as (_ & _ & _ & Hidead & _).
  pose proof (pr_fb _ _ _ _ _ _ _ _ _ Hp) as Hpf. pose proof prep_new_blocks as Hnew.
  destruct Hfb as (He & Hold & Hok & Hfr & _ & _ & Hs & _ & Hlive).
  destruct prep_file as [Hv Hv0]. destruct prep_blocks as (Hnd & Hr & Hbn).
  assert (Hio : i <> fo_meta o) by (intros ->; apply Hidead; by exists f, (view_fo o)).
  assert (Hl : live_fb V2 old_fb).
  { exists f, (view_fo o). split; [done|]. cbn. by rewrite He, lookup_singleton_eq. }
  assert (Hother : forall g og, g <> f -> v_files V3 !! g = Some og ->
    v_files (view_of w2) !! g = Some og).
  { intros g og Hg Hog. cbn in Hog. by rewrite lookup_insert_ne in Hog. }
  assert (Hself : forall og, v_files V3 !! f = Some og -> og = MkFoView i (fb_items fbo)).
  { intros og Hog. cbn in Hog. rewrite lookup_insert_eq in Hog. by injection Hog. }
  split_and!; try lia.
  - destruct (file_cases _ _ HV2 f _ Hv) as [(Hem & _)|(fb' & b' & He' & _ & Hb' & _ & _ & Hbl' & _)].
    + cbn in Hem. rewrite He in Hem. by destruct (map_non_empty_singleton (M:=gmap Z) 0 old_fb).
    + cbn in He'. rewrite He in He'. apply map_singleton_inj in He' as [_ <-].
      exists b'. split; [exact Hb'|]. by rewrite <- Hbl', (q_blocks _ _ Hq).
  - by apply (live_fb_not_free _ _ HV2).
  - intros (g & og & Hog & Hfbg). destruct (decide (g = f)) as [->|Hg].
    + rewrite (Hself og Hog) in Hfbg. cbn in Hfbg. destruct fbo as [fb|]; cbn in Hfbg.
      * rewrite lookup_singleton_eq in Hfbg. injection Hfbg as ->.
        by destruct Hpf as (_ & (_ & _ & Hnl) & _).
      * by rewrite lookup_empty in Hfbg.
    + apply Hg. apply (file_fb_inj _ _ g f old_fb HV2).
      * unfold file_fb. by rewrite (Hother g og Hg Hog).
      * unfold file_fb. change (v_files (view_of w2) !! f = Some (view_fo o)) in Hv. rewrite Hv. cbn.
        by rewrite He, lookup_singleton_eq.
  - apply (live_meta_not_free _ _ HV2). by exists f, (view_fo o).
  - intros (g & og & Hog & Hmg). destruct (decide (g = f)) as [->|Hg].
    + rewrite (Hself og Hog) in Hmg. by cbn in Hmg.
    + apply Hg. by apply (file_meta_inj _ _ g f og (view_fo o) HV2 (Hother g og Hg Hog) Hv).
  - cbn. rewrite lookup_insert_ne by done.
    apply view_fm_some, (pr_meta _ _ _ _ _ _ _ _ _ Hp).
  - intros x Hx. assert (Hxb : x ∈ blocks).
    { rewrite <- (take_drop (Z.to_nat bn) blocks). apply elem_of_app. by right. }
    destruct (Hr x Hxb) as [Hxr Hnp]. split; [done|]. intros [g Hg]%live_block_file.
    destruct shrunk_files as (Hb & _ & Hoth). destruct (decide (g = f)) as [->|Hne].
    + rewrite Hb in Hg. apply elem_of_app in Hg as [Hg|Hg].
      * rewrite <- (take_drop (Z.to_nat bn) blocks) in Hnd. apply NoDup_app in Hnd as (_ & Hd & _).
        by apply (Hd x Hg).
      * destruct fbo as [fb|].
        -- destruct Hpf as (_ & _ & (_ & _ & Hin & _) & _). by apply Hnp, Hin.
        -- destruct Hpf as (_ & Hex & _). rewrite Hex in Hg. by apply elem_of_nil in Hg.
    + destruct (Hoth g Hne) as [Hbg _]. rewrite Hbg in Hg.
      by apply (file_blocks_disjoint _ _ (fi_inv _ Hi) f g x (not_eq_sym Hne) Hxb).
Qed.

(** what every run leaves once the file has its new record *)
Record shrink_done (r : Z) (w' : world) : Prop := {
  sd_inv : fs_inv w';
  sd_env : env_step w w';
  sd_files : v_files (view_of w') = v_files V3;
  sd_self : file_content w' f = take (Z.to_nat offset) (file_content w f);
  sd_other : forall g, g <> f -> file_content w' g = file_content w g;
  sd_ret : r = 0 \/ r = -1;
  sd_blocks : file_blocks (view_of w') f = take (Z.to_nat bn) blocks ++ extra;
  sd_size : file_size (view_of w') f = offset;
  sd_pool : r = 0 -> v_pool (view_of w')
    = list_to_set (drop (Z.to_nat bn) blocks) ∪ v_pool V2;
  sd_good : dev_calm w2 -> r = 0 /\
    v_free_fh (view_of w') = v_free_fh V2 ++ [fo_meta o] /\
    v_free_fb (view_of w') = v_free_fb V2 ++ [old_fb]
}.

(** from a quiet continuation of a world with the shrunk view *)
Lemma shrink_done_quiet w5 w' r :
  fs_inv w5 -> env_step w2 w5 -> data_same w2 w5 -> view_of w5 = V3 -> quiet w5 w' ->
  (r = 0 \/ r = -1) ->
  (r = 0 -> v_pool (view_of w') = list_to_set (drop (Z.to_nat bn) blocks) ∪ v_pool V2) ->
  (dev_calm w2 -> r = 0 /\ v_free_fh (view_of w') = v_free_fh V2 ++ [fo_meta o] /\
     v_free_fb (view_of w') = v_free_fb V2 ++ [old_fb]) ->
  shrink_done r w'.
Proof using Hi Hff Hfb Hoff Hp.
  intros Hi5 E5 D5 Hv5 Hq Hr Hpool Hg.
  assert (Hs5 : w_super w5 = w_super w) by (rewrite (es_super _ _ E5); apply prep_super).
  destruct (shrunk_contents w5 Hs5 Hv5 D5) as [Hself Hoth].
  destruct shrunk_files as (Hb & Hsz & _).
  constructor; try done.
  - apply Hq.
  - transitivity w2; [apply (pr_quiet _ _ _ _ _ _ _ _ _ Hp)|]. etrans; [done|apply Hq].
  - by rewrite (q_files _ _ Hq), Hv5.
  - by rewrite (q_content _ _ Hq).
  - intros g Hne. rewrite (q_content _ _ Hq). by apply Hoth.
  - by rewrite (q_blocks _ _ Hq), Hv5.
  - by rewrite (q_sizes _ _ Hq), Hv5.
Qed.

(** the file gets its file block *)
Lemma attach_run ws o' :
  env_step w2 ws -> view_of ws = switched f (fo_meta o) i V2 ->
  w_files ws !! f = Some o' -> fo_meta o' = i -> fo_items o' = ∅ ->
  exists o4, let w4 := set_w_files (<[f := o4]> (w_files ws)) ws in
    match fbo with Some fb => AddFileBlockNoLock f fb ;; ret tt | None => ret tt end ws
      = Done tt w4 /\ fo_meta o4 = i /\ fo_items o4 = fb_items fbo.
Proof using Hi Hff Hfb Hoff Hp.
  intros Es Hvs Ho' Hm' He'. pose proof prep_new_blocks as Hnew. destruct fbo as [fb|].
  - destruct (Hnew fb eq_refl) as (b & Hb & Heq & _).
    assert (Hbs : v_fb (view_of ws) !! fb = Some b) by (rewrite Hvs; exact Hb).
    apply view_fb_lookup in Hbs as (bs & Hbs & Hbv).
    assert (Hc : fb_file_cut bs = 0) by (rewrite Heq in Hbv; by injection Hbv).
    exists (set_fo_items {[0 := fb]} o'). split_and!; try done.
    erewrite bind_run by by apply (AddFileBlockNoLock_run ws f o' fb bs). done.
  - exists o'. rewrite insert_id by done. split_and!; try done. by destruct ws.
Qed.

(** the size is set, and the file system is consistent again *)
Lemma set_size_view ws o' o4 :
  env_step w2 ws -> data_same w2 ws -> view_of ws = switched f (fo_meta o) i V2 ->
  w_files ws !! f = Some o' -> fo_meta o4 = i -> fo_items o4 = fb_items fbo ->
  let w4 := set_w_files (<[f := o4]> (w_files ws)) ws in
  exists mi, w_filemeta w4 !! fo_meta o4 = Some mi /\
    let w5 := set_w_filemeta (<[fo_meta o4 := set_fm_size offset mi]> (w_filemeta w4)) w4 in
    fs_inv w5 /\ env_step w2 w5 /\ data_same w2 w5 /\ view_of w5 = V3.
Proof using Hi Hff Hfb Hoff Hp.
  intros Es Ds Hvs Ho' Hm4 Hi4 w4. pose proof shrunk_view_inv as HV3.
  destruct (pr_rec _ _ _ _ _ _ _ _ _ Hp) as (_ & _ & _ & _ & m2 & Hm2 & Hfh2 & Hu2).
  pose proof (view_fm_some _ _ _ Hm2) as Hvm.
  assert (Hvm4 : v_fm (view_of ws) !! i = Some (view_fm m2)) by (rewrite Hvs; exact Hvm).
  apply view_fm_lookup in Hvm4 as (mi & Hmi & Heq). injection Heq as Hfh Hu _.
  exists mi. rewrite Hm4. split; [exact Hmi|]. set (w5 := set_w_filemeta _ w4).
  assert (E5 : env_step w2 w5).
  { transitivity w4; [etrans; [exact Es|apply env_step_files]|]. apply env_step_filemeta.
    destruct Hff as (_ & _ & _ & _ & Hwf & _). pose proof (fw_size _ Hwf) as Hsz.
    pose proof (proj2 (es_wf _ _ Es (fi_wf _ (q_inv _ _ (pr_quiet _ _ _ _ _ _ _ _ _ Hp)))) _ _ Hmi) as Hwfi.
    unfold in_u in Hsz. destruct Hwfi. constructor; try done. cbn. unfold in_u. lia. }
  assert (Hv5 : view_of w5 = V3).
  { unfold w5. rewrite view_set_filemeta. unfold w4. rewrite view_set_files, Hvs.
    unfold V3, shrunk_view, switched, set_v_fm, set_v_files, set_v_parents. cbn.
    rewrite insert_insert_eq. unfold view_fm, view_fo. cbn.
    by rewrite <- Hfh, <- Hu, Hfh2, Hu2, Hm4, Hi4. }
  split; [|split; [done|split; [exact Ds|done]]].
  apply (fs_inv_env w2); [done|apply (pr_quiet _ _ _ _ _ _ _ _ _ Hp)|].
  rewrite Hv5, prep_super. exact HV3.
Qed.

(** the records are written *)
Lemma write_fb_wp w6 :
  fs_inv w6 -> w_super w6 = w_super w ->
  wp (match fbo with Some fb => FileBlock_WriteMeta fb | None => ret true end)
     (fun ok w' => meta_step w6 w' /\ (dev_good w6 -> ok = true)) w6.
Proof using H Hi Hff Hfb Hoff Hp.
  intros Hi6 Hs6. pose proof (pr_fb _ _ _ _ _ _ _ _ _ Hp) as Hpf. pose proof prep_super as Hps.
  destruct fbo as [fb|].
  - destruct Hpf as (_ & (Hr & _) & _). rewrite Hps, <- Hs6 in Hr.
    eapply wp_mono; [by apply FileBlock_WriteMeta_wp|]. intros ok w' (? & ? & _). done.
  - wp_step. by split.
Qed.

(** the old record is recycled *)
Lemma recycle_wp w8 :
  fs_inv w8 -> env_step w2 w8 -> view_of w8 = V3 ->
  fh_parent_files (w_fh w8) !! fo_meta o
    = Some (MkParentFile (fo_meta o) offset (fo_items o) false) ->
  wp (RecycleParentFh f (fo_meta o) true) (fun r w' => quiet w8 w' /\ (r = 0 \/ r = -1) /\
    (r = 0 -> v_pool (view_of w') = list_to_set (drop (Z.to_nat bn) blocks) ∪ v_pool V2) /\
    (dev_good w8 -> r = 0 /\ v_free_fh (view_of w') = v_free_fh V2 ++ [fo_meta o] /\
       v_free_fb (view_of w') = v_free_fb V2 ++ [old_fb])) w8.
Proof using H Hi Hff Hfb Hoff Hp.
  intros Hi8 E8 Hv8 Hpar.
  destruct shrunk_old as ((bv & Hbv & Hbl) & Hnff & Hnl & Hfr & Hnfh & Hnlm & Hvm & Hdrop).
  assert (Hs8 : w_super w8 = w_super w) by (rewrite (es_super _ _ E8); apply prep_super).
  destruct Hfb as (He & _ & _ & _ & _ & _ & Hsm & Hbw & _).
  destruct Hff as (_ & _ & Hfh & _).
  rewrite <- Hv8 in Hbv, Hvm. apply view_fb_lookup in Hbv as (b8 & Hb8 & ->).
  apply view_fm_lookup in Hvm as (m8 & Hm8 & Heq). injection Heq as Heq _ _.
  rewrite Hfh in Heq. rewrite He in Hpar. cbn [view_fb bv_blocks] in Hbl.
  destruct prep_blocks as (_ & _ & Hbn).
  assert (Hfile : is_Some (v_files V3 !! f)) by (eexists; apply lookup_insert_eq).
  unfold RecycleParentFh. apply wp_bind.
  eapply wp_mono; [apply (RemoveParentFile_wp w8 (fo_meta o) offset old_fb m8 b8 Hi8 Hpar)|].
  - destruct Hbn as [_ Hbn]. unfold blocks in Hbn. split; [lia|].
    pose proof (Z.div_mod offset kBlockSize ltac:(done)) as Hdm. fold bn in Hdm.
    pose proof (Z.mod_pos_bound offset kBlockSize ltac:(done)).
    assert (Z.of_nat (length (file_blocks (view_of w) f)) <= kFileBlockCapacity).
    { fold blocks. rewrite <- Hbl.
      pose proof (proj1 (fi_wf _ Hi8) _ _ Hb8) as Hok8. cbn in Hok8.
      rewrite (fb_blocks_length b8 Hok8). apply Hok8. }
    units. nia.
  - done.
  - by symmetry.
  - by rewrite Hv8.
  - by rewrite Hv8.
  - split; [by rewrite Hs8|]. by rewrite Hv8.
  - done.
  - intros x Hx. rewrite Hs8, Hv8. apply Hdrop. by rewrite <- Hbl.
  - intros ok w9 (Hq9 & fb_ok & Hv9 & Hg9). rewrite Hbl in Hv9.
    assert (Hpool9 : v_pool (view_of w9)
      = list_to_set (drop (Z.to_nat bn) blocks) ∪ v_pool V2) by (rewrite Hv9, Hv8; done).
    destruct ok; cbn [negb]; cycle 1.
    { wp_step. split; [done|]. split; [by right|]. split; [done|].
      intros Hg. by destruct (Hg9 Hg). }
    eapply wp_mono; [apply (clear_parent_wp w9 f)|].
    + apply Hq9.
    + apply view_file_exists. by rewrite (q_files _ _ Hq9), Hv8.
    + intros r w' (Hms & Hr & Hg). pose proof (ms_view _ _ Hms) as Hv'.
      split; [eapply quiet_trans; [exact Hq9|]; apply quiet_meta_step; [apply Hq9|done]|].
      split; [done|]. rewrite Hv'. split; [done|]. intros Hgood.
      destruct (Hg9 Hgood) as [_ ->]. split; [apply Hg; by apply (es_good _ _ (q_env _ _ Hq9))|].
      rewrite Hv9, Hv8. done.
Qed.

Lemma shrink_persist_wp ws o' :
  env_step w2 ws -> data_same w2 ws -> view_of ws = switched f (fo_meta o) i V2 ->
  w_files ws !! f = Some o' -> fo_meta o' = i -> fo_items o' = ∅ ->
  fh_parent_files (w_fh ws) !! fo_meta o
    = Some (MkParentFile (fo_meta o) offset (fo_items o) false) ->
  wp (shrink_persist f (fo_meta o) offset fbo) shrink_done ws.
Proof using H Hi Hff Hfb Hoff Hp.
  intros Es Ds Hvs Ho' Hm' He' Hpar.
  destruct (attach_run ws o' Es Hvs Ho' Hm' He') as (o4 & Hrun & Hm4 & Hi4).
  destruct (set_size_view ws o' o4 Es Ds Hvs Ho' Hm4 Hi4) as (mi & Hmi & Hi5 & E5 & D5 & Hv5).
  destruct shrunk_old as (_ & _ & _ & _ & _ & _ & Hvm & _).
  destruct Hff as (_ & _ & Hfh & Hmr & _). pose proof (lo_max_file _ (fi_layout _ Hi)) as Hmax.
  set (w4 := set_w_files _ ws) in *. unfold shrink_persist. apply wp_bind.
  eapply wp_run; [exact Hrun|]. apply wp_bind.
  eapply (wp_upd_file_meta f _ o4 mi); [apply lookup_insert_eq|done|].
  set (w5 := set_w_filemeta _ w4) in *.
  assert (Hs5 : w_super w5 = w_super w) by (rewrite (es_super _ _ E5); apply prep_super).
  assert (Hex5 : is_Some (w_files w5 !! f)) by (eexists; apply lookup_insert_eq).
  assert (Hstop : forall w', meta_step w5 w' -> ~ dev_calm w2 -> shrink_done (-1) w').
  { intros w' Hms Hn. apply (shrink_done_quiet w5); try done; [by apply quiet_meta_step|by right]. }
  apply wp_bind. eapply wp_mono; [by apply (File_WriteMeta_wp w5 f)|].
  intros ok w6 (Hs6 & Hg6).
  assert (C5 : dev_calm w2 -> dev_good w5) by (intros Hc; apply (es_calm _ _ E5 Hc)).
  destruct ok; cbn [negb]; [|wp_step; apply Hstop; [done|]; intros Hc%C5; by apply Hg6 in Hc].
  pose proof (fs_inv_meta_step _ _ Hs6 Hi5) as Hi6.
  apply wp_bind. eapply wp_mono; [apply (write_fb_wp w6 Hi6); by rewrite (es_super _ _ (ms_env _ _ Hs6))|].
  intros ok w7 (Hs7 & Hg7). assert (Hs57 : meta_step w5 w7) by by etrans.
  destruct ok; cbn [negb]; cycle 1.
  { wp_step. apply Hstop; [done|]. intros Hc%C5%(es_good _ _ (ms_env _ _ Hs6)). by apply Hg7 in Hc. }
  pose proof (fs_inv_meta_step _ _ Hs57 Hi5) as Hi7.
  assert (Hold : forall w', meta_step w5 w' ->
    exists m', w_filemeta w' !! fo_meta o = Some m' /\ i32 (fm_fh m') = fo_meta o).
  { intros w' Hms. rewrite <- Hv5, <- (ms_view _ _ Hms) in Hvm.
    apply view_fm_lookup in Hvm as (m' & Hm'' & Heq). exists m'. split; [done|].
    injection Heq as <- _ _. rewrite Hfh. apply swrap_small; lia. }
  destruct (Hold w7 Hs57) as (m7 & Hm7 & Hk7). apply wp_bind. eapply wp_get_filemeta; [done|].
  rewrite Hk7. apply wp_bind. eapply wp_mono; [apply (File_WriteMeta_fh_wp w7 _ Hi7)|].
  { rewrite (es_super _ _ (ms_env _ _ Hs57)), Hs5. done. }
  intros ok w8 (Hs8 & Hg8 & _). assert (Hs58 : meta_step w5 w8) by by etrans.
  destruct ok; cbn [negb]; cycle 1.
  { wp_step. apply Hstop; [done|]. intros Hc%C5%(es_good _ _ (ms_env _ _ Hs57)). by apply Hg8 in Hc. }
  pose proof (fs_inv_meta_step _ _ Hs58 Hi5) as Hi8.
  destruct (Hold w8 Hs58) as (m8 & Hm8 & Hk8). apply wp_bind. eapply wp_get_filemeta; [done|].
  rewrite Hk8. eapply wp_mono; [apply (recycle_wp w8 Hi8)|].
  - etrans; [exact E5|apply Hs58].
  - by rewrite (ms_view _ _ Hs58).
  - rewrite (ms_parents _ _ Hs58). exact Hpar.
  - intros r w' (Hq & Hr & Hpool & Hg).
    apply (shrink_done_quiet w5); try done.
    + eapply quiet_trans; [by apply quiet_meta_step|exact Hq].
    + intros Hc. apply Hg, (es_good _ _ (ms_env _ _ Hs58)), C5, Hc.
Qed.
End Switch.

(** ** [ShrinkFile] *)

(** the name of the file fits the array it is copied to, and its directory is known *)
Definition name_fits (w : world) (f : Z) : Prop :=
  forall o m, w_files w !! f = Some o -> w_filemeta w !! fo_meta o = Some m ->
    (length (meta_file_name m) <= 64)%nat.
Definition dir_known (w : world) (f : Z) : Prop :=
  forall o m, w_files w !! f = Some o -> w_filemeta w !! fo_meta o = Some m ->
    is_Some (dh_created_dhs (w_dh w) !! u64 (i32 (fm_dh m))).

(** what a shrinking needs besides the device *)
Definition shrink_room (w : world) (f offset : Z) : Prop :=
  let V := view_of w in
  v_free_fh V <> [] /\ (0 < offset -> v_free_fb V <> []) /\
  (0 < offset mod kBlockSize -> v_pool V <> ∅) /\ dir_known w f.

(** what every run of a shrinking leaves *)
Record shrink_post (w : world) (f offset : Z) (r : Z) (w' : world) : Prop := {
  sp_inv : fs_inv w';
  sp_fd : fd_step w w';
  sp_ret : r = 0 \/ r = -1;
  sp_other : forall g, g <> f -> file_content w' g = file_content w g;
  sp_self : file_content w' f = file_content w f \/
    file_content w' f = take (Z.to_nat offset) (file_content w f);
  sp_done : r = 0 ->
    let n := Z.to_nat (offset / kBlockSize) in
    file_size (view_of w') f = offset /\
    file_content w' f = take (Z.to_nat offset) (file_content w f) /\
    exists extra, length extra = (if 0 <? offset mod kBlockSize then 1%nat else 0%nat) /\
      (forall x, x ∈ extra -> x ∈ v_pool (view_of w)) /\
      file_blocks (view_of w') f = take n (file_blocks (view_of w) f) ++ extra /\
      v_pool (view_of w') = list_to_set (drop n (file_blocks (view_of w) f))
        ∪ (v_pool (view_of w) ∖ list_to_set extra);
  sp_good : dev_calm w -> shrink_room w f offset ->
    r = 0 /\ length (v_free_fh (view_of w')) = length (v_free_fh (view_of w)) /\
    length (v_free_fb (view_of w'))
      = Nat.add (length (v_free_fb (view_of w))) (if offset =? 0 then 1%nat else 0%nat)
}.

Lemma shrink_post_quiet w f offset w' :
  quiet w w' -> (dev_calm w -> shrink_room w f offset -> False) -> shrink_post w f offset (-1) w'.
Proof.
  intros Hq Hno. constructor; try done.
  - apply Hq.
  - by apply quiet_fd.
  - by right.
  - intros g _. apply Hq.
  - left. apply Hq.
  - intros Hc Hr. by destruct (Hno Hc Hr).
Qed.

Section Whole.
Context (w : world) (f offset : Z) (o : file) (m : FileMeta) (old_fb : Z) (old : FileBlockMeta).
Context (Hi : fs_inv w) (Hff : file_facts w f o m) (Hfb : fb_facts w f o m old_fb old).
Context (Hoff : 0 <= offset < fm_size m).

Let bn := offset / kBlockSize.
Let bo := offset mod kBlockSize.

Lemma offset_parts : 0 <= bn < 1000 /\ 0 <= bo < kBlockSize /\ offset = kBlockSize * bn + bo /\
  ((0 <? bn mod kFileBlockCapacity) || (0 <? bo)) = (0 <? offset).
Proof using Hi Hff Hfb Hoff.
  destruct Hfb as (_ & _ & Hok & _ & _ & _ & Hs & _). destruct Hok as [_ Hu].
  assert (Hbn : 0 <= bn < 1000).
  { split; [apply Z.div_pos; units; lia|]. apply Z.div_lt_upper_bound; units; lia. }
  assert (Hbo : 0 <= bo < kBlockSize) by by apply Z.mod_pos_bound.
  assert (Hd : offset = kBlockSize * bn + bo) by by apply Z.div_mod.
  split; [done|]. split; [done|]. split; [done|]. rewrite Z.mod_small by (units; lia).
  destruct (Z.ltb_spec 0 bn), (Z.ltb_spec 0 bo), (Z.ltb_spec 0 offset); try done; units; lia.
Qed.

(** the switch and the rest *)
Lemma shrink_tail_wp i fbo extra w2 :
  prepared w f o m offset i fbo extra w2 ->
  wp (let! ok := shrink_switch f (fo_meta o) i offset in
      if negb ok then ret (-1) else shrink_persist f (fo_meta o) offset fbo)
     (shrink_post w f offset) w2.
Proof using H Hi Hff Hfb Hoff.
  intros Hp. pose proof (pr_quiet _ _ _ _ _ _ _ _ _ Hp) as Hq.
  pose proof Hff as (Ho & Hm & Hfh & Hr & Hwf & Hsz).
  assert (Hff2 : file_facts w2 f o m).
  { split; [by rewrite (pr_files _ _ _ _ _ _ _ _ _ Hp)|].
    split; [by apply (pr_meta _ _ _ _ _ _ _ _ _ Hp)|]. split; [done|].
    split; [by rewrite (prep_super _ _ _ _ _ _ _ _ _ Hp)|]. split; [done|].
    by rewrite (q_sizes _ _ Hq). }
  apply wp_bind. eapply wp_mono; [apply (shrink_switch_wp w2 f o m i offset); try done|].
  { apply Hq. } { by apply (pr_rec _ _ _ _ _ _ _ _ _ Hp). }
  intros ok ws Hok. destruct ok; cbn [negb].
  - destruct Hok as (Es & Ds & Hvs & (o' & Ho' & Hmo' & Hio') & Hpar).
    eapply wp_mono; [by apply (shrink_persist_wp w f offset o m old_fb old Hi Hff Hfb Hoff i fbo extra
      w2 Hp ws o')|].
    intros r w' [D1 D2 D3 D4 D5 D6 D7 D8 D9 D10]. pose proof (pr_fb _ _ _ _ _ _ _ _ _ Hp) as Hpf.
    destruct (pr_fh _ _ _ _ _ _ _ _ _ Hp) as (rest & Hfh1 & Hfh2).
    constructor; try done.
    + apply fd_step_env; [done|]. intros g [og Hog]. apply view_file_exists. rewrite D3.
      apply lookup_insert_is_Some'. right.
      change (is_Some (v_files (view_of w2) !! g)). rewrite (q_files _ _ Hq).
      rewrite (view_files_lookup _ _ _ Hog). eauto.
    + by right.
    + intros Hr0. split; [done|]. split; [done|]. exists extra.
      assert (Hx : length extra = (if 0 <? bo then 1%nat else 0%nat) /\
        (forall x, x ∈ extra -> x ∈ v_pool (view_of w)) /\
        v_pool (view_of w2) = v_pool (view_of w) ∖ list_to_set extra).
      { destruct fbo as [fb|].
        - destruct Hpf as (_ & _ & (_ & ? & ? & ? & _) & _). done.
        - destruct Hpf as (Hz & -> & Hpl & _). unfold bo. rewrite Hz.
          split; [done|]. split; [intros x Hx; by apply elem_of_nil in Hx|].
          rewrite Hpl. cbn. by rewrite difference_empty_L. }
      destruct Hx as (Hx1 & Hx2 & Hx3). split; [done|]. split; [done|]. split; [done|].
      rewrite <- Hx3. by apply D9.
    + intros Hc _. destruct D10 as (-> & Hf1 & Hf2); [by apply (es_calm _ _ (q_env _ _ Hq))|].
      split; [done|]. rewrite Hf1, Hf2, !length_app, Hfh2, Hfh1. split; [cbn; lia|].
      destruct fbo as [fb|].
      * destruct Hpf as (Hpos & _ & _ & rf & -> & ->). cbn.
        destruct (Z.eqb_spec offset 0); lia.
      * destruct Hpf as (-> & _ & _ & ->). cbn. lia.
  - destruct Hok as [Hq2 Hnone]. wp_step. apply shrink_post_quiet; [by eapply quiet_trans|].
    intros _ (_ & _ & _ & Hd). rewrite (pr_dh _ _ _ _ _ _ _ _ _ Hp) in Hnone.
    destruct (Hd o m Ho Hm) as [? ?]. congruence.
Qed.

(** the stage that builds the new file block, from the world [w1] with the new
    record in place *)
Lemma shrink_build_wp i rest w1 :
  quiet w w1 -> fresh_record w1 i -> w_filemeta w1 !! fo_meta o = Some m ->
  w_files w1 = w_files w -> w_dh w1 = w_dh w -> w_fbmeta w1 = w_fbmeta w ->
  w_bh w1 = w_bh w -> w_free_fbhs w1 = w_free_fbhs w ->
  v_free_fh (view_of w) = i :: rest -> v_free_fh (view_of w1) = rest ->
  wp (if (0 <? bn mod kFileBlockCapacity) || (0 <? bo) then
       let! fb := GetFileBlockLock in
       match fb with
       | None => ret None
       | Some fb =>
         let! ok := shrink_file_block f i fb bn bo in
         ret (if ok then Some (Some fb) else None)
       end
     else ret (Some None))
    (fun r w2 => match r with
       | Some fbo => exists extra, prepared w f o m offset i fbo extra w2
       | None => quiet w w2 /\ (dev_calm w -> shrink_room w f offset -> False)
       end) w1.
Proof using H Hi Hff Hfb Hoff.
  intros Hq Hrec Hm1 Hf1 Hdh Hfbm Hbh Hffb Hfh0 Hfh1.
  destruct offset_parts as (Hbn & Hbo & Hdec & Hcond). rewrite Hcond.
  pose proof (q_inv _ _ Hq) as Hi1. pose proof Hff as (Ho & Hm & Hfh & Hr & Hwf & Hsz).
  destruct (Z.ltb_spec 0 offset) as [Hpos|Hz]; cycle 1.
  { wp_step. exists []. constructor; try done; [by exists rest|].
    split; [lia|]. split; [done|]. split; [|done]. cbn. by rewrite Hbh. }
  apply wp_bind.
  destruct (GetFileBlockLock_run w1 Hi1) as [[Hnone Hrun]|(fb & rfb & nb & Hfree & Hnb & Hnok & Hnbl & Hrun)].
  { eapply wp_run; [exact Hrun|]. cbn beta iota. wp_step. split; [done|]. intros _ (_ & Hnf & _).
    apply (Hnf Hpos). cbn. by rewrite <- Hffb. }
  eapply wp_run; [exact Hrun|]. set (w1' := set_w_free_fbhs rfb w1).
  destruct (quiet_pop_fb w1 fb rfb Hi1 Hfree) as [Hq1 Hfr]. fold w1' in Hq1, Hfr.
  assert (Hq' : quiet w w1') by by eapply quiet_trans.
  assert (Hff1 : file_facts w1' f o m).
  { split; [cbn; by rewrite Hf1|]. split; [exact Hm1|]. split; [done|].
    split; [by rewrite (es_super _ _ (q_env _ _ Hq'))|]. split; [done|].
    by rewrite (q_sizes _ _ Hq'). }
  assert (Hfb1 : fb_facts w1' f o m old_fb old).
  { destruct Hfb as (He & Hold & Hok & Hrg & Hu & Hc & Hs & Hbl & Hlive).
    split; [done|]. split; [cbn; by rewrite Hfbm|]. split; [done|].
    split; [by rewrite (es_super _ _ (q_env _ _ Hq'))|]. split; [done|]. split; [done|].
    split; [done|]. split; [by rewrite (q_blocks _ _ Hq')|].
    unfold file_fb in *. by rewrite (q_files _ _ Hq'). }
  assert (Hrec1 : fresh_record w1' i) by exact Hrec.
  apply wp_bind. eapply wp_mono; [apply (shrink_file_block_wp w1' f offset o m old_fb old
    (q_inv _ _ Hq') Hff1 Hfb1 ltac:(lia) i fb nb Hrec1 Hfr Hnb Hnbl)|].
  intros ok w2 (Hq2 & (S1 & S2 & S3 & S4 & S5) & Hmade & Hg). wp_step.
  assert (Hq12 : quiet w w2) by by eapply quiet_trans.
  destruct ok.
  - destruct (Hmade eq_refl) as [extra (M1 & M2 & M3 & M4 & M5)]. exists extra. constructor.
    + done.
    + destruct Hrec1 as (R1 & R2 & R3 & R4 & R5).
      split; [by rewrite (es_super _ _ (q_env _ _ Hq2))|].
      split; [cbn; rewrite S3; exact R2|]. split; [cbn; rewrite S3; exact R3|].
      split; [by rewrite (quiet_live_meta _ _ _ Hq2)|]. by rewrite S1.
    + by rewrite S1.
    + rewrite S2. exact Hf1.
    + rewrite S4. exact Hdh.
    + exists rest. split; [done|]. cbn. rewrite S3. exact Hfh1.
    + split; [done|]. split; [|split].
      * destruct Hfr as (F1 & F2 & F3). split; [by rewrite (es_super _ _ (q_env _ _ Hq2))|].
        split; [cbn; rewrite S5; exact F2|]. by rewrite (quiet_live_fb _ _ _ Hq2).
      * rewrite (q_blocks _ _ Hq') in M1, M5. rewrite (q_content _ _ Hq') in M5.
        rewrite (es_super _ _ (q_env _ _ Hq')) in M5.
        assert (Hpl : v_pool (view_of w1') = v_pool (view_of w)) by (cbn; by rewrite Hbh).
        rewrite Hpl in M3, M4. by split_and!.
      * exists rfb. split; [cbn; by rewrite <- Hffb|]. cbn. by rewrite S5.
  - split; [done|]. intros Hc (_ & _ & Hpl & _).
    discriminate Hg; [by apply (es_calm _ _ (q_env _ _ Hq'))|].
    destruct (decide (bo = 0)) as [|Hne]; [by left|right]. cbn. rewrite Hbh.
    apply Hpl. fold bo. lia.
Qed.

Lemma ShrinkFile_facts_wp :
  name_fits w f -> wp (ShrinkFile f offset) (shrink_post w f offset) w.
Proof using H Hi Hff Hfb Hoff.
  intros Hname. destruct offset_parts as (Hbn & Hbo & Hdec & Hcond).
  pose proof Hff as (Ho & Hm & Hfh & Hr & Hwf & Hsz). pose proof (fw_size _ Hwf) as Hsu.
  unfold in_u in Hsu. pose proof (lo_max_file _ (fi_layout _ Hi)) as Hmax.
  unfold ShrinkFile. apply wp_bind. eapply wp_run; [by apply (File_dh_run w f o m)|].
  apply wp_bind. eapply wp_run; [by apply (File_file_name_run w f o m)|].
  apply wp_bind. eapply wp_mono; [apply (NewFreeFileMeta_wp w _ _ Hi); by apply (Hname o)|].
  intros [i|] w1 (Hq1 & Hcase); cycle 1.
  { wp_step. apply shrink_post_quiet; [done|]. by intros _ (Hn & _). }
  destruct Hcase as (Hrec & rest & Hfree & Hv1 & m1 & h & Hwf1 & Hmf1 & Hmu1 & Hw1).
  assert (Hne : i <> fo_meta o).
  { intros ->. destruct Hrec as (_ & _ & _ & Hd & _). apply Hd.
    exists f, (view_fo o). split; [|done]. apply view_files_lookup. by rewrite Hw1. }
  assert (Hm1 : w_filemeta w1 !! fo_meta o = Some m) by (rewrite Hw1; cbn; by rewrite lookup_insert_ne).
  assert (Hmi : w_filemeta w1 !! i = Some m1) by (rewrite Hw1; apply lookup_insert_eq).
  apply wp_bind. eapply (wp_get_file _ o); [by rewrite Hw1|]. cbn zeta.
  rewrite (wrap_small 32 (offset / kBlockSize)) by (fold bn; units; lia).
  apply wp_bind. eapply wp_get_filemeta; [done|]. apply wp_bind.
  eapply wp_upd_filemeta; [done|]. set (m2 := set_fm_size _ _).
  destruct (quiet_put_filemeta w1 i m2 (q_inv _ _ Hq1) Hrec) as [Hq2 Hrec2]; try done.
  { destruct Hwf1. constructor; try done.
    - apply wrap_bound. lia.
    - cbn. rewrite Hfh, swrap_small by lia. unfold in_i. lia.
    - apply wrap_bound. lia. }
  set (w2 := set_w_filemeta _ w1) in *.
  apply wp_bind. eapply wp_mono; [apply (shrink_build_wp i rest w2); try done|].
  - by eapply quiet_trans.
  - cbn. by rewrite lookup_insert_ne.
  - cbn. by rewrite Hw1.
  - cbn. by rewrite Hw1.
  - cbn. by rewrite Hw1.
  - cbn. by rewrite Hw1.
  - cbn. by rewrite Hw1.
  - change (v_free_fh (view_of w2)) with (v_free_fh (view_of w1)). by rewrite Hv1.
  - intros [fbo|] w3 Hpost.
    + destruct Hpost as [extra Hp]. by apply (shrink_tail_wp i fbo extra w3).
    + destruct Hpost as [Hq3 Hno]. wp_step. by apply shrink_post_quiet.
Qed.
End Whole.

(** [ShrinkFile] on any file and whatever the device answers *)
Lemma ShrinkFile_wp w f offset :
  fs_inv w -> is_Some (w_files w !! f) -> 0 <= offset < file_size (view_of w) f ->
  name_fits w f -> wp (ShrinkFile f offset) (shrink_post w f offset) w.
Proof.
  intros Hi [o Ho] Hoff Hname. destruct (file_world w f o Hi Ho) as (m & Hff & Hc).
  pose proof Hff as (_ & _ & _ & _ & _ & Hsz). rewrite Hsz in Hoff.
  destruct Hc as [(_ & Hz & _)|(fb & b & Hfb)]; [lia|].
  by apply (ShrinkFile_facts_wp w f offset o m fb b).
Qed.
End Shrink.
