(* ===== verification/DirSteps.v ===== *)
(** * Steps on directory records

    The rules for the record that a [Directory] object points to, the page write
    of [Directory::WriteMeta] and the creation of a directory: they touch the
    directory records and the metadata region of the device only. *)

From S2P Require Import Prelude Meta Device World SuperBlock Resources Paths FileBlock Inode.
From S2P Require Import Directory FileHandle File OpenFile FileHandleOps DirHandle.
From S2P Require Import Io Invariant MetaSteps.

(** the directory records: one per handle, fields of their widths *)
Record dirmeta_ok (w : world) : Prop := {
  dmo_dom : forall i, is_Some (w_dirmeta w !! i) <-> 0 <= i < sb_max_file_num (w_super w);
  dmo_wf : map_Forall (fun _ m => dir_wf m) (w_dirmeta w)
}.

Lemma dirmeta_ok_insert (w : world) (i : Z) (m : DirMeta) :
  dirmeta_ok w -> is_Some (w_dirmeta w !! i) -> dir_wf m ->
  dirmeta_ok (set_w_dirmeta (<[i := m]> (w_dirmeta w)) w).
Proof.
  intros [Hd Hw] Hi Hm. constructor; cbn.
  - intros j. rewrite <- Hd. destruct (decide (i = j)) as [->|].
    + rewrite lookup_insert_eq. split; [done|by eexists].
    + by rewrite lookup_insert_ne.
  - by apply map_Forall_insert_2.
Qed.

Lemma meta_step_dirmeta (w : world) (a : gmap Z DirMeta) : meta_step w (set_w_dirmeta a w).
Proof. constructor; [by constructor|done..]. Qed.

(** only directory objects, records and maps differ: nothing that files are made of *)
Definition dir_change (w w' : world) : Prop :=
  exists d m h n er, w' = set_w_errno er (set_w_next n (set_w_dh h (set_w_dirs d (set_w_dirmeta m w)))).

Section DirSteps.
Context `{Env}.

Lemma wp_dir_meta d o m (Q : DirMeta -> world -> Prop) w :
  w_dirs w !! d = Some o -> w_dirmeta w !! do_meta o = Some m -> Q m w -> wp (dir_meta d) Q w.
Proof.
  intros Ho Hm HQ. unfold dir_meta. apply wp_bind. eapply wp_get_dir; [done|].
  by eapply wp_get_dirmeta.
Qed.

Lemma wp_upd_dir_meta d g o m (Q : unit -> world -> Prop) w :
  w_dirs w !! d = Some o -> w_dirmeta w !! do_meta o = Some m ->
  Q tt (set_w_dirmeta (<[do_meta o := g m]> (w_dirmeta w)) w) -> wp (upd_dir_meta d g) Q w.
Proof.
  intros Ho Hm HQ. unfold upd_dir_meta. apply wp_bind. eapply wp_get_dir; [done|].
  by eapply wp_upd_dirmeta.
Qed.

Lemma wp_dir_name d o m (Q : bytes -> world -> Prop) w :
  w_dirs w !! d = Some o -> w_dirmeta w !! do_meta o = Some m ->
  Q (meta_dir_name m) w -> wp (Directory_dir_name d) Q w.
Proof. intros Ho Hm HQ. unfold Directory_dir_name. apply wp_bind. by eapply wp_dir_meta. Qed.

Lemma wp_dir_dh d o m (Q : Z -> world -> Prop) w :
  w_dirs w !! d = Some o -> w_dirmeta w !! do_meta o = Some m -> Q (dm_dh m) w ->
  wp (Directory_dh d) Q w.
Proof. intros Ho Hm HQ. unfold Directory_dh. apply wp_bind. by eapply wp_dir_meta. Qed.

Lemma dir_wf_set_crc m : dir_wf m -> dir_wf (set_dm_crc (dir_crc_of m) m).
Proof. intros []. constructor; try done. apply crc32_range. Qed.

(** the device holds the record of directory [i] as memory does, checksum valid *)
Definition dir_persisted (w : world) (i : Z) : Prop :=
  exists m, w_dirmeta w !! i = Some m /\ dm_crc m = dir_crc_of m /\
    decode_dir (st_read (w_store w)
      (sb_dir_meta_offset (w_super w) + kBlockFsDirMetaSize * i) 1024) = m.

(** the page of record [i] was written, as memory has it *)
Definition dir_page_addr (sb : SuperBlockMeta) (i : Z) : Z :=
  sb_dir_meta_offset sb + kBlockFsDirMetaSize * (i - i mod 4).

Definition dir_stored (w : world) (i : Z) (w' : world) : Prop :=
  w_store w' = st_write (w_store w) (dir_page_addr (w_super w) i)
    (dir_page (w_dirmeta w') (i - i mod 4) kBlockFsDirMetaSize).

(** record [i] got another value, with its checksum and its handle, and was written *)
Definition dir_written (w : world) (i : Z) (w' : world) : Prop :=
  (exists m, w_dirmeta w' = <[i := m]> (w_dirmeta w) /\ dm_crc m = dir_crc_of m /\ dm_dh m = i) /\
  dir_stored w i w'.

Lemma Directory_WriteMeta_wp (w : world) (d : Z) (o : directory) (m : DirMeta) :
  layout_ok (w_super w) -> dev_size (w_dev w) = sb_device_size (w_super w) -> dirmeta_ok w ->
  w_dirs w !! d = Some o -> w_dirmeta w !! do_meta o = Some m -> dm_dh m = do_meta o ->
  wp (Directory_WriteMeta d) (fun ok w' =>
    (exists e evs st, w' = upd_io e evs st
       (set_w_dirmeta (<[do_meta o := set_dm_crc (dir_crc_of m) m]> (w_dirmeta w)) w)) /\
    meta_step w w' /\ (dev_good w -> ok = true) /\ (ok = true -> dir_persisted w' (do_meta o)) /\
    (dev_good w -> dir_stored w (do_meta o) w')) w.
Proof.
  intros Hl Hdev Hd Ho Hm Hdh. pose proof Hl as [].
  assert (Hi : 0 <= do_meta o < sb_max_file_num (w_super w)) by (apply (dmo_dom _ Hd); by eexists).
  set (i := do_meta o) in *. set (m' := set_dm_crc (dir_crc_of m) m).
  assert (Hm' : dir_wf m') by by apply dir_wf_set_crc, (dmo_wf _ Hd i).
  set (w1 := set_w_dirmeta (<[i := m']> (w_dirmeta w)) w).
  assert (Hd1 : dirmeta_ok w1) by (apply dirmeta_ok_insert; [done|by eexists|done]).
  assert (Hs1 : meta_step w w1) by apply meta_step_dirmeta.
  destruct (PageAlignIndex_eq 1024 i ltac:(set_solver) ltac:(lia)) as (Hal & Hmod & _).
  change (4096 / 1024) with 4 in *.
  destruct (page_image encode_dir (w_dirmeta w1) 1024 (i - i mod 4) (i mod 4) m')
    as [Hlen Hslice]; try (change (4096 / 1024) with 4); try lia; try done.
  { intros j x Hx. apply encode_dir_length. by apply (dmo_wf _ Hd1 j). }
  { cbn. replace (i - i mod 4 + i mod 4) with i by lia. by rewrite lookup_insert_eq. }
  change (4096 / 1024) with 4 in *.
  pose proof (Z.div_mod i 4 ltac:(lia)). pose proof (Z.mod_le i 4 ltac:(lia) ltac:(lia)).
  assert (Hend : 1024 * (i - i mod 4) + 4096 <= sb_dir_meta_total_size (w_super w)).
  { units. pose proof (Z.div_mod (sb_dir_meta_total_size (w_super w)) 4096 ltac:(lia)). lia. }
  units. unfold Directory_WriteMeta. do 2 wp_step. wp_step. eapply wp_dir_dh; [done..|].
  rewrite Hdh. wp_step. eapply wp_upd_dir_meta; [done..|]. fold i m' w1. do 3 wp_step.
  rewrite lo_dir_size. units. rewrite Hal.
  rewrite (wrap_small 64 (1024 * _)) by lia. rewrite wrap_small by lia.
  unfold dir_page. units. change (4096 / 1024) with 4. set (page := concat _) in *.
  eapply wp_mono; [apply (meta_write_wp w1); change (w_super w1) with (w_super w);
    [done | done | lia | rewrite Hlen; lia]|].
  intros r w' (Hs & Hp & Hg). wp_step.
  destruct Hp as (e & n & evs & Hn & Hr' & _ & Hw' & Hfull). split_and!.
  - eauto.
  - by etrans.
  - intros Hgood. rewrite Hg by by apply (es_good _ _ (ms_env _ _ Hs1)). by rewrite Hlen.
  - intros Heq. apply Z.eqb_eq in Heq. rewrite Hw'. exists m'. split_and!.
    + cbn. by rewrite lookup_insert_eq.
    + done.
    + change (w_super (upd_io _ _ _ w1)) with (w_super w). units. rewrite w_store_upd_io.
      rewrite take_ge by lia.
      replace (sb_dir_meta_offset (w_super w) + 1024 * i)
        with (sb_dir_meta_offset (w_super w) + 1024 * (i - i mod 4)
              + Z.of_nat (Z.to_nat (1024 * (i mod 4)))) by lia.
      rewrite st_read_slice by lia. change (1024%nat) with (Z.to_nat 1024). rewrite Hslice.
      by apply decode_encode_dir_aux.
  - intros Hgood. apply (es_good _ _ (ms_env _ _ Hs1)) in Hgood. rewrite Hw'. unfold dir_stored.
    rewrite w_store_upd_io, take_ge; [done|].
    destruct (Hfull Hgood) as [_ ->]. lia.
Qed.
End DirSteps.

(** ** The tree of directories

    [created_dirs_] (by path) and [created_dhs_] (by handle) hold the same
    directories, each with its own record that carries its path; every directory
    but the mount point is a child of the directory at its parent path, and the
    children of a directory are such directories.  The files of a directory are
    listed by their handles. *)
Record dir_tree (w : world) : Prop := {
  dt_meta : dirmeta_ok w;
  dt_free : NoDup (dh_free (w_dh w)) /\ (forall i, i ∈ dh_free (w_dh w) ->
    exists m, w_dirmeta w !! i = Some m /\ dm_used m = false /\ dm_dh m = i);
  dt_created : forall p d, dh_created_dirs (w_dh w) !! p = Some d ->
    exists o m, w_dirs w !! d = Some o /\ w_dirmeta w !! do_meta o = Some m /\
      dm_dh m = do_meta o /\ meta_dir_name m = p /\ dm_used m = true /\
      (do_meta o ∉ dh_free (w_dh w)) /\ dh_created_dhs (w_dh w) !! do_meta o = Some d;
  dt_dhs : forall i d, dh_created_dhs (w_dh w) !! i = Some d ->
    exists p o, dh_created_dirs (w_dh w) !! p = Some d /\ w_dirs w !! d = Some o /\ do_meta o = i;
  dt_next : forall d, is_Some (w_dirs w !! d) -> d < w_next w;
  dt_parent : forall p d o, dh_created_dirs (w_dh w) !! p = Some d -> w_dirs w !! d = Some o ->
    p <> [slash] -> exists q oq, dh_created_dirs (w_dh w) !! GetDirName p = Some q /\
      w_dirs w !! q = Some oq /\ do_children oq !! do_meta o = Some d;
  dt_children : forall q oq i c, (exists p, dh_created_dirs (w_dh w) !! p = Some q) ->
    w_dirs w !! q = Some oq -> do_children oq !! i = Some c ->
    exists p o, dh_created_dirs (w_dh w) !! p = Some c /\ p <> [slash] /\
      dh_created_dirs (w_dh w) !! GetDirName p = Some q /\ w_dirs w !! c = Some o /\ do_meta o = i;
  dt_items : forall d o i, w_dirs w !! d = Some o -> is_Some (do_items o !! i) ->
    0 <= i < sb_max_file_num (w_super w)
}.

Lemma dir_tree_inj (w : world) (p1 p2 : bytes) (d : Z) :
  dir_tree w -> dh_created_dirs (w_dh w) !! p1 = Some d ->
  dh_created_dirs (w_dh w) !! p2 = Some d -> p1 = p2.
Proof.
  intros Ht H1 H2. destruct (dt_created _ Ht _ _ H1) as (o & m & ? & ? & ? & <- & _).
  destruct (dt_created _ Ht _ _ H2) as (o' & m' & ? & ? & ? & <- & _). by simplify_eq.
Qed.

(** the tree does not depend on anything else of the world *)
Lemma dir_tree_ext (w w' : world) :
  w_super w' = w_super w -> w_dirmeta w' = w_dirmeta w -> w_dh w' = w_dh w ->
  w_dirs w' = w_dirs w -> w_next w' = w_next w -> dir_tree w -> dir_tree w'.
Proof.
  intros Es Em Eh Ed En [[] ?]. constructor; rewrite ?Eh, ?Em, ?Ed, ?En; try done.
  - constructor; rewrite ?Em, ?Es; done.
  - by rewrite Es.
Qed.

(** a record is replaced by one with the same handle, path and use *)
Lemma dir_tree_dirmeta (w : world) (i : Z) (m m' : DirMeta) :
  dir_tree w -> w_dirmeta w !! i = Some m -> dir_wf m' -> dm_dh m' = dm_dh m ->
  meta_dir_name m' = meta_dir_name m -> dm_used m' = dm_used m ->
  dir_tree (set_w_dirmeta (<[i := m']> (w_dirmeta w)) w).
Proof.
  intros [Hok [Hnd Hfr] Hcr Hdh Hn Hp Hc Hit] Hm Hwf Edh Enm Eu. constructor; try done.
  - apply dirmeta_ok_insert; [done|by eexists|done].
  - split; [done|]. intros j Hj. destruct (Hfr j Hj) as (x & Hx & Hx1 & Hx2). cbn.
    destruct (decide (i = j)) as [->|]; [|by rewrite lookup_insert_ne; eauto].
    rewrite lookup_insert_eq. simplify_eq. exists m'. split_and!; congruence.
  - intros p d Hd. destruct (Hcr p d Hd) as (o & x & Ho & Hx & Hx1 & Hx2 & Hx3 & Hfr1 & Hr).
    cbn. destruct (decide (i = do_meta o)) as [->|].
    + simplify_eq. exists o, m'. rewrite lookup_insert_eq. split_and!; try done; congruence.
    + exists o, x. by rewrite lookup_insert_ne.
Qed.
