(* ===== verification/Names.v ===== *)
(** * Names: what the path lookups find

    The lookups by path as functions of the world, and that the code's lookups
    compute them: they change nothing but [errno]. *)

From S2P Require Import Prelude Meta Device World SuperBlock Resources Paths FileBlock Inode.
From S2P Require Import Directory FileHandle File OpenFile FileHandleOps DirHandle.
From S2P Require Import Io Invariant MetaSteps DirSteps.

(** a directory's path as the maps have it *)
Definition dir_key (path : bytes) : option bytes :=
  let p := if ends_with_slash path then path else path ++ [slash] in
  if kBlockFsMaxDirNameLen <=? Z.of_nat (length p) then None else Some p.

Definition lookup_dir (w : world) (path : bytes) : option Z :=
  p ← dir_key path; dh_created_dirs (w_dh w) !! p.

(** the parent directory and the name of a file's path *)
Definition file_key (w : world) (path : bytes) : option (Z * bytes) :=
  if ends_with_slash path then None
  else if kBlockFsMaxFileNameLen <=? Z.of_nat (length (GetFileName path)) then None
  else d ← lookup_dir w (GetDirName path); o ← w_dirs w !! d; Some (do_meta o, GetFileName path).

Definition lookup_file (w : world) (path : bytes) : option Z :=
  k ← file_key w path; fh_created_files (w_fh w) !! k.

(** a command that only computes a value and may set [errno] *)
Definition looks_up {A} (m : Fs A) (w : world) (a : A) : Prop :=
  exists e, m w = Done a (set_w_errno e w).

Lemma set_errno_same (w : world) : set_w_errno (w_errno w) w = w.
Proof. by destruct w. Qed.

Lemma looks_up_ret {A} (a : A) (w : world) : looks_up (ret a) w a.
Proof. exists (w_errno w). by rewrite set_errno_same. Qed.

Lemma looks_up_errno {A} (e : Z) (a : A) (w : world) : looks_up (set_errno e ;; ret a) w a.
Proof. by exists e. Qed.

Lemma looks_up_bind {A B} (m : Fs A) (k : A -> Fs B) (w : world) (a : A) (b : B) :
  looks_up m w a -> (forall e, looks_up (k a) (set_w_errno e w) b) -> looks_up (bind m k) w b.
Proof.
  intros [e Hm] Hk. destruct (Hk e) as [e' He]. exists e'. unfold bind. by rewrite Hm, He.
Qed.

Lemma looks_up_gets {A B} (f : world -> A) (k : A -> Fs B) (w : world) (b : B) :
  looks_up (k (f w)) w b -> looks_up (let! x := gets f in k x) w b.
Proof. done. Qed.

(** a known run in front *)
Lemma looks_up_run {A B} (m : Fs A) (k : A -> Fs B) (w : world) (a : A) (b : B) :
  m w = Done a w -> looks_up (k a) w b -> looks_up (bind m k) w b.
Proof. intros Hm [e He]. exists e. unfold bind. by rewrite Hm. Qed.

Lemma looks_up_wp {A} (m : Fs A) (w : world) (a : A) (Q : A -> world -> Prop) :
  looks_up m w a -> (forall e, Q a (set_w_errno e w)) -> wp m Q w.
Proof. intros [e He] HQ. unfold wp. rewrite He. apply HQ. Qed.

Lemma dir_TransformPath_run (w : world) (path : bytes) :
  looks_up (dir_TransformPath path) w (dir_key path).
Proof.
  unfold dir_TransformPath, dir_key. destruct (kBlockFsMaxDirNameLen <=? _);
    [apply looks_up_errno|apply looks_up_ret].
Qed.

Lemma GetCreatedDirectory_run (w : world) (path : bytes) :
  looks_up (GetCreatedDirectory path) w (lookup_dir w path).
Proof.
  unfold GetCreatedDirectory, lookup_dir. eapply looks_up_bind; [apply dir_TransformPath_run|].
  intros e. destruct (dir_key path) as [p|]; cbn [mbind option_bind]; [|apply looks_up_ret].
  apply looks_up_gets, looks_up_ret.
Qed.

Lemma Directory_dh_run (w : world) (d : Z) (o : directory) (m : DirMeta) :
  w_dirs w !! d = Some o -> w_dirmeta w !! do_meta o = Some m -> Directory_dh d w = Done (dm_dh m) w.
Proof.
  intros Ho Hm. unfold Directory_dh, dir_meta, get_dir, get_dirmeta, bind, gets.
  rewrite Ho. cbn. by rewrite Hm.
Qed.

(** a directory that a lookup finds *)
Lemma lookup_dir_some (w : world) (path : bytes) (d : Z) :
  dir_tree w -> lookup_dir w path = Some d ->
  exists p o m, dir_key path = Some p /\ dh_created_dirs (w_dh w) !! p = Some d /\
    w_dirs w !! d = Some o /\ w_dirmeta w !! do_meta o = Some m /\ dm_dh m = do_meta o /\
    meta_dir_name m = p /\ 0 <= do_meta o < sb_max_file_num (w_super w).
Proof.
  intros Ht Hd. unfold lookup_dir in Hd. apply bind_Some in Hd as (p & Hp & Hd).
  destruct (dt_created _ Ht _ _ Hd) as (o & m & Ho & Hm & Hdh & Hnm & _ & _ & _).
  exists p, o, m. split_and!; try done; apply (dmo_dom _ (dt_meta _ Ht)); by eexists.
Qed.

Lemma file_TransformPath_run (w : world) (path : bytes) :
  looks_up (file_TransformPath path) w
    (if ends_with_slash path then None
     else if kBlockFsMaxFileNameLen <=? Z.of_nat (length (GetFileName path)) then None
     else Some (GetDirName path, GetFileName path)).
Proof.
  unfold file_TransformPath. destruct (ends_with_slash path); [apply looks_up_errno|].
  destruct (kBlockFsMaxFileNameLen <=? _); [apply looks_up_errno|apply looks_up_ret].
Qed.

Lemma GetCreatedFile_run (w : world) (path : bytes) :
  dir_tree w -> looks_up (GetCreatedFile path) w (lookup_file w path).
Proof.
  intros Ht. unfold GetCreatedFile, lookup_file, file_key.
  eapply looks_up_bind; [apply file_TransformPath_run|]. intros e.
  destruct (ends_with_slash path); [apply looks_up_ret|].
  destruct (kBlockFsMaxFileNameLen <=? _); [apply looks_up_ret|].
  eapply looks_up_bind; [apply GetCreatedDirectory_run|]. intros e'.
  change (lookup_dir (set_w_errno e w) (GetDirName path)) with (lookup_dir w (GetDirName path)).
  destruct (lookup_dir w (GetDirName path)) as [d|] eqn:Hd; cbn [mbind option_bind];
    [|apply looks_up_ret].
  destruct (lookup_dir_some _ _ _ Ht Hd) as (p & o & m & _ & _ & Ho & Hm & Hdh & _).
  rewrite Ho. eapply looks_up_run; [by apply (Directory_dh_run _ _ o m)|].
  apply looks_up_gets. rewrite Hdh. cbn.
  destruct (fh_created_files (w_fh w) !! (do_meta o, GetFileName path));
    [apply looks_up_ret|apply looks_up_errno].
Qed.
