(* ===== verification/DirOps.v ===== *)
(** * Creating and deleting directories

    That [CreateDirectory] and [DeleteDirectory] keep the tree of directories,
    with what they change in it. *)

From S2P Require Import Prelude Meta Device World SuperBlock Resources Paths FileBlock Inode.
From S2P Require Import Directory FileHandle File OpenFile FileHandleOps DirHandle.
From S2P Require Import Io Invariant MetaSteps DirSteps Names.

Definition chop_slash (path : bytes) : bytes :=
  if ends_with_slash path then pop_back path else path.

Definition is_none {A} (x : option A) : bool := match x with None => true | Some _ => false end.

(** no file has the path, nor that of its parent *)
Definition no_file (w : world) (path : bytes) (check_parent : bool) : bool :=
  IsMountPoint path ||
  (is_none (lookup_file w (chop_slash path)) &&
   (IsMountPoint (GetDirName path) || negb check_parent ||
    is_none (lookup_file w (chop_slash (GetDirName path))))).

Lemma CheckFileExist_run (w : world) (path : bytes) (check_parent : bool) :
  dir_tree w -> looks_up (DirHandle_CheckFileExist path check_parent) w (no_file w path check_parent).
Proof.
  intros Ht. unfold DirHandle_CheckFileExist, no_file.
  destruct (IsMountPoint path); [apply looks_up_ret|]. cbn [orb]. fold (chop_slash path).
  eapply looks_up_bind; [by apply GetCreatedFile_run|]. intros e.
  destruct (lookup_file w (chop_slash path)); [apply looks_up_errno|]. cbn [andb is_none].
  destruct (IsMountPoint (GetDirName path)), check_parent; try apply looks_up_ret.
  cbn [negb andb orb]. fold (chop_slash (GetDirName path)).
  eapply looks_up_bind; [apply GetCreatedFile_run; by apply (dir_tree_ext w)|]. intros e'.
  change (lookup_file (set_w_errno e w)) with (lookup_file w).
  destruct (lookup_file w (chop_slash (GetDirName path))); [apply looks_up_errno|apply looks_up_ret].
Qed.

(** directory objects, records and maps differ, and [errno]: nothing that files are
    made of *)
Record dir_step (w w' : world) : Prop := {
  ds_meta_step : meta_step w w';
  ds_files : w_files w' = w_files w;
  ds_fh : w_fh w' = w_fh w;
  ds_fdh : w_fdh w' = w_fdh w;
  ds_streams : w_streams w' = w_streams w;
  ds_filemeta : w_filemeta w' = w_filemeta w;
  ds_fbmeta : w_fbmeta w' = w_fbmeta w
}.

#[export] Instance dir_step_preorder : PreOrder dir_step.
Proof.
  split.
  - intros w. by constructor.
  - intros w1 w2 w3 [] []. constructor; try congruence. by etrans.
Qed.

(** the fields of a world that [dir_tree] does not look at stay *)
Definition same_dirs (w w' : world) : Prop :=
  w_dh w' = w_dh w /\ w_dirs w' = w_dirs w /\ w_dirmeta w' = w_dirmeta w /\ w_next w' = w_next w.

(** every directory object is still there, with its handle, its files and its links *)
Definition dirs_stay (w w' : world) : Prop := forall d o, w_dirs w !! d = Some o ->
  exists o', w_dirs w' !! d = Some o' /\ do_meta o' = do_meta o /\ do_items o' = do_items o /\
    do_nlink o' = do_nlink o.

#[export] Instance dirs_stay_preorder : PreOrder dirs_stay.
Proof.
  split.
  - intros w d o Ho. by exists o.
  - intros w1 w2 w3 H1 H2 d o Ho. destruct (H1 d o Ho) as (o2 & Ho2 & <- & <- & <-). by apply H2.
Qed.

Lemma dirs_stay_same (w w' : world) : w_dirs w' = w_dirs w -> dirs_stay w w'.
Proof. intros E d o. rewrite E. intros Ho. by exists o. Qed.

(** the children of one directory change *)
Lemma dirs_stay_children (w w' : world) (q : Z) (oq : directory) (c : gmap Z Z) :
  w_dirs w !! q = Some oq -> w_dirs w' = <[q := set_do_children c oq]> (w_dirs w) -> dirs_stay w w'.
Proof.
  intros Hq E d o Ho. rewrite E. destruct (decide (q = d)) as [<-|].
  - rewrite lookup_insert_eq. simplify_eq. by eexists.
  - rewrite lookup_insert_ne by done. by exists o.
Qed.

Section DirOps.
Context `{Env}.

(** a directory object with its record that is not in the maps *)
Record unlinked (w : world) (d : Z) (o : directory) (name : bytes) : Prop := {
  un_obj : w_dirs w !! d = Some o;
  un_meta : exists m, w_dirmeta w !! do_meta o = Some m /\ dm_dh m = do_meta o /\
    meta_dir_name m = name /\ dm_used m = true;
  un_free : do_meta o ∉ dh_free (w_dh w);
  un_dhs : dh_created_dhs (w_dh w) !! do_meta o = None;
  un_dirs : forall p, dh_created_dirs (w_dh w) !! p <> Some d;
  un_children : do_children o = ∅
}.

(** a new one *)
Record pending (w : world) (d dh : Z) (name : bytes) : Prop := {
  pe_obj : w_dirs w !! d = Some (MkDirectory dh ∅ ∅ 0);
  pe_meta : exists m, w_dirmeta w !! dh = Some m /\ dm_dh m = dh /\ meta_dir_name m = name /\
    dm_used m = true;
  pe_free : dh ∉ dh_free (w_dh w);
  pe_dhs : dh_created_dhs (w_dh w) !! dh = None;
  pe_dirs : forall p, dh_created_dirs (w_dh w) !! p <> Some d
}.

Lemma pending_unlinked (w : world) (d dh : Z) (name : bytes) :
  pending w d dh name -> unlinked w d (MkDirectory dh ∅ ∅ 0) name.
Proof. intros []. by constructor. Qed.

Definition new_dir_meta (dh time : Z) (name : bytes) (m : DirMeta) : DirMeta :=
  set_dm_ctime time (set_dm_mtime time (set_dm_atime time
    (set_dir_name name (set_dm_dh dh (set_dm_used true m))))).

Lemma new_dir_meta_wf (dh time : Z) (name : bytes) (m : DirMeta) :
  dir_wf m -> in_u 64 dh -> in_i 64 time -> dir_wf (new_dir_meta dh time name m).
Proof.
  intros [] ??. constructor; try done. cbn. rewrite copy_name_length. done.
Qed.

Lemma created_dhs_not_free (w : world) (i d : Z) :
  dir_tree w -> dh_created_dhs (w_dh w) !! i = Some d -> i ∉ dh_free (w_dh w).
Proof.
  intros Ht Hi. destruct (dt_dhs _ Ht _ _ Hi) as (p & o & Hp & Ho & <-).
  destruct (dt_created _ Ht _ _ Hp) as (o' & m & Ho' & _ & _ & _ & _ & Hf & _). by simplify_eq.
Qed.

(** the world of a directory that [NewFreeDirectoryNolock] made *)
Lemma new_dir_tree (w : world) (dh : Z) (free : list Z) (m : DirMeta) (name : bytes) :
  dir_tree w -> in_i 64 (w_now w) -> sb_max_file_num (w_super w) < 2 ^ 31 ->
  dh_free (w_dh w) = dh :: free -> w_dirmeta w !! dh = Some m ->
  0 ∉ name -> (length name < 768)%nat ->
  let w' := set_w_dh (set_dh_free free (w_dh w))
    (set_w_dirmeta (<[dh := new_dir_meta dh (w_now w) name m]> (w_dirmeta w))
    (set_w_next (w_next w + 1)
    (set_w_dirs (<[w_next w := MkDirectory dh ∅ ∅ 0]> (w_dirs w)) w))) in
  dir_tree w' /\ pending w' (w_next w) dh name.
Proof.
  intros Ht Hnow Hmax Hfr Hm Hname Hlen w'. pose proof Ht as [Hok [Hnd Hfree] Hcr Hdhs Hnx Hpa Hch Hit].
  rewrite Hfr in Hnd, Hfree. apply NoDup_cons in Hnd as [Hnin Hnd].
  assert (Hrange : 0 <= dh < sb_max_file_num (w_super w)) by (apply (dmo_dom _ Hok); by eexists).
  set (m' := new_dir_meta dh (w_now w) name m) in *.
  assert (Hwf : dir_wf m').
  { apply new_dir_meta_wf; [by apply (dmo_wf _ Hok dh)|unfold in_u; lia|done]. }
  assert (Hfresh : forall d, is_Some (w_dirs w !! d) -> d <> w_next w) by (intros d Hd%Hnx; lia).
  assert (Hobj : forall d o, w_dirs w !! d = Some o ->
    w_dirs w' !! d = Some o) by (intros d o Hd; cbn; rewrite lookup_insert_ne; [done|];
    apply not_eq_sym, Hfresh; by eexists).
  assert (Hobj' : forall d o, d <> w_next w -> w_dirs w' !! d = Some o -> w_dirs w !! d = Some o)
    by (intros d o Hd; cbn; by rewrite lookup_insert_ne).
  assert (Hcre : forall p d, dh_created_dirs (w_dh w) !! p = Some d -> d <> w_next w).
  { intros p d (o & _ & Ho & _)%Hcr. apply Hfresh. by eexists. }
  split; [constructor|constructor].
  - pose proof (dirmeta_ok_insert w dh m' Hok ltac:(by eexists) Hwf) as []. by constructor.
  - split; [done|]. intros i Hi. cbn. rewrite lookup_insert_ne by (intros <-; done).
    apply Hfree. by right.
  - intros p d Hd. destruct (Hcr p d Hd) as (o & x & Ho & Hx & Hx1 & Hx2 & Hx3 & Hx4 & Hx5).
    rewrite Hfr in Hx4. exists o, x. split_and!; try done; [by apply Hobj| |set_solver].
    cbn. rewrite lookup_insert_ne; [done|]. intros Heq. rewrite <- Heq in Hx4. set_solver.
  - intros i d Hd. destruct (Hdhs i d Hd) as (p & o & Hp & Ho & <-). exists p, o.
    split_and!; try done. by apply Hobj.
  - intros d. cbn. intros [Hd|[_ Hd]]%lookup_insert_is_Some; [lia|]. apply Hnx in Hd. lia.
  - intros p d o Hd Ho%Hobj' Hp; [|by eapply Hcre].
    destruct (Hpa p d o Hd Ho Hp) as (q & oq & Hq & Hoq & Hc). exists q, oq. split_and!; try done.
    by apply Hobj.
  - intros q oq i c [p Hq] Hoq%Hobj' Hc; [|by eapply Hcre].
    destruct (Hch q oq i c (ex_intro _ p Hq) Hoq Hc) as (p' & o & Hp' & Hne & Hpar & Ho & Hi).
    exists p', o. split_and!; try done. by apply Hobj.
  - intros d o i. cbn. intros [[_ <-]|[_ Hd]]%lookup_insert_Some; [by intros [? [=]]|by apply (Hit d)].
  - cbn. by rewrite lookup_insert_eq.
  - exists m'. cbn. rewrite lookup_insert_eq. split_and!; try done.
    unfold meta_dir_name. cbn. by apply cstr_copy_name.
  - done.
  - cbn. destruct (dh_created_dhs (w_dh w) !! dh) as [c|] eqn:Hc; [|done].
    apply (created_dhs_not_free w) in Hc; [|done]. rewrite Hfr in Hc. set_solver.
  - intros p Hp. cbn in Hp. by apply Hcre in Hp.
Qed.

Lemma dir_tree_dirs_ok (w : world) : dir_tree w -> dirs_ok w.
Proof.
  intros Ht i d Hi. destruct (dt_dhs _ Ht _ _ Hi) as (p & o & _ & Ho & _). by eexists.
Qed.

Lemma dir_step_intro (w : world) h m n d :
  let w' := set_w_dh h (set_w_dirmeta m (set_w_next n (set_w_dirs d w))) in
  dirs_ok w' -> dir_step w w'.
Proof. intros w' Hw'. constructor; [constructor; [by constructor|done..]|done..]. Qed.

Lemma dir_step_errno (w : world) (e : Z) : dir_tree w -> dir_step w (set_w_errno e w).
Proof.
  intros Ht%dir_tree_dirs_ok. constructor; [constructor; [by constructor|done..]|done..].
Qed.

(** *** Entering a new directory into the maps *)

Lemma attach_tree (w : world) (d q : Z) (o oq : directory) (name : bytes) :
  dir_tree w -> unlinked w d o name -> dh_created_dirs (w_dh w) !! name = None ->
  name <> [slash] -> dh_created_dirs (w_dh w) !! GetDirName name = Some q ->
  w_dirs w !! q = Some oq ->
  let h := w_dh w in
  dir_tree (set_w_dh (set_dh_created_dhs (<[do_meta o := d]> (dh_created_dhs h))
                       (set_dh_created_dirs (<[name := d]> (dh_created_dirs h)) h))
    (set_w_dirs (<[q := set_do_children (<[do_meta o := d]> (do_children oq)) oq]> (w_dirs w)) w)).
Proof.
  intros Ht [Hob (m & Hm & Hmdh & Hmn & Hmu) Hfr Hdn Hdirs Hemp] Hnew Hne Hq Hoq h.
  set (dh := do_meta o) in *.
  pose proof Ht as [Hok Hfree Hcr Hdhs Hnx Hpa Hch Hit].
  assert (Hqd : q <> d) by (intros <-; by apply (Hdirs (GetDirName name))).
  set (oq' := set_do_children _ oq).
  assert (Hobj : forall c x, w_dirs w !! c = Some x -> exists x',
    <[q := oq']> (w_dirs w) !! c = Some x' /\ do_meta x' = do_meta x /\
    (c <> q -> x' = x)).
  { intros c x Hc. destruct (decide (q = c)) as [<-|].
    - exists oq'. rewrite lookup_insert_eq. simplify_eq. done.
    - exists x. by rewrite lookup_insert_ne. }
  assert (Hdne : forall p c, dh_created_dirs (w_dh w) !! p = Some c -> p <> name)
    by (intros p c Hp ->; congruence).
  constructor.
  - destruct Hok. by constructor.
  - done.
  - intros p c. cbn. intros [[<- <-]|[Hp Hc]]%lookup_insert_Some.
    + exists o, m. rewrite lookup_insert_ne, lookup_insert_eq by done. done.
    + destruct (Hcr p c Hc) as (y & x & Ho & Hx & Hx1 & Hx2 & Hx3 & Hx4 & Hx5).
      destruct (Hobj c y Ho) as (o' & Ho' & He & _). exists o', x. rewrite He. split_and!; try done.
      rewrite lookup_insert_ne; [done|]. intros Heq. rewrite Heq in Hdn. congruence.
  - intros i c. cbn. intros [[<- <-]|[Hi Hc]]%lookup_insert_Some.
    + exists name, o. rewrite lookup_insert_eq, lookup_insert_ne by done. done.
    + destruct (Hdhs i c Hc) as (p & y & Hp & Ho & <-). destruct (Hobj c y Ho) as (o' & Ho' & He & _).
      exists p, o'. rewrite He, lookup_insert_ne by (by apply not_eq_sym, (Hdne p c)). done.
  - intros c. cbn. intros [<-|[_ Hc]]%lookup_insert_is_Some; apply Hnx; [by eexists|done].
  - intros p c y. cbn. intros [[<- <-]|[Hp Hc]]%lookup_insert_Some Ho Hps.
    + rewrite lookup_insert_ne in Ho by done. simplify_eq. exists q, oq'.
      rewrite lookup_insert_ne by (by apply not_eq_sym, (Hdne _ q)).
      split; [done|]. split; [by rewrite lookup_insert_eq|]. cbn. by rewrite lookup_insert_eq.
    + assert (Ho2 : exists o2, w_dirs w !! c = Some o2 /\ do_meta o2 = do_meta y).
      { destruct (decide (q = c)) as [<-|].
        - rewrite lookup_insert_eq in Ho. simplify_eq. by exists oq.
        - rewrite lookup_insert_ne in Ho by done. by exists y. }
      destruct Ho2 as (o2 & Ho2 & <-). destruct (Hpa p c o2 Hc Ho2 Hps) as (r & orr & Hr & Hor & Hch').
      exists r. rewrite lookup_insert_ne by (by apply not_eq_sym, (Hdne _ r)).
      destruct (decide (q = r)) as [<-|].
      * exists oq'. rewrite lookup_insert_eq. simplify_eq. split_and!; try done. cbn.
        rewrite lookup_insert_ne; [done|]. intros Heq.
        destruct (Hcr p c Hc) as (o3 & x & Ho3 & _ & _ & _ & _ & _ & Hx5). simplify_eq. congruence.
      * exists orr. by rewrite lookup_insert_ne.
  - intros r orr i c [p Hp] Ho Hc. cbn in Hp, Ho.
    assert (Hcase : (r = q /\ i = dh /\ c = d) \/
      exists o2, w_dirs w !! r = Some o2 /\ do_children o2 !! i = Some c /\ r <> d).
    { destruct (decide (q = r)) as [<-|].
      - rewrite lookup_insert_eq in Ho. simplify_eq. cbn in Hc.
        apply lookup_insert_Some in Hc as [[<- <-]|[_ Hc]]; [by left|]. right. by exists oq.
      - rewrite lookup_insert_ne in Ho by done. right. exists orr. split_and!; try done.
        intros ->. rewrite Hob in Ho. injection Ho as <-. by rewrite Hemp in Hc. }
    destruct Hcase as [(-> & -> & ->)|(o2 & Ho2 & Hc2 & Hrd)].
    + exists name, o. cbn.
      rewrite lookup_insert_eq, !lookup_insert_ne by (done || by apply not_eq_sym, (Hdne _ q)).
      done.
    + apply lookup_insert_Some in Hp as [[_ ->]|[_ Hp]]; [done|].
      destruct (Hch r o2 i c (ex_intro _ p Hp) Ho2 Hc2) as (p' & y & Hp' & Hps & Hpar & Ho' & <-).
      destruct (Hobj c y Ho') as (o' & Ho'' & He & _). exists p', o'. cbn.
      rewrite !lookup_insert_ne by (apply not_eq_sym; by eapply Hdne). done.
  - intros c y i. cbn. intros [[_ <-]|[_ Hc]]%lookup_insert_Some; [by apply (Hit q oq)|by apply (Hit c)].
Qed.

Lemma attach_root (w : world) (d dh : Z) :
  dir_tree w -> pending w d dh [slash] -> dh_created_dirs (w_dh w) !! [slash] = None ->
  let h := w_dh w in
  dir_tree (set_w_dh (set_dh_created_dhs (<[dh := d]> (dh_created_dhs h))
                       (set_dh_created_dirs (<[[slash] := d]> (dh_created_dirs h)) h)) w).
Proof.
  intros Ht [Hob (m & Hm & Hmdh & Hmn & Hmu) Hfr Hdn Hdirs] Hnew h.
  pose proof Ht as [Hok Hfree Hcr Hdhs Hnx Hpa Hch Hit].
  assert (Hdne : forall p c, dh_created_dirs (w_dh w) !! p = Some c -> p <> [slash])
    by (intros p c Hp ->; congruence).
  constructor; try done.
  - by destruct Hok.
  - intros p c. cbn. intros [[<- <-]|[Hp Hc]]%lookup_insert_Some.
    + exists (MkDirectory dh ∅ ∅ 0), m. by rewrite lookup_insert_eq.
    + destruct (Hcr p c Hc) as (o & x & Ho & Hx & Hx1 & Hx2 & Hx3 & Hx4 & Hx5). exists o, x.
      split_and!; try done. rewrite lookup_insert_ne; [done|]. intros Heq. rewrite Heq in Hdn. congruence.
  - intros i c. cbn. intros [[<- <-]|[Hi Hc]]%lookup_insert_Some.
    + exists [slash], (MkDirectory dh ∅ ∅ 0). by rewrite lookup_insert_eq.
    + destruct (Hdhs i c Hc) as (p & o & Hp & Ho & <-). exists p, o.
      rewrite lookup_insert_ne by (by apply not_eq_sym, (Hdne p c)). done.
  - intros p c o. cbn. intros [[<- <-]|[Hp Hc]]%lookup_insert_Some Ho Hps; [done|].
    destruct (Hpa p c o Hc Ho Hps) as (r & orr & Hr & Hor & Hch'). exists r, orr.
    by rewrite lookup_insert_ne by (by apply not_eq_sym, (Hdne _ r)).
  - intros r orr i c [p Hp] Ho Hc. cbn in Hp, Ho.
    apply lookup_insert_Some in Hp as [[_ <-]|[_ Hp]]; [rewrite Hob in Ho; by simplify_eq|].
    destruct (Hch r orr i c (ex_intro _ p Hp) Ho Hc) as (p' & o & Hp' & Hps & Hpar & Ho' & <-).
    exists p', o. cbn. rewrite !lookup_insert_ne by (apply not_eq_sym; by eapply Hdne). done.
Qed.

(** *** The record of a pending directory is written *)

Lemma pending_dirmeta (w w' : world) (d dh : Z) (name : bytes) (m m' : DirMeta) :
  pending w d dh name -> w_dirmeta w !! dh = Some m -> dm_dh m' = dm_dh m ->
  meta_dir_name m' = meta_dir_name m -> dm_used m' = dm_used m ->
  w_dirs w' = w_dirs w -> w_dh w' = w_dh w -> w_dirmeta w' = <[dh := m']> (w_dirmeta w) ->
  pending w' d dh name.
Proof.
  intros [Hob (x & Hx & Hx1 & Hx2 & Hx3) Hfr Hdn Hds] Hm E1 E2 E3 Ed Eh Em.
  constructor; rewrite ?Ed, ?Eh; try done. exists m'. rewrite Em, lookup_insert_eq. simplify_eq.
  split_and!; congruence.
Qed.

(** the state of a directory that is being made: what [CreateDirectory] keeps *)
Record making (w0 w : world) (d dh : Z) (name : bytes) : Prop := {
  mk_step : dir_step w0 w;
  mk_tree : dir_tree w;
  mk_pending : pending w d dh name;
  mk_dirs : dh_created_dirs (w_dh w) = dh_created_dirs (w_dh w0);
  mk_objs : forall c o, w_dirs w0 !! c = Some o -> w_dirs w !! c = Some o;
  mk_free : dh_free (w_dh w0) = dh :: dh_free (w_dh w);
  mk_dhs : dh_created_dhs (w_dh w) = dh_created_dhs (w_dh w0);
  mk_next : w_next w0 <= d < w_next w
}.

Lemma write_dir_once (w0 w : world) (d dh : Z) (name : bytes) :
  layout_ok (w_super w0) -> dev_size (w_dev w0) = sb_device_size (w_super w0) ->
  making w0 w d dh name ->
  wp (Directory_WriteMeta d) (fun ok w' => making w0 w' d dh name /\
    (dev_good w0 -> ok = true) /\ (ok = true -> dir_persisted w' dh) /\
    (dev_good w0 -> dir_written w dh w')) w.
Proof.
  intros Hl Hd [[Hs Hs1 Hs2 Hs3 Hs4 Hs5 Hs6] Ht Hp Hds Hobs Hfr Hdn Hnx]. pose proof Hs as [[] _ _ _].
  destruct (pe_meta _ _ _ _ Hp) as (m & Hm & Hmdh & Hmn & Hmu).
  eapply wp_mono; [apply (Directory_WriteMeta_wp w d (MkDirectory dh ∅ ∅ 0) m);
    [by rewrite es_super|by rewrite es_size, es_super|by apply Ht|apply Hp|done..]|].
  intros ok w' ((e & evs & st & Hw') & Hs' & Hg & Hper & Hsto). cbn [do_meta] in *.
  split_and!; [constructor|auto|done|].
  - constructor; [by etrans|rewrite Hw'; done..].
  - eapply dir_tree_ext; [..|apply (dir_tree_dirmeta w dh m (set_dm_crc (dir_crc_of m) m) Ht Hm)];
      try (rewrite Hw'; done); try done. apply dir_wf_set_crc. by apply (dmo_wf _ (dt_meta _ Ht) dh).
  - apply (pending_dirmeta w w' d dh name m (set_dm_crc (dir_crc_of m) m) Hp Hm); rewrite ?Hw'; done.
  - by rewrite Hw'.
  - intros c o Hc. rewrite Hw'. by apply Hobs.
  - by rewrite Hw'.
  - by rewrite Hw'.
  - by rewrite Hw'.
  - intros Hgood. split; [|by auto]. exists (set_dm_crc (dir_crc_of m) m). by rewrite Hw'.
Qed.

Lemma write_dir_retry_wp (n : nat) (w0 w : world) (d dh : Z) (name : bytes) :
  layout_ok (w_super w0) -> dev_size (w_dev w0) = sb_device_size (w_super w0) ->
  making w0 w d dh name ->
  wp (write_dir_retry n d) (fun ok w' => making w0 w' d dh name /\
    (dev_good w0 -> n <> 0%nat -> ok = true) /\ (ok = true -> dir_persisted w' dh) /\
    (dev_good w0 -> n <> 0%nat -> dir_written w dh w')) w.
Proof.
  intros Hl Hd. revert w. induction n as [|n IH]; intros w Hm; cbn [write_dir_retry].
  - by wp_step.
  - wp_step. eapply wp_mono; [by apply (write_dir_once w0)|]. intros [] w' (Hm' & Hg & Hp & Hw).
    + wp_step. split_and!; try done. by auto.
    + eapply wp_mono; [by apply IH|]. intros ok w'' (Hm'' & Hg' & Hp' & _). split_and!; try done;
        intros Hgood; by specialize (Hg Hgood).
Qed.

(** *** [CreateDirectory] *)

(** where the directory of path [name] belongs *)
Definition parent_of (w : world) (name : bytes) (parent : option Z) : Prop :=
  (name = [slash] /\ parent = None) \/
  (name <> [slash] /\ exists q, parent = Some q /\ dh_created_dirs (w_dh w) !! GetDirName name = Some q).

(** the directory can be made: the name and its parent's, and a free handle *)
Definition dir_room (w : world) (name : bytes) : Prop :=
  dh_created_dirs (w_dh w) !! name = None /\ dh_free (w_dh w) <> [] /\
  (name = [slash] \/ is_Some (dh_created_dirs (w_dh w) !! GetDirName name)).

Lemma NewFreeDirectory_wp (w : world) (name : bytes) :
  dir_tree w -> in_i 64 (w_now w) -> sb_max_file_num (w_super w) < 2 ^ 31 ->
  0 ∉ name -> (length name < 768)%nat ->
  wp (NewFreeDirectoryNolock name) (fun r w' =>
    match r with
    | None => dh_free (w_dh w) = [] /\ w' = set_w_errno ENFILE w
    | Some d => exists dh, making w w' d dh name /\ w_store w' = w_store w /\
        exists m, w_dirmeta w' = <[dh := m]> (w_dirmeta w)
    end) w.
Proof.
  intros Ht Hnow Hmax Hn Hl. unfold NewFreeDirectoryNolock. do 2 wp_step.
  destruct (dh_free (w_dh w)) as [|dh free] eqn:Hfr; [by repeat wp_step|].
  destruct (proj2 (dt_free _ Ht) dh) as (m & Hm & Hu & Hdh); [rewrite Hfr; by left|].
  wp_step. eapply wp_get_dirmeta; [done|]. rewrite Hu, Hdh, Z.eqb_refl. cbn [negb orb].
  unfold fresh. do 4 wp_step. wp_step. wp_step. wp_step. apply wp_put_dir. do 2 wp_step. wp_step.
  eapply wp_upd_dir_meta; [cbn; by rewrite lookup_insert_eq|exact Hm|]. do 3 wp_step. cbn [do_meta].
  destruct (new_dir_tree w dh free m name Ht Hnow Hmax Hfr Hm Hn Hl) as [Ht' Hp'].
  exists dh. split; [|split; [done|by eexists]].
  assert (Hw : forall w1 w2, w1 = w2 -> making w w2 (w_next w) dh name -> making w w1 (w_next w) dh name)
    by (by intros ?? ->).
  eapply Hw; [|constructor; [|exact Ht'|exact Hp'|done|..]].
  - by replace free with (tail (dh_free (w_dh w))) by by rewrite Hfr.
  - by apply dir_step_intro, dir_tree_dirs_ok.
  - intros c o Hc. cbn. rewrite lookup_insert_ne; [done|].
    intros <-. pose proof (dt_next _ Ht (w_next w) ltac:(by eexists)). lia.
  - by rewrite Hfr.
  - done.
  - cbn. lia.
Qed.


(** the parent lookup of [NewDirectory] *)
Lemma new_dir_parent_run (w : world) (name : bytes) :
  dh_created_dirs (w_dh w) !! name = None ->
  exists r, looks_up
    (if IsMountPoint name then ret (Some None)
     else match dh_created_dirs (w_dh w) !! GetDirName name with
          | None => set_errno ENOENT ;; ret None
          | Some p => ret (Some (Some p))
          end) w r /\
    match r with
    | None => ~ (name = [slash] \/ is_Some (dh_created_dirs (w_dh w) !! GetDirName name))
    | Some parent => parent_of w name parent
    end.
Proof.
  intros Hn. unfold IsMountPoint. destruct (decide (name = [slash])) as [->|Hne].
  - exists (Some None). rewrite bool_decide_true by done. split; [apply looks_up_ret|by left].
  - rewrite bool_decide_false by done.
    destruct (dh_created_dirs (w_dh w) !! GetDirName name) as [q|] eqn:Hq.
    + exists (Some (Some q)). split; [apply looks_up_ret|]. right. split; [done|]. by exists q.
    + exists None. split; [apply looks_up_errno|]. intros [?|[? [=]]]; done.
Qed.

Lemma NewDirectory_wp (w : world) (name : bytes) :
  dir_tree w -> in_i 64 (w_now w) -> sb_max_file_num (w_super w) < 2 ^ 31 ->
  0 ∉ name -> (length name < 768)%nat ->
  wp (NewDirectory name) (fun r w' =>
    match r with
    | None => (~ dir_room w name) /\ exists e, w' = set_w_errno e w
    | Some (parent, d) => exists e dh, making (set_w_errno e w) w' d dh name /\
        dh_created_dirs (w_dh w) !! name = None /\ parent_of w name parent /\
        w_store w' = w_store w /\ exists m, w_dirmeta w' = <[dh := m]> (w_dirmeta w)
    end) w.
Proof.
  intros Ht Hnow Hmax Hn Hl. unfold NewDirectory. do 2 wp_step. case_decide as Hex.
  { repeat wp_step. split; [|by exists EEXIST]. intros [Hnone _]. rewrite Hnone in Hex. by destruct Hex. }
  apply eq_None_not_Some in Hex. wp_step.
  destruct (new_dir_parent_run w name Hex) as (r & Hlk & Hr).
  eapply looks_up_wp; [exact Hlk|]. intros e. destruct r as [parent|].
  - wp_step. eapply wp_mono; [apply (NewFreeDirectory_wp (set_w_errno e w)); try done;
      by apply (dir_tree_ext w)|].
    intros [d|] w'; [intros (dh & Hmk & ? & ?)|intros [Hfree ->]]; wp_step; [by exists e, dh|].
    split; [|by exists ENFILE]. by intros (_ & ? & _).
  - wp_step. split; [|by exists e]. intros (_ & _ & ?). by apply Hr.
Qed.

Lemma AddDirectory_wp (w0 w : world) (d dh : Z) (name : bytes) (parent : option Z) :
  making w0 w d dh name -> dir_tree w0 -> dh_created_dirs (w_dh w0) !! name = None ->
  parent_of w0 name parent ->
  wp (AddDirectory parent d) (fun ok w' => ok = true /\ dir_step w0 w' /\ dir_tree w' /\
    dh_created_dirs (w_dh w') = <[name := d]> (dh_created_dirs (w_dh w0)) /\
    w_dirs w' !! d = Some (MkDirectory dh ∅ ∅ 0) /\
    w_dirmeta w' = w_dirmeta w /\ w_store w' = w_store w /\ w_super w' = w_super w /\
    dirs_stay w w' /\ dh_free (w_dh w') = dh_free (w_dh w) /\ w_next w' = w_next w /\
    dh_created_dhs (w_dh w') = <[dh := d]> (dh_created_dhs (w_dh w))) w.
Proof.
  intros [Hs Ht Hp Hds Hobs _ _ _] Ht0 Hnew Hpar. destruct (pe_meta _ _ _ _ Hp) as (m & Hm & Hmdh & Hmn & Hmu).
  pose proof (pe_obj _ _ _ _ Hp) as Hob. pose proof (pe_dhs _ _ _ _ Hp) as Hdn.
  unfold AddDirectory. wp_step. eapply (wp_dir_name d _ m); [done..|]. rewrite Hmn.
  assert (Hfin : forall w1, dir_tree w -> w_dh w1 = w_dh w -> w_dirmeta w1 = w_dirmeta w ->
    w_dirs w1 !! d = Some (MkDirectory dh ∅ ∅ 0) ->
    AddDirectory2CreateNolock d w1 = Done true
      (set_w_dh (set_dh_created_dhs (<[dh := d]> (dh_created_dhs (w_dh w)))
         (set_dh_created_dirs (<[name := d]> (dh_created_dirs (w_dh w))) (w_dh w))) w1)).
  { intros w1 _ Eh Em Eo. unfold AddDirectory2CreateNolock, Directory_dir_name.
    erewrite bind_run; [|unfold dir_meta, get_dir, get_dirmeta, bind, gets; rewrite Eo; cbn;
      rewrite Em, Hm; reflexivity].
    erewrite bind_run; [|apply (Directory_dh_run _ _ (MkDirectory dh ∅ ∅ 0) m); [done|by rewrite Em]].
    unfold bind, gets. rewrite Hmn, Hmdh, Eh, Hds, Hnew, Hdn.
    rewrite !decide_False by (by intros [? [=]]). done. }
  destruct Hpar as [[-> ->]|(Hne & q & -> & Hq)].
  - change (IsMountPoint [slash]) with true. cbn [negb]. do 2 wp_step. cbn [negb]. wp_step.
    eapply wp_run; [by apply Hfin|]. cbn [negb]. wp_step.
    pose proof (attach_root w d dh Ht Hp ltac:(by rewrite Hds)) as Htr. cbn zeta in Htr.
    split_and!; try done; [|by cbn; rewrite Hds|by apply dirs_stay_same]. etrans; [exact Hs|].
    by apply (dir_step_intro w _ (w_dirmeta w) (w_next w) (w_dirs w)), dir_tree_dirs_ok.
  - unfold IsMountPoint. rewrite bool_decide_false by done. cbn [negb].
    destruct (dt_created _ Ht0 _ _ Hq) as (oq & mq & Hoq & _). apply Hobs in Hoq.
    do 2 wp_step. wp_step; [done|]. unfold AddChildDirectory. wp_step.
    eapply wp_run; [by apply (Directory_dh_run _ _ (MkDirectory dh ∅ ∅ 0) m)|]. rewrite Hmdh.
    wp_step. eapply wp_get_dir; [done|].
    rewrite decide_False.
    2:{ intros [c Hc]. destruct (dt_children _ Ht q oq dh c) as (p' & o' & Hp' & _ & _ & Ho' & Hi'); try done.
        { exists (GetDirName name). by rewrite Hds. }
        destruct (dt_created _ Ht _ _ Hp') as (o2 & m2 & Ho2 & _ & _ & _ & _ & _ & Hdhs2).
        simplify_eq. congruence. }
    wp_step. apply wp_put_dir. wp_step. cbn [negb]. wp_step.
    assert (Hqd : q <> d). { intros ->. apply (pe_dirs _ _ _ _ Hp (GetDirName name)). by rewrite Hds. }
    eapply wp_run; [apply Hfin; try done; cbn; by rewrite lookup_insert_ne|]. cbn [negb]. wp_step.
    pose proof (attach_tree w d q (MkDirectory dh ∅ ∅ 0) oq name Ht (pending_unlinked _ _ _ _ Hp)
      ltac:(by rewrite Hds) Hne ltac:(by rewrite Hds) Hoq) as Htr. cbn zeta in Htr.
    split_and!; try done; [|by cbn; rewrite Hds|by cbn; rewrite lookup_insert_ne|
      by apply (dirs_stay_children _ _ q oq (<[dh := d]> (do_children oq)))].
    etrans; [exact Hs|]. by apply (dir_step_intro w _ (w_dirmeta w) (w_next w)), dir_tree_dirs_ok.
Qed.

(** what else is known of the new directory: its handle was the first free one, and
    every other directory is as before *)
Definition dir_made (w : world) (path : bytes) (w' : world) : Prop :=
  exists name d dh, dir_key path = Some name /\ no_file w path true = true /\ dir_room w name /\
    dh_created_dirs (w_dh w') = <[name := d]> (dh_created_dirs (w_dh w)) /\
    dh_created_dhs (w_dh w') = <[dh := d]> (dh_created_dhs (w_dh w)) /\
    w_dirs w' !! d = Some (MkDirectory dh ∅ ∅ 0) /\
    dh_free (w_dh w) = dh :: dh_free (w_dh w') /\ w_next w <= d < w_next w' /\ dirs_stay w w' /\
    (dev_good w -> dir_written w dh w').

(** what a creation of a directory comes to *)
Record create_dir_post (w : world) (path : bytes) (r : Z) (w' : world) : Prop := {
  cd_step : dir_step w w';
  cd_tree : dir_tree w';
  cd_result : r = 0 \/ (r = -1 /\ dh_created_dirs (w_dh w') = dh_created_dirs (w_dh w));
  cd_made : r = 0 -> exists name d dh, dir_key path = Some name /\
    dh_created_dirs (w_dh w) !! name = None /\
    dh_created_dirs (w_dh w') = <[name := d]> (dh_created_dirs (w_dh w)) /\
    w_dirs w' !! d = Some (MkDirectory dh ∅ ∅ 0) /\ dir_persisted w' dh;
  cd_good : dev_good w -> no_file w path true = true ->
    (exists name, dir_key path = Some name /\ dir_room w name) -> r = 0;
  cd_frame : r = 0 -> dir_made w path w';
  cd_refused : dev_good w -> r <> 0 -> exists e, w' = set_w_errno e w
}.

Lemma create_dir_refuse (w : world) (path : bytes) (e : Z) :
  dir_tree w ->
  ~ (no_file w path true = true /\ exists name, dir_key path = Some name /\ dir_room w name) ->
  create_dir_post w path (-1) (set_w_errno e w).
Proof.
  intros Ht Hno. constructor; [by apply dir_step_errno|..]; try done.
  - by apply (dir_tree_ext w).
  - by right.
  - intros _ ??. by destruct Hno.
  - intros _ _. by exists e.
Qed.

Lemma dir_key_some (path name : bytes) :
  dir_key path = Some name -> 0 ∉ path -> 0 ∉ name /\ (length name < 768)%nat.
Proof.
  unfold dir_key. set (p := if ends_with_slash path then path else path ++ [slash]).
  change kBlockFsMaxDirNameLen with 768. cbv zeta.
  destruct (Z.leb_spec 768 (Z.of_nat (length p))); [done|]. intros [= <-] Hp. split; [|lia].
  unfold p. destruct (ends_with_slash path); [done|]. rewrite not_elem_of_app. split; [done|].
  apply not_elem_of_cons. split; [done|apply not_elem_of_nil].
Qed.

Lemma CreateDirectory_wp (w : world) (path : bytes) :
  layout_ok (w_super w) -> dev_size (w_dev w) = sb_device_size (w_super w) ->
  in_i 64 (w_now w) -> dir_tree w -> 0 ∉ path ->
  wp (CreateDirectory path) (create_dir_post w path) w.
Proof.
  intros Hl Hd Hnow Ht Hp. unfold CreateDirectory. wp_step.
  eapply looks_up_wp; [by apply CheckFileExist_run|]. intros e1.
  destruct (no_file w path true) eqn:Hnf; cbn [negb].
  2:{ wp_step. apply create_dir_refuse; [done|]. rewrite Hnf. by intros []. }
  wp_step. eapply looks_up_wp; [apply dir_TransformPath_run|]. intros e2.
  destruct (dir_key path) as [name|] eqn:Hkey.
  2:{ wp_step. apply (create_dir_refuse w path e2); [done|]. rewrite Hkey. by intros (_ & ? & [=] & _). }
  destruct (dir_key_some _ _ Hkey Hp) as [Hn0 Hnl]. pose proof (lo_max_file _ Hl). wp_step.
  eapply wp_mono; [apply (NewDirectory_wp (set_w_errno e2 w)); try done; try (cbn; lia);
    by apply (dir_tree_ext w)|].
  intros [[parent d]|] w1.
  2:{ intros (Hno & e & ->). wp_step. apply (create_dir_refuse w path e); [done|]. rewrite Hkey.
      intros (_ & nm & [= <-] & Hr). by apply Hno. }
  intros (e & dh & Hmk & Hnew & Hpar & Hst1 & m1 & Hdm1). wp_step.
  eapply wp_mono; [by apply (write_dir_retry_wp 3 (set_w_errno e w))|].
  intros ok w2 (Hmk2 & Hg & Hper & Hwr). pose proof Hmk2 as [Hs2 Ht2 _ Hds2 Hobs2 Hfr2 Hdn2 Hnx2].
  assert (He : dir_step w (set_w_errno e w)) by by apply dir_step_errno.
  destruct ok; cbn [negb].
  2:{ wp_step. constructor; try done; [by etrans|by right|..].
      - intros Hgood _ _. by discriminate (Hg Hgood).
      - intros Hgood. by discriminate (Hg Hgood). }
  wp_step. eapply wp_mono; [apply (AddDirectory_wp (set_w_errno e w) w2 d dh name parent Hmk2);
    [by apply (dir_tree_ext w)|done|done]|].
  intros ok w3 (-> & Hs3 & Ht3 & Hds3 & Ho3 & Hm3 & Hst3 & Hsup3 & Hstay3 & Hfr3 & Hnx3 & Hdn3). cbn [negb]. unfold set_errno. do 3 wp_step.
  constructor.
  - etrans; [exact He|]. etrans; [exact Hs3|]. by apply dir_step_errno.
  - by apply (dir_tree_ext w3).
  - by left.
  - intros _. exists name, d, dh. split_and!; try done.
    destruct (Hper eq_refl) as (m & Hm & Hcrc & Hdec). exists m.
    cbn. rewrite Hm3. unfold w_store in *. cbn. rewrite Hst3, Hsup3. done.
  - done.
  - intros _. cbn in Hfr2. exists name, d, dh.
    assert (Hroom : dir_room w name).
    { split_and!; [done|by rewrite Hfr2|]. destruct Hpar as [[-> _]|(_ & q & _ & Hq)]; [by left|right].
      by exists q. }
    split_and!; try done; try (cbn in *; by rewrite ?Hdn3, ?Hdn2); try (cbn in *; rewrite ?Hfr3; done);
      try (cbn in *; lia).
    + intros c o Hc. by apply Hstay3, Hobs2.
    + intros Hgood. destruct (Hwr Hgood ltac:(done)) as [(m2 & Hdm2 & Hc2 & Hh2) Hsto2].
      assert (Es1 : w_super w1 = w_super w) by apply (es_super _ _ (ms_env _ _ (ds_meta_step _ _ (mk_step _ _ _ _ _ Hmk)))).
      split.
      * exists m2. cbn. by rewrite Hm3, Hdm2, Hdm1, insert_insert_eq.
      * unfold dir_stored in *. rewrite Hst1, Es1 in Hsto2. cbn. rewrite Hm3. unfold w_store in *. cbn.
        by rewrite Hst3.
  - done.
Qed.

(** *** [DeleteDirectory] *)

Lemma size_keys {A} (m : gmap Z A) (n : Z) :
  0 <= n -> (forall i, is_Some (m !! i) -> 0 <= i < n) -> Z.of_nat (size m) <= n.
Proof.
  intros Hn Hk. rewrite <- size_dom.
  assert (Hsub : dom m ⊆ list_to_set (seqZ 0 n)).
  { intros i Hi%elem_of_dom%Hk. apply elem_of_list_to_set, elem_of_seqZ. lia. }
  apply subseteq_size in Hsub. rewrite size_list_to_set in Hsub by apply NoDup_seqZ.
  rewrite length_seqZ in Hsub. lia.
Qed.

(** nothing in the directory, and no stream open on it *)
Definition dir_idle (o : directory) : Prop :=
  do_items o = ∅ /\ do_children o = ∅ /\ u32 (do_nlink o) = 0.

Lemma dir_busy_run (w : world) (p : bytes) (d : Z) (o : directory) :
  dir_tree w -> sb_max_file_num (w_super w) < 2 ^ 31 -> 0 <= sb_max_file_num (w_super w) ->
  dh_created_dirs (w_dh w) !! p = Some d -> w_dirs w !! d = Some o ->
  exists b, looks_up (dir_busy d) w b /\ (b = false <-> dir_idle o).
Proof.
  intros Ht Hmax Hmin Hp Ho.
  assert (Hi : Z.of_nat (size (do_items o)) <= sb_max_file_num (w_super w)).
  { apply size_keys; [done|]. intros i Hi. by apply (dt_items _ Ht d o). }
  assert (Hc : Z.of_nat (size (do_children o)) <= sb_max_file_num (w_super w)).
  { apply size_keys; [done|]. intros i [c Hc].
    destruct (dt_children _ Ht d o i c (ex_intro _ p Hp) Ho Hc) as (p' & o' & Hp' & _ & _ & Ho' & <-).
    destruct (dt_created _ Ht _ _ Hp') as (o2 & m2 & Ho2 & Hm2 & _). simplify_eq.
    apply (dmo_dom _ (dt_meta _ Ht)). by eexists. }
  exists (negb ((Z.of_nat (size (do_items o)) + Z.of_nat (size (do_children o)) =? 0)
          && (u32 (do_nlink o) =? 0))). split.
  - unfold dir_busy, Directory_ChildCount, Directory_LinkCount.
    eapply looks_up_run; [unfold get_dir, bind, gets; rewrite Ho; reflexivity|].
    rewrite wrap_small by lia.
    destruct (Z.ltb_spec 0 (Z.of_nat (size (do_items o)) + Z.of_nat (size (do_children o)))).
    + destruct (Z.eqb_spec (Z.of_nat (size (do_items o)) + Z.of_nat (size (do_children o))) 0); [lia|].
      apply looks_up_errno.
    + destruct (Z.eqb_spec (Z.of_nat (size (do_items o)) + Z.of_nat (size (do_children o))) 0); [|lia].
      eapply looks_up_run; [unfold get_dir, bind, gets; rewrite Ho; reflexivity|].
      pose proof (wrap_bound 32 (do_nlink o) ltac:(lia)).
      destruct (Z.ltb_spec 0 (u32 (do_nlink o))), (Z.eqb_spec (u32 (do_nlink o)) 0); try lia;
        [apply looks_up_errno|apply looks_up_ret].
  - unfold dir_idle. rewrite negb_false_iff, andb_true_iff, !Z.eqb_eq.
    rewrite <- !map_size_empty_iff. intuition lia.
Qed.

(** the directory leaves the maps and its parent's children *)
Lemma detach_tree (w : world) (d q : Z) (o oq : directory) (name : bytes) (m' : DirMeta) :
  dir_tree w -> dh_created_dirs (w_dh w) !! name = Some d -> w_dirs w !! d = Some o ->
  do_children o = ∅ -> q <> d -> name <> [slash] ->
  dh_created_dirs (w_dh w) !! GetDirName name = Some q -> w_dirs w !! q = Some oq ->
  dir_wf m' ->
  let h := w_dh w in
  dir_tree (set_w_dh (set_dh_created_dhs (delete (do_meta o) (dh_created_dhs h))
                       (set_dh_created_dirs (delete name (dh_created_dirs h)) h))
    (set_w_dirs (<[q := set_do_children (delete (do_meta o) (do_children oq)) oq]> (w_dirs w))
    (set_w_dirmeta (<[do_meta o := m']> (w_dirmeta w)) w))).
Proof.
  intros Ht Hd Ho Hempty Hqd Hne Hq Hoq Hwf h.
  pose proof Ht as [Hok [Hnd Hfree] Hcr Hdhs Hnx Hpa Hch Hit].
  destruct (Hcr name d Hd) as (o0 & m & Ho0 & Hm & Hmdh & Hmn & Hmu & Hmf & Hdn). simplify_eq.
  clear Hmdh. set (oq' := set_do_children _ oq). set (dh := do_meta o) in *.
  assert (Hobj : forall c x, w_dirs w !! c = Some x -> exists x',
    <[q := oq']> (w_dirs w) !! c = Some x' /\ do_meta x' = do_meta x /\ do_items x' = do_items x).
  { intros c x Hc. destruct (decide (q = c)) as [<-|].
    - exists oq'. rewrite lookup_insert_eq. simplify_eq. done.
    - exists x. by rewrite lookup_insert_ne. }
  assert (Hobj' : forall c x', <[q := oq']> (w_dirs w) !! c = Some x' -> exists x,
    w_dirs w !! c = Some x /\ do_meta x' = do_meta x /\ do_items x' = do_items x /\
    do_children x' = (if decide (c = q) then delete dh (do_children x) else do_children x)).
  { intros c x' Hc. destruct (decide (q = c)) as [<-|].
    - rewrite lookup_insert_eq in Hc. simplify_eq. exists oq. rewrite decide_True by done. done.
    - rewrite lookup_insert_ne in Hc by done. exists x'. rewrite decide_False by done. done. }
  (* another directory has another object and another handle *)
  assert (Hother : forall p c x, dh_created_dirs (w_dh w) !! p = Some c -> w_dirs w !! c = Some x ->
    p <> meta_dir_name m -> c <> d /\ do_meta x <> dh).
  { intros p c x Hp Hx Hpn. assert (c <> d) by (intros ->; by apply Hpn, (dir_tree_inj w p _ d)).
    split; [done|]. intros Heq. destruct (Hcr p c Hp) as (x' & ? & Hx' & _ & _ & _ & _ & _ & Hc').
    rewrite Hx in Hx'. injection Hx' as <-. rewrite Heq in Hc'. congruence. }
  constructor.
  - pose proof (dirmeta_ok_insert w dh m' Hok ltac:(by eexists) Hwf) as []. by constructor.
  - split; [done|]. intros i Hi. cbn. rewrite lookup_insert_ne by (intros <-; done). by apply Hfree.
  - intros p c. cbn. intros [Hpn Hp]%lookup_delete_Some.
    destruct (Hcr p c Hp) as (x & mx & Hx & Hmx & H1 & H2 & H3 & H4 & H5).
    destruct (Hother p c x Hp Hx ltac:(done)) as [Hcd Hxd].
    destruct (Hobj c x Hx) as (x' & Hx' & He & _). exists x', mx. rewrite He.
    split_and!; try done; [by rewrite lookup_insert_ne|by rewrite lookup_delete_ne].
  - intros i c. cbn. intros [Hi Hc]%lookup_delete_Some.
    destruct (Hdhs i c Hc) as (p & x & Hp & Hx & <-). destruct (Hobj c x Hx) as (x' & Hx' & He & _).
    exists p, x'. rewrite He, lookup_delete_ne; [done|]. intros <-. by simplify_eq.
  - intros c. cbn. intros [<-|[_ Hc]]%lookup_insert_is_Some; apply Hnx; [by eexists|done].
  - intros p c x. cbn. intros [Hpn Hp]%lookup_delete_Some (x0 & Hx0 & -> & _ & _)%Hobj' Hps.
    destruct (Hpa p c x0 Hp Hx0 Hps) as (r & orr & Hr & Hor & Hcc).
    destruct (Hobj r orr Hor) as (or' & Hor' & _). exists r, or'.
    assert (Hpr : GetDirName p <> meta_dir_name m).
    { intros Heq. rewrite Heq, Hd in Hr. simplify_eq. rewrite Hempty in Hcc. done. }
    rewrite lookup_delete_ne by done. split_and!; try done.
    destruct (Hobj' r or' Hor') as (x2 & Hx2 & _ & _ & ->). simplify_eq.
    case_decide; [|done]. rewrite lookup_delete_ne; [done|].
    apply not_eq_sym. by apply (Hother p c x0).
  - intros r orr i c [p Hp] (x0 & Hx0 & _ & _ & Ech)%Hobj' Hc. cbn in Hp.
    apply lookup_delete_Some in Hp as [Hpn Hp].
    assert (Hc0 : do_children x0 !! i = Some c /\ (r = q -> i <> dh)).
    { rewrite Ech in Hc. case_decide; [|done]. by apply lookup_delete_Some in Hc as [? ?]. }
    destruct Hc0 as [Hc0 Hiq].
    destruct (Hch r x0 i c (ex_intro _ p Hp) Hx0 Hc0) as (p' & x & Hp' & Hps & Hpar & Hx & Hxi).
    assert (Hp'n : p' <> meta_dir_name m).
    { intros ->. rewrite Hd in Hp'. simplify_eq. by apply Hiq. }
    destruct (Hobj c x Hx) as (x' & Hx' & He & _). exists p', x'. cbn.
    assert (Hgp : GetDirName p' <> meta_dir_name m).
    { intros Heq. rewrite Heq, Hd in Hpar. simplify_eq. by apply Hpn, (dir_tree_inj w _ _ r). }
    rewrite !lookup_delete_ne by done. rewrite He. done.
  - intros c x i (x0 & Hx0 & _ & -> & _)%Hobj'. by apply (Hit c).
Qed.

(** what a deletion leaves alone: the other directories and the free handles, which
    the deleted one does not join *)
Definition dir_gone (w : world) (path : bytes) (i : Z) (w' : world) : Prop :=
  (dev_good w -> dir_written w i w') /\ no_file w path false = true /\ dirs_stay w w' /\ dh_free (w_dh w') = dh_free (w_dh w) /\ w_next w' = w_next w.

(** what a deletion of a directory comes to; a failed write leaves the record
    cleared in memory, and is the only case in which the tree may break *)
Inductive delete_dir_post (w : world) (path : bytes) (r : Z) (w' : world) : Prop :=
  | dd_refused (e : Z) : r = -1 -> w' = set_w_errno e w ->
      ~ (exists name d o, path <> [slash] /\ dir_key path = Some name /\ no_file w path false = true /\
           dh_created_dirs (w_dh w) !! name = Some d /\ w_dirs w !! d = Some o /\ dir_idle o) ->
      delete_dir_post w path r w'
  | dd_removed name d o : r = 0 -> dir_tree w' -> dir_step w w' ->
      name <> [slash] ->
      dir_key path = Some name -> dh_created_dirs (w_dh w) !! name = Some d ->
      w_dirs w !! d = Some o -> dir_idle o ->
      dh_created_dirs (w_dh w') = delete name (dh_created_dirs (w_dh w)) ->
      dh_created_dhs (w_dh w') = delete (do_meta o) (dh_created_dhs (w_dh w)) ->
      dir_persisted w' (do_meta o) ->
      (exists m, w_dirmeta w' !! do_meta o = Some m /\ dm_used m = false) ->
      dir_gone w path (do_meta o) w' -> delete_dir_post w path r w'
  | dd_failed : r = -1 -> ~ dev_good w -> w_dh w' = w_dh w -> dir_step w w' ->
      delete_dir_post w path r w'.

Lemma dir_clear_wf (m : DirMeta) : dir_wf m -> dir_wf (dir_clear m).
Proof.
  intros []. constructor; try done; try apply crc32_range.
Qed.

Lemma dir_key_mount (path : bytes) :
  path <> [] -> path <> [slash] -> dir_key path <> Some [slash].
Proof.
  intros H1 H2. unfold dir_key. cbv zeta. destruct (ends_with_slash path).
  - destruct (_ <=? _); [done|]. by intros [= ->].
  - destruct (_ <=? _); [done|]. intros [= Heq]. by apply app_singleton in Heq as [[? ?]|[? ?]].
Qed.

Lemma FindDirectory_run (w : world) (name : bytes) :
  looks_up (FindDirectory name) w
    (q ← dh_created_dirs (w_dh w) !! GetDirName name;
     d ← dh_created_dirs (w_dh w) !! name; Some (q, d)).
Proof.
  unfold FindDirectory. apply looks_up_gets.
  destruct (dh_created_dirs (w_dh w) !! GetDirName name); cbn; [|apply looks_up_errno].
  destruct (dh_created_dirs (w_dh w) !! name); cbn; [apply looks_up_ret|apply looks_up_errno].
Qed.

(** [RemoveDirectory] finds the directory in all three places *)
Lemma RemoveDirectory_run (w : world) (d q : Z) (o oq : directory) (name : bytes) (m : DirMeta) :
  dh_created_dirs (w_dh w) !! name = Some d -> dh_created_dhs (w_dh w) !! do_meta o = Some d ->
  w_dirs w !! d = Some o -> w_dirs w !! q = Some oq -> q <> d ->
  do_children oq !! do_meta o = Some d ->
  w_dirmeta w !! do_meta o = Some m -> dm_dh m = do_meta o -> meta_dir_name m = name ->
  let h := w_dh w in
  RemoveDirectory q d w = Done true
    (set_w_dh (set_dh_created_dhs (delete (do_meta o) (dh_created_dhs h))
                 (set_dh_created_dirs (delete name (dh_created_dirs h)) h))
      (set_w_dirs (<[q := set_do_children (delete (do_meta o) (do_children oq)) oq]> (w_dirs w)) w)).
Proof.
  intros Hd Hdh Ho Hoq Hqd Hch Hm Hmdh Hmn h. unfold RemoveDirectory, RemovChildDirectory.
  erewrite bind_run; [|erewrite bind_run; [|by apply (Directory_dh_run _ _ o m)];
    erewrite bind_run; [|unfold get_dir, bind, gets; rewrite Hoq; reflexivity];
    rewrite Hmdh, Hch; reflexivity].
  cbn [negb]. unfold RemoveDirectoryFromCreateNolock, Directory_dir_name.
  set (w1 := set_w_dirs _ w).
  assert (Ho1 : w_dirs w1 !! d = Some o) by (cbn; by rewrite lookup_insert_ne).
  erewrite bind_run; [|unfold dir_meta, get_dir, get_dirmeta, bind, gets; rewrite Ho1; cbn;
    rewrite Hm; reflexivity].
  erewrite bind_run; [|by apply (Directory_dh_run w1 _ o m)].
  unfold bind, gets, modify. cbn [w_dh set_w_dirs]. rewrite Hmn.
  change (w_dh w1) with (w_dh w). rewrite Hd. cbn. rewrite Hmdh, Hdh. reflexivity.
Qed.

(** *** The removal itself *)

Lemma delete_dir_tail (w : world) (path : bytes) (e : Z) (name : bytes) (d q : Z) (o : directory) :
  layout_ok (w_super w) -> dev_size (w_dev w) = sb_device_size (w_super w) -> dir_tree w ->
  dir_key path = Some name -> no_file w path false = true -> name <> [slash] ->
  dh_created_dirs (w_dh w) !! name = Some d ->
  dh_created_dirs (w_dh w) !! GetDirName name = Some q -> w_dirs w !! d = Some o -> dir_idle o ->
  wp (let! ok := Directory_SuicideNolock d in
      if negb ok then ret (-1) else
      let! ok := RemoveDirectory q d in
      if negb ok then ret (-1) else set_errno 0 ;; ret 0)
     (delete_dir_post w path) (set_w_errno e w).
Proof.
  intros Hl Hdev Ht Hkey Hnf Hne Hd Hq Ho Hidle.
  destruct (dt_created _ Ht _ _ Hd) as (o0 & m & Ho0 & Hm & Hmdh & Hmn & Hmu & Hmf & Hdn).
  rewrite Ho in Ho0. injection Ho0 as <-.
  destruct (dt_parent _ Ht _ _ _ Hd Ho Hne) as (q' & oq & Hq' & Hoq & Hch).
  rewrite Hq in Hq'. injection Hq' as <-.
  assert (Hqd : q <> d). { intros ->. simplify_eq. destruct Hidle as (_ & Hc0 & _).
    rewrite Hc0 in Hch. done. }
  pose proof (dir_clear_wf _ (dmo_wf _ (dt_meta _ Ht) _ _ Hm)) as Hwf.
  set (m1 := dir_clear m) in *.
  set (w1 := set_w_dirmeta (<[do_meta o := m1]> (w_dirmeta w)) (set_w_errno e w)).
  assert (Hw1 : dirmeta_ok w1).
  { destruct (dirmeta_ok_insert w (do_meta o) m1 (dt_meta _ Ht) ltac:(by eexists) Hwf). by constructor. }
  unfold Directory_SuicideNolock, Directory_ClearMeta. wp_step. wp_step.
  eapply wp_upd_dir_meta; [done..|]. fold m1 w1.
  eapply wp_mono; [apply (Directory_WriteMeta_wp w1 d o m1); try done; cbn; by rewrite lookup_insert_eq|].
  intros ok w2 ((e2 & evs & st & Hw2) & Hs2 & Hg & Hper & Hsto).
  cbn [w_dirmeta w1 set_w_dirmeta] in Hw2. rewrite insert_insert_eq in Hw2.
  assert (Hs : dir_step w w2).
  { constructor; [|by rewrite Hw2..]. etrans; [|exact Hs2].
    etrans; [by apply ds_meta_step, (dir_step_errno w e)|apply meta_step_dirmeta]. }
  destruct ok; cbn [negb].
  2:{ wp_step. apply dd_failed; [done| |by rewrite Hw2|done]. intros Hgood. by discriminate Hg. }
  wp_step. eapply wp_run.
  { apply (RemoveDirectory_run w2 d q o oq name (set_dm_crc (dir_crc_of m1) m1)); rewrite ?Hw2; try done.
    cbn. by rewrite lookup_insert_eq. }
  cbn [negb]. unfold set_errno. do 3 wp_step.
  set (m2 := set_dm_crc (dir_crc_of m1) m1) in *.
  pose proof (detach_tree w d q o oq name m2 Ht Hd Ho (proj1 (proj2 Hidle)) Hqd Hne Hq Hoq
                (dir_wf_set_crc _ Hwf)) as Htr. cbn zeta in Htr.
  match goal with |- delete_dir_post _ _ _ ?x => set (w3 := x) end.
  assert (Ht3 : dir_tree w3).
  { eapply dir_tree_ext; [..|exact Htr]; unfold w3; by rewrite Hw2. }
  apply (dd_removed _ _ _ _ name d o); try done.
  - etrans; [exact Hs|]. unfold w3. etrans; [|apply dir_step_errno; by apply (dir_tree_ext w3)].
    apply (dir_step_intro w2 _ (w_dirmeta w2) (w_next w2)), dir_tree_dirs_ok. by apply (dir_tree_ext w3).
  - unfold w3. by rewrite Hw2.
  - unfold w3. by rewrite Hw2.
  - destruct (Hper eq_refl) as (x & Hx & Hx1 & Hx2). by exists x.
  - exists m2. unfold w3. rewrite Hw2. cbn. by rewrite lookup_insert_eq.
  - split_and!; [|done| |unfold w3; by rewrite Hw2..].
    { intros Hgood. split; [exists m2; split_and!; [unfold w3; by rewrite Hw2|done..]|].
      exact (Hsto Hgood). }
    apply (dirs_stay_children _ _ q oq (delete (do_meta o) (do_children oq)) Hoq).
    unfold w3. by rewrite Hw2.
Qed.

Lemma DeleteDirectory_wp (w : world) (path : bytes) (recursive : bool) :
  layout_ok (w_super w) -> dev_size (w_dev w) = sb_device_size (w_super w) -> dir_tree w ->
  path <> [] -> wp (DeleteDirectory path recursive) (delete_dir_post w path) w.
Proof.
  intros Hl Hdev Ht Hne0. pose proof (lo_max_file _ Hl). unfold DeleteDirectory. wp_step.
  eapply looks_up_wp; [by apply CheckFileExist_run|]. intros e1.
  destruct (no_file w path false) eqn:Hnf; cbn [negb].
  2:{ wp_step. apply (dd_refused _ _ _ _ e1); [done..|]. rewrite Hnf.
      by intros (? & ? & ? & _ & _ & [=] & _). }
  wp_step. eapply looks_up_wp; [apply dir_TransformPath_run|]. intros e2.
  destruct (dir_key path) as [name|] eqn:Hkey.
  2:{ wp_step. apply (dd_refused _ _ _ _ e2); [done..|]. rewrite Hkey.
      by intros (? & ? & ? & _ & [=] & _). }
  unfold IsMountPoint. destruct (decide (path = [slash])) as [Hp|Hp].
  { rewrite bool_decide_true by done. unfold set_errno. do 3 wp_step. eapply dd_refused; [done..|].
    by intros (? & ? & ? & ? & _). }
  rewrite bool_decide_false by done.
  assert (Hne : name <> [slash]) by (intros ->; by apply (dir_key_mount path)). wp_step.
  eapply looks_up_wp; [apply FindDirectory_run|]. intros e3. cbn [w_dh set_w_errno].
  destruct (dh_created_dirs (w_dh w) !! name) as [d|] eqn:Hd.
  2:{ replace (_ ≫= _) with (None : option (Z * Z)) by (by destruct (_ !! GetDirName name)).
      wp_step. apply (dd_refused _ _ _ _ e3); [done..|]. rewrite Hkey.
      intros (? & ? & ? & _ & [= <-] & _ & Hd' & _). congruence. }
  destruct (dt_created _ Ht _ _ Hd) as (o & m & Ho & _).
  destruct (dt_parent _ Ht _ _ _ Hd Ho Hne) as (q & oq & Hq & _). rewrite Hq. cbn [mbind option_bind].
  destruct (dir_busy_run (set_w_errno e3 w) name d o) as (b & Hb & Hidle); try done; try (cbn; lia).
  { by apply (dir_tree_ext w). }
  wp_step. eapply looks_up_wp; [exact Hb|]. intros e4. destruct b.
  - wp_step. apply (dd_refused _ _ _ _ e4); [done..|]. rewrite Hkey.
    intros (? & d' & o' & _ & [= <-] & _ & Hd' & Ho' & Hidle'). simplify_eq.
    by apply Hidle in Hidle'.
  - apply (delete_dir_tail w path e4 name d q o); try done. by apply Hidle.
Qed.
End DirOps.
