(* ===== verification/FileNames.v ===== *)
(** * Creating files

    The maps of files with the directories' entries as an invariant
    ([file_tree]), the record and the object that [NewFile] makes, and
    [FileHandle::CreateFile]. *)

From S2P Require Import Prelude Meta Device World SuperBlock Resources Paths FileBlock Inode.
From S2P Require Import Directory FileHandle File OpenFile FileHandleOps DirHandle.
From S2P Require Import Io Invariant MetaSteps Views Content FileGrow FileIO FileShrink Truncate.
From S2P Require Import DirSteps Names DirOps.

(** ** The maps of files

    [created_files_] (by directory and name) and [created_fhs_] (by handle) hold
    the same files, each with its own record that carries its directory and
    name; the entries of the directories are those files. *)
Record file_tree (w : world) : Prop := {
  ft_created : forall dh name f, fh_created_files (w_fh w) !! (dh, name) = Some f ->
    exists o m d od, w_files w !! f = Some o /\ w_filemeta w !! fo_meta o = Some m /\
      fm_dh m = dh /\ meta_file_name m = name /\ fm_used m = true /\
      fh_created_fhs (w_fh w) !! fo_meta o = Some f /\
      dh_created_dhs (w_dh w) !! dh = Some d /\ w_dirs w !! d = Some od /\
      do_items od !! fo_meta o = Some f;
  ft_fhs : forall i f, fh_created_fhs (w_fh w) !! i = Some f ->
    exists key o, fh_created_files (w_fh w) !! key = Some f /\ w_files w !! f = Some o /\ fo_meta o = i;
  ft_items : forall d od i f, (exists p, dh_created_dirs (w_dh w) !! p = Some d) ->
    w_dirs w !! d = Some od -> do_items od !! i = Some f ->
    exists o name, fh_created_files (w_fh w) !! (do_meta od, name) = Some f /\
      w_files w !! f = Some o /\ fo_meta o = i;
  ft_next : forall f, is_Some (w_files w !! f) -> f < w_next w
}.

(** it depends on the records through their directory, name and use only *)
Lemma file_tree_ext (w w' : world) :
  w_fh w' = w_fh w -> w_dh w' = w_dh w -> w_dirs w' = w_dirs w -> w_files w' = w_files w ->
  w_next w' = w_next w ->
  (forall i m, w_filemeta w !! i = Some m -> exists m', w_filemeta w' !! i = Some m' /\
     fm_dh m' = fm_dh m /\ meta_file_name m' = meta_file_name m /\ fm_used m' = fm_used m) ->
  file_tree w -> file_tree w'.
Proof.
  intros Eh Ed Er Ef En Hm [Hc Hf Hi Hn]. constructor; rewrite ?Eh, ?Ed, ?Er, ?Ef, ?En; try done.
  intros dh name f Hk. destruct (Hc dh name f Hk) as (o & m & d & od & ? & Hm0 & ? & ? & ? & ? & ? & ? & ?).
  destruct (Hm _ _ Hm0) as (m' & ? & ? & ? & ?). exists o, m', d, od. split_and!; try done; congruence.
Qed.

Lemma file_tree_inj (w : world) (k1 k2 : Z * bytes) (f : Z) :
  file_tree w -> fh_created_files (w_fh w) !! k1 = Some f ->
  fh_created_files (w_fh w) !! k2 = Some f -> k1 = k2.
Proof.
  intros Ht H1 H2. destruct k1 as [d1 n1], k2 as [d2 n2].
  destruct (ft_created _ Ht _ _ _ H1) as (o & m & _ & _ & ? & ? & <- & <- & _).
  destruct (ft_created _ Ht _ _ _ H2) as (o' & m' & _ & _ & ? & ? & <- & <- & _). by simplify_eq.
Qed.

(** directory entries of files change, nothing else of the tree of directories *)
Lemma dir_tree_items (w : world) (d : Z) (od : directory) (items : gmap Z Z) :
  dir_tree w -> w_dirs w !! d = Some od ->
  (forall i, is_Some (items !! i) -> 0 <= i < sb_max_file_num (w_super w)) ->
  dir_tree (set_w_dirs (<[d := set_do_items items od]> (w_dirs w)) w).
Proof.
  intros [[] Hfree Hcr Hdhs Hnx Hpa Hch Hit] Hd Hitems. set (od' := set_do_items items od).
  assert (Hobj : forall c x, w_dirs w !! c = Some x -> exists x',
    <[d := od']> (w_dirs w) !! c = Some x' /\ do_meta x' = do_meta x /\ do_children x' = do_children x).
  { intros c x Hc. destruct (decide (d = c)) as [<-|].
    - exists od'. rewrite lookup_insert_eq. by simplify_eq.
    - exists x. by rewrite lookup_insert_ne. }
  assert (Hobj' : forall c x', <[d := od']> (w_dirs w) !! c = Some x' -> exists x,
    w_dirs w !! c = Some x /\ do_meta x' = do_meta x /\ do_children x' = do_children x).
  { intros c x' Hc. destruct (decide (d = c)) as [<-|].
    - rewrite lookup_insert_eq in Hc. simplify_eq. by exists od.
    - rewrite lookup_insert_ne in Hc by done. by exists x'. }
  constructor; try done.
  - intros p c Hp. destruct (Hcr p c Hp) as (x & mx & Hx & Hmx & H1 & H2 & H3 & H4 & H5).
    destruct (Hobj c x Hx) as (x' & Hx' & He & _). exists x', mx. rewrite He. by split_and!.
  - intros i c Hc. destruct (Hdhs i c Hc) as (p & x & Hp & Hx & <-).
    destruct (Hobj c x Hx) as (x' & Hx' & He & _). by exists p, x'.
  - intros c. cbn. intros [<-|[_ Hc]]%lookup_insert_is_Some; apply Hnx; [by eexists|done].
  - intros p c x Hp (x0 & Hx0 & -> & _)%Hobj' Hps.
    destruct (Hpa p c x0 Hp Hx0 Hps) as (r & orr & Hr & Hor & Hcc).
    destruct (Hobj r orr Hor) as (or' & Hor' & _ & Hch'). exists r, or'. rewrite Hch'. by split_and!.
  - intros r orr i c Hp (x0 & Hx0 & _ & ->)%Hobj' Hc.
    destruct (Hch r x0 i c Hp Hx0 Hc) as (p' & x & Hp' & Hps & Hpar & Hx & Hxi).
    destruct (Hobj c x Hx) as (x' & Hx' & He & _). exists p', x'. rewrite He. by split_and!.
  - intros c x i. cbn. intros [[_ <-]|[_ Hc]]%lookup_insert_Some; [apply Hitems|by apply (Hit c)].
Qed.

Section FileNames.
Context `{Env}.

(** ** A new file *)

(** what [NewFile] makes of the world: the first free record, a fresh object *)
Definition with_new_file (i : Z) (rest : list Z) (m : FileMeta) (w : world) : world :=
  set_w_fh (set_fh_free rest (w_fh w))
    (set_w_filemeta (<[i := m]> (w_filemeta w))
    (set_w_files (<[w_next w := MkFile i ∅ 0 false false]> (w_files w))
    (set_w_next (w_next w + 1) w))).

(** the record of a new file *)
Record new_record (i dh : Z) (name : bytes) (tmp : bool) (m : FileMeta) : Prop := {
  nr_wf : file_wf m;
  nr_fh : fm_fh m = i;
  nr_used : fm_used m = true;
  nr_size : fm_size m = 0;
  nr_dh : fm_dh m = dh;
  nr_name : meta_file_name m = name;
  nr_temp : fm_is_temp m = tmp
}.

Lemma free_record_facts (w : world) (i : Z) (rest : list Z) :
  fs_inv w -> fh_free (w_fh w) = i :: rest ->
  0 <= i < sb_max_file_num (w_super w) /\ (i ∉ rest) /\ (i ∉ v_parents (view_of w)) /\
  ~ live_meta (view_of w) i /\
  exists m, w_filemeta w !! i = Some m /\ fm_fh m = i /\ fm_used m = false /\ fm_size m = 0.
Proof.
  intros Hi Hfree. pose proof (fi_inv _ Hi) as HV. destruct (i_free_fh _ _ HV) as [Hnd Hall].
  cbn in Hnd, Hall. rewrite Hfree in Hnd, Hall. apply NoDup_cons in Hnd as [Hir Hnd].
  destruct (Hall i) as [Hp Hm]; [set_solver|]. apply view_fm_lookup in Hm as (m & Hm & Hmv).
  injection Hmv as Hfh Hu Hs. split_and!; try done; try (by eapply filemeta_range).
  - intros Hl%(live_meta_not_free _ _ HV). cbn in Hl. rewrite Hfree in Hl. set_solver.
  - exists m. by split_and!.
Qed.

Lemma with_new_file_inv (w : world) (i dh : Z) (rest : list Z) (name : bytes) (tmp : bool)
    (m : FileMeta) :
  fs_inv w -> (forall f, is_Some (w_files w !! f) -> f < w_next w) ->
  fh_free (w_fh w) = i :: rest -> new_record i dh name tmp m ->
  fs_inv (with_new_file i rest m w).
Proof.
  intros Hi Hn Hfree [Hwf Hfh Hu Hs Hd _ _]. pose proof (fi_inv _ Hi) as HV.
  destruct (free_record_facts w i rest Hi Hfree) as (Hr & Hir & Hp & Hl & m0 & Hm0 & _).
  assert (HE : env_step w (with_new_file i rest m w)).
  { transitivity (set_w_filemeta (<[i := m]> (w_filemeta w)) w); [by apply env_step_filemeta|].
    by constructor. }
  apply (fs_inv_env _ _ HE Hi).
  assert (Hv : view_of (with_new_file i rest m w) =
    set_v_files (<[w_next w := MkFoView i ∅]> (v_files (view_of w)))
      (set_v_fm (<[i := MkFmView i true 0]> (v_fm (view_of w))) (set_v_free_fh rest (view_of w)))).
  { unfold view_of, with_new_file. cbn. rewrite !fmap_insert. unfold view_fm. by rewrite Hfh, Hu, Hs. }
  rewrite Hv. apply (inv_put_file _ _ (inv_free_fh_pop _ _ HV i rest Hfree) (w_next w) (MkFoView i ∅));
    try done.
  - cbn. rewrite lookup_fmap, Hm0. by eexists.
  - by left.
  - intros g og Hg Hog. split; [|done]. intros Heq. apply Hl. by exists g, og.
Qed.

(** the contents of the other files stay, and the new file is empty *)
Lemma with_new_file_content (w : world) (i dh : Z) (rest : list Z) (name : bytes) (tmp : bool)
    (m : FileMeta) (g : Z) :
  fs_inv w -> (forall f, is_Some (w_files w !! f) -> f < w_next w) ->
  fh_free (w_fh w) = i :: rest -> new_record i dh name tmp m ->
  file_content (with_new_file i rest m w) g
    = if decide (g = w_next w) then [] else file_content w g.
Proof.
  intros Hi Hn Hfree [_ _ _ Hs _ _ _].
  destruct (free_record_facts w i rest Hi Hfree) as (_ & _ & _ & Hl & _).
  unfold file_content, file_size, file_blocks, file_fb. cbn. rewrite !fmap_insert.
  case_decide as Hg.
  - subst g. rewrite lookup_insert_eq. cbn. rewrite lookup_insert_eq. cbn. by rewrite Hs.
  - rewrite lookup_insert_ne by done.
    destruct ((view_fo <$> w_files w) !! g) as [o|] eqn:Ho; cbn; [|done].
    rewrite lookup_insert_ne; [done|]. intros Heq. apply Hl. by exists g, o.
Qed.

Lemma new_file_wp (w : world) (dh : Z) (name : Z -> bytes) (tmp : bool) :
  fs_inv w -> 0 <= dh < 2 ^ 31 -> 0 <= sb_max_file_num (w_super w) < 2 ^ 31 ->
  (forall i, 0 ∉ name i /\ (length (name i) < 64)%nat) ->
  wp (new_file dh name tmp) (fun r w' =>
    match r with
    | None => fh_free (w_fh w) = [] /\ w' = set_w_errno ENFILE w
    | Some f => f = w_next w /\ exists i rest m, fh_free (w_fh w) = i :: rest /\
        w' = with_new_file i rest m w /\ new_record i dh (name i) tmp m
    end) w.
Proof.
  intros Hi Hdh Hmax Hname. unfold new_file. do 2 wp_step.
  destruct (fh_free (w_fh w)) as [|i rest] eqn:Hfree; [unfold set_errno; by do 3 wp_step|].
  destruct (free_record_facts w i rest Hi Hfree) as (Hr & _ & _ & _ & m & Hm & Hfh & Hu & Hs).
  wp_step. eapply wp_get_filemeta; [done|]. unfold file_meta_invalid.
  rewrite Hu, Hfh, Hs, Z.eqb_refl. cbn [negb orb Z.eqb].
  unfold fresh. do 4 wp_step. wp_step. wp_step. wp_step. apply wp_put_file. wp_step.
  eapply wp_upd_file_meta; [cbn; by rewrite lookup_insert_eq|exact Hm|].
  unfold pop_free_fh. do 3 wp_step. split; [done|].
  eexists i, rest, _. split; [done|]. split.
  { unfold with_new_file. replace rest with (tail (fh_free (w_fh w))) by by rewrite Hfree. reflexivity. }
  destruct (proj2 (fi_wf _ Hi) _ _ Hm). destruct (Hname i) as [Hn0 Hnl].
  rewrite !swrap_small, !wrap_small by lia. constructor; try done.
  - constructor; try done; cbn; [unfold in_u; lia..|by rewrite copy_name_length].
  - unfold meta_file_name. cbn. by apply cstr_copy_name.
Qed.

(** ** How the code enters and removes a file *)
Lemma RemoveChildFile_run (w : world) (d f : Z) (o : file) (m : FileMeta) (od : directory) :
  w_files w !! f = Some o -> w_filemeta w !! fo_meta o = Some m -> fm_fh m = fo_meta o ->
  0 <= fo_meta o < 2 ^ 31 -> w_dirs w !! d = Some od -> is_Some (do_items od !! fo_meta o) ->
  RemoveChildFile d f w = Done true
    (set_w_dirs (<[d := set_do_items (delete (fo_meta o) (do_items od)) od]> (w_dirs w)) w).
Proof.
  intros Ho Hm Hfh Hi Hod [x1 Hx1]. unfold RemoveChildFile.
  erewrite bind_run by by apply (File_fh_run w f o m). rewrite Hfh, swrap_small by lia.
  erewrite bind_run by (unfold get_dir, bind, gets; rewrite Hod; reflexivity).
  by rewrite Hx1.
Qed.

Lemma RemoveFileNoLock_run (w : world) (f : Z) (o : file) (m : FileMeta) :
  w_files w !! f = Some o -> w_filemeta w !! fo_meta o = Some m -> fm_fh m = fo_meta o ->
  0 <= fo_meta o < 2 ^ 31 -> 0 <= fm_dh m < 2 ^ 31 ->
  is_Some (fh_created_files (w_fh w) !! (fm_dh m, meta_file_name m)) ->
  is_Some (fh_created_fhs (w_fh w) !! fo_meta o) ->
  RemoveFileNoLock f w = Done true
    (set_w_fh (set_fh_created_fhs (delete (fo_meta o) (fh_created_fhs (w_fh w)))
       (set_fh_created_files (delete (fm_dh m, meta_file_name m) (fh_created_files (w_fh w))) (w_fh w))) w).
Proof.
  intros Ho Hm Hfh Hi Hdh [x2 Hx2] [x3 Hx3]. unfold RemoveFileNoLock.
  erewrite bind_run by by apply (File_fh_run w f o m).
  erewrite bind_run by by apply (File_dh_run w f o m).
  erewrite bind_run by by apply (File_file_name_run w f o m).
  erewrite bind_run by reflexivity. rewrite Hfh, !swrap_small, !wrap_small by lia.
  rewrite Hx2. erewrite bind_run by reflexivity. cbn [set_fh_created_files fh_created_fhs]. by rewrite Hx3.
Qed.

Lemma AddFileNoLock_run (w : world) (f : Z) (o : file) (m : FileMeta) :
  w_files w !! f = Some o -> w_filemeta w !! fo_meta o = Some m -> fm_fh m = fo_meta o ->
  0 <= fo_meta o < 2 ^ 31 -> 0 <= fm_dh m < 2 ^ 31 ->
  AddFileNoLock f w = Done tt
    (set_w_fh (set_fh_created_files (<[(fm_dh m, meta_file_name m) := f]> (fh_created_files (w_fh w)))
      (set_fh_created_fhs (<[fo_meta o := f]> (fh_created_fhs (w_fh w))) (w_fh w))) w).
Proof.
  intros Ho Hm Hfh Hi Hdh. unfold AddFileNoLock.
  erewrite bind_run by by apply (File_fh_run w f o m).
  erewrite bind_run by by apply (File_dh_run w f o m).
  erewrite bind_run by by apply (File_file_name_run w f o m).
  unfold modify. by rewrite Hfh, !swrap_small, !wrap_small by lia.
Qed.

Lemma AddChildFile_run (w : world) (d f : Z) (o : file) (m : FileMeta) (od : directory) :
  w_files w !! f = Some o -> w_filemeta w !! fo_meta o = Some m -> fm_fh m = fo_meta o ->
  0 <= fo_meta o < 2 ^ 31 -> w_dirs w !! d = Some od -> do_items od !! fo_meta o = None ->
  AddChildFile d f w = Done true
    (set_w_dirs (<[d := set_do_items (<[fo_meta o := f]> (do_items od)) od]> (w_dirs w)) w).
Proof.
  intros Ho Hm Hfh Hi Hod Hnone. unfold AddChildFile.
  erewrite bind_run by by apply (File_fh_run w f o m). rewrite Hfh, swrap_small by lia.
  erewrite bind_run by (unfold get_dir, bind, gets; rewrite Hod; reflexivity).
  rewrite decide_False by (rewrite Hnone; by intros [? [=]]). reflexivity.
Qed.

(** ** Entering the new file into its directory and the maps *)

(** the world when the new file [w_next w] of directory [d] is entered *)
Definition with_file_entry (d i f : Z) (od : directory) (key : Z * bytes) (w : world) : world :=
  set_w_fh (set_fh_created_files (<[key := f]> (fh_created_files (w_fh w)))
             (set_fh_created_fhs (<[i := f]> (fh_created_fhs (w_fh w))) (w_fh w)))
    (set_w_dirs (<[d := set_do_items (<[i := f]> (do_items od)) od]> (w_dirs w)) w).

Lemma created_fhs_live (w : world) (i f : Z) :
  file_tree w -> fh_created_fhs (w_fh w) !! i = Some f -> live_meta (view_of w) i.
Proof.
  intros Ht Hi. destruct (ft_fhs _ Ht _ _ Hi) as (key & o & _ & Ho & <-).
  exists f, (view_fo o). split; [|done]. by apply view_files_lookup.
Qed.

Lemma dir_tree_next (w w' : world) :
  w_super w' = w_super w -> w_dirmeta w' = w_dirmeta w -> w_dh w' = w_dh w ->
  w_dirs w' = w_dirs w -> w_next w <= w_next w' -> dir_tree w -> dir_tree w'.
Proof.
  intros Es Em Eh Ed En [[] ? ? ? Hx ? ? ?]. constructor; rewrite ?Eh, ?Em, ?Ed; try done.
  - constructor; rewrite ?Em, ?Es; done.
  - intros d Hd. specialize (Hx d Hd). lia.
  - by rewrite Es.
Qed.

(** a new file that is not entered anywhere *)
Lemma with_new_file_tree (w : world) (i : Z) (rest : list Z) (m : FileMeta) :
  fs_inv w -> file_tree w -> fh_free (w_fh w) = i :: rest ->
  file_tree (with_new_file i rest m w).
Proof.
  intros Hi [Hc Hf Hit Hn] Hfree. destruct (free_record_facts w i rest Hi Hfree) as (_ & _ & _ & Hl & _).
  assert (Hobj : forall f o, w_files w !! f = Some o -> f <> w_next w /\ fo_meta o <> i).
  { intros f o Ho. split.
    - intros ->. specialize (Hn (w_next w) ltac:(by eexists)). lia.
    - intros Heq. apply Hl. exists f, (view_fo o). split; [by apply view_files_lookup|done]. }
  constructor.
  - intros dh nm f Hk. destruct (Hc dh nm f Hk) as (o & mo & c & oc & Ho & Hmo & ?).
    destruct (Hobj f o Ho) as [Hfne Hine]. exists o, mo, c, oc. cbn.
    by rewrite !lookup_insert_ne by done.
  - intros j f Hj. destruct (Hf j f Hj) as (key & o & Hk & Ho & <-). destruct (Hobj f o Ho) as [Hfne _].
    exists key, o. cbn. by rewrite lookup_insert_ne.
  - intros d od j f Hd Hod Hj. destruct (Hit d od j f Hd Hod Hj) as (o & nm & Hk & Ho & <-).
    destruct (Hobj f o Ho) as [Hfne _]. exists o, nm. cbn. by rewrite lookup_insert_ne.
  - intros f. cbn. intros [<-|[_ Hf']]%lookup_insert_is_Some; [lia|]. apply Hn in Hf'. lia.
Qed.

(** a file that is listed nowhere is entered *)
Lemma add_entry_tree (w : world) (f d : Z) (o : file) (m : FileMeta) (od : directory) (p name : bytes) :
  dir_tree w -> file_tree w -> w_files w !! f = Some o -> w_filemeta w !! fo_meta o = Some m ->
  fm_dh m = do_meta od -> meta_file_name m = name -> fm_used m = true ->
  0 <= fo_meta o < sb_max_file_num (w_super w) ->
  dh_created_dirs (w_dh w) !! p = Some d -> w_dirs w !! d = Some od ->
  fh_created_files (w_fh w) !! (do_meta od, name) = None ->
  (forall key g og, fh_created_files (w_fh w) !! key = Some g -> w_files w !! g = Some og ->
     g <> f /\ fo_meta og <> fo_meta o) ->
  let w' := with_file_entry d (fo_meta o) f od (do_meta od, name) w in file_tree w' /\ dir_tree w'.
Proof.
  intros Hd Ht Ho Hm Hdh Hnm Hu Hr Hp Hod Hnew Hun w'. set (i := fo_meta o) in *. pose proof Ht as [Hc Hf Hit Hn].
  destruct (dt_created _ Hd _ _ Hp) as (od' & md & Hod' & _ & _ & _ & _ & _ & Hdhs).
  rewrite Hod in Hod'. injection Hod' as <-.
  set (od2 := set_do_items (<[i := f]> (do_items od)) od).
  assert (Hdir : forall c x, w_dirs w !! c = Some x -> exists x',
    <[d := od2]> (w_dirs w) !! c = Some x' /\ do_meta x' = do_meta x /\
    (forall j g, do_items x !! j = Some g -> j <> i -> do_items x' !! j = Some g)).
  { intros c x Hx. destruct (decide (d = c)) as [<-|].
    - exists od2. rewrite lookup_insert_eq. simplify_eq. split_and!; try done. intros j g Hj Hne.
      cbn. by rewrite lookup_insert_ne.
    - exists x. by rewrite lookup_insert_ne. }
  split; [constructor|].
  - intros dh nm g. cbn. intros [[Hk <-]|[Hk Hf']]%lookup_insert_Some.
    + injection Hk as <- <-. exists o, m, d, od2. fold i. rewrite !lookup_insert_eq. split_and!; try done.
      cbn. by rewrite lookup_insert_eq.
    + destruct (Hc dh nm g Hf') as (og & mg & c & oc & Hog & Hmg & ? & ? & ? & Hfhs & Hcd & Hoc & Hio).
      destruct (Hun _ g og Hf' Hog) as [_ Hine]. destruct (Hdir c oc Hoc) as (oc' & Hoc' & _ & Hitems).
      exists og, mg, c, oc'. rewrite (lookup_insert_ne (fh_created_fhs (w_fh w))) by done.
      split_and!; try done. by apply Hitems.
  - intros j g. cbn. intros [[<- <-]|[Hj Hf']]%lookup_insert_Some.
    + exists (do_meta od, name), o. by rewrite lookup_insert_eq.
    + destruct (Hf j g Hf') as (key & og & Hk & Hog & <-). exists key, og.
      rewrite lookup_insert_ne by congruence. done.
  - intros c oc j g [q Hq] Hoc Hj. cbn in Hq, Hoc.
    assert (Hcase : (j = i /\ g = f /\ do_meta oc = do_meta od) \/
      exists x, w_dirs w !! c = Some x /\ do_meta oc = do_meta x /\ do_items x !! j = Some g).
    { destruct (decide (d = c)) as [<-|].
      - rewrite lookup_insert_eq in Hoc. simplify_eq. cbn in Hj.
        apply lookup_insert_Some in Hj as [[<- <-]|[_ Hj]]; [by left|right; by exists od].
      - rewrite lookup_insert_ne in Hoc by done. right. by exists oc. }
    destruct Hcase as [(-> & -> & ->)|(x & Hx & -> & Hxj)].
    + exists o, name. cbn. by rewrite lookup_insert_eq.
    + destruct (Hit c x j g (ex_intro _ q Hq) Hx Hxj) as (og & nm & Hk & Hog & <-).
      exists og, nm. cbn. by rewrite lookup_insert_ne by congruence.
  - done.
  - eapply (dir_tree_ext (set_w_dirs (<[d := od2]> (w_dirs w)) w)); try done.
    apply dir_tree_items; try done. intros j [<-|[_ Hj]]%lookup_insert_is_Some; [done|].
    by apply (dt_items _ Hd d od).
Qed.

Lemma file_entry_tree (w : world) (d i : Z) (od : directory) (rest : list Z) (p name : bytes)
    (m : FileMeta) :
  fs_inv w -> dir_tree w -> file_tree w -> fh_free (w_fh w) = i :: rest ->
  dh_created_dirs (w_dh w) !! p = Some d -> w_dirs w !! d = Some od ->
  fh_created_files (w_fh w) !! (do_meta od, name) = None ->
  new_record i (do_meta od) name false m ->
  let w' := with_file_entry d i (w_next w) od (do_meta od, name) (with_new_file i rest m w) in
  file_tree w' /\ dir_tree w'.
Proof.
  intros Hi Hd Ht Hfree Hp Hod Hnew [Hwf Hfh Hu Hs Hdh Hnm _] w'.
  destruct (free_record_facts w i rest Hi Hfree) as (Hr & _ & _ & Hl & _).
  apply (add_entry_tree (with_new_file i rest m w) (w_next w) d (MkFile i ∅ 0 false false) m od p name);
    try done.
  - apply (dir_tree_next w); try done. cbn. lia.
  - by apply with_new_file_tree.
  - cbn. by rewrite lookup_insert_eq.
  - cbn. by rewrite lookup_insert_eq.
  - intros key g og Hg Hog. destruct key as [dh nm]. destruct (ft_created _ Ht dh nm g Hg) as (og' & _ & _ & _ & Hog' & _).
    assert (Hne : g <> w_next w).
    { intros ->. pose proof (ft_next _ Ht (w_next w) ltac:(by eexists)). lia. }
    cbn in Hog. rewrite lookup_insert_ne in Hog by done. split; [done|]. cbn. intros Heq. apply Hl.
    exists g, (view_fo og). split; [by apply view_files_lookup|done].
Qed.

(** *** [NewFile] and [CreateFile] *)

Lemma with_new_file_upd (w : world) (i : Z) (rest : list Z) (m m' : FileMeta) :
  set_w_filemeta (<[i := m']> (w_filemeta (with_new_file i rest m w))) (with_new_file i rest m w)
    = with_new_file i rest m' w.
Proof. unfold with_new_file. cbn. by rewrite insert_insert_eq. Qed.

Lemma NewFile_wp (w : world) (dirname filename : bytes) :
  fs_inv w -> dir_tree w -> 0 ∉ filename -> (length filename < 64)%nat ->
  wp (NewFile dirname filename false) (fun r w' =>
    match r with
    | None => (exists e, w' = set_w_errno e w) /\
        ~ (fh_free (w_fh w) <> [] /\ exists d od, lookup_dir w dirname = Some d /\
             w_dirs w !! d = Some od /\ fh_created_files (w_fh w) !! (do_meta od, filename) = None)
    | Some (d, f) => f = w_next w /\ exists e od i rest m, lookup_dir w dirname = Some d /\
        w_dirs w !! d = Some od /\ fh_created_files (w_fh w) !! (do_meta od, filename) = None /\
        fh_free (w_fh w) = i :: rest /\ w' = with_new_file i rest m (set_w_errno e w) /\
        new_record i (do_meta od) filename false m
    end) w.
Proof.
  intros Hi Hd H0 Hl. pose proof (lo_max_file _ (fi_layout _ Hi)) as Hmax. unfold NewFile. wp_step.
  eapply looks_up_wp; [apply GetCreatedDirectory_run|]. intros e.
  destruct (lookup_dir w dirname) as [d|] eqn:Hdir.
  2:{ unfold set_errno. do 3 wp_step. split; [by eexists|]. intros (_ & ? & ? & [=] & _). }
  destruct (lookup_dir_some _ _ _ Hd Hdir) as (p & od & md & _ & Hp & Hod & Hmd & Hmdh & _ & Hrange).
  wp_step. eapply wp_run; [by apply (Directory_dh_run _ _ od md)|]. rewrite Hmdh.
  wp_step. cbn [negb]. do 2 wp_step. cbn [w_fh set_w_errno]. case_decide as Hex.
  { unfold set_errno. do 4 wp_step. split; [by eexists|].
    intros (_ & d' & od' & [= <-] & Hod' & Hnone). simplify_eq. rewrite Hnone in Hex. by destruct Hex. }
  apply eq_None_not_Some in Hex. unfold NewFreeFileNolock. rewrite !swrap_small by lia.
  eapply wp_mono; [apply (new_file_wp (set_w_errno e w) (do_meta od) (fun _ => filename) false); try done;
    try lia; [|cbn; lia]|].
  { apply (fs_inv_meta_step w); [apply set_errno_step|done]. }
  intros [f|] w1.
  2:{ intros [Hfree ->]. wp_step. split; [by eexists|]. by intros [? _]. }
  intros (-> & i & rest & m & Hfree & -> & Hrec). do 2 wp_step. wp_step.
  eapply wp_upd_file_meta; [cbn; by rewrite lookup_insert_eq|cbn; by rewrite lookup_insert_eq|].
  wp_step. split; [done|].
  set (m' := set_fm_ctime (w_now w) (set_fm_mtime (w_now w) (set_fm_atime (w_now w) m))).
  exists e, od, i, rest, m'. split_and!; try done.
  - exact (with_new_file_upd (set_w_errno e w) i rest m m').
  - destruct Hrec as [[] ? ? ? ? ? ?]. pose proof (fi_now _ Hi). by constructor.
Qed.

(** the record of the new file is written *)
Lemma write_new_file_wp (w : world) (i dh : Z) (rest : list Z) (name : bytes) (m : FileMeta) :
  fs_inv w -> (forall f, is_Some (w_files w !! f) -> f < w_next w) ->
  fh_free (w_fh w) = i :: rest -> new_record i dh name false m ->
  wp (File_WriteMeta (w_next w)) (fun ok w' =>
    meta_step (with_new_file i rest m w) w' /\ (dev_good w -> ok = true) /\
    (ok = true -> file_persisted w' i) /\
    exists m' e evs st, new_record i dh name false m' /\
      w' = upd_io e evs st (with_new_file i rest m' w)) (with_new_file i rest m w).
Proof.
  intros Hi Hn Hfree Hrec. pose proof (with_new_file_inv w i dh rest name false m Hi Hn Hfree Hrec) as Hi1.
  destruct (free_record_facts w i rest Hi Hfree) as (Hr & _). pose proof (lo_max_file _ (fi_layout _ Hi)).
  unfold File_WriteMeta. wp_step. eapply wp_run.
  { apply (File_fh_run _ _ (MkFile i ∅ 0 false false) m); cbn; by rewrite lookup_insert_eq. }
  rewrite (nr_fh _ _ _ _ _ Hrec), swrap_small by lia.
  eapply wp_mono; [by apply File_WriteMeta_fh_base_wp; [apply fs_inv_base|]|].
  intros ok w' (Hs & Hg & Hp & m0 & e & evs & st & Hm0 & Hw). cbn in Hm0.
  rewrite lookup_insert_eq in Hm0. injection Hm0 as <-. split_and!; try done.
  exists (set_fm_crc (file_crc_of m) m), e, evs, st. split.
  - destruct Hrec. constructor; try done. by apply file_wf_set_crc.
  - by rewrite Hw, with_new_file_upd.
Qed.

Lemma with_file_entry_step (w : world) (d i f : Z) (od : directory) (key : Z * bytes) :
  w_dirs w !! d = Some od -> meta_step w (with_file_entry d i f od key w).
Proof.
  intros Hd. constructor; try done. constructor; try done. intros Hok j c Hj. cbn.
  apply lookup_insert_is_Some'. right. by eapply Hok.
Qed.

Lemma AddFileToDirectory_new (w : world) (d i f : Z) (o : file) (m : FileMeta) (od : directory) :
  w_files w !! f = Some o -> w_filemeta w !! fo_meta o = Some m -> fo_meta o = i ->
  0 <= i < 2 ^ 31 -> 0 <= fm_dh m < 2 ^ 31 -> fm_fh m = i -> w_dirs w !! d = Some od ->
  do_items od !! i = None ->
  AddFileToDirectory d f w
    = Done tt (with_file_entry d i f od (fm_dh m, meta_file_name m) w).
Proof.
  intros Ho Hm <- Hi Hdh Hfh Hd Hnone. unfold AddFileToDirectory.
  erewrite bind_run by by apply (AddChildFile_run w d f o m od).
  set (w1 := set_w_dirs _ w). by rewrite (AddFileNoLock_run w1 f o m).
Qed.

(** what a creation of a file comes to *)
Record create_file_post (w : world) (path : bytes) (r : option Z) (w' : world) : Prop := {
  cf_inv : fs_inv w';
  cf_dirs : dir_tree w';
  cf_files : file_tree w';
  cf_old : forall g, is_Some (w_files w !! g) -> file_content w' g = file_content w g;
  cf_pool : bh_pool (w_bh w') = bh_pool (w_bh w);
  cf_paths : dh_created_dirs (w_dh w') = dh_created_dirs (w_dh w);
  cf_none : r = None -> fh_created_files (w_fh w') = fh_created_files (w_fh w);
  cf_some : forall f, r = Some f -> exists key i, file_key w path = Some key /\
    fh_created_files (w_fh w) !! key = None /\ w_files w !! f = None /\
    fh_created_files (w_fh w') = <[key := f]> (fh_created_files (w_fh w)) /\
    w_files w' !! f = Some (MkFile i ∅ 0 false false) /\ file_content w' f = [] /\
    file_persisted w' i;
  cf_good : forall key, dev_good w -> fh_free (w_fh w) <> [] -> file_key w path = Some key ->
    fh_created_files (w_fh w) !! key = None -> r <> None;
  cf_refused : dev_good w -> r = None -> exists e, w' = set_w_errno e w;
  cf_frame : forall f, r = Some f -> exists i m,
    w_files w' = <[f := MkFile i ∅ 0 false false]> (w_files w) /\
    w_filemeta w' = <[i := m]> (w_filemeta w) /\ fm_is_temp m = false /\
    fh_free (w_fh w) = i :: fh_free (w_fh w') /\
    (forall g o, w_files w !! g = Some o -> fo_meta o <> i)
}.

Lemma file_tree_errno (w : world) (e : Z) : file_tree w -> file_tree (set_w_errno e w).
Proof. intros Ht. eapply file_tree_ext; [..|exact Ht]; try done. eauto. Qed.

Lemma create_file_refuse (w : world) (path : bytes) (e : Z) :
  fs_inv w -> dir_tree w -> file_tree w ->
  ~ (fh_free (w_fh w) <> [] /\ exists key, file_key w path = Some key /\
       fh_created_files (w_fh w) !! key = None) ->
  create_file_post w path None (set_w_errno e w).
Proof.
  intros Hi Hd Ht Hno. constructor; try done.
  - apply (fs_inv_meta_step w); [apply set_errno_step|done].
  - by apply (dir_tree_ext w).
  - by apply file_tree_errno.
  - intros key _ ???. destruct Hno. split; [done|]. by exists key.
  - by exists e.
Qed.

Lemma not_elem_drop (x : Z) (n : nat) (l : bytes) : x ∉ l -> x ∉ drop n l.
Proof. intros Hx Hd. apply Hx. rewrite <- (take_drop n l), elem_of_app. by right. Qed.

Lemma GetFileName_no_nul (path : bytes) : 0 ∉ path -> 0 ∉ GetFileName path.
Proof. intros Hp. unfold GetFileName. destruct (rfind slash path); [by apply not_elem_drop|done]. Qed.

(** the end of [CreateFile], the file made and its record written *)
Lemma create_file_tail (w w2 : world) (path : bytes) (d i : Z) (od : directory) (rest : list Z)
    (m m' : FileMeta) (e : Z) (evs : list sys_event) (st : store) :
  fs_inv w -> dir_tree w -> file_tree w ->
  lookup_dir w (GetDirName path) = Some d -> w_dirs w !! d = Some od ->
  file_key w path = Some (do_meta od, GetFileName path) ->
  fh_created_files (w_fh w) !! (do_meta od, GetFileName path) = None ->
  fh_free (w_fh w) = i :: rest ->
  new_record i (do_meta od) (GetFileName path) false m ->
  new_record i (do_meta od) (GetFileName path) false m' ->
  meta_step (with_new_file i rest m w) w2 -> w2 = upd_io e evs st (with_new_file i rest m' w) ->
  file_persisted w2 i ->
  wp (AddFileToDirectory d (w_next w) ;; set_errno 0 ;; ret (Some (w_next w)))
     (create_file_post w path) w2.
Proof.
  intros Hi Hd Ht Hdir Hod Hkey Hnew Hfree Hrec Hrec' Hs2 Hw2 Hper.
  destruct (free_record_facts w i rest Hi Hfree) as (Hr & _ & _ & Hl & _).
  pose proof (lo_max_file _ (fi_layout _ Hi)). pose proof (ft_next _ Ht) as Hn.
  pose proof (with_new_file_inv w i _ rest _ false m Hi Hn Hfree Hrec) as Hi1.
  destruct (lookup_dir_some _ _ _ Hd Hdir) as (p & od' & md & _ & Hp & Hod' & _ & _ & _ & Hdr).
  rewrite Hod in Hod'. injection Hod' as <-.
  assert (Hid : do_items od !! i = None).
  { destruct (do_items od !! i) as [g|] eqn:Hg; [|done]. destruct Hl.
    destruct (ft_items _ Ht d od i g (ex_intro _ p Hp) Hod Hg) as (o & nm & _ & Ho & <-).
    exists g, (view_fo o). split; [by apply view_files_lookup|done]. }
  destruct (file_entry_tree w d i od rest p (GetFileName path) m' Hi Hd Ht Hfree Hp Hod Hnew Hrec')
    as [Hft Hdt].
  wp_step. eapply wp_run.
  { apply (AddFileToDirectory_new w2 d i (w_next w) (MkFile i ∅ 0 false false) m' od);
      rewrite ?Hw2; cbn; rewrite ?lookup_insert_eq; try done; try lia.
    - rewrite (nr_dh _ _ _ _ _ Hrec'). lia.
    - apply Hrec'. }
  rewrite (nr_dh _ _ _ _ _ Hrec'), (nr_name _ _ _ _ _ Hrec').
  unfold set_errno. do 3 wp_step.
  assert (Hs3 : meta_step (with_new_file i rest m w)
    (set_w_errno 0 (with_file_entry d i (w_next w) od (do_meta od, GetFileName path) w2))).
  { etrans; [exact Hs2|]. etrans; [|apply set_errno_step]. apply with_file_entry_step. by rewrite Hw2. }
  assert (Hct : forall g, file_content (set_w_errno 0 (with_file_entry d i (w_next w) od
      (do_meta od, GetFileName path) w2)) g = if decide (g = w_next w) then [] else file_content w g).
  { intros g. rewrite (file_content_meta_step _ _ g Hi1 Hs3).
    by apply (with_new_file_content w i (do_meta od) rest (GetFileName path) false m). }
  assert (Hbh : bh_pool (w_bh w2) = bh_pool (w_bh w)) by by rewrite Hw2.
  constructor; try done.
  - by apply (fs_inv_meta_step _ _ Hs3).
  - eapply dir_tree_ext; [..|exact Hdt]; by rewrite Hw2.
  - eapply file_tree_ext; [..|exact Hft]; try by rewrite Hw2. rewrite Hw2. eauto.
  - intros g Hg. rewrite Hct, decide_False; [done|]. intros ->. apply Hn in Hg. lia.
  - by rewrite Hw2.
  - intros f [= <-]. exists (do_meta od, GetFileName path), i. split_and!; try done.
    + destruct (w_files w !! w_next w) eqn:Hg; [|done]. specialize (Hn (w_next w) ltac:(by eexists)). lia.
    + by rewrite Hw2.
    + rewrite Hw2. cbn. by rewrite lookup_insert_eq.
    + by rewrite Hct, decide_True.
  - intros f [= <-]. exists i, m'. rewrite Hw2. split_and!; try done; [by apply Hrec'|].
    intros g o Ho Heq. apply Hl. exists g, (view_fo o). split; [by apply view_files_lookup|done].
Qed.

Lemma CreateFile_wp (w : world) (path : bytes) (mode : Z) :
  fs_inv w -> dir_tree w -> file_tree w -> 0 ∉ path ->
  wp (FileHandle_CreateFile path mode false) (create_file_post w path) w.
Proof.
  intros Hi Hd Ht H0. unfold FileHandle_CreateFile. cbn [negb]. wp_step.
  eapply looks_up_wp; [apply file_TransformPath_run|]. intros e.
  destruct (ends_with_slash path) eqn:Hsl.
  { wp_step. apply create_file_refuse; try done. unfold file_key. rewrite Hsl. by intros (_ & ? & [=] & _). }
  destruct (Z.leb_spec kBlockFsMaxFileNameLen (Z.of_nat (length (GetFileName path)))) as [Hlen|Hlen].
  { wp_step. apply create_file_refuse; try done. unfold file_key. rewrite Hsl.
    destruct (Z.leb_spec kBlockFsMaxFileNameLen (Z.of_nat (length (GetFileName path)))); [|lia].
    by intros (_ & ? & [=] & _). }
  assert (Hkey : file_key w path = d ← lookup_dir w (GetDirName path); o ← w_dirs w !! d;
    Some (do_meta o, GetFileName path)).
  { unfold file_key. rewrite Hsl. by destruct (Z.leb_spec kBlockFsMaxFileNameLen
      (Z.of_nat (length (GetFileName path)))); [lia|]. }
  change kBlockFsMaxFileNameLen with 64 in Hlen. wp_step.
  eapply wp_mono; [apply (NewFile_wp (set_w_errno e w)); [|by apply (dir_tree_ext w)|
    by apply GetFileName_no_nul|lia]|].
  { apply (fs_inv_meta_step w); [apply set_errno_step|done]. }
  intros [[d f]|] w1.
  2:{ intros [[e1 ->] Hno]. wp_step. apply (create_file_refuse w path e1); try done.
      intros (Hfr & key & Hk & Hnone). apply Hno. split; [done|]. rewrite Hkey in Hk.
      apply bind_Some in Hk as (d & Hdd & Hk). apply bind_Some in Hk as (od & Hod & [= <-]).
      by exists d, od. }
  intros (-> & e1 & od & i & rest & m & Hdir & Hod & Hnone & Hfree & -> & Hrec).
  set (w0 := set_w_errno e1 w).
  assert (Hi0 : fs_inv w0) by (apply (fs_inv_meta_step w); [apply set_errno_step|done]).
  assert (Hd0 : dir_tree w0) by by apply (dir_tree_ext w).
  assert (Ht0 : file_tree w0) by by apply file_tree_errno.
  assert (Hkey0 : file_key w0 path = Some (do_meta od, GetFileName path)).
  { change (file_key w0 path) with (file_key w path). rewrite Hkey.
    change (lookup_dir w (GetDirName path) = Some d) in Hdir. rewrite Hdir. cbn.
    change (w_dirs w !! d = Some od) in Hod. by rewrite Hod. }
  wp_step. eapply wp_mono; [by apply (write_new_file_wp w0 i (do_meta od) rest (GetFileName path) m Hi0
    (ft_next _ Ht0))|].
  intros ok w2 (Hs2 & Hg & Hper & m' & e2 & evs & st & Hrec' & Hw2). destruct ok; cbn [negb].
  - eapply wp_mono; [apply (create_file_tail w0 w2 path d i od rest m m' e2 evs st); try done;
      by apply Hper|]. intros r w' []. by constructor.
  - wp_step. pose proof (with_new_file_inv w0 i _ rest _ false m Hi0 (ft_next _ Ht0) Hfree Hrec) as Hi1.
    constructor; try done.
    + by apply (fs_inv_meta_step _ _ Hs2).
    + rewrite Hw2. apply (dir_tree_next w); try done. cbn. lia.
    + rewrite Hw2. eapply file_tree_ext; [..|apply (with_new_file_tree w0 i rest m' Hi0 Ht0 Hfree)]; try done.
      eauto.
    + intros g Hgx. rewrite (file_content_meta_step _ _ g Hi1 Hs2).
      rewrite (with_new_file_content w0 i (do_meta od) rest (GetFileName path) false m g Hi0
        (ft_next _ Ht0) Hfree Hrec), decide_False; [done|].
      intros ->. apply (ft_next _ Ht0) in Hgx. lia.
    + by rewrite Hw2.
    + by rewrite Hw2.
    + by rewrite Hw2.
    + intros key Hgood. by discriminate Hg.
    + intros Hgood. by discriminate Hg.
Qed.

End FileNames.
