(* ===== verification/FileEntries.v ===== *)
(** * Entries of files in their directories and in the maps

    Taking a file out of its directory and of the maps, and entering a file
    that is listed nowhere: what both do to the maps of files ([file_tree]) and
    to the tree of directories, and how the code does them. *)

From S2P Require Import Prelude Meta Device World SuperBlock Resources Paths FileBlock Inode.
From S2P Require Import Directory FileHandle File OpenFile FileHandleOps DirHandle.
From S2P Require Import Io Invariant MetaSteps Views Content FileGrow FileIO FileShrink Truncate.
From S2P Require Import DirSteps Names DirOps FileNames.

(** ** Changes that the maps do not show *)

Lemma file_tree_same_meta (w : world) (f : Z) (o o' : file) :
  w_files w !! f = Some o -> fo_meta o' = fo_meta o -> file_tree w ->
  file_tree (set_w_files (<[f := o']> (w_files w)) w).
Proof.
  intros Ho Hm [Hc Hf Hi Hn].
  assert (Hobj : forall g og, w_files w !! g = Some og -> exists og',
    <[f := o']> (w_files w) !! g = Some og' /\ fo_meta og' = fo_meta og).
  { intros g og Hg. destruct (decide (f = g)) as [<-|].
    - exists o'. rewrite lookup_insert_eq. split; [done|]. congruence.
    - exists og. by rewrite lookup_insert_ne. }
  constructor.
  - intros dh nm g Hk. destruct (Hc dh nm g Hk) as (og & mg & c & oc & Hog & Hr).
    destruct (Hobj g og Hog) as (og' & Hog' & He). exists og', mg, c, oc. by rewrite He.
  - intros j g Hj. destruct (Hf j g Hj) as (key & og & ? & Hog & <-).
    destruct (Hobj g og Hog) as (og' & ? & ?). by exists key, og'.
  - intros c oc j g Hp Hoc Hj. destruct (Hi c oc j g Hp Hoc Hj) as (og & nm & ? & Hog & <-).
    destruct (Hobj g og Hog) as (og' & ? & ?). by exists og', nm.
  - intros g. cbn. intros [<-|[_ Hg]]%lookup_insert_is_Some; apply Hn; [by eexists|done].
Qed.

(** a record that no listed file has is replaced *)
Lemma file_tree_unlisted_record (w : world) (i : Z) (m : FileMeta) :
  file_tree w ->
  (forall key g og, fh_created_files (w_fh w) !! key = Some g -> w_files w !! g = Some og ->
     fo_meta og <> i) ->
  file_tree (set_w_filemeta (<[i := m]> (w_filemeta w)) w).
Proof.
  intros [Hc Hf Hi Hn] Hun. constructor; try done.
  intros dh nm g Hk. destruct (Hc dh nm g Hk) as (og & mg & c & oc & Hog & Hmg & Hr).
  exists og, mg, c, oc. cbn. rewrite lookup_insert_ne; [done|]. intros Heq.
  by apply (Hun (dh, nm) g og).
Qed.

Lemma files_meta_inj (w : world) (f g : Z) (o og : file) :
  fs_inv w -> w_files w !! f = Some o -> w_files w !! g = Some og -> fo_meta og = fo_meta o -> g = f.
Proof.
  intros Hi Ho Hg Heq. destruct (decide (g = f)) as [|Hne]; [done|].
  by destruct (i_apart _ _ (fi_inv _ Hi) g f (view_fo og) (view_fo o)
    (view_files_lookup _ _ _ Hg) (view_files_lookup _ _ _ Ho) Hne).
Qed.

(** ** Taking a file out *)

(** the world when the file with record [i], listed in directory [d], is taken out *)
Definition with_removed (i d : Z) (od : directory) (key : Z * bytes) (w : world) : world :=
  set_w_fh (set_fh_created_fhs (delete i (fh_created_fhs (w_fh w)))
             (set_fh_created_files (delete key (fh_created_files (w_fh w))) (w_fh w)))
    (set_w_dirs (<[d := set_do_items (delete i (do_items od)) od]> (w_dirs w)) w).

Lemma remove_entry_tree (w : world) (f d : Z) (o : file) (od : directory) (p name : bytes) :
  fs_inv w -> dir_tree w -> file_tree w ->
  fh_created_files (w_fh w) !! (do_meta od, name) = Some f -> w_files w !! f = Some o ->
  dh_created_dirs (w_dh w) !! p = Some d -> w_dirs w !! d = Some od ->
  let w' := with_removed (fo_meta o) d od (do_meta od, name) w in
  file_tree w' /\ dir_tree w' /\
  (forall key g, fh_created_files (w_fh w') !! key = Some g ->
     g <> f /\ forall og, w_files w !! g = Some og -> fo_meta og <> fo_meta o) /\
  (forall c oc, (exists q, dh_created_dirs (w_dh w') !! q = Some c) -> w_dirs w' !! c = Some oc ->
     do_items oc !! fo_meta o = None).
Proof.
  intros Hi Hd Ht Hk Ho Hp Hod w'. set (i := fo_meta o) in *.
  set (od' := set_do_items (delete i (do_items od)) od).
  pose proof Ht as [Hc Hf Hit Hn].
  assert (Hobj : forall g og, g <> f -> w_files w !! g = Some og -> fo_meta og <> i).
  { intros g og Hne Hg Heq. apply Hne. by apply (files_meta_inj w f g o og). }
  assert (Hkf : forall key g, key <> (do_meta od, name) -> fh_created_files (w_fh w) !! key = Some g ->
    g <> f).
  { intros key g Hne Hg ->. apply Hne. by apply (file_tree_inj w key _ f). }
  assert (Hdir : forall c x, w_dirs w !! c = Some x -> exists x', w_dirs w' !! c = Some x' /\
    do_meta x' = do_meta x /\ forall j, j <> i -> do_items x' !! j = do_items x !! j).
  { intros c x Hx. cbn. destruct (decide (d = c)) as [<-|].
    - exists od'. rewrite lookup_insert_eq. simplify_eq. split_and!; try done. intros j Hj. cbn.
      by rewrite lookup_delete_ne.
    - exists x. by rewrite lookup_insert_ne. }
  assert (Hdir' : forall c oc, w_dirs w' !! c = Some oc -> exists x, w_dirs w !! c = Some x /\
    do_meta oc = do_meta x /\ (forall j g, do_items oc !! j = Some g -> do_items x !! j = Some g) /\
    (c = d -> do_items oc !! i = None)).
  { intros c oc Hoc. cbn in Hoc. destruct (decide (d = c)) as [<-|].
    - rewrite lookup_insert_eq in Hoc. simplify_eq. exists od. split_and!; try done.
      + intros j g. cbn. by intros [_ ?]%lookup_delete_Some.
      + intros _. apply lookup_delete_eq.
    - rewrite lookup_insert_ne in Hoc by done. exists oc. by split_and!. }
  (* an entry of record [i] is the one of directory [d] *)
  assert (Hentry : forall q c x j g, dh_created_dirs (w_dh w) !! q = Some c -> w_dirs w !! c = Some x ->
    do_items x !! j = Some g -> j = i -> c = d).
  { intros q c x j g Hq Hx Hj ->. destruct (Hit c x i g (ex_intro _ q Hq) Hx Hj) as (og & nm & Hkg & Hog & Hgi).
    assert (g = f) as -> by (apply dec_stable; intros ?; by apply (Hobj g og)).
    assert (Heq : (do_meta x, nm) = (do_meta od, name)) by by apply (file_tree_inj w _ _ f).
    injection Heq as Heq _.
    destruct (dt_created _ Hd _ _ Hq) as (x' & _ & Hx' & _ & _ & _ & _ & _ & H1).
    destruct (dt_created _ Hd _ _ Hp) as (od2 & _ & Hod2 & _ & _ & _ & _ & _ & H2). simplify_eq.
    rewrite Heq in H1. by simplify_eq. }
  split; [constructor|split; [|split]].
  - intros dh nm g. cbn. intros [Hne Hg]%lookup_delete_Some.
    pose proof (Hkf _ _ (not_eq_sym Hne) Hg) as Hgf.
    destruct (Hc dh nm g Hg) as (og & mg & c & oc & Hog & Hmg & ? & ? & ? & Hfhs & Hcd & Hoc & Hio).
    pose proof (Hobj g og Hgf Hog) as Hgi. destruct (Hdir c oc Hoc) as (oc' & Hoc' & _ & Hitems).
    exists og, mg, c, oc'. rewrite (lookup_delete_ne (fh_created_fhs (w_fh w))) by done.
    split_and!; try done. by rewrite Hitems.
  - intros j g. cbn. intros [Hne Hg]%lookup_delete_Some.
    destruct (Hf j g Hg) as (key & og & Hkey & Hog & Hj).
    assert (Hgf : g <> f) by (intros ->; simplify_eq; done).
    exists key, og. split_and!; try done. rewrite lookup_delete_ne; [done|]. intros <-. by simplify_eq.
  - intros c oc j g [q Hq] Hoc Hj. destruct (Hdir' c oc Hoc) as (x & Hx & -> & Hitems & Hcd).
    pose proof (Hitems j g Hj) as Hxj.
    destruct (Hit c x j g (ex_intro _ q Hq) Hx Hxj) as (og & nm & Hkey & Hog & Hgj).
    exists og, nm. split_and!; try done. cbn. rewrite lookup_delete_ne; [done|].
    intros Heq. rewrite <- Heq, Hk in Hkey. injection Hkey as <-. rewrite Ho in Hog. injection Hog as <-.
    assert (Hji : j = i) by done. rewrite Hji in Hj.
    by rewrite (Hcd (Hentry q c x j f Hq Hx Hxj Hji)) in Hj.
  - done.
  - eapply (dir_tree_ext (set_w_dirs (<[d := od']> (w_dirs w)) w)); try done.
    apply dir_tree_items; try done. intros j [_ Hj]%lookup_delete_is_Some. by apply (dt_items _ Hd d od).
  - intros key g. cbn. intros [Hne Hg]%lookup_delete_Some.
    pose proof (Hkf _ _ (not_eq_sym Hne) Hg) as Hgf. split; [done|]. intros og. by apply Hobj.
  - intros c oc [q Hq] Hoc. destruct (Hdir' c oc Hoc) as (x & Hx & _ & Hitems & Hcd).
    destruct (do_items oc !! i) as [g|] eqn:Hg; [|done]. pose proof (Hitems i g Hg) as Hxi.
    pose proof (Hcd (Hentry q c x i g Hq Hx Hxi eq_refl)). congruence.
Qed.

(** where a file is: its record, its directory and its entry *)
Lemma created_place (w : world) (f : Z) (o : file) (dh : Z) (name : bytes) :
  fs_inv w -> dir_tree w -> file_tree w ->
  fh_created_files (w_fh w) !! (dh, name) = Some f -> w_files w !! f = Some o ->
  exists m d0 od0 p0, dh = do_meta od0 /\ w_filemeta w !! fo_meta o = Some m /\ fm_fh m = fo_meta o /\
    fm_dh m = do_meta od0 /\ meta_file_name m = name /\ fm_used m = true /\
    fh_created_fhs (w_fh w) !! fo_meta o = Some f /\ dh_created_dhs (w_dh w) !! do_meta od0 = Some d0 /\
    dh_created_dirs (w_dh w) !! p0 = Some d0 /\ w_dirs w !! d0 = Some od0 /\
    do_items od0 !! fo_meta o = Some f /\
    0 <= do_meta od0 < sb_max_file_num (w_super w) /\ 0 <= fo_meta o < sb_max_file_num (w_super w).
Proof.
  intros Hi Hd Ht Hk Ho.
  destruct (ft_created _ Ht _ _ _ Hk) as (o' & m & d0 & od0 & Ho' & Hm & Hdh & Hnm & Hu & Hfhs & Hcd & Hod0 & Hit).
  assert (o' = o) as -> by congruence.
  destruct (dt_dhs _ Hd _ _ Hcd) as (p0 & od & Hp0 & Hod & Hdm). assert (od = od0) as -> by congruence.
  destruct (dt_created _ Hd _ _ Hp0) as (od & md0 & Hod' & Hmd0 & _). assert (od = od0) as -> by congruence.
  exists m, d0, od0, p0. split; [done|]. split; [done|]. split.
  { destruct (i_files _ _ (fi_inv _ Hi) _ _ (view_files_lookup _ _ _ Ho)) as (_ & _ & mv & Hmv & Hfhm & _).
    change (ov_meta (view_fo o)) with (fo_meta o) in Hmv, Hfhm.
    rewrite (view_fm_some _ _ _ Hm) in Hmv. injection Hmv as <-. exact Hfhm. }
  split; [congruence|]. do 3 (split; [done|]). split; [congruence|]. do 3 (split; [done|]).
  split; [apply (dmo_dom _ (dt_meta _ Hd)); by eexists|by apply (filemeta_range _ _ _ Hi Hm)].
Qed.
