(* ===== verification/Unlink.v ===== *)
(** * Removing a file

    What [FileHandle::unlink] does: the blocks of the file go back to the pool,
    its file block to the free list, both records are cleared on the device, and
    the name leaves its directory and the maps. *)

From S2P Require Import Prelude Meta Device World SuperBlock Resources Paths FileBlock Inode.
From S2P Require Import Directory FileHandle File OpenFile FileHandleOps DirHandle.
From S2P Require Import Io Invariant MetaSteps Views Content FileGrow FileIO FileShrink Truncate.
From S2P Require Import DirSteps Names DirOps FileNames FileEntries.

(** ** Steps that leave every other file alone, the invariant aside *)

Record base_step (w w' : world) : Prop := {
  bs_base : fs_base w';
  bs_env : env_step w w';
  bs_data : data_same w w'
}.

Lemma base_step_trans (w1 w2 w3 : world) : base_step w1 w2 -> base_step w2 w3 -> base_step w1 w3.
Proof.
  intros [B1 E1 D1] [B2 E2 D2]. constructor; [done|by etrans|].
  by eapply data_same_trans; [apply E1|..].
Qed.

Lemma base_step_intro (w w' : world) :
  fs_base w -> env_step w w' -> data_same w w' ->
  (forall i, is_Some (w_fbmeta w' !! i) <-> is_Some (w_fbmeta w !! i)) ->
  (forall i, is_Some (w_filemeta w' !! i) <-> is_Some (w_filemeta w !! i)) -> base_step w w'.
Proof.
  intros [] HE HD Hb Hm. constructor; try done.
  constructor; rewrite ?(es_super _ _ HE), ?(es_size _ _ HE); auto; [by apply HE|..]; intros i.
  - by rewrite Hb.
  - by rewrite Hm.
Qed.

Lemma insert_dom_iff {A} (a : gmap Z A) (i : Z) (x : A) :
  is_Some (a !! i) -> forall j, is_Some (<[i := x]> a !! j) <-> is_Some (a !! j).
Proof.
  intros Hi j. rewrite lookup_insert_is_Some. destruct (decide (i = j)) as [<-|]; naive_solver.
Qed.

Lemma foldl_union_set (l : list Z) (s : gset Z) :
  foldl (fun pool i => {[i]} ∪ pool) s l = list_to_set l ∪ s.
Proof.
  apply set_eq. intros x.
  rewrite Blocks.foldl_union_elem, elem_of_union, elem_of_list_to_set. tauto.
Qed.

Section Unlink.
Context `{Env}.

(** ** [FileBlock::ReleaseAll] *)

(** the world when file block [fb] and its [blocks] are free *)
Definition with_released (fb : Z) (m : FileBlockMeta) (blocks free : list Z) (w : world) : world :=
  set_w_free_fbhs (w_free_fbhs w ++ free)
    (set_w_fbmeta (<[fb := m]> (w_fbmeta w))
    (set_w_bh (set_bh_pool (list_to_set blocks ∪ bh_pool (w_bh w)) (w_bh w)) w)).

Lemma put_blocks_run (l : list Z) (w : world) :
  exists b, Blocks.PutFreeBlockIdsLock l w
    = Done b (set_w_bh (set_bh_pool (list_to_set l ∪ bh_pool (w_bh w)) (w_bh w)) w).
Proof.
  destruct l as [|x l]; unfold Blocks.PutFreeBlockIdsLock.
  - exists false. cbn. by rewrite union_empty_l_L, set_w_bh_same.
  - exists true. unfold bind, gets, modify, ret. by rewrite foldl_union_set.
Qed.

Lemma ReleaseAll_wp (w : world) (fb : Z) (m : FileBlockMeta) :
  fs_base w -> w_fbmeta w !! fb = Some m ->
  wp (FileBlock_ReleaseAll fb) (fun ok w' => base_step w w' /\ (dev_good w -> ok = true) /\
    (ok = true -> fb_persisted w' fb) /\
    exists m' e evs st, view_fb m' = MkFbView false 0 [] /\
      w' = upd_io e evs st (with_released fb m' (fb_blocks m) (if ok then [fb] else []) w)) w.
Proof.
  intros Hb Hm. assert (Hr : 0 <= fb < sb_max_file_block_num (w_super w))
    by (apply (fb_fb_dom _ Hb); by eexists).
  unfold FileBlock_ReleaseAll. wp_step. eapply wp_get_fbmeta; [exact Hm|].
  wp_step. apply wp_used_blocks; [apply (proj1 (fb_wf _ Hb) _ _ Hm)|].
  destruct (put_blocks_run (fb_blocks m) w) as [b Hput].
  wp_step. eapply wp_run; [exact Hput|]. wp_step. eapply wp_upd_fbmeta; [exact Hm|].
  set (m1 := FileBlock_ClearMeta m). set (w1 := set_w_fbmeta _ _).
  assert (H1 : base_step w w1).
  { apply base_step_intro; try done; [|by apply insert_dom_iff].
    etrans; [|by apply env_step_fbmeta, FileBlock_ClearMeta_ok, (proj1 (fb_wf _ Hb) _ _ Hm)].
    by constructor. }
  wp_step. eapply wp_mono; [by apply (FileBlock_WriteMeta_base_wp w1 fb (bs_base _ _ H1))|].
  intros ok w2 (Hs & Hg & Hp & _ & m0 & e & evs & st & Hm0 & Hw2).
  cbn in Hm0. rewrite lookup_insert_eq in Hm0. injection Hm0 as <-.
  assert (H2 : base_step w w2).
  { eapply base_step_trans; [exact H1|].
    apply base_step_intro; [apply H1|apply Hs|apply Hs|rewrite Hw2..]; [|done].
    apply insert_dom_iff. cbn. rewrite lookup_insert_eq. by eexists. }
  assert (Hg' : dev_good w -> ok = true) by (intros Hgood; by apply Hg, (es_good _ _ (bs_env _ _ H1))).
  set (m2 := set_fb_crc (fb_crc_of m1) m1) in *.
  assert (Heq : forall free, set_w_free_fbhs (w_free_fbhs w2 ++ free) w2
    = upd_io e evs st (with_released fb m2 (fb_blocks m) free w)).
  { intros free. rewrite Hw2. unfold with_released, w1. cbn. by rewrite insert_insert_eq. }
  destruct ok; cbn [negb].
  - unfold PutFileBlockLock. do 3 wp_step.
    split_and!; [|done|done|exists m2, e, evs, st; split; [done|exact (Heq [fb])]].
    eapply base_step_trans; [exact H2|]. apply base_step_intro; try done. apply H2.
  - wp_step. split_and!; [done..|]. exists m2, e, evs, st. split; [done|]. rewrite <- Heq, app_nil_r.
    by destruct w2.
Qed.

(** ** [RemoveAllFileBlock] *)

Lemma map_order_empty : map_order (∅ : gmap Z Z) = [].
Proof. apply Permutation_nil. symmetry. rewrite map_order_perm. by rewrite map_to_list_empty. Qed.

Lemma map_order_singleton (k x : Z) : map_order ({[k := x]} : gmap Z Z) = [(k, x)].
Proof.
  apply Permutation_length_1_inv. symmetry.
  rewrite map_order_perm. by rewrite map_to_list_singleton.
Qed.

(** the blocks and the file block of [o] in [w] are free in [w'], when [ok] *)
Definition blocks_freed (w : world) (o : file) (ok : bool) (w' : world) : Prop :=
  (fo_items o = ∅ /\ ok = true /\ w' = w) \/
  (exists fb m m' e evs st, fo_items o = {[0 := fb]} /\ w_fbmeta w !! fb = Some m /\
     view_fb m' = MkFbView false 0 [] /\ (ok = true -> fb_persisted w' fb) /\
     w' = upd_io e evs st (with_released fb m' (fb_blocks m) (if ok then [fb] else []) w)).

Lemma release_all_wp (w : world) (f : Z) (o : file) :
  fs_inv w -> w_files w !! f = Some o ->
  wp (release_all (map_order (fo_items o))) (fun ok w' => base_step w w' /\
    (dev_good w -> ok = true) /\ blocks_freed w o ok w') w.
Proof.
  intros Hi Ho. assert (Hb0 : fs_base w) by by apply fs_inv_base.
  destruct (i_files _ _ (fi_inv _ Hi) _ _ (view_files_lookup _ _ _ Ho))
    as (_ & _ & mv & _ & _ & [[He _]|(fb & b & He & Hb & _)]); cbn in He; rewrite He.
  - rewrite map_order_empty. cbn [release_all]. wp_step. split_and!; [|done|by left].
    by apply base_step_intro.
  - rewrite map_order_singleton. cbn [release_all]. apply view_fb_lookup in Hb as (m & Hm & ->).
    wp_step. eapply wp_mono; [by apply (ReleaseAll_wp w fb m)|].
    intros ok w1 (Hs & Hg & Hp & m' & e & evs & st & Hv & Hw). assert (Hf : blocks_freed w o ok w1).
    { right. by exists fb, m, m', e, evs, st. }
    destruct ok; cbn [negb]; wp_step; split_and!; done.
Qed.

(** ** The other files meanwhile *)

Lemma blocks_freed_frame (w w' : world) (f : Z) (o : file) (ok : bool) :
  fs_inv w -> w_files w !! f = Some o -> blocks_freed w o ok w' ->
  w_super w' = w_super w /\ w_files w' = w_files w /\ w_filemeta w' = w_filemeta w /\
  w_fh w' = w_fh w /\ w_dh w' = w_dh w /\ w_dirs w' = w_dirs w /\ w_dirmeta w' = w_dirmeta w /\
  w_next w' = w_next w /\ w_now w' = w_now w /\ w_opens w' = w_opens w /\
  (forall g fb, g <> f -> file_fb (view_of w) g = Some fb ->
     v_fb (view_of w') !! fb = v_fb (view_of w) !! fb).
Proof.
  intros Hi Ho [(_ & _ & ->)|(fb & m & m' & e & evs & st & He & Hm & Hv & _ & ->)]; [by split_and!|].
  split_and!; try done. intros g fbg Hne Hg. cbn. rewrite !lookup_fmap, lookup_insert_ne; [done|].
  intros <-. apply Hne. eapply file_fb_inj; [by apply fi_inv|exact Hg|].
  unfold file_fb. rewrite (view_files_lookup _ _ _ Ho). cbn. by rewrite He, lookup_singleton_eq.
Qed.

(** the contents of the other files when file [f] loses its blocks and its record
    is cleared *)
Lemma unlinking_content (w w1 w2 : world) (f g : Z) (o : file) (ok : bool) :
  fs_inv w -> w_files w !! f = Some o -> blocks_freed w o ok w1 -> g <> f ->
  base_step w w2 ->
  w_files w2 !! g = w_files w !! g -> v_fb (view_of w2) = v_fb (view_of w1) ->
  (forall i, i <> fo_meta o -> w_filemeta w2 !! i = w_filemeta w !! i) ->
  file_content w2 g = file_content w g.
Proof.
  intros Hi Ho Hfr Hne Hs Hf Hfb Hm.
  destruct (blocks_freed_frame w w1 f o ok Hi Ho Hfr) as (_ & _ & _ & _ & _ & _ & _ & _ & _ & _ & Hb).
  destruct (file_frame (view_of w) (view_of w2) g) as [E1 E2].
  - cbn. by rewrite !lookup_fmap, Hf.
  - intros fb Hg. rewrite Hfb. by eapply Hb.
  - intros og Hog. cbn. rewrite !lookup_fmap, Hm; [done|].
    cbn in Hog. rewrite lookup_fmap in Hog. destruct (w_files w !! g) as [og'|] eqn:Hg'; [|done].
    cbn in Hog. injection Hog as <-. cbn.
    destruct (i_apart _ _ (fi_inv _ Hi) g f (view_fo og') (view_fo o)) as [Hmm _];
      [by apply view_files_lookup..|done|done].
  - apply file_content_data_same; try done; apply Hs.
Qed.

(** ** The file is gone *)

(** the world when file [f] with record [i], listed in directory [d], is removed *)
Definition with_unlinked (f i d : Z) (o : file) (m : FileMeta) (od : directory) (key : Z * bytes)
    (w : world) : world :=
  set_w_fh (set_fh_created_fhs (delete i (fh_created_fhs (w_fh w)))
             (set_fh_created_files (delete key (fh_created_files (w_fh w))) (w_fh w)))
    (set_w_dirs (<[d := set_do_items (delete i (do_items od)) od]> (w_dirs w))
    (set_w_filemeta (<[i := m]> (w_filemeta w))
    (set_w_files (<[f := set_fo_items ∅ o]> (w_files w)) w))).

(** the file [f] keeps its cleared record [i] and has no blocks *)
Definition emptied (f i : Z) (V : view) : view :=
  set_v_files (<[f := MkFoView i ∅]> (v_files V)) (set_v_fm (<[i := MkFmView i false 0]> (v_fm V)) V).

Lemma emptied_inv (sb : SuperBlockMeta) (V : view) (f : Z) (o : fo_view) :
  inv sb V -> v_files V !! f = Some o -> inv sb (emptied f (ov_meta o) V).
Proof.
  intros HV Ho. destruct (i_files _ _ HV _ _ Ho) as (Hp & Hf & m & Hm & _).
  apply (inv_put_file _ _ HV f (MkFoView (ov_meta o) ∅) (MkFmView (ov_meta o) false 0)); try done.
  - by left.
  - intros g og Hne Hg. destruct (i_apart _ _ HV g f og o Hg Ho Hne) as [? _]. by split.
Qed.

(** the view of the world when the blocks of [f] are back *)
Lemma freed_inv (sb : SuperBlockMeta) (V : view) (f fb : Z) (o : fo_view) (b : fb_view) :
  inv sb V -> v_files V !! f = Some o -> ov_items o = {[0 := fb]} -> v_fb V !! fb = Some b ->
  inv sb (set_v_free_fb (v_free_fb V ++ [fb])
    (set_v_pool (list_to_set (bv_blocks b) ∪ v_pool V)
    (set_v_fb (<[fb := MkFbView false 0 []]> (v_fb V)) (emptied f (ov_meta o) V)))).
Proof.
  intros HV Ho Hit Hb. pose proof (emptied_inv sb V f o HV Ho) as H1.
  assert (Hfb : file_fb V f = Some fb)
    by (unfold file_fb; rewrite Ho; cbn; by rewrite Hit, lookup_singleton_eq).
  assert (Hnf : fb ∉ v_free_fb V).
  { apply (live_fb_not_free _ _ HV). exists f, o. by rewrite Hit, lookup_singleton_eq. }
  assert (Hother : forall g og, v_files (emptied f (ov_meta o) V) !! g = Some og ->
    ov_items og !! 0 <> None -> g <> f /\ v_files V !! g = Some og).
  { intros g og Hg Hne. cbn in Hg. apply lookup_insert_Some in Hg as [[<- <-]|[? Hg]]; [done|]. done. }
  assert (Hdead : ~ live_fb (emptied f (ov_meta o) V) fb).
  { intros (g & og & Hg & Hogf). destruct (Hother g og Hg ltac:(congruence)) as [Hne Hg'].
    apply Hne. eapply file_fb_inj; [exact HV| |exact Hfb]. unfold file_fb. by rewrite Hg'. }
  assert (H2 : inv sb (set_v_fb (<[fb := MkFbView false 0 []]> (v_fb V)) (emptied f (ov_meta o) V))).
  { apply (inv_fb_dead _ _ H1); [cbn; rewrite Hb; by eexists|done|done]. }
  set (V2 := set_v_fb _ _) in H2 |- *.
  assert (H3 : inv sb (set_v_pool (list_to_set (bv_blocks b) ∪ v_pool V) V2)).
  { apply (inv_pool _ _ H2). intros x [Hx|Hx]%elem_of_union; [right|by left].
    apply (elem_of_list_to_set (C:=gset Z)) in Hx.
    assert (Hxf : x ∈ file_blocks V f) by by rewrite (file_blocks_eq V f o fb b);
      rewrite ?Hit, ?lookup_singleton_eq.
    split; [by apply (live_block_pool _ _ HV), (file_blocks_live _ _ HV f)|].
    intros (g & og & fbg & bg & Hg & Hogf & Hbg & Hxg).
    destruct (Hother g og Hg ltac:(congruence)) as [Hne Hg'].
    assert (fbg <> fb) by (intros ->; apply Hdead; by exists g, og).
    cbn in Hbg. rewrite lookup_insert_ne in Hbg by done.
    apply (file_blocks_disjoint _ _ HV f g x); [done|done|].
    by rewrite (file_blocks_eq V g og fbg bg). }
  apply (inv_free_fb_push _ _ H3 fb (MkFbView false 0 [])); try done. cbn. by rewrite lookup_insert_eq.
Qed.

Lemma with_unlinked_view (w w1 : world) (f d : Z) (o : file) (m : FileMeta) (od : directory)
    (key : Z * bytes) :
  fs_inv w -> w_files w !! f = Some o -> blocks_freed w o true w1 ->
  view_fm m = MkFmView (fo_meta o) false 0 ->
  let w2 := with_unlinked f (fo_meta o) d o m od key w1 in
  inv (w_super w) (view_of w2) /\
  v_pool (view_of w2) = list_to_set (file_blocks (view_of w) f) ∪ v_pool (view_of w) /\
  (forall fb, file_fb (view_of w) f = Some fb -> w_free_fbhs w2 = w_free_fbhs w ++ [fb]).
Proof.
  intros Hi Ho Hfr Hm w2. pose proof (view_files_lookup _ _ _ Ho) as Hov.
  destruct Hfr as [(He & _ & ->)|(fb & b & b' & e & evs & st & He & Hb & Hv & _ & ->)].
  - assert (Hview : view_of w2 = emptied f (fo_meta o) (view_of w)).
    { unfold view_of, w2, emptied. cbn. rewrite !fmap_insert, Hm. done. }
    rewrite Hview. split; [exact (emptied_inv _ _ f _ (fi_inv _ Hi) Hov)|].
    unfold file_blocks, file_fb. rewrite Hov. cbn. rewrite He. cbn. split; [set_solver|done].
  - assert (Hview : view_of w2 = set_v_free_fb (v_free_fb (view_of w) ++ [fb])
      (set_v_pool (list_to_set (bv_blocks (view_fb b)) ∪ v_pool (view_of w))
      (set_v_fb (<[fb := MkFbView false 0 []]> (v_fb (view_of w)))
        (emptied f (fo_meta o) (view_of w))))).
    { unfold view_of, w2, emptied. cbn. rewrite !fmap_insert, Hm, Hv. done. }
    assert (Hbv : v_fb (view_of w) !! fb = Some (view_fb b)) by by apply view_fb_some.
    rewrite Hview. split_and!.
    + by apply (freed_inv _ _ f fb (view_fo o) (view_fb b) (fi_inv _ Hi) Hov).
    + by rewrite (file_blocks_eq _ f (view_fo o) fb (view_fb b) Hov) by
        (cbn; by rewrite ?He, ?lookup_singleton_eq).
    + intros fb'. unfold file_fb. rewrite Hov. cbn. rewrite He, lookup_singleton_eq. by intros [= <-].
Qed.

Lemma with_unlinked_tree (w : world) (f d : Z) (o : file) (m : FileMeta) (od : directory)
    (p name : bytes) :
  fs_inv w -> dir_tree w -> file_tree w ->
  fh_created_files (w_fh w) !! (do_meta od, name) = Some f -> w_files w !! f = Some o ->
  dh_created_dirs (w_dh w) !! p = Some d -> w_dirs w !! d = Some od ->
  let w' := with_unlinked f (fo_meta o) d o m od (do_meta od, name) w in file_tree w' /\ dir_tree w'.
Proof.
  intros Hi Hd Ht Hk Ho Hp Hod w'.
  destruct (remove_entry_tree w f d o od p name Hi Hd Ht Hk Ho Hp Hod) as (Hft & Hdt & Hun & _).
  set (w1 := with_removed (fo_meta o) d od (do_meta od, name) w) in *. split.
  - change (file_tree (set_w_filemeta (<[fo_meta o := m]> (w_filemeta w1))
      (set_w_files (<[f := set_fo_items ∅ o]> (w_files w1)) w1))).
    assert (H1 : file_tree (set_w_files (<[f := set_fo_items ∅ o]> (w_files w1)) w1))
      by by apply (file_tree_same_meta w1 f o).
    apply (file_tree_unlisted_record _ _ _ H1). intros key g og Hg Hog. cbn in Hog.
    destruct (Hun key g Hg) as [Hgf Hgm]. rewrite lookup_insert_ne in Hog by done. by apply Hgm.
  - by eapply (dir_tree_ext w1).
Qed.

(** ** [unlink_file] *)

(** what is left when file [f] in directory [d] is removed *)
Record unlink_post (w : world) (f : Z) (o : file) (od : directory) (name : bytes) (r : Z)
    (w' : world) : Prop := {
  up_result : r = 0 \/ r = -1;
  up_base : fs_base w';
  up_super : w_super w' = w_super w;
  up_others : forall g, g <> f -> file_content w' g = file_content w g;
  up_good : dev_good w -> r = 0;
  up_inv : r = 0 -> fs_inv w' /\ dir_tree w' /\ file_tree w';
  up_paths : dh_created_dirs (w_dh w') = dh_created_dirs (w_dh w);
  up_names : r = 0 -> fh_created_files (w_fh w')
    = delete (do_meta od, name) (fh_created_files (w_fh w));
  up_empty : r = 0 -> file_content w' f = [];
  up_pool : r = 0 -> bh_pool (w_bh w') = list_to_set (file_blocks (view_of w) f) ∪ bh_pool (w_bh w);
  up_fb : r = 0 -> forall fb, file_fb (view_of w) f = Some fb ->
    w_free_fbhs w' = w_free_fbhs w ++ [fb];
  up_record : r = 0 -> file_persisted w' (fo_meta o) /\
    exists m, w_filemeta w' !! fo_meta o = Some m /\ fm_used m = false;
  up_frame : r = 0 -> w_files w' = <[f := set_fo_items ∅ o]> (w_files w) /\
    fh_free (w_fh w') = fh_free (w_fh w) /\
    exists m, w_filemeta w' = <[fo_meta o := m]> (w_filemeta w)
}.

Lemma RemoveFile_run (w : world) (d f : Z) (o : file) (m : FileMeta) (od : directory) :
  w_files w !! f = Some o -> w_filemeta w !! fo_meta o = Some m -> fm_fh m = fo_meta o ->
  0 <= fo_meta o < 2 ^ 31 -> 0 <= fm_dh m < 2 ^ 31 -> w_dirs w !! d = Some od ->
  is_Some (do_items od !! fo_meta o) ->
  is_Some (fh_created_files (w_fh w) !! (fm_dh m, meta_file_name m)) ->
  is_Some (fh_created_fhs (w_fh w) !! fo_meta o) ->
  RemoveFileFromoDirectory d f w = Done true
    (set_w_fh (set_fh_created_fhs (delete (fo_meta o) (fh_created_fhs (w_fh w)))
       (set_fh_created_files (delete (fm_dh m, meta_file_name m) (fh_created_files (w_fh w))) (w_fh w)))
     (set_w_dirs (<[d := set_do_items (delete (fo_meta o) (do_items od)) od]> (w_dirs w)) w)).
Proof.
  intros Ho Hm Hfh Hi Hdh Hod Hx1 Hx2 Hx3. unfold RemoveFileFromoDirectory.
  erewrite bind_run by by apply (RemoveChildFile_run w d f o m od). cbn [negb].
  set (w1 := set_w_dirs _ w). by rewrite (RemoveFileNoLock_run w1 f o m).
Qed.

(** the end of [unlink_file], the records written *)
Lemma unlinked_post (w w1 w4 w5 : world) (f d : Z) (o : file) (od : directory) (p name : bytes)
    (m2 : FileMeta) (e : Z) (evs : list sys_event) (st : store) :
  fs_inv w -> dir_tree w -> file_tree w ->
  fh_created_files (w_fh w) !! (do_meta od, name) = Some f -> w_files w !! f = Some o ->
  dh_created_dirs (w_dh w) !! p = Some d -> w_dirs w !! d = Some od ->
  blocks_freed w o true w1 -> base_step w w4 ->
  view_fm m2 = MkFmView (fo_meta o) false 0 ->
  (forall g, g <> f -> file_content w4 g = file_content w g) ->
  file_persisted w4 (fo_meta o) ->
  w4 = upd_io e evs st (set_w_filemeta (<[fo_meta o := m2]> (w_filemeta w1))
         (set_w_files (<[f := set_fo_items ∅ o]> (w_files w1)) w1)) ->
  w5 = set_w_errno 0 (upd_io e evs st
         (with_unlinked f (fo_meta o) d o m2 od (do_meta od, name) w1)) ->
  unlink_post w f o od name 0 w5.
Proof.
  intros Hi Hd Ht Hk Ho Hp Hod Hfr H4 Hm2 Hoth Hp4 Hw4 Hw5.
  destruct (blocks_freed_frame w w1 f o true Hi Ho Hfr)
    as (Es & Ef & Em & Eh & Ed & Er & Edm & En & Enow & _ & _).
  destruct (with_unlinked_view w w1 f d o m2 od (do_meta od, name) Hi Ho Hfr Hm2) as (HV & Hpool & Hfb).
  destruct (with_unlinked_tree w f d o m2 od p name Hi Hd Ht Hk Ho Hp Hod) as [Hft Hdt].
  assert (Hdirs : forall c, is_Some (w_dirs w !! c) -> is_Some (w_dirs w5 !! c)).
  { intros c Hc. rewrite Hw5. cbn. rewrite Er. apply lookup_insert_is_Some'. by right. }
  assert (H5 : base_step w4 w5).
  { apply base_step_intro; [apply H4| | | |]; rewrite ?Hw5, ?Hw4; try done.
    constructor; try done. intros Hok j c Hc. cbn. apply lookup_insert_is_Some'. right. by eapply Hok. }
  assert (H45 : base_step w w5) by by eapply base_step_trans.
  assert (Hi5 : fs_inv w5).
  { apply (fs_inv_env w); [apply H45|done|]. by rewrite Hw5. }
  assert (Hv45 : view_of w5 = view_of w4 /\ w_super w5 = w_super w4) by by rewrite Hw5, Hw4.
  constructor; try done; try apply H45; try by left.
  - intros g Hg. rewrite <- Hoth by done. unfold file_content. destruct Hv45 as [-> ->].
    by rewrite Hw5, Hw4.
  - intros _. split_and!; [done|..].
    + eapply dir_tree_ext; [..|exact Hdt]; rewrite Hw5; cbn; congruence.
    + eapply file_tree_ext; [..|exact Hft]; rewrite Hw5; cbn; try congruence. rewrite Em. eauto.
  - rewrite Hw5. cbn. by rewrite Ed.
  - intros _. rewrite Hw5. cbn. by rewrite Eh.
  - intros _. apply length_zero_iff_nil. apply Nat2Z.inj. rewrite (file_content_length w5 f Hi5).
    unfold file_size. rewrite Hw5. cbn. rewrite !lookup_fmap, lookup_insert_eq. cbn.
    rewrite !lookup_fmap, lookup_insert_eq. cbn. by injection Hm2 as _ _ ->.
  - intros _. by rewrite Hw5.
  - intros _ fb Hf. rewrite Hw5. by apply Hfb.
  - intros _. split.
    + rewrite Hw5. rewrite Hw4 in Hp4. exact Hp4.
    + exists m2. rewrite Hw5. cbn. rewrite lookup_insert_eq. by injection Hm2 as _ -> _.
  - intros _. rewrite Hw5. cbn. rewrite Ef, Em, Eh. split_and!; [done|done|by eexists].
Qed.

(** the removal of the name, after [w4], in which the record is released *)
Lemma unlink_name_wp (w w1 w4 : world) (f d : Z) (o : file) (od : directory) (p name : bytes)
    (m2 : FileMeta) (e : Z) (evs : list sys_event) (st : store) :
  fs_inv w -> dir_tree w -> file_tree w ->
  fh_created_files (w_fh w) !! (do_meta od, name) = Some f -> w_files w !! f = Some o ->
  dh_created_dirs (w_dh w) !! p = Some d -> w_dirs w !! d = Some od -> is_Some (do_items od !! fo_meta o) ->
  is_Some (fh_created_fhs (w_fh w) !! fo_meta o) ->
  blocks_freed w o true w1 -> base_step w w4 ->
  view_fm m2 = MkFmView (fo_meta o) false 0 -> fm_dh m2 = do_meta od -> meta_file_name m2 = name ->
  0 <= do_meta od < 2 ^ 31 -> 0 <= fo_meta o < 2 ^ 31 ->
  (forall g, g <> f -> file_content w4 g = file_content w g) ->
  file_persisted w4 (fo_meta o) ->
  w4 = upd_io e evs st (set_w_filemeta (<[fo_meta o := m2]> (w_filemeta w1))
         (set_w_files (<[f := set_fo_items ∅ o]> (w_files w1)) w1)) ->
  wp (let! ok := RemoveFileFromoDirectory d f in
      if negb ok then ret (-1) else set_errno 0 ;; ret 0) (unlink_post w f o od name) w4.
Proof.
  intros Hi Hd Ht Hk Ho Hp Hod Hit Hfhs Hfr H4 Hm2 Hdh Hnm Hdr Hr Hoth Hp4 Hw4.
  destruct (blocks_freed_frame w w1 f o true Hi Ho Hfr)
    as (_ & _ & _ & Eh & _ & Er & _).
  wp_step. eapply wp_run.
  { apply (RemoveFile_run w4 d f (set_fo_items ∅ o) m2 od); rewrite ?Hw4; cbn;
      rewrite ?lookup_insert_eq, ?Er, ?Eh, ?Hdh, ?Hnm; try done; try lia.
    by injection Hm2. }
  cbn [negb]. unfold set_errno. do 3 wp_step.
  apply (unlinked_post w w1 w4 _ f d o od p name m2 e evs st); try done.
  rewrite Hdh, Hnm, Hw4. reflexivity.
Qed.

Lemma unlink_file_wp (w : world) (d f : Z) (o : file) (od : directory) (p name : bytes) :
  fs_inv w -> dir_tree w -> file_tree w ->
  fh_created_files (w_fh w) !! (do_meta od, name) = Some f -> w_files w !! f = Some o ->
  dh_created_dirs (w_dh w) !! p = Some d -> w_dirs w !! d = Some od ->
  wp (unlink_file d f) (unlink_post w f o od name) w.
Proof.
  intros Hi Hd Ht Hk Ho Hp Hod.
  destruct (created_place w f o _ name Hi Hd Ht Hk Ho) as (m & d' & od2 & p2 & Ed & Hm & Hfh & Hdh & Hnm & Hu &
    Hfhs & Hcd & _ & Hod2 & Hit & Hdr & Hr).
  destruct (dt_created _ Hd _ _ Hp) as (od1 & md & Hod1 & Hmd & _ & _ & _ & _ & Hdhs).
  assert (od1 = od) as -> by congruence. assert (d' = d) as -> by congruence.
  assert (od2 = od) as -> by congruence. pose proof (lo_max_file _ (fi_layout _ Hi)) as Hmax.
  unfold unlink_file, RemoveAllFileBlock. do 2 wp_step. eapply wp_get_file; [exact Ho|].
  wp_step. eapply wp_mono; [by apply (release_all_wp w f o)|].
  intros ok w1 (H1 & Hg1 & Hfr).
  pose proof (blocks_freed_frame w w1 f o ok Hi Ho Hfr)
    as (Es & Ef & Em & Eh & Edh & Er & Edm & En & Enow & _ & _).
  destruct ok; cbn [negb].
  2:{ wp_step. cbn [negb]. wp_step. constructor; try done; try apply H1; try lia; [|by intros ?%Hg1|by rewrite Edh].
      intros g Hg. eapply unlinking_content; try done; [by rewrite Ef|by rewrite Em]. }
  wp_step. eapply wp_upd_file; [by rewrite Ef|]. wp_step. set (w2 := set_w_files _ w1).
  assert (H2 : base_step w w2).
  { eapply base_step_trans; [exact H1|]. apply base_step_intro; try done. apply H1. }
  cbn [negb]. unfold File_Release. do 2 wp_step. eapply (wp_upd_file_meta f _ (set_fo_items ∅ o) m);
    [cbn; by rewrite lookup_insert_eq|cbn; by rewrite Em|].
  set (m1 := File_ClearMeta m). set (w3 := set_w_filemeta _ w2).
  assert (H3 : base_step w w3).
  { eapply base_step_trans; [exact H2|]. apply base_step_intro; [apply H2| |done|done|].
    - apply env_step_filemeta, File_ClearMeta_wf, (proj2 (fi_wf _ Hi) _ _ Hm).
    - apply insert_dom_iff. cbn. rewrite Em. by eexists. }
  unfold File_WriteMeta. wp_step. eapply wp_run.
  { apply (File_fh_run w3 f (set_fo_items ∅ o) m1); cbn; by rewrite lookup_insert_eq. }
  change (fm_fh m1) with (fm_fh m). rewrite Hfh, swrap_small by lia.
  eapply wp_mono; [apply (File_WriteMeta_fh_base_wp w3 (fo_meta o) (bs_base _ _ H3));
    by rewrite (es_super _ _ (bs_env _ _ H3))|].
  intros ok w4 (Hs4 & Hg4 & Hp4 & m0 & e & evs & st & Hm0 & Hw4).
  cbn in Hm0. rewrite lookup_insert_eq in Hm0. injection Hm0 as <-.
  assert (H4 : base_step w w4).
  { eapply base_step_trans; [exact H3|]. apply base_step_intro; [apply H3|apply Hs4|apply Hs4|by rewrite Hw4|].
    rewrite Hw4. apply insert_dom_iff. cbn. rewrite lookup_insert_eq. by eexists. }
  assert (Hoth : forall g, g <> f -> file_content w4 g = file_content w g).
  { intros g Hne. eapply unlinking_content; try done.
    - rewrite Hw4. cbn. by rewrite lookup_insert_ne, Ef.
    - by rewrite Hw4.
    - intros j Hj. rewrite Hw4. cbn. by rewrite !lookup_insert_ne, Em. }
  assert (Hgood : dev_good w -> ok = true).
  { intros Hg. by apply Hg4, (es_good _ _ (bs_env _ _ H3)). }
  destruct ok; cbn [negb].
  2:{ wp_step. constructor; try done; try apply H4; try lia; [by intros ?%Hgood|]. rewrite Hw4. cbn.
      by rewrite Edh. }
  apply (unlink_name_wp w w1 w4 f d o od p name (set_fm_crc (file_crc_of m1) m1) e evs st); try done;
    try (by eexists); try lia; [by rewrite <- Hfh|by apply Hp4|].
  rewrite Hw4. cbn. by rewrite insert_insert_eq.
Qed.

(** ** [FileHandle::unlink] *)

Lemma FindFile_run (w : world) (dirname filename : bytes) :
  dir_tree w -> looks_up (FindFile dirname filename) w
    (d ← lookup_dir w dirname; od ← w_dirs w !! d;
     f ← fh_created_files (w_fh w) !! (do_meta od, filename); Some (d, f)).
Proof.
  intros Ht. unfold FindFile. eapply looks_up_bind; [apply GetCreatedDirectory_run|]. intros e.
  destruct (lookup_dir w dirname) as [d|] eqn:Hd; cbn [mbind option_bind]; [|apply looks_up_errno].
  destruct (lookup_dir_some _ _ _ Ht Hd) as (p & o & m & _ & _ & Ho & Hm & Hdh & _).
  rewrite Ho. eapply looks_up_run; [by apply (Directory_dh_run _ _ o m)|].
  apply looks_up_gets. rewrite Hdh. cbn.
  destruct (fh_created_files (w_fh w) !! (do_meta o, filename)); [apply looks_up_ret|apply looks_up_errno].
Qed.

(** the outcomes of [unlink]: nothing to remove; open, so removed later; removed *)
Inductive unlink_outcome (w : world) (path : bytes) (r : Z) (w' : world) : Prop :=
  | unlink_refused e :
      r = -1 -> w' = set_w_errno e w -> (lookup_dir w path = None -> lookup_file w path = None) ->
      unlink_outcome w path r w'
  | unlink_later f o e :
      r = 0 -> lookup_dir w path = None -> lookup_file w path = Some f ->
      w_files w !! f = Some o -> 0 < fo_nlink o ->
      w' = set_w_files (<[f := set_fo_deleted true o]> (w_files w)) (set_w_errno e w) ->
      unlink_outcome w path r w'
  | unlink_now f o od :
      lookup_dir w path = None -> file_key w path = Some (do_meta od, GetFileName path) ->
      lookup_file w path = Some f -> w_files w !! f = Some o -> fo_nlink o <= 0 ->
      unlink_post w f o od (GetFileName path) r w' -> unlink_outcome w path r w'.

Lemma unlink_post_errno (w w' : world) (e f r : Z) (o : file) (od : directory) (name : bytes) :
  unlink_post (set_w_errno e w) f o od name r w' -> unlink_post w f o od name r w'.
Proof. intros []. by constructor. Qed.

Lemma FileHandle_unlink_wp (w : world) (path : bytes) :
  fs_inv w -> dir_tree w -> file_tree w ->
  wp (FileHandle_unlink path) (unlink_outcome w path) w.
Proof.
  intros Hi Hd Ht. unfold FileHandle_unlink. wp_step.
  eapply looks_up_wp; [apply GetCreatedDirectory_run|]. intros e.
  destruct (lookup_dir w path) as [dd|] eqn:Hdir.
  { unfold set_errno. do 3 wp_step. eapply unlink_refused; try done. by rewrite Hdir. }
  wp_step. eapply looks_up_wp; [apply file_TransformPath_run|]. intros e1.
  assert (Hkey : lookup_file w path = (k ← file_key w path; fh_created_files (w_fh w) !! k)) by done.
  unfold file_key in Hkey. destruct (ends_with_slash path) eqn:Hsl.
  { wp_step. by eapply unlink_refused. }
  destruct (kBlockFsMaxFileNameLen <=? _) eqn:Hlen.
  { wp_step. by eapply unlink_refused. }
  wp_step. eapply looks_up_wp; [by apply FindFile_run, (dir_tree_ext w)|]. intros e2.
  change (lookup_dir (set_w_errno e1 (set_w_errno e w)) (GetDirName path))
    with (lookup_dir w (GetDirName path)). cbn [w_dirs w_fh set_w_errno].
  destruct (lookup_dir w (GetDirName path)) as [d|] eqn:Hpd; cbn [mbind option_bind] in Hkey |- *;
    [|wp_step; by eapply unlink_refused].
  destruct (lookup_dir_some _ _ _ Hd Hpd) as (p & od & md & _ & Hp & Hod & _).
  rewrite Hod in Hkey |- *. cbn [mbind option_bind] in Hkey |- *.
  destruct (fh_created_files (w_fh w) !! (do_meta od, GetFileName path)) as [f|] eqn:Hf;
    cbn [mbind option_bind]; [|wp_step; by eapply unlink_refused].
  assert (Hfk : file_key w path = Some (do_meta od, GetFileName path)).
  { unfold file_key. rewrite Hsl, Hlen, Hpd. cbn. by rewrite Hod. }
  destruct (ft_created _ Ht _ _ _ Hf) as (o & _ & _ & _ & Ho & _).
  unfold File_LinkCount. do 2 wp_step. eapply wp_get_file; [exact Ho|]. wp_step.
  destruct (Z.ltb_spec 0 (fo_nlink o)).
  - wp_step. eapply wp_upd_file; [exact Ho|]. wp_step. by eapply (unlink_later _ _ _ _ f o).
  - eapply wp_mono; [apply (unlink_file_wp (set_w_errno e2 w) d f o od p (GetFileName path)); try done|].
    + apply (fs_inv_meta_step w); [apply set_errno_step|done].
    + by apply (dir_tree_ext w).
    + by apply file_tree_errno.
    + intros r w' Hpost. eapply unlink_now; try done. by eapply unlink_post_errno.
Qed.

End Unlink.
