(* ===== verification/OpenFiles.v ===== *)
(** * The table of open files

    The table of descriptors as a map from descriptors to files ([opens_of]),
    its invariant ([open_ok]: every descriptor leads to a file that has a name,
    none is also in the pool, and a file's link count is the number of its
    descriptors), and what [open], [dup] and [close] do to it. *)

From S2P Require Import Prelude Meta Device World SuperBlock Resources Paths FileBlock Inode.
From S2P Require Import Directory FileHandle File OpenFile FileHandleOps DirHandle FileSystem.
From S2P Require Import Io Frames Invariant MetaSteps Views Content FileGrow FileIO FileShrink Truncate.
From S2P Require Import DirSteps Names DirOps FileNames FileEntries Unlink.

(** ** The table *)

Definition opens_of (w : world) : gmap Z Z :=
  omap (fun o => of_file <$> w_opens w !! o) (fh_open_files (w_fh w)).

Lemma opens_of_lookup w fd f :
  opens_of w !! fd = Some f <->
  exists o x, fh_open_files (w_fh w) !! fd = Some o /\ w_opens w !! o = Some x /\ of_file x = f.
Proof.
  unfold opens_of. rewrite lookup_omap. split.
  - intros (o & Ho & (x & Hx & ->)%fmap_Some)%bind_Some. by exists o, x.
  - intros (o & x & -> & Hx & <-). cbn [mbind option_bind]. by rewrite Hx.
Qed.

Lemma opens_of_calls w w' : calls_step w w' -> opens_of w' = opens_of w.
Proof.
  intros [_ _ Ho Hf _ _ _ _ _]. unfold opens_of. rewrite Hf. apply map_eq. intros fd.
  rewrite !lookup_omap. destruct (fh_open_files (w_fh w) !! fd) as [o|]; cbn [mbind option_bind]; [|done].
  pose proof (f_equal (lookup o) Ho) as He. by rewrite !lookup_fmap in He.
Qed.

(** the descriptors of a file *)
Definition fds_of (t : gmap Z Z) (f : Z) : gmap Z Z := filter (fun p => p.2 = f) t.
Definition open_count (t : gmap Z Z) (f : Z) : Z := Z.of_nat (size (fds_of t f)).

Lemma fds_of_insert t fd f g :
  t !! fd = None ->
  fds_of (<[fd := f]> t) g = if decide (f = g) then <[fd := f]> (fds_of t g) else fds_of t g.
Proof.
  intros Hn. unfold fds_of. destruct (decide (f = g)) as [->|Hne].
  - by rewrite map_filter_insert_True.
  - rewrite map_filter_insert_not'; [done|done|]. intros y Hy. congruence.
Qed.

Lemma open_count_insert t fd f g :
  t !! fd = None ->
  open_count (<[fd := f]> t) g = open_count t g + (if decide (f = g) then 1 else 0).
Proof.
  intros Hn. unfold open_count. rewrite fds_of_insert by done.
  destruct (decide (f = g)); [|lia].
  rewrite map_size_insert_None; [lia|]. unfold fds_of. apply map_lookup_filter_None. by left.
Qed.

Lemma open_count_delete t fd f g :
  t !! fd = Some f ->
  open_count (delete fd t) g = open_count t g - (if decide (f = g) then 1 else 0).
Proof.
  intros Ht. rewrite <- (insert_delete_id t fd f Ht) at 2.
  rewrite open_count_insert by apply lookup_delete_eq. lia.
Qed.

Lemma open_count_none t f : (forall fd, t !! fd <> Some f) -> open_count t f = 0.
Proof.
  intros Hn. unfold open_count, fds_of.
  assert (filter (fun p : Z * Z => p.2 = f) t = ∅) as ->; [|by rewrite map_size_empty].
  apply map_empty. intros fd. apply map_lookup_filter_None. right. cbn. intros g Hg ->. by apply (Hn fd).
Qed.

Lemma open_count_pos t fd f : t !! fd = Some f -> 0 < open_count t f.
Proof.
  intros Ht. rewrite <- (insert_delete_id t fd f Ht), open_count_insert by apply lookup_delete_eq.
  rewrite decide_True by done. unfold open_count. lia.
Qed.

Lemma open_count_zero t f : open_count t f = 0 -> forall fd, t !! fd <> Some f.
Proof. intros Hz fd Ht. apply open_count_pos in Ht. lia. Qed.

(** ** The invariant *)

Definition fd_range (fd : Z) : Prop := 0 <= fd < 2 * kMaxFileNum.

Record open_ok (w : world) : Prop := {
  oo_max : fd_max (w_fdh w) = 2 * kMaxFileNum;
  oo_pool : NoDup (fd_pool (w_fdh w));
  oo_free : forall fd, fd ∈ fd_pool (w_fdh w) ->
    fd_range fd /\ fh_open_files (w_fh w) !! fd = None;
  oo_used : forall fd o, fh_open_files (w_fh w) !! fd = Some o ->
    fd_range fd /\ exists x, w_opens w !! o = Some x;
  oo_next : forall o, is_Some (w_opens w !! o) -> o < w_next w;
  oo_named : forall fd f, opens_of w !! fd = Some f ->
    exists key, fh_created_files (w_fh w) !! key = Some f;
  oo_links : forall f y, w_files w !! f = Some y -> fo_nlink y = open_count (opens_of w) f
}.

Lemma fd_range_words fd : fd_range fd -> u64 fd = fd /\ i32 fd = fd.
Proof.
  unfold fd_range, kMaxFileNum. intros. split; [apply wrap_small|apply swrap_small]; lia.
Qed.

Lemma i32_of_u64 fd : fd_range (u64 fd) -> i32 fd = u64 fd.
Proof.
  unfold fd_range, kMaxFileNum. intros Hr. rewrite <- (swrap_small 32 (u64 fd)) by lia.
  unfold swrap, wrap. f_equal. pose proof (Z.div_mod fd (2 ^ 64) ltac:(lia)) as Hd.
  rewrite Hd at 1. set (u := fd mod 2 ^ 64). set (q := fd / 2 ^ 64).
  replace (2 ^ 64 * q + u + 2 ^ (32 - 1)) with (u + 2 ^ (32 - 1) + q * 2 ^ 32 * 2 ^ 32) by lia.
  apply Z_mod_plus_full.
Qed.

Lemma opens_of_range w fd f : open_ok w -> opens_of w !! fd = Some f -> fd_range fd.
Proof. intros Ho (o & x & Hfd & _)%opens_of_lookup. by apply (oo_used _ Ho) in Hfd as [? _]. Qed.

(** few enough descriptors for a link count of 32 bits *)
Lemma open_count_bound w f : open_ok w -> 0 <= open_count (opens_of w) f <= 2 * kMaxFileNum.
Proof.
  intros Ho. unfold open_count. split; [lia|].
  assert (Hsub : dom (fds_of (opens_of w) f) ⊆ (list_to_set (seqZ 0 (2 * kMaxFileNum)) : gset Z)).
  { intros fd [g Hg]%elem_of_dom. apply elem_of_list_to_set, elem_of_seqZ.
    unfold fds_of in Hg. apply map_lookup_filter_Some in Hg as [Hg _].
    apply (opens_of_range w fd g Ho) in Hg. unfold fd_range in Hg. lia. }
  apply subseteq_size in Hsub. rewrite size_dom, size_list_to_set in Hsub by apply NoDup_seqZ.
  rewrite length_seqZ in Hsub. unfold kMaxFileNum in *. lia.
Qed.

(** it depends on the names of the open files and on the link counts *)
Lemma open_ok_step (w w' : world) :
  open_ok w -> calls_step w w' ->
  (forall fd f, opens_of w !! fd = Some f -> exists key, fh_created_files (w_fh w') !! key = Some f) ->
  (forall f y, w_files w' !! f = Some y -> fo_nlink y = open_count (opens_of w) f) ->
  open_ok w'.
Proof.
  intros [Hm Hp Hf Hu Hx Hn Hl] Hc Hn' Hl'. pose proof (opens_of_calls _ _ Hc) as Ho.
  destruct Hc as [_ Ef Eo Ed _ _ _ Hle _].
  assert (Hop : forall o, is_Some (w_opens w' !! o) <-> is_Some (w_opens w !! o)).
  { intros o. pose proof (f_equal (lookup o) Eo) as He. rewrite !lookup_fmap in He.
    rewrite <- (fmap_is_Some of_file), He. by rewrite fmap_is_Some. }
  constructor; rewrite ?Ef, ?Ed, ?Ho; try done.
  - intros fd o Hfd. destruct (Hu fd o Hfd) as [? Hs]. split; [done|]. by apply Hop.
  - intros o Hs. apply Hop in Hs. apply Hx in Hs. lia.
Qed.

(** nothing that the table depends on has changed *)
Lemma open_ok_names (w w' : world) : names_kept w w' -> open_ok w -> open_ok w'.
Proof.
  intros Hk Ho. apply (open_ok_step w); [done|apply Hk| |].
  - intros fd f Hf. rewrite (nk_fh _ _ Hk). by eapply oo_named.
  - intros f y Hy. pose proof (f_equal (lookup f) (nk_files _ _ Hk)) as He.
    rewrite !lookup_fmap, Hy in He. destruct (w_files w !! f) as [y'|] eqn:Hy'; [|done].
    injection He as _ -> _. by apply oo_links.
Qed.

(** the maps of files depend on the objects' records and the records' names only *)
Lemma file_tree_frame (w w' : world) :
  fh_created_files (w_fh w') = fh_created_files (w_fh w) ->
  fh_created_fhs (w_fh w') = fh_created_fhs (w_fh w) ->
  w_dh w' = w_dh w -> w_dirs w' = w_dirs w -> w_next w <= w_next w' ->
  fo_meta <$> w_files w' = fo_meta <$> w_files w ->
  record_id <$> w_filemeta w' = record_id <$> w_filemeta w -> file_tree w -> file_tree w'.
Proof.
  intros Ec Eh Ed Er En Ef Em [Hc Hf Hi Hn].
  assert (Hobj : forall f o, w_files w !! f = Some o -> exists o',
    w_files w' !! f = Some o' /\ fo_meta o' = fo_meta o).
  { intros f o Ho. pose proof (f_equal (lookup f) Ef) as He. rewrite !lookup_fmap, Ho in He.
    cbn in He. apply fmap_Some in He as (o' & ? & ->). by exists o'. }
  assert (Hrec : forall i m, w_filemeta w !! i = Some m -> exists m',
    w_filemeta w' !! i = Some m' /\ record_id m' = record_id m).
  { intros i m Hm. pose proof (f_equal (lookup i) Em) as He. rewrite !lookup_fmap, Hm in He.
    cbn in He. apply fmap_Some in He as (m' & ? & ->). by exists m'. }
  constructor; rewrite ?Ec, ?Eh, ?Ed, ?Er.
  - intros dh name f Hk. destruct (Hc dh name f Hk) as (o & m & d & od & Ho & Hm & Hr).
    destruct (Hobj f o Ho) as (o' & Ho' & Hoo). destruct (Hrec _ m Hm) as (m' & Hm' & Hmm).
    injection Hmm as H1 H2 H3 _. exists o', m', d, od. by rewrite Hoo, H1, H2, H3.
  - intros i f Hk. destruct (Hf i f Hk) as (key & o & Hkey & Ho & <-).
    destruct (Hobj f o Ho) as (o' & Ho' & Hoo). by exists key, o'.
  - intros d od i f Hd Hod Hk. destruct (Hi d od i f Hd Hod Hk) as (o & name & Hkey & Ho & <-).
    destruct (Hobj f o Ho) as (o' & Ho' & Hoo). by exists o', name.
  - intros f [o' Ho']. pose proof (f_equal (lookup f) Ef) as He. rewrite !lookup_fmap, Ho' in He.
    cbn in He. symmetry in He. apply fmap_Some in He as (o & Ho & _).
    specialize (Hn f ltac:(by eexists)). lia.
Qed.

Lemma file_tree_names (w w' : world) : names_kept w w' -> file_tree w -> file_tree w'.
Proof.
  intros [_ En Eh Ed Er _ Ef Em]. apply file_tree_frame; rewrite ?Eh, ?En; try done.
  assert (Hp : forall a : gmap Z file, fo_meta <$> a = (fun p => p.1.1) <$> (file_id <$> a)).
  { intros a. by rewrite <- map_fmap_compose. }
  by rewrite !Hp, Ef.
Qed.

Lemma dir_tree_names (w w' : world) : names_kept w w' -> dir_tree w -> dir_tree w'.
Proof. intros [Hc En Eh Ed Er Edm _ _]. apply dir_tree_ext; try done. apply Hc. Qed.

(** ** Opening *)

(** the world when descriptor [fd] is given to file [f] *)
Definition with_open (fd : Z) (rest : list Z) (f : Z) (y : file) (pos : Z) (w : world) : world :=
  set_w_errno 0 (set_w_files (<[f := set_fo_nlink (i32 (fo_nlink y + 1)) y]> (w_files w))
    (set_w_fh (set_fh_open_files (<[fd := w_next w]> (fh_open_files (w_fh w))) (w_fh w))
    (set_w_opens (<[w_next w := MkOpenFile f pos]> (w_opens w))
    (set_w_next (w_next w + 1) (set_w_fdh (set_fd_pool rest (w_fdh w)) w))))).

Lemma with_open_table fd rest f y pos w :
  open_ok w -> fd_pool (w_fdh w) = fd :: rest ->
  opens_of w !! fd = None /\ opens_of (with_open fd rest f y pos w) = <[fd := f]> (opens_of w).
Proof.
  intros Ho Hp. destruct (oo_free _ Ho fd) as [Hr Hn]; [rewrite Hp; set_solver|]. split.
  - unfold opens_of. by rewrite lookup_omap, Hn.
  - apply map_eq. intros fd'. unfold opens_of. cbn. destruct (decide (fd = fd')) as [<-|Hne].
    + rewrite lookup_omap, !lookup_insert_eq. cbn. by rewrite lookup_insert_eq.
    + rewrite lookup_insert_ne, !lookup_omap, lookup_insert_ne by done.
      destruct (fh_open_files (w_fh w) !! fd') as [o|] eqn:Hfd; cbn [mbind option_bind]; [|done].
      rewrite lookup_insert_ne; [done|]. intros <-.
      destruct (oo_used _ Ho _ _ Hfd) as [_ Hx]. apply (oo_next _ Ho) in Hx. lia.
Qed.

Lemma with_open_ok fd rest f y pos w :
  open_ok w -> fd_pool (w_fdh w) = fd :: rest -> w_files w !! f = Some y ->
  (exists key, fh_created_files (w_fh w) !! key = Some f) ->
  open_ok (with_open fd rest f y pos w).
Proof.
  intros Ho Hp Hy Hk. destruct (with_open_table fd rest f y pos w Ho Hp) as [Hn Ht].
  pose proof (open_count_bound w f Ho) as Hb. pose proof (oo_links _ Ho f y Hy) as Hy'.
  pose proof (oo_pool _ Ho) as Hnd. rewrite Hp in Hnd. apply NoDup_cons in Hnd as [Hfr Hnd].
  constructor; rewrite ?Ht.
  - apply Ho.
  - done.
  - intros x Hx. cbn in Hx. destruct (oo_free _ Ho x) as [? Hx']; [rewrite Hp; set_solver|].
    split; [done|]. cbn. rewrite lookup_insert_ne; [done|]. by intros ->.
  - intros x o. cbn. intros [[<- <-]|[Hne Hx]]%lookup_insert_Some.
    + split; [apply (oo_free _ Ho); rewrite Hp; set_solver|]. rewrite lookup_insert_eq. by eexists.
    + destruct (oo_used _ Ho _ _ Hx) as [? Hs]. split; [done|]. by apply lookup_insert_is_Some'; right.
  - intros o. cbn. intros [<-|[_ Hs]]%lookup_insert_is_Some; [lia|]. apply (oo_next _ Ho) in Hs. lia.
  - intros x g. cbn. intros [[_ <-]|[_ Hg]]%lookup_insert_Some; [done|]. by eapply oo_named.
  - intros g z. rewrite open_count_insert by done. cbn.
    intros [[<- <-]|[Hne Hz]]%lookup_insert_Some.
    + rewrite decide_True by done. cbn. unfold kMaxFileNum in *. rewrite swrap_small; lia.
    + rewrite decide_False, Z.add_0_r by done. by apply (oo_links _ Ho).
Qed.

(** ** The whole invariant *)

Record sys_ok (w : world) : Prop := {
  so_inv : fs_inv w;
  so_dirs : dir_tree w;
  so_files : file_tree w;
  so_opens : open_ok w
}.

Lemma with_open_view fd rest f y pos w :
  w_files w !! f = Some y -> view_of (with_open fd rest f y pos w) = view_of w.
Proof.
  intros Hy. unfold view_of. cbn. rewrite fmap_insert.
  rewrite (insert_id (view_fo <$> w_files w)); [done|]. by rewrite lookup_fmap, Hy.
Qed.

Lemma with_open_base fd rest f y pos w :
  fs_inv w -> dir_tree w -> file_tree w -> w_files w !! f = Some y ->
  let w' := with_open fd rest f y pos w in
  fs_inv w' /\ dir_tree w' /\ file_tree w' /\ (forall g, file_content w' g = file_content w g).
Proof.
  intros Hi Hd Ht Hy w'. pose proof (with_open_view fd rest f y pos w Hy) as Hv. split_and!.
  - destruct Hi. constructor; try done. unfold w'. by rewrite Hv.
  - apply (dir_tree_next w); try done. cbn. lia.
  - apply (file_tree_frame w); try done; [cbn; lia|]. cbn. by apply (fmap_insert_id _ _ _ y).
  - intros g. unfold file_content, w'. by rewrite Hv.
Qed.

Lemma with_open_sys fd rest f y pos w :
  sys_ok w -> fd_pool (w_fdh w) = fd :: rest -> w_files w !! f = Some y ->
  (exists key, fh_created_files (w_fh w) !! key = Some f) ->
  sys_ok (with_open fd rest f y pos w) /\
  (forall g, file_content (with_open fd rest f y pos w) g = file_content w g).
Proof.
  intros [Hi Hd Ht Ho] Hp Hy Hk.
  destruct (with_open_base fd rest f y pos w Hi Hd Ht Hy) as (Hi' & Hd' & Ht' & Hc).
  split; [constructor; try done; by apply with_open_ok|done].
Qed.

Section Opening.
Context `{Env}.

Lemma get_fd_run w fd rest :
  fd_pool (w_fdh w) = fd :: rest -> Fd.get_fd w = Done fd (set_w_fdh (set_fd_pool rest (w_fdh w)) w).
Proof. intros Hp. unfold Fd.get_fd, bind, gets. by rewrite Hp. Qed.

Lemma pool_range w fd rest : open_ok w -> fd_pool (w_fdh w) = fd :: rest -> fd_range fd.
Proof. intros Ho Hp. apply (oo_free _ Ho). rewrite Hp. set_solver. Qed.

(** a file with a name is there, with its record *)
Lemma named_file w key f :
  file_tree w -> fh_created_files (w_fh w) !! key = Some f ->
  exists y m, w_files w !! f = Some y /\ w_filemeta w !! fo_meta y = Some m.
Proof.
  intros Ht Hk. destruct key as [dh nm].
  destruct (ft_created _ Ht _ _ _ Hk) as (y & m & _ & _ & ? & ? & _). by exists y, m.
Qed.

(** [open] of a file that was found or made *)
Lemma FileHandle_open_wp (path : bytes) (flags : Z) (w w1 : world) (f fd : Z) (rest : list Z)
    (key : Z * bytes) :
  open_file_of path flags w = Done (Some f) w1 -> sys_ok w1 ->
  fh_created_files (w_fh w1) !! key = Some f -> fd_pool (w_fdh w1) = fd :: rest ->
  wp (FileHandle_open path flags) (fun r w' => r = fd /\ exists y pos,
    w_files w1 !! f = Some y /\ w' = with_open fd rest f y pos w1) w.
Proof.
  intros Hof Hs Hk Hp. destruct (named_file w1 key f (so_files _ Hs) Hk) as (y & m & Hy & Hm).
  destruct (fd_range_words fd (pool_range _ _ _ (so_opens _ Hs) Hp)) as [Hu Hi].
  pose proof (pool_range _ _ _ (so_opens _ Hs) Hp) as Hr. unfold fd_range in Hr.
  unfold FileHandle_open. wp_step. eapply wp_run; [exact Hof|]. cbv beta iota. wp_step.
  eapply wp_run; [by apply get_fd_run|]. rewrite Hu.
  destruct (Z.ltb_spec fd 0); [lia|]. unfold fresh, File_file_size, put_open, set_errno. repeat wp_step.
  apply (wp_file_meta f y m); [done|done|]. repeat wp_step. apply (wp_upd_file f _ y); [done|].
  repeat wp_step. rewrite Hi. split; [done|]. exists y. eexists. split; [done|].
  unfold with_open. cbn. by rewrite insert_insert_eq.
Qed.

Lemma FileHandle_dup_wp (w : world) (oldfd f fd : Z) (rest : list Z) :
  sys_ok w -> opens_of w !! u64 oldfd = Some f -> fd_pool (w_fdh w) = fd :: rest ->
  wp (FileHandle_dup oldfd) (fun r w' => r = fd /\ exists y,
    w_files w !! f = Some y /\ w' = with_open fd rest f y 0 w) w.
Proof.
  intros Hs Hold Hp. destruct (oo_named _ (so_opens _ Hs) _ _ Hold) as [key Hk].
  destruct (named_file w key f (so_files _ Hs) Hk) as (y & m & Hy & Hm).
  apply opens_of_lookup in Hold as (o & x & Hfd & Hx & Hf).
  destruct (fd_range_words fd (pool_range _ _ _ (so_opens _ Hs) Hp)) as [Hu Hi].
  pose proof (pool_range _ _ _ (so_opens _ Hs) Hp) as Hr. unfold fd_range in Hr.
  unfold FileHandle_dup, GetOpenFile. do 3 wp_step. rewrite Hfd. wp_step.
  wp_step. apply (wp_get_open o x); [done|]. rewrite Hf. wp_step.
  eapply wp_run; [by apply get_fd_run|]. rewrite Hu.
  destruct (Z.ltb_spec fd 0); [lia|]. unfold fresh, put_open, set_errno. repeat wp_step.
  apply (wp_upd_file f _ y); [done|]. repeat wp_step. rewrite Hi. split; [done|]. by exists y.
Qed.

(** *** The file that [open] works on *)

(** flags without truncation and without a temporary file *)
Definition plain_flags (flags : Z) : Prop :=
  has_flag flags O_TMPFILE = false /\ has_flag flags O_TRUNC = false.

Definition excl_create (flags : Z) : bool := has_flag flags O_CREAT && has_flag flags O_EXCL.

(** the file that is opened: the one at the path, or a new one *)
Definition open_file_post (path : bytes) (flags : Z) (w : world) (r : option Z) (w' : world) : Prop :=
  match lookup_dir w path, lookup_file w path with
  | None, Some f =>
    (exists e, w' = set_w_errno e w) /\ r = if excl_create flags then None else Some f
  | None, None =>
    if has_flag flags O_CREAT then create_file_post w path r w'
    else (exists e, w' = set_w_errno e w) /\ r = None
  | Some _, _ => (exists e, w' = set_w_errno e w) /\ r = None
  end.

Lemma O_DIRECTORY_tmpfile flags : has_flag flags O_TMPFILE = false -> has_flag flags O_DIRECTORY = false.
Proof.
  unfold has_flag. rewrite !negb_false_iff, !Z.eqb_eq. intros Hf.
  change O_DIRECTORY with (Z.land O_TMPFILE O_DIRECTORY). by rewrite Z.land_assoc, Hf.
Qed.

Lemma create_post_errno w e path r w' :
  create_file_post (set_w_errno e w) path r w' -> create_file_post w path r w'.
Proof. intros []. by constructor. Qed.

Lemma open_file_of_wp (w : world) (path : bytes) (flags : Z) :
  fs_inv w -> dir_tree w -> file_tree w -> plain_flags flags -> 0 ∉ path ->
  wp (open_file_of path flags) (open_file_post path flags w) w.
Proof.
  intros Hi Hd Ht [Htmp Htr] H0. unfold open_file_of, IsNeedCreateTempFile. rewrite Htmp. cbn [negb].
  repeat wp_step. eapply looks_up_wp; [apply GetCreatedDirectory_run|]. intros e. unfold open_file_post.
  destruct (lookup_dir w path) as [d|] eqn:Hdir; unfold set_errno.
  { repeat wp_step. split; [by eexists|done]. }
  wp_step. eapply looks_up_wp; [by apply GetCreatedFile_run, (dir_tree_ext w)|]. intros e1.
  change (lookup_file (set_w_errno e w) path) with (lookup_file w path).
  destruct (lookup_file w path) as [f|] eqn:Hf.
  - unfold VerifyOpenExistFileFlag, excl_create. rewrite (O_DIRECTORY_tmpfile flags Htmp).
    destruct (has_flag flags O_CREAT && has_flag flags O_EXCL).
    + unfold set_errno. repeat wp_step. cbn [negb]. repeat wp_step. split; [by eexists|done].
    + repeat wp_step. cbn [negb]. rewrite Htr. cbn [andb]. repeat wp_step. split; [by eexists|done].
  - destruct (has_flag flags O_CREAT).
    + eapply wp_mono; [apply (CreateFile_wp (set_w_errno e1 (set_w_errno e w)))|]; try done.
      * apply (fs_inv_meta_step (set_w_errno e w)); [apply set_errno_step|].
        apply (fs_inv_meta_step w); [apply set_errno_step|done].
      * by apply (dir_tree_ext w).
      * by apply (file_tree_errno (set_w_errno e w)), file_tree_errno.
      * intros r w' Hp. by eapply create_post_errno, create_post_errno.
    + unfold set_errno. repeat wp_step. split; [by eexists|done].
Qed.

End Opening.

(** ** Closing *)

(** the world when descriptor [fd] is given back *)
Definition with_closed (fd : Z) (w : world) : world :=
  set_w_errno 0 (set_w_fdh (set_fd_pool (fd_pool (w_fdh w) ++ [fd]) (w_fdh w))
    (set_w_fh (set_fh_open_files (delete fd (fh_open_files (w_fh w))) (w_fh w)) w)).

Lemma with_closed_table fd w : opens_of (with_closed fd w) = delete fd (opens_of w).
Proof.
  apply map_eq. intros fd'. unfold opens_of. cbn. rewrite lookup_omap.
  destruct (decide (fd = fd')) as [<-|Hne].
  - by rewrite !lookup_delete_eq.
  - by rewrite !lookup_delete_ne, lookup_omap by done.
Qed.

Lemma with_closed_ok (w0 w : world) (fd f : Z) :
  open_ok w0 -> opens_of w0 !! fd = Some f -> calls_step w0 w ->
  (forall fd' g, delete fd (opens_of w0) !! fd' = Some g ->
     exists key, fh_created_files (w_fh w) !! key = Some g) ->
  (forall g y, w_files w !! g = Some y -> fo_nlink y = open_count (delete fd (opens_of w0)) g) ->
  open_ok (with_closed fd w).
Proof.
  intros Ho Hfd Hc Hn Hl. pose proof (opens_of_range _ _ _ Ho Hfd) as Hr.
  pose proof (opens_of_calls _ _ Hc) as Hopens.
  (* the table of [w], without the clauses on names and links *)
  pose proof Ho as [Hm Hp Hf Hu Hx _ _]. pose proof Hc as [_ Ef Eo Ed _ _ _ Hle _].
  assert (Hop : forall o, is_Some (w_opens w !! o) <-> is_Some (w_opens w0 !! o)).
  { intros o. pose proof (f_equal (lookup o) Eo) as He. rewrite !lookup_fmap in He.
    rewrite <- (fmap_is_Some of_file), He. by rewrite fmap_is_Some. }
  assert (Hin : is_Some (fh_open_files (w_fh w0) !! fd)).
  { apply opens_of_lookup in Hfd as (o & x & Hfd & _). by eexists. }
  constructor; rewrite ?with_closed_table, ?Hopens; cbn; rewrite ?Ef, ?Ed; try done.
  - apply NoDup_app. split_and!; [done| |apply NoDup_singleton].
    intros x Hin' ->%list_elem_of_singleton. apply Hf in Hin' as [_ Hnone].
    rewrite Hnone in Hin. by destruct Hin.
  - intros x [Hx'| ->%list_elem_of_singleton]%elem_of_app.
    + destruct (Hf x Hx') as [? Hnone]. split; [done|]. apply lookup_delete_None. by right.
    + split; [done|]. apply lookup_delete_eq.
  - intros x o [_ Hxo]%lookup_delete_Some. destruct (Hu _ _ Hxo) as [? Hs]. split; [done|].
    by apply Hop.
  - intros o Hs. apply Hop in Hs. apply Hx in Hs. lia.
Qed.

Lemma with_closed_sys (w0 w : world) (fd f : Z) :
  open_ok w0 -> opens_of w0 !! fd = Some f -> calls_step w0 w ->
  fs_inv w -> dir_tree w -> file_tree w ->
  (forall fd' g, delete fd (opens_of w0) !! fd' = Some g ->
     exists key, fh_created_files (w_fh w) !! key = Some g) ->
  (forall g y, w_files w !! g = Some y -> fo_nlink y = open_count (delete fd (opens_of w0)) g) ->
  sys_ok (with_closed fd w).
Proof.
  intros Ho Hfd Hc Hi Hd Ht Hn Hl. constructor.
  - destruct Hi. by constructor.
  - by apply (dir_tree_ext w).
  - by apply (file_tree_frame w).
  - by apply (with_closed_ok w0 w fd f).
Qed.

Section Closing.
Context `{Env}.

(** the world before the descriptor is given back: one link less *)
Definition with_unlinked_once (f : Z) (y : file) (w : world) : world :=
  set_w_files (<[f := set_fo_nlink (i32 (fo_nlink y - 1)) (set_fo_locked false y)]> (w_files w)) w.

Lemma put_fd_run fd w :
  fd_max (w_fdh w) = 2 * kMaxFileNum -> fd_range fd ->
  Fd.put_fd fd w = Done tt (set_w_fdh (set_fd_pool (fd_pool (w_fdh w) ++ [fd]) (w_fdh w)) w).
Proof.
  intros Hm Hr. unfold Fd.put_fd, bind, gets. rewrite Hm. unfold fd_range in Hr.
  by destruct (Z.ltb_spec (2 * kMaxFileNum) fd); [lia|].
Qed.

(** removing the file of a handle, as [close] does *)
Lemma UnlinkFileNolock_wp (w : world) (f : Z) (y : file) (key : Z * bytes) :
  fs_inv w -> dir_tree w -> file_tree w -> fh_created_files (w_fh w) !! key = Some f ->
  w_files w !! f = Some y -> fo_nlink y <= 0 ->
  wp (UnlinkFileNolock (fo_meta y)) (fun r w' => exists w1 od,
    names_kept w w1 /\ meta_step w w1 /\ w_files w1 = w_files w /\ key.1 = do_meta od /\
    unlink_post w1 f y od key.2 r w') w.
Proof.
  intros Hi Hd Ht Hk Hy Hl. destruct key as [dh nm]. cbn [fst snd].
  destruct (ft_created _ Ht _ _ _ Hk) as (y' & m & d & od & Hy' & Hm & Hdh & Hnm & _ & Hfhs & Hcd & Hod & _).
  rewrite Hy in Hy'. injection Hy' as <-.
  destruct (dt_dhs _ Hd _ _ Hcd) as (p & od' & Hp & Hod' & Hdm). rewrite Hod in Hod'. injection Hod' as <-.
  assert (Hdr : 0 <= dh < sb_max_file_num (w_super w)).
  { rewrite <- Hdm. destruct (dt_created _ Hd _ _ Hp) as (od2 & md & Hod2 & Hmd & _).
    rewrite Hod in Hod2. injection Hod2 as <-. apply (dmo_dom _ (dt_meta _ Hd)). by eexists. }
  pose proof (filemeta_range _ _ _ Hi Hm) as Hr. pose proof (lo_max_file _ (fi_layout _ Hi)).
  assert (Hwf : file_wf m) by exact (proj2 (fi_wf _ Hi) _ _ Hm).
  unfold UnlinkFileNolock, GetCreatedFile_fh. repeat wp_step. rewrite wrap_small by lia. rewrite Hfhs.
  wp_step. eapply wp_run; [by apply (File_dh_run w f y m)|]. rewrite swrap_small by lia.
  unfold GetCreatedDirectory_dh. repeat wp_step. rewrite wrap_small by lia. rewrite Hdh, Hcd.
  repeat wp_step. apply (wp_upd_file_meta f _ y m); [done|done|].
  set (m1 := set_fm_ctime (w_now w) (set_fm_mtime (w_now w) m)). set (w1 := set_w_filemeta _ w).
  assert (Hms : meta_step w w1).
  { apply (meta_step_filemeta w (fo_meta y) m); [done|done|]. destruct Hwf. by constructor; try done; apply (fi_now _ Hi). }
  assert (Hnk : names_kept w w1) by by apply (names_kept_filemeta w _ m).
  unfold File_LinkCount. repeat wp_step. apply (wp_get_file f y); [done|]. repeat wp_step.
  destruct (Z.ltb_spec 0 (fo_nlink y)); [lia|].
  eapply wp_mono; [apply (unlink_file_wp w1 d f y od p nm); try done|].
  - by apply (fs_inv_meta_step w).
  - by apply (dir_tree_names w).
  - by apply (file_tree_names w).
  - cbn. by rewrite Hdm.
  - intros r w' Hpost. exists w1, od. by split_and!.
Qed.
(** a file that is removed when its last descriptor is closed *)
Definition doomed (w : world) (f : Z) : bool :=
  match w_files w !! f with
  | None => false
  | Some y => match w_filemeta w !! fo_meta y with
              | Some m => fm_is_temp m
              | None => false
              end || fo_deleted y
  end.

(** what a closing of descriptor [fd] of file [f], with name [key], comes to *)
Record close_post (w : world) (fd f : Z) (key : Z * bytes) (gone : bool) (r : Z) (w' : world) : Prop := {
  cl_result : r = 0;
  cl_sys : sys_ok w';
  cl_good : dev_good w';
  cl_super : w_super w' = w_super w;
  cl_opens : opens_of w' = delete fd (opens_of w);
  cl_pool : fd_pool (w_fdh w') = fd_pool (w_fdh w) ++ [fd];
  cl_records : fh_free (w_fh w') = fh_free (w_fh w);
  cl_dh : w_dh w' = w_dh w;
  cl_dirs : dir_id <$> w_dirs w' = dir_id <$> w_dirs w;
  cl_names : fh_created_files (w_fh w')
    = if gone then delete key (fh_created_files (w_fh w)) else fh_created_files (w_fh w);
  cl_content : forall g, file_content w' g = if gone && bool_decide (g = f) then [] else file_content w g;
  cl_doomed : forall g, ~ (gone = true /\ g = f) -> doomed w' g = doomed w g
}.

Lemma with_unlinked_once_step (w : world) (f : Z) (y : file) (e : Z) (evs : list sys_event) :
  w_files w !! f = Some y -> evs `suffix_of` w_events w ->
  let w1 := with_unlinked_once f y (upd_io e evs (w_store w) w) in
  meta_step w w1 /\ calls_step w w1 /\ (forall g, doomed w1 g = doomed w g).
Proof.
  intros Hy Hs w1. split_and!.
  - etrans; [by apply (meta_step_upd_io w e evs (w_store w))|].
    by apply (meta_step_files (upd_io e evs (w_store w) w) f y).
  - etrans; [by apply (nk_calls _ _ (names_kept_io e evs (w_store w) w Hs))|]. by constructor.
  - intros g. unfold doomed. cbn. destruct (decide (f = g)) as [<-|].
    + by rewrite lookup_insert_eq, Hy.
    + by rewrite lookup_insert_ne.
Qed.

(** the descriptor is given back, the file stays *)
Lemma close_kept (w w1 : world) (fd f : Z) (y : file) (key : Z * bytes) (e : Z) (evs : list sys_event) :
  sys_ok w -> dev_good w -> opens_of w !! fd = Some f -> w_files w !! f = Some y ->
  evs `suffix_of` w_events w -> w1 = with_unlinked_once f y (upd_io e evs (w_store w) w) ->
  close_post w fd f key false 0 (with_closed fd w1).
Proof.
  intros [Hi Hd Ht Ho] Hg Hfd Hy Hs ->.
  destruct (with_unlinked_once_step w f y e evs Hy Hs) as (Hms & Hcs & Hdm).
  set (w1 := with_unlinked_once f y _) in *.
  pose proof (open_count_bound w f Ho) as Hb. pose proof (oo_links _ Ho f y Hy) as Hl.
  pose proof (open_count_pos _ _ _ Hfd) as Hpos. unfold kMaxFileNum in Hb.
  assert (Hsys : sys_ok (with_closed fd w1)).
  { apply (with_closed_sys w w1 fd f); try done.
    - by apply (fs_inv_meta_step w).
    - by apply (dir_tree_ext w).
    - apply (file_tree_frame w); try done. cbn. by apply (fmap_insert_id _ _ _ y).
    - intros fd' g [_ Hg']%lookup_delete_Some. by apply (oo_named _ Ho fd').
    - intros g z. rewrite (open_count_delete _ fd f) by done. cbn.
      intros [[<- <-]|[Hne Hz]]%lookup_insert_Some.
      + cbn. rewrite decide_True by done. rewrite swrap_small by lia. lia.
      + rewrite decide_False by done. rewrite (oo_links _ Ho g z Hz). lia. }
  constructor; try done.
  - by apply (cs_good _ _ Hcs).
  - by rewrite with_closed_table, (opens_of_calls _ _ Hcs).
  - intros g. cbn [andb]. change (file_content (with_closed fd w1) g) with (file_content w1 g).
    by apply file_content_meta_step.
  - intros g _. change (doomed (with_closed fd w1) g) with (doomed w1 g). apply Hdm.
Qed.

(** the last descriptor of a doomed file: the file is removed *)
Lemma close_gone (w w1 w2 w3 : world) (fd f : Z) (y y1 : file) (od : directory) (key : Z * bytes)
    (e : Z) (evs : list sys_event) (r : Z) :
  sys_ok w -> dev_good w -> opens_of w !! fd = Some f -> w_files w !! f = Some y ->
  fh_created_files (w_fh w) !! key = Some f -> open_count (delete fd (opens_of w)) f = 0 ->
  evs `suffix_of` w_events w -> w1 = with_unlinked_once f y (upd_io e evs (w_store w) w) ->
  y1 = set_fo_nlink (i32 (fo_nlink y - 1)) (set_fo_locked false y) ->
  names_kept w1 w2 -> meta_step w1 w2 -> w_files w2 = w_files w1 -> key.1 = do_meta od ->
  calls_step w1 w3 -> unlink_post w2 f y1 od key.2 r w3 ->
  close_post w fd f key true 0 (with_closed fd w3).
Proof.
  intros [Hi Hd Ht Ho] Hg Hfd Hy Hk Hz Hs Hw1 Hy1 Hnk Hms2 Hf2 Hdm Hc3 Hpost.
  destruct (with_unlinked_once_step w f y e evs Hy Hs) as (Hms & Hcs & Hdoom). rewrite <- Hw1 in *.
  assert (Hcs3 : calls_step w w3) by by etrans.
  assert (Hr : r = 0).
  { apply (up_good _ _ _ _ _ _ _ Hpost), (cs_good _ _ (nk_calls _ _ Hnk)), (cs_good _ _ Hcs), Hg. }
  destruct Hpost as [_ _ _ Hoth _ Hinv _ Hnm Hempty _ _ _ Hfr].
  destruct (Hinv Hr) as (Hi3 & Hd3 & Ht3). destruct (Hfr Hr) as (Hf3 & Hfree3 & m3 & Hm3). rewrite (nk_fh _ _ Hnk) in Hfree3.
  specialize (Hnm Hr). specialize (Hempty Hr). rewrite (nk_fh _ _ Hnk) in Hnm.
  assert (Hfh1 : fh_created_files (w_fh w1) = fh_created_files (w_fh w)) by by rewrite Hw1.
  rewrite Hfh1, <- Hdm in Hnm.
  replace (delete (key.1, key.2) (fh_created_files (w_fh w))) with (delete key (fh_created_files (w_fh w)))
    in Hnm by by destruct key.
  assert (Hf1 : w_files w1 = <[f := y1]> (w_files w)) by by rewrite Hw1, Hy1.
  rewrite Hf2, Hf1, insert_insert_eq in Hf3.
  assert (Hsys : sys_ok (with_closed fd w3)).
  { apply (with_closed_sys w w3 fd f); try done.
    - intros fd' g Hg'. assert (Hgf : g <> f).
      { intros ->. by apply (open_count_zero _ _ Hz fd'). }
      apply lookup_delete_Some in Hg' as [_ Hg']. destruct (oo_named _ Ho fd' g Hg') as [key' Hk'].
      exists key'. rewrite Hnm, lookup_delete_ne; [done|]. intros <-. congruence.
    - intros g z. rewrite Hf3. intros [[<- <-]|[Hne Hz']]%lookup_insert_Some.
      + rewrite Hz, Hy1. cbn. rewrite (oo_links _ Ho f y Hy).
        rewrite (open_count_delete _ fd f), decide_True in Hz by done. by rewrite Hz.
      + rewrite (open_count_delete _ fd f), decide_False by done.
        rewrite (oo_links _ Ho g z Hz'). lia. }
  constructor; try done.
  - by apply (cs_good _ _ Hcs3).
  - apply (cs_super _ _ Hcs3).
  - by rewrite with_closed_table, (opens_of_calls _ _ Hcs3).
  - cbn. by rewrite (cs_fdh _ _ Hcs3).
  - cbn. by rewrite Hfree3, Hw1.
  - apply (cs_dh _ _ Hcs3).
  - apply (cs_dirs _ _ Hcs3).
  - intros g. change (file_content (with_closed fd w3) g) with (file_content w3 g). cbn [andb].
    case_bool_decide as Hgf; [by subst g|]. rewrite Hoth by done.
    assert (Hi1 : fs_inv w1) by by apply (fs_inv_meta_step w).
    rewrite (file_content_meta_step w1 w2 g Hi1 Hms2). by apply file_content_meta_step.
  - intros g Hgf. change (doomed (with_closed fd w3) g) with (doomed w3 g). rewrite <- Hdoom.
    assert (Hne : g <> f) by (intros ->; by apply Hgf). unfold doomed.
    rewrite Hf3, lookup_insert_ne by done. rewrite Hf1, lookup_insert_ne by done.
    destruct (w_files w !! g) as [z|] eqn:Hz'; [|done]. f_equal.
    rewrite Hm3. rewrite lookup_insert_ne; last first.
    { rewrite Hy1. cbn. intros Heq. apply Hne. by apply (files_meta_inj w f g y z). }
    pose proof (f_equal (lookup (fo_meta z)) (nk_records _ _ Hnk)) as He. rewrite !lookup_fmap in He.
    destruct (w_filemeta w2 !! fo_meta z), (w_filemeta w1 !! fo_meta z); try done.
    by injection He as _ _ _ ->.
Qed.

Lemma FileHandle_close_wp (w : world) (fd f : Z) (key : Z * bytes) :
  sys_ok w -> dev_good w -> opens_of w !! u64 fd = Some f ->
  fh_created_files (w_fh w) !! key = Some f ->
  wp (FileHandle_close fd) (close_post w (u64 fd) f key
    (bool_decide (open_count (delete (u64 fd) (opens_of w)) f = 0) && doomed w f)) w.
Proof.
  intros Hsys Hg Hfd Hk. pose proof Hsys as [Hi Hd Ht Ho].
  destruct (named_file w key f Ht Hk) as (y & m & Hy & Hm).
  pose proof (opens_of_range _ _ _ Ho Hfd) as Hr.
  pose proof (open_count_bound w f Ho) as Hb. pose proof (oo_links _ Ho f y Hy) as Hl.
  pose proof (open_count_pos _ _ _ Hfd) as Hpos. unfold kMaxFileNum in Hb.
  pose proof (i32_of_u64 fd Hr) as Hi32.
  pose proof Hfd as (o & x & Hfdo & Hx & Hxf)%opens_of_lookup.
  unfold FileHandle_close, GetOpenFile. repeat wp_step. rewrite Hfdo. repeat wp_step.
  apply (wp_get_open o x); [done|]. rewrite Hxf. wp_step. unfold File_fsync.
  eapply wp_mono; [apply fsync_run|]. intros _ ? (e & evs & Hs & _ & -> & _).
  wp_step. apply (wp_upd_file f _ y); [done|]. wp_step.
  apply (wp_upd_file f _ (set_fo_locked false y)); [cbn; by rewrite lookup_insert_eq|].
  set (y1 := set_fo_nlink (i32 (fo_nlink y - 1)) (set_fo_locked false y)).
  match goal with |- wp _ _ ?x => replace x with (with_unlinked_once f y (upd_io e evs (w_store w) w))
    by (unfold with_unlinked_once, upd_io; cbn; by rewrite insert_insert_eq) end.
  destruct (with_unlinked_once_step w f y e evs Hy Hs) as (Hms & Hcs & _).
  set (w1 := with_unlinked_once f y _) in *.
  assert (Hf1 : w_files w1 !! f = Some y1) by (cbn; by rewrite lookup_insert_eq).
  assert (Hn1 : fo_nlink y1 = open_count (delete (u64 fd) (opens_of w)) f).
  { cbn. rewrite (open_count_delete _ _ f), decide_True by done. rewrite swrap_small by lia. lia. }
  unfold File_LinkCount, File_is_temp. do 2 wp_step. apply (wp_get_file f y1); [done|]. do 3 wp_step.
  apply (wp_file_meta f y1 m); [done|done|]. do 2 wp_step. apply (wp_get_file f y1); [done|]. wp_step.
  eapply wp_run; [by apply (File_fh_run w1 f y1 m)|].
  assert (Hi1 : fs_inv w1) by by apply (fs_inv_meta_step w).
  assert (Hd1 : dir_tree w1) by by apply (dir_tree_ext w).
  assert (Ht1 : file_tree w1).
  { apply (file_tree_frame w); try done. cbn. by apply (fmap_insert_id _ _ _ y). }
  pose proof (filemeta_range _ _ _ Hi Hm) as Hmr. pose proof (lo_max_file _ (fi_layout _ Hi)) as Hmax.
  assert (Hfh : i32 (fm_fh m) = fo_meta y1).
  { destruct (i_files _ _ (fi_inv _ Hi) _ _ (view_files_lookup _ _ _ Hy)) as (_ & _ & mv & Hmv & Hfh & _).
    change (ov_meta (view_fo y)) with (fo_meta y) in *. rewrite (view_fm_some _ _ _ Hm) in Hmv.
    injection Hmv as <-. change (mv_fh (view_fm m)) with (fm_fh m) in Hfh.
    rewrite Hfh. cbn. apply swrap_small; lia. }
  assert (Hdoom : doomed w f = fm_is_temp m || fo_deleted y1).
  { unfold doomed. by rewrite Hy, Hm. }
  assert (Hmax1 : forall w', calls_step w w' -> fd_max (w_fdh w') = 2 * kMaxFileNum).
  { intros w' Hc. rewrite (cs_fdh _ _ Hc). apply Ho. }
  rewrite Hfh, Hn1, Hdoom, Hi32.
  destruct (Z.eqb_spec (open_count (delete (u64 fd) (opens_of w)) f) 0) as [Hz|Hz];
    [rewrite bool_decide_true by done|rewrite bool_decide_false by done]; cbn [andb].
  2:{ repeat wp_step. eapply wp_run; [apply put_fd_run; [exact (Hmax1 w1 Hcs)|done]|].
      unfold set_errno. repeat wp_step. by apply (close_kept w w1 (u64 fd) f y key e evs). }
  destruct (fm_is_temp m || fo_deleted y1).
  2:{ repeat wp_step. eapply wp_run; [apply put_fd_run; [exact (Hmax1 w1 Hcs)|done]|].
      unfold set_errno. repeat wp_step. by apply (close_kept w w1 (u64 fd) f y key e evs). }
  do 2 wp_step. eapply wp_mono.
  { apply keeps_wp; [apply (UnlinkFileNolock_wp w1 f y1 key); try done; by rewrite Hn1, Hz|apply calls_UnlinkFileNolock]. }
  intros r w3 [(w2 & od & Hnk & Hms2 & Hf2 & Hdm & Hpost) Hc3].
  repeat wp_step. eapply wp_run; [apply put_fd_run; [exact (Hmax1 w3 (transitivity Hcs Hc3))|done]|].
  unfold set_errno. repeat wp_step.
  by apply (close_gone w w1 w2 w3 (u64 fd) f y y1 od key e evs r).
Qed.

End Closing.
