(* ===== verification/Session.v ===== *)
(** * What clients see: the abstract file system

    The state that the calls on files are about ([afs]: directories, names,
    contents, descriptors), what each call may do to it ([a_step]), and the
    abstraction of a world ([abs]).  The calls are those of one process, one
    after the other; between two of them the clock may show another time. *)

From S2P Require Import Prelude Meta Device World SuperBlock Resources Paths FileBlock Inode.
From S2P Require Import Directory FileHandle File OpenFile FileHandleOps DirHandle FileSystem.
From S2P Require Import Io Frames Invariant MetaSteps Views Content FileGrow FileIO FileShrink Truncate.
From S2P Require Import DirSteps Names DirOps FileNames FileEntries Unlink OpenFiles.

(** ** Calls *)

Inductive call : Type :=
  | CCreate (path : bytes) (mode : Z)
  | CUnlink (path : bytes)
  | COpen (path : bytes) (flags : Z)
  | CClose (fd : Z)
  | CDup (fd : Z)
  | CPwrite (fd : Z) (buf : bytes) (offset : Z)
  | CPread (fd : Z) (len offset : Z)
  | CTruncate (fd : Z) (size : Z)
  | CMkdir (path : bytes)
  | CRmdir (path : bytes)
  | CRename (from to : bytes)
  | CTick (time : Z).           (** between two calls: the clock shows [time] *)

(** the value of a call, with the bytes that a read delivers *)
Definition reply : Type := Z * bytes.

(** ** The abstract file system *)

Record afs : Type := MkAfs {
  a_dirs : gmap bytes Z;        (** path of a directory to its handle *)
  a_names : gmap (Z * bytes) Z; (** directory handle and name to file *)
  a_data : Z -> bytes;          (** contents of files *)
  a_open : gmap Z Z;            (** descriptor to file *)
  a_doomed : Z -> bool;         (** removed with its last descriptor *)
  a_records : nat;              (** files that can still be made *)
  a_dir_records : nat;          (** directories that can still be made *)
  a_held : Z -> bool;           (** directories with an open stream *)
  a_room : Z -> Z -> Prop       (** whether a file can grow to a size *)
}.

Definition a_dir (s : afs) (path : bytes) : option Z := p ← dir_key path; a_dirs s !! p.

Definition a_key (s : afs) (path : bytes) : option (Z * bytes) :=
  if ends_with_slash path then None
  else if kBlockFsMaxFileNameLen <=? Z.of_nat (length (GetFileName path)) then None
  else d ← a_dir s (GetDirName path); Some (d, GetFileName path).

Definition a_file (s : afs) (path : bytes) : option Z := k ← a_key s path; a_names s !! k.

(** no file has the path, nor that of its parent *)
Definition a_no_file (s : afs) (path : bytes) (check_parent : bool) : bool :=
  IsMountPoint path ||
  (is_none (a_file s (chop_slash path)) &&
   (IsMountPoint (GetDirName path) || negb check_parent ||
    is_none (a_file s (chop_slash (GetDirName path))))).

(** equal states: contents file by file, marks of the files and directories that
    have a name; the room for growth is not followed *)
Record a_same (s t : afs) : Prop := {
  as_dirs : a_dirs t = a_dirs s;
  as_names : a_names t = a_names s;
  as_data : forall g, a_data t g = a_data s g;
  as_open : a_open t = a_open s;
  as_doomed : forall key g, a_names s !! key = Some g -> a_doomed t g = a_doomed s g;
  as_records : a_records t = a_records s;
  as_dir_records : a_dir_records t = a_dir_records s;
  as_held : forall p i, a_dirs s !! p = Some i -> a_held t i = a_held s i
}.

#[export] Instance a_same_equiv : Equivalence a_same.
Proof.
  split.
  - intros s. by constructor.
  - intros s t [Hd Hn Ht Ho Hm Hr Hc Hh]. constructor; try done.
    + intros key g Hk. symmetry. apply (Hm key). by rewrite <- Hn.
    + intros p i Hi. symmetry. apply (Hh p). by rewrite <- Hd.
  - intros s t u [Hd Hn Ht Ho Hm Hr Hc Hh] [Hd' Hn' Ht' Ho' Hm' Hr' Hc' Hh']. constructor; try congruence.
    + intros key g Hk. rewrite (Hm' key), (Hm key); [done|done|]. by rewrite Hn.
    + intros p i Hi. rewrite (Hh' p), (Hh p); [done|done|]. by rewrite Hd.
Qed.

Definition upd {A} (f : Z) (a : A) (h : Z -> A) : Z -> A := fun g => if decide (g = f) then a else h g.

(** *** What calls do *)

Definition a_with_dirs (dirs : gmap bytes Z) (n : nat) (held : Z -> bool) (s : afs) : afs :=
  MkAfs dirs (a_names s) (a_data s) (a_open s) (a_doomed s) (a_records s) n held (a_room s).

Definition a_with_files (names : gmap (Z * bytes) Z) (data : Z -> bytes) (table : gmap Z Z)
    (doomed : Z -> bool) (n : nat) (s : afs) : afs :=
  MkAfs (a_dirs s) names data table doomed n (a_dir_records s) (a_held s) (a_room s).

(** a new empty file gets a name *)
Definition a_make (key : Z * bytes) (f : Z) (s : afs) : afs :=
  a_with_files (<[key := f]> (a_names s)) (upd f [] (a_data s)) (a_open s)
    (upd f false (a_doomed s)) (pred (a_records s)) s.

(** a file loses its name and its content *)
Definition a_remove (key : Z * bytes) (f : Z) (s : afs) : afs :=
  a_with_files (delete key (a_names s)) (upd f [] (a_data s)) (a_open s) (a_doomed s) (a_records s) s.

Definition a_doom (f : Z) (s : afs) : afs :=
  a_with_files (a_names s) (a_data s) (a_open s) (upd f true (a_doomed s)) (a_records s) s.

Definition a_opens (t : gmap Z Z) (s : afs) : afs :=
  a_with_files (a_names s) (a_data s) t (a_doomed s) (a_records s) s.

Definition a_write (f : Z) (data : bytes) (s : afs) : afs :=
  a_with_files (a_names s) (upd f data (a_data s)) (a_open s) (a_doomed s) (a_records s) s.

(** a file has another name *)
Definition a_move (key key' : Z * bytes) (f : Z) (s : afs) : afs :=
  a_with_files (<[key' := f]> (delete key (a_names s))) (a_data s) (a_open s) (a_doomed s)
    (a_records s) s.

(** a new empty directory *)
Definition a_mkdir (p : bytes) (i : Z) (s : afs) : afs :=
  a_with_dirs (<[p := i]> (a_dirs s)) (pred (a_dir_records s)) (upd i false (a_held s)) s.

Definition a_rmdir (p : bytes) (s : afs) : afs :=
  a_with_dirs (delete p (a_dirs s)) (a_dir_records s) (a_held s) s.

(** a directory has another path; the files go with its handle *)
Definition a_move_dir (p p' : bytes) (i : Z) (s : afs) : afs :=
  a_with_dirs (<[p' := i]> (delete p (a_dirs s))) (a_dir_records s) (a_held s) s.

(** the error reply, nothing changed *)
Definition a_fails (s : afs) (r : reply) (t : afs) : Prop := r.1 = -1 /\ a_same s t.

(** a file is made at a path that names none, in a directory that exists *)
Definition a_makes (path : bytes) (s : afs) (f : Z) (t : afs) : Prop :=
  exists key, a_key s path = Some key /\ a_names s !! key = None /\
    (forall key', a_names s !! key' <> Some f) /\ (0 < a_records s)%nat /\ a_same (a_make key f s) t.

Definition a_cannot_make (path : bytes) (s : afs) : Prop :=
  a_records s = 0%nat \/ forall key, a_key s path = Some key -> a_names s !! key <> None.

(** a descriptor that nobody has is given to [f] *)
Definition a_gives (f : Z) (s : afs) (r : reply) (t : afs) : Prop :=
  0 <= r.1 /\ a_open s !! r.1 = None /\ a_same (a_opens (<[r.1 := f]> (a_open s)) s) t.

(** *** Directories *)

(** the directory of key [p] can be made *)
Definition a_can_mkdir (path p : bytes) (s : afs) : Prop :=
  dir_key path = Some p /\ a_no_file s path true = true /\ a_dirs s !! p = None /\
  (p = [slash] \/ is_Some (a_dirs s !! GetDirName p)) /\ (0 < a_dir_records s)%nat.

Definition a_new_dir (i : Z) (s : afs) : Prop :=
  (forall p, a_dirs s !! p <> Some i) /\ forall n, a_names s !! (i, n) = None.

Definition a_childless (p : bytes) (s : afs) : Prop :=
  forall p', is_Some (a_dirs s !! p') -> p' <> [slash] -> GetDirName p' <> p.

(** the directory of key [p] can be removed: not the mount point, empty, and not open *)
Definition a_can_rmdir (path p : bytes) (i : Z) (s : afs) : Prop :=
  path <> [slash] /\ dir_key path = Some p /\ a_no_file s path false = true /\
  a_dirs s !! p = Some i /\ a_held s i = false /\ a_childless p s /\
  forall n, a_names s !! (i, n) = None.

(** The directory [i] at [from] is renamed.  The replies are inverted in the code:
    -1 when it is done, 0 when there is no parent to move to. *)
Definition a_renames_dir (from to : bytes) (i : Z) (s : afs) (r : reply) (t : afs) : Prop :=
  let allowed := a_no_file s to true = true /\ from <> [slash] /\ to <> [slash] /\ is_Some (dir_key to) in
  (~ allowed /\ a_fails s r t) \/
  (allowed /\ exists p p', dir_key from = Some p /\ dir_key to = Some p' /\
     match a_dirs s !! GetDirName p' with
     | None => r.1 = 0 /\ a_same s t
     | Some _ => r.1 = -1 /\ a_same (a_move_dir p p' i s) t
     end).

(** the last descriptor of a doomed file *)
Definition a_last (s : afs) (fd f : Z) : bool :=
  bool_decide (open_count (delete fd (a_open s)) f = 0) && a_doomed s f.

Definition a_step (c : call) (s : afs) (r : reply) (t : afs) : Prop :=
  match c with
  | CCreate path _ =>
    (r.1 = 0 /\ exists f, a_makes path s f t) \/ (a_cannot_make path s /\ a_fails s r t)
  | CUnlink path =>
    match a_dir s path, a_file s path with
    | None, Some f => r.1 = 0 /\
      if bool_decide (open_count (a_open s) f = 0)
      then exists key, a_key s path = Some key /\ a_same (a_remove key f s) t
      else a_same (a_doom f s) t
    | _, _ => a_fails s r t
    end
  | COpen path flags =>
    match a_dir s path, a_file s path with
    | Some _, _ => a_fails s r t
    | None, Some f => if excl_create flags then a_fails s r t else a_gives f s r t
    | None, None =>
      (has_flag flags O_CREAT = true /\ exists f s1, a_makes path s f s1 /\ a_gives f s1 r t) \/
      ((has_flag flags O_CREAT = true -> a_cannot_make path s) /\ a_fails s r t)
    end
  | CClose fd =>
    match a_open s !! u64 fd with
    | None => a_fails s r t
    | Some f => r.1 = 0 /\ exists key, a_names s !! key = Some f /\
      let s1 := a_opens (delete (u64 fd) (a_open s)) s in
      a_same (if a_last s (u64 fd) f then a_remove key f s1 else s1) t
    end
  | CDup fd =>
    match a_open s !! u64 fd with
    | None => a_fails s r t
    | Some f => a_gives f s r t
    end
  | CPwrite fd buf offset =>
    match a_open s !! u64 fd with
    | None => a_fails s r t
    | Some f => exists data, a_same (a_write f data s) t /\
      let last := offset + Z.of_nat (length buf) in
      let old := Z.of_nat (length (a_data s f)) in
      ((old < last -> a_room s f last) -> r.1 = Z.of_nat (length buf) /\ exists gap,
         Z.of_nat (length gap) = Z.max 0 (last - old) /\
         data = splice (Z.to_nat offset) buf (a_data s f ++ gap))
    end
  | CPread fd len offset =>
    match a_open s !! u64 fd with
    | None => a_fails s r t
    | Some f => a_same s t /\
      let data := slice (Z.to_nat offset) (Z.to_nat len) (a_data s f) in
      r.1 = Z.of_nat (length data) /\ take (length data) r.2 = data
    end
  | CTruncate fd size =>
    match a_open s !! u64 fd with
    | None => a_fails s r t
    | Some f => exists gap, a_same (a_write f (a_data s f ++ gap) s) t /\ (r.1 = 0 \/ r.1 = -1) /\
        (r.1 = 0 -> Z.of_nat (length (a_data s f ++ gap)) = size) /\
        ((Z.of_nat (length (a_data s f)) < size -> a_room s f size) -> r.1 = 0)
    end
  | CMkdir path =>
    (r.1 = 0 /\ exists p i, a_can_mkdir path p s /\ a_new_dir i s /\ a_same (a_mkdir p i s) t) \/
    ((forall p, ~ a_can_mkdir path p s) /\ a_fails s r t)
  | CRmdir path =>
    (r.1 = 0 /\ exists p i, a_can_rmdir path p i s /\ a_same (a_rmdir p s) t) \/
    ((forall p i, ~ a_can_rmdir path p i s) /\ a_fails s r t)
  | CRename from to =>
    match a_file s to, a_file s from with
    | Some _, _ => a_fails s r t
    | None, Some f =>
      match a_dir s (GetDirName to) with
      | None => a_fails s r t
      | Some i => r.1 = 0 /\ exists key, a_key s from = Some key /\
          a_same (a_move key (i, GetFileName to) f s) t
      end
    | None, None =>
      match a_dir s from with
      | None => a_fails s r t
      | Some i => a_renames_dir from to i s r t
      end
    end
  | CTick _ => r.1 = 0 /\ a_same s t
  end.

(** ** The calls of the code *)

Section Calls.
Context `{Env}.

Definition run_call (c : call) : Fs reply :=
  match c with
  | CCreate path mode => let! r := FileSystem_CreateFile path mode in ret (r, [])
  | CUnlink path => let! r := FileHandle_unlink path in ret (r, [])
  | COpen path flags => let! r := FileHandle_open path flags in ret (r, [])
  | CClose fd => let! r := FileHandle_close fd in ret (r, [])
  | CDup fd => let! r := FileHandle_dup fd in ret (r, [])
  | CPwrite fd buf offset => let! r := PwriteFile fd buf offset in ret (r, [])
  | CPread fd len offset => PreadFile fd (replicate (Z.to_nat len) 0) len offset
  | CTruncate fd size => let! r := TruncateFile_fd fd size in ret (r, [])
  | CMkdir path => let! r := CreateDirectory path in ret (r, [])
  | CRmdir path => let! r := DeleteDirectory path false in ret (r, [])
  | CRename from to => let! r := RenamePath from to in ret (r, [])
  | CTick time => modify (set_w_now time) ;; ret (0, [])
  end.

Fixpoint run_calls (cs : list call) : Fs (list reply) :=
  match cs with
  | [] => ret []
  | c :: cs => let! r := run_call c in let! rs := run_calls cs in ret (r :: rs)
  end.

End Calls.

(** the arguments that the model covers *)
Definition call_ok (c : call) : Prop :=
  match c with
  | CCreate path _ => 0 ∉ path
  | COpen path flags => 0 ∉ path /\ plain_flags flags
  | CPwrite _ buf offset => buf <> [] /\ 0 <= offset /\ offset + Z.of_nat (length buf) < 2 ^ 63
  | CPread _ len offset => 0 <= len /\ 0 <= offset /\ offset + len < 2 ^ 63
  | CTruncate _ size => 0 <= size < 2 ^ 63
  | CMkdir path => 0 ∉ path
  | CRmdir path => path <> []
  | CRename from to => from <> [] /\ to <> [] /\ 0 ∉ to
  | CTick time => in_i 64 time
  | _ => True
  end.

(** The scope of the theorems on sequences of calls, which is no code: the states in
    which they cover a call.  A file that is cut moves to another
    record; a renamed directory takes only its files along, so that it must have
    no sub-directories, and the code tests neither the new path nor whether the
    directory would be its own parent; the new name of a file is not tested.
    Shrinking has a theorem of its own ([truncate_shrink_correct]). *)
Definition call_fits (c : call) (s : afs) : Prop :=
  match c with
  | CTruncate fd size =>
    forall f, a_open s !! u64 fd = Some f -> Z.of_nat (length (a_data s f)) <= size
  | CRename from to =>
    (a_file s from <> None -> ends_with_slash to = false /\ (length (GetFileName to) < 64)%nat) /\
    (a_file s to = None -> a_file s from = None -> forall p i, dir_key from = Some p ->
       a_dirs s !! p = Some i -> a_childless p s /\
       forall p', dir_key to = Some p' -> a_dirs s !! p' = None /\ GetDirName p' <> p)
  | _ => True
  end.

(** every call of the sequence is covered in every state that it can find *)
Fixpoint calls_fit (cs : list call) (s : afs) : Prop :=
  match cs with
  | [] => True
  | c :: cs => call_ok c /\ call_fits c s /\ forall r t, a_step c s r t -> calls_fit cs t
  end.

(** the descriptors that a call may take *)
Definition takes_fd (c : call) : nat := match c with COpen _ _ | CDup _ => 1 | _ => 0 end.

(** ** The abstraction *)

(** a stream is open on the directory with handle [i] *)
Definition dir_held (w : world) (i : Z) : bool :=
  match d ← dh_created_dhs (w_dh w) !! i; w_dirs w !! d with
  | Some o => negb (u32 (do_nlink o) =? 0)
  | None => false
  end.

Definition abs (w : world) : afs := {|
  a_dirs := omap (fun d => do_meta <$> w_dirs w !! d) (dh_created_dirs (w_dh w));
  a_names := fh_created_files (w_fh w);
  a_data := file_content w;
  a_open := opens_of w;
  a_doomed := doomed w;
  a_records := length (fh_free (w_fh w));
  a_dir_records := length (dh_free (w_dh w));
  a_held := dir_held w;
  a_room := extend_room w
|}.

Lemma abs_dir (w : world) (path : bytes) :
  a_dir (abs w) path = d ← lookup_dir w path; do_meta <$> w_dirs w !! d.
Proof.
  unfold a_dir, lookup_dir. destruct (dir_key path) as [p|]; cbn [mbind option_bind]; [|done].
  cbn [abs a_dirs]. by rewrite lookup_omap.
Qed.

Lemma abs_dir_none (w : world) (path : bytes) :
  dir_tree w -> a_dir (abs w) path = None <-> lookup_dir w path = None.
Proof.
  intros Hd. rewrite abs_dir. destruct (lookup_dir w path) as [d|] eqn:Hl; [|done].
  destruct (lookup_dir_some _ _ _ Hd Hl) as (p & o & m & _ & _ & Ho & _).
  cbn [mbind option_bind]. by rewrite Ho.
Qed.

Lemma abs_key (w : world) (path : bytes) : a_key (abs w) path = file_key w path.
Proof.
  unfold a_key, file_key. destruct (ends_with_slash path); [done|].
  destruct (kBlockFsMaxFileNameLen <=? _); [done|]. rewrite abs_dir.
  destruct (lookup_dir w (GetDirName path)) as [d|]; cbn [mbind option_bind]; [|done].
  by destruct (w_dirs w !! d).
Qed.

Lemma abs_file (w : world) (path : bytes) : a_file (abs w) path = lookup_file w path.
Proof. unfold a_file, lookup_file. by rewrite abs_key. Qed.

Lemma abs_no_file (w : world) (path : bytes) (check_parent : bool) :
  a_no_file (abs w) path check_parent = no_file w path check_parent.
Proof. unfold a_no_file, no_file. by rewrite !abs_file. Qed.

(** directories as the paths show them *)
Lemma dir_ids (w w' : world) (d : Z) :
  dir_id <$> w_dirs w' = dir_id <$> w_dirs w ->
  do_meta <$> w_dirs w' !! d = do_meta <$> w_dirs w !! d /\
  do_nlink <$> w_dirs w' !! d = do_nlink <$> w_dirs w !! d.
Proof.
  intros Ed. pose proof (f_equal (lookup d) Ed) as He. rewrite !lookup_fmap in He.
  destruct (w_dirs w' !! d), (w_dirs w !! d); try done. injection He as Hm Hl. cbn.
  by rewrite Hm, Hl.
Qed.

Lemma abs_dirs_ext (w w' : world) :
  w_dh w' = w_dh w -> dir_id <$> w_dirs w' = dir_id <$> w_dirs w ->
  a_dirs (abs w') = a_dirs (abs w).
Proof.
  intros Eh Ed. cbn. rewrite Eh. apply map_eq. intros p. rewrite !lookup_omap.
  destruct (dh_created_dirs (w_dh w) !! p) as [d|]; cbn [mbind option_bind]; [|done].
  by apply dir_ids.
Qed.

Lemma dir_held_ext (w w' : world) (i : Z) :
  w_dh w' = w_dh w -> dir_id <$> w_dirs w' = dir_id <$> w_dirs w -> dir_held w' i = dir_held w i.
Proof.
  intros Eh Ed. unfold dir_held. rewrite Eh.
  destruct (dh_created_dhs (w_dh w) !! i) as [d|]; cbn [mbind option_bind]; [|done].
  destruct (dir_ids w w' d Ed) as [_ Hl].
  destruct (w_dirs w' !! d), (w_dirs w !! d); try done. cbn in Hl. by injection Hl as ->.
Qed.

Lemma abs_dirs_calls (w w' : world) : calls_step w w' -> a_dirs (abs w') = a_dirs (abs w).
Proof. intros Hc. apply abs_dirs_ext; apply Hc. Qed.

(** a step that changes no directory *)
Lemma abs_files (w w' : world) (names : gmap (Z * bytes) Z) (data : Z -> bytes) (table : gmap Z Z)
    (doom : Z -> bool) (n : nat) :
  w_dh w' = w_dh w -> dir_id <$> w_dirs w' = dir_id <$> w_dirs w ->
  fh_created_files (w_fh w') = names -> (forall g, file_content w' g = data g) ->
  opens_of w' = table -> (forall key g, names !! key = Some g -> doomed w' g = doom g) ->
  length (fh_free (w_fh w')) = n ->
  a_same (a_with_files names data table doom n (abs w)) (abs w').
Proof.
  intros Eh Ed Hn Hd Ho Hm Hr. constructor; try done.
  - by apply abs_dirs_ext.
  - cbn. by rewrite Eh.
  - intros p i _. by apply dir_held_ext.
Qed.

(** ** Sequences of calls

    Every call of the sequence does what the abstract file system allows it. *)
Inductive session `{Env} : list call -> world -> list reply -> world -> Prop :=
  | session_nil w : session [] w [] w
  | session_cons c cs w r w1 rs w' :
      run_call c w = Done r w1 -> a_step c (abs w) r (abs w1) -> session cs w1 rs w' ->
      session (c :: cs) w (r :: rs) w'.
