(* ===== verification/Rename.v ===== *)
(** * Renaming a file

    [File::rename]: the file leaves its directory and the maps, its record gets
    the new name and directory, it is entered again, and the record is written. *)

From S2P Require Import Prelude Meta Device World SuperBlock Resources Paths FileBlock Inode.
From S2P Require Import Directory FileHandle File OpenFile FileHandleOps DirHandle FileSystem.
From S2P Require Import Io Invariant MetaSteps Views Content FileGrow FileIO FileShrink Truncate.
From S2P Require Import DirSteps Names DirOps FileNames FileEntries.

Section Rename.
Context `{Env}.

(** the record of a renamed file *)
Definition renamed_meta (to : bytes) (dh time : Z) (m : FileMeta) : FileMeta :=
  let m := set_fm_dh dh (set_file_name (GetFileName to) m) in
  let m := set_fm_ctime time (set_fm_mtime time m) in
  set_fm_crc (file_crc_of m) m.

(** record [i] changed its name and place and was written *)
Definition file_written (to : bytes) (w : world) (i : Z) (w' : world) : Prop :=
  exists m m', w_filemeta w !! i = Some m /\ w_filemeta w' = <[i := m']> (w_filemeta w) /\
    file_wf m' /\ fm_crc m' = file_crc_of m' /\ fm_fh m' = fm_fh m /\ fm_used m' = fm_used m /\
    fm_is_temp m' = fm_is_temp m /\ fm_child_fh m' = fm_child_fh m /\ fm_size m' = fm_size m /\
    meta_file_name m' = GetFileName to /\
    w_store w' = st_write (w_store w) (file_page_addr (w_super w) i)
      (file_page (w_filemeta w') (page_of i) kBlockFsFileMetaSize).

(** what a renaming of file [f], with record of index [i], comes to *)
Record rename_post (w : world) (f i : Z) (key : Z * bytes) (to : bytes) (r : Z) (w' : world) : Prop := {
  rn_inv : fs_inv w';
  rn_dirs : dir_tree w';
  rn_files : file_tree w';
  rn_content : forall g, file_content w' g = file_content w g;
  rn_paths : dh_created_dirs (w_dh w') = dh_created_dirs (w_dh w);
  rn_result : r = 0 \/ r = -1;
  rn_missing : lookup_dir w (GetDirName to) = None -> r = -1 /\ exists e, w' = set_w_errno e w;
  rn_found : forall d od, lookup_dir w (GetDirName to) = Some d -> w_dirs w !! d = Some od ->
    fh_created_files (w_fh w')
      = <[(do_meta od, GetFileName to) := f]> (delete key (fh_created_files (w_fh w))) /\
    (r = 0 -> file_persisted w' i) /\ (dev_good w -> r = 0);
  rn_objs : w_files w' = w_files w;
  rn_free : fh_free (w_fh w') = fh_free (w_fh w);
  rn_temps : forall j m, w_filemeta w !! j = Some m ->
    exists m', w_filemeta w' !! j = Some m' /\ fm_is_temp m' = fm_is_temp m;
  rn_written : dev_good w -> lookup_dir w (GetDirName to) <> None -> file_written to w i w';
  rn_others : w_dirmeta w' = w_dirmeta w /\ w_fbmeta w' = w_fbmeta w /\ w_dh w' = w_dh w /\
    fh_created_fhs (w_fh w') = fh_created_fhs (w_fh w) /\ env_step w w'
}.

Lemma with_removed_step (w : world) (i d : Z) (od : directory) (key : Z * bytes) :
  w_dirs w !! d = Some od -> meta_step w (with_removed i d od key w).
Proof.
  intros Hd. constructor; try done. constructor; try done. intros Hok j c Hj. cbn.
  apply lookup_insert_is_Some'. right. by eapply Hok.
Qed.

Lemma set_filemeta_same (w : world) (i : Z) (m m' : FileMeta) :
  set_w_filemeta (<[i := m']> (w_filemeta (set_w_filemeta (<[i := m]> (w_filemeta w)) w)))
    (set_w_filemeta (<[i := m]> (w_filemeta w)) w) = set_w_filemeta (<[i := m']> (w_filemeta w)) w.
Proof. unfold set_w_filemeta. cbn. by rewrite insert_insert_eq. Qed.


Lemma renamed_meta_facts (to : bytes) (dh time : Z) (m : FileMeta) :
  file_wf m -> in_u 64 dh -> in_i 64 time -> 0 ∉ GetFileName to ->
  (length (GetFileName to) < 64)%nat ->
  let m' := renamed_meta to dh time m in
  file_wf m' /\ view_fm m' = view_fm m /\ fm_dh m' = dh /\ meta_file_name m' = GetFileName to /\
  fm_used m' = fm_used m.
Proof.
  intros Hwf Hdh Ht H0 Hl m'. split_and!; try done.
  - apply file_wf_set_crc. destruct Hwf. constructor; try done. cbn. by rewrite copy_name_length.
  - unfold meta_file_name. cbn. by apply cstr_copy_name.
Qed.

(** the file [f] of record [i] leaves directory [d0] and enters directory [d1] *)
Definition with_renamed (f i d0 d1 : Z) (od0 od1 : directory) (key key' : Z * bytes) (m : FileMeta)
    (w : world) : world :=
  with_file_entry d1 i f od1 key'
    (let w1 := with_removed i d0 od0 key w in set_w_filemeta (<[i := m]> (w_filemeta w1)) w1).

Lemma with_renamed_tree (w : world) (f d0 d1 : Z) (o : file) (m : FileMeta) (od0 od1 : directory)
    (p0 p1 name name' : bytes) :
  fs_inv w -> dir_tree w -> file_tree w ->
  fh_created_files (w_fh w) !! (do_meta od0, name) = Some f -> w_files w !! f = Some o ->
  dh_created_dirs (w_dh w) !! p0 = Some d0 -> w_dirs w !! d0 = Some od0 ->
  dh_created_dirs (w_dh w) !! p1 = Some d1 ->
  w_dirs (with_removed (fo_meta o) d0 od0 (do_meta od0, name) w) !! d1 = Some od1 ->
  fh_created_files (w_fh w) !! (do_meta od1, name') = None ->
  fm_dh m = do_meta od1 -> meta_file_name m = name' -> fm_used m = true ->
  let w' := with_renamed f (fo_meta o) d0 d1 od0 od1 (do_meta od0, name) (do_meta od1, name') m w in
  file_tree w' /\ dir_tree w' /\ do_items od1 !! fo_meta o = None.
Proof.
  intros Hi Hd Ht Hk Ho Hp0 Hod0 Hp1 Hod1 Hnew Hdh Hnm Hu w'.
  destruct (remove_entry_tree w f d0 o od0 p0 name Hi Hd Ht Hk Ho Hp0 Hod0) as (Hft & Hdt & Hun & Hit).
  set (w1 := with_removed (fo_meta o) d0 od0 (do_meta od0, name) w) in *.
  set (w2 := set_w_filemeta (<[fo_meta o := m]> (w_filemeta w1)) w1).
  assert (Hft2 : file_tree w2).
  { apply file_tree_unlisted_record; [done|]. intros key g og Hg Hog.
    destruct (Hun key g Hg) as [_ Hgm]. by apply Hgm. }
  assert (Hdt2 : dir_tree w2) by by apply (dir_tree_ext w1).
  assert (Hr : 0 <= fo_meta o < sb_max_file_num (w_super w)).
  { destruct (i_files _ _ (fi_inv _ Hi) _ _ (view_files_lookup _ _ _ Ho)) as (_ & _ & mv & Hmv & _).
    apply view_fm_lookup in Hmv as (m0 & Hm0 & _). by apply (filemeta_range w _ m0). }
  destruct (add_entry_tree w2 f d1 o m od1 p1 name') as [? ?]; try done.
  - cbn. by rewrite lookup_insert_eq.
  - cbn. apply lookup_delete_None. by right.
  - intros key g og Hg Hog. destruct (Hun key g Hg) as [? Hgm]. split; [done|]. by apply Hgm.
  - split_and!; [done..|]. apply (Hit d1); [by exists p1|done].
Qed.

(** ** [File::rename] *)

Lemma GetCreatedDirectory_dh_run (w : world) (dh : Z) :
  0 <= dh < 2 ^ 64 -> GetCreatedDirectory_dh dh w = Done (dh_created_dhs (w_dh w) !! dh) w.
Proof.
  intros Hdh. unfold GetCreatedDirectory_dh, bind, gets, ret. by rewrite wrap_small by lia.
Qed.

(** the moves of the file up to the writing of its record *)
Lemma rename_moves_wp (w : world) (f d0 d1 : Z) (o : file) (m : FileMeta) (od0 od1 : directory)
    (md : DirMeta) (to : bytes) (Q : bool -> world -> Prop) :
  w_files w !! f = Some o -> w_filemeta w !! fo_meta o = Some m -> fm_fh m = fo_meta o ->
  0 <= fo_meta o < 2 ^ 31 -> 0 <= fm_dh m < 2 ^ 31 -> w_dirs w !! d0 = Some od0 ->
  is_Some (do_items od0 !! fo_meta o) ->
  is_Some (fh_created_files (w_fh w) !! (fm_dh m, meta_file_name m)) ->
  is_Some (fh_created_fhs (w_fh w) !! fo_meta o) ->
  w_dirs (with_removed (fo_meta o) d0 od0 (fm_dh m, meta_file_name m) w) !! d1 = Some od1 ->
  w_dirmeta w !! do_meta od1 = Some md -> dm_dh md = do_meta od1 -> 0 <= do_meta od1 < 2 ^ 31 ->
  do_items od1 !! fo_meta o = None ->
  let m1 := renamed_meta to (do_meta od1) (w_now w) m in
  meta_file_name m1 = GetFileName to ->
  wp (File_WriteMeta f) Q (with_renamed f (fo_meta o) d0 d1 od0 od1 (fm_dh m, meta_file_name m)
    (do_meta od1, GetFileName to) m1 w) ->
  wp (let! ok := RemoveChildFile d0 f in
      if negb ok then ret false else
      let! ok := RemoveFileNoLock f in
      if negb ok then ret false else
      upd_file_meta f (set_file_name (GetFileName to)) ;;
      let! new_dh := Directory_dh d1 in
      upd_file_meta f (set_fm_dh (u64 (i32 new_dh))) ;;
      let! seconds := gets w_now in
      File_UpdateTimeStamp f seconds ;;
      AddFileNoLock f ;;
      let! ok := AddChildFile d1 f in
      if negb ok then ret false else
      File_WriteMeta f) Q w.
Proof.
  intros Ho Hm Hfh Hi Hdh Hod0 Hx1 Hx2 Hx3 Hod1 Hmd Hmdh Hd1 Hnone m1 Hn1 HQ.
  wp_step. eapply wp_run; [by apply (RemoveChildFile_run w d0 f o m od0)|]. cbn [negb].
  wp_step. eapply wp_run; [by apply (RemoveFileNoLock_run _ f o m)|]. cbn [negb].
  match goal with |- wp _ _ ?x =>
    change x with (with_removed (fo_meta o) d0 od0 (fm_dh m, meta_file_name m) w) end.
  set (w1 := with_removed _ _ _ _ w) in *.
  wp_step. eapply (wp_upd_file_meta f _ o m); [done..|].
  wp_step. eapply wp_run; [by apply (Directory_dh_run _ d1 od1 md)|].
  rewrite Hmdh, swrap_small, wrap_small by lia.
  wp_step. eapply (wp_upd_file_meta f _ o); [done|cbn; by rewrite lookup_insert_eq|].
  rewrite set_filemeta_same. do 2 wp_step. unfold File_UpdateTimeStamp.
  wp_step. eapply (wp_upd_file_meta f _ o); [done|cbn; by rewrite lookup_insert_eq|].
  rewrite set_filemeta_same. change (w_now _) with (w_now w). fold m1.
  set (w2 := set_w_filemeta _ w1).
  assert (Hm2 : w_filemeta w2 !! fo_meta o = Some m1) by (cbn; by rewrite lookup_insert_eq).
  wp_step. eapply wp_run; [by apply (AddFileNoLock_run w2 f o m1)|].
  wp_step. eapply wp_run; [by apply (AddChildFile_run _ d1 f o m1 od1)|]. cbn [negb].
  rewrite Hn1. exact HQ.
Qed.

Lemma with_removed_dir (w : world) (i d0 d1 : Z) (od0 x : directory) (key : Z * bytes) :
  w_dirs w !! d0 = Some od0 -> w_dirs w !! d1 = Some x -> exists od1,
    w_dirs (with_removed i d0 od0 key w) !! d1 = Some od1 /\ do_meta od1 = do_meta x.
Proof.
  intros H0 H1. cbn. destruct (decide (d0 = d1)) as [<-|].
  - rewrite lookup_insert_eq. simplify_eq. by eexists.
  - rewrite lookup_insert_ne by done. by eexists.
Qed.

Lemma with_renamed_step (w : world) (f i d0 d1 : Z) (od0 od1 : directory) (key key' : Z * bytes)
    (m m' : FileMeta) :
  w_dirs w !! d0 = Some od0 -> w_filemeta w !! i = Some m -> view_fm m' = view_fm m -> file_wf m' ->
  w_dirs (with_removed i d0 od0 key w) !! d1 = Some od1 ->
  meta_step w (with_renamed f i d0 d1 od0 od1 key key' m' w).
Proof.
  intros H0 Hm Hv Hwf H1. unfold with_renamed. etrans; [by apply (with_removed_step w i d0 od0 key)|].
  set (w1 := with_removed _ _ _ _ w) in *. etrans; [by apply (meta_step_filemeta w1 i m m')|].
  by apply with_file_entry_step.
Qed.

(** a renaming that finds no directory to move to *)
Lemma rename_refused (w : world) (f i e : Z) (key : Z * bytes) (to : bytes) :
  fs_inv w -> dir_tree w -> file_tree w -> lookup_dir w (GetDirName to) = None ->
  rename_post w f i key to (-1) (set_w_errno e w).
Proof.
  intros Hi Hd Ht Hno. constructor; try done; try (by right).
  - apply (fs_inv_meta_step w); [apply set_errno_step|done].
  - by apply (dir_tree_ext w).
  - by apply file_tree_errno.
  - intros _. split; [done|by exists e].
  - intros d od. by rewrite Hno.
  - intros j m Hm. by exists m.
Qed.

(** the moves are made and the record was written, with the result [ok] *)
Lemma rename_done (w : world) (f d0 d1 e e' : Z) (o : file) (m m2 : FileMeta) (od0 od1 x1 : directory)
    (name to : bytes) (evs : list sys_event) (st : store) (ok : bool) (w' : world) :
  let key := (do_meta od0, name) in
  let wm := with_renamed f (fo_meta o) d0 d1 od0 od1 key (do_meta od1, GetFileName to) m2
              (set_w_errno e w) in
  w' = upd_io e' evs st wm -> fs_inv w -> meta_step w w' -> file_tree wm -> dir_tree wm ->
  lookup_dir w (GetDirName to) = Some d1 -> w_dirs w !! d1 = Some x1 -> do_meta od1 = do_meta x1 ->
  w_filemeta w !! fo_meta o = Some m -> fm_is_temp m2 = fm_is_temp m ->
  fh_created_fhs (w_fh w) !! fo_meta o = Some f ->
  (ok = true -> file_persisted w' (fo_meta o)) -> (dev_good w -> ok = true) ->
  (dev_good w -> file_written to w (fo_meta o) w') ->
  rename_post w f (fo_meta o) key to (if ok then 0 else -1) w'.
Proof.
  intros key wm Hw2 Hi Hall Hft Hdt Hdir Hx1 Hsm Hm Htemp Hfhs Hp Hg Hwr. constructor.
  - by apply (fs_inv_meta_step w).
  - eapply dir_tree_ext; [..|exact Hdt]; by rewrite Hw2.
  - eapply file_tree_ext; [..|exact Hft]; try by rewrite Hw2. rewrite Hw2. eauto.
  - intros g. by apply file_content_meta_step.
  - by rewrite Hw2.
  - destruct ok; auto.
  - congruence.
  - intros d od Hdd Hodd. rewrite Hdir in Hdd. injection Hdd as <-. rewrite Hx1 in Hodd. injection Hodd as <-. split_and!.
    + rewrite Hw2. cbn. by rewrite <- Hsm.
    + intros Hok. apply Hp. by destruct ok.
    + intros Hgood. by rewrite Hg.
  - by rewrite Hw2.
  - by rewrite Hw2.
  - intros j x Hx. rewrite Hw2. cbn. destruct (decide (j = fo_meta o)) as [->|].
    + rewrite lookup_insert_eq. exists m2. split; [done|]. by simplify_eq.
    + rewrite lookup_insert_ne by done. by exists x.
  - intros Hgood _. by apply Hwr.
  - split_and!; try (by rewrite Hw2); [|apply Hall].
    rewrite Hw2. cbn. rewrite insert_delete_eq. by apply insert_id.
Qed.

Lemma File_rename_wp (w : world) (f : Z) (o : file) (key : Z * bytes) (to : bytes) :
  fs_inv w -> dir_tree w -> file_tree w ->
  fh_created_files (w_fh w) !! key = Some f -> w_files w !! f = Some o ->
  0 ∉ to -> (length (GetFileName to) < 64)%nat ->
  (forall d od, lookup_dir w (GetDirName to) = Some d -> w_dirs w !! d = Some od ->
     fh_created_files (w_fh w) !! (do_meta od, GetFileName to) = None) ->
  wp (File_rename f to) (rename_post w f (fo_meta o) key to) w.
Proof.
  intros Hi Hd Ht Hk Ho H0 Hl Hnew. destruct key as [dh name].
  destruct (created_place w f o dh name Hi Hd Ht Hk Ho) as (m & d0 & od0 & p0 & -> & Hm & Hfh & Hdm & Hnm & Hu &
    Hfhs & Hcd & Hp0 & Hod0 & Hit & Hr0 & Hr).
  pose proof (lo_max_file _ (fi_layout _ Hi)) as Hmax.
  unfold File_rename, File_rename_guarded. wp_step.
  wp_step. eapply wp_run; [by apply (File_dh_run w f o m)|]. rewrite Hdm, swrap_small by lia.
  wp_step. eapply wp_run; [apply GetCreatedDirectory_dh_run; lia|]. rewrite Hcd.
  wp_step. eapply looks_up_wp; [apply GetCreatedDirectory_run|]. intros e.
  destruct (lookup_dir w (GetDirName to)) as [d1|] eqn:Hdir; [|do 2 wp_step; by apply rename_refused].
  destruct (lookup_dir_some _ _ _ Hd Hdir) as (p1 & x1 & md1 & _ & Hp1 & Hx1 & Hmd1 & Hmdh1 & _ & Hr1).
  set (we := set_w_errno e w).
  destruct (with_removed_dir we (fo_meta o) d0 d1 od0 x1 (do_meta od0, name) Hod0 Hx1) as (od1 & Hod1 & Hsm).
  assert (Hie : fs_inv we) by (apply (fs_inv_meta_step w); [apply set_errno_step|done]).
  assert (Hde : dir_tree we) by by apply (dir_tree_ext w).
  assert (Hte : file_tree we) by by apply file_tree_errno.
  specialize (Hnew d1 x1 eq_refl Hx1). rewrite <- Hsm in Hnew, Hmd1, Hmdh1, Hr1.
  destruct (renamed_meta_facts to (do_meta od1) (w_now w) m) as (Hwf1 & Hv1 & Hdh1 & Hn1 & Hu1);
    [apply (proj2 (fi_wf _ Hi) _ _ Hm)|unfold in_u; lia|apply fi_now, Hi|by apply GetFileName_no_nul|done|].
  set (m1 := renamed_meta to (do_meta od1) (w_now w) m) in *.
  pose proof (with_renamed_tree we f d0 d1 o m1 od0 od1 p0 p1 name (GetFileName to) Hie Hde Hte Hk Ho Hp0 Hod0
    Hp1 Hod1 Hnew Hdh1 Hn1 ltac:(congruence)) as (_ & _ & Hun1).
  apply (rename_moves_wp we f d0 d1 o m od0 od1 md1 to); try done; try lia; rewrite ?Hdm, ?Hnm; try done;
    try (by eexists).
  fold m1. set (wr := with_renamed f (fo_meta o) d0 d1 od0 od1 (do_meta od0, name) (do_meta od1, GetFileName to) m1 we).
  assert (Hsr : meta_step we wr) by by apply (with_renamed_step we f (fo_meta o) d0 d1 od0 od1 _ _ m).
  assert (Hir : fs_inv wr) by by apply (fs_inv_meta_step we).
  assert (Hmr : w_filemeta wr !! fo_meta o = Some m1) by (cbn; by rewrite lookup_insert_eq).
  unfold File_WriteMeta. wp_step. eapply wp_run; [by apply (File_fh_run wr f o m1)|].
  change (fm_fh m1) with (fm_fh m). rewrite Hfh, swrap_small by lia.
  eapply wp_mono; [apply wp_wlp; [apply (File_WriteMeta_fh_base_wp wr (fo_meta o))|
    apply wlp_wp, (File_WriteMeta_fh_page_wp wr (fo_meta o) m1)]; try done; by apply fs_inv_base|].
  intros ok w' [(Hs' & Hg & Hp & m' & e' & evs & st & Hm' & Hw') Hpage]. rewrite Hmr in Hm'. injection Hm' as <-.
  set (m2 := set_fm_crc (file_crc_of m1) m1) in *.
  destruct (with_renamed_tree we f d0 d1 o m2 od0 od1 p0 p1 name (GetFileName to)) as (Hft & Hdt & _); try done.
  assert (Hw2 : w' = upd_io e' evs st (with_renamed f (fo_meta o) d0 d1 od0 od1 (do_meta od0, name)
    (do_meta od1, GetFileName to) m2 we)).
  { rewrite Hw'. unfold wr, with_renamed, with_file_entry, with_removed. cbn.
    rewrite insert_insert_eq. reflexivity. }
  wp_step. eapply (rename_done w f d0 d1 e e' o m m2 od0 od1 x1 name to evs st); try done.
  - etrans; [apply (set_errno_step e)|]; by etrans.
  - intros Hgood. exists m, m2. split_and!; try done.
    + by rewrite Hw2.
    + destruct Hpage as (r & _ & _ & (e2 & n & evs2 & _ & _ & _ & Hwp & Hfull) & _).
      apply (es_good _ _ (ms_env _ _ Hsr)) in Hgood. destruct (Hfull Hgood) as [_ ->].
      by rewrite Hwp, w_store_upd_io, take_ge by done.
Qed.

End Rename.
