(* ===== verification/DirRename.v ===== *)
(** * Renaming a directory

    [DirHandle::RenameDirectory] and [Directory::rename]: a directory without
    sub-directories leaves its parent and the maps, its record gets the new
    path, and it is entered again; its files go with it.  The rules for files
    while directories change are here too. *)

From S2P Require Import Prelude Meta Device World SuperBlock Resources Paths FileBlock Inode.
From S2P Require Import Directory FileHandle File OpenFile FileHandleOps DirHandle FileSystem.
From S2P Require Import Io Invariant MetaSteps DirSteps Names DirOps FileNames.

(** ** Files while directories change

    Every directory that has files keeps its handle, and the directories that
    appear have none. *)
Lemma file_tree_dirs (w w' : world) :
  w_fh w' = w_fh w -> w_files w' = w_files w -> w_filemeta w' = w_filemeta w ->
  dirs_stay w w' -> w_next w <= w_next w' ->
  (forall i name f d, fh_created_files (w_fh w) !! (i, name) = Some f ->
     dh_created_dhs (w_dh w) !! i = Some d -> dh_created_dhs (w_dh w') !! i = Some d) ->
  (forall p d od i f, dh_created_dirs (w_dh w') !! p = Some d -> w_dirs w' !! d = Some od ->
     do_items od !! i = Some f -> exists p' od', dh_created_dirs (w_dh w) !! p' = Some d /\
       w_dirs w !! d = Some od') ->
  file_tree w -> file_tree w'.
Proof.
  intros Eh Ef Em Hst Hnx Hdhs Hnew [Hc Hf Hi Hn]. constructor; rewrite ?Eh, ?Ef, ?Em.
  - intros dh name f Hk. destruct (Hc dh name f Hk) as (o & m & d & od & ? & ? & ? & ? & ? & ? & Hd & Hod & Hit).
    destruct (Hst d od Hod) as (od' & Hod' & _ & Ei & _). exists o, m, d, od'. rewrite Ei.
    split_and!; try done. by eapply Hdhs.
  - done.
  - intros d od i f [p Hp] Hod Hit. destruct (Hnew p d od i f Hp Hod Hit) as (p' & od0 & Hp' & Hod0).
    destruct (Hst d od0 Hod0) as (od' & Hod' & Em' & Ei & _). assert (od' = od) as -> by congruence.
    rewrite Em', Ei in *. apply (Hi d od0 i f); [by exists p'|done|done].
  - intros f Hx. specialize (Hn f Hx). lia.
Qed.

(** ** Paths *)

Lemma rstrip_length (b : Z) (l : bytes) : (length (rstrip b l) <= length l)%nat.
Proof.
  induction l as [|x l IH]; cbn; [lia|]. destruct (rstrip b l); [destruct (x =? b)|]; cbn in *; lia.
Qed.

Lemma rfind_lt (b : Z) (l : bytes) (k : nat) : rfind b l = Some k -> (k < length l)%nat.
Proof.
  revert k. induction l as [|x l IH]; intros k; cbn; [done|].
  destruct (rfind b l) as [p|]; [intros [= <-]; specialize (IH p eq_refl); lia|].
  destruct (x =? b); [|done]. intros [= <-]. lia.
Qed.

Lemma parent_path_length (p : bytes) : (length (parent_path p) <= length p)%nat.
Proof.
  unfold parent_path. destruct (forallb _ p); [done|].
  destruct (rfind slash p) as [k|] eqn:Hk; [|cbn; lia]. apply rfind_lt in Hk.
  pose proof (rstrip_length slash (take k p)) as Hl. rewrite length_take in Hl.
  destruct (rstrip slash (take k p)); cbn in *; lia.
Qed.

Lemma dir_key_idemp (path p : bytes) : dir_key path = Some p -> dir_key p = Some p.
Proof.
  unfold dir_key. destruct (ends_with_slash path) eqn:Hs; cbv zeta.
  - destruct (_ <=? _) eqn:Hl; [done|]. intros [= <-]. by rewrite Hs, Hl.
  - destruct (_ <=? _) eqn:Hl; [done|]. intros [= <-].
    assert (ends_with_slash (path ++ [slash]) = true) as ->.
    { unfold ends_with_slash. by rewrite last_snoc. }
    by rewrite Hl.
Qed.

Lemma dir_key_nonempty (path p : bytes) : dir_key path = Some p -> p <> [].
Proof.
  unfold dir_key. cbv zeta. destruct (_ <=? _); [done|]. intros [= <-].
  destruct (ends_with_slash path) eqn:Hs; [by destruct path|by destruct path].
Qed.

(** the parent of a directory's key is a key *)
Lemma parent_key (path name : bytes) :
  dir_key path = Some name -> dir_key (GetDirName name) = Some (GetDirName name).
Proof.
  intros Hk. assert (Hn : ends_with_slash name = true /\ (length name < 768)%nat).
  { unfold dir_key in Hk. cbv zeta in Hk. change kBlockFsMaxDirNameLen with 768 in Hk.
    destruct (768 <=? _) eqn:Hl; [done|]. apply Z.leb_gt in Hl. injection Hk as <-.
    destruct (ends_with_slash path) eqn:He; [split; [done|lia]|].
    rewrite ends_with_slash_snoc. split; [done|lia]. }
  destruct Hn as [He Hl].
  assert (Hd : ends_with_slash (GetDirName name) = true /\ (length (GetDirName name) <= length name)%nat).
  { unfold GetDirName. destruct (decide (name = [slash])) as [->|Hne]; [done|]. rewrite He.
    set (tmp := pop_back name).
    assert (Ht : (length tmp < length name)%nat).
    { unfold tmp, pop_back. rewrite length_take. destruct name; [done|]. cbn. lia. }
    pose proof (parent_path_length tmp). case_decide as Hs; [rewrite Hs; split; [done|cbn; lia]|].
    rewrite ends_with_slash_snoc, length_app. cbn. split; [done|lia]. }
  destruct Hd as [Hs Hle]. unfold dir_key. rewrite Hs. cbv zeta. change kBlockFsMaxDirNameLen with 768.
  destruct (Z.leb_spec 768 (Z.of_nat (length (GetDirName name)))); [lia|done].
Qed.

Section DirRename.
Context `{Env}.

(** ** The moves of the directory *)

Lemma RemovChildDirectory_run (w : world) (q d : Z) (o oq : directory) (m : DirMeta) :
  w_dirs w !! d = Some o -> w_dirs w !! q = Some oq -> do_children oq !! do_meta o = Some d ->
  w_dirmeta w !! do_meta o = Some m -> dm_dh m = do_meta o ->
  RemovChildDirectory q d w = Done true
    (set_w_dirs (<[q := set_do_children (delete (do_meta o) (do_children oq)) oq]> (w_dirs w)) w).
Proof.
  intros Ho Hq Hc Hm Hdh. unfold RemovChildDirectory.
  erewrite bind_run; [|by apply (Directory_dh_run _ _ o m)].
  erewrite bind_run; [|unfold get_dir, bind, gets; rewrite Hq; reflexivity].
  by rewrite Hdh, Hc.
Qed.

Lemma Directory_dir_name_run (w : world) (d : Z) (o : directory) (m : DirMeta) :
  w_dirs w !! d = Some o -> w_dirmeta w !! do_meta o = Some m ->
  Directory_dir_name d w = Done (meta_dir_name m) w.
Proof.
  intros Ho Hm. unfold Directory_dir_name, dir_meta, get_dir, get_dirmeta, bind, gets. rewrite Ho.
  cbn. by rewrite Hm.
Qed.

Definition without_dir (i : Z) (name : bytes) (h : dir_handle) : dir_handle :=
  set_dh_created_dhs (delete i (dh_created_dhs h))
    (set_dh_created_dirs (delete name (dh_created_dirs h)) h).
Definition with_dir (i : Z) (name : bytes) (d : Z) (h : dir_handle) : dir_handle :=
  set_dh_created_dhs (<[i := d]> (dh_created_dhs h))
    (set_dh_created_dirs (<[name := d]> (dh_created_dirs h)) h).

Lemma RemoveDirectoryFromCreate_run (w : world) (d : Z) (o : directory) (m : DirMeta) :
  w_dirs w !! d = Some o -> w_dirmeta w !! do_meta o = Some m -> dm_dh m = do_meta o ->
  is_Some (dh_created_dirs (w_dh w) !! meta_dir_name m) -> is_Some (dh_created_dhs (w_dh w) !! do_meta o) ->
  RemoveDirectoryFromCreateNolock d w
    = Done true (set_w_dh (without_dir (do_meta o) (meta_dir_name m) (w_dh w)) w).
Proof.
  intros Ho Hm Hdh [c Hc] [c' Hc']. unfold RemoveDirectoryFromCreateNolock.
  erewrite bind_run; [|by apply (Directory_dir_name_run _ _ o m)].
  erewrite bind_run; [|by apply (Directory_dh_run _ _ o m)].
  unfold bind, gets, modify. rewrite Hc, Hdh. cbn. by rewrite Hc'.
Qed.

Lemma AddDirectory2Create_run (w : world) (d : Z) (o : directory) (m : DirMeta) :
  w_dirs w !! d = Some o -> w_dirmeta w !! do_meta o = Some m -> dm_dh m = do_meta o ->
  dh_created_dirs (w_dh w) !! meta_dir_name m = None -> dh_created_dhs (w_dh w) !! do_meta o = None ->
  AddDirectory2CreateNolock d w
    = Done true (set_w_dh (with_dir (do_meta o) (meta_dir_name m) d (w_dh w)) w).
Proof.
  intros Ho Hm Hdh Hc Hc'. unfold AddDirectory2CreateNolock.
  erewrite bind_run; [|by apply (Directory_dir_name_run _ _ o m)].
  erewrite bind_run; [|by apply (Directory_dh_run _ _ o m)].
  unfold bind, gets, modify. rewrite Hdh, Hc, Hc'.
  by rewrite !decide_False by (by intros [? [=]]).
Qed.

Lemma AddChildDirectory_run (w : world) (q d : Z) (o oq : directory) (m : DirMeta) :
  w_dirs w !! d = Some o -> w_dirs w !! q = Some oq -> do_children oq !! do_meta o = None ->
  w_dirmeta w !! do_meta o = Some m -> dm_dh m = do_meta o ->
  AddChildDirectory q d w = Done true
    (set_w_dirs (<[q := set_do_children (<[do_meta o := d]> (do_children oq)) oq]> (w_dirs w)) w).
Proof.
  intros Ho Hq Hc Hm Hdh. unfold AddChildDirectory.
  erewrite bind_run; [|by apply (Directory_dh_run _ _ o m)].
  erewrite bind_run; [|unfold get_dir, bind, gets; rewrite Hq; reflexivity].
  rewrite Hdh, decide_False by (rewrite Hc; by intros [? [=]]). done.
Qed.

(** the world without the directory, and the one with it at its new place *)
Definition moved_out (d q : Z) (o oq : directory) (m : DirMeta) (to : bytes) (w : world) : world :=
  set_w_dh (without_dir (do_meta o) (meta_dir_name m) (w_dh w))
    (set_w_dirs (<[q := set_do_children (delete (do_meta o) (do_children oq)) oq]> (w_dirs w))
    (set_w_dirmeta (<[do_meta o := set_dir_name to m]> (w_dirmeta w)) w)).

Definition moved_in (d q : Z) (o oq : directory) (to : bytes) (w : world) : world :=
  set_w_dh (with_dir (do_meta o) to d (w_dh w))
    (set_w_dirs (<[q := set_do_children (<[do_meta o := d]> (do_children oq)) oq]> (w_dirs w)) w).

Lemma moved_out_tree (w : world) (d q : Z) (o oq : directory) (m : DirMeta) (name to : bytes) :
  dir_tree w -> dh_created_dirs (w_dh w) !! name = Some d -> w_dirs w !! d = Some o ->
  do_children o = ∅ -> name <> [slash] -> dh_created_dirs (w_dh w) !! GetDirName name = Some q ->
  w_dirs w !! q = Some oq -> w_dirmeta w !! do_meta o = Some m -> 0 ∉ to -> (length to < 768)%nat ->
  let w1 := moved_out d q o oq m to w in
  q <> d /\ dir_tree w1 /\ unlinked w1 d o to /\ do_children oq !! do_meta o = Some d /\
  dm_dh m = do_meta o /\ meta_dir_name m = name.
Proof.
  intros Ht Hd Ho Hem Hne Hq Hoq Hm H0 Hl w1.
  destruct (dt_created _ Ht _ _ Hd) as (o0 & m0 & Ho0 & Hm0 & Hdh & Hnm & Hu & Hfr & Hdn).
  assert (o0 = o) as -> by congruence. assert (m0 = m) as -> by congruence. clear Ho0 Hm0.
  destruct (dt_parent _ Ht _ _ _ Hd Ho Hne) as (q0 & oq0 & Hq0 & Hoq0 & Hch).
  assert (q0 = q) as -> by congruence. assert (oq0 = oq) as -> by congruence. clear Hq0 Hoq0.
  assert (Hqd : q <> d) by (intros ->; simplify_eq; by rewrite Hem in Hch).
  assert (Hwf : dir_wf (set_dir_name to m)).
  { destruct (dmo_wf _ (dt_meta _ Ht) _ _ Hm). constructor; try done. cbn. by rewrite copy_name_length. }
  split_and!; try done.
  - pose proof (detach_tree w d q o oq name _ Ht Hd Ho Hem Hqd Hne Hq Hoq Hwf) as Htr.
    cbn zeta in Htr. unfold w1, moved_out, without_dir. by rewrite Hnm.
  - constructor; try done; cbn.
    + by rewrite lookup_insert_ne.
    + exists (set_dir_name to m). rewrite lookup_insert_eq. split_and!; try done.
      unfold meta_dir_name. cbn. by apply cstr_copy_name.
    + by rewrite lookup_delete_eq.
    + intros p. rewrite Hnm. intros [Hp Hpd]%lookup_delete_Some. by apply Hp, (dir_tree_inj w name p d).
Qed.

Lemma moved_in_tree (w : world) (d q : Z) (o oq : directory) (to : bytes) :
  dir_tree w -> unlinked w d o to -> to <> [slash] -> dh_created_dirs (w_dh w) !! to = None ->
  dh_created_dirs (w_dh w) !! GetDirName to = Some q -> w_dirs w !! q = Some oq ->
  dir_tree (moved_in d q o oq to w) /\ do_children oq !! do_meta o = None.
Proof.
  intros Ht Hu Hne Hnew Hq Hoq. split.
  - by apply (attach_tree w d q o oq to Ht Hu Hnew Hne Hq Hoq).
  - destruct (do_children oq !! do_meta o) as [c|] eqn:Hc; [|done].
    destruct (dt_children _ Ht q oq _ c (ex_intro _ _ Hq) Hoq Hc) as (p & x & Hp & _ & _ & Hx & Hxm).
    destruct (dt_created _ Ht _ _ Hp) as (y & my & Hy & _ & _ & _ & _ & _ & Hdn).
    assert (y = x) as -> by congruence. rewrite Hxm, (un_dhs _ _ _ _ Hu) in Hdn. done.
Qed.

(** ** [Directory::rename] *)

(** the directory [d] moved from [name] to [to]; its record has the index [i] *)
Record dir_moved (w : world) (d i : Z) (name to : bytes) (w' : world) : Prop := {
  dv_step : dir_step w w';
  dv_tree : dir_tree w';
  dv_stay : dirs_stay w w';
  dv_dirs : dh_created_dirs (w_dh w') = <[to := d]> (delete name (dh_created_dirs (w_dh w)));
  dv_dhs : dh_created_dhs (w_dh w') = dh_created_dhs (w_dh w);
  dv_free : dh_free (w_dh w') = dh_free (w_dh w);
  dv_next : w_next w' = w_next w;
  dv_written : dev_good w -> dir_written w i w'
}.

Lemma moves_wp (w : world) (d q q' : Z) (o oq : directory) (m : DirMeta) (name to : bytes) :
  layout_ok (w_super w) -> dev_size (w_dev w) = sb_device_size (w_super w) -> dir_tree w ->
  dh_created_dirs (w_dh w) !! name = Some d -> w_dirs w !! d = Some o -> do_children o = ∅ ->
  name <> [slash] -> dh_created_dirs (w_dh w) !! GetDirName name = Some q -> w_dirs w !! q = Some oq ->
  w_dirmeta w !! do_meta o = Some m -> 0 ∉ to -> (length to < 768)%nat -> to <> [slash] ->
  dh_created_dirs (w_dh w) !! to = None -> dh_created_dirs (w_dh w) !! GetDirName to = Some q' -> q' <> d ->
  wp (RemovChildDirectory q d ;;
      let! removed := RemoveDirectoryFromCreateNolock d in
      if negb removed then ret false
      else
        upd_dir_meta d (set_dir_name to) ;;
        AddDirectory2CreateNolock d ;;
        if bool_decide (GetDirName to = name) then crash_with Dangling
        else
          AddChildDirectory q' d ;;
          Directory_WriteMeta d)
     (fun ok w' => dir_moved w d (do_meta o) name to w' /\ (dev_good w -> ok = true) /\
        (ok = true -> dir_persisted w' (do_meta o))) w.
Proof.
  intros Hl Hdev Ht Hd Ho Hem Hne Hq Hoq Hm H0 Hlen Hne' Hnew Hq' Hqd'.
  destruct (moved_out_tree w d q o oq m name to Ht Hd Ho Hem Hne Hq Hoq Hm H0 Hlen)
    as (Hqd & Ht1 & Hun & Hch & Hdh & Hnm). set (w1 := moved_out d q o oq m to w) in *.
  destruct (dt_created _ Ht _ _ Hd) as (o0 & m0 & Ho0 & _ & _ & _ & _ & _ & Hdn).
  assert (o0 = o) as -> by congruence. clear Ho0 m0.
  assert (Hq1 : dh_created_dirs (w_dh w1) !! GetDirName to = Some q').
  { cbn. rewrite Hnm, lookup_delete_ne; [done|]. intros Heq. rewrite <- Heq in Hq'. congruence. }
  assert (Hnew1 : dh_created_dirs (w_dh w1) !! to = None).
  { cbn. rewrite Hnm. apply lookup_delete_None. by right. }
  destruct (dt_created _ Ht1 _ _ Hq1) as (oq' & _ & Hoq' & _).
  destruct (moved_in_tree w1 d q' o oq' to Ht1 Hun Hne' Hnew1 Hq1 Hoq') as [Ht2 Hnone].
  set (w2 := moved_in d q' o oq' to w1) in *. pose proof (un_obj _ _ _ _ Hun) as Ho1.
  set (m1 := set_dir_name to m) in *.
  assert (Hm1 : w_dirmeta w1 !! do_meta o = Some m1) by (cbn; by rewrite lookup_insert_eq).
  assert (Hnm1 : meta_dir_name m1 = to) by (unfold meta_dir_name; cbn; by apply cstr_copy_name).
  assert (Ho2 : w_dirs w2 !! d = Some o) by (cbn; by rewrite lookup_insert_ne).
  wp_step. eapply wp_run; [by apply (RemovChildDirectory_run w q d o oq m)|].
  wp_step. eapply wp_run.
  { apply (RemoveDirectoryFromCreate_run _ d o m); try done; rewrite ?Hnm; by eexists. }
  cbn [negb]. wp_step. eapply wp_upd_dir_meta; [exact Ho1|exact Hm|].
  wp_step. eapply wp_run.
  { apply (AddDirectory2Create_run w1 d o m1); try done; rewrite ?Hnm1; try done. apply (un_dhs _ _ _ _ Hun). }
  rewrite Hnm1, (bool_decide_false (GetDirName to = name)) by congruence.
  wp_step. eapply wp_run; [by apply (AddChildDirectory_run _ q' d o oq' m1)|].
  change (wp (Directory_WriteMeta d) (fun ok w' => dir_moved w d (do_meta o) name to w' /\
    (dev_good w -> ok = true) /\ (ok = true -> dir_persisted w' (do_meta o))) w2).
  assert (Hs1 : dir_step w w1).
  { apply (dir_step_intro w (without_dir (do_meta o) (meta_dir_name m) (w_dh w))
      (<[do_meta o := m1]> (w_dirmeta w)) (w_next w)
      (<[q := set_do_children (delete (do_meta o) (do_children oq)) oq]> (w_dirs w))).
    by apply dir_tree_dirs_ok. }
  assert (Hs2 : dir_step w1 w2).
  { apply (dir_step_intro w1 (with_dir (do_meta o) to d (w_dh w1)) (w_dirmeta w1) (w_next w1)
      (<[q' := set_do_children (<[do_meta o := d]> (do_children oq')) oq']> (w_dirs w1))).
    by apply dir_tree_dirs_ok. }
  assert (Hs12 : dir_step w w2) by by etrans.
  eapply wp_mono; [apply (Directory_WriteMeta_wp w2 d o m1); try done; apply Ht2|].
  intros ok w' ((e & evs & st & Hw') & Hms & Hg & Hper & Hsto). split_and!; [|by auto|done].
  constructor; rewrite ?Hw'.
  - rewrite <- Hw'. etrans; [exact Hs12|]. constructor; [done|by rewrite Hw'..].
  - eapply dir_tree_ext; [..|apply (dir_tree_dirmeta w2 (do_meta o) m1 (set_dm_crc (dir_crc_of m1) m1) Ht2)];
      try done. apply dir_wf_set_crc. by apply (dmo_wf _ (dt_meta _ Ht2) (do_meta o)).
  - etrans; [by apply (dirs_stay_children w w1 q oq (delete (do_meta o) (do_children oq)))|].
    by apply (dirs_stay_children w1 _ q' oq' (<[do_meta o := d]> (do_children oq'))).
  - cbn. by rewrite Hnm.
  - cbn. by rewrite insert_delete_eq, insert_id.
  - done.
  - done.
  - intros Hgood. split.
    + exists (set_dm_crc (dir_crc_of m1) m1). split_and!; try done. cbn. by rewrite !insert_insert_eq.
    + specialize (Hsto Hgood). rewrite Hw' in Hsto. exact Hsto.
Qed.

(** ** [DirHandle::RenameDirectory] *)

(** what is tested before the parents are looked up *)
Definition rename_allowed (w : world) (from to : bytes) : Prop :=
  no_file w to true = true /\ from <> [slash] /\ to <> [slash] /\ is_Some (dir_key to).

(** The reply of a renaming that is tried is inverted: [Directory::rename] returns 0
    when it succeeds, which [RenameDirectory] takes for a failure. *)
Inductive rename_dir_post (w : world) (from to : bytes) (d i : Z) (name : bytes) (r : Z)
    (w' : world) : Prop :=
  | rd_refused e : r = -1 -> w' = set_w_errno e w -> ~ rename_allowed w from to ->
      rename_dir_post w from to d i name r w'
  | rd_no_parent e to' : rename_allowed w from to -> dir_key to = Some to' ->
      dh_created_dirs (w_dh w) !! GetDirName to' = None -> r = 0 -> w' = set_w_errno e w ->
      rename_dir_post w from to d i name r w'
  | rd_moved to' q : rename_allowed w from to -> dir_key to = Some to' ->
      dh_created_dirs (w_dh w) !! GetDirName to' = Some q -> dir_moved w d i name to' w' ->
      (dev_good w -> r = -1) -> (r = -1 -> dir_persisted w' i) ->
      rename_dir_post w from to d i name r w'.

Lemma dir_moved_errno (w w' : world) (e e' d i : Z) (name to : bytes) :
  dir_tree w -> dir_moved (set_w_errno e w) d i name to w' ->
  dir_moved w d i name to (set_w_errno e' w').
Proof.
  intros Ht [Hs Ht' Hst Hd Hdh Hf Hn Hr]. constructor; try done.
  - etrans; [by apply (dir_step_errno w e)|]. etrans; [exact Hs|]. by apply dir_step_errno.
  - by apply (dir_tree_ext w').
Qed.

Lemma lookup_parent (w : world) (path name : bytes) :
  dir_key path = Some name -> lookup_dir w (GetDirName name) = dh_created_dirs (w_dh w) !! GetDirName name.
Proof. intros Hk. unfold lookup_dir. by rewrite (parent_key path name). Qed.

Lemma Directory_rename_wp (w : world) (from to name to' : bytes) (d : Z) (o : directory) :
  layout_ok (w_super w) -> dev_size (w_dev w) = sb_device_size (w_super w) -> dir_tree w ->
  dir_key from = Some name -> dir_key to = Some to' -> 0 ∉ to ->
  dh_created_dirs (w_dh w) !! name = Some d -> w_dirs w !! d = Some o -> do_children o = ∅ ->
  name <> [slash] -> to' <> [slash] -> dh_created_dirs (w_dh w) !! to' = None -> GetDirName to' <> name ->
  wp (Directory_rename d to') (fun r w' =>
    match dh_created_dirs (w_dh w) !! GetDirName to' with
    | None => r = -1 /\ exists e, w' = set_w_errno e w
    | Some q => exists e, dir_moved (set_w_errno e w) d (do_meta o) name to' w' /\
        (dev_good w -> r = 0) /\ (r = 0 -> dir_persisted w' (do_meta o))
    end) w.
Proof.
  intros Hl Hdev Ht Hkf Hkt H0 Hd Ho Hem Hne Hne' Hnew Hself.
  destruct (dt_created _ Ht _ _ Hd) as (o0 & m & Ho0 & Hm & _ & Hnm & _).
  assert (o0 = o) as -> by congruence. clear Ho0.
  destruct (dt_parent _ Ht _ _ _ Hd Ho Hne) as (q & oq & Hq & Hoq & _).
  destruct (dir_key_some _ _ Hkt H0) as [H0' Hlen].
  unfold Directory_rename, Directory_rename_guarded. wp_step. cbv zeta.
  wp_step. eapply looks_up_wp; [apply GetCreatedDirectory_run|]. intros e1.
  rewrite (lookup_parent w to to') by done.
  destruct (dh_created_dirs (w_dh w) !! GetDirName to') as [q'|] eqn:Hq'.
  2:{ repeat wp_step. split; [done|]. by exists e1. }
  wp_step. eapply wp_run; [by apply (Directory_dir_name_run _ _ o m)|]. rewrite Hnm.
  wp_step. eapply looks_up_wp; [apply GetCreatedDirectory_run|]. intros e2.
  rewrite (lookup_parent _ from name) by done. cbn [w_dh set_w_errno]. rewrite Hq.
  assert (Hqd : q' <> d).
  { intros ->. by apply Hself, (dir_tree_inj w _ _ d). }
  eapply wp_mono; [apply (moves_wp (set_w_errno e2 w) d q q' o oq m name to'); try done;
    by apply (dir_tree_ext w)|].
  intros ok w' (Hmv & Hg & Hp). wp_step. exists e2. split_and!; [done|..].
  - intros Hgood. by rewrite Hg.
  - intros Hr. apply Hp. by destruct ok.
Qed.

Lemma RenameDirectory_wp (w : world) (from to name : bytes) (d : Z) (o : directory) :
  layout_ok (w_super w) -> dev_size (w_dev w) = sb_device_size (w_super w) -> dir_tree w ->
  from <> [] -> to <> [] -> 0 ∉ to -> dir_key from = Some name ->
  dh_created_dirs (w_dh w) !! name = Some d -> w_dirs w !! d = Some o -> do_children o = ∅ ->
  (forall to', dir_key to = Some to' ->
     dh_created_dirs (w_dh w) !! to' = None /\ GetDirName to' <> name) ->
  wp (RenameDirectory from to) (rename_dir_post w from to d (do_meta o) name) w.
Proof.
  intros Hl Hdev Ht Hnf Hnt H0 Hkf Hd Ho Hem Hfit. unfold RenameDirectory. wp_step.
  eapply looks_up_wp; [by apply CheckFileExist_run|]. intros e1.
  destruct (no_file w to true) eqn:Hnofile; cbn [negb].
  2:{ wp_step. apply (rd_refused _ _ _ _ _ _ _ _ e1); [done..|]. unfold rename_allowed.
      rewrite Hnofile. by intros [? _]. }
  unfold IsMountPoint. destruct (decide (from = [slash])) as [Hf|Hf].
  { rewrite (bool_decide_true (from = [slash])) by done. cbn [orb]. unfold set_errno. do 3 wp_step.
    eapply rd_refused; [done..|]. by intros (_ & ? & _). }
  destruct (decide (to = [slash])) as [Ht0|Ht0].
  { rewrite (bool_decide_true (to = [slash])) by done. rewrite orb_true_r. unfold set_errno. do 3 wp_step.
    eapply rd_refused; [done..|]. by intros (_ & _ & ? & _). }
  rewrite !bool_decide_false by done. cbn [orb].
  wp_step. eapply looks_up_wp; [apply dir_TransformPath_run|]. intros e2. rewrite Hkf.
  wp_step. eapply looks_up_wp; [apply dir_TransformPath_run|]. intros e3.
  destruct (dir_key to) as [to'|] eqn:Hkt.
  2:{ wp_step. apply (rd_refused _ _ _ _ _ _ _ _ e3); [done..|]. unfold rename_allowed. rewrite Hkt.
      by intros (_ & _ & _ & ? & [=]). }
  assert (Hall : rename_allowed w from to) by (split_and!; [done..|by rewrite Hkt; eexists]).
  destruct (Hfit to' eq_refl) as [Hnew Hself].
  assert (Hne : name <> [slash]) by (intros ->; by apply (dir_key_mount from)).
  assert (Hne' : to' <> [slash]) by (intros ->; by apply (dir_key_mount to)).
  destruct (dt_parent _ Ht _ _ _ Hd Ho Hne) as (q & oq & Hq & _ & _).
  wp_step. eapply looks_up_wp; [apply FindDirectory_run|]. intros e4. cbn [w_dh set_w_errno].
  rewrite Hq, Hd. cbn [mbind option_bind]. wp_step.
  set (w4 := set_w_errno e4 w) in *.
  assert (Ht4 : dir_tree w4) by by apply (dir_tree_ext w).
  eapply wp_mono; [by apply (Directory_rename_wp w4 from to name to' d o)|].
  intros r w' Hpost. cbn [w4 w_dh set_w_errno] in Hpost.
  destruct (dh_created_dirs (w_dh w) !! GetDirName to') as [q'|] eqn:Hq'.
  - destruct Hpost as (e5 & Hmv & Hg & Hp). destruct (Z.eqb_spec r 0) as [Hr|Hr].
    + wp_step. eapply (rd_moved _ _ _ _ _ _ _ _ to' q'); try done; [|by auto].
      rewrite <- (set_errno_same w'). by apply (dir_moved_errno w w' e5).
    + unfold set_errno. do 3 wp_step. eapply (rd_moved _ _ _ _ _ _ _ _ to' q'); try done.
      * by apply (dir_moved_errno w w' e5).
      * intros Hgood. by rewrite (Hg Hgood) in Hr.
  - destruct Hpost as (-> & e5 & ->). cbn [Z.eqb]. unfold set_errno. do 3 wp_step.
    by eapply (rd_no_parent _ _ _ _ _ _ _ _ 0 to').
Qed.

End DirRename.
