(* ===== verification/ConfigLemmas.v ===== *)
(** * Lemmas on the configuration parser

    Trimming, searching and splitting of lines, what one line does to the
    parser, and the lines that the printer makes of items and sections. *)

From S2P Require Import Prelude ConfigParser.

Lemma alter_twice {A} (f g : A -> A) (i : nat) (l : list A) :
  alter f i (alter g i l) = alter (fun x => f (g x)) i l.
Proof. revert i. induction l as [|x l IH]; intros [|i]; [done..|]. cbn. f_equal. apply IH. Qed.

(** ** Trimming *)

(** no white space at either end *)
Definition solid (s : bytes) : Prop :=
  (exists b s', s = b :: s' /\ isspace b = false) /\ (exists b s', s = s' ++ [b] /\ isspace b = false).

Lemma drop_while_end_snoc (f : Z -> bool) (s : bytes) (b : Z) :
  drop_while_end f (s ++ [b]) = if f b then drop_while_end f s else s ++ [b].
Proof.
  unfold drop_while_end. rewrite reverse_snoc. cbn [drop_while]. destruct (f b); [done|].
  by rewrite reverse_cons, reverse_involutive.
Qed.

Lemma trim_solid (s : bytes) : solid s -> trim s = s.
Proof.
  intros [(b & s' & -> & Hb) (b2 & s2 & Heq & Hb2)]. unfold trim. cbn [drop_while]. rewrite Hb. cbn [andb].
  by rewrite Heq, drop_while_end_snoc, Hb2.
Qed.

Lemma drop_while_head (f : Z -> bool) (s : bytes) (b : Z) :
  head (drop_while f s) = Some b -> f b = false.
Proof.
  induction s as [|a s IH]; cbn; [done|]. destruct (f a) eqn:Ha; [done|]. cbn. by intros [= <-].
Qed.

Lemma trim_fixed (s : bytes) : trim s = s -> s = [] \/ solid s.
Proof.
  destruct s as [|b s]; [by left|]. intros Ht. right. split.
  - exists b, s. split; [done|]. unfold trim in Ht. cbn [drop_while] in Ht.
    destruct (isspace b && negb (b =? 0)) eqn:Hb.
    + exfalso. assert (Hlen : (length (trim (b :: s)) <= length s)%nat).
      { unfold trim. cbn [drop_while]. rewrite Hb. unfold drop_while_end. rewrite length_reverse.
        assert (Hd : forall f l, (length (drop_while f l) <= length l)%nat).
        { intros f l. induction l as [|a l IH]; cbn; [lia|]. destruct (f a); cbn; lia. }
        rewrite Hd, length_reverse. apply Hd. }
      unfold trim in Hlen. cbn [drop_while] in Hlen. rewrite Hb, Ht in Hlen. cbn in Hlen. lia.
    + destruct (isspace b) eqn:Hs; [|done]. cbn in Hb. apply negb_false_iff, Z.eqb_eq in Hb. subst b. done.
  - unfold trim in Ht. destruct (drop_while (fun b0 => isspace b0 && negb (b0 =? 0)) (b :: s)) as [|c l] eqn:Hd.
    + done.
    + revert Ht. generalize (c :: l) as x. intros x Ht. unfold drop_while_end in Ht.
      destruct (drop_while isspace (reverse x)) as [|e r] eqn:Hr; [done|].
      exists e, (reverse r). rewrite <- Ht, reverse_cons. split; [done|].
      apply (drop_while_head isspace (reverse x)). by rewrite Hr.
Qed.

Lemma solid_snoc_space (s : bytes) : solid s -> trim (s ++ [32]) = s.
Proof.
  intros [(b & s' & -> & Hb) (b2 & s2 & Heq & Hb2)]. unfold trim. cbn [drop_while app].
  rewrite Hb. cbn [andb]. change (b :: s' ++ [32]) with ((b :: s') ++ [32]).
  rewrite drop_while_end_snoc. cbn [isspace Z.eqb orb]. by rewrite Heq, drop_while_end_snoc, Hb2.
Qed.

(** ** Searching *)

Lemma find_bound (sep s : bytes) (p : nat) :
  find sep s = Some p -> (p + length sep <= length s)%nat.
Proof.
  assert (Hpre : forall a b, is_prefix a b = true -> (length a <= length b)%nat).
  { intros a. induction a as [|x a IH]; intros [|y b]; cbn; try lia.
    intros [_ Hb]%andb_true_iff. apply IH in Hb. lia. }
  revert p. induction s as [|b s IH]; intros p; cbn [find].
  - destruct (is_prefix sep []) eqn:Hp; [|done]. intros [= <-]. apply Hpre in Hp. cbn in *. lia.
  - destruct (is_prefix sep (b :: s)) eqn:Hp.
    + intros [= <-]. apply Hpre in Hp. lia.
    + destruct (find sep s) as [q|]; [|done]. intros [= <-]. specialize (IH q eq_refl). cbn. lia.
Qed.

Lemma find_char (d : Z) (l r : bytes) : d ∉ l -> find [d] (l ++ d :: r) = Some (length l).
Proof.
  induction l as [|b l IH]; intros Hd; cbn.
  - by rewrite Z.eqb_refl.
  - apply not_elem_of_cons in Hd as [Hb Hd]. destruct (Z.eqb_spec d b); [done|]. cbn. by rewrite IH.
Qed.

Lemma find_char_none (d : Z) (l : bytes) : d ∉ l -> find [d] l = None.
Proof.
  induction l as [|b l IH]; intros Hd; [done|]. apply not_elem_of_cons in Hd as [Hb Hd]. cbn.
  destruct (Z.eqb_spec d b); [done|]. cbn. by rewrite IH.
Qed.

Lemma split_char (d : Z) (l r : bytes) :
  d ∉ l -> split (l ++ d :: r) [d] = Some (true, trim l, trim r).
Proof.
  intros Hd. unfold split. rewrite find_char by done.
  destruct (Nat.ltb_spec (length (l ++ d :: r)) (length l + 1)) as [Hl|_].
  { rewrite length_app in Hl. cbn in Hl. lia. }
  rewrite take_app_length. replace (length l + 1)%nat with (length (l ++ [d])) by by rewrite length_app.
  by rewrite (cons_middle d l r), app_assoc, drop_app_length.
Qed.

Lemma split_char_none (d : Z) (l : bytes) : d ∉ l -> split l [d] = Some (false, trim l, []).
Proof. intros Hd. unfold split. by rewrite find_char_none. Qed.

(** ** Lines *)

(** lines with their ends *)
Definition lines_of (ls : list bytes) : bytes := concat ((fun l => l ++ delim) <$> ls).

Lemma lines_of_app (l1 l2 : list bytes) : lines_of (l1 ++ l2) = lines_of l1 ++ lines_of l2.
Proof. unfold lines_of. by rewrite fmap_app, concat_app. Qed.

Lemma getlines_line (l data acc : bytes) :
  newline ∉ l -> getlines (l ++ newline :: data) acc = (acc ++ l) :: getlines data [].
Proof.
  revert acc. induction l as [|b l IH]; intros acc Hl; cbn [getlines app].
  - rewrite Z.eqb_refl. by rewrite app_nil_r.
  - apply not_elem_of_cons in Hl as [Hb Hl]. destruct (Z.eqb_spec b newline); [done|].
    rewrite IH by done. by rewrite <- app_assoc.
Qed.

Lemma getlines_lines_of (ls : list bytes) :
  Forall (fun l => newline ∉ l) ls -> getlines (lines_of ls) [] = ls.
Proof.
  induction 1 as [|l ls Hl _ IH]; [done|].
  change (lines_of (l :: ls)) with ((l ++ delim) ++ lines_of ls). unfold delim.
  rewrite <- app_assoc. cbn [app]. rewrite getlines_line by done. by rewrite IH.
Qed.

Lemma lines_of_last (x : bytes) (ls : list bytes) :
  ls <> [] -> last (x ++ lines_of ls) = Some newline.
Proof.
  destruct ls as [|l ls _] using rev_ind; [done|]. intros _. rewrite lines_of_app.
  unfold lines_of at 2. cbn. rewrite app_nil_r. unfold delim. by rewrite !app_assoc, last_snoc.
Qed.

(** a trimmed line starts with the delimiter [d] *)
Lemma StartWith_char (d : Z) (s : bytes) :
  d <> 0 -> StartWith s [d] = true <-> head s = Some d.
Proof.
  intros Hd. unfold StartWith. destruct s as [|b s]; cbn -[Z.eqb].
  - destruct (Z.eqb_spec 0 d); cbn -[Z.eqb]; [lia|]. by split.
  - destruct (Z.eqb_spec b d) as [->|]; cbn -[Z.eqb].
    + by destruct (d =? 0).
    + split; [done|]. intros [= ->]. done.
Qed.

(** ** What the loop does with a line *)

Section Loading.
Context (d : Z) (Hd0 : d <> 0) (Hds : isspace d = false).
Context (Hdeq : d <> 61) (Hdl : d <> 91) (Hdr : d <> 93).

(** a comment line: empty, or a line in front of which the delimiter stands *)
Definition comment_line (l : bytes) : Prop :=
  l = [] \/ (head l = Some d /\ trim l = l /\ newline ∉ l).

Lemma load_comments (ls : list bytes) : forall rest c curr com,
  commentDelimiter c = [d] -> Forall comment_line ls ->
  load_lines (ls ++ rest) (MkLoad c curr com)
    = load_lines rest (MkLoad c curr (com ++ lines_of ls)).
Proof using All.
  induction ls as [|l ls IH]; intros rest c curr com Hc Hls.
  - unfold lines_of. cbn. by rewrite app_nil_r.
  - apply Forall_cons in Hls as [Hl Hls].
    assert (Hstep : load_line l (MkLoad c curr com) = Some (0, MkLoad c curr (com ++ l ++ delim))).
    { unfold load_line. destruct Hl as [->|(Hh & Ht & _)]; [reflexivity|]. rewrite Ht. cbn [ld_parser].
      destruct l as [|b l]; [done|]. cbn [length Nat.eqb]. unfold IsCommentLine. rewrite Hc.
      by rewrite (proj2 (StartWith_char d (b :: l) Hd0) Hh). }
    cbn [app load_lines]. rewrite Hstep. cbn [Z.eqb negb]. rewrite IH by done.
    change (lines_of (l :: ls)) with ((l ++ delim) ++ lines_of ls). by rewrite !app_assoc.
Qed.

(** *** Items *)

Definition wf_comment (c : bytes) : Prop := exists ls, c = lines_of ls /\ Forall comment_line ls.

Record wf_item (it : IniItem) : Prop := {
  wi_key : trim (it_key it) = it_key it /\ (d ∉ it_key it) /\ (newline ∉ it_key it) /\
    (61 ∉ it_key it) /\ head (it_key it) <> Some 91;
  wi_value : trim (it_value it) = it_value it /\ (d ∉ it_value it) /\ (newline ∉ it_value it);
  wi_comment : wf_comment (it_comment it);
  wi_right : trim (it_rightComment it) = it_rightComment it /\ newline ∉ it_rightComment it
}.

Definition pair_text (it : IniItem) : bytes := it_key it ++ str "=" ++ it_value it.

Definition item_line (it : IniItem) : bytes :=
  pair_text it ++ if decide (it_rightComment it = []) then [] else str " " ++ [d] ++ it_rightComment it.

Lemma app_snoc_last {A} (s : list A) (l r : list A) (b : A) : r = s ++ [b] -> l ++ r = (l ++ s) ++ [b].
Proof. intros ->. by rewrite app_assoc. Qed.

Lemma pair_text_solid (it : IniItem) : wf_item it -> solid (pair_text it).
Proof.
  intros [(Hk & _) (Hv & _) _ _]. unfold pair_text. change (str "=") with [61]. split.
  - destruct (trim_fixed _ Hk) as [->|[(b & s' & -> & Hb) _]]; cbn; eauto.
  - destruct (trim_fixed _ Hv) as [->|[_ (b & s' & -> & Hb)]].
    + exists 61, (it_key it). by rewrite app_nil_r.
    + exists b, (it_key it ++ [61] ++ s'). split; [|done]. by rewrite !app_assoc.
Qed.

Lemma item_line_solid (it : IniItem) : wf_item it -> solid (item_line it).
Proof.
  intros Hw. destruct (pair_text_solid it Hw) as [(b & s' & Heq & Hb) Hl]. unfold item_line.
  destruct (decide _) as [|Hr]; [rewrite app_nil_r; split; eauto|]. split.
  - rewrite Heq. cbn. eauto.
  - destruct (trim_fixed _ (proj1 (wi_right _ Hw))) as [|[_ (b2 & s2 & Heq2 & Hb2)]]; [done|].
    rewrite Heq2. exists b2. eexists. split; [|done]. by rewrite !app_assoc.
Qed.

Lemma pair_text_head (it : IniItem) (b : Z) :
  wf_item it -> head (pair_text it) = Some b -> b <> d /\ b <> 91.
Proof using All.
  intros [(_ & Hk & _ & _ & Hh) _ _ _]. unfold pair_text. change (str "=") with [61].
  destruct (it_key it) as [|x k]; cbn in *.
  - intros [= <-]. done.
  - intros [= <-]. split; [|congruence]. intros ->. apply Hk. by left.
Qed.

Lemma item_line_head (it : IniItem) :
  wf_item it -> head (item_line it) <> Some d /\ (length (item_line it) =? 0)%nat = false.
Proof using All.
  intros Hw. destruct (pair_text_solid it Hw) as [(b & s' & Heq & _) _].
  assert (Hb : head (item_line it) = Some b) by (unfold item_line; rewrite Heq; done).
  rewrite Hb. split.
  - intros [= ->]. destruct (pair_text_head it d Hw); [by rewrite Heq|done].
  - unfold item_line. by rewrite Heq.
Qed.

Lemma not_elem_pair (it : IniItem) (b : Z) :
  b ∉ it_key it -> b ∉ it_value it -> b <> 61 -> b ∉ pair_text it.
Proof.
  intros H1 H2 H3. unfold pair_text. change (str "=") with [61].
  rewrite !not_elem_of_app, list_elem_of_singleton. auto.
Qed.

Lemma split_item_line (it : IniItem) :
  wf_item it -> exists found,
  split (item_line it) [d] = Some (found, pair_text it, it_rightComment it).
Proof using All.
  intros Hw. pose proof Hw as [(_ & Hk & _) (_ & Hv & _) _ (Hrt & _)].
  pose proof (pair_text_solid it Hw) as Hs. pose proof (not_elem_pair it d Hk Hv Hdeq) as Hp.
  unfold item_line. destruct (decide _) as [Hr|Hr].
  - exists false. rewrite app_nil_r, split_char_none by done. by rewrite trim_solid, Hr.
  - exists true. replace (pair_text it ++ str " " ++ [d] ++ it_rightComment it)
      with ((pair_text it ++ [32]) ++ d :: it_rightComment it) by (by rewrite <- !app_assoc).
    rewrite split_char.
    + by rewrite solid_snoc_space, Hrt.
    + rewrite not_elem_of_app, list_elem_of_singleton. split; [done|]. intros ->. by cbn in Hds.
Qed.

(** an item's line adds the item to the current section *)
Lemma load_item (it : IniItem) (rest : list bytes) (c : ConfigParser) (curr : nat) :
  commentDelimiter c = [d] -> wf_item it ->
  load_lines (item_line it :: rest) (MkLoad c curr (it_comment it))
    = load_lines rest (MkLoad (upd_section curr (fun s => set_se_items (se_items s ++ [it]) s) c)
                         curr []).
Proof using All.
  intros Hc Hw. pose proof (item_line_solid it Hw) as Hs.
  destruct (item_line_head it Hw) as [Hh Hlen]. destruct (split_item_line it Hw) as [found Hsp].
  pose proof Hw as [(Hkt & _ & _ & Hk & _) (Hvt & _) _ _].
  assert (Hcl : IsCommentLine c (item_line it) = false).
  { unfold IsCommentLine. rewrite Hc. apply not_true_iff_false. by rewrite StartWith_char. }
  assert (Hbr : (default 0 (head (pair_text it)) =? 91) = false).
  { destruct (pair_text_solid it Hw) as [(b & s' & Heq & _) _]. rewrite Heq. cbn.
    destruct (pair_text_head it b Hw) as [_ ?]; [by rewrite Heq|]. by apply Z.eqb_neq. }
  assert (Hpar : parse (pair_text it) = Some (true, it_key it, it_value it)).
  { unfold parse, pair_text. change (str "=") with [61]. cbn [app]. rewrite split_char by done.
    by rewrite Hkt, Hvt. }
  cbn [load_lines]. unfold load_line. cbn [ld_parser ld_comment ld_currSection].
  rewrite (trim_solid _ Hs), Hlen, Hcl, Hc, Hsp, Hbr. unfold AddKeyValuePair. rewrite Hpar.
  cbn [Z.eqb negb]. by destruct it.
Qed.

(** *** Sections *)

Record wf_section (s : IniSection) : Prop := {
  ws_name : se_name s <> [] /\ trim (se_name s) = se_name s /\ (93 ∉ se_name s) /\ (d ∉ se_name s) /\
    (newline ∉ se_name s) /\ Z.of_nat (length (se_name s)) < 2 ^ 31;
  ws_comment : wf_comment (se_comment s);
  ws_right : se_rightComment s = [];
  ws_items : Forall wf_item (se_items s)
}.

Definition section_line (s : IniSection) : bytes := str "[" ++ se_name s ++ str "]".

Lemma getSection_none (c : ConfigParser) (name : bytes) :
  name ∉ (se_name <$> sections_vt c) -> getSection c name = None.
Proof.
  intros Hn. unfold getSection. assert (section_index (sections_vt c) name = None) as ->; [|done].
  induction (sections_vt c) as [|s l IH]; [done|]. cbn in *. rewrite not_elem_of_cons in Hn.
  destruct (decide (se_name s = name)) as [<-|]; [by destruct Hn|]. rewrite IH; [done|]. apply Hn.
Qed.

Lemma load_section (s : IniSection) (rest : list bytes) (c : ConfigParser) (curr : nat) :
  commentDelimiter c = [d] -> wf_section s -> se_name s ∉ (se_name <$> sections_vt c) ->
  load_lines (section_line s :: rest) (MkLoad c curr (se_comment s))
    = load_lines rest (MkLoad (set_sections (sections_vt c ++ [MkIniSection (se_name s) (se_comment s) [] []]) c)
        (length (sections_vt c)) []).
Proof using All.
  intros Hc [(Hne & Ht & Hb & Hdn & _ & Hlen) _ _ _] Hnew.
  assert (Hs : solid (section_line s)).
  { split; [by exists 91, (se_name s ++ [93])|]. exists 93, (91 :: se_name s). done. }
  assert (Hd : d ∉ section_line s).
  { unfold section_line. change (str "[") with [91]. change (str "]") with [93].
    rewrite !not_elem_of_app, !list_elem_of_singleton. auto. }
  assert (Hcl : IsCommentLine c (section_line s) = false).
  { unfold IsCommentLine. rewrite Hc. apply not_true_iff_false. rewrite StartWith_char by done.
    unfold section_line. cbn. by intros [= <-]. }
  cbn [load_lines]. unfold load_line. cbn [ld_parser ld_comment ld_currSection].
  rewrite (trim_solid _ Hs), Hcl, Hc, split_char_none by done. rewrite (trim_solid _ Hs).
  change (Nat.eqb (length (section_line s)) 0) with false. cbn [ld_parser].
  change (default 0 (head (section_line s)) =? 91) with true. cbn iota.
  unfold UpdateSection.
  assert (Hf : find (str "]") (section_line s) = Some (S (length (se_name s)))).
  { change (str "]") with [93]. change (section_line s) with ((91 :: se_name s) ++ 93 :: []).
    rewrite find_char; [done|]. rewrite not_elem_of_cons. done. }
  rewrite Hf. rewrite wrap_small, swrap_small by lia.
  assert (Hpos : (0 < length (se_name s))%nat) by (destruct (se_name s); [done|cbn; lia]).
  destruct (Z.leb_spec (Z.of_nat (S (length (se_name s))) - 1) 0) as [Hle|_]; [lia|].
  replace (Z.to_nat (Z.of_nat (S (length (se_name s))) - 1)) with (length (se_name s)) by lia.
  change (drop 1 (section_line s)) with (se_name s ++ [93]). rewrite take_app_length, Ht.
  by rewrite getSection_none.
Qed.

(** ** What the printer makes *)

Lemma end_line_solid (data s : bytes) : solid s -> end_line (data ++ s) = data ++ s ++ delim.
Proof.
  intros [_ (b & s' & -> & Hb)]. unfold end_line. rewrite app_assoc, last_snoc. cbn.
  destruct (Z.eqb_spec b newline) as [->|]; [done|]. by rewrite <- !app_assoc.
Qed.

Lemma end_line_lines (data : bytes) (ls : list bytes) :
  ls <> [] -> end_line (data ++ lines_of ls) = data ++ lines_of ls.
Proof. intros Hl. unfold end_line. by rewrite lines_of_last. Qed.

Lemma lines_of_nil (ls : list bytes) : lines_of ls = [] <-> ls = [].
Proof.
  split; [|by intros ->]. destruct ls as [|l ls]; [done|]. unfold lines_of, delim. cbn.
  by destruct l.
Qed.

Lemma save_item_lines (it : IniItem) (data : bytes) (ls : list bytes) :
  wf_item it -> it_comment it = lines_of ls ->
  save_item [d] data it = data ++ lines_of (ls ++ [item_line it]).
Proof.
  intros Hw Hc. unfold save_item. rewrite Hc.
  assert (Hdata : (if decide (lines_of ls = []) then data else end_line (data ++ lines_of ls))
    = data ++ lines_of ls).
  { destruct (decide _) as [He|He].
    - by rewrite He, app_nil_r.
    - apply end_line_lines. intros ->. by apply He. }
  rewrite Hdata.
  assert (Hl : (if decide (it_rightComment it = [])
      then (data ++ lines_of ls) ++ it_key it ++ str "=" ++ it_value it
      else ((data ++ lines_of ls) ++ it_key it ++ str "=" ++ it_value it) ++ str " " ++ [d] ++ it_rightComment it)
    = (data ++ lines_of ls) ++ item_line it).
  { unfold item_line, pair_text. destruct (decide (it_rightComment it = [])); [by rewrite app_nil_r|]. by rewrite <- !app_assoc. }
  rewrite Hl, (end_line_solid _ _ (item_line_solid it Hw)), lines_of_app.
  unfold lines_of at 3. cbn [fmap list_fmap concat]. by rewrite app_nil_r, <- !app_assoc.
Qed.

(** the printed lines [ls], read in any state whose comment is empty, take [c] and
    [curr] to [c'] and [curr'] *)
Definition reads (ls : list bytes) (c : ConfigParser) (curr : nat) (c' : ConfigParser) (curr' : nat)
    : Prop :=
  forall rest, load_lines (ls ++ rest) (MkLoad c curr []) = load_lines rest (MkLoad c' curr' []).

Lemma comment_no_newline (ls : list bytes) :
  Forall comment_line ls -> Forall (fun l => newline ∉ l) ls.
Proof. intros Hl. eapply Forall_impl; [exact Hl|]. intros l [->|(_ & _ & ?)]; [set_solver|done]. Qed.

Lemma item_line_no_newline (it : IniItem) : wf_item it -> newline ∉ item_line it.
Proof using All.
  intros [(_ & _ & Hk & _) (_ & _ & Hv) _ (_ & Hr)]. unfold item_line, pair_text.
  change (str "=") with [61]. change (str " ") with [32].
  assert (newline <> d) by (intros <-; by cbn in Hds).
  destruct (decide _); rewrite ?app_nil_r, !not_elem_of_app, !list_elem_of_singleton;
    unfold newline in *; split_and!; auto; lia.
Qed.

Lemma items_lines (items : list IniItem) : forall data c curr,
  commentDelimiter c = [d] -> Forall wf_item items ->
  exists ls, foldl (save_item [d]) data items = data ++ lines_of ls /\
    Forall (fun l => newline ∉ l) ls /\
    reads ls c curr (upd_section curr (fun s => set_se_items (se_items s ++ items) s) c) curr.
Proof using All.
  induction items as [|it items IH]; intros data c curr Hc Hw.
  - exists []. unfold lines_of. cbn. rewrite app_nil_r. split; [done|]. split; [done|].
    intros rest. cbn [app]. do 2 f_equal. destruct c as [l p dl e]. unfold upd_section, set_sections. cbn.
    f_equal. symmetry. apply list_alter_id. intros s. destruct s. unfold set_se_items. cbn. by rewrite app_nil_r.
  - apply Forall_cons in Hw as [Hi Hw]. destruct (wi_comment _ Hi) as (cl & Hcl & Hcom).
    set (c1 := upd_section curr (fun s => set_se_items (se_items s ++ [it]) s) c).
    destruct (IH (save_item [d] data it) c1 curr Hc Hw) as (ls & Hs & Hn & Hr).
    exists ((cl ++ [item_line it]) ++ ls). split_and!.
    + cbn [foldl]. rewrite Hs, (save_item_lines it data cl Hi Hcl), (lines_of_app (cl ++ _)).
      by rewrite <- !app_assoc.
    + rewrite !Forall_app. split_and!; [by apply comment_no_newline| |done].
      constructor; [by apply item_line_no_newline|done].
    + intros rest. rewrite <- !app_assoc. rewrite load_comments by done. cbn [app].
      rewrite <- Hcl, load_item by done. fold c1. rewrite Hr. do 2 f_equal.
      unfold c1, upd_section, set_sections. cbn. f_equal. rewrite alter_twice.
      apply list_alter_ext; [|done]. intros s _. destruct s. unfold set_se_items. cbn.
      by rewrite <- app_assoc.
Qed.

Lemma section_lines (s : IniSection) (data : bytes) (c : ConfigParser) (curr : nat) :
  commentDelimiter c = [d] -> wf_section s -> se_name s ∉ (se_name <$> sections_vt c) ->
  exists ls, save_section [d] data s = data ++ lines_of ls /\
    Forall (fun l => newline ∉ l) ls /\
    reads ls c curr (set_sections (sections_vt c ++ [s]) c) (length (sections_vt c)).
Proof using All.
  intros Hc Hw Hnew. destruct (ws_comment _ Hw) as (cl & Hcl & Hcom).
  pose proof (ws_right _ Hw) as Hr. pose proof (ws_name _ Hw) as (Hne & _ & _ & _ & Hnn & _).
  set (c1 := set_sections (sections_vt c ++ [MkIniSection (se_name s) (se_comment s) [] []]) c).
  destruct (items_lines (se_items s) (data ++ lines_of (cl ++ [section_line s])) c1
    (length (sections_vt c)) Hc (ws_items _ Hw)) as (ls & Hs & Hn & Hrd).
  exists ((cl ++ [section_line s]) ++ ls). split_and!.
  - rewrite (lines_of_app (cl ++ _)), app_assoc, <- Hs. unfold save_section. rewrite Hr.
    rewrite (decide_False _ _ (P := se_name s = [])), (decide_True _ _ (P := [] = [])) by done.
    assert (Hd : (if decide (se_comment s = []) then data else data ++ se_comment s)
      = data ++ lines_of cl).
    { rewrite Hcl. destruct (decide _) as [->|]; [by rewrite app_nil_r|done]. }
    rewrite Hd, lines_of_app. f_equal. unfold lines_of at 3, section_line. cbn [fmap list_fmap concat].
    by rewrite app_nil_r, <- !app_assoc.
  - rewrite !Forall_app. split_and!; [by apply comment_no_newline| |done]. constructor; [|done].
    unfold section_line. change (str "[") with [91]. change (str "]") with [93].
    rewrite !not_elem_of_app, !list_elem_of_singleton. unfold newline in *. split_and!; try done; lia.
  - intros rest. rewrite <- !app_assoc, load_comments by done. cbn [app].
    rewrite <- Hcl, load_section by done. fold c1. rewrite Hrd. do 2 f_equal.
    unfold c1, upd_section, set_sections. cbn. f_equal.
    rewrite alter_app_r_alt, Nat.sub_diag by done. cbn. f_equal. f_equal.
    unfold set_se_items. destruct s. cbn in *. by rewrite Hr.
Qed.

Lemma sections_lines (l : list IniSection) : forall data c curr,
  commentDelimiter c = [d] -> Forall wf_section l -> NoDup (se_name <$> (sections_vt c ++ l)) ->
  exists ls curr', foldl (save_section [d]) data l = data ++ lines_of ls /\
    Forall (fun x => newline ∉ x) ls /\
    reads ls c curr (set_sections (sections_vt c ++ l) c) curr'.
Proof using All.
  induction l as [|s l IH]; intros data c curr Hc Hw Hnd.
  - exists [], curr. unfold lines_of. cbn. rewrite !app_nil_r. split_and!; try done.
    intros rest. by destruct c.
  - apply Forall_cons in Hw as [Hs Hw].
    assert (Hnew : se_name s ∉ (se_name <$> sections_vt c)).
    { rewrite fmap_app in Hnd. apply NoDup_app in Hnd as (_ & Hd & _). intros Hin.
      apply (Hd _ Hin). cbn. by left. }
    destruct (section_lines s data c curr Hc Hs Hnew) as (ls1 & H1 & Hn1 & Hr1).
    set (c1 := set_sections (sections_vt c ++ [s]) c) in *.
    destruct (IH (save_section [d] data s) c1 (length (sections_vt c)) Hc Hw) as (ls2 & curr' & H2 & Hn2 & Hr2).
    { unfold c1. cbn. by rewrite <- app_assoc. }
    exists (ls1 ++ ls2), curr'. split_and!.
    + cbn [foldl]. rewrite H2, H1, lines_of_app. by rewrite <- app_assoc.
    + by apply Forall_app.
    + intros rest. rewrite <- app_assoc, Hr1, Hr2. unfold c1, set_sections. cbn. by rewrite <- app_assoc.
Qed.
End Loading.
