(* ===== verification/Load.v ===== *)
(** * Loading the records of a device

    The loops over handles, the areas of records in memory, and what
    [ShmManager::Initialize] makes of a device that holds given records. *)

From S2P Require Import Prelude Meta Device World SuperBlock Resources Paths FileBlock Inode.
From S2P Require Import Directory FileHandle File OpenFile FileHandleOps DirHandle FileSystem.
From S2P Require Import Io Invariant MetaSteps.

(** ** Loops over handles *)

(** a run of [all_of] that no round stops *)
Lemma all_of_wp (step : Z -> Fs bool) (I : list Z -> world -> Prop) (l : list Z) :
  (forall l1 i l2 w, l = l1 ++ i :: l2 -> I l1 w ->
     wp (step i) (fun ok w' => ok = true /\ I (l1 ++ [i]) w') w) ->
  forall w, I [] w -> wp (all_of step l) (fun ok w' => ok = true /\ I l w') w.
Proof.
  intros Hstep. cut (forall l2 l1 w, l = l1 ++ l2 -> I l1 w ->
    wp (all_of step l2) (fun ok w' => ok = true /\ I l w') w); [intros Hc w; by apply (Hc l [])|].
  induction l2 as [|i l2 IH]; intros l1 w Hl HI; cbn [all_of].
  - rewrite app_nil_r in Hl. subst. by wp_step.
  - wp_step. eapply wp_mono; [by apply (Hstep l1 i l2)|]. intros ok w' [-> HI']. cbn [negb].
    apply (IH (l1 ++ [i])); [by rewrite <- app_assoc|done].
Qed.

Lemma run_all_wp (m : Fs bool) (l : list (Fs bool)) (Q : bool -> world -> Prop) (w : world) :
  wp m (fun ok w' => ok = true /\ wp (run_all l) Q w') w -> wp (run_all (m :: l)) Q w.
Proof.
  intros Hm. cbn [run_all]. wp_step. eapply wp_mono; [exact Hm|]. by intros ok w' [-> ?].
Qed.

(** the round of index [i] in such a loop *)
Lemma NoDup_middle {A} (x : A) (l1 l2 : list A) : NoDup (l1 ++ x :: l2) -> x ∉ l1.
Proof. intros (_ & Hnd & _)%NoDup_app Hx. apply (Hnd x Hx). set_solver. Qed.

Lemma seqZ_middle (n i : Z) (l1 l2 : list Z) :
  seqZ 0 n = l1 ++ i :: l2 -> 0 <= i < n /\ i ∉ l1.
Proof.
  intros Hl. split.
  - assert (i ∈ seqZ 0 n) as Hi%elem_of_seqZ by (rewrite Hl; set_solver). lia.
  - apply (NoDup_middle i l1 l2). rewrite <- Hl. apply NoDup_seqZ.
Qed.

(** ** Areas of records *)

(** the records [0 .. n-1] of an area in memory *)
Definition record_area {A} (record : Z -> A) (n : Z) : gmap Z A :=
  list_to_map ((fun i => (i, record i)) <$> seqZ 0 n).

Lemma record_area_lookup {A} (record : Z -> A) (n i : Z) (x : A) :
  record_area record n !! i = Some x <-> 0 <= i < n /\ x = record i.
Proof.
  unfold record_area. rewrite <- elem_of_list_to_map.
  - rewrite list_elem_of_fmap. split.
    + intros (j & [= -> ->] & Hj%elem_of_seqZ). split; [lia|done].
    + intros [Hi ->]. exists i. split; [done|]. apply elem_of_seqZ. lia.
  - rewrite <- list_fmap_compose. cbn. rewrite list_fmap_id. apply NoDup_seqZ.
Qed.

Lemma record_area_some {A} (record : Z -> A) (n i : Z) :
  0 <= i < n -> record_area record n !! i = Some (record i).
Proof. intros. by apply record_area_lookup. Qed.

Lemma record_area_dom {A} (record : Z -> A) (n i : Z) :
  is_Some (record_area record n !! i) <-> 0 <= i < n.
Proof.
  split; [|intros; rewrite record_area_some by done; by eexists].
  intros [x Hx]. by apply record_area_lookup in Hx as [? _].
Qed.

Lemma format_area_length {A} (encode : A -> bytes) (record : Z -> A) (n total : Z) :
  length (format_area encode record n total) = Z.to_nat total.
Proof. unfold format_area. rewrite length_take, length_app, length_replicate. lia. Qed.

(** record [i] of a formatted area *)
Lemma format_area_slice {A} (encode : A -> bytes) (record : Z -> A) (k n total i : Z) :
  0 <= k -> (forall i, 0 <= i < n -> length (encode (record i)) = Z.to_nat k) ->
  n * k <= total -> 0 <= i < n ->
  slice (Z.to_nat (k * i)) (Z.to_nat k) (format_area encode record n total) = encode (record i).
Proof.
  intros Hk Hl Ht Hi. unfold format_area.
  assert (Hall : forall x, x ∈ seqZ 0 n -> length (encode (record x)) = Z.to_nat k)
    by (intros x Hx%elem_of_seqZ; apply Hl; lia).
  pose proof (concat_const_length _ _ _ Hall) as Hc. rewrite length_seqZ in Hc.
  rewrite slice_take, slice_app_l by nia. rewrite Z2Nat.inj_mul by lia.
  apply (slice_concat_const (fun i => encode (record i)) _ _ (Z.to_nat i) i).
  - by intros x Hx%Hall.
  - apply lookup_seqZ. lia.
Qed.

Lemma st_read_area {A} (encode : A -> bytes) (record : Z -> A) (k n total off : Z) (st : store) (i : Z) :
  0 < k -> (forall i, 0 <= i < n -> length (encode (record i)) = Z.to_nat k) -> n * k <= total ->
  0 <= i < n ->
  st_read (st_write st off (format_area encode record n total)) (off + k * i) (Z.to_nat k)
    = encode (record i).
Proof.
  intros Hk Hl Ht Hi. replace (off + k * i) with (off + Z.of_nat (Z.to_nat (k * i))) by lia.
  rewrite st_read_slice by (rewrite format_area_length; nia).
  by apply format_area_slice; try lia.
Qed.

Lemma st_read_write_out (st : store) (off a : Z) (buf : bytes) (n : nat) :
  a + Z.of_nat n <= off \/ off + Z.of_nat (length buf) <= a ->
  st_read (st_write st off buf) a n = st_read st a n.
Proof. intros Ho. apply st_read_ext. intros x Hx. apply st_write_get_out. lia. Qed.

(** a loaded area, when the image holds the encoded records *)
Lemma load_area_records {A} (decode : bytes -> A) (encode : A -> bytes) (record : Z -> A)
    (image : bytes) (offset k n : Z) :
  0 <= offset -> 0 < k -> offset + k * n <= Z.of_nat (length image) < 2 ^ 64 ->
  (forall i, 0 <= i < n ->
    slice (Z.to_nat (offset + k * i)) (Z.to_nat k) image = encode (record i)) ->
  (forall i, 0 <= i < n -> decode (encode (record i)) = record i) ->
  load_area decode k image offset k n = record_area record n.
Proof.
  intros Ho Hk Hl Hs Hd. unfold load_area, record_area. f_equal.
  assert (Hall : forall l, (forall i, i ∈ l -> 0 <= i < n) ->
    omap (fun i => let addr := u64 (offset + u64 (k * i)) in
      if addr + k <=? Z.of_nat (length image)
      then Some (i, decode (slice (Z.to_nat addr) (Z.to_nat k) image)) else None) l
    = fmap (M := list) (fun i => (i, record i)) l).
  { induction l as [|i l IH]; intros Hin; [done|]. cbn [omap list_omap fmap list_fmap].
    pose proof (Hin i ltac:(set_solver)). cbv zeta.
    rewrite (wrap_small 64 (k * i)), wrap_small, (proj2 (Z.leb_le _ _)), Hs, Hd by nia.
    f_equal. apply IH. set_solver. }
  apply Hall. intros i Hi%elem_of_seqZ. lia.
Qed.

Section Load.
Context `{Env}.

(** ** What a device holds *)

(** the records that a device holds: super block, directories, files, file blocks *)
Record on_device (sb : SuperBlockMeta) (dr : Z -> DirMeta) (fr : Z -> FileMeta)
    (br : Z -> FileBlockMeta) (st : store) : Prop := {
  fm_super : st_read st 0 4096 = encode_super sb;
  fm_dirs : forall i, 0 <= i < sb_max_file_num sb ->
    st_read st (sb_dir_meta_offset sb + kBlockFsDirMetaSize * i) 1024
      = encode_dir (dr i);
  fm_files : forall i, 0 <= i < sb_max_file_num sb ->
    st_read st (sb_file_meta_offset sb + kBlockFsFileMetaSize * i) 256
      = encode_file (fr i);
  fm_fbs : forall i, 0 <= i < sb_max_file_block_num sb ->
    st_read st (sb_file_block_meta_offset sb + kBlockFsFileBlockMetaSize * i) 4096
      = encode_file_block (br i)
}.

(** a super block that a mount accepts *)
Record super_ok (sb : SuperBlockMeta) : Prop := {
  so_layout : layout_ok sb;
  so_wf : super_wf sb;
  so_valid : super_valid sb = true
}.

Lemma super_ok_crc (sb : SuperBlockMeta) :
  layout_ok sb -> super_wf sb -> sb_magic sb = kBlockFsMagic ->
  super_ok (set_sb_crc (super_crc sb) sb).
Proof.
  intros Hl [] Hm. constructor.
  - by apply layout_ok_set_crc.
  - constructor; try done. apply crc32_range.
  - unfold super_valid. change (super_crc (set_sb_crc _ sb)) with (super_crc sb). cbn.
    by rewrite Z.eqb_refl, Hm.
Qed.

(** ** Reading it *)

(** the world once these records are loaded *)
Definition loaded_with (dr : Z -> DirMeta) (fr : Z -> FileMeta) (br : Z -> FileBlockMeta)
    (sb : SuperBlockMeta) (w : world) : world :=
  set_w_super sb
  (set_w_dirmeta (record_area dr (sb_max_file_num sb))
  (set_w_filemeta (record_area fr (sb_max_file_num sb))
  (set_w_fbmeta (record_area br (sb_max_file_block_num sb)) w))).

Lemma read_all_wp (direct : bool) (w : world) (len : nat) (off : Z) :
  dev_good w -> dev_size (w_dev w) < 2 ^ 63 -> 0 <= off -> off + Z.of_nat len <= dev_size (w_dev w) ->
  wp (if direct then PreadDirect len off else PreadCache len off) (fun ro w' =>
    ro = (Z.of_nat len, st_read (w_store w) off len) /\
    exists e evs, evs `suffix_of` w_events w /\ w' = upd_io e evs (w_store w) w) w.
Proof.
  intros Hg Hd Ho Hb. eapply wp_mono; [by apply (read_run w off Ho Hd direct len)|].
  intros [r out] w' (e & n & evs & Hn & _ & Hs & Hout & -> & Hg'). cbn [fst snd] in *. subst out.
  destruct (Hg' Hg) as [-> ->]. split; [done|]. eauto.
Qed.

Section LoadRecords.
Context (sb : SuperBlockMeta) (Hok : super_ok sb).
Context (dr : Z -> DirMeta) (fr : Z -> FileMeta) (br : Z -> FileBlockMeta).
Context (Hdr : forall i, 0 <= i < sb_max_file_num sb -> dir_wf (dr i)).
Context (Hfr : forall i, 0 <= i < sb_max_file_num sb -> file_wf (fr i)).
Context (Hbr : forall i, 0 <= i < sb_max_file_block_num sb -> file_block_wf (br i)).

Lemma PrefetchSuperMeta_wp (w : world) :
  dev_good w -> dev_size (w_dev w) = sb_device_size sb -> on_device sb dr fr br (w_store w) ->
  wp PrefetchSuperMeta (fun r w' => r = Some sb /\
    exists e evs, evs `suffix_of` w_events w /\ w' = upd_io e evs (w_store w) w) w.
Proof using Hok.
  intros Hg Hd Hf. pose proof Hok as [[] Hwf Hv]. units. unfold PrefetchSuperMeta. wp_step.
  eapply wp_mono; [apply (read_all_wp false); [done|lia|done|]|].
  { change kSuperBlockOffset with 0. units. lia. }
  intros ro w' [-> Hw]. change kSuperBlockOffset with 0. units.
  change (Z.to_nat 4096) with 4096%nat. change (Z.of_nat 4096 =? 4096) with true. cbn [negb].
  wp_step. split; [|done]. by rewrite (fm_super _ _ _ _ _ Hf), decode_encode_super_aux, Hv.
Qed.

Lemma image_record (st : store) (off k i : Z) (len : nat) :
  0 <= off -> 0 <= k -> 0 <= i -> off + k * i + k <= Z.of_nat len ->
  slice (Z.to_nat (off + k * i)) (Z.to_nat k) (st_read st 0 len)
    = st_read st (off + k * i) (Z.to_nat k).
Proof. intros. rewrite slice_st_read by nia. f_equal. lia. Qed.

Lemma regist_image_run (w : world) (st : store) :
  on_device sb dr fr br st ->
  regist_image sb (st_read st 0 (Z.to_nat (sb_block_data_start_offset sb))) w
    = Done tt (loaded_with dr fr br sb w).
Proof using Hok Hdr Hfr Hbr.
  intros Hf. pose proof Hok as [[] Hwf Hv]. units. unfold regist_image, modify, loaded_with. f_equal.
  rewrite slice_st_read by (units; lia). change (0 + Z.of_nat 0) with 0.
  change (Z.to_nat kSuperBlockSize) with 4096%nat.
  rewrite (fm_super _ _ _ _ _ Hf), decode_encode_super_aux by done.
  rewrite lo_dir_size, lo_file_size, lo_fb_size.
  rewrite (load_area_records decode_dir encode_dir dr).
  2-4: rewrite ?st_read_length; units; lia.
  2:{ intros i Hi. units. rewrite image_record by lia. by apply (fm_dirs _ _ _ _ _ Hf). }
  2:{ intros i Hi. by apply decode_encode_dir_aux, Hdr. }
  rewrite (load_area_records decode_file encode_file fr).
  2-4: rewrite ?st_read_length; units; lia.
  2:{ intros i Hi. units. rewrite image_record by lia. by apply (fm_files _ _ _ _ _ Hf). }
  2:{ intros i Hi. by apply decode_encode_file_aux, Hfr. }
  rewrite (load_area_records decode_file_block encode_file_block br).
  2-4: rewrite ?st_read_length; units; lia.
  2:{ intros i Hi. units. rewrite image_record by lia. by apply (fm_fbs _ _ _ _ _ Hf). }
  2:{ intros i Hi. by apply decode_encode_file_block_aux, Hbr. }
  done.
Qed.

Lemma ShmManager_Initialize_wp (w : world) :
  dev_good w -> dev_size (w_dev w) = sb_device_size sb -> on_device sb dr fr br (w_store w) ->
  wp ShmManager_Initialize (fun ok w' => ok = true /\
    exists e evs, evs `suffix_of` w_events w /\
      w' = loaded_with dr fr br sb (upd_io e evs (w_store w) w)) w.
Proof using Hok Hdr Hfr Hbr.
  intros Hg Hd Hf. pose proof Hok as [[] _ _]. unfold ShmManager_Initialize. wp_step.
  eapply wp_mono; [by apply PrefetchSuperMeta_wp|]. intros r w1 (-> & e & evs & Hs & ->). units.
  rewrite swrap_small by lia.
  destruct (Z.eqb_spec (sb_block_data_start_offset sb) 0); [lia|]. wp_step.
  eapply wp_mono; [apply (read_all_wp true)|].
  { destruct Hg as (?&?&?). split_and!; try done. by eapply Forall_suffix. }
  { cbn. lia. } { done. } { cbn. lia. }
  intros ro w2 (-> & e2 & evs2 & Hs2 & ->). rewrite Z2Nat.id by lia. rewrite Z.eqb_refl.
  cbn [negb]. wp_step. eapply wp_run; [apply regist_image_run; done|]. wp_step.
  split; [done|]. exists e2, evs2. split; [by etrans|done].
Qed.

End LoadRecords.
End Load.
