(* ===== verification/RecoverDirs.v ===== *)
(** * Mounting a device in use: directories

    When the records of a device describe a file system ([image_ok]), and what
    the loops of [DirHandle::InitializeMeta] make of the directories in use:
    their objects, paths and children, and the free records. *)

From S2P Require Import Prelude Meta Device World SuperBlock Resources Paths FileBlock Inode.
From S2P Require Import Directory FileHandle File OpenFile FileHandleOps DirHandle FileSystem.
From S2P Require Import Io Invariant MetaSteps DirSteps Names DirOps Load.

Section Image.
Context `{Env}.
Context (sb : SuperBlockMeta).
Context (dr : Z -> DirMeta) (fr : Z -> FileMeta) (br : Z -> FileBlockMeta).

(** ** Records that describe a file system *)

Definition used_dir (i : Z) : Prop := 0 <= i < sb_max_file_num sb /\ dm_used (dr i) = true.
Definition used_file (i : Z) : Prop := 0 <= i < sb_max_file_num sb /\ fm_used (fr i) = true.
Definition used_fb (i : Z) : Prop := 0 <= i < sb_max_file_block_num sb /\ fb_used (br i) = true.

(** a directory: its own index, a path of its own that leads to it, a parent *)
Record dirs_image : Prop := {
  di_wf : forall i, 0 <= i < sb_max_file_num sb -> dir_wf (dr i);
  di_crc : forall i, 0 <= i < sb_max_file_num sb -> dm_crc (dr i) = dir_crc_of (dr i);
  di_dh : forall i, 0 <= i < sb_max_file_num sb -> dm_dh (dr i) = i;
  di_name : forall i, used_dir i -> cstr (dm_dir_name (dr i)) <> [];
  di_key : forall i, used_dir i -> dir_key (meta_dir_name (dr i)) = Some (meta_dir_name (dr i));
  di_inj : forall i j, used_dir i -> used_dir j ->
    meta_dir_name (dr i) = meta_dir_name (dr j) -> i = j;
  di_parent : forall i, used_dir i -> meta_dir_name (dr i) <> [slash] ->
    exists j, used_dir j /\ meta_dir_name (dr j) = GetDirName (meta_dir_name (dr i));
  di_root : exists i, used_dir i /\ meta_dir_name (dr i) = [slash]
}.

(** a file: its own index, a name of its own in a directory, not temporary *)
Record files_image : Prop := {
  fi_rec_wf : forall i, 0 <= i < sb_max_file_num sb -> file_wf (fr i);
  fi_crc : forall i, 0 <= i < sb_max_file_num sb -> fm_crc (fr i) = file_crc_of (fr i);
  fi_fh : forall i, 0 <= i < sb_max_file_num sb -> fm_fh (fr i) = i;
  fi_unused : forall i, 0 <= i < sb_max_file_num sb -> fm_used (fr i) = false -> fm_size (fr i) = 0;
  fi_temp : forall i, used_file i -> fm_is_temp (fr i) = false;
  fi_name : forall i, used_file i -> cstr (fm_file_name (fr i)) <> [];
  fi_child : forall i, used_file i -> fm_child_fh (fr i) <= 0;
  fi_dir : forall i, used_file i -> used_dir (fm_dh (fr i));
  fi_inj : forall i j, used_file i -> used_file j -> fm_dh (fr i) = fm_dh (fr j) ->
    meta_file_name (fr i) = meta_file_name (fr j) -> i = j
}.

(** a run of blocks: of a file whose size it covers, no block shared *)
Record blocks_image : Prop := {
  bi_ok : forall b, 0 <= b < sb_max_file_block_num sb -> fb_meta_ok (br b);
  bi_crc : forall b, 0 <= b < sb_max_file_block_num sb -> fb_crc (br b) = fb_crc_of (br b);
  bi_unused : forall b, 0 <= b < sb_max_file_block_num sb -> fb_used (br b) = false ->
    fb_blocks (br b) = [];
  bi_temp : forall b, used_fb b -> fb_is_temp (br b) = false;
  bi_cut : forall b, used_fb b -> fb_file_cut (br b) = 0;
  bi_file : forall b, used_fb b -> used_file (fb_fh (br b));
  bi_size : forall b, used_fb b ->
    0 < fm_size (fr (fb_fh (br b))) <= kBlockSize * Z.of_nat (length (fb_blocks (br b)));
  bi_blocks : forall b, used_fb b -> NoDup (fb_blocks (br b)) /\
    (forall x, x ∈ fb_blocks (br b) -> 0 <= x < sb_curr_block_num sb);
  bi_apart : forall b c, used_fb b -> used_fb c -> b <> c ->
    fb_fh (br b) <> fb_fh (br c) /\ (forall x, x ∈ fb_blocks (br b) -> x ∉ fb_blocks (br c));
  bi_covers : forall i, used_file i -> fm_size (fr i) <> 0 -> exists b, used_fb b /\ fb_fh (br b) = i
}.

Record image_ok : Prop := {
  im_super : super_ok sb;
  im_dirs : dirs_image;
  im_files : files_image;
  im_blocks : blocks_image
}.

End Image.

Section RecoverDirs.
Context `{Env}.
Context (sb : SuperBlockMeta) (dr : Z -> DirMeta).

(** ** The directories that were scanned

    [P] are the records looked at, [linked] the objects entered into their
    parents, [entries] the files entered into directories. *)
Record dirs_rel (P linked : Z -> Prop) (entries : Z -> Z -> Z -> Prop) (n : Z)
    (ds : gmap Z directory) (h : dir_handle) : Prop := {
  rd_dom : forall i, is_Some (dh_created_dhs h !! i) <-> used_dir sb dr i /\ P i;
  rd_obj : forall i d, dh_created_dhs h !! i = Some d -> d < n /\
    exists o, ds !! d = Some o /\ do_meta o = i /\ do_nlink o = 0;
  rd_objs : forall d o, ds !! d = Some o -> dh_created_dhs h !! do_meta o = Some d;
  rd_names : forall p d, dh_created_dirs h !! p = Some d <->
    exists i, dh_created_dhs h !! i = Some d /\ meta_dir_name (dr i) = p;
  rd_free : NoDup (dh_free h) /\ forall i, i ∈ dh_free h <->
    0 <= i < sb_max_file_num sb /\ P i /\ dm_used (dr i) = false;
  rd_open : dh_open_dirs h = ∅;
  rd_children : forall d o j c, ds !! d = Some o -> do_children o !! j = Some c <->
    linked c /\ dh_created_dhs h !! j = Some c /\ meta_dir_name (dr j) <> [slash] /\
    dh_created_dirs h !! GetDirName (meta_dir_name (dr j)) = Some d;
  rd_items : forall d o i f, ds !! d = Some o ->
    do_items o !! i = Some f <-> entries (do_meta o) i f
}.

Definition nobody (_ : Z) : Prop := False.
Definition everybody (_ : Z) : Prop := True.
Definition no_entry (_ _ _ : Z) : Prop := False.

Lemma dirs_rel_empty : dirs_rel (fun i => i ∈ []) nobody no_entry 0 ∅ (MkDirHandle [] ∅ ∅ ∅).
Proof.
  constructor; cbn; try done.
  - intros i. rewrite lookup_empty. split; [by intros []|intros [_ []%elem_of_nil]].
  - intros p d. rewrite lookup_empty. split; [done|]. intros (i & Hi & _). by rewrite lookup_empty in Hi.
  - split; [constructor|]. intros i. rewrite elem_of_nil. naive_solver.
Qed.

(** an unused record goes to the free list *)
Lemma dirs_rel_skip (l : list Z) (i n : Z) (ds : gmap Z directory) (h : dir_handle) :
  0 <= i < sb_max_file_num sb -> dm_used (dr i) = false -> i ∉ l ->
  dirs_rel (fun j => j ∈ l) nobody no_entry n ds h ->
  dirs_rel (fun j => j ∈ l ++ [i]) nobody no_entry n ds (set_dh_free (dh_free h ++ [i]) h).
Proof.
  intros Hi Hu Hl [Hdom Hobj Hobjs Hnames [Hnd Hfree] Hopen Hch Hit]. constructor; cbn; try done.
  - intros j. rewrite Hdom, elem_of_app, list_elem_of_singleton. split; [naive_solver|].
    intros [Hj [?| ->]]; [done|]. destruct Hj. congruence.
  - split.
    + apply NoDup_app. split_and!; [done| |apply NoDup_singleton].
      intros j Hj ->%list_elem_of_singleton. apply Hfree in Hj. naive_solver.
    + intros j. rewrite elem_of_app, Hfree, elem_of_app, !list_elem_of_singleton. naive_solver.
Qed.

(** a record in use becomes a directory object, in both maps *)
Lemma dirs_rel_add (l : list Z) (i n : Z) (ds : gmap Z directory) (h : dir_handle) :
  dirs_image sb dr -> used_dir sb dr i -> i ∉ l ->
  dirs_rel (fun j => j ∈ l) nobody no_entry n ds h ->
  dh_created_dirs h !! meta_dir_name (dr i) = None /\ dh_created_dhs h !! i = None /\
  dirs_rel (fun j => j ∈ l ++ [i]) nobody no_entry (n + 1) (<[n := MkDirectory i ∅ ∅ 0]> ds)
    (set_dh_created_dhs (<[i := n]> (dh_created_dhs h))
       (set_dh_created_dirs (<[meta_dir_name (dr i) := n]> (dh_created_dirs h)) h)).
Proof.
  intros Him Hi Hl [Hdom Hobj Hobjs Hnames [Hnd Hfree] Hopen Hch Hit].
  assert (Hni : dh_created_dhs h !! i = None).
  { apply eq_None_not_Some. intros Hs. by apply Hdom in Hs as [_ ?]. }
  assert (Hnn : dh_created_dirs h !! meta_dir_name (dr i) = None).
  { apply eq_None_not_Some. intros [d Hd]. apply Hnames in Hd as (j & Hj & Hjn).
    assert (used_dir sb dr j /\ j ∈ l) as [Hju Hjl] by (apply Hdom; by eexists).
    by rewrite (di_inj _ _ Him _ _ Hju Hi Hjn) in Hjl. }
  assert (Hnew : ds !! n = None).
  { apply eq_None_not_Some. intros [o Ho]. apply Hobjs, Hobj in Ho. lia. }
  split_and!; [done|done|]. constructor; cbn.
  - intros j. destruct (decide (i = j)) as [->|Hne].
    + rewrite lookup_insert_eq. split; [|by eexists]. intros _. split; [done|]. set_solver.
    + rewrite lookup_insert_ne, Hdom by done. set_solver.
  - intros j d. destruct (decide (i = j)) as [->|Hne].
    + rewrite lookup_insert_eq. intros [= <-]. split; [lia|]. rewrite lookup_insert_eq. by eexists.
    + rewrite lookup_insert_ne by done. intros Hj. destruct (Hobj _ _ Hj) as (? & o & ? & ?).
      split; [lia|]. rewrite lookup_insert_ne by lia. by exists o.
  - intros d o [[<- <-]|[Hd Ho]]%lookup_insert_Some; cbn; [by rewrite lookup_insert_eq|].
    rewrite lookup_insert_ne; [by apply Hobjs|]. intros Heq. apply Hobjs in Ho. congruence.
  - intros p d. destruct (decide (meta_dir_name (dr i) = p)) as [<-|Hne].
    + rewrite lookup_insert_eq. split.
      * intros [= <-]. exists i. by rewrite lookup_insert_eq.
      * intros (j & [[<- <-]|[Hij Hj]]%lookup_insert_Some & Hp); [done|].
        assert (dh_created_dirs h !! meta_dir_name (dr i) = Some d) by (apply Hnames; eauto). congruence.
    + rewrite lookup_insert_ne, Hnames by done. split; intros (j & Hj & Hp); exists j; (split; [|done]).
      * rewrite lookup_insert_ne; [done|]. congruence.
      * apply lookup_insert_Some in Hj as [[-> _]|[_ ?]]; congruence.
  - split; [done|]. intros j. rewrite Hfree, elem_of_app, list_elem_of_singleton.
    split; [naive_solver|]. intros (? & [?| ->] & Hu); [done|]. destruct Hi. congruence.
  - done.
  - intros d o j c [[<- <-]|[Hd Ho]]%lookup_insert_Some; cbn.
    + rewrite lookup_empty. split; [done|by intros [[] _]].
    + rewrite (Hch _ _ _ _ Ho). unfold nobody. naive_solver.
  - intros d o j f [[<- <-]|[Hd Ho]]%lookup_insert_Some; cbn; [|by apply (Hit d)].
    rewrite lookup_empty. unfold no_entry. naive_solver.
Qed.

(** *** The first loop of [DirHandle::InitializeMeta] *)

Definition with_dirs (n : Z) (ds : gmap Z directory) (h : dir_handle) (w : world) : world :=
  set_w_next n (set_w_dirs ds (set_w_dh h w)).

Lemma dir_scan_wp (w : world) :
  dirs_image sb dr -> w_dirmeta w = record_area dr (sb_max_file_num sb) ->
  w_next w = 0 -> w_dirs w = ∅ -> w_dh w = MkDirHandle [] ∅ ∅ ∅ ->
  wp (all_of dir_init_one (seqZ 0 (sb_max_file_num sb))) (fun ok w' => ok = true /\
    exists n ds h, w' = with_dirs n ds h w /\
      dirs_rel (fun i => i ∈ seqZ 0 (sb_max_file_num sb)) nobody no_entry n ds h) w.
Proof.
  intros Him Hm Hn Hd Hh. apply (all_of_wp _ (fun l w' => exists n ds h, w' = with_dirs n ds h w /\
    dirs_rel (fun i => i ∈ l) nobody no_entry n ds h)).
  2:{ exists 0, ∅, (MkDirHandle [] ∅ ∅ ∅). split; [|apply dirs_rel_empty].
      destruct w. cbn in *. by subst. }
  intros l1 i l2 w' Hl (n & ds & h & -> & Hr).
  destruct (seqZ_middle _ _ _ _ Hl) as [Hi Hil].
  unfold dir_init_one. wp_step.
  eapply wp_get_dirmeta; [cbn; rewrite Hm; by apply record_area_some|].
  rewrite (di_crc _ _ Him), Z.eqb_refl by done. cbn [negb]. destruct (dm_used (dr i)) eqn:Hu.
  - assert (Hud : used_dir sb dr i) by done.
    pose proof (di_name _ _ Him _ Hud) as Hname. destruct (cstr (dm_dir_name (dr i))) eqn:Hc; [done|].
    cbn [length Nat.eqb]. rewrite (di_dh _ _ Him), Z.eqb_refl by done. cbn [negb].
    destruct (dirs_rel_add l1 i n ds h Him Hud Hil Hr) as (Hnn & Hni & Hr').
    unfold fresh. repeat wp_step. apply wp_put_dir.
    unfold AddDirectory2CreateNolock. wp_step.
    eapply (wp_dir_name _ (MkDirectory i ∅ ∅ 0) (dr i)).
    { cbn. by rewrite lookup_insert_eq. } { cbn. rewrite Hm. by apply record_area_some. }
    wp_step. eapply (wp_dir_dh _ (MkDirectory i ∅ ∅ 0) (dr i)).
    { cbn. by rewrite lookup_insert_eq. } { cbn. rewrite Hm. by apply record_area_some. }
    do 2 wp_step. cbn [w_dh set_w_dirs set_w_next set_w_dh with_dirs]. rewrite (di_dh _ _ Him) by done.
    rewrite decide_False by (rewrite Hnn; by intros []).
    rewrite decide_False by (rewrite Hni; by intros []).
    do 3 wp_step. split; [done|]. do 3 eexists. split; [|exact Hr']. done.
  - do 3 wp_step. split; [done|]. exists n, ds, (set_dh_free (dh_free h ++ [i]) h).
    split; [done|]. by apply dirs_rel_skip.
Qed.

(** *** Its second loop: every directory but the root becomes a child *)

(** the relation once all records were looked at *)
Abbreviation all_dirs linked entries n ds h :=
  (dirs_rel (fun i => i ∈ seqZ 0 (sb_max_file_num sb)) linked entries n ds h).

Lemma dirs_rel_index (linked : Z -> Prop) entries n ds h (p : bytes) (c : Z) :
  all_dirs linked entries n ds h -> dh_created_dirs h !! p = Some c ->
  exists i o, used_dir sb dr i /\ dh_created_dhs h !! i = Some c /\ meta_dir_name (dr i) = p /\
    ds !! c = Some o /\ do_meta o = i.
Proof.
  intros Hr (i & Hi & Hp)%(rd_names _ _ _ _ _ _ Hr).
  destruct (rd_obj _ _ _ _ _ _ Hr _ _ Hi) as (_ & o & Ho & Hm & _). exists i, o.
  split_and!; try done; apply (rd_dom _ _ _ _ _ _ Hr); by eexists.
Qed.

Lemma dirs_rel_find (linked : Z -> Prop) entries n ds h (j : Z) :
  all_dirs linked entries n ds h -> used_dir sb dr j ->
  exists q o, dh_created_dhs h !! j = Some q /\ dh_created_dirs h !! meta_dir_name (dr j) = Some q /\
    ds !! q = Some o /\ do_meta o = j.
Proof.
  intros Hr Hj. assert (is_Some (dh_created_dhs h !! j)) as [q Hq].
  { apply (rd_dom _ _ _ _ _ _ Hr). split; [done|]. apply elem_of_seqZ. destruct Hj. lia. }
  destruct (rd_obj _ _ _ _ _ _ Hr _ _ Hq) as (_ & o & Ho & Hm & _). exists q, o.
  split_and!; try done. apply (rd_names _ _ _ _ _ _ Hr). eauto.
Qed.

Lemma dirs_rel_root (linked : Z -> Prop) (l : list Z) entries n ds h (c : Z) :
  (forall x, linked x <-> x ∈ l) -> dh_created_dirs h !! [slash] = Some c ->
  all_dirs linked entries n ds h -> all_dirs (fun x => x ∈ l ++ [c]) entries n ds h.
Proof.
  intros Hl Hc Hr. destruct (dirs_rel_index _ _ _ _ _ _ _ Hr Hc) as (i & _ & _ & Hi & Hn & _ & _).
  destruct Hr as [? ? Hobjs ? ? ? Hch ?]. constructor; try done.
  intros d o j x Ho. rewrite (Hch _ _ _ _ Ho), Hl, elem_of_app, list_elem_of_singleton.
  split; [naive_solver|]. intros ([?| ->] & Hj & Hne & Hp); [done|].
  exfalso. apply Hne. destruct (rd_obj0 _ _ Hj) as (_ & o1 & Ho1 & Hm1 & _).
  destruct (rd_obj0 _ _ Hi) as (_ & o2 & Ho2 & Hm2 & _). by simplify_eq.
Qed.

Lemma dirs_rel_link (linked : Z -> Prop) (l : list Z) entries n ds h (i c q : Z) (oq : directory) :
  (forall x, linked x <-> x ∈ l) -> c ∉ l -> dh_created_dhs h !! i = Some c ->
  meta_dir_name (dr i) <> [slash] ->
  dh_created_dirs h !! GetDirName (meta_dir_name (dr i)) = Some q -> ds !! q = Some oq ->
  all_dirs linked entries n ds h ->
  do_children oq !! i = None /\
  all_dirs (fun x => x ∈ l ++ [c]) entries n
    (<[q := set_do_children (<[i := c]> (do_children oq)) oq]> ds) h.
Proof.
  intros Hl Hc Hi Hne Hq Hoq [Hdom Hobj Hobjs Hnames Hfree Hopen Hch Hit].
  assert (Hinj : forall j, dh_created_dhs h !! j = Some c -> j = i).
  { intros j Hj. destruct (Hobj _ _ Hj) as (_ & o1 & Ho1 & Hm1 & _).
    destruct (Hobj _ _ Hi) as (_ & o2 & Ho2 & Hm2 & _). by simplify_eq. }
  split.
  { apply eq_None_not_Some. intros [x Hx]. apply (Hch _ _ _ _ Hoq) in Hx as (Hx & Hix & _).
    apply Hl in Hx. congruence. }
  constructor; try done.
  - intros j d Hj. destruct (Hobj _ _ Hj) as (? & o & Ho & ? & ?). split; [done|].
    destruct (decide (q = d)) as [->|]; [|rewrite lookup_insert_ne by done; by exists o].
    rewrite lookup_insert_eq. simplify_eq. by eexists.
  - intros d o [[<- <-]|[_ Ho]]%lookup_insert_Some; [by apply (Hobjs q oq)|by apply Hobjs].
  - intros d o j x. rewrite elem_of_app, list_elem_of_singleton.
    intros [[<- <-]|[Hd Ho]]%lookup_insert_Some; cbn.
    + destruct (decide (i = j)) as [->|Hij].
      * rewrite lookup_insert_eq. split; [intros [= <-]; auto|]. intros (_ & Hj & _). congruence.
      * rewrite lookup_insert_ne, (Hch _ _ _ _ Hoq), Hl by done. split; [naive_solver|].
        intros ([?| ->] & Hj & ?); [done|]. by apply Hinj in Hj.
    + rewrite (Hch _ _ _ _ Ho), Hl. split; [naive_solver|].
      intros ([?| ->] & Hj & Hn & Hp); [done|]. apply Hinj in Hj as ->. congruence.
  - intros d o j f [[<- <-]|[_ Ho]]%lookup_insert_Some; cbn; [by apply (Hit q)|by apply (Hit d)].
Qed.

Lemma created_objects_NoDup linked entries n ds h :
  all_dirs linked entries n ds h -> NoDup (snd <$> map_order (dh_created_dirs h)).
Proof.
  intros Hr. rewrite map_order_perm. apply NoDup_fmap_2_strong; [|apply NoDup_map_to_list].
  intros [p1 d1] [p2 d2] H1%elem_of_map_to_list H2%elem_of_map_to_list ?; cbn in *. subst d2.
  destruct (dirs_rel_index _ _ _ _ _ _ _ Hr H1) as (i & o & _ & _ & <- & Ho & <-).
  destruct (dirs_rel_index _ _ _ _ _ _ _ Hr H2) as (i' & o' & _ & _ & <- & Ho' & <-). by simplify_eq.
Qed.

Lemma dir_links_wp (w : world) (n : Z) (ds : gmap Z directory) (h : dir_handle) :
  dirs_image sb dr -> w_dirmeta w = record_area dr (sb_max_file_num sb) ->
  all_dirs nobody no_entry n ds h ->
  wp (all_of dir_link_one (snd <$> map_order (dh_created_dirs h))) (fun ok w' => ok = true /\
    exists e ds', w' = set_w_errno e (with_dirs n ds' h w) /\
      all_dirs everybody no_entry n ds' h) (with_dirs n ds h w).
Proof.
  intros Him Hm Hr0. set (L := snd <$> map_order (dh_created_dirs h)).
  assert (HL : forall x, x ∈ L <-> exists p, dh_created_dirs h !! p = Some x).
  { intros x. unfold L. rewrite map_order_perm, list_elem_of_fmap. split.
    - intros ([p d] & -> & Hp%elem_of_map_to_list). by exists p.
    - intros [p Hp]. exists (p, x). split; [done|by apply elem_of_map_to_list]. }
  eapply wp_mono; [apply (all_of_wp _ (fun l w' => exists e ds', w' = set_w_errno e (with_dirs n ds' h w) /\
    all_dirs (fun x => x ∈ l) no_entry n ds' h))|].
  - intros l1 c l2 w' Hl (e & ds1 & -> & Hr).
    assert (Hc : c ∉ l1).
    { apply (NoDup_middle c l1 l2). rewrite <- Hl. by eapply created_objects_NoDup. }
    assert (c ∈ L) as [p Hp]%HL by (rewrite Hl; set_solver).
    destruct (dirs_rel_index _ _ _ _ _ _ _ Hr Hp) as (i & o & Hi & Hic & <- & Ho & Hoi).
    assert (Hmi : record_area dr (sb_max_file_num sb) !! do_meta o = Some (dr i)).
    { rewrite Hoi. apply record_area_some, Hi. }
    unfold dir_link_one. wp_step. eapply (wp_dir_name _ o (dr i)); [done|by cbn; rewrite Hm|].
    unfold IsMountPoint. case_bool_decide as Hroot.
    + wp_step. split; [done|]. exists e, ds1. split; [done|]. rewrite Hroot in Hp.
      by eapply dirs_rel_root; [|exact Hp|exact Hr].
    + destruct (di_parent _ _ Him _ Hi Hroot) as (j & Hj & Hjn).
      destruct (dirs_rel_find _ _ _ _ _ _ Hr Hj) as (q & oq & Hjq & Hqn & Hoq & _).
      rewrite Hjn in Hqn. wp_step. eapply looks_up_wp; [apply GetCreatedDirectory_run|]. intros e1.
      assert (lookup_dir (set_w_errno e (with_dirs n ds1 h w)) (GetDirName (meta_dir_name (dr i)))
        = Some q) as ->.
      { unfold lookup_dir. rewrite <- Hjn, (di_key _ _ Him _ Hj). cbn. by rewrite Hjn. }
      destruct (dirs_rel_link (fun x => x ∈ l1) l1 _ _ _ _ i c q oq ltac:(done) Hc Hic Hroot Hqn Hoq Hr) as [Hno Hr'].
      unfold AddChildDirectory. wp_step. eapply (wp_dir_dh _ o (dr i)); [done|by cbn; rewrite Hm|].
      rewrite (di_dh _ _ Him) by apply Hi. wp_step. eapply wp_get_dir; [done|].
      rewrite decide_False by (rewrite Hno; by intros []). wp_step. apply wp_put_dir. wp_step.
      split; [done|]. exists e1. eexists. split; [|exact Hr']. done.
  - exists (w_errno w), ds. split; [by destruct w|].
    destruct Hr0 as [? ? ? ? ? ? Hch ?]. constructor; try done.
    intros d o j c Ho. rewrite (Hch _ _ _ _ Ho). unfold nobody. split; [by intros [[] _]|].
    by intros [[]%elem_of_nil _].
  - intros ok w' (-> & e & ds1 & -> & Hr). split; [done|]. exists e, ds1. split; [done|].
    destruct Hr as [Hdom Hobj Hobjs Hnames ? ? Hch ?]. constructor; try done.
    intros d o j c Ho. rewrite (Hch _ _ _ _ Ho), HL. split.
    + by intros (_ & Hj & ?).
    + intros (_ & Hj & ?). split; [|done]. exists (meta_dir_name (dr j)). apply Hnames. eauto.
Qed.
End RecoverDirs.
