(* ===== verification/RecoverFiles.v ===== *)
(** * Mounting a device in use: files

    What the loop of [FileHandle::InitializeMeta] makes of the files in use:
    their objects, names and entries in directories, and the free records. *)

From S2P Require Import Prelude Meta Device World SuperBlock Resources Paths FileBlock Inode.
From S2P Require Import Directory FileHandle File OpenFile FileHandleOps DirHandle FileSystem.
From S2P Require Import Io Invariant MetaSteps DirSteps Names DirOps FileNames Rename Load RecoverDirs.

Section RecoverFiles.
Context `{Env}.
Context (sb : SuperBlockMeta).
Context (dr : Z -> DirMeta) (fr : Z -> FileMeta).

(** [P] are the records looked at, [owns] the file blocks entered into files. *)
Record files_rel (P : Z -> Prop) (owns : Z -> Z -> Z -> Prop) (n : Z)
    (fs : gmap Z file) (h : file_handle) : Prop := {
  rf_dom : forall i, is_Some (fh_created_fhs h !! i) <-> used_file sb fr i /\ P i;
  rf_obj : forall i f, fh_created_fhs h !! i = Some f -> f < n /\
    exists o, fs !! f = Some o /\ fo_meta o = i /\ fo_nlink o = 0 /\ fo_deleted o = false;
  rf_objs : forall f o, fs !! f = Some o -> fh_created_fhs h !! fo_meta o = Some f;
  rf_names : forall dh name f, fh_created_files h !! (dh, name) = Some f <->
    exists i, fh_created_fhs h !! i = Some f /\ fm_dh (fr i) = dh /\ meta_file_name (fr i) = name;
  rf_free : NoDup (fh_free h) /\ forall i, i ∈ fh_free h <->
    0 <= i < sb_max_file_num sb /\ P i /\ fm_used (fr i) = false;
  rf_open : fh_open_files h = ∅;
  rf_parents : fh_parent_files h = ∅;
  rf_items : forall f o k b, fs !! f = Some o -> fo_items o !! k = Some b <-> owns (fo_meta o) k b
}.

Lemma files_rel_empty (n : Z) :
  files_rel (fun i => i ∈ []) no_entry n ∅ (MkFileHandle [] ∅ ∅ ∅ ∅).
Proof.
  constructor; cbn; try done.
  - intros i. rewrite lookup_empty. split; [by intros []|intros [_ []%elem_of_nil]].
  - intros d p f. rewrite lookup_empty. split; [done|]. intros (i & Hi & _). by rewrite lookup_empty in Hi.
  - split; [constructor|]. intros i. rewrite elem_of_nil. naive_solver.
Qed.

Lemma files_rel_skip (l : list Z) (i n : Z) (fs : gmap Z file) (h : file_handle) :
  0 <= i < sb_max_file_num sb -> fm_used (fr i) = false -> i ∉ l ->
  files_rel (fun j => j ∈ l) no_entry n fs h ->
  files_rel (fun j => j ∈ l ++ [i]) no_entry n fs (set_fh_free (fh_free h ++ [i]) h).
Proof.
  intros Hi Hu Hl [Hdom Hobj Hobjs Hnames [Hnd Hfree] Hopen Hpar Hit]. constructor; cbn; try done.
  - intros j. rewrite Hdom, elem_of_app, list_elem_of_singleton. split; [naive_solver|].
    intros [Hj [?| ->]]; [done|]. destruct Hj. congruence.
  - split.
    + apply NoDup_app. split_and!; [done| |apply NoDup_singleton].
      intros j Hj ->%list_elem_of_singleton. apply Hfree in Hj. naive_solver.
    + intros j. rewrite elem_of_app, Hfree, elem_of_app, !list_elem_of_singleton. naive_solver.
Qed.

Lemma files_rel_add (l : list Z) (i n : Z) (fs : gmap Z file) (h : file_handle) :
  files_image sb dr fr -> used_file sb fr i -> i ∉ l ->
  files_rel (fun j => j ∈ l) no_entry n fs h ->
  files_rel (fun j => j ∈ l ++ [i]) no_entry (n + 1) (<[n := MkFile i ∅ 0 false false]> fs)
    (set_fh_created_files (<[(fm_dh (fr i), meta_file_name (fr i)) := n]> (fh_created_files h))
      (set_fh_created_fhs (<[i := n]> (fh_created_fhs h)) h)).
Proof.
  intros Him Hi Hl [Hdom Hobj Hobjs Hnames [Hnd Hfree] Hopen Hpar Hit].
  assert (Hni : fh_created_fhs h !! i = None).
  { apply eq_None_not_Some. intros Hs. by apply Hdom in Hs as [_ ?]. }
  assert (Hnn : fh_created_files h !! (fm_dh (fr i), meta_file_name (fr i)) = None).
  { apply eq_None_not_Some. intros [d Hd]. apply Hnames in Hd as (j & Hj & Hjd & Hjn).
    assert (used_file sb fr j /\ j ∈ l) as [Hju Hjl] by (apply Hdom; by eexists).
    by rewrite (fi_inj _ _ _ Him _ _ Hju Hi Hjd Hjn) in Hjl. }
  constructor; cbn; try done.
  - intros j. destruct (decide (i = j)) as [->|Hne].
    + rewrite lookup_insert_eq. split; [|by eexists]. intros _. split; [done|]. set_solver.
    + rewrite lookup_insert_ne, Hdom by done. set_solver.
  - intros j f. destruct (decide (i = j)) as [->|Hne].
    + rewrite lookup_insert_eq. intros [= <-]. split; [lia|]. rewrite lookup_insert_eq. by eexists.
    + rewrite lookup_insert_ne by done. intros Hj. destruct (Hobj _ _ Hj) as (? & o & ? & ?).
      split; [lia|]. rewrite lookup_insert_ne by lia. by exists o.
  - intros f o [[<- <-]|[Hd Ho]]%lookup_insert_Some; cbn; [by rewrite lookup_insert_eq|].
    rewrite lookup_insert_ne; [by apply Hobjs|]. intros Heq. apply Hobjs in Ho. congruence.
  - intros d p f. destruct (decide ((fm_dh (fr i), meta_file_name (fr i)) = (d, p))) as [[= <- <-]|Hne].
    + rewrite lookup_insert_eq. split.
      * intros [= <-]. exists i. by rewrite lookup_insert_eq.
      * intros (j & [[<- <-]|[Hij Hj]]%lookup_insert_Some & Hp); [done|].
        assert (fh_created_files h !! (fm_dh (fr i), meta_file_name (fr i)) = Some f)
          by (apply Hnames; eauto). congruence.
    + rewrite lookup_insert_ne, Hnames by done. split; intros (j & Hj & Hd & Hp); exists j; (split; [|done]).
      * rewrite lookup_insert_ne; [done|]. congruence.
      * apply lookup_insert_Some in Hj as [[-> _]|[_ ?]]; [|done]. by destruct Hne; f_equal.
  - split; [done|]. intros j. rewrite Hfree, elem_of_app, list_elem_of_singleton.
    split; [naive_solver|]. intros (? & [?| ->] & Hu); [done|]. destruct Hi. congruence.
  - intros f o k b [[<- <-]|[Hd Ho]]%lookup_insert_Some; cbn; [|by apply (Hit f)].
    rewrite lookup_empty. unfold no_entry. naive_solver.
Qed.

(** the entries of the directories are the files of [m], in the directory of the record *)
Definition entries_of (m : gmap Z Z) (d i f : Z) : Prop := m !! i = Some f /\ fm_dh (fr i) = d.

Lemma dirs_rel_entry (n n' : Z) (linked : Z -> Prop) (ds : gmap Z directory) (h : dir_handle)
    (m : gmap Z Z) (i f d : Z) (od : directory) :
  n <= n' -> dirs_rel sb dr (fun j => j ∈ seqZ 0 (sb_max_file_num sb)) linked (entries_of m) n ds h ->
  m !! i = None -> ds !! d = Some od -> do_meta od = fm_dh (fr i) ->
  dirs_rel sb dr (fun j => j ∈ seqZ 0 (sb_max_file_num sb)) linked (entries_of (<[i := f]> m)) n'
    (<[d := set_do_items (<[i := f]> (do_items od)) od]> ds) h /\ do_items od !! i = None.
Proof.
  intros Hn [Hdom Hobj Hobjs Hnames Hfree Hopen Hch Hit] Hi Hd Hod. split.
  2:{ apply eq_None_not_Some. intros [x Hx]. apply (Hit _ _ _ _ Hd) in Hx as [? _]. congruence. }
  constructor; try done.
  - intros j x Hj. destruct (Hobj _ _ Hj) as (? & o & Ho & ? & ?). split; [lia|].
    destruct (decide (d = x)) as [->|]; [|rewrite lookup_insert_ne by done; by exists o].
    rewrite lookup_insert_eq. simplify_eq. by eexists.
  - intros x o [[<- <-]|[_ Ho]]%lookup_insert_Some; [by apply (Hobjs d od)|by apply Hobjs].
  - intros x o j c [[<- <-]|[_ Ho]]%lookup_insert_Some; cbn; [by apply (Hch d)|by apply (Hch x)].
  - intros x o j g [[<- <-]|[Hx Ho]]%lookup_insert_Some; cbn; unfold entries_of.
    + destruct (decide (i = j)) as [->|Hij].
      * rewrite !lookup_insert_eq. naive_solver.
      * rewrite !lookup_insert_ne by done. by apply (Hit d).
    + rewrite (Hit _ _ _ _ Ho). unfold entries_of. destruct (decide (i = j)) as [->|Hij].
      * rewrite lookup_insert_eq, Hi. split; [by intros []|]. intros [_ Hj]. exfalso. apply Hx.
        pose proof (Hobjs _ _ Ho) as H1. pose proof (Hobjs _ _ Hd) as H2.
        rewrite <- Hj, <- Hod, H2 in H1. by injection H1.
      * by rewrite lookup_insert_ne.
Qed.

(** *** The loop of [FileHandle::InitializeMeta] *)

Definition with_files (n : Z) (fs : gmap Z file) (h : file_handle) (ds : gmap Z directory)
    (w : world) : world :=
  set_w_next n (set_w_dirs ds (set_w_files fs (set_w_fh h w))).

Lemma file_scan_wp (w : world) (n0 : Z) (ds0 : gmap Z directory) :
  layout_ok sb -> files_image sb dr fr -> w_filemeta w = record_area fr (sb_max_file_num sb) ->
  w_next w = n0 -> w_dirs w = ds0 -> w_files w = ∅ -> w_fh w = MkFileHandle [] ∅ ∅ ∅ ∅ ->
  dirs_rel sb dr (fun i => i ∈ seqZ 0 (sb_max_file_num sb)) everybody no_entry n0 ds0 (w_dh w) ->
  wp (all_of file_init_one (seqZ 0 (sb_max_file_num sb))) (fun ok w' => ok = true /\
    exists n fs h ds, w' = with_files n fs h ds w /\
      files_rel (fun i => i ∈ seqZ 0 (sb_max_file_num sb)) no_entry n fs h /\
      dirs_rel sb dr (fun i => i ∈ seqZ 0 (sb_max_file_num sb)) everybody
        (entries_of (fh_created_fhs h)) n ds (w_dh w)) w.
Proof.
  intros Hlay Him Hm Hn Hd Hf Hh Hr0. apply (all_of_wp _ (fun l w' => exists n fs h ds,
    w' = with_files n fs h ds w /\ files_rel (fun i => i ∈ l) no_entry n fs h /\
    dirs_rel sb dr (fun i => i ∈ seqZ 0 (sb_max_file_num sb)) everybody
        (entries_of (fh_created_fhs h)) n ds (w_dh w))).
  2:{ exists n0, ∅, (MkFileHandle [] ∅ ∅ ∅ ∅), ds0. split_and!; [|apply files_rel_empty|].
      - destruct w. cbn in *. by subst.
      - destruct Hr0 as [? ? ? ? ? ? ? Hit]. constructor; try done. intros d o i f Ho.
        rewrite (Hit _ _ _ _ Ho). unfold entries_of. cbn. rewrite lookup_empty.
        unfold no_entry. naive_solver. }
  intros l1 i l2 w' Hl (n & fs & h & ds & -> & Hr & Hrd).
  destruct (seqZ_middle _ _ _ _ Hl) as [Hi Hil]. pose proof (lo_max_file _ Hlay) as Hmax.
  assert (Hmi : record_area fr (sb_max_file_num sb) !! i = Some (fr i)) by by apply record_area_some.
  unfold file_init_one. wp_step. eapply wp_get_filemeta; [by cbn; rewrite Hm|].
  rewrite (fi_crc _ _ _ Him), Z.eqb_refl by done. cbn [negb]. destruct (fm_used (fr i)) eqn:Hu.
  - assert (Hud : used_file sb fr i) by done. rewrite (fi_temp _ _ _ Him) by done.
    pose proof (fi_name _ _ _ Him _ Hud) as Hname. destruct (cstr (fm_file_name (fr i))) eqn:Hc; [done|].
    cbn [length Nat.eqb]. pose proof (fi_fh _ _ _ Him i Hi) as Hfh. rewrite Hfh, Z.eqb_refl. cbn [negb].
    destruct (fi_dir _ _ _ Him _ Hud) as [Hdr Hdu].
    destruct (dirs_rel_find sb dr _ _ _ _ _ _ Hrd (conj Hdr Hdu)) as (d & od & Hd1 & _ & Hd2 & Hd3).
    pose proof (files_rel_add l1 i n fs h Him Hud Hil Hr) as Hr'.
    assert (Hni : fh_created_fhs h !! i = None).
    { apply eq_None_not_Some. intros Hs. by apply (rf_dom _ _ _ _ _ Hr) in Hs as [_ ?]. }
    destruct (dirs_rel_entry n (n + 1) _ ds _ _ i n d od ltac:(lia) Hrd Hni Hd2 Hd3) as [Hrd' Hno].
    unfold fresh. repeat wp_step. apply wp_put_file. wp_step.
    pose proof (fi_child _ _ _ Him _ Hud) as Hch. destruct (Z.ltb_spec 0 (fm_child_fh (fr i))); [lia|].
    eapply wp_run; [apply (AddFileNoLock_run _ _ (MkFile i ∅ 0 false false) (fr i)); cbn; try done; try lia|].
    { by rewrite lookup_insert_eq. } { by rewrite Hm. }
    wp_step. eapply wp_run; [apply GetCreatedDirectory_dh_run; lia|].
    cbn [w_dh set_w_fh set_w_files set_w_dirs set_w_next with_files]. rewrite Hd1. wp_step.
    eapply wp_run; [apply (AddChildFile_run _ _ _ (MkFile i ∅ 0 false false) (fr i) od); cbn; try done; try lia|].
    { by rewrite lookup_insert_eq. } { by rewrite Hm. }
    wp_step. split; [done|]. do 4 eexists. split; [|split; [exact Hr'|exact Hrd']]. done.
  - unfold AddFile2FreeNolock. repeat wp_step. split; [done|].
    exists n, fs, (set_fh_free (fh_free h ++ [i]) h), ds.
    split_and!; [|by apply files_rel_skip|done]. cbn. rewrite swrap_small, wrap_small by lia. done.
Qed.
End RecoverFiles.
