(* ===== verification/RecoverBlocks.v ===== *)
(** * Mounting a device in use: file blocks

    What the loop of [FileBlockHandle::InitializeMeta] makes of the file blocks
    in use: their entries in files, the blocks taken from the pool, and the free
    file blocks. *)

From S2P Require Import Prelude Meta Device World SuperBlock Resources Paths FileBlock Inode.
From S2P Require Import Directory FileHandle File OpenFile FileHandleOps DirHandle FileSystem.
From S2P Require Import Io Invariant MetaSteps DirSteps Names Load RecoverDirs RecoverFiles.

Section RecoverBlocks.
Context `{Env}.
Context (sb : SuperBlockMeta).
Context (fr : Z -> FileMeta) (br : Z -> FileBlockMeta).

(** the file blocks of [l] belong to files, each to the cut 0 *)
Definition owns_of (l : list Z) (i k b : Z) : Prop :=
  k = 0 /\ b ∈ l /\ used_fb sb br b /\ fb_fh (br b) = i.

(** the free blocks and the free file blocks once the records of [l] were looked at *)
Record blocks_rel (l : list Z) (pool : gset Z) (free : list Z) : Prop := {
  rb_pool : forall x, x ∈ pool <-> 0 <= x < sb_curr_block_num sb /\
    (forall b, b ∈ l -> used_fb sb br b -> x ∉ fb_blocks (br b));
  rb_free : NoDup free /\ forall b, b ∈ free <->
    0 <= b < sb_max_file_block_num sb /\ b ∈ l /\ fb_used (br b) = false
}.

(** blocks that are free are all claimed *)
Lemma claim_blocks_from_wp (m : FileBlockMeta) (n : nat) : forall (i : nat) (w : world),
  fb_meta_ok m -> let ids := take n (drop i (fb_block_id m)) in
  (i + n <= length (fb_block_id m))%nat ->
  NoDup ids -> (forall x, x ∈ ids -> x ∈ bh_pool (w_bh w)) ->
  wp (claim_blocks n (Z.of_nat i) m) (fun ok w' => ok = true /\ exists pool,
    w' = set_w_bh (set_bh_pool pool (w_bh w)) w /\
    (forall x, x ∈ pool <-> x ∈ bh_pool (w_bh w) /\ x ∉ ids)) w.
Proof.
  induction n as [|n IH]; intros i w Hm ids Hlen Hnd Hin; cbn [claim_blocks].
  - wp_step. split; [done|]. exists (bh_pool (w_bh w)). split; [by destruct w as [? ? ? ? ? ? []]|].
    intros x. unfold ids. cbn [take]. rewrite elem_of_nil. naive_solver.
  - pose proof (bw_ids _ (proj1 Hm)) as Hcap. change (Z.to_nat kFileBlockCapacity) with 1000%nat in Hcap.
    destruct (lookup_lt_is_Some_2 (fb_block_id m) i) as [id Hid]; [lia|].
    revert Hnd Hin. unfold ids. rewrite (drop_S _ _ _ Hid). cbn [take]. intros Hnd Hin.
    unfold get_block_id. rewrite wrap_small by lia. rewrite Nat2Z.id. wp_step. wp_step. wp_step.
    { apply Z.ltb_lt. change kFileBlockCapacity with 1000. lia. }
    wp_step; [exact Hid|].
    apply NoDup_cons in Hnd as [Hi Hnd]. unfold Blocks.GetSpecificBlockId. do 3 wp_step.
    rewrite decide_True by (apply Hin; set_solver). do 3 wp_step. cbn [negb].
    replace (Z.of_nat i + 1) with (Z.of_nat (S i)) by lia.
    eapply wp_mono; [apply IH; [done|lia|done|]|].
    + intros x Hx. cbn. apply elem_of_difference. split; [apply Hin; set_solver|].
      intros ->%elem_of_singleton. done.
    + intros ok w' (-> & pool & -> & Hp). split; [done|]. exists pool. split; [done|].
      intros x. rewrite Hp. cbn. set_solver.
Qed.

Lemma claim_blocks_wp (m : FileBlockMeta) (w : world) :
  fb_meta_ok m -> NoDup (fb_blocks m) -> (forall x, x ∈ fb_blocks m -> x ∈ bh_pool (w_bh w)) ->
  wp (claim_blocks (Z.to_nat (fb_used_block_num m)) 0 m) (fun ok w' => ok = true /\ exists pool,
    w' = set_w_bh (set_bh_pool pool (w_bh w)) w /\
    (forall x, x ∈ pool <-> x ∈ bh_pool (w_bh w) /\ x ∉ fb_blocks m)) w.
Proof.
  intros Hm Hnd Hin. apply (claim_blocks_from_wp m _ 0 w Hm); [|done|done].
  rewrite (bw_ids _ (proj1 Hm)). destruct Hm as [_ Hm]. lia.
Qed.

Lemma blocks_rel_skip (l : list Z) (b : Z) (pool : gset Z) (free : list Z) :
  0 <= b < sb_max_file_block_num sb -> fb_used (br b) = false -> b ∉ l ->
  blocks_rel l pool free -> blocks_rel (l ++ [b]) pool (free ++ [b]).
Proof.
  intros Hb Hu Hl [Hp [Hnd Hf]]. constructor.
  - intros x. rewrite Hp. split; intros [Hx Ho]; (split; [done|]); intros c Hc Hcu.
    + apply elem_of_app in Hc as [?| ->%list_elem_of_singleton]; [by apply Ho|].
      destruct Hcu. congruence.
    + apply Ho; [|done]. set_solver.
  - split.
    + apply NoDup_app. split_and!; [done| |apply NoDup_singleton].
      intros c Hc ->%list_elem_of_singleton. apply Hf in Hc. naive_solver.
    + intros c. rewrite elem_of_app, Hf, elem_of_app, !list_elem_of_singleton. naive_solver.
Qed.

Lemma blocks_rel_claim (l : list Z) (b : Z) (pool pool' : gset Z) (free : list Z) :
  used_fb sb br b -> (forall x, x ∈ pool' <-> x ∈ pool /\ x ∉ fb_blocks (br b)) ->
  blocks_rel l pool free -> blocks_rel (l ++ [b]) pool' free.
Proof.
  intros Hb Hp' [Hp [Hnd Hf]]. constructor.
  - intros x. rewrite Hp', Hp. split.
    + intros [[Hx Ho] Hnb]. split; [done|]. intros c Hc Hcu.
      apply elem_of_app in Hc as [?| ->%list_elem_of_singleton]; [by apply Ho|done].
    + intros [Hx Ho]. split; [split; [done|]|].
      * intros c Hc. apply Ho. set_solver.
      * apply Ho; [set_solver|done].
  - split; [done|]. intros c. rewrite Hf, elem_of_app, list_elem_of_singleton.
    split; [naive_solver|]. intros (? & [?| ->] & Hu); [done|]. destruct Hb. congruence.
Qed.

(** a file gets its file block *)
Lemma files_rel_own (l : list Z) (n b f : Z) (o : file) (fs : gmap Z file) (h : file_handle) :
  blocks_image sb fr br -> used_fb sb br b -> b ∉ l ->
  files_rel sb fr (fun j => j ∈ seqZ 0 (sb_max_file_num sb)) (owns_of l) n fs h ->
  fs !! f = Some o -> fo_meta o = fb_fh (br b) ->
  (forall c, c ∈ l -> used_fb sb br c -> b <> c) ->
  fo_items o !! 0 = None /\
  files_rel sb fr (fun j => j ∈ seqZ 0 (sb_max_file_num sb)) (owns_of (l ++ [b])) n
    (<[f := set_fo_items (<[0 := b]> (fo_items o)) o]> fs) h.
Proof.
  intros Him Hb Hl [Hdom Hobj Hobjs Hnames Hfree Hopen Hpar Hit] Hf Ho Hne.
  assert (Hnone : forall k, fo_items o !! k = None).
  { intros k. apply eq_None_not_Some. intros [c Hc].
    apply (Hit _ _ _ _ Hf) in Hc as (_ & Hc & Hcu & Hcf).
    destruct (bi_apart _ _ _ Him b c Hb Hcu (Hne c Hc Hcu)) as [Hd _]. congruence. }
  split; [done|]. constructor; try done.
  - intros i g Hi. destruct (Hobj _ _ Hi) as (? & og & Hog & ? & ? & ?). split; [done|].
    destruct (decide (f = g)) as [->|]; [|rewrite lookup_insert_ne by done; by exists og].
    rewrite lookup_insert_eq. simplify_eq. by eexists.
  - intros g og [[<- <-]|[_ Hg]]%lookup_insert_Some; [by apply (Hobjs f o)|by apply Hobjs].
  - intros g og k c. unfold owns_of. rewrite elem_of_app, list_elem_of_singleton.
    intros [[<- <-]|[Hg Hog]]%lookup_insert_Some; cbn.
    + rewrite lookup_insert_Some, Ho. split.
      * intros [[<- <-]|[_ Hk]]; [by split_and!; auto|]. by rewrite Hnone in Hk.
      * intros (-> & [Hc| ->] & Hcu & Hcf); [|by left].
        destruct (bi_apart _ _ _ Him b c Hb Hcu (Hne c Hc Hcu)) as [Hd _]. congruence.
    + rewrite (Hit _ _ _ _ Hog). unfold owns_of. split; [naive_solver|].
      intros (-> & [Hc| ->] & Hcu & Hcf); [done|]. exfalso. apply Hg.
      pose proof (Hobjs _ _ Hog) as H1. pose proof (Hobjs _ _ Hf) as H2.
      rewrite <- Hcf, <- Ho, H2 in H1. by injection H1.
Qed.

(** *** The loop *)

Definition with_blocks (free : list Z) (pool : gset Z) (fs : gmap Z file) (w : world) : world :=
  set_w_free_fbhs free (set_w_bh (set_bh_pool pool (w_bh w)) (set_w_files fs w)).

Lemma fb_scan_wp (w : world) (n : Z) :
  layout_ok sb -> blocks_image sb fr br -> w_fbmeta w = record_area br (sb_max_file_block_num sb) ->
  w_free_fbhs w = [] ->
  (forall x, x ∈ bh_pool (w_bh w) <-> 0 <= x < sb_curr_block_num sb) ->
  files_rel sb fr (fun i => i ∈ seqZ 0 (sb_max_file_num sb)) no_entry n (w_files w) (w_fh w) ->
  wp (all_of fb_init_one (seqZ 0 (sb_max_file_block_num sb))) (fun ok w' => ok = true /\
    exists free pool fs, w' = with_blocks free pool fs w /\
      files_rel sb fr (fun i => i ∈ seqZ 0 (sb_max_file_num sb))
        (owns_of (seqZ 0 (sb_max_file_block_num sb))) n fs (w_fh w) /\
      blocks_rel (seqZ 0 (sb_max_file_block_num sb)) pool free) w.
Proof.
  intros Hlay Him Hm Hfree Hpool Hr0. apply (all_of_wp _ (fun l w' => exists free pool fs,
    w' = with_blocks free pool fs w /\
    files_rel sb fr (fun i => i ∈ seqZ 0 (sb_max_file_num sb)) (owns_of l) n fs (w_fh w) /\
    blocks_rel l pool free)).
  2:{ exists [], (bh_pool (w_bh w)), (w_files w). split_and!.
      - destruct w as [? ? ? ? ? ? []]. cbn in *. by subst.
      - destruct Hr0 as [? ? ? ? ? ? ? Hit]. constructor; try done. intros f o k b Ho.
        rewrite (Hit _ _ _ _ Ho). unfold no_entry, owns_of. rewrite elem_of_nil. naive_solver.
      - constructor; [|split; [constructor|]].
        + intros x. rewrite Hpool. split; [|by intros []]. intros Hx. split; [done|].
          by intros b Hb%elem_of_nil.
        + intros b. rewrite elem_of_nil. naive_solver. }
  intros l1 b l2 w' Hl (free & pool & fs & -> & Hr & Hrb).
  destruct (seqZ_middle _ _ _ _ Hl) as [Hb Hbl].
  assert (Hmb : record_area br (sb_max_file_block_num sb) !! b = Some (br b)) by by apply record_area_some.
  unfold fb_init_one. wp_step. eapply wp_get_fbmeta; [by cbn; rewrite Hm|].
  rewrite (bi_crc _ _ _ Him), Z.eqb_refl by done. cbn [negb]. destruct (fb_used (br b)) eqn:Hu.
  - assert (Hbu : used_fb sb br b) by done. rewrite (bi_temp _ _ _ Him) by done.
    pose proof (bi_file _ _ _ Him _ Hbu) as Hfu. pose proof (lo_max_file _ Hlay) as Hmax.
    assert (is_Some (fh_created_fhs (w_fh w) !! fb_fh (br b))) as [f Hf].
    { apply (rf_dom _ _ _ _ _ _ _ Hr). split; [done|]. apply elem_of_seqZ. destruct Hfu. lia. }
    destruct (rf_obj _ _ _ _ _ _ _ Hr _ _ Hf) as (_ & o & Ho & Hof & _).
    assert (Hne : forall c, c ∈ l1 -> used_fb sb br c -> b <> c) by (intros c ? _ <-; done).
    destruct (files_rel_own l1 n b f o fs _ Him Hbu Hbl Hr Ho Hof Hne) as [Hno Hr'].
    destruct (bi_blocks _ _ _ Him _ Hbu) as [Hnd Hrange].
    unfold GetCreatedFile_fh. repeat wp_step. cbn [w_fh with_blocks set_w_free_fbhs set_w_bh set_w_files].
    rewrite wrap_small by (destruct Hfu; lia). rewrite Hf. wp_step.
    eapply wp_mono; [apply claim_blocks_wp; [by apply (bi_ok _ _ _ Him)|done|]|].
    { intros x Hx. apply (rb_pool _ _ _ Hrb). split; [by apply Hrange|]. intros c Hc Hcu.
      by apply (bi_apart _ _ _ Him b c Hbu Hcu (Hne c Hc Hcu)). }
    intros ok w' (-> & pool' & -> & Hp'). cbn [negb]. unfold AddFileBlockNoLock. do 2 wp_step.
    eapply wp_get_fbmeta; [by cbn; rewrite Hm|]. wp_step. eapply wp_get_file; [done|].
    rewrite (bi_cut _ _ _ Him) by done. change (i32 0) with 0.
    rewrite decide_False by (rewrite Hno; by intros []). wp_step. apply wp_put_file. do 2 wp_step.
    split; [done|]. exists free, pool'. eexists. split; [|split; [exact Hr'|by eapply blocks_rel_claim]].
    done.
  - unfold PutFileBlockLock. repeat wp_step. split; [done|]. exists (free ++ [b]), pool, fs.
    split_and!; [done| |by apply blocks_rel_skip].
    destruct Hr as [? ? ? ? ? ? ? Hit]. constructor; try done. intros f o k c Ho.
    rewrite (Hit _ _ _ _ Ho). unfold owns_of. rewrite elem_of_app, list_elem_of_singleton.
    split; [naive_solver|]. intros (-> & [?| ->] & Hcu & ?); [done|]. destruct Hcu. congruence.
Qed.
End RecoverBlocks.
