(* ===== verification/Recover.v ===== *)
(** * Mounting a device in use

    [FileSystem::MountFileSystem] on a device whose records describe a file
    system: the loops of the handles one after the other, and that the process
    then has a consistent file system with the directories, the names and the
    contents of the records. *)

From S2P Require Import Prelude Meta Device World SuperBlock Resources Paths FileBlock Inode.
From S2P Require Import Directory FileHandle File OpenFile FileHandleOps DirHandle FileSystem.
From S2P Require Import Io Invariant MetaSteps Views DirSteps Names FileNames.
From S2P Require Import Load RecoverDirs RecoverFiles RecoverBlocks.

Section Recover.
Context `{Env}.
Context (sb : SuperBlockMeta).
Context (dr : Z -> DirMeta) (fr : Z -> FileMeta) (br : Z -> FileBlockMeta).

(** the process once the records are scanned, started from [w] *)
Record recovered (w w' : world) : Prop := {
  rc_super : w_super w' = sb;
  rc_dirmeta : w_dirmeta w' = record_area dr (sb_max_file_num sb);
  rc_filemeta : w_filemeta w' = record_area fr (sb_max_file_num sb);
  rc_fbmeta : w_fbmeta w' = record_area br (sb_max_file_block_num sb);
  rc_dev : w_dev w' = w_dev w;
  rc_now : w_now w' = w_now w;
  rc_rest : w_opens w' = w_opens w /\ w_streams w' = w_streams w /\ w_fdh w' = w_fdh w;
  rc_dirs : dirs_rel sb dr (fun i => i ∈ seqZ 0 (sb_max_file_num sb)) everybody
    (entries_of fr (fh_created_fhs (w_fh w'))) (w_next w') (w_dirs w') (w_dh w');
  rc_files : files_rel sb fr (fun i => i ∈ seqZ 0 (sb_max_file_num sb))
    (owns_of sb br (seqZ 0 (sb_max_file_block_num sb))) (w_next w') (w_files w') (w_fh w');
  rc_blocks : blocks_rel sb br (seqZ 0 (sb_max_file_block_num sb)) (bh_pool (w_bh w')) (w_free_fbhs w')
}.

(** *** One handle after the other *)

(** what a process that only loaded the records looks like to the handles *)
Record fresh_process (w : world) : Prop := {
  fp_super : w_super w = sb;
  fp_dirmeta : w_dirmeta w = record_area dr (sb_max_file_num sb);
  fp_filemeta : w_filemeta w = record_area fr (sb_max_file_num sb);
  fp_fbmeta : w_fbmeta w = record_area br (sb_max_file_block_num sb);
  fp_next : w_next w = 0;
  fp_dirs : w_dirs w = ∅;
  fp_dh : w_dh w = MkDirHandle [] ∅ ∅ ∅;
  fp_files : w_files w = ∅;
  fp_fh : w_fh w = MkFileHandle [] ∅ ∅ ∅ ∅;
  fp_free : w_free_fbhs w = []
}.

(** what the handles never change *)
Definition same_base (w w' : world) : Prop :=
  w_super w' = w_super w /\ w_dirmeta w' = w_dirmeta w /\ w_filemeta w' = w_filemeta w /\
  w_fbmeta w' = w_fbmeta w /\ w_dev w' = w_dev w /\ w_now w' = w_now w /\
  w_opens w' = w_opens w /\ w_streams w' = w_streams w /\ w_fdh w' = w_fdh w.

Lemma BlockHandle_scans (w : world) :
  layout_ok sb -> fresh_process w -> w_bh w = MkBlockHandle 0 ∅ ->
  wp Blocks.BlockHandle_InitializeMeta (fun ok w' => ok = true /\ same_base w w' /\
    fresh_process w' /\ (forall x, x ∈ bh_pool (w_bh w') <-> 0 <= x < sb_curr_block_num sb)) w.
Proof.
  intros [] [] Hp. unfold Blocks.BlockHandle_InitializeMeta. do 7 wp_step. split; [done|].
  split; [by split_and!|]. split; [by constructor|]. intros x. cbn.
  rewrite fp_super0, wrap_small, Hp, Blocks.add_ids_elem by lia. cbn.
  split; [intros [[]%elem_of_empty|?]; lia|by right].
Qed.

Lemma DirHandle_scans (w : world) :
  dirs_image sb dr -> fresh_process w ->
  wp DirHandle_InitializeMeta (fun ok w' => ok = true /\ same_base w w' /\
    w_bh w' = w_bh w /\ w_files w' = ∅ /\ w_fh w' = MkFileHandle [] ∅ ∅ ∅ ∅ /\ w_free_fbhs w' = [] /\
    dirs_rel sb dr (fun i => i ∈ seqZ 0 (sb_max_file_num sb)) everybody no_entry
      (w_next w') (w_dirs w') (w_dh w')) w.
Proof.
  intros Hdi []. unfold DirHandle_InitializeMeta. do 2 wp_step. rewrite fp_super0. wp_step.
  eapply wp_mono; [by apply (dir_scan_wp sb dr)|]. intros ok w1 (-> & n & ds & h & -> & Hr).
  cbn [negb]. do 2 wp_step. eapply wp_mono; [by apply (dir_links_wp sb dr w n ds h Hdi)|].
  intros ok w2 (-> & e & ds2 & -> & Hr2). split; [done|]. by split_and!.
Qed.

Lemma FileHandle_scans (w : world) :
  layout_ok sb -> files_image sb dr fr -> w_super w = sb ->
  w_filemeta w = record_area fr (sb_max_file_num sb) ->
  w_files w = ∅ -> w_fh w = MkFileHandle [] ∅ ∅ ∅ ∅ ->
  dirs_rel sb dr (fun i => i ∈ seqZ 0 (sb_max_file_num sb)) everybody no_entry
    (w_next w) (w_dirs w) (w_dh w) ->
  wp FileHandle_InitializeMeta (fun ok w' => ok = true /\ same_base w w' /\
    w_bh w' = w_bh w /\ w_free_fbhs w' = w_free_fbhs w /\
    files_rel sb fr (fun i => i ∈ seqZ 0 (sb_max_file_num sb)) no_entry
      (w_next w') (w_files w') (w_fh w') /\
    dirs_rel sb dr (fun i => i ∈ seqZ 0 (sb_max_file_num sb)) everybody
      (entries_of fr (fh_created_fhs (w_fh w'))) (w_next w') (w_dirs w') (w_dh w')) w.
Proof.
  intros Hl Hfi Hs Hm Hf Hh Hr. unfold FileHandle_InitializeMeta. do 2 wp_step. rewrite Hs.
  eapply wp_mono; [by apply (file_scan_wp sb dr fr w (w_next w) (w_dirs w) Hl Hfi)|].
  intros ok w3 (-> & n3 & fs3 & h3 & ds3 & -> & Hf3 & Hr3). split; [done|]. by split_and!.
Qed.

Lemma FileBlockHandle_scans (w : world) :
  layout_ok sb -> blocks_image sb fr br -> w_super w = sb ->
  w_fbmeta w = record_area br (sb_max_file_block_num sb) -> w_free_fbhs w = [] ->
  (forall x, x ∈ bh_pool (w_bh w) <-> 0 <= x < sb_curr_block_num sb) ->
  files_rel sb fr (fun i => i ∈ seqZ 0 (sb_max_file_num sb)) no_entry (w_next w) (w_files w) (w_fh w) ->
  wp FileBlockHandle_InitializeMeta (fun ok w' => ok = true /\ same_base w w' /\
    w_next w' = w_next w /\ w_dirs w' = w_dirs w /\ w_dh w' = w_dh w /\ w_fh w' = w_fh w /\
    files_rel sb fr (fun i => i ∈ seqZ 0 (sb_max_file_num sb))
      (owns_of sb br (seqZ 0 (sb_max_file_block_num sb))) (w_next w') (w_files w') (w_fh w') /\
    blocks_rel sb br (seqZ 0 (sb_max_file_block_num sb)) (bh_pool (w_bh w')) (w_free_fbhs w')) w.
Proof.
  intros Hl Hbi Hs Hm Hf Hp Hr. unfold FileBlockHandle_InitializeMeta. do 2 wp_step. rewrite Hs.
  eapply wp_mono; [by apply (fb_scan_wp sb fr br w (w_next w) Hl Hbi)|].
  intros ok w4 (-> & free & pool & fs4 & -> & Hf4 & Hb4). split; [done|]. by split_and!.
Qed.

Lemma InitializeMeta_recovers (w : world) :
  image_ok sb dr fr br -> fresh_process w -> w_bh w = MkBlockHandle 0 ∅ ->
  wp FileSystem_InitializeMeta (fun ok w' => ok = true /\ recovered w w') w.
Proof.
  intros [[Hl Hwf Hv] Hdi Hfi Hbi] Hfp Hp. unfold FileSystem_InitializeMeta.
  apply run_all_wp. unfold SuperBlock_InitializeMeta. do 3 wp_step. rewrite (fp_super _ Hfp). split; [done|].
  apply run_all_wp. eapply wp_mono; [by apply BlockHandle_scans|].
  intros ok w1 (-> & S1 & Hfp1 & Hp1). split; [done|].
  apply run_all_wp. eapply wp_mono; [by apply DirHandle_scans|].
  intros ok w2 (-> & S2 & Hbh2 & Hf2 & Hh2 & Hb2 & Hr2). split; [done|].
  destruct Hfp1. destruct S1 as (A1&A2&A3&A4&A5&A6&A7&A8&A9), S2 as (B1&B2&B3&B4&B5&B6&B7&B8&B9).
  apply run_all_wp. eapply wp_mono; [apply FileHandle_scans; try done; congruence|].
  intros ok w3 (-> & S3 & Hbh3 & Hb3 & Hf3 & Hr3). split; [done|].
  destruct S3 as (C1&C2&C3&C4&C5&C6&C7&C8&C9).
  apply run_all_wp. eapply wp_mono; [apply FileBlockHandle_scans; try done; try congruence|].
  { intros x. by rewrite Hbh3, Hbh2. }
  intros ok w4 (-> & S4 & Hn4 & Hd4 & Hdh4 & Hfh4 & Hf4 & Hb4). split; [done|].
  destruct S4 as (D1&D2&D3&D4&D5&D6&D7&D8&D9). cbn [run_all]. wp_step. split; [done|].
  constructor; [congruence..|split_and!; congruence| |done|done].
  by rewrite Hn4, Hd4, Hdh4, Hfh4.
Qed.
End Recover.
