(* ===== verification/RecoverInv.v ===== *)
(** * A mounted device in use is consistent

    The directories, the files and the blocks that a mount finds satisfy the
    invariants of the mounted file system, and the contents of the files are
    those that the records describe. *)

From S2P Require Import Prelude Meta Device World SuperBlock Resources Paths FileBlock Inode.
From S2P Require Import Directory FileHandle FileHandleOps Io Invariant MetaSteps Views.
From S2P Require Import DirSteps Names FileNames Load RecoverDirs RecoverFiles RecoverBlocks Recover.

Section RecoverInv.
Context `{Env}.
Context (sb : SuperBlockMeta).
Context (dr : Z -> DirMeta) (fr : Z -> FileMeta) (br : Z -> FileBlockMeta).
Context (Him : image_ok sb dr fr br) (w w' : world) (Hrc : recovered sb dr fr br w w').

Lemma in_range (n i : Z) : 0 <= i < n <-> i ∈ seqZ 0 n.
Proof. rewrite elem_of_seqZ. lia. Qed.

(** ** Directories *)

Lemma recovered_dir (p : bytes) (d : Z) :
  dh_created_dirs (w_dh w') !! p = Some d -> exists i o, used_dir sb dr i /\
    dh_created_dhs (w_dh w') !! i = Some d /\ meta_dir_name (dr i) = p /\
    w_dirs w' !! d = Some o /\ do_meta o = i.
Proof using Hrc. apply (dirs_rel_index sb dr _ _ _ _ _ _ _ (rc_dirs _ _ _ _ _ _ Hrc)). Qed.

Lemma recovered_dir_paths (p : bytes) :
  is_Some (dh_created_dirs (w_dh w') !! p) <-> exists i, used_dir sb dr i /\ meta_dir_name (dr i) = p.
Proof using Hrc.
  split.
  - intros [d (i & o & ? & _ & ? & _)%recovered_dir]. by exists i.
  - intros (i & Hi & <-). destruct (dirs_rel_find sb dr _ _ _ _ _ _ (rc_dirs _ _ _ _ _ _ Hrc) Hi)
      as (d & o & _ & ? & _). by eexists.
Qed.

Lemma recovered_tree : dir_tree w'.
Proof using Him Hrc.
  destruct Him as [_ Hdi Hfi _]. pose proof (rc_dirs _ _ _ _ _ _ Hrc) as Hr.
  pose proof Hr as [Hdom Hobj Hobjs Hnames [Hnd Hfree] _ Hch Hit].
  pose proof (rc_dirmeta _ _ _ _ _ _ Hrc) as Hm. pose proof (rc_super _ _ _ _ _ _ Hrc) as Hs.
  constructor.
  - constructor; rewrite Hm, ?Hs.
    + intros i. apply record_area_dom.
    + intros i m [Hi ->]%record_area_lookup. by apply (di_wf _ _ Hdi).
  - split; [done|]. intros i (Hi & _ & Hu)%Hfree. exists (dr i). rewrite Hm, record_area_some by done.
    split_and!; try done. by apply (di_dh _ _ Hdi).
  - intros p d Hp. destruct (recovered_dir _ _ Hp) as (i & o & Hi & Hd & <- & Ho & <-).
    exists o, (dr (do_meta o)). rewrite Hm, record_area_some by apply Hi.
    split_and!; try done; [by apply (di_dh _ _ Hdi), Hi|apply Hi|].
    intros (_ & _ & Hu)%Hfree. destruct Hi. congruence.
  - intros i d Hd. destruct (Hobj _ _ Hd) as (_ & o & Ho & <- & _). exists (meta_dir_name (dr (do_meta o))), o.
    split_and!; try done. apply Hnames. eauto.
  - intros d [o Ho]. by apply Hobjs, Hobj in Ho as [? _].
  - intros p d o Hp Ho Hne. destruct (recovered_dir _ _ Hp) as (i & o' & Hi & Hd & <- & Ho' & <-).
    clear Hs. simplify_eq.
    destruct (di_parent _ _ Hdi _ Hi Hne) as (j & Hj & Hjn).
    destruct (dirs_rel_find sb dr _ _ _ _ _ _ Hr Hj) as (q & oq & Hjq & Hqn & Hoq & _).
    exists q, oq. rewrite <- Hjn. split_and!; try done. apply (Hch _ _ _ _ Hoq).
    split_and!; try done. by rewrite <- Hjn.
  - intros q oq i c _ Hoq (_ & Hc & Hne & Hp)%(Hch _ _ _ _ Hoq).
    destruct (Hobj _ _ Hc) as (_ & o & Ho & Hm1 & _). exists (meta_dir_name (dr i)), o.
    split_and!; try done. apply Hnames. eauto.
  - intros d o i Ho [f [Hf _]%(Hit _ _ _ _ Ho)]. rewrite Hs.
    destruct (proj1 (rf_dom _ _ _ _ _ _ _ (rc_files _ _ _ _ _ _ Hrc) i)) as [[? _] _]; [by eexists|done].
Qed.

(** ** Files *)

Lemma recovered_file (dh : Z) (name : bytes) (f : Z) :
  fh_created_files (w_fh w') !! (dh, name) = Some f -> exists i o, used_file sb fr i /\
    fh_created_fhs (w_fh w') !! i = Some f /\ fm_dh (fr i) = dh /\ meta_file_name (fr i) = name /\
    w_files w' !! f = Some o /\ fo_meta o = i.
Proof using Hrc.
  pose proof (rc_files _ _ _ _ _ _ Hrc) as [Hdom Hobj _ Hnames _ _ _ _].
  intros (i & Hi & Hd & Hn)%Hnames. destruct (Hobj _ _ Hi) as (_ & o & Ho & Hm & _).
  exists i, o. split_and!; try done; apply Hdom; by eexists.
Qed.

Lemma recovered_file_find (i : Z) :
  used_file sb fr i -> exists f o, fh_created_fhs (w_fh w') !! i = Some f /\
    fh_created_files (w_fh w') !! (fm_dh (fr i), meta_file_name (fr i)) = Some f /\
    w_files w' !! f = Some o /\ fo_meta o = i.
Proof using Hrc.
  pose proof (rc_files _ _ _ _ _ _ Hrc) as [Hdom Hobj _ Hnames _ _ _ _]. intros Hi.
  assert (is_Some (fh_created_fhs (w_fh w') !! i)) as [f Hf].
  { apply Hdom. split; [done|]. apply in_range, Hi. }
  destruct (Hobj _ _ Hf) as (_ & o & Ho & Hm & _). exists f, o. split_and!; try done.
  apply Hnames. eauto.
Qed.

Lemma recovered_file_tree : file_tree w'.
Proof using Him Hrc.
  destruct Him as [_ _ Hfi _]. pose proof (rc_dirs _ _ _ _ _ _ Hrc) as Hrd.
  pose proof (rc_files _ _ _ _ _ _ Hrc) as [Hdom Hobj Hobjs Hnames _ _ _ _]. constructor.
  - intros dh name f Hk. destruct (recovered_file _ _ _ Hk) as (i & o & Hi & Hf & <- & <- & Ho & <-).
    destruct (dirs_rel_find sb dr _ _ _ _ _ _ Hrd (fi_dir _ _ _ Hfi _ Hi)) as (d & od & Hd & _ & Hod & Hdm).
    exists o, (fr (fo_meta o)), d, od. rewrite (rc_filemeta _ _ _ _ _ _ Hrc), record_area_some by apply Hi.
    split_and!; try done; [apply Hi|]. by apply (rd_items _ _ _ _ _ _ _ _ Hrd _ _ _ _ Hod).
  - intros i f Hf. destruct (Hobj _ _ Hf) as (_ & o & Ho & <- & _).
    exists (fm_dh (fr (fo_meta o)), meta_file_name (fr (fo_meta o))), o. split_and!; try done.
    apply Hnames. eauto.
  - intros d od i f _ Hod [Hf Hd]%(rd_items _ _ _ _ _ _ _ _ Hrd _ _ _ _ Hod).
    destruct (Hobj _ _ Hf) as (_ & o & Ho & Hm & _). exists o, (meta_file_name (fr i)).
    split_and!; try done. apply Hnames. eauto.
  - intros f [o Ho]. by apply Hobjs, Hobj in Ho as [? _].
Qed.

(** ** Blocks *)

Lemma recovered_owns (f : Z) (o : file) (k b : Z) :
  w_files w' !! f = Some o ->
  fo_items o !! k = Some b <-> k = 0 /\ used_fb sb br b /\ fb_fh (br b) = fo_meta o.
Proof using Hrc.
  intros Ho. rewrite (rf_items _ _ _ _ _ _ _ (rc_files _ _ _ _ _ _ Hrc) _ _ _ _ Ho).
  unfold owns_of. split; [naive_solver|]. intros (-> & Hb & Hf). split_and!; try done.
  apply in_range, Hb.
Qed.

(** a file has its file block, or no block at all *)
Lemma recovered_items (f : Z) (o : file) :
  w_files w' !! f = Some o -> used_file sb fr (fo_meta o) /\
  ((fo_items o = ∅ /\ fm_size (fr (fo_meta o)) = 0) \/
   exists b, fo_items o = {[0 := b]} /\ used_fb sb br b /\ fb_fh (br b) = fo_meta o).
Proof using Him Hrc.
  destruct Him as [_ _ _ Hbi]. intros Ho.
  assert (Hu : used_file sb fr (fo_meta o)).
  { apply (rf_dom _ _ _ _ _ _ _ (rc_files _ _ _ _ _ _ Hrc)).
    eexists. by apply (rf_objs _ _ _ _ _ _ _ (rc_files _ _ _ _ _ _ Hrc)). }
  split; [done|]. destruct (decide (fm_size (fr (fo_meta o)) = 0)) as [Hz|Hnz].
  - left. split; [|done]. apply map_empty. intros k. apply eq_None_not_Some.
    intros [b (_ & Hb & Hf)%(recovered_owns f o k b Ho)].
    pose proof (bi_size _ _ _ Hbi b Hb). rewrite Hf in *. lia.
  - right. destruct (bi_covers _ _ _ Hbi _ Hu Hnz) as (b & Hb & Hf). exists b. split_and!; try done.
    apply map_eq. intros k. apply option_eq. intros c. rewrite (recovered_owns f o k c Ho), lookup_singleton_Some.
    split; [|by intros [<- <-]]. intros (-> & Hc & Hcf). split; [done|].
    destruct (decide (b = c)) as [|Hne]; [done|].
    destruct (bi_apart _ _ _ Hbi b c Hb Hc Hne) as [Hd _]. congruence.
Qed.

Lemma recovered_fb (b : Z) :
  used_fb sb br b -> v_fb (view_of w') !! b = Some (view_fb (br b)).
Proof using Hrc.
  intros Hb. cbn. rewrite lookup_fmap, (rc_fbmeta _ _ _ _ _ _ Hrc), record_area_some; [done|apply Hb].
Qed.

Lemma recovered_file_ok (f : Z) (o : fo_view) :
  v_files (view_of w') !! f = Some o -> file_ok sb (view_of w') o.
Proof using Him Hrc.
  cbn. rewrite lookup_fmap. intros (o0 & Ho & ->)%fmap_Some_1.
  destruct (recovered_items f o0 Ho) as [Hu Hit]. destruct Him as [_ _ Hfi Hbi].
  pose proof (rc_files _ _ _ _ _ _ Hrc) as [_ _ _ _ [_ Hfree] _ Hpar _].
  pose proof (rc_blocks _ _ _ _ _ _ Hrc) as [Hpool [_ Hfb]].
  split_and!; cbn.
  - rewrite Hpar. set_solver.
  - intros (_ & _ & Hx)%Hfree. destruct Hu. congruence.
  - exists (view_fm (fr (fo_meta o0))). rewrite lookup_fmap, (rc_filemeta _ _ _ _ _ _ Hrc), record_area_some by apply Hu.
    split; [done|]. split; [by apply (fi_fh _ _ _ Hfi), Hu|].
    destruct Hit as [[Hi Hz]|(b & Hi & Hb & Hbf)]; [by left|right].
    exists b, (view_fb (br b)). split; [done|]. split; [by apply recovered_fb|].
    split; [apply Hb|]. split; [by apply (bi_cut _ _ _ Hbi)|].
    split; [rewrite <- Hbf; by apply (bi_size _ _ _ Hbi)|]. split.
    + intros (_ & _ & Hx)%Hfb. destruct Hb. congruence.
    + destruct (bi_blocks _ _ _ Hbi b Hb) as [Hnd Hr]. split; [done|]. intros x Hx. split; [by apply Hr|].
      intros [_ Hno]%Hpool. apply (Hno b); [apply in_range, Hb|done|done].
Qed.

Lemma recovered_apart (f1 f2 : Z) (o1 o2 : fo_view) :
  v_files (view_of w') !! f1 = Some o1 -> v_files (view_of w') !! f2 = Some o2 -> f1 <> f2 ->
  apart (view_of w') o1 o2.
Proof using Him Hrc.
  cbn. rewrite !lookup_fmap. intros (p1 & H1 & ->)%fmap_Some_1 (p2 & H2 & ->)%fmap_Some_1 Hne.
  assert (Hm : fo_meta p1 <> fo_meta p2).
  { intros Heq. pose proof (rf_objs _ _ _ _ _ _ _ (rc_files _ _ _ _ _ _ Hrc) _ _ H1) as E1.
    pose proof (rf_objs _ _ _ _ _ _ _ (rc_files _ _ _ _ _ _ Hrc) _ _ H2) as E2. congruence. }
  split; [done|]. cbn. intros b1 b2 v1 v2 (_ & Hb1 & Hf1)%(recovered_owns f1 p1 0 b1 H1)
    (_ & Hb2 & Hf2)%(recovered_owns f2 p2 0 b2 H2) Hv1 Hv2.
  assert (b1 <> b2) by congruence. split; [done|].
  pose proof (recovered_fb b1 Hb1) as E1. pose proof (recovered_fb b2 Hb2) as E2. cbn in E1, E2.
  rewrite E1 in Hv1. rewrite E2 in Hv2. injection Hv1 as <-. injection Hv2 as <-.
  destruct Him as [_ _ _ Hbi]. by apply (bi_apart _ _ _ Hbi).
Qed.

Lemma recovered_inv :
  dev_size (w_dev w) = sb_device_size sb -> in_i 64 (w_now w) -> fs_inv w'.
Proof using Him Hrc.
  intros Hd Hn. pose proof Him as [[Hl _ _] _ Hfi Hbi].
  pose proof (rc_super _ _ _ _ _ _ Hrc) as Hs. constructor; rewrite ?Hs.
  - done.
  - by rewrite (rc_dev _ _ _ _ _ _ Hrc).
  - split.
    + rewrite (rc_fbmeta _ _ _ _ _ _ Hrc). intros i m [Hi ->]%record_area_lookup. by apply (bi_ok _ _ _ Hbi).
    + rewrite (rc_filemeta _ _ _ _ _ _ Hrc). intros i m [Hi ->]%record_area_lookup. by apply (fi_rec_wf _ _ _ Hfi).
  - intros i d Hi. destruct (rd_obj _ _ _ _ _ _ _ _ (rc_dirs _ _ _ _ _ _ Hrc) _ _ Hi) as (_ & o & Ho & _).
    by eexists.
  - by rewrite (rc_now _ _ _ _ _ _ Hrc).
  - pose proof (rc_files _ _ _ _ _ _ Hrc) as [_ _ _ _ [Hnd Hfree] _ Hpar _].
    pose proof (rc_blocks _ _ _ _ _ _ Hrc) as [Hpool [Hndb Hfb]]. constructor.
    + intros i. cbn. rewrite lookup_fmap, fmap_is_Some, (rc_fbmeta _ _ _ _ _ _ Hrc). apply record_area_dom.
    + intros i. cbn. rewrite lookup_fmap, fmap_is_Some, (rc_filemeta _ _ _ _ _ _ Hrc). apply record_area_dom.
    + split; [done|]. intros b (Hb & _ & Hu)%Hfb. exists (view_fb (br b)). cbn.
      rewrite lookup_fmap, (rc_fbmeta _ _ _ _ _ _ Hrc), record_area_some by done.
      split_and!; try done. by apply (bi_unused _ _ _ Hbi).
    + split; [done|]. intros i (Hi & _ & Hu)%Hfree. cbn. split; [rewrite Hpar; set_solver|].
      rewrite lookup_fmap, (rc_filemeta _ _ _ _ _ _ Hrc), record_area_some by done. cbn. unfold view_fm.
      by rewrite (fi_fh _ _ _ Hfi), Hu, (fi_unused _ _ _ Hfi).
    + intros x Hx. by apply Hpool in Hx as [? _].
    + intros f o. apply recovered_file_ok.
    + intros f1 f2 o1 o2. apply recovered_apart.
Qed.

(** ** Contents *)

Lemma recovered_content (i f : Z) :
  fh_created_fhs (w_fh w') !! i = Some f ->
  (fm_size (fr i) = 0 /\ file_content w' f = []) \/
  exists b, used_fb sb br b /\ fb_fh (br b) = i /\
    file_content w' f = content_of sb (w_store w) (fb_blocks (br b)) (fm_size (fr i)).
Proof using Him Hrc.
  intros Hi. destruct (rf_obj _ _ _ _ _ _ _ (rc_files _ _ _ _ _ _ Hrc) _ _ Hi) as (_ & o & Ho & <- & _).
  destruct (recovered_items f o Ho) as [Hu Hit].
  assert (Hsz : file_size (view_of w') f = fm_size (fr (fo_meta o))).
  { unfold file_size. cbn. rewrite lookup_fmap, Ho. cbn.
    by rewrite lookup_fmap, (rc_filemeta _ _ _ _ _ _ Hrc), record_area_some by apply Hu. }
  destruct Hit as [[Hn Hz]|(b & Hn & Hb & Hbf)].
  - left. split; [done|]. unfold file_content. by rewrite Hsz, Hz.
  - right. exists b. split_and!; try done. unfold file_content. rewrite Hsz.
    assert (Hbl : file_blocks (view_of w') f = fb_blocks (br b)).
    { unfold file_blocks, file_fb. cbn. rewrite lookup_fmap, Ho. cbn. rewrite Hn, lookup_singleton_eq. cbn.
      by rewrite lookup_fmap, (rc_fbmeta _ _ _ _ _ _ Hrc), record_area_some by apply Hb. }
    unfold w_store. by rewrite Hbl, (rc_super _ _ _ _ _ _ Hrc), (rc_dev _ _ _ _ _ _ Hrc).
Qed.
End RecoverInv.
