(* ===== verification/AtRest.v ===== *)
(** * A file system at rest

    A mounted file system whose metadata records are all on the device
    ([at_rest]): its records describe a file system in the sense of a mount. *)

From S2P Require Import Prelude Meta Device World SuperBlock Resources Paths FileBlock Inode.
From S2P Require Import Directory FileHandle FileHandleOps DirHandle Io Invariant MetaSteps Views.
From S2P Require Import DirSteps Names FileNames OpenFiles Session Load RecoverDirs.

Section AtRest.
Context `{Env}.

(** the records in memory *)
Definition dir_rec (w : world) (i : Z) : DirMeta := default (format_dir_record i) (w_dirmeta w !! i).
Definition file_rec (w : world) (i : Z) : FileMeta := default (format_file_record i) (w_filemeta w !! i).
Definition fb_rec (w : world) (i : Z) : FileBlockMeta := default (format_fb_record i) (w_fbmeta w !! i).

Record at_rest (w : world) : Prop := {
  ar_super : super_ok (w_super w);
  ar_inv : fs_inv w;
  ar_tree : dir_tree w;
  ar_file_tree : file_tree w;
  ar_device : on_device (w_super w) (dir_rec w) (file_rec w) (fb_rec w) (w_store w);
  ar_root : is_Some (dh_created_dirs (w_dh w) !! [slash]);
  (** records carry their index and their checksum *)
  ar_dir_rec : map_Forall (fun i m => dm_crc m = dir_crc_of m /\ dm_dh m = i) (w_dirmeta w);
  ar_file_rec : map_Forall (fun i m => fm_crc m = file_crc_of m /\ fm_fh m = i) (w_filemeta w);
  ar_fb_rec : map_Forall (fun i m => fb_crc m = fb_crc_of m) (w_fbmeta w);
  (** a directory record in use is a directory with a usable path *)
  ar_dirs : map_Forall (fun i m => dm_used m = true ->
    is_Some (dh_created_dhs (w_dh w) !! i) /\ cstr (dm_dir_name m) <> [] /\
    dir_key (meta_dir_name m) = Some (meta_dir_name m)) (w_dirmeta w);
  (** a file record in use is a file with a name, neither temporary nor split *)
  ar_files : map_Forall (fun i m =>
    if fm_used m then is_Some (fh_created_fhs (w_fh w) !! i) /\ cstr (fm_file_name m) <> [] /\
      fm_is_temp m = false /\ fm_child_fh m <= 0
    else fm_size m = 0) (w_filemeta w);
  (** a file block in use belongs to a file *)
  ar_fbs : map_Forall (fun b m =>
    if fb_used m then fb_is_temp m = false /\ exists f o, w_files w !! f = Some o /\
      fo_items o !! 0 = Some b /\ fb_fh m = fo_meta o /\ fh_created_fhs (w_fh w) !! fo_meta o = Some f
    else fb_blocks m = []) (w_fbmeta w)
}.

Section Image.
Context (w : world) (Hr : at_rest w).

Lemma dir_rec_some (i : Z) : 0 <= i < sb_max_file_num (w_super w) -> w_dirmeta w !! i = Some (dir_rec w i).
Proof using Hr.
  intros Hi. apply (dmo_dom _ (dt_meta _ (ar_tree _ Hr))) in Hi as [m Hm]. unfold dir_rec. by rewrite Hm.
Qed.

Lemma file_rec_some (i : Z) : 0 <= i < sb_max_file_num (w_super w) -> w_filemeta w !! i = Some (file_rec w i).
Proof using Hr.
  intros Hi. apply (fb_fm_dom _ (fs_inv_base _ (ar_inv _ Hr))) in Hi as [m Hm]. unfold file_rec. by rewrite Hm.
Qed.

Lemma fb_rec_some (b : Z) : 0 <= b < sb_max_file_block_num (w_super w) -> w_fbmeta w !! b = Some (fb_rec w b).
Proof using Hr.
  intros Hi. apply (fb_fb_dom _ (fs_inv_base _ (ar_inv _ Hr))) in Hi as [m Hm]. unfold fb_rec. by rewrite Hm.
Qed.

(** a directory record in use, with its object and its path *)
Lemma rest_dir (i : Z) :
  used_dir (w_super w) (dir_rec w) i -> exists d o, dh_created_dhs (w_dh w) !! i = Some d /\
    dh_created_dirs (w_dh w) !! meta_dir_name (dir_rec w i) = Some d /\
    w_dirs w !! d = Some o /\ do_meta o = i.
Proof using Hr.
  intros [Hi Hu]. destruct (ar_dirs _ Hr _ _ (dir_rec_some i Hi) Hu) as ([d Hd] & _).
  destruct (dt_dhs _ (ar_tree _ Hr) _ _ Hd) as (p & o & Hp & Ho & Hm).
  destruct (dt_created _ (ar_tree _ Hr) _ _ Hp) as (o' & m & Ho' & Hm' & _ & Hn & _).
  exists d, o. assert (o' = o) as -> by congruence. rewrite Hm, dir_rec_some in Hm' by done.
  injection Hm' as <-. split_and!; try done. by rewrite Hn.
Qed.

Lemma rest_dir_at (p : bytes) (d : Z) :
  dh_created_dirs (w_dh w) !! p = Some d -> exists i o, used_dir (w_super w) (dir_rec w) i /\
    meta_dir_name (dir_rec w i) = p /\ w_dirs w !! d = Some o /\ do_meta o = i.
Proof using Hr.
  intros Hp. destruct (dt_created _ (ar_tree _ Hr) _ _ Hp) as (o & m & Ho & Hm & _ & Hn & Hu & _).
  assert (Hi : 0 <= do_meta o < sb_max_file_num (w_super w)).
  { apply (dmo_dom _ (dt_meta _ (ar_tree _ Hr))). by eexists. }
  pose proof (dir_rec_some _ Hi) as E. rewrite Hm in E. injection E as ->.
  exists (do_meta o), o. by split_and!.
Qed.

Lemma rest_dirs_image : dirs_image (w_super w) (dir_rec w).
Proof using Hr.
  constructor.
  - intros i Hi. apply (dmo_wf _ (dt_meta _ (ar_tree _ Hr)) i). by apply dir_rec_some.
  - intros i Hi. by apply (ar_dir_rec _ Hr i), dir_rec_some.
  - intros i Hi. by apply (ar_dir_rec _ Hr i), dir_rec_some.
  - intros i [Hi Hu]. by destruct (ar_dirs _ Hr _ _ (dir_rec_some i Hi) Hu) as (_ & ? & _).
  - intros i [Hi Hu]. by destruct (ar_dirs _ Hr _ _ (dir_rec_some i Hi) Hu) as (_ & _ & ?).
  - intros i j Hi Hj Hn. destruct (rest_dir i Hi) as (d & o & _ & Hd & Ho & <-).
    destruct (rest_dir j Hj) as (d' & o' & _ & Hd' & Ho' & <-). rewrite Hn in Hd. congruence.
  - intros i Hi Hne. destruct (rest_dir i Hi) as (d & o & _ & Hd & Ho & _).
    destruct (dt_parent _ (ar_tree _ Hr) _ _ _ Hd Ho Hne) as (q & _ & Hq & _).
    destruct (rest_dir_at _ _ Hq) as (j & _ & Hj & Hjn & _). by exists j.
  - destruct (ar_root _ Hr) as [d Hd]. destruct (rest_dir_at _ _ Hd) as (i & _ & Hi & Hn & _). by exists i.
Qed.

(** a file record in use, with its object and its name *)
Lemma rest_file (i : Z) :
  used_file (w_super w) (file_rec w) i -> exists f o, fh_created_fhs (w_fh w) !! i = Some f /\
    fh_created_files (w_fh w) !! (fm_dh (file_rec w i), meta_file_name (file_rec w i)) = Some f /\
    w_files w !! f = Some o /\ fo_meta o = i /\ used_dir (w_super w) (dir_rec w) (fm_dh (file_rec w i)).
Proof using Hr.
  intros [Hi Hu]. pose proof (ar_files _ Hr _ _ (file_rec_some i Hi)) as Hf. cbv beta in Hf. rewrite Hu in Hf.
  destruct Hf as ([f Hf] & _). destruct (ft_fhs _ (ar_file_tree _ Hr) _ _ Hf) as ([dh nm] & o & Hk & Ho & Hm).
  destruct (ft_created _ (ar_file_tree _ Hr) _ _ _ Hk) as (o' & m & d & od & Ho' & Hm' & Hdh & Hn & _ & _ & Hd & Hod & _).
  assert (o' = o) as -> by congruence. rewrite Hm, file_rec_some in Hm' by done. injection Hm' as <-.
  exists f, o. rewrite Hdh, Hn. split_and!; try done.
  destruct (dt_dhs _ (ar_tree _ Hr) _ _ Hd) as (p & od' & Hp & Hod' & <-).
  destruct (rest_dir_at _ _ Hp) as (j & oj & Hj & _ & Hoj & <-). by assert (od' = oj) as -> by congruence.
Qed.

Lemma rest_files_image : files_image (w_super w) (dir_rec w) (file_rec w).
Proof using Hr.
  assert (Hall : forall i, 0 <= i < sb_max_file_num (w_super w) -> _) by
    (intros i Hi; exact (ar_files _ Hr _ _ (file_rec_some i Hi))).
  constructor.
  - intros i Hi. by apply (proj2 (Invariant.fi_wf _ (ar_inv _ Hr)) i), file_rec_some.
  - intros i Hi. by apply (ar_file_rec _ Hr i), file_rec_some.
  - intros i Hi. by apply (ar_file_rec _ Hr i), file_rec_some.
  - intros i Hi Hu. specialize (Hall i Hi). cbv beta in Hall. by rewrite Hu in Hall.
  - intros i [Hi Hu]. specialize (Hall i Hi). cbv beta in Hall. rewrite Hu in Hall. apply Hall.
  - intros i [Hi Hu]. specialize (Hall i Hi). cbv beta in Hall. rewrite Hu in Hall. apply Hall.
  - intros i [Hi Hu]. specialize (Hall i Hi). cbv beta in Hall. rewrite Hu in Hall. apply Hall.
  - intros i Hi. by destruct (rest_file i Hi) as (_ & _ & _ & _ & _ & _ & ?).
  - intros i j Hi Hj Hd Hn. destruct (rest_file i Hi) as (f & o & _ & Hf & Ho & <- & _).
    destruct (rest_file j Hj) as (f' & o' & _ & Hf' & Ho' & <- & _). rewrite Hd, Hn in Hf. congruence.
Qed.

(** a file block in use, with its file *)
Lemma rest_fb (b : Z) :
  used_fb (w_super w) (fb_rec w) b -> exists f o, w_files w !! f = Some o /\
    fo_items o = {[0 := b]} /\ fb_fh (fb_rec w b) = fo_meta o /\
    used_file (w_super w) (file_rec w) (fo_meta o) /\
    fb_file_cut (fb_rec w b) = 0 /\
    0 < fm_size (file_rec w (fo_meta o)) <= kBlockSize * Z.of_nat (length (fb_blocks (fb_rec w b))) /\
    blocks_ok (sb_curr_block_num (w_super w)) (bh_pool (w_bh w)) (fb_blocks (fb_rec w b)).
Proof using Hr.
  intros [Hb Hu]. pose proof (ar_fbs _ Hr _ _ (fb_rec_some b Hb)) as Hf. cbv beta in Hf. rewrite Hu in Hf.
  destruct Hf as (_ & f & o & Ho & Hit & Hfh & Hf). exists f, o.
  assert (Hfo : v_files (view_of w) !! f = Some (view_fo o)) by (cbn; by rewrite lookup_fmap, Ho).
  destruct (i_files _ _ (fi_inv _ (ar_inv _ Hr)) _ _ Hfo) as (_ & _ & m & Hm & _ & Hio). cbn in Hm, Hio.
  rewrite lookup_fmap in Hm. apply fmap_Some_1 in Hm as (m0 & Hm0 & ->).
  assert (Hi : 0 <= fo_meta o < sb_max_file_num (w_super w)).
  { apply (fb_fm_dom _ (fs_inv_base _ (ar_inv _ Hr))). by eexists. }
  rewrite (file_rec_some _ Hi) in Hm0. injection Hm0 as <-.
  destruct Hio as [[He _]|(fb & v & He & Hv & _ & Hcut & Hsz & _ & Hbl)]; [by rewrite He in Hit|].
  rewrite He in Hit. apply lookup_singleton_Some in Hit as [_ ->].
  cbn in Hv. rewrite lookup_fmap, (fb_rec_some b Hb) in Hv. cbn in Hv. injection Hv as <-.
  split_and!; try done; try apply Hsz; try apply Hbl.
  destruct (ft_fhs _ (ar_file_tree _ Hr) _ _ Hf) as ([dh nm] & o' & Hk & Ho' & _).
  destruct (ft_created _ (ar_file_tree _ Hr) _ _ _ Hk) as (o2 & m2 & d & od & Ho2 & Hm2 & _ & _ & Hu2 & _).
  assert (o2 = o) as -> by congruence. rewrite (file_rec_some _ Hi) in Hm2. by injection Hm2 as <-.
Qed.

Lemma rest_blocks_image : blocks_image (w_super w) (file_rec w) (fb_rec w).
Proof using Hr.
  assert (Hall : forall b, 0 <= b < sb_max_file_block_num (w_super w) -> _) by
    (intros b Hb; exact (ar_fbs _ Hr _ _ (fb_rec_some b Hb))).
  constructor.
  - intros b Hb. by apply (proj1 (Invariant.fi_wf _ (ar_inv _ Hr)) b), fb_rec_some.
  - intros b Hb. by apply (ar_fb_rec _ Hr b), fb_rec_some.
  - intros b Hb Hu. specialize (Hall b Hb). cbv beta in Hall. by rewrite Hu in Hall.
  - intros b [Hb Hu]. specialize (Hall b Hb). cbv beta in Hall. rewrite Hu in Hall. apply Hall.
  - intros b Hb. by destruct (rest_fb b Hb) as (_ & _ & _ & _ & _ & _ & ? & _).
  - intros b Hb. destruct (rest_fb b Hb) as (_ & o & _ & _ & -> & ? & _). done.
  - intros b Hb. destruct (rest_fb b Hb) as (_ & o & _ & _ & -> & _ & _ & ? & _). done.
  - intros b Hb. destruct (rest_fb b Hb) as (_ & o & _ & _ & _ & _ & _ & _ & Hnd & Hx). split; [done|].
    intros x Hxb. by apply Hx.
  - intros b c Hb Hc Hne. destruct (rest_fb b Hb) as (f & o & Ho & Hi & -> & _).
    destruct (rest_fb c Hc) as (f' & o' & Ho' & Hi' & -> & _).
    assert (f <> f') by (intros <-; assert (o = o') as <- by congruence; rewrite Hi in Hi';
      apply (f_equal (lookup 0)) in Hi'; rewrite !lookup_singleton_eq in Hi'; congruence).
    destruct (i_apart _ _ (fi_inv _ (ar_inv _ Hr)) f f' (view_fo o) (view_fo o')) as [Hm Hap];
      [cbn; by rewrite lookup_fmap, ?Ho, ?Ho'..|done|]. cbn in Hm, Hap. split; [done|].
    apply (Hap b c (view_fb (fb_rec w b)) (view_fb (fb_rec w c))).
    + by rewrite Hi, lookup_singleton_eq.
    + by rewrite Hi', lookup_singleton_eq.
    + by rewrite lookup_fmap, (fb_rec_some b) by apply Hb.
    + by rewrite lookup_fmap, (fb_rec_some c) by apply Hc.
  - intros i Hi Hnz. destruct (rest_file i Hi) as (f & o & _ & _ & Ho & <- & _).
    assert (Hfo : v_files (view_of w) !! f = Some (view_fo o)) by (cbn; by rewrite lookup_fmap, Ho).
    destruct (i_files _ _ (fi_inv _ (ar_inv _ Hr)) _ _ Hfo) as (_ & _ & m & Hm & _ & Hio). cbn in Hm, Hio.
    rewrite lookup_fmap, (file_rec_some _ (proj1 Hi)) in Hm. cbn in Hm. injection Hm as <-.
    destruct Hio as [[_ Hz]|(b & v & He & Hv & Hu & _)]; [done|].
    assert (Hb : 0 <= b < sb_max_file_block_num (w_super w)).
    { apply (i_fb_dom _ _ (fi_inv _ (ar_inv _ Hr))). by eexists. }
    cbn in Hv. rewrite lookup_fmap, (fb_rec_some b Hb) in Hv. cbn in Hv. injection Hv as <-.
    exists b. split; [done|]. destruct (rest_fb b (conj Hb Hu)) as (f' & o' & Ho' & Hi' & -> & _).
    destruct (decide (f = f')) as [<-|Hff]; [congruence|].
    destruct (i_apart _ _ (fi_inv _ (ar_inv _ Hr)) f f' (view_fo o) (view_fo o')) as [_ Hap];
      [cbn; by rewrite lookup_fmap, ?Ho, ?Ho'..|done|]. cbn in Hap.
    destruct (Hap b b (view_fb (fb_rec w b)) (view_fb (fb_rec w b))) as [? _]; [| | | |done].
    + by rewrite He, lookup_singleton_eq.
    + by rewrite Hi', lookup_singleton_eq.
    + by rewrite lookup_fmap, (fb_rec_some b Hb).
    + by rewrite lookup_fmap, (fb_rec_some b Hb).
Qed.

Lemma rest_image : image_ok (w_super w) (dir_rec w) (file_rec w) (fb_rec w).
Proof using Hr.
  constructor; [apply Hr|apply rest_dirs_image|apply rest_files_image|apply rest_blocks_image].
Qed.

(** ** What clients see, from the records *)

Lemma rest_a_dirs (p : bytes) (i : Z) :
  a_dirs (abs w) !! p = Some i <->
  used_dir (w_super w) (dir_rec w) i /\ meta_dir_name (dir_rec w i) = p.
Proof using Hr.
  cbn [abs a_dirs]. rewrite lookup_omap_Some. split.
  - intros (d & Hm & Hd). destruct (rest_dir_at _ _ Hd) as (j & o & Hj & Hn & Ho & Hoj).
    rewrite Ho in Hm. cbn in Hm. injection Hm as <-. by rewrite Hoj.
  - intros [Hi <-]. destruct (rest_dir i Hi) as (d & o & _ & Hd & Ho & <-). exists d.
    by rewrite Ho.
Qed.

(** the content that the records give a file *)
Definition rec_content (sb : SuperBlockMeta) (fr : Z -> FileMeta) (br : Z -> FileBlockMeta)
    (st : store) (i : Z) (c : bytes) : Prop :=
  (fm_size (fr i) = 0 /\ c = []) \/
  exists b, used_fb sb br b /\ fb_fh (br b) = i /\ c = content_of sb st (fb_blocks (br b)) (fm_size (fr i)).

Lemma rest_content (i f : Z) :
  used_file (w_super w) (file_rec w) i -> fh_created_fhs (w_fh w) !! i = Some f ->
  rec_content (w_super w) (file_rec w) (fb_rec w) (w_store w) i (file_content w f).
Proof using Hr.
  intros Hi Hf. destruct (rest_file i Hi) as (f' & o & Hf' & _ & Ho & Hoi & _).
  assert (f' = f) as -> by congruence.
  assert (Hsz : file_size (view_of w) f = fm_size (file_rec w i)).
  { unfold file_size. cbn. rewrite lookup_fmap, Ho. cbn.
    by rewrite lookup_fmap, Hoi, (file_rec_some i) by apply Hi. }
  destruct (decide (fm_size (file_rec w i) = 0)) as [Hz|Hnz].
  - left. split; [done|]. unfold file_content. by rewrite Hsz, Hz.
  - right. destruct (bi_covers _ _ _ rest_blocks_image _ Hi Hnz) as (b & Hb & Hbf). exists b.
    split_and!; try done. destruct (rest_fb b Hb) as (g & og & Hog & Hit & Hgf & _).
    assert (g = f) as ->.
    { destruct (decide (g = f)) as [|Hne]; [done|].
      destruct (i_apart _ _ (fi_inv _ (ar_inv _ Hr)) g f (view_fo og) (view_fo o)) as [Hm _];
        [cbn; by rewrite lookup_fmap, ?Hog, ?Ho..|done|]. cbn in Hm. congruence. }
    unfold file_content. rewrite Hsz. f_equal. unfold file_blocks, file_fb. cbn.
    rewrite lookup_fmap, Hog. cbn. rewrite Hit, lookup_singleton_eq. cbn.
    by rewrite lookup_fmap, (fb_rec_some b) by apply Hb.
Qed.

(** the contents by name *)
Definition name_contents (w : world) : gmap (Z * bytes) bytes :=
  file_content w <$> fh_created_files (w_fh w).

Lemma rest_name_contents (dh : Z) (name c : bytes) :
  name_contents w !! (dh, name) = Some c <->
  exists i, used_file (w_super w) (file_rec w) i /\ fm_dh (file_rec w i) = dh /\
    meta_file_name (file_rec w i) = name /\
    rec_content (w_super w) (file_rec w) (fb_rec w) (w_store w) i c.
Proof using Hr.
  unfold name_contents. rewrite lookup_fmap. split.
  - intros (f & Hk & ->)%fmap_Some_1.
    destruct (ft_created _ (ar_file_tree _ Hr) _ _ _ Hk) as (o & m & d & od & Ho & Hm & <- & <- & Hu & Hf & _).
    assert (Hi : 0 <= fo_meta o < sb_max_file_num (w_super w)).
    { apply (fb_fm_dom _ (fs_inv_base _ (ar_inv _ Hr))). by eexists. }
    rewrite (file_rec_some _ Hi) in Hm. injection Hm as <-. exists (fo_meta o).
    split_and!; try done. by apply rest_content.
  - intros (i & Hi & <- & <- & Hc). destruct (rest_file i Hi) as (f & o & Hf & Hk & _).
    rewrite Hk. cbn. f_equal. pose proof (rest_content i f Hi Hf) as Hc'.
    destruct Hc as [[Hz ->]|(b & Hb & Hbf & ->)], Hc' as [[Hz' ->]|(b' & Hb' & Hbf' & ->)]; try done.
    + rewrite Hz. done.
    + by rewrite Hz'.
    + destruct (decide (b = b')) as [<-|Hne]; [done|].
      destruct (bi_apart _ _ _ rest_blocks_image b b' Hb Hb' Hne) as [Hd _]. congruence.
Qed.

(** what is free *)
Lemma rest_pool (x : Z) :
  x ∈ bh_pool (w_bh w) -> 0 <= x < sb_curr_block_num (w_super w) /\
  (forall b, used_fb (w_super w) (fb_rec w) b -> x ∉ fb_blocks (fb_rec w b)).
Proof using Hr.
  intros Hx. split; [by apply (i_pool _ _ (fi_inv _ (ar_inv _ Hr)))|]. intros b Hb Hxb.
  destruct (rest_fb b Hb) as (_ & _ & _ & _ & _ & _ & _ & _ & _ & Hbl). by apply (Hbl x Hxb).
Qed.
End Image.
End AtRest.
