(* ===== verification/DiskState.v ===== *)
(** * Which records the device holds

    The metadata in memory against the metadata on the device ([disk_ok]): every
    record is on the device as memory has it, up to the times of a file, but for
    sets of records that were changed and not yet written.  The rules say how a
    change of a record, its write-back and a write of data move these sets. *)

From S2P Require Import Prelude Meta Device World SuperBlock Resources Paths FileBlock Inode.
From S2P Require Import Directory FileHandle File OpenFile FileHandleOps FileSystem Io Frames.
From S2P Require Import Invariant MetaSteps DirSteps Load AtRest.

Section DiskState.
Context `{Env}.

(** a file record without its times *)
Definition untimed (m : FileMeta) : FileMeta :=
  set_fm_crc 0 (set_fm_mtime 0 (set_fm_ctime 0 m)).

Definition file_addr (w : world) (i : Z) : Z :=
  sb_file_meta_offset (w_super w) + kBlockFsFileMetaSize * i.
Definition fb_addr (w : world) (b : Z) : Z :=
  sb_file_block_meta_offset (w_super w) + kBlockFsFileBlockMetaSize * b.

(** the device holds record [m] of file [i], with other times perhaps *)
Definition file_on_disk (w : world) (i : Z) (m : FileMeta) : Prop :=
  exists m', file_wf m' /\ fm_crc m' = file_crc_of m' /\ untimed m' = untimed m /\
    st_read (w_store w) (file_addr w i) 256 = encode_file m'.

Definition fb_on_disk (w : world) (b : Z) (m : FileBlockMeta) : Prop :=
  fb_crc m = fb_crc_of m /\ st_read (w_store w) (fb_addr w b) 4096 = encode_file_block m.

(** all but the file records [df] and the file blocks [db] are on the device *)
Record disk_ok (df db : gset Z) (w : world) : Prop := {
  dk_base : fs_base w;
  dk_good : dev_good w;
  dk_super : super_ok (w_super w);
  dk_super_disk : st_read (w_store w) 0 4096 = encode_super (w_super w);
  dk_dirs : forall i, 0 <= i < sb_max_file_num (w_super w) ->
    st_read (w_store w) (sb_dir_meta_offset (w_super w) + kBlockFsDirMetaSize * i) 1024
      = encode_dir (dir_rec w i);
  dk_fh : map_Forall (fun i m => fm_fh m = i) (w_filemeta w);
  dk_crc : map_Forall (fun i m => i ∉ df -> fm_crc m = file_crc_of m) (w_filemeta w);
  dk_files : map_Forall (fun i m => i ∉ df -> file_on_disk w i m) (w_filemeta w);
  dk_fbs : map_Forall (fun b m => b ∉ db -> fb_on_disk w b m) (w_fbmeta w)
}.

(** ** What does not matter *)

(** the same records in memory and the same bytes on the device *)
Record same_disk (w w' : world) : Prop := {
  sd_super : w_super w' = w_super w;
  sd_dirmeta : w_dirmeta w' = w_dirmeta w;
  sd_filemeta : w_filemeta w' = w_filemeta w;
  sd_fbmeta : w_fbmeta w' = w_fbmeta w;
  sd_store : w_store w' = w_store w;
  sd_size : dev_size (w_dev w') = dev_size (w_dev w);
  sd_good : dev_good w -> dev_good w'
}.

#[export] Instance same_disk_preorder : PreOrder same_disk.
Proof.
  split.
  - intros w. by constructor.
  - intros w1 w2 w3 [] []. constructor; try congruence. auto.
Qed.

Lemma fs_base_same (w w' : world) : same_disk w w' -> fs_base w -> fs_base w'.
Proof.
  intros [Es Ed Ef Eb Est Esz _] [Hl Hd Hwf Hb Hm].
  constructor; unfold recs_wf; rewrite ?Es, ?Ef, ?Eb, ?Esz; done.
Qed.

Lemma disk_ok_same (df db : gset Z) (w w' : world) :
  same_disk w w' -> disk_ok df db w -> disk_ok df db w'.
Proof.
  intros Hs [Hb Hg Hsup Hsd Hd Hfh Hc Hf Hfb]. pose proof (fs_base_same _ _ Hs Hb) as Hb'.
  destruct Hs as [Es Ed Ef Eb Est Esz Hgd].
  assert (Hfd : file_on_disk w' = file_on_disk w)
    by (unfold file_on_disk, file_addr; by rewrite Es, Est).
  assert (Hbd : fb_on_disk w' = fb_on_disk w) by (unfold fb_on_disk, fb_addr; by rewrite Es, Est).
  constructor; rewrite ?Hfd, ?Hbd, ?Es, ?Est, ?Ef, ?Eb; auto.
  intros i Hi. unfold dir_rec. rewrite Ed. by apply Hd.
Qed.

(** ** Changes in memory *)

Lemma fs_base_filemeta (w : world) (i : Z) (m m' : FileMeta) :
  fs_base w -> w_filemeta w !! i = Some m -> file_wf m' ->
  fs_base (set_w_filemeta (<[i := m']> (w_filemeta w)) w).
Proof.
  intros [Hl Hd [Hwb Hwf] Hb Hm] Hi Hw. constructor; try done.
  - split; [done|]. by apply map_Forall_insert_2.
  - intros j. rewrite <- Hm. cbn. rewrite lookup_insert_is_Some.
    destruct (decide (i = j)) as [<-|]; naive_solver.
Qed.

Lemma fs_base_fbmeta (w : world) (b : Z) (m m' : FileBlockMeta) :
  fs_base w -> w_fbmeta w !! b = Some m -> fb_meta_ok m' ->
  fs_base (set_w_fbmeta (<[b := m']> (w_fbmeta w)) w).
Proof.
  intros [Hl Hd [Hwb Hwf] Hb Hm] Hi Hw. constructor; try done.
  - split; [|done]. by apply map_Forall_insert_2.
  - intros j. rewrite <- Hb. cbn. rewrite lookup_insert_is_Some.
    destruct (decide (b = j)) as [<-|]; naive_solver.
Qed.

(** a file record is changed: it is to be written *)
Lemma disk_ok_filemeta (df db : gset Z) (w : world) (i : Z) (m m' : FileMeta) :
  disk_ok df db w -> w_filemeta w !! i = Some m -> file_wf m' -> fm_fh m' = fm_fh m ->
  disk_ok ({[i]} ∪ df) db (set_w_filemeta (<[i := m']> (w_filemeta w)) w).
Proof.
  intros [Hb Hg Hsup Hsd Hd Hfh Hc Hf Hfb] Hi Hw Hfm.
  constructor; try done; [by apply (fs_base_filemeta w i m)|..];
    intros j x; cbn; intros [[<- <-]|[Hne Hx]]%lookup_insert_Some.
  - rewrite Hfm. by apply Hfh.
  - by apply Hfh.
  - intros []. by apply elem_of_union_l, elem_of_singleton.
  - intros Hj. apply (Hc _ _ Hx). set_solver.
  - intros []. by apply elem_of_union_l, elem_of_singleton.
  - intros Hj. apply (Hf _ _ Hx). set_solver.
Qed.

(** the times of a file are set *)
Lemma disk_ok_times (df db : gset Z) (w : world) (i : Z) (m m' : FileMeta) :
  disk_ok df db w -> w_filemeta w !! i = Some m -> file_wf m' -> untimed m' = untimed m ->
  fm_crc m' = file_crc_of m' -> disk_ok df db (set_w_filemeta (<[i := m']> (w_filemeta w)) w).
Proof.
  intros [Hb Hg Hsup Hsd Hd Hfh Hc Hf Hfb] Hi Hw Hu Hcrc.
  constructor; try done; [by apply (fs_base_filemeta w i m)|..];
    intros j x; cbn; intros [[<- <-]|[Hne Hx]]%lookup_insert_Some.
  - rewrite <- (Hfh _ _ Hi). by injection Hu.
  - by apply Hfh.
  - done.
  - by apply Hc.
  - intros Hj. destruct (Hf _ _ Hi Hj) as (d & Hd1 & Hd2 & Hd3 & Hd4). exists d.
    split_and!; try done. by rewrite Hd3.
  - by apply Hf.
Qed.

(** a file block is changed *)
Lemma disk_ok_fbmeta (df db : gset Z) (w : world) (b : Z) (m m' : FileBlockMeta) :
  disk_ok df db w -> w_fbmeta w !! b = Some m -> fb_meta_ok m' ->
  disk_ok df ({[b]} ∪ db) (set_w_fbmeta (<[b := m']> (w_fbmeta w)) w).
Proof.
  intros [Hb Hg Hsup Hsd Hd Hfh Hc Hf Hfb] Hi Hw.
  constructor; try done; [by apply (fs_base_fbmeta w b m)|].
  intros j x. cbn. intros [[<- <-]|[Hne Hx]]%lookup_insert_Some; [set_solver|].
  intros Hj. apply (Hfb _ _ Hx). set_solver.
Qed.

(** ** Writes *)

(** a write that leaves the areas of records alone *)
Lemma disk_ok_data (df db : gset Z) (w w' : world) :
  (forall a, a < sb_block_data_start_offset (w_super w) ->
     st_get (w_store w') a = st_get (w_store w) a) ->
  w_super w' = w_super w -> w_dirmeta w' = w_dirmeta w -> w_filemeta w' = w_filemeta w ->
  w_fbmeta w' = w_fbmeta w -> dev_size (w_dev w') = dev_size (w_dev w) -> dev_good w' ->
  disk_ok df db w -> disk_ok df db w'.
Proof.
  intros Hst Es Ed Ef Eb Esz Hg' [Hb Hg Hsup Hsd Hd Hfh Hc Hf Hfb].
  pose proof (fb_layout _ Hb) as []. units.
  assert (Hrd : forall a n, 0 <= a -> a + Z.of_nat n <= sb_block_data_start_offset (w_super w) ->
    st_read (w_store w') a n = st_read (w_store w) a n).
  { intros a n Ha Hn. apply st_read_ext. intros x Hx. apply Hst. lia. }
  assert (Hfr : forall i m, w_filemeta w !! i = Some m -> 0 <= i < sb_max_file_num (w_super w))
    by (intros i m Hm; apply (fb_fm_dom _ Hb); by eexists).
  assert (Hbr : forall i m, w_fbmeta w !! i = Some m -> 0 <= i < sb_max_file_block_num (w_super w))
    by (intros i m Hm; apply (fb_fb_dom _ Hb); by eexists).
  constructor; rewrite ?Es, ?Ed, ?Ef, ?Eb; try done.
  - destruct Hb. constructor; unfold recs_wf; rewrite ?Es, ?Ed, ?Ef, ?Eb, ?Esz; done.
  - rewrite Hrd by lia. done.
  - intros i Hi. unfold dir_rec. rewrite Ed. units. rewrite Hrd by lia. by apply Hd.
  - intros i m Hm Hi. specialize (Hf _ _ Hm Hi). pose proof (Hfr _ _ Hm).
    unfold file_on_disk, file_addr in *. rewrite Es. units. by rewrite Hrd by lia.
  - intros b m Hm Hi. specialize (Hfb _ _ Hm Hi). pose proof (Hbr _ _ Hm).
    unfold fb_on_disk, fb_addr in *. rewrite Es. units. by rewrite Hrd by lia.
Qed.

Lemma fs_base_io (e : Z) (evs : list sys_event) (st : store) (w : world) :
  fs_base w -> fs_base (upd_io e evs st w).
Proof. intros []. by constructor. Qed.

Lemma file_page_inside (sb : SuperBlockMeta) (i : Z) :
  layout_ok sb -> 0 <= i < sb_max_file_num sb ->
  sb_file_meta_offset sb <= file_page_addr sb i /\
  file_page_addr sb i + 4096 <= sb_file_meta_offset sb + sb_file_meta_total_size sb.
Proof.
  intros [] Hi. unfold file_page_addr, page_of. units.
  pose proof (Z.div_mod i 16 ltac:(lia)). pose proof (Z.mod_pos_bound i 16 ltac:(lia)).
  pose proof (Z.div_mod (sb_file_meta_total_size sb) 4096 ltac:(lia)). lia.
Qed.

(** the world after the page of record [i] was written *)
Lemma disk_ok_file_page (df db : gset Z) (w : world) (i : Z) (m : FileMeta) (e : Z)
    (evs : list sys_event) :
  disk_ok df db w -> df ⊆ {[i]} -> w_filemeta w !! i = Some m -> evs `suffix_of` w_events w ->
  let w1 := with_file_crc i m w in
  disk_ok ∅ db (upd_io e evs (st_write (w_store w) (file_page_addr (w_super w) i)
    (file_page (w_filemeta w1) (page_of i) kBlockFsFileMetaSize)) w1).
Proof.
  intros [Hb Hg Hsup Hsd Hd Hfh Hc Hf Hfb] Hdf Hm Hev w1.
  assert (Hr : 0 <= i < sb_max_file_num (w_super w)) by (apply (fb_fm_dom _ Hb); by eexists).
  pose proof (with_file_crc_step w i m Hb Hm) as Hs1. fold w1 in Hs1.
  pose proof (es_wf _ _ (ms_env _ _ Hs1) (fb_wf _ Hb)) as Hwf1.
  pose proof (file_page_inside _ i (fb_layout _ Hb) Hr) as [Hlo Hhi].
  assert (Hm1 : w_filemeta w1 !! i = Some (set_fm_crc (file_crc_of m) m)) by apply lookup_insert_eq.
  destruct (file_page_slice w1 i i _ Hwf1 Hm1 eq_refl) as [Hlen _].
  set (page := file_page _ _ _) in *. set (a := file_page_addr _ _) in *.
  pose proof (fb_layout _ Hb) as []. units.
  assert (Hout : forall x n, x + Z.of_nat n <= a \/ a + 4096 <= x ->
    st_read (st_write (w_store w) a page) x n = st_read (w_store w) x n).
  { intros x n Hx. apply st_read_write_out. rewrite Hlen. lia. }
  assert (Hcrc1 : map_Forall (fun i m => fm_fh m = i /\ fm_crc m = file_crc_of m) (w_filemeta w1)).
  { intros j x. cbn. intros [[<- <-]|[Hne Hx]]%lookup_insert_Some.
    - split; [by apply (Hfh _ _ Hm)|done].
    - split; [by apply (Hfh _ _ Hx)|]. apply (Hc _ _ Hx). set_solver. }
  constructor; try done.
  - apply fs_base_io. apply (fs_base_filemeta w i m); [done|done|]. by apply (proj2 Hwf1 i).
  - destruct Hg as (?&?&?). split_and!; try done. by eapply Forall_suffix.
  - rewrite w_store_upd_io. cbn [w_super upd_io]. rewrite Hout; [done|]. cbn. units. lia.
  - intros j Hj. change (w_super (upd_io _ _ _ w1)) with (w_super w) in *.
    rewrite w_store_upd_io, Hout; [by apply Hd|]. units. lia.
  - intros j x Hx. by apply Hcrc1 in Hx as [? _].
  - intros j x Hx _. by apply Hcrc1 in Hx as [_ ?].
  - intros j x Hx _.
    assert (Hj : 0 <= j < sb_max_file_num (w_super w)).
    { apply (fb_fm_dom _ (fs_base_filemeta w i m _ Hb Hm (proj2 Hwf1 _ _ Hm1))). by eexists. }
    unfold file_on_disk, file_addr. rewrite w_store_upd_io. change (w_super (upd_io _ _ _ w1)) with (w_super w).
    units. destruct (decide (page_of j = page_of i)) as [Hp|Hp].
    + exists x. split_and!; [by apply (proj2 Hwf1 j)|by apply Hcrc1 in Hx as [_ ?]|done|].
      destruct (file_page_slice w1 i j x Hwf1 Hx Hp) as [_ Hsl].
      pose proof (Z.mod_pos_bound j 16 ltac:(lia)). unfold a, file_page_addr. units. rewrite <- Hp.
      replace (sb_file_meta_offset (w_super w) + 256 * j) with
        (sb_file_meta_offset (w_super w) + 256 * page_of j + Z.of_nat (Z.to_nat (256 * (j mod 16))))
        by (unfold page_of; lia).
      rewrite st_read_slice by (rewrite Hlen; lia). exact Hsl.
    + assert (Hij : j <> i) by congruence. unfold w1 in Hx. cbn in Hx. rewrite lookup_insert_ne in Hx by done.
      rewrite Hout; [apply (Hf _ _ Hx); set_solver|].
      unfold a, file_page_addr, page_of in *. units.
      pose proof (Z.div_mod i 16 ltac:(lia)). pose proof (Z.mod_pos_bound i 16 ltac:(lia)).
      pose proof (Z.div_mod j 16 ltac:(lia)). pose proof (Z.mod_pos_bound j 16 ltac:(lia)). lia.
  - intros b x Hx Hnb. specialize (Hfb _ _ Hx Hnb).
    assert (0 <= b < sb_max_file_block_num (w_super w)) by (apply (fb_fb_dom _ Hb); by eexists).
    unfold fb_on_disk, fb_addr in *. rewrite w_store_upd_io. cbn [w_super upd_io]. rewrite Hout; [done|].
    cbn. units. lia.
Qed.

Lemma disk_write_file (df db : gset Z) (w : world) (i : Z) (m : FileMeta) :
  disk_ok df db w -> df ⊆ {[i]} -> w_filemeta w !! i = Some m ->
  wp (File_WriteMeta_fh i) (fun ok w' => ok = true /\ disk_ok ∅ db w' /\
    exists e evs st, evs `suffix_of` w_events w /\ w' = upd_io e evs st (with_file_crc i m w)) w.
Proof.
  intros Hk Hdf Hm. pose proof (dk_base _ _ _ Hk) as Hb.
  eapply wp_mono; [by apply (File_WriteMeta_fh_page_wp w i m)|].
  intros ok w' (r & -> & Hs & Hp & Hg). rewrite Hg by apply Hk. split; [done|].
  destruct Hp as (e & n & evs & _ & _ & Hev & -> & Hgn).
  destruct Hgn as [_ ->]; [change (dev_good w); apply Hk|]. rewrite take_ge by done.
  split; [exact (disk_ok_file_page df db w i m e evs Hk Hdf Hm Hev)|by eauto].
Qed.

(** the world after file block [b] was written *)
Lemma disk_ok_fb_record (df db : gset Z) (w : world) (b : Z) (m : FileBlockMeta) (e : Z)
    (evs : list sys_event) :
  disk_ok df db w -> w_fbmeta w !! b = Some m -> evs `suffix_of` w_events w ->
  disk_ok df (db ∖ {[b]}) (upd_io e evs (st_write (w_store w) (fb_addr w b)
    (encode_file_block (set_fb_crc (fb_crc_of m) m))) (with_fb_crc b m w)).
Proof.
  intros [Hb Hg Hsup Hsd Hd Hfh Hc Hf Hfb] Hm Hev.
  assert (Hr : 0 <= b < sb_max_file_block_num (w_super w)) by (apply (fb_fb_dom _ Hb); by eexists).
  pose proof (fb_meta_ok_set_crc _ (proj1 (fb_wf _ Hb) _ _ Hm)) as Hok.
  set (m' := set_fb_crc (fb_crc_of m) m) in *.
  pose proof (encode_file_block_length _ (proj1 Hok)) as Hlen. set (a := fb_addr w b) in *.
  pose proof (fb_layout _ Hb) as []. units.
  assert (Ha : a = sb_file_block_meta_offset (w_super w) + 4096 * b) by done.
  set (st := st_write (w_store w) a (encode_file_block m')).
  assert (Hout : forall x n, x + Z.of_nat n <= a \/ a + 4096 <= x ->
    st_read st x n = st_read (w_store w) x n).
  { intros x n Hx. apply st_read_write_out. rewrite Hlen. lia. }
  assert (Hin : st_read st a 4096 = encode_file_block m').
  { unfold st. rewrite <- Hlen. apply st_read_write_same. }
  clearbody st. constructor; try done; cbn [w_super w_filemeta w_fbmeta upd_io with_fb_crc set_w_errno
    set_w_dev set_w_fbmeta]; rewrite ?w_store_upd_io; units.
  - apply fs_base_io. by apply (fs_base_fbmeta w b m).
  - destruct Hg as (?&?&?). split_and!; try done. by eapply Forall_suffix.
  - rewrite Hout; [done|]. lia.
  - intros j Hj. rewrite Hout; [by apply Hd|]. lia.
  - intros j x Hx Hj. specialize (Hf _ _ Hx Hj).
    assert (0 <= j < sb_max_file_num (w_super w)) by (apply (fb_fm_dom _ Hb); by eexists).
    change (file_on_disk (upd_io e evs st w) j x). unfold file_on_disk, file_addr in *.
    rewrite w_store_upd_io. change (w_super (upd_io e evs st w)) with (w_super w). units.
    rewrite Hout; [done|]. lia.
  - intros c x [[<- <-]|[Hne Hx]]%lookup_insert_Some Hnc; [by split|].
    assert (0 <= c < sb_max_file_block_num (w_super w)) by (apply (fb_fb_dom _ Hb); by eexists).
    assert (Hx' : fb_on_disk w c x) by (apply (Hfb _ _ Hx); clear - Hnc Hne; set_solver).
    change (fb_on_disk (upd_io e evs st w) c x). unfold fb_on_disk, fb_addr in *.
    rewrite w_store_upd_io. change (w_super (upd_io e evs st w)) with (w_super w). units.
    rewrite Hout; [done|]. lia.
Qed.

Lemma disk_write_fb (df db : gset Z) (w : world) (b : Z) (m : FileBlockMeta) :
  disk_ok df db w -> w_fbmeta w !! b = Some m ->
  wp (FileBlock_WriteMeta b) (fun ok w' => ok = true /\ disk_ok df (db ∖ {[b]}) w' /\
    exists e evs st, evs `suffix_of` w_events w /\ w' = upd_io e evs st (with_fb_crc b m w)) w.
Proof.
  intros Hk Hm. pose proof (dk_base _ _ _ Hk) as Hb.
  eapply wp_mono; [by apply (FileBlock_WriteMeta_record_wp w b m)|].
  intros ok w' (r & -> & Hs & Hp & Hg). rewrite Hg by apply Hk. split; [done|].
  destruct Hp as (e & n & evs & _ & _ & Hev & -> & Hgn).
  destruct Hgn as [_ ->]; [change (dev_good w); apply Hk|]. rewrite take_ge by done.
  split; [exact (disk_ok_fb_record df db w b m e evs Hk Hm Hev)|by eauto].
Qed.

(** ** Creating, extending and removing: the records that are written twice *)

Lemma disk_ok_weaken (df df' db db' : gset Z) (w : world) :
  disk_ok df db w -> df ⊆ df' -> db ⊆ db' -> disk_ok df' db' w.
Proof.
  intros [Hb Hg Hsup Hsd Hd Hfh Hc Hf Hfb] Hdf Hdb. constructor; try done; intros i m Hm Hi.
  - apply (Hc _ _ Hm). set_solver.
  - apply (Hf _ _ Hm). set_solver.
  - apply (Hfb _ _ Hm). set_solver.
Qed.
End DiskState.
