(* ===== verification/Durable.v ===== *)
(** * Metadata that survives a restart

    A world whose metadata is on the device and describes what memory has
    ([durable]): every record in use is linked to a directory, a file with a
    name or the file block of a file.  Sets of records that are being changed
    are left out ([kept_ok]); the rules follow the text of the programs, as
    partial statements ([wlp]) that the total ones complete. *)

From S2P Require Import Prelude Meta Device World SuperBlock Resources Paths FileBlock Inode.
From S2P Require Import Directory FileHandle File OpenFile FileHandleOps FileSystem Io Frames.
From S2P Require Import Invariant MetaSteps DirSteps Names Load RecoverDirs AtRest DiskState.

Section Durable.
Context `{Env}.

(** ** Links *)

Definition file_linked (w : world) (i : Z) (m : FileMeta) : Prop :=
  if fm_used m then is_Some (fh_created_fhs (w_fh w) !! i) /\ cstr (fm_file_name m) <> [] /\
    fm_is_temp m = false
  else fm_size m = 0.

Definition fb_linked (w : world) (b : Z) (m : FileBlockMeta) : Prop :=
  if fb_used m then fb_is_temp m = false /\ exists f o, fh_created_fhs (w_fh w) !! fb_fh m = Some f /\
    w_files w !! f = Some o /\ fo_items o !! 0 = Some b
  else fb_blocks m = [].

(** all but the file records [lf] and the file blocks [lb] are linked *)
Record link_ok (lf lb : gset Z) (w : world) : Prop := {
  lk_child : map_Forall (fun _ m => fm_child_fh m <= 0) (w_filemeta w);
  lk_files : map_Forall (fun i m => i ∉ lf -> file_linked w i m) (w_filemeta w);
  lk_fbs : map_Forall (fun b m => b ∉ lb -> fb_linked w b m) (w_fbmeta w)
}.

(** the directories, as a mount wants them *)
Record dirs_rest (w : world) : Prop := {
  dr_root : is_Some (dh_created_dirs (w_dh w) !! [slash]);
  dr_rec : map_Forall (fun i m => dm_crc m = dir_crc_of m /\ dm_dh m = i) (w_dirmeta w);
  dr_used : map_Forall (fun i m => dm_used m = true ->
    is_Some (dh_created_dhs (w_dh w) !! i) /\ cstr (dm_dir_name m) <> [] /\
    dir_key (meta_dir_name m) = Some (meta_dir_name m)) (w_dirmeta w)
}.

Record kept_ok (df db lf lb : gset Z) (w : world) : Prop := {
  ko_disk : disk_ok df db w;
  ko_link : link_ok lf lb w;
  ko_dirs : dirs_rest w
}.

Definition durable : world -> Prop := kept_ok ∅ ∅ ∅ ∅.

(** ** Steps that do not matter *)

Record inert (w w' : world) : Prop := {
  in_disk : same_disk w w';
  in_fhs : fh_created_fhs (w_fh w') = fh_created_fhs (w_fh w);
  in_names : fh_created_files (w_fh w') = fh_created_files (w_fh w);
  in_files : view_fo <$> w_files w' = view_fo <$> w_files w;
  in_dh : w_dh w' = w_dh w;
  in_now : w_now w' = w_now w
}.

#[export] Instance inert_preorder : PreOrder inert.
Proof.
  split.
  - intros w. by constructor.
  - intros w1 w2 w3 [] []. constructor; try congruence. by etrans.
Qed.

Lemma inert_file (w w' : world) (f : Z) (o : file) :
  inert w w' -> w_files w !! f = Some o ->
  exists o', w_files w' !! f = Some o' /\ fo_meta o' = fo_meta o /\ fo_items o' = fo_items o.
Proof.
  intros Hn Ho. pose proof (f_equal (lookup f) (in_files _ _ Hn)) as He.
  rewrite !lookup_fmap, Ho in He. destruct (w_files w' !! f) as [o'|]; [|done].
  cbn in He. injection He as ??. by exists o'.
Qed.

(** the links depend on the maps of files and on their file blocks only *)
Lemma link_ok_mono (lf lb : gset Z) (w w' : world) :
  w_filemeta w' = w_filemeta w -> w_fbmeta w' = w_fbmeta w ->
  (forall i f, fh_created_fhs (w_fh w) !! i = Some f -> fh_created_fhs (w_fh w') !! i = Some f) ->
  (forall f o b, w_files w !! f = Some o -> fo_items o !! 0 = Some b ->
     exists o', w_files w' !! f = Some o' /\ fo_items o' !! 0 = Some b) ->
  link_ok lf lb w -> link_ok lf lb w'.
Proof.
  intros Ef Eb Hh Hf [Hc Hl Hb]. constructor; rewrite ?Ef, ?Eb; [done|..].
  - intros i m Hm Hi. specialize (Hl _ _ Hm Hi). unfold file_linked in *.
    destruct (fm_used m); [|done]. destruct Hl as ([f Hif] & ? & ?). split_and!; try done.
    exists f. by apply Hh.
  - intros b m Hm Hi. specialize (Hb _ _ Hm Hi). unfold fb_linked in *.
    destruct (fb_used m); [|done]. destruct Hb as (? & f & o & Hif & Ho & Hob). split; [done|].
    destruct (Hf _ _ _ Ho Hob) as (o' & Ho' & Hob'). exists f, o'. auto.
Qed.

Lemma kept_inert (df db lf lb : gset Z) (w w' : world) :
  inert w w' -> kept_ok df db lf lb w -> kept_ok df db lf lb w'.
Proof.
  intros Hn [Hd Hl Hr]. pose proof Hn as [Hs Eh _ _ Ed _]. constructor.
  - by eapply disk_ok_same.
  - eapply link_ok_mono; [apply Hs..| | |exact Hl]; [by rewrite Eh|].
    intros f o b Ho Hb. destruct (inert_file w w' f o Hn Ho) as (o' & ? & _ & Hi).
    exists o'. by rewrite Hi.
  - destruct Hr. constructor; by rewrite ?Ed, ?(sd_dirmeta _ _ Hs).
Qed.

Lemma durable_now (time : Z) (w : world) : durable w -> durable (set_w_now time w).
Proof.
  intros [Hd [] []]. constructor; [|by constructor..].
  by apply (disk_ok_same _ _ w).
Qed.

Lemma kept_inert_keeps {A} (m : Fs A) (df db lf lb : gset Z) (w : world) :
  keeps inert m w -> kept_ok df db lf lb w ->
  wlp m (fun _ w' => inert w w' /\ kept_ok df db lf lb w') w.
Proof. intros Hm Hk a w' Hr. specialize (Hm a w' Hr). split; [done|by eapply kept_inert]. Qed.

(** ** Changes of records *)

Lemma kept_filemeta (df db lf lb : gset Z) (w : world) (i : Z) (m m' : FileMeta) :
  kept_ok df db lf lb w -> w_filemeta w !! i = Some m -> file_wf m' -> fm_fh m' = fm_fh m ->
  fm_child_fh m' <= 0 -> (i ∉ lf -> file_linked w i m') ->
  kept_ok ({[i]} ∪ df) db lf lb (set_w_filemeta (<[i := m']> (w_filemeta w)) w).
Proof.
  intros [Hd [Hc Hl Hb] []] Hm Hw Hfh Hch Hlk. constructor.
  - by apply (disk_ok_filemeta _ _ _ _ m).
  - constructor; cbn; [by apply map_Forall_insert_2| |done].
    intros j x. intros [[<- <-]|[Hne Hx]]%lookup_insert_Some Hj; [by apply Hlk|by apply (Hl _ _ Hx)].
  - by constructor.
Qed.

Lemma kept_fbmeta (df db lf lb : gset Z) (w : world) (b : Z) (m m' : FileBlockMeta) :
  kept_ok df db lf lb w -> w_fbmeta w !! b = Some m -> fb_meta_ok m' ->
  (b ∉ lb -> fb_linked w b m') ->
  kept_ok df ({[b]} ∪ db) lf lb (set_w_fbmeta (<[b := m']> (w_fbmeta w)) w).
Proof.
  intros [Hd [Hc Hl Hb] []] Hm Hw Hlk. constructor.
  - by apply (disk_ok_fbmeta _ _ _ _ m).
  - constructor; cbn; [done|done|].
    intros j x. intros [[<- <-]|[Hne Hx]]%lookup_insert_Some Hj; [by apply Hlk|by apply (Hb _ _ Hx)].
  - by constructor.
Qed.

(** fewer claims *)
Lemma kept_weaken (df df' db db' lf lf' lb lb' : gset Z) (w : world) :
  kept_ok df db lf lb w -> df ⊆ df' -> db ⊆ db' -> lf ⊆ lf' -> lb ⊆ lb' -> kept_ok df' db' lf' lb' w.
Proof.
  intros [Hd [Hc Hl Hb] Hr] H1 H2 H3 H4. constructor; [by eapply disk_ok_weaken| |done].
  constructor; [done|..]; intros i m Hm Hi.
  - apply (Hl _ _ Hm). set_solver.
  - apply (Hb _ _ Hm). set_solver.
Qed.

(** a record or a file block is linked again *)
Lemma kept_link_file (df db lf lb : gset Z) (w : world) (i : Z) (m : FileMeta) :
  kept_ok df db ({[i]} ∪ lf) lb w -> w_filemeta w !! i = Some m -> file_linked w i m ->
  kept_ok df db lf lb w.
Proof.
  intros [Hd [Hc Hl Hb] Hr] Hm Hk. constructor; [done| |done]. constructor; [done| |done].
  intros j x Hx Hj. destruct (decide (j = i)) as [->|Hne]; [by simplify_eq|].
  apply (Hl _ _ Hx). set_solver.
Qed.

Lemma kept_link_fb (df db lf lb : gset Z) (w : world) (b : Z) (m : FileBlockMeta) :
  kept_ok df db lf ({[b]} ∪ lb) w -> w_fbmeta w !! b = Some m -> fb_linked w b m ->
  kept_ok df db lf lb w.
Proof.
  intros [Hd [Hc Hl Hb] Hr] Hm Hk. constructor; [done| |done]. constructor; [done|done|].
  intros j x Hx Hj. destruct (decide (j = b)) as [->|Hne]; [by simplify_eq|].
  apply (Hb _ _ Hx). set_solver.
Qed.

(** ** Write-backs *)

Lemma link_ok_io (lf lb : gset Z) (e : Z) (evs : list sys_event) (st : store) (w : world) :
  link_ok lf lb w -> link_ok lf lb (upd_io e evs st w).
Proof. intros []. by constructor. Qed.

Lemma dirs_rest_io (e : Z) (evs : list sys_event) (st : store) (w : world) :
  dirs_rest w -> dirs_rest (upd_io e evs st w).
Proof. intros []. by constructor. Qed.

Lemma kept_write_file (df db lf lb : gset Z) (w : world) (i : Z) (m : FileMeta) :
  kept_ok df db lf lb w -> df ⊆ {[i]} -> w_filemeta w !! i = Some m ->
  wp (File_WriteMeta_fh i) (fun ok w' => ok = true /\ kept_ok ∅ db lf lb w' /\
    exists e evs st, evs `suffix_of` w_events w /\ w' = upd_io e evs st (with_file_crc i m w)) w.
Proof.
  intros [Hd [Hc Hl Hb] Hr] Hdf Hm. eapply wp_mono; [by apply (disk_write_file df db w i m)|].
  intros ok w' (-> & Hd' & e & evs & st & Hev & ->). split; [done|]. split; [|by eauto].
  constructor; [done|apply link_ok_io|apply dirs_rest_io; by destruct Hr].
  constructor; cbn; [| |done].
  - apply map_Forall_insert_2; [|done]. exact (Hc _ _ Hm).
  - apply map_Forall_insert_2; [|done]. exact (Hl _ _ Hm).
Qed.

Lemma kept_write_fb (df db lf lb : gset Z) (w : world) (b : Z) (m : FileBlockMeta) :
  kept_ok df db lf lb w -> w_fbmeta w !! b = Some m ->
  wp (FileBlock_WriteMeta b) (fun ok w' => ok = true /\ kept_ok df (db ∖ {[b]}) lf lb w' /\
    exists e evs st, evs `suffix_of` w_events w /\ w' = upd_io e evs st (with_fb_crc b m w)) w.
Proof.
  intros [Hd [Hc Hl Hb] Hr] Hm. eapply wp_mono; [by apply (disk_write_fb df db w b m)|].
  intros ok w' (-> & Hd' & e & evs & st & Hev & ->). split; [done|]. split; [|by eauto].
  constructor; [done|apply link_ok_io|apply dirs_rest_io; by destruct Hr].
  constructor; cbn; [done|done|]. apply map_Forall_insert_2; [|done]. exact (Hb _ _ Hm).
Qed.
End Durable.
