(* ===== verification/DurableOps.v ===== *)
(** * Removing and opening files on a durable file system

    The programs that change no record ([inert]) by rules that follow their
    text, and the removal of a file, [open], [close] and [dup]: the device holds
    the metadata again when they return. *)

From S2P Require Import Prelude Meta Device World SuperBlock Resources Paths FileBlock Inode.
From S2P Require Import Directory FileHandle File OpenFile FileHandleOps FileSystem Io Frames.
From S2P Require Import Invariant MetaSteps Names FileShrink FileNames FileEntries Unlink.
From S2P Require Import OpenFiles AtRest DiskState Durable.

(** ** Rules for [inert] *)

Ltac inert := constructor; [by constructor|done..].
#[export] Hint Extern 1 (inert _ _) => inert : keeps.
#[export] Hint Extern 1 (keeps inert (set_errno _) _) => apply keeps_modify; inert : keeps.
#[export] Hint Extern 1 (keeps inert (put_open _ _) _) => apply keeps_modify; inert : keeps.

Lemma inert_file_same (w : world) (f : Z) (o o' : file) :
  w_files w !! f = Some o -> view_fo o' = view_fo o ->
  inert w (set_w_files (<[f := o']> (w_files w)) w).
Proof.
  intros Ho Hv. constructor; [by constructor|done|done| |done|done]. cbn. by apply (fmap_insert_id _ _ _ o).
Qed.

Lemma inert_upd_file (f : Z) (g : file -> file) (w : world) :
  (forall o, view_fo (g o) = view_fo o) -> keeps inert (upd_file f g) w.
Proof. intros Hg. apply keeps_upd_file. intros o Ho. by apply (inert_file_same w f o). Qed.
#[export] Hint Extern 1 (keeps inert (upd_file _ _) _) =>
  apply inert_upd_file; intros; reflexivity : keeps.

Lemma inert_dirs (w : world) (x : gmap Z directory) : inert w (set_w_dirs x w).
Proof. inert. Qed.

Ltac inert_keeps := repeat first [keeps_step | inert].

Section Inert.
Context `{Env}.

Lemma inert_io (e : Z) (evs : list sys_event) (w : world) :
  evs `suffix_of` w_events w -> inert w (upd_io e evs (w_store w) w).
Proof.
  intros Hs. constructor; try done. constructor; try done. intros Hg. apply dev_good_upd_io; [done|].
  by eapply Forall_suffix, Hg.
Qed.

Lemma inert_Fsync w : keeps inert Fsync w.
Proof.
  intros r w' Hw. pose proof (fsync_run w) as Hf. unfold wp in Hf. rewrite Hw in Hf.
  destruct Hf as (e & evs & Hs & _ & -> & _). by apply inert_io.
Qed.

Lemma inert_pread fd n off w : keeps inert (fun w =>
  let '(r, e, out, d) := dev_pread (fd w) n off (w_errno w) (w_dev w) in
  Done (r, out) (set_w_errno e (set_w_dev d w))) w.
Proof.
  intros r w' Hw. destruct (dev_pread_io (fd w) n off w) as (rr & e & out & evs & Hs & Heq).
  rewrite Heq in Hw. injection Hw as _ <-.
  replace (set_w_errno _ _) with (upd_io e evs (w_store w) w)
    by (unfold upd_io, w_store; by destruct (w_dev w)).
  by apply inert_io.
Qed.

Lemma inert_PreadCache n off w : keeps inert (PreadCache n off) w.
Proof. apply (inert_pread (fun w => dev_fd_cache (w_dev w))). Qed.
Lemma inert_PreadDirect n off w : keeps inert (PreadDirect n off) w.
Proof. apply (inert_pread (fun w => dev_fd_direct (w_dev w))). Qed.
Lemma inert_fresh w : keeps inert fresh w.
Proof. unfold fresh. inert_keeps. Qed.
Lemma inert_get_fd w : keeps inert Fd.get_fd w.
Proof. unfold Fd.get_fd. inert_keeps. Qed.
Lemma inert_put_fd fd w : keeps inert (Fd.put_fd fd) w.
Proof. unfold Fd.put_fd. inert_keeps. Qed.
End Inert.
#[export] Hint Resolve inert_Fsync inert_PreadCache inert_PreadDirect inert_fresh inert_get_fd
  inert_put_fd : keeps.

Section InertOps.
Context `{Env}.

Lemma inert_GetOpenFile fd w : keeps inert (GetOpenFile fd) w.
Proof. unfold GetOpenFile. inert_keeps. Qed.
Lemma inert_file_TransformPath path w : keeps inert (file_TransformPath path) w.
Proof. unfold file_TransformPath. inert_keeps. Qed.
Lemma inert_dir_TransformPath path w : keeps inert (dir_TransformPath path) w.
Proof. unfold dir_TransformPath. inert_keeps. Qed.
Hint Resolve inert_GetOpenFile inert_file_TransformPath inert_dir_TransformPath : keeps.
Lemma inert_GetCreatedDirectory path w : keeps inert (GetCreatedDirectory path) w.
Proof. unfold GetCreatedDirectory. inert_keeps. Qed.
Hint Resolve inert_GetCreatedDirectory : keeps.
Lemma inert_GetCreatedFile path w : keeps inert (GetCreatedFile path) w.
Proof. unfold GetCreatedFile, GetCreatedFile_key. inert_keeps. Qed.
Lemma inert_FindFile dirname filename w : keeps inert (FindFile dirname filename) w.
Proof. unfold FindFile. inert_keeps. Qed.
Hint Resolve inert_GetCreatedFile inert_FindFile : keeps.

Lemma inert_RemoveChildFile d f w : keeps inert (RemoveChildFile d f) w.
Proof. unfold RemoveChildFile, put_dir. inert_keeps. Qed.

Lemma inert_AddChildFile d f w : keeps inert (AddChildFile d f) w.
Proof. unfold AddChildFile, put_dir. inert_keeps. Qed.

Lemma inert_advance_append_pos o r w : keeps inert (advance_append_pos o r) w.
Proof. unfold advance_append_pos. inert_keeps. Qed.
Lemma inert_fill_blocks fuel : forall fb bi boff curr size w,
  keeps inert (fill_blocks fuel fb bi boff curr size) w.
Proof. induction fuel as [|fuel IH]; intros; cbn [fill_blocks]; inert_keeps. Qed.
Lemma inert_read_blocks direct bs : forall total buffer w,
  keeps inert (read_blocks direct bs total buffer) w.
Proof.
  induction bs as [|b bs IH]; intros; cbn [read_blocks]; unfold block_lock, ReadBlockData; inert_keeps.
Qed.
Hint Resolve inert_advance_append_pos inert_fill_blocks inert_read_blocks : keeps.
Lemma inert_PreadFile fd buf len offset w : keeps inert (PreadFile fd buf len offset) w.
Proof. unfold PreadFile, OpenFile_pread, FileReader_ReadData. inert_keeps. Qed.

Lemma inert_dup fd w : keeps inert (FileHandle_dup fd) w.
Proof. unfold FileHandle_dup, File_IncLinkCount. inert_keeps. Qed.
End InertOps.
#[export] Hint Resolve inert_GetOpenFile inert_GetCreatedDirectory inert_file_TransformPath
  inert_GetCreatedFile inert_FindFile inert_RemoveChildFile inert_AddChildFile
  inert_advance_append_pos : keeps.

(** ** Removing a file *)

Section Removal.
Context `{Env}.

Lemma wlp_inert_bind {A B} (m : Fs A) (k : A -> Fs B) Q (df db lf lb : gset Z) (w : world) :
  keeps inert m w -> kept_ok df db lf lb w ->
  (forall a w', m w = Done a w' -> inert w w' -> kept_ok df db lf lb w' -> wlp (k a) Q w') ->
  wlp (bind m k) Q w.
Proof.
  intros Hm Hk Hn. apply wlp_bind. intros a w' Hr. pose proof (Hm a w' Hr).
  apply (Hn a w' Hr); [done|by eapply kept_inert].
Qed.

(** the file block of a file is forgotten when it is not in use any more *)
Lemma kept_drop_items (df db lf lb : gset Z) (w : world) (f : Z) (o : file) :
  kept_ok df db lf lb w -> w_files w !! f = Some o ->
  (forall b m, fo_items o !! 0 = Some b -> w_fbmeta w !! b = Some m -> fb_used m = false) ->
  kept_ok df db lf lb (set_w_files (<[f := set_fo_items ∅ o]> (w_files w)) w).
Proof.
  intros [Hd [Hc Hl Hb] []] Ho Hu. constructor; [|constructor; [done|exact Hl|]|by constructor].
  - by eapply disk_ok_same; [|exact Hd]; constructor.
  - intros b m Hm Hi. specialize (Hb _ _ Hm Hi). unfold fb_linked in *.
    destruct (fb_used m) eqn:Hum; [|done]. destruct Hb as (Ht & g & og & Hg & Hog & Hit).
    split; [done|]. exists g, og. split; [done|]. split; [|done]. cbn.
    rewrite lookup_insert_ne; [done|]. intros <-. simplify_eq. by rewrite (Hu b m) in Hum.
Qed.

(** a file without a record in use and without blocks leaves the maps *)
Lemma kept_drop_file (df db lf lb : gset Z) (w : world) (h : file_handle) (i f : Z) (o : file)
    (m : FileMeta) :
  kept_ok df db lf lb w -> fh_created_fhs (w_fh w) !! i = Some f -> w_files w !! f = Some o ->
  fo_items o = ∅ -> w_filemeta w !! i = Some m -> fm_used m = false ->
  fh_created_fhs h = delete i (fh_created_fhs (w_fh w)) -> kept_ok df db lf lb (set_w_fh h w).
Proof.
  intros [Hd [Hc Hl Hb] []] Hf Ho He Hm Hu Hh. constructor; [|constructor; [done|..]|by constructor].
  - by eapply disk_ok_same; [|exact Hd]; constructor.
  - intros j x Hx Hj. specialize (Hl _ _ Hx Hj). unfold file_linked in *. cbn. rewrite Hh.
    destruct (fm_used x) eqn:Hux; [|done]. destruct Hl as ([g Hg] & ? & ?). split_and!; try done.
    exists g. rewrite lookup_delete_ne; [done|]. intros <-. cbn in Hx. rewrite Hm in Hx. injection Hx as <-.
    by rewrite Hu in Hux.
  - intros b x Hx Hj. specialize (Hb _ _ Hx Hj). unfold fb_linked in *. cbn. rewrite Hh.
    destruct (fb_used x); [|done]. destruct Hb as (Ht & g & og & Hg & Hog & Hit). split; [done|].
    exists g, og. split; [|done]. rewrite lookup_delete_ne; [done|]. intros Heq.
    rewrite <- Heq, Hf in Hg. injection Hg as <-. rewrite Ho in Hog. injection Hog as <-. by rewrite He in Hit.
Qed.

(** *** Its blocks *)

Lemma ReleaseAll_kept (df lf lb : gset Z) (w : world) (fb : Z) (m : FileBlockMeta) :
  kept_ok df ∅ lf lb w -> w_fbmeta w !! fb = Some m ->
  wp (FileBlock_ReleaseAll fb) (fun ok w' => ok = true /\ kept_ok df ∅ lf lb w' /\
    w_files w' = w_files w /\ w_fh w' = w_fh w /\ w_filemeta w' = w_filemeta w /\
    exists m', w_fbmeta w' !! fb = Some m' /\ fb_used m' = false) w.
Proof.
  intros Hk Hm. pose proof (fb_wf _ (dk_base _ _ _ (ko_disk _ _ _ _ _ Hk))) as [Hwf _].
  unfold FileBlock_ReleaseAll. wp_step. eapply wp_get_fbmeta; [exact Hm|].
  wp_step. apply wp_used_blocks; [apply (Hwf _ _ Hm)|].
  destruct (put_blocks_run (fb_blocks m) w) as [b Hput]. wp_step. eapply wp_run; [exact Hput|].
  set (w1 := set_w_bh _ w). assert (Hk1 : kept_ok df ∅ lf lb w1) by (eapply kept_inert; [|exact Hk]; inert).
  wp_step. eapply wp_upd_fbmeta; [exact Hm|]. set (m1 := FileBlock_ClearMeta m).
  assert (Hk2 := kept_fbmeta df ∅ lf lb w1 fb m m1 Hk1 Hm (FileBlock_ClearMeta_ok _ (Hwf _ _ Hm))
    (fun _ => eq_refl)). set (w2 := set_w_fbmeta _ w1) in *.
  wp_step. eapply wp_mono; [apply (kept_write_fb _ _ _ _ _ fb m1 Hk2); apply lookup_insert_eq|].
  intros ok w3 (-> & Hk3 & e & evs & st & Hev & ->). cbn [negb]. unfold PutFileBlockLock. do 3 wp_step.
  replace (({[fb]} ∪ ∅) ∖ {[fb]}) with (∅ : gset Z) in Hk3 by set_solver.
  split_and!; try done; [by eapply kept_inert; [|exact Hk3]; inert|].
  exists (set_fb_crc (fb_crc_of m1) m1). split; [apply lookup_insert_eq|done].
Qed.

(** the file blocks of a file *)
Definition one_block (w : world) (o : file) : Prop :=
  fo_items o = ∅ \/ exists b, fo_items o = {[0 := b]} /\ is_Some (w_fbmeta w !! b).

Lemma RemoveAllFileBlock_kept (df lf lb : gset Z) (w : world) (f : Z) (o : file) :
  kept_ok df ∅ lf lb w -> w_files w !! f = Some o -> one_block w o ->
  wp (RemoveAllFileBlock f) (fun ok w' => ok = true /\ kept_ok df ∅ lf lb w' /\
    w_files w' = <[f := set_fo_items ∅ o]> (w_files w) /\ w_fh w' = w_fh w /\
    w_filemeta w' = w_filemeta w) w.
Proof.
  intros Hk Ho Hi. unfold RemoveAllFileBlock. wp_step. eapply wp_get_file; [exact Ho|].
  wp_step. apply (wp_mono _ (fun ok w' => ok = true /\ kept_ok df ∅ lf lb w' /\ w_files w' = w_files w /\
    w_fh w' = w_fh w /\ w_filemeta w' = w_filemeta w /\ (forall b m, fo_items o !! 0 = Some b ->
      w_fbmeta w' !! b = Some m -> fb_used m = false))).
  { destruct Hi as [He|(b & He & m & Hm)]; rewrite He.
    - rewrite map_order_empty. cbn [release_all]. wp_step. by split_and!.
    - rewrite map_order_singleton. cbn [release_all]. wp_step.
      eapply wp_mono; [by apply (ReleaseAll_kept df lf lb w b m)|].
      intros ok w1 (-> & Hk1 & Hf & Hh & Hfm & m' & Hm' & Hu). cbn [negb]. wp_step. split_and!; try done.
      intros b' m0 Hb' Hm0. rewrite lookup_singleton_Some in Hb'. destruct Hb' as [_ <-]. by simplify_eq. }
  intros ok w1 (-> & Hk1 & Hf & Hh & Hfm & Hu). cbn [negb]. wp_step.
  assert (Ho1 : w_files w1 !! f = Some o) by by rewrite Hf.
  apply (wp_upd_file f _ o); [done|]. wp_step.
  split_and!; try done; [by apply kept_drop_items|cbn; by rewrite Hf].
Qed.

(** *** Its record and its name *)

Lemma File_Release_kept (df lf lb : gset Z) (w : world) (f : Z) (o : file) (m : FileMeta) :
  kept_ok df ∅ lf lb w -> df ⊆ {[fo_meta o]} -> w_files w !! f = Some o ->
  w_filemeta w !! fo_meta o = Some m ->
  wp (File_Release f) (fun ok w' => ok = true /\ kept_ok ∅ ∅ lf lb w' /\ w_files w' = w_files w /\
    w_fh w' = w_fh w /\ exists m', w_filemeta w' !! fo_meta o = Some m' /\ fm_used m' = false) w.
Proof.
  intros Hk Hdf Ho Hm. pose proof (ko_disk _ _ _ _ _ Hk) as Hd. pose proof (dk_base _ _ _ Hd) as Hb.
  pose proof (dk_fh _ _ _ Hd _ _ Hm) as Hfh. cbn in Hfh.
  assert (Hr : 0 <= fo_meta o < sb_max_file_num (w_super w)) by (apply (fb_fm_dom _ Hb); by eexists).
  pose proof (lo_max_file _ (fb_layout _ Hb)). unfold File_Release. wp_step.
  apply (wp_upd_file_meta f _ o m); [done|done|]. set (m1 := File_ClearMeta m).
  assert (Hk1 := kept_filemeta df ∅ lf lb w (fo_meta o) m m1 Hk Hm
    (File_ClearMeta_wf _ (proj2 (fb_wf _ Hb) _ _ Hm)) eq_refl ltac:(done) (fun _ => eq_refl)).
  set (w1 := set_w_filemeta _ w) in *. unfold File_WriteMeta. wp_step.
  eapply wp_run; [by apply (File_fh_run w1 f o m1); [|apply lookup_insert_eq]|].
  change (fm_fh m1) with (fm_fh m). rewrite Hfh, swrap_small by lia.
  eapply wp_mono; [apply (kept_write_file _ ∅ lf lb w1 (fo_meta o) m1 Hk1);
    [set_solver|apply lookup_insert_eq]|].
  intros ok w2 (-> & Hk2 & e & evs & st & Hev & ->). split_and!; try done.
  eexists. split; [apply lookup_insert_eq|done].
Qed.

Lemma RemoveFileNoLock_kept (df db lf lb : gset Z) (w : world) (f : Z) (o : file) (m : FileMeta) :
  kept_ok df db lf lb w -> w_files w !! f = Some o -> fo_items o = ∅ ->
  w_filemeta w !! fo_meta o = Some m -> fm_used m = false ->
  fh_created_fhs (w_fh w) !! fo_meta o = Some f ->
  wlp (RemoveFileNoLock f) (fun _ w' => kept_ok df db lf lb w') w.
Proof.
  intros Hk Ho He Hm Hu Hf. pose proof (ko_disk _ _ _ _ _ Hk) as Hd. pose proof (dk_base _ _ _ Hd) as Hb.
  pose proof (dk_fh _ _ _ Hd _ _ Hm) as Hfh. cbn in Hfh.
  assert (Hr : 0 <= fo_meta o < sb_max_file_num (w_super w)) by (apply (fb_fm_dom _ Hb); by eexists).
  pose proof (lo_max_file _ (fb_layout _ Hb)). unfold RemoveFileNoLock.
  wlp_step. eapply wlp_run; [by apply (File_fh_run w f o m)|].
  wlp_step. eapply wlp_run; [by apply (File_dh_run w f o m)|].
  wlp_step. eapply wlp_run; [by apply (File_file_name_run w f o m)|].
  rewrite Hfh, (swrap_small 32 (fo_meta o)), (wrap_small 64 (fo_meta o)) by lia. do 2 wlp_step.
  destruct (fh_created_files (w_fh w) !! _); [|by wlp_step]. do 2 wlp_step.
  cbn [set_fh_created_files fh_created_fhs]. rewrite Hf. do 3 wlp_step.
  by eapply (kept_drop_file df db lf lb w _ (fo_meta o) f o m).
Qed.

Lemma unlink_file_kept (df : gset Z) (w : world) (d f : Z) (o : file) (m : FileMeta) :
  kept_ok df ∅ ∅ ∅ w -> df ⊆ {[fo_meta o]} -> w_files w !! f = Some o ->
  w_filemeta w !! fo_meta o = Some m -> fh_created_fhs (w_fh w) !! fo_meta o = Some f ->
  one_block w o -> wlp (unlink_file d f) (fun _ => durable) w.
Proof.
  intros Hk Hdf Ho Hm Hf Hi. unfold unlink_file. wlp_step.
  eapply wlp_mono; [by apply wlp_wp, (RemoveAllFileBlock_kept df ∅ ∅ w f o)|].
  intros ok w1 (-> & Hk1 & Hf1 & Hh1 & Hfm1). cbn [negb]. set (o1 := set_fo_items ∅ o) in *.
  assert (Ho1 : w_files w1 !! f = Some o1) by (rewrite Hf1; apply lookup_insert_eq).
  wlp_step. eapply wlp_mono.
  { apply wlp_wp, (File_Release_kept df ∅ ∅ w1 f o1 m Hk1 Hdf Ho1). by rewrite Hfm1. }
  intros ok w2 (-> & Hk2 & Hf2 & Hh2 & m2 & Hm2 & Hu2). cbn [negb].
  unfold RemoveFileFromoDirectory. apply wlp_bind.
  eapply (wlp_inert_bind _ _ _ ∅ ∅ ∅ ∅); [inert_keeps|exact Hk2|]. intros ok w3 Hr3 Hn3 Hk3.
  assert (Hk4 : wlp (RemoveFileNoLock f) (fun _ => durable) w3).
  { destruct (inert_file w2 w3 f o1 Hn3) as (o3 & Ho3 & Hm3 & Hi3); [by rewrite Hf2|].
    apply (RemoveFileNoLock_kept ∅ ∅ ∅ ∅ w3 f o3 m2); try done.
    - rewrite Hm3, (sd_filemeta _ _ (in_disk _ _ Hn3)). exact Hm2.
    - by rewrite Hm3, (in_fhs _ _ Hn3), Hh2, Hh1. }
  destruct ok; cbn [negb]; [|wlp_step; cbn [negb]; by wlp_step].
  eapply wlp_mono; [exact Hk4|]. intros ok w4 Hk5. destruct ok; cbn [negb]; [|by wlp_step].
  unfold set_errno. do 3 wlp_step. eapply kept_inert; [|exact Hk5]. inert.
Qed.
End Removal.

(** ** [unlink], [close] and [dup] *)

Section Descriptors.
Context `{Env}.

(** what the removal of a file needs to know of it *)
Definition removable (w : world) (f : Z) (o : file) (m : FileMeta) : Prop :=
  w_files w !! f = Some o /\ w_filemeta w !! fo_meta o = Some m /\
  fh_created_fhs (w_fh w) !! fo_meta o = Some f /\ one_block w o.

Lemma named_removable (w : world) (key : Z * bytes) (f : Z) :
  fs_inv w -> file_tree w -> fh_created_files (w_fh w) !! key = Some f ->
  exists o m, removable w f o m /\ fm_used m = true.
Proof.
  intros Hi Ht Hk. destruct key as [dh nm].
  destruct (ft_created _ Ht _ _ _ Hk) as (o & m & d & od & Ho & Hm & _ & _ & Hu & Hf & _).
  exists o, m. split; [split_and!; try done|done].
  destruct (FileGrow.file_world w f o Hi Ho) as (m' & _ & [[He _]|(b & r & He & Hb & _)]); [by left|].
  right. exists b. split; [done|by eexists].
Qed.

Lemma removable_inert (w w' : world) (f : Z) (o : file) (m : FileMeta) :
  inert w w' -> removable w f o m -> exists o', removable w' f o' m /\ fo_meta o' = fo_meta o.
Proof.
  intros Hn (Ho & Hm & Hf & Hb). destruct (inert_file w w' f o Hn Ho) as (o' & Ho' & Hm' & Hi').
  exists o'. split; [|done]. unfold removable, one_block.
  by rewrite Hm', Hi', (sd_filemeta _ _ (in_disk _ _ Hn)), (sd_fbmeta _ _ (in_disk _ _ Hn)), (in_fhs _ _ Hn).
Qed.

Lemma FindFile_done (dirname filename : bytes) (w w' : world) (d f : Z) :
  FindFile dirname filename w = Done (Some (d, f)) w' ->
  exists key, fh_created_files (w_fh w') !! key = Some f.
Proof.
  unfold FindFile. intros (dir & w1 & _ & Hr)%bind_done. destruct dir as [dir|];
    [|unfold set_errno in Hr; by inv_bind].
  apply bind_done in Hr as (dh & w2 & _ & Hr). apply bind_done in Hr as (h & w3 & [= <- <-] & Hr).
  destruct (fh_created_files (w_fh w2) !! (dh, filename)) as [g|] eqn:Hg;
    [|unfold set_errno in Hr; by inv_bind].
  injection Hr as <- <- <-. by eexists.
Qed.

Lemma unlink_durable (w : world) (path : bytes) :
  fs_inv w -> file_tree w -> durable w -> wlp (FileHandle_unlink path) (fun _ => durable) w.
Proof.
  intros Hi Ht Hk. unfold FileHandle_unlink.
  eapply (wlp_inert_bind _ _ _ ∅ ∅ ∅ ∅); [inert_keeps|exact Hk|]. intros dir w1 _ Hn1 Hk1.
  destruct dir; [eapply wlp_mono; [eapply kept_inert_keeps; [inert_keeps|exact Hk1]|by intros ?? []]|].
  eapply (wlp_inert_bind _ _ _ ∅ ∅ ∅ ∅); [inert_keeps|exact Hk1|]. intros names w2 _ Hn2 Hk2.
  destruct names as [[dn fn]|]; [|by wlp_step].
  eapply (wlp_inert_bind _ _ _ ∅ ∅ ∅ ∅); [inert_keeps|exact Hk2|]. intros dirs w3 Hr3 Hn3 Hk3.
  destruct dirs as [[d f]|]; [|by wlp_step].
  assert (Hn : inert w w3) by (etrans; [exact Hn1|]; by etrans).
  apply FindFile_done in Hr3 as [key Hkey]. rewrite (in_names _ _ Hn) in Hkey.
  destruct (named_removable w key f Hi Ht Hkey) as (o & m & Hrm & _).
  destruct (removable_inert _ _ _ _ _ Hn Hrm) as (o3 & (Ho3 & Hm3 & Hf3 & Hb3) & _).
  unfold File_LinkCount. do 2 wlp_step. eapply wlp_run; [by apply get_file_run|]. wlp_step.
  destruct (0 <? fo_nlink o3).
  - eapply wlp_mono; [eapply kept_inert_keeps; [inert_keeps|exact Hk3]|by intros ?? []].
  - by apply (unlink_file_kept ∅ w3 d f o3 m).
Qed.

(** the times of a record change and its checksum does not *)
Lemma kept_touch (df : gset Z) (w : world) (i : Z) (m : FileMeta) (t : Z) :
  kept_ok df ∅ ∅ ∅ w -> w_filemeta w !! i = Some m -> in_i 64 t ->
  kept_ok ({[i]} ∪ df) ∅ ∅ ∅
    (set_w_filemeta (<[i := set_fm_ctime t (set_fm_mtime t m)]> (w_filemeta w)) w).
Proof.
  intros Hk Hm Ht. pose proof Hk as [Hd [Hc Hl _] _].
  pose proof (proj2 (fb_wf _ (dk_base _ _ _ Hd)) _ _ Hm) as [].
  apply (kept_filemeta df ∅ ∅ ∅ w i m); try done; [by apply (Hc _ _ Hm)|].
  exact (Hl _ _ Hm).
Qed.

Lemma UnlinkFileNolock_durable (w : world) (f : Z) (o : file) (m : FileMeta) :
  durable w -> in_i 64 (w_now w) -> removable w f o m -> fo_nlink o <= 0 ->
  wlp (UnlinkFileNolock (fo_meta o)) (fun _ => durable) w.
Proof.
  intros Hk Hnow (Ho & Hm & Hf & Hb) Hl. pose proof (ko_disk _ _ _ _ _ Hk) as Hd.
  pose proof (dk_base _ _ _ Hd) as Hbase.
  assert (Hr : 0 <= fo_meta o < sb_max_file_num (w_super w)) by (apply (fb_fm_dom _ Hbase); by eexists).
  pose proof (lo_max_file _ (fb_layout _ Hbase)). unfold UnlinkFileNolock, GetCreatedFile_fh.
  do 4 wlp_step. rewrite wrap_small, Hf by lia.
  wlp_step. eapply wlp_run; [by apply (File_dh_run w f o m)|].
  eapply (wlp_inert_bind _ _ _ ∅ ∅ ∅ ∅); [unfold GetCreatedDirectory_dh; inert_keeps|exact Hk|].
  intros dir w1 Hr1 _ _. apply reads_GetCreatedDirectory_dh in Hr1 as <-.
  destruct dir as [d|];
    [|eapply wlp_mono; [eapply kept_inert_keeps; [inert_keeps|exact Hk]|by intros ?? []]].
  do 2 wlp_step. wlp_step. eapply wlp_wp, (wp_upd_file_meta f _ o m); [done|done|].
  pose proof (kept_touch ∅ w (fo_meta o) m (w_now w) Hk Hm Hnow) as Hk1.
  set (w1 := set_w_filemeta _ w) in *.
  unfold File_LinkCount. do 2 wlp_step. eapply wlp_run; [by apply (get_file_run f o)|]. wlp_step.
  destruct (Z.ltb_spec 0 (fo_nlink o)); [lia|].
  eapply (unlink_file_kept _ w1 d f o); [exact Hk1|set_solver|done|apply lookup_insert_eq|done|done].
Qed.

Lemma close_durable (w : world) (fd : Z) :
  sys_ok w -> durable w -> wlp (FileHandle_close fd) (fun _ => durable) w.
Proof.
  intros Hs Hk. pose proof Hs as [Hi Hd Ht Ho]. unfold FileHandle_close.
  destruct (fh_open_files (w_fh w) !! u64 fd) as [o|] eqn:Hfd.
  2:{ wlp_step. eapply wlp_run; [unfold GetOpenFile, bind, gets; rewrite Hfd; reflexivity|].
      cbv beta iota. wlp_step. eapply kept_inert; [|exact Hk]. inert. }
  wlp_step. eapply wlp_run; [unfold GetOpenFile, bind, gets; rewrite Hfd; reflexivity|]. cbv beta iota.
  wlp_step. intros x w0 [-> Hx]%get_open_done. set (f := of_file x).
  destruct (oo_named _ Ho (u64 fd) f) as [key Hkey].
  { apply opens_of_lookup. by exists o, x. }
  destruct (named_removable w key f Hi Ht Hkey) as (y & m & Hrm & _).
  eapply (wlp_inert_bind _ _ _ ∅ ∅ ∅ ∅); [unfold File_fsync; inert_keeps|exact Hk|]. intros r w1 _ Hn1 Hk1.
  eapply (wlp_inert_bind _ _ _ ∅ ∅ ∅ ∅); [inert_keeps|exact Hk1|]. intros ? w2 _ Hn2 Hk2.
  eapply (wlp_inert_bind _ _ _ ∅ ∅ ∅ ∅); [unfold File_DecLinkCount; inert_keeps|exact Hk2|]. intros ? w3 _ Hn3 Hk3.
  assert (Hn : inert w w3) by (etrans; [exact Hn1|]; by etrans).
  destruct (removable_inert _ _ _ _ _ Hn Hrm) as (y3 & Hrm3 & _). pose proof Hrm3 as (Hy3 & Hm3 & _).
  pose proof (ko_disk _ _ _ _ _ Hk3) as Hdk. pose proof (dk_fh _ _ _ Hdk _ _ Hm3) as Hfh. cbn in Hfh.
  assert (Hr : 0 <= fo_meta y3 < sb_max_file_num (w_super w3))
    by (apply (fb_fm_dom _ (dk_base _ _ _ Hdk)); by eexists).
  pose proof (lo_max_file _ (fb_layout _ (dk_base _ _ _ Hdk))).
  unfold File_LinkCount, File_is_temp. do 2 wlp_step. eapply wlp_run; [by apply get_file_run|]. wlp_step.
  do 2 wlp_step. eapply wlp_run; [by apply (file_meta_run f y3 m)|]. wlp_step.
  wlp_step. eapply wlp_run; [by apply get_file_run|].
  wlp_step. eapply wlp_run; [by apply (File_fh_run w3 f y3 m)|]. rewrite Hfh, swrap_small by lia.
  wlp_step. eapply (wlp_mono _ (fun _ => durable)).
  { destruct (Z.eqb_spec (fo_nlink y3) 0) as [Hz|]; cbn [andb]; [|by wlp_step].
    destruct (_ || _); [|by wlp_step]. wlp_step.
    eapply wlp_mono; [apply (UnlinkFileNolock_durable w3 f y3 m); try done; [|lia]|intros; by wlp_step].
    rewrite (in_now _ _ Hn). apply (fi_now _ Hi). }
  intros _ w4 Hk4. eapply wlp_mono; [eapply kept_inert_keeps; [inert_keeps|exact Hk4]|by intros ?? []].
Qed.

Lemma dup_durable (w : world) (fd : Z) : durable w -> wlp (FileHandle_dup fd) (fun _ => durable) w.
Proof.
  intros Hk. eapply wlp_mono; [eapply kept_inert_keeps; [apply inert_dup|exact Hk]|by intros ?? []].
Qed.
End Descriptors.
