(* ===== verification/DurableGrow.v ===== *)
(** * Creating and writing files on a durable file system

    [CreateFile], [open], the growth of a file and [pwrite] leave the metadata on
    the device, [pwrite] when it does not refuse. *)

From S2P Require Import Prelude Meta Device World SuperBlock Resources Paths FileBlock Inode.
From S2P Require Import Directory FileHandle File OpenFile FileHandleOps FileSystem Io Frames.
From S2P Require Import Invariant MetaSteps Views Content FileGrow FileIO DirSteps Names FileShrink FileNames.
From S2P Require Import FileEntries Unlink OpenFiles AtRest DiskState Durable DurableOps.

(** ** [CreateFile] *)

(** the children of truncated files, which no new file changes *)
Definition children_kept (w w' : world) : Prop :=
  fm_child_fh <$> w_filemeta w' = fm_child_fh <$> w_filemeta w.

#[export] Instance children_kept_preorder : PreOrder children_kept.
Proof. split; [by intros w|]. intros w1 w2 w3 H1 H2. unfold children_kept in *. congruence. Qed.

Lemma children_filemeta (w : world) (i : Z) (m m' : FileMeta) :
  w_filemeta w !! i = Some m -> fm_child_fh m' = fm_child_fh m ->
  children_kept w (set_w_filemeta (<[i := m']> (w_filemeta w)) w).
Proof. intros Hm He. unfold children_kept. cbn. by apply (fmap_insert_id _ _ _ m). Qed.

#[export] Hint Extern 1 (children_kept _ _) => reflexivity : keeps.
#[export] Hint Extern 1 (keeps children_kept (set_errno _) _) => apply keeps_modify; reflexivity : keeps.
#[export] Hint Extern 1 (keeps children_kept (upd_file_meta _ _) _) =>
  apply keeps_upd_file_meta; [exact _|]; intros; by eapply children_filemeta : keeps.

Ltac children := repeat first [keeps_step | reflexivity].

Section Create.
Context `{Env}.

Lemma children_dir_TransformPath path w : keeps children_kept (dir_TransformPath path) w.
Proof. unfold dir_TransformPath. children. Qed.
Hint Resolve children_dir_TransformPath : keeps.
Lemma children_GetCreatedDirectory path w : keeps children_kept (GetCreatedDirectory path) w.
Proof. unfold GetCreatedDirectory. children. Qed.
Lemma children_new_file dh name tmp w : keeps children_kept (new_file dh name tmp) w.
Proof. unfold new_file, put_file, pop_free_fh, fresh. children. Qed.
Hint Resolve children_GetCreatedDirectory children_new_file : keeps.
Lemma children_NewFile dirname filename w : keeps children_kept (NewFile dirname filename false) w.
Proof. unfold NewFile, NewFreeFileNolock, NewFreeTmpFileNolock. children. Qed.

(** the new file is not linked yet, and its record is to be written *)
Lemma kept_new_file (w : world) (i dh : Z) (rest : list Z) (name : bytes) (m : FileMeta) :
  fs_inv w -> (forall f, is_Some (w_files w !! f) -> f < w_next w) ->
  fh_free (w_fh w) = i :: rest -> new_record i dh name false m ->
  children_kept w (with_new_file i rest m w) -> durable w ->
  kept_ok {[i]} ∅ {[i]} ∅ (with_new_file i rest m w).
Proof.
  intros Hi Hn Hfree Hrec Hch Hk. pose proof Hk as [_ [Hc _ _] _].
  destruct (free_record_facts w i rest Hi Hfree) as (_ & _ & _ & _ & m0 & Hm0 & Hfh0 & _).
  set (w1 := set_w_fh (set_fh_free rest (w_fh w))
    (set_w_files (<[w_next w := MkFile i ∅ 0 false false]> (w_files w)) (set_w_next (w_next w + 1) w))).
  assert (Hk1 : durable w1).
  { destruct Hk as [Hd Hl []]. constructor; [by eapply disk_ok_same; [|exact Hd]; constructor| |by constructor].
    eapply link_ok_mono; [..|exact Hl]; try done. intros f o b Ho Hb. exists o. split; [|done].
    cbn. rewrite lookup_insert_ne; [done|]. intros <-. specialize (Hn (w_next w) ltac:(by eexists)). lia. }
  assert (Hk2 : kept_ok ({[i]} ∪ ∅) ∅ {[i]} ∅ (set_w_filemeta (<[i := m]> (w_filemeta w1)) w1)).
  { apply (kept_filemeta ∅ ∅ {[i]} ∅ w1 i m0).
    - by apply (kept_weaken ∅ ∅ ∅ ∅ ∅ {[i]} ∅ ∅); [exact Hk1|set_solver..].
    - done.
    - apply Hrec.
    - rewrite Hfh0. apply Hrec.
    - pose proof (f_equal (lookup i) Hch) as He. rewrite !lookup_fmap, Hm0 in He. cbn in He.
      rewrite lookup_insert_eq in He. injection He as ->. exact (Hc _ _ Hm0).
    - set_solver. }
  apply (kept_weaken ({[i]} ∪ ∅) {[i]} ∅ ∅ {[i]} {[i]} ∅ ∅); [exact Hk2|set_solver..].
Qed.

(** the file is entered in the maps *)
Lemma AddFileNoLock_durable (w : world) (f : Z) (o : file) (m : FileMeta) :
  kept_ok ∅ ∅ {[fo_meta o]} ∅ w -> w_files w !! f = Some o -> w_filemeta w !! fo_meta o = Some m ->
  fh_created_fhs (w_fh w) !! fo_meta o = None -> fm_used m = true -> fm_is_temp m = false ->
  cstr (fm_file_name m) <> [] -> wlp (AddFileNoLock f) (fun _ => durable) w.
Proof.
  intros Hk Ho Hm Hnone Hu Ht Hname. pose proof (ko_disk _ _ _ _ _ Hk) as Hdk.
  pose proof (dk_fh _ _ _ Hdk _ _ Hm) as Hfh. cbn in Hfh.
  assert (Hr : 0 <= fo_meta o < sb_max_file_num (w_super w))
    by (apply (fb_fm_dom _ (dk_base _ _ _ Hdk)); by eexists).
  pose proof (lo_max_file _ (fb_layout _ (dk_base _ _ _ Hdk))). unfold AddFileNoLock.
  wlp_step. eapply wlp_run; [by apply (File_fh_run w f o m)|].
  wlp_step. eapply wlp_run; [by apply (File_dh_run w f o m)|].
  wlp_step. eapply wlp_run; [by apply (File_file_name_run w f o m)|].
  rewrite Hfh, (swrap_small 32 (fo_meta o)), (wrap_small 64 (fo_meta o)) by lia. wlp_step.
  match goal with |- durable ?x => set (w1 := x) end.
  apply (kept_link_file ∅ ∅ ∅ ∅ w1 (fo_meta o) m); [|done|].
  - destruct Hk as [Hd Hl []]. constructor; [by eapply disk_ok_same; [|exact Hd]; constructor| |by constructor].
    apply (link_ok_mono _ _ w); try done; [| |by replace ({[fo_meta o]} ∪ ∅) with ({[fo_meta o]} : gset Z)
      by set_solver].
    + intros i g Hg. cbn. rewrite lookup_insert_ne; [done|]. intros <-. congruence.
    + intros g og b Hog Hb. by exists og.
  - unfold file_linked. rewrite Hu. split_and!; try done. exists f. apply lookup_insert_eq.
Qed.

Lemma GetFileName_nonempty (path : bytes) :
  path <> [] -> ends_with_slash path = false -> GetFileName path <> [].
Proof.
  intros Hne Hs. unfold GetFileName. destruct (rfind slash path) as [p|] eqn:Hp; [|done].
  revert p Hp Hs. induction path as [|b l IH]; [done|]. intros p. cbn [rfind].
  destruct l as [|c l'].
  - cbn. destruct (Z.eqb_spec b slash) as [->|]; [|done]. done.
  - intros Hp Hs. assert (Hs' : ends_with_slash (c :: l') = false) by exact Hs.
    destruct (rfind slash (c :: l')) as [q|].
    + injection Hp as <-. by apply (IH ltac:(done) q).
    + destruct (b =? slash); [|done]. by injection Hp as <-.
Qed.

Lemma cstr_file_name (m : FileMeta) : file_wf m -> meta_file_name m <> [] -> cstr (fm_file_name m) <> [].
Proof.
  intros [] Hn. unfold meta_file_name in Hn. destruct (fm_file_name m) as [|b l]; [done|].
  cbn in *. by destruct (b =? 0).
Qed.

Lemma durable_errno (df db lf lb : gset Z) (e : Z) (w : world) :
  kept_ok df db lf lb w -> kept_ok df db lf lb (set_w_errno e w).
Proof. intros Hk. eapply kept_inert; [|exact Hk]. inert. Qed.

Lemma CreateFile_durable (w : world) (path : bytes) (mode : Z) :
  fs_inv w -> dir_tree w -> file_tree w -> 0 ∉ path -> path <> [] -> durable w ->
  wlp (FileHandle_CreateFile path mode false) (fun _ => durable) w.
Proof.
  intros Hi Hd Ht H0 Hne Hk. unfold FileHandle_CreateFile. cbn [negb].
  wlp_step. eapply wlp_wp, looks_up_wp; [apply file_TransformPath_run|]. intros e.
  destruct (ends_with_slash path) eqn:Hsl; [wlp_step; by apply durable_errno|].
  destruct (Z.leb_spec kBlockFsMaxFileNameLen (Z.of_nat (length (GetFileName path)))) as [Hlen|Hlen];
    [wlp_step; by apply durable_errno|].
  change kBlockFsMaxFileNameLen with 64 in Hlen.
  set (w0 := set_w_errno e w). assert (Hk0 : durable w0) by by apply durable_errno.
  assert (Hi0 : fs_inv w0) by (apply (fs_inv_meta_step w); [apply set_errno_step|done]).
  assert (Ht0 : file_tree w0) by by apply file_tree_errno.
  wlp_step. eapply wlp_mono.
  { apply wlp_and; [|apply children_NewFile]. apply wlp_wp, (NewFile_wp w0); [done|by apply (dir_tree_ext w)|
      by apply GetFileName_no_nul|lia]. }
  intros [[d f]|] w1 [Hnew Hch].
  2:{ destruct Hnew as [[e1 ->] _]. wlp_step. by apply durable_errno. }
  destruct Hnew as (-> & e1 & od & i & rest & m & _ & _ & _ & Hfree & -> & Hrec).
  set (w2 := set_w_errno e1 w0) in *. assert (Hk2 : durable w2) by by apply durable_errno.
  assert (Hi2 : fs_inv w2) by (apply (fs_inv_meta_step w0); [apply set_errno_step|done]).
  destruct (free_record_facts w2 i rest Hi2 Hfree) as (Hr & _ & _ & Hl & _).
  pose proof (lo_max_file _ (fi_layout _ Hi2)).
  pose proof (kept_new_file w2 i _ rest _ m Hi2 (ft_next _ Ht0) Hfree Hrec Hch Hk2) as Hk3.
  set (o := MkFile i ∅ 0 false false).
  assert (Hm3 : w_filemeta (with_new_file i rest m w2) !! fo_meta o = Some m) by apply lookup_insert_eq.
  assert (Ho3 : w_files (with_new_file i rest m w2) !! w_next w0 = Some o) by apply lookup_insert_eq.
  wlp_step. unfold File_WriteMeta. wlp_step. eapply wlp_run; [by apply (File_fh_run _ _ o m)|].
  rewrite (nr_fh _ _ _ _ _ Hrec), swrap_small by lia.
  eapply wlp_mono; [by apply wlp_wp, (kept_write_file _ ∅ {[i]} ∅ _ i m Hk3)|].
  intros ok w3 (-> & Hk4 & e2 & evs & st & Hev & ->). cbn [negb]. unfold AddFileToDirectory. apply wlp_bind.
  eapply (wlp_inert_bind _ _ _ ∅ ∅ {[i]} ∅); [inert_keeps|exact Hk4|]. intros _ w4 _ Hn Hk5.
  set (m' := set_fm_crc (file_crc_of m) m).
  destruct (inert_file _ w4 (w_next w0) o Hn) as (o4 & Ho4 & Hom & _); [exact Ho3|].
  assert (Hm4 : w_filemeta w4 !! fo_meta o4 = Some m').
  { rewrite (sd_filemeta _ _ (in_disk _ _ Hn)), Hom. apply lookup_insert_eq. }
  eapply wlp_mono; [apply (AddFileNoLock_durable w4 _ o4 m' ); try done|].
  - by rewrite Hom.
  - rewrite (in_fhs _ _ Hn), Hom. apply eq_None_not_Some. intros [g Hg]. destruct Hl. apply (created_fhs_live w0 i g Ht0). exact Hg.
  - apply Hrec.
  - apply Hrec.
  - apply cstr_file_name; [apply file_wf_set_crc, Hrec|]. change (meta_file_name m') with (meta_file_name m).
    rewrite (nr_name _ _ _ _ _ Hrec). by apply GetFileName_nonempty.
  - intros ? w5 Hk6. unfold set_errno. do 3 wlp_step. by apply durable_errno.
Qed.

(** ** [open] *)

Lemma open_durable (w : world) (path : bytes) (flags : Z) :
  fs_inv w -> dir_tree w -> file_tree w -> plain_flags flags -> 0 ∉ path -> path <> [] -> durable w ->
  wlp (FileHandle_open path flags) (fun _ => durable) w.
Proof.
  intros Hi Hd Ht [Htmp Htr] H0 Hne Hk. unfold FileHandle_open. wlp_step.
  apply (wlp_mono _ (fun _ => durable)).
  - unfold open_file_of, IsNeedCreateTempFile. rewrite Htmp. cbn [negb]. do 2 wlp_step.
    wlp_step. eapply wlp_wp, looks_up_wp; [apply GetCreatedDirectory_run|]. intros e.
    destruct (lookup_dir w path); [unfold set_errno; do 3 wlp_step; by apply (durable_errno ∅ ∅ ∅ ∅), durable_errno|].
    wlp_step. eapply wlp_wp, looks_up_wp; [by apply GetCreatedFile_run, (dir_tree_ext w)|]. intros e1.
    set (w1 := set_w_errno e1 (set_w_errno e w)).
    assert (Hk1 : durable w1) by by apply (durable_errno ∅ ∅ ∅ ∅), durable_errno.
    destruct (lookup_file _ path).
    + eapply wlp_mono; [eapply kept_inert_keeps; [|exact Hk1]|by intros ?? []].
      unfold VerifyOpenExistFileFlag. rewrite Htr. cbn [andb]. inert_keeps.
    + destruct (has_flag flags O_CREAT).
      * apply CreateFile_durable; try done.
        -- apply (fs_inv_meta_step (set_w_errno e w)); [apply set_errno_step|].
           apply (fs_inv_meta_step w); [apply set_errno_step|done].
        -- by apply (dir_tree_ext w).
        -- by apply (file_tree_errno (set_w_errno e w)), file_tree_errno.
      * unfold set_errno. do 3 wlp_step. by apply durable_errno.
  - intros file w1 Hk1. eapply wlp_mono; [eapply kept_inert_keeps; [|exact Hk1]|by intros ?? []].
    unfold File_IncLinkCount. inert_keeps.
Qed.
End Create.

(** ** Growing a file *)

Section GrowDurable.
Context `{Env}.

(** filling a file block leaves its owner *)
Definition same_owner (b b' : FileBlockMeta) : Prop :=
  fb_fh b' = fb_fh b /\ fb_is_temp b' = fb_is_temp b.

Lemma fill_file_block_owner (fb : Z) (ids : list Z) : forall (w : world) (b : FileBlockMeta),
  w_fbmeta w !! fb = Some b ->
  wlp (fill_file_block fb ids)
    (fun _ w' => exists b', w_fbmeta w' !! fb = Some b' /\ same_owner b b') w.
Proof.
  induction ids as [|i ids IH]; intros w b Hb; cbn [fill_file_block]; [wlp_step; by exists b|].
  wlp_step. eapply wlp_run; [by apply get_fbmeta_run|].
  destruct (negb (is_block_full b)) eqn:Hfull; [|wlp_step; by exists b].
  wlp_step. wlp_step. rename a into b1. wlp_step. apply wlp_wp, wp_put_fbmeta.
  assert (Ho : same_owner b b1).
  { unfold add_block_id in *. rewrite Hfull in *. destruct (_ <=? _); [done|]. by simplify_eq. }
  eapply wlp_mono; [apply (IH _ b1), lookup_insert_eq|]. intros ok w' (b' & Hb' & Ho1 & Ho2).
  exists b'. split; [done|]. destruct Ho. split; congruence.
Qed.

Lemma fill_file_block_kept (lb : gset Z) (w : world) (fb : Z) (b : FileBlockMeta) (ids : list Z) :
  kept_ok ∅ lb ∅ lb w -> w_fbmeta w !! fb = Some b -> Forall (in_u 32) ids -> fb ∈ lb ->
  wlp (fill_file_block fb ids) (fun ok w' => kept_ok ∅ lb ∅ lb w' /\ exists b',
    w' = set_w_fbmeta (<[fb := b']> (w_fbmeta w)) w /\ fb_meta_ok b' /\ same_owner b b' /\
    fb_used b' = fb_used b /\ fb_file_cut b' = fb_file_cut b) w.
Proof.
  intros Hk Hb Hids Hin. pose proof (proj1 (fb_wf _ (dk_base _ _ _ (ko_disk _ _ _ _ _ Hk))) _ _ Hb) as Hok.
  eapply wlp_mono; [apply wlp_and; [by apply wlp_wp, (fill_file_block_wp fb ids w b)|
    by apply (fill_file_block_owner fb ids w b)]|].
  intros ok w' ((b' & ids' & _ & -> & Hok' & Hv & _) & b0 & Hb0 & Ho).
  cbn in Hb0. rewrite lookup_insert_eq in Hb0. injection Hb0 as <-. injection Hv as Hu Hc _.
  split; [|by exists b'].
  apply (kept_weaken ∅ ∅ ({[fb]} ∪ lb) lb ∅ ∅ lb lb); [|set_solver..].
  by apply (kept_fbmeta ∅ lb ∅ lb w fb b).
Qed.

(** the file block is written and belongs to the file *)
Lemma kept_attach (w : world) (f fb : Z) (o : file) (b : FileBlockMeta) :
  kept_ok ∅ ∅ ∅ {[fb]} w -> w_files w !! f = Some o -> fo_items o = ∅ -> w_fbmeta w !! fb = Some b ->
  fb_used b = true -> fb_is_temp b = false -> fh_created_fhs (w_fh w) !! fb_fh b = Some f ->
  durable (set_w_files (<[f := set_fo_items {[0 := fb]} o]> (w_files w)) w).
Proof.
  intros [Hd Hl []] Ho He Hb Hu Ht Hf. set (w1 := set_w_files _ w).
  apply (kept_link_fb ∅ ∅ ∅ ∅ w1 fb b); [|exact Hb|].
  - constructor; [by eapply disk_ok_same; [|exact Hd]; constructor| |by constructor].
    apply (link_ok_mono _ _ w); try done; [|by replace ({[fb]} ∪ ∅) with ({[fb]} : gset Z) by set_solver].
    intros g og c Hg Hc. exists og. split; [|done]. cbn. rewrite lookup_insert_ne; [done|].
    intros <-. simplify_eq. by rewrite He in Hc.
  - unfold fb_linked. rewrite Hu. split; [done|]. exists f, (set_fo_items {[0 := fb]} o).
    split_and!; [exact Hf|apply lookup_insert_eq|apply lookup_singleton_eq].
Qed.

(** what is left of the file for the end of [ExtendFile] *)
Definition attached (w : world) (f : Z) (o : file) (w' : world) : Prop :=
  durable w' /\ w_filemeta w' = w_filemeta w /\
  exists o', w_files w' !! f = Some o' /\ fo_meta o' = fo_meta o.

Lemma extend_attach_new_durable (w : world) (f fb : Z) (o : file) (m : FileMeta) (b : FileBlockMeta)
    (ids : list Z) :
  durable w -> removable w f o m -> fo_items o = ∅ -> fm_is_temp m = false ->
  w_fbmeta w !! fb = Some b -> ids <> [] -> Forall (in_u 32) ids ->
  wlp (extend_attach f fb true ids) (fun ok w' => ok = true -> attached w f o w') w.
Proof.
  intros Hk (Ho & Hm & Hf & _) He Ht Hb Hne Hids. pose proof (ko_disk _ _ _ _ _ Hk) as Hdk.
  pose proof (dk_base _ _ _ Hdk) as Hbase. pose proof (proj1 (fb_wf _ Hbase) _ _ Hb) as Hok.
  pose proof (dk_fh _ _ _ Hdk _ _ Hm) as Hfh. cbn in Hfh.
  assert (Hr : 0 <= fo_meta o < sb_max_file_num (w_super w)) by (apply (fb_fm_dom _ Hbase); by eexists).
  pose proof (lo_max_file _ (fb_layout _ Hbase)). unfold extend_attach.
  wlp_step. eapply wlp_run; [by apply (file_meta_run f o m)|].
  wlp_step. eapply wlp_wp, wp_upd_fbmeta; [exact Hb|].
  rewrite Hfh, swrap_small, wrap_small, Ht by lia. set (b1 := set_fb_is_temp _ _).
  assert (Hok1 : fb_meta_ok b1).
  { destruct Hok as [[] ?]. split; [|done]. constructor; try done. cbn. unfold in_u. lia. }
  assert (Hk1 : kept_ok ∅ {[fb]} ∅ {[fb]} (set_w_fbmeta (<[fb := b1]> (w_fbmeta w)) w)).
  { apply (kept_weaken ∅ ∅ ({[fb]} ∪ ∅) {[fb]} ∅ ∅ {[fb]} {[fb]}); [|set_solver..].
    apply (kept_fbmeta ∅ ∅ ∅ {[fb]} w fb b); [|done|done|set_solver].
    apply (kept_weaken ∅ ∅ ∅ ∅ ∅ ∅ ∅ {[fb]}); [exact Hk|set_solver..]. }
  set (w1 := set_w_fbmeta _ w) in *. wlp_step.
  eapply wlp_mono; [apply (fill_file_block_kept {[fb]} w1 fb b1); [done|apply lookup_insert_eq|done|set_solver]|].
  intros ok w2 (Hk2 & b2 & -> & Hok2 & [Hof Hot] & Hu & Hc). destruct ok; cbn [negb]; [|by wlp_step].
  set (w2 := set_w_fbmeta _ w1) in *. destruct ids as [|id ids]; [done|]. wlp_step.
  eapply wlp_mono; [by apply wlp_wp, (kept_write_fb ∅ {[fb]} ∅ {[fb]} w2 fb b2 Hk2), lookup_insert_eq|].
  intros ok w3 (-> & Hk3 & e & evs & st & Hev & ->). cbn [negb].
  rewrite difference_diag_L in Hk3. set (b3 := set_fb_crc (fb_crc_of b2) b2).
  match goal with |- wlp _ _ ?x => set (w3 := x) in * end.
  assert (Hb3 : w_fbmeta w3 !! fb = Some b3) by apply lookup_insert_eq.
  wlp_step. eapply wlp_run.
  { apply (AddFileBlockNoLock_run w3 f o fb b3); done. }
  wlp_step. intros _. split_and!; [|done|].
  - apply (kept_attach w3 f fb o b3); try done. cbn. by rewrite Hof.
  - exists (set_fo_items {[0 := fb]} o). split; [apply lookup_insert_eq|done].
Qed.

Lemma extend_attach_old_durable (w : world) (f fb : Z) (o : file) (m : FileMeta) (b : FileBlockMeta)
    (ids : list Z) :
  durable w -> removable w f o m -> w_fbmeta w !! fb = Some b -> fb_used b = true ->
  Forall (in_u 32) ids ->
  wlp (extend_attach f fb false ids) (fun ok w' => ok = true -> attached w f o w') w.
Proof.
  intros Hk (Ho & Hm & Hf & _) Hb Hu Hids. unfold extend_attach.
  wlp_step. eapply wlp_run; [by apply (file_meta_run f o m)|]. do 2 wlp_step.
  destruct ids as [|id ids].
  { cbn [fill_file_block]. do 2 wlp_step. cbn [negb]. wlp_step. intros _. split_and!; [done..|]. by exists o. }
  assert (Hk1 : kept_ok ∅ {[fb]} ∅ {[fb]} w).
  { apply (kept_weaken ∅ ∅ ∅ {[fb]} ∅ ∅ ∅ {[fb]}); [exact Hk|set_solver..]. }
  wlp_step. eapply wlp_mono; [apply (fill_file_block_kept {[fb]} w fb b); [done..|set_solver]|].
  intros ok w2 (Hk2 & b2 & -> & Hok2 & [Hof Hot] & Hu2 & Hc). destruct ok; cbn [negb]; [|by wlp_step].
  set (w2 := set_w_fbmeta _ w) in *. wlp_step.
  eapply wlp_mono; [by apply wlp_wp, (kept_write_fb ∅ {[fb]} ∅ {[fb]} w2 fb b2 Hk2), lookup_insert_eq|].
  intros ok w3 (-> & Hk3 & e & evs & st & Hev & ->). cbn [negb].
  rewrite difference_diag_L in Hk3. set (b3 := set_fb_crc (fb_crc_of b2) b2).
  do 1 wlp_step. intros _. split_and!; [|done|by exists o].
  apply (kept_link_fb ∅ ∅ ∅ ∅ _ fb b3); [|apply lookup_insert_eq|].
  - by replace ({[fb]} ∪ ∅) with ({[fb]} : gset Z) by set_solver.
  - pose proof (lk_fbs _ _ _ (ko_link _ _ _ _ _ Hk) _ _ Hb ltac:(set_solver)) as Hl.
    unfold fb_linked in *. cbn [fb_used b3 set_fb_crc]. rewrite Hu2. rewrite Hu in Hl |- *. cbn. by rewrite Hof, Hot.
Qed.

Lemma extend_set_size_durable (w : world) (f offset : Z) (o : file) (m : FileMeta) :
  durable w -> w_files w !! f = Some o -> w_filemeta w !! fo_meta o = Some m -> fm_used m = true ->
  0 <= offset < 2 ^ 64 -> wlp (extend_set_size f offset) (fun _ => durable) w.
Proof.
  intros Hk Ho Hm Hu Hoff. pose proof Hk as [Hdk [Hc Hl _] _]. pose proof (dk_base _ _ _ Hdk) as Hbase.
  pose proof (proj2 (fb_wf _ Hbase) _ _ Hm) as Hwf.
  pose proof (dk_fh _ _ _ Hdk _ _ Hm) as Hfh. cbn in Hfh.
  assert (Hr : 0 <= fo_meta o < sb_max_file_num (w_super w)) by (apply (fb_fm_dom _ Hbase); by eexists).
  pose proof (lo_max_file _ (fb_layout _ Hbase)). unfold extend_set_size.
  wlp_step. eapply wlp_wp, (wp_upd_file_meta f _ o m); [done|done|]. set (m1 := set_fm_size offset m).
  assert (Hk1 : kept_ok ({[fo_meta o]} ∪ ∅) ∅ ∅ ∅ (set_w_filemeta (<[fo_meta o := m1]> (w_filemeta w)) w)).
  { apply (kept_filemeta ∅ ∅ ∅ ∅ w (fo_meta o) m); try done; [by destruct Hwf; constructor|exact (Hc _ _ Hm)|].
    intros Hi. specialize (Hl _ _ Hm Hi). unfold file_linked in *. cbn. by rewrite Hu in *. }
  set (w1 := set_w_filemeta _ w) in *. wlp_step. unfold File_WriteMeta. wlp_step.
  eapply wlp_run; [by apply (File_fh_run w1 f o m1); [|apply lookup_insert_eq]|].
  change (fm_fh m1) with (fm_fh m). rewrite Hfh, swrap_small by lia.
  eapply wlp_mono; [apply wlp_wp, (kept_write_file _ ∅ ∅ ∅ w1 (fo_meta o) m1 Hk1);
    [set_solver|apply lookup_insert_eq]|].
  intros ok w2 (-> & Hk2 & _). wlp_step. exact Hk2.
Qed.

(** the end of [ExtendFile] when the file block is attached *)
Lemma extend_end_durable (w w1 : world) (f fb offset : Z) (need : bool) (o : file) (m : FileMeta)
    (ids : list Z) :
  w_filemeta w1 = w_filemeta w -> w_filemeta w !! fo_meta o = Some m -> fm_used m = true ->
  0 <= offset < 2 ^ 64 ->
  wlp (extend_attach f fb need ids) (fun ok w' => ok = true -> attached w1 f o w') w1 ->
  wlp (let! ok := extend_attach f fb need ids in
       if negb ok then ret (-1) else extend_set_size f offset) (fun r w' => r = 0 -> durable w') w1.
Proof.
  intros Hfm Hm Hu Hoff Hat. wlp_step. eapply wlp_mono; [exact Hat|]. intros ok w2 Hok.
  destruct ok; cbn [negb]; [|by wlp_step]. destruct (Hok eq_refl) as (Hk2 & Hfm2 & o2 & Ho2 & Hom).
  eapply wlp_mono; [apply (extend_set_size_durable w2 f offset o2 m); try done|by intros].
  by rewrite Hfm2, Hfm, Hom.
Qed.

Lemma ExtendFile_durable (w : world) (f offset : Z) (o : file) (m : FileMeta) :
  fs_inv w -> durable w -> removable w f o m -> fm_used m = true ->
  file_size (view_of w) f < offset < 2 ^ 64 ->
  wlp (ExtendFile f offset) (fun r w' => r = 0 -> durable w') w.
Proof.
  intros Hi Hk Hrm Hu Hoff. pose proof Hrm as (Ho & Hm & Hf & _).
  destruct (file_world w f o Hi Ho) as (m' & Hff & Hcase). pose proof Hff as (_ & Hm' & _ & _ & _ & Hsz).
  rewrite Hm in Hm'. injection Hm' as <-. pose proof (lo_device_max _ (fi_layout _ Hi)) as Hmax.
  pose proof (file_size_nonneg _ _ (fi_inv _ Hi) f) as Hnn. rewrite Hsz in *.
  assert (Ht : fm_is_temp m = false).
  { pose proof (lk_files _ _ _ (ko_link _ _ _ _ _ Hk) _ _ Hm ltac:(set_solver)) as Hl.
    unfold file_linked in Hl. rewrite Hu in Hl. apply Hl. }
  unfold ExtendFile. do 2 wlp_step. destruct (Z.ltb_spec (sb_device_size (w_super w)) offset); [by wlp_step|].
  wlp_step. eapply wlp_run; [by apply (file_meta_run f o m)|].
  rewrite num_blocks_needed_eq by lia. wlp_step.
  destruct (extend_file_block_run w f o m Hi Hff)
    as [[Hr _]|[(Hz & fb & rest & Hfree & Hr)|(fb & b & Hfb & _ & Hr)]];
    (eapply wlp_run; [exact Hr|]); cbv beta iota; [by wlp_step|..].
  - set (w1 := set_w_free_fbhs rest w). assert (Hn1 : inert w w1) by inert.
    pose proof (blocks_for_pos offset ltac:(lia)) as Hpos. rewrite Hz, blocks_for_0, Z.sub_0_r.
    wlp_step. destruct (extend_block_ids_run (blocks_for offset) fb true w1)
      as [(_ & _ & Hr2)|(ids & h & Hr2 & _ & Hlen & _ & Hin)]; [lia| |];
      (eapply wlp_run; [exact Hr2|]); cbv beta iota; [by wlp_step|].
    set (w2 := set_w_bh h w1). assert (Hn2 : inert w w2) by (etrans; [exact Hn1|]; inert).
    destruct (proj2 (i_free_fb _ _ (fi_inv _ Hi)) fb) as (bv & Hb & _ & _).
    { cbn. rewrite Hfree. set_solver. }
    apply view_fb_lookup in Hb as (b & Hb & _).
    apply (extend_end_durable w w2 f fb offset true o m ids); try done; [lia|].
    apply (extend_attach_new_durable w2 f fb o m b ids); try done.
    + by eapply kept_inert; [|exact Hk].
    + destruct Hcase as [(He & _)|(fb' & b' & Hfb)]; [done|].
      destruct Hfb as (_ & _ & _ & _ & _ & _ & Hs & _). lia.
    + intros ->. cbn in Hlen. lia.
    + by apply (pool_ids_u32 w).
  - pose proof Hfb as (_ & Hb & _ & _ & Hbu & _ & Hs & _).
    pose proof (blocks_for_mono (fm_size m) offset ltac:(lia)) as Hmono.
    wlp_step. destruct (extend_block_ids_run (blocks_for offset - blocks_for (fm_size m)) fb false w)
      as [(_ & _ & Hr2)|(ids & h & Hr2 & _ & Hlen & _ & Hin)]; [lia| |];
      (eapply wlp_run; [exact Hr2|]); cbv beta iota; [by wlp_step|].
    set (w2 := set_w_bh h w). assert (Hn2 : inert w w2) by inert.
    apply (extend_end_durable w w2 f fb offset false o m ids); try done; [lia|].
    apply (extend_attach_old_durable w2 f fb o m b ids); try done.
    + by eapply kept_inert; [|exact Hk].
    + by apply (pool_ids_u32 w).
Qed.

(** ** [pwrite] *)

Lemma UpdateTimeStamp_durable (w : world) (f t : Z) (o : file) (m : FileMeta) :
  durable w -> w_files w !! f = Some o -> w_filemeta w !! fo_meta o = Some m -> in_i 64 t ->
  wlp (File_UpdateTimeStamp f t) (fun _ => durable) w.
Proof.
  intros [Hd [Hc Hl Hb] []] Ho Hm Ht. unfold File_UpdateTimeStamp.
  apply wlp_wp, (wp_upd_file_meta f _ o m); [done|done|]. cbv zeta.
  set (m1 := set_fm_ctime t (set_fm_mtime t m)).
  assert (Hwf1 : file_wf m1) by (destruct (proj2 (fb_wf _ (dk_base _ _ _ Hd)) _ _ Hm); by constructor).
  pose proof (file_wf_set_crc _ Hwf1) as Hwf. set (m2 := set_fm_crc (file_crc_of m1) m1) in *.
  constructor; [by apply (disk_ok_times ∅ ∅ w (fo_meta o) m)| |by constructor].
  constructor; cbn; [|apply map_Forall_insert_2; [|done]|done].
  - apply map_Forall_insert_2; [exact (Hc _ _ Hm)|done].
  - intros Hi. exact (Hl _ _ Hm Hi).
Qed.

(** the bytes of a file change, no record does *)
Lemma kept_transfer (w w' : world) (o r : Z) (x : open_file) :
  durable w -> rw_step w o x r w' ->
  (forall a, a < sb_block_data_start_offset (w_super w) ->
     st_get (w_store w') a = st_get (w_store w) a) -> durable w'.
Proof.
  intros Hk Hst Hout. pose proof (dk_good _ _ _ (ko_disk _ _ _ _ _ Hk)) as Hg.
  pose proof (rw_step_good _ _ _ _ _ Hg Hst) as Hg'. destruct Hst as (w1 & Hio & _ & Hw).
  rewrite Hio in Hw. destruct Hk as [Hd [Hc Hl Hb] []]. subst w'. constructor.
  - by apply (disk_ok_data ∅ ∅ w).
  - by constructor.
  - by constructor.
Qed.

Lemma pwrite_rest_durable (w : world) (o f : Z) (x : open_file) (buf : bytes) (offset : Z) :
  fs_inv w -> durable w -> range_ok w o f x offset (Z.of_nat (length buf)) ->
  wlp (let! seconds := gets w_now in
       (if seconds mod 2 =? 0 then File_UpdateTimeStamp f seconds else ret tt) ;;
       FileWriter_WriteData o buf (Z.of_nat (length buf)) offset false) (fun _ => durable) w.
Proof.
  intros Hi Hk Hr. pose proof Hr as (Hx & Hf & Hex & Hlk & Ho & Hs & Hfit). pose proof Hex as [ob Hob].
  destruct (file_world w f ob Hi Hob) as (m & (_ & Hm & _) & _). do 2 wlp_step.
  apply wlp_bind. apply (wlp_mono _ (fun _ w1 => meta_step w w1 /\ durable w1)).
  { destruct (_ =? 0); [|by wlp_step]. apply wlp_and.
    - apply wlp_wp, File_UpdateTimeStamp_wp; try done. apply Hi.
    - apply (UpdateTimeStamp_durable w f _ ob m); try done. apply Hi. }
  intros _ w1 [Hms Hk1]. pose proof (fs_inv_meta_step _ _ Hms Hi) as Hi1.
  pose proof (ms_env _ _ Hms) as HE.
  assert (Hr1 : range_ok w1 o f x offset (Z.of_nat (length buf))).
  { split_and!; try done; [by rewrite (es_opens _ _ HE)|by eapply meta_step_file|
      by rewrite (es_super _ _ HE)|by rewrite (ms_view _ _ Hms)]. }
  eapply wlp_mono; [by apply wlp_wp, (WriteData_wp w1 o f x offset _ Hi1 Hr1)|].
  intros r w' (Hst & _ & Hout & _). by eapply kept_transfer.
Qed.

Lemma PwriteFile_durable (w : world) (fd : Z) (buf : bytes) (offset : Z) :
  sys_ok w -> durable w -> sb_curr_block_num (w_super w) <= kBlockLocks ->
  buf <> [] -> 0 <= offset -> offset + Z.of_nat (length buf) < 2 ^ 63 ->
  wlp (PwriteFile fd buf offset) (fun r w' => r <> -1 -> durable w') w.
Proof.
  intros [Hi Hd Ht Ho] Hk Hlk Hne Hoff Hmax. unfold PwriteFile, GetOpenFile. do 3 wlp_step.
  destruct (fh_open_files (w_fh w) !! u64 fd) as [o|] eqn:Hfd; [|unfold set_errno; repeat wlp_step; by intros []].
  wlp_step. rewrite wrap_small by lia. unfold OpenFile_pwrite.
  assert (Hlen : 0 < Z.of_nat (length buf)) by (destruct buf; cbn; [done|lia]).
  destruct (Z.eqb_spec (Z.of_nat (length buf)) 0); [lia|].
  wlp_step. intros x w0 [-> Hx]%get_open_done. set (f := of_file x).
  destruct (oo_named _ Ho (u64 fd) f) as [key Hkey]; [apply opens_of_lookup; by exists o, x|].
  destruct (named_removable w key f Hi Ht Hkey) as (y & m & Hrm & Hu).
  assert (Hex : is_Some (w_files w !! f)) by (destruct Hrm as (Hy & _); by eexists).
  wlp_step. apply wlp_wp, File_file_size_wp; [done..|]. rewrite wrap_small by lia. wlp_step.
  destruct (Z.ltb_spec (file_size (view_of w) f) (offset + Z.of_nat (length buf))) as [Hgrow|Hin].
  - wlp_step. unfold File_ftruncate. wlp_step. apply wlp_wp, File_file_size_wp; [done..|].
    rewrite (proj2 (Z.ltb_lt _ _) Hgrow).
    eapply wlp_mono; [apply wlp_and; [apply wlp_wp, (ExtendFile_wp w f); [done|done|lia]|
      apply (ExtendFile_durable w f _ y m); try done; lia]|].
    intros r w1 [Hp Hk1]. wlp_step. destruct (Z.leb_spec 0 r) as [Hr|Hr]; cbn [negb]; [|by wlp_step].
    assert (r = 0) as -> by (destruct (xp_ret _ _ _ _ _ Hp); lia).
    pose proof (xp_env _ _ _ _ _ Hp) as HE.
    eapply wlp_mono; [apply (pwrite_rest_durable w1 o f x buf offset)|by intros].
    + apply Hp.
    + by apply Hk1.
    + split_and!; try done; [by rewrite (es_opens _ _ HE)| |by rewrite (es_super _ _ HE)|].
      * destruct Hex as [ob Hob]. apply view_file_exists, (xp_file _ _ _ _ _ Hp).
        rewrite (view_files_lookup _ _ _ Hob). eauto.
      * destruct (xp_blocks _ _ _ _ _ Hp) as (new & _ & Hr0).
        rewrite (proj1 (Hr0 eq_refl)). lia.
  - wlp_step. cbn [negb].
    eapply wlp_mono; [apply (pwrite_rest_durable w o f x buf offset); [done|done|by split_and!]|by intros].
Qed.
End GrowDurable.
