(* ===== verification/Restart.v ===== *)
(** * Restarting

    A durable world describes, up to the times of files, the device as a mount
    reads it: it is at rest once its records carry the times of the device. *)

From S2P Require Import Prelude Meta Device World SuperBlock Resources Paths FileBlock Inode.
From S2P Require Import Directory FileHandle FileHandleOps FileSystem Io Invariant MetaSteps.
From S2P Require Import Content DirSteps Names FileNames OpenFiles Session Load AtRest DiskState Durable.

Section Restart.
Context `{Env}.

(** the file records of the device *)
Definition device_files (w : world) : gmap Z FileMeta :=
  map_imap (fun i _ => Some (decode_file (st_read (w_store w) (file_addr w i) 256))) (w_filemeta w).

(** the world with the times of the device *)
Definition as_on_device (w : world) : world := set_w_filemeta (device_files w) w.

Lemma untimed_eq (m m' : FileMeta) :
  untimed m' = untimed m -> fm_fh m' = fm_fh m /\ fm_used m' = fm_used m /\ fm_size m' = fm_size m /\
  fm_dh m' = fm_dh m /\ fm_is_temp m' = fm_is_temp m /\ fm_child_fh m' = fm_child_fh m /\
  fm_file_name m' = fm_file_name m /\ meta_file_name m' = meta_file_name m.
Proof.
  destruct m, m'. unfold untimed, meta_file_name. cbn. intros Hu. injection Hu as. subst. by split_and!.
Qed.

Lemma device_files_lookup (w : world) (i : Z) (m : FileMeta) :
  disk_ok ∅ ∅ w -> w_filemeta w !! i = Some m ->
  exists m', device_files w !! i = Some m' /\ file_wf m' /\ fm_crc m' = file_crc_of m' /\
    untimed m' = untimed m /\ st_read (w_store w) (file_addr w i) 256 = encode_file m'.
Proof.
  intros Hd Hm. destruct (dk_files _ _ _ Hd _ _ Hm ltac:(set_solver)) as (m' & Hwf & Hc & Hu & Hr).
  exists m'. unfold device_files. rewrite map_lookup_imap, Hm. cbn [mbind option_bind]. rewrite Hr.
  by rewrite decode_encode_file_aux.
Qed.

Lemma device_files_inv (w : world) (i : Z) (m' : FileMeta) :
  disk_ok ∅ ∅ w -> device_files w !! i = Some m' ->
  exists m, w_filemeta w !! i = Some m /\ file_wf m' /\ fm_crc m' = file_crc_of m' /\
    untimed m' = untimed m /\ st_read (w_store w) (file_addr w i) 256 = encode_file m'.
Proof.
  intros Hd Hm'. destruct (w_filemeta w !! i) as [m|] eqn:Hm.
  - destruct (device_files_lookup w i m Hd Hm) as (m2 & Hm2 & ?). exists m. by simplify_eq.
  - unfold device_files in Hm'. by rewrite map_lookup_imap, Hm in Hm'.
Qed.

Lemma as_on_device_step (w : world) : disk_ok ∅ ∅ w -> meta_step w (as_on_device w).
Proof.
  intros Hd. constructor; try done.
  - constructor; try done. intros [Hb _]. split; [done|]. intros i m' Hm'.
    by apply (device_files_inv w i m' Hd) in Hm' as (_ & _ & ? & _).
  - unfold view_of. cbn. f_equal. apply map_eq. intros i. rewrite !lookup_fmap.
    destruct (w_filemeta w !! i) as [m|] eqn:Hm.
    + destruct (device_files_lookup w i m Hd Hm) as (m' & -> & _ & _ & (Hf & Hu & Hz & _)%untimed_eq & _).
      cbn [fmap option_fmap option_map]. unfold view_fm. by rewrite Hf, Hu, Hz.
    + destruct (device_files w !! i) as [m'|] eqn:Hm'; [|done].
      apply (device_files_inv w i m' Hd) in Hm' as (m & Hm0 & _). by rewrite Hm in Hm0.
Qed.

Lemma durable_at_rest (w : world) :
  fs_inv w -> dir_tree w -> file_tree w -> durable w -> at_rest (as_on_device w).
Proof.
  intros Hi Hdt Hft [Hd [Hc Hl Hb] [Hroot Hrec Hused]]. pose proof (as_on_device_step w Hd) as Hms.
  assert (Hdir : forall i, dir_rec (as_on_device w) i = dir_rec w i) by done.
  assert (Hin : forall i, i ∉ (∅ : gset Z)) by set_solver.
  constructor; try done; try apply Hd.
  - by apply (fs_inv_meta_step w).
  - by apply (dir_tree_ext w).
  - apply (file_tree_ext w); try done. intros i m Hm.
    destruct (device_files_lookup w i m Hd Hm) as (m' & Hm' & _ & _ & Hu%untimed_eq & _). exists m'.
    split; [done|]. by destruct Hu as (_ & ? & _ & ? & _ & _ & _ & ?).
  - constructor.
    + apply Hd.
    + intros i Hr. by apply (dk_dirs _ _ _ Hd).
    + intros i Hr. apply (fb_fm_dom _ (dk_base _ _ _ Hd)) in Hr as [m Hm].
      destruct (device_files_lookup w i m Hd Hm) as (m' & Hm' & _ & _ & _ & He). unfold file_rec.
      change (w_filemeta (as_on_device w)) with (device_files w). by rewrite Hm'.
    + intros b Hr. apply (fb_fb_dom _ (dk_base _ _ _ Hd)) in Hr as [m Hm]. unfold fb_rec.
      change (w_fbmeta (as_on_device w)) with (w_fbmeta w). rewrite Hm.
      by apply (dk_fbs _ _ _ Hd _ _ Hm).
  - intros i m' (m & Hm & _ & ? & (Hf & _)%untimed_eq & _)%(device_files_inv w i m' Hd). split; [done|].
    rewrite Hf. by apply (dk_fh _ _ _ Hd).
  - intros b m Hm. by apply (dk_fbs _ _ _ Hd _ _ Hm).
  - intros i m' (m & Hm & _ & _ & Hu%untimed_eq & _)%(device_files_inv w i m' Hd).
    destruct Hu as (_ & Hu & Hz & _ & Ht & Hch & Hn & _). specialize (Hl _ _ Hm (Hin i)). unfold file_linked in Hl.
    rewrite Hu, Hz, Ht, Hch, Hn. destruct (fm_used m); [|done]. destruct Hl as (? & ? & ?).
    split_and!; try done. exact (Hc _ _ Hm).
  - intros b m Hm. specialize (Hb _ _ Hm (Hin b)). unfold fb_linked in Hb.
    destruct (fb_used m); [|done]. destruct Hb as (Ht & f & o & Hf & Ho & Hit). split; [done|].
    destruct (ft_fhs _ Hft _ _ Hf) as (_ & o' & _ & Ho' & Hm'). rewrite Ho in Ho'. injection Ho' as <-.
    exists f, o. rewrite <- Hm'. split_and!; try done. by rewrite Hm'.
Qed.

(** what clients see does not depend on the times *)
Lemma as_on_device_view (w : world) :
  fs_inv w -> disk_ok ∅ ∅ w -> a_dirs (abs (as_on_device w)) = a_dirs (abs w) /\
  name_contents (as_on_device w) = name_contents w.
Proof.
  intros Hi Hd. split; [done|]. unfold name_contents. apply map_fmap_ext. intros key f _.
  by apply file_content_meta_step, as_on_device_step.
Qed.

(** the other way around: what a mount finds is durable *)
Lemma at_rest_durable (w : world) :
  at_rest w -> dev_good w -> map_Forall (fun _ m => fm_child_fh m <= 0) (w_filemeta w) -> durable w.
Proof.
  intros Hr Hg Hch. pose proof Hr as [Hs Hi Hdt Hft [Hsb Hds Hfs Hbs] Hroot Hdr Hfr Hbr Hdu Hfu Hbu].
  pose proof (fs_inv_base _ Hi) as Hb. constructor; constructor; try done.
  - intros i m Hm. by apply (Hfr i).
  - intros i m Hm _. by apply (Hfr i).
  - intros i m Hm _. exists m. pose proof (Hfr _ _ Hm) as [Hc Hf]. pose proof (proj2 (fb_wf _ Hb) _ _ Hm) as Hwf.
    split_and!; try done.
    assert (Hri : 0 <= i < sb_max_file_num (w_super w)) by (apply (fb_fm_dom _ Hb); by eexists).
    specialize (Hfs i Hri). unfold file_rec in Hfs. by rewrite Hm in Hfs.
  - intros b m Hm _. split; [by apply (Hbr b)|].
    assert (Hri : 0 <= b < sb_max_file_block_num (w_super w)) by (apply (fb_fb_dom _ Hb); by eexists).
    specialize (Hbs b Hri). unfold fb_rec in Hbs. by rewrite Hm in Hbs.
  - intros i m Hm _. specialize (Hfu _ _ Hm). cbv beta in Hfu. unfold file_linked.
    destruct (fm_used m); [|done]. by destruct Hfu as (? & ? & ? & _).
  - intros b m Hm _. specialize (Hbu _ _ Hm). cbv beta in Hbu. unfold fb_linked.
    destruct (fb_used m); [|done]. destruct Hbu as (Ht & f & o & Ho & Hit & Hfh & Hf).
    split; [done|]. exists f, o. by rewrite Hfh.
Qed.
End Restart.
