(* ===== verification/Format.v ===== *)
(** * Formatting a device and mounting it

    What [FileSystem::Format] leaves on the device and what
    [FileSystem::MountFileSystem] makes of it in a new process: the areas of
    records written and read back, the loops over the handles' records, and the
    root directory. *)

From S2P Require Import Prelude Meta Device World SuperBlock Resources Paths FileBlock Inode.
From S2P Require Import Directory FileHandle File OpenFile FileHandleOps DirHandle FileSystem.
From S2P Require Import Io Invariant MetaSteps DirSteps Names DirOps Load.

Section Format.
Context `{Env}.

(** ** What a format leaves on the device *)

Abbreviation formatted sb := (on_device sb format_dir_record format_file_record format_fb_record).

Lemma format_super_wf (dev_size : Z) :
  format_data_start <= dev_size <= kBlockFsMaxUDiskSize ->
  super_wf (format_super_layout dev_size).
Proof.
  intros Hd. pose proof (lo_blocks _ (format_layout_ok _ Hd)) as Hb.
  change format_data_start with 675282944 in *. change kBlockFsMaxUDiskSize with 140737488355328 in *.
  constructor; try reflexivity; try (by apply in_u_dec_true).
  assert (Hn : in_u 64 (sb_curr_block_num (format_super_layout dev_size))) by (unfold in_u; lia).
  revert Hn. generalize (sb_curr_block_num (format_super_layout dev_size)). intros n Hn.
  repeat (apply Forall_cons; split;
    [first [exact Hn | by apply in_u_dec_true | unfold in_u; cbn; lia]|]).
  apply Forall_nil_2.
Qed.

(** one area of the device is written, the rest of the device stays *)
Definition wrote (w : world) (off : Z) (buf : bytes) (w' : world) : Prop :=
  exists e evs, evs `suffix_of` w_events w /\
    w' = upd_io e evs (st_write (w_store w) off buf) w.

Lemma write_all_wp (w : world) (buf : bytes) (off : Z) :
  dev_good w -> dev_size (w_dev w) < 2 ^ 63 -> 0 <= off ->
  off + Z.of_nat (length buf) <= dev_size (w_dev w) ->
  wp (PwriteDirect buf off) (fun r w' => r = Z.of_nat (length buf) /\ wrote w off buf w') w.
Proof.
  intros Hg Hd Ho Hb. eapply wp_mono; [by apply (write_run w off Ho Hd true buf)|].
  intros r w' (e & n & evs & Hn & _ & Hs & -> & Hg'). destruct (Hg' Hg) as [-> ->].
  split; [done|]. exists e, evs. by rewrite firstn_all.
Qed.

Lemma wrote_good (w : world) (off : Z) (buf : bytes) (w' : world) :
  dev_good w -> wrote w off buf w' ->
  dev_good w' /\ w_super w' = w_super w /\ dev_size (w_dev w') = dev_size (w_dev w).
Proof.
  intros (? & ? & Hg) (e & evs & Hs & ->). split; [|done]. split_and!; try done.
  by eapply Forall_suffix.
Qed.

(** the records of the area that was written, and what lies outside of it *)
Lemma wrote_record {A} (encode : A -> bytes) (record : Z -> A) (k n total off : Z)
    (w w' : world) (i : Z) :
  0 < k -> (forall i, 0 <= i < n -> length (encode (record i)) = Z.to_nat k) -> n * k <= total ->
  wrote w off (format_area encode record n total) w' -> 0 <= i < n ->
  st_read (w_store w') (off + k * i) (Z.to_nat k) = encode (record i).
Proof.
  intros Hk Hl Ht (e & evs & _ & ->) Hi. rewrite w_store_upd_io. by apply st_read_area.
Qed.

Lemma wrote_outside (w w' : world) (off : Z) (buf : bytes) (a : Z) (n : nat) :
  wrote w off buf w' -> a + Z.of_nat n <= off \/ off + Z.of_nat (length buf) <= a ->
  st_read (w_store w') a n = st_read (w_store w) a n.
Proof.
  intros (e & evs & _ & ->) Ho. rewrite w_store_upd_io. by apply st_read_write_out.
Qed.

Lemma write_area_wp {A} (encode : A -> bytes) (record : Z -> A) (n total off : Z) (w : world) :
  dev_good w -> dev_size (w_dev w) <= kBlockFsMaxUDiskSize -> 0 <= off -> 0 <= total ->
  off + total <= dev_size (w_dev w) ->
  wp (let! r := PwriteDirect (format_area encode record n total) off in ret (r =? i64 total))
     (fun ok w' => ok = true /\ wrote w off (format_area encode record n total) w') w.
Proof.
  intros Hg Hd Ho Ht Hb. units. wp_step.
  eapply wp_mono; [apply write_all_wp; rewrite ?format_area_length; try done; lia|].
  intros r w' [-> Hw]. wp_step. split; [|done]. rewrite format_area_length.
  rewrite swrap_small by lia. apply Z.eqb_eq. lia.
Qed.

(** the metadata of the handles *)
Lemma format_handles_wp (w : world) :
  dev_good w -> format_data_start <= dev_size (w_dev w) <= kBlockFsMaxUDiskSize ->
  wp (run_all handles_FormatAllMeta) (fun ok w' => ok = true /\ dev_good w' /\
    dev_size (w_dev w') = dev_size (w_dev w) /\
    super_ok (w_super w') /\ sb_device_size (w_super w') = dev_size (w_dev w) /\
    formatted (w_super w') (w_store w')) w.
Proof.
  intros Hg Hd. set (L := format_super_layout (dev_size (w_dev w))).
  pose proof (format_layout_ok _ Hd) as HL. pose proof (format_super_wf _ Hd) as Hwf.
  pose proof (super_ok_crc L HL Hwf eq_refl) as Hok.
  set (S := set_sb_crc (super_crc L) L) in *. pose proof Hok as [[] HSwf HSv].
  assert (Hdev : sb_device_size S = dev_size (w_dev w)) by reflexivity.
  assert (Hlen : length (encode_super S) = 4096%nat).
  { unfold encode_super. by rewrite (concat_fields_length super_widths) by by apply super_fields_widths. }
  change format_data_start with 675282944 in Hd. units. unfold handles_FormatAllMeta.
  apply run_all_wp. unfold SuperBlock_FormatAllMeta. do 2 wp_step. fold L S. do 2 wp_step. wp_step.
  eapply wp_mono; [apply (write_all_wp (set_w_super S w)); cbn [w_dev set_w_super]; rewrite ?Hlen; try done; (try change kSuperBlockOffset with 0); lia|].
  intros r w1 [-> Hw1]. wp_step. rewrite Hlen. split; [done|].
  destruct (wrote_good (set_w_super S w) _ _ _ Hg Hw1) as (Hg1 & Hs1 & Hd1). cbn in Hs1, Hd1.
  clearbody S. clear L HL Hwf. apply run_all_wp. wp_step. split; [done|].
  apply run_all_wp. unfold DirHandle_FormatAllMeta. do 2 wp_step. rewrite Hs1.
  eapply wp_mono; [apply write_area_wp; rewrite ?Hd1; units; try done; lia|].
  intros ok w2 [-> Hw2]. split; [done|].
  destruct (wrote_good _ _ _ _ Hg1 Hw2) as (Hg2 & Hs2 & Hd2). rewrite Hs1 in Hs2. rewrite Hd1 in Hd2.
  apply run_all_wp. unfold FileHandle_FormatAllMeta. do 2 wp_step. rewrite Hs2.
  eapply wp_mono; [apply write_area_wp; rewrite ?Hd2; units; try done; try lia|].
  intros ok w3 [-> Hw3]. split; [done|].
  destruct (wrote_good _ _ _ _ Hg2 Hw3) as (Hg3 & Hs3 & Hd3). rewrite Hs2 in Hs3. rewrite Hd2 in Hd3.
  apply run_all_wp. unfold FileBlockHandle_FormatAllMeta. do 2 wp_step. rewrite Hs3.
  eapply wp_mono; [apply write_area_wp; rewrite ?Hd3; units; try done; try lia|].
  intros ok w4 [-> Hw4]. split; [done|].
  destruct (wrote_good _ _ _ _ Hg3 Hw4) as (Hg4 & Hs4 & Hd4). rewrite Hs3 in Hs4. rewrite Hd3 in Hd4.
  cbn [run_all]. wp_step. rewrite Hs4. split_and!; try done.
  assert (H1 : st_read (w_store w1) 0 4096 = encode_super S).
  { destruct Hw1 as (e & evs & _ & ->). rewrite w_store_upd_io, <- Hlen. apply st_read_write_same. }
  constructor.
  - rewrite (wrote_outside _ _ _ _ _ _ Hw4), (wrote_outside _ _ _ _ _ _ Hw3),
      (wrote_outside _ _ _ _ _ _ Hw2) by (rewrite ?format_area_length; lia). done.
  - intros i Hi. units.
    rewrite (wrote_outside _ _ _ _ _ _ Hw4), (wrote_outside _ _ _ _ _ _ Hw3) by lia.
    apply (wrote_record encode_dir format_dir_record 1024 _ _ _ _ _ i ltac:(lia)) with (3 := Hw2); try done.
  - intros i Hi. units. rewrite (wrote_outside _ _ _ _ _ _ Hw4) by lia.
    apply (wrote_record encode_file format_file_record 256 _ _ _ _ _ i ltac:(lia)) with (3 := Hw3); try done.
  - intros i Hi. units.
    apply (wrote_record encode_file_block format_fb_record 4096 _ _ _ _ _ i ltac:(lia)) with (3 := Hw4); try done.
Qed.

(** the old super block is read and not used *)
Lemma PrefetchSuperMeta_any (w : world) :
  dev_good w -> kSuperBlockSize <= dev_size (w_dev w) < 2 ^ 63 ->
  wp PrefetchSuperMeta (fun _ w' => dev_good w' /\ dev_size (w_dev w') = dev_size (w_dev w)) w.
Proof.
  intros Hg Hd. unfold PrefetchSuperMeta. wp_step.
  eapply wp_mono; [apply (read_all_wp false w _ kSuperBlockOffset Hg);
    [lia|done|change kSuperBlockOffset with 0; units; lia]|].
  intros ro w' (-> & e & evs & Hs & ->). units. change (Z.of_nat (Z.to_nat 4096) =? 4096) with true.
  cbn [negb]. wp_step. split; [|done]. destruct Hg as (?&?&?). split_and!; try done. by eapply Forall_suffix.
Qed.

Lemma FileSystem_Format_wp (w : world) :
  dev_good w -> format_data_start <= dev_size (w_dev w) <= kBlockFsMaxUDiskSize ->
  wp FileSystem_Format (fun ok w' => ok = true /\ dev_good w' /\
    dev_size (w_dev w') = dev_size (w_dev w) /\
    super_ok (w_super w') /\ sb_device_size (w_super w') = dev_size (w_dev w) /\
    formatted (w_super w') (w_store w')) w.
Proof.
  intros Hg Hd. unfold FileSystem_Format. wp_step. eapply wp_mono; [apply PrefetchSuperMeta_any; [done|]|].
  { change format_data_start with 675282944 in Hd. units. lia. }
  intros r w1 [Hg1 Hd1]. rewrite <-Hd1 in *. by apply format_handles_wp.
Qed.

(** ** Mounting *)

Section Mount.
Context (sb : SuperBlockMeta) (Hok : super_ok sb).

(** the world once the metadata of a formatted device is loaded *)
Abbreviation loaded := (loaded_with format_dir_record format_file_record format_fb_record sb).

(** *** The loops over the records of a new file system *)

Lemma dir_init_wp (w : world) :
  w_dirmeta w = record_area format_dir_record (sb_max_file_num sb) ->
  wp (all_of dir_init_one (seqZ 0 (sb_max_file_num sb))) (fun ok w' => ok = true /\
    w' = set_w_dh (set_dh_free (dh_free (w_dh w) ++ seqZ 0 (sb_max_file_num sb)) (w_dh w)) w) w.
Proof.
  intros Hm. apply (all_of_wp _ (fun l w' =>
    w' = set_w_dh (set_dh_free (dh_free (w_dh w) ++ l) (w_dh w)) w)).
  - intros l1 i l2 w' Hl ->. assert (Hi : i ∈ seqZ 0 (sb_max_file_num sb)) by (rewrite Hl; set_solver).
    apply elem_of_seqZ in Hi. unfold dir_init_one. wp_step.
    eapply wp_get_dirmeta; [cbn; rewrite Hm; apply record_area_some; lia|].
    change (dm_crc (format_dir_record i)) with (dir_crc_of (format_dir_record i)).
    rewrite Z.eqb_refl. cbn [negb]. change (dm_used (format_dir_record i)) with false. cbv iota. do 3 wp_step.
    split; [done|]. cbn. by rewrite <- app_assoc.
  - rewrite app_nil_r. by destruct w as [? ? ? ? ? ? ? []].
Qed.

Lemma file_init_wp (w : world) :
  sb_max_file_num sb < 2 ^ 31 ->
  w_filemeta w = record_area format_file_record (sb_max_file_num sb) ->
  wp (all_of file_init_one (seqZ 0 (sb_max_file_num sb))) (fun ok w' => ok = true /\
    w' = set_w_fh (set_fh_free (fh_free (w_fh w) ++ seqZ 0 (sb_max_file_num sb)) (w_fh w)) w) w.
Proof.
  intros Hmax Hm. apply (all_of_wp _ (fun l w' =>
    w' = set_w_fh (set_fh_free (fh_free (w_fh w) ++ l) (w_fh w)) w)).
  - intros l1 i l2 w' Hl ->. assert (Hi : i ∈ seqZ 0 (sb_max_file_num sb)) by (rewrite Hl; set_solver).
    apply elem_of_seqZ in Hi. unfold file_init_one. wp_step.
    eapply wp_get_filemeta; [cbn; rewrite Hm; apply record_area_some; lia|].
    change (fm_crc (format_file_record i)) with (file_crc_of (format_file_record i)).
    rewrite Z.eqb_refl. cbn [negb]. change (fm_used (format_file_record i)) with false.
    unfold AddFile2FreeNolock. cbv iota. do 3 wp_step. split; [done|]. cbn.
    rewrite swrap_small, wrap_small by lia. by rewrite <- app_assoc.
  - rewrite app_nil_r. by destruct w as [? ? ? ? ? ? ? ? []].
Qed.

Lemma fb_init_wp (w : world) :
  w_fbmeta w = record_area format_fb_record (sb_max_file_block_num sb) ->
  wp (all_of fb_init_one (seqZ 0 (sb_max_file_block_num sb))) (fun ok w' => ok = true /\
    w' = set_w_free_fbhs (w_free_fbhs w ++ seqZ 0 (sb_max_file_block_num sb)) w) w.
Proof.
  intros Hm. apply (all_of_wp _ (fun l w' => w' = set_w_free_fbhs (w_free_fbhs w ++ l) w)).
  - intros l1 i l2 w' Hl ->.
    assert (Hi : i ∈ seqZ 0 (sb_max_file_block_num sb)) by (rewrite Hl; set_solver).
    apply elem_of_seqZ in Hi. unfold fb_init_one. wp_step.
    eapply wp_get_fbmeta; [cbn; rewrite Hm; apply record_area_some; lia|].
    change (fb_crc (format_fb_record i)) with (fb_crc_of (format_fb_record i)).
    rewrite Z.eqb_refl. cbn [negb]. change (fb_used (format_fb_record i)) with false.
    unfold PutFileBlockLock. cbv iota. do 3 wp_step. split; [done|]. cbn. by rewrite <- app_assoc.
  - rewrite app_nil_r. by destruct w.
Qed.

(** the handles of a new process once the metadata is scanned *)
Definition scanned (w : world) : world :=
  set_w_free_fbhs (seqZ 0 (sb_max_file_block_num sb))
  (set_w_fh (MkFileHandle (seqZ 0 (sb_max_file_num sb)) ∅ ∅ ∅ ∅)
  (set_w_dh (MkDirHandle (seqZ 0 (sb_max_file_num sb)) ∅ ∅ ∅)
  (set_w_bh (MkBlockHandle (sb_curr_block_num sb)
     (Blocks.add_ids 0 (sb_curr_block_num sb) ∅)) w))).

Lemma FileSystem_InitializeMeta_wp (w w0 : world) (d : device) (now e : Z)
    (evs : list sys_event) (st : store) :
  w0 = new_process (w_super w) d now -> w = loaded (upd_io e evs st w0) ->
  wp FileSystem_InitializeMeta (fun ok w' => ok = true /\ w' = scanned w) w.
Proof using Hok.
  intros Hw0 Hw. pose proof Hok as [[] _ Hv]. unfold FileSystem_InitializeMeta.
  assert (Hs : w_super w = sb) by by rewrite Hw.
  apply run_all_wp. unfold SuperBlock_InitializeMeta. do 3 wp_step. rewrite Hs. split; [done|].
  apply run_all_wp. unfold Blocks.BlockHandle_InitializeMeta. do 7 wp_step. split; [done|].
  apply run_all_wp. unfold DirHandle_InitializeMeta. do 2 wp_step. cbn [w_super set_w_bh].
  rewrite Hs. wp_step. eapply wp_mono; [apply dir_init_wp; by rewrite Hw|].
  intros ok w1 [-> ->]. cbn [negb]. do 2 wp_step.
  replace (map_order _) with ([] : list (bytes * Z)).
  2:{ symmetry. apply Permutation_nil. rewrite map_order_perm, Hw, Hw0. cbn. by rewrite map_to_list_empty. }
  cbn [fmap list_fmap all_of]. wp_step. split; [done|].
  apply run_all_wp. unfold FileHandle_InitializeMeta. do 2 wp_step. cbn [w_super set_w_dh set_w_bh].
  rewrite Hs. eapply wp_mono; [apply file_init_wp; [lia|by rewrite Hw]|].
  intros ok w2 [-> ->]. split; [done|].
  apply run_all_wp. unfold FileBlockHandle_InitializeMeta. do 2 wp_step.
  cbn [w_super set_w_dh set_w_bh set_w_fh]. rewrite Hs.
  eapply wp_mono; [apply fb_init_wp; by rewrite Hw|]. intros ok w3 [-> ->]. split; [done|].
  cbn [run_all]. wp_step. split; [done|]. rewrite wrap_small by lia. by rewrite Hw, Hw0.
Qed.

(** *** The new file system is consistent *)

Definition new_world (w : world) : Prop :=
  w_dirs w = ∅ /\ w_files w = ∅ /\ in_i 64 (w_now w) /\
  dev_size (w_dev w) = sb_device_size sb.

Lemma scanned_tree (w : world) : w_dirs w = ∅ -> dir_tree (scanned (loaded w)).
Proof using Hok.
  intros Hd. pose proof Hok as [[] _ _]. constructor; cbn; rewrite ?Hd; try done.
  - constructor; cbn.
    + intros i. by rewrite record_area_dom.
    + intros i m [Hi ->]%record_area_lookup. apply format_dir_record_wf. unfold in_u. lia.
  - split; [apply NoDup_seqZ|]. intros i Hi%elem_of_seqZ.
    exists (format_dir_record i). by rewrite record_area_some by lia.
  - intros d. rewrite lookup_empty. by intros [? [=]].
Qed.

Lemma scanned_inv (w : world) : new_world w -> fs_inv (scanned (loaded w)).
Proof using Hok.
  intros (Hd & Hf & Hn & Hs). pose proof Hok as [Hl _ _]. pose proof Hl as [].
  constructor; try done; cbn.
  - split; cbn.
    + intros i m [Hi ->]%record_area_lookup. apply format_fb_record_ok.
    + intros i m [Hi ->]%record_area_lookup. apply format_file_record_wf. unfold in_u. lia.
  - constructor; cbn; try done.
    + intros i. rewrite lookup_fmap, fmap_is_Some. apply record_area_dom.
    + intros i. rewrite lookup_fmap, fmap_is_Some. apply record_area_dom.
    + split; [apply NoDup_seqZ|]. intros i Hi%elem_of_seqZ.
      rewrite lookup_fmap, record_area_some by lia. by eexists.
    + split; [apply NoDup_seqZ|]. intros i Hi%elem_of_seqZ. split; [set_solver|].
      by rewrite lookup_fmap, record_area_some by lia.
    + intros x [Hx|?]%Blocks.add_ids_elem; [set_solver|lia].
    + rewrite Hf, fmap_empty. apply map_Forall_empty.
    + intros f1 f2 o1 o2. by rewrite Hf, fmap_empty.
Qed.

Record mounted (w : world) : Prop := {
  mt_super : w_super w = sb;
  mt_inv : fs_inv w;
  mt_tree : dir_tree w;
  mt_root : exists d dh, dh_created_dirs (w_dh w) = {[ [slash] := d ]} /\
    w_dirs w !! d = Some (MkDirectory dh ∅ ∅ 0) /\ dir_persisted w dh;
  mt_files : w_files w = ∅ /\ fh_created_files (w_fh w) = ∅;
  mt_pool : forall x, x ∈ bh_pool (w_bh w) <-> 0 <= x < sb_curr_block_num sb;
  mt_free_fbs : w_free_fbhs w = seqZ 0 (sb_max_file_block_num sb);
  mt_free_fhs : fh_free (w_fh w) = seqZ 0 (sb_max_file_num sb)
}.

Lemma MakeMountPoint_wp (w : world) :
  new_world w -> dev_good w ->
  wp (MakeMountPoint [slash]) (fun r w' => r = 0 /\
    dir_step (scanned (loaded w)) w' /\ dir_tree w' /\
    exists d dh, dh_created_dirs (w_dh w') = {[ [slash] := d ]} /\
      w_dirs w' !! d = Some (MkDirectory dh ∅ ∅ 0) /\ dir_persisted w' dh)
    (scanned (loaded w)).
Proof using Hok.
  intros Hnew Hg. pose proof (scanned_tree w (proj1 Hnew)) as Ht. pose proof Hok as [[] _ _].
  destruct Hnew as (_ & _ & Hnow & Hs). unfold MakeMountPoint. wp_step.
  eapply looks_up_wp; [apply GetCreatedDirectory_run|]. intros e.
  change (lookup_dir (scanned (loaded w)) [slash]) with (None : option Z). cbv iota.
  set (w1 := set_w_errno e _). eapply wp_mono; [apply (CreateDirectory_wp w1)|].
  - apply Hok.
  - done.
  - done.
  - by apply (dir_tree_ext (scanned (loaded w))).
  - apply not_elem_of_cons. split; [done|apply not_elem_of_nil].
  - intros r w' [Hst Ht' _ Hmade Hgood]. assert (r = 0) as ->.
    { apply Hgood; [done|done|]. exists [slash]. split; [done|]. split; [done|]. split; [|by left].
      cbn. rewrite seqZ_cons by lia. done. }
    destruct (Hmade eq_refl) as (name & d & dh & [= <-] & _ & Hds & Ho & Hp).
    split_and!; try done; [etrans; [by apply (dir_step_errno _ e)|done]|].
    exists d, dh. rewrite Hds. done.
Qed.
End Mount.

Lemma MountFileSystem_wp (sb sb0 : SuperBlockMeta) (d : device) (now : Z) :
  let w := new_process sb0 d now in
  super_ok sb -> dev_good w -> dev_size d = sb_device_size sb -> formatted sb (dev_store d) ->
  in_i 64 now ->
  wp MountFileSystem (fun r w' => r = 0 /\ mounted sb w') w.
Proof.
  intros w Hok Hg Hd Hf Hnow. unfold MountFileSystem. wp_step.
  eapply wp_mono; [apply (ShmManager_Initialize_wp sb Hok format_dir_record format_file_record
    format_fb_record); try done|].
  { intros i Hi. apply format_dir_record_wf. pose proof (lo_max_file _ (so_layout _ Hok)). unfold in_u. lia. }
  { intros i Hi. apply format_file_record_wf. pose proof (lo_max_file _ (so_layout _ Hok)). unfold in_u. lia. }
  { intros i Hi. apply format_fb_record_ok. }
  intros ok w1 (-> & e & evs & Hs & ->). cbn [negb]. wp_step.
  set (w1 := upd_io e evs (w_store w) w).
  eapply wp_mono; [by apply (FileSystem_InitializeMeta_wp sb Hok (loaded_with format_dir_record format_file_record format_fb_record sb w1)
    (new_process sb d now) d now e evs (w_store w))|].
  intros ok w2 [-> ->]. cbn [negb]. wp_step.
  assert (Hnew : new_world sb w1) by by split_and!.
  assert (Hg1 : dev_good w1) by (destruct Hg as (?&?&?); split_and!; try done; by eapply Forall_suffix).
  eapply wp_mono; [by apply (MakeMountPoint_wp sb)|].
  intros r w3 (-> & [Hms Hfs Hfh _ _] & Ht & Hroot). wp_step. split; [done|].
  pose proof Hms as [[] _ Hv _]. constructor; try done.
  - apply (fs_inv_meta_step _ _ Hms). by apply scanned_inv.
  - by rewrite Hfs, Hfh.
  - intros x. change (bh_pool (w_bh w3)) with (v_pool (view_of w3)). rewrite Hv. cbn.
    rewrite Blocks.add_ids_elem. set_solver by lia.
  - change (w_free_fbhs w3) with (v_free_fb (view_of w3)). by rewrite Hv.
  - by rewrite Hfh.
Qed.
End Format.
