(* ===== verification/Scenario.v ===== *)
(** * A small mounted file system

    A concrete world for the witnesses of the properties: a device of five
    blocks, four file records, two file blocks, a root directory with two
    files and an empty directory.  [demo_inv] shows that it is consistent. *)

From S2P Require Import Prelude Meta Device World SuperBlock Resources Paths FileBlock Inode.
From S2P Require Import Directory FileHandle File OpenFile FileHandleOps DirHandle Io Invariant MetaSteps.
From S2P Require Import Views Content FileGrow FileIO DirSteps Names DirOps.

(** ** The environment: a checksum by addition, containers in key order *)

Definition byte_sum (b : bytes) : Z := wrap 32 (foldr Z.add 0 b).

#[export] Instance demo_env : Env := {|
  crc32 := byte_sum;
  crc32_range := fun b => wrap_bound 32 _ ltac:(lia);
  pool_order := elements;
  pool_order_perm := fun s => reflexivity (elements s);
  map_order := fun Key _ _ m => map_to_list m;
  map_order_perm := fun Key _ _ m => reflexivity (map_to_list m);
  after_cstr := fun _ => [];
  env_uid := 0;
  env_gid := 0
|}.

(** ** The world *)

Definition demo_super : SuperBlockMeta := {|
  sb_crc := 0; sb_uuid := strcpy0 64 kUuid; sb_magic := kBlockFsMagic;
  sb_max_file_num := 4; sb_max_support_udisk_size := kBlockFsMaxUDiskSize;
  sb_max_file_block_num := 2; sb_max_support_block_num := 4; sb_block_size := kBlockSize;
  sb_max_dir_name_len := kBlockFsMaxDirNameLen; sb_max_file_name_len := kBlockFsMaxFileNameLen;
  sb_dir_meta_size := kBlockFsDirMetaSize; sb_file_meta_size := kBlockFsFileMetaSize;
  sb_file_block_meta_size := kBlockFsFileBlockMetaSize; sb_super_block_size := kSuperBlockSize;
  sb_dir_meta_total_size := 4096; sb_file_meta_total_size := 4096;
  sb_file_block_meta_total_size := 8192; sb_super_block_offset := 0;
  sb_dir_meta_offset := 4096; sb_file_meta_offset := 8192; sb_file_block_meta_offset := 12288;
  sb_block_data_start_offset := kBlockSize; sb_device_size := 5 * kBlockSize;
  sb_curr_block_num := 4; sb_rest := replicate 3856 0
|}.

(** the records [l] of an area, from index 0 *)
Fixpoint area_from {A} (i : Z) (l : list A) : gmap Z A :=
  match l with [] => ∅ | x :: l' => <[i := x]> (area_from (i + 1) l') end.

Lemma area_from_lookup {A} (l : list A) : forall i j,
  area_from i l !! j = if decide (i <= j) then l !! Z.to_nat (j - i) else None.
Proof.
  induction l as [|x l IH]; intros i j; cbn [area_from].
  - rewrite lookup_empty. by destruct (decide _).
  - destruct (decide (i = j)) as [->|Hne].
    + rewrite lookup_insert_eq, decide_True by lia. by rewrite Z.sub_diag.
    + rewrite lookup_insert_ne, IH by done. destruct (decide (i + 1 <= j)).
      * rewrite decide_True by lia. replace (Z.to_nat (j - i)) with (S (Z.to_nat (j - (i + 1)))) by lia.
        done.
      * by rewrite decide_False by lia.
Qed.

Lemma area_from_dom {A} (l : list A) (n : Z) :
  n = Z.of_nat (length l) -> forall i, is_Some (area_from 0 l !! i) <-> 0 <= i < n.
Proof.
  intros -> i. rewrite area_from_lookup, Z.sub_0_r. destruct (decide (0 <= i)).
  - rewrite lookup_lt_is_Some. lia.
  - split; [by intros [? [=]]|lia].
Qed.

Lemma area_from_Forall {A} (P : A -> Prop) (l : list A) :
  Forall P l -> forall i, map_Forall (fun _ x => P x) (area_from i l).
Proof.
  induction 1 as [|x l Hx Hl IH]; intros i; cbn [area_from]; [apply map_Forall_empty|].
  by apply map_Forall_insert_2.
Qed.

Definition demo_file (fh size : Z) (name : bytes) : FileMeta :=
  MkFileMeta 0 fh size 0 0 0 0 0 0 0 0 (-1) (-1) 0 true false (strcpy0 64 name) (replicate 106 0).

Definition demo_fb : FileBlockMeta :=
  MkFileBlockMeta 0 0 0 0 1 true false (2 :: replicate 999 0) (replicate 74 0).

Definition demo_dir (dh : Z) (name : bytes) : DirMeta :=
  MkDirMeta 0 dh 0 0 0 0 0 0 0 true (strcpy0 768 name) (replicate 199 0).

Definition demo_data : bytes := str "hello".

Definition demo : world := {|
  w_super := demo_super;
  w_dirmeta := area_from 0 [demo_dir 0 (str "/"); demo_dir 1 (str "/d/"); format_dir_record 2;
                            format_dir_record 3];
  w_filemeta := area_from 0 [demo_file 0 5 (str "a"); demo_file 1 0 (str "b");
                             format_file_record 2; format_file_record 3];
  w_fbmeta := area_from 0 [demo_fb; format_fb_record 1];
  w_dev := MkDevice (5 * kBlockSize) 512 3 4 (st_write ∅ (3 * kBlockSize) demo_data) [];
  w_fdh := MkFdHandle (2 * kMaxFileNum) [2; 3; 4; 5; 6; 7];
  w_bh := MkBlockHandle 4 (list_to_set [0; 1; 3]);
  w_dh := MkDirHandle [2; 3] (list_to_map [(str "/", 10); (str "/d/", 13)])
            (list_to_map [(0, 10); (1, 13)]) ∅;
  w_fh := MkFileHandle [2; 3] (list_to_map [((0, str "a"), 11); ((0, str "b"), 12)])
            (list_to_map [(0, 11); (1, 12)]) (list_to_map [(0, 21); (1, 22)]) ∅;
  w_free_fbhs := [1];
  w_files := list_to_map [(11, MkFile 0 {[ 0 := 0 ]} 1 false false);
                          (12, MkFile 1 ∅ 1 false false)];
  w_dirs := list_to_map [(10, MkDirectory 0 (list_to_map [(0, 11); (1, 12)]) {[ 1 := 13 ]} 0);
                         (13, MkDirectory 1 ∅ ∅ 0)];
  w_opens := list_to_map [(21, MkOpenFile 11 0); (22, MkOpenFile 12 0)];
  w_streams := ∅;
  w_next := 23; w_errno := 0; w_now := 1
|}.

(** ** It is consistent *)

Lemma demo_layout : layout_ok demo_super.
Proof. constructor; vm_compute; intuition congruence. Qed.

Lemma demo_fb_ok : fb_meta_ok demo_fb.
Proof.
  split; [|done]. constructor; wf_ranges. constructor; [by apply in_u_dec_true|].
  apply Forall_replicate. by apply in_u_dec_true.
Qed.

Lemma demo_file_wf (fh size : Z) (name : bytes) :
  in_u 64 fh -> in_u 64 size -> (length name <= 64)%nat -> file_wf (demo_file fh size name).
Proof.
  intros. constructor; wf_ranges; try done. cbn. unfold strcpy0.
  rewrite length_app, length_replicate. lia.
Qed.

Lemma demo_wf : recs_wf demo.
Proof.
  split; apply area_from_Forall.
  - constructor; [exact demo_fb_ok|]. constructor; [apply format_fb_record_ok|done].
  - constructor; [apply demo_file_wf; [by apply in_u_dec_true..|cbn; lia]|].
    constructor; [apply demo_file_wf; [by apply in_u_dec_true..|cbn; lia]|].
    constructor; [apply format_file_record_wf; by apply in_u_dec_true|].
    constructor; [apply format_file_record_wf; by apply in_u_dec_true|done].
Qed.

Lemma demo_files :
  v_files (view_of demo) = list_to_map [(11, MkFoView 0 {[ 0 := 0 ]}); (12, MkFoView 1 ∅)].
Proof. cbn. rewrite !fmap_insert, fmap_empty. done. Qed.

Lemma demo_file_cases f o :
  v_files (view_of demo) !! f = Some o ->
  (f = 11 /\ o = MkFoView 0 {[ 0 := 0 ]}) \/ (f = 12 /\ o = MkFoView 1 ∅).
Proof.
  rewrite demo_files. cbn. intros [[<- <-]|[_ [[<- <-]|[_ Hl]]%lookup_insert_Some]]%lookup_insert_Some;
    auto. by rewrite lookup_empty in Hl.
Qed.

Lemma demo_view_inv : inv demo_super (view_of demo).
Proof.
  constructor.
  - intros i. cbn [view_of v_fb demo w_fbmeta]. rewrite lookup_fmap, fmap_is_Some. by apply area_from_dom.
  - intros i. cbn [view_of v_fm demo w_filemeta]. rewrite lookup_fmap, fmap_is_Some. by apply area_from_dom.
  - split; [by apply (bool_decide_eq_true_1 _)|].
    intros i ->%list_elem_of_singleton. eexists. split; [reflexivity|done].
  - split; [by apply (bool_decide_eq_true_1 _)|].
    intros i Hi. split; [set_solver|]. cbn in Hi.
    repeat (apply elem_of_cons in Hi as [->|Hi]; [reflexivity|]). by apply elem_of_nil in Hi.
  - intros x. cbn. rewrite !elem_of_union, !elem_of_singleton, elem_of_empty. lia.
  - intros f o [[-> ->]|[-> ->]]%demo_file_cases.
    + split_and!; [set_solver|by apply (bool_decide_eq_true_1 _)|].
      eexists. split; [reflexivity|]. split; [done|]. right. exists 0. eexists.
      split; [done|]. split; [reflexivity|]. split_and!; try done.
      * by apply (bool_decide_eq_true_1 _).
      * split; [by apply (bool_decide_eq_true_1 _)|].
        intros x ->%list_elem_of_singleton. split; [done|]. by apply (bool_decide_eq_true_1 _).
    + split_and!; [set_solver|by apply (bool_decide_eq_true_1 _)|].
      eexists. split; [reflexivity|]. split; [done|]. by left.
  - intros f1 f2 o1 o2 [[-> ->]|[-> ->]]%demo_file_cases [[-> ->]|[-> ->]]%demo_file_cases ?;
      try done; split; done.
Qed.

Lemma demo_inv : fs_inv demo.
Proof.
  constructor; [exact demo_layout|done|exact demo_wf| |by apply in_i_dec_true|exact demo_view_inv].
  intros i d. cbn. intros [[<- <-]|[_ [[<- <-]|[_ Hl]]%lookup_insert_Some]]%lookup_insert_Some;
    [by eexists..|]. by rewrite lookup_empty in Hl.
Qed.

Lemma demo_good : dev_good demo.
Proof. by split_and!. Qed.

(** ** Its directories form a tree *)

Lemma demo_dir_wf (dh : Z) (name : bytes) :
  in_u 64 dh -> (length name <= 768)%nat -> dir_wf (demo_dir dh name).
Proof.
  intros. constructor; wf_ranges; try done. cbn. unfold strcpy0.
  rewrite length_app, length_replicate. lia.
Qed.

Lemma demo_created (p : bytes) (d : Z) :
  dh_created_dirs (w_dh demo) !! p = Some d -> (p = str "/" /\ d = 10) \/ (p = str "/d/" /\ d = 13).
Proof.
  cbn. intros [[<- <-]|[_ [[<- <-]|[_ Hl]]%lookup_insert_Some]]%lookup_insert_Some; auto.
  by rewrite lookup_empty in Hl.
Qed.

Lemma demo_dirs (d : Z) (o : directory) :
  w_dirs demo !! d = Some o ->
  (d = 10 /\ o = MkDirectory 0 (list_to_map [(0, 11); (1, 12)]) {[ 1 := 13 ]} 0) \/
  (d = 13 /\ o = MkDirectory 1 ∅ ∅ 0).
Proof.
  cbn. intros [[<- <-]|[_ [[<- <-]|[_ Hl]]%lookup_insert_Some]]%lookup_insert_Some; auto.
  by rewrite lookup_empty in Hl.
Qed.

Lemma demo_dirmeta_ok : dirmeta_ok demo.
Proof.
  constructor.
  - by apply area_from_dom.
  - apply area_from_Forall.
    constructor; [apply demo_dir_wf; [by apply in_u_dec_true|cbn; lia]|].
    constructor; [apply demo_dir_wf; [by apply in_u_dec_true|cbn; lia]|].
    constructor; [apply format_dir_record_wf; by apply in_u_dec_true|].
    constructor; [apply format_dir_record_wf; by apply in_u_dec_true|done].
Qed.

Lemma demo_tree : dir_tree demo.
Proof.
  constructor.
  - exact demo_dirmeta_ok.
  - split; [by apply (bool_decide_eq_true_1 _)|]. intros i Hi. cbn in Hi.
    repeat (apply elem_of_cons in Hi as [->|Hi]; [by eexists|]). by apply elem_of_nil in Hi.
  - intros p d [[-> ->]|[-> ->]]%demo_created; do 2 eexists; (split; [reflexivity|]);
      (split; [reflexivity|]); split_and!; try done; by apply (bool_decide_eq_true_1 _).
  - intros i d. cbn. intros [[<- <-]|[_ [[<- <-]|[_ Hl]]%lookup_insert_Some]]%lookup_insert_Some.
    + by exists (str "/"), (MkDirectory 0 (list_to_map [(0, 11); (1, 12)]) {[ 1 := 13 ]} 0).
    + by exists (str "/d/"), (MkDirectory 1 ∅ ∅ 0).
    + by rewrite lookup_empty in Hl.
  - intros d [o [[-> _]|[-> _]]%demo_dirs]; done.
  - intros p d o [[-> ->]|[-> ->]]%demo_created Ho Hp; [done|].
    exists 10, (MkDirectory 0 (list_to_map [(0, 11); (1, 12)]) {[ 1 := 13 ]} 0).
    apply demo_dirs in Ho as [[? _]|[_ ->]]; done.
  - intros q oq i c _ [[-> ->]|[-> ->]]%demo_dirs Hc; [|done].
    cbn in Hc. apply lookup_singleton_Some in Hc as [<- <-]. by exists (str "/d/"), (MkDirectory 1 ∅ ∅ 0).
  - intros d o i [[-> ->]|[-> ->]]%demo_dirs [f Hf]; [|done]. cbn in Hf.
    apply lookup_insert_Some in Hf as [[<- _]|[_ Hf]]; [done|].
    apply lookup_insert_Some in Hf as [[<- _]|[_ Hf]]; [done|]. by rewrite lookup_empty in Hf.
Qed.
