(* ===== verification/DataTheorems.v ===== *)
(** * Theorems on the contents of files

    What [FileSystem::PwriteFile], [FileSystem::PreadFile] and the growth of a
    file do to the bytes of files, from a consistent file system and whatever
    the device answers. *)

From S2P Require Import Prelude Meta Device World SuperBlock Resources FileBlock Inode Directory.
From S2P Require Import FileHandle File OpenFile FileHandleOps FileSystem Io Invariant MetaSteps Views.
From S2P Require Import Content FileGrow FileIO FileShrink Truncate Scenario.

Section Data.
Context `{Env}.

Lemma GetOpenFile_run w fd o :
  fh_open_files (w_fh w) !! u64 fd = Some o -> GetOpenFile fd w = Done (Some o) w.
Proof. intros Ho. unfold GetOpenFile, bind, gets. by rewrite Ho. Qed.

Lemma PwriteFile_wp (w : world) (fd o f : Z) (buf : bytes) (offset : Z) :
  fs_inv w -> fd_leads w fd o f -> sb_curr_block_num (w_super w) <= kBlockLocks ->
  0 <= offset -> offset + Z.of_nat (length buf) < 2 ^ 63 -> buf <> [] ->
  wp (PwriteFile fd buf offset) (pwrite_post w f buf offset) w.
Proof.
  intros Hi (Ho & Hf & x & Hx & Hxf) Hlk Hoff Hmax Hne. unfold PwriteFile.
  apply wp_bind. unfold wp at 1. rewrite (GetOpenFile_run w fd o Ho).
  rewrite wrap_small by lia. by apply (OpenFile_pwrite_wp w o f x).
Qed.

Definition pread_post (w : world) (f : Z) (buf : bytes) (len offset : Z) (rb : Z * bytes) (w' : world)
    : Prop :=
  fs_inv w' /\ (forall g, file_content w' g = file_content w g) /\
  (dev_good w ->
   let data := slice (Z.to_nat offset) (Z.to_nat len) (file_content w f) in
   rb.1 = Z.of_nat (length data) /\ rb.2 = splice 0 data buf).

Lemma PreadFile_wp (w : world) (fd o f : Z) (buf : bytes) (len offset : Z) :
  fs_inv w -> fd_leads w fd o f -> sb_curr_block_num (w_super w) <= kBlockLocks ->
  0 <= offset -> 0 <= len <= Z.of_nat (length buf) -> offset + len < 2 ^ 63 ->
  wp (PreadFile fd buf len offset) (pread_post w f buf len offset) w.
Proof.
  intros Hi (Ho & Hf & x & Hx & Hxf) Hlk Hoff Hlen Hmax. unfold PreadFile.
  apply wp_bind. unfold wp at 1. rewrite (GetOpenFile_run w fd o Ho).
  rewrite wrap_small by lia.
  eapply wp_mono; [by apply (OpenFile_pread_wp w o f x)|]. intros rb w' (?&_&?&?). done.
Qed.

(** ** Properties *)

(** C5: on a file system of at most 100000 blocks (the locks of the blocks are that
    many), [PwriteFile] on a descriptor of file [f] never crashes, whatever the device
    answers: the file system stays consistent and every other file keeps its
    bytes.  When no system call fails and the growth has room, it returns the
    length of the buffer, and the content of [f] is the old one, extended up to
    the end of the range, with the buffer at [offset]. *)
Theorem PwriteFile_correct (w : world) (fd o f : Z) (buf : bytes) (offset : Z) :
  fs_inv w -> fd_leads w fd o f -> sb_curr_block_num (w_super w) <= kBlockLocks ->
  0 <= offset -> offset + Z.of_nat (length buf) < 2 ^ 63 -> buf <> [] ->
  wp (PwriteFile fd buf offset) (fun r w' =>
    fs_inv w' /\ (forall g, g <> f -> file_content w' g = file_content w g) /\
    (dev_good w ->
     (file_size (view_of w) f < offset + Z.of_nat (length buf) ->
        extend_room w f (offset + Z.of_nat (length buf))) ->
     r = Z.of_nat (length buf) /\
     exists gap, file_content w' f = splice (Z.to_nat offset) buf (file_content w f ++ gap) /\
       Z.of_nat (length gap)
         = Z.max 0 (offset + Z.of_nat (length buf) - file_size (view_of w) f))) w.
Proof.
  intros Hi Hfd Hlk Ho Hmax Hne. eapply wp_mono; [by apply (PwriteFile_wp w fd o f)|].
  intros r w' (Hi' & _ & Hoth & Hg). split_and!; [done..|]. intros Hgood Hroom.
  destruct (Hg Hgood Hroom) as (Hr & gap & Hl & Hc). eauto.
Qed.

(** C7: [PreadFile] on a descriptor of file [f] never crashes and changes no file.
    When no system call fails it returns the slice of the content at [offset],
    cut at the end of the file, in the front of the caller's buffer. *)
Theorem PreadFile_correct (w : world) (fd o f : Z) (buf : bytes) (len offset : Z) :
  fs_inv w -> fd_leads w fd o f -> sb_curr_block_num (w_super w) <= kBlockLocks ->
  0 <= offset -> 0 <= len <= Z.of_nat (length buf) -> offset + len < 2 ^ 63 ->
  wp (PreadFile fd buf len offset) (fun rb w' =>
    fs_inv w' /\ (forall g, file_content w' g = file_content w g) /\
    (dev_good w ->
     let data := slice (Z.to_nat offset) (Z.to_nat len) (file_content w f) in
     rb.1 = Z.of_nat (length data) /\ rb.2 = splice 0 data buf)) w.
Proof.
  intros. by apply (PreadFile_wp w fd o f).
Qed.

(** C6: on a file system of at most 100000 blocks whose device does not fail, what
    [PwriteFile] wrote, with room to grow, is what [PreadFile] gives back, through any
    descriptor of the same file. *)
Theorem pwrite_then_pread (w : world) (fd o fd' o' f : Z) (buf out : bytes) (offset : Z) :
  fs_inv w -> dev_good w -> fd_leads w fd o f -> fd_leads w fd' o' f ->
  sb_curr_block_num (w_super w) <= kBlockLocks ->
  0 <= offset -> offset + Z.of_nat (length buf) < 2 ^ 63 -> buf <> [] ->
  (file_size (view_of w) f < offset + Z.of_nat (length buf) ->
     extend_room w f (offset + Z.of_nat (length buf))) ->
  (length buf <= length out)%nat ->
  wp (let! _ := PwriteFile fd buf offset in
      PreadFile fd' out (Z.of_nat (length buf)) offset)
     (fun rb _ => rb.1 = Z.of_nat (length buf) /\ take (length buf) rb.2 = buf) w.
Proof.
  intros Hi Hgood Hfd Hfd' Hlk Hoff Hmax Hne Hroom Hout. apply wp_bind.
  eapply wp_mono; [by apply (PwriteFile_wp w fd o f)|].
  intros r w1 (Hi1 & Hst & _ & Hg). destruct (Hg Hgood Hroom) as (_ & gap & Hgap & Hc).
  destruct (fd_leads_step _ _ _ _ _ Hst Hfd') as (Ho & Hf & x & Hx & Hxf).
  unfold PreadFile. apply wp_bind. unfold wp at 1. rewrite (GetOpenFile_run w1 fd' o' Ho).
  rewrite wrap_small by lia. eapply wp_mono.
  - apply (OpenFile_pread_wp w1 o' f x); try done; try lia. by rewrite (fs_super _ _ Hst).
  - intros rb w2 (_ & _ & _ & Hr). destruct (Hr (fs_good _ _ Hst Hgood)) as [-> ->].
    pose proof (file_content_length w f Hi). rewrite Hc, Nat2Z.id, slice_splice.
    + split; [done|]. unfold splice. rewrite take_0, app_nil_l. by rewrite take_app_length.
    + rewrite length_app. lia.
Qed.

Lemma TruncateFile_fd_wp (w : world) (fd o f size : Z) (Q : Z -> world -> Prop) :
  fs_inv w -> fd_leads w fd o f -> 0 <= size < 2 ^ 63 ->
  (size < file_size (view_of w) f -> wp (ShrinkFile f size) Q w) ->
  (file_size (view_of w) f < size -> wp (ExtendFile f size) Q w) ->
  (file_size (view_of w) f = size -> Q 0 w) ->
  wp (TruncateFile_fd fd size) Q w.
Proof.
  intros Hi (Ho & Hf & x & Hx & Hxf) Hs Hlt Hgt Heq. unfold TruncateFile_fd.
  apply wp_bind. eapply wp_run; [by apply GetOpenFile_run|]. apply wp_bind.
  eapply (wp_get_open o x); [done|]. rewrite Hxf, wrap_small by lia. unfold File_ftruncate.
  apply wp_bind. apply File_file_size_wp; [done..|].
  destruct (Z.ltb_spec (file_size (view_of w) f) size); [by apply Hgt|].
  destruct (Z.ltb_spec size (file_size (view_of w) f)); [by apply Hlt|]. wp_step. apply Heq. lia.
Qed.

(** C8: truncating a file to a smaller size never crashes and keeps the file system
    consistent and every other file's bytes, whatever the device answers; the
    file keeps its content or has the prefix.  When it returns 0 the content is
    the prefix of the new size; the complete blocks stay, a partial last block
    is replaced by one block of the pool, and the other blocks are in the pool
    again.  It does return 0 when no system call fails and a record, a file
    block and a block are free. *)
Theorem truncate_shrink_correct (w : world) (fd o f size : Z) :
  fs_inv w -> fd_leads w fd o f -> 0 <= size < file_size (view_of w) f -> size < 2 ^ 63 ->
  name_fits w f ->
  wp (TruncateFile_fd fd size) (fun r w' =>
    fs_inv w' /\ (forall g, g <> f -> file_content w' g = file_content w g) /\
    (file_content w' f = file_content w f \/
     file_content w' f = take (Z.to_nat size) (file_content w f)) /\
    (r = 0 ->
     let n := Z.to_nat (size / kBlockSize) in
     file_content w' f = take (Z.to_nat size) (file_content w f) /\
     exists extra, length extra = (if 0 <? size mod kBlockSize then 1%nat else 0%nat) /\
       (forall x, x ∈ extra -> x ∈ v_pool (view_of w)) /\
       file_blocks (view_of w') f = take n (file_blocks (view_of w) f) ++ extra /\
       v_pool (view_of w') = list_to_set (drop n (file_blocks (view_of w) f))
         ∪ (v_pool (view_of w) ∖ list_to_set extra)) /\
    (dev_calm w -> shrink_room w f size -> r = 0)) w.
Proof.
  intros Hi Hfd Hs Hm Hn. apply (TruncateFile_fd_wp w fd o f); try done; try lia.
  intros _. eapply wp_mono; [apply ShrinkFile_wp; try done; apply Hfd|].
  intros r w' [P1 _ _ P4 P5 P6 P7]. split_and!; try done.
  - intros Hr. by destruct (P6 Hr) as (_ & ? & ?).
  - intros Hc Hr. by apply P7.
Qed.

(** C9: truncating a file to a larger size never crashes and keeps the file system
    consistent and every other file's bytes, whatever the device answers, and
    the old content stays a prefix.  When it returns 0 the file has the new size
    and exactly as many new blocks as that takes, all from the pool; it does
    return 0 when no transfer fails and there is room. *)
Theorem truncate_grow_correct (w : world) (fd o f size : Z) :
  fs_inv w -> fd_leads w fd o f -> file_size (view_of w) f < size < 2 ^ 63 ->
  wp (TruncateFile_fd fd size) (fun r w' =>
    fs_inv w' /\ (forall g, g <> f -> file_content w' g = file_content w g) /\
    (exists gap, file_content w' f = file_content w f ++ gap) /\
    (r = 0 -> file_size (view_of w') f = size /\
       exists new, file_blocks (view_of w') f = file_blocks (view_of w) f ++ new /\ NoDup new /\
         Z.of_nat (length new) = blocks_for size - blocks_for (file_size (view_of w) f) /\
         (forall x, x ∈ new -> x ∈ v_pool (view_of w)) /\
         v_pool (view_of w') = v_pool (view_of w) ∖ list_to_set new) /\
    (dev_good w -> extend_room w f size -> r = 0)) w.
Proof.
  intros Hi Hfd Hs. pose proof (file_size_nonneg _ _ (fi_inv _ Hi) f).
  apply (TruncateFile_fd_wp w fd o f); try done; try lia.
  intros Hgt. eapply wp_mono; [apply ExtendFile_wp; [done|apply Hfd|lia]|].
  intros r w' Hp. destruct (extend_post_content w f size r w' Hi Hgt Hp) as (Hoth & gap & Hgap & _).
  destruct Hp. split_and!; try done; [by exists gap|].
  intros Hr. destruct xp_blocks as (new & Hnew & Hd). destruct (Hd Hr) as (? & ? & ? & ? & ?).
  split; [done|]. by exists new.
Qed.
End Data.

(** ** Witnesses *)

Lemma demo_leads : fd_leads demo 0 21 11.
Proof. split; [reflexivity|]. split; [by eexists|]. by eexists. Qed.

Lemma demo_room : extend_room demo 11 7.
Proof. by split_and!. Qed.

(** two bytes behind the end of "hello": the file grows inside its block *)
Lemma PwriteFile_correct_witness :
  wp (PwriteFile 0 (str "!!") 5) (fun r w' => fs_inv w' /\ r = 2 /\
    file_content w' 11 = str "hello!!") demo.
Proof.
  eapply wp_mono; [apply (PwriteFile_correct demo 0 21 11 (str "!!") 5);
    [exact demo_inv|exact demo_leads|done|done|done|done]|].
  intros r w' (Hi & _ & Hg). split; [exact Hi|].
  destruct (Hg demo_good (fun _ => demo_room)) as (Hr & gap & Hc & Hl). split; [exact Hr|].
  change (file_size (view_of demo) 11) with 5 in Hl. change (file_content demo 11) with (str "hello") in Hc.
  destruct gap as [|a [|b [|]]]; cbn in Hl; try lia. rewrite Hc. reflexivity.
Defined.

Lemma PreadFile_correct_witness :
  wp (PreadFile 0 (replicate 8 0) 8 1) (fun rb _ => rb = (4, str "ello" ++ replicate 4 0)) demo.
Proof.
  eapply wp_mono; [apply (PreadFile_correct demo 0 21 11 (replicate 8 0) 8 1);
    [exact demo_inv|exact demo_leads|done|done|done|done]|].
  intros [r b] w' (_ & _ & Hg). destruct (Hg demo_good) as [Hr Hb]. cbn [fst snd] in *.
  rewrite Hr, Hb. reflexivity.
Defined.

Lemma pwrite_then_pread_witness :
  wp (let! _ := PwriteFile 0 (str "!!") 5 in PreadFile 0 (replicate 2 0) 2 5)
     (fun rb _ => rb.1 = 2 /\ take 2 rb.2 = str "!!") demo.
Proof.
  apply (pwrite_then_pread demo 0 21 0 21 11 (str "!!") (replicate 2 0) 5);
    [exact demo_inv|exact demo_good|exact demo_leads|exact demo_leads|done|done|done|done|
     intros _; exact demo_room|done].
Defined.

Lemma demo_name_fits : name_fits demo 11.
Proof. intros o m [= <-] [= <-]. vm_compute. lia. Qed.

(** "hello" cut to two bytes: the partial block is copied *)
Lemma truncate_shrink_correct_witness :
  wp (TruncateFile_fd 0 2) (fun r w' => fs_inv w' /\ r = 0 /\ file_content w' 11 = str "he") demo.
Proof.
  eapply wp_mono; [apply (truncate_shrink_correct demo 0 21 11 2);
    [exact demo_inv|exact demo_leads|done|done|exact demo_name_fits]|].
  intros r w' (Hi & _ & _ & Hd & Hg). split; [exact Hi|].
  assert (Hr : r = 0).
  { apply Hg; [by split|]. split; [done|]. split; [done|]. split; [by intros _|].
    intros o m [= <-] [= <-]. by eexists. }
  split; [exact Hr|]. destruct (Hd Hr) as [Hc _]. rewrite Hc. reflexivity.
Defined.

Lemma truncate_grow_correct_witness :
  wp (TruncateFile_fd 0 7) (fun r w' => fs_inv w' /\ r = 0 /\ file_size (view_of w') 11 = 7) demo.
Proof.
  eapply wp_mono; [apply (truncate_grow_correct demo 0 21 11 7);
    [exact demo_inv|exact demo_leads|done]|].
  intros r w' (Hi & _ & _ & Hd & Hg). split; [exact Hi|].
  assert (Hr : r = 0) by (apply Hg; [exact demo_good|exact demo_room]).
  split; [exact Hr|]. by destruct (Hd Hr).
Defined.
