(* ===== verification/Listing.v ===== *)
(** * Listing a directory

    [ScanDir] as a function of the world, the stream that [OpenDirectory] makes
    and [ReadDirectory] walks over, and the loop of the FUSE handler: it ends,
    and delivers every entry once. *)

From S2P Require Import Prelude Meta Device World SuperBlock Resources Paths FileBlock Inode.
From S2P Require Import Directory FileHandle File OpenFile FileHandleOps DirHandle FileSystem Fuse.
From S2P Require Import Io Frames Invariant MetaSteps Views Content FileGrow FileIO FileShrink Truncate.
From S2P Require Import DirSteps Names DirOps FileNames.

(** ** Names of entries *)

Lemma cstr_app_zeros (s : bytes) (k : nat) : cstr (s ++ replicate k 0) = cstr s.
Proof.
  induction s as [|b s IH]; cbn.
  - by destruct k.
  - destruct (b =? 0); [done|]. by rewrite IH.
Qed.

Lemma cstr_strcpy0 (n : nat) (s : bytes) : cstr (strcpy0 n s) = cstr s.
Proof. apply cstr_app_zeros. Qed.

Lemma cstr_length (s : bytes) : (length (cstr s) <= length s)%nat.
Proof. induction s as [|b s IH]; cbn; [done|]. destruct (b =? 0); cbn; lia. Qed.

Lemma cstr_idemp (s : bytes) : cstr (cstr s) = cstr s.
Proof. induction s as [|b s IH]; cbn; [done|]. destruct (b =? 0) eqn:Hb; cbn; [done|]. by rewrite Hb, IH. Qed.

(** the name that the entry of a directory shows *)
Definition child_name (path : bytes) : bytes := cstr (dir_entry_name path).

(** the entry of directory [c], and of file [f] *)
Definition child_entry (w : world) (c : Z) : option dirent :=
  o ← w_dirs w !! c; m ← w_dirmeta w !! do_meta o;
  Some (MkDirent (i64 (dm_dh m)) DT_DIR 0 (strcpy0 kDirentName (dir_entry_name (meta_dir_name m)))
          (dm_atime m)).
Definition file_entry (w : world) (f : Z) : option dirent :=
  o ← w_files w !! f; m ← w_filemeta w !! fo_meta o;
  Some (MkDirent (i32 (fm_fh m)) DT_REG (u32 (fm_size m)) (strcpy0 kDirentName (meta_file_name m))
          (fm_atime m)).

(** a missing object has no entry; there is none in a consistent world *)
Definition no_entry : dirent := MkDirent 0 0 0 [] 0.

Section Listing.
Context `{Env}.

Definition entries (w : world) (o : directory) : list dirent :=
  ((fun p => default no_entry (child_entry w p.2)) <$> map_order (do_children o)) ++
  ((fun p => default no_entry (file_entry w p.2)) <$> map_order (do_items o)).

(** ** [ScanDir] *)

Lemma scan_all_run (scan : Z -> Fs dirent) (g : Z -> option dirent) (l : list (Z * Z)) (w : world) :
  (forall p, p ∈ l -> exists e, g p.2 = Some e /\ scan p.2 w = Done e w) ->
  scan_all scan l w = Done ((fun p => default no_entry (g p.2)) <$> l) w.
Proof.
  induction l as [|[k i] l IH]; intros Hl; cbn [scan_all]; [done|].
  destruct (Hl (k, i)) as (e & He & Hs); [set_solver|]. cbn [snd] in He, Hs.
  erewrite bind_run by exact Hs. erewrite bind_run by (apply IH; intros p Hp; apply Hl; set_solver).
  cbn. by rewrite He.
Qed.

Lemma map_order_elem {Key} `{Countable Key} (m : gmap Key Z) (p : Key * Z) :
  p ∈ map_order m <-> m !! p.1 = Some p.2.
Proof. rewrite map_order_perm. destruct p. apply elem_of_map_to_list. Qed.

Lemma file_name_fits (m : FileMeta) : file_wf m -> (length (meta_file_name m) <= kDirentName)%nat.
Proof.
  intros Hwf. unfold meta_file_name. etrans; [apply cstr_length|].
  rewrite length_app, (fw_name _ Hwf), (fw_rest _ Hwf). unfold kDirentName. lia.
Qed.

Lemma scan_child_run (w : world) (c : Z) (o : directory) (m : DirMeta) :
  w_dirs w !! c = Some o -> w_dirmeta w !! do_meta o = Some m ->
  (length (dir_entry_name (meta_dir_name m)) <= kDirentName)%nat ->
  exists e, child_entry w c = Some e /\ scan_child c w = Done e w.
Proof.
  intros Ho Hm Hl. unfold child_entry. rewrite Ho. cbn [mbind option_bind]. rewrite Hm.
  eexists. split; [done|]. unfold scan_child, dir_meta, get_dir, get_dirmeta, dirent_name, bind, gets.
  rewrite Ho. cbn. rewrite Hm. cbn. by destruct (decide _).
Qed.

Lemma scan_file_run (w : world) (f : Z) (o : file) (m : FileMeta) :
  w_files w !! f = Some o -> w_filemeta w !! fo_meta o = Some m -> file_wf m ->
  exists e, file_entry w f = Some e /\ scan_file f w = Done e w.
Proof.
  intros Ho Hm Hwf. unfold file_entry. rewrite Ho. cbn [mbind option_bind]. rewrite Hm.
  eexists. split; [done|]. unfold scan_file, file_meta, get_file, get_filemeta, dirent_name, bind, gets.
  rewrite Ho. cbn. rewrite Hm. cbn. pose proof (file_name_fits m Hwf).
  by destruct (decide _).
Qed.

(** every entry has its object and record, and a name that fits *)
Record scannable (w : world) (o : directory) : Prop := {
  sc_children : forall i c, do_children o !! i = Some c -> exists oc m,
    w_dirs w !! c = Some oc /\ w_dirmeta w !! do_meta oc = Some m /\
    (length (dir_entry_name (meta_dir_name m)) <= kDirentName)%nat;
  sc_items : forall i f, do_items o !! i = Some f -> exists fo m,
    w_files w !! f = Some fo /\ w_filemeta w !! fo_meta fo = Some m /\ file_wf m
}.

Lemma ScanDir_run (w : world) (d : Z) (o : directory) :
  w_dirs w !! d = Some o -> scannable w o -> ScanDir d w = Done (entries w o) w.
Proof.
  intros Ho [Hc Hf]. unfold ScanDir.
  erewrite bind_run by (unfold get_dir, bind, gets; by rewrite Ho).
  erewrite bind_run; [erewrite bind_run; [done|]|]; apply scan_all_run;
    intros [i x] Hx%map_order_elem; cbn [fst snd] in *.
  - destruct (Hf i x Hx) as (fo & m & ? & ? & ?). by apply (scan_file_run w x fo m).
  - destruct (Hc i x Hx) as (oc & m & ? & ? & ?). by apply (scan_child_run w x oc m).
Qed.

(** the entries depend on the records and on the objects' indices only *)
Lemma entries_ext (w w' : world) (o o' : directory) :
  do_meta <$> w_dirs w' = do_meta <$> w_dirs w -> w_dirmeta w' = w_dirmeta w ->
  w_files w' = w_files w -> w_filemeta w' = w_filemeta w ->
  do_items o' = do_items o -> do_children o' = do_children o ->
  scannable w o -> scannable w' o' /\ entries w' o' = entries w o.
Proof.
  intros Ed Em Ef Efm Ei Ec [Hc Hf].
  assert (Hd : forall c, do_meta <$> w_dirs w' !! c = do_meta <$> w_dirs w !! c).
  { intros c. pose proof (f_equal (lookup c) Ed) as He. by rewrite !lookup_fmap in He. }
  split; [constructor|].
  - intros i c Hic. rewrite Ec in Hic. destruct (Hc i c Hic) as (oc & m & Hoc & Hm & Hl).
    specialize (Hd c). rewrite Hoc in Hd. apply fmap_Some in Hd as (oc' & Hoc' & He).
    exists oc', m. by rewrite Em, <- He.
  - intros i f Hif. rewrite Ei in Hif. rewrite Ef, Efm. by apply (Hf i).
  - unfold entries. rewrite Ei, Ec. f_equal; apply list_fmap_ext; intros _ [i x] _; cbn [snd]; f_equal.
    + unfold child_entry. specialize (Hd x). rewrite Em.
      destruct (w_dirs w' !! x) as [o1|], (w_dirs w !! x) as [o2|]; try done.
      injection Hd as Hd. cbn [mbind option_bind]. by rewrite Hd.
    + unfold file_entry. by rewrite Ef, Efm.
Qed.

(** ** Streams *)

Lemma get_stream_run s x w : w_streams w !! s = Some x -> get_stream s w = Done x w.
Proof. intros Hx. unfold get_stream, bind, gets. by rewrite Hx. Qed.

Lemma ReadDirectory_next (w : world) (s : Z) (x : dir_stream) :
  w_streams w !! s = Some x -> ds_inited x = true ->
  ReadDirectory s w = match ds_items x !! Z.to_nat (ds_index x) with
    | None => Done None w
    | Some e => Done (Some e)
        (set_w_streams (<[s := set_ds_index (u32 (ds_index x + 1)) x]> (w_streams w)) w)
    end.
Proof.
  intros Hx Hin. unfold ReadDirectory. erewrite bind_run by by apply get_stream_run.
  rewrite Hin. cbn [negb]. erewrite bind_run by done. erewrite bind_run by by apply get_stream_run.
  by destruct (ds_items x !! Z.to_nat (ds_index x)).
Qed.

(** the first reading scans the directory *)
Definition with_scanned (s : Z) (x : dir_stream) (items : list dirent) (dm : gmap Z DirMeta) (w : world)
    : world :=
  set_w_streams (<[s := set_ds_inited true (set_ds_items (ds_items x ++ items) x)]> (w_streams w))
    (set_w_dirmeta dm w).

Lemma ReadDirectory_first (w : world) (s d : Z) (x : dir_stream) (o : directory) (m : DirMeta) :
  w_streams w !! s = Some x -> ds_inited x = false -> ds_dir x = d -> w_dirs w !! d = Some o ->
  w_dirmeta w !! do_meta o = Some m -> scannable w o ->
  exists dm, ReadDirectory s w = ReadDirectory s (with_scanned s x (entries w o) dm w).
Proof.
  intros Hx Hin <- Ho Hm Hsc.
  assert (Hts : wp (Directory_UpdateTimeStamp (ds_dir x) false true true)
    (fun _ w' => exists dm, w' = set_w_dirmeta dm w) w).
  { unfold Directory_UpdateTimeStamp. repeat wp_step.
    do 3 (eapply (wp_upd_dir_meta _ _ o);
      [exact Ho|cbn; first [exact Hm|apply lookup_insert_eq]|cbv beta; repeat wp_step]).
    cbn. by eexists. }
  apply wp_intro in Hts as ([] & w1 & Hts & dm & ->). exists dm.
  set (x1 := set_ds_inited true (set_ds_items (ds_items x ++ entries w o) x)).
  assert (Hx1 : w_streams (with_scanned s x (entries w o) dm w) !! s = Some x1) by apply lookup_insert_eq.
  rewrite (ReadDirectory_next _ s x1 Hx1 eq_refl).
  unfold ReadDirectory. erewrite bind_run by by apply get_stream_run.
  rewrite Hin. cbn [negb].
  erewrite bind_run.
  2:{ erewrite bind_run by by apply (ScanDir_run w (ds_dir x) o). erewrite bind_run by exact Hts. done. }
  erewrite bind_run by by apply (get_stream_run s x1). fold x1.
  by destruct (ds_items x1 !! Z.to_nat (ds_index x1)).
Qed.

(** ** The loop *)

Definition entry_name (e : dirent) : bytes := cstr (de_name e).

Lemma readdir_loop_run (n : nat) : forall (s : Z) (st : fuse_state) (x : dir_stream),
  w_streams (fuse_world st) !! s = Some x -> ds_inited x = true ->
  0 <= ds_index x -> Z.of_nat (length (ds_items x)) < 2 ^ 32 ->
  (length (drop (Z.to_nat (ds_index x)) (ds_items x)) < n)%nat ->
  exists st', readdir_loop n s st = Done (entry_name <$> drop (Z.to_nat (ds_index x)) (ds_items x)) st'.
Proof.
  induction n as [|n IH]; intros s st x Hx Hin Hi Hmax Hn; [lia|]. cbn [readdir_loop].
  assert (Hrd : fs (ReadDirectory s) st = match ds_items x !! Z.to_nat (ds_index x) with
    | None => Done None st
    | Some e => Done (Some e) (MkFuse (set_w_streams (<[s := set_ds_index (u32 (ds_index x + 1)) x]>
        (w_streams (fuse_world st))) (fuse_world st)) (fuse_open_dirs st))
    end).
  { unfold fs. rewrite (ReadDirectory_next _ s x Hx Hin).
    destruct (ds_items x !! _); [done|]. by destruct st. }
  destruct (ds_items x !! Z.to_nat (ds_index x)) as [e|] eqn:He.
  - erewrite bind_run by exact Hrd. cbv beta iota.
    pose proof (lookup_lt_Some _ _ _ He) as Hlt. rewrite (drop_S _ _ _ He) in Hn |- *. cbn in Hn.
    assert (Hidx : u32 (ds_index x + 1) = ds_index x + 1) by (apply wrap_small; lia).
    set (x1 := set_ds_index (u32 (ds_index x + 1)) x).
    destruct (IH s (MkFuse (set_w_streams (<[s := x1]> (w_streams (fuse_world st))) (fuse_world st))
      (fuse_open_dirs st)) x1) as [st' Hst']; try done.
    + cbn. apply lookup_insert_eq.
    + cbn. lia.
    + cbn. rewrite Hidx. replace (Z.to_nat (ds_index x + 1)) with (S (Z.to_nat (ds_index x))) by lia. lia.
    + exists st'. erewrite bind_run by exact Hst'. unfold ret. cbn. rewrite Hidx.
      by replace (Z.to_nat (ds_index x + 1)) with (S (Z.to_nat (ds_index x))) by lia.
  - erewrite bind_run by exact Hrd. exists st. apply lookup_ge_None in He. by rewrite drop_ge.
Qed.

End Listing.
