(* ===== verification/Refinement.v ===== *)
(** * The calls refine the abstract file system

    One lemma per call: from a consistent world with a device that does not
    fail, the call keeps the whole invariant and does what [a_step] allows. *)

From S2P Require Import Prelude Meta Device World SuperBlock Resources Paths FileBlock Inode.
From S2P Require Import Directory FileHandle File OpenFile FileHandleOps DirHandle FileSystem.
From S2P Require Import Io Frames Invariant MetaSteps Views Content FileGrow FileIO FileShrink Truncate.
From S2P Require Import DirSteps Names DirOps FileNames FileEntries Unlink OpenFiles Session DataTheorems.

(** what every call leaves *)
Record call_post (c : call) (w : world) (r : reply) (w' : world) : Prop := {
  cp_sys : sys_ok w';
  cp_good : dev_good w';
  cp_super : w_super w' = w_super w;
  cp_pool : (length (fd_pool (w_fdh w)) <= takes_fd c + length (fd_pool (w_fdh w')))%nat;
  cp_step : a_step c (abs w) r (abs w')
}.

Lemma sys_ok_errno (e : Z) (w : world) : sys_ok w -> sys_ok (set_w_errno e w).
Proof.
  intros [Hi Hd Ht Ho]. constructor.
  - apply (fs_inv_meta_step w); [apply set_errno_step|done].
  - by apply (dir_tree_ext w).
  - by apply file_tree_errno.
  - by destruct Ho.
Qed.

Lemma sys_ok_now (time : Z) (w : world) : in_i 64 time -> sys_ok w -> sys_ok (set_w_now time w).
Proof.
  intros Hn [Hi Hd Ht Ho]. constructor.
  - by destruct Hi.
  - by apply (dir_tree_ext w).
  - eapply file_tree_ext; [..|exact Ht]; try done. eauto.
  - by destruct Ho.
Qed.

(** a call that is refused *)
Lemma call_fails (c : call) (w : world) (e : Z) :
  sys_ok w -> dev_good w -> (forall t, a_same (abs w) t -> a_step c (abs w) (-1, []) t) ->
  call_post c w (-1, []) (set_w_errno e w).
Proof.
  intros Hs Hg Hstep. constructor; try done.
  - by apply sys_ok_errno.
  - cbn. lia.
  - apply Hstep. by constructor.
Qed.

Lemma file_content_none (w : world) (f : Z) : w_files w !! f = None -> file_content w f = [].
Proof.
  intros Hf. unfold file_content, file_size. cbn. by rewrite lookup_fmap, Hf.
Qed.

Lemma named_exists (w : world) (key : Z * bytes) (f : Z) :
  sys_ok w -> fh_created_files (w_fh w) !! key = Some f -> exists y, w_files w !! f = Some y.
Proof. intros Hs Hk. destruct (named_file w key f (so_files _ Hs) Hk) as (y & _ & ? & _). by exists y. Qed.

Lemma open_exists (w : world) (fd f : Z) :
  sys_ok w -> opens_of w !! fd = Some f ->
  exists key y, fh_created_files (w_fh w) !! key = Some f /\ w_files w !! f = Some y.
Proof.
  intros Hs Hf. destruct (oo_named _ (so_opens _ Hs) _ _ Hf) as [key Hk].
  destruct (named_exists w key f Hs Hk) as [y Hy]. by exists key, y.
Qed.

Section Refinement.
Context `{Env}.

(** ** Making a file *)

Lemma make_file (w w' : world) (path : bytes) (f : Z) :
  sys_ok w -> calls_step w w' -> create_file_post w path (Some f) w' ->
  sys_ok w' /\ a_makes path (abs w) f (abs w').
Proof.
  intros Hs Hc Hp. destruct (cf_some _ _ _ _ Hp f eq_refl) as (key & i & Hkey & Hnone & Hfn & Hnm & Hy & Hct & _).
  destruct (cf_frame _ _ _ _ Hp f eq_refl) as (i' & m & Hf' & Hm' & Htmp & Hfree & Hmeta).
  assert (i' = i) as -> by (rewrite Hf', lookup_insert_eq in Hy; congruence).
  assert (Hopen : forall fd, opens_of w !! fd <> Some f).
  { intros fd Hfd. destruct (open_exists w fd f Hs Hfd) as (_ & y & _ & Hy'). congruence. }
  assert (Hold : forall key' g, fh_created_files (w_fh w) !! key' = Some g -> g <> f /\ key' <> key).
  { intros key' g Hk. destruct (named_exists w key' g Hs Hk) as [y Hy']. split; congruence. }
  split.
  - constructor; try apply Hp. apply (open_ok_step w); [apply Hs|done| |].
    + intros fd g Hg. destruct (oo_named _ (so_opens _ Hs) _ _ Hg) as [key' Hk]. exists key'.
      rewrite Hnm, lookup_insert_ne; [done|]. intros <-. by destruct (Hold _ _ Hk).
    + intros g y. rewrite Hf'. intros [[<- <-]|[Hne Hg]]%lookup_insert_Some.
      * by rewrite open_count_none.
      * by apply (oo_links _ (so_opens _ Hs)).
  - exists key. split_and!; [by rewrite abs_key|done| | |].
    + intros key' Hk. by destruct (Hold _ _ Hk).
    + cbn. rewrite Hfree. cbn. lia.
    + apply abs_files; [apply Hc|apply Hc|exact Hnm|..].
      * intros g. unfold a_make, upd. cbn [abs a_data]. destruct (decide (g = f)) as [->|Hne]; [done|].
        destruct (w_files w !! g) as [y|] eqn:Hg.
        -- apply (cf_old _ _ _ _ Hp). by eexists.
        -- rewrite !file_content_none; [done|done|]. by rewrite Hf', lookup_insert_ne.
      * by apply opens_of_calls.
      * intros key' g. unfold a_make, upd. cbn [abs a_names a_doomed]. unfold doomed. rewrite Hf', Hm'.
        intros [[_ <-]|[_ Hk]]%lookup_insert_Some.
        -- rewrite decide_True, lookup_insert_eq by done. cbn. by rewrite lookup_insert_eq, Htmp.
        -- destruct (Hold _ _ Hk) as [Hgf _]. rewrite decide_False, lookup_insert_ne by done.
           destruct (w_files w !! g) as [y|] eqn:Hg; [|done].
           rewrite lookup_insert_ne; [done|]. by apply not_eq_sym, (Hmeta g).
      * cbn. by rewrite Hfree.
Qed.

Lemma cannot_make (w w' : world) (path : bytes) :
  dev_good w -> create_file_post w path None w' ->
  (exists e, w' = set_w_errno e w) /\ a_cannot_make path (abs w).
Proof.
  intros Hg Hp. split; [by apply (cf_refused _ _ _ _ Hp)|].
  destruct (fh_free (w_fh w)) as [|i rest] eqn:Hfree; [left; cbn; by rewrite Hfree|right].
  intros key. rewrite abs_key. intros Hk Hn. apply (cf_good _ _ _ _ Hp key Hg); try done.
  by rewrite Hfree.
Qed.

Lemma create_call (w : world) (path : bytes) (mode : Z) :
  sys_ok w -> dev_good w -> 0 ∉ path ->
  wp (run_call (CCreate path mode)) (call_post (CCreate path mode) w) w.
Proof.
  intros Hs Hg H0. cbn [run_call]. unfold FileSystem_CreateFile. do 2 wp_step. eapply wp_mono.
  { apply keeps_wp; [apply CreateFile_wp; try apply Hs; done|apply calls_CreateFile]. }
  intros [f|] w' [Hp Hc]; repeat wp_step.
  - destruct (make_file w w' path f Hs Hc Hp) as [Hs' Hm]. constructor; try done.
    + by apply (cs_good _ _ Hc).
    + apply (cs_super _ _ Hc).
    + rewrite (cs_fdh _ _ Hc). cbn. lia.
    + left. split; [done|]. by exists f.
  - destruct (cannot_make w w' path Hg Hp) as [[e ->] Hcant].
    apply call_fails; try done. intros t Ht. right. by split.
Qed.

(** ** Descriptors *)

(** a descriptor is given to a named file *)
Lemma open_gives (w : world) (f fd : Z) (rest : list Z) (y : file) (pos : Z) (key : Z * bytes) :
  sys_ok w -> fd_pool (w_fdh w) = fd :: rest -> fh_created_files (w_fh w) !! key = Some f ->
  w_files w !! f = Some y ->
  sys_ok (with_open fd rest f y pos w) /\
  a_gives f (abs w) (fd, []) (abs (with_open fd rest f y pos w)).
Proof.
  intros Hs Hp Hk Hy.
  destruct (with_open_sys fd rest f y pos w Hs Hp Hy ltac:(by exists key)) as [Hs' Hct].
  destruct (with_open_table fd rest f y pos w (so_opens _ Hs) Hp) as [Hn Ht].
  pose proof (pool_range _ _ _ (so_opens _ Hs) Hp) as Hr. split; [done|].
  unfold a_gives. cbn [fst]. split_and!; [unfold fd_range in Hr; lia|done|].
  constructor; try done.
  intros _ g _. cbn. unfold doomed. cbn. destruct (decide (f = g)) as [<-|].
  - by rewrite lookup_insert_eq, Hy.
  - by rewrite lookup_insert_ne.
Qed.

(** no descriptor, no open file *)
Lemma not_open (w : world) (fd : Z) :
  sys_ok w -> opens_of w !! u64 fd = None -> fh_open_files (w_fh w) !! u64 fd = None.
Proof.
  intros Hs Hfd. destruct (fh_open_files (w_fh w) !! u64 fd) as [o|] eqn:Ho; [|done].
  destruct (oo_used _ (so_opens _ Hs) _ _ Ho) as (_ & x & Hx).
  assert (opens_of w !! u64 fd = Some (of_file x)) by (apply opens_of_lookup; by exists o, x).
  congruence.
Qed.

Lemma dup_call (w : world) (fd : Z) :
  sys_ok w -> dev_good w -> fd_pool (w_fdh w) <> [] ->
  wp (run_call (CDup fd)) (call_post (CDup fd) w) w.
Proof.
  intros Hs Hg Hpool. cbn [run_call]. wp_step.
  destruct (opens_of w !! u64 fd) as [f|] eqn:Hfd.
  - destruct (fd_pool (w_fdh w)) as [|x rest] eqn:Hp; [done|].
    destruct (open_exists w _ f Hs Hfd) as (key & _ & Hk & _).
    eapply wp_mono; [by apply (FileHandle_dup_wp w fd f x rest)|].
    intros r w' (-> & y' & Hy' & ->). wp_step.
    destruct (open_gives w f x rest y' 0 key Hs Hp Hk Hy') as [Hs' Hgv].
    constructor; try done; [rewrite Hp; cbn; lia|].
    cbn [a_step abs a_open]. by rewrite Hfd.
  - unfold FileHandle_dup, GetOpenFile, set_errno.
    repeat wp_step. rewrite (not_open w fd Hs Hfd). repeat wp_step.
    apply call_fails; try done. intros t Ht. cbn [a_step abs a_open]. by rewrite Hfd.
Qed.

Lemma open_call (w : world) (path : bytes) (flags : Z) :
  sys_ok w -> dev_good w -> 0 ∉ path -> plain_flags flags -> fd_pool (w_fdh w) <> [] ->
  wp (run_call (COpen path flags)) (call_post (COpen path flags) w) w.
Proof.
  intros Hs Hg H0 Hfl Hpool. cbn [run_call]. wp_step.
  pose proof (open_file_of_wp w path flags (so_inv _ Hs) (so_dirs _ Hs) (so_files _ Hs) Hfl H0) as Hwp.
  apply wp_intro in Hwp as (r & w1 & Hrun & Hpost).
  pose proof (calls_open_file_of path flags w (proj2 Hfl) _ _ Hrun) as Hc.
  (* without a file the reply is the error *)
  assert (Hfail : forall e, r = None -> w1 = set_w_errno e w ->
    (forall t, a_same (abs w) t -> a_step (COpen path flags) (abs w) (-1, []) t) ->
    wp (FileHandle_open path flags) (fun a w' => wp (ret (a, [])) (call_post (COpen path flags) w) w') w).
  { intros e -> -> Hst. unfold FileHandle_open. wp_step. eapply wp_run; [exact Hrun|].
    cbv beta iota. repeat wp_step. by apply call_fails. }
  (* with a file the first descriptor of the pool is given *)
  assert (Hgive : forall f key, r = Some f -> sys_ok w1 -> fh_created_files (w_fh w1) !! key = Some f ->
    (forall r t, a_gives f (abs w1) r t -> a_step (COpen path flags) (abs w) r t) ->
    wp (FileHandle_open path flags) (fun a w' => wp (ret (a, [])) (call_post (COpen path flags) w) w') w).
  { intros f key -> Hs1 Hk1 Hst. destruct (fd_pool (w_fdh w1)) as [|x rest] eqn:Hp.
    { rewrite (cs_fdh _ _ Hc) in Hp. done. }
    destruct (named_exists w1 key f Hs1 Hk1) as [y Hy].
    eapply wp_mono; [by apply (FileHandle_open_wp path flags w w1 f x rest key)|].
    intros a w' (-> & y' & pos & Hy' & ->). wp_step.
    destruct (open_gives w1 f x rest y' pos key Hs1 Hp Hk1 Hy') as [Hs' Hgv]. constructor; try done.
    - by apply (cs_good _ _ Hc).
    - apply (cs_super _ _ Hc).
    - rewrite <- (cs_fdh _ _ Hc), Hp. cbn. lia.
    - by apply Hst. }
  unfold open_file_post in Hpost. cbn [a_step] in Hfail, Hgive. rewrite abs_file in Hfail, Hgive.
  destruct (lookup_dir w path) as [d|] eqn:Hd.
  { destruct Hpost as [[e ->] ->]. apply (Hfail e); try done. intros t Ht.
    destruct (a_dir (abs w) path) eqn:Ha; [done|]. apply abs_dir_none in Ha; [congruence|apply Hs]. }
  apply (abs_dir_none _ _ (so_dirs _ Hs)) in Hd. rewrite Hd in Hfail, Hgive.
  destruct (lookup_file w path) as [f|] eqn:Hf.
  - destruct Hpost as [[e ->] Hr]. destruct (excl_create flags).
    + by apply (Hfail e).
    + unfold lookup_file in Hf. apply bind_Some in Hf as (key & _ & Hk).
      apply (Hgive f key); try done. by apply sys_ok_errno.
  - destruct (has_flag flags O_CREAT).
    + destruct r as [f|].
      * destruct (make_file w w1 path f Hs Hc Hpost) as [Hs1 Hm].
        pose proof Hm as (key & _ & _ & _ & _ & Hsame).
        apply (Hgive f key); try done.
        { pose proof (as_names _ _ Hsame) as Hn. cbn in Hn. by rewrite Hn, lookup_insert_eq. }
        intros r t Hgv. left. split; [done|]. by exists f, (abs w1).
      * destruct (cannot_make w w1 path Hg Hpost) as [[e ->] Hcant].
        apply (Hfail e); try done. intros t Ht. right. by split.
    + destruct Hpost as [[e ->] ->]. apply (Hfail e); try done. intros t Ht. right. by split.
Qed.

Lemma close_call (w : world) (fd : Z) :
  sys_ok w -> dev_good w -> wp (run_call (CClose fd)) (call_post (CClose fd) w) w.
Proof.
  intros Hs Hg. cbn [run_call]. wp_step. destruct (opens_of w !! u64 fd) as [f|] eqn:Hfd.
  - destruct (open_exists w _ f Hs Hfd) as (key & y & Hk & Hy).
    eapply wp_mono; [by apply (FileHandle_close_wp w fd f key)|].
    intros r w' [-> Hs' Hg' Hsup Hop Hpool Hrec Hdh Hdirs Hnm Hct Hdoom]. wp_step. constructor; try done.
    + rewrite Hpool, length_app. cbn. lia.
    + cbn [a_step abs a_open a_names]. rewrite Hfd. split; [done|]. exists key. split; [done|].
      fold (abs w). unfold a_last. cbn [abs a_open a_doomed] in *.
      set (gone := bool_decide (open_count (delete (u64 fd) (opens_of w)) f = 0) && doomed w f) in *.
      destruct gone; cbn [andb] in *; apply (abs_files w w'); try done; try by rewrite Hrec.
      * intros g. rewrite Hct. unfold upd. repeat case_decide || case_bool_decide; done.
      * intros key' g [Hne Hk']%lookup_delete_Some. apply Hdoom. intros [_ ->].
        by apply Hne, (file_tree_inj w key key' f (so_files _ Hs)).
      * intros key' g _. apply Hdoom. by intros [? _].
  - unfold FileHandle_close, GetOpenFile, set_errno. repeat wp_step.
    rewrite (not_open w fd Hs Hfd). repeat wp_step.
    apply call_fails; try done. intros t Ht. cbn [a_step abs a_open]. by rewrite Hfd.
Qed.

(** ** Removing a file *)

(** an open file is only marked *)
Lemma unlink_marks (w : world) (f : Z) (y : file) (e : Z) :
  sys_ok w -> w_files w !! f = Some y ->
  let w' := set_w_files (<[f := set_fo_deleted true y]> (w_files w)) (set_w_errno e w) in
  sys_ok w' /\ a_same (a_doom f (abs w)) (abs w').
Proof.
  intros Hs Hy w'. pose proof Hs as [Hi Hd Ht Ho].
  assert (Hms : meta_step w w').
  { etrans; [apply (set_errno_step e)|]. by apply (meta_step_files (set_w_errno e w) f y). }
  split; constructor; try done.
  - by apply (fs_inv_meta_step w).
  - by apply (dir_tree_ext w).
  - apply (file_tree_frame w); try done. cbn. by apply (fmap_insert_id _ _ _ y).
  - destruct Ho as [? ? ? ? ? ? Hl]. constructor; try done. intros g z. cbn.
    intros [[<- <-]|[_ Hz]]%lookup_insert_Some; [exact (Hl f y Hy)|by apply Hl].
  - intros g. by apply file_content_meta_step.
  - intros key g _. cbn. unfold upd, doomed. cbn. destruct (decide (g = f)) as [->|Hne].
    + rewrite lookup_insert_eq. cbn. by rewrite orb_true_r.
    + by rewrite lookup_insert_ne.
Qed.

(** a closed file is removed *)
Lemma unlink_removes (w w' : world) (f : Z) (y : file) (od : directory) (name : bytes) :
  sys_ok w -> calls_step w w' -> w_files w !! f = Some y ->
  fh_created_files (w_fh w) !! (do_meta od, name) = Some f -> open_count (opens_of w) f = 0 ->
  unlink_post w f y od name 0 w' ->
  sys_ok w' /\ a_same (a_remove (do_meta od, name) f (abs w)) (abs w').
Proof.
  intros Hs Hc Hy Hk Hz [_ _ _ Hoth _ Hinv _ Hnm Hempty _ _ _ Hfr].
  destruct (Hinv eq_refl) as (Hi & Hd & Ht). destruct (Hfr eq_refl) as (Hf' & Hfree & m & Hm).
  specialize (Hnm eq_refl). specialize (Hempty eq_refl).
  assert (Hne : forall key g, delete (do_meta od, name) (fh_created_files (w_fh w)) !! key = Some g -> g <> f).
  { intros key g [Hne Hg]%lookup_delete_Some ->. by apply Hne, (file_tree_inj w _ key f (so_files _ Hs)). }
  split; [constructor; try done|apply (abs_files w w'); try done; try apply Hc].
  - apply (open_ok_step w); [apply Hs|done| |].
    + intros fd g Hg. destruct (oo_named _ (so_opens _ Hs) _ _ Hg) as [key Hkey]. exists key.
      rewrite Hnm, lookup_delete_ne; [done|]. intros <-. rewrite Hk in Hkey. injection Hkey as <-.
      by apply (open_count_zero _ _ Hz fd).
    + intros g z. rewrite Hf'. intros [[<- <-]|[_ Hg]]%lookup_insert_Some;
        [exact (oo_links _ (so_opens _ Hs) f y Hy)|by apply (oo_links _ (so_opens _ Hs))].
  - intros g. cbn. unfold upd. destruct (decide (g = f)) as [->|Hg]; [done|by apply Hoth].
  - by apply opens_of_calls.
  - intros key g Hg. specialize (Hne key g Hg). cbn. unfold doomed.
    rewrite Hf', Hm, lookup_insert_ne by done.
    destruct (w_files w !! g) as [z|] eqn:Hz'; [|done]. rewrite lookup_insert_ne; [done|].
    intros Heq. apply Hne. by apply (files_meta_inj w f g y z (so_inv _ Hs)).
  - cbn. by rewrite Hfree.
Qed.

Lemma unlink_call (w : world) (path : bytes) :
  sys_ok w -> dev_good w -> wp (run_call (CUnlink path)) (call_post (CUnlink path) w) w.
Proof.
  intros Hs Hg. cbn [run_call]. wp_step. pose proof Hs as [Hi Hd Ht Ho]. eapply wp_mono.
  { apply keeps_wp; [by apply FileHandle_unlink_wp|apply calls_unlink]. }
  assert (Hlinks : forall f y, w_files w !! f = Some y -> fo_nlink y = open_count (opens_of w) f)
    by apply Ho.
  intros r w' [[e -> -> Hno|f y e -> Hdir Hf Hy Hn ->|f y od Hdir Hkey Hf Hy Hn Hpost] Hc]; wp_step.
  - apply call_fails; try done. intros t Ht'. cbn [a_step]. rewrite abs_file.
    destruct (a_dir (abs w) path) eqn:Ha; [done|]. apply abs_dir_none in Ha; [|done].
    by rewrite (Hno Ha).
  - destruct (unlink_marks w f y e Hs Hy) as [Hs' Hsame]. constructor; try done.
    cbn [a_step]. rewrite abs_file, Hf. apply (abs_dir_none _ _ Hd) in Hdir. rewrite Hdir.
    split; [done|]. rewrite bool_decide_false; [done|]. cbn [abs a_open]. rewrite <- (Hlinks f y Hy). lia.
  - assert (Hz : open_count (opens_of w) f = 0).
    { pose proof (Hlinks f y Hy). pose proof (open_count_bound w f Ho). lia. }
    pose proof (up_good _ _ _ _ _ _ _ Hpost Hg) as ->.
    assert (Hk : fh_created_files (w_fh w) !! (do_meta od, GetFileName path) = Some f).
    { unfold lookup_file in Hf. by rewrite Hkey in Hf. }
    destruct (unlink_removes w w' f y od _ Hs Hc Hy Hk Hz Hpost) as [Hs' Hsame]. constructor; try done.
    + by apply (cs_good _ _ Hc).
    + apply (cs_super _ _ Hc).
    + rewrite (cs_fdh _ _ Hc). cbn. lia.
    + cbn [a_step]. rewrite abs_file, Hf. apply (abs_dir_none _ _ Hd) in Hdir. rewrite Hdir.
      split; [done|]. rewrite bool_decide_true by done. exists (do_meta od, GetFileName path).
      by rewrite abs_key.
Qed.

(** ** Writing and reading *)

Lemma names_kept_sys (w w' : world) :
  names_kept w w' -> fs_inv w' -> sys_ok w -> sys_ok w'.
Proof.
  intros Hk Hi [_ Hd Ht Ho]. constructor; [done|by apply (dir_tree_names w)|by apply (file_tree_names w)|].
  by apply (open_ok_names w).
Qed.

Lemma doomed_names (w w' : world) (f : Z) : names_kept w w' -> doomed w' f = doomed w f.
Proof.
  intros Hk. unfold doomed. pose proof (f_equal (lookup f) (nk_files _ _ Hk)) as Hf.
  rewrite !lookup_fmap in Hf. destruct (w_files w' !! f) as [y'|], (w_files w !! f) as [y|]; try done.
  injection Hf as Hm _ Hd. rewrite Hm, Hd. f_equal.
  pose proof (f_equal (lookup (fo_meta y)) (nk_records _ _ Hk)) as Hr. rewrite !lookup_fmap in Hr.
  destruct (w_filemeta w' !! fo_meta y), (w_filemeta w !! fo_meta y); try done.
  by injection Hr as _ _ _ ->.
Qed.

(** only contents can differ *)
Lemma abs_names (w w' : world) (data : Z -> bytes) :
  names_kept w w' -> (forall g, file_content w' g = data g) ->
  a_same (a_with_files (a_names (abs w)) data (a_open (abs w)) (a_doomed (abs w)) (a_records (abs w))
    (abs w)) (abs w').
Proof.
  intros Hk Hc. apply (abs_files w w'); try apply (nk_calls _ _ Hk); try done.
  - cbn. by rewrite (nk_fh _ _ Hk).
  - by apply opens_of_calls, nk_calls.
  - intros _ g _. by apply doomed_names.
  - cbn. by rewrite (nk_fh _ _ Hk).
Qed.

Lemma open_leads (w : world) (fd f : Z) :
  sys_ok w -> opens_of w !! u64 fd = Some f -> exists o, fd_leads w fd o f.
Proof.
  intros Hs Hfd. destruct (open_exists w _ f Hs Hfd) as (_ & y & _ & Hy).
  apply opens_of_lookup in Hfd as (o & x & Ho & Hx & Hf). exists o.
  split; [done|]. split; [by eexists|]. by exists x.
Qed.

Lemma pwrite_call (w : world) (fd : Z) (buf : bytes) (offset : Z) :
  sys_ok w -> dev_good w -> sb_curr_block_num (w_super w) <= kBlockLocks ->
  call_ok (CPwrite fd buf offset) ->
  wp (run_call (CPwrite fd buf offset)) (call_post (CPwrite fd buf offset) w) w.
Proof.
  intros Hs Hg Hlk (Hne & Hoff & Hmax). cbn [run_call]. wp_step.
  destruct (opens_of w !! u64 fd) as [f|] eqn:Hfd.
  - destruct (open_leads w fd f Hs Hfd) as [o Hl]. eapply wp_mono.
    { apply keeps_wp; [apply (PwriteFile_wp w fd o f); try done; apply Hs|apply keeps_PwriteFile]. }
    intros r w' [(Hi' & Hst & Hoth & Hgood) Hk]. wp_step. constructor.
    + by apply (names_kept_sys w).
    + by apply (cs_good _ _ (nk_calls _ _ Hk)).
    + apply (cs_super _ _ (nk_calls _ _ Hk)).
    + rewrite (cs_fdh _ _ (nk_calls _ _ Hk)). cbn. lia.
    + cbn [a_step abs a_open]. rewrite Hfd. exists (file_content w' f). split.
      * apply abs_names; [done|]. intros g. unfold upd. destruct (decide (g = f)) as [->|]; [done|].
        by apply Hoth.
      * cbn [abs a_data a_room]. rewrite (file_content_length w f (so_inv _ Hs)).
        intros Hroom. destruct (Hgood Hg Hroom) as (-> & gap & Hlen & Hc). split; [done|by exists gap].
  - unfold PwriteFile, GetOpenFile, set_errno. repeat wp_step.
    rewrite (not_open w fd Hs Hfd). repeat wp_step.
    apply (call_fails _ w ENOENT); try done. intros t Ht. cbn [a_step abs a_open]. by rewrite Hfd.
Qed.

Lemma pread_call (w : world) (fd len offset : Z) :
  sys_ok w -> dev_good w -> sb_curr_block_num (w_super w) <= kBlockLocks ->
  call_ok (CPread fd len offset) ->
  wp (run_call (CPread fd len offset)) (call_post (CPread fd len offset) w) w.
Proof.
  intros Hs Hg Hlk (Hlen & Hoff & Hmax). cbn [run_call].
  destruct (opens_of w !! u64 fd) as [f|] eqn:Hfd.
  - destruct (open_leads w fd f Hs Hfd) as [o Hl]. eapply wp_mono.
    { apply keeps_wp; [|apply keeps_PreadFile].
      apply (PreadFile_wp w fd o f); try done; [apply Hs|]. rewrite length_replicate. lia. }
    intros rb w' [(Hi' & Hct & Hgood) Hk]. constructor.
    + by apply (names_kept_sys w).
    + by apply (cs_good _ _ (nk_calls _ _ Hk)).
    + apply (cs_super _ _ (nk_calls _ _ Hk)).
    + rewrite (cs_fdh _ _ (nk_calls _ _ Hk)). cbn. lia.
    + cbn [a_step abs a_open]. rewrite Hfd. destruct (Hgood Hg) as [Hr1 Hr2]. split_and!; [|done|].
      * by apply (abs_names w w' (file_content w)).
      * cbn [abs a_data]. rewrite Hr2. unfold splice. rewrite take_0, app_nil_l. by rewrite take_app_length.
  - unfold PreadFile, GetOpenFile, set_errno. repeat wp_step.
    rewrite (not_open w fd Hs Hfd). repeat wp_step. constructor; try done.
    + apply sys_ok_errno. by apply (sys_ok_errno EBADF).
    + cbn [a_step abs a_open]. rewrite Hfd. split; [done|by constructor].
Qed.

(** *** Without a free descriptor *)

(** the descriptor that a failed [get_fd] becomes *)
Definition no_fd : Z := 2 ^ 64 - 1.

Lemma open_empty_pool (w w1 : world) (path : bytes) (flags f : Z) (key : Z * bytes) :
  open_file_of path flags w = Done (Some f) w1 -> sys_ok w1 ->
  fh_created_files (w_fh w1) !! key = Some f -> fd_pool (w_fdh w1) = [] ->
  wp (FileHandle_open path flags) (fun r w' => r = -1 /\ exists y pos,
    w_files w1 !! f = Some y /\ w' = with_open no_fd [] f y pos w1) w.
Proof.
  intros Hof Hs Hk Hp. destruct (named_file w1 key f (so_files _ Hs) Hk) as (y & m & Hy & Hm).
  unfold FileHandle_open. wp_step. eapply wp_run; [exact Hof|]. cbv beta iota. wp_step.
  unfold Fd.get_fd. repeat wp_step. rewrite Hp. unfold set_errno. repeat wp_step.
  change (u64 (-1)) with no_fd. change (no_fd <? 0) with false. cbv iota.
  unfold fresh, File_file_size, put_open. repeat wp_step.
  apply (wp_file_meta f y m); [done|done|]. repeat wp_step. apply (wp_upd_file f _ y); [done|].
  unfold set_errno. repeat wp_step. split; [done|]. exists y. eexists. split; [done|].
  unfold with_open. cbn. rewrite insert_insert_eq.
  assert (set_fd_pool [] (w_fdh w1) = w_fdh w1) as ->; [|done].
  destruct (w_fdh w1). cbn in Hp. by rewrite Hp.
Qed.

End Refinement.
