(* ===== verification/DirRefinement.v ===== *)
(** * The calls on directories and names refine the abstract file system

    Making and removing directories, renaming files and directories, and
    growing files; then any call, and sequences of calls. *)

From S2P Require Import Prelude Meta Device World SuperBlock Resources Paths FileBlock Inode.
From S2P Require Import Directory FileHandle File OpenFile FileHandleOps DirHandle FileSystem.
From S2P Require Import Io Frames Invariant MetaSteps Views Content FileGrow FileIO FileShrink Truncate.
From S2P Require Import DirSteps Names DirOps FileNames FileEntries Unlink OpenFiles Session Rename.
From S2P Require Import DirRename DataTheorems Refinement.

(** ** Steps on directories *)

Lemma opens_of_dirs (w w' : world) : dir_step w w' -> opens_of w' = opens_of w.
Proof.
  intros [[Hs _ _ _] _ Eh _ _ _ _]. unfold opens_of. by rewrite Eh, (es_opens _ _ Hs).
Qed.

Lemma sys_ok_dirs (w w' : world) :
  sys_ok w -> dir_step w w' -> dir_tree w' -> dirs_stay w w' -> w_next w <= w_next w' ->
  (forall i name f d, fh_created_files (w_fh w) !! (i, name) = Some f ->
     dh_created_dhs (w_dh w) !! i = Some d -> dh_created_dhs (w_dh w') !! i = Some d) ->
  (forall p d od i f, dh_created_dirs (w_dh w') !! p = Some d -> w_dirs w' !! d = Some od ->
     do_items od !! i = Some f -> exists p' od', dh_created_dirs (w_dh w) !! p' = Some d /\
       w_dirs w !! d = Some od') ->
  sys_ok w'.
Proof.
  intros [Hi Hd Ht Ho] Hs Hd' Hst Hnx Hdhs Hnew. pose proof (opens_of_dirs w w' Hs) as Eo.
  pose proof Hs as [Hm Ef Eh Efd _ Efm _]. constructor; [by apply (fs_inv_meta_step w)|done| |].
  - by apply (file_tree_dirs w).
  - destruct Ho as [? ? Hf Hu Hx Hn Hl]. pose proof (es_opens _ _ (ms_env _ _ Hm)) as Eop.
    constructor; rewrite ?Efd, ?Eh, ?Eop, ?Eo, ?Ef; try done.
    intros o Ho. specialize (Hx o Ho). lia.
Qed.

(** a step that changes no file *)
Lemma abs_dirs_step (w w' : world) (dirs : gmap bytes Z) (n : nat) (held : Z -> bool) :
  fs_inv w -> dir_step w w' -> a_dirs (abs w') = dirs -> length (dh_free (w_dh w')) = n ->
  (forall p i, dirs !! p = Some i -> dir_held w' i = held i) ->
  a_same (a_with_dirs dirs n held (abs w)) (abs w').
Proof.
  intros Hi Hs Ed En Hh. pose proof Hs as [Hm Ef Eh _ _ Efm _]. constructor; try done; cbn.
  - by rewrite Eh.
  - intros g. by apply file_content_meta_step.
  - by apply opens_of_dirs.
  - intros key g _. unfold doomed. by rewrite Ef, Efm.
  - by rewrite Eh.
Qed.

(** what the abstraction keeps of a directory *)
Lemma a_dirs_lookup (w : world) (p : bytes) (i : Z) :
  a_dirs (abs w) !! p = Some i <-> exists d o, dh_created_dirs (w_dh w) !! p = Some d /\
    w_dirs w !! d = Some o /\ do_meta o = i.
Proof.
  cbn. rewrite lookup_omap. split.
  - intros (d & Hd & Hi)%bind_Some. apply fmap_Some_1 in Hi as (o & Ho & ->). by exists d, o.
  - intros (d & o & Hd & Ho & <-). rewrite Hd. cbn. by rewrite Ho.
Qed.

Lemma a_dirs_some (w : world) (p : bytes) :
  dir_tree w -> is_Some (a_dirs (abs w) !! p) <-> is_Some (dh_created_dirs (w_dh w) !! p).
Proof.
  intros Ht. split.
  - intros [i (d & o & Hd & _)%a_dirs_lookup]. by exists d.
  - intros [d Hd]. destruct (dt_created _ Ht _ _ Hd) as (o & _ & Ho & _).
    exists (do_meta o). apply a_dirs_lookup. by exists d, o.
Qed.

Lemma a_dirs_none (w : world) (p : bytes) :
  dir_tree w -> a_dirs (abs w) !! p = None <-> dh_created_dirs (w_dh w) !! p = None.
Proof. intros Ht. rewrite !eq_None_not_Some. by rewrite a_dirs_some. Qed.

Lemma dir_stays (w w' : world) (p : bytes) (d : Z) :
  dir_tree w -> dirs_stay w w' -> dh_created_dirs (w_dh w) !! p = Some d ->
  do_meta <$> w_dirs w' !! d = do_meta <$> w_dirs w !! d.
Proof.
  intros Ht Hst Hd. destruct (dt_created _ Ht _ _ Hd) as (o & _ & Ho & _).
  destruct (Hst d o Ho) as (o' & Ho' & Em & _). rewrite Ho, Ho'. cbn. by rewrite Em.
Qed.

Lemma held_stays (w w' : world) (i d : Z) :
  dirs_stay w w' -> is_Some (w_dirs w !! d) ->
  dh_created_dhs (w_dh w) !! i = Some d -> dh_created_dhs (w_dh w') !! i = Some d ->
  dir_held w' i = dir_held w i.
Proof.
  intros Hst [o Ho] Hd Hd'. unfold dir_held. rewrite Hd, Hd'. cbn.
  destruct (Hst d o Ho) as (o' & Ho' & _ & _ & El). by rewrite Ho, Ho', El.
Qed.

Lemma childless_abs (w : world) (p : bytes) (d : Z) (o : directory) :
  dir_tree w -> dh_created_dirs (w_dh w) !! p = Some d -> w_dirs w !! d = Some o ->
  do_children o = ∅ <-> a_childless p (abs w).
Proof.
  intros Ht Hd Ho. split.
  - intros He p' Hp' Hne Hpar. apply (a_dirs_some w p' Ht) in Hp' as [c Hc].
    destruct (dt_created _ Ht _ _ Hc) as (x & _ & Hx & _).
    destruct (dt_parent _ Ht _ _ _ Hc Hx Hne) as (q & oq & Hq & Hoq & Hcc). rewrite Hpar in Hq.
    assert (q = d) as -> by congruence. assert (oq = o) as -> by congruence. by rewrite He in Hcc.
  - intros Hcl. apply map_eq. intros i. rewrite lookup_empty.
    destruct (do_children o !! i) as [c|] eqn:Hc; [|done].
    destruct (dt_children _ Ht d o i c (ex_intro _ p Hd) Ho Hc) as (p' & x & Hp' & Hne & Hpar & _).
    exfalso. apply (Hcl p'); [|done|by apply (dir_tree_inj w _ _ d)].
    apply a_dirs_some; [done|by exists c].
Qed.

Lemma fileless_abs (w : world) (p : bytes) (d : Z) (o : directory) :
  dir_tree w -> file_tree w -> dh_created_dirs (w_dh w) !! p = Some d -> w_dirs w !! d = Some o ->
  do_items o = ∅ <-> forall n, fh_created_files (w_fh w) !! (do_meta o, n) = None.
Proof.
  intros Ht Hft Hd Ho. destruct (dt_created _ Ht _ _ Hd) as (o0 & m & Ho0 & _ & _ & _ & _ & _ & Hdn).
  assert (o0 = o) as -> by congruence. clear Ho0. split.
  - intros He n. destruct (_ !! (do_meta o, n)) as [f|] eqn:Hk; [|done].
    destruct (ft_created _ Hft _ _ _ Hk) as (y & my & d' & od & _ & _ & _ & _ & _ & _ & Hd' & Hod & Hit).
    assert (d' = d) as -> by congruence. assert (od = o) as -> by congruence. by rewrite He in Hit.
  - intros Hn. apply map_eq. intros i. rewrite lookup_empty.
    destruct (do_items o !! i) as [f|] eqn:Hit; [|done].
    destruct (ft_items _ Hft d o i f (ex_intro _ p Hd) Ho Hit) as (y & name & Hk & _). by rewrite Hn in Hk.
Qed.

(** nothing of the file system is in an idle directory *)
Lemma idle_abs (w : world) (p : bytes) (d : Z) (o : directory) :
  dir_tree w -> file_tree w -> dh_created_dirs (w_dh w) !! p = Some d -> w_dirs w !! d = Some o ->
  dir_idle o <-> dir_held w (do_meta o) = false /\ a_childless p (abs w) /\
    forall n, fh_created_files (w_fh w) !! (do_meta o, n) = None.
Proof.
  intros Ht Hft Hd Ho. destruct (dt_created _ Ht _ _ Hd) as (o0 & m & Ho0 & _ & _ & _ & _ & _ & Hdn).
  assert (o0 = o) as -> by congruence. clear Ho0.
  assert (Hheld : dir_held w (do_meta o) = negb (u32 (do_nlink o) =? 0)).
  { unfold dir_held. rewrite Hdn. cbn. by rewrite Ho. }
  rewrite Hheld, negb_false_iff, Z.eqb_eq. unfold dir_idle.
  rewrite (childless_abs w p d o), (fileless_abs w p d o) by done. tauto.
Qed.

(** two directories have two handles *)
Lemma dir_handles (w : world) (p p' : bytes) (d d' : Z) (o o' : directory) :
  dir_tree w -> dh_created_dirs (w_dh w) !! p = Some d -> w_dirs w !! d = Some o ->
  dh_created_dirs (w_dh w) !! p' = Some d' -> w_dirs w !! d' = Some o' ->
  dh_created_dhs (w_dh w) !! do_meta o = Some d /\ (do_meta o = do_meta o' -> p = p').
Proof.
  intros Ht Hd Ho Hd' Ho'. destruct (dt_created _ Ht _ _ Hd) as (x & _ & Hx & _ & _ & _ & _ & _ & Hn).
  destruct (dt_created _ Ht _ _ Hd') as (x' & _ & Hx' & _ & _ & _ & _ & _ & Hn').
  assert (x = o) as -> by congruence. assert (x' = o') as -> by congruence. split; [done|].
  intros Heq. rewrite Heq in Hn. apply (dir_tree_inj w _ _ d); [done|done|congruence].
Qed.

Section DirRefinement.
Context `{Env}.

(** ** Making a directory *)

Lemma mkdir_step (w w' : world) (path : bytes) :
  sys_ok w -> dir_step w w' -> dir_tree w' -> dir_made w path w' ->
  sys_ok w' /\ exists p i, a_can_mkdir path p (abs w) /\ a_new_dir i (abs w) /\
    a_same (a_mkdir p i (abs w)) (abs w').
Proof.
  intros Hs Hst Ht' (name & d & dh & Hk & Hnf & (Hnew & Hfree & Hpar) & Ed & Edh & Ho & Efr & Hnx & Hstay & _).
  pose proof Hs as [Hi Ht Hft _].
  assert (Hin : dh ∈ dh_free (w_dh w)) by (rewrite Efr; by left).
  assert (Hdn : dh_created_dhs (w_dh w) !! dh = None).
  { destruct (dh_created_dhs (w_dh w) !! dh) as [c|] eqn:Hc; [|done].
    by apply (created_dhs_not_free w) in Hc. }
  assert (Hold : forall p c x, dh_created_dirs (w_dh w) !! p = Some c -> w_dirs w !! c = Some x ->
    do_meta x <> dh /\ p <> name /\ dh_created_dhs (w_dh w) !! do_meta x = Some c).
  { intros p c x Hp Hx. destruct (dt_created _ Ht _ _ Hp) as (y & _ & Hy & _ & _ & _ & _ & _ & Hyn).
    assert (y = x) as -> by congruence. split_and!; [|intros ->; congruence|done].
    intros Heq. rewrite Heq in Hyn. congruence. }
  assert (Hnames : forall n, fh_created_files (w_fh w) !! (dh, n) = None).
  { intros n. destruct (_ !! (dh, n)) as [f|] eqn:Hf; [|done].
    destruct (ft_created _ Hft _ _ _ Hf) as (? & ? & ? & ? & _ & _ & _ & _ & _ & _ & Hc & _). congruence. }
  split.
  - apply (sys_ok_dirs w); try done; [lia| |].
    + intros i nm f c Hf Hc. rewrite Edh, lookup_insert_ne; [done|]. intros <-. congruence.
    + intros p c od i f. rewrite Ed. intros [[<- <-]|[_ Hp]]%lookup_insert_Some Hod Hit.
      * rewrite Ho in Hod. injection Hod as <-. cbn in Hit. by rewrite lookup_empty in Hit.
      * destruct (dt_created _ Ht _ _ Hp) as (x & _ & Hx & _). by exists p, x.
  - exists name, dh. split_and!.
    + split_and!; [done|by rewrite abs_no_file|by apply a_dirs_none| |cbn; rewrite Efr; cbn; lia].
      destruct Hpar as [->|Hq]; [by left|right]. by apply a_dirs_some.
    + split; [|done]. intros p (c & x & Hp & Hx & Hm)%a_dirs_lookup. by destruct (Hold p c x Hp Hx).
    + apply (abs_dirs_step w w'); try done.
      * apply map_eq. intros p. cbn. rewrite lookup_omap, Ed. destruct (decide (name = p)) as [<-|Hne].
        -- rewrite !lookup_insert_eq. cbn. by rewrite Ho.
        -- rewrite !lookup_insert_ne, lookup_omap by done.
           destruct (dh_created_dirs (w_dh w) !! p) as [c|] eqn:Hp; [|done]. cbn.
           by apply (dir_stays w w' p).
      * cbn. by rewrite Efr.
      * intros p i. intros [[<- <-]|[_ Hp]]%lookup_insert_Some; unfold upd.
        -- rewrite decide_True by done. unfold dir_held. rewrite Edh, lookup_insert_eq. cbn. by rewrite Ho.
        -- apply a_dirs_lookup in Hp as (c & x & Hp & Hx & <-). destruct (Hold p c x Hp Hx) as (Hne & _ & Hc).
           rewrite decide_False by done. apply (held_stays w w' _ c); [done|by exists x|done|].
           by rewrite Edh, lookup_insert_ne.
Qed.

Lemma dir_step_post (c : call) (w w' : world) (r : reply) :
  dev_good w -> dir_step w w' -> sys_ok w' -> a_step c (abs w) r (abs w') -> call_post c w r w'.
Proof.
  intros Hg [[He _ _ _] _ _ Efd _ _ _] Hs Hst. constructor; try done.
  - by apply (es_good _ _ He).
  - apply (es_super _ _ He).
  - rewrite Efd. lia.
Qed.

Lemma mkdir_call (w : world) (path : bytes) :
  sys_ok w -> dev_good w -> 0 ∉ path -> wp (run_call (CMkdir path)) (call_post (CMkdir path) w) w.
Proof.
  intros Hs Hg H0. pose proof Hs as [Hi Ht _ _]. cbn [run_call]. wp_step.
  eapply wp_mono; [apply CreateDirectory_wp; try done; apply Hi|].
  intros r w' [Hst Ht' Hr _ Hgood Hmade Href]. wp_step. destruct (decide (r = 0)) as [->|Hne].
  - destruct (mkdir_step w w' path Hs Hst Ht' (Hmade eq_refl)) as [Hs' Hm].
    apply dir_step_post; try done. by left.
  - destruct Hr as [?|[-> _]]; [done|]. destruct (Href Hg Hne) as [e ->]. apply call_fails; try done.
    intros t Hsame. right. split; [|by split]. intros p (Hk & Hnf & Hnew & Hpar & Hfree).
    rewrite abs_no_file in Hnf. apply a_dirs_none in Hnew; [|done]. apply Hne, Hgood; try done.
    exists p. split; [done|]. split_and!; [done| |].
    + intros Hf. cbn in Hfree. rewrite Hf in Hfree. cbn in Hfree. lia.
    + destruct Hpar as [->|Hq]; [by left|right]. by apply a_dirs_some in Hq.
Qed.

(** ** Removing a directory *)

Lemma rmdir_step (w w' : world) (p : bytes) (d : Z) (o : directory) :
  sys_ok w -> dir_tree w' -> dir_step w w' -> dh_created_dirs (w_dh w) !! p = Some d ->
  w_dirs w !! d = Some o -> dir_idle o ->
  dh_created_dirs (w_dh w') = delete p (dh_created_dirs (w_dh w)) ->
  dh_created_dhs (w_dh w') = delete (do_meta o) (dh_created_dhs (w_dh w)) ->
  dirs_stay w w' -> dh_free (w_dh w') = dh_free (w_dh w) -> w_next w' = w_next w ->
  sys_ok w' /\ a_same (a_rmdir p (abs w)) (abs w').
Proof.
  intros Hs Ht' Hst Hd Ho Hidle Ed Edh Hstay Efr En. pose proof Hs as [Hi Ht Hft _].
  destruct (proj1 (idle_abs w p d o Ht Hft Hd Ho) Hidle) as (_ & _ & Hnames). split.
  - apply (sys_ok_dirs w); try done; [lia| |].
    + intros i nm f c Hf Hc. rewrite Edh, lookup_delete_ne; [done|]. intros <-. by rewrite Hnames in Hf.
    + intros q c od i f. rewrite Ed. intros [_ Hq]%lookup_delete_Some _ _.
      destruct (dt_created _ Ht _ _ Hq) as (x & _ & Hx & _). by exists q, x.
  - apply (abs_dirs_step w w'); try done.
    + apply map_eq. intros q. cbn. rewrite lookup_omap, Ed. destruct (decide (p = q)) as [<-|Hne].
      * by rewrite !lookup_delete_eq.
      * rewrite !lookup_delete_ne, lookup_omap by done.
        destruct (dh_created_dirs (w_dh w) !! q) as [c|] eqn:Hq; [|done]. cbn. by apply (dir_stays w w' q).
    + cbn. by rewrite Efr.
    + intros q i. intros [Hne (c & x & Hq & Hx & <-)%a_dirs_lookup]%lookup_delete_Some.
      destruct (dir_handles w q p c d x o Ht Hq Hx Hd Ho) as [Hc Hpq].
      apply (held_stays w w' _ c); [done|by exists x|done|].
      rewrite Edh, lookup_delete_ne; [done|]. intros Heq. by apply Hne, eq_sym, Hpq.
Qed.

Lemma rmdir_call (w : world) (path : bytes) :
  sys_ok w -> dev_good w -> path <> [] -> wp (run_call (CRmdir path)) (call_post (CRmdir path) w) w.
Proof.
  intros Hs Hg Hp. pose proof Hs as [Hi Ht Hft _]. cbn [run_call]. wp_step.
  eapply wp_mono; [apply DeleteDirectory_wp; try done; apply Hi|].
  intros r w' [e -> -> Hno|p d o -> Ht' Hst Hne Hk Hd Ho Hidle Ed Edh _ _ (_ & Hnf & Hstay & Efr & En)
    | -> Hbad _ _]; wp_step; [..|done].
  - apply call_fails; try done. intros t Hsame. right. split; [|by split].
    intros p i (Hnr & Hk & Hnf & (d & o & Hd & Ho & <-)%a_dirs_lookup & Hh & Hcl & Hn).
    rewrite abs_no_file in Hnf. apply Hno. exists p, d, o. split_and!; try done.
    by apply (idle_abs w p d o).
  - destruct (rmdir_step w w' p d o) as [Hs' Hsame]; try done.
    apply dir_step_post; try done. left. split; [done|]. exists p, (do_meta o).
    destruct (proj1 (idle_abs w p d o Ht Hft Hd Ho) Hidle) as (Hh & Hcl & Hn).
    split; [|done]. split_and!; try done.
    + intros ->. by injection Hk as <-.
    + by rewrite abs_no_file.
    + apply a_dirs_lookup. by exists d, o.
Qed.

(** ** Renaming *)

Lemma target_free (w : world) (to : bytes) (d : Z) (od : directory) :
  ends_with_slash to = false -> (length (GetFileName to) < 64)%nat -> lookup_file w to = None ->
  lookup_dir w (GetDirName to) = Some d -> w_dirs w !! d = Some od ->
  fh_created_files (w_fh w) !! (do_meta od, GetFileName to) = None.
Proof.
  intros He Hl Hf Hd Hod. unfold lookup_file, file_key in Hf. rewrite He in Hf.
  change kBlockFsMaxFileNameLen with 64 in Hf.
  destruct (Z.leb_spec 64 (Z.of_nat (length (GetFileName to)))) as [|_]; [lia|].
  rewrite Hd in Hf. cbn in Hf. by rewrite Hod in Hf.
Qed.

(** a file moves to another name *)
Lemma rename_file_step (w w' : world) (f i : Z) (key : Z * bytes) (to : bytes) (r d : Z) (od : directory) :
  sys_ok w -> calls_step w w' -> rename_post w f i key to r w' ->
  fh_created_files (w_fh w) !! key = Some f ->
  lookup_dir w (GetDirName to) = Some d -> w_dirs w !! d = Some od ->
  fh_created_files (w_fh w) !! (do_meta od, GetFileName to) = None ->
  sys_ok w' /\ a_same (a_move key (do_meta od, GetFileName to) f (abs w)) (abs w').
Proof.
  intros Hs Hc [Hi' Hd' Ht' Hct _ _ _ Hfound Ef Efr Htmp _ _] Hk Hd Hod Hnew.
  destruct (Hfound d od Hd Hod) as (Hnm & _ & _). set (key' := (do_meta od, GetFileName to)) in *.
  assert (Hnamed : forall k g, <[key' := f]> (delete key (fh_created_files (w_fh w))) !! k = Some g ->
    exists k0, fh_created_files (w_fh w) !! k0 = Some g).
  { intros k g [[_ <-]|[_ [_ Hg]%lookup_delete_Some]]%lookup_insert_Some; eauto. }
  split.
  - constructor; try done. apply (open_ok_step w); [apply Hs|done| |].
    + intros fd g Hg. destruct (oo_named _ (so_opens _ Hs) _ _ Hg) as [k Hkg]. rewrite Hnm.
      destruct (decide (k = key)) as [->|Hne].
      * exists key'. rewrite lookup_insert_eq. congruence.
      * exists k. rewrite lookup_insert_ne, lookup_delete_ne; [done|done|]. intros <-. congruence.
    + intros g y. rewrite Ef. apply (oo_links _ (so_opens _ Hs)).
  - apply (abs_files w w'); try apply Hc; try done.
    + by apply opens_of_calls.
    + intros k g Hg. destruct (Hnamed k g Hg) as [k0 Hk0].
      destruct (named_file w k0 g (so_files _ Hs) Hk0) as (y & m & Hy & Hm).
      destruct (Htmp _ _ Hm) as (m' & Hm' & Et). unfold doomed. cbn. unfold doomed.
      by rewrite Ef, Hy, Hm, Hm', Et.
    + by rewrite Efr.
Qed.

(** a directory moves to another path *)
Lemma rename_dir_step (w w' : world) (p p' : bytes) (d : Z) (o : directory) :
  sys_ok w -> dh_created_dirs (w_dh w) !! p = Some d -> w_dirs w !! d = Some o ->
  dir_moved w d (do_meta o) p p' w' ->
  sys_ok w' /\ a_same (a_move_dir p p' (do_meta o) (abs w)) (abs w').
Proof.
  intros Hs Hd Ho [Hst Ht' Hstay Ed Edh Efr En _]. pose proof Hs as [Hi Ht Hft _]. split.
  - apply (sys_ok_dirs w); try done; [lia|intros; by rewrite Edh|].
    intros q c od i f. rewrite Ed. intros [[_ <-]|[_ [_ Hq]%lookup_delete_Some]]%lookup_insert_Some _ _.
    + by exists p, o.
    + destruct (dt_created _ Ht _ _ Hq) as (x & _ & Hx & _). by exists q, x.
  - assert (Hod : do_meta <$> w_dirs w' !! d = Some (do_meta o)).
    { rewrite (dir_stays w w' p d) by done. by rewrite Ho. }
    apply (abs_dirs_step w w'); try done.
    + apply map_eq. intros q. cbn. rewrite lookup_omap, Ed. destruct (decide (p' = q)) as [<-|Hne'].
      * rewrite !lookup_insert_eq. exact Hod.
      * rewrite !lookup_insert_ne by done. destruct (decide (p = q)) as [<-|Hne].
        -- by rewrite !lookup_delete_eq.
        -- rewrite !lookup_delete_ne, lookup_omap by done.
           destruct (dh_created_dirs (w_dh w) !! q) as [c|] eqn:Hq; [|done]. cbn. by apply (dir_stays w w' q).
    + cbn. by rewrite Efr.
    + intros q i. intros [[_ <-]|[_ [_ (c & x & Hq & Hx & <-)%a_dirs_lookup]%lookup_delete_Some]]%lookup_insert_Some.
      * destruct (dir_handles w p p d d o o Ht Hd Ho Hd Ho) as [Hc _].
        apply (held_stays w w' _ d); [done|by exists o|done|by rewrite Edh].
      * destruct (dir_handles w q p c d x o Ht Hq Hx Hd Ho) as [Hc _].
        apply (held_stays w w' _ c); [done|by exists x|done|by rewrite Edh].
Qed.

Lemma rename_dir_call (w w1 : world) (from to : bytes) (d i e : Z) (r : Z) (w' : world) (name : bytes)
    (o : directory) :
  sys_ok w -> dev_good w -> w1 = set_w_errno e w -> a_file (abs w) to = None -> a_file (abs w) from = None ->
  dir_key from = Some name -> dh_created_dirs (w_dh w) !! name = Some d -> w_dirs w !! d = Some o ->
  rename_dir_post w1 from to d (do_meta o) name r w' ->
  call_post (CRename from to) w (r, []) w'.
Proof.
  intros Hs Hg -> Hto Hfrom Hk Hd Ho Hpost.
  assert (Hdir : a_dir (abs w) from = Some (do_meta o)).
  { unfold a_dir. rewrite Hk. cbn [mbind option_bind]. apply a_dirs_lookup. by exists d, o. }
  assert (Hall : rename_allowed (set_w_errno e w) from to <-> a_no_file (abs w) to true = true /\
    from <> [slash] /\ to <> [slash] /\ is_Some (dir_key to)) by by rewrite abs_no_file.
  assert (Hstep : forall r' t, a_renames_dir from to (do_meta o) (abs w) (r', []) t ->
    a_step (CRename from to) (abs w) (r', []) t) by (intros; cbn [a_step]; by rewrite Hto, Hfrom, Hdir).
  destruct Hpost as [e' -> -> Hno|e' to' Hal Hkt Hpar -> ->|to' q Hal Hkt Hpar Hmv Hr _].
  - apply (call_fails _ w e'); try done. intros t Ht. apply Hstep. left.
    split; [by rewrite <- Hall|by split].
  - apply dir_step_post; try done.
    + by apply sys_ok_errno, sys_ok_errno.
    + apply Hstep. right. split; [by apply Hall|]. exists name, to'. split_and!; [done..|].
      cbn in Hpar. apply (a_dirs_none w _ (so_dirs _ Hs)) in Hpar. rewrite Hpar.
      split; [done|]. by constructor.
  - specialize (Hr Hg) as ->.
    assert (Hmv' : dir_moved w d (do_meta o) name to' w').
    { rewrite <- (set_errno_same w'). apply (dir_moved_errno w w' e); [apply Hs|done]. }
    destruct (rename_dir_step w w' name to' d o Hs Hd Ho Hmv') as [Hs' Hsame].
    apply dir_step_post; try done; [apply (dv_step _ _ _ _ _ _ Hmv')|]. apply Hstep. right.
    split; [by apply Hall|]. exists name, to'. split_and!; [done..|]. cbn in Hpar.
    destruct (proj2 (a_dirs_some w (GetDirName to') (so_dirs _ Hs)) ltac:(by eexists)) as [x ->].
    by split.
Qed.

(** what [RenamePath] comes to *)
Inductive rename_path_post (w : world) (from to : bytes) (r : Z) (w' : world) : Prop :=
  | rp_none e : r = -1 -> w' = set_w_errno e w ->
      lookup_file w to <> None \/ (lookup_file w from = None /\ lookup_dir w from = None) ->
      rename_path_post w from to r w'
  | rp_file f o key e : lookup_file w to = None -> lookup_file w from = Some f ->
      file_key w from = Some key -> fh_created_files (w_fh w) !! key = Some f -> w_files w !! f = Some o ->
      ends_with_slash to = false -> (length (GetFileName to) < 64)%nat ->
      rename_post (set_w_errno e w) f (fo_meta o) key to r w' -> calls_step (set_w_errno e w) w' ->
      rename_path_post w from to r w'
  | rp_dir d o name e : lookup_file w to = None -> lookup_file w from = None ->
      dir_key from = Some name -> dh_created_dirs (w_dh w) !! name = Some d -> w_dirs w !! d = Some o ->
      rename_dir_post (set_w_errno e w) from to d (do_meta o) name r w' ->
      rename_path_post w from to r w'.

Lemma RenamePath_wp (w : world) (from to : bytes) :
  sys_ok w -> from <> [] -> to <> [] -> 0 ∉ to -> call_fits (CRename from to) (abs w) ->
  wp (RenamePath from to) (rename_path_post w from to) w.
Proof.
  intros Hs Hnf Hnt H0 [Hfile Hdirs]. pose proof Hs as [Hi Hd Hft _].
  assert (Herr : forall e, sys_ok (set_w_errno e w)) by (intros; by apply sys_ok_errno).
  unfold RenamePath. rewrite !bool_decide_false by done. cbn [orb].
  wp_step. eapply looks_up_wp; [by apply GetCreatedFile_run|]. intros e1.
  pose proof (abs_file w to) as Eto. destruct (lookup_file w to) as [g|] eqn:Hto.
  { repeat wp_step. apply (rp_none _ _ _ _ _ e1); try done. left. by rewrite Hto. }
  wp_step. eapply looks_up_wp; [apply GetCreatedFile_run, Herr|]. intros e2.
  change (lookup_file (set_w_errno e1 w) from) with (lookup_file w from).
  pose proof (abs_file w from) as Efrom. destruct (lookup_file w from) as [f|] eqn:Hfrom.
  - destruct Hfile as [He Hl]; [by rewrite Efrom|].
    assert (Hk : exists key, file_key w from = Some key /\ fh_created_files (w_fh w) !! key = Some f).
    { unfold lookup_file in Hfrom. apply bind_Some in Hfrom as (key & Hkey & Hk). by exists key. }
    destruct Hk as (key & Hkey & Hk). destruct (named_exists w key f Hs Hk) as [o Ho].
    set (w2 := set_w_errno e2 w). eapply wp_mono.
    { apply keeps_wp; [|apply calls_File_rename].
      apply (File_rename_wp w2 f o key to); try done; try apply (Herr e2).
      intros d od Hdd Hod. by apply (target_free w to d od). }
    intros r w' [Hp Hc]. by apply (rp_file _ _ _ _ _ f o key e2).
  - wp_step. eapply looks_up_wp; [apply GetCreatedDirectory_run|]. intros e3.
    change (lookup_dir (set_w_errno e2 (set_w_errno e1 w)) from) with (lookup_dir w from).
    destruct (lookup_dir w from) as [d|] eqn:Hdir.
    + destruct (lookup_dir_some _ _ _ Hd Hdir) as (name & o & _ & Hk & Hdn & Ho & _).
      assert (Hfit : a_childless name (abs w) /\ forall to', dir_key to = Some to' ->
        a_dirs (abs w) !! to' = None /\ GetDirName to' <> name).
      { apply (Hdirs Eto Efrom name (do_meta o) Hk). apply a_dirs_lookup. by exists d, o. }
      destruct Hfit as [Hcl Hfit]. apply (childless_abs w name d o Hd Hdn Ho) in Hcl.
      set (w3 := set_w_errno e3 w). match goal with |- wp ?m ?Q _ => change (wp m Q w3) end.
      eapply wp_mono; [apply (RenameDirectory_wp w3 from to name d o); try done;
        try apply (Herr e3); try apply Hi|].
      { intros to' Hkt. destruct (Hfit to' Hkt) as [Hn ?]. split; [|done].
        by apply (a_dirs_none w) in Hn. }
      intros r w' Hpost. by apply (rp_dir _ _ _ _ _ d o name e3).
    + unfold set_errno. repeat wp_step. apply (rp_none _ _ _ _ _ ENOENT); try done. by right.
Qed.

Lemma rename_call (w : world) (from to : bytes) :
  sys_ok w -> dev_good w -> from <> [] -> to <> [] -> 0 ∉ to -> call_fits (CRename from to) (abs w) ->
  wp (run_call (CRename from to)) (call_post (CRename from to) w) w.
Proof.
  intros Hs Hg Hnf Hnt H0 Hfit. pose proof Hs as [_ Hd _ _]. cbn [run_call]. wp_step.
  eapply wp_mono; [by apply RenamePath_wp|].
  intros r w' [e -> -> Hno|f o key e Hto Hfrom Hkey Hk Ho He Hl Hp Hc|d o name e Hto Hfrom Hk Hdn Ho Hp];
    wp_step.
  - apply (call_fails _ w e); try done. intros t Ht. cbn [a_step]. rewrite !abs_file.
    destruct (lookup_file w to); [done|]. destruct Hno as [?|[-> Hdir]]; [done|].
    apply (abs_dir_none w _ Hd) in Hdir. by rewrite Hdir.
  - pose proof (abs_dir w (GetDirName to)) as Edir.
    destruct (lookup_dir w (GetDirName to)) as [d|] eqn:Hdir.
    + destruct (lookup_dir_some _ _ _ Hd Hdir) as (_ & od & _ & _ & _ & Hod & _).
      cbn in Edir. rewrite Hod in Edir. cbn in Edir.
      destruct (rename_file_step (set_w_errno e w) w' f (fo_meta o) key to r d od) as [Hs' Hsame];
        try done; [by apply sys_ok_errno|by apply (target_free w to d od)|].
      destruct (rn_found _ _ _ _ _ _ _ Hp d od Hdir Hod) as (_ & _ & Hr). rewrite (Hr Hg).
      constructor; try done.
      * by apply (cs_good _ _ Hc).
      * apply (cs_super _ _ Hc).
      * rewrite (cs_fdh _ _ Hc). cbn. lia.
      * cbn [a_step]. rewrite !abs_file, Hto, Hfrom, Edir. split; [done|]. exists key.
        rewrite abs_key. by split.
    + destruct (rn_missing _ _ _ _ _ _ _ Hp Hdir) as (-> & e3 & ->).
      apply (call_fails _ w e3); try done. intros t Ht. cbn [a_step]. by rewrite !abs_file, Hto, Hfrom, Edir.
  - by apply (rename_dir_call w (set_w_errno e w) from to d (do_meta o) e r w' name o); rewrite ?abs_file.
Qed.

(** ** Growing a file *)

Lemma truncate_call (w : world) (fd size : Z) :
  sys_ok w -> dev_good w -> 0 <= size < 2 ^ 63 -> call_fits (CTruncate fd size) (abs w) ->
  wp (run_call (CTruncate fd size)) (call_post (CTruncate fd size) w) w.
Proof.
  intros Hs Hg Hsz Hfit. pose proof Hs as [Hi _ _ _]. cbn [run_call]. wp_step.
  destruct (opens_of w !! u64 fd) as [f|] eqn:Hfd.
  - destruct (open_leads w fd f Hs Hfd) as [o Hl]. cbn [call_fits abs a_open a_data] in Hfit.
    specialize (Hfit f Hfd). pose proof (file_content_length w f Hi) as Hlen. rewrite Hlen in Hfit.
    assert (Hpost : forall r w' gap, names_kept w w' -> fs_inv w' ->
      (forall g, g <> f -> file_content w' g = file_content w g) ->
      file_content w' f = file_content w f ++ gap -> (r = 0 \/ r = -1) ->
      (r = 0 -> Z.of_nat (length (file_content w f ++ gap)) = size) ->
      ((file_size (view_of w) f < size -> extend_room w f size) -> r = 0) ->
      call_post (CTruncate fd size) w (r, []) w').
    { intros r w' gap Hk Hi' Hoth Hc Hr Hr0 Hroom. constructor.
      - by apply (names_kept_sys w).
      - by apply (cs_good _ _ (nk_calls _ _ Hk)).
      - apply (cs_super _ _ (nk_calls _ _ Hk)).
      - rewrite (cs_fdh _ _ (nk_calls _ _ Hk)). cbn. lia.
      - cbn [a_step abs a_open]. rewrite Hfd. exists gap. split; [|split; [done|split; [done|]]].
        + apply abs_names; [done|]. intros g. unfold upd. destruct (decide (g = f)) as [->|]; [done|].
          by apply Hoth.
        + cbn [abs a_data a_room]. rewrite Hlen. exact Hroom. }
    apply (TruncateFile_fd_wp w fd o f); try done; try lia.
    + intros Hgt. eapply wp_mono.
      { apply keeps_wp; [|apply keeps_ExtendFile]. apply ExtendFile_wp; [done|apply Hl|lia]. }
      intros r w' [Hp Hk]. destruct (extend_post_content w f size r w' Hi Hgt Hp) as (Hoth & gap & Hc & Hgap).
      wp_step. apply (Hpost r w' gap); try done; try apply Hp.
      * intros Hr. rewrite length_app, Nat2Z.inj_add, Hlen, (Hgap Hr). lia.
      * intros Hroom. apply (xp_good _ _ _ _ _ Hp Hg), Hroom. lia.
    + intros Heq. wp_step. apply (Hpost 0 w []); try done; rewrite ?app_nil_r; try done; [by left|].
      intros _. by rewrite Hlen.
  - unfold TruncateFile_fd, GetOpenFile, set_errno. repeat wp_step.
    rewrite (not_open w fd Hs Hfd). repeat wp_step.
    apply (call_fails _ w ENOENT); try done. intros t Ht. cbn [a_step abs a_open]. by rewrite Hfd.
Qed.

(** ** Any call *)

Lemma call_refines (c : call) (w : world) :
  sys_ok w -> dev_good w -> sb_curr_block_num (w_super w) <= kBlockLocks -> call_ok c ->
  call_fits c (abs w) -> (takes_fd c <= length (fd_pool (w_fdh w)))%nat ->
  wp (run_call c) (call_post c w) w.
Proof.
  intros Hs Hg Hlk Hok Hfit Hfd.
  assert (Hpool : takes_fd c = 1%nat -> fd_pool (w_fdh w) <> []).
  { intros Ht Hp. rewrite Ht, Hp in Hfd. cbn in Hfd. lia. }
  destruct c; cbn [call_ok] in Hok.
  - by apply create_call.
  - by apply unlink_call.
  - destruct Hok. by apply open_call; auto.
  - by apply close_call.
  - by apply dup_call; auto.
  - by apply pwrite_call.
  - by apply pread_call.
  - by apply truncate_call.
  - by apply mkdir_call.
  - by apply rmdir_call.
  - destruct Hok as (? & ? & ?). by apply rename_call.
  - repeat wp_step. constructor; try done; by apply sys_ok_now.
Qed.

(** ** Sequences of calls *)

Lemma run_calls_wp (cs : list call) : forall (w : world),
  sys_ok w -> dev_good w -> sb_curr_block_num (w_super w) <= kBlockLocks ->
  calls_fit cs (abs w) -> (sum_list (takes_fd <$> cs) <= length (fd_pool (w_fdh w)))%nat ->
  wp (run_calls cs) (fun rs w' => sys_ok w' /\ dev_good w' /\ session cs w rs w') w.
Proof.
  induction cs as [|c cs IH]; intros w Hs Hg Hlk Hok Hfd; cbn [run_calls].
  { wp_step. split_and!; [done|done|constructor]. }
  destruct Hok as (Hc & Hfit & Hok). cbn in Hfd.
  pose proof (call_refines c w Hs Hg Hlk Hc Hfit ltac:(lia)) as Hwp.
  apply wp_intro in Hwp as (r & w1 & Hrun & [Hs1 Hg1 Hsup Hpool Hstep]).
  wp_step. eapply wp_run; [exact Hrun|]. wp_step.
  eapply wp_mono; [apply (IH w1 Hs1 Hg1); [by rewrite Hsup|by apply (Hok r)|lia]|].
  intros rs w' (Hs' & Hg' & Hses). wp_step. split_and!; [done|done|]. by econstructor.
Qed.

(** calls that need nothing of the state *)
Definition call_free (c : call) : Prop := match c with CTruncate _ _ | CRename _ _ => False | _ => True end.

Lemma calls_fit_free (cs : list call) (s : afs) :
  Forall (fun c => call_ok c /\ call_free c) cs -> calls_fit cs s.
Proof.
  revert s. induction cs as [|c cs IH]; intros s Hf; [done|].
  apply Forall_cons in Hf as [[Hok Hc] Hf]. cbn. split_and!; [done|by destruct c|]. intros. by apply IH.
Qed.

End DirRefinement.
