(* ===== verification/DeviceTheorems.v ===== *)
(** * Theorems on transfers and records

    What the retry loop and the bounds checks of the device promise whatever
    the kernel answers, and that a metadata write makes a record durable. *)

From S2P Require Import Prelude Meta Device World SuperBlock Resources FileBlock Inode Directory.
From S2P Require Import FileHandle File OpenFile FileHandleOps FileSystem Io Invariant MetaSteps.
From S2P Require Import Views Content Scenario.

(** ** Transfers *)

(** C19: a write within the device leaves it with a prefix of the buffer written at
    the offset and nothing else changed, whatever the kernel answers; the result
    is -1 or the length of that prefix, and the whole buffer is written when the
    kernel only interrupts or shortens calls.  A write past the end of the device
    is refused without a change. *)
Theorem dev_pwrite_outcome (fd : Z) (buf : bytes) (offset errno : Z) (d : device) :
  0 <= offset -> offset + Z.of_nat (length buf) < 2 ^ 64 ->
  let '(r, _, d') := dev_pwrite fd buf offset errno d in
  (dev_size d < offset + Z.of_nat (length buf) -> r = -1 /\ d' = d) /\
  (exists n evs, (n <= length buf)%nat /\ (r = -1 \/ r = Z.of_nat n) /\
     d' = set_dev_events evs (set_dev_store (st_write (dev_store d) offset (take n buf)) d)) /\
  (offset + Z.of_nat (length buf) <= dev_size d -> 0 <= fd -> Forall benign (dev_events d) ->
     r = Z.of_nat (length buf) /\
     st_read (dev_store d') offset (length buf) = buf).
Proof.
  intros Ho Hm. unfold dev_pwrite. rewrite wrap_small by lia.
  destruct (Z.ltb_spec (dev_size d) (offset + Z.of_nat (length buf))).
  - split_and!; [done| |lia]. exists 0%nat, (dev_events d). split_and!; [lia|by left|by destruct d].
  - pose proof (pwriteFull_prefix fd buf offset errno d) as Hp.
    pose proof (pwriteFull_complete fd buf offset errno d) as Hc.
    destruct (pwriteFull _ _ _ _ _) as [[r e] d']. destruct Hp as (n & evs & Hn & Hr & ->).
    split_and!; [lia|eauto 10|]. intros _ Hfd Hev. specialize (Hc Hfd Hev). cbn in Hc. subst r.
    split; [done|]. assert (n = length buf) as -> by lia.
    rewrite firstn_all. apply st_read_write_same.
Qed.

(** C20: a read within the device changes no byte and stores a prefix of the range,
    whatever the kernel answers; the result is -1 or the length of that prefix,
    and it is the whole range when the kernel only interrupts or shortens calls.
    A read past the end of the device is refused. *)
Theorem dev_pread_outcome (fd : Z) (len : nat) (offset errno : Z) (d : device) :
  0 <= offset -> offset + Z.of_nat len < 2 ^ 64 ->
  let '(r, _, out, d') := dev_pread fd len offset errno d in
  dev_store d' = dev_store d /\
  (dev_size d < offset + Z.of_nat len -> r = -1 /\ out = [] /\ d' = d) /\
  (exists n, (n <= len)%nat /\ (r = -1 \/ r = Z.of_nat n) /\
     out = st_read (dev_store d) offset n) /\
  (offset + Z.of_nat len <= dev_size d -> 0 <= fd -> Forall benign (dev_events d) ->
     r = Z.of_nat len /\ out = st_read (dev_store d) offset len).
Proof.
  intros Ho Hm. unfold dev_pread. rewrite wrap_small by lia.
  destruct (Z.ltb_spec (dev_size d) (offset + Z.of_nat len)).
  - split_and!; try done; [|lia]. exists 0%nat. split_and!; [lia|by left|done].
  - pose proof (preadFull_prefix fd len offset errno d) as Hp.
    pose proof (preadFull_complete fd len offset errno d) as Hc.
    destruct (preadFull _ _ _ _ _) as [[[r e] out] d']. destruct Hp as (n & evs & Hn & Hr & -> & ->).
    split_and!; [done|lia|eauto|]. intros _ Hfd Hev. specialize (Hc Hfd Hev). cbn in Hc. subst r.
    split; [done|]. by assert (n = len) as -> by lia.
Qed.

(** ** Records *)

Section Records.
Context `{Env}.

(** Writing a file block's record never crashes, keeps the file system
    consistent and every file's bytes, whatever the device answers.  When it
    returns true the device holds the record of memory with a valid checksum, as
    the next mount will check; it returns true when no transfer fails. *)
Theorem FileBlock_WriteMeta_durable (w : world) (i : Z) :
  fs_inv w -> 0 <= i < sb_max_file_block_num (w_super w) ->
  wp (FileBlock_WriteMeta i) (fun ok w' =>
    fs_inv w' /\ view_of w' = view_of w /\ (forall g, file_content w' g = file_content w g) /\
    (ok = true -> exists m, w_fbmeta w' !! i = Some m /\ fb_crc m = fb_crc_of m /\
       decode_file_block (st_read (w_store w')
         (sb_file_block_meta_offset (w_super w') + kBlockFsFileBlockMetaSize * i) 4096) = m) /\
    (dev_good w -> ok = true)) w.
Proof.
  intros Hi Hr. eapply wp_mono; [by apply FileBlock_WriteMeta_wp|].
  intros ok w' (Hs & Hg & Hp & _). split_and!; try done.
  - by apply (fs_inv_meta_step w).
  - apply Hs.
  - intros g. by apply file_content_meta_step.
Qed.

(** Writing the page of a file's record never crashes, keeps the file system
    consistent and every file's bytes, whatever the device answers.  When it
    returns true the device holds the record of memory with a valid checksum; it
    returns true when no transfer fails. *)
Theorem File_WriteMeta_durable (w : world) (fh : Z) :
  fs_inv w -> 0 <= fh < sb_max_file_num (w_super w) ->
  wp (File_WriteMeta_fh fh) (fun ok w' =>
    fs_inv w' /\ view_of w' = view_of w /\ (forall g, file_content w' g = file_content w g) /\
    (ok = true -> exists m, w_filemeta w' !! fh = Some m /\ fm_crc m = file_crc_of m /\
       decode_file (st_read (w_store w')
         (sb_file_meta_offset (w_super w') + kBlockFsFileMetaSize * fh) 256) = m) /\
    (dev_good w -> ok = true)) w.
Proof.
  intros Hi Hr. eapply wp_mono; [by apply File_WriteMeta_fh_wp|].
  intros ok w' (Hs & Hg & Hp). split_and!; try done.
  - by apply (fs_inv_meta_step w).
  - apply Hs.
  - intros g. by apply file_content_meta_step.
Qed.
End Records.

(** ** Witnesses *)

(** an interrupted call, then a short one *)
Definition demo_dev : device :=
  MkDevice 4096 512 3 4 ∅ [SysFail EINTR; SysShort 2; SysFull].

Lemma dev_pwrite_outcome_witness :
  let '(r, _, d') := dev_pwrite 3 (str "hello") 10 0 demo_dev in
  r = 5 /\ st_read (dev_store d') 10 5 = str "hello".
Proof.
  pose proof (dev_pwrite_outcome 3 (str "hello") 10 0 demo_dev ltac:(done) ltac:(done)) as Hp.
  destruct (dev_pwrite _ _ _ _ _) as [[r e] d']. destruct Hp as (_ & _ & Hc).
  apply Hc; [done|done|]. by repeat constructor.
Defined.

Lemma dev_pread_outcome_witness :
  let '(r, _, out, _) := dev_pread 3 8 4092 0 demo_dev in r = -1 /\ out = [].
Proof.
  pose proof (dev_pread_outcome 3 8 4092 0 demo_dev ltac:(done) ltac:(done)) as Hp.
  destruct (dev_pread _ _ _ _ _) as [[[r e] out] d']. destruct Hp as (_ & Hc & _).
  destruct (Hc ltac:(done)) as (? & ? & _). done.
Defined.

Lemma FileBlock_WriteMeta_durable_witness :
  wp (FileBlock_WriteMeta 0) (fun ok w' => ok = true /\ fs_inv w' /\
    file_content w' 11 = str "hello") demo.
Proof.
  eapply wp_mono; [apply (FileBlock_WriteMeta_durable demo 0); [exact demo_inv|done]|].
  intros ok w' (Hi & _ & Hc & _ & Hg). split; [exact (Hg demo_good)|]. split; [exact Hi|].
  rewrite Hc. reflexivity.
Defined.

Lemma File_WriteMeta_durable_witness :
  wp (File_WriteMeta_fh 0) (fun ok w' => ok = true /\ fs_inv w' /\
    file_content w' 11 = str "hello") demo.
Proof.
  eapply wp_mono; [apply (File_WriteMeta_durable demo 0); [exact demo_inv|done]|].
  intros ok w' (Hi & _ & Hc & _ & Hg). split; [exact (Hg demo_good)|]. split; [exact Hi|].
  rewrite Hc. reflexivity.
Defined.
