(* ===== verification/MountTheorems.v ===== *)
(** * Theorems on formatting, mounting and directories

    The layout that a format computes, that a formatted device mounts as an
    empty consistent file system, and that making and deleting directories
    keeps the tree. *)

From S2P Require Import Prelude Meta Device World SuperBlock Resources Paths FileBlock Inode.
From S2P Require Import Directory FileHandle File OpenFile FileHandleOps DirHandle FileSystem.
From S2P Require Import Io Invariant MetaSteps Scenario DirSteps Names DirOps Format.

(** C21: for every device from 161 blocks up to the largest supported size the
    layout that a format computes is usable: record sizes as the code has them,
    the areas in order, disjoint and large enough for all records, whole pages,
    the data blocks behind them and inside the device; and no further block
    fits. *)
Theorem format_layout_usable (dev_size : Z) :
  161 * kBlockSize <= dev_size <= kBlockFsMaxUDiskSize ->
  let sb := format_super_layout dev_size in
  layout_ok sb /\ sb_device_size sb = dev_size /\
  dev_size < sb_block_data_start_offset sb + kBlockSize * (sb_curr_block_num sb + 1).
Proof.
  intros Hd sb. split; [by apply format_layout_ok|]. split; [done|]. unfold sb.
  change (161 * kBlockSize) with format_data_start in Hd.
  assert (Hd64 : format_data_start <= dev_size < 2 ^ 64).
  { change kBlockFsMaxUDiskSize with 140737488355328 in Hd. lia. }
  rewrite format_layout_data_start, format_layout_blocks by done.
  change kBlockSize with 4194304. pose proof (Z.div_mod (dev_size - format_data_start) 4194304).
  pose proof (Z.mod_pos_bound (dev_size - format_data_start) 4194304). lia.
Qed.

(** On a device smaller than the 161 blocks in front of the data the unsigned
    subtraction wraps: the layout records more than 4 * 10^12 blocks. *)
Theorem format_small_device_wraps (dev_size : Z) :
  0 <= dev_size < 161 * kBlockSize ->
  4 * 10 ^ 12 < sb_curr_block_num (format_super_layout dev_size).
Proof.
  intros Hd. change (sb_curr_block_num (format_super_layout dev_size))
    with (u64 (dev_size - format_data_start) / kBlockSize).
  change (161 * kBlockSize) with 675282944 in Hd. change format_data_start with 675282944.
  change kBlockSize with 4194304. unfold wrap.
  replace (dev_size - 675282944) with ((dev_size - 675282944 + 2 ^ 64) + (-1) * 2 ^ 64) by lia.
  rewrite Z_mod_plus_full, Z.mod_small by lia.
  apply Z.lt_le_trans with ((2 ^ 64 - 675282944) / 4194304); [reflexivity|]. apply Z.div_le_mono; lia.
Qed.

Section Mount.
Context `{Env}.

(** C10: a device formatted by one process mounts in the next one, as a consistent
    file system for its size: the root directory is there, durable and empty,
    there is no file, and every block, file record and file block is free. *)
Theorem format_then_mount (super0 : SuperBlockMeta) (d : device) (now : Z) :
  0 < dev_fd_direct d -> 0 < dev_fd_cache d -> Forall benign (dev_events d) ->
  161 * kBlockSize <= dev_size d <= kBlockFsMaxUDiskSize -> in_i 64 now ->
  wp FileSystem_Format (fun ok w1 => ok = true /\
    wp MountFileSystem (fun r w2 => r = 0 /\ fs_inv w2 /\ dir_tree w2 /\
      sb_device_size (w_super w2) = dev_size d /\
      (exists root dh, dh_created_dirs (w_dh w2) = {[ [slash] := root ]} /\
         w_dirs w2 !! root = Some (MkDirectory dh ∅ ∅ 0) /\ dir_persisted w2 dh) /\
      w_files w2 = ∅ /\ fh_created_files (w_fh w2) = ∅ /\
      (forall x, x ∈ bh_pool (w_bh w2) <-> 0 <= x < sb_curr_block_num (w_super w2)) /\
      w_free_fbhs w2 = seqZ 0 (sb_max_file_block_num (w_super w2)) /\
      fh_free (w_fh w2) = seqZ 0 (sb_max_file_num (w_super w2)))
    (new_process super0 (w_dev w1) now)) (new_process super0 d now).
Proof.
  intros H1 H2 Hev Hd Hnow. eapply wp_mono; [by apply FileSystem_Format_wp|].
  intros ok w1 (-> & (Hg1 & Hg2 & Hg3) & Hdev & Hok & Hsz & Hf). split; [done|].
  eapply wp_mono; [apply (MountFileSystem_wp (w_super w1)); try done; by rewrite Hdev|].
  intros r w2 (-> & [Hs Hi Ht Hroot [Hfs Hcf] Hpool Hfb Hfh]). rewrite Hs.
  by split_and!.
Qed.

(** C15: making a directory never crashes, keeps the tree of directories and the
    consistency of the file system, and changes no file, whatever the device
    answers.  It returns 0 or -1; with -1 the directories are the same, with 0
    exactly the new path is added, to an empty directory whose record is on the
    device.  It does return 0 when no transfer fails, the path is not taken, no
    file is in the way, the parent exists and a record is free. *)
Theorem CreateDirectory_correct (w : world) (path : bytes) :
  fs_inv w -> dir_tree w -> 0 ∉ path ->
  wp (CreateDirectory path) (fun r w' =>
    fs_inv w' /\ dir_tree w' /\ w_files w' = w_files w /\
    fh_created_files (w_fh w') = fh_created_files (w_fh w) /\
    (r = 0 \/ (r = -1 /\ dh_created_dirs (w_dh w') = dh_created_dirs (w_dh w))) /\
    (r = 0 -> exists name d dh, dir_key path = Some name /\
       dh_created_dirs (w_dh w) !! name = None /\
       dh_created_dirs (w_dh w') = <[name := d]> (dh_created_dirs (w_dh w)) /\
       w_dirs w' !! d = Some (MkDirectory dh ∅ ∅ 0) /\ dir_persisted w' dh) /\
    (dev_good w -> no_file w path true = true ->
     (exists name, dir_key path = Some name /\ dir_room w name) -> r = 0)) w.
Proof.
  intros Hi Ht Hp. eapply wp_mono; [apply CreateDirectory_wp; [apply Hi..|done|done]|].
  intros r w' [[Hms Hf Hh _ _ _ _] Ht' Hr Hm Hg _ _]. split_and!; try done.
  - by apply (fs_inv_meta_step w).
  - by rewrite Hh.
Qed.

(** C16: deleting a directory never crashes, keeps the consistency of the file system
    and changes no file, whatever the device answers.  It returns 0 only for a
    directory without files, children and open streams, which then is gone from
    both maps and from its parent, with its record cleared on the device; the
    mount point is never deleted.  Otherwise it returns -1 and the directories
    are the same.  The tree stays a tree unless a transfer failed. *)
Theorem DeleteDirectory_correct (w : world) (path : bytes) (recursive : bool) :
  fs_inv w -> dir_tree w -> path <> [] ->
  wp (DeleteDirectory path recursive) (fun r w' =>
    fs_inv w' /\ w_files w' = w_files w /\
    fh_created_files (w_fh w') = fh_created_files (w_fh w) /\
    (dev_good w -> dir_tree w') /\
    ((r = -1 /\ dh_created_dirs (w_dh w') = dh_created_dirs (w_dh w)) \/
     (r = 0 /\ path <> [slash] /\ exists name d o, dir_key path = Some name /\
        dh_created_dirs (w_dh w) !! name = Some d /\ w_dirs w !! d = Some o /\ dir_idle o /\
        dh_created_dirs (w_dh w') = delete name (dh_created_dirs (w_dh w)) /\
        dh_created_dhs (w_dh w') = delete (do_meta o) (dh_created_dhs (w_dh w)) /\
        dir_persisted w' (do_meta o) /\
        exists m, w_dirmeta w' !! do_meta o = Some m /\ dm_used m = false)) /\
    (dev_good w -> forall name d o, path <> [slash] -> dir_key path = Some name ->
       no_file w path false = true -> dh_created_dirs (w_dh w) !! name = Some d ->
       w_dirs w !! d = Some o -> dir_idle o -> r = 0)) w.
Proof.
  intros Hi Ht Hp. eapply wp_mono; [by apply DeleteDirectory_wp; try apply Hi|]. intros r w' Hpost.
  assert (Hs : dir_step w w') by (destruct Hpost as [e -> ->|? ? ? _ _ Hs|_ _ _ Hs];
    [by apply dir_step_errno|done|done]).
  split_and!; [by apply (fs_inv_meta_step w); [apply Hs|]|apply Hs|by rewrite (ds_fh _ _ Hs)|..].
  all: destruct Hpost as [e -> -> Hno|name d o -> Ht' _ Hns Hk Hd Ho Hid Hds Hdh Hper Hu _| -> Hbad Hh _].
  - intros _. by apply (dir_tree_ext w).
  - done.
  - done.
  - by left.
  - right. split; [done|]. split; [|eauto 20]. intros ->. by injection Hk as <-.
  - left. by rewrite Hh.
  - intros _ name d o ?????? . destruct Hno. by exists name, d, o.
  - done.
  - by intros.
Qed.
End Mount.

(** ** Witnesses *)

Lemma format_layout_usable_witness :
  161 * kBlockSize <= 200 * kBlockSize <= kBlockFsMaxUDiskSize /\
  layout_ok (format_super_layout (200 * kBlockSize)).
Proof.
  assert (Hd : 161 * kBlockSize <= 200 * kBlockSize <= kBlockFsMaxUDiskSize) by by vm_compute.
  split; [exact Hd|]. apply (format_layout_usable (200 * kBlockSize) Hd).
Defined.

Lemma format_small_device_wraps_witness :
  4 * 10 ^ 12 < sb_curr_block_num (format_super_layout (100 * kBlockSize)).
Proof. apply (format_small_device_wraps (100 * kBlockSize)). by vm_compute. Defined.

(** a device of 200 blocks: 39 data blocks are free after the mount *)
Lemma format_then_mount_witness :
  wp FileSystem_Format (fun ok w1 => ok = true /\
    wp MountFileSystem (fun r w2 => r = 0 /\ fs_inv w2 /\ dir_tree w2 /\ w_files w2 = ∅)
      (new_process demo_super (w_dev w1) 1))
    (new_process demo_super (MkDevice (200 * kBlockSize) 512 3 4 ∅ []) 1).
Proof.
  eapply wp_mono; [apply (format_then_mount demo_super (MkDevice (200 * kBlockSize) 512 3 4 ∅ []) 1);
    [done|done|constructor|by vm_compute|by apply in_i_dec_true]|].
  intros ok w1 [-> Hm]. split; [done|]. eapply wp_mono; [exact Hm|].
  intros r w2 (? & ? & ? & _ & _ & ? & _). done.
Defined.

Lemma CreateDirectory_correct_witness :
  wp (CreateDirectory (str "/d/e")) (fun r w' => r = 0 /\ fs_inv w' /\ dir_tree w' /\
    is_Some (dh_created_dirs (w_dh w') !! str "/d/e/")) demo.
Proof.
  eapply wp_mono; [apply (CreateDirectory_correct demo (str "/d/e"));
    [exact demo_inv|exact demo_tree|by apply (bool_decide_eq_true_1 _)]|].
  intros r w' (Hi & Ht & _ & _ & _ & Hm & Hg). assert (Hr : r = 0).
  { apply Hg; [exact demo_good|reflexivity|]. exists (str "/d/e/"). split; [reflexivity|].
    split; [reflexivity|]. split; [done|]. right. by eexists. }
  split_and!; [exact Hr|exact Hi|exact Ht|].
  destruct (Hm Hr) as (name & d & dh & Hk & _ & Hd & _). injection Hk as <-.
  rewrite Hd. exists d. by rewrite lookup_insert_eq.
Defined.

Lemma DeleteDirectory_correct_witness :
  wp (DeleteDirectory (str "/d") false) (fun r w' => r = 0 /\ fs_inv w' /\ dir_tree w' /\
    dh_created_dirs (w_dh w') !! str "/d/" = None) demo.
Proof.
  eapply wp_mono; [apply (DeleteDirectory_correct demo (str "/d") false);
    [exact demo_inv|exact demo_tree|done]|].
  intros r w' (Hi & _ & _ & Ht & Hcases & Hg). assert (Hr : r = 0).
  { apply (Hg demo_good (str "/d/") 13 (MkDirectory 1 ∅ ∅ 0)); try done. }
  split_and!; [exact Hr|exact Hi|exact (Ht demo_good)|].
  destruct Hcases as [[Hr' _]|(_ & _ & name & d & o & Hk & _ & _ & _ & Hd & _)]; [congruence|].
  injection Hk as <-. rewrite Hd. by rewrite lookup_delete_eq.
Defined.
