(* ===== verification/NameTheorems.v ===== *)
(** * Theorems on making, removing and renaming

    That [CreateFile], [unlink] and renaming keep the maps of files, the tree of
    directories and the consistency of the file system, and what they change. *)

From S2P Require Import Prelude Meta Device World SuperBlock Resources Paths FileBlock Inode.
From S2P Require Import Directory FileHandle File OpenFile FileHandleOps DirHandle FileSystem.
From S2P Require Import Io Invariant MetaSteps Views Content FileGrow FileIO FileShrink Truncate.
From S2P Require Import DirSteps Names DirOps FileNames FileEntries Unlink Rename DirRename Scenario.

Section Names.
Context `{Env}.

(** C11: creating a file never crashes, keeps the consistency of the file system, the
    tree of directories and the maps of files, and changes the bytes of no file,
    whatever the device answers.  When it returns a file, exactly the name of
    the path is added, to a new empty file whose record is on the device; when
    it returns none the names are the same.  It does return a file when no
    transfer fails, a record is free, and the path names a new file in an
    existing directory. *)
Theorem CreateFile_correct (w : world) (path : bytes) (mode : Z) :
  fs_inv w -> dir_tree w -> file_tree w -> 0 ∉ path ->
  wp (FileHandle_CreateFile path mode false) (fun r w' =>
    fs_inv w' /\ dir_tree w' /\ file_tree w' /\
    (forall g, is_Some (w_files w !! g) -> file_content w' g = file_content w g) /\
    dh_created_dirs (w_dh w') = dh_created_dirs (w_dh w) /\
    (r = None -> fh_created_files (w_fh w') = fh_created_files (w_fh w)) /\
    (forall f, r = Some f -> exists key i, file_key w path = Some key /\
       fh_created_files (w_fh w) !! key = None /\ w_files w !! f = None /\
       fh_created_files (w_fh w') = <[key := f]> (fh_created_files (w_fh w)) /\
       w_files w' !! f = Some (MkFile i ∅ 0 false false) /\ file_content w' f = [] /\
       file_persisted w' i) /\
    (forall key, dev_good w -> fh_free (w_fh w) <> [] -> file_key w path = Some key ->
       fh_created_files (w_fh w) !! key = None -> r <> None)) w.
Proof.
  intros Hi Hd Ht H0. eapply wp_mono; [by apply CreateFile_wp|].
  by intros r w' [].
Qed.

(** C12: removing a file by its path never crashes and changes the bytes of no other
    file, whatever the device answers.  When it returns 0 the file system is
    consistent; a file that is open is only marked, and otherwise exactly its
    name is gone, its blocks are in the pool, its file block is free and its
    record is cleared on the device.  Without such a file, or with a directory
    at the path, it returns -1 and changes nothing but errno.  It does return 0
    when the file exists and no transfer fails. *)
Theorem unlink_correct (w : world) (path : bytes) :
  fs_inv w -> dir_tree w -> file_tree w ->
  wp (FileHandle_unlink path) (fun r w' =>
    (r = 0 \/ r = -1) /\
    (forall g, lookup_file w path <> Some g -> file_content w' g = file_content w g) /\
    (r = 0 -> fs_inv w' /\ dir_tree w' /\ file_tree w') /\
    (lookup_dir w path <> None \/ lookup_file w path = None ->
       r = -1 /\ exists e, w' = set_w_errno e w) /\
    (forall f o, lookup_dir w path = None -> lookup_file w path = Some f ->
       w_files w !! f = Some o ->
       (dev_good w -> r = 0) /\
       (0 < fo_nlink o -> r = 0 /\
          w_files w' = <[f := set_fo_deleted true o]> (w_files w) /\ w_fh w' = w_fh w) /\
       (fo_nlink o <= 0 -> r = 0 ->
          (exists key, file_key w path = Some key /\
             fh_created_files (w_fh w') = delete key (fh_created_files (w_fh w))) /\
          bh_pool (w_bh w') = list_to_set (file_blocks (view_of w) f) ∪ bh_pool (w_bh w) /\
          (forall fb, file_fb (view_of w) f = Some fb -> w_free_fbhs w' = w_free_fbhs w ++ [fb]) /\
          file_persisted w' (fo_meta o) /\
          exists m, w_filemeta w' !! fo_meta o = Some m /\ fm_used m = false))) w.
Proof.
  intros Hi Hd Ht. eapply wp_mono; [by apply FileHandle_unlink_wp|].
  intros r w' [e -> -> Hno|f o e -> Hdir Hf Ho Hn ->|f o od Hdir Hk Hf Ho Hn []].
  - split_and!; [by right|done|done|by eauto|]. intros f o Hdir Hf. by rewrite (Hno Hdir) in Hf.
  - assert (Hms : meta_step w (set_w_files (<[f := set_fo_deleted true o]> (w_files w)) (set_w_errno e w))).
    { etrans; [apply (set_errno_step e)|]. by apply (meta_step_files (set_w_errno e w) f o). }
    split_and!; [by left| | | |].
    + intros g _. by apply file_content_meta_step.
    + intros _. split_and!; [by apply (fs_inv_meta_step w)|by apply (dir_tree_ext w)|].
      by apply (file_tree_same_meta (set_w_errno e w) f o), file_tree_errno.
    + intros [?|?]; congruence.
    + intros f' o' _ Hf' Ho'. simplify_eq. split_and!; [done|done|lia].
  - split_and!; try done.
    + intros g Hg. apply up_others. by intros ->.
    + intros [?|?]; congruence.
    + intros f' o' _ Hf' Ho'. simplify_eq. split_and!; [done|lia|].
      intros _ Hr. destruct (up_record Hr) as [? ?]. split_and!; try done; [|auto..].
      eexists. split; [exact Hk|]. auto.
Qed.
(** C13: renaming a file to a path that has no slash at its end and whose last part
    is shorter than 64 bytes (the code tests neither) never crashes, keeps the consistency of the file system, the
    tree of directories, the maps of files and the bytes of every file, whatever
    the device answers.  When the new path names a file, or its parent directory
    does not exist, the result is -1 and no name changes; otherwise exactly the
    name of the file moves, a result of 0 means that its record is on the device,
    and the result is 0 when no transfer fails.  (A directory at the new path is
    not looked for.) *)
Theorem RenamePath_correct (w : world) (oldpath newpath : bytes) (key : Z * bytes) (f : Z) (o : file) :
  fs_inv w -> dir_tree w -> file_tree w -> oldpath <> [] -> newpath <> [] -> 0 ∉ newpath ->
  ends_with_slash newpath = false -> (length (GetFileName newpath) < 64)%nat ->
  file_key w oldpath = Some key -> fh_created_files (w_fh w) !! key = Some f ->
  w_files w !! f = Some o ->
  wp (RenamePath oldpath newpath) (fun r w' =>
    fs_inv w' /\ dir_tree w' /\ file_tree w' /\
    (forall g, file_content w' g = file_content w g) /\
    dh_created_dirs (w_dh w') = dh_created_dirs (w_dh w) /\
    (lookup_file w newpath <> None \/ lookup_dir w (GetDirName newpath) = None ->
       r = -1 /\ fh_created_files (w_fh w') = fh_created_files (w_fh w)) /\
    (forall key', file_key w newpath = Some key' -> lookup_file w newpath = None ->
       fh_created_files (w_fh w') = <[key' := f]> (delete key (fh_created_files (w_fh w))) /\
       (r = 0 -> file_persisted w' (fo_meta o)) /\ (dev_good w -> r = 0))) w.
Proof.
  intros Hi Hd Ht Ho Hn H0 Hs Hl Hk Hf Hof. unfold RenamePath.
  rewrite !bool_decide_false by done. cbn [orb].
  wp_step. eapply looks_up_wp; [by apply GetCreatedFile_run|]. intros e.
  destruct (lookup_file w newpath) as [g|] eqn:Hnew.
  { wp_step. split_and!; try done; [|by apply (dir_tree_ext w)|by apply file_tree_errno].
    apply (fs_inv_meta_step w); [apply set_errno_step|done]. }
  wp_step. eapply looks_up_wp; [apply GetCreatedFile_run; by apply (dir_tree_ext w)|]. intros e'.
  replace (lookup_file (set_w_errno e w) oldpath) with (Some f) by (unfold lookup_file; cbn;
    change (file_key (set_w_errno e w)) with (file_key w); by rewrite Hk).
  assert (Hkey : file_key w newpath = d ← lookup_dir w (GetDirName newpath); o ← w_dirs w !! d;
    Some (do_meta o, GetFileName newpath)).
  { unfold file_key. rewrite Hs. change kBlockFsMaxFileNameLen with 64.
    by destruct (Z.leb_spec 64 (Z.of_nat (length (GetFileName newpath)))); [lia|]. }
  eapply wp_mono; [apply (File_rename_wp (set_w_errno e' w) f o key newpath); try done|].
  - apply (fs_inv_meta_step w); [apply set_errno_step|done].
  - by apply (dir_tree_ext w).
  - by apply file_tree_errno.
  - intros d od Hdd Hod. change (lookup_dir w (GetDirName newpath) = Some d) in Hdd.
    change (w_dirs w !! d = Some od) in Hod. unfold lookup_file in Hnew.
    rewrite Hkey, Hdd in Hnew. cbn in Hnew. by rewrite Hod in Hnew.
  - intros r w' [Hi' Hd' Ht' Hc' Hp' Hr' Hmiss Hfound _ _ _ _ _]. split_and!; try done.
    + intros [?|Hno]; [done|]. by destruct (Hmiss Hno) as (-> & e2 & ->).
    + intros key' Hk' _. rewrite Hkey in Hk'. apply bind_Some in Hk' as (d & Hdd & Hk').
      apply bind_Some in Hk' as (od & Hod & [= <-]). by apply (Hfound d od).
Qed.
(** the files of a directory are found under its new path *)
Lemma moved_files (w w' : world) (d : Z) (o : directory) (name to' a b : bytes) :
  dir_tree w -> dir_tree w' -> w_fh w' = w_fh w -> dirs_stay w w' ->
  (exists path, dir_key path = Some name) -> (exists path, dir_key path = Some to') ->
  dh_created_dirs (w_dh w) !! name = Some d -> w_dirs w !! d = Some o ->
  dh_created_dirs (w_dh w') !! to' = Some d ->
  GetDirName a = name -> GetDirName b = to' -> GetFileName a = GetFileName b ->
  ends_with_slash a = false -> ends_with_slash b = false -> lookup_file w' b = lookup_file w a.
Proof.
  intros Ht Ht' Efh Hst [pa Hka] [pb Hkb] Hd Ho Hd' Ha Hb Hab Hsa Hsb.
  destruct (Hst d o Ho) as (o' & Ho' & Em & _).
  unfold lookup_file, file_key. rewrite Hsa, Hsb, Ha, Hb, <- Hab, Efh.
  destruct (kBlockFsMaxFileNameLen <=? _); [done|]. unfold lookup_dir.
  rewrite (dir_key_idemp _ _ Hka), (dir_key_idemp _ _ Hkb). cbn [mbind option_bind].
  rewrite Hd, Hd'. cbn [mbind option_bind]. rewrite Ho, Ho'. cbn. by rewrite Em.
Qed.

(** C14: renaming a directory that has no sub-directories, to a path that names no
    directory and does not lie directly inside it, never crashes and keeps the tree of directories and the bytes of every file,
    whatever the device answers.  It is refused when the new path names a file, its
    parent is a file, one of the paths is the mount point, or the new path is too
    long; nothing changes then, and neither when the new parent does not exist.
    Otherwise exactly this directory moves, and each of its files is found under
    the new path.  The replies are inverted: 0 says that the parent is missing,
    and -1 that the directory moved and its record is on the device. *)
Theorem RenameDirectory_correct (w : world) (from to name : bytes) (d : Z) (o : directory) :
  fs_inv w -> dir_tree w -> from <> [] -> to <> [] -> 0 ∉ to -> dir_key from = Some name ->
  dh_created_dirs (w_dh w) !! name = Some d -> w_dirs w !! d = Some o -> do_children o = ∅ ->
  (forall to', dir_key to = Some to' ->
     dh_created_dirs (w_dh w) !! to' = None /\ GetDirName to' <> name) ->
  wp (RenameDirectory from to) (fun r w' => dir_tree w' /\
    (forall g, file_content w' g = file_content w g) /\
    fh_created_files (w_fh w') = fh_created_files (w_fh w) /\
    (~ rename_allowed w from to -> r = -1 /\ w_dh w' = w_dh w) /\
    forall to', rename_allowed w from to -> dir_key to = Some to' ->
      (dh_created_dirs (w_dh w) !! GetDirName to' = None -> r = 0 /\ w_dh w' = w_dh w) /\
      (is_Some (dh_created_dirs (w_dh w) !! GetDirName to') ->
         lookup_dir w' to = Some d /\ lookup_dir w' from = None /\
         (forall p, p <> name -> p <> to' ->
            dh_created_dirs (w_dh w') !! p = dh_created_dirs (w_dh w) !! p) /\
         (forall a b, GetDirName a = name -> GetDirName b = to' -> GetFileName a = GetFileName b ->
            ends_with_slash a = false -> ends_with_slash b = false ->
            lookup_file w' b = lookup_file w a) /\
         (dev_good w -> r = -1) /\ (r = -1 -> dir_persisted w' (do_meta o)))) w.
Proof.
  intros Hi Ht Hnf Hnt H0 Hk Hd Ho Hem Hfit.
  eapply wp_mono; [apply (RenameDirectory_wp w from to name d o); try done; apply Hi|].
  intros r w' [e -> -> Hno|e to' Hall Hkt Hq -> ->|to' q Hall Hkt Hq Hmv Hg Hp].
  - split_and!; try done. by apply (dir_tree_ext w).
  - split_and!; try done; [by apply (dir_tree_ext w)|]. intros to2 _ Hk2. assert (to2 = to') as -> by congruence.
    split; [done|]. rewrite Hq. by intros [].
  - destruct Hmv as [Hs Ht' Hst Ed Edh _ _ _]. destruct (Hfit to' Hkt) as [Hnew _].
    assert (Hne : to' <> name) by congruence.
    split_and!; [done| |by rewrite (ds_fh _ _ Hs)|by intros []|].
    { intros g. apply file_content_meta_step; [done|apply Hs]. }
    intros to2 _ Hk2. assert (to2 = to') as -> by congruence. split; [by rewrite Hq|]. intros _.
    assert (Hd' : dh_created_dirs (w_dh w') !! to' = Some d) by (rewrite Ed; apply lookup_insert_eq).
    split_and!; try done.
    + unfold lookup_dir. by rewrite Hkt.
    + unfold lookup_dir. rewrite Hk. cbn [mbind option_bind]. rewrite Ed, lookup_insert_ne by done.
      apply lookup_delete_eq.
    + intros p Hp1 Hp2. by rewrite Ed, lookup_insert_ne, lookup_delete_ne by done.
    + intros a b. apply (moved_files w w' d o name to'); try done; [apply Hs|by exists from|by exists to].
Qed.

End Names.

(** ** Witnesses *)

Lemma demo_key (key : Z * bytes) (f : Z) :
  fh_created_files (w_fh demo) !! key = Some f ->
  (key = (0, str "a") /\ f = 11) \/ (key = (0, str "b") /\ f = 12).
Proof.
  cbn. intros [[<- <-]|[_ [[<- <-]|[_ Hl]]%lookup_insert_Some]]%lookup_insert_Some; auto.
  by rewrite lookup_empty in Hl.
Qed.

Lemma demo_file_tree : file_tree demo.
Proof.
  constructor.
  - intros dh nm f [[[= -> ->] ->]|[[= -> ->] ->]]%demo_key; do 4 eexists;
      (split; [reflexivity|]); (split; [reflexivity|]); split_and!; try reflexivity;
      (split; [reflexivity|]); by split_and!.
  - intros i f. cbn. intros [[<- <-]|[_ [[<- <-]|[_ Hl]]%lookup_insert_Some]]%lookup_insert_Some.
    + by exists (0, str "a"), (MkFile 0 {[ 0 := 0 ]} 1 false false).
    + by exists (0, str "b"), (MkFile 1 ∅ 1 false false).
    + by rewrite lookup_empty in Hl.
  - intros d od i f _ [[-> ->]|[-> ->]]%demo_dirs; [|done]. cbn.
    intros [[<- <-]|[_ [[<- <-]|[_ Hl]]%lookup_insert_Some]]%lookup_insert_Some.
    + by exists (MkFile 0 {[ 0 := 0 ]} 1 false false), (str "a").
    + by exists (MkFile 1 ∅ 1 false false), (str "b").
    + by rewrite lookup_empty in Hl.
  - intros f. cbn. intros [<-|[_ [<-|[_ [? Hl]]]%lookup_insert_is_Some]]%lookup_insert_is_Some; [done..|].
    by rewrite lookup_empty in Hl.
Qed.

(** the demo with no open file left of "a" *)
Definition demo_a : file := MkFile 0 {[ 0 := 0 ]} 0 false false.
Definition demo_closed : world := set_w_files (<[11 := demo_a]> (w_files demo)) demo.

Lemma demo_closed_inv : fs_inv demo_closed /\ dir_tree demo_closed /\ file_tree demo_closed.
Proof.
  split_and!.
  - apply (fs_inv_meta_step demo); [|exact demo_inv].
    by apply (meta_step_files demo 11 (MkFile 0 {[ 0 := 0 ]} 1 false false)).
  - by apply (dir_tree_ext demo), demo_tree.
  - apply (file_tree_same_meta demo 11 (MkFile 0 {[ 0 := 0 ]} 1 false false)); try done.
    exact demo_file_tree.
Qed.

Lemma CreateFile_correct_witness :
  wp (FileHandle_CreateFile (str "/d/c") 0 false) (fun r w' => is_Some r /\ fs_inv w' /\
    is_Some (fh_created_files (w_fh w') !! (1, str "c")) /\ file_content w' 11 = str "hello") demo.
Proof.
  eapply wp_mono; [apply (CreateFile_correct demo (str "/d/c") 0);
    [exact demo_inv|exact demo_tree|exact demo_file_tree|by apply (bool_decide_eq_true_1 _)]|].
  intros r w' (Hi & _ & _ & Hc & _ & _ & Hs & Hg).
  assert (Hr : r <> None) by by apply (Hg (1, str "c")); [exact demo_good|..].
  destruct r as [f|]; [|done]. split; [by eexists|]. split; [exact Hi|].
  destruct (Hs f eq_refl) as (key & i & Hk & _ & _ & Hm & _). injection Hk as <-.
  rewrite Hm, lookup_insert_eq. split; [by eexists|]. by rewrite Hc by by eexists.
Defined.

(** removing "a" gives its block 2 back *)
Lemma unlink_correct_witness :
  wp (FileHandle_unlink (str "/a")) (fun r w' => r = 0 /\ fs_inv w' /\
    fh_created_files (w_fh w') !! (0, str "a") = None /\ 2 ∈ bh_pool (w_bh w')) demo_closed.
Proof.
  destruct demo_closed_inv as (Hi & Hd & Ht).
  eapply wp_mono; [apply (unlink_correct demo_closed (str "/a") Hi Hd Ht)|].
  intros r w' (_ & _ & Hinv & _ & Hf).
  destruct (Hf 11 demo_a eq_refl eq_refl eq_refl) as (Hr & _ & Hn). specialize (Hr demo_good).
  destruct (Hn ltac:(done) Hr) as ((key & Hk & Hm) & Hp & _). injection Hk as <-.
  split; [exact Hr|]. split; [apply (Hinv Hr)|]. rewrite Hm, Hp. split; [by rewrite lookup_delete_eq|].
  apply elem_of_union. left. by apply (bool_decide_eq_true_1 _).
Defined.

(** "a" of the mount point becomes "x" of the directory "d" *)
Lemma RenamePath_correct_witness :
  wp (RenamePath (str "/a") (str "/d/x")) (fun r w' => r = 0 /\ fs_inv w' /\
    fh_created_files (w_fh w') !! (1, str "x") = Some 11 /\
    fh_created_files (w_fh w') !! (0, str "a") = None /\ file_content w' 11 = str "hello") demo.
Proof.
  eapply wp_mono; [apply (RenamePath_correct demo (str "/a") (str "/d/x") (0, str "a") 11
    (MkFile 0 {[ 0 := 0 ]} 1 false false) demo_inv demo_tree demo_file_tree); try reflexivity; try done;
    [by apply (bool_decide_eq_true_1 _)|by apply (bool_decide_eq_true_1 _)]|].
  intros r w' (Hi & _ & _ & Hc & _ & _ & Hf).
  destruct (Hf (1, str "x") eq_refl eq_refl) as (Hm & _ & Hg).
  split; [by apply Hg, demo_good|]. split; [exact Hi|]. rewrite Hm, Hc. by split_and!.
Defined.

(** the directory "d" becomes "e" *)
Lemma RenameDirectory_correct_witness :
  wp (RenameDirectory (str "/d") (str "/e/")) (fun r w' => r = -1 /\ dir_tree w' /\
    lookup_dir w' (str "/e/") = Some 13 /\ lookup_dir w' (str "/d") = None /\
    file_content w' 11 = str "hello") demo.
Proof.
  eapply wp_mono; [apply (RenameDirectory_correct demo (str "/d") (str "/e/") (str "/d/") 13
    (MkDirectory 1 ∅ ∅ 0) demo_inv demo_tree); try reflexivity; try done|].
  - by apply (bool_decide_eq_true_1 _).
  - intros to' Hk. injection Hk as <-. split; [reflexivity|]. by apply (bool_decide_eq_true_1 _).
  - intros r w' (Ht & Hc & _ & _ & Hm). rewrite Hc.
    assert (Hall : rename_allowed demo (str "/d") (str "/e/")).
    { split; [reflexivity|]. split; [by apply (bool_decide_eq_true_1 _)|].
      split; [by apply (bool_decide_eq_true_1 _)|]. by eexists. }
    destruct (Hm (str "/e/") Hall eq_refl) as [_ Hmv].
    destruct Hmv as (H1 & H2 & _ & _ & Hr & _); [by exists 10|]. split; [by apply Hr, demo_good|]. by split_and!.
Defined.
