(* ===== verification/SessionTheorems.v ===== *)
(** * Theorems on sequences of calls

    That the calls of a client refine the abstract file system of [Session.v] and keep the invariant of the process. *)

From S2P Require Import Prelude Meta Device World SuperBlock Resources Paths FileBlock Inode.
From S2P Require Import Directory FileHandle File OpenFile FileHandleOps DirHandle FileSystem.
From S2P Require Import Io Frames Invariant MetaSteps Views Content FileGrow FileIO FileShrink Truncate.
From S2P Require Import DirSteps Names DirOps FileNames FileEntries Unlink OpenFiles Session Refinement.
From S2P Require Import DirRefinement Scenario NameTheorems.

Section Sessions.
Context `{Env}.

(** C1: every sequence of calls of a client (create, unlink, open, close, dup, pwrite,
    pread, truncate that does not shrink, mkdir, rmdir, rename of files and of
    directories without sub-directories), with a clock that may show any time
    between two calls, on a consistent file system of at most 100000 blocks whose
    device does not fail, runs without a crash, keeps the invariant of the process,
    and every call replies and changes the state as the abstract file system of
    directories, names, contents and descriptors allows: nothing else is visible to
    the client.  The sequence must have arguments in range and no more openings than
    there are free descriptors ([open_without_descriptors] is what happens else).
    In every state that it can reach, a truncate must not shrink, a renamed
    directory must have no sub-directories and a free place outside itself to go to,
    and the new name of a file must have less than 64 bytes and no slash at its end. *)
Theorem calls_refine (cs : list call) (w : world) :
  sys_ok w -> dev_good w -> sb_curr_block_num (w_super w) <= kBlockLocks ->
  calls_fit cs (abs w) -> (sum_list (takes_fd <$> cs) <= length (fd_pool (w_fdh w)))%nat ->
  wp (run_calls cs) (fun rs w' => sys_ok w' /\ dev_good w' /\ session cs w rs w') w.
Proof.
  apply run_calls_wp.
Qed.

(** C25: when no descriptor is free, [open] of an existing file replies -1 and yet opens
    it: the file gets a link under descriptor 2^64 - 1, which no client has, so a
    later [unlink] replies 0 but only marks the file: the name and the content stay. *)
Theorem open_without_descriptors (w : world) (path : bytes) (flags f : Z) (y : file) :
  sys_ok w -> fd_pool (w_fdh w) = [] -> lookup_dir w path = None -> lookup_file w path = Some f ->
  w_files w !! f = Some y -> plain_flags flags -> excl_create flags = false -> 0 ∉ path ->
  wp (let! r := FileHandle_open path flags in let! r' := FileHandle_unlink path in ret (r, r'))
     (fun p w' => p = (-1, 0) /\ lookup_file w' path = Some f /\
        file_content w' f = file_content w f /\ opens_of w' !! no_fd = Some f /\
        exists y', w_files w' !! f = Some y' /\ fo_nlink y' = fo_nlink y + 1 /\ fo_deleted y' = true) w.
Proof.
  intros Hs Hp Hd Hf Hy Hfl He H0. pose proof Hs as [Hi Hdt Ht Ho].
  pose proof (open_file_of_wp w path flags Hi Hdt Ht Hfl H0) as Hwp.
  apply wp_intro in Hwp as (r & w1 & Hrun & Hpost). unfold open_file_post in Hpost.
  rewrite Hd, Hf, He in Hpost. destruct Hpost as [[e ->] ->].
  assert (Hk : exists key, fh_created_files (w_fh w) !! key = Some f).
  { unfold lookup_file in Hf. apply bind_Some in Hf as (key & _ & Hk). by exists key. }
  destruct Hk as [key Hk]. pose proof (sys_ok_errno e w Hs) as Hs1.
  wp_step. eapply wp_mono; [by apply (open_empty_pool w (set_w_errno e w) path flags f key)|].
  intros r w2 (-> & y' & pos & Hy' & Hw2).
  assert (y' = y) as -> by (cbn in Hy'; congruence).
  destruct (with_open_base no_fd [] f y pos (set_w_errno e w) (so_inv _ Hs1) (so_dirs _ Hs1)
    (so_files _ Hs1) Hy) as (Hi2 & Hd2 & Ht2 & Hc2). rewrite <- Hw2 in *.
  assert (Hlinks : 0 <= fo_nlink y <= 2 * kMaxFileNum).
  { rewrite (oo_links _ Ho f y Hy). by apply open_count_bound. }
  assert (Hn : i32 (fo_nlink y + 1) = fo_nlink y + 1).
  { unfold kMaxFileNum in Hlinks. apply swrap_small; lia. }
  assert (Hf2 : w_files w2 !! f = Some (set_fo_nlink (fo_nlink y + 1) y)).
  { rewrite Hw2. cbn. by rewrite lookup_insert_eq, Hn. }
  assert (Hlf : lookup_file w2 path = Some f) by by rewrite Hw2.
  assert (Hld : lookup_dir w2 path = None) by by rewrite Hw2.
  wp_step. eapply wp_mono; [by apply FileHandle_unlink_wp|].
  intros r w3 [e3 -> -> Hno|g z e3 -> _ Hg Hz Hpos ->|g z od _ _ Hg Hz Hneg _]; wp_step.
  - rewrite (Hno Hld) in Hlf. done.
  - assert (g = f) as -> by congruence. rewrite Hf2 in Hz. injection Hz as <-.
    assert (Hms : meta_step w2 (set_w_files (<[f := set_fo_deleted true (set_fo_nlink (fo_nlink y + 1) y)]>
      (w_files w2)) (set_w_errno e3 w2))).
    { etrans; [apply (set_errno_step e3)|]. by apply (meta_step_files (set_w_errno e3 w2) f _ _ Hf2). }
    split_and!; [done|done| | |].
    + rewrite (file_content_meta_step _ _ f Hi2 Hms). apply Hc2.
    + change (opens_of w2 !! no_fd = Some f). apply opens_of_lookup. rewrite Hw2.
      exists (w_next w), (MkOpenFile f pos). split_and!; cbn; try by rewrite lookup_insert_eq. done.
    + eexists. split; [cbn; by rewrite lookup_insert_eq|done].
  - assert (g = f) as -> by congruence. rewrite Hf2 in Hz. injection Hz as <-. cbn in Hneg. lia.
Qed.

End Sessions.

(** ** Witness *)

Lemma demo_opens : opens_of demo = list_to_map [(0, 11); (1, 12)].
Proof. by apply (bool_decide_eq_true_1 _). Qed.

Lemma demo_open_files (fd o : Z) :
  fh_open_files (w_fh demo) !! fd = Some o -> (fd = 0 /\ o = 21) \/ (fd = 1 /\ o = 22).
Proof.
  cbn. intros [[<- <-]|[_ [[<- <-]|[_ Hl]]%lookup_insert_Some]]%lookup_insert_Some; auto.
  by rewrite lookup_empty in Hl.
Qed.

Lemma demo_sys : sys_ok demo.
Proof.
  constructor; [exact demo_inv|exact demo_tree|exact demo_file_tree|]. constructor.
  - done.
  - by apply (bool_decide_eq_true_1 _).
  - intros fd Hfd. cbn in Hfd.
    repeat (apply elem_of_cons in Hfd as [->|Hfd]; [split; [done|reflexivity]|]).
    by apply elem_of_nil in Hfd.
  - intros fd o [[-> ->]|[-> ->]]%demo_open_files; (split; [done|by eexists]).
  - intros o. cbn. intros [<-|[_ [<-|[_ [? Hl]]]%lookup_insert_is_Some]]%lookup_insert_is_Some; [done..|].
    by rewrite lookup_empty in Hl.
  - intros fd f. rewrite demo_opens. cbn.
    intros [[_ <-]|[_ [[_ <-]|[_ Hl]]%lookup_insert_Some]]%lookup_insert_Some.
    + by exists (0, str "a").
    + by exists (0, str "b").
    + by rewrite lookup_empty in Hl.
  - intros f y. cbn. intros [[<- <-]|[_ [[<- <-]|[_ Hl]]%lookup_insert_Some]]%lookup_insert_Some;
      [by apply (bool_decide_eq_true_1 _)..|by rewrite lookup_empty in Hl].
Qed.

Lemma session_inv `{Env} (c : call) (cs : list call) (w : world) (rs : list reply) (w' : world) :
  session (c :: cs) w rs w' ->
  exists r w1 rs', rs = r :: rs' /\ a_step c (abs w) r (abs w1) /\ session cs w1 rs' w'.
Proof. inversion_clear 1. by do 3 eexists. Qed.

Ltac args_ok := repeat constructor; by apply (bool_decide_eq_true_1 _).

Lemma demo_rename_fits :
  call_ok (CRename (str "/a") (str "/d/x")) /\ call_fits (CRename (str "/a") (str "/d/x")) (abs demo) /\
  a_file (abs demo) (str "/d/x") = None /\ a_file (abs demo) (str "/a") = Some 11 /\
  a_dir (abs demo) (GetDirName (str "/d/x")) = Some 1.
Proof.
  assert (Hf : a_file (abs demo) (str "/a") = Some 11) by by vm_compute.
  split; [|split; [|split; [by vm_compute|split; [done|by vm_compute]]]].
  - split; [done|]. split; [done|]. by apply (bool_decide_eq_true_1 _).
  - split; [|intros _; by rewrite Hf]. intros _. split; [reflexivity|]. by apply Nat.ltb_lt.
Qed.

(** the open file "a" moves into the directory "d" and is read through its descriptor *)
Lemma calls_refine_witness :
  wp (run_calls [CRename (str "/a") (str "/d/x"); CPread 0 5 0; CMkdir (str "/e"); CClose 0]) (fun rs w' =>
    sys_ok w' /\ exists r0 r rs', rs = r0 :: r :: rs' /\ r0.1 = 0 /\ r.1 = 5 /\ take 5 r.2 = str "hello") demo.
Proof.
  destruct demo_rename_fits as (Hok & Hfit & Hto & Hfrom & Hdir).
  eapply wp_mono; [apply (calls_refine _ demo demo_sys demo_good); [done| |cbn; lia]|].
  - split; [exact Hok|]. split; [exact Hfit|]. intros r0 t _. apply calls_fit_free. args_ok.
  - intros rs w' (Hs & _ & Hses). split; [exact Hs|].
    apply session_inv in Hses as (r0 & w1 & rs1 & -> & Hst0 & Hses1).
    apply session_inv in Hses1 as (r & w2 & rs2 & -> & Hst1 & _). exists r0, r, rs2. split; [reflexivity|].
    cbv beta iota delta [a_step] in Hst0. rewrite Hto, Hfrom, Hdir in Hst0. destruct Hst0 as (Hr0 & key & _ & Hsame).
    split; [exact Hr0|]. cbn [a_step] in Hst1. rewrite (as_open _ _ Hsame) in Hst1.
    cbn [a_move a_with_files a_open abs] in Hst1. rewrite demo_opens in Hst1.
    destruct Hst1 as (_ & Hr1 & Hr2). rewrite (as_data _ _ Hsame) in Hr1, Hr2.
    split; [exact Hr1|exact Hr2].
Defined.

(** the demo with its last descriptor taken *)
Definition demo_full : world := set_w_fdh (MkFdHandle (2 * kMaxFileNum) []) demo.

Lemma demo_full_sys : sys_ok demo_full.
Proof.
  destruct demo_sys as [Hi Hd Ht [? ? ? ? ? ? ?]]. constructor.
  - destruct Hi. by constructor.
  - by apply (dir_tree_ext demo).
  - by apply (file_tree_ext demo); eauto.
  - constructor; try done; [constructor|]. intros fd Hfd. by apply elem_of_nil in Hfd.
Qed.

Lemma open_without_descriptors_witness :
  wp (let! r := FileHandle_open (str "/b") O_RDWR in let! r' := FileHandle_unlink (str "/b") in ret (r, r'))
     (fun p w' => p = (-1, 0) /\ lookup_file w' (str "/b") = Some 12) demo_full.
Proof.
  eapply wp_mono; [apply (open_without_descriptors demo_full (str "/b") O_RDWR 12 (MkFile 1 ∅ 1 false false)
    demo_full_sys); try done; by apply (bool_decide_eq_true_1 _)|].
  intros p w' (Hp & Hl & _). by split.
Defined.
