(* ===== verification/FuseSession.v ===== *)
(** * Sessions of FUSE requests

    The handlers of [lib/bfs_fuse.cc] that work on paths and on open files, as
    requests of a client and their answers, and what each may answer: a handler
    makes one call of [Session.v] ([flush] makes two) and turns its reply into 0,
    a count, a handle or a negated [errno]. *)

From S2P Require Import Prelude Meta Device World SuperBlock Resources Paths FileBlock Inode.
From S2P Require Import Directory FileHandle File OpenFile FileHandleOps DirHandle FileSystem Fuse.
From S2P Require Import Io Invariant Views Content FileGrow DirSteps Names FileNames OpenFiles Session.

(** ** Requests and answers *)

(** a request on an open file carries the handle that [open] put in [fi->fh] *)
Inductive request : Type :=
  | RGetattr (path : bytes)
  | RMknod (path : bytes) (mode : Z)
  | RMkdir (path : bytes) (mode : Z)
  | RUnlink (path : bytes)
  | RRmdir (path : bytes)
  | RRename (from to : bytes) (flags : Z)
  | RTruncate (path : bytes) (size fh : Z)
  | ROpen (path : bytes) (flags : Z)
  | RCreate (path : bytes) (mode flags : Z)
  | RRead (path : bytes) (size offset fh : Z)
  | RWrite (path buf : bytes) (offset fh : Z)
  | RFlush (path : bytes) (fh : Z)
  | RRelease (fh : Z)
  | RTick (time : Z).           (** between two requests: the clock shows [time] *)

(** the result, the new handle, the bytes read and the attributes *)
Record answer : Type := MkAnswer {
  an_res : Z; an_fh : option Z; an_data : bytes; an_stat : option stat_buf
}.

Definition status (res : Z) : answer := MkAnswer res None [] None.

Section Requests.
Context `{Env}.

Definition run_request (q : request) : Fu answer :=
  match q with
  | RGetattr path => let! r := mfs_getattr path None in ret (MkAnswer r.1 None [] r.2)
  | RMknod path mode => let! r := bfs_mknod path mode in ret (status r)
  | RMkdir path mode => let! r := mfs_mkdir path mode in ret (status r)
  | RUnlink path => let! r := fuse_unlink path in ret (status r)
  | RRmdir path => let! r := bfs_rmdir path in ret (status r)
  | RRename from to flags => let! r := mfs_rename from to flags in ret (status r)
  | RTruncate path size fh => let! r := mfs_truncate (Some path) size (Some fh) in ret (status r)
  | ROpen path flags => let! r := mfs_open (Some path) flags in ret (MkAnswer r.1 r.2 [] None)
  | RCreate path mode flags =>
    let! r := mfs_create (Some path) mode flags in ret (MkAnswer r.1 r.2 [] None)
  | RRead path size offset fh =>
    let! r := mfs_read path (replicate (Z.to_nat size) 0) size offset (Some fh) in
    ret (MkAnswer r.1 None r.2 None)
  | RWrite path buf offset fh => let! r := fuse_write path buf offset (Some fh) in ret (status r)
  | RFlush path fh => let! r := flush path (Some fh) in ret (status r)
  | RRelease fh => let! r := bfs_release (Some fh) in ret (status r)
  | RTick time => fs (modify (set_w_now time)) ;; ret (status 0)
  end.

Fixpoint run_requests (qs : list request) : Fu (list answer) :=
  match qs with
  | [] => ret []
  | q :: qs => let! a := run_request q in let! l := run_requests qs in ret (a :: l)
  end.

(** ** What the requests may answer *)

(** the (first) call of a request *)
Definition request_call (q : request) : option call :=
  match q with
  | RGetattr _ => None
  | RMknod path mode => Some (CCreate path mode)
  | RMkdir path _ => Some (CMkdir path)
  | RUnlink path => Some (CUnlink path)
  | RRmdir path => Some (CRmdir path)
  | RRename from to flags => if flags =? 0 then Some (CRename from to) else None
  | RTruncate _ size fh => if size <? 0 then None else Some (CTruncate (i32 fh) size)
  | ROpen path flags | RCreate path _ flags => Some (COpen path flags)
  | RRead _ size offset fh => Some (CPread fh size offset)
  | RWrite _ buf offset fh => Some (CPwrite fh buf offset)
  | RFlush _ fh => Some (CDup (i32 fh))
  | RRelease fh => Some (CClose fh)
  | RTick time => Some (CTick time)
  end.

(** the result of a handler for the reply [r] of its call: [e] is [errno] then *)
Definition answered (e r ok : Z) : Z := if r <? 0 then - e else ok.

Definition answer_of (q : request) (e : Z) (r : reply) : answer :=
  match q with
  | ROpen _ _ | RCreate _ _ _ => MkAnswer 0 (Some (u64 r.1)) [] None
  | RRead _ _ _ _ => MkAnswer (answered e (i32 r.1) (i32 r.1)) None r.2 None
  | RWrite _ _ _ _ => status (answered e (i32 r.1) (i32 r.1))
  | _ => status (answered e r.1 0)
  end.

(** The attributes of a path: the link count of a file is the number of its
    descriptors, and its blocks hold its content. *)
Definition a_getattr (path : bytes) (s : afs) (a : answer) : Prop :=
  if bool_decide (path = [slash]) then
    exists st, a = MkAnswer 0 None [] (Some st) /\ st_mode st = Z.lor S_IFDIR kStatMode
  else
  match a_file s path with
  | Some f => exists st, a = MkAnswer 0 None [] (Some st) /\ st_mode st = Z.lor kStatMode S_IFREG /\
      st_size st = Z.of_nat (length (a_data s f)) /\ st_nlink st = open_count (a_open s) f /\
      st_size st <= 512 * st_blocks st
  | None =>
    match a_dir s path with
    | Some i => exists st, a = MkAnswer 0 None [] (Some st) /\ st_mode st = Z.lor kStatMode S_IFDIR /\
        st_ino st = i
    | None => a = status (- ENOENT)
    end
  end.

(** [e] is [errno] when the request is answered *)
Definition a_request (q : request) (s : afs) (a : answer) (e : Z) (t : afs) : Prop :=
  match request_call q with
  | Some c =>
    match q with
    | RFlush _ fh => a_same s t /\
        a = status (if a_open s !! u64 (i32 fh) is Some _ then 0 else - e)
    | _ => exists r, a_step c s r t /\ a = answer_of q e r
    end
  | None => a_same s t /\
    match q with RGetattr path => a_getattr path s a | _ => a = status (- EINVAL) end
  end.

(** ** The scope *)

Definition request_ok (q : request) : Prop :=
  match request_call q with Some c => call_ok c | None => True end /\
  match q with
  | RGetattr path => path <> []
  | RRead _ size _ _ => size < 2 ^ 31
  | RWrite _ buf _ _ => Z.of_nat (length buf) < 2 ^ 31
  | _ => True
  end.

Definition request_fits (q : request) (s : afs) : Prop :=
  match request_call q with Some c => call_fits c s | None => True end.

Fixpoint requests_fit (qs : list request) (s : afs) : Prop :=
  match qs with
  | [] => True
  | q :: qs => request_ok q /\ request_fits q s /\
      forall a e t, a_request q s a e t -> requests_fit qs t
  end.

(** the descriptors that a request may take; [flush] gives its one back *)
Definition request_fds (q : request) : nat :=
  match request_call q with Some c => takes_fd c | None => 0 end.

(** every request of the sequence is answered as it may be *)
Inductive fuse_session : list request -> fuse_state -> list answer -> fuse_state -> Prop :=
  | fuse_session_nil s : fuse_session [] s [] s
  | fuse_session_cons q qs s a s1 l s' :
      run_request q s = Done a s1 ->
      a_request q (abs (fuse_world s)) a (w_errno (fuse_world s1)) (abs (fuse_world s1)) ->
      fuse_session qs s1 l s' -> fuse_session (q :: qs) s (a :: l) s'.

End Requests.
