(* ===== verification/FuseTheorems.v ===== *)
(** * Theorems on FUSE requests

    That the handlers answer sequences of requests as [FuseSession.v] says. *)

From S2P Require Import Prelude Meta Device World SuperBlock Resources Paths FileBlock Inode.
From S2P Require Import Directory FileHandle File OpenFile FileHandleOps DirHandle FileSystem Fuse.
From S2P Require Import Io Invariant MetaSteps Views Content FileGrow FileIO FileShrink Truncate.
From S2P Require Import DirSteps Names FileNames Unlink OpenFiles Session Refinement DirRefinement.
From S2P Require Import FuseSession Scenario NameTheorems SessionTheorems.

(** ** The file system under a handler *)

Lemma wp_fs {A} (m : Fs A) (Q : A -> fuse_state -> Prop) (s : fuse_state) :
  wp m (fun a w => Q a (MkFuse w (fuse_open_dirs s))) (fuse_world s) -> wp (fs m) Q s.
Proof. unfold wp, fs. by destruct (m (fuse_world s)). Qed.

Lemma wp_neg_errno (Q : Z -> fuse_state -> Prop) (s : fuse_state) :
  Q (- w_errno (fuse_world s)) s -> wp neg_errno Q s.
Proof. by destruct s. Qed.

Lemma wp_or_errno (res : Z) (Q : Z -> fuse_state -> Prop) (s : fuse_state) :
  Q (answered (w_errno (fuse_world s)) res 0) s -> wp (or_errno res) Q s.
Proof. unfold or_errno, answered. destruct (res <? 0); [by apply wp_neg_errno|done]. Qed.

(** a call that replies a number only *)
Lemma wp_status {S} (m : prog S Z) (Q : reply -> S -> Prop) (s : S) :
  wp (let! r := m in ret (r, [])) Q s -> wp m (fun r => Q (r, [])) s.
Proof. unfold wp, bind. by destruct (m s). Qed.

Section FuseRequests.
Context `{Env}.

(** ** Attributes *)

Lemma GetBlockNumber_run (w : world) (f : Z) (o : file) :
  fs_inv w -> w_files w !! f = Some o -> exists n, GetBlockNumber f w = Done n w /\
    0 <= n < 2 ^ 32 /\ file_size (view_of w) f <= kBlockSize * n.
Proof.
  intros Hi Ho. destruct (file_world w f o Hi Ho) as (m & Hff & Hcase).
  destruct Hff as (_ & _ & _ & _ & _ & Hsz). rewrite Hsz.
  unfold GetBlockNumber. erewrite bind_run by by apply get_file_run.
  destruct Hcase as [(He & -> & _)|(fb & b & He & Hb & Hbok & _ & _ & _ & Hs & _)]; rewrite He.
  - exists 0. rewrite map_order_empty. split; [done|]. units. lia.
  - exists (fb_used_block_num b). rewrite map_order_singleton. cbn [sum_used].
    erewrite bind_run by by apply get_fbmeta_run. pose proof (bw_num _ (proj1 Hbok)) as Hr. unfold in_u in Hr.
    rewrite Z.add_0_l, wrap_small by lia. split; [done|]. units. lia.
Qed.

Lemma File_stat_wp (w : world) (f : Z) :
  sys_ok w -> is_Some (w_files w !! f) -> wp (File_stat f) (fun st w' => w' = w /\
    st_mode st = Z.lor kStatMode S_IFREG /\ st_size st = Z.of_nat (length (file_content w f)) /\
    st_nlink st = open_count (opens_of w) f /\ st_size st <= 512 * st_blocks st) w.
Proof.
  intros [Hi _ _ Ho] [o Hf]. destruct (GetBlockNumber_run w f o Hi Hf) as (n & Hn & Hr & Hsz).
  destruct (file_world w f o Hi Hf) as (m & (_ & Hm & _ & _ & _ & Hs) & _).
  pose proof (file_size_nonneg _ _ (fi_inv _ Hi) f) as Hnn.
  pose proof (open_count_bound w f Ho) as Hc. unfold kMaxFileNum in Hc.
  pose proof (file_content_length w f Hi) as Hlen. rewrite Hs in *.
  unfold File_stat. wp_step. eapply wp_run; [exact Hn|]. wp_step. eapply wp_run; [by apply get_file_run|].
  wp_step. eapply wp_run; [by apply (file_meta_run f o m)|]. wp_step. cbn [st_mode st_size st_nlink st_blocks].
  rewrite (oo_links _ Ho f o Hf), Hlen. units.
  assert (Hsm : fm_size m < 2 ^ 63) by lia.
  rewrite !wrap_small, swrap_small by lia. split_and!; try done.
  replace (n * 4194304) with (n * 8192 * 512) by lia. rewrite Z.div_mul by lia. lia.
Qed.

Lemma Directory_stat_wp (w : world) (path : bytes) (d : Z) (o : directory) :
  dir_tree w -> lookup_dir w path = Some d -> w_dirs w !! d = Some o ->
  wp (Directory_stat d) (fun st w' => w' = w /\ st_mode st = Z.lor kStatMode S_IFDIR /\
    st_ino st = do_meta o) w.
Proof.
  intros Ht Hd Ho. destruct (lookup_dir_some _ _ _ Ht Hd) as (p & o' & m & _ & _ & Ho' & Hm & Hdh & _).
  assert (o' = o) as -> by congruence. unfold Directory_stat, dir_meta.
  do 2 wp_step. apply (wp_get_dir d o); [done|]. apply (wp_get_dirmeta _ m); [done|].
  wp_step. by cbn.
Qed.

Lemma a_same_errno (w : world) (e : Z) : a_same (abs w) (abs (set_w_errno e w)).
Proof. done. Qed.

(** what [StatPath] returns, in the terms of the handler *)
Definition stat_answer (r : option stat_buf) (e : Z) : answer :=
  match r with Some st => MkAnswer 0 None [] (Some st) | None => status (- e) end.

Lemma StatPath_wp (w : world) (path : bytes) :
  sys_ok w -> path <> [] -> path <> [slash] -> wp (StatPath path) (fun r w' =>
    (exists e, w' = set_w_errno e w) /\ a_getattr path (abs w) (stat_answer r (w_errno w'))) w.
Proof.
  intros Hs Hne Hroot. pose proof Hs as [_ Hd Hft _].
  assert (Hdir : forall e, lookup_file w path = None -> wp (let! dir := GetCreatedDirectory path in
      match dir with
      | None => set_errno ENOENT ;; ret None
      | Some d => let! s := Directory_stat d in set_errno 0 ;; ret (Some s)
      end) (fun r w' => (exists e, w' = set_w_errno e w) /\
        a_getattr path (abs w) (stat_answer r (w_errno w'))) (set_w_errno e w)).
  { intros e Hnf. unfold a_getattr. rewrite bool_decide_false, abs_file, Hnf, abs_dir by done.
    wp_step. eapply looks_up_wp; [apply GetCreatedDirectory_run|]. intros e1.
    change (lookup_dir (set_w_errno e w) path) with (lookup_dir w path).
    destruct (lookup_dir w path) as [d|] eqn:Hld; cbn [mbind option_bind].
    - destruct (lookup_dir_some _ _ _ Hd Hld) as (p & o & m & _ & _ & Ho & _). rewrite Ho. cbn.
      wp_step. eapply wp_mono; [apply (Directory_stat_wp _ path d o); try done|].
      { by apply (dir_tree_ext w). }
      intros st w' (-> & Hm & Hi). unfold set_errno. do 3 wp_step. split; [by exists 0|]. by exists st.
    - unfold set_errno. do 3 wp_step. split; [by exists ENOENT|done]. }
  unfold StatPath. destruct path as [|b p]; [done|]. set (path := b :: p) in *.
  destruct (ends_with_slash path) eqn:Hsl.
  - specialize (Hdir (w_errno w)). rewrite set_errno_same in Hdir. apply Hdir.
    unfold lookup_file, file_key. by rewrite Hsl.
  - wp_step. eapply looks_up_wp; [by apply GetCreatedFile_run|]. intros e.
    destruct (lookup_file w path) as [f|] eqn:Hlf; [|by apply Hdir].
    assert (Hk : exists key, fh_created_files (w_fh w) !! key = Some f).
    { unfold lookup_file in Hlf. apply bind_Some in Hlf as (key & _ & Hk). by exists key. }
    destruct Hk as [[dh nm] Hk]. destruct (ft_created _ Hft _ _ _ Hk) as (o & _ & _ & _ & Ho & _).
    wp_step. eapply wp_mono; [apply File_stat_wp; [by apply sys_ok_errno|by exists o]|].
    intros st w' (-> & Hm & Hsz & Hn & Hb). unfold set_errno. do 3 wp_step. split; [by exists 0|].
    unfold a_getattr. rewrite bool_decide_false, abs_file, Hlf by done. exists st. by split_and!.
Qed.

Lemma getattr_wp (s : fuse_state) (path : bytes) :
  sys_ok (fuse_world s) -> path <> [] -> wp (run_request (RGetattr path)) (fun a s' =>
    fuse_open_dirs s' = fuse_open_dirs s /\ (exists e, fuse_world s' = set_w_errno e (fuse_world s)) /\
    a_getattr path (abs (fuse_world s)) a) s.
Proof.
  intros Hs Hne. cbn [run_request]. unfold mfs_getattr. wp_step. case_decide as Hroot.
  - wp_step. apply wp_fs. unfold StatVFS, Blocks.GetFreeBlockNum. repeat wp_step.
    apply wp_fs. repeat wp_step. split_and!; [done|exists (w_errno (fuse_world s)); by rewrite set_errno_same|].
    unfold a_getattr. rewrite bool_decide_true by done. by eexists.
  - wp_step. apply wp_fs. eapply wp_mono; [by apply StatPath_wp|].
    intros r w' [He Ha]. destruct r as [st|]; cbn [stat_answer] in Ha.
    + repeat wp_step. by split_and!.
    + wp_step. apply wp_neg_errno. repeat wp_step. by split_and!.
Qed.

(** ** Requests of one call *)

Record request_post (q : request) (s : fuse_state) (a : answer) (s' : fuse_state) : Prop := {
  rq_sys : sys_ok (fuse_world s');
  rq_good : dev_good (fuse_world s');
  rq_super : w_super (fuse_world s') = w_super (fuse_world s);
  rq_pool : (length (fd_pool (w_fdh (fuse_world s)))
    <= request_fds q + length (fd_pool (w_fdh (fuse_world s'))))%nat;
  rq_dirs : fuse_open_dirs s' = fuse_open_dirs s;
  rq_answer : a_request q (abs (fuse_world s)) a (w_errno (fuse_world s')) (abs (fuse_world s'))
}.

(** the call of a request, made by its handler *)
Definition called (q : request) (c : call) (s : fuse_state) (r : reply) (w' : world) : Prop :=
  call_post c (fuse_world s) r w' /\ request_call q = Some c.

Lemma request_done (q : request) (c : call) (s : fuse_state) (r : reply) (w' : world) :
  request_call q = Some c -> (forall path fh, q <> RFlush path fh) ->
  call_post c (fuse_world s) r w' ->
  request_post q s (answer_of q (w_errno w') r) (MkFuse w' (fuse_open_dirs s)).
Proof.
  intros Hc Hnf [Hs Hg Hsup Hp Hst]. constructor; try done.
  - unfold request_fds. by rewrite Hc.
  - unfold a_request. rewrite Hc. destruct q; try (by exists r). by destruct (Hnf path fh).
Qed.

(** a handler that changes nothing *)
Lemma request_refused (q : request) (s : fuse_state) (res : Z) :
  sys_ok (fuse_world s) -> dev_good (fuse_world s) -> request_call q = None ->
  (forall path, q <> RGetattr path) -> res = - EINVAL -> request_post q s (status res) s.
Proof.
  intros Hs Hg Hc Hng ->. constructor; try done; [lia|]. unfold a_request. rewrite Hc.
  split; [done|]. destruct q; try done. by destruct (Hng path).
Qed.

Lemma status_request (q : request) (c : call) (m : Fs Z) (s : fuse_state) (Q : Z -> fuse_state -> Prop) :
  request_call q = Some c -> run_call c = (let! r := m in ret (r, [])) ->
  (forall path fh, q <> RFlush path fh) ->
  wp (run_call c) (call_post c (fuse_world s)) (fuse_world s) ->
  (forall r w', request_post q s (answer_of q (w_errno w') (r, [])) (MkFuse w' (fuse_open_dirs s)) ->
     Q r (MkFuse w' (fuse_open_dirs s))) ->
  wp (fs m) Q s.
Proof.
  intros Hc Hm Hnf Hwp HQ. rewrite Hm in Hwp. apply wp_fs. eapply wp_mono; [by apply wp_status, Hwp|].
  intros r w' Hp. by apply HQ, (request_done q c).
Qed.

(** a handler that returns 0 or the negated [errno] *)
Ltac status_handler :=
  match goal with
  | |- wp (run_request ?q) _ ?s =>
    cbn [run_request]; unfold bfs_mknod, mfs_mkdir, fuse_unlink, bfs_rmdir; do 2 wp_step;
    eapply (status_request q); [reflexivity|reflexivity|done|auto|];
    intros r w' Hp; apply wp_or_errno; by wp_step
  end.

Lemma request_wp (q : request) (s : fuse_state) :
  sys_ok (fuse_world s) -> dev_good (fuse_world s) ->
  sb_curr_block_num (w_super (fuse_world s)) <= kBlockLocks ->
  request_ok q -> request_fits q (abs (fuse_world s)) ->
  (request_fds q <= length (fd_pool (w_fdh (fuse_world s))))%nat ->
  (forall path fh, q <> RFlush path fh) ->
  wp (run_request q) (request_post q s) s.
Proof.
  intros Hs Hg Hlk [Hok Hmore] Hfit Hfd Hnf. unfold request_fits, request_fds in Hfit, Hfd.
  assert (Hwp : forall c, request_call q = Some c ->
    wp (run_call c) (call_post c (fuse_world s)) (fuse_world s)).
  { intros c Hc. rewrite Hc in *. by apply call_refines. }
  clear Hok Hfit Hfd. destruct q; cbn [request_call] in Hwp.
  - eapply wp_mono; [by apply getattr_wp|]. intros a s' (Hd & (e & He) & Ha).
    constructor; rewrite ?He; [by apply sys_ok_errno|done|done|cbn; lia|done|by split].
  - status_handler.
  - status_handler.
  - status_handler.
  - status_handler.
  - destruct (Z.eqb_spec flags 0) as [->|Hfl]; cbn [run_request]; unfold mfs_rename.
    + wp_step. cbn [Z.eqb negb]. wp_step. eapply (status_request (RRename from to 0));
        [reflexivity|reflexivity|done|auto|]. intros r w' Hp. apply wp_or_errno. by wp_step.
    + rewrite (proj2 (Z.eqb_neq flags 0) Hfl). cbn [negb]. do 2 wp_step.
      apply request_refused; try done. cbn. by rewrite (proj2 (Z.eqb_neq flags 0) Hfl).
  - cbn [run_request]. unfold mfs_truncate. destruct (size <? 0) eqn:Hsz.
    + do 2 wp_step. apply request_refused; try done. cbn. by rewrite Hsz.
    + do 2 wp_step. eapply (status_request (RTruncate path size fh)); [cbn; by rewrite Hsz|reflexivity|done|auto|].
      intros r w' Hp. apply wp_or_errno. by wp_step.
  - cbn [run_request]. unfold mfs_open. do 2 wp_step.
    eapply (status_request (ROpen path flags)); [reflexivity|reflexivity|done|auto|]. intros r w' Hp. by do 2 wp_step.
  - cbn [run_request]. unfold mfs_create, mfs_open. do 2 wp_step.
    eapply (status_request (RCreate path mode flags)); [reflexivity|reflexivity|done|auto|]. intros r w' Hp. by do 2 wp_step.
  - cbn [run_request]. unfold mfs_read, fd_of, close_own. do 3 wp_step. wp_step. apply wp_fs.
    eapply wp_mono; [by apply (Hwp _ eq_refl)|]. intros [n data] w' Hp.
    wp_step. apply wp_neg_errno. do 3 wp_step.
    by apply (request_done (RRead path size offset fh) (CPread fh size offset) s (n, data) w').
  - cbn [run_request]. unfold fuse_write, fd_of, close_own. do 4 wp_step.
    eapply (status_request (RWrite path buf offset fh)); [reflexivity|reflexivity|done|auto|]. intros r w' Hp.
    wp_step. apply wp_neg_errno. do 3 wp_step. exact Hp.
  - by destruct (Hnf path fh).
  - cbn [run_request]. unfold bfs_release. do 2 wp_step. apply wp_fs.
    eapply wp_mono; [by apply wp_status, (Hwp _ eq_refl)|]. intros r w' Hp.
    assert (Hr : r <? 0 = true \/ r = 0).
    { pose proof (cp_step _ _ _ _ Hp) as Hst. cbn [a_step] in Hst.
      destruct (a_open _ !! u64 fh); [by right; apply Hst|]. left.
      destruct Hst as [Hr _]. cbn [fst] in Hr. by rewrite Hr. }
    pose proof (request_done (RRelease fh) _ s (r, []) w' eq_refl ltac:(done) Hp) as Hq.
    cbn [answer_of fst] in Hq. unfold answered in Hq. destruct Hr as [Hr| ->]; [|by apply wp_ret, wp_ret].
    rewrite Hr in *. by apply wp_neg_errno, wp_ret.
  - cbn [run_request]. wp_step. apply wp_fs. do 2 wp_step.
    specialize (Hwp _ eq_refl). cbn [run_call] in Hwp.
    by apply (request_done (RTick time) (CTick time) s (0, []) (set_w_now time (fuse_world s))).
Qed.

(** ** [flush]: a descriptor is copied and closed *)

Lemma flush_spec_none (w w1 : world) (fd : Z) (r : reply) :
  sys_ok w1 -> a_open (abs w) !! u64 fd = None -> a_step (CDup fd) (abs w) r (abs w1) ->
  r.1 = -1 /\ a_open (abs w1) !! u64 r.1 = None /\ a_same (abs w) (abs w1).
Proof.
  intros Hs Hn Hst. cbn [a_step] in Hst. rewrite Hn in Hst. destruct Hst as [Hr Hsame].
  split_and!; try done. rewrite Hr. destruct (a_open (abs w1) !! u64 (-1)) as [f|] eqn:Hf; [|done].
  apply (opens_of_range w1) in Hf; [|by apply Hs]. unfold fd_range, kMaxFileNum in Hf.
  change (u64 (-1)) with (2 ^ 64 - 1) in Hf. lia.
Qed.

Lemma flush_spec_some (w w1 : world) (fd f : Z) (r : reply) :
  sys_ok w1 -> a_open (abs w) !! u64 fd = Some f -> a_step (CDup fd) (abs w) r (abs w1) ->
  u64 r.1 = r.1 /\ a_open (abs w1) !! r.1 = Some f /\ a_last (abs w1) r.1 f = false /\
  a_same (abs w) (a_opens (delete r.1 (a_open (abs w1))) (abs w1)).
Proof.
  intros Hs Hf Hst. cbn [a_step] in Hst. rewrite Hf in Hst. destruct Hst as (Hr & Hnew & Hsame).
  assert (Ho : a_open (abs w1) = <[r.1 := f]> (a_open (abs w))) by by rewrite (as_open _ _ Hsame).
  assert (Hd : delete r.1 (a_open (abs w1)) = a_open (abs w)) by (rewrite Ho; by apply delete_insert_id).
  assert (H1 : a_open (abs w1) !! r.1 = Some f) by (rewrite Ho; apply lookup_insert_eq).
  split_and!; [|done| |].
  - apply fd_range_words. by apply (opens_of_range w1 r.1 f); [apply Hs|].
  - unfold a_last. rewrite Hd. rewrite bool_decide_false; [done|].
    apply open_count_pos in Hf. cbn in Hf |- *. lia.
  - rewrite Hd. destruct Hsame as [? ? ? _ ? ? ? ?]. by constructor.
Qed.

Lemma flush_wp (s : fuse_state) (path : bytes) (fh : Z) :
  sys_ok (fuse_world s) -> dev_good (fuse_world s) ->
  sb_curr_block_num (w_super (fuse_world s)) <= kBlockLocks ->
  (1 <= length (fd_pool (w_fdh (fuse_world s))))%nat ->
  wp (run_request (RFlush path fh)) (request_post (RFlush path fh) s) s.
Proof.
  intros Hs Hg Hlk Hfd. set (w := fuse_world s) in *.
  pose proof (call_refines (CDup (i32 fh)) w Hs Hg Hlk I I Hfd) as Hdup.
  cbn [run_request]. unfold flush, fd_of, close_own. do 4 wp_step. apply wp_fs.
  eapply wp_mono; [by apply wp_status, Hdup|]. intros d w1 [Hs1 Hg1 Hsup1 Hp1 Hst1].
  rewrite <- Hsup1 in Hlk.
  pose proof (call_refines (CClose d) w1 Hs1 Hg1 Hlk I I (Nat.le_0_l _)) as Hclose.
  wp_step. apply wp_fs. eapply wp_mono; [by apply wp_status, Hclose|].
  intros r w2 [Hs2 Hg2 Hsup2 Hp2 Hst2].
  assert (Hpost : forall res, a_same (abs w) (abs w2) /\
      res = (if a_open (abs w) !! u64 (i32 fh) is Some _ then 0 else - w_errno w2) ->
    request_post (RFlush path fh) s (status res) (MkFuse w2 (fuse_open_dirs s))).
  { intros res [Hsame ->]. constructor; try done.
    - cbn [fuse_world]. by rewrite Hsup2.
    - change (request_fds (RFlush path fh)) with 1%nat. cbn [fuse_world]. fold w.
      cbn [takes_fd] in Hp1, Hp2. lia. }
  cbn [a_step] in Hst2. destruct (a_open (abs w) !! u64 (i32 fh)) as [f|] eqn:Hf.
  - destruct (flush_spec_some w w1 (i32 fh) f (d, []) Hs1 Hf Hst1) as (Hu & Ho & Hlast & Hsame).
    cbn [fst] in Hu, Ho, Hlast, Hsame. rewrite Hu, Ho in Hst2. destruct Hst2 as (Hr & key & _ & Hsame2).
    cbn [fst] in Hr. rewrite Hr. rewrite Hlast in Hsame2. change (0 <? 0) with false. cbv iota. do 4 wp_step. apply Hpost.
    split; [by etrans|done].
  - destruct (flush_spec_none w w1 (i32 fh) (d, []) Hs1 Hf Hst1) as (Hd & Ho & Hsame).
    cbn [fst] in Hd, Ho. rewrite Ho in Hst2. destruct Hst2 as [Hr Hsame2]. cbn [fst] in Hr. rewrite Hr.
    change (-1 <? 0) with true. cbv iota. apply wp_neg_errno. wp_step. apply Hpost. split; [by etrans|done].
Qed.

(** ** Sequences of requests *)

Lemma any_request_wp (q : request) (s : fuse_state) :
  sys_ok (fuse_world s) -> dev_good (fuse_world s) ->
  sb_curr_block_num (w_super (fuse_world s)) <= kBlockLocks ->
  request_ok q -> request_fits q (abs (fuse_world s)) ->
  (request_fds q <= length (fd_pool (w_fdh (fuse_world s))))%nat ->
  wp (run_request q) (request_post q s) s.
Proof.
  intros Hs Hg Hlk Hok Hfit Hfd. destruct q; try by apply request_wp. by apply flush_wp.
Qed.

(** C2: within the scope below, the FUSE handlers serve sequences of requests on paths
    and open files (getattr, mknod, mkdir, unlink, rmdir, rename, truncate, open,
    create, read, write, flush, release), with a clock that may show any time between
    two requests, on a consistent file system whose device does not fail: none
    crashes, the invariant of the process holds after each, and each answer is
    what the abstract file system allows: 0, a count, a handle or attributes, and
    for a call that is refused the negated [errno].  [open] and [create] answer 0
    whatever happens; flushing and reading attributes change nothing.

    The scope: at most 100000 blocks; arguments in range and at least as many free
    descriptors as the requests may take; and, in every state that the sequence can
    reach, no truncate that shrinks a file, no rename of a directory that has
    sub-directories, onto the path of a directory or into itself, and no new file
    name of 64 bytes or more or with a slash at its end ([requests_fit]). *)
Theorem requests_refine (qs : list request) : forall (s : fuse_state),
  sys_ok (fuse_world s) -> dev_good (fuse_world s) ->
  sb_curr_block_num (w_super (fuse_world s)) <= kBlockLocks ->
  requests_fit qs (abs (fuse_world s)) ->
  (sum_list (request_fds <$> qs) <= length (fd_pool (w_fdh (fuse_world s))))%nat ->
  wp (run_requests qs) (fun l s' => sys_ok (fuse_world s') /\ dev_good (fuse_world s') /\
    fuse_open_dirs s' = fuse_open_dirs s /\ fuse_session qs s l s') s.
Proof.
  induction qs as [|q qs IH]; intros s Hs Hg Hlk Hok Hfd; cbn [run_requests].
  { wp_step. split_and!; [done..|constructor]. }
  destruct Hok as (Hq & Hfit & Hok). cbn in Hfd.
  pose proof (any_request_wp q s Hs Hg Hlk Hq Hfit ltac:(lia)) as Hwp.
  apply wp_intro in Hwp as (a & s1 & Hrun & [Hs1 Hg1 Hsup Hpool Hd Ha]).
  wp_step. eapply wp_run; [exact Hrun|]. wp_step.
  eapply wp_mono; [apply (IH s1 Hs1 Hg1); [by rewrite Hsup|by eapply Hok|lia]|].
  intros l s' (Hs' & Hg' & Hd' & Hses). wp_step. split_and!; [done|done|congruence|]. by econstructor.
Qed.

(** ** Renaming onto a file *)

Lemma GetCreatedFile_found (w : world) (path : bytes) (f : Z) :
  dir_tree w -> lookup_file w path = Some f -> GetCreatedFile path w = Done (Some f) w.
Proof.
  intros Ht Hf. unfold lookup_file, file_key in Hf. unfold GetCreatedFile, file_TransformPath.
  destruct (ends_with_slash path); [done|]. destruct (kBlockFsMaxFileNameLen <=? _); [done|].
  apply bind_Some in Hf as (key & Hkey & Hf). apply bind_Some in Hkey as (d & Hd & Hkey).
  destruct (lookup_dir_some _ _ _ Ht Hd) as (p & o & m & Hk & Hp & Ho & Hm & Hdh & _).
  rewrite Ho in Hkey. injection Hkey as <-.
  assert (Hc : GetCreatedDirectory (GetDirName path) w = Done (Some d) w).
  { unfold GetCreatedDirectory, dir_TransformPath. unfold dir_key in Hk.
    destruct (kBlockFsMaxDirNameLen <=? _); [done|]. injection Hk as <-.
    unfold bind, ret, gets. by rewrite Hp. }
  erewrite bind_run by reflexivity. cbv beta iota. erewrite bind_run by exact Hc. cbv beta iota.
  erewrite bind_run by by apply (Directory_dh_run w d o m). rewrite Hdh.
  unfold GetCreatedFile_key, bind, gets, ret. by rewrite Hf.
Qed.

Lemma StatPath_found (w : world) (path : bytes) (f : Z) :
  sys_ok w -> path <> [] -> lookup_file w path = Some f ->
  wp (StatPath path) (fun r w' => is_Some r /\ w' = set_w_errno 0 w) w.
Proof.
  intros Hs Hne Hl. assert (Hsl : ends_with_slash path = false).
  { destruct (ends_with_slash path) eqn:He; [|done]. unfold lookup_file, file_key in Hl. by rewrite He in Hl. }
  assert (Hk : exists key, fh_created_files (w_fh w) !! key = Some f).
  { unfold lookup_file in Hl. apply bind_Some in Hl as (key & _ & Hk). by exists key. }
  destruct Hk as [[dh nm] Hk]. destruct (ft_created _ (so_files _ Hs) _ _ _ Hk) as (o & _ & _ & _ & Ho & _).
  unfold StatPath. destruct path as [|b p]; [done|]. rewrite Hsl.
  wp_step. eapply wp_run; [apply GetCreatedFile_found; [apply Hs|exact Hl]|]. cbv beta iota.
  wp_step. eapply wp_mono; [apply File_stat_wp; [done|by exists o]|]. intros st w' (-> & _).
  unfold set_errno. do 3 wp_step. split; [by exists st|done].
Qed.

Lemma mfs_rename_onto (s : fuse_state) (from to : bytes) (f : Z) :
  dir_tree (fuse_world s) -> from <> [] -> to <> [] -> lookup_file (fuse_world s) to = Some f ->
  mfs_rename from to 0 s = Done (- w_errno (fuse_world s)) s.
Proof.
  intros Ht Hf Hto Hl. unfold mfs_rename, bind, fs. cbn [Z.eqb negb]. unfold RenamePath.
  rewrite !bool_decide_false by done. cbn [orb]. unfold bind.
  rewrite (GetCreatedFile_found _ _ f Ht Hl). by destruct s.
Qed.

(** C26: looking up a path and then renaming onto it, as the kernel does, reports
    success when the path names a file, and does nothing: [RenamePath] refuses
    without setting [errno], which the lookup has just cleared, so that the handler
    returns -0.  The file to rename stays where it is, and the target is not
    replaced. *)
Theorem rename_onto_file_reports_success (s : fuse_state) (from to : bytes) (f : Z) :
  sys_ok (fuse_world s) -> from <> [] -> to <> [] ->
  lookup_file (fuse_world s) to = Some f ->
  wp (let! a := run_request (RGetattr to) in let! b := run_request (RRename from to 0) in ret (a, b))
     (fun p s' => an_res p.1 = 0 /\ p.2 = status 0 /\ fuse_open_dirs s' = fuse_open_dirs s /\
        fuse_world s' = set_w_errno 0 (fuse_world s)) s.
Proof.
  intros Hs Hf Hto Hl. assert (Hroot : to <> [slash]) by (intros ->; by cbn in Hl).
  cbn [run_request]. unfold mfs_getattr. rewrite decide_False by done.
  do 3 wp_step. apply wp_fs. eapply wp_mono; [by apply (StatPath_found _ to f)|].
  intros r w' [[st ->] ->]. do 4 wp_step.
  eapply wp_run; [apply (mfs_rename_onto _ from to f); try done; by apply (dir_tree_ext (fuse_world s)), Hs|].
  do 2 wp_step. by split_and!.
Qed.

(** ** Copying a range

    The handles of the client go to the system call as descriptors of the process:
    the answer is the kernel's, and no record, name or descriptor of the file system
    takes part. *)
Lemma copy_range_is_the_kernels (kernel : Z -> Z -> Z -> Z -> Z -> Z -> device -> Z * Z * device)
    (s : fuse_state) (pin pout : bytes) (fin fout off_in off_out size flags : Z) :
  i32 fin <> -1 -> i32 fout <> -1 ->
  let '(res, e, d) := kernel (i32 fin) off_in (i32 fout) off_out size flags (w_dev (fuse_world s)) in
  bfs_copy_file_range kernel pin (Some fin) off_in pout (Some fout) off_out size flags s
  = Done (answered e res res) (MkFuse (set_w_errno (if res <? 0 then e else w_errno (fuse_world s))
      (set_w_dev d (fuse_world s))) (fuse_open_dirs s)).
Proof.
  intros Hin Hout. destruct (kernel _ _ _ _ _ _ _) as [[res e] d] eqn:Hk.
  unfold bfs_copy_file_range, int_fd_of, bind, ret.
  rewrite (proj2 (Z.eqb_neq _ _) Hin), (proj2 (Z.eqb_neq _ _) Hout). unfold deref, fs, sys_copy_file_range, close_own, bind, gets, ret.
  cbv beta iota. rewrite Hk. unfold modify, answered, set_errno, neg_errno, fs, modify, gets, bind, ret.
  destruct s as [[] ds]. by destruct (res <? 0) eqn:Hr; cbn; rewrite Hr.
Qed.

(** without a handle of the first file the call dereferences a null pointer *)
Lemma copy_range_null (kernel : Z -> Z -> Z -> Z -> Z -> Z -> device -> Z * Z * device)
    (s : fuse_state) (pin pout : bytes) (fd fout off_in off_out size flags : Z) (w' : world) :
  FileHandle_open pin O_RDONLY (fuse_world s) = Done fd w' -> fd <> -1 -> i32 fout <> -1 ->
  exists c, bfs_copy_file_range kernel pin None off_in pout (Some fout) off_out size flags s = Crash c.
Proof.
  intros Ho Hfd Hout. unfold bfs_copy_file_range, int_fd_of, bind, fs. rewrite Ho.
  rewrite (proj2 (Z.eqb_neq _ _) Hfd). unfold ret at 1. rewrite (proj2 (Z.eqb_neq _ _) Hout). by eexists.
Qed.

(** requests that need nothing of the state *)
Definition request_free (q : request) : Prop :=
  match request_call q with Some c => call_free c | None => True end.

Lemma requests_fit_free (qs : list request) (s : afs) :
  Forall (fun q => request_ok q /\ request_free q) qs -> requests_fit qs s.
Proof.
  revert s. induction qs as [|q qs IH]; intros s Hf; [done|].
  apply Forall_cons in Hf as [[Hok Hq] Hf]. cbn [requests_fit]. split; [exact Hok|]. split; [|auto].
  unfold request_free in Hq. unfold request_fits. destruct (request_call q) as [[]|]; by try done.
Qed.

End FuseRequests.

(** ** Witness *)

Lemma fuse_session_inv `{Env} (q : request) (qs : list request) (s : fuse_state) (l : list answer)
    (s' : fuse_state) :
  fuse_session (q :: qs) s l s' -> exists a s1 l', l = a :: l' /\
    a_request q (abs (fuse_world s)) a (w_errno (fuse_world s1)) (abs (fuse_world s1)) /\
    fuse_session qs s1 l' s'.
Proof. inversion_clear 1. by do 3 eexists. Qed.

(** the file "a" is looked at, flushed and read *)
Lemma requests_refine_witness :
  wp (run_requests [RGetattr (str "/a"); RFlush (str "/a") 0; RRead (str "/a") 5 0 0;
    RMkdir (str "/e") 0; ROpen (str "/m") 0; RRelease 0]) (fun l s' => sys_ok (fuse_world s') /\
    exists a st b l', l = a :: status 0 :: b :: l' /\ an_stat a = Some st /\ st_size st = 5 /\
      an_res b = 5 /\ take 5 (an_data b) = str "hello") (MkFuse demo ∅).
Proof.
  eapply wp_mono; [apply (requests_refine _ (MkFuse demo ∅) demo_sys demo_good); [done| |cbn; lia]|].
  - apply requests_fit_free. repeat constructor; by apply (bool_decide_eq_true_1 _).
  - intros l s' (Hs & _ & _ & Hses). split; [exact Hs|].
    apply fuse_session_inv in Hses as (a & s1 & l1 & -> & Ha & Hses).
    apply fuse_session_inv in Hses as (b & s2 & l2 & -> & Hb & Hses).
    apply fuse_session_inv in Hses as (c & s3 & l3 & -> & Hc & _).
    destruct Ha as [Hsame1 Ha]. unfold a_getattr in Ha. cbn [fuse_world] in Ha, Hsame1.
    change (bool_decide (str "/a" = [slash])) with false in Ha. cbv iota in Ha.
    assert (Hf : a_file (abs demo) (str "/a") = Some 11) by by vm_compute.
    rewrite Hf in Ha. destruct Ha as (st & -> & _ & Hsz & _).
    destruct Hb as [Hsame2 ->]. rewrite (as_open _ _ Hsame1).
    assert (Hsame : a_same (abs demo) (abs (fuse_world s2))) by by etrans.
    destruct Hc as (r & Hst & ->). cbn [a_step] in Hst. rewrite (as_open _ _ Hsame) in Hst.
    cbn [abs a_open] in Hst. rewrite demo_opens in Hst. destruct Hst as (_ & Hr1 & Hr2).
    rewrite (as_data _ _ Hsame) in Hr1, Hr2. exists (MkAnswer 0 None [] (Some st)), st.
    eexists _, l3. split; [|split; [reflexivity|split; [exact Hsz|]]].
    + cbn [abs a_open]. by rewrite demo_opens.
    + cbn [answer_of an_res an_data]. unfold answered. rewrite Hr1. by split.
Defined.

(** "a" is renamed onto "b" *)
Lemma rename_onto_file_reports_success_witness :
  wp (let! a := run_request (RGetattr (str "/b")) in
      let! b := run_request (RRename (str "/a") (str "/b") 0) in ret (a, b))
     (fun p s' => p.2 = status 0 /\ fuse_world s' = set_w_errno 0 demo) (MkFuse demo ∅).
Proof.
  eapply wp_mono; [apply (rename_onto_file_reports_success (MkFuse demo ∅) (str "/a") (str "/b") 12 demo_sys);
    [done|done|by vm_compute]|].
  intros p s' (_ & Hp & _ & Hw). by split.
Defined.
