(* ===== verification/ListingTheorems.v ===== *)
(** * Theorems on listing directories

    That opening a directory through FUSE and reading it delivers each of its
    entries once, and ends. *)

From S2P Require Import Prelude Meta Device World SuperBlock Resources Paths FileBlock Inode.
From S2P Require Import Directory FileHandle File OpenFile FileHandleOps DirHandle FileSystem Fuse.
From S2P Require Import Io Frames Invariant MetaSteps Views Content FileGrow FileIO FileShrink Truncate.
From S2P Require Import DirSteps Names DirOps FileNames DirRename Listing Scenario NameTheorems.

(** the world when a stream on directory [d] was made *)
Definition with_stream (fd : Z) (rest : list Z) (d : Z) (o : directory) (w : world) : world :=
  set_w_dirs (<[d := set_do_nlink (i32 (do_nlink o + 1)) o]> (w_dirs w))
    (set_w_streams (<[w_next w := MkDirStream false fd 0 d []]> (w_streams w))
    (set_w_dh (set_dh_open_dirs (<[u64 fd := d]> (dh_open_dirs (w_dh w))) (w_dh w))
    (set_w_next (w_next w + 1) (set_w_fdh (set_fd_pool rest (w_fdh w)) w)))).

Section Listing.
Context `{Env}.

Lemma OpenDirectory_wp (w : world) (path : bytes) (d fd : Z) (o : directory) (rest : list Z) :
  lookup_dir w path = Some d -> w_dirs w !! d = Some o -> fd_pool (w_fdh w) = fd :: rest -> 0 <= fd ->
  wp (OpenDirectory path) (fun r w' => r = Some (w_next w) /\ exists e,
    w' = with_stream fd rest d o (set_w_errno e w)) w.
Proof.
  intros Hd Ho Hp Hfd. unfold lookup_dir in Hd. apply bind_Some in Hd as (p & Hk & Hd).
  unfold OpenDirectory. wp_step. eapply looks_up_wp; [apply dir_TransformPath_run|]. intros e. rewrite Hk.
  wp_step. eapply looks_up_wp; [apply GetCreatedDirectory_run|]. intros e1.
  assert (Hl : lookup_dir (set_w_errno e w) p = Some d).
  { unfold lookup_dir. rewrite (dir_key_idemp _ _ Hk). exact Hd. }
  rewrite Hl. unfold Fd.get_fd. repeat wp_step. change (fd_pool (w_fdh _)) with (fd_pool (w_fdh w)).
  rewrite Hp. repeat wp_step. destruct (Z.ltb_spec fd 0); [lia|]. unfold fresh. repeat wp_step.
  unfold Directory_IncLinkCount, upd_dir. wp_step. eapply (wp_get_dir d o); [done|].
  apply wp_put_dir. repeat wp_step. split; [done|]. by exists e1.
Qed.
(** opening and reading as the kernel drives the handlers *)
Definition list_directory (fuel : nat) (path : bytes) : Fu (Z * list bytes) :=
  let! r := bfs_opendir path true in
  match r.2 with
  | None => ret (r.1, [])
  | Some fh => bfs_readdir fuel path fh
  end.

Definition dots (path : bytes) : list bytes :=
  if decide (path = [slash]) then [str "."; str ".."] else [].

Lemma list_directory_run (st : fuse_state) (path : bytes) (d fd : Z) (o : directory) (m : DirMeta)
    (rest : list Z) (fuel : nat) :
  let w := fuse_world st in
  lookup_dir w path = Some d -> w_dirs w !! d = Some o -> w_dirmeta w !! do_meta o = Some m ->
  fd_pool (w_fdh w) = fd :: rest -> 0 <= fd -> scannable w o ->
  Z.of_nat (length (entries w o)) < 2 ^ 32 -> (length (entries w o) < fuel)%nat ->
  exists st', list_directory fuel path st = Done (0, dots path ++ (entry_name <$> entries w o)) st'.
Proof.
  intros w Hd Ho Hm Hp Hfd Hsc Hmax Hfuel.
  pose proof (OpenDirectory_wp w path d fd o rest Hd Ho Hp Hfd) as Hop.
  apply wp_intro in Hop as (r & w1 & Hrun & -> & e & Hw1).
  set (o1 := set_do_nlink (i32 (do_nlink o + 1)) o).
  set (s := w_next w) in *. set (x := MkDirStream false fd 0 d []).
  assert (Hdirs : do_meta <$> w_dirs w1 = do_meta <$> w_dirs w).
  { rewrite Hw1. cbn. by apply (fmap_insert_id _ _ _ o). }
  destruct (entries_ext w w1 o o1 Hdirs) as [Hsc1 Hen1]; try done; try by rewrite Hw1.
  assert (Hx1 : w_streams w1 !! s = Some x) by (rewrite Hw1; cbn; apply lookup_insert_eq).
  destruct (ReadDirectory_first w1 s d x o1 m Hx1 eq_refl eq_refl) as [dm Hfirst]; try done.
  { rewrite Hw1. cbn. apply lookup_insert_eq. }
  { by rewrite Hw1. }
  set (st1 := MkFuse w1 ({[s]} ∪ fuse_open_dirs st)).
  set (st2 := MkFuse (with_scanned s x (entries w1 o1) dm w1) ({[s]} ∪ fuse_open_dirs st)).
  assert (Hloop : readdir_loop fuel s st1 = readdir_loop fuel s st2).
  { destruct fuel as [|n]; [lia|]. cbn [readdir_loop].
    assert (Hfs : fs (ReadDirectory s) st1 = fs (ReadDirectory s) st2).
    { unfold fs. cbn [fuse_world st1 st2]. by rewrite Hfirst. }
    unfold bind. by rewrite Hfs. }
  destruct (readdir_loop_run fuel s st2 (set_ds_inited true (set_ds_items (entries w1 o1) x)))
    as [st' Hst']; cbn [ds_items set_ds_inited set_ds_items ds_index ds_inited x Z.to_nat drop].
  { cbn. apply lookup_insert_eq. }
  { done. } { done. } { by rewrite Hen1. } { cbn. by rewrite Hen1. }
  exists st'. unfold list_directory.
  assert (Hopen : bfs_opendir path true st = Done (0, Some s) st1).
  { unfold bfs_opendir. erewrite bind_run by (unfold fs; fold w; by rewrite Hrun). done. }
  erewrite bind_run by exact Hopen. cbn [snd]. unfold bfs_readdir. fold (dots path).
  erewrite bind_run; [|unfold Fuse_GetOpenDirectory, bind, gets; cbn; by rewrite decide_True by set_solver].
  cbv beta iota. erewrite bind_run by (rewrite Hloop; exact Hst'). cbn. by rewrite Hen1.
Qed.

(** ** The entries of a consistent directory *)

Section Entries.
Context (w : world) (d : Z) (o : directory) (p : bytes).
Context (Hi : fs_inv w) (Hd : dir_tree w) (Ht : file_tree w).
Context (Hp : dh_created_dirs (w_dh w) !! p = Some d) (Ho : w_dirs w !! d = Some o).
Context (Hfit : forall q c, dh_created_dirs (w_dh w) !! q = Some c ->
  (length (dir_entry_name q) <= kDirentName)%nat).

Definition dir_names : list bytes :=
  (fun x => entry_name (default no_entry (child_entry w x.2))) <$> map_order (do_children o).
Definition file_names : list bytes :=
  (fun x => entry_name (default no_entry (file_entry w x.2))) <$> map_order (do_items o).

Lemma entries_names : entry_name <$> entries w o = dir_names ++ file_names.
Proof. unfold entries. by rewrite fmap_app, <- !list_fmap_compose. Qed.

Lemma child_facts (i c : Z) : do_children o !! i = Some c -> exists q oc m,
  dh_created_dirs (w_dh w) !! q = Some c /\ q <> [slash] /\
  dh_created_dirs (w_dh w) !! GetDirName q = Some d /\ w_dirs w !! c = Some oc /\
  w_dirmeta w !! do_meta oc = Some m /\ do_meta oc = i /\ meta_dir_name m = q.
Proof.
  intros Hc. destruct (dt_children _ Hd d o i c (ex_intro _ p Hp) Ho Hc) as (q & oc & Hq & Hs & Hpar & Hoc & Hm).
  destruct (dt_created _ Hd _ _ Hq) as (oc' & m & Hoc' & Hmm & _ & Hnm & _).
  rewrite Hoc in Hoc'. injection Hoc' as <-. by exists q, oc, m.
Qed.

Lemma item_facts (i f : Z) : do_items o !! i = Some f -> exists fo m,
  w_files w !! f = Some fo /\ w_filemeta w !! fo_meta fo = Some m /\ fo_meta fo = i /\
  fh_created_files (w_fh w) !! (do_meta o, meta_file_name m) = Some f.
Proof.
  intros Hf. destruct (ft_items _ Ht d o i f (ex_intro _ p Hp) Ho Hf) as (fo & nm & Hk & Hfo & Hm).
  destruct (ft_created _ Ht _ _ _ Hk) as (fo' & m & _ & _ & Hfo' & Hmm & _ & Hnm & _).
  rewrite Hfo in Hfo'. injection Hfo' as <-. exists fo, m. by rewrite Hnm.
Qed.

Lemma entries_scannable : scannable w o.
Proof using All.
  constructor.
  - intros i c Hc. destruct (child_facts i c Hc) as (q & oc & m & Hq & _ & _ & Hoc & Hm & _ & Hnm).
    exists oc, m. split_and!; [done|done|]. rewrite Hnm. by apply (Hfit q c).
  - intros i f Hf. destruct (item_facts i f Hf) as (fo & m & Hfo & Hm & _). exists fo, m.
    split_and!; [done|done|]. apply (proj2 (fi_wf _ Hi) _ _ Hm).
Qed.

Lemma dir_names_spec (n : bytes) :
  n ∈ dir_names <-> exists q c, dh_created_dirs (w_dh w) !! q = Some c /\ q <> [slash] /\
    dh_created_dirs (w_dh w) !! GetDirName q = Some d /\ n = child_name q.
Proof using All.
  unfold dir_names. rewrite list_elem_of_fmap. split.
  - intros ([i c] & -> & Hc%map_order_elem). cbn [fst snd] in *.
    destruct (child_facts i c Hc) as (q & oc & m & Hq & Hs & Hpar & Hoc & Hm & _ & Hnm).
    exists q, c. split_and!; try done. unfold child_entry. rewrite Hoc. cbn [mbind option_bind]. rewrite Hm.
    cbn. unfold entry_name. cbn [de_name]. by rewrite cstr_strcpy0, Hnm.
  - intros (q & c & Hq & Hs & Hpar & ->).
    destruct (dt_created _ Hd _ _ Hq) as (oc & m & Hoc & Hm & _ & Hnm & _).
    destruct (dt_parent _ Hd q c oc Hq Hoc Hs) as (r & or & Hr & Hor & Hch).
    rewrite Hpar in Hr. injection Hr as <-. rewrite Ho in Hor. injection Hor as <-.
    exists (do_meta oc, c). split; [|by apply map_order_elem]. cbn [snd].
    unfold child_entry. rewrite Hoc. cbn [mbind option_bind]. rewrite Hm.
    cbn. unfold entry_name. cbn [de_name]. by rewrite cstr_strcpy0, Hnm.
Qed.

Lemma file_entry_name (f : Z) (fo : file) (m : FileMeta) :
  w_files w !! f = Some fo -> w_filemeta w !! fo_meta fo = Some m ->
  entry_name (default no_entry (file_entry w f)) = meta_file_name m.
Proof.
  intros Hfo Hm. unfold file_entry. rewrite Hfo. cbn [mbind option_bind]. rewrite Hm. cbn.
  unfold entry_name. cbn [de_name]. rewrite cstr_strcpy0. apply cstr_idemp.
Qed.

Lemma file_names_spec (n : bytes) :
  n ∈ file_names <-> exists f, fh_created_files (w_fh w) !! (do_meta o, n) = Some f.
Proof using All.
  unfold file_names. rewrite list_elem_of_fmap. split.
  - intros ([i f] & -> & Hf%map_order_elem). cbn [fst snd] in *.
    destruct (item_facts i f Hf) as (fo & m & Hfo & Hm & _ & Hk). exists f.
    by rewrite (file_entry_name f fo m).
  - intros [f Hk]. destruct (ft_created _ Ht _ _ _ Hk) as
      (fo & m & d' & od' & Hfo & Hm & _ & Hnm & _ & _ & Hd' & Hod' & Hit).
    destruct (dt_created _ Hd _ _ Hp) as (o' & _ & Ho' & _ & _ & _ & _ & _ & Hdh).
    rewrite Ho in Ho'. injection Ho' as <-. rewrite Hd' in Hdh. injection Hdh as ->.
    rewrite Ho in Hod'. injection Hod' as <-.
    exists (fo_meta fo, f). split; [|by apply map_order_elem]. cbn [snd].
    by rewrite (file_entry_name f fo m).
Qed.

Lemma file_names_NoDup : NoDup file_names.
Proof using All.
  unfold file_names. apply NoDup_fmap_2_strong.
  - intros [i f] [j g] Hf%map_order_elem Hg%map_order_elem He. cbn [fst snd] in *.
    destruct (item_facts i f Hf) as (fo & m & Hfo & Hm & <- & Hk).
    destruct (item_facts j g Hg) as (fo' & m' & Hfo' & Hm' & <- & Hk').
    rewrite (file_entry_name f fo m), (file_entry_name g fo' m') in He by done.
    rewrite He, Hk' in Hk. injection Hk as <-. rewrite Hfo in Hfo'. by injection Hfo' as <-.
  - rewrite map_order_perm. apply NoDup_map_to_list.
Qed.

Lemma dir_names_length : length dir_names = size (do_children o).
Proof. unfold dir_names. by rewrite length_fmap, map_order_perm, length_map_to_list. Qed.

Lemma file_names_length : length file_names = size (do_items o).
Proof. unfold file_names. by rewrite length_fmap, map_order_perm, length_map_to_list. Qed.

Lemma key_range_size (a : gmap Z Z) :
  (forall i, is_Some (a !! i) -> 0 <= i < sb_max_file_num (w_super w)) -> Z.of_nat (size a) < 2 ^ 31.
Proof using Hi.
  intros Hr. pose proof (lo_max_file _ (fi_layout _ Hi)) as Hm.
  assert (Hsub : dom a ⊆ (list_to_set (seqZ 0 (sb_max_file_num (w_super w))) : gset Z)).
  { intros i Hin%elem_of_dom. apply elem_of_list_to_set, elem_of_seqZ. specialize (Hr i Hin). lia. }
  apply subseteq_size in Hsub. rewrite size_dom, size_list_to_set in Hsub by apply NoDup_seqZ.
  rewrite length_seqZ in Hsub. lia.
Qed.

Lemma entries_length :
  length (entries w o) = (size (do_children o) + size (do_items o))%nat /\
  Z.of_nat (length (entries w o)) < 2 ^ 32.
Proof using All.
  assert (Hl : length (entries w o) = (size (do_children o) + size (do_items o))%nat).
  { rewrite <- (length_fmap entry_name), entries_names, length_app, dir_names_length.
    by rewrite file_names_length. }
  split; [done|]. rewrite Hl.
  assert (Z.of_nat (size (do_children o)) < 2 ^ 31).
  { apply key_range_size. intros i [c Hc]. destruct (child_facts i c Hc) as (_ & oc & m & _ & _ & _ & _ & Hm & <- & _).
    apply (dmo_dom _ (dt_meta _ Hd)). by eexists. }
  assert (Z.of_nat (size (do_items o)) < 2 ^ 31).
  { apply key_range_size. intros i. by apply (dt_items _ Hd d o). }
  lia.
Qed.
End Entries.

(** C17: listing a directory of a consistent file system through FUSE ([opendir], then
    [readdir]) ends after one round per entry and one more, and delivers the name
    of every sub-directory and of every file of the directory, each once, and
    nothing else (the two dots at the mount point apart); the names of directories
    must fit the entry, since [ScanDir] copies them without a bound. *)
Theorem readdir_lists_all (st : fuse_state) (path : bytes) (d fd : Z) (o : directory) (rest : list Z)
    (fuel : nat) :
  let w := fuse_world st in
  fs_inv w -> dir_tree w -> file_tree w -> lookup_dir w path = Some d -> w_dirs w !! d = Some o ->
  fd_pool (w_fdh w) = fd :: rest -> 0 <= fd ->
  (forall q c, dh_created_dirs (w_dh w) !! q = Some c -> (length (dir_entry_name q) <= kDirentName)%nat) ->
  (size (do_children o) + size (do_items o) < fuel)%nat ->
  exists dirs files st', list_directory fuel path st = Done (0, dots path ++ dirs ++ files) st' /\
    length dirs = size (do_children o) /\
    (forall n, n ∈ dirs <-> exists q c, dh_created_dirs (w_dh w) !! q = Some c /\ q <> [slash] /\
       dh_created_dirs (w_dh w) !! GetDirName q = Some d /\ n = child_name q) /\
    NoDup files /\
    (forall n, n ∈ files <-> exists f, fh_created_files (w_fh w) !! (do_meta o, n) = Some f).
Proof.
  intros w Hi Hd Ht Hl Ho Hp Hfd Hfit Hfuel.
  destruct (lookup_dir_some _ _ _ Hd Hl) as (p & o' & m & _ & Hpd & Ho' & Hm & _).
  rewrite Ho in Ho'. injection Ho' as <-.
  destruct (entries_length w d o p Hi Hd Ht Hpd Ho Hfit) as [Hlen Hmax].
  destruct (list_directory_run st path d fd o m rest fuel Hl Ho Hm Hp Hfd) as [st' Hst']; try done.
  { by apply (entries_scannable w d o p). }
  { change (length (entries w o) < fuel)%nat. by rewrite Hlen. }
  exists (dir_names w o), (file_names w o), st'. rewrite <- entries_names. split_and!; [done| | | |].
  - apply dir_names_length.
  - intros n. by apply (dir_names_spec w d o p).
  - by apply (file_names_NoDup w d o p).
  - intros n. by apply (file_names_spec w d o p).
Qed.

End Listing.

(** ** Witness *)

Lemma readdir_lists_all_witness :
  exists dirs files st', list_directory 4 (str "/") (MkFuse demo ∅)
      = Done (0, [str "."; str ".."] ++ dirs ++ files) st' /\
    str "d" ∈ dirs /\ str "a" ∈ files /\ str "c" ∉ files.
Proof.
  destruct (readdir_lists_all (MkFuse demo ∅) (str "/") 10 2
    (MkDirectory 0 (list_to_map [(0, 11); (1, 12)]) {[ 1 := 13 ]} 0) [3; 4; 5; 6; 7] 4
    demo_inv demo_tree demo_file_tree eq_refl eq_refl eq_refl ltac:(done)) as
    (dirs & files & st' & Hrun & _ & Hd & _ & Hf).
  - intros q c Hq. apply demo_created in Hq as [[-> _]|[-> _]]; apply (bool_decide_eq_true_1 _); reflexivity.
  - apply (bool_decide_eq_true_1 _); reflexivity.
  - exists dirs, files, st'. split; [exact Hrun|]. split; [|split].
    + apply Hd. exists (str "/d/"), 13. by split_and!.
    + apply Hf. by exists 11.
    + rewrite Hf. intros [f Hk]. apply demo_key in Hk as [[? _]|[? _]]; discriminate.
Defined.
