(* ===== verification/LockTheorems.v ===== *)
(** * Theorems on file locks

    [FcntlFile] as a lock per file: what each request replies, and that locks
    exclude each other whatever requests clients send in whatever order. *)

From S2P Require Import Prelude Meta Device World SuperBlock Resources Paths FileBlock Inode.
From S2P Require Import Directory FileHandle File OpenFile FileHandleOps FileSystem.
From S2P Require Import Io Invariant MetaSteps FileShrink DataTheorems Scenario.

(** ** One request *)

Definition is_lock (lock_type : Z) : bool := (lock_type =? F_RDLCK) || (lock_type =? F_WRLCK).

(** the reply of a request on a lock that is [held], and the lock after it *)
Definition lock_step (held : bool) (lock_type : Z) : Z * bool :=
  if lock_type =? F_UNLCK then (if held then 0 else -1, false)
  else if is_lock lock_type then (if held then -1 else 0, true)
  else (-1, held).

Definition lock_errno (held : bool) (lock_type errno : Z) : Z :=
  if lock_type =? F_UNLCK then (if held then errno else ENOLCK)
  else if is_lock lock_type then (if held then EACCES else errno) else errno.

(** requests on descriptors of one file, one after the other: the replies *)
Fixpoint run_locks (reqs : list (Z * Z)) : Fs (list Z) :=
  match reqs with
  | [] => ret []
  | (fd, t) :: reqs => let! r := FcntlFile fd t in let! rs := run_locks reqs in ret (r :: rs)
  end.

(** the locks that the replies grant, less the unlockings *)
Fixpoint granted (reqs : list (Z * Z)) (rs : list Z) : Z :=
  match reqs, rs with
  | (_, t) :: reqs, r :: rs =>
    (if r =? 0 then if t =? F_UNLCK then -1 else if is_lock t then 1 else 0 else 0) + granted reqs rs
  | _, _ => 0
  end.

Section Locks.
Context `{Env}.

Lemma FcntlFile_wp (w : world) (fd o f t : Z) (y : file) :
  fd_leads w fd o f -> w_files w !! f = Some y ->
  wp (FcntlFile fd t) (fun r w' => r = (lock_step (fo_locked y) t).1 /\
    w_files w' = <[f := set_fo_locked (lock_step (fo_locked y) t).2 y]> (w_files w) /\
    w' = set_w_errno (lock_errno (fo_locked y) t (w_errno w)) (set_w_files (w_files w') w)) w.
Proof.
  intros (Ho & _ & x & Hx & Hxf) Hy.
  assert (Hsame : forall b, b = fo_locked y -> <[f := set_fo_locked b y]> (w_files w) = w_files w).
  { intros b ->. apply insert_id. rewrite Hy. by destruct y. }
  assert (Hw : forall e, set_w_errno e w = set_w_errno e (set_w_files (w_files w) w)) by by destruct w.
  assert (Hw' : w = set_w_errno (w_errno w) (set_w_files (w_files w) w)) by by destruct w.
  unfold FcntlFile. wp_step. eapply wp_run; [by apply GetOpenFile_run|]. cbv beta iota. wp_step.
  apply (wp_get_open o x); [done|]. rewrite Hxf. wp_step. apply (wp_get_file f y); [done|]. cbv beta.
  unfold lock_step, lock_errno, is_lock, set_errno.
  destruct (t =? F_UNLCK).
  - destruct (fo_locked y) eqn:Hl; cbn [negb]; repeat wp_step.
    + apply (wp_upd_file f _ y); [done|]. repeat wp_step. by split_and!; destruct w.
    + cbn [fst snd]. rewrite (Hsame false eq_refl). by split_and!.
  - destruct ((t =? F_RDLCK) || (t =? F_WRLCK)); [|wp_step; cbn [fst snd]; by rewrite (Hsame _ eq_refl)].
    destruct (fo_locked y) eqn:Hl; repeat wp_step.
    + cbn [fst snd]. rewrite (Hsame true eq_refl). by split_and!.
    + apply (wp_upd_file f _ y); [done|]. repeat wp_step. by split_and!; destruct w.
Qed.

(** C24: whatever requests clients send to the lock of a file through its descriptors,
    in any order, the locks granted exceed the unlockings by one exactly when the
    lock is held at the end (and it was free at the start): two locks, also two
    read locks, never hold at the same time.  No request changes anything but
    the lock and errno. *)
Theorem locks_exclude (reqs : list (Z * Z)) (w : world) (f : Z) (y : file) :
  w_files w !! f = Some y -> Forall (fun q => exists o, fd_leads w q.1 o f) reqs ->
  wp (run_locks reqs) (fun rs w' => exists held,
    Z.b2z (fo_locked y) + granted reqs rs = Z.b2z held /\
    w_files w' = <[f := set_fo_locked held y]> (w_files w) /\
    exists e, w' = set_w_errno e (set_w_files (w_files w') w)) w.
Proof.
  revert w y. induction reqs as [|[fd t] reqs IH]; intros w y Hy Hq; cbn [run_locks].
  { wp_step. exists (fo_locked y). split_and!; [cbn; lia| |].
    - symmetry. apply insert_id. rewrite Hy. by destruct y.
    - exists (w_errno w). by destruct w. }
  apply Forall_cons in Hq as [[o Ho] Hq]. cbn [fst] in Ho. wp_step.
  eapply wp_mono; [by apply (FcntlFile_wp w fd o f t y)|].
  intros r w1 (Hr & Hf1 & Hw1). wp_step.
  set (y1 := set_fo_locked (lock_step (fo_locked y) t).2 y) in *.
  assert (Hy1 : w_files w1 !! f = Some y1) by (rewrite Hf1; apply lookup_insert_eq).
  eapply wp_mono; [apply (IH w1 y1 Hy1)|].
  { eapply Forall_impl; [exact Hq|]. intros [fd' t'] [o' (H1 & _ & H3)]. exists o'. cbn [fst] in *.
    rewrite Hw1. split; [done|]. split; [|done]. cbn. rewrite Hf1, lookup_insert_eq. by eexists. }
  intros rs w2 (held & Hg & Hf2 & e & Hw2). wp_step. exists held. split_and!.
  - cbn [granted]. rewrite <- Hg, Hr. subst y1. unfold lock_step, is_lock. cbn [fo_locked set_fo_locked].
    destruct (t =? F_UNLCK); [destruct (fo_locked y); cbn; lia|].
    destruct ((t =? F_RDLCK) || (t =? F_WRLCK)); destruct (fo_locked y); cbn; lia.
  - rewrite Hf2, Hf1, insert_insert_eq. done.
  - exists e. rewrite Hw2 at 1. rewrite Hw1. done.
Qed.

End Locks.

(** ** Witness *)

(** two read locks on the same file: the second is refused *)
Lemma locks_exclude_witness :
  wp (run_locks [(0, F_RDLCK); (0, F_RDLCK)]) (fun rs w' => granted [(0, F_RDLCK); (0, F_RDLCK)] rs <= 1) demo.
Proof.
  eapply wp_mono; [apply (locks_exclude _ demo 11 (MkFile 0 {[ 0 := 0 ]} 1 false false) eq_refl)|].
  - repeat constructor; exists 21; exact demo_leads.
  - intros rs w' (held & Hg & _). destruct held; cbn in Hg |- *; lia.
Defined.
