(* ===== verification/OpenTheorems.v ===== *)
(** * Theorems on the search for the device of a file system

    Which device [FileSystem::OpenTarget] ends with, and which descriptors the
    process has afterwards. *)

From S2P Require Import Prelude Meta Device DeviceOpen.

Section OpenTheorems.
Context `{Kernel}.

Lemma fds_grow_none (P : bytes -> Prop) (t t' : gmap Z bytes) :
  (forall x, ~ P x) -> fds_grow P t t' -> t' = t.
Proof.
  intros HP [Hs Hn]. apply map_eq. intros i. apply option_eq. intros x. split.
  - intros [Hx|Hx]%Hn; [done|by destruct (HP x)].
  - intros Hx. by eapply lookup_weaken.
Qed.

(** C18: let descriptor 0 be open, so that no device becomes descriptor 0, which
    [Device::Close] does not close.  OpenTarget keeps the descriptors that were open.  If it returns true, the
    device is open, both descriptors its own, with the size and the sector size that
    the kernel reports, its super block carries the wanted uuid, and no device that
    stood before it in /sys/block was one to find: a block device whose opening and
    requests succeed, with that uuid, and whose reads are at most interrupted or
    shortened.  If it returns false, no device was.  Any other descriptor it leaves
    open is of a device whose second open or whose requests failed; without such a
    device it leaves exactly the two of the device found, or none. *)
Theorem OpenTarget_correct (uuid : bytes) (s : blk) :
  is_Some (blk_fds s !! 0) ->
  let entries := k_block_devices.1 in
  let t := blk_fds s in
  let '(ok, s') := OpenTarget uuid s in
  if ok then
    exists l1 entry l2 t1, entries = l1 ++ entry :: l2 /\
      opened (dev_path entry) t1 s' /\ fds_grow (leaks l1) t t1 /\
      meta_uuid (super_bytes (dev_path entry)) = uuid /\
      Forall (fun x => ~ target uuid (dev_path x)) l1 /\
      (Forall (fun x => ~ may_leak (dev_path x)) entries -> t1 = t)
  else fds_grow (leaks entries) t (blk_fds s') /\
    Forall (fun x => ~ target uuid (dev_path x)) entries /\
    (Forall (fun x => ~ may_leak (dev_path x)) entries -> blk_fds s' = t).
Proof.
  intros H0. cbv zeta. unfold OpenTarget. destruct k_block_devices as [entries b]. cbn [fst].
  pose proof (open_target_loop_spec uuid entries s H0) as Hp.
  assert (forall l t', Forall (fun x => ~ may_leak (dev_path x)) l ->
    fds_grow (leaks l) (blk_fds s) t' -> t' = blk_fds s) as Hnone.
  { intros l t' Hl. apply fds_grow_none. intros x (e & He & -> & Hm).
    rewrite Forall_forall in Hl. by destruct (Hl e He). }
  destruct (open_target_loop _ _ _) as [[] s']; cbn [search_post] in Hp.
  - destruct Hp as (l1 & e & l2 & t1 & -> & Ho & Hg & Hu & Hf). exists l1, e, l2, t1.
    split_and!; try done. intros [Hl _]%Forall_app. by eapply Hnone.
  - destruct Hp as [Hg Hf]. split_and!; [done|done|]. intros Hl. by eapply Hnone.
Qed.

(** A device that opens and then refuses the request for its sector size *)
Record no_sector (name : bytes) : Prop := {
  ns_name : name_refused name = false;
  ns_blk : k_is_blk name = inr true;
  ns_open : forall direct t, k_open_error name direct t = None;
  ns_sector : exists e, k_sector name = inl e
}.

Lemma Device_Open_no_sector (name : bytes) (s : blk) :
  no_sector name ->
  let '(ok, s') := Device_Open name s in
  ok = false /\ (size (blk_fds s') = size (blk_fds s) + 2)%nat.
Proof.
  intros [Hn Hb Ho [e He]]. unfold Device_Open, IsBlkDev. rewrite Hn. cbn [dev_name]. rewrite Hb.
  cbn [negb].
  match goal with |- context [sys_open name true ?x] => pose proof (sys_open_spec name true x) as H1;
    destruct (sys_open name true x) as [fd s1] end.
  destruct H1 as [(_ & ? & H1 & _)|(Hfd & Hf & _ & ->)]; [by rewrite Ho in H1|].
  destruct (Z.ltb_spec fd 0) as [|_]; [lia|]. cbn -[sys_open BlkDevGetSize BlkDevGetSectorSize] in *.
  match goal with |- context [sys_open name false ?x] => pose proof (sys_open_spec name false x) as H2;
    destruct (sys_open name false x) as [fd2 s2] end.
  destruct H2 as [(_ & ? & H2 & _)|(Hfd2 & Hf2 & _ & ->)]; [by rewrite Ho in H2|].
  destruct (Z.ltb_spec fd2 0) as [|_]; [lia|]. cbn -[BlkDevGetSize BlkDevGetSectorSize] in *.
  assert (size (<[fd2 := name]> (<[fd := name]> (blk_fds s))) = size (blk_fds s) + 2)%nat as Hs.
  { rewrite !map_size_insert_None by done. lia. }
  unfold BlkDevGetSize. cbn [dev_name set_blk_dev set_blk_fds]. destruct (k_size name); cbn -[BlkDevGetSectorSize u64]; [split; [done|exact Hs]|].
  unfold BlkDevGetSectorSize. cbn [dev_name set_blk_dev set_blk_fds]. rewrite He. done.
Qed.

(** The search leaks: Open fails when a device refuses the request for its sector
    size, but leaves both descriptors open, and the next Open overwrites them.  A
    search among such devices ends false with two more open descriptors for each. *)
Theorem OpenTarget_leaks (uuid : bytes) (s : blk) :
  Forall (fun x => no_sector (dev_path x)) k_block_devices.1 ->
  let '(ok, s') := OpenTarget uuid s in
  ok = false /\
  (size (blk_fds s') = size (blk_fds s) + 2 * length k_block_devices.1)%nat.
Proof.
  unfold OpenTarget. destruct k_block_devices as [l b]. cbn [fst]. intros Hl.
  revert s. induction Hl as [|e l He Hl IH]; intros s; cbn [open_target_loop length]; [split; [done|lia]|].
  pose proof (Device_Open_no_sector _ s He) as H1. unfold dev_path in H1.
  destruct (Device_Open _ s) as [ok s1]. destruct H1 as [-> H1]. cbn [negb].
  specialize (IH s1). destruct (open_target_loop _ _ _) as [ok s']. destruct IH as [-> IH].
  split; [done|lia].
Qed.
End OpenTheorems.

(** ** Concrete systems *)

Definition demo_super (uuid : bytes) : store := st_write ∅ 0 (replicate 4 0 ++ uuid ++ [0]).

(** [/dev/sdb] refuses the request for its size, [/dev/sdc] has another uuid, [/dev/sdd]
    is the one to find *)
Definition demo_kernel : Kernel := {|
  k_is_blk _ := inr true;
  k_open_error _ _ _ := None;
  k_size name := if bool_decide (name = str "/dev/sdb") then inl 25 else inr (2 ^ 30);
  k_sector _ := inr 512;
  k_store name := demo_super (if bool_decide (name = str "/dev/sdd") then str "mine" else str "other");
  k_events _ := [SysShort 100; SysFail EINTR];
  k_block_devices := ([str "sda"; str "sdb"; str "sdc"; str "sdd"], false)
|}.

(** all devices refuse the request for their sector size *)
Definition refusing_kernel : Kernel := {|
  k_is_blk _ := inr true;
  k_open_error _ _ _ := None;
  k_size _ := inr (2 ^ 30);
  k_sector _ := inl 25;
  k_store _ := ∅;
  k_events _ := [];
  k_block_devices := ([str "sdb"; str "sdc"], false)
|}.

Definition demo_process : blk :=
  Device_init (list_to_map [(0, str "in"); (1, str "out"); (2, str "err")]) ∅ 0.

(** Descriptors 3 and 4 are those that the refused request left open. *)
Lemma OpenTarget_correct_witness :
  is_Some (blk_fds demo_process !! 0) /\
  (let '(ok, s') := @OpenTarget demo_kernel (str "mine") demo_process in
   ok = true /\ dev_name s' = str "/dev/sdd" /\ dev_size (blk_dev s') = 2 ^ 30 /\
   dev_fd_direct (blk_dev s') = 5 /\ dev_fd_cache (blk_dev s') = 6 /\
   size (blk_fds s') = 7%nat /\
   (fun fd => blk_fds s' !! fd) <$> [3; 4; 5; 6] =
     Some <$> [str "/dev/sdb"; str "/dev/sdb"; str "/dev/sdd"; str "/dev/sdd"]) /\
  exists l1 entry l2 t1, (k_block_devices (Kernel := demo_kernel)).1 = l1 ++ entry :: l2 /\
    opened (H := demo_kernel) (dev_path entry) t1
      (@OpenTarget demo_kernel (str "mine") demo_process).2.
Proof.
  assert (is_Some (blk_fds demo_process !! 0)) as H0 by (eexists; vm_compute; reflexivity).
  split; [exact H0|split].
  - vm_compute. repeat (split; [reflexivity|]). reflexivity.
  - pose proof (OpenTarget_correct (H := demo_kernel) (str "mine") demo_process H0) as H.
    cbv zeta in H.
    assert ((@OpenTarget demo_kernel (str "mine") demo_process).1 = true) as Ht
      by (vm_compute; reflexivity).
    destruct (@OpenTarget demo_kernel (str "mine") demo_process) as [ok s']. cbn [fst] in Ht.
    subst ok. destruct H as (l1 & e & l2 & t1 & ? & ? & _). by exists l1, e, l2, t1.
Defined.

Lemma OpenTarget_leaks_witness :
  (@OpenTarget refusing_kernel (str "mine") demo_process).1 = false /\
  size (blk_fds (@OpenTarget refusing_kernel (str "mine") demo_process).2) = 7%nat.
Proof.
  assert (Forall (fun x => no_sector (H := refusing_kernel) (dev_path x))
            (k_block_devices (Kernel := refusing_kernel)).1) as Hl.
  { repeat constructor; by eexists. }
  pose proof (OpenTarget_leaks (H := refusing_kernel) (str "mine") demo_process Hl) as H.
  destruct (@OpenTarget refusing_kernel (str "mine") demo_process) as [ok s'].
  cbn [fst snd]. destruct H as [-> ->]. split; reflexivity.
Defined.
