(* ===== verification/RecoverTheorems.v ===== *)
(** * Theorems on mounting again

    A file system whose records are on the device is found again by the next
    process: the same directories, names and contents. *)

From S2P Require Import Prelude Meta Device World SuperBlock Resources Paths FileBlock Inode.
From S2P Require Import Directory FileHandle FileHandleOps DirHandle FileSystem Io Invariant MetaSteps.
From S2P Require Import Views DirSteps Names FileNames OpenFiles Session Load RecoverDirs.
From S2P Require Import RecoverFiles RecoverBlocks Recover RecoverInv AtRest Scenario.

Section Remount.
Context `{Env}.

Lemma record_area_default {A} (record dflt : Z -> A) (n i : Z) :
  0 <= i < n -> default (dflt i) (record_area record n !! i) = record i.
Proof. intros Hi. by rewrite record_area_some. Qed.

(** what a mount finds is at rest *)
Lemma recovered_at_rest (sb : SuperBlockMeta) (dr : Z -> DirMeta) (fr : Z -> FileMeta)
    (br : Z -> FileBlockMeta) (w w' : world) :
  image_ok sb dr fr br -> recovered sb dr fr br w w' -> on_device sb dr fr br (w_store w') ->
  dev_size (w_dev w) = sb_device_size sb -> in_i 64 (w_now w) -> at_rest w'.
Proof.
  intros Him Hrc [Hsup Hd Hf Hb] Hsz Hnow. pose proof Him as [Hok Hdi Hfi Hbi].
  pose proof (rc_super _ _ _ _ _ _ Hrc) as Hs. pose proof (rc_dirmeta _ _ _ _ _ _ Hrc) as Hdm.
  pose proof (rc_filemeta _ _ _ _ _ _ Hrc) as Hfm. pose proof (rc_fbmeta _ _ _ _ _ _ Hrc) as Hbm.
  constructor.
  - by rewrite Hs.
  - by eapply recovered_inv.
  - by eapply recovered_tree.
  - by eapply recovered_file_tree.
  - rewrite Hs. unfold dir_rec, file_rec, fb_rec. rewrite Hdm, Hfm, Hbm. constructor; [done| | |].
    + intros i Hi. rewrite record_area_default by done. by apply Hd.
    + intros i Hi. rewrite record_area_default by done. by apply Hf.
    + intros i Hi. rewrite record_area_default by done. by apply Hb.
  - destruct (di_root _ _ Hdi) as (i & Hi & Hn).
    apply (recovered_dir_paths sb dr fr br w w' Hrc). by exists i.
  - rewrite Hdm. intros i m [Hi ->]%record_area_lookup. split; [by apply Hdi|by apply (di_dh _ _ Hdi)].
  - rewrite Hfm. intros i m [Hi ->]%record_area_lookup.
    split; [by apply (fi_crc _ _ _ Hfi)|by apply (fi_fh _ _ _ Hfi)].
  - rewrite Hbm. intros i m [Hi ->]%record_area_lookup. by apply (bi_crc _ _ _ Hbi).
  - rewrite Hdm. intros i m [Hi ->]%record_area_lookup Hu. assert (Hud : used_dir sb dr i) by done.
    destruct (dirs_rel_find sb dr _ _ _ _ _ _ (rc_dirs _ _ _ _ _ _ Hrc) Hud) as (d & o & ? & _).
    split_and!; [by eexists|by apply (di_name _ _ Hdi)|by apply (di_key _ _ Hdi)].
  - rewrite Hfm. intros i m [Hi ->]%record_area_lookup. destruct (fm_used (fr i)) eqn:Hu;
      [|by apply (fi_unused _ _ _ Hfi)]. assert (Huf : used_file sb fr i) by done.
    destruct (recovered_file_find sb dr fr br w w' Hrc i Huf) as (f & o & ? & _).
    split_and!; [by eexists|by apply (fi_name _ _ _ Hfi)|by apply (fi_temp _ _ _ Hfi)|by apply (fi_child _ _ _ Hfi)].
  - rewrite Hbm. intros b m [Hi ->]%record_area_lookup. destruct (fb_used (br b)) eqn:Hu;
      [|by apply (bi_unused _ _ _ Hbi)]. assert (Hub : used_fb sb br b) by done.
    split; [by apply (bi_temp _ _ _ Hbi)|].
    destruct (recovered_file_find sb dr fr br w w' Hrc _ (bi_file _ _ _ Hbi _ Hub)) as (f & o & Hf1 & _ & Ho & Hm).
    exists f, o. split_and!; try done; [|by rewrite Hm].
    apply (recovered_owns sb dr fr br w w' Hrc f o 0 b Ho). by split_and!.
Qed.

(** [MountFileSystem] on a device whose records describe a file system *)
(** the table of descriptors is empty and every file is closed *)
Lemma recovered_sys (sb : SuperBlockMeta) (dr : Z -> DirMeta) (fr : Z -> FileMeta)
    (br : Z -> FileBlockMeta) (w w' : world) :
  recovered sb dr fr br w w' -> at_rest w' -> w_opens w' = ∅ -> w_fdh w' = Fd.FdHandle_init -> sys_ok w'.
Proof.
  intros Hrc Hr Ho Hfd. pose proof (rc_files _ _ _ _ _ _ Hrc) as Hf.
  pose proof (rf_open _ _ _ _ _ _ _ Hf) as Hof.
  assert (Hop : opens_of w' = ∅) by (unfold opens_of; by rewrite Hof, omap_empty).
  constructor; [apply Hr..|]. constructor; rewrite ?Hfd, ?Hop, ?Ho, ?Hof; try done.
  - apply NoDup_seqZ.
  - change (fd_pool Fd.FdHandle_init) with (seqZ 0 (2 * kMaxFileNum)).
    intros fd Hin%elem_of_seqZ. split; [unfold fd_range; lia|done].
  - intros o [? Hx]. done.
  - intros f y Hy. pose proof (rf_objs _ _ _ _ _ _ _ Hf _ _ Hy) as Hc.
    destruct (rf_obj _ _ _ _ _ _ _ Hf _ _ Hc) as (_ & y' & Hy' & _ & Hn & _).
    rewrite Hy in Hy'. by injection Hy' as <-.
Qed.

Lemma MountFileSystem_recovers (sb sb0 : SuperBlockMeta) (dr : Z -> DirMeta) (fr : Z -> FileMeta)
    (br : Z -> FileBlockMeta) (d : device) (now : Z) :
  image_ok sb dr fr br -> on_device sb dr fr br (dev_store d) -> dev_size d = sb_device_size sb ->
  0 < dev_fd_direct d -> 0 < dev_fd_cache d -> Forall benign (dev_events d) -> in_i 64 now ->
  wp MountFileSystem (fun r w' => r = 0 /\ at_rest w' /\ w_super w' = sb /\
    w_dirmeta w' = record_area dr (sb_max_file_num sb) /\
    w_filemeta w' = record_area fr (sb_max_file_num sb) /\
    w_fbmeta w' = record_area br (sb_max_file_block_num sb) /\
    w_store w' = dev_store d /\ w_opens w' = ∅ /\ fh_open_files (w_fh w') = ∅ /\
    w_fdh w' = Fd.FdHandle_init /\ sys_ok w' /\ dev_good w' /\ exists w1, recovered sb dr fr br w1 w') (new_process sb0 d now).
Proof.
  intros Him Hon Hsz H1 H2 Hev Hnow. pose proof Him as [Hok Hdi Hfi Hbi].
  unfold MountFileSystem. wp_step.
  eapply wp_mono; [apply (ShmManager_Initialize_wp sb Hok dr fr br); try done|].
  { apply Hdi. } { apply Hfi. } { intros i Hi. by apply (bi_ok _ _ _ Hbi). }
  intros ok w1 (-> & e & evs & Hev1 & Hw1). cbn [negb]. wp_step.
  assert (Hg1 : dev_good w1 /\ w_fdh w1 = Fd.FdHandle_init).
  { subst w1. split; [|done]. split_and!; try done. by eapply Forall_suffix. }
  assert (Hfp : fresh_process sb dr fr br w1) by (subst w1; by constructor).
  assert (Hst : w_store w1 = dev_store d /\ dev_size (w_dev w1) = sb_device_size sb /\ w_now w1 = now /\
    w_opens w1 = ∅ /\ w_bh w1 = MkBlockHandle 0 ∅) by (subst w1; by split_and!).
  clear Hw1. destruct Hst as (Hst & Hsz1 & Hn1 & Ho1 & Hb1).
  eapply wp_mono; [by apply (InitializeMeta_recovers sb dr fr br w1)|].
  intros ok w2 [-> Hrc]. cbn [negb]. unfold MakeMountPoint. do 2 wp_step.
  eapply looks_up_wp; [apply GetCreatedDirectory_run|]. intros e2.
  assert (Hroot : is_Some (dh_created_dirs (w_dh w2) !! [slash])).
  { apply (recovered_dir_paths sb dr fr br w1 w2 Hrc). destruct (di_root _ _ Hdi) as (i & ? & ?). by exists i. }
  destruct Hroot as [root Hroot]. unfold lookup_dir. cbn [mbind option_bind dir_key ends_with_slash].
  change (dir_key [slash]) with (Some [slash]). cbn [mbind option_bind]. rewrite Hroot. do 2 wp_step.
  split; [done|]. set (w3 := set_w_errno e2 w2).
  assert (Hrc3 : recovered sb dr fr br w1 w3) by (destruct Hrc; by constructor).
  assert (Hst3 : w_store w3 = dev_store d) by (unfold w_store in *; by rewrite (rc_dev _ _ _ _ _ _ Hrc3)).
  assert (Hrest : at_rest w3) by (eapply recovered_at_rest; try done; [by rewrite Hst3|by rewrite Hn1]).
  destruct (rc_rest _ _ _ _ _ _ Hrc3) as (Hop & _ & Hfd). rewrite Ho1 in Hop. destruct Hg1 as [Hg1 Hfd1].
  rewrite Hfd1 in Hfd. assert (Hg3 : dev_good w3) by (unfold dev_good, w_events; by rewrite (rc_dev _ _ _ _ _ _ Hrc3)).
  split; [done|]. do 4 (split; [apply Hrc3|]). split; [exact Hst3|]. split; [done|].
  split; [apply (rc_files _ _ _ _ _ _ Hrc3)|]. split; [exact Hfd|].
  split; [by eapply recovered_sys|]. split; [done|by exists w1].
Qed.

(** the records of [w] and of [w'] agree *)
Definition same_records (w w' : world) : Prop :=
  w_super w' = w_super w /\
  w_dirmeta w' = record_area (dir_rec w) (sb_max_file_num (w_super w)) /\
  w_filemeta w' = record_area (file_rec w) (sb_max_file_num (w_super w)) /\
  w_fbmeta w' = record_area (fb_rec w) (sb_max_file_block_num (w_super w)).

Section SameRecords.
Context (w w' : world) (Hr : at_rest w) (Hr' : at_rest w') (Hs : same_records w w').

Lemma same_dir_rec (i : Z) : 0 <= i < sb_max_file_num (w_super w) -> dir_rec w' i = dir_rec w i.
Proof using Hs.
  destruct Hs as (_ & Hm & _). intros Hi. unfold dir_rec at 1. rewrite Hm. by apply record_area_default.
Qed.

Lemma same_file_rec (i : Z) : 0 <= i < sb_max_file_num (w_super w) -> file_rec w' i = file_rec w i.
Proof using Hs.
  destruct Hs as (_ & _ & Hm & _). intros Hi. unfold file_rec at 1. rewrite Hm. by apply record_area_default.
Qed.

Lemma same_fb_rec (b : Z) : 0 <= b < sb_max_file_block_num (w_super w) -> fb_rec w' b = fb_rec w b.
Proof using Hs.
  destruct Hs as (_ & _ & _ & Hm). intros Hb. unfold fb_rec at 1. rewrite Hm. by apply record_area_default.
Qed.

Lemma rec_content_ext (sb : SuperBlockMeta) (fr fr' : Z -> FileMeta) (br br' : Z -> FileBlockMeta)
    (st : store) (i : Z) (c : bytes) :
  (forall i, 0 <= i < sb_max_file_num sb -> fr i = fr' i) ->
  (forall b, 0 <= b < sb_max_file_block_num sb -> br b = br' b) ->
  0 <= i < sb_max_file_num sb -> rec_content sb fr br st i c -> rec_content sb fr' br' st i c.
Proof.
  intros Hf Hb Hi [[Hz ->]|(b & [Hbi Hu] & Hbf & ->)]; rewrite Hf in * by done; [by left|right].
  rewrite Hb in * by done. by exists b.
Qed.

Lemma same_a_dirs : a_dirs (abs w') = a_dirs (abs w).
Proof using Hr Hr' Hs.
  apply map_eq. intros p. apply option_eq. intros i. rewrite !rest_a_dirs by done.
  unfold used_dir. rewrite (proj1 Hs). split; intros [[Hi Hu] Hn]; rewrite ?same_dir_rec in * by done; done.
Qed.

Lemma same_name_contents : w_store w' = w_store w -> name_contents w' = name_contents w.
Proof using Hr Hr' Hs.
  intros Hst. apply map_eq. intros [dh name]. apply option_eq. intros c.
  rewrite !rest_name_contents by done. rewrite (proj1 Hs), Hst.
  split; intros (i & [Hi Hu] & Hd & Hn & Hc); exists i.
  - rewrite same_file_rec in Hu, Hd, Hn by done. split_and!; try done.
    eapply rec_content_ext; [exact same_file_rec|exact same_fb_rec|done|exact Hc].
  - unfold used_file. rewrite same_file_rec by done. split_and!; try done; [apply Hi..|].
    eapply rec_content_ext; [|intros b Hb; symmetry; by apply same_fb_rec|done|exact Hc].
    intros j Hj. symmetry. by apply same_file_rec.
Qed.
End SameRecords.

(** C4: remounting.  Let the file system of a process be at rest: consistent, all its
    metadata records on the device with valid checksums, every record in use one
    of a directory, file or file block that it knows, and none temporary.  When a
    new process mounts the device, the mount succeeds and finds the same
    directories with the same handles, and the same names with the same
    contents; the invariant of the process holds (so that it can serve calls), no
    block, record or file block that was free is lost, nothing is open and the
    device is unchanged. *)
Theorem remount_same (super0 : SuperBlockMeta) (d : device) (now : Z) (w : world) :
  at_rest w -> dev_store d = w_store w -> dev_size d = dev_size (w_dev w) ->
  0 < dev_fd_direct d -> 0 < dev_fd_cache d -> Forall benign (dev_events d) -> in_i 64 now ->
  wp MountFileSystem (fun r w' => r = 0 /\ at_rest w' /\ sys_ok w' /\
    a_dirs (abs w') = a_dirs (abs w) /\ name_contents w' = name_contents w /\
    w_store w' = w_store w /\ w_opens w' = ∅ /\ fh_open_files (w_fh w') = ∅ /\
    bh_pool (w_bh w) ⊆ bh_pool (w_bh w') /\ w_free_fbhs w ⊆ w_free_fbhs w' /\
    fh_free (w_fh w) ⊆ fh_free (w_fh w') /\ dh_free (w_dh w) ⊆ dh_free (w_dh w'))
    (new_process super0 d now).
Proof.
  intros Hr Hst Hsz H1 H2 Hev Hnow.
  eapply wp_mono; [apply (MountFileSystem_recovers (w_super w) super0 (dir_rec w) (file_rec w) (fb_rec w));
    try done; [by apply rest_image|rewrite Hst; apply Hr|rewrite Hsz; apply (fi_dev _ (ar_inv _ Hr))]|].
  intros r w' (-> & Hr' & Hs & Hdm & Hfm & Hbm & Hst' & Ho & Hof & _ & Hsys & _ & w1 & Hrc).
  assert (Hsame : same_records w w') by by split_and!. rewrite Hst in Hst'.
  pose proof (rc_dirs _ _ _ _ _ _ Hrc) as Hd. pose proof (rc_files _ _ _ _ _ _ Hrc) as Hf.
  pose proof (rc_blocks _ _ _ _ _ _ Hrc) as Hb.
  split_and!; try done; [by apply same_a_dirs|by apply same_name_contents| | | |].
  - intros x Hx. apply (rb_pool _ _ _ _ _ Hb). destruct (rest_pool w Hr x Hx) as [Hi Hn].
    split; [done|]. intros b _ Hu. by apply Hn.
  - intros b Hfree. destruct (proj2 (i_free_fb _ _ (fi_inv _ (ar_inv _ Hr))) b Hfree) as (v & Hv & Hu & _).
    assert (Hi : 0 <= b < sb_max_file_block_num (w_super w)).
    { apply (i_fb_dom _ _ (fi_inv _ (ar_inv _ Hr))). by eexists. }
    cbn in Hv. rewrite lookup_fmap, fb_rec_some in Hv by done. injection Hv as <-.
    apply (rb_free _ _ _ _ _ Hb). split; [done|split; [by apply in_range|exact Hu]].
  - intros i Hfree. destruct (proj2 (i_free_fh _ _ (fi_inv _ (ar_inv _ Hr))) i Hfree) as (_ & Hv).
    assert (Hi : 0 <= i < sb_max_file_num (w_super w)).
    { apply (i_fm_dom _ _ (fi_inv _ (ar_inv _ Hr))). by eexists. }
    cbn in Hv. rewrite lookup_fmap, file_rec_some in Hv by done. injection Hv as _ Hu _.
    apply (rf_free _ _ _ _ _ _ _ Hf). split; [done|split; [by apply in_range|exact Hu]].
  - intros i Hfree. destruct (proj2 (dt_free _ (ar_tree _ Hr)) i Hfree) as (m & Hm & Hu & _).
    assert (Hi : 0 <= i < sb_max_file_num (w_super w)).
    { apply (dmo_dom _ (dt_meta _ (ar_tree _ Hr))). by eexists. }
    rewrite dir_rec_some in Hm by done. injection Hm as <-.
    apply (rd_free _ _ _ _ _ _ _ _ Hd). split; [done|split; [by apply in_range|exact Hu]].
Qed.
End Remount.

(** ** A concrete device: the file system of the scenario, on disk *)

Definition disk_super : SuperBlockMeta := set_sb_crc (super_crc demo_super) demo_super.

Definition disk_dir (i : Z) : DirMeta :=
  let sealed m := set_dm_crc (dir_crc_of m) m in
  if i =? 0 then sealed (demo_dir 0 (str "/"))
  else if i =? 1 then sealed (demo_dir 1 (str "/d/")) else format_dir_record i.

Definition disk_file (i : Z) : FileMeta :=
  let sealed m := set_fm_crc (file_crc_of m) m in
  if i =? 0 then sealed (demo_file 0 5 (str "a"))
  else if i =? 1 then sealed (demo_file 1 0 (str "b")) else format_file_record i.

Definition disk_fb (i : Z) : FileBlockMeta :=
  if i =? 0 then set_fb_crc (fb_crc_of demo_fb) demo_fb else format_fb_record i.

Definition disk_store : store :=
  st_write (st_write (st_write (st_write (st_write ∅ 0 (encode_super disk_super))
    4096 (format_area encode_dir disk_dir 4 4096))
    8192 (format_area encode_file disk_file 4 4096))
    12288 (format_area encode_file_block disk_fb 2 8192))
    (3 * kBlockSize) demo_data.

Definition disk_device : device := MkDevice (5 * kBlockSize) 512 3 4 disk_store [].

(** the cases of an index of a small area *)
Ltac index_cases i Hi n :=
  let Hc := fresh in
  assert (i ∈ seqZ 0 n) as Hc by (apply elem_of_seqZ; cbn in Hi; lia);
  cbn in Hc; repeat (apply elem_of_cons in Hc as [->|Hc]; [|]); [..|by apply elem_of_nil in Hc].

Lemma disk_super_ok : super_ok disk_super.
Proof.
  apply super_ok_crc; [exact demo_layout| |done]. constructor; try reflexivity; try by apply in_u_dec_true.
  repeat (apply Forall_cons; split; [by apply in_u_dec_true|]). apply Forall_nil_2.
Qed.

Lemma disk_dirs_image : dirs_image disk_super disk_dir.
Proof.
  assert (Hu : forall i, used_dir disk_super disk_dir i -> i = 0 \/ i = 1).
  { intros i [Hi Hu]. index_cases i Hi 4; auto; done. }
  constructor.
  - intros i Hi. index_cases i Hi 4; try (apply dir_wf_set_crc, demo_dir_wf; [by apply in_u_dec_true|cbn; lia]);
      apply format_dir_record_wf; by apply in_u_dec_true.
  - intros i Hi. index_cases i Hi 4; reflexivity.
  - intros i Hi. index_cases i Hi 4; reflexivity.
  - intros i [->| ->]%Hu; done.
  - intros i [->| ->]%Hu; vm_compute; reflexivity.
  - intros i j [->| ->]%Hu [->| ->]%Hu; vm_compute; congruence.
  - intros i [->| ->]%Hu Hn; [by destruct Hn|]. exists 0. by repeat split.
  - exists 0. by repeat split.
Qed.

Lemma disk_files_image : files_image disk_super disk_dir disk_file.
Proof.
  assert (Hu : forall i, used_file disk_super disk_file i -> i = 0 \/ i = 1).
  { intros i [Hi Hu]. index_cases i Hi 4; auto; done. }
  constructor.
  - intros i Hi. index_cases i Hi 4;
      try (apply file_wf_set_crc, demo_file_wf; [by apply in_u_dec_true..|cbn; lia]);
      apply format_file_record_wf; by apply in_u_dec_true.
  - intros i Hi. index_cases i Hi 4; reflexivity.
  - intros i Hi. index_cases i Hi 4; reflexivity.
  - intros i Hi. index_cases i Hi 4; done.
  - intros i [->| ->]%Hu; done.
  - intros i [->| ->]%Hu; done.
  - intros i [->| ->]%Hu; done.
  - intros i [->| ->]%Hu; by repeat split.
  - intros i j [->| ->]%Hu [->| ->]%Hu; vm_compute; congruence.
Qed.

Lemma disk_blocks_image : blocks_image disk_super disk_file disk_fb.
Proof.
  assert (Hu : forall b, used_fb disk_super disk_fb b -> b = 0).
  { intros i [Hi Hu]. index_cases i Hi 2; auto; done. }
  constructor.
  - intros i Hi. index_cases i Hi 2; [apply fb_meta_ok_set_crc, demo_fb_ok|apply format_fb_record_ok].
  - intros i Hi. index_cases i Hi 2; reflexivity.
  - intros i Hi. index_cases i Hi 2; done.
  - by intros i ->%Hu.
  - by intros i ->%Hu.
  - intros i ->%Hu. by repeat split.
  - by intros i ->%Hu.
  - intros i ->%Hu. split; [by apply (bool_decide_eq_true_1 _)|].
    intros x Hx. change (fb_blocks (disk_fb 0)) with [2] in Hx. by apply list_elem_of_singleton in Hx as ->.
  - intros i j ->%Hu ->%Hu ?. done.
  - intros i [Hi Hiu] Hs. exists 0. index_cases i Hi 4; done.
Qed.

Lemma disk_image : image_ok disk_super disk_dir disk_file disk_fb.
Proof.
  constructor; [exact disk_super_ok|exact disk_dirs_image|exact disk_files_image|exact disk_blocks_image].
Qed.

Lemma disk_holds : on_device disk_super disk_dir disk_file disk_fb disk_store.
Proof.
  assert (Hk : kBlockSize = 4194304) by reflexivity. unfold disk_store.
  assert (Hs : length (encode_super disk_super) = 4096%nat) by (vm_compute; reflexivity).
  constructor; [|intros i Hi; units..].
  - rewrite !st_read_write_out by (rewrite ?format_area_length, ?Hk; lia).
    rewrite <- Hs. apply st_read_write_same.
  - change (sb_max_file_num disk_super) with 4 in Hi. change (sb_dir_meta_offset disk_super) with 4096.
    change 1024%nat with (Z.to_nat 1024).
    rewrite !(st_read_write_out _ _ (4096 + _)) by (rewrite ?format_area_length, ?Hk; lia).
    apply st_read_area; try lia. intros j Hj. by apply encode_dir_length, (di_wf _ _ disk_dirs_image).
  - change (sb_max_file_num disk_super) with 4 in Hi. change (sb_file_meta_offset disk_super) with 8192.
    change 256%nat with (Z.to_nat 256).
    rewrite !(st_read_write_out _ _ (8192 + _)) by (rewrite ?format_area_length, ?Hk; lia).
    apply st_read_area; try lia. intros j Hj. by apply encode_file_length, (fi_rec_wf _ _ _ disk_files_image).
  - change (sb_max_file_block_num disk_super) with 2 in Hi.
    change (sb_file_block_meta_offset disk_super) with 12288. change 4096%nat with (Z.to_nat 4096).
    rewrite !(st_read_write_out _ _ (12288 + _)) by (rewrite ?Hk; lia).
    apply st_read_area; try lia. intros j Hj. by apply encode_file_block_length, (bi_ok _ _ _ disk_blocks_image).
Qed.

(** the process that mounted it *)
Definition disk_mounted : world :=
  match MountFileSystem (new_process demo_super disk_device 1) with Done _ w => w | Crash _ => demo end.

Lemma wp_final {S A} (m : prog S A) (Q : A -> S -> Prop) (P : S -> Prop) (s dflt : S) :
  wp m Q s -> (forall a s', Q a s' -> P s') ->
  P (match m s with Done _ s' => s' | Crash _ => dflt end).
Proof. unfold wp. destruct (m s); [eauto|done]. Qed.

(** what is used of it below *)
Definition holds_disk (w : world) : Prop :=
  at_rest w /\ w_store w = disk_store /\ w_super w = disk_super /\
  w_filemeta w = record_area disk_file 4 /\ w_fbmeta w = record_area disk_fb 2.

#[local] Opaque MountFileSystem disk_store.

Lemma disk_mounted_rest : holds_disk disk_mounted.
Proof.
  unfold disk_mounted. apply (wp_final MountFileSystem (fun r w => r = 0 /\ holds_disk w)).
  - eapply wp_mono.
    + apply (MountFileSystem_recovers disk_super demo_super disk_dir disk_file disk_fb disk_device 1
        disk_image disk_holds eq_refl eq_refl eq_refl (Forall_nil_2 _)). by apply in_i_dec_true.
    + intros r w (Hz & Hr & Hs & _ & Hf & Hb & Hst & _). unfold disk_device in Hst.
      cbn [dev_store] in Hst. split; [exact Hz|].
      split; [exact Hr|]. split; [exact Hst|]. split; [exact Hs|]. split; [exact Hf|exact Hb].
  - intros a w [_ Hw]. exact Hw.
Qed.

Lemma disk_hello :
  used_file disk_super disk_file 0 /\ used_fb disk_super disk_fb 0 /\
  content_of disk_super disk_store (fb_blocks (disk_fb 0)) (fm_size (disk_file 0)) = str "hello".
Proof. split; [|split]; [vm_compute; intuition congruence..|vm_compute; reflexivity]. Qed.

Lemma holds_disk_hello (w : world) :
  holds_disk w -> name_contents w !! (0, str "a") = Some (str "hello").
Proof.
  intros (Hr & Hst & Hs & Hf & Hb). apply (rest_name_contents w Hr).
  assert (Hf0 : file_rec w 0 = disk_file 0) by (unfold file_rec; rewrite Hf; vm_compute; reflexivity).
  assert (Hb0 : fb_rec w 0 = disk_fb 0) by (unfold fb_rec; rewrite Hb; vm_compute; reflexivity).
  destruct disk_hello as (Hu & [Hbi Hbu] & Hc). exists 0.
  unfold used_file. rewrite Hf0, Hs. split; [exact Hu|]. split; [reflexivity|]. split; [reflexivity|].
  right. exists 0. unfold used_fb. rewrite Hb0, Hf0, Hst, Hc. split; [split; [exact Hbi|exact Hbu]|].
  split; reflexivity.
Qed.

Lemma remount_same_witness :
  wp MountFileSystem (fun r w' => r = 0 /\ fs_inv w' /\
    name_contents w' !! (0, str "a") = Some (str "hello"))
    (new_process demo_super (MkDevice (5 * kBlockSize) 512 3 4 disk_store [SysShort 100; SysFail EINTR]) 2).
Proof.
  pose proof disk_mounted_rest as (Hr & Hst & Hs & _ & _).
  eapply wp_mono; [eapply (remount_same demo_super _ 2 disk_mounted Hr); cbn [dev_store dev_size dev_fd_direct dev_fd_cache dev_events]|].
  - symmetry. exact Hst.
  - rewrite (fi_dev _ (ar_inv _ Hr)), Hs. reflexivity.
  - reflexivity.
  - reflexivity.
  - repeat constructor.
  - by apply in_i_dec_true.
  - intros r w' (-> & Hr' & _ & _ & Hn & _). split; [reflexivity|]. split; [apply Hr'|].
    rewrite Hn. exact (holds_disk_hello _ disk_mounted_rest).
Defined.
