(* ===== verification/DurableDirs.v ===== *)
(** * Directories and names that survive a restart

    That making, removing and renaming leave a durable world durable: each
    writes the page of the record that it changed before it replies. *)

From S2P Require Import Prelude Meta Device World SuperBlock Resources Paths FileBlock Inode.
From S2P Require Import Directory FileHandle File OpenFile FileHandleOps DirHandle FileSystem.
From S2P Require Import Io Frames Invariant MetaSteps Views Content FileGrow FileIO FileShrink Truncate.
From S2P Require Import DirSteps Names DirOps FileNames FileEntries Unlink OpenFiles Session Rename.
From S2P Require Import DirRename DataTheorems Refinement DirRefinement Load RecoverDirs AtRest DiskState.
From S2P Require Import Durable DurableOps DurableGrow.

Section DurableDirs.
Context `{Env}.

(** ** The page of a directory's record *)

Lemma dir_page_slice (w : world) (i j : Z) (m : DirMeta) :
  dirmeta_ok w -> w_dirmeta w !! j = Some m -> j - j mod 4 = i - i mod 4 ->
  let page := dir_page (w_dirmeta w) (i - i mod 4) kBlockFsDirMetaSize in
  length page = 4096%nat /\ slice (Z.to_nat (1024 * (j mod 4))) 1024 page = encode_dir m.
Proof.
  intros Hok Hm Hp page. unfold page, dir_page. units. change (4096 / 1024) with 4.
  pose proof (Z.mod_pos_bound j 4 ltac:(lia)).
  apply (page_image encode_dir (w_dirmeta w) 1024 (i - i mod 4) (j mod 4) m);
    try (change (4096 / 1024) with 4); try lia; try done.
  - intros k x Hx. by apply encode_dir_length, (dmo_wf _ Hok k).
  - by replace (i - i mod 4 + j mod 4) with j by lia.
Qed.

Lemma fs_base_dirs (w w' : world) : dir_step w w' -> fs_base w -> fs_base w'.
Proof.
  intros [[[Es Esz _ _ _ _ _ _ _] _ _ _] _ _ _ _ Ef Eb] [Hl Hd Hwf Hb Hm].
  constructor; unfold recs_wf; rewrite ?Es, ?Ef, ?Eb, ?Esz; done.
Qed.

Lemma disk_ok_dir_step (df db : gset Z) (w w' : world) (i : Z) :
  disk_ok df db w -> dir_step w w' -> dirmeta_ok w' -> dir_written w i w' ->
  0 <= i < sb_max_file_num (w_super w) -> disk_ok df db w'.
Proof.
  intros [Hb Hg Hsup Hsd Hd Hfh Hc Hf Hfb] Hs Hok [(m & Edm & _ & _) Hst] Hi.
  pose proof (fs_base_dirs w w' Hs Hb) as Hb'. pose proof Hs as [[HE _ _ _] _ _ _ _ Ef Eb].
  pose proof (es_super _ _ HE) as Es.
  assert (Hm : w_dirmeta w' !! i = Some m) by (rewrite Edm; apply lookup_insert_eq).
  destruct (dir_page_slice w' i i m Hok Hm eq_refl) as [Hlen _].
  unfold dir_stored in Hst. set (page := dir_page _ _ _) in *. set (a := dir_page_addr _ _) in *.
  pose proof (fb_layout _ Hb) as []. units.
  pose proof (Z.div_mod i 4 ltac:(lia)). pose proof (Z.mod_pos_bound i 4 ltac:(lia)).
  pose proof (Z.div_mod (sb_dir_meta_total_size (w_super w)) 4096 ltac:(lia)).
  assert (Ha : a = sb_dir_meta_offset (w_super w) + 1024 * (i - i mod 4)) by done.
  assert (Hend : 1024 * (i - i mod 4) + 4096 <= sb_dir_meta_total_size (w_super w)) by lia.
  assert (Hout : forall x n, x + Z.of_nat n <= a \/ a + 4096 <= x ->
    st_read (w_store w') x n = st_read (w_store w) x n).
  { intros x n Hx. rewrite Hst. apply st_read_write_out. rewrite Hlen. lia. }
  constructor; rewrite ?Es, ?Ef, ?Eb; try done.
  - by apply (es_good _ _ HE).
  - rewrite Hout; [done|lia].
  - intros j Hj. units.
    assert (Hx : exists x, w_dirmeta w' !! j = Some x) by (apply (dmo_dom _ Hok); by rewrite Es).
    destruct Hx as [x Hx]. unfold dir_rec. rewrite Hx. cbn [from_option id].
    pose proof (Z.div_mod j 4 ltac:(lia)). pose proof (Z.mod_pos_bound j 4 ltac:(lia)).
    destruct (decide (j - j mod 4 = i - i mod 4)) as [Hp|Hp].
    + destruct (dir_page_slice w' i j x Hok Hx Hp) as [_ Hsl].
      replace (sb_dir_meta_offset (w_super w) + 1024 * j)
        with (a + Z.of_nat (Z.to_nat (1024 * (j mod 4)))) by lia.
      rewrite Hst, st_read_slice by (rewrite Hlen; lia). exact Hsl.
    + rewrite Hout by lia. assert (Hij : j <> i) by congruence.
      rewrite Edm, lookup_insert_ne in Hx by done. rewrite (Hd j Hj). unfold dir_rec. by rewrite Hx.
  - intros j x Hx Hj. specialize (Hf _ _ Hx Hj).
    assert (0 <= j < sb_max_file_num (w_super w)) by (apply (fb_fm_dom _ Hb); by eexists).
    unfold file_on_disk, file_addr in *. rewrite Es. units. rewrite Hout; [done|lia].
  - intros b x Hx Hb0. specialize (Hfb _ _ Hx Hb0).
    assert (0 <= b < sb_max_file_block_num (w_super w)) by (apply (fb_fb_dom _ Hb); by eexists).
    unfold fb_on_disk, fb_addr in *. rewrite Es. units. rewrite Hout; [done|lia].
Qed.

(** ** A directory record is changed and written *)

Lemma cstr_dir_name (m : DirMeta) : dir_wf m -> meta_dir_name m <> [] -> cstr (dm_dir_name m) <> [].
Proof.
  intros [] Hn. unfold meta_dir_name in Hn. destruct (dm_dir_name m) as [|b l]; [done|].
  cbn in *. by destruct (b =? 0).
Qed.

(** the record of a directory of the tree *)
Lemma tree_record (w : world) (p : bytes) (d : Z) (o : directory) (m : DirMeta) :
  dir_tree w -> dh_created_dirs (w_dh w) !! p = Some d -> w_dirs w !! d = Some o ->
  w_dirmeta w !! do_meta o = Some m ->
  meta_dir_name m = p /\ is_Some (dh_created_dhs (w_dh w) !! do_meta o).
Proof.
  intros Ht Hd Ho Hm. destruct (dt_created _ Ht _ _ Hd) as (o' & m' & Ho' & Hm' & _ & Hnm & _ & _ & Hdh).
  assert (o' = o) as -> by congruence. assert (m' = m) as -> by congruence. split; [done|by exists d].
Qed.

Lemma durable_dirs (w w' : world) (i : Z) :
  durable w -> dir_step w w' -> dir_tree w' -> dir_written w i w' ->
  is_Some (dh_created_dirs (w_dh w') !! [slash]) ->
  (forall j, j <> i -> is_Some (dh_created_dhs (w_dh w) !! j) ->
     is_Some (dh_created_dhs (w_dh w') !! j)) ->
  (forall m, w_dirmeta w' !! i = Some m -> dm_used m = true ->
     is_Some (dh_created_dhs (w_dh w') !! i) /\ exists path, dir_key path = Some (meta_dir_name m)) ->
  durable w'.
Proof.
  intros [Hd Hl Hr] Hs Ht Hw Hroot Hkeep Hused. pose proof (dt_meta _ Ht) as Hok.
  pose proof Hs as [[He _ _ _] Ef Eh _ _ Efm Efb]. pose proof Hw as [(m & Edm & Hcrc & Hdh) _].
  assert (Hm : w_dirmeta w' !! i = Some m) by (rewrite Edm; apply lookup_insert_eq).
  constructor.
  - apply (disk_ok_dir_step ∅ ∅ w w' i); try done. rewrite <- (es_super _ _ He).
    apply (dmo_dom _ Hok). by exists m.
  - apply (link_ok_mono ∅ ∅ w); rewrite ?Eh, ?Ef; eauto.
  - destruct Hr as [_ Hrec Hus]. constructor; [done|..]; intros j x Hx.
    + rewrite Edm in Hx. apply lookup_insert_Some in Hx as [[<- <-]|[_ Hx]]; [done|by apply Hrec].
    + intros Hu. assert (Hx0 := Hx). rewrite Edm in Hx.
      apply lookup_insert_Some in Hx as [[<- <-]|[Hne Hx]].
      * destruct (Hused m Hm Hu) as [Hin [path Hk]]. split; [done|].
        split; [|by apply (dir_key_idemp path)].
        apply cstr_dir_name; [by apply (dmo_wf _ Hok i)|by apply (dir_key_nonempty path)].
      * destruct (Hus j x Hx Hu) as (Hin & ? & ?). split_and!; try done. by apply Hkeep.
Qed.

(** ** Making, removing and renaming directories *)

Lemma durable_root (w : world) : durable w -> is_Some (dh_created_dirs (w_dh w) !! [slash]).
Proof. intros Hk. apply (ko_dirs _ _ _ _ _ Hk). Qed.

Lemma CreateDirectory_durable (w : world) (path : bytes) :
  fs_inv w -> dir_tree w -> 0 ∉ path -> durable w -> wlp (CreateDirectory path) (fun _ => durable) w.
Proof.
  intros Hi Ht H0 Hk. pose proof (dk_good _ _ _ (ko_disk _ _ _ _ _ Hk)) as Hg.
  eapply wlp_mono; [apply wlp_wp, CreateDirectory_wp; try done; apply Hi|].
  intros r w' [Hs Ht' _ _ _ Hmade Href]. destruct (decide (r = 0)) as [->|Hne].
  2:{ destruct (Href Hg Hne) as [e ->]. by apply durable_errno. }
  destruct (Hmade eq_refl) as (name & d & i & Hkey & _ & _ & Ed & Edh & Ho & _ & _ & _ & Hw).
  apply (durable_dirs w w' i); try done; [by apply Hw|rewrite Ed|rewrite Edh|].
  - apply lookup_insert_is_Some'. right. by apply durable_root.
  - intros j _ Hj. apply lookup_insert_is_Some'. by right.
  - intros m Hm _. destruct (tree_record w' name d (MkDirectory i ∅ ∅ 0) m) as [-> Hin]; try done.
    + rewrite Ed. apply lookup_insert_eq.
    + split; [exact Hin|by exists path].
Qed.

Lemma DeleteDirectory_durable (w : world) (path : bytes) (recursive : bool) :
  fs_inv w -> dir_tree w -> path <> [] -> durable w ->
  wlp (DeleteDirectory path recursive) (fun _ => durable) w.
Proof.
  intros Hi Ht Hne Hk. pose proof (dk_good _ _ _ (ko_disk _ _ _ _ _ Hk)) as Hg.
  eapply wlp_mono; [apply wlp_wp, DeleteDirectory_wp; try done; apply Hi|].
  intros r w' [e _ -> _|name d o _ Ht' Hs Hroot _ Hd Ho _ Ed Edh _ (m & Hm & Hu) (Hw & _)|_ Hbad _ _];
    [by apply durable_errno| |done].
  apply (durable_dirs w w' (do_meta o)); try done; [by apply Hw|rewrite Ed|rewrite Edh|].
  - rewrite lookup_delete_ne by done. by apply durable_root.
  - intros j Hj Hin. by rewrite lookup_delete_ne.
  - intros x Hx. assert (x = m) as -> by congruence. by rewrite Hu.
Qed.

Lemma dir_moved_durable (w w' : world) (d : Z) (o : directory) (name to to' : bytes) :
  durable w -> name <> [slash] -> dir_key to = Some to' -> w_dirs w !! d = Some o ->
  dir_moved w d (do_meta o) name to' w' -> durable w'.
Proof.
  intros Hk Hroot Hkey Ho [Hs Ht Hst Ed Edh _ _ Hw].
  pose proof (dk_good _ _ _ (ko_disk _ _ _ _ _ Hk)) as Hg.
  apply (durable_dirs w w' (do_meta o)); try done; [by apply Hw|rewrite Ed|by rewrite Edh|].
  - apply lookup_insert_is_Some'. right. rewrite lookup_delete_ne by done. by apply durable_root.
  - intros m Hm _. destruct (Hst d o Ho) as (o' & Ho' & Em & _). rewrite <- Em in Hm |- *.
    destruct (tree_record w' to' d o' m) as [-> Hin]; try done.
    + rewrite Ed. apply lookup_insert_eq.
    + split; [exact Hin|by exists to].
Qed.

(** ** Renaming files *)

Lemma same_crc (m : FileMeta) : fm_crc m = file_crc_of m -> set_fm_crc (file_crc_of m) m = m.
Proof. intros Hc. rewrite <- Hc. by destruct m. Qed.

(** a file record is changed and written *)
Lemma disk_ok_file_written (w w' : world) (to : bytes) (i : Z) :
  disk_ok ∅ ∅ w -> file_written to w i w' -> env_step w w' -> w_dirmeta w' = w_dirmeta w ->
  w_fbmeta w' = w_fbmeta w -> disk_ok ∅ ∅ w'.
Proof.
  intros Hd (m & m' & Hm & Ef & Hwf & Hcrc & Hfh & _ & _ & _ & _ & _ & Hst) He Edm Efb.
  set (w1 := set_w_filemeta (<[i := m']> (w_filemeta w)) w).
  assert (Hm1 : w_filemeta w1 !! i = Some m') by apply lookup_insert_eq.
  assert (Hd1 : disk_ok ({[i]} ∪ ∅) ∅ w1) by by apply (disk_ok_filemeta _ _ _ _ m).
  pose proof (disk_ok_file_page _ ∅ w1 i m' 0 (w_events w1) Hd1 ltac:(set_solver) Hm1 ltac:(done)) as Hd2.
  assert (E1 : with_file_crc i m' w1 = w1).
  { unfold with_file_crc. rewrite same_crc by done. unfold w1, set_w_filemeta. cbn. rewrite insert_insert_eq. reflexivity. }
  cbv zeta in Hd2. rewrite E1 in Hd2. eapply disk_ok_same; [|exact Hd2].
  constructor; try done; try apply (es_good _ _ He); try by apply He.
  by rewrite Hst, Ef, w_store_upd_io.
Qed.

Lemma rename_file_durable (w w' : world) (f i r : Z) (key : Z * bytes) (to : bytes) :
  durable w -> to <> [] -> ends_with_slash to = false -> rename_post w f i key to r w' -> durable w'.
Proof.
  intros Hk Hne Hsl Hp. pose proof (dk_good _ _ _ (ko_disk _ _ _ _ _ Hk)) as Hg.
  destruct (lookup_dir w (GetDirName to)) as [d|] eqn:Hdir.
  2:{ destruct (rn_missing _ _ _ _ _ _ _ Hp Hdir) as (_ & e & ->). by apply durable_errno. }
  assert (Hw : file_written to w i w') by (apply (rn_written _ _ _ _ _ _ _ Hp Hg); by rewrite Hdir).
  destruct (rn_others _ _ _ _ _ _ _ Hp) as (Edm & Efb & Edh & Efh & He).
  pose proof (rn_objs _ _ _ _ _ _ _ Hp) as Ef. destruct Hk as [Hd [Hc Hl Hb] []].
  constructor; [by apply (disk_ok_file_written w w' to i)| |by constructor; rewrite ?Edh, ?Edm].
  destruct Hw as (m & m' & Hm & Efm & Hwf & _ & _ & Hu & Ht & Hch & Hsz & Hnm & _).
  constructor; rewrite ?Efm, ?Efb.
  - apply map_Forall_insert_2; [|done]. rewrite Hch. by apply (Hc i).
  - intros j x Hx _. apply lookup_insert_Some in Hx as [[<- <-]|[_ Hx]].
    + specialize (Hl _ _ Hm ltac:(set_solver)). unfold file_linked in *. rewrite Hu, Efh, Ht, Hsz.
      destruct (fm_used m); [|done]. destruct Hl as (? & _ & ?). split_and!; try done.
      apply cstr_file_name; [done|]. rewrite Hnm. by apply GetFileName_nonempty.
    + specialize (Hl _ _ Hx ltac:(set_solver)). unfold file_linked in *. by rewrite Efh.
  - intros b x Hx Hj. specialize (Hb _ _ Hx Hj). unfold fb_linked in *. by rewrite Efh, Ef.
Qed.

Lemma RenamePath_durable (w : world) (from to : bytes) :
  sys_ok w -> from <> [] -> to <> [] -> 0 ∉ to -> call_fits (CRename from to) (abs w) -> durable w ->
  wlp (RenamePath from to) (fun _ => durable) w.
Proof.
  intros Hs Hnf Hnt H0 Hfit Hk. eapply wlp_mono; [by apply wlp_wp, RenamePath_wp|].
  assert (Hke : forall e, durable (set_w_errno e w)) by (intros; by apply durable_errno).
  intros r w' [e _ -> _|f o key e _ _ _ _ _ Hsl _ Hp _|d o name e _ _ Hkey _ Ho Hp]; [done|..].
  - by apply (rename_file_durable _ _ f (fo_meta o) r key to (Hke e)).
  - destruct Hp as [e' _ -> _|e' to' _ _ _ _ ->|to' q Hall Hkt _ Hmv _ _]; [by apply (durable_errno ∅ ∅ ∅ ∅), Hke..|].
    apply (dir_moved_durable _ w' d o name to to' (Hke e)); try done.
    intros ->. apply (dir_key_mount from); try done. apply Hall.
Qed.

(** ** Growing files *)

Lemma TruncateFile_durable (w : world) (fd size : Z) :
  sys_ok w -> durable w -> 0 <= size < 2 ^ 63 -> call_fits (CTruncate fd size) (abs w) ->
  wlp (TruncateFile_fd fd size) (fun r w' => r = 0 -> durable w') w.
Proof.
  intros Hs Hk Hsz Hfit. pose proof Hs as [Hi _ Ht Ho].
  destruct (opens_of w !! u64 fd) as [f|] eqn:Hfd.
  - destruct (open_leads w fd f Hs Hfd) as [o (Hop & Hf & x & Hx & Hxf)].
    specialize (Hfit f Hfd). cbn [abs a_data] in Hfit. rewrite (file_content_length w f Hi) in Hfit.
    destruct (oo_named _ Ho (u64 fd) f Hfd) as [key Hkey].
    destruct (named_removable w key f Hi Ht Hkey) as (y & m & Hrm & Hu).
    unfold TruncateFile_fd. wlp_step. eapply wlp_run; [by apply GetOpenFile_run|]. cbv beta iota.
    wlp_step. intros x' w0 [-> Hx']%get_open_done. assert (x' = x) as -> by congruence.
    rewrite Hxf, wrap_small by lia. unfold File_ftruncate. wlp_step.
    apply wlp_wp, File_file_size_wp; [done..|].
    destruct (Z.ltb_spec (file_size (view_of w) f) size).
    + apply (ExtendFile_durable w f size y m); try done; lia.
    + destruct (Z.ltb_spec size (file_size (view_of w) f)); [lia|]. by wlp_step.
  - unfold TruncateFile_fd, GetOpenFile, set_errno. do 3 wlp_step. rewrite (not_open w fd Hs Hfd).
    repeat wlp_step. by intros [=].
Qed.

End DurableDirs.
