(* ===== verification/DurableTheorems.v ===== *)
(** * Theorems on restarts

    The metadata is on the device when a call of a client returns: a process
    that mounts the device afterwards finds the directories, names and contents
    of the one before. *)

From S2P Require Import Prelude Meta Device World SuperBlock Resources Paths FileBlock Inode.
From S2P Require Import Directory FileHandle File OpenFile FileHandleOps DirHandle FileSystem Io Invariant.
From S2P Require Import MetaSteps DirSteps Names FileNames OpenFiles Session Refinement DirRefinement.
From S2P Require Import Load RecoverDirs AtRest DiskState Durable DurableOps DurableGrow DurableDirs.
From S2P Require Import Restart Scenario RecoverTheorems.

Section Restarts.
Context `{Env}.

(** ** The life of a device *)

(** a call that does not refuse to write or to grow; a file that fails to grow may
    keep blocks in memory only *)
Definition accepted (c : call) (r : reply) : Prop :=
  match c with CPwrite _ _ _ => r.1 <> -1 | CTruncate _ _ => r.1 = 0 | _ => True end.

(** a path that can name a file *)
Definition path_ok (c : call) : Prop :=
  match c with CCreate path _ | COpen path _ => path <> [] | _ => True end.

(** a device as [w] leaves it, opened again *)
Definition left_by (w : world) (d : device) : Prop :=
  dev_store d = w_store w /\ dev_size d = dev_size (w_dev w) /\
  0 < dev_fd_direct d /\ 0 < dev_fd_cache d /\ Forall benign (dev_events d).

(** calls of clients, and processes that end at any point between two calls *)
Inductive life (w : world) : world -> Prop :=
  | life_start : life w w
  | life_call c r w1 w2 :
      life w w1 -> call_ok c -> call_fits c (abs w1) -> path_ok c -> (takes_fd c <= length (fd_pool (w_fdh w1)))%nat ->
      run_call c w1 = Done r w2 -> accepted c r -> life w w2
  | life_mount super d now r w1 w2 :
      life w w1 -> left_by w1 d -> in_i 64 now ->
      MountFileSystem (new_process super d now) = Done r w2 -> life w w2.

Lemma call_durable (c : call) (w : world) :
  sys_ok w -> durable w -> sb_curr_block_num (w_super w) <= kBlockLocks -> call_ok c ->
  call_fits c (abs w) -> path_ok c -> wlp (run_call c) (fun r w' => accepted c r -> durable w') w.
Proof.
  intros Hs Hk Hlk Hok Hfit Hp. pose proof Hs as [Hi Hd Ht Ho]. destruct c; cbn [call_ok path_ok] in *;
    cbn [run_call accepted]; [wlp_step..|idtac|wlp_step|wlp_step|wlp_step|wlp_step|wlp_step].
  - unfold FileSystem_CreateFile. wlp_step. eapply wlp_mono; [by apply CreateFile_durable|].
    intros f w' Hk'. by do 2 wlp_step.
  - eapply wlp_mono; [by apply unlink_durable|]. intros r w' Hk'. by wlp_step.
  - destruct Hok. eapply wlp_mono; [by apply open_durable|]. intros r w' Hk'. by wlp_step.
  - eapply wlp_mono; [by apply close_durable|]. intros r w' Hk'. by wlp_step.
  - eapply wlp_mono; [by apply dup_durable|]. intros r w' Hk'. by wlp_step.
  - destruct Hok as (? & ? & ?). eapply wlp_mono; [by apply PwriteFile_durable|].
    intros r w' Hk'. by wlp_step.
  - eapply wlp_mono; [eapply kept_inert_keeps; [apply inert_PreadFile|exact Hk]|]. by intros ?? [].
  - eapply wlp_mono; [by apply TruncateFile_durable|]. intros r w' Hk'. by wlp_step.
  - eapply wlp_mono; [by apply CreateDirectory_durable|]. intros r w' Hk'. by wlp_step.
  - eapply wlp_mono; [by apply DeleteDirectory_durable|]. intros r w' Hk'. by wlp_step.
  - destruct Hok as (? & ? & ?). eapply wlp_mono; [by apply RenamePath_durable|].
    intros r w' Hk'. by wlp_step.
  - do 2 wlp_step. intros _. by apply durable_now.
Qed.

(** what the next process finds *)
Record found_again (w w' : world) : Prop := {
  fa_sys : sys_ok w';
  fa_durable : durable w';
  fa_super : w_super w' = w_super w;
  fa_dirs : a_dirs (abs w') = a_dirs (abs w);
  fa_contents : name_contents w' = name_contents w;
  fa_closed : a_open (abs w') = ∅
}.

Lemma mount_finds (super : SuperBlockMeta) (d : device) (now : Z) (w : world) :
  sys_ok w -> durable w -> left_by w d -> in_i 64 now ->
  wp MountFileSystem (fun r w' => r = 0 /\ found_again w w') (new_process super d now).
Proof.
  intros [Hi Hd Ht _] Hk (Hst & Hsz & H1 & H2 & Hev) Hnow. pose proof (ko_disk _ _ _ _ _ Hk) as Hdk.
  pose proof (durable_at_rest w Hi Hd Ht Hk) as Hr. destruct (as_on_device_view w Hi Hdk) as [Ha Hc].
  set (v := as_on_device w) in *.
  eapply wp_mono; [apply (MountFileSystem_recovers (w_super w) super (dir_rec v) (file_rec v) (fb_rec v));
    try done; [by apply (rest_image v)|rewrite Hst; apply (ar_device v Hr)|rewrite Hsz; apply (fi_dev _ Hi)]|].
  intros r w' (-> & Hr' & Hs & Hdm & Hfm & Hbm & Hst' & Ho & Hof & _ & Hsys & Hg & _).
  assert (Hsame : same_records v w') by by split_and!.
  split; [done|]. constructor; try done.
  - apply at_rest_durable; [done..|]. rewrite Hfm. intros i m [Hri ->]%record_area_lookup.
    apply (fb_fm_dom _ (dk_base _ _ _ Hdk)) in Hri as [m Hm].
    destruct (device_files_lookup w i m Hdk Hm) as (m' & Hm' & _ & _ & Hu%untimed_eq & _).
    unfold file_rec. change (w_filemeta v) with (device_files w). rewrite Hm'. cbn [from_option id].
    destruct Hu as (_ & _ & _ & _ & _ & -> & _). exact (lk_child _ _ _ (ko_link _ _ _ _ _ Hk) _ _ Hm).
  - rewrite (same_a_dirs v w' Hr Hr' Hsame). exact Ha.
  - rewrite (same_name_contents v w' Hr Hr' Hsame); [exact Hc|]. by rewrite Hst'.
  - cbn. unfold opens_of. by rewrite Hof, omap_empty.
Qed.

Lemma life_invariant (w w' : world) :
  sys_ok w -> durable w -> sb_curr_block_num (w_super w) <= kBlockLocks -> life w w' ->
  sys_ok w' /\ durable w' /\ w_super w' = w_super w.
Proof.
  intros Hs Hk Hlk Hl. induction Hl as [|c r w1 w2 _ (Hs1 & Hk1 & Es) Hok Hfit Hp Hfd Hrun Hacc
    |super d now r w1 w2 _ (Hs1 & Hk1 & Es) Hd Hnow Hrun].
  - done.
  - pose proof (dk_good _ _ _ (ko_disk _ _ _ _ _ Hk1)) as Hg. rewrite <- Es in Hlk.
    pose proof (call_refines c w1 Hs1 Hg Hlk Hok Hfit Hfd) as Hwp. apply wlp_wp in Hwp.
    destruct (Hwp _ _ Hrun) as [Hs2 _ Hsup _ _]. rewrite Hsup. split_and!; try done.
    by apply (call_durable c w1 Hs1 Hk1 Hlk Hok Hfit Hp r w2).
  - pose proof (mount_finds super d now w1 Hs1 Hk1 Hd Hnow) as Hwp. apply wlp_wp in Hwp.
    destruct (Hwp _ _ Hrun) as [_ [? ? Hsup _ _ _]]. by rewrite Hsup.
Qed.

(** C3: nothing that a call within the scope below has done is lost by a restart.
    Let clients make any number of calls (create, unlink, open, close, dup, pwrite,
    pread, mkdir, rmdir, rename, truncate to a size that is not smaller), with a clock
    that may show any time between two calls and processes that end between two calls
    and mount the device again.  The scope: the device does not fail and has at most
    100000 blocks; arguments are in range and a descriptor is free for each [open] and
    [dup]; no truncate shrinks a file; no renamed directory has sub-directories (they
    would keep records with the old path, whose parent the next mount does not find)
    or goes onto the path of a directory or into itself; no new file name has 64 bytes
    or more or a slash at its end; and no pwrite and no truncate is refused.
    A process that mounts the device then succeeds and finds
    the same directories with the same handles and the same names with the same
    contents as the last one had, with nothing open and the invariant intact:
    the metadata is on the device when a call returns. *)
Theorem restart_loses_nothing (w w' : world) (super : SuperBlockMeta) (d : device) (now : Z) :
  sys_ok w -> durable w -> sb_curr_block_num (w_super w) <= kBlockLocks -> life w w' ->
  left_by w' d -> in_i 64 now ->
  wp MountFileSystem (fun r w2 => r = 0 /\ sys_ok w2 /\ a_open (abs w2) = ∅ /\
    a_dirs (abs w2) = a_dirs (abs w') /\ name_contents w2 = name_contents w')
    (new_process super d now).
Proof.
  intros Hs Hk Hlk Hl Hd Hnow. destruct (life_invariant w w' Hs Hk Hlk Hl) as (Hs' & Hk' & _).
  eapply wp_mono; [by apply (mount_finds super d now w')|]. by intros r w2 [-> []].
Qed.
End Restarts.

(** ** A concrete life: a file is overwritten *)

#[local] Opaque MountFileSystem disk_store disk_mounted.

(** what is used of the mounted scenario *)
Definition serves_disk (w : world) : Prop :=
  sys_ok w /\ dev_good w /\ w_fdh w = Fd.FdHandle_init /\ w_super w = disk_super /\
  w_dirmeta w = record_area disk_dir 4 /\ w_filemeta w = record_area disk_file 4.

Lemma disk_mounted_serves : serves_disk disk_mounted.
Proof.
  Transparent disk_mounted. unfold disk_mounted.
  apply (wp_final MountFileSystem (fun r w => r = 0 /\ serves_disk w)); [|by intros a w []].
  eapply wp_mono.
  - apply (MountFileSystem_recovers disk_super demo_super disk_dir disk_file disk_fb disk_device 1
      disk_image disk_holds eq_refl eq_refl eq_refl (Forall_nil_2 _)). by apply in_i_dec_true.
  - intros r w (Hz & _ & Hs & Hd & Hf & _ & _ & _ & _ & Hfd & Hsys & Hg & _).
    split; [exact Hz|]. split; [exact Hsys|]. split; [exact Hg|]. split; [exact Hfd|].
    split; [exact Hs|]. split; [exact Hd|exact Hf].
Qed.

#[local] Opaque disk_mounted.

Lemma disk_mounted_durable : durable disk_mounted.
Proof.
  pose proof disk_mounted_rest as [Hr _]. pose proof disk_mounted_serves as (_ & Hg & _ & _ & _ & Hf).
  apply at_rest_durable; [exact Hr|exact Hg|]. rewrite Hf. intros i m [Hi ->]%record_area_lookup.
  clear - Hi. cbv beta. index_cases i Hi 4; apply Z.leb_le; reflexivity.
Qed.

(** the scenario has the file [/a] *)
Lemma disk_a_paths (w : world) :
  holds_disk w -> serves_disk w -> a_dir (abs w) (str "/a") = None /\ exists f,
    a_file (abs w) (str "/a") = Some f /\ a_names (abs w) !! (0, str "a") = Some f /\
    a_data (abs w) f = str "hello".
Proof.
  intros Hh Hv. pose proof Hh as [Hr _]. destruct Hv as (_ & _ & _ & Hs & Hd & _).
  assert (Hdr : forall i, 0 <= i < 4 -> dir_rec w i = disk_dir i).
  { intros i Hi. unfold dir_rec. rewrite Hd. by apply record_area_default. }
  assert (Hroot : a_dirs (abs w) !! [slash] = Some 0).
  { apply (rest_a_dirs w Hr). unfold used_dir. rewrite Hdr, Hs by lia. vm_compute. intuition congruence. }
  split.
  - destruct (a_dir (abs w) (str "/a")) as [i|] eqn:Hi; [|done].
    change (a_dirs (abs w) !! str "/a/" = Some i) in Hi. apply (rest_a_dirs w Hr) in Hi as [[Hi Hu] Hn].
    rewrite Hs in Hi. change (sb_max_file_num disk_super) with 4 in Hi. rewrite Hdr in Hu, Hn by done.
    exfalso. index_cases i Hi 4; vm_compute in Hu, Hn; discriminate.
  - pose proof (holds_disk_hello w Hh) as Hc. unfold name_contents in Hc. rewrite lookup_fmap in Hc.
    apply fmap_Some_1 in Hc as (f & Hk & Hc). exists f.
    assert (Hkey : a_key (abs w) (str "/a") = Some (0, str "a")).
    { change (a_key (abs w) (str "/a")) with (d ← a_dirs (abs w) !! [slash]; Some (d, str "a")).
      by rewrite Hroot. }
    split; [|by split]. unfold a_file. rewrite Hkey. exact Hk.
Qed.

Lemma init_pool : (1 <= length (fd_pool Fd.FdHandle_init))%nat.
Proof.
  change (fd_pool Fd.FdHandle_init) with (seqZ 0 (2 * kMaxFileNum)). rewrite length_seqZ.
  unfold kMaxFileNum. lia.
Qed.

(** file [f] is open, named [a] and says hello *)
Definition hello_at (w : world) (fd f : Z) : Prop :=
  u64 fd = fd /\ a_open (abs w) !! fd = Some f /\ a_names (abs w) !! (0, str "a") = Some f /\
  a_data (abs w) f = str "hello".

Lemma open_a (w : world) :
  holds_disk w -> serves_disk w -> call_ok (COpen (str "/a") 0) /\ exists r w1 f,
    run_call (COpen (str "/a") 0) w = Done r w1 /\ sys_ok w1 /\ dev_good w1 /\ w_super w1 = disk_super /\
    hello_at w1 r.1 f.
Proof.
  intros Hh Hv. destruct (disk_a_paths _ Hh Hv) as (Hnd & f & Hf & Hn & Hc).
  destruct Hv as (Hsys & Hg & Hfd & Hs & _ & _).
  assert (Hlk : sb_curr_block_num (w_super w) <= kBlockLocks) by (rewrite Hs; apply Z.leb_le; reflexivity).
  assert (Hok : call_ok (COpen (str "/a") 0)) by (split; [by apply (bool_decide_eq_true_1 _)|split; reflexivity]).
  split; [exact Hok|]. pose proof (call_refines (COpen (str "/a") 0) w Hsys Hg Hlk Hok I) as Hwp.
  rewrite Hfd in Hwp. specialize (Hwp init_pool).
  apply wp_intro in Hwp as (r & w1 & Hrun & [Hsys1 Hg1 Hs1 _ Hst]). exists r, w1, f.
  cbn [a_step] in Hst. rewrite Hnd, Hf in Hst. change (excl_create 0) with false in Hst. cbv iota in Hst.
  destruct Hst as (_ & _ & Hsame).
  assert (Ho1 : a_open (abs w1) !! r.1 = Some f) by (rewrite (as_open _ _ Hsame); apply lookup_insert_eq).
  split; [exact Hrun|]. split; [exact Hsys1|]. split; [exact Hg1|]. split; [by rewrite Hs1|].
  split; [|split; [exact Ho1|]].
  - pose proof (opens_of_range w1 r.1 f (so_opens _ Hsys1) Ho1). by apply fd_range_words.
  - rewrite (as_names _ _ Hsame), (as_data _ _ Hsame). by split.
Qed.

(** the first letter of the file is overwritten *)
Lemma overwrite_a (w : world) (fd f : Z) :
  sys_ok w -> dev_good w -> w_super w = disk_super -> hello_at w fd f ->
  call_ok (CPwrite fd (str "J") 0) /\ exists r w1, run_call (CPwrite fd (str "J") 0) w = Done r w1 /\
    r.1 = 1 /\ name_contents w1 !! (0, str "a") = Some (str "Jello").
Proof.
  intros Hsys Hg Hs (Hu & Ho & Hn & Hc).
  assert (Hlk : sb_curr_block_num (w_super w) <= kBlockLocks) by (rewrite Hs; apply Z.leb_le; reflexivity).
  assert (Hok : call_ok (CPwrite fd (str "J") 0)).
  { split; [discriminate|]. split; [apply Z.leb_le|apply Z.ltb_lt]; reflexivity. }
  split; [exact Hok|]. pose proof (call_refines _ w Hsys Hg Hlk Hok I (Nat.le_0_l _)) as Hwp.
  apply wp_intro in Hwp as (r & w1 & Hrun & [_ _ _ _ Hst]). exists r, w1. split; [exact Hrun|].
  cbn [a_step] in Hst. rewrite Hu, Ho in Hst. destruct Hst as (data & Hsame & Hw). rewrite Hc in Hw.
  destruct Hw as (Hr & gap & Hgap & Hdata); [cbn; lia|]. split; [exact Hr|].
  assert (gap = []) as -> by (apply length_zero_iff_nil; cbn in Hgap; lia).
  unfold name_contents. rewrite lookup_fmap. change (fh_created_files (w_fh w1)) with (a_names (abs w1)).
  rewrite (as_names _ _ Hsame). cbn [a_write a_with_files a_names]. rewrite Hn. cbn [fmap option_fmap option_map]. f_equal.
  change (file_content w1 f) with (a_data (abs w1) f). rewrite (as_data _ _ Hsame). cbn [a_write a_with_files a_data].
  unfold upd. rewrite decide_True by done. rewrite Hdata. by vm_compute.
Qed.

Lemma overwrite_life : exists w, life disk_mounted w /\
  name_contents w !! (0, str "a") = Some (str "Jello").
Proof.
  pose proof disk_mounted_serves as Hv. pose proof Hv as (_ & _ & Hfd & _).
  destruct (open_a _ disk_mounted_rest Hv) as (Hok & r & w1 & f & Hrun & Hsys & Hg & Hs & Hh).
  destruct (overwrite_a w1 r.1 f Hsys Hg Hs Hh) as (Hok2 & r2 & w2 & Hrun2 & Hr2 & Hc). exists w2.
  split; [|exact Hc]. eapply life_call; [|exact Hok2|exact I|exact I| |exact Hrun2|].
  - eapply life_call; [apply life_start|exact Hok|exact I|discriminate| |exact Hrun|exact I].
    rewrite Hfd. exact init_pool.
  - apply Nat.le_0_l.
  - cbn [accepted]. rewrite Hr2. discriminate.
Qed.

Lemma restart_loses_nothing_witness : exists w, life disk_mounted w /\
  wp MountFileSystem (fun r w2 => r = 0 /\ name_contents w2 !! (0, str "a") = Some (str "Jello"))
    (new_process demo_super (MkDevice (dev_size (w_dev w)) 512 3 4 (w_store w) [SysShort 100]) 2).
Proof.
  destruct overwrite_life as (w & Hl & Hc). exists w. split; [exact Hl|].
  pose proof disk_mounted_serves as (Hsys & _ & _ & Hs & _ & _).
  eapply wp_mono; [eapply (restart_loses_nothing disk_mounted w demo_super _ 2 Hsys disk_mounted_durable)|].
  - rewrite Hs. apply Z.leb_le. reflexivity.
  - exact Hl.
  - repeat split; repeat constructor.
  - by apply in_i_dec_true.
  - intros r w2 (-> & _ & _ & _ & Hn). split; [reflexivity|]. rewrite Hn. exact Hc.
Defined.
