(* ===== verification/ConfigTheorems.v ===== *)
(** * Theorems on the configuration

    Loading never fails with an exception and gives sections of different
    names; a configuration that is saved is loaded again as it was; setters and
    getters fit together; what a mount takes from the file. *)

From S2P Require Import Prelude ConfigParser ConfigLemmas Logging ConfigLoad.

(** ** Loading *)

Lemma split_some (s sep : bytes) : sep <> [] -> exists f l r, split s sep = Some (f, l, r).
Proof.
  intros Hs. unfold split. destruct (find sep s) as [p|] eqn:Hf; [|by eauto].
  apply find_bound in Hf. destruct sep; [done|]. cbn in Hf.
  destruct (Nat.ltb_spec (length s) (p + 1)); [lia|]. eauto.
Qed.

Lemma getSection_none_names (c : ConfigParser) (name : bytes) :
  getSection c name = None -> name ∉ (se_name <$> sections_vt c).
Proof.
  unfold getSection. intros Hn Hin.
  assert (Hi : exists i s, section_index (sections_vt c) name = Some i /\ sections_vt c !! i = Some s).
  { clear Hn. induction (sections_vt c) as [|s l IH]; [by apply elem_of_nil in Hin|]. cbn in *.
    destruct (decide (se_name s = name)) as [|Hne]; [by exists 0%nat, s|].
    apply elem_of_cons in Hin as [|Hin]; [congruence|]. destruct (IH Hin) as (i & t & -> & Ht).
    by exists (S i), t. }
  destruct Hi as (i & s & Hi & Hs). rewrite Hi in Hn. cbn in Hn. congruence.
Qed.

Lemma upd_section_names (i : nat) (g : IniSection -> IniSection) (c : ConfigParser) :
  (forall s, se_name (g s) = se_name s) ->
  se_name <$> sections_vt (upd_section i g c) = se_name <$> sections_vt c.
Proof.
  intros Hg. unfold upd_section. cbn. revert i. induction (sections_vt c) as [|s l IH]; intros [|i];
    cbn; [done|done|by rewrite Hg|]. f_equal. apply IH.
Qed.

(** the parser may have one more section, of a new name *)
Definition grows (c c' : ConfigParser) : Prop :=
  commentDelimiter c' = commentDelimiter c /\ ConfigParserPath c' = ConfigParserPath c /\
  (se_name <$> sections_vt c' = se_name <$> sections_vt c \/
   exists name, (name ∉ (se_name <$> sections_vt c)) /\
     se_name <$> sections_vt c' = (se_name <$> sections_vt c) ++ [name]).

Lemma grows_refl (c : ConfigParser) : grows c c.
Proof. split_and!; auto. Qed.

Lemma UpdateSection_grows (cleanLine comment right : bytes) (c : ConfigParser) (curr : nat) :
  grows c (UpdateSection cleanLine comment right c curr).1.2.
Proof.
  unfold UpdateSection. destruct (find _ _); [|apply grows_refl].
  destruct (_ <=? 0); [apply grows_refl|]. set (name := trim _).
  destruct (getSection c name) eqn:Hs; [apply grows_refl|]. split_and!; [done..|]. right.
  exists name. split; [by apply getSection_none_names|]. cbn. by rewrite fmap_app.
Qed.

Lemma AddKeyValuePair_grows (cleanLine comment right : bytes) (c : ConfigParser) (curr : nat) :
  exists err c', AddKeyValuePair cleanLine comment right c curr = Some (err, c') /\ grows c c'.
Proof.
  unfold AddKeyValuePair, parse. destruct (split_some cleanLine (str "=")) as (f & key & value & ->); [done|].
  destruct f; do 2 eexists; (split; [reflexivity|]); [|apply grows_refl].
  split_and!; [done..|left]. by apply (upd_section_names curr (fun s => set_se_items _ s) c).
Qed.

(** one line: no exception *)
Lemma load_line_grows (line : bytes) (l : load_state) :
  exists err l', load_line line l = Some (err, l') /\ grows (ld_parser l) (ld_parser l').
Proof.
  unfold load_line. set (c := ld_parser l). set (t := trim line).
  destruct (Nat.eqb (length t) 0); [do 2 eexists; split; [done|apply grows_refl]|].
  destruct (IsCommentLine c t) eqn:Hcom; [do 2 eexists; split; [done|apply grows_refl]|].
  assert (Hd : commentDelimiter c <> []).
  { intros Hd. unfold IsCommentLine, StartWith in Hcom. by rewrite Hd in Hcom. }
  destruct (split_some t _ Hd) as (f & clean & right & ->). destruct (_ =? 91).
  - pose proof (UpdateSection_grows clean (ld_comment l) right c (ld_currSection l)) as Hg.
    destruct (UpdateSection _ _ _ _ _) as [[err c'] curr']. do 2 eexists. by split.
  - destruct (AddKeyValuePair_grows clean (ld_comment l) right c (ld_currSection l))
      as (err & c' & -> & Hg). do 2 eexists. by split.
Qed.

Lemma load_lines_names (lines : list bytes) : forall l,
  NoDup (se_name <$> sections_vt (ld_parser l)) ->
  exists err l', load_lines lines l = Some (err, l') /\
    commentDelimiter (ld_parser l') = commentDelimiter (ld_parser l) /\
    ConfigParserPath (ld_parser l') = ConfigParserPath (ld_parser l) /\
    NoDup (se_name <$> sections_vt (ld_parser l')) /\
    (se_name <$> sections_vt (ld_parser l)) `prefix_of` (se_name <$> sections_vt (ld_parser l')).
Proof.
  induction lines as [|line lines IH]; intros l Hnd; [by exists 0, l|]. cbn [load_lines].
  destruct (load_line_grows line l) as (err & l1 & -> & Hd & Hp & Hn).
  assert (Hnd1 : NoDup (se_name <$> sections_vt (ld_parser l1)) /\
    (se_name <$> sections_vt (ld_parser l)) `prefix_of` (se_name <$> sections_vt (ld_parser l1))).
  { destruct Hn as [->|(name & Hnew & ->)]; [done|]. split; [|by eexists].
    apply NoDup_app. split_and!; [done| |apply NoDup_singleton]. intros x Hx ->%list_elem_of_singleton.
    done. }
  destruct Hnd1 as [Hnd1 Hpre]. destruct (negb (err =? 0)); [by exists err, l1|].
  destruct (IH l1 Hnd1) as (err2 & l2 & Hl & Hd2 & Hp2 & Hnd2 & Hpre2). exists err2, l2.
  split_and!; [done|congruence|congruence|done|by etrans].
Qed.

Lemma Load_ends (files : gmap bytes bytes) (path : bytes) (c : ConfigParser) :
  exists err c', Load files path c = Some (err, c').
Proof.
  unfold Load. destruct (files !! path) as [data|]; [|by eauto].
  destruct (load_lines_names (getlines data []) (MkLoad (set_sections [MkIniSection [] [] [] []]
    (MkConfigParser [] path (commentDelimiter c) (errMsg c))) 0 [])) as (err & l & Hl & _);
    [apply NoDup_singleton|]. cbn in Hl |- *. rewrite Hl. eauto.
Qed.

(** C28: loading any file with any comment delimiter ends without an exception and
    keeps the delimiter and the path; the sections have pairwise different
    names.  A file that cannot be opened gives error 6 and no section, and
    otherwise the first section is the one without a name. *)
Theorem Load_sections (files : gmap bytes bytes) (path : bytes) (c : ConfigParser) :
  exists err c', Load files path c = Some (err, c') /\
    commentDelimiter c' = commentDelimiter c /\ ConfigParserPath c' = path /\
    NoDup (se_name <$> sections_vt c') /\
    (files !! path = None -> err = ERR_OPEN_FILE_FAILED /\ sections_vt c' = []) /\
    (is_Some (files !! path) -> se_name <$> head (sections_vt c') = Some []).
Proof.
  unfold Load. destruct (files !! path) as [data|] eqn:Hf.
  - set (l := MkLoad _ 0 []).
    destruct (load_lines_names (getlines data []) l) as (err & l' & -> & Hd & Hp & Hnd & Hpre).
    { apply NoDup_singleton. }
    exists err, (ld_parser l'). split_and!; try done. intros _. destruct Hpre as [k Hk].
    destruct (sections_vt (ld_parser l')) as [|s ss]; cbn in Hk |- *; [done|]. by injection Hk as -> _.
  - do 2 eexists. split; [reflexivity|]. split_and!; try done. by apply NoDup_nil.
Qed.

(** ** Saving and loading *)

(** a configuration that the file format can hold: one delimiter character, names,
    keys and values without delimiters and outer white space, comments that
    are comment lines, no right comment of a section *)
Record wf_config (c : ConfigParser) : Prop := {
  wc_delim : exists d, commentDelimiter c = [d] /\ d <> 0 /\ isspace d = false /\ d <> 61 /\
    d <> 91 /\ d <> 93 /\
    exists items rest, sections_vt c = MkIniSection [] [] [] items :: rest /\
      Forall (wf_item d) items /\ Forall (wf_section d) rest;
  wc_names : NoDup (se_name <$> sections_vt c)
}.

(** C27: a well-formed configuration that is saved is loaded again with the same
    sections, items and comments, by any parser with the same delimiter. *)
Theorem save_load_roundtrip (writable : bytes -> bool) (files : gmap bytes bytes) (path : bytes)
    (c c0 : ConfigParser) :
  wf_config c -> writable path = true -> commentDelimiter c0 = commentDelimiter c ->
  exists c', Load (SaveAs writable path c files).2 path c0 = Some (0, c') /\
    sections_vt c' = sections_vt c /\ commentDelimiter c' = commentDelimiter c.
Proof.
  intros [(d & Hd & Hd0 & Hds & Hdeq & Hdl & Hdr & items & rest & Hs & Hi & Hr) Hnd] Hw Hc0.
  unfold SaveAs, Load. rewrite Hw. cbn [snd]. rewrite lookup_insert_eq.
  set (c1 := set_sections [MkIniSection [] [] [] []] _).
  assert (Hc1 : commentDelimiter c1 = [d]) by by rewrite <- Hd, <- Hc0.
  destruct (items_lines d Hd0 Hds Hdeq Hdl Hdr items [] c1 0 Hc1 Hi) as (ls1 & H1 & Hn1 & Hr1).
  set (c2 := upd_section 0 (fun s => set_se_items (se_items s ++ items) s) c1) in *.
  destruct (sections_lines d Hd0 Hds Hdeq Hdl Hdr rest (foldl (save_item [d]) [] items) c2 0 Hc1 Hr)
    as (ls2 & curr & H2 & Hn2 & Hr2).
  { change (NoDup (se_name <$> (MkIniSection [] [] [] items :: rest))). by rewrite <- Hs. }
  assert (Hdata : save_data c = lines_of (ls1 ++ ls2)).
  { unfold save_data. rewrite Hs, Hd. cbn [foldl]. unfold save_section at 2. cbn [se_comment se_name
      se_rightComment se_items]. rewrite !decide_True by done. rewrite H2, H1, lines_of_app. done. }
  rewrite Hdata, getlines_lines_of by by apply Forall_app.
  rewrite Hr1. specialize (Hr2 []). rewrite app_nil_r in Hr2. rewrite Hr2. cbn [load_lines].
  eexists. split; [reflexivity|]. split; [by rewrite Hs|]. by rewrite Hd.
Qed.

(** ** Setters and getters *)

Definition get_item (items : list IniItem) (key : bytes) : option IniItem :=
  i ← find_item items key; items !! i.

Lemma get_item_cons (x : IniItem) (l : list IniItem) (key : bytes) :
  get_item (x :: l) key = if decide (it_key x = key) then Some x else get_item l key.
Proof.
  unfold get_item. cbn [find_item]. destruct (decide (it_key x = key)); [done|].
  by destruct (find_item l key).
Qed.

Lemma set_item_cons (x : IniItem) (l : list IniItem) (key value comt : bytes) :
  set_item (x :: l) key value comt =
    if decide (it_key x = key) then MkIniItem (it_key x) value comt (it_rightComment x) :: l
    else x :: set_item l key value comt.
Proof.
  unfold set_item. cbn [find_item]. destruct (decide (it_key x = key)); [done|].
  by destruct (find_item l key).
Qed.

Lemma get_set_item (l : list IniItem) (key value comt k : bytes) :
  if decide (k = key) then exists it, get_item (set_item l key value comt) k = Some it /\ it_value it = value
  else get_item (set_item l key value comt) k = get_item l k.
Proof.
  induction l as [|x l IH].
  - change (set_item [] key value comt) with [MkIniItem key value comt []]. rewrite get_item_cons. cbn [it_key].
    destruct (decide (k = key)) as [->|]; [rewrite decide_True by done; eauto|]. by rewrite decide_False.
  - rewrite set_item_cons. destruct (decide (it_key x = key)) as [Hx|Hx].
    + rewrite !get_item_cons. cbn [it_key]. destruct (decide (k = key)) as [->|Hk].
      * rewrite decide_True by done. eauto.
      * by rewrite !decide_False by congruence.
    + rewrite !get_item_cons. destruct (decide (k = key)) as [->|Hk].
      * by rewrite decide_False.
      * by destruct (decide (it_key x = k)).
Qed.

Lemma section_index_some (l : list IniSection) (name : bytes) (i : nat) :
  section_index l name = Some i -> exists s, l !! i = Some s /\ se_name s = name.
Proof.
  revert i. induction l as [|s l IH]; intros i; cbn [section_index]; [done|].
  destruct (decide _) as [<-|]; [intros [= <-]; by exists s|].
  destruct (section_index l name); [|done]. intros [= <-]. by apply IH.
Qed.

Lemma section_index_names (l1 l2 : list IniSection) (name : bytes) :
  se_name <$> l1 = se_name <$> l2 -> section_index l1 name = section_index l2 name.
Proof.
  revert l2. induction l1 as [|s l1 IH]; intros [|s2 l2]; cbn; try done.
  intros [= -> Hl]. by rewrite (IH l2).
Qed.

Lemma section_index_snoc (l : list IniSection) (s : IniSection) (name : bytes) :
  section_index (l ++ [s]) name =
    match section_index l name with
    | Some i => Some i
    | None => if decide (se_name s = name) then Some (length l) else None
    end.
Proof.
  induction l as [|t l IH]; cbn [section_index app length].
  - by destruct (decide (se_name s = name)).
  - destruct (decide (se_name t = name)); [done|]. rewrite IH.
    destruct (section_index l name); [done|]. by destruct (decide (se_name s = name)).
Qed.

Lemma getValue_get_item (c : ConfigParser) (section key v : bytes) :
  GetStringValue c section key v =
    match getSection c section with
    | None => (ERR_NOT_FOUND_SECTION, v)
    | Some s => match get_item (se_items s) key with
                | Some it => (RET_OK, it_value it)
                | None => (ERR_NOT_FOUND_KEY, v)
                end
    end.
Proof.
  unfold GetStringValue, getValue, get_item. destruct (getSection c section) as [s|]; [|done].
  by destruct (find_item (se_items s) key ≫= _).
Qed.

(** the section that [setValue] works on: it is there afterwards, the others are the
    same *)
Lemma getSection_upd (c : ConfigParser) (name s : bytes) (i : nat) (g : IniSection -> IniSection) :
  section_index (sections_vt c) name = Some i -> (forall x, se_name (g x) = se_name x) ->
  getSection (upd_section i g c) s =
    if decide (s = name) then g <$> getSection c s else getSection c s.
Proof.
  intros Hi Hg. unfold getSection.
  rewrite (section_index_names (sections_vt (upd_section i g c)) (sections_vt c) s)
    by by apply upd_section_names.
  destruct (section_index (sections_vt c) s) as [j|] eqn:Hj; cbn; [|by destruct (decide _)].
  destruct (decide (s = name)) as [->|Hne].
  - rewrite Hi in Hj. injection Hj as <-. by rewrite list_lookup_alter_eq.
  - rewrite list_lookup_alter_ne; [done|]. intros ->.
    apply section_index_some in Hi as (x & Hx & <-). apply section_index_some in Hj as (y & Hy & <-).
    congruence.
Qed.

(** the section of a setter, made when it is not there *)
Definition with_section (c : ConfigParser) (section : bytes) : nat * ConfigParser :=
  match section_index (sections_vt c) section with
  | Some i => (i, c)
  | None =>
    let sect := MkIniSection section [] [] [] in
    if decide (section = []) then (0%nat, set_sections (sect :: sections_vt c) c)
    else (length (sections_vt c), set_sections (sections_vt c ++ [sect]) c)
  end.

Lemma with_section_spec (c : ConfigParser) (section : bytes) :
  let '(i, c1) := with_section c section in
  section_index (sections_vt c1) section = Some i /\
  (getSection c section = None -> getSection c1 section = Some (MkIniSection section [] [] [])) /\
  (is_Some (getSection c section) -> c1 = c) /\
  (forall s, s <> section -> getSection c1 s = getSection c s) /\
  (NoDup (se_name <$> sections_vt c) -> NoDup (se_name <$> sections_vt c1)).
Proof.
  unfold with_section. destruct (section_index (sections_vt c) section) as [i|] eqn:Hi.
  - apply section_index_some in Hi as Hs. destruct Hs as (s & Hs & _).
    split_and!; try done. unfold getSection. rewrite Hi. cbn. by rewrite Hs.
  - assert (Hn : getSection c section = None) by (unfold getSection; by rewrite Hi).
    pose proof (getSection_none_names c section Hn) as Hnew.
    destruct (decide (section = [])) as [->|Hne].
    + split_and!.
      * cbn. by rewrite decide_True.
      * intros _. unfold getSection. cbn. by rewrite decide_True.
      * rewrite Hn. by intros [? [=]].
      * intros s Hs. unfold getSection. cbn. rewrite decide_False by done.
        by destruct (section_index (sections_vt c) s).
      * intros Hnd. cbn. by constructor.
    + assert (Hidx : section_index (sections_vt c ++ [MkIniSection section [] [] []]) section
        = Some (length (sections_vt c))).
      { rewrite section_index_snoc, Hi. by rewrite decide_True. }
      split_and!.
      * done.
      * intros _. unfold getSection. cbn. rewrite Hidx. cbn. by rewrite list_lookup_middle.
      * rewrite Hn. by intros [? [=]].
      * intros s Hs. unfold getSection. cbn. rewrite section_index_snoc.
        destruct (section_index (sections_vt c) s) as [j|] eqn:Hj; cbn.
        { apply section_index_some in Hj as (t & Ht & _). rewrite lookup_app_l; [done|].
          by eapply lookup_lt_Some. }
        by rewrite decide_False by done.
      * intros Hnd. cbn. rewrite fmap_app. apply NoDup_app. split_and!; [done| |apply NoDup_singleton].
        by intros x Hx ->%list_elem_of_singleton.
Qed.

(** what [setValue] does to the section [s] *)
Definition put_value (c : ConfigParser) (key value comment : bytes) (s : IniSection) : IniSection :=
  set_se_items (set_item (se_items s) key value
    (if decide (comment = []) then [] else commentDelimiter c ++ comment)) s.

Lemma setValue_sections (c : ConfigParser) (section key value comment : bytes) :
  let c' := (setValue c section key value comment).2 in
  (forall s, getSection c' s =
     if decide (s = section) then
       Some (put_value c key value comment
         (default (MkIniSection section [] [] []) (getSection c section)))
     else getSection c s) /\
  (NoDup (se_name <$> sections_vt c) -> NoDup (se_name <$> sections_vt c')).
Proof.
  unfold setValue. set (comt := if decide (comment = []) then _ else _). fold (with_section c section).
  pose proof (with_section_spec c section) as Hw. destruct (with_section c section) as [i c1].
  destruct Hw as (Hi & Hnew & Hold & Hoth & Hnd). cbn [snd].
  set (g := fun s => set_se_items (set_item (se_items s) key value comt) s).
  assert (Hg : forall x, se_name (g x) = se_name x) by done. split.
  - intros s. rewrite (getSection_upd c1 section s i g Hi Hg).
    destruct (decide (s = section)) as [->|Hne]; [|by apply Hoth].
    destruct (getSection c section) as [s0|] eqn:Hs; cbn.
    + rewrite Hold by by eexists. by rewrite Hs.
    + by rewrite (Hnew eq_refl).
  - intros Hn. rewrite upd_section_names by done. by apply Hnd.
Qed.

Lemma put_value_item (c : ConfigParser) (key value comment k : bytes) (s : IniSection) :
  if decide (k = key) then
    exists it, get_item (se_items (put_value c key value comment s)) k = Some it /\ it_value it = value
  else get_item (se_items (put_value c key value comment s)) k = get_item (se_items s) k.
Proof. apply get_set_item. Qed.

Lemma setValue_get (c : ConfigParser) (section key value comment v : bytes) :
  GetStringValue (setValue c section key value comment).2 section key v = (RET_OK, value).
Proof.
  rewrite getValue_get_item, (proj1 (setValue_sections c section key value comment)).
  rewrite decide_True by done. pose proof (put_value_item c key value comment key
    (default (MkIniSection section [] [] []) (getSection c section))) as Hp.
  rewrite decide_True in Hp by done. by destruct Hp as (it & -> & ->).
Qed.

Lemma find_item_some (items : list IniItem) (key : bytes) (i : nat) :
  find_item items key = Some i -> is_Some (items !! i).
Proof.
  revert i. induction items as [|x l IH]; intros i; cbn [find_item]; [done|].
  destruct (decide _); [intros [= <-]; by eexists|]. destruct (find_item l key); [|done].
  intros [= <-]. by apply IH.
Qed.

Lemma HasKey_get_item (c : ConfigParser) (section key : bytes) :
  HasKey c section key = true <-> exists s it, getSection c section = Some s /\
    get_item (se_items s) key = Some it.
Proof.
  unfold HasKey. destruct (getSection c section) as [s|]; [|split; [done|by intros (? & ? & [=] & _)]].
  split.
  - intros Hk. unfold get_item. destruct (find_item (se_items s) key) as [i|] eqn:Hi; [|done].
    destruct (find_item_some _ _ _ Hi) as [it Hit]. exists s, it. split; [done|]. by rewrite Hi.
  - intros (? & it & [= <-] & Hit). unfold get_item in Hit. by destruct (find_item (se_items s) key).
Qed.

(** C29: a value that was set is read back, every other value stays, and sections keep
    different names; a section that is not there is made. *)
Theorem set_get_value (c : ConfigParser) (section key value comment : bytes) :
  let '(err, c') := setValue c section key value comment in
  err = RET_OK /\
  (forall v, GetStringValue c' section key v = (RET_OK, value)) /\
  (forall s k v, s <> section \/ (k <> key /\ HasSection c section = true) ->
     GetStringValue c' s k v = GetStringValue c s k v) /\
  (NoDup (se_name <$> sections_vt c) -> NoDup (se_name <$> sections_vt c')) /\
  HasSection c' section = true /\ HasKey c' section key = true.
Proof.
  pose proof (setValue_get c section key value comment) as Hget.
  pose proof (setValue_sections c section key value comment) as [Hs Hnd].
  assert (Herr : (setValue c section key value comment).1 = RET_OK).
  { unfold setValue. by destruct (match section_index _ _ with Some _ => _ | None => _ end). }
  destruct (setValue c section key value comment) as [err c']. cbn [fst snd] in *.
  pose proof (Hs section) as Hsec. rewrite decide_True in Hsec by done. split_and!; try done.
  - intros s k v Hsk. rewrite !getValue_get_item, Hs.
    destruct (decide (s = section)) as [->|]; [|done]. destruct Hsk as [?|[Hk Hhas]]; [done|].
    unfold HasSection in Hhas. destruct (getSection c section) as [s0|]; [|done].
    cbn [from_option id].
    pose proof (put_value_item c key value comment k s0) as Hp. rewrite decide_False in Hp by done.
    by rewrite Hp.
  - unfold HasSection. by rewrite Hsec.
  - apply HasKey_get_item.
    pose proof (put_value_item c key value comment key
      (default (MkIniSection section [] [] []) (getSection c section))) as Hp.
    rewrite decide_True in Hp by done. destruct Hp as (it & Hit & _). do 2 eexists. by split.
Qed.

Definition digit (b : Z) : Prop := 48 <= b < 58.

Lemma digits_value (n : nat) : forall z acc,
  0 <= z < 10 ^ Z.of_nat n -> (0 < n)%nat ->
  strtol_digits (digits n z acc) 0 = strtol_digits acc z.
Proof.
  induction n as [|n IH]; intros z acc Hz Hn; [lia|]. cbn [digits].
  destruct (Z.ltb_spec z 10) as [Hl|Hl].
  - cbn [strtol_digits]. destruct (Z.leb_spec 48 (48 + z)); [|lia].
    destruct (Z.leb_spec (48 + z) 57); [|lia]. cbn [andb]. f_equal. lia.
  - rewrite Nat2Z.inj_succ, Z.pow_succ_r in Hz by lia.
    assert (Hd : 0 <= z / 10 < 10 ^ Z.of_nat n)
      by (split; [apply Z.div_pos; lia|apply Z.div_lt_upper_bound; lia]).
    destruct n as [|n]; [cbn in Hd; lia|]. rewrite IH by (done || lia). cbn [strtol_digits].
    pose proof (Z.mod_pos_bound z 10 ltac:(lia)). pose proof (Z.div_mod z 10 ltac:(lia)).
    destruct (Z.leb_spec 48 (48 + z mod 10)); [|lia].
    destruct (Z.leb_spec (48 + z mod 10) 57); [|lia]. cbn [andb]. f_equal. lia.
Qed.

Lemma digits_digit (n : nat) : forall z acc,
  0 <= z -> Forall digit acc -> (0 < n)%nat \/ acc <> [] ->
  Forall digit (digits n z acc) /\ digits n z acc <> [].
Proof.
  induction n as [|n IH]; intros z acc Hz Ha Hn; [split; [done|]; destruct Hn; [lia|done]|].
  cbn [digits]. destruct (Z.ltb_spec z 10).
  - split; [|done]. constructor; [unfold digit; lia|done].
  - apply IH; [apply Z.div_pos; lia| |by right]. constructor; [|done].
    pose proof (Z.mod_pos_bound z 10 ltac:(lia)). unfold digit. lia.
Qed.

Lemma cstr_digits (s : bytes) : Forall digit s -> cstr s = s.
Proof.
  induction 1 as [|b s Hb _ IH]; [done|]. cbn. unfold digit in Hb.
  destruct (Z.eqb_spec b 0); [lia|]. by rewrite IH.
Qed.

Lemma atoi_print_int (z : Z) : - 2 ^ 31 <= z < 2 ^ 31 -> atoi (print_int z) = z.
Proof.
  intros Hz. unfold print_int.
  assert (Hd : forall x, 0 <= x <= 2 ^ 31 -> Forall digit (digits 10 x []) /\ digits 10 x [] <> [] /\
    strtol_digits (digits 10 x []) 0 = x).
  { intros x Hx. destruct (digits_digit 10 x []) as [H1 H2]; [lia|done|left; lia|].
    split_and!; try done. apply digits_value; lia. }
  unfold atoi. destruct (Z.ltb_spec z 0).
  - destruct (Hd (- z) ltac:(lia)) as (H1 & _ & H3).
    change (str "-" ++ digits 10 (- z) []) with (45 :: digits 10 (- z) []).
    cbn [cstr Z.eqb]. rewrite cstr_digits by done. cbn [drop_while isspace Z.eqb orb Z.leb andb].
    cbn -[strtol_digits digits Z.max Z.min swrap]. rewrite H3, swrap_small; lia.
  - destruct (Hd z ltac:(lia)) as (H1 & H2 & H3). rewrite cstr_digits by done.
    destruct (digits 10 z []) as [|b s]; [done|]. apply Forall_cons in H1 as [Hb H1].
    unfold digit in Hb. cbn [drop_while]. assert (Hsp : isspace b = false).
    { unfold isspace. destruct (Z.eqb_spec b 32); [lia|]. destruct (Z.leb_spec b 13); [lia|].
      by rewrite andb_false_r. }
    rewrite Hsp. destruct (Z.eqb_spec b 45); [lia|]. destruct (Z.eqb_spec b 43); [lia|].
    rewrite H3, swrap_small; lia.
Qed.

(** Every 32-bit integer and every boolean that is set is read back as itself. *)
Theorem set_get_typed (c : ConfigParser) (section key : bytes) (z : Z) (b v : bool) :
  - 2 ^ 31 <= z < 2 ^ 31 ->
  GetIntValue (SetIntValue c section key z).2 section key = (RET_OK, z) /\
  GetBoolValue (SetBoolValue c section key b).2 section key v = (RET_OK, b).
Proof.
  intros Hz.
  assert (Hget : forall value, GetStringValue (setValue c section key value []).2 section key []
    = (RET_OK, value)) by (intros; apply setValue_get).
  unfold GetIntValue, GetBoolValue, SetIntValue, SetBoolValue. rewrite !Hget. split.
  - by rewrite atoi_print_int.
  - by destruct b.
Qed.

(** A right comment of a section is printed without a line end: after saving and
    loading, the item behind it is part of a comment that is dropped, and the
    right comment is lost too. *)
Theorem section_right_comment_lost (writable : bytes -> bool) (files : gmap bytes bytes)
    (path p e : bytes) (c0 : ConfigParser) (d : Z) (name rc : bytes) (it : IniItem) :
  d <> 0 -> isspace d = false -> d <> 61 -> d <> 91 -> d <> 93 ->
  commentDelimiter c0 = [d] -> writable path = true ->
  wf_section d (MkIniSection name [] [] [it]) -> it_comment it = [] -> (newline ∉ rc) -> rc <> [] ->
  let c := MkConfigParser [MkIniSection [] [] [] []; MkIniSection name [] rc [it]] p [d] e in
  exists c', Load (SaveAs writable path c files).2 path c0 = Some (0, c') /\
    sections_vt c' = [MkIniSection [] [] [] []; MkIniSection name [] [] []].
Proof.
  intros Hd0 Hds Hdeq Hdl Hdr Hc0 Hw Hs Hcom Hrc Hne c.
  pose proof (ws_items _ _ Hs) as Hit. apply Forall_cons in Hit as [Hit _].
  pose proof (item_line_solid d it Hit) as Hsol.
  assert (Hname : name <> []) by exact (proj1 (ws_name _ _ Hs)).
  set (s := MkIniSection name [] [] [it]) in *. set (glued := d :: rc ++ item_line d it).
  assert (Hdata : save_data c = lines_of [section_line s; 32 :: glued]).
  { unfold save_data, c. cbn [sections_vt commentDelimiter foldl].
    unfold save_section at 2. cbn [se_comment se_name se_rightComment se_items foldl].
    rewrite !decide_True by done. unfold save_section. cbn [se_comment se_name se_rightComment se_items foldl].
    rewrite (decide_True _ _ (P := [] = [])), !decide_False by done.
    rewrite (save_item_lines d it _ [] Hit Hcom). unfold lines_of. cbn [fmap list_fmap concat app].
    rewrite !app_nil_r. unfold section_line, glued. rewrite <- !app_assoc. cbn. by rewrite <- !app_assoc. }
  unfold SaveAs, Load. rewrite Hw. cbn [snd]. rewrite lookup_insert_eq, Hdata.
  rewrite getlines_lines_of.
  2:{ constructor; [|constructor; [|done]].
      - pose proof (ws_name _ _ Hs) as (_ & _ & _ & _ & Hn & _). unfold section_line.
        change (str "[") with [91]. change (str "]") with [93].
        rewrite !not_elem_of_app, !list_elem_of_singleton. unfold newline in *. split_and!; try done; lia.
      - unfold glued. rewrite !not_elem_of_cons, not_elem_of_app.
        assert (newline <> d) by (intros <-; by cbn in Hds). split_and!; try done.
        by apply item_line_no_newline. }
  set (c1 := set_sections [MkIniSection [] [] [] []] _).
  assert (Hc1 : commentDelimiter c1 = [d]) by done.
  assert (Hnew : se_name s ∉ (se_name <$> sections_vt c1)).
  { cbn. by intros Hin%list_elem_of_singleton. }
  pose proof (load_section d Hd0 Hds Hdeq Hdl Hdr s [32 :: glued] c1 0 Hc1 Hs Hnew) as Hl.
  change (se_comment s) with (@nil Z) in Hl. rewrite Hl.
  set (c2 := set_sections _ c1). cbn [load_lines]. unfold load_line. cbn [ld_parser].
  assert (Ht : trim (32 :: glued) = glued).
  { assert (Hg : solid glued).
    { split; [by exists d, (rc ++ item_line d it)|]. destruct Hsol as [_ (b & s' & Heq & Hb)].
      exists b, (d :: rc ++ s'). split; [|done]. unfold glued. rewrite Heq. cbn.
      by rewrite <- app_assoc. }
    transitivity (trim glued); [done|]. by apply trim_solid. }
  rewrite Ht. change (Nat.eqb (length glued) 0) with false. cbn iota.
  assert (Hcl : IsCommentLine c2 glued = true).
  { unfold IsCommentLine. change (commentDelimiter c2) with (commentDelimiter c1). rewrite Hc1.
    by rewrite StartWith_char. }
  rewrite Hcl. cbn [Z.eqb negb]. eexists. split; [reflexivity|]. done.
Qed.

(** ** The configuration of a mount *)

(** the file's sections are those that a mount needs *)
Definition config_usable (ini : ConfigParser) : Prop :=
  HasSection ini (str "common") = true /\ HasSection ini (str "bfs") = true /\
  HasSection ini (str "fuse") = true.

#[local] Instance config_usable_dec (ini : ConfigParser) : Decision (config_usable ini).
Proof. unfold config_usable. apply _. Defined.

(** the configuration that a usable file gives *)
Definition config_of (ini : ConfigParser) (config : bfs_config_info) : bfs_config_info :=
  MkConfigInfo
    (GetStringValueOrDefault ini (str "common") (str "log_level") (log_level_ config) (str "INFO"))
    (GetStringValueOrDefault ini (str "common") (str "log_path") (log_path_ config) (str "/var/log/mfs/"))
    (cfg_device config) (GetStringValue ini (str "bfs") (str "device_uuid") (device_uuid_ config)).2
    (fuse_mount_point config).

Lemma GetStringValue_key (ini : ConfigParser) (s k d : bytes) :
  ((GetStringValue ini s k d).1 =? 0) = HasKey ini s k.
Proof.
  rewrite getValue_get_item. unfold HasKey. destruct (getSection ini s) as [x|]; [|done].
  unfold get_item. destruct (find_item (se_items x) k) as [i|] eqn:Hi; cbn; [|done].
  by destruct (find_item_some _ _ _ Hi) as [it ->].
Qed.

Lemma GetStringValue_any (ini : ConfigParser) (s k d e : bytes) :
  HasKey ini s k = true -> GetStringValue ini s k d = (0, (GetStringValue ini s k e).2).
Proof.
  rewrite <-(GetStringValue_key ini s k d), !getValue_get_item.
  destruct (getSection ini s) as [x|]; [|done]. by destruct (get_item (se_items x) k).
Qed.

Lemma ParseConfig_unusable {spdlog : Type} (spd : spdlog_call -> spdlog -> option spdlog)
    (files : gmap bytes bytes) (path : bytes) (config : bfs_config_info) (level : LogLevel)
    (log : spdlog) (err : Z) (ini : ConfigParser) :
  Load files path ConfigParser_init = Some (err, ini) -> err <> 0 \/ ~ config_usable ini ->
  ParseConfig spd files path config level log = Some (false, config, level, log).
Proof.
  intros Hl Hu. unfold ParseConfig. case_decide; [done|]. rewrite Hl.
  destruct (Z.eqb_spec err 0) as [->|?]; [|done]. destruct Hu as [?|Hu]; [done|]. unfold config_usable in Hu.
  destruct (HasSection ini (str "common")), (HasSection ini (str "bfs")), (HasSection ini (str "fuse"));
    try done. by destruct Hu.
Qed.

Lemma ParseConfig_usable {spdlog : Type} (spd : spdlog_call -> spdlog -> option spdlog)
    (files : gmap bytes bytes) (path : bytes) (config : bfs_config_info) (level : LogLevel)
    (log : spdlog) (ini : ConfigParser) :
  path <> [] -> Load files path ConfigParser_init = Some (0, ini) -> config_usable ini ->
  ParseConfig spd files path config level log =
  match spdlog_run spd mfs_spdlog_calls log with
  | Some log' => Some (HasKey ini (str "bfs") (str "device_uuid"), config_of ini config,
                       LogLevelConvert (log_level_ (config_of ini config)), log')
  | None => None
  end.
Proof.
  intros Hp Hl (H1 & H2 & H3). unfold ParseConfig. rewrite decide_False by done.
  rewrite Hl, H1, H2, H3, <-(GetStringValue_key _ _ _ (device_uuid_ config)).
  unfold config_of, GetStringValueOrDefault. cbn [Z.eqb negb orb].
  destruct (GetStringValue ini (str "common") (str "log_level") _) as [e1 v1].
  cbn [log_path_ set_log_level]. destruct (GetStringValue ini (str "common") (str "log_path") _) as [e2 v2].
  destruct (spdlog_run spd mfs_spdlog_calls log); [|done].
  cbn [device_uuid_ set_log_path set_log_level].
  by destruct (GetStringValue ini (str "bfs") (str "device_uuid") _) as [e3 v3].
Qed.

(** C30: for every file, whatever spdlog answers: [ParseConfig] throws exactly
    when the file loads, has the three sections and one of the calls that set up
    the logger throws (a second logger of the same name, a log file that cannot
    be opened).  Otherwise it succeeds exactly when the file loads, has the
    sections and a device.  Then the device is the file's, level and path of
    the log are the file's or the defaults, the logger's level fits, and the
    logger is set up.  Device name and mount point stay in any case. *)
Theorem ParseConfig_correct {spdlog : Type} (spd : spdlog_call -> spdlog -> option spdlog)
    (files : gmap bytes bytes) (path : bytes) (config : bfs_config_info) (level : LogLevel)
    (log : spdlog) :
  (ParseConfig spd files path config level log = None <->
     path <> [] /\ exists ini, Load files path ConfigParser_init = Some (0, ini) /\
     config_usable ini /\ spdlog_run spd mfs_spdlog_calls log = None) /\
  forall r config' level' log', ParseConfig spd files path config level log = Some (r, config', level', log') ->
  cfg_device config' = cfg_device config /\ fuse_mount_point config' = fuse_mount_point config /\
  (r = true <-> path <> [] /\ exists ini, Load files path ConfigParser_init = Some (0, ini) /\
     config_usable ini /\ HasKey ini (str "bfs") (str "device_uuid") = true) /\
  (r = true -> exists ini, Load files path ConfigParser_init = Some (0, ini) /\
     GetStringValue ini (str "bfs") (str "device_uuid") [] = (0, device_uuid_ config') /\
     log_level_ config' = GetStringValueOrDefault ini (str "common") (str "log_level")
       (log_level_ config) (str "INFO") /\
     log_path_ config' = GetStringValueOrDefault ini (str "common") (str "log_path")
       (log_path_ config) (str "/var/log/mfs/") /\
     level' = LogLevelConvert (log_level_ config') /\
     spdlog_run spd mfs_spdlog_calls log = Some log').
Proof.
  destruct (Load_ends files path ConfigParser_init) as (err & ini & Hl).
  assert (Hc : (path <> [] /\ err = 0 /\ config_usable ini) \/ (path = [] \/ err <> 0 \/ ~ config_usable ini)).
  { destruct (decide (path = [])), (decide (err = 0)), (decide (config_usable ini)); tauto. }
  destruct Hc as [(Hp & -> & Hu)|Hn].
  - rewrite (ParseConfig_usable spd files path config level log ini Hp Hl Hu), Hl. split.
    + destruct (spdlog_run spd mfs_spdlog_calls log) eqn:E.
      * split; [done|]. by intros (_ & ini' & _ & _ & ?).
      * split; [|done]. intros _. split; [done|]. by exists ini.
    + intros r config' level' log' H.
      destruct (spdlog_run spd mfs_spdlog_calls log) as [log1|]; [|done]. injection H as <- <- <- <-.
      split_and!; [done|done| |].
      * split; [intros Hk; split; [done|]; by exists ini|]. intros (_ & ini' & [= ->] & _ & Hk). done.
      * intros Hk. exists ini. split_and!; try done. by apply GetStringValue_any.
  - assert (Hf : ParseConfig spd files path config level log = Some (false, config, level, log)).
    { destruct Hn as [->|Hn]; [done|]. by apply (ParseConfig_unusable _ _ _ _ _ _ err ini). }
    assert (Hno : forall P : Prop, ~ (path <> [] /\ exists ini0, Load files path ConfigParser_init = Some (0, ini0) /\
      config_usable ini0 /\ P)).
    { intros P (Hp & ini' & Hl' & Hu & _). rewrite Hl in Hl'. injection Hl' as -> ->. tauto. }
    rewrite Hf. split; [split; [done|intros H; by destruct (Hno _ H)]|].
    intros r config' level' log' [= <- <- <- <-]. split_and!; try done.
    split; [done|]. intros (Hp & ini' & Hl' & Hu & Hk). destruct (Hno True). split; [done|]. by exists ini'.
Qed.

(** ** Witnesses *)

Definition demo_item : IniItem := MkIniItem (str "device_uuid") (str "vdc") [] (str "the disk").

Definition demo_config : ConfigParser :=
  MkConfigParser
    [MkIniSection [] [] [] [];
     MkIniSection (str "common") (lines_of [str "# levels"; []]) []
       [MkIniItem (str "log_level") (str "WARN") [] []];
     MkIniSection (str "bfs") [] [] [demo_item];
     MkIniSection (str "fuse") [] [] []] (str "bfs.cnf") (str "#") [].

(** not an element, by evaluation *)
Ltac not_in := by apply (bool_decide_eq_true_1 _).

Lemma demo_items_wf (k v r : bytes) :
  bool_decide (trim k = k /\ (35 ∉ k) /\ (newline ∉ k) /\ (61 ∉ k) /\ head k <> Some 91) = true ->
  bool_decide (trim v = v /\ (35 ∉ v) /\ (newline ∉ v)) = true ->
  bool_decide (trim r = r /\ newline ∉ r) = true -> wf_item 35 (MkIniItem k v [] r).
Proof.
  intros Hk%bool_decide_eq_true Hv%bool_decide_eq_true Hr%bool_decide_eq_true. constructor; try done.
  by exists [].
Qed.

Lemma demo_section_wf (name : bytes) (cs : list bytes) (items : list IniItem) :
  bool_decide (name <> [] /\ trim name = name /\ (93 ∉ name) /\ (35 ∉ name) /\ (newline ∉ name) /\
    Z.of_nat (length name) < 2 ^ 31) = true ->
  Forall (comment_line 35) cs -> Forall (wf_item 35) items ->
  wf_section 35 (MkIniSection name (lines_of cs) [] items).
Proof.
  intros Hn%bool_decide_eq_true Hc Hi. constructor; try done. by exists cs.
Qed.

Lemma demo_config_wf : wf_config demo_config.
Proof.
  split; [|by apply (bool_decide_eq_true_1 _)].
  exists 35. split_and!; try done. eexists _, _. split; [reflexivity|]. split; [done|].
  constructor; [|constructor; [|constructor; [|done]]].
  - apply demo_section_wf; [reflexivity| |].
    + constructor; [right; split_and!; [done|reflexivity|not_in]|constructor; [by left|done]].
    + constructor; [by apply demo_items_wf|done].
  - apply (demo_section_wf (str "bfs") []); [reflexivity|done|].
    constructor; [by apply demo_items_wf|done].
  - by apply (demo_section_wf (str "fuse") []).
Qed.

Definition demo_files : gmap bytes bytes := {[ str "bfs.cnf" := save_data demo_config ]}.

Lemma Load_sections_witness : exists err c',
  Load demo_files (str "bfs.cnf") ConfigParser_init = Some (err, c') /\
  NoDup (se_name <$> sections_vt c') /\ se_name <$> head (sections_vt c') = Some [].
Proof.
  destruct (Load_sections demo_files (str "bfs.cnf") ConfigParser_init)
    as (err & c' & Hl & _ & _ & Hnd & _ & Hh).
  exists err, c'. split; [exact Hl|]. split; [exact Hnd|]. apply Hh. by eexists.
Defined.

Lemma save_load_roundtrip_witness : exists c',
  Load (SaveAs (fun _ => true) (str "copy") demo_config ∅).2 (str "copy") ConfigParser_init
    = Some (0, c') /\ sections_vt c' = sections_vt demo_config.
Proof.
  destruct (save_load_roundtrip (fun _ => true) ∅ (str "copy") demo_config ConfigParser_init
    demo_config_wf eq_refl eq_refl) as (c' & Hl & Hs & _).
  exists c'. split; [exact Hl|exact Hs].
Defined.

Lemma set_get_value_witness :
  GetStringValue (setValue demo_config (str "bfs") (str "device_uuid") (str "vdd") []).2
    (str "common") (str "log_level") [] = (RET_OK, str "WARN").
Proof.
  pose proof (set_get_value demo_config (str "bfs") (str "device_uuid") (str "vdd") []) as Hs.
  destruct (setValue _ _ _ _ _) as [err c']. destruct Hs as (_ & _ & Ho & _).
  cbn [snd]. rewrite Ho; [reflexivity|]. by left.
Defined.

Lemma set_get_typed_witness :
  GetIntValue (SetIntValue demo_config (str "fuse") (str "n") (-42)).2 (str "fuse") (str "n")
    = (RET_OK, -42).
Proof. apply (set_get_typed demo_config (str "fuse") (str "n") (-42) true true). done. Defined.

Lemma section_right_comment_lost_witness : exists c',
  Load (SaveAs (fun _ => true) (str "f")
          (MkConfigParser [MkIniSection [] [] [] []; MkIniSection (str "bfs") [] (str "note") [demo_item]]
             [] (str "#") []) ∅).2 (str "f") ConfigParser_init = Some (0, c') /\
  HasKey c' (str "bfs") (str "device_uuid") = false.
Proof.
  assert (Hw : wf_section 35 (MkIniSection (str "bfs") [] [] [demo_item])).
  { apply (demo_section_wf (str "bfs") []); [reflexivity|done|].
    constructor; [by apply demo_items_wf|done]. }
  assert (Hn : newline ∉ str "note") by not_in.
  destruct (section_right_comment_lost (fun _ => true) ∅ (str "f") [] [] ConfigParser_init 35
    (str "bfs") (str "note") demo_item ltac:(done) eq_refl ltac:(done) ltac:(done) ltac:(done)
    eq_refl eq_refl Hw eq_refl Hn ltac:(done)) as (c' & Hl & Hs).
  exists c'. split; [exact Hl|]. unfold HasKey, getSection. rewrite Hs. reflexivity.
Defined.

(** the file loads *)
Lemma demo_files_load : exists ini,
  Load demo_files (str "bfs.cnf") ConfigParser_init = Some (0, ini) /\
  sections_vt ini = sections_vt demo_config.
Proof. eexists. split; vm_compute; reflexivity. Qed.

(** a spdlog whose state is the names of its loggers: a second logger of a name throws *)
Definition demo_spdlog (c : spdlog_call) (names : list bytes) : option (list bytes) :=
  match c with
  | rotating_logger_mt name _ _ _ => if decide (name ∈ names) then None else Some (name :: names)
  | _ => Some names
  end.

(** the first call succeeds, the second one in the same process throws *)
Lemma ParseConfig_correct_witness : exists config' level' log',
  ParseConfig demo_spdlog demo_files (str "bfs.cnf") (MkConfigInfo [] [] [] [] []) INFO []
    = Some (true, config', level', log') /\ device_uuid_ config' = str "vdc" /\ level' = WARNING /\
  ParseConfig demo_spdlog demo_files (str "bfs.cnf") config' level' log' = None.
Proof.
  destruct demo_files_load as (ini & Hl & Hs).
  assert (Hsec : forall s, getSection ini s = getSection demo_config s)
    by (intros s; unfold getSection; by rewrite Hs).
  assert (Hu : config_usable ini)
    by (unfold config_usable, HasSection; rewrite !Hsec; split_and!; reflexivity).
  destruct (ParseConfig demo_spdlog demo_files (str "bfs.cnf") (MkConfigInfo [] [] [] [] []) INFO [])
    as [[[[r config'] level'] log']|] eqn:Hp.
  2:{ apply (ParseConfig_correct demo_spdlog) in Hp. destruct Hp as (_ & ? & _ & _ & Hx). discriminate Hx. }
  destruct (ParseConfig_correct demo_spdlog demo_files (str "bfs.cnf") (MkConfigInfo [] [] [] [] []) INFO [])
    as [_ H]. destruct (H _ _ _ _ Hp) as (_ & _ & Hiff & Hr).
  assert (Hrt : r = true).
  { apply Hiff. split; [done|]. exists ini. split; [exact Hl|]. split; [exact Hu|]. unfold HasKey.
    by rewrite !Hsec. }
  subst r. exists config', level', log'. split; [reflexivity|].
  destruct (Hr eq_refl) as (ini' & Hl' & Huu & Hlev & _ & Hlv & Hrun).
  assert (ini' = ini) as -> by congruence.
  rewrite getValue_get_item, Hsec in Huu. unfold GetStringValueOrDefault in Hlev.
  rewrite getValue_get_item, Hsec in Hlev. rewrite Hlv, Hlev. split; [|split; [reflexivity|]].
  { by injection Huu as <-. }
  apply (ParseConfig_correct demo_spdlog). split; [done|]. exists ini. split; [exact Hl|]. split; [exact Hu|].
  injection Hrun as <-. reflexivity.
Defined.
