(* ===== verification/ResourceTheorems.v ===== *)
(** * Theorems on the pools and on paths

    The descriptor pool hands out no descriptor twice and loses none, the block
    pool hands out different free blocks and takes them back, and the parts of
    a path fit together. *)

From S2P Require Import Prelude Meta Device World Resources Paths.
From S2P Require Import Scenario.

(** ** Descriptors *)

(** the pool with the descriptors that clients hold, who give back only those *)
Inductive fd_client : world * gset Z -> world * gset Z -> Prop :=
  | client_get w held fd w' :
      Fd.get_fd w = Done fd w' -> 0 <= fd -> fd_client (w, held) (w', {[fd]} ∪ held)
  | client_get_none w held w' :
      Fd.get_fd w = Done (-1) w' -> fd_client (w, held) (w', held)
  | client_put w held fd w' :
      fd ∈ held -> Fd.put_fd fd w = Done tt w' -> fd_client (w, held) (w', held ∖ {[fd]}).

Record fd_inv (w : world) (held : gset Z) : Prop := {
  fdi_max : fd_max (w_fdh w) = Z.shiftl kMaxFileNum 1;
  fdi_nodup : NoDup (fd_pool (w_fdh w));
  fdi_disjoint : forall fd, fd ∈ fd_pool (w_fdh w) -> fd ∉ held;
  fdi_all : forall fd, fd ∈ fd_pool (w_fdh w) \/ fd ∈ held <-> 0 <= fd < Z.shiftl kMaxFileNum 1
}.

Lemma fd_inv_init (w : world) : fd_inv (set_w_fdh Fd.FdHandle_init w) ∅.
Proof.
  constructor; cbn [w_fdh set_w_fdh Fd.FdHandle_init fd_pool fd_max].
  - done.
  - apply NoDup_seqZ.
  - set_solver.
  - intros fd. rewrite elem_of_seqZ. set_solver by lia.
Qed.

Lemma fd_client_inv (s s' : world * gset Z) :
  fd_client s s' -> fd_inv s.1 s.2 -> fd_inv s'.1 s'.2.
Proof.
  intros [w held fd w' Hg H0|w held w' Hg|w held fd w' Hin Hp] [Hm Hn Hd Ha]; cbn [fst snd] in *.
  - unfold Fd.get_fd, bind, gets in Hg. destruct (fd_pool (w_fdh w)) as [|x pool] eqn:Hpool.
    { injection Hg as <- _. lia. }
    injection Hg as <- <-. apply NoDup_cons in Hn as [Hx Hn].
    constructor; cbn [w_fdh set_w_fdh set_fd_pool fd_max fd_pool]; [done|done|set_solver|].
    intros y. rewrite <- Ha. set_solver.
  - unfold Fd.get_fd, bind, gets in Hg. destruct (fd_pool (w_fdh w)) as [|x pool] eqn:Hpool.
    { injection Hg as <-. constructor; cbn; rewrite ?Hpool; done. }
    injection Hg as -> <-. assert (0 <= -1) by (apply Ha; left; set_solver). lia.
  - unfold Fd.put_fd, bind, gets in Hp. assert (Hr : 0 <= fd < Z.shiftl kMaxFileNum 1) by (apply Ha; by right).
    rewrite Hm in Hp. destruct (Z.ltb_spec (Z.shiftl kMaxFileNum 1) fd); [lia|]. injection Hp as <-.
    constructor; cbn [w_fdh set_w_fdh set_fd_pool fd_max fd_pool]; [done| | |].
    + apply NoDup_app. split_and!; [done| |apply NoDup_singleton].
      intros y Hy ->%list_elem_of_singleton. by apply (Hd fd).
    + intros y [Hy| ->%list_elem_of_singleton]%elem_of_app; set_solver.
    + intros y. rewrite <- Ha, elem_of_app, list_elem_of_singleton, elem_of_difference, elem_of_singleton.
      destruct (decide (y = fd)) as [->|]; naive_solver.
Qed.

(** C22: however clients take and give back descriptors, a descriptor that is taken
    is one that nobody holds, in range; taking fails only when all of them are
    held, and none is ever lost: those in the pool and those held are together
    always all of 0 .. 2 * kMaxFileNum - 1. *)
Theorem descriptors_never_shared (w0 : world) (s : world * gset Z) :
  rtc fd_client (set_w_fdh Fd.FdHandle_init w0, ∅) s ->
  (forall fd, fd ∈ fd_pool (w_fdh s.1) \/ fd ∈ s.2 <-> 0 <= fd < 2 * kMaxFileNum) /\
  (forall fd w', Fd.get_fd s.1 = Done fd w' ->
     (0 <= fd < 2 * kMaxFileNum /\ fd ∉ s.2) \/
     (fd = -1 /\ w_errno w' = EMFILE /\ forall x, x ∈ s.2 <-> 0 <= x < 2 * kMaxFileNum)).
Proof.
  intros Hr. assert (Hi : fd_inv s.1 s.2).
  { remember (set_w_fdh Fd.FdHandle_init w0, ∅) as s0 eqn:Hs0. assert (H0 : fd_inv s0.1 s0.2)
      by (rewrite Hs0; apply fd_inv_init). clear Hs0.
    induction Hr as [s|s1 s2 s3 Hstep _ IH]; [done|]. apply IH. by apply (fd_client_inv s1). }
  destruct s as [w held]. cbn [fst snd] in *. destruct Hi as [_ Hn Hd Ha].
  change (Z.shiftl kMaxFileNum 1) with (2 * kMaxFileNum) in Ha. split; [done|].
  intros fd w' Hg. unfold Fd.get_fd, bind, gets in Hg.
  destruct (fd_pool (w_fdh w)) as [|x pool] eqn:Hpool; injection Hg as <- <-.
  - right. split_and!; [done|done|]. intros y. rewrite <- Ha. set_solver.
  - left. split; [apply Ha; left; set_solver|]. apply Hd. set_solver.
Qed.

(** ** Blocks *)

Section Blocks.
Context `{Env}.

(** C23: [GetFreeBlockIdLock] gives exactly as many different free blocks as asked
    for and takes exactly those out of the pool, or fails without a change, when
    too few are free; giving them back restores the pool. *)
Theorem block_pool_conserved (n : Z) (w : world) :
  0 <= n ->
  (Z.of_nat (size (bh_pool (w_bh w))) < n /\ Blocks.GetFreeBlockIdLock n w = Done None w) \/
  (n <= Z.of_nat (size (bh_pool (w_bh w))) /\ exists ids w',
     Blocks.GetFreeBlockIdLock n w = Done (Some ids) w' /\
     Z.of_nat (length ids) = n /\ NoDup ids /\ (forall x, x ∈ ids -> x ∈ bh_pool (w_bh w)) /\
     (forall x, x ∈ bh_pool (w_bh w') <-> (x ∈ bh_pool (w_bh w)) /\ x ∉ ids) /\
     size (bh_pool (w_bh w)) = (length ids + size (bh_pool (w_bh w')))%nat /\
     exists ok w'', Blocks.PutFreeBlockIdsLock ids w' = Done ok w'' /\ ok = negb (n =? 0) /\
       bh_pool (w_bh w'') = bh_pool (w_bh w)).
Proof.
  intros Hn. rewrite Blocks.GetFreeBlockIdLock_eq.
  destruct (Z.ltb_spec (Z.of_nat (size (bh_pool (w_bh w)))) n) as [Hl|Hl]; [by left|right].
  split; [done|]. set (pool := bh_pool (w_bh w)) in *.
  destruct (Blocks.free_ids_spec n pool ltac:(lia)) as (Hlen & Hnd & Hin).
  set (ids := Blocks.free_ids n pool) in *. do 2 eexists. split; [reflexivity|].
  cbn [w_bh set_w_bh set_bh_pool bh_pool].
  assert (Hsub : list_to_set ids ⊆ pool) by (intros x Hx%elem_of_list_to_set; auto).
  split_and!; [lia|done|done|set_solver| |].
  - rewrite <- (size_list_to_set (C := gset Z) ids Hnd). rewrite size_difference by done.
    pose proof (subseteq_size _ _ Hsub). lia.
  - assert (Hback : foldl (fun p i => {[i]} ∪ p) (pool ∖ list_to_set ids) ids = pool).
    { apply set_eq. intros x. rewrite Blocks.foldl_union_elem, elem_of_difference, elem_of_list_to_set.
      destruct (decide (x ∈ ids)); [|tauto]. split; [auto|]. by right. }
    unfold Blocks.PutFreeBlockIdsLock. destruct ids as [|x l] eqn:Hids.
    + do 2 eexists. split; [reflexivity|]. cbn [length] in Hlen. split.
      * destruct (Z.eqb_spec n 0); [done|lia].
      * cbn. set_solver.
    + do 2 eexists. split; [reflexivity|]. split; [|exact Hback].
      destruct (Z.eqb_spec n 0); [cbn in Hlen; lia|done].
Qed.
End Blocks.

(** ** Paths *)

Lemma rstrip_no_slash_end (l : bytes) (b : Z) : b <> slash -> rstrip slash (l ++ [b]) = l ++ [b].
Proof. apply rstrip_no_trail. Qed.

(** The path of an entry, a directory's key with the name behind it, is cut into
    that key and that name, with or without a slash at the end: the root's key
    is the slash, another directory's key ends in one slash. *)
Theorem path_parts (dir name : bytes) :
  dir = [slash] \/ (exists d b, dir = d ++ [b; slash] /\ b <> slash) ->
  name <> [] -> slash ∉ name ->
  GetDirName (dir ++ name) = dir /\ GetFileName (dir ++ name) = name /\
  GetDirName (dir ++ name ++ [slash]) = dir /\
  (forall w : world, file_TransformPath (dir ++ name) w =
     if kBlockFsMaxFileNameLen <=? Z.of_nat (length name) then Done None (set_w_errno ENAMETOOLONG w)
     else Done (Some (dir, name)) w).
Proof.
  intros Hdir Hne Hns.
  assert (Hd : exists d, dir = d ++ [slash] /\ (d = [] \/ exists d' b, d = d' ++ [b] /\ b <> slash)).
  { destruct Hdir as [->|(d & b & -> & Hb)]; [by exists []; auto|]. exists (d ++ [b]).
    split; [by rewrite <- app_assoc|]. right. by exists d, b. }
  destruct Hd as (d & -> & Hd). destruct (exists_last Hne) as (n' & c & Hn).
  assert (Hc : c <> slash) by (intros ->; apply Hns; rewrite Hn; set_solver).
  assert (Hrf : rfind slash ((d ++ [slash]) ++ name) = Some (length d))
    by (rewrite <- app_assoc; by apply rfind_app).
  assert (Hpar : parent_path ((d ++ [slash]) ++ name)
    = match rstrip slash d with [] => [slash] | r => r end).
  { unfold parent_path. rewrite Hrf.
    assert (Hall : forallb (fun b => b =? slash) ((d ++ [slash]) ++ name) = false).
    { rewrite Hn, !forallb_app. cbn [forallb]. rewrite (proj2 (Z.eqb_neq c slash) Hc).
      by rewrite !andb_false_r. }
    rewrite Hall, <- app_assoc, take_app_length. done. }
  assert (Hkey : forall p, p = (d ++ [slash]) ++ name ->
    (if decide (parent_path p = [slash]) then parent_path p else parent_path p ++ [slash]) = d ++ [slash]).
  { intros p ->. rewrite Hpar. destruct Hd as [->|(d' & b & -> & Hb)]; [done|].
    rewrite rstrip_no_trail by done. destruct (d' ++ [b]) as [|x l] eqn:Hx; [by destruct d'|].
    rewrite decide_False; [done|]. intros Heq. rewrite <- Hx in Heq.
    destruct d' as [|y d']; cbn in Heq; [congruence|]. injection Heq as _ Heq. by destruct d'. }
  assert (Hnot : forall q, (d ++ [slash]) ++ name ++ q <> [slash]).
  { intros q Heq. apply (f_equal length) in Heq. rewrite !length_app, Hn, length_app in Heq. cbn in Heq. lia. }
  assert (Hends : ends_with_slash ((d ++ [slash]) ++ name) = false).
  { rewrite Hn, app_assoc, ends_with_slash_snoc. by apply Z.eqb_neq. }
  assert (Hdn : GetDirName ((d ++ [slash]) ++ name) = d ++ [slash]).
  { unfold GetDirName. rewrite decide_False by (rewrite <- (app_nil_r name); apply Hnot).
    rewrite Hends. by apply Hkey. }
  assert (Hfn : GetFileName ((d ++ [slash]) ++ name) = name).
  { unfold GetFileName. rewrite Hrf. rewrite <- app_assoc. cbn [app].
    by rewrite drop_app_ge, Nat.sub_succ_l, Nat.sub_diag by lia. }
  split_and!; [done|done| |].
  - unfold GetDirName. rewrite decide_False by apply Hnot.
    rewrite !app_assoc, ends_with_slash_snoc, Z.eqb_refl, pop_back_snoc. by apply Hkey.
  - intros w. unfold file_TransformPath. rewrite Hends, Hfn, Hdn. by destruct (_ <=? _).
Qed.

(** ** Witnesses *)

(** the first descriptor that a new pool gives, and that it is held afterwards *)
Lemma descriptors_never_shared_witness :
  exists fd w', Fd.get_fd (set_w_fdh Fd.FdHandle_init demo) = Done fd w' /\ 0 <= fd < 2 * kMaxFileNum /\
    fd ∉ fd_pool (w_fdh w').
Proof.
  set (w0 := set_w_fdh Fd.FdHandle_init demo).
  assert (Hg : exists fd w', Fd.get_fd w0 = Done fd w').
  { unfold Fd.get_fd, bind, gets. destruct (fd_pool (w_fdh w0)); by do 2 eexists. }
  destruct Hg as (fd & w' & Hg). exists fd, w'. split; [exact Hg|].
  destruct (descriptors_never_shared demo (w0, ∅) (rtc_refl _ _)) as [_ Hn].
  destruct (Hn fd w' Hg) as [[Hr _]|(_ & _ & Hall)].
  - split; [exact Hr|]. unfold Fd.get_fd, bind, gets in Hg.
    assert (Hnd : NoDup (fd_pool (w_fdh w0))) by apply (fd_inv_init demo).
    destruct (fd_pool (w_fdh w0)) as [|x pool]; injection Hg as <- <-; [lia|].
    apply NoDup_cons in Hnd as [Hx _]. exact Hx.
  - assert (Hin : 0 ∈ (∅ : gset Z)) by (apply Hall; done). by apply elem_of_empty in Hin.
Defined.

Lemma block_pool_conserved_witness :
  exists ids w', Blocks.GetFreeBlockIdLock 2 demo = Done (Some ids) w' /\ Z.of_nat (length ids) = 2 /\
    size (bh_pool (w_bh w')) = 1%nat.
Proof.
  destruct (block_pool_conserved 2 demo ltac:(done)) as [[Hl _]|(_ & ids & w' & Hg & Hlen & _ & _ & _ & Hs & _)].
  - by vm_compute in Hl.
  - exists ids, w'. split; [exact Hg|]. split; [exact Hlen|].
    change (size (bh_pool (w_bh demo))) with 3%nat in Hs. lia.
Defined.

Lemma path_parts_witness :
  GetDirName (str "/d/" ++ str "file") = str "/d/" /\ GetFileName (str "/d/" ++ str "file") = str "file".
Proof.
  destruct (path_parts (str "/d/") (str "file")) as (H1 & H2 & _).
  - right. exists (str "/"), 100. done.
  - done.
  - by apply (bool_decide_eq_true_1 _).
  - split; [exact H1|exact H2].
Defined.
