(* ===== verification/ToolTheorems.v ===== *)
(** * Theorems on the command line tool

    That an export copies exactly the range of the device, and that the options
    of the tool fit together. *)

From S2P Require Import Prelude Meta Device World Io ConfigParser FileSystem Tool Scenario.

(** the file's calls succeed, with all bytes *)
Definition dst_good (s : tool_state) : Prop := Forall (eq SysFull) (ts_events s).

Lemma grown_bounds (len off n : Z) : len <= grown len off n.
Proof. unfold grown. destruct (n <=? 0); lia. Qed.

Lemma grown_add (len off a b : Z) :
  0 <= a -> 0 <= b -> grown (grown len off a) (off + a) b = grown len off (a + b).
Proof. intros. unfold grown. destruct (Z.leb_spec a 0), (Z.leb_spec b 0), (Z.leb_spec (a + b) 0); lia. Qed.

Lemma grown_mono (len off a b : Z) : a <= b -> grown len off a <= grown len off b.
Proof. intros. unfold grown. destruct (Z.leb_spec a 0), (Z.leb_spec b 0); lia. Qed.

(** what the calls on the file do *)
Lemma dst_pwrite_wp (data : bytes) (off : Z) (s : tool_state) :
  wp (dst_pwrite data off) (fun r s' => exists n, (n <= length data)%nat /\ (r = -1 \/ r = Z.of_nat n) /\
    ts_world s' = ts_world s /\ ts_dst s' = st_write (ts_dst s) off (take n data) /\
    ts_len s' = grown (ts_len s) off r /\
    (dst_good s -> r = Z.of_nat (length data) /\ dst_good s')) s.
Proof.
  unfold dst_pwrite. apply wp_bind. unfold wp at 1. cbn [dst_event]. unfold wp, dst_good.
  destruct s as [w m len evs]. cbn [ts_events ts_world ts_dst ts_len].
  unfold sys_pwrite. cbn [Z.ltb Z.compare]. destruct evs as [|[|k|e] evs]; cbn [head default tail];
    cbn [ts_world ts_dst ts_len ts_events sys_count].
  - exists (length data). by split_and!; auto.
  - exists (length data). split_and!; auto. by intros [_ ?]%Forall_cons.
  - exists (Nat.min k (length data)). split_and!; auto; [lia|]. by intros [? _]%Forall_cons.
  - exists 0%nat. split_and!; auto; [lia|]. by intros [? _]%Forall_cons.
Qed.

Lemma dst_call_wp (s : tool_state) :
  wp dst_call (fun r s' => (r = 0 \/ r = -1) /\ ts_world s' = ts_world s /\ ts_dst s' = ts_dst s /\
    ts_len s' = ts_len s /\ (dst_good s -> r = 0 /\ dst_good s')) s.
Proof.
  unfold dst_call. apply wp_bind. unfold wp at 1. cbn [dst_event]. apply wp_ret. unfold dst_good.
  destruct s as [w m len [|ev evs]]; cbn [ts_events ts_world ts_dst ts_len head default tail].
  - split_and!; auto.
  - split_and!; auto; [destruct ev; auto|]. by intros [<- ?]%Forall_cons.
Qed.

Lemma dst_fallocate_wp (size : Z) (s : tool_state) :
  wp (dst_fallocate size) (fun r s' => ts_world s' = ts_world s /\ ts_dst s' = ts_dst s /\
    ((r = -1 /\ ts_len s' = ts_len s) \/ (r = 0 /\ 0 < size /\ ts_len s' = grown (ts_len s) 0 size)) /\
    (dst_good s -> (0 < size -> r = 0) /\ dst_good s')) s.
Proof.
  unfold dst_fallocate. apply wp_bind. unfold wp at 1. cbn [dst_event]. unfold dst_good.
  destruct s as [w m len evs]. cbn [ts_events].
  assert (Hg : Forall (eq SysFull) evs -> default SysFull (head evs) = SysFull /\ Forall (eq SysFull) (tail evs)).
  { destruct evs; [done|]. by intros [<- ?]%Forall_cons. }
  destruct (default SysFull (head evs)); destruct (Z.leb_spec size 0); repeat wp_step;
    cbn [ts_world ts_dst ts_len ts_events];
    (split_and!; [done|done|by auto|intros [??]%Hg; split; [lia || done|done]]).
Qed.

Lemma on_fs_wp {A} (m : Fs A) (Q : A -> tool_state -> Prop) (s : tool_state) :
  wp m (fun a w' => Q a (MkToolState w' (ts_dst s) (ts_len s) (ts_events s))) (ts_world s) -> wp (on_fs m) Q s.
Proof. unfold wp, on_fs. by destruct (m (ts_world s)). Qed.

(** one piece: what was read is written at the same offset *)
Section ExportLoop.
Context `{Env}.

(** the file has the range of the device, and nothing else of it changed *)
Definition export_post (s : tool_state) (size off : Z) (ok : bool) (s' : tool_state) : Prop :=
  (exists e evs, ts_world s' = upd_io e evs (w_store (ts_world s)) (ts_world s)) /\
  (forall x, x < off \/ off + size <= x -> st_get (ts_dst s') x = st_get (ts_dst s) x) /\
  (ok = true -> st_read (ts_dst s') off (Z.to_nat size) = st_read (w_store (ts_world s)) off (Z.to_nat size)) /\
  (ts_len s <= ts_len s' <= grown (ts_len s) off size /\ (ok = true -> ts_len s' = grown (ts_len s) off size)) /\
  (dev_good (ts_world s) -> dst_good s -> ok = true /\ dev_good (ts_world s') /\ dst_good s').

Lemma export_piece_wp (s : tool_state) (len off : Z) (Q : bool -> tool_state -> Prop) (k : Tl bool) :
  0 <= off -> 0 <= len -> off + len <= dev_size (w_dev (ts_world s)) < 2 ^ 63 ->
  (forall s', export_post s len off false s' -> Q false s') ->
  (forall s', export_post s len off true s' -> wp k Q s') ->
  wp (let! r := on_fs (PreadCache (Z.to_nat len) off) in
      let '(n, buffer) := r in
      if negb (n =? len) then ret false else
      let! n := dst_pwrite buffer off in
      if negb (n =? len) then ret false else k) Q s.
Proof.
  intros Hoff Hlen Hdev Hno Hyes. wp_step. apply on_fs_wp.
  eapply wp_mono; [apply (read_run (ts_world s) off Hoff ltac:(lia) false (Z.to_nat len)); lia|].
  intros [r out] w1 (e & n & evs & Hn & Hres & Hsuf & Hout & -> & Hg). cbn [fst snd] in *.
  pose proof (grown_bounds (ts_len s) off len) as Hgl.
  set (s1 := MkToolState _ (ts_dst s) (ts_len s) (ts_events s)).
  assert (Hgood : dev_good (ts_world s) -> dev_good (ts_world s1)).
  { intros Hd. apply dev_good_upd_io; [done|]. eapply Forall_suffix; [exact Hsuf|]. apply Hd. }
  destruct (Z.eqb_spec r len) as [->|Hne]; cbn [negb].
  2:{ wp_step. apply Hno. split_and!; [by do 2 eexists|done|done|cbn; lia|cbn; lia|done|]. intros Hd _. destruct (Hg Hd). lia. }
  assert (n = Z.to_nat len) as -> by lia. assert (Hlo : length out = Z.to_nat len) by by rewrite Hout, st_read_length.
  wp_step. eapply wp_mono; [apply dst_pwrite_wp|].
  intros r s2 (n & Hn2 & Hr2 & Hw2 & Hd2 & Hl2 & Hg2). rewrite Hlo in Hn2, Hg2.
  cbn [s1 ts_len] in Hl2.
  assert (Hout2 : forall x, x < off \/ off + len <= x -> st_get (ts_dst s2) x = st_get (ts_dst s) x).
  { intros x Hx. rewrite Hd2. apply st_write_get_out. rewrite length_take. lia. }
  destruct (Z.eqb_spec r len) as [->|Hne]; cbn [negb].
  - apply Hyes. split_and!; [by rewrite Hw2; do 2 eexists|done| |lia|lia|by intros _|].
    + intros _. rewrite Hd2, take_ge by lia. rewrite <- Hlo at 1. by rewrite st_read_write_same.
    + intros Hd Hs. split; [done|]. rewrite Hw2. split; [by apply Hgood|]. by apply Hg2.
  - wp_step. pose proof (grown_bounds (ts_len s) off r). pose proof (grown_mono (ts_len s) off r len ltac:(lia)).
    apply Hno. split_and!; [by rewrite Hw2; do 2 eexists|done|done|lia|lia|done|].
    intros _ Hs. destruct (Hg2 Hs). lia.
Qed.

Lemma export_loop_wp (fuel : nat) : forall (size off : Z) (s : tool_state),
  0 <= off -> 0 <= size -> off + size <= dev_size (w_dev (ts_world s)) < 2 ^ 63 ->
  size < kExportBufferSize * Z.of_nat fuel ->
  wp (export_loop fuel size off) (export_post s size off) s.
Proof.
  induction fuel as [|fuel IH]; intros size off s Hoff Hs Hdev Hf; [lia|]. cbn [export_loop].
  destruct (Z.leb_spec size 0) as [H0|H0].
  { wp_step. assert (size = 0) as -> by lia. split_and!; try done.
    exists (w_errno (ts_world s)), (w_events (ts_world s)). by rewrite upd_io_self. }
  destruct (Z.leb_spec kExportBufferSize size) as [Hfull|Hpart].
  - assert (Hk : 0 < kExportBufferSize) by done.
    apply export_piece_wp; [done|lia|lia| |].
    + intros s1 (Hw & Ho & _ & [Hl _] & Hg).
      pose proof (grown_mono (ts_len s) off kExportBufferSize size Hfull).
      split_and!; [done| |done|lia|lia|done|by intros Hd Hs'; destruct (Hg Hd Hs')].
      intros x Hx. apply Ho. lia.
    + intros s1 (Hw & Ho & Hc & [Hl Hle] & Hg). destruct Hw as (e & evs & Hw). specialize (Hle eq_refl).
      pose proof (grown_add (ts_len s) off kExportBufferSize (size - kExportBufferSize) ltac:(lia) ltac:(lia)) as Hadd.
      replace (kExportBufferSize + (size - kExportBufferSize)) with size in Hadd by lia.
      eapply wp_mono; [apply (IH (size - kExportBufferSize) (off + kExportBufferSize) s1)|]; try lia.
      { rewrite Hw. cbn. lia. }
      intros ok s2 ((e2 & evs2 & Hw2) & Ho2 & Hc2 & [Hl2 Hle2] & Hg2). rewrite Hle, Hadd in Hl2, Hle2.
      split_and!; [| | |lia|lia|done|].
      * exists e2, evs2. rewrite Hw2, Hw. reflexivity.
      * intros x Hx. rewrite Ho2, Ho by lia. done.
      * intros Hok. replace (Z.to_nat size)
          with (Z.to_nat kExportBufferSize + Z.to_nat (size - kExportBufferSize))%nat by lia.
        rewrite !st_read_app, Z2Nat.id by lia. f_equal.
        -- rewrite <- Hc by done. apply st_read_ext. intros x Hx. apply Ho2. lia.
        -- rewrite Hc2 by done. by rewrite Hw.
      * intros Hd Hs'. destruct (Hg Hd Hs') as (_ & Hd1 & Hs1). by apply Hg2.
  - apply export_piece_wp; [done|done|done|by intros ? ?|].
    intros s1 ((e & evs & Hw) & Ho & Hc & [Hl Hle] & Hg). wp_step. eapply wp_mono; [apply dst_call_wp|].
    intros r s2 (Hr & Hw2 & Hd2 & Hl2 & Hg2). unfold export_post. specialize (Hle eq_refl).
    destruct (Z.ltb_spec r 0); wp_step; rewrite Hw2, Hd2; (split_and!; [by do 2 eexists|done|by auto|lia|lia|lia|]).
    + intros Hd Hs'. destruct (Hg Hd Hs') as (_ & _ & Hs1). destruct (Hg2 Hs1). lia.
    + intros Hd Hs'. destruct (Hg Hd Hs') as (_ & ? & Hs1). split_and!; [done|done|by apply Hg2].
Qed.
End ExportLoop.

(** ** Properties *)

Section Properties.
Context `{Env}.

(** C31: the export of a range inside the device ends, never crashes and does not
    change the device, whatever the kernel answers; when it succeeds the file has
    the bytes of the range, at the offset that they have on the device, and no
    other byte of the file is written; it does succeed when no call fails and the
    range is not empty (the kernel refuses to allocate nothing).  The file is never
    cut, and grows at most to the end of the range, where it is on success unless it
    was longer. *)
Theorem export_exact (t : BlockFsTool) (s : tool_state) (info0 info1 : bytes) (rest : list bytes)
    (off size : Z) :
  StringSplit (blk_info_ t) (str ":") = info0 :: info1 :: rest ->
  atol info0 = off -> atol info1 = size -> 0 <= off -> 0 <= size ->
  off + size <= dev_size (w_dev (ts_world s)) < 2 ^ 63 ->
  wp (ExportBlkDeviceContents t) (fun ok s' =>
    w_store (ts_world s') = w_store (ts_world s) /\
    (forall x, x < off \/ off + size <= x -> st_get (ts_dst s') x = st_get (ts_dst s) x) /\
    (ok = true -> st_read (ts_dst s') off (Z.to_nat size)
                    = st_read (w_store (ts_world s)) off (Z.to_nat size)) /\
    ts_len s <= ts_len s' <= Z.max (ts_len s) (off + size) /\
    (ok = true -> ts_len s' = Z.max (ts_len s) (off + size)) /\
    (dev_good (ts_world s) -> dst_good s -> ok = bool_decide (0 < size))) s.
Proof.
  intros Hi H0 H1 Hoff Hsize Hdev. unfold ExportBlkDeviceContents. rewrite Hi.
  wp_step. apply (wp_in_bounds _ info0); [done|]. wp_step. apply (wp_in_bounds _ info1); [done|].
  rewrite H0, H1. wp_step. eapply wp_mono; [apply dst_call_wp|]. intros r1 s1 (Hr1 & Hw1 & Hd1 & Hl1 & Hg1).
  destruct (Z.ltb_spec r1 0).
  { wp_step. rewrite Hw1, Hd1, Hl1. split_and!; try done; try lia. intros _ Hs. destruct (Hg1 Hs). lia. }
  wp_step. eapply wp_mono; [apply dst_fallocate_wp|]. intros r2 s2 (Hw2 & Hd2 & Hl2 & Hg2).
  destruct Hl2 as [[-> Hl2]|(-> & Hpos & Hl2)]; cbn [Z.ltb Z.compare].
  { wp_step. rewrite Hw2, Hd2, Hl2, Hw1, Hd1, Hl1. split_and!; try done; try lia. intros _ Hs.
    destruct (Hg1 Hs) as [_ Hs1]. destruct (Hg2 Hs1). rewrite bool_decide_false by lia. done. }
  eapply wp_mono; [apply (export_loop_wp (export_fuel size) size off s2); try done|].
  - by rewrite Hw2, Hw1.
  - unfold export_fuel. assert (0 < kExportBufferSize) as Hk by done.
    pose proof (Z.div_mod size kExportBufferSize ltac:(lia)).
    pose proof (Z.mod_pos_bound size kExportBufferSize Hk). pose proof (Z.div_pos size kExportBufferSize).
    rewrite Nat2Z.inj_succ, Z2Nat.id by lia. nia.
  - rewrite <- Hw1, <- Hw2, <- Hd1, <- Hd2. intros ok s' ((e & evs & Hw) & Ho & Hc & [Hl Hle] & Hg).
    rewrite Hl2, Hl1 in Hl, Hle. unfold grown in Hl, Hle. rewrite (proj2 (Z.leb_gt size 0)) in Hl, Hle by lia.
    split_and!; try done; [by rewrite Hw|lia|lia|intros Hok; specialize (Hle Hok); lia|].
    intros Hd Hs. rewrite bool_decide_true by done. apply Hg; [done|]. by apply Hg2, Hg1.
Qed.
End Properties.

(** ** The extraction tool *)

Section Extraction.
Import Extract.

Definition answers_good (s : Extract.extract_state) : Prop := Forall (eq SysFull) (xs_events s).

Lemma next_event_wp (s : Extract.extract_state) : wp next_event (fun ev s' => xs_src s' = xs_src s /\
  xs_dst s' = xs_dst s /\ xs_len s' = xs_len s /\ (answers_good s -> ev = SysFull /\ answers_good s')) s.
Proof.
  unfold wp, next_event, answers_good. destruct s as [a b l [|ev evs]]; cbn [xs_src xs_dst xs_len xs_events head tail default].
  - by split_and!.
  - split_and!; [done..|]. by intros [<- ?]%Forall_cons.
Qed.

Lemma plain_call_wp (s : Extract.extract_state) : wp plain_call (fun r s' => xs_src s' = xs_src s /\
  xs_dst s' = xs_dst s /\ xs_len s' = xs_len s /\ (answers_good s -> r = 0 /\ answers_good s')) s.
Proof.
  unfold plain_call. wp_step. eapply wp_mono; [apply next_event_wp|]. intros ev s' (Hs & Hd & Hl & Hg).
  wp_step. split_and!; [done..|]. intros H. destruct (Hg H) as [-> ?]. done.
Qed.

Lemma extract_fallocate_wp (size : Z) (s : Extract.extract_state) :
  wp (extract_fallocate size) (fun r s' => xs_src s' = xs_src s /\ xs_dst s' = xs_dst s /\
    ((r = -1 /\ xs_len s' = xs_len s) \/ (r = 0 /\ 0 < size /\ xs_len s' = grown (xs_len s) 0 size)) /\
    (answers_good s -> (0 < size -> r = 0) /\ answers_good s')) s.
Proof.
  unfold extract_fallocate. wp_step. eapply wp_mono; [apply next_event_wp|]. intros ev s' (Hs & Hd & Hl & Hg).
  destruct ev; destruct (Z.leb_spec size 0); repeat wp_step; cbn [xs_src xs_dst xs_len];
    rewrite ?Hl; (split_and!; [done|done|by auto|intros [??]%Hg; split; [lia || done|done]]).
Qed.

(** the file has the range of the device, and nothing else of it changed *)
Definition extract_post (s : Extract.extract_state) (size off : Z) (ok : bool) (s' : Extract.extract_state) : Prop :=
  xs_src s' = xs_src s /\
  (forall x, x < off \/ off + size <= x -> st_get (xs_dst s') x = st_get (xs_dst s) x) /\
  (ok = true -> st_read (xs_dst s') off (Z.to_nat size) = st_read (xs_src s) off (Z.to_nat size)) /\
  (xs_len s <= xs_len s' <= grown (xs_len s) off size /\ (ok = true -> xs_len s' = grown (xs_len s) off size)) /\
  (answers_good s -> ok = true /\ answers_good s').

Lemma copy_piece_wp (s : Extract.extract_state) (len off : Z) (k : Xt bool) (Q : bool -> Extract.extract_state -> Prop) :
  0 <= len -> (forall s', extract_post s len off false s' -> Q false s') ->
  (forall s', extract_post s len off true s' -> wp k Q s') ->
  wp (copy_piece len off k) Q s.
Proof.
  intros Hlen Hno Hyes. pose proof (grown_bounds (xs_len s) off len) as Hgl. unfold copy_piece, src_pread. wp_step. wp_step.
  eapply wp_mono; [apply next_event_wp|]. intros ev s1 (Hs1 & Hd1 & Hl1 & Hg1). repeat wp_step.
  destruct (sys_pread 0 (xs_src s1) ev 0 (Z.to_nat len) off 0 []) as [[n e] out] eqn:Hr. wp_step.
  assert (Hread : (n = len -> out = st_read (xs_src s) off (Z.to_nat len)) /\ (ev = SysFull -> n = len)).
  { unfold sys_pread in Hr. cbn [Z.ltb Z.compare] in Hr.
    destruct ev; injection Hr as <- <- <-; cbn [sys_count app] in *; rewrite ?Hs1; split; try done; try lia.
    intros Hn. f_equal. lia. }
  destruct Hread as [Hout Hfull]. destruct (Z.eqb_spec n len) as [->|Hne]; cbn [negb].
  2:{ wp_step. apply Hno. split_and!; [done|by rewrite Hd1|done|lia|lia|done|].
      intros H. destruct (Hg1 H) as [Hev _]. by destruct (Hne (Hfull Hev)). }
  specialize (Hout eq_refl). assert (Hol : length out = Z.to_nat len) by by rewrite Hout, st_read_length.
  unfold extract_pwrite. wp_step. wp_step. eapply wp_mono; [apply next_event_wp|]. intros ev2 s2 (Hs2 & Hd2 & Hl2 & Hg2).
  destruct (sys_pwrite 0 out ev2 0 (length out) off 0 (xs_dst s2)) as [[r e2] m] eqn:Hw.
  assert (Hwr : exists j, (j <= Z.to_nat len)%nat /\ m = st_write (xs_dst s) off (take j out) /\
    (r = len -> j = Z.to_nat len) /\ (ev2 = SysFull -> r = len) /\ r <= len).
  { unfold sys_pwrite in Hw. cbn [Z.ltb Z.compare] in Hw. rewrite Hd2, Hd1 in Hw.
    destruct ev2 as [|j|e3]; injection Hw as <- <- <-; cbn [sys_count].
    - exists (length out). split_and!; try done; lia.
    - exists (Nat.min j (length out)). split_and!; try done; lia.
    - exists 0%nat. split_and!; try done; lia. }
  unfold wp at 1. rewrite Hw. destruct Hwr as (j & Hj & -> & Hrj & Hfull2 & Hrl).
  assert (Hoth : forall x, x < off \/ off + len <= x ->
    st_get (st_write (xs_dst s) off (take j out)) x = st_get (xs_dst s) x).
  { intros x Hx. apply st_write_get_out. rewrite length_take. lia. }
  set (s3 := MkState (xs_src s2) (st_write (xs_dst s) off (take j out)) (grown (xs_len s2) off r) (xs_events s2)).
  assert (Hgood : answers_good s -> r = len /\ answers_good s3).
  { intros H. destruct (Hg1 H) as [_ H1]. destruct (Hg2 H1) as [Hev H2]. split; [by apply Hfull2|exact H2]. }
  assert (Hsrc : xs_src s3 = xs_src s) by (cbn; congruence).
  assert (Hl3 : xs_len s3 = grown (xs_len s) off r) by (cbn; congruence).
  destruct (Z.eqb_spec r len) as [->|Hne]; cbn [negb].
  - apply Hyes. split_and!; [done|exact Hoth| |lia|lia|by intros _|by intros H; destruct (Hgood H)].
    intros _. cbn [s3 xs_dst]. rewrite (Hrj eq_refl), take_ge by lia. rewrite <- Hol at 1.
    by rewrite st_read_write_same.
  - wp_step. pose proof (grown_bounds (xs_len s) off r). pose proof (grown_mono (xs_len s) off r len Hrl).
    apply Hno. split_and!; [done|exact Hoth|done|lia|lia|done|]. intros Hx. by destruct (Hgood Hx).
Qed.

Lemma extract_loop_wp (fuel : nat) : forall (size off : Z) (s : Extract.extract_state),
  0 <= size < kExtractBufferSize * Z.of_nat fuel ->
  wp (Extract.extract_loop fuel size off) (extract_post s size off) s.
Proof.
  induction fuel as [|fuel IH]; intros size off s Hf; [lia|]. cbn [Extract.extract_loop].
  assert (Hk : 0 < kExtractBufferSize) by done.
  destruct (Z.leb_spec size 0) as [H0|H0].
  { wp_step. assert (size = 0) as -> by lia. by split_and!. }
  destruct (Z.leb_spec kExtractBufferSize size) as [Hfull|Hpart].
  - apply copy_piece_wp; [lia| |].
    + intros s1 (Hw & Ho & _ & [Hl _] & Hg).
      pose proof (grown_mono (xs_len s) off kExtractBufferSize size Hfull).
      split_and!; [done| |done|lia|lia|done|by intros H1; destruct (Hg H1)].
      intros x Hx. apply Ho. lia.
    + intros s1 (Hw & Ho & Hc & [Hl Hle] & Hg). specialize (Hle eq_refl).
      pose proof (grown_add (xs_len s) off kExtractBufferSize (size - kExtractBufferSize) ltac:(lia) ltac:(lia)) as Hadd.
      replace (kExtractBufferSize + (size - kExtractBufferSize)) with size in Hadd by lia.
      eapply wp_mono; [apply (IH (size - kExtractBufferSize) (off + kExtractBufferSize) s1); lia|].
      intros ok s2 (Hw2 & Ho2 & Hc2 & [Hl2 Hle2] & Hg2). rewrite Hle, Hadd in Hl2, Hle2.
      split_and!; [| | |lia|lia|done|].
      * congruence.
      * intros x Hx. rewrite Ho2, Ho by lia. done.
      * intros Hok. replace (Z.to_nat size)
          with (Z.to_nat kExtractBufferSize + Z.to_nat (size - kExtractBufferSize))%nat by lia.
        rewrite !st_read_app, Z2Nat.id by lia. f_equal.
        -- rewrite <- Hc by done. apply st_read_ext. intros x Hx. apply Ho2. lia.
        -- rewrite Hc2 by done. by rewrite Hw.
      * intros H. destruct (Hg H) as [_ H1]. by apply Hg2.
  - apply copy_piece_wp; [lia|by intros|].
    intros s1 (Hw & Ho & Hc & [Hl Hle] & Hg). wp_step. eapply wp_mono; [apply plain_call_wp|].
    intros r s2 (Hw2 & Hd2 & Hl2 & Hg2). unfold extract_post. specialize (Hle eq_refl).
    destruct (Z.ltb_spec r 0); wp_step; rewrite Hw2, Hd2; (split_and!; [done|done|by auto|lia|lia|lia|]).
    + intros H1. destruct (Hg H1) as [_ H2]. destruct (Hg2 H2). lia.
    + intros H1. destruct (Hg H1) as [_ H2]. split; [done|]. by apply Hg2.
Qed.

(** C32: the extraction of a range of a device into a file ends and never crashes,
    whatever the kernel answers, and leaves the device alone; when it succeeds the
    file has the bytes of the range at the offset that they have on the device, and
    no other byte of the file is written; it does succeed when no call fails and the
    range is not empty.  The file is never cut; on success it is as long as the
    range's end or its size or as it was, whichever is most. *)
Theorem extract_exact (off size : Z) (s : Extract.extract_state) :
  0 <= size -> wp (ExportBlkDevice off size) (fun ok s' => xs_src s' = xs_src s /\
    (forall x, x < off \/ off + size <= x -> st_get (xs_dst s') x = st_get (xs_dst s) x) /\
    (ok = true -> st_read (xs_dst s') off (Z.to_nat size) = st_read (xs_src s) off (Z.to_nat size)) /\
    xs_len s <= xs_len s' <= Z.max (xs_len s) (Z.max size (off + size)) /\
    (ok = true -> xs_len s' = Z.max (xs_len s) (Z.max size (off + size))) /\
    (answers_good s -> ok = bool_decide (0 < size))) s.
Proof.
  intros Hs. unfold ExportBlkDevice.
  wp_step. eapply wp_mono; [apply plain_call_wp|]. intros r1 s1 (H1 & D1 & L1 & G1).
  destruct (Z.ltb_spec r1 0).
  { wp_step. rewrite H1, D1, L1. split_and!; try done; try lia. intros Hx. destruct (G1 Hx). lia. }
  wp_step. eapply wp_mono; [apply plain_call_wp|]. intros r2 s2 (H2 & D2 & L2 & G2).
  destruct (Z.ltb_spec r2 0).
  { wp_step. rewrite H2, D2, L2, H1, D1, L1. split_and!; try done; try lia.
    intros Hx. destruct (G1 Hx) as [_ H']. destruct (G2 H'). lia. }
  wp_step. eapply wp_mono; [apply extract_fallocate_wp|]. intros r3 s3 (H3 & D3 & L3 & G3).
  rewrite H2, H1 in H3. rewrite D2, D1 in D3. rewrite L2, L1 in L3.
  assert (Hgood : answers_good s -> (0 < size -> r3 = 0) /\ answers_good s3).
  { intros Hx. destruct (G1 Hx) as [_ Hy]. destruct (G2 Hy) as [_ Hz]. by apply G3. }
  destruct L3 as [[-> L3]|(-> & Hpos & L3)]; cbn [Z.ltb Z.compare].
  { wp_step. rewrite H3, D3, L3. split_and!; try done; try lia.
    intros Hx. destruct (Hgood Hx). rewrite bool_decide_false by lia. done. }
  assert (0 < kExtractBufferSize) as Hk by done.
  pose proof (Z.div_mod size kExtractBufferSize ltac:(lia)).
  pose proof (Z.mod_pos_bound size kExtractBufferSize Hk). pose proof (Z.div_pos size kExtractBufferSize).
  eapply wp_mono; [apply extract_loop_wp; rewrite Nat2Z.inj_succ, Z2Nat.id by lia; nia|].
  intros ok s4 (S4 & O4 & C4 & [L4 E4] & G4). rewrite H3 in *. rewrite D3 in *. rewrite L3 in L4, E4.
  unfold grown in L4, E4. rewrite (proj2 (Z.leb_gt size 0)) in L4, E4 by lia.
  split_and!; try done; [lia|lia|intros Hok; specialize (E4 Hok); lia|].
  intros Hx. destruct (Hgood Hx) as [_ H']. rewrite bool_decide_true by done. by apply G4.
Qed.
End Extraction.

(** ** The mount tool *)

Module Mounting.
Import MountTool.

(** the same but for the device *)
Definition same_mount (o o' : mount_options) : Prop :=
  mt_config_path o = mt_config_path o' /\ mt_mountpoint o = mt_mountpoint o' /\ (mt_device o = [] <-> mt_device o' = []).

Lemma parse_all_same (opts : list (Z * bytes)) : forall (o o' : mount_options), same_mount o o' ->
  match mount_parse o opts, mount_parse o' opts with
  | inl a, inl b => a = b
  | inr a, inr b => same_mount a b
  | _, _ => False
  end.
Proof.
  induction opts as [|[c arg] opts IH]; intros o o' Hs; cbn [mount_parse]; [done|].
  destruct Hs as (Hc & Hm & Hd). unfold mount_one.
  destruct (c =? 99); [by apply IH|]. destruct (c =? 100); [by apply IH|].
  destruct (c =? 109); [by apply IH|]. done.
Qed.

(** the device that must be named is not used: that of the configuration is mounted *)
Lemma mount_ignores_device (mount : bytes -> Fs Z) (d d' : bytes) (opts : list (Z * bytes)) :
  d <> [] -> d' <> [] -> mount_main mount ((100, d) :: opts) = mount_main mount ((100, d') :: opts).
Proof.
  intros Hd Hd'. unfold mount_main. cbn [mount_parse mount_one Z.eqb Pos.eqb].
  pose proof (parse_all_same opts (MkOptions (mt_config_path mount_options_init) d (mt_mountpoint mount_options_init))
    (MkOptions (mt_config_path mount_options_init) d' (mt_mountpoint mount_options_init))) as Hp.
  destruct (mount_parse _ opts), (mount_parse _ opts); try (by destruct Hp; split_and!; cbn).
  - by destruct Hp; [split_and!; cbn; tauto|].
  - destruct Hp as (-> & -> & Hdev); [split_and!; cbn; tauto|].
    by rewrite (bool_decide_ext _ _ Hdev).
Qed.
End Mounting.

(** ** Witness *)

(** the five bytes of the file "a" of the demo device *)
Definition demo_tool : tool_state := MkToolState demo ∅ 0 [].

Lemma export_exact_witness :
  wp (ExportBlkDeviceContents (MkTool BLOCKFS_BLK [] [] (str "12582912:5") []))
    (fun ok s' => ok = true /\ st_read (ts_dst s') 12582912 5 = str "hello") demo_tool.
Proof.
  eapply wp_mono; [apply (export_exact (MkTool BLOCKFS_BLK [] [] (str "12582912:5") []) demo_tool
    (str "12582912") (str "5") [] 12582912 5); try reflexivity; try done|].
  intros ok s' (_ & _ & Hc & _ & _ & Hg). assert (ok = true) as -> by (apply Hg; [exact demo_good|by constructor]).
  split; [reflexivity|].
  transitivity (st_read (w_store demo) 12582912 5); [exact (Hc eq_refl)|reflexivity].
Defined.

(** "hello" of the demo device is extracted *)
Lemma extract_exact_witness :
  wp (Extract.ExportBlkDevice 12582912 5) (fun ok s' => ok = true /\
    st_read (Extract.xs_dst s') 12582912 5 = str "hello") (Extract.MkState (w_store demo) ∅ 0 []).
Proof.
  eapply wp_mono; [apply (extract_exact 12582912 5 (Extract.MkState (w_store demo) ∅ 0 [])); done|].
  intros ok s' (_ & _ & Hc & _ & _ & Hg). assert (ok = true) as -> by (apply Hg; by constructor).
  split; [reflexivity|].
  transitivity (st_read (w_store demo) 12582912 5); [exact (Hc eq_refl)|reflexivity].
Defined.
