(* ===== verification/TokenBucketTheorems.v ===== *)
(** * The token bucket: theorems

    Calls of several threads on one bucket behave as calls made one after the
    other, [consumeOrDrain] and the borrowing built on it apart; what borrowing
    does and that it ends; what the time in the bucket promises. *)

From Stdlib Require Import SpecFloat.
From S2P Require Import Prelude Doubles TokenBucket.

(** ** Programs run alone *)

Lemma alone_bind {A B} (p : atomic_prog A) (k : A -> atomic_prog B) s :
  alone (p ≫= k) s =
  match alone p s with Finished a s' => alone (k a) s' | Faulted => Faulted | Spinning => Spinning end.
Proof.
  revert s; induction p as [a| | |c IH|e n c IH|n c IH|u c IH]; intros s; cbn; try done;
    try apply IH.
  case_match; apply IH.
Qed.

(** ** Calls that take effect in one access *)

(** from any point on, the program changes nothing, or it takes effect as [S]
    says and is about to return *)
Fixpoint atomic_in {R} (S : double -> R -> double -> Prop) (p : atomic_prog R) : Prop :=
  match p with
  | Return _ => False
  | Fault | Spin => True
  | Read k => forall z, (exists r, k z = Return r /\ S z r z) \/ atomic_in S (k z)
  | Cas e n k =>
    (exists r, k (true, e) = Return r /\ S e r n) /\ forall z, atomic_in S (k (false, z))
  | Write n k => forall z, exists r, k = Return r /\ S z r n
  | Sleep _ k => atomic_in S k
  end.

Lemma atomic_access {R} (S : double -> R -> double -> Prop) p z z' p' :
  atomic_in S p -> access p z z' p' ->
  z' = z /\ atomic_in S p' \/ exists r, p' = Return r /\ S z r z'.
Proof. intros H A; destruct A; cbn in H; naive_solver. Qed.

Lemma atomic_in_bind {A R} (S : double -> A -> double -> Prop) (T : double -> R -> double -> Prop)
    (p : atomic_prog A) (k : A -> atomic_prog R) :
  atomic_in S p -> (forall z a z', S z a z' -> exists r, k a = Return r /\ T z r z') ->
  atomic_in T (p ≫= k).
Proof.
  intros Hp H; induction p as [a| | |c IH|e n c IH|n c IH|u c IH]; cbn in *; try done.
  - intros z; destruct (Hp z) as [(a & -> & HS)|Ha]; [left; cbn; eauto|right; eauto].
  - destruct Hp as [(a & -> & HS) Hp]; split; [cbn; eauto|]; intros z; eauto.
  - intros z; destruct (Hp z) as (a & -> & HS); cbn; eauto.
  - eauto.
Qed.

Lemma atomic_must {R} (S : double -> R -> double -> Prop) b (p : atomic_prog R) :
  (b = true -> atomic_in S p) -> atomic_in S (must b; p).
Proof. destruct b; cbn; auto. Qed.

Section Pool.
Context {C R : Type} (code : C -> atomic_prog R).

Definition thread_ok (t : thread (C := C) (R := R)) : Prop :=
  (forall c, c ∈ th_calls t -> atomic_in (runs_alone code c) (code c)) /\
  match th_running t with
  | None | Some (_, Return _) => True
  | Some (c, p) => atomic_in (runs_alone code c) p
  end.

Lemma thread_ok_running d c p cs :
  thread_ok (MkThread d (Some (c, p)) cs) ->
  (exists r, p = Return r) \/ atomic_in (runs_alone code c) p.
Proof. intros [_ H]; cbn in H; destruct p; eauto. Qed.

Lemma atomic_thread_ok d c p cs :
  (forall c, c ∈ cs -> atomic_in (runs_alone code c) (code c)) ->
  atomic_in (runs_alone code c) p -> thread_ok (MkThread d (Some (c, p)) cs).
Proof. intros H A; split; [done|]; cbn; by destruct p. Qed.

Lemma atomic_results d c p cs S :
  atomic_in S p -> results (C := C) (R := R) (MkThread d (Some (c, p)) cs) = d.
Proof. intros A; unfold results; cbn; destruct p; try done; by rewrite app_nil_r. Qed.

(** a step of a thread takes effect at most once *)
Lemma thread_step_ok i t z z' t' :
  thread_ok t -> thread_step code t z z' t' ->
  thread_ok t' /\ exists new, results t' = results t ++ new /\ explains code z (pair i <$> new) z'.
Proof.
  intros Ok St; destruct St as [d c cs z|d c p p' cs z z' A|d c r cs z].
  - destruct Ok as [Ok _]; cbn in Ok.
    assert (A : atomic_in (runs_alone code c) (code c)) by (apply Ok; set_solver).
    split; [apply atomic_thread_ok; [set_solver|done]|].
    exists []; rewrite (atomic_results _ _ _ _ _ A); unfold results; cbn; by rewrite !app_nil_r.
  - destruct (thread_ok_running _ _ _ _ Ok) as [[r ->]|At]; [by inversion A|].
    rewrite (atomic_results _ _ _ _ _ At).
    destruct Ok as [Ok _], (atomic_access _ _ _ _ _ At A) as [[-> At']|(r & -> & E)].
    + split; [by apply atomic_thread_ok|].
      exists []; by rewrite (atomic_results _ _ _ _ _ At'), app_nil_r.
    + split; [done|]; exists [(c, r)]; cbn; eauto.
  - split; [by destruct Ok|]; exists []; unfold results; cbn; by rewrite !app_nil_r.
Qed.

Lemma explains_app z o1 z1 o2 z2 :
  explains code z o1 z1 -> explains code z1 o2 z2 -> explains code z (o1 ++ o2) z2.
Proof.
  revert z; induction o1 as [|[i [c r]] o1 IH]; intros z H1 H2; cbn in *; [by subst|].
  destruct H1 as (z' & ? & ?); eauto.
Qed.

Lemma of_thread_app i (o1 o2 : list (nat * (C * R))) :
  of_thread i (o1 ++ o2) = of_thread i o1 ++ of_thread i o2.
Proof. unfold of_thread; by rewrite filter_app, fmap_app. Qed.

Lemma of_thread_pair i j (l : list (C * R)) :
  of_thread i (pair j <$> l) = if decide (j = i) then l else [].
Proof.
  unfold of_thread; induction l as [|x l IH]; [by case_decide|].
  rewrite fmap_cons, filter_cons; cbn.
  case_decide; cbn; [|done]; by rewrite IH.
Qed.

Definition pool_ok (ts : list (thread (C := C) (R := R))) : Prop := Forall thread_ok ts.

(** what [order] adds to the results of each thread *)
Definition extends (ts ts' : list (thread (C := C) (R := R))) (order : list (nat * (C * R))) : Prop :=
  length ts' = length ts /\
  forall i t t', ts !! i = Some t -> ts' !! i = Some t' -> results t' = results t ++ of_thread i order.

Lemma pool_step_ok ts z ts' z' :
  pool_ok ts -> pool_step code (ts, z) (ts', z') ->
  pool_ok ts' /\ exists order, explains code z order z' /\ extends ts ts' order.
Proof.
  intros Ok St; inversion St as [? i t t' ? ? Hi Hs]; subst.
  pose proof (Forall_lookup_1 _ _ _ _ Ok Hi) as Ot.
  destruct (thread_step_ok i _ _ _ _ Ot Hs) as (Ok' & new & En & Ex).
  split; [by apply Forall_insert|].
  exists (pair i <$> new); split; [done|]; split; [by rewrite length_insert|].
  intros j u u' Hj Hj'; rewrite of_thread_pair; case_decide as E.
  - subst j; rewrite list_lookup_insert_eq in Hj' by (by eapply lookup_lt_Some); naive_solver.
  - rewrite list_lookup_insert_ne in Hj' by done; rewrite app_nil_r; naive_solver.
Qed.

Lemma pool_steps_ok s s' :
  rtc (pool_step code) s s' -> pool_ok s.1 ->
  pool_ok s'.1 /\ exists order, explains code s.2 order s'.2 /\ extends s.1 s'.1 order.
Proof.
  induction 1 as [s|[ts z] [ts1 z1] [ts2 z2] St _ IH]; intros Ok.
  { split; [done|]; exists []; split; [done|]; split; [done|]; intros i t t' -> [= ->]; by rewrite app_nil_r. }
  destruct (pool_step_ok _ _ _ _ Ok St) as (Ok1 & o1 & E1 & L1 & X1).
  destruct (IH Ok1) as (Ok2 & o2 & E2 & L2 & X2); cbn in *.
  split; [done|]; exists (o1 ++ o2); split; [by eapply explains_app|]; split; [lia|].
  intros i t t' Ht Ht'.
  destruct (lookup_lt_is_Some_2 ts1 i) as [t1 Ht1]; [apply lookup_lt_Some in Ht; lia|].
  rewrite (X2 _ _ _ Ht1 Ht'), (X1 _ _ _ Ht Ht1), of_thread_app; by rewrite app_assoc.
Qed.

Lemma pool_init_ok (calls : list (list C)) :
  (forall cs c, cs ∈ calls -> c ∈ cs -> atomic_in (runs_alone code c) (code c)) ->
  pool_ok (pool_init calls).
Proof.
  intros H; apply Forall_fmap, Forall_forall; intros cs Hcs; split; [|done].
  intros c; by apply (H cs).
Qed.

Lemma pool_init_results (calls : list (list C)) i t :
  pool_init (R := R) calls !! i = Some t -> results t = [].
Proof. unfold pool_init; rewrite list_lookup_fmap; destruct (calls !! i); naive_solver. Qed.

End Pool.

(** ** What the storage's calls do *)

Section Storage.
Context (rate burstSize now : double).

(** the tokens in the bucket *)
Definition tokens_of (z : double) : double := std_min ((now - z) * rate)%D burstSize.

(** [zeroTime_] after [consumed] tokens are taken *)
Definition zero_after (z consumed : double) : double :=
  if (consumed =? 0)%D then z else (now - (tokens_of z - consumed) / rate)%D.

(** the exchanges after the one that works *)
Fixpoint exchanges_left (weak : list bool) : list bool :=
  match weak with true :: weak => exchanges_left weak | _ => tail weak end.

Lemma exchanges_left_length weak : (length (exchanges_left weak) <= length weak)%nat.
Proof. induction weak as [|[] weak IH]; cbn; lia. Qed.

Definition consumer_leaves (consumed : double) (s : alone_state) : alone_state :=
  MkAlone (zero_after (al_zero s) consumed)
    (if (consumed =? 0)%D then al_weak s else exchanges_left (al_weak s)) (al_naps s).

Lemma alone_consume_loop tries callback s :
  (length (al_weak s) < tries)%nat ->
  alone (consume_loop tries rate burstSize now callback) s =
  let consumed := callback (tokens_of (al_zero s)) in Finished consumed (consumer_leaves consumed s).
Proof.
  revert s; induction tries as [|tries IH]; intros [z weak naps] Hw; cbn in *; [lia|].
  fold (tokens_of z); unfold consumer_leaves, zero_after; cbn.
  destruct (callback (tokens_of z) =? 0)%D eqn:E0; cbn; [done|].
  rewrite (bool_decide_true (z = z)) by done; rewrite andb_true_r.
  destruct weak as [|[] weak]; cbn in *; [done| |done].
  rewrite IH by (cbn; lia); cbn; unfold consumer_leaves, zero_after; cbn; by rewrite E0.
Qed.

(** the loop takes effect in one access *)
Lemma consume_loop_atomic tries callback :
  atomic_in (fun z consumed z' => consumed = callback (tokens_of z) /\ z' = zero_after z consumed)
    (consume_loop tries rate burstSize now callback).
Proof.
  induction tries as [|tries IH]; cbn; [done|].
  intros z; fold (tokens_of z); unfold zero_after.
  destruct (callback (tokens_of z) =? 0)%D eqn:E; cbn.
  - left; eexists; split; [done|]; by rewrite E.
  - right; split; [|done]; eexists; split; [done|]; by rewrite E.
Qed.

End Storage.

Lemma return_loop_atomic tries n rate seen :
  atomic_in (fun z z1 z' => z1 = (z - n / rate)%D /\ z' = z1) (return_loop tries n rate seen).
Proof. revert seen; induction tries as [|tries IH]; intros seen; cbn; [done|]; split; eauto. Qed.

Lemma alone_return_loop tries n rate s :
  (length (al_weak s) < tries)%nat ->
  alone (return_loop tries n rate (al_zero s)) s =
  let z := (al_zero s - n / rate)%D in
  Finished z (MkAlone z (exchanges_left (al_weak s)) (al_naps s)).
Proof.
  revert s; induction tries as [|tries IH]; intros [z weak naps] Hw; cbn in *; [lia|].
  rewrite (bool_decide_true (z = z)) by done; rewrite andb_true_r.
  destruct weak as [|[] weak]; cbn in *; [done| |done].
  apply (IH (MkAlone z weak naps)); cbn; lia.
Qed.

(** ** Comparisons of doubles *)

Lemma lt_0_lt a b : (a <? 0)%D = true -> (0 <? b)%D = true -> (a <? b)%D = true.
Proof. double_cases. Qed.

Lemma pos_eq_refl a : (0 <? a)%D = true -> (a =? a)%D = true.
Proof. double_cases; intros _; by rewrite Z.compare_refl, Pos.compare_cont_refl. Qed.

Lemma pos_neq_0 a : (0 <? a)%D = true -> (a =? 0)%D = false.
Proof. double_cases. Qed.

Lemma pos_0_neq a : (0 <? a)%D = true -> (0 =? a)%D = false.
Proof. double_cases. Qed.

(** ** The calls of a bucket *)

Lemma alone_available rate burstSize now s :
  (0 <? rate)%D = true -> (0 <? burstSize)%D = true ->
  alone (storage_available rate burstSize now) s = Finished (tokens_of rate burstSize now (al_zero s)) s.
Proof. unfold storage_available, Assert; by intros -> ->. Qed.

Lemma alone_storage_consume tries rate burstSize now callback s :
  (0 <? rate)%D = true -> (0 <? burstSize)%D = true -> (length (al_weak s) < tries)%nat ->
  alone (storage_consume tries rate burstSize now callback) s =
  let consumed := callback (tokens_of rate burstSize now (al_zero s)) in
  Finished consumed (consumer_leaves rate burstSize now consumed s).
Proof. unfold storage_consume, Assert; intros -> -> ?; by apply alone_consume_loop. Qed.

Lemma consumer_leaves_0 rate burstSize now s : consumer_leaves rate burstSize now 0%D s = s.
Proof. by destruct s. Qed.

Lemma consumer_leaves_nil rate burstSize now c z naps :
  consumer_leaves rate burstSize now c (MkAlone z [] naps) = MkAlone (zero_after rate burstSize now z c) [] naps.
Proof. unfold consumer_leaves; cbn; by destruct (c =? 0)%D. Qed.

Lemma alone_returnTokens tries n rate s :
  (0 <? rate)%D = true -> (length (al_weak s) < tries)%nat ->
  alone (storage_returnTokens tries n rate) s =
  Finished () (MkAlone (al_zero s - n / rate)%D (exchanges_left (al_weak s)) (al_naps s)).
Proof.
  intros Hr Hw; unfold storage_returnTokens, Assert, returnTokensImpl; rewrite Hr.
  change (alone ((load ≫= return_loop tries n rate) ≫= fun _ => Return ()) s =
          Finished () (MkAlone (al_zero s - n / rate)%D (exchanges_left (al_weak s)) (al_naps s))).
  by rewrite !alone_bind; cbn; rewrite alone_return_loop.
Qed.

(** [consume] takes all or nothing *)
Lemma alone_consume tries n rate burstSize now s :
  (0 <? n)%D = true -> (0 <? rate)%D = true -> (0 <? burstSize)%D = true ->
  (length (al_weak s) < tries)%nat ->
  alone (dynamic_consume tries n rate burstSize now) s =
  if (tokens_of rate burstSize now (al_zero s) <? n)%D then Finished false s
  else Finished true (consumer_leaves rate burstSize now n s).
Proof.
  intros Hn Hr Hb Hw; unfold dynamic_consume, Assert; rewrite Hr, Hb; cbn [mbind atomic_bind].
  rewrite alone_bind, alone_available by done; cbn beta iota.
  set (a := tokens_of rate burstSize now (al_zero s)).
  destruct (a <? 0)%D eqn:Ea; [by rewrite (lt_0_lt a n)|].
  rewrite alone_bind, alone_storage_consume by done; cbn beta zeta iota; fold a.
  destruct (a <? n)%D; cbn beta iota.
  - rewrite (pos_0_neq n), consumer_leaves_0 by done; done.
  - by rewrite (pos_eq_refl n).
Qed.

Lemma alone_drain tries n rate burstSize now s :
  (0 <? rate)%D = true -> (0 <? burstSize)%D = true -> (length (al_weak s) < tries)%nat ->
  alone (dynamic_consumeOrDrain tries n rate burstSize now) s =
  let a := tokens_of rate burstSize now (al_zero s) in
  if (a <=? 0)%D then Finished 0%D s
  else Finished (constexpr_min_double a n) (consumer_leaves rate burstSize now (constexpr_min_double a n) s).
Proof.
  intros Hr Hb Hw; unfold dynamic_consumeOrDrain, Assert; rewrite Hr, Hb; cbn [mbind atomic_bind].
  rewrite alone_bind, alone_available by done; cbn beta iota zeta.
  set (a := tokens_of rate burstSize now (al_zero s)).
  destruct (a <=? 0)%D; [done|]; by rewrite alone_storage_consume.
Qed.

(** ** Calls that are atomic *)

Lemma consume_atomic tries n rate burstSize now :
  (0 <? n)%D = true ->
  atomic_in (fun z r z' => (0 <? rate)%D = true /\ (0 <? burstSize)%D = true /\
               r = negb (tokens_of rate burstSize now z <? n)%D /\
               z' = if r then zero_after rate burstSize now z n else z)
    (dynamic_consume tries n rate burstSize now).
Proof.
  intros Hn; unfold dynamic_consume.
  apply atomic_must; intros Hr; apply atomic_must; intros Hb; unfold storage_available, Assert.
  rewrite Hr, Hb; cbn; intros z; fold (tokens_of rate burstSize now z).
  destruct (tokens_of rate burstSize now z <? 0)%D eqn:Ea.
  { left; exists false; by rewrite (lt_0_lt _ n Ea Hn). }
  right; unfold storage_consume, Assert; rewrite Hr, Hb; cbn [mbind atomic_bind].
  eapply atomic_in_bind; [apply consume_loop_atomic|].
  intros z0 a z1 [-> ->]; cbn beta; destruct (tokens_of rate burstSize now z0 <? n)%D eqn:E; cbn.
  - rewrite (pos_0_neq n) by done; cbn; by eexists.
  - rewrite (pos_eq_refl n) by done; cbn; by eexists.
Qed.

Lemma returnTokens_atomic tries n rate :
  atomic_in (fun z _ z' => (0 <? rate)%D = true /\ (0 <? n)%D = true /\ z' = (z - n / rate)%D)
    (dynamic_returnTokens tries n rate).
Proof.
  unfold dynamic_returnTokens, storage_returnTokens.
  apply atomic_must; intros Hr; apply atomic_must; intros Hn; apply atomic_must; intros _.
  unfold returnTokensImpl, load; cbn; intros z; right.
  eapply atomic_in_bind; [apply return_loop_atomic|]; cbn; naive_solver.
Qed.

Lemma available_atomic rate burstSize now :
  atomic_in (fun z a z' => (0 <? rate)%D = true /\ (0 <? burstSize)%D = true /\
               a = std_max 0%D (tokens_of rate burstSize now z) /\ z' = z)
    (dynamic_available rate burstSize now).
Proof.
  unfold dynamic_available, storage_available.
  apply atomic_must; intros Hr; apply atomic_must; intros Hb; rewrite Hr, Hb; cbn; eauto 10.
Qed.

Definition atomic_call (c : bucket_call) : Prop :=
  match c with
  | CConsume n _ _ _ => (0 <? n)%D = true
  | CReturnTokens _ _ | CReset _ | CAvailable _ _ _ => True
  | CConsumeOrDrain _ _ _ _ | CBorrow _ _ _ _ => False
  end.

Lemma alone_map {A B} (f : A -> B) (p : atomic_prog A) s a s' :
  alone p s = Finished a s' -> alone (f <$> p) s = Finished (f a) s'.
Proof. intros H; unfold fmap, atomic_map; by rewrite alone_bind, H. Qed.

Lemma call_atomic tries c :
  (0 < tries)%nat -> atomic_call c -> atomic_in (runs_alone (call_code tries) c) (call_code tries c).
Proof.
  intros Ht Hc; destruct c as [n r b t|n r b t|n r|n r b t|z|r b t]; try done; unfold call_code at 2.
  - eapply atomic_in_bind; [by apply consume_atomic|].
    intros z a z' (Hr & Hb & -> & ->); eexists; split; [done|]; eexists; cbn [call_code].
    eapply alone_map; rewrite alone_consume by done; cbn [al_zero].
    rewrite consumer_leaves_nil; by destruct (tokens_of r b t z <? n)%D.
  - eapply atomic_in_bind; [by apply returnTokens_atomic|].
    intros z [] z' (Hr & Hn & ->); eexists; split; [done|]; eexists; cbn [call_code].
    unfold dynamic_returnTokens, Assert; rewrite Hr, Hn; cbn [mbind atomic_bind].
    rewrite alone_bind, alone_returnTokens by done; done.
  - intros z0; eexists; split; [done|]; by eexists.
  - eapply atomic_in_bind; [by apply available_atomic|].
    intros z a z' (Hr & Hb & -> & ->); eexists; split; [done|]; eexists; cbn [call_code].
    unfold dynamic_available, Assert; rewrite Hr, Hb; apply alone_map; cbn [mbind atomic_bind].
    by rewrite alone_bind, alone_available.
Qed.

(** C34: [consume], [returnTokens], [reset] and [available] of a bucket are
    linearizable: threads make sequences of such calls on one bucket, their accesses
    to [zeroTime_] interleave in any way, and exchanges may fail without reason.
    Between any two moments there is an order of the calls that took effect, each
    thread's in the order it made and saw them, in which the calls, run one after
    the other by a single thread, give the same results and leave the same
    [zeroTime_]; a call that has returned at the first moment is before it. *)
Theorem bucket_linearizable tries calls z0 ts z ts' z' :
  (0 < tries)%nat ->
  (forall cs c, cs ∈ calls -> c ∈ cs -> atomic_call c) ->
  rtc (pool_step (call_code tries)) (pool_init calls, z0) (ts, z) ->
  rtc (pool_step (call_code tries)) (ts, z) (ts', z') ->
  exists past order,
    explains (call_code tries) z0 past z /\
    explains (call_code tries) z order z' /\
    length ts = length calls /\ length ts' = length calls /\
    (forall i t, ts !! i = Some t -> results t = of_thread i past) /\
    (forall i t, ts' !! i = Some t -> results t = of_thread i (past ++ order)).
Proof.
  intros Ht Hc S1 S2.
  destruct (pool_steps_ok _ _ _ S1) as (Ok & past & E1 & L1 & X1).
  { apply pool_init_ok; intros cs c ? ?; apply call_atomic; eauto. }
  destruct (pool_steps_ok _ _ _ S2 Ok) as (_ & order & E2 & L2 & X2); cbn in *.
  assert (L : length (pool_init (R := bucket_answer) calls) = length calls) by apply length_fmap.
  exists past, order; do 2 (split; [done|]); do 2 (split; [lia|]).
  assert (P : forall i t, ts !! i = Some t -> results t = of_thread i past).
  { intros i t Hi; destruct (lookup_lt_is_Some_2 (pool_init (R := bucket_answer) calls) i) as [t0 H0].
    - apply lookup_lt_Some in Hi; lia.
    - by rewrite (X1 _ _ _ H0 Hi), (pool_init_results _ _ _ H0). }
  split; [done|]; intros i t Hi.
  destruct (lookup_lt_is_Some_2 ts i) as [t1 H1]; [apply lookup_lt_Some in Hi; lia|].
  by rewrite (X2 _ _ _ H1 Hi), (P _ _ H1), of_thread_app.
Qed.

(** ** Arithmetic of doubles *)

Lemma sub_self x : finite x -> (x - x = 0)%D.
Proof. destruct x as [[]| | |s m e]; try done; intros _; unfold dsub; cbn; by rewrite Z.sub_diag. Qed.

Lemma zero_div x : (0 <? x)%D = true -> (0 / x = 0)%D.
Proof. double_cases. Qed.

Lemma sub_zero x : (x - 0 = x)%D.
Proof. by destruct x as [[]| | |]. Qed.

Lemma zero_mul x : finite x -> (0 <? x)%D = true -> (0 * x = 0)%D.
Proof. double_cases. Qed.

Lemma min_zero x : (0 <? x)%D = true -> std_min 0%D x = 0%D.
Proof. unfold std_min; double_cases. Qed.

(** *** Rounding keeps the sign *)

Lemma iter_pos_ind {A} (P : A -> Prop) f n x :
  (forall y, P y -> P (f y)) -> P x -> P (SpecFloat.iter_pos f n x).
Proof. intros H; revert x; induction n as [n IH|n IH|]; cbn; auto. Qed.

Lemma shr_fexp_nonneg m e l : 0 <= m -> 0 <= shr_m (shr_fexp 53 1024 m e l).1.
Proof.
  intros H; unfold shr_fexp, shr.
  assert (H0 : 0 <= shr_m (shr_record_of_loc m l)) by (destruct l as [|[]]; exact H).
  case_match; cbn; [exact H0| |exact H0].
  apply (iter_pos_ind (fun r => 0 <= shr_m r)); [|exact H0].
  intros [[|[]|[]] r s] Hr; cbn in *; lia.
Qed.

Lemma binary_round_aux_signed s m e l : 0 <= m -> signed s (binary_round_aux 53 1024 s m e l).
Proof.
  intros Hm; unfold binary_round_aux.
  pose proof (shr_fexp_nonneg m e l Hm) as H1; destruct (shr_fexp 53 1024 m e l) as [r1 e1]; cbn in H1.
  assert (H2 : 0 <= round_nearest_even (shr_m r1) (loc_of_shr_record r1)).
  { unfold round_nearest_even; repeat case_match; lia. }
  pose proof (shr_fexp_nonneg _ e1 loc_Exact H2) as H3.
  destruct (shr_fexp 53 1024 _ e1 loc_Exact) as [r3 e3]; cbn in H3.
  case_match; [done|by case_match|lia].
Qed.

Lemma binary_round_signed s m e : signed s (binary_round 53 1024 s m e).
Proof. unfold binary_round; case_match; by apply binary_round_aux_signed. Qed.

Lemma mul_signed s x y :
  signed s x -> finite y -> (0 <? y)%D = true -> signed s (x * y)%D.
Proof.
  destruct x as [t| | |t m e], y as [[]| | |[] n f]; try done; intros <- _ _; unfold dmul; cbn;
    rewrite ?xorb_false_r; try done; apply binary_round_aux_signed; lia.
Qed.

Lemma sub_signed x y : finite x -> finite y -> exists s, signed s (x - y)%D.
Proof.
  destruct x as [t| | |t m e], y as [u| | |u n f]; try done; intros _ _; unfold dsub; cbn.
  - destruct t, u; by eexists.
  - by eexists.
  - by eexists.
  - unfold binary_normalize; case_match; eexists; try apply binary_round_signed; done.
Qed.

Lemma min_signed s x b : signed s x -> (0 <? b)%D = true -> exists t, signed t (std_min x b).
Proof. unfold std_min; intros; case_match; [|by exists s]; exists false; double_cases. Qed.

(** the tokens in a bucket are a number *)
Lemma tokens_signed rate burstSize now z :
  finite rate -> (0 <? rate)%D = true -> (0 <? burstSize)%D = true -> finite now -> finite z ->
  exists s, signed s (tokens_of rate burstSize now z).
Proof.
  intros Fr Hr Hb Fn Fz; destruct (sub_signed now z Fn Fz) as [s Hs].
  eapply min_signed; [by apply mul_signed|done].
Qed.

(** ** Borrowing *)

Section Borrow.
Context (rate burstSize now : double).
Context (Fr : finite rate) (Hr : (0 <? rate)%D = true) (Hb : (0 <? burstSize)%D = true) (Fn : finite now).

(** [n] tokens are owed: the time to wait, and [zeroTime_] *)
Definition borrow_rest (n z : double) : double * double :=
  let z' := (z - (- n) / rate)%D in (std_max 0%D (z' + 0 / rate - now)%D, z').

(** what [consumeWithBorrowNonBlocking] does with at most [burstSize] tokens:
    it takes the tokens that are there and owes the others *)
Definition borrow_result (n z : double) : double * double :=
  let a := tokens_of rate burstSize now z in
  if negb (0 <? n)%D then (0%D, z)
  else if (a <=? 0)%D then borrow_rest n z
  else if (n <? a)%D then (0%D, zero_after rate burstSize now z n)
  else if (0 <? n - a)%D then borrow_rest (n - a)%D now
  else (0%D, now).

(** the bucket is empty after it has been drained *)
Lemma drained_zero z :
  finite (tokens_of rate burstSize now z) -> (tokens_of rate burstSize now z =? 0)%D = false ->
  zero_after rate burstSize now z (tokens_of rate burstSize now z) = now.
Proof. intros Fa E; unfold zero_after; rewrite E, sub_self, zero_div, sub_zero; done. Qed.

Lemma tokens_drained : tokens_of rate burstSize now now = 0%D.
Proof. unfold tokens_of; by rewrite sub_self, zero_mul, min_zero. Qed.

Lemma alone_rest tries n s :
  (length (al_weak s) < tries)%nat ->
  exists weak, (length weak <= length (al_weak s))%nat /\
  alone (_ ← storage_returnTokens tries (- n)%D rate;
         debtPaid ← timeWhenBucket rate 0%D;
         mret (Some (std_max 0%D (debtPaid - now)%D))) s =
  Finished (Some (borrow_rest n (al_zero s)).1)
    (MkAlone (borrow_rest n (al_zero s)).2 weak (al_naps s)).
Proof.
  intros Hw; exists (exchanges_left (al_weak s)); split; [apply exchanges_left_length|].
  by rewrite alone_bind, alone_returnTokens.
Qed.

(** a round that finds the bucket empty *)
Lemma alone_borrow_empty rounds tries n s :
  (length (al_weak s) < tries)%nat -> (0 <? n)%D = true ->
  (tokens_of rate burstSize now (al_zero s) <=? 0)%D = true ->
  exists weak, (length weak <= length (al_weak s))%nat /\
  alone (borrow_loop (S rounds) tries n rate burstSize now) s =
  Finished (Some (borrow_rest n (al_zero s)).1)
    (MkAlone (borrow_rest n (al_zero s)).2 weak (al_naps s)).
Proof.
  intros Hw Hn He; destruct (alone_rest tries n s Hw) as (weak & Hl & E).
  exists weak; split; [done|]; cbn [borrow_loop]; rewrite Hn, alone_bind, alone_drain by done.
  cbn beta zeta; by rewrite He.
Qed.

Lemma alone_borrow_none rounds tries n s :
  (0 <? n)%D = false ->
  alone (borrow_loop (S rounds) tries n rate burstSize now) s = Finished (Some 0%D) s.
Proof. intros Hn; cbn [borrow_loop]; by rewrite Hn. Qed.

(** a round that takes [c] tokens *)
Lemma alone_borrow_some rounds tries n c s :
  (length (al_weak s) < tries)%nat -> (0 <? n)%D = true ->
  (tokens_of rate burstSize now (al_zero s) <=? 0)%D = false ->
  constexpr_min_double (tokens_of rate burstSize now (al_zero s)) n = c -> (0 <? c)%D = true ->
  alone (borrow_loop (S rounds) tries n rate burstSize now) s =
  alone (borrow_loop rounds tries (n - c)%D rate burstSize now) (consumer_leaves rate burstSize now c s).
Proof.
  intros Hw Hn He Hm Hc; cbn [borrow_loop]; rewrite Hn, alone_bind, alone_drain by done.
  cbn beta zeta; by rewrite He, Hm, Hc.
Qed.

(** the last round, in a bucket that has been drained *)
Lemma alone_borrow_drained rounds tries n weak naps :
  (length weak < tries)%nat ->
  exists weak',
    alone (borrow_loop (S rounds) tries n rate burstSize now) (MkAlone now weak naps) =
    let '(nap, z) := if (0 <? n)%D then borrow_rest n now else (0%D, now) in
    Finished (Some nap) (MkAlone z weak' naps).
Proof.
  intros Hw; destruct (0 <? n)%D eqn:Hn.
  - destruct (alone_borrow_empty rounds tries n (MkAlone now weak naps)) as (w & _ & E);
      [done|done|cbn [al_zero]; by rewrite tokens_drained|].
    exists w; by rewrite E.
  - exists weak; by rewrite alone_borrow_none.
Qed.

End Borrow.

Lemma not_le_0_pos a : (exists s, signed s a) -> (a <=? 0)%D = false -> (0 <? a)%D = true.
Proof. intros [s Hs]; double_cases. Qed.

Lemma below_finite a n : finite n -> (0 <? a)%D = true -> (n <? a)%D = false -> finite a.
Proof. double_cases. Qed.

(** C36: [consumeWithBorrowNonBlocking], run by one thread, returns: its loop needs
    two rounds at most, whatever the tokens round to, and each exchange as many
    attempts as fail without reason, and one more.  More than [burstSize] is refused
    and nothing changes; otherwise it takes the tokens that the bucket has, owes the
    rest, and returns the time until the debt is paid. *)
Theorem borrow_returns rounds tries n rate burstSize now s :
  finite rate -> (0 <? rate)%D = true -> (0 <? burstSize)%D = true ->
  finite now -> finite n -> finite (al_zero s) ->
  (2 <= rounds)%nat -> (length (al_weak s) < tries)%nat ->
  exists weak,
    alone (consumeWithBorrowNonBlocking rounds tries n rate burstSize now) s =
    if (burstSize <? n)%D then Finished None s
    else let '(nap, z) := borrow_result rate burstSize now n (al_zero s) in
         Finished (Some nap) (MkAlone z weak (al_naps s)).
Proof.
  intros Fr Hr Hb Fn Fc Fz Hro Hw; unfold consumeWithBorrowNonBlocking, Assert; rewrite Hr, Hb.
  cbn [mbind atomic_bind]; destruct (burstSize <? n)%D; [by exists []|].
  destruct rounds as [|[|rounds]]; [lia|lia|]; unfold borrow_result.
  set (a := tokens_of rate burstSize now (al_zero s)).
  destruct (0 <? n)%D eqn:Hn; cbn [negb].
  2:{ exists (al_weak s); rewrite alone_borrow_none by done; by destruct s. }
  destruct (a <=? 0)%D eqn:Ha.
  { destruct (alone_borrow_empty rate burstSize now Hr Hb (S rounds) tries n s) as (w & _ & E);
      [done..|]; exists w; by rewrite E. }
  assert (Pa : (0 <? a)%D = true) by (apply not_le_0_pos; [by apply tokens_signed|done]).
  assert (W : forall c, (length (al_weak (consumer_leaves rate burstSize now c s)) < tries)%nat).
  { intros c; cbn; pose proof (exchanges_left_length (al_weak s)); destruct (c =? 0)%D; lia. }
  destruct (n <? a)%D eqn:Hna.
  - rewrite (alone_borrow_some _ _ _ Hr Hb _ _ n n) by
      (done || (unfold constexpr_min_double; fold a; by rewrite Hna)).
    eexists; rewrite sub_self by done; by rewrite alone_borrow_none.
  - assert (Fa : finite a) by (by apply (below_finite a n)).
    rewrite (alone_borrow_some _ _ _ Hr Hb _ _ n a) by
      (done || (unfold constexpr_min_double; fold a; by rewrite Hna)).
    specialize (W a); unfold consumer_leaves in *; cbn [al_weak] in W.
    unfold a; rewrite drained_zero by (done || by apply pos_neq_0); fold a.
    destruct (alone_borrow_drained rate burstSize now Fr Hr Hb Fn rounds tries (n - a)%D _ (al_naps s) W)
      as [w E]; exists w; rewrite E; by destruct (0 <? n - a)%D.
Qed.

(** ** Before [zeroTime_] *)

Lemma nonpos_signed x : signed true x -> (x <=? 0)%D = true.
Proof. double_cases. Qed.

Lemma binary_normalize_nonpos m e : m <= 0 -> (binary_normalize 53 1024 m e false <=? 0)%D = true.
Proof.
  intros H; destruct m as [|m|m]; cbn; [done|lia|]; apply nonpos_signed, binary_round_signed.
Qed.

(** the mantissa that [dsub] subtracts, in units of the least number *)
Lemma aligned_scaled s m e ez :
  ez <= e -> emin 53 1024 <= ez ->
  cond_Zopp s (Zpos (shl_align m e ez).1) * 2 ^ (ez - emin 53 1024) = scaled 53 1024 (S754_finite s m e).
Proof.
  intros H1 H2; rewrite shl_align_value by lia; cbn [scaled].
  replace (e - emin 53 1024) with ((e - ez) + (ez - emin 53 1024)) by lia.
  rewrite Z.pow_add_r by lia; destruct s; cbn [cond_Zopp]; ring.
Qed.

(** a time that is not after [z] is no positive time after it *)
Lemma sub_nonpos t z : valid 53 1024 t -> valid 53 1024 z -> (t <=? z)%D = true -> (t - z <=? 0)%D = true.
Proof.
  intros Vt Vz H.
  assert (L : scaled 53 1024 t <= scaled 53 1024 z).
  { unfold SFleb in H; rewrite (SFcompare_scaled 53 1024) in H by (done || lia).
    destruct (Z.compare_spec (scaled 53 1024 t) (scaled 53 1024 z)); [lia|lia|done]. }
  destruct Vt as [Ft Bt], Vz as [Fz Bz], t as [a| | |a m e], z as [b| | |b n f]; try done.
  - by destruct a, b.
  - destruct b; cbn in H; done.
  - cbn in Bt, Bz; apply bounded_mantissa in Bt as [Le _], Bz as [Lf _]; [|lia..].
    apply binary_normalize_nonpos; rewrite <- (aligned_scaled a m e (Z.min e f)) in L by lia.
    rewrite <- (aligned_scaled b n f (Z.min e f)) in L by lia.
    pose proof (Z.pow_pos_nonneg 2 (Z.min e f - emin 53 1024) ltac:(lia) ltac:(lia)); nia.
Qed.

Lemma mul_nonpos x y : (x <=? 0)%D = true -> finite y -> (0 <? y)%D = true -> (x * y <=? 0)%D = true.
Proof.
  intros Hx Fy Hy; destruct x as [a|[]| |[] m e]; try done; [by destruct a, y as [| | |[]]|..];
    apply nonpos_signed, mul_signed; done.
Qed.

Lemma min_nonpos x b : (x <=? 0)%D = true -> (0 <? b)%D = true -> (std_min x b <=? 0)%D = true.
Proof. unfold std_min; intros; case_match; double_cases. Qed.

Lemma nonpos_lt x n : (x <=? 0)%D = true -> (0 <? n)%D = true -> (x <? n)%D = true.
Proof. double_cases. Qed.

Lemma nonpos_max x : (x <=? 0)%D = true -> std_max 0%D x = 0%D.
Proof. unfold std_max; double_cases. Qed.

(** C37: until [zeroTime_], which borrowing moves into the future and reports as the
    time when the debt is paid, a thread gets nothing from the bucket: [consume]
    fails, [consumeOrDrain] gives no tokens, [available] is 0, and none of them
    changes the bucket.  Rounding and overflow do not matter. *)
Theorem no_tokens_before_zero_time tries n rate burstSize now s :
  finite rate -> (0 <? rate)%D = true -> (0 <? burstSize)%D = true -> (0 <? n)%D = true ->
  valid 53 1024 now -> valid 53 1024 (al_zero s) -> (now <=? al_zero s)%D = true ->
  (length (al_weak s) < tries)%nat ->
  alone (dynamic_consume tries n rate burstSize now) s = Finished false s /\
  alone (dynamic_consumeOrDrain tries n rate burstSize now) s = Finished 0%D s /\
  alone (dynamic_available rate burstSize now) s = Finished 0%D s.
Proof.
  intros Fr Hr Hb Hn Vt Vz Hle Hw.
  assert (T : (tokens_of rate burstSize now (al_zero s) <=? 0)%D = true)
    by (apply min_nonpos, Hb; apply mul_nonpos; [by apply sub_nonpos|done|done]).
  rewrite alone_consume, alone_drain by done; cbn zeta.
  rewrite T, (nonpos_lt _ n) by done; split; [done|split; [done|]].
  unfold dynamic_available, Assert; rewrite Hr, Hb; cbn [mbind atomic_bind].
  by rewrite alone_bind, alone_available, nonpos_max.
Qed.

(** a bucket with the default [zeroTime_] is not empty but full, once the clock has
    counted long enough to fill it *)
Lemma default_bucket_full rate burstSize now :
  (0 <? rate)%D = true -> (0 <? burstSize)%D = true -> (burstSize <? now * rate)%D = true ->
  alone (dynamic_available rate burstSize now) (MkAlone 0%D [] []) = Finished burstSize (MkAlone 0%D [] []).
Proof.
  intros Hr Hb Hf; unfold dynamic_available, Assert; rewrite Hr, Hb; cbn [mbind atomic_bind].
  rewrite alone_bind, alone_available by done; cbn [al_zero]; unfold tokens_of, std_min, std_max.
  by rewrite sub_zero, Hf, Hb.
Qed.

(** ** Runs of threads that can be computed *)

Section Schedule.
Context {C R : Type} (code : C -> atomic_prog R).

(** the next step of a thread; an exchange that could work fails if [weak] *)
Definition thread_move (weak : bool) (t : thread (C := C) (R := R)) (z : double)
    : option (thread (C := C) (R := R) * double) :=
  let '(MkThread d running calls) := t in
  let on c p z := Some (MkThread d (Some (c, p)) calls, z) in
  match running with
  | None => match calls with c :: calls => Some (MkThread d (Some (c, code c)) calls, z) | [] => None end
  | Some (c, Return r) => Some (MkThread (d ++ [(c, r)]) None calls, z)
  | Some (c, Read k) => on c (k z) z
  | Some (c, Cas e n k) =>
    if negb weak && bool_decide (z = e) then on c (k (true, e)) n else on c (k (false, z)) z
  | Some (c, Write n k) => on c k n
  | Some (c, Sleep _ k) => on c k z
  | Some (_, Fault) | Some (_, Spin) => None
  end.

Lemma thread_move_step weak t z t' z' :
  thread_move weak t z = Some (t', z') -> thread_step code t z z' t'.
Proof.
  destruct t as [d [[c p]|] calls]; cbn.
  - destruct p; intros E; simplify_eq; try (econstructor; econstructor).
    destruct (negb weak && bool_decide (z = expected)) eqn:D; simplify_eq.
    + apply andb_true_iff in D as [_ D]; apply bool_decide_eq_true in D; subst; econstructor; econstructor.
    + econstructor; econstructor.
  - destruct calls; intros E; simplify_eq; constructor.
Qed.

(** each move names a thread *)
Fixpoint schedule (moves : list (nat * bool)) (s : list (thread (C := C) (R := R)) * double)
    : option (list (thread (C := C) (R := R)) * double) :=
  match moves with
  | [] => Some s
  | (i, weak) :: moves =>
    t ← s.1 !! i; '(t', z') ← thread_move weak t s.2; schedule moves (<[i := t']> s.1, z')
  end.

Lemma schedule_steps moves s s' : schedule moves s = Some s' -> rtc (pool_step code) s s'.
Proof.
  revert s; induction moves as [|[i weak] moves IH]; intros [ts z] E; cbn in E; [by simplify_eq|].
  destruct (ts !! i) as [t|] eqn:Hi; cbn in E; [|done].
  destruct (thread_move weak t z) as [[t' z1]|] eqn:M; cbn in E; [|done].
  eapply rtc_l; [|by apply IH]; econstructor; [done|by eapply thread_move_step].
Qed.

End Schedule.

(** *** [consumeOrDrain] against borrowing *)

(** one thread drains while another one borrows; a bucket of one token at the time
    10, one more each second *)
Definition race_drain : bucket_call := CConsumeOrDrain (of_Z 1) (of_Z 1) (of_Z 2) (of_Z 10).
Definition race_borrow : bucket_call := CBorrow (of_Z 2) (of_Z 1) (of_Z 2) (of_Z 10).

(** C35: [consumeOrDrain] is not atomic, and a race takes back what was borrowed.
    [consumeOrDrain] finds one token; before it takes it, another thread borrows: it
    takes that token, owes one more and is told to wait for a second, until 11.  Then
    [consumeOrDrain] sees minus one token, consumes minus one token, returns -1, and
    sets [zeroTime_] back to 10: the debt is gone, and a third call gets half a token
    at 10.5.  No order of the two calls explains it. *)
Theorem drain_race_erases_debt :
  let history := [(0%nat, (race_drain, ADouble (- of_Z 1)%D));
                  (1%nat, (race_borrow, AOption (Some (of_Z 1))))] in
  rtc (pool_step (call_code 2)) (pool_init [[race_drain]; [race_borrow]], of_Z 9)
    ([MkThread [(race_drain, ADouble (- of_Z 1)%D)] None [];
      MkThread [(race_borrow, AOption (Some (of_Z 1)))] None []], of_Z 10) /\
  (forall order z, order ≡ₚ history -> ~ explains (call_code 2) (of_Z 9) order z) /\
  alone (dynamic_consume 2 (of_Z 1 / of_Z 2)%D (of_Z 1) (of_Z 2) (of_Z 21 / of_Z 2)%D) (MkAlone (of_Z 10) [] [])
    = Finished true (MkAlone (of_Z 10 + of_Z 1 / of_Z 2)%D [] []).
Proof.
  split; [|split].
  - eapply (schedule_steps _ [(0, false); (0, false);
      (1, false); (1, false); (1, false); (1, false); (1, false); (1, false); (1, false); (1, false); (1, false);
      (0, false); (0, false); (0, false)]%nat).
    by vm_compute.
  - intros order z P; apply Permutation_sym, Permutation_length_2_inv in P as [->| ->];
      intros (z1 & [n1 E1] & z2 & [n2 E2] & _); vm_compute in E1; simplify_eq.
  - by vm_compute.
Qed.

(** *** Witnesses *)

(** one thread consumes while another one returns a token, which makes the first
    exchange of [consume] fail; the second fails without reason *)
Definition race_calls : list (list bucket_call) :=
  [[CConsume (of_Z 1) (of_Z 1) (of_Z 2) (of_Z 10); CAvailable (of_Z 1) (of_Z 2) (of_Z 10)];
   [CReturnTokens (of_Z 1) (of_Z 1)]].

Definition race_middle : list (thread (C := bucket_call) (R := bucket_answer)) :=
  [MkThread [(CConsume (of_Z 1) (of_Z 1) (of_Z 2) (of_Z 10), ABool true)] None
     [CAvailable (of_Z 1) (of_Z 2) (of_Z 10)];
   MkThread [(CReturnTokens (of_Z 1) (of_Z 1), AUnit)] None []].

Definition race_end : list (thread (C := bucket_call) (R := bucket_answer)) :=
  [MkThread [(CConsume (of_Z 1) (of_Z 1) (of_Z 2) (of_Z 10), ABool true);
             (CAvailable (of_Z 1) (of_Z 2) (of_Z 10), ADouble (of_Z 1))] None [];
   MkThread [(CReturnTokens (of_Z 1) (of_Z 1), AUnit)] None []].

Lemma race_runs :
  rtc (pool_step (call_code 3)) (pool_init race_calls, of_Z 9) (race_middle, of_Z 9) /\
  rtc (pool_step (call_code 3)) (race_middle, of_Z 9) (race_end, of_Z 9).
Proof.
  split.
  - eapply (schedule_steps _ [(0, false); (0, false); (0, false); (1, false); (1, false); (1, false); (1, false);
      (0, false); (0, false); (0, true); (0, false); (0, false); (0, false)]%nat); by vm_compute.
  - eapply (schedule_steps _ [(0, false); (0, false); (0, false)]%nat); by vm_compute.
Qed.

Lemma bucket_linearizable_witness :
  exists past order,
    explains (call_code 3) (of_Z 9) past (of_Z 9) /\
    explains (call_code 3) (of_Z 9) order (of_Z 9) /\
    of_thread 0 (past ++ order) =
      [(CConsume (of_Z 1) (of_Z 1) (of_Z 2) (of_Z 10), ABool true);
       (CAvailable (of_Z 1) (of_Z 2) (of_Z 10), ADouble (of_Z 1))].
Proof.
  destruct (bucket_linearizable 3 race_calls (of_Z 9) race_middle (of_Z 9) race_end (of_Z 9))
    as (past & order & E1 & E2 & _ & _ & _ & P).
  - lia.
  - intros cs c Hcs Hc; unfold race_calls in Hcs; set_unfold; destruct_or!; subst; set_unfold; destruct_or!; subst; done.
  - apply race_runs.
  - apply race_runs.
  - exists past, order; split; [exact E1|split; [exact E2|symmetry; exact (P 0%nat _ eq_refl)]].
Defined.

Lemma borrow_returns_witness :
  (exists weak,
    alone (consumeWithBorrowNonBlocking 2 3 (of_Z 2) (of_Z 1) (of_Z 2) (of_Z 10))
      (MkAlone (of_Z 9) [true; true] []) = Finished (Some (of_Z 1)) (MkAlone (of_Z 11) weak [])) /\
  (exists weak,
    alone (consumeWithBorrowNonBlocking 2 1 (of_Z 3) (of_Z 1) (of_Z 2) (of_Z 10))
      (MkAlone (of_Z 9) [] []) = Finished None (MkAlone (of_Z 9) weak [])).
Proof.
  split.
  - destruct (borrow_returns 2 3 (of_Z 2) (of_Z 1) (of_Z 2) (of_Z 10) (MkAlone (of_Z 9) [true; true] []))
      as [weak E]; [done|done|done|done|done|done|lia|cbn; lia|exists weak; exact E].
  - destruct (borrow_returns 2 1 (of_Z 3) (of_Z 1) (of_Z 2) (of_Z 10) (MkAlone (of_Z 9) [] []))
      as [weak E]; [done|done|done|done|done|done|lia|cbn; lia|exists []; exact E].
Defined.

Lemma no_tokens_before_zero_time_witness :
  alone (dynamic_consumeOrDrain 1 (of_Z 1) (of_Z 1) (of_Z 2) (of_Z 21 / of_Z 2)%D) (MkAlone (of_Z 11) [] []) =
    Finished 0%D (MkAlone (of_Z 11) [] []).
Proof.
  apply (no_tokens_before_zero_time 1 (of_Z 1) (of_Z 1) (of_Z 2) (of_Z 21 / of_Z 2)%D (MkAlone (of_Z 11) [] []));
    [done|done|done|done|split; [done|by vm_compute]|split; [done|by vm_compute]|by vm_compute|cbn; lia].
Defined.
